(* ===== verification/_CoqProject ===== *)
-Q . S2P
Prelude.v
Text.v
Store.v
Redis.v
Yaml.v
Config.v
ConfigDocument.v
ModbusApi.v
ModbusPoll.v
AppModbus.v
IedModel.v
ModelFacts.v
StaticModelData.v
StaticModelNames.v
StaticModel.v
SampleModelData.v
SampleModelNames.v
SampleModel.v
Iec104Server.v
Iec104Station.v
Iec104Client.v
IcdParser.v
IcdDocument.v
Iec61850Client.v
Iec61850Document.v
Iec61850Manager.v
Iec61850Service.v
LogSink.v
LogHistory.v
Logger.v
LoggerConfig.v
ConfigPrint.v
Gateway.v
SimpleServer104.v
GooseSamples.v
DemoModelData.v
DemoModelNames.v
BeagleServer.v
BeagleControl.v
DemoModel.v
BeagleClient.v
