(* ===== verification/Prelude.v ===== *)
(** * IEC 61850 data gateway: a verification library

    The gateway polls Modbus devices and IEC 61850 servers, writes what it
    reads to Redis, serves an IEC 61850 data model, and speaks IEC
    60870-5-104 as a client and as a server.  This library models the C++
    code under [core/] and [common/], and the demonstration programs under
    [sample/], and proves what they do.  Definitions
    keep the names of the source; what the code does not define (hiredis,
    libmodbus, lib60870, libiec61850, yaml-cpp, tinyxml2, spdlog, the clock,
    the network) is a class of operations or an argument, and what is relied
    on of it a class of laws ([...Ok]) with a concrete instance.

    ** Conventions

    A call is a [prog S A]: it takes the state of the component and gives an
    [outcome] and the state it leaves, also when it raises.  [Threw] is a C++
    exception; [Undef] is undefined behaviour or the end of the program
    ([std::terminate]), with a word on where.  Machine integers are [Z] with
    their wrap-around written out ([wrap_u], [wrap_s], [in_u], [in_s]); a
    [std::map] is a [gmap] visited in key order ([std_map_items]), an
    unordered one is visited in an arbitrary order given as a parameter; a
    pointer is an [option] or an index into a store of live objects.
    Concurrency is a sequence of steps: the calls of the owner, the callbacks
    of a library, the iterations of a thread.  Where threads share something
    without a lock and the order of their accesses matters, a step is a single
    access: [set_debug] in [ModbusApi], the accesses of an asynchronous logger's
    pool to the sinks in [Logger], the end of a periodic thread in the middle
    of [stop] in [Iec104Server], the main thread and the handlers of
    [BeagleServer].  One access to a shared variable is taken to be atomic, also
    where the source does not declare it so.  The log messages of the
    components are left out; those of [main] are there.

    ** Files

    - [Prelude]: this file; results, programs, loops, integers, tactics.
    - [Text]: decimal numbers as text, as [printf] writes them and [std::stol]
      reads them back.
    - [Store]: the interface [KvStore] (open, set, close) with its laws
      [KvStoreOk], and the typed writes [storeInt] ... [storeLWord] on top.
    - [Redis]: [DRDSDataRedis] of [core/redis-api/app_redis.cc] with the heap
      of its contexts; it is an instance of [KvStore] when the server works.
      Round trips of every typed write; memory safety of a scope that owns a
      client; what a lost reply and a failed reconnection do.
    - [Yaml], [Config]: the nodes of yaml-cpp, and [common/config/config.cc].
      Whatever the file, only well-formed devices are kept, each under its id;
      what a rejected section leaves.
    - [ConfigDocument]: what a document must say to describe a device, without
      the order of the parsers' tests; the parsers accept these documents and
      no others; a writer of configurations, and the round trip.
    - [ModbusApi]: [core/modbus/modbus_api.cc], the connection to a device and
      its reconnection thread; it is an instance of [RegisterReader].  What
      holds while no register call runs beside [set_debug], and what happens
      when one does.
    - [ModbusPoll]: the poll of [core/modbus/app_modbus_client.cc] over any
      [RegisterReader] and any [KvStore]: points grouped into maximal runs of
      registers, each register stored under the key of its point.
    - [AppModbus]: the table of devices, the polling tasks, the stop; and the
      end-to-end theorem from a register to a reader of Redis.
    - [IedModel], [ModelFacts]: the heap of linked nodes that a generated
      data model is, its references, macros and checks, for any model.
    - [StaticModelData], [StaticModel]: the data model of
      [core/iec61850/model/static_model.c], one
      definition per logical node of the source; it is a tree without
      ambiguous references, its data set resolves, its initial values fit.
    - [StaticModelNames]: its header [static_model.h]: the declarations, which
      have the types of the nodes, and the macros, which name each node by its
      path and nothing else.
    - [Iec104Server]: [core/iec104/iec104Service.cc]: the point table, the
      handlers, the periodic task, the life of its thread (which may end, and
      with it its object, before [stop] destroys it), the test program.
    - [Iec104Station]: the controlled station as a master sees it, a relation
      on maps from addresses to values, which the server refines until it is
      stopped.
    - [Iec104Client]: [core/iec104/iec104Client.cc] and
      [iec104ClientManger.cc]: the client with its worker and its semaphore,
      the callbacks, the manager; and what the client makes of the server's
      messages.
    - [IcdParser]: [core/iec61850/icd_parse.h] over an abstract document.
    - [IcdDocument]: what a document says (logical nodes, references of types
      and data sets), without loops; the parser finds exactly this.
    - [Iec61850Client]: [core/iec61850/lec61850Client.cc]: the reading passes
      down to Redis, the walk over structures, the control commands; the
      end-to-end theorem from an attribute to a reader of Redis.
    - [Iec61850Document]: the parser and the client together, from the document
      to a reader of Redis.
    - [Iec61850Manager]: who owns the clients, their connections and their
      reading threads ([lec61850Client.cc], [iec61850ClientManger.cc]).
    - [Iec61850Service]: [core/iec61850/ice61850Service.cc], the server on the
      static model, with its two threads, which may fail to be created.
    - [LogSink], [LogHistory], [Logger]: [common/log]: the rotating file and its
      backups; their names, and the log that they hold together; the sinks,
      the levels, the flushes, the thread pool of an asynchronous logger and
      the rate limiter; the logger as its callers see it ([LogSpec]), which
      the implementation refines.
    - [LoggerConfig]: the record of [logger_impl.h] that is read from JSON.
    - [ConfigPrint]: the messages that [to_string] prints of a device, which
      determine it.
    - [Gateway]: [core/main.cc], the process with its server thread, the event
      queue of its slave and its test client; and, end to end, from the text of the configuration file to
      a reader of Redis, for the Modbus application that [main] leaves out.
    - [SampleModelData], [SampleModelNames], [SampleModel]:
      [sample/server_example_simple], the second generated model, with arrays
      and a report, its header, and its server.
    - [SimpleServer104]: [sample/cs104_server]: what its station answers, what
      it leaks, and what the gateway's client makes of its answers.
    - [GooseSamples]: [sample/goose_subpub], the publisher and the subscriber.
    - [BeagleServer], [BeagleControl]: [sample/61850_demo/beagle_demo.c], the
      server with the lights: its handlers and its loop, and what holds of all
      their interleavings.
    - [DemoModelData], [DemoModelNames], [DemoModel]: the copy of the generated
      model that it serves: its references and macros; the handlers fit it, and
      the values given to its attributes are of their types.
    - [BeagleClient]: its client and its [main]; and the gateway's
      [controlObjects] on that server, down to the lights.

    How they meet: [Config] gives the devices that [AppModbus],
    [Iec104Client] and [Iec61850Manager] start; [ModbusPoll] and
    [Iec61850Client] write through [Store], which [Redis] implements;
    [IcdParser] gives [Iec61850Client] its references; [StaticModelData] is
    what [Iec61850Service] and [BeagleServer] serve.  [Gateway] puts
    the logger, the configuration and the two ends of the 104 connection into one process.

    ** What the theorems show

    Functional behaviour first: values read from a device reach a reader of
    Redis unchanged, from the configuration file or the ICD document on; the
    configuration parsers and the ICD parser are equivalent to descriptions of
    their documents, the former inverse to a writer; the poll reads each
    maximal run once; the 104 server refines an abstract station and the
    logger an abstract logger; a device that comes back is reconnected and
    read again; [main] runs to its end, or to the point where it cannot; the
    life cycle of the IEC 61850 server releases what it creates; the log is
    bounded, loses no message while its backups last, and keeps the newest of
    them.  A control request of the gateway switches the lights of the demo
    server, whose status attributes show them as long as its two threads do not
    update one of them at the same time, and which one client at a time
    controls, when the handlers are called with its connection.  Then safety over all sequences of steps: no context, connection or
    server is used after it is released, no joinable thread is destroyed,
    under the conditions that the code needs.  Then the places where those
    conditions fail, stated as what the code does: reconnections, registers
    with gaps, 32-bit points, mixed types in one 104 message, a client that
    never interrogates, IEC 61850 clients destroyed under their threads.

    ** Fuel and bounds

    [main] takes the schedule of the threads while it sleeps.
    [poll_loop], [read_loop] and [test_loop] take the number of iterations to
    look at, since the loops of the source have no end; the theorems hold for
    every number.  [reconnectLoop] and [parseStructure] end by themselves:
    the first at its retry limit (without one its int counter overflows after
    2147483647 attempts), the second eleven levels down, and twelve calls are
    shown to be enough.  The loops of the samples take the number of
    iterations, or the events of each second, to look at; the one of the
    publisher has its ten thousand.  [walk] on the static model is given one
    more than the number of nodes.  Sizes in memory ([size_t] of a log file)
    are natural numbers.

    ** Not modelled

    [printParseResult] and the event handlers that only print,
    [subscribeToReports] (its body is commented out), the text that
    spdlog makes of a message and its pattern, the thread pool of the Modbus
    application, and the third-party code.

    ** Plan

    Next: the rate limiter over the lines of a program; reports and GOOSE
    messages as a subscriber of the served model sees them. *)

From Stdlib Require Import ZArith Lia String.
From stdpp Require Import base tactics option list numbers strings gmap sorting.

(** Shared vocabulary of the development: results of C++ code, state-passing
    programs, machine integers, ordered iteration of maps. *)

Declare Scope gw_scope.
Delimit Scope gw_scope with gw.
Open Scope gw_scope.

(** ** Results of C++ code *)

(** The exceptions that the modelled code raises or lets through. *)
Inductive exn : Type :=
| InvalidNode (key : string)       (* YAML::InvalidNode *)
| BadConversion                    (* YAML::TypedBadConversion *)
| BadSubscript                     (* YAML::BadSubscript *)
| BadFile                          (* YAML::BadFile and parser errors *)
| InvalidArgument                  (* std::invalid_argument *)
| OutOfRange                       (* std::out_of_range *)
| RuntimeError (what : string)     (* std::runtime_error *)
| SpdlogEx (what : string)         (* spdlog::spdlog_ex *)
| JsonEx (id : Z).                 (* nlohmann::json::exception *)

(** [Done a]: the call returns [a]; [Threw e]: it raises [e]; [Undef w]: its
    behaviour is undefined in C++, or the run-time system ends the program
    ([w] says where). *)
Inductive outcome (A : Type) : Type :=
| Done (a : A)
| Threw (e : exn)
| Undef (where_ : string).
Arguments Done {A} a.
Arguments Threw {A} e.
Arguments Undef {A} where_.

#[export] Instance exn_eq_dec : EqDecision exn.
Proof. solve_decision. Defined.

#[export] Instance outcome_eq_dec {A} `{EqDecision A} : EqDecision (outcome A).
Proof. solve_decision. Defined.

#[export] Instance outcome_ret : MRet outcome := λ A a, Done a.

#[export] Instance outcome_bind : MBind outcome := λ A B f o,
  match o with
  | Done a => f a
  | Threw e => Threw e
  | Undef w => Undef w
  end.

(** [defined o]: the call has no undefined behaviour. *)
Definition defined {A} (o : outcome A) : Prop :=
  match o with Undef _ => False | _ => True end.

(** ** Stateful programs: the effects on the state survive an exception *)

Definition prog (S A : Type) : Type := S → outcome A * S.

#[export] Instance prog_ret {S} : MRet (prog S) := λ A a s, (Done a, s).

#[export] Instance prog_bind {S} : MBind (prog S) := λ A B f m s,
  match m s with
  | (Done a, s') => f a s'
  | (Threw e, s') => (Threw e, s')
  | (Undef w, s') => (Undef w, s')
  end.

Definition getS {S} : prog S S := λ s, (Done s, s).
Definition modifyS {S} (f : S → S) : prog S unit := λ s, (Done tt, f s).
Definition throwS {S A} (e : exn) : prog S A := λ s, (Threw e, s).
Definition undefS {S A} (w : string) : prog S A := λ s, (Undef w, s).
Definition liftO {S A} (o : outcome A) : prog S A := λ s, (o, s).

(** [try { m } catch (const std::exception &) { h }] *)
Definition catchS {S A} (m : prog S A) (h : exn → prog S A) : prog S A := λ s,
  match m s with
  | (Threw e, s') => h e s'
  | r => r
  end.

(** A [for] loop whose body may [return false]: the loop stops there. *)
Fixpoint forS {S X} (l : list X) (body : X → prog S bool) : prog S bool :=
  match l with
  | [] => mret true
  | x :: l' =>
      ok ← body x;
      if (ok : bool) then forS l' body else mret false
  end.

(** A [for] loop with no early exit. *)
Fixpoint iterS {S X} (l : list X) (body : X → prog S unit) : prog S unit :=
  match l with
  | [] => mret tt
  | x :: l' => body x;; iterS l' body
  end.

(** A loop over a list in a pure function that can fail. *)
Fixpoint mapO {X Y} (f : X → outcome Y) (l : list X) : outcome (list Y) :=
  match l with
  | [] => Done []
  | x :: l' => y ← f x; ys ← mapO f l'; Done (y :: ys)
  end.

(** [keeps I bad m]: from a state in [I], on every way out, [m] ends in [I]
    and its undefined behaviour, if any, is not one of [bad]. *)
Definition keeps {S A} (I : S → Prop) (bad : string → Prop) (m : prog S A) : Prop :=
  ∀ s, I s → I (m s).2 ∧ ∀ w, (m s).1 = Undef w → ¬ bad w.

(** [total_on I m]: from a state in [I], [m] returns, in a state of [I]. *)
Definition total_on {S A} (I : S → Prop) (m : prog S A) : Prop :=
  ∀ s, I s → ∃ x s', m s = (Done x, s') ∧ I s'.

(** ** Machine integers *)

(** Conversion to a [w]-bit unsigned (resp. two's-complement signed) integer. *)
Definition wrap_u (w : Z) (z : Z) : Z := (z mod 2 ^ w)%Z.
Definition wrap_s (w : Z) (z : Z) : Z :=
  ((z + 2 ^ (w - 1)) mod 2 ^ w - 2 ^ (w - 1))%Z.

Definition in_u (w : Z) (z : Z) : Prop := (0 ≤ z < 2 ^ w)%Z.
Definition in_s (w : Z) (z : Z) : Prop := (- 2 ^ (w - 1) ≤ z < 2 ^ (w - 1))%Z.


(** ** [std::map<int, V>]: a finite map iterated in ascending key order *)

Definition key_le {V} (p q : Z * V) : Prop := (p.1 ≤ q.1)%Z.

#[export] Instance key_le_dec {V} : RelDecision (@key_le V).
Proof. intros p q. unfold key_le. apply _. Defined.

Definition std_map_items {V} (m : gmap Z V) : list (Z * V) :=
  merge_sort key_le (map_to_list m).

(** ** Tactics *)

(** Case analysis on the scrutinee of the first [match] of the goal or of a
    hypothesis, keeping the equation. *)
Ltac gw_destruct_match :=
  match goal with
  | |- context [match ?x with _ => _ end] => destruct x eqn:?
  | H : context [match ?x with _ => _ end] |- _ => destruct x eqn:?
  end.

Ltac gw_cases := repeat (gw_destruct_match; simplify_eq/=).

(** Turn boolean tests into the propositions they decide. *)
Ltac gw_bool :=
  repeat match goal with
  | H : (_ =? _)%Z = true |- _ => apply Z.eqb_eq in H
  | H : (_ =? _)%Z = false |- _ => apply Z.eqb_neq in H
  | H : (_ <? _)%Z = true |- _ => apply Z.ltb_lt in H
  | H : (_ <? _)%Z = false |- _ => apply Z.ltb_ge in H
  | H : (_ <=? _)%Z = true |- _ => apply Z.leb_le in H
  | H : (_ <=? _)%Z = false |- _ => apply Z.leb_gt in H
  | H : _ && _ = true |- _ => apply andb_prop in H as [? ?]
  | H : _ || _ = false |- _ => apply orb_false_elim in H as [? ?]
  | H : negb _ = true |- _ => apply negb_true_iff in H
  | H : negb _ = false |- _ => apply negb_false_iff in H
  | H : bool_decide _ = true |- _ => apply bool_decide_eq_true in H
  | H : bool_decide _ = false |- _ => apply bool_decide_eq_false in H
  | H : String.eqb _ _ = true |- _ => apply String.eqb_eq in H
  | H : String.eqb _ _ = false |- _ => apply String.eqb_neq in H
  end.

(** ** Lemmas *)

Lemma outcome_bind_Done {A B} (o : outcome A) (f : A → outcome B) b :
  (o ≫= f) = Done b → ∃ a, o = Done a ∧ f a = Done b.
Proof. destruct o; simpl; intros H; [eauto|discriminate..]. Qed.

Lemma outcome_bind_ret {A B} (a : A) (f : A → outcome B) : (Done a ≫= f) = f a.
Proof. done. Qed.

Lemma prog_bind_Done {S A B} (m : prog S A) (f : A → prog S B) s b s' :
  (m ≫= f) s = (Done b, s') → ∃ a s1, m s = (Done a, s1) ∧ f a s1 = (Done b, s').
Proof.
  unfold mbind, prog_bind. destruct (m s) as [[a|e|w] s1]; intros H;
    [eauto | discriminate..].
Qed.

Lemma prog_bind_eq {S A B} (m : prog S A) (f : A → prog S B) s a s1 :
  m s = (Done a, s1) → (m ≫= f) s = f a s1.
Proof. unfold mbind, prog_bind. by intros ->. Qed.

(** Running a straight-line program: [gw_run leaf] steps through its binds and
    leaves each call to [leaf]. *)
Lemma prog_run {S A B} (m : prog S A) (f : A → prog S B) s a s1 r :
  m s = (Done a, s1) → f a s1 = r → (m ≫= f) s = r.
Proof. intros Hm <-. by apply prog_bind_eq. Qed.

Ltac gw_run leaf :=
  lazymatch goal with
  | |- (_ ≫= _) _ = _ => eapply prog_run; [gw_run leaf|cbv beta iota; gw_run leaf]
  | |- _ => leaf ()
  end.

(** What a program does from a state, another may do from another. *)
Lemma prog_bind_cong {S A B} (m m' : prog S A) (f : A → prog S B) s s' :
  m s = m' s' → (m ≫= f) s = (m' ≫= f) s'.
Proof. unfold mbind, prog_bind. by intros ->. Qed.

(** A failing call: [fail_as] is its failure at another type. *)
Definition fail_as {A B} (o : outcome A) : outcome B :=
  match o with
  | Done _ => Undef "no failure"
  | Threw e => Threw e
  | Undef w => Undef w
  end.

Lemma prog_bind_fail {S A B} (m : prog S A) (f : A → prog S B) s o s1 :
  m s = (o, s1) → (∀ a, o ≠ Done a) → (m ≫= f) s = (fail_as o, s1).
Proof. unfold mbind, prog_bind. intros -> Ho. destruct o; [by destruct (Ho a)|done..]. Qed.

(** What a loop body preserves, the loop preserves: on every way out. *)
Lemma forS_inv {S X} (I : S → Prop) (l : list X) (body : X → prog S bool) :
  (∀ x s, I s → I (body x s).2) → ∀ s, I s → I (forS l body s).2.
Proof.
  intros Hb. induction l as [|x l IH]; intros s Hs; [done|].
  simpl. unfold mbind, prog_bind. specialize (Hb x s Hs).
  destruct (body x s) as [[[]|e|w] s']; simpl in *; auto.
Qed.

Lemma iterS_inv {S X} (I : S → Prop) (l : list X) (body : X → prog S unit) :
  (∀ x s, x ∈ l → I s → I (body x s).2) → ∀ s, I s → I (iterS l body s).2.
Proof.
  induction l as [|x l IH]; intros Hb s Hs; [done|].
  simpl. unfold mbind, prog_bind.
  pose proof (Hb x s ltac:(set_solver) Hs) as Hx.
  destruct (body x s) as [[[]|e|w] s']; simpl in *; [|done..].
  apply IH; [|done]. intros y s'' Hy. apply Hb. set_solver.
Qed.

Lemma keeps_bind {S A B} I bad (m : prog S A) (f : A → prog S B) :
  keeps I bad m → (∀ a, keeps I bad (f a)) → keeps I bad (m ≫= f).
Proof.
  intros Hm Hf s Hs. destruct (Hm s Hs) as [HI Hb].
  unfold mbind, prog_bind. destruct (m s) as [[a|e|w] s']; simpl in *; [by apply Hf|..].
  - done.
  - split; [done|]. intros ? [= <-]. by apply Hb.
Qed.

(** Programs that do not touch the state. *)
Lemma keeps_pure {S A} (I : S → Prop) bad (m : prog S A) :
  (∀ s, (m s).2 = s ∧ ∀ w, (m s).1 = Undef w → ¬ bad w) → keeps I bad m.
Proof. intros H s Hs. destruct (H s) as [-> ?]. done. Qed.

Lemma keeps_ret {S A} (I : S → Prop) bad (a : A) : keeps I bad (mret a).
Proof. by apply keeps_pure. Qed.

Lemma keeps_liftO {S A} (I : S → Prop) bad (o : outcome A) :
  (∀ w, o = Undef w → ¬ bad w) → keeps I bad (liftO o).
Proof. intros. by apply keeps_pure. Qed.

Lemma keeps_catchS {S A} I bad (m : prog S A) h :
  keeps I bad m → (∀ e, keeps I bad (h e)) → keeps I bad (catchS m h).
Proof.
  intros Hm Hh s Hs. destruct (Hm s Hs) as [HI Hb]. unfold catchS.
  destruct (m s) as [[a|e|w] s']; simpl in *; [done|by apply Hh|].
  split; [done|]. intros ? [= <-]. by apply Hb.
Qed.

Lemma keeps_iterS {S X} I bad (l : list X) (body : X → prog S unit) :
  (∀ x, keeps I bad (body x)) → keeps I bad (iterS l body).
Proof.
  intros Hb. induction l as [|x l IH]; simpl; [apply keeps_ret|].
  by apply keeps_bind.
Qed.

Lemma total_bind {S A B} (I : S → Prop) (m : prog S A) (f : A → prog S B) :
  total_on I m → (∀ x, total_on I (f x)) → total_on I (m ≫= f).
Proof.
  intros Hm Hf s Hs. destruct (Hm s Hs) as (x & s1 & Hrun & Hs1).
  destruct (Hf x s1 Hs1) as (y & s2 & Hrun2 & Hs2). exists y, s2.
  by rewrite (prog_bind_eq _ _ _ _ _ Hrun).
Qed.

Lemma total_ret {S A} (I : S → Prop) (x : A) : total_on I (mret x).
Proof. intros s Hs. by exists x, s. Qed.

(** Read the state, then run a program on it. *)
Lemma total_getS {S A} (I : S → Prop) (f : S → prog S A) :
  (∀ s, I s → ∃ x s', f s s = (Done x, s') ∧ I s') → total_on I (getS ≫= f).
Proof. intros Hf s Hs. by apply Hf. Qed.

Lemma total_modifyS {S} (I : S → Prop) (f : S → S) :
  (∀ s, I s → I (f s)) → total_on I (modifyS f).
Proof. intros Hf s Hs. eexists _, _. split; [done|]. by apply Hf. Qed.

Lemma total_iterS {S X} (I : S → Prop) (l : list X) (body : X → prog S unit) :
  (∀ x, x ∈ l → total_on I (body x)) → total_on I (iterS l body).
Proof.
  induction l as [|x l IH]; intros Hb; simpl; [apply total_ret|].
  apply total_bind; [apply Hb; set_solver|]. intros _. apply IH. set_solver.
Qed.

Lemma iterS_cons {S X} (x : X) l (body : X → prog S unit) s s1 :
  body x s = (Done tt, s1) → iterS (x :: l) body s = iterS l body s1.
Proof. simpl. unfold mbind, prog_bind. by intros ->. Qed.

Lemma iterS_app {S X} (l1 l2 : list X) (body : X → prog S unit) s :
  iterS (l1 ++ l2) body s = (iterS l1 body;; iterS l2 body) s.
Proof.
  revert s. induction l1 as [|x l1 IH]; intros s; [done|].
  simpl. unfold mbind, prog_bind in *. destruct (body x s) as [[[]|e|w] s1]; [|done..].
  by rewrite IH.
Qed.

Lemma iterS_ext {S X} (l : list X) (f g : X → prog S unit) s :
  (∀ x s, f x s = g x s) → iterS l f s = iterS l g s.
Proof.
  intros Hfg. revert s. induction l as [|x l IH]; intros s; [done|].
  simpl. unfold mbind, prog_bind. rewrite Hfg. destruct (g x s) as [[[]|e|w] s1]; [apply IH|done..].
Qed.

Lemma mapO_length {X Y} (f : X → outcome Y) l ys :
  mapO f l = Done ys → length ys = length l.
Proof.
  revert ys. induction l as [|x l IH]; intros ys H; simpl in H; [by simplify_eq|].
  apply outcome_bind_Done in H as (y & _ & H).
  apply outcome_bind_Done in H as (ys' & H' & ?). simplify_eq/=.
  f_equal. by apply IH.
Qed.

Lemma wrap_u_range w z : (0 ≤ w)%Z → in_u w (wrap_u w z).
Proof. intros. unfold in_u, wrap_u. apply Z.mod_pos_bound. lia. Qed.

Lemma wrap_u_id w z : in_u w z → wrap_u w z = z.
Proof. unfold in_u, wrap_u. intros. by apply Z.mod_small. Qed.

Lemma pow2_half w : (0 < w)%Z → (2 ^ w = 2 * 2 ^ (w - 1))%Z.
Proof.
  intros. replace w with (Z.succ (w - 1)) at 1 by lia.
  rewrite Z.pow_succ_r; lia.
Qed.

Lemma wrap_s_range w z : (0 < w)%Z → in_s w (wrap_s w z).
Proof.
  intros Hw. unfold in_s, wrap_s. pose proof (pow2_half w Hw).
  pose proof (Z.mod_pos_bound (z + 2 ^ (w - 1)) (2 ^ w) ltac:(lia)). lia.
Qed.

Lemma wrap_s_id w z : (0 < w)%Z → in_s w z → wrap_s w z = z.
Proof.
  unfold in_s, wrap_s. intros Hw ?. pose proof (pow2_half w Hw).
  rewrite Z.mod_small; lia.
Qed.

Lemma wrap_s_wrap_u w z : (0 < w)%Z → wrap_s w (wrap_u w z) = wrap_s w z.
Proof.
  intros Hw. unfold wrap_s, wrap_u. f_equal.
  apply Zplus_mod_idemp_l.
Qed.

Lemma wrap_u_wrap_s w z : (0 < w)%Z → wrap_u w (wrap_s w z) = wrap_u w z.
Proof.
  intros Hw. unfold wrap_s, wrap_u.
  rewrite Zminus_mod_idemp_l. f_equal. lia.
Qed.

(** Wrapping twice: only the last one counts. *)
Lemma wrap_s_add_l w a b : (0 < w)%Z → wrap_s w (wrap_s w a + b) = wrap_s w (a + b).
Proof.
  intros Hw. unfold wrap_s. f_equal.
  replace ((a + 2 ^ (w - 1)) mod 2 ^ w - 2 ^ (w - 1) + b + 2 ^ (w - 1))%Z
    with ((a + 2 ^ (w - 1)) mod 2 ^ w + b)%Z by lia.
  rewrite Zplus_mod_idemp_l. f_equal. lia.
Qed.

(** An unsigned value read as signed: itself, or a turn less. *)
Lemma wrap_s_cases w z :
  (0 < w)%Z → in_u w z → (wrap_s w z = z ∨ wrap_s w z = z - 2 ^ w)%Z.
Proof.
  intros Hw Hz. unfold in_u, wrap_s in *. pose proof (pow2_half w Hw).
  destruct (decide (z < 2 ^ (w - 1))%Z).
  - left. rewrite Z.mod_small; lia.
  - right. replace (z + 2 ^ (w - 1))%Z with (z - 2 ^ (w - 1) + 1 * 2 ^ w)%Z by lia.
    rewrite Z_mod_plus_full, Z.mod_small; lia.
Qed.

Lemma in_s_mono w1 w2 z : (0 < w1 ≤ w2)%Z → in_s w1 z → in_s w2 z.
Proof. unfold in_s. intros ?. pose proof (Z.pow_le_mono_r 2 (w1 - 1) (w2 - 1)). lia. Qed.

Lemma in_u_mono w1 w2 z : (0 < w1 ≤ w2)%Z → in_u w1 z → in_u w2 z.
Proof. unfold in_u. intros ?. pose proof (Z.pow_le_mono_r 2 w1 w2). lia. Qed.

(** Ranges that follow from a hypothesis on a narrower type. *)
Ltac in_range :=
  first [assumption
        | eapply in_s_mono; [|eassumption]; lia
        | eapply in_u_mono; [|eassumption]; lia].

(** Iterating a [std::map] *)

#[export] Instance key_le_total {V} : Total (@key_le V).
Proof. intros p q. unfold key_le. lia. Qed.

#[export] Instance key_le_trans {V} : Transitive (@key_le V).
Proof. intros p q r. unfold key_le. lia. Qed.

Lemma std_map_items_Permutation {V} (m : gmap Z V) :
  std_map_items m ≡ₚ map_to_list m.
Proof. apply merge_sort_Permutation. Qed.

Lemma elem_of_std_map_items {V} (m : gmap Z V) k v :
  (k, v) ∈ std_map_items m ↔ m !! k = Some v.
Proof. by rewrite std_map_items_Permutation, elem_of_map_to_list. Qed.

Lemma std_map_items_sorted {V} (m : gmap Z V) :
  StronglySorted key_le (std_map_items m).
Proof. apply StronglySorted_merge_sort; apply _. Qed.

Lemma std_map_items_NoDup {V} (m : gmap Z V) : NoDup (std_map_items m).*1.
Proof. rewrite std_map_items_Permutation. apply NoDup_fst_map_to_list. Qed.

Lemma std_map_items_ascending {V} (m : gmap Z V) : StronglySorted Z.lt (std_map_items m).*1.
Proof.
  pose proof (std_map_items_NoDup m) as Hnd. pose proof (std_map_items_sorted m) as Hs.
  induction Hs as [|[k v] l Hs IH Hk]; simpl in *; [constructor|].
  apply NoDup_cons in Hnd as [Hni Hnd]. constructor; [by apply IH|].
  rewrite Forall_forall in Hk. apply Forall_forall. intros k' Hk'.
  assert (k ≠ k') by (intros ->; done).
  apply list_elem_of_fmap in Hk' as ([k'' v'] & -> & Hin). specialize (Hk _ Hin).
  unfold key_le in Hk. simpl in *. lia.
Qed.

Lemma std_map_items_nil {V} (m : gmap Z V) : std_map_items m = [] ↔ m = ∅.
Proof.
  split.
  - intros H. apply map_to_list_empty_iff, Permutation_nil_r.
    by rewrite <- std_map_items_Permutation, H.
  - by intros ->.
Qed.

Create HintDb gw discriminated.
#[export] Hint Resolve total_bind total_ret : gw.
#[export] Hint Resolve wrap_u_range wrap_s_range : gw.
#[export] Hint Rewrite @wrap_s_wrap_u @wrap_u_wrap_s @wrap_s_add_l using lia : gw.
