(* ===== verification/Text.v ===== *)
(** * Numbers as text

    What [printf]'s [%d]/[%u]/[%lld]/[%llu] write and what [std::stoi],
    [std::stol], [std::stoul] and their 64-bit variants read back: the decimal
    conversions that the Redis client ([core/redis-api/app_redis.cc]) and the
    IEC 61850 client rely on.  C strings end at their first NUL. *)

From Stdlib Require Import ZArith String Ascii Lia.
From stdpp Require Import base tactics option numbers strings.
From S2P Require Import Prelude.

(** [s.c_str()] as a callee that stops at the first NUL sees it. *)
Fixpoint c_str (s : string) : string :=
  match s with
  | EmptyString => EmptyString
  | String c s' =>
      if Ascii.eqb c "000"%char then EmptyString else String c (c_str s')
  end.

Fixpoint no_nul (s : string) : bool :=
  match s with
  | EmptyString => true
  | String c s' => negb (Ascii.eqb c "000"%char) && no_nul s'
  end.

(** ** Printing *)

Definition digit_char (d : Z) : ascii := ascii_of_nat (48 + Z.to_nat d).

(** The digits of [n], most significant first, in front of [acc]. *)
Fixpoint dec_go (fuel : nat) (n : Z) (acc : string) : string :=
  match fuel with
  | O => acc
  | S fuel' =>
      let acc' := String (digit_char (n mod 10)) acc in
      if (n <? 10)%Z then acc' else dec_go fuel' (n / 10)%Z acc'
  end.

Definition dec_nonneg (n : Z) : string := dec_go (S (Z.to_nat (Z.log2 n))) n "".

(** [%d], [%u], [%lld], [%llu] and [std::to_string] of an integer. *)
Definition dec (z : Z) : string :=
  if (z <? 0)%Z then String "-" (dec_nonneg (- z)) else dec_nonneg z.

(** ** Parsing ([strtol] with base 10) *)

Definition is_space (c : ascii) : bool :=
  let n := nat_of_ascii c in ((n =? 32) || ((9 <=? n) && (n <=? 13)))%nat.

Definition digit_val (c : ascii) : option Z :=
  let n := nat_of_ascii c in
  if ((48 <=? n) && (n <=? 57))%nat then Some (Z.of_nat (n - 48)) else None.

Fixpoint skip_space (s : string) : string :=
  match s with
  | String c s' => if is_space c then skip_space s' else s
  | EmptyString => EmptyString
  end.

(** The value of the longest digit prefix, starting from [acc]. *)
Fixpoint digits_val (s : string) (acc : Z) : Z :=
  match s with
  | EmptyString => acc
  | String c s' =>
      match digit_val c with
      | Some d => digits_val s' (10 * acc + d)%Z
      | None => acc
      end
  end.

(** Sign and magnitude of the number at the front of [s], [None] when there
    is no digit. *)
Definition strto (s : string) : option (bool * Z) :=
  let s := skip_space s in
  let '(neg, s) :=
    match s with
    | String c s' =>
        if Ascii.eqb c "-" then (true, s')
        else if Ascii.eqb c "+" then (false, s') else (false, s)
    | EmptyString => (false, s)
    end in
  match s with
  | String c _ =>
      match digit_val c with
      | Some _ => Some (neg, digits_val s 0)
      | None => None
      end
  | EmptyString => None
  end.

(** [std::stoi] ([w] = 32), [std::stol] and [std::stoll] ([w] = 64). *)
Definition sto_signed (w : Z) (s : string) : outcome Z :=
  match strto s with
  | None => Threw InvalidArgument
  | Some (neg, m) =>
      let z := if neg then (- m)%Z else m in
      if ((- 2 ^ (w - 1) <=? z) && (z <? 2 ^ (w - 1)))%Z then Done z
      else Threw OutOfRange
  end.

(** [std::stoul], [std::stoull]: a negated magnitude wraps around. *)
Definition sto_unsigned (s : string) : outcome Z :=
  match strto s with
  | None => Threw InvalidArgument
  | Some (neg, m) =>
      if (m <? 2 ^ 64)%Z then Done (if neg then wrap_u 64 (- m) else m)
      else Threw OutOfRange
  end.

(** ** Lemmas *)

Lemma c_str_id s : no_nul s = true → c_str s = s.
Proof.
  induction s as [|c s IH]; simpl; [done|]. intros [Hc Hs]%andb_prop.
  apply negb_true_iff in Hc. rewrite Hc. by rewrite IH.
Qed.

Lemma digit_val_char d : (0 ≤ d < 10)%Z → digit_val (digit_char d) = Some d.
Proof.
  intros Hd. unfold digit_val, digit_char.
  rewrite nat_ascii_embedding by lia.
  replace (48 <=? 48 + Z.to_nat d)%nat with true by (symmetry; apply Nat.leb_le; lia).
  replace (48 + Z.to_nat d <=? 57)%nat with true by (symmetry; apply Nat.leb_le; lia).
  simpl. f_equal. lia.
Qed.

Lemma digit_char_head d c : (0 ≤ d < 10)%Z → digit_val c = None → digit_char d ≠ c.
Proof. intros Hd Hc <-. by rewrite digit_val_char in Hc. Qed.

Lemma digits_val_dec_go fuel n acc :
  (0 ≤ n < 2 ^ Z.of_nat fuel)%Z →
  digits_val (dec_go fuel n acc) 0 = digits_val acc n.
Proof.
  revert n acc. induction fuel as [|fuel IH]; intros n acc Hn.
  { simpl in *. by replace n with 0%Z by lia. }
  assert (0 ≤ n mod 10 < 10)%Z as Hm by (apply Z.mod_pos_bound; lia).
  pose proof (Z.div_mod n 10 ltac:(lia)) as Hdm.
  cbn [dec_go]. destruct (n <? 10)%Z eqn:Hlt; gw_bool.
  - cbn [digits_val]. rewrite digit_val_char by done.
    rewrite Z.mod_small by lia. done.
  - rewrite IH.
    + cbn [digits_val]. rewrite digit_val_char by done. f_equal. lia.
    + replace (Z.of_nat (S fuel)) with (Z.of_nat fuel + 1)%Z in Hn by lia.
      rewrite Z.pow_add_r in Hn by lia. nia.
Qed.

(** A printed number starts with a digit. *)
Lemma dec_go_head fuel n acc :
  (0 ≤ n)%Z → ∃ d s, (0 ≤ d < 10)%Z ∧ dec_go (S fuel) n acc = String (digit_char d) s.
Proof.
  revert n acc. induction fuel as [|fuel IH]; intros n acc Hn;
    pose proof (Z.mod_pos_bound n 10 ltac:(lia)).
  - exists (n mod 10)%Z, acc. split; [done|]. simpl. by destruct (n <? 10)%Z.
  - cbn [dec_go]. destruct (n <? 10)%Z; [by eauto|].
    apply (IH (n / 10)%Z). apply Z.div_pos; lia.
Qed.

Lemma dec_nonneg_head n :
  (0 ≤ n)%Z → ∃ d s, (0 ≤ d < 10)%Z ∧ dec_nonneg n = String (digit_char d) s.
Proof. apply dec_go_head. Qed.

Lemma digits_val_dec_nonneg n : (0 ≤ n)%Z → digits_val (dec_nonneg n) 0 = n.
Proof.
  intros Hn. unfold dec_nonneg. rewrite digits_val_dec_go; [done|].
  split; [done|]. rewrite Nat2Z.inj_succ, Z2Nat.id by apply Z.log2_nonneg.
  destruct (decide (n = 0)%Z) as [->|]; [done|]. apply Z.log2_spec. lia.
Qed.

Lemma is_space_digit d : (0 ≤ d < 10)%Z → is_space (digit_char d) = false.
Proof.
  intros Hd. unfold is_space, digit_char. rewrite nat_ascii_embedding by lia.
  apply orb_false_intro; [apply Nat.eqb_neq; lia|].
  apply andb_false_intro2, Nat.leb_gt. lia.
Qed.

Lemma eqb_digit_char d c :
  (0 ≤ d < 10)%Z → digit_val c = None → Ascii.eqb (digit_char d) c = false.
Proof. intros. apply Ascii.eqb_neq. by apply digit_char_head. Qed.

Lemma strto_dec z : strto (dec z) = Some ((z <? 0)%Z, Z.abs z).
Proof.
  unfold strto, dec. destruct (z <? 0)%Z eqn:Hz; gw_bool.
  - destruct (dec_nonneg_head (- z) ltac:(lia)) as (d & s & Hd & Heq).
    pose proof (digits_val_dec_nonneg (- z) ltac:(lia)) as Hv.
    simpl. rewrite Heq in *. rewrite digit_val_char by done. rewrite Hv.
    do 2 f_equal. lia.
  - destruct (dec_nonneg_head z Hz) as (d & s & Hd & Heq).
    pose proof (digits_val_dec_nonneg z Hz) as Hv. rewrite Heq in *.
    cbn [skip_space]. rewrite is_space_digit by done.
    rewrite !eqb_digit_char by done. rewrite digit_val_char by done. rewrite Hv.
    do 2 f_equal. lia.
Qed.

Lemma sto_signed_dec w z : in_s w z → sto_signed w (dec z) = Done z.
Proof.
  unfold in_s, sto_signed. intros Hz. rewrite strto_dec.
  replace (if (z <? 0)%Z then (- Z.abs z)%Z else Z.abs z) with z
    by (destruct (z <? 0)%Z eqn:?; gw_bool; lia).
  replace (_ && _) with true; [done|]. symmetry. apply andb_true_intro.
  split; [apply Z.leb_le | apply Z.ltb_lt]; lia.
Qed.

Lemma sto_unsigned_dec z : in_u 64 z → sto_unsigned (dec z) = Done z.
Proof.
  unfold in_u, sto_unsigned. intros Hz. rewrite strto_dec.
  replace (z <? 0)%Z with false by (symmetry; apply Z.ltb_ge; lia).
  rewrite Z.abs_eq by lia.
  replace (z <? 2 ^ 64)%Z with true by (symmetry; apply Z.ltb_lt; lia). done.
Qed.

Lemma dec_inj z1 z2 : dec z1 = dec z2 → z1 = z2.
Proof.
  intros H%(f_equal strto). rewrite !strto_dec in H. simplify_eq.
  destruct (z1 <? 0)%Z eqn:?, (z2 <? 0)%Z eqn:?; gw_bool; simplify_eq; lia.
Qed.

Lemma no_nul_dec_go fuel n acc :
  (0 ≤ n)%Z → no_nul acc = true → no_nul (dec_go fuel n acc) = true.
Proof.
  revert n acc. induction fuel as [|fuel IH]; intros n acc Hn Hacc; [done|].
  assert (no_nul (String (digit_char (n mod 10)) acc) = true) as Hcons.
  { cbn [no_nul]. rewrite Hacc, eqb_digit_char; [done|apply Z.mod_pos_bound; lia|done]. }
  cbn [dec_go]. destruct (n <? 10)%Z; [done|]. apply IH; [|done].
  apply Z.div_pos; lia.
Qed.

Lemma no_nul_dec z : no_nul (dec z) = true.
Proof.
  unfold dec, dec_nonneg. destruct (z <? 0)%Z eqn:Hz; gw_bool.
  - cbn [no_nul]. rewrite no_nul_dec_go by (done || lia). done.
  - apply no_nul_dec_go; done.
Qed.

#[export] Hint Rewrite strto_dec digits_val_dec_nonneg : gw.
Lemma no_nul_app s1 s2 : no_nul (s1 ++ s2)%string = no_nul s1 && no_nul s2.
Proof.
  induction s1 as [|c s1 IH]; [done|]. cbn [no_nul].
  rewrite <- andb_assoc, <- IH. reflexivity.
Qed.

#[export] Hint Resolve no_nul_dec sto_unsigned_dec sto_signed_dec : gw.
