(* ===== verification/Store.v ===== *)
(** * The key/value store that the acquisition clients write to

    The interface between the Redis client and its users (the Modbus poller
    and the IEC 61850 reader): open, one textual write, close, and what a
    working store promises of them.  On top of it the typed writes of [DRDSDataRedis]
    ([core/redis-api/app_redis.cc], [storeInt] ... [storeLWord]), each a
    [printf] conversion of its argument followed by the textual write. *)

From Stdlib Require Import ZArith String SpecFloat.
From stdpp Require Import base tactics option numbers strings gmap.
From S2P Require Import Prelude Text.

(** [kv_set key text]: a write, with the [bool] that the C++ call returns. *)
Class KvStore (S : Type) : Type := {
  kv_open : prog S unit;              (* construct a client with the defaults *)
  kv_close : prog S unit;             (* destroy it *)
  kv_set : string → string → prog S bool;
  kv_view : S → gmap string string;   (* what a reader would find *)
  kv_up : S → Prop;                   (* the server answers; no client yet *)
  kv_ready : S → Prop                 (* and the client is connected to it *)
}.

(** A store that works: from a ready state, a write of C strings succeeds,
    shows up under its key and leaves the other keys alone. *)
Class KvStoreOk (S : Type) `{KvStore S} : Prop := {
  kv_open_ok s :
    kv_up s → ∃ s', kv_open s = (Done tt, s') ∧ kv_ready s' ∧ kv_view s' = kv_view s;
  kv_close_ok s :
    kv_ready s → ∃ s', kv_close s = (Done tt, s') ∧ kv_up s' ∧ kv_view s' = kv_view s;
  kv_set_ok k v s :
    kv_ready s → no_nul k = true → no_nul v = true →
    ∃ s', kv_set k v s = (Done true, s') ∧ kv_ready s' ∧
          kv_view s' = <[k := v]> (kv_view s)
}.

(** The Redis client as the IEC 61850 reader uses it: opened with the defaults,
    asked whether it is initialised. *)
Class KvClient (K : Type) `{KvStore K} : Type := {
  kv_isInitialized : prog K bool
}.

Class KvClientOk (K : Type) `{KvClient K} : Prop := {
  kv_open_initialized k :
    kv_up k → ∃ k', kv_open k = (Done tt, k') ∧ kv_isInitialized k' = (Done true, k')
}.

(** The [printf] conversions of the command formats. *)
Inductive int_format : Type := F_d | F_u | F_lld | F_llu.

(** The text of an integer argument: [%d]/[%u] read it as a 32-bit [int], the
    [ll] forms as a 64-bit one. *)
Definition fmt_int (f : int_format) (z : Z) : string :=
  match f with
  | F_d => dec (wrap_s 32 z)
  | F_u => dec (wrap_u 32 z)
  | F_lld => dec (wrap_s 64 z)
  | F_llu => dec (wrap_u 64 z)
  end.

(** [%f], and [std::stod]: floating point text is C library code. *)
Class FloatText : Type := {
  fmt_f : spec_float → string;
  stod : string → outcome spec_float
}.

(** The text of a floating point number is a C string. *)
Class FloatTextOk `{FloatText} : Prop := {
  fmt_f_no_nul x : no_nul (fmt_f x) = true
}.

Section Typed.
Context {S : Type} `{KvStore S} `{FloatText}.

Definition store_fmt (key : string) (f : int_format) (value : Z) : prog S bool :=
  kv_set key (fmt_int f value).

Definition storeString (key value : string) : prog S bool := kv_set key value.
Definition storeInt (key : string) (value : Z) := store_fmt key F_d value.
Definition storeUInt (key : string) (value : Z) := store_fmt key F_u value.
Definition storeReal (key : string) (value : spec_float) := kv_set key (fmt_f value).
Definition storeBool (key : string) (value : bool) :=
  store_fmt key F_d (if value then 1 else 0).
Definition storeDInt (key : string) (value : Z) := store_fmt key F_d value.
Definition storeUDInt (key : string) (value : Z) := store_fmt key F_u value.
Definition storeLReal (key : string) (value : spec_float) := kv_set key (fmt_f value).
Definition storeSInt (key : string) (value : Z) := store_fmt key F_d value.
Definition storeUSInt (key : string) (value : Z) := store_fmt key F_u value.
Definition storeLInt (key : string) (value : Z) := store_fmt key F_lld value.
Definition storeULInt (key : string) (value : Z) := store_fmt key F_llu value.
Definition storeByte (key : string) (value : Z) := store_fmt key F_u value.
Definition storeWord (key : string) (value : Z) := store_fmt key F_u value.
Definition storeDWord (key : string) (value : Z) := store_fmt key F_u value.
Definition storeLWord (key : string) (value : Z) := store_fmt key F_llu value.

(** [None] is the null pointer. *)
Definition storeChar (key : string) (value : option string) : prog S bool :=
  match value with
  | None => mret false
  | Some v => kv_set key v
  end.

(** A sequence of writes whose results nobody looks at. *)
Definition kv_set_all (writes : list (string * string)) : prog S unit :=
  iterS writes (λ kv, _ ← kv_set kv.1 kv.2; mret tt).
End Typed.

(** ** Lemmas *)

Lemma fmt_int_id f z :
  match f with
  | F_d => in_s 32 z | F_u => in_u 32 z | F_lld => in_s 64 z | F_llu => in_u 64 z
  end → fmt_int f z = dec z.
Proof.
  destruct f; simpl; intros Hz; first [rewrite wrap_s_id by done | rewrite wrap_u_id by done];
    done.
Qed.

Lemma no_nul_fmt_int f z : no_nul (fmt_int f z) = true.
Proof. destruct f; apply no_nul_dec. Qed.

Definition writes_ok (writes : list (string * string)) : Prop :=
  Forall (λ kv, no_nul kv.1 = true ∧ no_nul kv.2 = true) writes.

(** On a working store a sequence of writes leaves the last value of each key. *)
Lemma kv_set_all_ok {S} `{KvStoreOk S} writes s :
  kv_ready s → writes_ok writes →
  ∃ s', kv_set_all writes s = (Done tt, s') ∧ kv_ready s' ∧
        kv_view s' = foldl (λ m kv, <[kv.1 := kv.2]> m) (kv_view s) writes.
Proof.
  intros Hs Hw. revert s Hs. induction Hw as [|[k v] writes [Hk Hv] _ IH]; intros s Hs.
  { exists s. done. }
  destruct (kv_set_ok k v s Hs Hk Hv) as (s1 & Hset & Hs1 & Hview).
  destruct (IH s1 Hs1) as (s2 & Hall & Hs2 & Hview2).
  exists s2. unfold kv_set_all in *. erewrite iterS_cons.
  - by rewrite Hall, Hview2, Hview.
  - simpl. by rewrite (prog_bind_eq _ _ _ _ _ Hset).
Qed.

(** The last write of a key decides its value. *)
Lemma foldl_insert_lookup (writes : list (string * string))
    (m : gmap string string) k :
  NoDup writes.*1 →
  foldl (λ (m : gmap string string) kv, <[kv.1 := kv.2]> m) m writes !! k =
  match (list_to_map writes : gmap string string) !! k with
  | Some v => Some v
  | None => m !! k
  end.
Proof.
  revert m. induction writes as [|[k' v'] writes IH]; intros m Hnd; [done|].
  apply NoDup_cons in Hnd as [Hk' Hnd]. simpl in *. rewrite IH by done.
  destruct (decide (k = k')) as [->|Hne].
  - rewrite lookup_insert_eq. apply not_elem_of_list_to_map_1 in Hk'.
    rewrite Hk'. by rewrite !lookup_insert_eq.
  - by rewrite !lookup_insert_ne by done.
Qed.
