(* ===== verification/Redis.v ===== *)
(** * The Redis client

    [DRDSDataRedis] of [core/redis-api/app_redis.cc] over the hiredis API.
    The client is the only owner of raw [redisContext] pointers in the
    gateway, so the model keeps the heap of live contexts: using or freeing a
    context that is not live, or a null pointer, is undefined behaviour.
    hiredis itself (connect, command, pipelined command) is the class
    [Hiredis]; what a healthy server promises is the class [HiredisOk]. *)

From Stdlib Require Import ZArith String SpecFloat.
From stdpp Require Import base tactics option numbers strings gmap.
From S2P Require Import Prelude Text Store.

(** ** hiredis *)

Inductive redis_reply_type : Type :=
| REDIS_REPLY_STRING | REDIS_REPLY_ARRAY | REDIS_REPLY_INTEGER
| REDIS_REPLY_NIL | REDIS_REPLY_STATUS | REDIS_REPLY_ERROR.

Record redisReply := {
  reply_type : redis_reply_type;
  reply_integer : Z;
  reply_str : option string     (* null for the types that carry no string *)
}.

(** Where to connect: [redisConnectUnixWithTimeout], [redisConnectWithTimeout]. *)
Inductive endpoint : Type :=
| Unix (path : string)
| Tcp (host : string) (port : Z).

Class Hiredis : Type := {
  net_state : Type;
  (** [None]: null context; [Some err]: a context with its error flag. *)
  hi_connect : endpoint → Z → net_state → option bool * net_state;
  (** From the error flag: the reply ([None] is NULL), the new error flag. *)
  hi_command : bool → list string → net_state → option redisReply * bool * net_state;
  hi_append : bool → list string → net_state → bool * net_state;
  (** [redisGetReply]: is it [REDIS_OK], and the reply it stores. *)
  hi_get_reply : bool → net_state → bool * option redisReply * bool * net_state
}.

Definition REDIS_TIMEOUT : Z := 3000.

(** ** The client object and the context heap *)

Section Client.
Context `{Hiredis}.

Record DRDSDataRedis := {
  context_ : option nat;              (* redisContext* *)
  unix_socket_path_ : string;
  host_ : string;
  port_ : option Z;                   (* [None]: never initialised *)
  initialized : option bool;          (* [None]: never initialised *)
  ctxs : gmap nat bool;               (* live contexts and their [err] *)
  next_ctx : nat;
  net : net_state
}.

Definition set_context (c : option nat) (r : DRDSDataRedis) : DRDSDataRedis :=
  {| context_ := c; unix_socket_path_ := unix_socket_path_ r; host_ := host_ r;
     port_ := port_ r; initialized := initialized r; ctxs := ctxs r;
     next_ctx := next_ctx r; net := net r |}.
Definition set_initialized (b : bool) (r : DRDSDataRedis) : DRDSDataRedis :=
  {| context_ := context_ r; unix_socket_path_ := unix_socket_path_ r; host_ := host_ r;
     port_ := port_ r; initialized := Some b; ctxs := ctxs r;
     next_ctx := next_ctx r; net := net r |}.
Definition set_ctxs (m : gmap nat bool) (r : DRDSDataRedis) : DRDSDataRedis :=
  {| context_ := context_ r; unix_socket_path_ := unix_socket_path_ r; host_ := host_ r;
     port_ := port_ r; initialized := initialized r; ctxs := m;
     next_ctx := next_ctx r; net := net r |}.
Definition set_net (m : gmap nat bool) (n : nat) (w : net_state) (r : DRDSDataRedis) : DRDSDataRedis :=
  {| context_ := context_ r; unix_socket_path_ := unix_socket_path_ r; host_ := host_ r;
     port_ := port_ r; initialized := initialized r; ctxs := m;
     next_ctx := n; net := w |}.
Definition set_unix (path : string) (r : DRDSDataRedis) : DRDSDataRedis :=
  {| context_ := context_ r; unix_socket_path_ := path; host_ := host_ r;
     port_ := port_ r; initialized := initialized r; ctxs := ctxs r;
     next_ctx := next_ctx r; net := net r |}.
Definition set_tcp (host : string) (port : Z) (r : DRDSDataRedis) : DRDSDataRedis :=
  {| context_ := context_ r; unix_socket_path_ := unix_socket_path_ r; host_ := host;
     port_ := Some port; initialized := initialized r; ctxs := ctxs r;
     next_ctx := next_ctx r; net := net r |}.

(** *** Pointer operations *)

(** [context_->err]. *)
Definition ctx_err : prog DRDSDataRedis bool := λ r,
  match context_ r with
  | None => (Undef "null context", r)
  | Some h =>
      match ctxs r !! h with
      | Some e => (Done e, r)
      | None => (Undef "context used after free", r)
      end
  end.

(** [context_ == nullptr || context_->err]. *)
Definition ctx_bad : prog DRDSDataRedis bool := λ r,
  match context_ r with None => (Done true, r) | Some _ => ctx_err r end.

(** [if (context_) redisFree(context_)]. *)
Definition free_context : prog DRDSDataRedis unit := λ r,
  match context_ r with
  | None => (Done tt, r)
  | Some h =>
      match ctxs r !! h with
      | Some _ => (Done tt, set_ctxs (delete h (ctxs r)) r)
      | None => (Undef "context freed twice", r)
      end
  end.

(** [context_ = redisConnect...(endpoint, timeout)]. *)
Definition connect_to (e : endpoint) (timeout_ms : Z) : prog DRDSDataRedis unit := λ r,
  match hi_connect e timeout_ms (net r) with
  | (None, w) => (Done tt, set_context None (set_net (ctxs r) (next_ctx r) w r))
  | (Some err, w) =>
      (Done tt, set_context (Some (next_ctx r))
                  (set_net (<[next_ctx r := err]> (ctxs r)) (S (next_ctx r)) w r))
  end.

(** [redisCommand(context_, ...)] with the argument vector [args]. *)
Definition redisCommand (args : list string) : prog DRDSDataRedis (option redisReply) := λ r,
  match context_ r with
  | None => (Undef "null context", r)
  | Some h =>
      match ctxs r !! h with
      | None => (Undef "context used after free", r)
      | Some e =>
          let '(reply, e', w) := hi_command e args (net r) in
          (Done reply, set_net (<[h := e']> (ctxs r)) (next_ctx r) w r)
      end
  end.

(** *** Connection management *)

(** [reconnectIfNeeded]: always [true]; on failure the context is freed but
    the pointer is kept. *)
Definition reconnectIfNeeded (timeout_ms : Z) : prog DRDSDataRedis bool :=
  free_context;;
  r ← getS;
  (if negb (String.eqb (unix_socket_path_ r) "") then
     connect_to (Unix (unix_socket_path_ r)) timeout_ms
   else
     match port_ r with
     | Some port => connect_to (Tcp (host_ r) port) timeout_ms
     | None => undefS "port_ is not initialised"
     end);;
  bad ← ctx_bad;
  (if (bad : bool) then free_context else mret tt);;
  mret true.

Definition handleConnectionErrors : prog DRDSDataRedis bool :=
  bad ← ctx_bad;
  if (bad : bool) then reconnectIfNeeded 3000 else mret true.

Definition checkRedisConnection : prog DRDSDataRedis bool :=
  bad ← ctx_bad;
  if (bad : bool) then
    free_context;; modifyS (set_context None);; mret false
  else modifyS (set_initialized true);; mret true.

Definition initializeUnixConnection (path : string) : prog DRDSDataRedis unit :=
  modifyS (set_unix path);;
  connect_to (Unix path) REDIS_TIMEOUT;;
  _ ← checkRedisConnection; mret tt.

Definition initializeTcpConnection (host : string) (port : Z) : prog DRDSDataRedis unit :=
  modifyS (set_tcp host port);;
  connect_to (Tcp host port) REDIS_TIMEOUT;;
  _ ← checkRedisConnection; mret tt.

(** An object under construction: the in-class initialisers have run. *)
Definition raw_object (init : option bool) (r : DRDSDataRedis) : DRDSDataRedis :=
  {| context_ := None; unix_socket_path_ := ""; host_ := ""; port_ := None;
     initialized := init; ctxs := ctxs r; next_ctx := next_ctx r; net := net r |}.

(** The static defaults that [setDefaultConnectionInfo] writes. *)
Record redis_defaults := {
  default_unix_socket_path : string;
  default_host : string;
  default_port : Z
}.

Definition setDefaultConnectionInfo (unix_socket_path host : string) (port : Z)
    : redis_defaults :=
  {| default_unix_socket_path := unix_socket_path; default_host := host;
     default_port := port |}.

(** The three constructors. *)
Definition make_default (d : redis_defaults) : prog DRDSDataRedis unit :=
  modifyS (raw_object (Some false));;
  if negb (String.eqb (default_unix_socket_path d) "") then
    initializeUnixConnection (default_unix_socket_path d)
  else if negb (String.eqb (default_host d) "") && (0 <? default_port d)%Z then
    initializeTcpConnection (default_host d) (default_port d)
  else mret tt.

Definition make_unix (path : string) : prog DRDSDataRedis unit :=
  modifyS (raw_object None);; initializeUnixConnection path.

Definition make_tcp (host : string) (port : Z) : prog DRDSDataRedis unit :=
  modifyS (raw_object None);; initializeTcpConnection host port.

(** The destructor. *)
Definition destroy : prog DRDSDataRedis unit := free_context.

Definition isInitialized : prog DRDSDataRedis bool :=
  r ← getS;
  match initialized r with
  | Some b => mret b
  | None => undefS "initialized is not initialised"
  end.

(** *** Commands *)

(** The common tail of [storeValue] and [storeBinary]. *)
Definition finish_set (reply : option redisReply) : prog DRDSDataRedis bool :=
  match reply with
  | None => _ ← ctx_bad; handleConnectionErrors
  | Some rep =>
      match reply_type rep with
      | REDIS_REPLY_ERROR => mret false
      | _ => mret true
      end
  end.

(** [storeValue(key, "SET %s <conv>", value)], [text] being the printed value. *)
Definition storeValue (key text : string) : prog DRDSDataRedis bool :=
  reply ← redisCommand ["SET"; c_str key; c_str text]; finish_set reply.

(** [None]: null [data]. *)
Definition storeBinary (key : string) (data : option string) : prog DRDSDataRedis bool :=
  match data with
  | None | Some EmptyString => mret false
  | Some d => reply ← redisCommand ["SET"; c_str key; d]; finish_set reply
  end.

Definition isKeyExist (key : string) : prog DRDSDataRedis bool :=
  reply ← redisCommand ["EXISTS"; c_str key];
  match reply with
  | None => _ ← ctx_bad; mret false
  | Some rep =>
      match reply_type rep with
      | REDIS_REPLY_INTEGER => mret (reply_integer rep =? 1)%Z
      | _ => mret false
      end
  end.

(** The pipelined write: queue it, collect its reply later. *)
Definition storeBinaryForPipline (key data : string) : prog DRDSDataRedis bool := λ r,
  match context_ r with
  | None => (Undef "null context", r)
  | Some h =>
      match ctxs r !! h with
      | None => (Undef "context used after free", r)
      | Some e =>
          let '(ok, w) := hi_append e ["SET"; key; data] (net r) in
          (Done ok, set_net (ctxs r) (next_ctx r) w r)
      end
  end.

(** [Done None]: success; [Done (Some (key, message))]: the error record. *)
Definition processSetRedisReply (key : string)
    : prog DRDSDataRedis (option (string * string)) := λ r,
  match context_ r with
  | None => (Undef "null context", r)
  | Some h =>
      match ctxs r !! h with
      | None => (Undef "context used after free", r)
      | Some e =>
          let '(ok, reply, e', w) := hi_get_reply e (net r) in
          let r' := set_net (<[h := e']> (ctxs r)) (next_ctx r) w r in
          if negb ok then (Done (Some (key, "Error receiving reply"%string)), r')
          else
            match reply with
            | None => (Done (Some (key, "Received NULL reply"%string)), r')
            | Some rep =>
                match reply_type rep, reply_str rep with
                | REDIS_REPLY_STATUS, None => (Undef "strcmp on null", r')
                | REDIS_REPLY_STATUS, Some s =>
                    if String.eqb s "OK" then (Done None, r')
                    else (Done (Some (key, "Failed to execute SET command"%string)), r')
                | _, _ =>
                    (Done (Some (key, "Failed to execute SET command"%string)), r')
                end
            end
      end
  end.

(** The shape shared by the getters: [GET key]; on a lost reply reconnect
    and return [dflt], else convert [reply->str]. *)
Definition get_with {A} (key : string) (dflt : A) (conv : string → outcome A)
    : prog DRDSDataRedis A :=
  reply ← redisCommand ["GET"; c_str key];
  match reply with
  | None => _ ← handleConnectionErrors; mret dflt
  | Some rep =>
      e ← ctx_err;
      if (e : bool) then _ ← handleConnectionErrors; mret dflt
      else
        match reply_str rep with
        | None => undefS "string built from a null reply"
        | Some s => liftO (conv s)
        end
  end.

Definition getBool (key : string) : prog DRDSDataRedis bool :=
  get_with key false (λ s, z ← sto_signed 32 s; Done (negb (z =? 0)%Z)).
Definition getDInt (key : string) : prog DRDSDataRedis Z :=
  get_with key 0%Z (λ s, z ← sto_signed 64 s; Done (wrap_s 32 z)).
Definition getUDInt (key : string) : prog DRDSDataRedis Z :=
  get_with key 0%Z (λ s, z ← sto_unsigned s; Done (wrap_u 32 z)).
Definition getSInt (key : string) : prog DRDSDataRedis Z :=
  get_with key 0%Z (λ s, z ← sto_signed 32 s; Done (wrap_s 8 z)).
Definition getUSInt (key : string) : prog DRDSDataRedis Z :=
  get_with key 0%Z (λ s, z ← sto_unsigned s; Done (wrap_u 8 z)).
Definition getLInt (key : string) : prog DRDSDataRedis Z :=
  get_with key 0%Z (λ s, z ← sto_signed 64 s; Done (wrap_s 64 z)).
Definition getULInt (key : string) : prog DRDSDataRedis Z :=
  get_with key 0%Z (λ s, z ← sto_unsigned s; Done (wrap_u 64 z)).
Definition getString (key : string) : prog DRDSDataRedis string :=
  get_with key ""%string (λ s, Done (c_str s)).
Definition getLReal `{FloatText} (key : string) : prog DRDSDataRedis spec_float :=
  get_with key (S754_zero false) stod.
Definition getByte (key : string) : prog DRDSDataRedis Z := getUSInt key.
Definition getDWord (key : string) : prog DRDSDataRedis Z := getUDInt key.
Definition getLWord (key : string) : prog DRDSDataRedis Z := getULInt key.

(** The returned [bool] and the new contents of [data], [None] when the call
    leaves it alone. *)
Definition getBinary (key : string) : prog DRDSDataRedis (bool * option string) :=
  reply ← redisCommand ["GET"; c_str key];
  match reply with
  | None => ok ← handleConnectionErrors; mret (ok, None)
  | Some rep =>
      e ← ctx_err;
      if (e : bool) then ok ← handleConnectionErrors; mret (ok, None)
      else
        match reply_type rep, reply_str rep with
        | REDIS_REPLY_STRING, Some s => mret (true, Some s)
        | _, _ => mret (false, None)
        end
  end.
End Client.

(** ** What a healthy Redis server promises *)

Class RedisServer `{Hiredis} : Type := {
  srv : net_state → gmap string string;
  srv_up : net_state → Prop
}.

Definition status_ok : redisReply :=
  {| reply_type := REDIS_REPLY_STATUS; reply_integer := 0; reply_str := Some "OK"%string |}.

Definition get_reply (v : option string) : redisReply :=
  match v with
  | Some s => {| reply_type := REDIS_REPLY_STRING; reply_integer := 0; reply_str := Some s |}
  | None => {| reply_type := REDIS_REPLY_NIL; reply_integer := 0; reply_str := None |}
  end.

Class RedisServerOk `{RedisServer} : Prop := {
  srv_connect e t w :
    srv_up w → ∃ w', hi_connect e t w = (Some false, w') ∧ srv_up w' ∧ srv w' = srv w;
  srv_set k v w :
    srv_up w → ∃ w', hi_command false ["SET"; k; v] w = (Some status_ok, false, w') ∧
                     srv_up w' ∧ srv w' = <[k := v]> (srv w);
  srv_get k w :
    srv_up w → ∃ w', hi_command false ["GET"; k] w = (Some (get_reply (srv w !! k)), false, w') ∧
                     srv_up w' ∧ srv w' = srv w
}.

(** The defaults name a server. *)
Definition configured (d : redis_defaults) : bool :=
  negb (String.eqb (default_unix_socket_path d) "")
  || (negb (String.eqb (default_host d) "") && (0 <? default_port d)%Z).

(** The client owns exactly the live contexts: none, or the one it points to. *)
Definition owns `{Hiredis} (r : DRDSDataRedis) : Prop :=
  match context_ r with
  | None => ctxs r = ∅
  | Some h => ∃ e, ctxs r = {[h := e]}
  end.

(** Connected, without error, owning its context. *)
Definition connected `{Hiredis} (r : DRDSDataRedis) : Prop :=
  ∃ h, context_ r = Some h ∧ ctxs r = {[h := false]}.

#[export] Instance redis_store `{RedisServer} (d : redis_defaults) : KvStore DRDSDataRedis := {
  kv_open := make_default d;
  kv_close := destroy;
  kv_set := storeValue;
  kv_view r := srv (net r);
  kv_up r := ctxs r = ∅ ∧ srv_up (net r);
  kv_ready r := connected r ∧ srv_up (net r)
}.

#[export] Instance redis_client `{RedisServer} (d : redis_defaults)
    : KvClient DRDSDataRedis (H := redis_store d) := {
  kv_isInitialized := isInitialized
}.

(** ** Lemmas *)

Ltac redis_unfold := unfold mbind, prog_bind, mret, prog_ret, getS, modifyS, liftO in *.

(** Run a call whose contexts are known. *)
Ltac redis_run :=
  unfold storeValue, redisCommand, finish_set, handleConnectionErrors, ctx_bad, ctx_err,
    reconnectIfNeeded, free_context, connect_to;
  redis_unfold; simpl;
  repeat (progress (rewrite ?lookup_insert_eq, ?lookup_singleton_eq, ?lookup_delete_eq; simpl)).

Section ServerLemmas.
Context `{RedisServerOk}.

(** One command on a healthy connection. *)
Lemma redisCommand_connected args r rep w :
  connected r → hi_command false args (net r) = (rep, false, w) →
  ∃ r', redisCommand args r = (Done rep, r') ∧ connected r' ∧ net r' = w.
Proof.
  intros (h & Hc & Hl) Hcmd. unfold redisCommand. rewrite Hc, Hl, lookup_singleton_eq, Hcmd.
  eexists. split; [done|]. split; [|done]. exists h. split; [done|].
  simpl. by rewrite insert_singleton_eq.
Qed.

Lemma storeValue_connected k v r :
  connected r → srv_up (net r) → no_nul k = true → no_nul v = true →
  ∃ r', storeValue k v r = (Done true, r') ∧ connected r' ∧ srv_up (net r') ∧
        srv (net r') = <[k := v]> (srv (net r)).
Proof.
  intros Hr Hup Hk Hv. unfold storeValue. rewrite !c_str_id by done.
  destruct (srv_set k v (net r) Hup) as (w & Hset & Hup' & Hview).
  destruct (redisCommand_connected _ _ _ _ Hr Hset) as (r' & Hcmd & Hr' & Hnet).
  exists r'. rewrite (prog_bind_eq _ _ _ _ _ Hcmd). subst w. done.
Qed.

Lemma get_with_connected {A} k (dflt : A) conv r s :
  connected r → srv_up (net r) → no_nul k = true → srv (net r) !! k = Some s →
  (get_with k dflt conv r).1 = conv s.
Proof.
  intros Hr Hup Hk Hs. unfold get_with. rewrite c_str_id by done.
  destruct (srv_get k (net r) Hup) as (w & Hget & _).
  destruct (redisCommand_connected _ _ _ _ Hr Hget) as (r' & Hcmd & (h & Hc & Hl) & _).
  rewrite (prog_bind_eq _ _ _ _ _ Hcmd), Hs. simpl. redis_unfold.
  unfold ctx_err. by rewrite Hc, Hl, lookup_singleton_eq.
Qed.

Lemma store_then_get {A} k v (dflt : A) conv r r' :
  connected r → srv_up (net r) → no_nul k = true → no_nul v = true →
  storeValue k v r = (Done true, r') →
  (get_with k dflt conv r').1 = conv v.
Proof.
  intros Hr Hup Hk Hv Hst.
  destruct (storeValue_connected k v r) as (r2 & Hst2 & Hr2 & Hup2 & Hview); [done..|].
  rewrite Hst in Hst2. simplify_eq. apply get_with_connected; [done..|].
  rewrite Hview. apply lookup_insert_eq.
Qed.

Lemma connect_check ep t r :
  srv_up (net r) → ctxs r = ∅ →
  ∃ r', (connect_to ep t;; _ ← checkRedisConnection; mret tt) r = (Done tt, r') ∧
        connected r' ∧ srv_up (net r') ∧ srv (net r') = srv (net r) ∧
        initialized r' = Some true.
Proof.
  intros Hup Hctx. destruct (srv_connect ep t (net r) Hup) as (w & Hconn & Hup' & Hview).
  redis_unfold. unfold connect_to. rewrite Hconn, Hctx. simpl.
  unfold checkRedisConnection. redis_unfold. unfold ctx_bad, ctx_err. simpl.
  rewrite lookup_insert_eq. simpl. eexists. split; [done|]. split; [|done].
  by exists (next_ctx r).
Qed.

Lemma make_default_ok d r :
  configured d = true → ctxs r = ∅ → srv_up (net r) →
  ∃ r', make_default d r = (Done tt, r') ∧ connected r' ∧ srv_up (net r') ∧
        srv (net r') = srv (net r) ∧ initialized r' = Some true.
Proof.
  intros Hd Hctx Hup. unfold make_default, configured in *.
  redis_unfold. destruct (negb (String.eqb (default_unix_socket_path d) "")).
  - by apply (connect_check (Unix (default_unix_socket_path d)) REDIS_TIMEOUT
      (set_unix (default_unix_socket_path d) (raw_object (Some false) r))).
  - simpl in Hd. rewrite Hd.
    by apply (connect_check (Tcp (default_host d) (default_port d)) REDIS_TIMEOUT
      (set_tcp (default_host d) (default_port d) (raw_object (Some false) r))).
Qed.
End ServerLemmas.

(** *** The default client is a working store *)

Lemma redis_store_ok `{RedisServerOk} d :
  configured d = true → KvStoreOk DRDSDataRedis (H := redis_store d).
Proof.
  intros Hd. split; simpl.
  - intros r [Hctx Hup]. destruct (make_default_ok d r) as (r' & ? & ? & ? & ? & _); [done..|].
    by exists r'.
  - intros r [(h & Hc & Hl) Hup]. unfold destroy, free_context.
    rewrite Hc, Hl, lookup_singleton_eq. eexists. split; [done|]. simpl.
    by rewrite delete_singleton_eq.
  - intros k v r [Hr Hup] Hk Hv.
    destruct (storeValue_connected k v r) as (r' & ? & ? & ? & ?); [done..|]. by exists r'.
Qed.

(** And it says that it is initialised. *)
Lemma redis_client_ok `{RedisServerOk} d :
  configured d = true → KvClientOk DRDSDataRedis (H := redis_store d).
Proof.
  intros Hd. split; simpl. intros r [Hctx Hup].
  destruct (make_default_ok d r) as (r' & ? & _ & _ & _ & Hi); [done..|].
  exists r'. split; [done|]. unfold isInitialized. redis_unfold. by rewrite Hi.
Qed.

(** *** Memory safety *)

(** The calls a caller makes on a client. *)
Inductive client_op : Type :=
| OpStore (key text : string)
| OpStoreBinary (key : string) (data : option string)
| OpExists (key : string)
| OpGetBool (key : string)
| OpGetDInt (key : string)
| OpGetString (key : string)
| OpGetBinary (key : string)
| OpPipeline (key data : string)
| OpPipelineReply (key : string).

Definition run_op `{Hiredis} (op : client_op) : prog DRDSDataRedis unit :=
  match op with
  | OpStore k v => _ ← storeValue k v; mret tt
  | OpStoreBinary k d => _ ← storeBinary k d; mret tt
  | OpExists k => _ ← isKeyExist k; mret tt
  | OpGetBool k => _ ← getBool k; mret tt
  | OpGetDInt k => _ ← getDInt k; mret tt
  | OpGetString k => _ ← getString k; mret tt
  | OpGetBinary k => _ ← getBinary k; mret tt
  | OpPipeline k d => _ ← storeBinaryForPipline k d; mret tt
  | OpPipelineReply k => _ ← processSetRedisReply k; mret tt
  end.

(** A scope of the gateway that owns a client: construct it, use it, its
    exceptions being caught, and destroy it. *)
Definition client_scope `{Hiredis} (d : redis_defaults) (ops : list client_op)
    : prog DRDSDataRedis unit :=
  make_default d;; iterS ops (λ op, catchS (run_op op) (λ _, mret tt));; destroy.

Definition use_after_free (w : string) : Prop :=
  w = "context used after free"%string ∨ w = "context freed twice"%string.

(** Every connection attempt succeeds or returns no context at all.  (hiredis
    returns a context in error when the server refuses.) *)
Definition connects_cleanly `{Hiredis} : Prop := ∀ e t w, (hi_connect e t w).1 ≠ Some true.

(** The client owns its context and, having one, remembers its endpoint. *)
Definition client_inv `{Hiredis} (r : DRDSDataRedis) : Prop :=
  owns r ∧ (context_ r = None ∨ unix_socket_path_ r ≠ ""%string ∨ is_Some (port_ r)).

Section Safety.
Context `{Hiredis}.

Notation safe := (keeps client_inv use_after_free).

Ltac not_uaf := intros ? [= <-] [|]; discriminate.

Lemma safe_ctx_err : safe ctx_err.
Proof.
  intros r [Ho He]. unfold ctx_err, client_inv, owns in *.
  destruct (context_ r) as [h|] eqn:Hc; simpl.
  - destruct Ho as [e Hl]. rewrite Hl, lookup_singleton_eq. simpl. rewrite Hc, Hl.
    split; [|done]. split; [by exists e|done].
  - rewrite Hc. split; [by split; [|left]|not_uaf].
Qed.

Lemma safe_ctx_bad : safe ctx_bad.
Proof.
  intros r Hr. unfold ctx_bad. destruct (context_ r); [by apply safe_ctx_err|done].
Qed.

(** An operation on the live context that may set its error flag. *)
Lemma client_inv_set_net r h e e' w :
  client_inv r → context_ r = Some h → ctxs r !! h = Some e →
  client_inv (set_net (<[h := e']> (ctxs r)) (next_ctx r) w r).
Proof.
  intros [Ho He] Hc Hl. unfold client_inv, owns in *. simpl. rewrite Hc in *.
  destruct Ho as [e0 ->]. split; [|done]. exists e'. by rewrite insert_singleton_eq.
Qed.

Lemma client_inv_live r h : client_inv r → context_ r = Some h → ∃ e, ctxs r !! h = Some e.
Proof.
  intros [Ho _] Hc. unfold owns in Ho. rewrite Hc in Ho. destruct Ho as [e ->].
  exists e. apply lookup_singleton_eq.
Qed.

Lemma safe_redisCommand args : safe (redisCommand args).
Proof.
  intros r Hr. unfold redisCommand. destruct (context_ r) as [h|] eqn:Hc; [|split; [done|not_uaf]].
  destruct (client_inv_live r h Hr Hc) as [e Hl]. rewrite Hl.
  destruct (hi_command e args (net r)) as [[rep e'] w].
  split; [by eapply client_inv_set_net|done].
Qed.

Lemma connect_clean ep t r r' :
  connects_cleanly → ctxs r = ∅ → connect_to ep t r = (Done tt, r') →
  (context_ r' = None ∧ ctxs r' = ∅) ∨ connected r'.
Proof.
  intros Hclean Hctx Hcon. specialize (Hclean ep t (net r)). unfold connect_to in Hcon.
  destruct (hi_connect ep t (net r)) as [[[]|] w]; simplify_eq/=; [|by left].
  right. exists (next_ctx r). by rewrite Hctx.
Qed.

Lemma connect_done ep t r : ∃ r', connect_to ep t r = (Done tt, r') ∧
  unix_socket_path_ r' = unix_socket_path_ r ∧ port_ r' = port_ r.
Proof. unfold connect_to. destruct (hi_connect _ _ _) as [[e|] w]; eauto. Qed.

(** After a clean connection attempt the error path frees nothing. *)
Lemma clean_bad r : (context_ r = None ∧ ctxs r = ∅) ∨ connected r →
  ctx_bad r = (Done (bool_decide (context_ r = None)), r).
Proof.
  unfold ctx_bad, ctx_err. intros [[-> ?]|(h & -> & Hl)]; [done|].
  by rewrite Hl, lookup_singleton_eq.
Qed.

Lemma clean_owns r : (context_ r = None ∧ ctxs r = ∅) ∨ connected r → owns r.
Proof. unfold owns. intros [[-> ?]|(h & -> & ->)]; [done|by exists false]. Qed.

Lemma free_context_owned r : owns r → ∃ r1, free_context r = (Done tt, r1) ∧ ctxs r1 = ∅ ∧
  context_ r1 = context_ r ∧ port_ r1 = port_ r ∧ unix_socket_path_ r1 = unix_socket_path_ r.
Proof.
  unfold free_context, owns. intros Hr. destruct (context_ r) as [h|] eqn:Hc; [|by exists r].
  destruct Hr as [e Hl]. rewrite Hl, lookup_singleton_eq. eexists. split; [done|].
  simpl. by rewrite delete_singleton_eq.
Qed.

(** Connect, then on an error clean up: the client stays well-formed. *)
Lemma connect_then ep t r {A} (tail : prog DRDSDataRedis A) a :
  connects_cleanly → ctxs r = ∅ → unix_socket_path_ r ≠ ""%string ∨ is_Some (port_ r) →
  (∀ r', (context_ r' = None ∧ ctxs r' = ∅) ∨ connected r' →
         ∃ r2, tail r' = (Done a, r2) ∧ context_ r2 = context_ r' ∧ ctxs r2 = ctxs r' ∧
               port_ r2 = port_ r' ∧ unix_socket_path_ r2 = unix_socket_path_ r') →
  ∃ r2, (connect_to ep t;; tail) r = (Done a, r2) ∧ client_inv r2.
Proof.
  intros Hclean Hctx Hep Htail. destruct (connect_done ep t r) as (r' & Hcon & Hu & Hp).
  rewrite (prog_bind_eq _ _ _ _ _ Hcon).
  pose proof (connect_clean _ _ _ _ Hclean Hctx Hcon) as Hr'.
  destruct (Htail r' Hr') as (r2 & Hrun & Hc2 & Hl2 & Hp2 & Hu2). exists r2. split; [done|].
  apply clean_owns in Hr'. unfold client_inv, owns in *.
  rewrite Hc2, Hl2, Hp2, Hu2, Hu, Hp. auto.
Qed.

Lemma safe_reconnect t : connects_cleanly → safe (reconnectIfNeeded t).
Proof.
  intros Hclean r [Ho He]. unfold reconnectIfNeeded.
  destruct (free_context_owned r Ho) as (r1 & Hfree & Hctx & Hc & Hp & Hu).
  rewrite (prog_bind_eq _ _ _ _ _ Hfree).
  assert (Htail : ∀ r', (context_ r' = None ∧ ctxs r' = ∅) ∨ connected r' →
    ∃ r2, (bad ← ctx_bad; (if (bad : bool) then free_context else mret tt);; mret true) r'
          = (Done true, r2) ∧ context_ r2 = context_ r' ∧ ctxs r2 = ctxs r' ∧
          port_ r2 = port_ r' ∧ unix_socket_path_ r2 = unix_socket_path_ r').
  { intros r' Hr'. rewrite (prog_bind_eq _ _ _ _ _ (clean_bad r' Hr')).
    exists r'. split; [|done]. destruct (context_ r') eqn:Hc'; [done|].
    rewrite bool_decide_true by done. redis_unfold. unfold free_context. by rewrite Hc'. }
  rewrite (prog_bind_eq _ _ _ _ _ (eq_refl : getS r1 = (Done r1, r1))).
  destruct (String.eqb_spec (unix_socket_path_ r1) "") as [Heq|Hne]; simpl.
  - destruct (port_ r1) as [port|] eqn:Hport.
    + destruct (connect_then (Tcp (host_ r1) port) t r1 _ true Hclean Hctx
        ltac:(rewrite Hport; eauto) Htail) as (r2 & Hrun & ?).
      by rewrite Hrun.
    + assert (context_ r1 = None) as Hnone.
      { rewrite Hc. destruct He as [|[|[? ?]]]; congruence. }
      simpl. split; [|not_uaf]. split; [unfold owns; by rewrite Hnone|by left].
  - destruct (connect_then (Unix (unix_socket_path_ r1)) t r1 _ true Hclean Hctx
      ltac:(auto) Htail) as (r2 & Hrun & ?).
    by rewrite Hrun.
Qed.

Lemma safe_handleConnectionErrors : connects_cleanly → safe handleConnectionErrors.
Proof.
  intros Hclean. apply keeps_bind; [apply safe_ctx_bad|].
  intros []; [by apply safe_reconnect|apply keeps_ret].
Qed.

Lemma safe_finish_set reply : connects_cleanly → safe (finish_set reply).
Proof.
  intros Hclean. destruct reply as [rep|]; simpl.
  - destruct (reply_type rep); apply keeps_ret.
  - apply keeps_bind; [apply safe_ctx_bad|]. intros _. by apply safe_handleConnectionErrors.
Qed.

Lemma safe_get_with {A} k (dflt : A) conv :
  connects_cleanly → (∀ s w, conv s = Undef w → ¬ use_after_free w) →
  safe (get_with k dflt conv).
Proof.
  intros Hclean Hconv. apply keeps_bind; [apply safe_redisCommand|]. intros [rep|].
  - apply keeps_bind; [apply safe_ctx_err|]. intros [].
    + apply keeps_bind; [by apply safe_handleConnectionErrors|intros; apply keeps_ret].
    + destruct (reply_str rep); [by apply keeps_liftO; eauto|].
      apply keeps_pure. intros r. split; [done|not_uaf].
  - apply keeps_bind; [by apply safe_handleConnectionErrors|intros; apply keeps_ret].
Qed.

Lemma safe_getBinary k : connects_cleanly → safe (getBinary k).
Proof.
  intros Hclean. apply keeps_bind; [apply safe_redisCommand|]. intros [rep|].
  - apply keeps_bind; [apply safe_ctx_err|]. intros [].
    + apply keeps_bind; [by apply safe_handleConnectionErrors|intros; apply keeps_ret].
    + destruct (reply_type rep), (reply_str rep); apply keeps_ret.
  - apply keeps_bind; [by apply safe_handleConnectionErrors|intros; apply keeps_ret].
Qed.

Lemma safe_isKeyExist k : safe (isKeyExist k).
Proof.
  apply keeps_bind; [apply safe_redisCommand|]. intros [rep|].
  - destruct (reply_type rep); apply keeps_ret.
  - apply keeps_bind; [apply safe_ctx_bad|intros; apply keeps_ret].
Qed.

Lemma safe_pipeline k d : safe (storeBinaryForPipline k d).
Proof.
  intros r Hr. unfold storeBinaryForPipline.
  destruct (context_ r) as [h|] eqn:Hc; [|split; [done|not_uaf]].
  destruct (client_inv_live r h Hr Hc) as [e Hl]. rewrite Hl.
  by destruct (hi_append _ _ _) as [ok w].
Qed.

Lemma safe_processSetRedisReply k : safe (processSetRedisReply k).
Proof.
  intros r Hr. unfold processSetRedisReply.
  destruct (context_ r) as [h|] eqn:Hc; [|split; [done|not_uaf]].
  destruct (client_inv_live r h Hr Hc) as [e Hl]. rewrite Hl.
  destruct (hi_get_reply e (net r)) as [[[ok rep] e'] w].
  pose proof (client_inv_set_net r h e e' w Hr Hc Hl).
  repeat case_match; simplify_eq/=; (split; [done|first [done|not_uaf]]).
Qed.

Lemma sto_signed_no_uaf w s m : sto_signed w s = Undef m → ¬ use_after_free m.
Proof. unfold sto_signed. repeat case_match; discriminate. Qed.

Lemma safe_run_op op : connects_cleanly → safe (run_op op).
Proof.
  intros Hclean.
  assert (Hseq : ∀ A (m : prog DRDSDataRedis A), safe m → safe (_ ← m; mret tt)).
  { intros. apply keeps_bind; [done|intros; apply keeps_ret]. }
  destruct op; apply Hseq; eauto using safe_isKeyExist, safe_getBinary, safe_pipeline,
    safe_processSetRedisReply.
  - apply keeps_bind; [apply safe_redisCommand|intros; by apply safe_finish_set].
  - destruct data as [[|]|]; [apply keeps_ret| |apply keeps_ret].
    apply keeps_bind; [apply safe_redisCommand|intros; by apply safe_finish_set].
  - apply safe_get_with; [done|]. intros s w Hw.
    destruct (sto_signed 32 s) eqn:?; simplify_eq/=. by eapply sto_signed_no_uaf.
  - apply safe_get_with; [done|]. intros s w Hw.
    destruct (sto_signed 64 s) eqn:?; simplify_eq/=. by eapply sto_signed_no_uaf.
  - apply safe_get_with; [done|]. discriminate.
Qed.

Lemma make_default_inv d r : connects_cleanly → ctxs r = ∅ →
  ∃ r', make_default d r = (Done tt, r') ∧ client_inv r'.
Proof.
  intros Hclean Hctx.
  assert (Htail : ∀ r', (context_ r' = None ∧ ctxs r' = ∅) ∨ connected r' →
    ∃ r2, (_ ← checkRedisConnection; mret tt) r' = (Done tt, r2) ∧
      context_ r2 = context_ r' ∧ ctxs r2 = ctxs r' ∧ port_ r2 = port_ r' ∧
      unix_socket_path_ r2 = unix_socket_path_ r').
  { intros r' Hr'. unfold checkRedisConnection. redis_unfold.
    rewrite (clean_bad r' Hr'). destruct (context_ r') eqn:Hc'.
    - rewrite bool_decide_false by done. simpl. eexists. done.
    - rewrite bool_decide_true by done. unfold free_context. rewrite Hc'. by eexists. }
  unfold make_default. rewrite (prog_bind_eq _ _ _ _ _
    (eq_refl : modifyS (raw_object (Some false)) r = (Done tt, raw_object (Some false) r))).
  destruct (String.eqb_spec (default_unix_socket_path d) "") as [Heq|Hne]; simpl.
  - destruct (negb _ && _).
    + apply (connect_then (Tcp (default_host d) (default_port d)) REDIS_TIMEOUT
        (set_tcp _ _ (raw_object (Some false) r)) _ tt); eauto.
    + eexists. split; [done|]. split; [done|by left].
  - apply (connect_then (Unix (default_unix_socket_path d)) REDIS_TIMEOUT
      (set_unix _ (raw_object (Some false) r)) _ tt); eauto.
Qed.
End Safety.

(** ** A concrete server for the witnesses: it answers every command, or loses
    every one, and its connection attempts give [conn]. *)
Definition demo_hiredis (lose : bool) (conn : option bool) : Hiredis := {|
  net_state := gmap string string;
  hi_connect _ _ w := (conn, w);
  hi_command e args w :=
    if lose then (None, true, w)
    else match args with
         | ["SET"%string; k; v] => (Some status_ok, e, <[k := v]> w)
         | ["GET"%string; k] => (Some (get_reply (w !! k)), e, w)
         | _ => (Some (get_reply None), e, w)
         end;
  hi_append _ args w :=
    match args with ["SET"%string; k; v] => (true, <[k := v]> w) | _ => (false, w) end;
  hi_get_reply e w := (true, Some status_ok, e, w)
|}.

Definition demo_server (lose : bool) (conn : option bool)
    : RedisServer (H := demo_hiredis lose conn) :=
  Build_RedisServer (demo_hiredis lose conn) (λ w, w) (λ _, True).

Lemma demo_server_ok : RedisServerOk (H := demo_hiredis false (Some false))
  (H0 := demo_server false (Some false)).
Proof. split; simpl; eauto. Defined.

Definition demo_defaults : redis_defaults := setDefaultConnectionInfo "" "127.0.0.1" 6379.

(** A client connected to the demo server [lose], [conn]. *)
Definition demo_client (lose : bool) (conn : option bool)
    : DRDSDataRedis (H := demo_hiredis lose conn) :=
  @Build_DRDSDataRedis (demo_hiredis lose conn)
    (Some 0%nat) "" "127.0.0.1" (Some 6379%Z) (Some true)
    {[0%nat := false]} 1 (∅ : gmap string string).

(** ** Properties *)

(** C14: on a connected client every typed write followed by the matching read
    returns the value written, over the whole range of the type: the printed
    text parses back (signed and unsigned 8 to 64-bit integers, booleans,
    bytes and double words, C strings). *)
Theorem typed_store_get_roundtrip `{RedisServerOk} d key r :
  connected r → srv_up (net r) → no_nul key = true →
  let _ := redis_store d in
  (∀ z, in_s 32 z → ((_ ← storeDInt key z; getDInt key) r).1 = Done z) ∧
  (∀ z, in_u 32 z → ((_ ← storeUDInt key z; getUDInt key) r).1 = Done z) ∧
  (∀ z, in_s 8 z → ((_ ← storeSInt key z; getSInt key) r).1 = Done z) ∧
  (∀ z, in_u 8 z → ((_ ← storeUSInt key z; getUSInt key) r).1 = Done z) ∧
  (∀ z, in_s 64 z → ((_ ← storeLInt key z; getLInt key) r).1 = Done z) ∧
  (∀ z, in_u 64 z → ((_ ← storeULInt key z; getULInt key) r).1 = Done z) ∧
  (∀ b, ((_ ← storeBool key b; getBool key) r).1 = Done b) ∧
  (∀ z, in_u 8 z → ((_ ← storeByte key z; getByte key) r).1 = Done z) ∧
  (∀ z, in_u 32 z → ((_ ← storeDWord key z; getDWord key) r).1 = Done z) ∧
  (∀ z, in_u 64 z → ((_ ← storeLWord key z; getLWord key) r).1 = Done z) ∧
  (∀ s, no_nul s = true → ((_ ← storeString key s; getString key) r).1 = Done s).
Proof.
  intros Hr Hup Hk kv.
  assert (Hrt : ∀ A v (dflt : A) conv a, no_nul v = true → conv v = Done a →
            ((_ ← storeValue key v; get_with key dflt conv) r).1 = Done a).
  { intros A v dflt conv a Hv Hconv.
    destruct (storeValue_connected key v r) as (r' & Hst & _); [done..|].
    rewrite (prog_bind_eq _ _ _ _ _ Hst).
    by rewrite (store_then_get key v dflt conv r r'). }
  repeat split.
  11: { intros s Hs. apply Hrt; [done|]. by rewrite c_str_id. }
  7: { intros b. apply Hrt; [apply no_nul_fmt_int|]. by destruct b. }
  all: intros z Hz; apply Hrt; [apply no_nul_fmt_int|];
    rewrite fmt_int_id by in_range;
    first [rewrite sto_signed_dec by in_range | rewrite sto_unsigned_dec by in_range];
    simpl; by rewrite ?wrap_s_id, ?wrap_u_id by first [lia|done].
Qed.

Lemma typed_store_get_roundtrip_witness :
  let _ := redis_store (H := demo_hiredis false (Some false))
             (H0 := demo_server false (Some false)) demo_defaults in
  ((_ ← storeLInt "k" (-9223372036854775808); getLInt "k")
     (demo_client false (Some false))).1 = Done (-9223372036854775808)%Z.
Proof.
  assert (connected (demo_client false (Some false))) as Hc by (by exists 0%nat).
  destruct (@typed_store_get_roundtrip _ _ demo_server_ok demo_defaults "k"
    (demo_client false (Some false)) Hc I eq_refl) as (_ & _ & _ & _ & HL & _).
  apply HL. by vm_compute.
Defined.

(** C17: for any sequence of calls between the construction and the
    destruction of a default client, its exceptions being caught, no context
    is used after it was freed or freed twice, and when the scope completes
    every context has been released, provided that connection attempts never
    return a context in error. *)
Theorem client_scope_memory_safe `{Hiredis} d ops r :
  connects_cleanly → ctxs r = ∅ →
  (∀ w, (client_scope d ops r).1 = Undef w → ¬ use_after_free w) ∧
  ((client_scope d ops r).1 = Done tt → ctxs (client_scope d ops r).2 = ∅).
Proof.
  intros Hclean Hctx. unfold client_scope.
  destruct (make_default_inv d r Hclean Hctx) as (r1 & Hmk & Hinv).
  rewrite (prog_bind_eq _ _ _ _ _ Hmk).
  destruct (keeps_iterS client_inv use_after_free ops
    (λ op, catchS (run_op op) (λ _, mret tt))) with (s := r1) as [Hinv2 Hbad]; [|done|].
  { intros op. apply keeps_catchS; [by apply safe_run_op|intros; apply keeps_ret]. }
  unfold mbind at 1 2 3, prog_bind. destruct (iterS ops _ r1) as [[[]|e|w] r2]; simpl in *.
  - destruct (free_context_owned r2) as (r3 & Hf & ? & _); [apply Hinv2|].
    unfold destroy. by rewrite Hf.
  - done.
  - split; [|done]. intros ? [= <-]. by apply Hbad.
Qed.

Lemma client_scope_memory_safe_witness :
  let r := client_scope (H := demo_hiredis true (Some false)) demo_defaults
             [OpStore "a" "1"; OpGetString "a"]
             (@set_ctxs (demo_hiredis true (Some false)) ∅ (demo_client true (Some false))) in
  r.1 = Done tt ∧ ctxs r.2 = ∅.
Proof.
  intros r. assert (r.1 = Done tt) as Hr by (by vm_compute).
  split; [done|]. revert Hr. subst r.
  by apply (client_scope_memory_safe (H := demo_hiredis true (Some false)) demo_defaults).
Defined.

(** A write whose command is lost (no reply, the context in error) is
    reported as stored once the reconnection succeeds: the call returns true,
    the client is connected again, and the server still has the old data,
    the command never being sent again. *)
Theorem lost_write_reported_stored `{RedisServer} k v r h w1 w2 port :
  context_ r = Some h → ctxs r = {[h := false]} →
  hi_command false ["SET"%string; c_str k; c_str v] (net r) = (None, true, w1) →
  srv w1 = srv (net r) →
  unix_socket_path_ r = ""%string → port_ r = Some port →
  hi_connect (Tcp (host_ r) port) 3000 w1 = (Some false, w2) → srv w2 = srv w1 →
  ∃ r', storeValue k v r = (Done true, r') ∧ connected r' ∧ srv (net r') = srv (net r).
Proof.
  intros Hc Hl Hcmd Hw1 Hu Hp Hcon Hw2. destruct r; simplify_eq/=.
  eexists. split; [by redis_run; rewrite Hcmd; redis_run; rewrite Hcon; redis_run|].
  simpl. split; [|congruence]. eexists. split; [done|]. simpl.
  by rewrite insert_singleton_eq, delete_singleton_eq.
Qed.

Lemma lost_write_reported_stored_witness :
  ∃ r', storeValue "k" "v" (demo_client true (Some false)) = (Done true, r') ∧
        connected r' ∧ net r' = (∅ : gmap string string).
Proof.
  by apply (@lost_write_reported_stored (demo_hiredis true (Some false))
    (demo_server true (Some false)) "k" "v" (demo_client true (Some false))
    0%nat (∅ : gmap string string) (∅ : gmap string string) 6379).
Defined.

(** C39: when the reconnection gives a context in error, the client frees it
    and keeps the pointer: the write reports success, and the next write on
    the same object uses a freed context (the destructor frees it again). *)
Theorem failed_reconnect_dangles `{Hiredis} k v r h w1 w2 port :
  context_ r = Some h → ctxs r = {[h := false]} →
  hi_command false ["SET"%string; c_str k; c_str v] (net r) = (None, true, w1) →
  unix_socket_path_ r = ""%string → port_ r = Some port →
  hi_connect (Tcp (host_ r) port) 3000 w1 = (Some true, w2) →
  ∃ r', storeValue k v r = (Done true, r') ∧
        (∀ k' v', (storeValue k' v' r').1 = Undef "context used after free") ∧
        (destroy r').1 = Undef "context freed twice".
Proof.
  intros Hc Hl Hcmd Hu Hp Hcon. destruct r; simplify_eq/=.
  eexists. split; [by redis_run; rewrite Hcmd; redis_run; rewrite Hcon; redis_run|].
  split; [intros k' v'|unfold destroy]; by redis_run.
Qed.

Lemma failed_reconnect_dangles_witness :
  ∃ r', storeValue "k" "v" (demo_client true (Some true)) = (Done true, r') ∧
        (∀ k' v', (storeValue k' v' r').1 = Undef "context used after free") ∧
        (destroy r').1 = Undef "context freed twice".
Proof.
  by apply (@failed_reconnect_dangles (demo_hiredis true (Some true)) "k" "v"
    (demo_client true (Some true)) 0%nat (∅ : gmap string string)
    (∅ : gmap string string) 6379).
Defined.

(** Reading a key that the server does not have builds a std::string from
    the null string of the nil reply: undefined behaviour in every getter
    but getBinary, which reports false. *)
Theorem get_missing_key `{RedisServerOk} key r :
  connected r → srv_up (net r) → no_nul key = true → srv (net r) !! key = None →
  (∀ A (dflt : A) conv,
     (get_with key dflt conv r).1 = Undef "string built from a null reply") ∧
  (getBinary key r).1 = Done (false, None).
Proof.
  intros Hr Hup Hk Hs.
  destruct (srv_get key (net r) Hup) as (w & Hget & _).
  destruct (redisCommand_connected _ _ _ _ Hr Hget) as (r' & Hcmd & (h & Hc & Hl) & _).
  unfold get_with, getBinary. rewrite c_str_id by done.
  split; [intros A dflt conv|]; rewrite (prog_bind_eq _ _ _ _ _ Hcmd), Hs; simpl;
    redis_unfold; unfold ctx_err; by rewrite Hc, Hl, lookup_singleton_eq.
Qed.

Lemma get_missing_key_witness :
  (getDInt "absent" (demo_client false (Some false))).1
    = Undef "string built from a null reply".
Proof.
  assert (connected (demo_client false (Some false))) as Hc by (by exists 0%nat).
  destruct (@get_missing_key _ _ demo_server_ok "absent"
    (demo_client false (Some false)) Hc I eq_refl eq_refl) as [Hget _].
  apply Hget.
Defined.
