(* ===== verification/Yaml.v ===== *)
(** * YAML documents as the configuration code sees them

    The part of the yaml-cpp [Node] interface that [common/config/config.cc]
    calls, translated from the library's header templates
    ([thirdparty/yaml-cpp/x86/include/yaml-cpp/node/impl.h] and
    [node/detail/impl.h]): checked subscripts, node kinds, conversions.  The
    text-to-number conversions sit on C++ streams and on compiled code; they
    are the operations of the class [YamlConvert]. *)

From Stdlib Require Import ZArith String SpecFloat.
From stdpp Require Import base tactics option list numbers strings.
From S2P Require Import Prelude.

(** A loaded document.  Keys of a map are nodes themselves. *)
Inductive Yaml : Type :=
| YNull
| YScalar (text : string)
| YSeq (items : list Yaml)
| YMap (pairs : list (Yaml * Yaml)).

(** A [YAML::Node] handle: valid, or the zombie that a failed const lookup
    returns (it remembers the key that was missing). *)
Inductive Node : Type :=
| NValid (y : Yaml)
| NZombie (key : string).

(** [node::equals(const char* )]: only scalar keys can equal a string. *)
Definition key_equals (k : Yaml) (key : string) : bool :=
  match k with
  | YScalar s => String.eqb s key
  | _ => false
  end.

(** The map lookup of [node_data::get]: the first pair whose key matches. *)
Fixpoint map_find (pairs : list (Yaml * Yaml)) (key : string) : option Yaml :=
  match pairs with
  | [] => None
  | (k, v) :: rest => if key_equals k key then Some v else map_find rest key
  end.

(** [const Node Node::operator[](const char* key) const]. *)
Definition node_index (n : Node) (key : string) : outcome Node :=
  match n with
  | NZombie k => Threw (InvalidNode k)
  | NValid (YMap pairs) =>
      match map_find pairs key with
      | Some v => Done (NValid v)
      | None => Done (NZombie key)
      end
  | NValid (YScalar _) => Threw BadSubscript
  | NValid YNull => Done (NZombie key)
  | NValid (YSeq _) => Done (NZombie key)
  end.

(** [Node::IsDefined]; [!node] and [if (node)] are its negation and itself. *)
Definition IsDefined (n : Node) : bool :=
  match n with NValid _ => true | NZombie _ => false end.

(** [IsNull], [IsSequence], [IsScalar] go through [Type()], which throws on a
    zombie. *)
Definition IsNull (n : Node) : outcome bool :=
  match n with
  | NZombie k => Threw (InvalidNode k)
  | NValid YNull => Done true
  | NValid _ => Done false
  end.

Definition IsSequence (n : Node) : outcome bool :=
  match n with
  | NZombie k => Threw (InvalidNode k)
  | NValid (YSeq _) => Done true
  | NValid _ => Done false
  end.

Definition IsScalar (n : Node) : outcome bool :=
  match n with
  | NZombie k => Threw (InvalidNode k)
  | NValid (YScalar _) => Done true
  | NValid _ => Done false
  end.

(** The nodes a range-[for] over a sequence visits. *)
Definition seq_items (n : Node) : list Node :=
  match n with
  | NValid (YSeq items) => NValid <$> items
  | _ => []
  end.

(** The stream conversions [YAML::convert<T>::decode] for the element types
    that the configuration uses: [None] when the text is not such a value. *)
Class YamlConvert : Type := {
  decode_int : string → option Z;           (* convert<int> *)
  decode_uint16 : string → option Z;        (* convert<unsigned short> *)
  decode_float : string → option spec_float; (* convert<float> *)
  decode_bool : string → option bool        (* convert<bool> *)
}.

(** What [operator>>] guarantees of a successful conversion: the value is one
    of the target type. *)
Class YamlConvertOk `{YamlConvert} : Prop := {
  decode_int_range s z : decode_int s = Some z → in_s 32 z;
  decode_uint16_range s z : decode_uint16 s = Some z → in_u 16 z
}.

(** [Node::as<std::string>()]. *)
Definition as_string (n : Node) : outcome string :=
  match n with
  | NZombie k => Threw (InvalidNode k)
  | NValid YNull => Done "null"%string
  | NValid (YScalar s) => Done s
  | NValid _ => Threw BadConversion
  end.

(** [Node::as<T>()] for the streamable types and [bool]. *)
Definition as_with {T} (decode : string → option T) (n : Node) : outcome T :=
  match n with
  | NZombie k => Threw (InvalidNode k)
  | NValid (YScalar s) =>
      match decode s with
      | Some t => Done t
      | None => Threw BadConversion
      end
  | NValid _ => Threw BadConversion
  end.

Section Access.
Context `{YamlConvert}.

(** [n["key"].as<T>()], the chains that the parsers are made of. *)
Definition get_string (n : Node) (key : string) : outcome string :=
  m ← node_index n key; as_string m.
Definition get_int (n : Node) (key : string) : outcome Z :=
  m ← node_index n key; as_with decode_int m.
Definition get_uint16 (n : Node) (key : string) : outcome Z :=
  m ← node_index n key; as_with decode_uint16 m.
Definition get_float (n : Node) (key : string) : outcome spec_float :=
  m ← node_index n key; as_with decode_float m.
Definition get_bool (n : Node) (key : string) : outcome bool :=
  m ← node_index n key; as_with decode_bool m.

(** [n["key"].IsNull()] and friends. *)
Definition key_is_null (n : Node) (key : string) : outcome bool :=
  m ← node_index n key; IsNull m.
Definition key_is_scalar (n : Node) (key : string) : outcome bool :=
  m ← node_index n key; IsScalar m.
Definition key_is_sequence (n : Node) (key : string) : outcome bool :=
  m ← node_index n key; IsSequence m.
End Access.

(** [a || b] on conditions that can throw: [b] runs only when [a] is false. *)
Definition orO (a b : outcome bool) : outcome bool :=
  x ← a; if (x : bool) then Done true else b.

(** [a && b]. *)
Definition andO (a b : outcome bool) : outcome bool :=
  x ← a; if (x : bool) then b else Done false.

Definition notO (a : outcome bool) : outcome bool := x ← a; Done (negb x).

(** ** Lemmas *)

(** Reading a key that a map node does not have raises [InvalidNode] with the
    key: there is no reading it as "absent". *)
Lemma key_is_null_absent pairs key :
  map_find pairs key = None →
  key_is_null (NValid (YMap pairs)) key = Threw (InvalidNode key).
Proof. unfold key_is_null. simpl. by intros ->. Qed.

Lemma get_string_absent pairs key :
  map_find pairs key = None →
  get_string (NValid (YMap pairs)) key = Threw (InvalidNode key).
Proof. unfold get_string. simpl. by intros ->. Qed.

Lemma get_string_present pairs key s :
  map_find pairs key = Some (YScalar s) →
  get_string (NValid (YMap pairs)) key = Done s.
Proof. unfold get_string. simpl. by intros ->. Qed.

Lemma key_is_null_present pairs key s :
  map_find pairs key = Some (YScalar s) →
  key_is_null (NValid (YMap pairs)) key = Done false.
Proof. unfold key_is_null. simpl. by intros ->. Qed.

Lemma get_uint16_range `{YamlConvertOk} n key z :
  get_uint16 n key = Done z → in_u 16 z.
Proof.
  unfold get_uint16. intros Hz.
  apply outcome_bind_Done in Hz as (m & _ & Hm).
  destruct m as [[]|]; simplify_eq/=. gw_cases. by eapply decode_uint16_range.
Qed.

#[export] Hint Resolve get_uint16_range : gw.
