(* ===== verification/Config.v ===== *)
(** * Configuration: the data model and the YAML parsers

    [common/config/config.h] (the structures, one Module per C++ struct, and
    the lookups of [ConfigData]) and [common/config/config.cc] ([Config::init],
    [loadConfig] and the three section parsers).  A parser is a stateful
    program over [ConfigData]: the devices it stored before an exception or a
    [return false] stay stored, as in the C++ code. *)

From Stdlib Require Import ZArith String SpecFloat DecimalString Lia.
From stdpp Require Import base tactics option list numbers strings gmap.
From S2P Require Import Prelude Yaml.

Module ConfigDataModbus.

Inductive data_type_e : Type :=
| UNKNOWN | INT16 | UINT16 | INT32 | UINT32 | FLOAT32 | STRING.

Record TCP := { ip : string; port : Z }.

Record RTU := { port_name : string; baudrate : Z; parity : string }.

Record data_points_t := {
  name : string;
  address : Z;              (* uint16_t *)
  type : string;
  data_type : data_type_e;
  scale : spec_float;
  offset : spec_float
}.

Definition getDataType (type : string) : data_type_e :=
  if String.eqb type "int16" then INT16
  else if String.eqb type "uint16" then UINT16
  else if String.eqb type "int32" then INT32
  else if String.eqb type "uint32" then UINT32
  else if String.eqb type "float32" then FLOAT32
  else UNKNOWN.

Definition getDataTypeString (type : data_type_e) : string :=
  match type with
  | INT16 => "int16"
  | UINT16 => "uint16"
  | INT32 => "int32"
  | UINT32 => "uint32"
  | FLOAT32 => "float32"
  | _ => "unknown"
  end.

(** In bytes. *)
Definition getDataSize (type : data_type_e) : Z :=
  match type with
  | INT16 | UINT16 => 2
  | INT32 | UINT32 | FLOAT32 => 4
  | _ => 0
  end.

Record t := {
  device_id : string;
  Type_ : string;
  tcp : TCP;
  rtu : RTU;
  slave_addr : Z;
  cmd_interval : Z;
  max_retries : Z;
  retry_interval : Z;
  byte_order : string;
  data_points : list data_points_t
}.

#[global] Instance data_type_e_eq_dec : EqDecision data_type_e.
Proof. solve_decision. Defined.
End ConfigDataModbus.

Module ConfigDataIEC61850.
Record t := {
  device_id : string;
  ip : string;
  icd_file_path : string;
  access_point : string;
  logical_device : string;
  client_mms_name : string;
  port : Z;
  poll_interval : Z;
  max_retries : Z;
  retry_interval : Z;
  report_enabled : bool;
  goose_enabled : bool;
  tls_enabled : bool;
  description : string;
  data_point_filters : list string
}.
End ConfigDataIEC61850.

Module ConfigDataIEC104.
Record TCP := { ip : string; port : Z }.
Record LocalAddress := { local_ip : string; local_port : Z }.
Record APCI := { t0 : Z; t1 : Z; t2 : Z; t3 : Z; k : Z; w : Z }.
Record ApplicationLayer :=
  { originator_address : Z; common_address : Z; asdu_size : Z }.
Record Protocol := { apci : APCI; application_layer : ApplicationLayer }.
Record Report := { report_ioa : Z; report_id : string }.
Record Communication :=
  { gi_interval_ms : Z; report_enabled : bool; reports : list Report }.
Record ErrorHandling :=
  { reconnect_interval_ms : Z; max_reconnect_attempts : Z }.
Record DataPoint :=
  { ioa : Z; dp_type : string; description : string; iec61850_path : string }.

Record t := {
  device_id : string;
  type : string;
  tcp : TCP;
  local_address : LocalAddress;
  protocol : Protocol;
  communication : Communication;
  error_handling : ErrorHandling;
  data_points : list DataPoint
}.
End ConfigDataIEC104.

(** The three sections of a configuration, keyed by device id
    ([std::unordered_map]). *)
Record ConfigData := {
  modbus : gmap string ConfigDataModbus.t;
  iec61850 : gmap string ConfigDataIEC61850.t;
  iec104 : gmap string ConfigDataIEC104.t
}.

Definition ConfigData_empty : ConfigData :=
  {| modbus := ∅; iec61850 := ∅; iec104 := ∅ |}.

(** [ConfigData::getModbus] and friends: [None] is [nullptr]. *)
Definition getModbus (cd : ConfigData) (deviceId : string) := modbus cd !! deviceId.
Definition getIec61850 (cd : ConfigData) (deviceId : string) := iec61850 cd !! deviceId.
Definition getIec104 (cd : ConfigData) (deviceId : string) := iec104 cd !! deviceId.

(** [data->modbus[id] = c] and its two siblings. *)
Definition set_modbus (id : string) (c : ConfigDataModbus.t) (cd : ConfigData) : ConfigData :=
  {| modbus := <[id := c]> (modbus cd); iec61850 := iec61850 cd; iec104 := iec104 cd |}.
Definition set_iec61850 (id : string) (c : ConfigDataIEC61850.t) (cd : ConfigData) : ConfigData :=
  {| modbus := modbus cd; iec61850 := <[id := c]> (iec61850 cd); iec104 := iec104 cd |}.
Definition set_iec104 (id : string) (c : ConfigDataIEC104.t) (cd : ConfigData) : ConfigData :=
  {| modbus := modbus cd; iec61850 := iec61850 cd; iec104 := <[id := c]> (iec104 cd) |}.

(** The section loop shared by the three parsers: parse one device, store it,
    or leave the loop with [return false]. *)
Definition store_devices {D} (parse : Node → outcome (option D))
    (id : D → string) (store : string → D → ConfigData → ConfigData)
    (nodes : list Node) : prog ConfigData bool :=
  forS nodes (λ node,
    r ← liftO (parse node);
    match r with
    | Some d => modifyS (store (id d) d);; mret true
    | None => mret false
    end).

(** The head of the three parsers: a missing section is legal, a section that
    is not a sequence is not. *)
Definition parse_section (config : Node) (section : string)
    (body : list Node → prog ConfigData bool) : prog ConfigData bool :=
  devicesNode ← liftO (node_index config section);
  if negb (IsDefined devicesNode) then mret true
  else
    is_seq ← liftO (IsSequence devicesNode);
    if negb is_seq then mret false else body (seq_items devicesNode).

(** [for (...) { ...; if (bad) return false; out.push_back(x); }] *)
Fixpoint parse_items {X} (f : Node → outcome (option X)) (l : list Node)
    : outcome (option (list X)) :=
  match l with
  | [] => Done (Some [])
  | n :: l' =>
      r ← f n;
      match r with
      | None => Done None
      | Some x =>
          rs ← parse_items f l';
          Done (match rs with None => None | Some xs => Some (x :: xs) end)
      end
  end.

Section Parsers.
Context `{YamlConvert}.

(** *** Modbus *)

Definition parse_modbus_point (point : Node)
    : outcome (option ConfigDataModbus.data_points_t) :=
  name ← get_string point "name";
  address ← get_uint16 point "address";
  type ← get_string point "type";
  scale ← get_float point "scale";
  offset ← get_float point "offset";
  dt ← get_string point "data_type";
  let data_type := ConfigDataModbus.getDataType dt in
  if bool_decide (data_type = ConfigDataModbus.UNKNOWN) then Done None
  else Done (Some {| ConfigDataModbus.name := name;
                     ConfigDataModbus.address := address;
                     ConfigDataModbus.type := type;
                     ConfigDataModbus.data_type := data_type;
                     ConfigDataModbus.scale := scale;
                     ConfigDataModbus.offset := offset |}).

(** The [TCP]/[RTU] branches: the transport that is not selected gets its
    default values. *)
Definition parse_modbus_transport (deviceNode : Node) (Type_ : string)
    : outcome (option (ConfigDataModbus.TCP * ConfigDataModbus.RTU)) :=
  if String.eqb Type_ "TCP" then
    tcp ← node_index deviceNode "TCP";
    bad ← orO (Done (negb (IsDefined tcp)))
            (orO (key_is_null tcp "ip") (key_is_null tcp "port"));
    if (bad : bool) then Done None
    else
      ip ← get_string tcp "ip";
      port ← get_int tcp "port";
      Done (Some ({| ConfigDataModbus.ip := ip; ConfigDataModbus.port := port |},
                  {| ConfigDataModbus.port_name := "";
                     ConfigDataModbus.baudrate := 0;
                     ConfigDataModbus.parity := "" |}))
  else if String.eqb Type_ "RTU" then
    rtu ← node_index deviceNode "RTU";
    bad ← orO (Done (negb (IsDefined rtu)))
            (orO (key_is_null rtu "port_name")
              (orO (key_is_null rtu "baudrate") (key_is_null rtu "parity")));
    if (bad : bool) then Done None
    else
      port_name ← get_string rtu "port_name";
      baudrate ← get_int rtu "baudrate";
      parity ← get_string rtu "parity";
      Done (Some ({| ConfigDataModbus.ip := "0.0.0.0"; ConfigDataModbus.port := 0 |},
                  {| ConfigDataModbus.port_name := port_name;
                     ConfigDataModbus.baudrate := baudrate;
                     ConfigDataModbus.parity := parity |}))
  else Done None.

Definition parse_modbus_device (deviceNode : Node)
    : outcome (option ConfigDataModbus.t) :=
  _ ← get_string deviceNode "device_id";      (* the log line *)
  device_id ← get_string deviceNode "device_id";
  Type_ ← get_string deviceNode "type";
  slave_addr ← get_int deviceNode "slave_addr";
  cmd_interval ← get_int deviceNode "cmd_interval";
  max_retries ← get_int deviceNode "max_retries";
  retry_interval ← get_int deviceNode "retry_interval";
  byte_order ← get_string deviceNode "byte_order";
  transport ← parse_modbus_transport deviceNode Type_;
  match transport with
  | None => Done None
  | Some (tcp, rtu) =>
      points ← node_index deviceNode "data_points";
      bad ← orO (Done (negb (IsDefined points))) (notO (IsSequence points));
      if (bad : bool) then Done None
      else
        data_points ← parse_items parse_modbus_point (seq_items points);
        match data_points with
        | None => Done None
        | Some ps =>
            Done (Some {| ConfigDataModbus.device_id := device_id;
                          ConfigDataModbus.Type_ := Type_;
                          ConfigDataModbus.tcp := tcp;
                          ConfigDataModbus.rtu := rtu;
                          ConfigDataModbus.slave_addr := slave_addr;
                          ConfigDataModbus.cmd_interval := cmd_interval;
                          ConfigDataModbus.max_retries := max_retries;
                          ConfigDataModbus.retry_interval := retry_interval;
                          ConfigDataModbus.byte_order := byte_order;
                          ConfigDataModbus.data_points := ps |})
        end
  end.

Definition parseModbusConfig (config : Node) : prog ConfigData bool :=
  parse_section config "ModbusDevices"
    (store_devices parse_modbus_device ConfigDataModbus.device_id set_modbus).

(** *** IEC 61850 *)

(** One [if (node[key].IsNull()) return false; x = node[key].as<T>();] pair:
    [None] is the [return false]. *)
Definition nonnull {T} (get : Node → string → outcome T) (node : Node)
    (key : string) : outcome (option T) :=
  b ← key_is_null node key;
  if (b : bool) then Done None else v ← get node key; Done (Some v).

(** [x ← a or return false; k x] *)
Definition or_return {T D} (a : outcome (option T))
    (k : T → outcome (option D)) : outcome (option D) :=
  r ← a;
  match r with Some x => k x | None => Done None end.

(** [item.as<std::string>().empty()]. *)
Definition string_is_empty (o : outcome string) : outcome bool :=
  s ← o; Done (String.eqb s "").

Definition parse_61850_filter (item : Node) : outcome (option string) :=
  bad ← orO (notO (IsScalar item)) (string_is_empty (as_string item));
  if (bad : bool) then Done None else s ← as_string item; Done (Some s).

Definition parse_61850_device (node : Node)
    : outcome (option ConfigDataIEC61850.t) :=
  _ ← get_string node "device_id";            (* the log line *)
  device_id ← get_string node "device_id";
  ip ← get_string node "ip";
  icd_file_path ← get_string node "icd_file";
  access_point ← get_string node "access_point";
  logical_device ← get_string node "logical_device";
  client_mms_name ← get_string node "client_mms_name";
  or_return (nonnull get_int node "port") (λ port,
  or_return (nonnull get_int node "poll_interval") (λ poll_interval,
  or_return (nonnull get_int node "max_retries") (λ max_retries,
  or_return (nonnull get_int node "retry_interval") (λ retry_interval,
  or_return (nonnull get_bool node "report_enabled") (λ report_enabled,
  or_return (nonnull get_bool node "goose_enabled") (λ goose_enabled,
  or_return (nonnull get_bool node "tls_enabled") (λ tls_enabled,
  bad ← orO (key_is_null node "description")
          (orO (notO (key_is_scalar node "description"))
             (string_is_empty (get_string node "description")));
  if (bad : bool) then Done None
  else
    description ← get_string node "description";
    bad ← orO (key_is_null node "data_point_filters")
            (notO (key_is_sequence node "data_point_filters"));
    if (bad : bool) then Done None
    else
      filters ← node_index node "data_point_filters";
      or_return (parse_items parse_61850_filter (seq_items filters)) (λ fs,
        Done (Some {| ConfigDataIEC61850.device_id := device_id;
                      ConfigDataIEC61850.ip := ip;
                      ConfigDataIEC61850.icd_file_path := icd_file_path;
                      ConfigDataIEC61850.access_point := access_point;
                      ConfigDataIEC61850.logical_device := logical_device;
                      ConfigDataIEC61850.client_mms_name := client_mms_name;
                      ConfigDataIEC61850.port := port;
                      ConfigDataIEC61850.poll_interval := poll_interval;
                      ConfigDataIEC61850.max_retries := max_retries;
                      ConfigDataIEC61850.retry_interval := retry_interval;
                      ConfigDataIEC61850.report_enabled := report_enabled;
                      ConfigDataIEC61850.goose_enabled := goose_enabled;
                      ConfigDataIEC61850.tls_enabled := tls_enabled;
                      ConfigDataIEC61850.description := description;
                      ConfigDataIEC61850.data_point_filters := fs |})
      )))))))).

Definition parse61850Config (config : Node) : prog ConfigData bool :=
  parse_section config "IEC61850Devices"
    (store_devices parse_61850_device ConfigDataIEC61850.device_id set_iec61850).

(** *** IEC 60870-5-104 *)

(** [n[key].IsNull() || n[key].as<std::string>().empty()]. *)
Definition null_or_empty (n : Node) (key : string) : outcome bool :=
  orO (key_is_null n key) (string_is_empty (get_string n key)).

Definition parse_104_report (report_node : Node)
    : outcome (option ConfigDataIEC104.Report) :=
  ioa ← get_int report_node "ioa";
  bad ← null_or_empty report_node "report_id";
  if (bad : bool) then Done None
  else
    report_id ← get_string report_node "report_id";
    Done (Some {| ConfigDataIEC104.report_ioa := ioa;
                  ConfigDataIEC104.report_id := report_id |}).

Definition parse_104_point (dp_node : Node)
    : outcome (option ConfigDataIEC104.DataPoint) :=
  ioa ← get_int dp_node "ioa";
  type ← get_string dp_node "type";
  bad ← null_or_empty dp_node "description";
  if (bad : bool) then Done None
  else
    description ← get_string dp_node "description";
    bad ← null_or_empty dp_node "iec61850_path";
    if (bad : bool) then Done None
    else
      iec61850_path ← get_string dp_node "iec61850_path";
      Done (Some {| ConfigDataIEC104.ioa := ioa;
                    ConfigDataIEC104.dp_type := type;
                    ConfigDataIEC104.description := description;
                    ConfigDataIEC104.iec61850_path := iec61850_path |}).

Definition parse_104_protocol (node : Node) : outcome ConfigDataIEC104.Protocol :=
  protocol ← node_index node "protocol";
  apci_node ← node_index protocol "apci";
  t0 ← get_int apci_node "t0";
  t1 ← get_int apci_node "t1";
  t2 ← get_int apci_node "t2";
  t3 ← get_int apci_node "t3";
  k ← get_int apci_node "k";
  w ← get_int apci_node "w";
  protocol ← node_index node "protocol";
  app_node ← node_index protocol "application_layer";
  originator_address ← get_int app_node "originator_address";
  common_address ← get_int app_node "common_address";
  asdu_size ← get_int app_node "asdu_size";
  Done {| ConfigDataIEC104.apci :=
            {| ConfigDataIEC104.t0 := t0; ConfigDataIEC104.t1 := t1;
               ConfigDataIEC104.t2 := t2; ConfigDataIEC104.t3 := t3;
               ConfigDataIEC104.k := k; ConfigDataIEC104.w := w |};
          ConfigDataIEC104.application_layer :=
            {| ConfigDataIEC104.originator_address := originator_address;
               ConfigDataIEC104.common_address := common_address;
               ConfigDataIEC104.asdu_size := asdu_size |} |}.

Definition parse_104_communication (comm_node : Node)
    : outcome (option ConfigDataIEC104.Communication) :=
  gi_interval_ms ← get_int comm_node "gi_interval_ms";
  report_enabled ← get_bool comm_node "report_enabled";
  bad ← orO (key_is_null comm_node "reports")
          (notO (key_is_sequence comm_node "reports"));
  if (bad : bool) then Done None
  else
    reports_node ← node_index comm_node "reports";
    or_return (parse_items parse_104_report (seq_items reports_node)) (λ rs,
      Done (Some {| ConfigDataIEC104.gi_interval_ms := gi_interval_ms;
                    ConfigDataIEC104.report_enabled := report_enabled;
                    ConfigDataIEC104.reports := rs |})).

Definition parse_104_device (node : Node) : outcome (option ConfigDataIEC104.t) :=
  device_id ← get_string node "device_id";
  type ← get_string node "type";
  tcp_node ← node_index node "TCP";
  tcp_ip ← get_string tcp_node "ip";
  tcp_port ← get_int tcp_node "port";
  local_node ← node_index node "local_address";
  bad ← orO (key_is_null local_node "ip") (notO (key_is_scalar local_node "ip"));
  if (bad : bool) then Done None
  else
    local_ip ← get_string local_node "ip";
    or_return (nonnull get_int local_node "port") (λ local_port,
    protocol ← parse_104_protocol node;
    comm_node ← node_index node "communication";
    or_return (parse_104_communication comm_node) (λ communication,
    err_node ← node_index node "error_handling";
    reconnect_interval_ms ← get_int err_node "reconnect_interval_ms";
    max_reconnect_attempts ← get_int err_node "max_reconnect_attempts";
    dps ← node_index node "data_points";
    has_points ← andO (Done (IsDefined dps)) (IsSequence dps);
    or_return
      (if (has_points : bool) then parse_items parse_104_point (seq_items dps)
       else Done (Some []))
      (λ data_points,
        Done (Some {| ConfigDataIEC104.device_id := device_id;
                      ConfigDataIEC104.type := type;
                      ConfigDataIEC104.tcp :=
                        {| ConfigDataIEC104.ip := tcp_ip;
                           ConfigDataIEC104.port := tcp_port |};
                      ConfigDataIEC104.local_address :=
                        {| ConfigDataIEC104.local_ip := local_ip;
                           ConfigDataIEC104.local_port := local_port |};
                      ConfigDataIEC104.protocol := protocol;
                      ConfigDataIEC104.communication := communication;
                      ConfigDataIEC104.error_handling :=
                        {| ConfigDataIEC104.reconnect_interval_ms := reconnect_interval_ms;
                           ConfigDataIEC104.max_reconnect_attempts := max_reconnect_attempts |};
                      ConfigDataIEC104.data_points := data_points |})))).

Definition parse104Config (config : Node) : prog ConfigData bool :=
  parse_section config "IEC104Devices"
    (store_devices parse_104_device ConfigDataIEC104.device_id set_iec104).

(** *** [Config]: the singleton holding the data ([None] before [init]) *)

(** [YAML::LoadFile], compiled code: the parsed root, or an exception. *)
Context (LoadFile : string → outcome Yaml).

(** Run a parser on the data that [loadConfig] has made sure exists. *)
Definition on_data (p : prog ConfigData bool) : prog (option ConfigData) bool :=
  λ s, match s with
       | Some cd => let '(r, cd') := p cd in (r, Some cd')
       | None => (Undef "null data", None)
       end.

(** Each parser's [false] is only logged. *)
Definition loadConfig (filename : string) : prog (option ConfigData) unit :=
  root ← liftO (LoadFile filename);
  modifyS (λ data, match data with None => Some ConfigData_empty | d => d end);;
  _ ← on_data (parseModbusConfig (NValid root));
  _ ← on_data (parse61850Config (NValid root));
  _ ← on_data (parse104Config (NValid root));
  mret tt.

Definition init (configPath : string) : prog (option ConfigData) bool :=
  catchS (loadConfig configPath;; mret true) (λ _, mret false).
End Parsers.

(** ** Well-formed configurations *)

(** What the rest of the gateway may rely on for a Modbus point. *)
Definition point_ok (p : ConfigDataModbus.data_points_t) : Prop :=
  in_u 16 (ConfigDataModbus.address p) ∧
  ConfigDataModbus.data_type p ≠ ConfigDataModbus.UNKNOWN ∧
  ConfigDataModbus.data_type p ≠ ConfigDataModbus.STRING.

Definition device_ok (id : string) (c : ConfigDataModbus.t) : Prop :=
  ConfigDataModbus.device_id c = id ∧
  (ConfigDataModbus.Type_ c = "TCP"%string ∧
     ConfigDataModbus.rtu c = ConfigDataModbus.Build_RTU "" 0 ""
   ∨ ConfigDataModbus.Type_ c = "RTU"%string ∧
     ConfigDataModbus.tcp c = ConfigDataModbus.Build_TCP "0.0.0.0" 0) ∧
  Forall point_ok (ConfigDataModbus.data_points c).

Definition device104_ok (id : string) (c : ConfigDataIEC104.t) : Prop :=
  ConfigDataIEC104.device_id c = id ∧
  Forall (λ r, ConfigDataIEC104.report_id r ≠ ""%string)
    (ConfigDataIEC104.reports (ConfigDataIEC104.communication c)) ∧
  Forall (λ d, ConfigDataIEC104.description d ≠ ""%string ∧
               ConfigDataIEC104.iec61850_path d ≠ ""%string)
    (ConfigDataIEC104.data_points c).

Definition device61850_ok (id : string) (c : ConfigDataIEC61850.t) : Prop :=
  ConfigDataIEC61850.device_id c = id ∧
  ConfigDataIEC61850.description c ≠ ""%string ∧
  Forall (λ f, f ≠ ""%string) (ConfigDataIEC61850.data_point_filters c).

Record config_ok (cd : ConfigData) : Prop := {
  modbus_ok : map_Forall device_ok (modbus cd);
  iec61850_ok : map_Forall device61850_ok (iec61850 cd);
  iec104_ok : map_Forall device104_ok (iec104 cd)
}.

(** Reference reading of the section loop: the devices before the first one
    that does not parse, and why the loop stopped. *)
Fixpoint parsed_prefix {D} (parse : Node → outcome (option D)) (nodes : list Node)
    : list D * outcome bool :=
  match nodes with
  | [] => ([], Done true)
  | n :: rest =>
      match parse n with
      | Done (Some d) => let '(ds, r) := parsed_prefix parse rest in (d :: ds, r)
      | Done None => ([], Done false)
      | Threw e => ([], Threw e)
      | Undef w => ([], Undef w)
      end
  end.

(** ** Lemmas *)

Ltac outcome_inv :=
  repeat match goal with
  | H : or_return _ _ = Done _ |- _ => unfold or_return in H
  | H : (_ ≫= _) = Done _ |- _ => apply outcome_bind_Done in H as (? & ? & H)
  | H : (if ?b then Done None else _) = Done (Some _) |- _ =>
      destruct b eqn:?; [discriminate H|]
  | H : match ?o with None => Done None | Some _ => _ end = Done (Some _) |- _ =>
      destruct o; [|discriminate H]
  | H : Done _ = Done _ |- _ => injection H; clear H; intros; subst
  end.

Lemma parse_items_Forall {X} (f : Node → outcome (option X)) (P : X → Prop) l xs :
  (∀ n x, f n = Done (Some x) → P x) →
  parse_items f l = Done (Some xs) → Forall P xs.
Proof.
  intros Hf. revert xs. induction l as [|n l IH]; intros xs Hl; simpl in Hl.
  { simplify_eq. constructor. }
  apply outcome_bind_Done in Hl as ([x|] & Hx & Hl); [|discriminate].
  apply outcome_bind_Done in Hl as ([ys|] & Hys & Hl); simplify_eq.
  constructor; eauto.
Qed.

Lemma store_devices_inv {D} (I : ConfigData → Prop) (parse : Node → outcome (option D))
    id store nodes cd :
  (∀ n d cd', parse n = Done (Some d) → I cd' → I (store (id d) d cd')) →
  I cd → I (store_devices parse id store nodes cd).2.
Proof.
  intros Hstep. apply forS_inv. intros n s Hs.
  unfold mbind, prog_bind, liftO.
  destruct (parse n) as [[d|]|e|w] eqn:Hn; simpl; eauto.
Qed.

Lemma parse_section_inv (I : ConfigData → Prop) config section body cd :
  (∀ l, I (body l cd).2) → I cd → I (parse_section config section body cd).2.
Proof.
  intros Hbody Hcd. unfold parse_section, mbind, prog_bind, liftO.
  destruct (node_index config section) as [n|e|w]; simpl; [|done..].
  destruct (IsDefined n); simpl; [|done].
  destruct (IsSequence n) as [[]|e|w]; simpl; auto.
Qed.

Lemma store_devices_partial_aux {D} (parse : Node → outcome (option D)) id store nodes cd :
  store_devices parse id store nodes cd =
  ((parsed_prefix parse nodes).2,
   foldl (λ cd d, store (id d) d cd) cd (parsed_prefix parse nodes).1).
Proof.
  revert cd. induction nodes as [|n rest IH]; intros cd; [done|].
  unfold store_devices in *. simpl. unfold mbind, prog_bind, liftO.
  destruct (parse n) as [[d|]|e|w]; simpl; [|done..].
  rewrite IH. by destruct (parsed_prefix parse rest).
Qed.

Lemma getDataType_not_STRING s : ConfigDataModbus.getDataType s ≠ ConfigDataModbus.STRING.
Proof. unfold ConfigDataModbus.getDataType. by repeat case_match. Qed.

Section ParserLemmas.
Context `{YamlConvertOk}.

Lemma parse_modbus_point_ok n p :
  parse_modbus_point n = Done (Some p) → point_ok p.
Proof.
  unfold parse_modbus_point. intros Hp. outcome_inv.
  gw_bool. split; [|split]; simpl; eauto using get_uint16_range, getDataType_not_STRING.
Qed.

Lemma parse_modbus_transport_ok n ty tcp rtu :
  parse_modbus_transport n ty = Done (Some (tcp, rtu)) →
  ty = "TCP"%string ∧ rtu = ConfigDataModbus.Build_RTU "" 0 "" ∨
  ty = "RTU"%string ∧ tcp = ConfigDataModbus.Build_TCP "0.0.0.0" 0.
Proof.
  unfold parse_modbus_transport. intros Ht.
  destruct (String.eqb ty "TCP") eqn:?; [|destruct (String.eqb ty "RTU") eqn:?];
    outcome_inv; gw_bool; simplify_eq; auto.
Qed.

Lemma parse_modbus_device_ok n d :
  parse_modbus_device n = Done (Some d) → device_ok (ConfigDataModbus.device_id d) d.
Proof.
  unfold parse_modbus_device. intros Hd. outcome_inv.
  match goal with x : ConfigDataModbus.TCP * _ |- _ => destruct x end.
  outcome_inv. split; [done|]. split; simpl.
  - eauto using parse_modbus_transport_ok.
  - eauto using parse_items_Forall, parse_modbus_point_ok.
Qed.
End ParserLemmas.

Section ParserLemmas2.
Context `{YamlConvert}.

Lemma string_is_empty_false o s :
  string_is_empty o = Done false → o = Done s → s ≠ ""%string.
Proof. intros Ho ->. unfold string_is_empty in Ho. simpl in Ho. simplify_eq. by gw_bool. Qed.

Lemma orO_false a b : orO a b = Done false → a = Done false ∧ b = Done false.
Proof. unfold orO. intros Hab. outcome_inv. destruct x; [done|]. auto. Qed.

Lemma null_or_empty_false n key s :
  null_or_empty n key = Done false → get_string n key = Done s → s ≠ ""%string.
Proof. intros [_ Hb]%orO_false. by apply string_is_empty_false. Qed.

Lemma parse_104_report_ok n r :
  parse_104_report n = Done (Some r) → ConfigDataIEC104.report_id r ≠ ""%string.
Proof.
  unfold parse_104_report. intros Hr. outcome_inv. simpl.
  eauto using null_or_empty_false.
Qed.

Lemma parse_104_point_ok n d :
  parse_104_point n = Done (Some d) →
  ConfigDataIEC104.description d ≠ ""%string ∧ ConfigDataIEC104.iec61850_path d ≠ ""%string.
Proof.
  unfold parse_104_point. intros Hd. outcome_inv. simpl.
  eauto using null_or_empty_false.
Qed.

Lemma parse_104_device_ok n d :
  parse_104_device n = Done (Some d) → device104_ok (ConfigDataIEC104.device_id d) d.
Proof.
  unfold parse_104_device. intros Hd. outcome_inv. split; [done|]. simpl. split.
  - match goal with E : parse_104_communication _ = _ |- _ =>
      unfold parse_104_communication in E; outcome_inv end.
    simpl. eauto using parse_items_Forall, parse_104_report_ok.
  - match goal with E : (if ?b then parse_items _ _ else _) = _ |- _ => destruct b end.
    + eauto using parse_items_Forall, parse_104_point_ok.
    + outcome_inv. constructor.
Qed.

Lemma parse_61850_filter_ok n s : parse_61850_filter n = Done (Some s) → s ≠ ""%string.
Proof.
  unfold parse_61850_filter. intros Hs. outcome_inv.
  match goal with E : orO _ _ = _ |- _ => apply orO_false in E as [_ E] end.
  eauto using string_is_empty_false.
Qed.

Lemma parse_61850_device_ok n d :
  parse_61850_device n = Done (Some d) → device61850_ok (ConfigDataIEC61850.device_id d) d.
Proof.
  unfold parse_61850_device. intros Hd. outcome_inv. split; [done|]. simpl. split.
  - match goal with E : orO _ (orO _ (string_is_empty _)) = _ |- _ =>
      apply orO_false in E as [_ [_ E]%orO_false] end.
    eauto using string_is_empty_false.
  - eauto using parse_items_Forall, parse_61850_filter_ok.
Qed.

(** The required strings of an IEC 61850 device are there. *)
Definition required_61850 (pairs : list (Yaml * Yaml)) : Prop :=
  Forall (λ key, ∃ s, map_find pairs key = Some (YScalar s))
    ["device_id"; "ip"; "icd_file"; "access_point"; "logical_device";
     "client_mms_name"]%string.
End ParserLemmas2.

#[export] Hint Resolve parse_104_device_ok parse_61850_device_ok : gw.

Section Invariant.
Context `{YamlConvertOk}.

Lemma set_modbus_ok d cd :
  device_ok (ConfigDataModbus.device_id d) d → config_ok cd →
  config_ok (set_modbus (ConfigDataModbus.device_id d) d cd).
Proof. intros Hd []. split; simpl; [|done..]. by apply map_Forall_insert_2. Qed.

Lemma set_iec61850_ok d cd :
  device61850_ok (ConfigDataIEC61850.device_id d) d → config_ok cd →
  config_ok (set_iec61850 (ConfigDataIEC61850.device_id d) d cd).
Proof. intros Hd []. split; simpl; [done| |done]. by apply map_Forall_insert_2. Qed.

Lemma set_iec104_ok d cd :
  device104_ok (ConfigDataIEC104.device_id d) d → config_ok cd →
  config_ok (set_iec104 (ConfigDataIEC104.device_id d) d cd).
Proof. intros Hd []. split; simpl; [done|done|]. by apply map_Forall_insert_2. Qed.

Lemma parseModbusConfig_ok n cd : config_ok cd → config_ok (parseModbusConfig n cd).2.
Proof.
  intros Hcd. apply (parse_section_inv config_ok); [|done]. intros l.
  apply store_devices_inv; [|done].
  intros. apply set_modbus_ok; [by eapply parse_modbus_device_ok | done].
Qed.

Lemma parse61850Config_ok n cd : config_ok cd → config_ok (parse61850Config n cd).2.
Proof.
  intros Hcd. apply (parse_section_inv config_ok); [|done]. intros l.
  apply store_devices_inv; [|done].
  intros. apply set_iec61850_ok; [by eapply parse_61850_device_ok | done].
Qed.

Lemma parse104Config_ok n cd : config_ok cd → config_ok (parse104Config n cd).2.
Proof.
  intros Hcd. apply (parse_section_inv config_ok); [|done]. intros l.
  apply store_devices_inv; [|done].
  intros. apply set_iec104_ok; [by eapply parse_104_device_ok | done].
Qed.

Lemma ConfigData_empty_ok : config_ok ConfigData_empty.
Proof. split; apply map_Forall_empty. Qed.

Definition data_ok (s : option ConfigData) : Prop :=
  match s with Some cd => config_ok cd | None => True end.

Lemma on_data_ok p s :
  (∀ cd, config_ok cd → config_ok (p cd).2) → data_ok s → data_ok (on_data p s).2.
Proof.
  intros Hp. destruct s as [cd|]; simpl; [|done]. intros Hcd.
  specialize (Hp cd Hcd). by destruct (p cd).
Qed.
End Invariant.

(** What [on_data] leaves in place besides the data of its own section. *)
Lemma on_data_Some p cd : on_data p (Some cd) = ((p cd).1, Some (p cd).2).
Proof. simpl. by destruct (p cd). Qed.

Lemma prog_bind_ok {S A B} (I : S → Prop) (m : prog S A) (f : A → prog S B) s :
  I (m s).2 → (∀ a s1, I s1 → I (f a s1).2) → I ((m ≫= f) s).2.
Proof.
  unfold mbind, prog_bind. destruct (m s) as [[a|e|w] s1]; simpl; eauto.
Qed.

Lemma catchS_ok {S A} (I : S → Prop) (m : prog S A) h s :
  I (m s).2 → (∀ e s1, I s1 → I (h e s1).2) → I (catchS m h s).2.
Proof. unfold catchS. destruct (m s) as [[a|e|w] s1]; simpl; eauto. Qed.

(** Sections other than its own survive a parser untouched. *)
Lemma parseModbusConfig_frame `{YamlConvert} n cd :
  iec61850 (parseModbusConfig n cd).2 = iec61850 cd ∧
  iec104 (parseModbusConfig n cd).2 = iec104 cd.
Proof.
  apply (parse_section_inv (λ cd', iec61850 cd' = iec61850 cd ∧ iec104 cd' = iec104 cd));
    [|done].
  intros l. unfold store_devices.
  apply (forS_inv (λ cd', iec61850 cd' = iec61850 cd ∧ iec104 cd' = iec104 cd)); [|done].
  intros x s Hs. unfold mbind, prog_bind, liftO.
  by destruct (parse_modbus_device x) as [[]|?|?].
Qed.

(** ** Properties *)

(** [init] leaves well-formed devices. *)
Lemma init_ok `{YamlConvertOk} LoadFile path s :
  data_ok s → data_ok (init LoadFile path s).2.
Proof.
  intros Hs. apply (catchS_ok data_ok); [|done].
  apply prog_bind_ok; [|done]. unfold loadConfig.
  apply prog_bind_ok; [done|]. intros root s1 Hs1.
  apply prog_bind_ok. { simpl. destruct s1; [done|]. apply ConfigData_empty_ok. }
  intros _ s2 Hs2. apply prog_bind_ok; [auto using on_data_ok, parseModbusConfig_ok|].
  intros _ s3 Hs3. apply prog_bind_ok; [auto using on_data_ok, parse61850Config_ok|].
  intros _ s4 Hs4. apply prog_bind_ok; [auto using on_data_ok, parse104Config_ok|done].
Qed.

(** C16: whatever the file contains (and whatever fails while it is read),
    [Config::init] leaves only well-formed devices in the configuration: each
    Modbus device is TCP or RTU with the other transport at its defaults and
    points of a known, register-backed type at a 16-bit address; IEC 61850
    devices have a description and non-empty filters; 104 reports and points
    have the strings the parser insists on; every device is stored under its
    own id. *)
Theorem init_keeps_config_ok `{YamlConvertOk} LoadFile path s :
  data_ok s → data_ok (init LoadFile path s).2.
Proof. apply init_ok. Qed.

(** A section is loaded device by device: the devices before the first one
    that does not parse are stored, in order, and the parser then stops with
    that device's [false] or exception; nothing is rolled back. *)
Theorem parseModbusConfig_partial `{YamlConvert} root items cd :
  map_find root "ModbusDevices" = Some (YSeq items) →
  let '(devices, stop) := parsed_prefix parse_modbus_device (NValid <$> items) in
  parseModbusConfig (NValid (YMap root)) cd =
    (stop, foldl (λ cd d, set_modbus (ConfigDataModbus.device_id d) d cd) cd devices).
Proof.
  intros Hroot. destruct (parsed_prefix _ _) as [ds stop] eqn:Hp.
  unfold parseModbusConfig, parse_section, mbind, prog_bind, liftO. simpl.
  rewrite Hroot. simpl.
  rewrite (store_devices_partial_aux parse_modbus_device ConfigDataModbus.device_id).
  by rewrite Hp.
Qed.

Definition is_done {A} (o : outcome A) : bool :=
  match o with Done _ => true | _ => false end.

(** Once the file is read, [Config::init] returns true exactly when no
    parser raises an exception: the [false] that a parser returns for a
    rejected section or device is logged and does not make [init] fail. *)
Theorem init_true_iff `{YamlConvert} LoadFile path root s :
  LoadFile path = Done root →
  let m := parseModbusConfig (NValid root) (default ConfigData_empty s) in
  let i := parse61850Config (NValid root) m.2 in
  let j := parse104Config (NValid root) i.2 in
  (init LoadFile path s).1 = Done true ↔
  is_done m.1 && is_done i.1 && is_done j.1 = true.
Proof.
  intros Hload m i j. unfold init, catchS, loadConfig, mbind, prog_bind, liftO.
  rewrite Hload.
  replace (modifyS _ s) with (Done tt, Some (default ConfigData_empty s)) by (by destruct s).
  rewrite on_data_Some. fold m. destruct m as [[b1|e1|w1] cd1] eqn:Hm; simpl; [|done..].
  fold (parse61850Config (NValid root) cd1) in i. simpl in i. fold i.
  destruct i as [[b2|e2|w2] cd2] eqn:Hi; simpl; [|done..].
  simpl in j. fold j. by destruct j as [[b3|e3|w3] cd3].
Qed.

(** An exception in the Modbus section (say, a device with no
    [slave_addr]) makes [init] return false, keeps the Modbus devices that
    were read before it and leaves the IEC 61850 and 104 configurations as
    they were: those sections are not read at all. *)
Theorem init_modbus_exception `{YamlConvert} LoadFile path root s e cd1 :
  LoadFile path = Done root →
  parseModbusConfig (NValid root) (default ConfigData_empty s) = (Threw e, cd1) →
  init LoadFile path s = (Done false, Some cd1) ∧
  iec61850 cd1 = iec61850 (default ConfigData_empty s) ∧
  iec104 cd1 = iec104 (default ConfigData_empty s).
Proof.
  intros Hload Hm. split.
  - unfold init, catchS, loadConfig, mbind, prog_bind, liftO. rewrite Hload.
    replace (modifyS _ s) with (Done tt, Some (default ConfigData_empty s))
      by (by destruct s).
    by rewrite on_data_Some, Hm.
  - pose proof (parseModbusConfig_frame (NValid root) (default ConfigData_empty s)) as Hf.
    by rewrite Hm in Hf.
Qed.

Definition optional_61850 : list string :=
  ["port"; "poll_interval"; "max_retries"; "retry_interval"; "report_enabled";
   "goose_enabled"; "tls_enabled"; "description"; "data_point_filters"]%string.

(** The keys of an IEC 61850 device that the code calls optional ("may be
    missing, but not empty") may not be missing: no device lacking one of them
    is ever loaded, and without [port] the parser raises [InvalidNode], which
    ends the whole [init]. *)
Theorem optional_61850_not_optional `{YamlConvert} pairs key :
  key ∈ optional_61850 →
  map_find pairs key = None →
  (∀ d, parse_61850_device (NValid (YMap pairs)) ≠ Done (Some d)) ∧
  (key = "port"%string → required_61850 pairs →
   parse_61850_device (NValid (YMap pairs)) = Threw (InvalidNode "port")).
Proof.
  intros Hkey Habsent. split.
  - intros d Hd. unfold parse_61850_device in Hd. outcome_inv.
    unfold optional_61850, nonnull, orO in *.
    rewrite !elem_of_cons, elem_of_nil in Hkey.
    destruct_or? Hkey; subst key;
      match goal with
      | E : (key_is_null _ ?k ≫= _) = _, A : map_find _ ?k = None |- _ =>
          by rewrite (key_is_null_absent _ _ A) in E
      end.
  - intros -> Hreq. unfold required_61850 in Hreq. rewrite !Forall_cons in Hreq.
    destruct_and! Hreq.
    repeat match goal with H : ∃ _, _ |- _ => destruct H as [? ?] end. unfold parse_61850_device.
    repeat match goal with
    | E : map_find pairs ?k = Some (YScalar _) |- context [get_string _ ?k] =>
        rewrite (get_string_present _ _ _ E); clear E
    end.
    unfold nonnull. by rewrite key_is_null_absent.
Qed.

(** Data type names: the printed form of a type parses back to it, and a
    name that parses to a known type is the printed form of that type. *)
Theorem data_type_names_roundtrip t s :
  (t ≠ ConfigDataModbus.STRING →
   ConfigDataModbus.getDataType (ConfigDataModbus.getDataTypeString t) = t) ∧
  (ConfigDataModbus.getDataType s ≠ ConfigDataModbus.UNKNOWN →
   ConfigDataModbus.getDataTypeString (ConfigDataModbus.getDataType s) = s).
Proof.
  split; [by destruct t|].
  unfold ConfigDataModbus.getDataType. intros Hs.
  repeat case_match; gw_bool; by subst.
Qed.

(** ** Witnesses *)

(** A decimal reading of the numeric scalars, for concrete documents. *)
Definition demo_int (s : string) : option Z :=
  match DecimalString.NilZero.int_of_string s with
  | Some d =>
      let z := Z.of_int d in
      if ((- 2 ^ 31 <=? z) && (z <? 2 ^ 31))%Z then Some z else None
  | None => None
  end.

#[local] Instance demo_convert : YamlConvert := {
  decode_int := demo_int;
  decode_uint16 s :=
    match demo_int s with
    | Some z => if ((0 <=? z) && (z <? 2 ^ 16))%Z then Some z else None
    | None => None
    end;
  decode_float s := match demo_int s with Some _ => Some (S754_zero false) | None => None end;
  decode_bool s := if String.eqb s "true" then Some true
                   else if String.eqb s "false" then Some false else None
}.

#[local] Instance demo_convert_ok : YamlConvertOk.
Proof.
  assert (Hint : ∀ s z, demo_int s = Some z → in_s 32 z).
  { unfold demo_int, in_s. intros s z Hz. gw_cases. gw_bool. lia. }
  split; [apply Hint|]. unfold decode_uint16, demo_convert, in_u. intros s z Hz.
  gw_cases. gw_bool. lia.
Defined.

Definition demo_str (s : string) : Yaml := YScalar s.
Definition demo_map (l : list (string * Yaml)) : Yaml :=
  YMap ((λ kv, (YScalar kv.1, kv.2)) <$> l).

Definition demo_point (name address data_type : string) : Yaml :=
  demo_map [("name", demo_str name); ("address", demo_str address);
            ("type", demo_str "holding_register"); ("data_type", demo_str data_type);
            ("scale", demo_str "1"); ("offset", demo_str "0")]%string.

(** A Modbus device as in [config/config.yaml], with the given [slave_addr]. *)
Definition demo_modbus (id slave : string) : Yaml :=
  demo_map [("device_id", demo_str id); ("type", demo_str "TCP");
            ("TCP", demo_map [("ip", demo_str "127.0.0.1"); ("port", demo_str "502")]);
            ("slave_addr", demo_str slave); ("cmd_interval", demo_str "2000");
            ("max_retries", demo_str "3"); ("retry_interval", demo_str "1000");
            ("byte_order", demo_str "big");
            ("data_points", YSeq [demo_point "Status" "0" "uint16";
                                  demo_point "Temperature" "1" "uint16"])]%string.

(** The second Modbus device has no numeric slave address. *)
Definition demo_items : list Yaml := [demo_modbus "modbus_1" "1"; demo_modbus "modbus_2" "x"].
Definition demo_root : list (Yaml * Yaml) :=
  [(YScalar "ModbusDevices", YSeq demo_items)].

Lemma init_keeps_config_ok_witness :
  data_ok None ∧ data_ok (init (λ _, Done (YMap demo_root)) "config.yaml" None).2 ∧
  (∃ cd c, (init (λ _, Done (YMap demo_root)) "config.yaml" None).2 = Some cd ∧
           getModbus cd "modbus_1" = Some c ∧ device_ok "modbus_1" c).
Proof.
  pose proof (init_keeps_config_ok (λ _, Done (YMap demo_root)) "config.yaml" None I) as Hok.
  split; [exact I|]. split; [exact Hok|].
  do 2 eexists. split; [vm_compute; reflexivity|].
  split; [vm_compute; reflexivity|].
  apply (modbus_ok _ Hok). vm_compute. reflexivity.
Defined.

Lemma parseModbusConfig_partial_witness :
  map_find demo_root "ModbusDevices" = Some (YSeq demo_items) ∧
  (parseModbusConfig (NValid (YMap demo_root)) ConfigData_empty).1 = Threw BadConversion.
Proof.
  split; [reflexivity|].
  pose proof (parseModbusConfig_partial demo_root demo_items ConfigData_empty eq_refl) as Hp.
  exact (f_equal fst Hp).
Defined.

(** A scalar [ModbusDevices] section: rejected by its parser, accepted by [init]. *)
Definition demo_bad_section : Yaml := demo_map [("ModbusDevices", demo_str "none")]%string.

Lemma init_true_iff_witness :
  (init (λ _, Done demo_bad_section) "config.yaml" None).1 = Done true ∧
  (parseModbusConfig (NValid demo_bad_section) ConfigData_empty).1 = Done false.
Proof.
  split; [|reflexivity].
  apply (init_true_iff (λ _, Done demo_bad_section) "config.yaml" demo_bad_section None eq_refl).
  vm_compute. reflexivity.
Defined.

Lemma init_modbus_exception_witness :
  ∃ cd, init (λ _, Done (YMap demo_root)) "config.yaml" None = (Done false, Some cd) ∧
        iec104 cd = ∅.
Proof.
  destruct (parseModbusConfig (NValid (YMap demo_root)) ConfigData_empty) as [r cd] eqn:E.
  assert (r = Threw BadConversion) as -> by (vm_compute in E; congruence).
  exists cd.
  destruct (init_modbus_exception (λ _, Done (YMap demo_root)) "config.yaml"
              (YMap demo_root) None BadConversion cd eq_refl E) as (H1 & _ & H3).
  exact (conj H1 H3).
Defined.

Definition demo_61850_noport : list (Yaml * Yaml) :=
  (λ kv, (YScalar kv.1, YScalar kv.2)) <$>
    [("device_id", "iec1"); ("ip", "127.0.0.1"); ("icd_file", "a.icd");
     ("access_point", "P1"); ("logical_device", "LD0"); ("client_mms_name", "C")]%string.

Lemma optional_61850_not_optional_witness :
  parse_61850_device (NValid (YMap demo_61850_noport)) = Threw (InvalidNode "port").
Proof.
  apply (optional_61850_not_optional demo_61850_noport "port"); [|reflexivity|reflexivity|].
  - unfold optional_61850. apply elem_of_cons. by left.
  - unfold required_61850. repeat constructor; eexists; reflexivity.
Defined.

Lemma data_type_names_roundtrip_witness :
  ConfigDataModbus.getDataTypeString (ConfigDataModbus.getDataType "int32") = "int32"%string.
Proof.
  apply (data_type_names_roundtrip ConfigDataModbus.INT32 "int32"). discriminate.
Defined.
