(* ===== verification/ConfigDocument.v ===== *)
(** * Which documents are configurations

    A reading of the configuration file that does not follow the parsers of
    [Config]: what it means for a YAML tree to describe a device, for each of
    the three protocols, whatever the order of its keys and whatever other
    keys it has.  The parsers accept exactly the documents that describe a
    device and return the device described; a document that describes lists
    of devices is loaded as the configuration with these devices.  A printer
    gives a document for every well-formed configuration, which loads back
    unchanged. *)

From Stdlib Require Import ZArith String SpecFloat DecimalString DecimalZ DecimalPos Lia.
From stdpp Require Import base tactics option list numbers strings gmap.
From S2P Require Import Prelude Yaml Config.

(** ** Keys of a document *)

(** The value of a key; the value of a key that the document does not have. *)
Definition has (y : Yaml) (key : string) (v : Yaml) : Prop :=
  ∃ pairs, y = YMap pairs ∧ map_find pairs key = Some v.

Definition lacks (y : Yaml) (key : string) : Prop :=
  match y with
  | YMap pairs => map_find pairs key = None
  | YNull | YSeq _ => True
  | YScalar _ => False
  end.

(** A key with a text; an explicit null reads as the text ["null"]. *)
Definition has_text (y : Yaml) (key : string) (s : string) : Prop :=
  ∃ v, has y key v ∧ (v = YScalar s ∨ v = YNull ∧ s = "null"%string).

(** A key whose text denotes a value. *)
Definition has_value {T} (decode : string → option T) (y : Yaml) (key : string) (x : T) : Prop :=
  ∃ t, has y key (YScalar t) ∧ decode t = Some x.

(** A key with a sequence of descriptions. *)
Definition has_list {X} (describes : Yaml → X → Prop) (y : Yaml) (key : string) (xs : list X) : Prop :=
  ∃ items, has y key (YSeq items) ∧ Forall2 describes items xs.

(** ** Descriptions *)

Section Descriptions.
Context `{YamlConvert}.

Definition describes_point (y : Yaml) (p : ConfigDataModbus.data_points_t) : Prop :=
  has_text y "name" (ConfigDataModbus.name p) ∧
  has_value decode_uint16 y "address" (ConfigDataModbus.address p) ∧
  has_text y "type" (ConfigDataModbus.type p) ∧
  has_value decode_float y "scale" (ConfigDataModbus.scale p) ∧
  has_value decode_float y "offset" (ConfigDataModbus.offset p) ∧
  has_text y "data_type" (ConfigDataModbus.getDataTypeString (ConfigDataModbus.data_type p)) ∧
  ConfigDataModbus.data_type p ≠ ConfigDataModbus.UNKNOWN ∧
  ConfigDataModbus.data_type p ≠ ConfigDataModbus.STRING.

Definition describes_transport (y : Yaml) (ty : string) (tcp : ConfigDataModbus.TCP)
    (rtu : ConfigDataModbus.RTU) : Prop :=
  (ty = "TCP"%string ∧ rtu = ConfigDataModbus.Build_RTU "" 0 "" ∧
   ∃ t, has y "TCP" t ∧ has t "ip" (YScalar (ConfigDataModbus.ip tcp)) ∧
        has_value decode_int t "port" (ConfigDataModbus.port tcp)) ∨
  (ty = "RTU"%string ∧ tcp = ConfigDataModbus.Build_TCP "0.0.0.0" 0 ∧
   ∃ t, has y "RTU" t ∧ has t "port_name" (YScalar (ConfigDataModbus.port_name rtu)) ∧
        has_value decode_int t "baudrate" (ConfigDataModbus.baudrate rtu) ∧
        has t "parity" (YScalar (ConfigDataModbus.parity rtu))).

Definition describes_modbus (y : Yaml) (c : ConfigDataModbus.t) : Prop :=
  has_text y "device_id" (ConfigDataModbus.device_id c) ∧
  has_text y "type" (ConfigDataModbus.Type_ c) ∧
  has_value decode_int y "slave_addr" (ConfigDataModbus.slave_addr c) ∧
  has_value decode_int y "cmd_interval" (ConfigDataModbus.cmd_interval c) ∧
  has_value decode_int y "max_retries" (ConfigDataModbus.max_retries c) ∧
  has_value decode_int y "retry_interval" (ConfigDataModbus.retry_interval c) ∧
  has_text y "byte_order" (ConfigDataModbus.byte_order c) ∧
  describes_transport y (ConfigDataModbus.Type_ c) (ConfigDataModbus.tcp c) (ConfigDataModbus.rtu c) ∧
  has_list describes_point y "data_points" (ConfigDataModbus.data_points c).

(** A text that may not be empty. *)
Definition has_nonempty (y : Yaml) (key : string) (s : string) : Prop :=
  has y key (YScalar s) ∧ s ≠ ""%string.

Definition describes_61850 (y : Yaml) (c : ConfigDataIEC61850.t) : Prop :=
  has_text y "device_id" (ConfigDataIEC61850.device_id c) ∧
  has_text y "ip" (ConfigDataIEC61850.ip c) ∧
  has_text y "icd_file" (ConfigDataIEC61850.icd_file_path c) ∧
  has_text y "access_point" (ConfigDataIEC61850.access_point c) ∧
  has_text y "logical_device" (ConfigDataIEC61850.logical_device c) ∧
  has_text y "client_mms_name" (ConfigDataIEC61850.client_mms_name c) ∧
  has_value decode_int y "port" (ConfigDataIEC61850.port c) ∧
  has_value decode_int y "poll_interval" (ConfigDataIEC61850.poll_interval c) ∧
  has_value decode_int y "max_retries" (ConfigDataIEC61850.max_retries c) ∧
  has_value decode_int y "retry_interval" (ConfigDataIEC61850.retry_interval c) ∧
  has_value decode_bool y "report_enabled" (ConfigDataIEC61850.report_enabled c) ∧
  has_value decode_bool y "goose_enabled" (ConfigDataIEC61850.goose_enabled c) ∧
  has_value decode_bool y "tls_enabled" (ConfigDataIEC61850.tls_enabled c) ∧
  has_nonempty y "description" (ConfigDataIEC61850.description c) ∧
  has_list (λ i s, i = YScalar s ∧ s ≠ ""%string) y "data_point_filters"
    (ConfigDataIEC61850.data_point_filters c).

Definition describes_report (y : Yaml) (r : ConfigDataIEC104.Report) : Prop :=
  has_value decode_int y "ioa" (ConfigDataIEC104.report_ioa r) ∧
  has_nonempty y "report_id" (ConfigDataIEC104.report_id r).

Definition describes_point104 (y : Yaml) (d : ConfigDataIEC104.DataPoint) : Prop :=
  has_value decode_int y "ioa" (ConfigDataIEC104.ioa d) ∧
  has_text y "type" (ConfigDataIEC104.dp_type d) ∧
  has_nonempty y "description" (ConfigDataIEC104.description d) ∧
  has_nonempty y "iec61850_path" (ConfigDataIEC104.iec61850_path d).

Definition describes_protocol (y : Yaml) (p : ConfigDataIEC104.Protocol) : Prop :=
  ∃ q, has y "protocol" q ∧
  (∃ a, has q "apci" a ∧
     let c := ConfigDataIEC104.apci p in
     has_value decode_int a "t0" (ConfigDataIEC104.t0 c) ∧
     has_value decode_int a "t1" (ConfigDataIEC104.t1 c) ∧
     has_value decode_int a "t2" (ConfigDataIEC104.t2 c) ∧
     has_value decode_int a "t3" (ConfigDataIEC104.t3 c) ∧
     has_value decode_int a "k" (ConfigDataIEC104.k c) ∧
     has_value decode_int a "w" (ConfigDataIEC104.w c)) ∧
  (∃ a, has q "application_layer" a ∧
     let l := ConfigDataIEC104.application_layer p in
     has_value decode_int a "originator_address" (ConfigDataIEC104.originator_address l) ∧
     has_value decode_int a "common_address" (ConfigDataIEC104.common_address l) ∧
     has_value decode_int a "asdu_size" (ConfigDataIEC104.asdu_size l)).

Definition describes_communication (y : Yaml) (c : ConfigDataIEC104.Communication) : Prop :=
  has_value decode_int y "gi_interval_ms" (ConfigDataIEC104.gi_interval_ms c) ∧
  has_value decode_bool y "report_enabled" (ConfigDataIEC104.report_enabled c) ∧
  has_list describes_report y "reports" (ConfigDataIEC104.reports c).

(** The points of a 104 device are optional: no such key, or no sequence. *)
Definition describes_104 (y : Yaml) (c : ConfigDataIEC104.t) : Prop :=
  has_text y "device_id" (ConfigDataIEC104.device_id c) ∧
  has_text y "type" (ConfigDataIEC104.type c) ∧
  (∃ t, has y "TCP" t ∧ has_text t "ip" (ConfigDataIEC104.ip (ConfigDataIEC104.tcp c)) ∧
        has_value decode_int t "port" (ConfigDataIEC104.port (ConfigDataIEC104.tcp c))) ∧
  (∃ t, has y "local_address" t ∧
        has t "ip" (YScalar (ConfigDataIEC104.local_ip (ConfigDataIEC104.local_address c))) ∧
        has_value decode_int t "port" (ConfigDataIEC104.local_port (ConfigDataIEC104.local_address c))) ∧
  describes_protocol y (ConfigDataIEC104.protocol c) ∧
  (∃ t, has y "communication" t ∧ describes_communication t (ConfigDataIEC104.communication c)) ∧
  (∃ t, has y "error_handling" t ∧
        has_value decode_int t "reconnect_interval_ms"
          (ConfigDataIEC104.reconnect_interval_ms (ConfigDataIEC104.error_handling c)) ∧
        has_value decode_int t "max_reconnect_attempts"
          (ConfigDataIEC104.max_reconnect_attempts (ConfigDataIEC104.error_handling c))) ∧
  (has_list describes_point104 y "data_points" (ConfigDataIEC104.data_points c) ∨
   (∀ items, ¬ has y "data_points" (YSeq items)) ∧ ConfigDataIEC104.data_points c = []).

(** A section: absent, or the list of its devices. *)
Definition describes_section {D} (describes : Yaml → D → Prop) (y : Yaml) (key : string) (ds : list D)
    : Prop :=
  lacks y key ∧ ds = [] ∨ has_list describes y key ds.

(** A whole file and the devices of its three sections. *)
Definition describes_file (y : Yaml) (ms : list ConfigDataModbus.t) (ss : list ConfigDataIEC61850.t)
    (fs : list ConfigDataIEC104.t) : Prop :=
  describes_section describes_modbus y "ModbusDevices" ms ∧
  describes_section describes_61850 y "IEC61850Devices" ss ∧
  describes_section describes_104 y "IEC104Devices" fs.
End Descriptions.

(** ** Reading keys *)

Lemma outcome_bind_iff {A B} (o : outcome A) (f : A → outcome B) b :
  (o ≫= f) = Done b ↔ ∃ a, o = Done a ∧ f a = Done b.
Proof. split; [apply outcome_bind_Done|]. by intros (a & -> & Hf). Qed.

Lemma or_return_iff {T D} (a : outcome (option T)) (k : T → outcome (option D)) d :
  or_return a k = Done (Some d) ↔ ∃ x, a = Done (Some x) ∧ k x = Done (Some d).
Proof.
  unfold or_return. rewrite outcome_bind_iff. split.
  - intros ([x|] & Ha & Hk); [by exists x|done].
  - intros (x & Ha & Hk). by exists (Some x).
Qed.

(** [if (bad) return false; k]. *)
Lemma guard_iff {D} (b : outcome bool) (k : outcome (option D)) d :
  (bad ← b; if (bad : bool) then Done None else k) = Done (Some d) ↔
  b = Done false ∧ k = Done (Some d).
Proof.
  rewrite outcome_bind_iff. split; [|by intros [-> ?]; exists false].
  intros ([] & Hb & Hk); done.
Qed.

Lemma orO_iff a b : orO a b = Done false ↔ a = Done false ∧ b = Done false.
Proof.
  unfold orO. rewrite outcome_bind_iff. split; [|by intros [-> ?]; exists false].
  intros ([] & Ha & Hb); done.
Qed.

Lemma notO_iff a : notO a = Done false ↔ a = Done true.
Proof.
  unfold notO. rewrite outcome_bind_iff. split; [|by intros ->; exists true].
  intros ([] & Ha & Hb); done.
Qed.

Lemma has_functional y key v1 v2 : has y key v1 → has y key v2 → v1 = v2.
Proof. intros (p & -> & H1) (p' & [= <-] & H2). congruence. Qed.

Lemma node_index_iff y key v : node_index (NValid y) key = Done (NValid v) ↔ has y key v.
Proof.
  unfold has. split.
  - destruct y as [|s|l|pairs]; simpl; try done. destruct (map_find pairs key) eqn:E; [|done].
    intros [= ->]. by exists pairs.
  - intros (pairs & -> & Hv). simpl. by rewrite Hv.
Qed.

(** A chain of calls that needs the key present. *)
Lemma index_then_iff {A} (f : Node → outcome A) y key a :
  (∀ k, f (NZombie k) ≠ Done a) →
  (m ← node_index (NValid y) key; f m) = Done a ↔ ∃ v, has y key v ∧ f (NValid v) = Done a.
Proof.
  intros Hz. rewrite outcome_bind_iff. split.
  - intros ([v|k] & Hm & Hf); [|by destruct (Hz k)]. exists v. by rewrite <- node_index_iff.
  - intros (v & Hv & Hf). exists (NValid v). by rewrite node_index_iff.
Qed.

Section Reading.
Context `{YamlConvert}.

Lemma get_string_iff y key s : get_string (NValid y) key = Done s ↔ has_text y key s.
Proof.
  unfold get_string, has_text. rewrite index_then_iff by done. f_equiv. intros v.
  destruct v; simpl; naive_solver.
Qed.

Lemma get_with_iff {T} (decode : string → option T) y key x :
  (m ← node_index (NValid y) key; as_with decode m) = Done x ↔ has_value decode y key x.
Proof.
  rewrite index_then_iff by done. unfold has_value. split.
  - intros ([|t| |] & Hv & Hd); try done. exists t. simpl in Hd. by destruct (decode t); simplify_eq.
  - intros (t & Hv & Hd). exists (YScalar t). simpl. by rewrite Hd.
Qed.

Lemma zombie_index k key : node_index (NZombie k) key = Threw (InvalidNode k).
Proof. done. Qed.
Lemma zombie_string k key : get_string (NZombie k) key = Threw (InvalidNode k).
Proof. done. Qed.
Lemma zombie_int k key : get_int (NZombie k) key = Threw (InvalidNode k).
Proof. done. Qed.
Lemma zombie_is_null k key : key_is_null (NZombie k) key = Threw (InvalidNode k).
Proof. done. Qed.

Lemma get_int_iff y key z : get_int (NValid y) key = Done z ↔ has_value decode_int y key z.
Proof. apply get_with_iff. Qed.
Lemma get_uint16_iff y key z : get_uint16 (NValid y) key = Done z ↔ has_value decode_uint16 y key z.
Proof. apply get_with_iff. Qed.
Lemma get_float_iff y key f : get_float (NValid y) key = Done f ↔ has_value decode_float y key f.
Proof. apply get_with_iff. Qed.
Lemma get_bool_iff y key b : get_bool (NValid y) key = Done b ↔ has_value decode_bool y key b.
Proof. apply get_with_iff. Qed.

Lemma key_not_null_iff y key :
  key_is_null (NValid y) key = Done false ↔ ∃ v, has y key v ∧ v ≠ YNull.
Proof.
  unfold key_is_null. rewrite index_then_iff by done. f_equiv. intros v. destruct v; naive_solver.
Qed.

Lemma key_is_scalar_iff y key :
  key_is_scalar (NValid y) key = Done true ↔ ∃ s, has y key (YScalar s).
Proof.
  unfold key_is_scalar. rewrite index_then_iff by done. split; [|naive_solver].
  intros ([] & ? & ?); naive_solver.
Qed.

Lemma key_is_sequence_iff y key :
  key_is_sequence (NValid y) key = Done true ↔ ∃ items, has y key (YSeq items).
Proof.
  unfold key_is_sequence. rewrite index_then_iff by done. split; [|naive_solver].
  intros ([] & ? & ?); naive_solver.
Qed.

Lemma has_text_scalar y key s s' : has_text y key s → has y key (YScalar s') → s = s'.
Proof.
  intros (v & Hv & Ht) Hs. rewrite (has_functional _ _ _ _ Hv Hs) in Ht. naive_solver.
Qed.

Lemma scalar_has_text y key s : has y key (YScalar s) → has_text y key s.
Proof. exists (YScalar s). auto. Qed.

Lemma value_not_null {T} (decode : string → option T) y key x :
  has_value decode y key x → key_is_null (NValid y) key = Done false.
Proof. intros (t & Ht & _). apply key_not_null_iff. by exists (YScalar t). Qed.

(** [if (n[key].IsNull()) return false; x = n[key].as<T>();] *)
Lemma nonnull_iff {T} (get : Node → string → outcome T) decode y key x :
  (∀ z, get (NValid y) key = Done z ↔ has_value decode y key z) →
  nonnull get (NValid y) key = Done (Some x) ↔ has_value decode y key x.
Proof.
  intros Hget. unfold nonnull. rewrite guard_iff, outcome_bind_iff. split.
  - intros (_ & z & Hz & [= <-]). by apply Hget.
  - intros Hx. split; [by eapply value_not_null|]. exists x. by rewrite Hget.
Qed.

(** A text that is not null, when it is read as a scalar. *)
Lemma nonnull_text_iff y key s :
  key_is_null (NValid y) key = Done false ∧ get_string (NValid y) key = Done s ↔ has y key (YScalar s).
Proof.
  rewrite key_not_null_iff, get_string_iff. split.
  - intros ((v & Hv & Hn) & (v' & Hv' & Ht)). rewrite <- (has_functional _ _ _ _ Hv Hv') in Ht.
    destruct Ht as [->|[-> _]]; done.
  - intros Hs. split; [by exists (YScalar s)|]. by apply scalar_has_text.
Qed.

(** [if (n[key].IsNull() || n[key].as<std::string>().empty()) return false;] *)
Lemma nonempty_iff {D} y key (k : string → outcome (option D)) d :
  (bad ← null_or_empty (NValid y) key;
   if (bad : bool) then Done None else s ← get_string (NValid y) key; k s) = Done (Some d) ↔
  ∃ s, has_nonempty y key s ∧ k s = Done (Some d).
Proof.
  rewrite guard_iff, outcome_bind_iff. unfold null_or_empty, string_is_empty, has_nonempty.
  rewrite orO_iff, outcome_bind_iff. split.
  - intros [[Hn (s & Hs & He)] (s' & Hs' & Hk)].
    assert (s' = s) as -> by congruence. exists s. split; [|done].
    split; [by apply nonnull_text_iff|]. injection He. intros. by gw_bool.
  - intros (s & [Hs Hne] & Hk). apply nonnull_text_iff in Hs as [Hn Hs].
    split; [|by exists s]. split; [done|]. exists s. split; [done|].
    f_equal. by apply String.eqb_neq.
Qed.

Lemma parse_items_iff {X} (f : Node → outcome (option X)) (describes : Yaml → X → Prop) items xs :
  (∀ y x, f (NValid y) = Done (Some x) ↔ describes y x) →
  parse_items f (NValid <$> items) = Done (Some xs) ↔ Forall2 describes items xs.
Proof.
  intros Hf. revert xs. induction items as [|y items IH]; intros xs; csimpl.
  { split; [intros [= <-]; constructor|]. by intros ->%Forall2_nil_inv_l. }
  rewrite outcome_bind_iff. split.
  - intros ([x|] & Hx & Hr); [|done]. apply outcome_bind_Done in Hr as ([ys|] & Hys & Hr); [|done].
    injection Hr as <-. constructor; [by apply Hf|by apply IH].
  - intros (x & ys & Hx & Hys & ->)%Forall2_cons_inv_l. exists (Some x). split; [by apply Hf|].
    apply IH in Hys. by rewrite Hys.
Qed.
End Reading.

Ltac no_zombie := intros; rewrite ?zombie_index, ?zombie_string, ?zombie_int, ?zombie_is_null; done.

(** ** The parsers of items and devices *)

#[local] Opaque get_string get_int get_uint16 get_float get_bool key_is_null key_is_scalar
  key_is_sequence node_index.

Ltac read_keys :=
  repeat setoid_rewrite outcome_bind_iff;
  repeat setoid_rewrite get_string_iff; repeat setoid_rewrite get_int_iff;
  repeat setoid_rewrite get_uint16_iff; repeat setoid_rewrite get_float_iff;
  repeat setoid_rewrite get_bool_iff.

(** Take an existential chain of reads apart. *)
Ltac open_reads :=
  repeat match goal with
  | H : ∃ _, _ |- _ => destruct H as [? H]
  | H : _ ∧ _ |- _ => destruct H as [? H]
  end.

Lemma data_type_name_iff dt t :
  ConfigDataModbus.getDataType dt = t ∧ t ≠ ConfigDataModbus.UNKNOWN ↔
  dt = ConfigDataModbus.getDataTypeString t ∧ t ≠ ConfigDataModbus.UNKNOWN ∧ t ≠ ConfigDataModbus.STRING.
Proof.
  split.
  - intros [<- Hu]. split; [|split; [done|apply getDataType_not_STRING]].
    unfold ConfigDataModbus.getDataType in *. repeat case_match; gw_bool; by subst.
  - intros (-> & Hu & Hs). split; [|done]. by destruct t.
Qed.

Section Devices.
Context `{YamlConvert}.

Lemma parse_modbus_point_iff y p :
  parse_modbus_point (NValid y) = Done (Some p) ↔ describes_point y p.
Proof.
  unfold parse_modbus_point, describes_point. read_keys. split.
  - intros Hp. open_reads. destruct (bool_decide _) eqn:Hdt; gw_bool; [done|]. simplify_eq/=.
    destruct (proj1 (data_type_name_iff _ _) (conj eq_refl Hdt)) as (Heq & Hu & Hst).
    rewrite <- Heq. split_and!; assumption.
  - intros (Hn & Ha & Ht & Hs & Ho & Hd & Hu & Hst).
    destruct (proj2 (data_type_name_iff _ _) (conj eq_refl (conj Hu Hst))) as [Hget _].
    repeat (eexists; split; [eassumption|]). rewrite Hget, bool_decide_false by done. by destruct p.
Qed.

Lemma not_defined_false n : Done (negb (IsDefined n)) = Done false ↔ ∃ y, n = NValid y.
Proof. destruct n; simpl; split; try done; eauto. by intros [? ?]. Qed.

(** [if (!n || ..) return false;] on a key. *)
Lemma defined_key_iff {D} y key (b : Node → outcome bool) (k : Node → outcome (option D)) d :
  (n ← node_index (NValid y) key;
   bad ← orO (Done (negb (IsDefined n))) (b n);
   if (bad : bool) then Done None else k n) = Done (Some d) ↔
  ∃ v, has y key v ∧ b (NValid v) = Done false ∧ k (NValid v) = Done (Some d).
Proof.
  rewrite index_then_iff by done. f_equiv. intros v. rewrite guard_iff, orO_iff. naive_solver.
Qed.

Lemma sequence_items_iff {X} (f : Node → outcome (option X)) describes y key v xs :
  (∀ y x, f (NValid y) = Done (Some x) ↔ describes y x) → has y key v →
  notO (IsSequence (NValid v)) = Done false ∧ parse_items f (seq_items (NValid v)) = Done (Some xs) ↔
  has_list describes y key xs.
Proof.
  intros Hf Hv. rewrite notO_iff. unfold has_list. split.
  - intros [Hs Hp]. destruct v as [| |items|]; try done. exists items. split; [done|].
    exact (proj1 (parse_items_iff f describes items xs Hf) Hp).
  - intros (items & Hi & Hall). rewrite (has_functional _ _ _ _ Hv Hi). split; [done|].
    exact (proj2 (parse_items_iff f describes items xs Hf) Hall).
Qed.

Lemma parse_modbus_transport_iff y ty tcp rtu :
  parse_modbus_transport (NValid y) ty = Done (Some (tcp, rtu)) ↔ describes_transport y ty tcp rtu.
Proof.
  unfold parse_modbus_transport, describes_transport.
  destruct (String.eqb_spec ty "TCP") as [->|Htcp]; [|destruct (String.eqb_spec ty "RTU") as [->|Hrtu]].
  - rewrite (defined_key_iff y "TCP" (λ tcp, orO (key_is_null tcp "ip") (key_is_null tcp "port"))).
    setoid_rewrite orO_iff. read_keys. split.
    + intros (t & Ht & (Hip & _) & ip & Hs & port & Hp & [= <- <-]). left. split_and!; [done..|].
      exists t. split_and!; [done| |done]. apply nonnull_text_iff. by rewrite get_string_iff.
    + intros [(_ & -> & t & Ht & Hip & Hp)|]; [|naive_solver]. exists t. split; [done|].
      apply nonnull_text_iff in Hip as [Hn Hs]. rewrite get_string_iff in Hs.
      split; [by eauto using value_not_null|]. exists (ConfigDataModbus.ip tcp). split; [done|].
      exists (ConfigDataModbus.port tcp). split; [done|]. by destruct tcp.
  - rewrite (defined_key_iff y "RTU" (λ rtu, orO (key_is_null rtu "port_name")
      (orO (key_is_null rtu "baudrate") (key_is_null rtu "parity")))).
    setoid_rewrite orO_iff. setoid_rewrite orO_iff. read_keys. split.
    + intros (t & Ht & (Hn & _ & Hpn) & nm & Hs & baud & Hb & par & Hp & [= <- <-]). right.
      split_and!; [done..|]. exists t.
      split_and!; [done| |done|]; apply nonnull_text_iff; by rewrite get_string_iff.
    + intros [|(_ & -> & t & Ht & Hn & Hb & Hp)]; [naive_solver|]. exists t. split; [done|].
      apply nonnull_text_iff in Hn as [Hn Hs], Hp as [Hpn Hps]. rewrite get_string_iff in Hs, Hps.
      split; [by eauto using value_not_null|]. exists (ConfigDataModbus.port_name rtu). split; [done|].
      exists (ConfigDataModbus.baudrate rtu). split; [done|].
      exists (ConfigDataModbus.parity rtu). split; [done|]. by destruct rtu.
  - naive_solver.
Qed.

Lemma modbus_points_iff {D} y key (k : list ConfigDataModbus.data_points_t → D) d :
  (points ← node_index (NValid y) key;
   bad ← orO (Done (negb (IsDefined points))) (notO (IsSequence points));
   if (bad : bool) then Done None
   else data_points ← parse_items parse_modbus_point (seq_items points);
        match data_points with None => Done None | Some ps => Done (Some (k ps)) end) = Done (Some d) ↔
  ∃ ps, has_list describes_point y key ps ∧ k ps = d.
Proof.
  rewrite (defined_key_iff y key (λ n, notO (IsSequence n))). split.
  - intros (v & Hv & Hs & Hk). apply (proj1 (or_return_iff _ (λ ps, Done (Some (k ps))) _)) in Hk as (ps & Hp & Hk).
    exists ps. split; [|congruence].
    by apply (sequence_items_iff parse_modbus_point _ _ _ _ _ parse_modbus_point_iff Hv).
  - intros (ps & Hl & <-). destruct Hl as (items & Hi & Hall). exists (YSeq items). split; [done|].
    destruct (proj2 (sequence_items_iff parse_modbus_point _ _ _ _ ps parse_modbus_point_iff Hi)) as [Hs Hp];
      [by exists items|]. split; [done|]. by rewrite Hp.
Qed.

Lemma parse_modbus_device_iff y c :
  parse_modbus_device (NValid y) = Done (Some c) ↔ describes_modbus y c.
Proof.
  unfold parse_modbus_device, describes_modbus. read_keys. split.
  - intros Hp. open_reads. destruct x7 as [[tcp rtu]|]; [|done].
    apply modbus_points_iff in Hp as (ps & Hps & <-).
    split_and!; try assumption. by apply parse_modbus_transport_iff.
  - intros (Hid & Hty & Hsl & Hcmd & Hmax & Hret & Hbo & Htr & Hps).
    eexists; split; [exact Hid|]. eexists; split; [exact Hid|]. repeat (eexists; split; [eassumption|]).
    eexists (Some (_, _)). split; [by apply parse_modbus_transport_iff|].
    apply modbus_points_iff. eexists. split; [exact Hps|]. by destruct c.
Qed.

Lemma parse_61850_filter_iff y s :
  parse_61850_filter (NValid y) = Done (Some s) ↔ y = YScalar s ∧ s ≠ ""%string.
Proof.
  unfold parse_61850_filter, string_is_empty. rewrite guard_iff, orO_iff, notO_iff. split.
  - intros ((Hsc & He) & Hs). destruct y; try done. simpl in *. simplify_eq. by gw_bool.
  - intros [-> Hs]. simpl. split_and!; [done| |done]. f_equal. by apply String.eqb_neq.
Qed.

(** [description]: not null, a scalar, not empty. *)
Lemma description_iff {D} y key (k : string → outcome (option D)) d :
  (bad ← orO (key_is_null (NValid y) key)
           (orO (notO (key_is_scalar (NValid y) key)) (string_is_empty (get_string (NValid y) key)));
   if (bad : bool) then Done None else s ← get_string (NValid y) key; k s) = Done (Some d) ↔
  ∃ s, has_nonempty y key s ∧ k s = Done (Some d).
Proof.
  rewrite <- nonempty_iff. unfold null_or_empty.
  rewrite !guard_iff, !orO_iff, notO_iff, key_is_scalar_iff. split; [naive_solver|].
  intros [[Hn He] Hk]. split_and!; try done. unfold string_is_empty in He.
  apply outcome_bind_Done in He as (s & Hs & He). exists s. by apply nonnull_text_iff.
Qed.

(** A list under a key that must not be null. *)
Lemma nonnull_list_iff {X D} (f : Node → outcome (option X)) describes y key (k : list X → outcome (option D)) d :
  (∀ y x, f (NValid y) = Done (Some x) ↔ describes y x) →
  (bad ← orO (key_is_null (NValid y) key) (notO (key_is_sequence (NValid y) key));
   if (bad : bool) then Done None
   else n ← node_index (NValid y) key; or_return (parse_items f (seq_items n)) k) = Done (Some d) ↔
  ∃ xs, has_list describes y key xs ∧ k xs = Done (Some d).
Proof.
  intros Hf. rewrite guard_iff, orO_iff, notO_iff, key_not_null_iff, key_is_sequence_iff, outcome_bind_iff.
  split.
  - intros (((v & Hv & Hn) & (items & Hi)) & n & Hnode & Hk).
    apply (proj2 (node_index_iff _ _ _)) in Hi as Hi'. assert (n = NValid (YSeq items)) as -> by congruence.
    apply or_return_iff in Hk as (xs & Hp & Hk). exists xs. split; [|done]. exists items. split; [done|].
    exact (proj1 (parse_items_iff f describes items xs Hf) Hp).
  - intros (xs & (items & Hi & Hall) & Hk). split; [split; [by exists (YSeq items)|by exists items]|].
    exists (NValid (YSeq items)). split; [by apply node_index_iff|]. apply or_return_iff. exists xs.
    split; [|done]. exact (proj2 (parse_items_iff f describes items xs Hf) Hall).
Qed.

#[local] Opaque or_return nonnull orO notO null_or_empty string_is_empty.

Lemma nonnull_int_iff y key z :
  nonnull get_int (NValid y) key = Done (Some z) ↔ has_value decode_int y key z.
Proof. apply nonnull_iff, get_int_iff. Qed.
Lemma nonnull_bool_iff y key b :
  nonnull get_bool (NValid y) key = Done (Some b) ↔ has_value decode_bool y key b.
Proof. apply nonnull_iff. intros. apply get_bool_iff. Qed.

Ltac read_optional :=
  repeat setoid_rewrite or_return_iff;
  repeat setoid_rewrite nonnull_int_iff; repeat setoid_rewrite nonnull_bool_iff.

(** Introduce a chain of reads from the descriptions of the context. *)
Ltac give_reads := repeat (eexists; split; [eassumption|]).

Lemma parse_61850_device_iff y c :
  parse_61850_device (NValid y) = Done (Some c) ↔ describes_61850 y c.
Proof.
  unfold parse_61850_device, describes_61850. read_keys. read_optional.
  setoid_rewrite description_iff.
  setoid_rewrite (nonnull_list_iff parse_61850_filter _ _ _ _ _ parse_61850_filter_iff). split.
  - intros Hp. open_reads. simplify_eq/=. split_and!; assumption.
  - intros Hd. destruct_and! Hd. eexists; split; [eassumption|]. give_reads. by destruct c.
Qed.

Lemma parse_104_report_iff y r :
  parse_104_report (NValid y) = Done (Some r) ↔ describes_report y r.
Proof.
  unfold parse_104_report, describes_report. rewrite outcome_bind_iff.
  setoid_rewrite nonempty_iff. setoid_rewrite get_int_iff. split.
  - intros Hp. open_reads. by simplify_eq/=.
  - intros Hd. destruct_and! Hd. give_reads. by destruct r.
Qed.

Lemma parse_104_point_iff y d :
  parse_104_point (NValid y) = Done (Some d) ↔ describes_point104 y d.
Proof.
  unfold parse_104_point, describes_point104. rewrite outcome_bind_iff.
  setoid_rewrite (outcome_bind_iff (get_string _ _)).
  setoid_rewrite nonempty_iff. setoid_rewrite nonempty_iff. read_keys. split.
  - intros Hp. open_reads. by simplify_eq/=.
  - intros Hd. destruct_and! Hd. give_reads. by destruct d.
Qed.

(** The next read of a chain, in a hypothesis and in the goal. *)
Ltac read_int H := apply outcome_bind_Done in H as (? & ?%get_int_iff & H).
Ltac give_int := apply outcome_bind_iff; eexists; split; [apply get_int_iff; eassumption|].
Ltac read_index H v Hv :=
  rewrite index_then_iff in H by no_zombie; destruct H as (v & Hv & H).
Ltac give_index := rewrite index_then_iff by no_zombie; eexists; split; [eassumption|].

Lemma parse_104_protocol_iff y p :
  parse_104_protocol (NValid y) = Done p ↔ describes_protocol y p.
Proof.
  unfold parse_104_protocol, describes_protocol. split.
  - intros Hp. read_index Hp q Hq. read_index Hp a Ha. do 6 read_int Hp.
    read_index Hp q' Hq'. read_index Hp l Hl. do 3 read_int Hp. injection Hp as <-.
    rewrite <- (has_functional _ _ _ _ Hq Hq') in Hl.
    exists q. split; [done|]. split; [by exists a|by exists l].
  - intros (q & Hq & (a & Ha & Hap) & (l & Hl & Hal)). cbv zeta in *. destruct_and! Hap. destruct_and! Hal.
    give_index. give_index. do 6 give_int. give_index. give_index. do 3 give_int. by destruct p as [[] []].
Qed.

Lemma parse_104_communication_iff y c :
  parse_104_communication (NValid y) = Done (Some c) ↔ describes_communication y c.
Proof.
  unfold parse_104_communication, describes_communication. rewrite outcome_bind_iff.
  setoid_rewrite (outcome_bind_iff (get_bool _ _)).
  setoid_rewrite (nonnull_list_iff parse_104_report _ _ _ _ _ parse_104_report_iff). read_keys. split.
  - intros Hp. open_reads. by simplify_eq/=.
  - intros Hd. destruct_and! Hd. give_reads. by destruct c.
Qed.

#[local] Transparent node_index.
Lemma map_index k v y key : has y k v → (∃ w, has y key w) ∨ node_index (NValid y) key = Done (NZombie key).
Proof.
  intros (pairs & -> & _). simpl. destruct (map_find pairs key) as [w|] eqn:Hw; [left|by right].
  by exists w, pairs.
Qed.
#[local] Opaque node_index.

(** Points that may be missing, in a document that is a map. *)
Lemma optional_list_iff {X} (f : Node → outcome (option X)) describes y k v key xs :
  (∀ y x, f (NValid y) = Done (Some x) ↔ describes y x) → has y k v →
  (∃ dps b, node_index (NValid y) key = Done dps ∧ andO (Done (IsDefined dps)) (IsSequence dps) = Done b ∧
     (if (b : bool) then parse_items f (seq_items dps) else Done (Some [])) = Done (Some xs)) ↔
  has_list describes y key xs ∨ (∀ items, ¬ has y key (YSeq items)) ∧ xs = [].
Proof.
  intros Hf Hy. split.
  - intros (dps & b & Hd & Hb & Hp). destruct dps as [w|k'].
    + apply node_index_iff in Hd. destruct w as [|s|items|pairs]; simpl in Hb; injection Hb as <-;
        try (right; split; [|congruence]; intros items Hi; by pose proof (has_functional _ _ _ _ Hd Hi)).
      left. exists items. split; [done|]. exact (proj1 (parse_items_iff f describes items xs Hf) Hp).
    + simpl in Hb. injection Hb as <-. right. split; [|congruence].
      intros items Hi%node_index_iff. congruence.
  - intros [(items & Hi & Hall)|[Hno ->]].
    + exists (NValid (YSeq items)), true. split; [by apply node_index_iff|]. split; [done|].
      exact (proj2 (parse_items_iff f describes items xs Hf) Hall).
    + destruct (map_index k v y key Hy) as [[w Hw]|Hz].
      * exists (NValid w), false. split; [by apply node_index_iff|].
        destruct w; try done. by destruct (Hno items).
      * by exists (NZombie key), false.
Qed.

(** [if (n[key].IsNull() || !n[key].IsScalar()) return false; s = n[key].as<std::string>();] *)
Lemma scalar_text_iff {D} y key (k : string → outcome (option D)) d :
  (bad ← orO (key_is_null (NValid y) key) (notO (key_is_scalar (NValid y) key));
   if (bad : bool) then Done None else s ← get_string (NValid y) key; k s) = Done (Some d) ↔
  ∃ s, has y key (YScalar s) ∧ k s = Done (Some d).
Proof.
  rewrite guard_iff, orO_iff, notO_iff, key_is_scalar_iff, outcome_bind_iff.
  setoid_rewrite <- nonnull_text_iff. split; [naive_solver|].
  intros (s & [Hn Hs] & Hk). split; [split; [done|]|by exists s].
  by exists s.
Qed.

#[local] Transparent or_return get_int node_index orO key_is_null.
Lemma zombie_communication {D} k (f : _ → outcome (option D)) :
  or_return (parse_104_communication (NZombie k)) f = Threw (InvalidNode k).
Proof. done. Qed.
Lemma zombie_local {D} k key b (f : outcome (option D)) :
  (bad ← orO (key_is_null (NZombie k) key) b; if (bad : bool) then Done None else f) = Threw (InvalidNode k).
Proof. done. Qed.
#[local] Opaque or_return get_int node_index orO key_is_null.

Lemma parse_104_device_iff y c :
  parse_104_device (NValid y) = Done (Some c) ↔ describes_104 y c.
Proof.
  unfold parse_104_device, describes_104. split.
  - intros Hp. apply outcome_bind_Done in Hp as (id & Hid%get_string_iff & Hp).
    apply outcome_bind_Done in Hp as (ty & Hty%get_string_iff & Hp). read_index Hp t Ht.
    apply outcome_bind_Done in Hp as (ip & Hip%get_string_iff & Hp). read_int Hp.
    rewrite index_then_iff in Hp by (intros; by rewrite zombie_local). destruct Hp as (l & Hl & Hp).
    apply scalar_text_iff in Hp as (lip & Hlip & Hp).
    apply or_return_iff in Hp as (lp & Hlp%nonnull_int_iff & Hp).
    apply outcome_bind_Done in Hp as (pr & Hpr%parse_104_protocol_iff & Hp).
    rewrite index_then_iff in Hp by (intros; by rewrite zombie_communication).
    destruct Hp as (co & Hco & Hp).
    apply or_return_iff in Hp as (comm & Hcomm%parse_104_communication_iff & Hp).
    read_index Hp e He. do 2 read_int Hp.
    apply outcome_bind_Done in Hp as (dps & Hdps & Hp). apply outcome_bind_Done in Hp as (b & Hb & Hp).
    apply or_return_iff in Hp as (ps & Hps & Hp). injection Hp as <-.
    split_and!; try done; [by exists t|by exists l|by exists co|by exists e|].
    destruct Hid as (v & Hv & _).
    apply (optional_list_iff parse_104_point _ y _ v _ _ parse_104_point_iff Hv). by exists dps, b.
  - intros (Hid & Hty & (t & Ht & Hip & Hport) & (l & Hl & Hlip & Hlp) & Hpr & (co & Hco & Hcomm)
      & (e & He & Her & Hem) & Hps).
    pose proof Hid as (v & Hv & _).
    apply (optional_list_iff parse_104_point _ y _ v _ _ parse_104_point_iff Hv) in Hps
      as (dps & b & Hd & Hb & Hi).
    apply outcome_bind_iff; eexists; split; [by apply get_string_iff|].
    apply outcome_bind_iff; eexists; split; [by apply get_string_iff|]. give_index.
    apply outcome_bind_iff; eexists; split; [by apply get_string_iff|]. give_int.
    rewrite index_then_iff by (intros; by rewrite zombie_local). exists l. split; [done|].
    apply scalar_text_iff. eexists; split; [done|].
    apply or_return_iff; eexists; split; [by apply nonnull_int_iff|].
    apply outcome_bind_iff; eexists; split; [by apply parse_104_protocol_iff|].
    rewrite index_then_iff by (intros; by rewrite zombie_communication). exists co. split; [done|].
    apply or_return_iff; eexists; split; [by apply parse_104_communication_iff|].
    give_index. do 2 give_int.
    apply outcome_bind_iff; eexists; split; [exact Hd|]. apply outcome_bind_iff; eexists; split; [exact Hb|].
    apply or_return_iff; eexists; split; [exact Hi|]. by destruct c as [? ? [] [] ? ? [] ?].
Qed.
End Devices.

#[local] Transparent get_string get_int get_uint16 get_float get_bool key_is_null key_is_scalar
  key_is_sequence node_index or_return nonnull orO notO null_or_empty string_is_empty.

(** ** Sections *)

(** The devices of a section in a map by their ids: a later one replaces an
    earlier one of the same id. *)
Definition by_id {D} (id : D → string) (m : gmap string D) (ds : list D) : gmap string D :=
  foldl (λ m d, <[id d := d]> m) m ds.

Lemma by_id_app {D} (id : D → string) m ds d : by_id id m (ds ++ [d]) = <[id d := d]> (by_id id m ds).
Proof. unfold by_id. by rewrite foldl_app. Qed.

Lemma by_id_unique {D} (id : D → string) (ds : list D) :
  NoDup (id <$> ds) → ∀ k d, by_id id ∅ ds !! k = Some d ↔ d ∈ ds ∧ id d = k.
Proof.
  induction ds as [|d0 ds IH] using rev_ind; intros Hnd k d; [set_solver|].
  rewrite fmap_app in Hnd. apply NoDup_app in Hnd as (Hnd & Hdis & _). rewrite by_id_app.
  destruct (decide (k = id d0)) as [->|Hne].
  - rewrite lookup_insert_eq. split.
    + intros [= ->]. set_solver.
    + intros [[Hd| ->%list_elem_of_singleton]%elem_of_app Hid]; [|done].
      destruct (Hdis (id d)); [by apply list_elem_of_fmap_2|rewrite Hid; set_solver].
  - rewrite lookup_insert_ne, IH by done. split; [set_solver|].
    intros [[Hd| ->%list_elem_of_singleton]%elem_of_app Hid]; [done|congruence].
Qed.

(** The values of a map that are stored under their own ids give it back. *)
Lemma by_id_values {D} (id : D → string) (m : gmap string D) :
  map_Forall (λ k d, id d = k) m → by_id id ∅ (map_to_list m).*2 = m.
Proof.
  intros Hid. assert (id <$> (map_to_list m).*2 = (map_to_list m).*1) as Hkeys.
  { rewrite <- list_fmap_compose. apply list_fmap_ext. intros i [k d] Hl. simpl.
    apply Hid, elem_of_map_to_list. by eapply list_elem_of_lookup_2. }
  apply map_eq. intros k. apply option_eq. intros d.
  rewrite by_id_unique by (rewrite Hkeys; apply NoDup_fst_map_to_list).
  rewrite list_elem_of_fmap. setoid_rewrite elem_of_map_to_list'. split.
  - intros [([k' d'] & -> & Hk) <-]. simpl in *. by rewrite (Hid _ _ Hk).
  - intros Hk. split; [by exists (k, d)|]. by apply Hid.
Qed.

Section Sections.
Context `{YamlConvert}.

Lemma parsed_prefix_described {D} (parse : Node → outcome (option D)) describes items ds :
  (∀ y d, parse (NValid y) = Done (Some d) ↔ describes y d) → Forall2 describes items ds →
  parsed_prefix parse (NValid <$> items) = (ds, Done true).
Proof.
  intros Hp. induction 1 as [|y d items ds Hd _ IH]; [done|]. csimpl.
  by rewrite (proj2 (Hp y d) Hd), IH.
Qed.

Lemma parse_section_described {D} (parse : Node → outcome (option D)) describes id store y key ds cd :
  (∀ y d, parse (NValid y) = Done (Some d) ↔ describes y d) →
  describes_section describes y key ds →
  parse_section (NValid y) key (store_devices parse id store) cd =
    (Done true, foldl (λ cd d, store (id d) d cd) cd ds).
Proof.
  intros Hp [[Hl ->]|(items & (pairs & -> & Hi) & Hall)].
  - unfold parse_section, mbind, prog_bind, liftO.
    replace (node_index (NValid y) key) with (Done (NZombie key)); [done|].
    destruct y as [|s|l|pairs]; simpl in *; try done. by rewrite Hl.
  - unfold parse_section, mbind, prog_bind, liftO. simpl. rewrite Hi. simpl.
    rewrite (store_devices_partial_aux parse id), (parsed_prefix_described _ _ _ _ Hp Hall). done.
Qed.

Lemma fold_modbus ms cd :
  foldl (λ cd d, set_modbus (ConfigDataModbus.device_id d) d cd) cd ms =
  {| modbus := by_id ConfigDataModbus.device_id (modbus cd) ms; iec61850 := iec61850 cd; iec104 := iec104 cd |}.
Proof. revert cd. induction ms as [|d ms IH]; intros cd; [by destruct cd|]. simpl. by rewrite IH. Qed.

Lemma fold_61850 ss cd :
  foldl (λ cd d, set_iec61850 (ConfigDataIEC61850.device_id d) d cd) cd ss =
  {| modbus := modbus cd; iec61850 := by_id ConfigDataIEC61850.device_id (iec61850 cd) ss; iec104 := iec104 cd |}.
Proof. revert cd. induction ss as [|d ss IH]; intros cd; [by destruct cd|]. simpl. by rewrite IH. Qed.

Lemma fold_104 fs cd :
  foldl (λ cd d, set_iec104 (ConfigDataIEC104.device_id d) d cd) cd fs =
  {| modbus := modbus cd; iec61850 := iec61850 cd; iec104 := by_id ConfigDataIEC104.device_id (iec104 cd) fs |}.
Proof. revert cd. induction fs as [|d fs IH]; intros cd; [by destruct cd|]. simpl. by rewrite IH. Qed.

(** The configuration of a described file. *)
Definition loaded (ms : list ConfigDataModbus.t) (ss : list ConfigDataIEC61850.t)
    (fs : list ConfigDataIEC104.t) : ConfigData :=
  {| modbus := by_id ConfigDataModbus.device_id ∅ ms;
     iec61850 := by_id ConfigDataIEC61850.device_id ∅ ss;
     iec104 := by_id ConfigDataIEC104.device_id ∅ fs |}.

Lemma init_described LoadFile path y ms ss fs :
  LoadFile path = Done y → describes_file y ms ss fs →
  init LoadFile path None = (Done true, Some (loaded ms ss fs)).
Proof.
  intros Hload (Hm & Hs & Hf). unfold init, catchS, loadConfig, mbind, prog_bind, liftO, modifyS, mret, prog_ret.
  rewrite Hload. rewrite on_data_Some. unfold parseModbusConfig, parse61850Config, parse104Config.
  rewrite (parse_section_described _ _ _ _ _ _ _ _ parse_modbus_device_iff Hm). cbn [fst snd].
  rewrite on_data_Some, (parse_section_described _ _ _ _ _ _ _ _ parse_61850_device_iff Hs). cbn [fst snd].
  rewrite on_data_Some, (parse_section_described _ _ _ _ _ _ _ _ parse_104_device_iff Hf). cbn [fst snd].
  by rewrite fold_modbus, fold_61850, fold_104.
Qed.
End Sections.

(** ** Printing a configuration *)

(** Texts of the values. *)
Class YamlEncode : Type := {
  int_text : Z → string;
  float_text : spec_float → string;
  bool_text : bool → string
}.

(** The texts of integers and booleans read back. *)
Class YamlEncodeOk `{YamlConvert} `{YamlEncode} : Prop := {
  int_text_decode z : in_s 32 z → decode_int (int_text z) = Some z;
  int_text_decode_uint16 z : in_u 16 z → decode_uint16 (int_text z) = Some z;
  bool_text_decode b : decode_bool (bool_text b) = Some b
}.

Definition fields (l : list (string * Yaml)) : Yaml := YMap (prod_map YScalar id <$> l).

Section Printer.
Context `{YamlEncode}.

Definition int_yaml (z : Z) : Yaml := YScalar (int_text z).
Definition bool_yaml (b : bool) : Yaml := YScalar (bool_text b).

Definition point_yaml (p : ConfigDataModbus.data_points_t) : Yaml := fields [
  ("name", YScalar (ConfigDataModbus.name p)); ("address", int_yaml (ConfigDataModbus.address p));
  ("type", YScalar (ConfigDataModbus.type p));
  ("data_type", YScalar (ConfigDataModbus.getDataTypeString (ConfigDataModbus.data_type p)));
  ("scale", YScalar (float_text (ConfigDataModbus.scale p)));
  ("offset", YScalar (float_text (ConfigDataModbus.offset p)))]%string.

Definition modbus_yaml (c : ConfigDataModbus.t) : Yaml := fields [
  ("device_id", YScalar (ConfigDataModbus.device_id c)); ("type", YScalar (ConfigDataModbus.Type_ c));
  ("TCP", fields [("ip", YScalar (ConfigDataModbus.ip (ConfigDataModbus.tcp c)));
                  ("port", int_yaml (ConfigDataModbus.port (ConfigDataModbus.tcp c)))]);
  ("RTU", fields [("port_name", YScalar (ConfigDataModbus.port_name (ConfigDataModbus.rtu c)));
                  ("baudrate", int_yaml (ConfigDataModbus.baudrate (ConfigDataModbus.rtu c)));
                  ("parity", YScalar (ConfigDataModbus.parity (ConfigDataModbus.rtu c)))]);
  ("slave_addr", int_yaml (ConfigDataModbus.slave_addr c));
  ("cmd_interval", int_yaml (ConfigDataModbus.cmd_interval c));
  ("max_retries", int_yaml (ConfigDataModbus.max_retries c));
  ("retry_interval", int_yaml (ConfigDataModbus.retry_interval c));
  ("byte_order", YScalar (ConfigDataModbus.byte_order c));
  ("data_points", YSeq (point_yaml <$> ConfigDataModbus.data_points c))]%string.

Definition iec61850_yaml (c : ConfigDataIEC61850.t) : Yaml := fields [
  ("device_id", YScalar (ConfigDataIEC61850.device_id c)); ("ip", YScalar (ConfigDataIEC61850.ip c));
  ("icd_file", YScalar (ConfigDataIEC61850.icd_file_path c));
  ("access_point", YScalar (ConfigDataIEC61850.access_point c));
  ("logical_device", YScalar (ConfigDataIEC61850.logical_device c));
  ("client_mms_name", YScalar (ConfigDataIEC61850.client_mms_name c));
  ("port", int_yaml (ConfigDataIEC61850.port c));
  ("poll_interval", int_yaml (ConfigDataIEC61850.poll_interval c));
  ("max_retries", int_yaml (ConfigDataIEC61850.max_retries c));
  ("retry_interval", int_yaml (ConfigDataIEC61850.retry_interval c));
  ("report_enabled", bool_yaml (ConfigDataIEC61850.report_enabled c));
  ("goose_enabled", bool_yaml (ConfigDataIEC61850.goose_enabled c));
  ("tls_enabled", bool_yaml (ConfigDataIEC61850.tls_enabled c));
  ("description", YScalar (ConfigDataIEC61850.description c));
  ("data_point_filters", YSeq (YScalar <$> ConfigDataIEC61850.data_point_filters c))]%string.

Definition report_yaml (r : ConfigDataIEC104.Report) : Yaml := fields [
  ("ioa", int_yaml (ConfigDataIEC104.report_ioa r));
  ("report_id", YScalar (ConfigDataIEC104.report_id r))]%string.

Definition point104_yaml (d : ConfigDataIEC104.DataPoint) : Yaml := fields [
  ("ioa", int_yaml (ConfigDataIEC104.ioa d)); ("type", YScalar (ConfigDataIEC104.dp_type d));
  ("description", YScalar (ConfigDataIEC104.description d));
  ("iec61850_path", YScalar (ConfigDataIEC104.iec61850_path d))]%string.

Definition protocol_yaml (p : ConfigDataIEC104.Protocol) : Yaml :=
  let c := ConfigDataIEC104.apci p in
  let l := ConfigDataIEC104.application_layer p in
  fields [
    ("apci", fields [("t0", int_yaml (ConfigDataIEC104.t0 c)); ("t1", int_yaml (ConfigDataIEC104.t1 c));
                     ("t2", int_yaml (ConfigDataIEC104.t2 c)); ("t3", int_yaml (ConfigDataIEC104.t3 c));
                     ("k", int_yaml (ConfigDataIEC104.k c)); ("w", int_yaml (ConfigDataIEC104.w c))]);
    ("application_layer",
      fields [("originator_address", int_yaml (ConfigDataIEC104.originator_address l));
              ("common_address", int_yaml (ConfigDataIEC104.common_address l));
              ("asdu_size", int_yaml (ConfigDataIEC104.asdu_size l))])]%string.

Definition iec104_yaml (c : ConfigDataIEC104.t) : Yaml :=
  let comm := ConfigDataIEC104.communication c in
  let err := ConfigDataIEC104.error_handling c in
  fields [
    ("device_id", YScalar (ConfigDataIEC104.device_id c)); ("type", YScalar (ConfigDataIEC104.type c));
    ("TCP", fields [("ip", YScalar (ConfigDataIEC104.ip (ConfigDataIEC104.tcp c)));
                    ("port", int_yaml (ConfigDataIEC104.port (ConfigDataIEC104.tcp c)))]);
    ("local_address",
      fields [("ip", YScalar (ConfigDataIEC104.local_ip (ConfigDataIEC104.local_address c)));
              ("port", int_yaml (ConfigDataIEC104.local_port (ConfigDataIEC104.local_address c)))]);
    ("protocol", protocol_yaml (ConfigDataIEC104.protocol c));
    ("communication",
      fields [("gi_interval_ms", int_yaml (ConfigDataIEC104.gi_interval_ms comm));
              ("report_enabled", bool_yaml (ConfigDataIEC104.report_enabled comm));
              ("reports", YSeq (report_yaml <$> ConfigDataIEC104.reports comm))]);
    ("error_handling",
      fields [("reconnect_interval_ms", int_yaml (ConfigDataIEC104.reconnect_interval_ms err));
              ("max_reconnect_attempts", int_yaml (ConfigDataIEC104.max_reconnect_attempts err))]);
    ("data_points", YSeq (point104_yaml <$> ConfigDataIEC104.data_points c))]%string.

(** The devices in the order of the maps. *)
Definition config_yaml (cd : ConfigData) : Yaml := fields [
  ("ModbusDevices", YSeq (modbus_yaml <$> (map_to_list (modbus cd)).*2));
  ("IEC61850Devices", YSeq (iec61850_yaml <$> (map_to_list (iec61850 cd)).*2));
  ("IEC104Devices", YSeq (iec104_yaml <$> (map_to_list (iec104 cd)).*2))]%string.
End Printer.

(** The integers of a configuration are C [int]s, and its floats have texts. *)
Section Writable.
Context `{YamlConvert} `{YamlEncode}.

Definition ints (l : list Z) : Prop := Forall (in_s 32) l.

Definition float_writable (f : spec_float) : Prop := decode_float (float_text f) = Some f.

Definition modbus_writable (c : ConfigDataModbus.t) : Prop :=
  ints [ConfigDataModbus.port (ConfigDataModbus.tcp c); ConfigDataModbus.baudrate (ConfigDataModbus.rtu c);
        ConfigDataModbus.slave_addr c; ConfigDataModbus.cmd_interval c; ConfigDataModbus.max_retries c;
        ConfigDataModbus.retry_interval c] ∧
  Forall (λ p, float_writable (ConfigDataModbus.scale p) ∧ float_writable (ConfigDataModbus.offset p))
    (ConfigDataModbus.data_points c).

Definition iec61850_writable (c : ConfigDataIEC61850.t) : Prop :=
  ints [ConfigDataIEC61850.port c; ConfigDataIEC61850.poll_interval c; ConfigDataIEC61850.max_retries c;
        ConfigDataIEC61850.retry_interval c].

Definition iec104_writable (c : ConfigDataIEC104.t) : Prop :=
  let p := ConfigDataIEC104.apci (ConfigDataIEC104.protocol c) in
  let l := ConfigDataIEC104.application_layer (ConfigDataIEC104.protocol c) in
  let err := ConfigDataIEC104.error_handling c in
  ints [ConfigDataIEC104.port (ConfigDataIEC104.tcp c);
        ConfigDataIEC104.local_port (ConfigDataIEC104.local_address c);
        ConfigDataIEC104.t0 p; ConfigDataIEC104.t1 p; ConfigDataIEC104.t2 p; ConfigDataIEC104.t3 p;
        ConfigDataIEC104.k p; ConfigDataIEC104.w p; ConfigDataIEC104.originator_address l;
        ConfigDataIEC104.common_address l; ConfigDataIEC104.asdu_size l;
        ConfigDataIEC104.gi_interval_ms (ConfigDataIEC104.communication c);
        ConfigDataIEC104.reconnect_interval_ms err; ConfigDataIEC104.max_reconnect_attempts err] ∧
  ints (ConfigDataIEC104.report_ioa <$> ConfigDataIEC104.reports (ConfigDataIEC104.communication c)) ∧
  ints (ConfigDataIEC104.ioa <$> ConfigDataIEC104.data_points c).

Record config_writable (cd : ConfigData) : Prop := {
  writable_modbus : map_Forall (λ _, modbus_writable) (modbus cd);
  writable_61850 : map_Forall (λ _, iec61850_writable) (iec61850 cd);
  writable_104 : map_Forall (λ _, iec104_writable) (iec104 cd)
}.
End Writable.

(** ** A printed device is described *)

Section Printed.
Context `{YamlEncodeOk}.

Lemma has_field l key v :
  map_find (prod_map YScalar id <$> l) key = Some v → has (fields l) key v.
Proof. intros Hf. by eexists. Qed.

Lemma text_field l key s :
  map_find (prod_map YScalar id <$> l) key = Some (YScalar s) → has_text (fields l) key s.
Proof. intros Hf. apply scalar_has_text. by apply has_field. Qed.

Lemma int_field l key z :
  map_find (prod_map YScalar id <$> l) key = Some (int_yaml z) → in_s 32 z →
  has_value decode_int (fields l) key z.
Proof. intros Hf Hz. eexists. split; [by apply has_field|]. by apply int_text_decode. Qed.

Lemma bool_field l key b :
  map_find (prod_map YScalar id <$> l) key = Some (bool_yaml b) → has_value decode_bool (fields l) key b.
Proof. intros Hf. eexists. split; [by apply has_field|]. apply bool_text_decode. Qed.

Lemma list_field {X} (print : X → Yaml) describes l key xs :
  map_find (prod_map YScalar id <$> l) key = Some (YSeq (print <$> xs)) →
  Forall (λ x, describes (print x) x) xs → has_list describes (fields l) key xs.
Proof.
  intros Hf Hall. eexists. split; [by apply has_field|].
  clear Hf. induction Hall; constructor; done.
Qed.

(** Close the fields of a printed record, and give a nested one. *)
Ltac print_fields :=
  cbn [Datatypes.id prod_map fst snd];
  repeat match goal with
  | |- has_text _ _ _ => apply text_field; reflexivity
  | |- has_value decode_int _ _ _ => apply int_field; [reflexivity|]
  | |- has_value decode_bool _ _ _ => apply bool_field; reflexivity
  | |- has (fields _) _ _ => apply has_field; reflexivity
  | |- has_nonempty (fields _) _ _ => split; [apply has_field; reflexivity|]
  end.

Lemma point_described p :
  point_ok p → float_writable (ConfigDataModbus.scale p) → float_writable (ConfigDataModbus.offset p) →
  describes_point (point_yaml p) p.
Proof.
  intros (Ha & Hu & Hs) Hsc Hof. unfold describes_point, point_yaml.
  split_and!; try done; print_fields; eexists; (split; [apply has_field; reflexivity|]); try done.
  by apply int_text_decode_uint16.
Qed.

Lemma modbus_described id c : device_ok id c → modbus_writable c → describes_modbus (modbus_yaml c) c.
Proof.
  intros (_ & Htr & Hps) [Hints Hfl]. unfold ints in Hints. rewrite !Forall_cons in Hints. destruct_and! Hints.
  unfold describes_modbus, modbus_yaml. split_and!; print_fields; try done.
  - unfold describes_transport. destruct Htr as [[Hty Hr]|[Hty Ht]]; [left|right]; (split_and!; [done..|]);
      eexists; (split; [apply has_field; reflexivity|]); split_and!; print_fields; done.
  - apply (list_field point_yaml); [done|]. rewrite Forall_forall in Hps, Hfl |- *. intros p Hp.
    destruct (Hfl p Hp). by apply point_described; [apply Hps|..].
Qed.

Lemma iec61850_described id c :
  device61850_ok id c → iec61850_writable c → describes_61850 (iec61850_yaml c) c.
Proof.
  intros (_ & Hd & Hf) Hints. unfold iec61850_writable, ints in Hints. rewrite !Forall_cons in Hints.
  destruct_and! Hints. unfold describes_61850, iec61850_yaml. split_and!; print_fields; try done.
  apply (list_field YScalar); [done|]. by eapply Forall_impl.
Qed.

Lemma iec104_described id c :
  device104_ok id c → iec104_writable c → describes_104 (iec104_yaml c) c.
Proof.
  intros (_ & Hr & Hp) (Hints & Hri & Hpi). unfold ints in *. rewrite !Forall_cons in Hints.
  rewrite Forall_fmap in Hri. rewrite Forall_fmap in Hpi. destruct_and! Hints.
  unfold describes_104, iec104_yaml. split_and!; print_fields.
  - eexists. split; [apply has_field; reflexivity|]. split; print_fields; done.
  - eexists. split; [apply has_field; reflexivity|]. split; print_fields; done.
  - eexists. split; [apply has_field; reflexivity|]. split; eexists;
      (split; [apply has_field; reflexivity|]); cbv zeta; split_and!; print_fields; done.
  - eexists. split; [apply has_field; reflexivity|]. split_and!; print_fields; [done|].
    apply (list_field report_yaml); [done|]. rewrite Forall_forall in Hr, Hri |- *. intros r Hin.
    unfold describes_report, report_yaml. split; print_fields; [by apply Hri|by apply Hr].
  - eexists. split; [apply has_field; reflexivity|]. split; print_fields; done.
  - left. apply (list_field point104_yaml); [done|]. rewrite Forall_forall in Hp, Hpi |- *. intros d Hin.
    destruct (Hp d Hin). unfold describes_point104, point104_yaml. split_and!; print_fields; [by apply Hpi|done|done].
Qed.

(** A printed section. *)
Lemma section_printed {D} (print : D → Yaml) describes l key (m : gmap string D) :
  map_find (prod_map YScalar id <$> l) key = Some (YSeq (print <$> (map_to_list m).*2)) →
  map_Forall (λ _ d, describes (print d) d) m →
  describes_section describes (fields l) key (map_to_list m).*2.
Proof.
  intros Hf Hall. right. apply (list_field print); [done|]. apply Forall_forall.
  intros d ([k d'] & -> & Hk)%list_elem_of_fmap. by eapply Hall, elem_of_map_to_list.
Qed.
End Printed.

(** ** Properties *)

(** C5: the parsers accept exactly the documents that describe a device, in any
    order of keys and with any other keys besides, and they return the device
    described: for Modbus, IEC 61850 and IEC 104. *)
Theorem parsers_accept_descriptions `{YamlConvert} y :
  (∀ c, parse_modbus_device (NValid y) = Done (Some c) ↔ describes_modbus y c) ∧
  (∀ c, parse_61850_device (NValid y) = Done (Some c) ↔ describes_61850 y c) ∧
  (∀ c, parse_104_device (NValid y) = Done (Some c) ↔ describes_104 y c).
Proof.
  split_and!; intros c; [apply parse_modbus_device_iff|apply parse_61850_device_iff|apply parse_104_device_iff].
Qed.

(** A file whose sections describe lists of devices (an absent section, no
    devices) loads completely: init returns true, and when ids are not
    repeated each lookup gives exactly the device described with that id. *)
Theorem described_file_loads `{YamlConvert} LoadFile path y ms ss fs :
  LoadFile path = Done y → describes_file y ms ss fs →
  NoDup (ConfigDataModbus.device_id <$> ms) → NoDup (ConfigDataIEC61850.device_id <$> ss) →
  NoDup (ConfigDataIEC104.device_id <$> fs) →
  ∃ cd, init LoadFile path None = (Done true, Some cd) ∧
    (∀ id c, getModbus cd id = Some c ↔ c ∈ ms ∧ ConfigDataModbus.device_id c = id) ∧
    (∀ id c, getIec61850 cd id = Some c ↔ c ∈ ss ∧ ConfigDataIEC61850.device_id c = id) ∧
    (∀ id c, getIec104 cd id = Some c ↔ c ∈ fs ∧ ConfigDataIEC104.device_id c = id).
Proof.
  intros Hload Hy Hm Hs Hf. exists (loaded ms ss fs). split; [by apply (init_described _ _ y)|].
  split_and!; intros id c; by apply by_id_unique.
Qed.

(** C4: every well-formed configuration survives being written to a file and
    loaded: init on its printed form returns true and exactly this
    configuration, for all three protocols. *)
Theorem config_file_roundtrip `{YamlEncodeOk} path cd :
  config_ok cd → config_writable cd →
  init (λ _, Done (config_yaml cd)) path None = (Done true, Some cd).
Proof.
  intros [Hm Hs Hf] [Wm Ws Wf].
  rewrite (init_described _ path (config_yaml cd) (map_to_list (modbus cd)).*2
    (map_to_list (iec61850 cd)).*2 (map_to_list (iec104 cd)).*2); [|done|].
  - unfold loaded. destruct cd as [m s f]. simpl in *.
    rewrite !by_id_values; [done|..]; intros k d Hk;
      [by apply Hf in Hk as [? _]|by apply Hs in Hk as [? _]|by apply Hm in Hk as [? _]].
  - unfold describes_file, config_yaml.
    split_and!; [apply (section_printed modbus_yaml)|apply (section_printed iec61850_yaml)
      |apply (section_printed iec104_yaml)]; try done; intros k d Hk.
    + by eapply modbus_described; [apply Hm|eapply Wm].
    + by eapply iec61850_described; [apply Hs|eapply Ws].
    + by eapply iec104_described; [apply Hf|eapply Wf].
Qed.

(** ** Witnesses *)

#[local] Existing Instance demo_convert.

#[local] Instance demo_encode : YamlEncode := {
  int_text z := DecimalString.NilZero.string_of_int (Z.to_int z);
  float_text _ := "0"%string;
  bool_text b := if b then "true"%string else "false"%string
}.

Lemma demo_int_text z : in_s 32 z → demo_int (int_text z) = Some z.
Proof.
  unfold in_s, demo_int, int_text, demo_encode. intros Hz.
  rewrite DecimalString.NilZero.isi, DecimalZ.of_to
    by (destruct z; simpl; try done; intros [=]; by eapply DecimalPos.Unsigned.to_uint_nonnil).
  replace (_ && _) with true; [done|]. symmetry.
  apply andb_true_intro. split; [apply Z.leb_le|apply Z.ltb_lt]; lia.
Qed.

#[local] Instance demo_encode_ok : YamlEncodeOk.
Proof.
  split.
  - intros z Hz. by apply demo_int_text.
  - intros z Hz. cbn [decode_uint16 demo_convert].
    rewrite demo_int_text by (unfold in_u, in_s in *; lia).
    unfold in_u in Hz. replace (_ && _) with true; [done|]. symmetry.
    apply andb_true_intro. split; [apply Z.leb_le|apply Z.ltb_lt]; lia.
  - by intros [].
Qed.

(** The file of a Modbus device, without the other sections. *)
Definition demo_file : Yaml := demo_map [("ModbusDevices", YSeq [demo_modbus "modbus_1" "1"])]%string.

Definition demo_device : ConfigDataModbus.t :=
  let point n a := ConfigDataModbus.Build_data_points_t n a "holding_register"
                     ConfigDataModbus.UINT16 (S754_zero false) (S754_zero false) in
  ConfigDataModbus.Build_t "modbus_1" "TCP" (ConfigDataModbus.Build_TCP "127.0.0.1" 502)
    (ConfigDataModbus.Build_RTU "" 0 "") 1 2000 3 1000 "big"
    [point "Status"%string 0%Z; point "Temperature"%string 1%Z].

Lemma described_file_loads_witness :
  ∃ cd, init (λ _, Done demo_file) "config.yaml" None = (Done true, Some cd) ∧
    getModbus cd "modbus_1" = Some demo_device ∧ getIec104 cd "modbus_1" = None.
Proof.
  destruct (described_file_loads (λ _, Done demo_file) "config.yaml" demo_file [demo_device] [] [])
    as (cd & Hrun & Hm & _ & Hf).
  - reflexivity.
  - split; [|split; [left; split; reflexivity|left; split; reflexivity]].
    right. eexists. split; [eexists; split; reflexivity|]. constructor; [|constructor].
    apply (proj1 (parse_modbus_device_iff _ _)). vm_compute. reflexivity.
  - apply NoDup_singleton.
  - apply NoDup_nil_2.
  - apply NoDup_nil_2.
  - exists cd. split; [exact Hrun|]. split.
    + apply Hm. split; [by apply list_elem_of_singleton|reflexivity].
    + destruct (getIec104 cd "modbus_1") as [c|] eqn:Hc; [|reflexivity].
      apply Hf in Hc as [Hin _]. by apply elem_of_nil in Hin.
Defined.

Definition demo_104 : ConfigDataIEC104.t :=
  {| ConfigDataIEC104.device_id := "iec104_device_1"; ConfigDataIEC104.type := "IEC104";
     ConfigDataIEC104.tcp := ConfigDataIEC104.Build_TCP "127.0.0.1" 2404;
     ConfigDataIEC104.local_address := ConfigDataIEC104.Build_LocalAddress "0.0.0.0" 0;
     ConfigDataIEC104.protocol :=
       ConfigDataIEC104.Build_Protocol (ConfigDataIEC104.Build_APCI 30 15 10 20 12 8)
         (ConfigDataIEC104.Build_ApplicationLayer 1 1 249);
     ConfigDataIEC104.communication :=
       ConfigDataIEC104.Build_Communication 600000 true [ConfigDataIEC104.Build_Report 1001 "r1"];
     ConfigDataIEC104.error_handling := ConfigDataIEC104.Build_ErrorHandling 5000 3;
     ConfigDataIEC104.data_points :=
       [ConfigDataIEC104.Build_DataPoint 1001 "M_ME_NB_1" "Voltage" "LD0/MMXU1.PhV"] |}.

Lemma config_file_roundtrip_witness :
  let cd := {| modbus := {[ "modbus_1"%string := demo_device ]}; iec61850 := ∅;
               iec104 := {[ "iec104_device_1"%string := demo_104 ]} |} in
  init (λ _, Done (config_yaml cd)) "config.yaml" None = (Done true, Some cd).
Proof.
  intros cd. apply config_file_roundtrip; split; simpl;
    try apply map_Forall_empty; apply map_Forall_singleton.
  - split; [reflexivity|]. split; [left; split; reflexivity|].
    repeat constructor; unfold in_u; simpl; try lia; discriminate.
  - split; [reflexivity|]. split; repeat constructor; discriminate.
  - split; repeat constructor; unfold in_s; simpl; lia.
  - split; [|split]; repeat constructor; unfold in_s; simpl; lia.
Defined.
