(* ===== verification/ModbusApi.v ===== *)
(** * One Modbus device: [ModbusApi]

    [core/modbus/modbus_api.cc]: the object that owns a libmodbus context, its
    mutex-protected register calls, and the detached thread that reconnects.
    libmodbus is the class [Libmodbus].  As for Redis the heap of live
    contexts is explicit, so that a leak or a use after free shows.  The
    register calls run under [ctxMutex_]; the reconnection thread does not take
    the mutex, but it assigns [ctx_] only while it is null, and every other
    call only makes it null, so one iteration of the loop is one step.
    [set_debug] takes no mutex either and reads [ctx_] twice, so each of its
    accesses is a step of its own. *)

From Stdlib Require Import ZArith String Lia.
From stdpp Require Import base tactics option list numbers strings gmap sets.
From S2P Require Import Prelude Text.

Inductive ModbusType : Type := TCP | RTU.
Inductive Parity : Type := NONE | EVEN | ODD.

(** [static_cast<char>(parity)]: the rank of the enumerator. *)
Definition parity_char (p : Parity) : Z :=
  match p with NONE => 0 | EVEN => 1 | ODD => 2 end.

(** The calls of libmodbus on a context handle: [true] is success. *)
Class Libmodbus : Type := {
  bus_state : Type;
  mb_new_tcp : string → Z → bus_state → bool * bus_state;
  mb_new_rtu : string → Z → Z → Z → Z → bus_state → bool * bus_state;
  mb_set_slave : nat → Z → bus_state → bool * bus_state;
  mb_connect : nat → bus_state → bool * bus_state;
  (** [None]: the call returned -1. *)
  mb_read_registers : nat → Z → Z → bus_state → option (list Z) * bus_state;
  mb_write_register : nat → Z → Z → bus_state → bool * bus_state;
  mb_write_registers : nat → Z → list Z → bus_state → bool * bus_state
}.

(** The limit of the protocol, [MODBUS_MAX_READ_REGISTERS] of modbus.h. *)
Definition MODBUS_MAX_READ_REGISTERS : Z := 125.

(** What libmodbus documents: a read fills as many registers as it was asked
    for and refuses more than the protocol allows. *)
Class LibmodbusOk `{Libmodbus} : Prop := {
  mb_read_length h addr nb w regs w' :
    mb_read_registers h addr nb w = (Some regs, w') → Z.of_nat (length regs) = nb;
  mb_read_limit h addr nb w :
    (MODBUS_MAX_READ_REGISTERS < nb)%Z → (mb_read_registers h addr nb w).1 = None
}.

Section Api.
Context `{Libmodbus}.

(** The constructor's arguments, which any_undef change. *)
Record ModbusParams := {
  slaveAddr_ : Z;
  type_ : ModbusType;
  channel_ : Z;
  cmdInterval_ : Z;
  portName_ : string;
  baudrate_ : Z;
  parity_ : Parity;
  ip_ : string;
  port_ : Z;
  maxRetries_ : Z;
  retryInterval_ : Z
}.

Record ModbusApi := {
  params : ModbusParams;
  ctx_ : option nat;              (* modbus_t* *)
  runing_ : bool;
  live : gset nat;                (* contexts allocated and not freed *)
  next_ctx : nat;
  bus : bus_state
}.

Definition set_ctx (c : option nat) (a : ModbusApi) : ModbusApi :=
  {| params := params a; ctx_ := c; runing_ := runing_ a; live := live a;
     next_ctx := next_ctx a; bus := bus a |}.
Definition set_bus (w : bus_state) (a : ModbusApi) : ModbusApi :=
  {| params := params a; ctx_ := ctx_ a; runing_ := runing_ a; live := live a;
     next_ctx := next_ctx a; bus := w |}.
Definition set_runing (b : bool) (a : ModbusApi) : ModbusApi :=
  {| params := params a; ctx_ := ctx_ a; runing_ := b; live := live a;
     next_ctx := next_ctx a; bus := bus a |}.
Definition set_live (l : gset nat) (n : nat) (a : ModbusApi) : ModbusApi :=
  {| params := params a; ctx_ := ctx_ a; runing_ := runing_ a; live := l;
     next_ctx := n; bus := bus a |}.

(** A library call on the world. *)
Definition on_bus {A} (f : bus_state → A * bus_state) : prog ModbusApi A := λ a,
  let '(x, w) := f (bus a) in (Done x, set_bus w a).

(** A library call on the context [h], which must be live. *)
Definition on_ctx {A} (h : nat) (f : bus_state → A * bus_state) : prog ModbusApi A := λ a,
  if decide (h ∈ live a) then on_bus f a else (Undef "context used after free", a).

(** [ctx = modbus_new_...]: a fresh context, or null. *)
Definition new_ctx (f : bus_state → bool * bus_state) : prog ModbusApi (option nat) := λ a,
  let '(ok, w) := f (bus a) in
  if ok then (Done (Some (next_ctx a)),
              set_bus w (set_live ({[next_ctx a]} ∪ live a) (S (next_ctx a)) a))
  else (Done None, set_bus w a).

(** [destroy] and the body of the destructor: close and free [ctx_]. *)
Definition destroy : prog ModbusApi unit := λ a,
  match ctx_ a with
  | None => (Done tt, a)
  | Some h =>
      if decide (h ∈ live a) then
        (Done tt, set_ctx None (set_live (live a ∖ {[h]}) (next_ctx a) a))
      else (Undef "context freed twice", a)
  end.

(** On the failures after the allocation it is the member [ctx_] that is
    destroyed, not the local context. *)
Definition createModbusContext : prog ModbusApi (option nat) :=
  a ← getS;
  let p := params a in
  ctx ← match type_ p with
        | TCP => new_ctx (mb_new_tcp (c_str (ip_ p)) (port_ p))
        | RTU => new_ctx (mb_new_rtu (c_str (portName_ p)) (baudrate_ p)
                                     (parity_char (parity_ p)) 8 1)
        end;
  match ctx with
  | None => mret None
  | Some h =>
      ok ← on_ctx h (mb_set_slave h (slaveAddr_ p));
      if negb ok then destroy;; mret None
      else
        ok ← on_ctx h (mb_connect h);
        if negb ok then destroy;; mret None
        else mret (Some h)
  end.

(** The constructor, up to the start of the thread. *)
Definition construct (p : ModbusParams) (w : bus_state) : outcome unit * ModbusApi :=
  (ctx ← createModbusContext; modifyS (set_ctx ctx))
    {| params := p; ctx_ := None; runing_ := true; live := ∅; next_ctx := 0; bus := w |}.

(** The shape shared by the three register calls: refuse without a context,
    destroy the context on a failure. *)
Definition with_ctx {A} (call : nat → bus_state → option A * bus_state)
    : prog ModbusApi (option A) :=
  a ← getS;
  match ctx_ a with
  | None => mret None
  | Some h =>
      r ← on_ctx h (call h);
      match r with
      | None => destroy;; mret None
      | Some x => mret (Some x)
      end
  end.

Definition of_bool {S} (r : bool * S) : option unit * S :=
  (if r.1 then Some tt else None, r.2).

(** [Some regs]: returned true with [dest] filled; [None]: returned false. *)
Definition readRegisters (startAddr nbRegs : Z) : prog ModbusApi (option (list Z)) :=
  with_ctx (λ h, mb_read_registers h startAddr nbRegs).

Definition writeRegister (addr value : Z) : prog ModbusApi bool :=
  r ← with_ctx (λ h w, of_bool (mb_write_register h addr value w));
  mret (bool_decide (is_Some r)).

Definition writeRegisters (startAddr : Z) (src : list Z) : prog ModbusApi bool :=
  r ← with_ctx (λ h w, of_bool (mb_write_registers h startAddr src w));
  mret (bool_decide (is_Some r)).

(** Where a call of [set_debug] is: the context was there, or it has been
    read for the call of the library. *)
Inductive debug_pc : Type :=
| DTested
| DLoaded (ctx : option nat).

(** The next access of a call of [set_debug]: [None] before and after it. *)
Definition debug_step (pc : option debug_pc) : prog ModbusApi (option debug_pc) :=
  match pc with
  | None => a ← getS; mret (match ctx_ a with None => None | Some _ => Some DTested end)
  | Some DTested => a ← getS; mret (Some (DLoaded (ctx_ a)))
  | Some (DLoaded None) => liftO (Undef "null context handed to libmodbus")
  | Some (DLoaded (Some h)) => on_ctx h (λ w, (tt, w));; mret None
  end.

(** A call that nothing disturbs. *)
Definition set_debug : prog ModbusApi unit :=
  pc ← debug_step None;
  match pc with
  | None => mret tt
  | Some _ => pc ← debug_step pc; _ ← debug_step pc; mret tt
  end.

Definition stop : prog ModbusApi unit := modifyS (set_runing false).

Definition INT_MAX : Z := 2147483647.

(** One iteration of [reconnectLoop] with its local [retries], an int: [None]
    when the loop is left. *)
Definition reconnect_iter (retries : Z) : prog ModbusApi (option Z) :=
  a ← getS;
  if negb (runing_ a) then mret None
  else
    match ctx_ a with
    | Some _ => mret (Some retries)
    | None =>
        if ((0 <? maxRetries_ (params a)) && (maxRetries_ (params a) <=? retries))%Z
        then mret None
        else
          ctx ← createModbusContext;
          modifyS (set_ctx ctx);;
          match ctx with
          | Some _ => mret (Some 0%Z)
          | None =>
              if (retries <? INT_MAX)%Z then mret (Some (retries + 1)%Z)
              else liftO (Undef "signed overflow of retries")
          end
    end.

(** [reconnectLoop] for at most [fuel] iterations, undisturbed: the value of
    [retries] if it is still running. *)
Fixpoint reconnectLoop (fuel : nat) (retries : Z) : prog ModbusApi (option Z) :=
  match fuel with
  | O => mret (Some retries)
  | S fuel' =>
      r ← reconnect_iter retries;
      match r with
      | None => mret None
      | Some retries' => reconnectLoop fuel' retries'
      end
  end.
End Api.

(** ** The object and its thread under any interleaving of calls *)

Inductive api_event : Type :=
| EvRead (startAddr nbRegs : Z)
| EvWrite (addr value : Z)
| EvWrites (startAddr : Z) (src : list Z)
| EvDebug (t : nat)         (* thread t makes the next access of set_debug *)
| EvStop
| EvTick                    (* the thread runs one iteration *)
| EvDelete.                 (* the last shared_ptr goes: the destructor *)

Section System.
Context `{Libmodbus}.

Record api_sys := {
  obj : ModbusApi;
  thread : option Z;          (* [Some retries]: the loop is still running *)
  exists_ : bool;             (* the object's lifetime has not ended *)
  debugs : gmap nat debug_pc  (* the calls of set_debug under way *)
}.

(** A member call: undefined once the object is gone. *)
Definition on_obj {A} (m : prog ModbusApi A) : prog api_sys A := λ s,
  if exists_ s then
    let '(r, a) := m (obj s) in
    (r, {| obj := a; thread := thread s; exists_ := exists_ s; debugs := debugs s |})
  else (Undef "object used after its lifetime", s).

Definition api_handle (ev : api_event) : prog api_sys unit :=
  match ev with
  | EvRead a n => _ ← on_obj (readRegisters a n); mret tt
  | EvWrite a v => _ ← on_obj (writeRegister a v); mret tt
  | EvWrites a src => _ ← on_obj (writeRegisters a src); mret tt
  | EvDebug t =>
      s ← getS;
      pc ← on_obj (debug_step (debugs s !! t));
      modifyS (λ s, {| obj := obj s; thread := thread s; exists_ := exists_ s;
                       debugs := partial_alter (λ _, pc) t (debugs s) |})
  | EvStop => on_obj stop
  | EvTick =>
      s ← getS;
      match thread s with
      | None => mret tt
      | Some retries =>
          r ← on_obj (reconnect_iter retries);
          modifyS (λ s, {| obj := obj s; thread := r; exists_ := exists_ s; debugs := debugs s |})
      end
  | EvDelete =>
      on_obj destroy;;
      modifyS (λ s, {| obj := obj s; thread := thread s; exists_ := false; debugs := debugs s |})
  end.

Definition api_start (p : ModbusParams) (w : bus_state) : outcome unit * api_sys :=
  let '(r, a) := construct p w in (r, {| obj := a; thread := Some 0%Z; exists_ := true; debugs := ∅ |}).

Definition api_trace (p : ModbusParams) (w : bus_state) (evs : list api_event)
    : outcome unit * api_sys :=
  match api_start p w with
  | (Done _, s) => iterS evs api_handle s
  | r => r
  end.
End System.

(** ** Invariant: [ctx_] is null or live *)

Definition ctx_live `{Libmodbus} (a : ModbusApi) : Prop :=
  (∀ h, ctx_ a = Some h → h ∈ live a) ∧ (∀ h, h ∈ live a → (h < next_ctx a)%nat).

Section Safety.
Context `{Libmodbus}.

Lemma on_ctx_live {A} h (f : bus_state → A * bus_state) a :
  h ∈ live a → on_ctx h f a = (Done (f (bus a)).1, set_bus (f (bus a)).2 a).
Proof. intros Hh. unfold on_ctx, on_bus. rewrite decide_True by done. by destruct (f (bus a)). Qed.

(** Destroying a live context frees it and nothing else. *)
Lemma destroy_live a h :
  ctx_ a = Some h → h ∈ live a →
  destroy a = (Done tt, set_ctx None (set_live (live a ∖ {[h]}) (next_ctx a) a)).
Proof. intros Hh Hl. unfold destroy. by rewrite Hh, decide_True. Qed.

Lemma total_destroy : total_on ctx_live destroy.
Proof.
  intros a Ha. destruct (ctx_ a) as [h|] eqn:Hh.
  - rewrite (destroy_live a h) by (try apply Ha; done). eexists _, _. split; [done|].
    split; simpl; [done|]. intros h' Hh'. apply Ha. set_solver.
  - unfold destroy. rewrite Hh. by eexists _, _.
Qed.

(** A register call on a live context: the library's answer, the context
    freed when the library failed. *)
Lemma with_ctx_run {A} (call : nat → bus_state → option A * bus_state) a h :
  ctx_live a → ctx_ a = Some h →
  with_ctx call a =
    let '(r, w) := call h (bus a) in
    (Done r, match r with
             | Some _ => set_bus w a
             | None => set_ctx None (set_live (live a ∖ {[h]}) (next_ctx a) (set_bus w a))
             end).
Proof.
  intros Ha Hh. unfold with_ctx, mbind, prog_bind, getS. rewrite Hh.
  rewrite on_ctx_live by (by apply Ha). destruct (call h (bus a)) as [[x|] w]; simpl; [done|].
  by rewrite (destroy_live (set_bus w a) h) by (try apply Ha; done).
Qed.

Lemma with_ctx_null {A} (call : nat → bus_state → option A * bus_state) a :
  ctx_ a = None → with_ctx call a = (Done None, a).
Proof. intros Hh. unfold with_ctx, mbind, prog_bind, getS. by rewrite Hh. Qed.

(** A live object with the arguments [p]. *)
Definition live_with (p : ModbusParams) (a : ModbusApi) : Prop := ctx_live a ∧ params a = p.

Lemma total_with_ctx {A} (call : nat → bus_state → option A * bus_state) p :
  total_on (live_with p) (with_ctx call).
Proof.
  intros a [Ha Hp]. destruct (ctx_ a) as [h|] eqn:Hh.
  - rewrite (with_ctx_run call a h) by done. destruct (call h (bus a)) as [[x|] w].
    + by eexists _, _.
    + eexists _, _. split; [done|]. split; [|done]. split; simpl; [done|]. intros h' ?. apply Ha. set_solver.
  - rewrite with_ctx_null by done. by eexists _, _.
Qed.

Lemma set_debug_live a : ctx_live a → set_debug a = (Done tt, a).
Proof.
  intros Ha. unfold set_debug, debug_step, mbind, prog_bind, getS. destruct (ctx_ a) as [h|] eqn:Hh; [|done].
  simpl. rewrite Hh, on_ctx_live by (by apply Ha). by destruct a.
Qed.

(** Creating a context: a live handle or null, and [ctx_] untouched when it
    was null (the cleanup on failure finds nothing to free). *)
Lemma createModbusContext_spec a :
  ctx_live a → ctx_ a = None →
  ∃ r a', createModbusContext a = (Done r, a') ∧ ctx_live a' ∧ ctx_ a' = None ∧
          params a' = params a ∧ runing_ a' = runing_ a ∧ live a ⊆ live a' ∧
          (∀ h, r = Some h → h ∈ live a').
Proof.
  intros [Hc Hn] Hnull. unfold createModbusContext, mbind, prog_bind, getS.
  set (f := match type_ (params a) with TCP => _ | RTU => _ end).
  assert (∃ g, f = new_ctx g) as [g ->] by (subst f; destruct (type_ _); eauto).
  unfold new_ctx. destruct (g (bus a)) as [[] w1]; [|eexists _, _; by split_and!].
  set (a1 := set_bus w1 _).
  assert (Ha1 : ctx_live a1).
  { split; simpl; [by rewrite Hnull|]. intros h [->%elem_of_singleton|Hh]%elem_of_union; [lia|].
    specialize (Hn h Hh). lia. }
  assert (Hin : next_ctx a ∈ live a1) by (subst a1; simpl; set_solver).
  assert (Hsub : live a ⊆ live a1) by (subst a1; simpl; set_solver).
  rewrite on_ctx_live by done.
  destruct (mb_set_slave _ _ _) as [[] w2]; simpl.
  2: { unfold destroy. simpl. rewrite Hnull. eexists _, _. by split_and!. }
  rewrite on_ctx_live by done.
  destruct (mb_connect _ _) as [[] w3]; simpl.
  2: { unfold destroy. simpl. rewrite Hnull. eexists _, _. by split_and!. }
  eexists _, _. split; [done|]. split_and!; [done..|]. by intros h [= <-].
Qed.

Lemma ctx_live_set_ctx r a :
  ctx_live a → (∀ h, r = Some h → h ∈ live a) → ctx_live (set_ctx r a).
Proof. intros [_ Hn] Hr. by split. Qed.

(** The counter has room for one more attempt. *)
Definition may_retry (p : ModbusParams) (retries : Z) : Prop :=
  (retries < INT_MAX)%Z ∨ (0 < maxRetries_ p ≤ INT_MAX)%Z.

Lemma reconnect_iter_ok retries a :
  ctx_live a → may_retry (params a) retries →
  ∃ r a', reconnect_iter retries a = (Done r, a') ∧ live_with (params a) a' ∧
    (is_Some (ctx_ a) → a' = a) ∧ (∀ n, r = Some n → n = retries ∨ n = 0%Z ∨ n = (retries + 1)%Z).
Proof.
  intros Ha Hmay. unfold reconnect_iter. rewrite (prog_bind_eq _ _ a a a) by done.
  destruct (runing_ a); simpl; [|by exists None, a].
  destruct (ctx_ a) eqn:Hh; [exists (Some retries), a; split_and!; try done; intros n' [= ->]; auto|].
  destruct (_ && _) eqn:Hmax; [by exists None, a|].
  assert (Hroom : (retries <? INT_MAX)%Z = true).
  { apply Z.ltb_lt. apply andb_false_iff in Hmax. rewrite Z.ltb_ge, Z.leb_gt in Hmax.
    destruct Hmay; lia. }
  destruct (createModbusContext_spec a Ha Hh) as (r & a' & Hrun & Ha' & _ & Hp & _ & _ & Hr).
  rewrite (prog_bind_eq _ _ _ _ _ Hrun). unfold mbind, prog_bind, modifyS. rewrite Hroom.
  assert (live_with (params a) (set_ctx r a')) by (split; [by apply ctx_live_set_ctx|done]).
  destruct r as [h|]; eexists _, _; (split; [done|]; split_and!; [done|by intros []|intros n' [= <-]; auto]).
Qed.

Lemma construct_ok p w : ∃ a, construct p w = (Done tt, a) ∧ live_with p a.
Proof.
  unfold construct.
  destruct (createModbusContext_spec {| params := p; ctx_ := None; runing_ := true;
    live := ∅; next_ctx := 0; bus := w |}) as (r & a' & Hrun & Ha' & _ & Hp & _ & _ & Hr); [|done|].
  { by split. }
  rewrite (prog_bind_eq _ _ _ _ _ Hrun). eexists. split; [done|].
  split; [by apply ctx_live_set_ctx|done].
Qed.
End Safety.

(** ** The interface for the poller *)

(** A device whose holding registers can be read in blocks, and the states in
    which it may be called. *)
Class RegisterReader (A : Type) : Type := {
  rr_read : Z → Z → prog A (option (list Z));
  rr_inv : A → Prop
}.

(** What the poller relies on: a call returns, and a successful read returns
    as many registers as asked for. *)
Class RegisterReaderOk (A : Type) `{RegisterReader A} : Prop := {
  rr_read_ok addr nb a :
    rr_inv a → ∃ r a', rr_read addr nb a = (Done r, a') ∧ rr_inv a' ∧
      ∀ regs, r = Some regs → Z.of_nat (length regs) = nb
}.

#[export] Instance api_reader `{Libmodbus} : RegisterReader ModbusApi := {
  rr_read := readRegisters;
  rr_inv := ctx_live
}.

#[export] Instance api_reader_ok `{LibmodbusOk} : RegisterReaderOk ModbusApi.
Proof.
  split. intros addr nb a Ha. simpl.
  destruct (total_with_ctx (λ h, mb_read_registers h addr nb) (params a) a (conj Ha eq_refl)) as (r & a' & Hrun & Ha' & _).
  exists r, a'. split; [done|]. split; [done|]. intros regs ->.
  destruct (ctx_ a) as [h|] eqn:Hh.
  - rewrite (with_ctx_run _ a h) in Hrun by done.
    destruct (mb_read_registers h addr nb (bus a)) as [r' w] eqn:Hread. simplify_eq.
    by eapply mb_read_length.
  - by rewrite with_ctx_null in Hrun.
Qed.

Definition is_delete (ev : api_event) : bool :=
  match ev with EvDelete => true | _ => false end.

Definition is_call (ev : api_event) : bool :=
  match ev with EvRead _ _ | EvWrite _ _ | EvWrites _ _ => true | _ => false end.
Definition is_tick (ev : api_event) : bool := match ev with EvTick => true | _ => false end.

(** No register call runs while a call of [set_debug] is under way. *)
Fixpoint calls_wait `{Libmodbus} (evs : list api_event) (s : api_sys) : bool :=
  match evs with
  | [] => true
  | ev :: evs' =>
      (negb (is_call ev) || bool_decide (debugs s = ∅)) && calls_wait evs' (api_handle ev s).2
  end.

(** A call of [set_debug] under way has the context of the object. *)
Definition debug_ok `{Libmodbus} (s : api_sys) : Prop :=
  ∀ t pc, debugs s !! t = Some pc →
    ∃ h, ctx_ (obj s) = Some h ∧ (pc = DTested ∨ pc = DLoaded (Some h)).

Definition sys_ok `{Libmodbus} (s : api_sys) : Prop :=
  ctx_live (obj s) ∧ exists_ s = true ∧ debug_ok s.

Section SystemLemmas.
Context `{Libmodbus}.

Lemma on_obj_run {A} (m : prog ModbusApi A) s x a :
  exists_ s = true → m (obj s) = (Done x, a) →
  on_obj m s = (Done x, {| obj := a; thread := thread s; exists_ := true; debugs := debugs s |}).
Proof. intros He Hm. unfold on_obj. by rewrite He, Hm. Qed.

Lemma debug_step_ok s t :
  sys_ok s → ∃ pc, debug_step (debugs s !! t) (obj s) = (Done pc, obj s) ∧
    (∀ d, pc = Some d → ∃ h, ctx_ (obj s) = Some h ∧ (d = DTested ∨ d = DLoaded (Some h))).
Proof.
  intros (Hl & _ & Hd). unfold debug_step. destruct (debugs s !! t) as [d|] eqn:Ht.
  - destruct (Hd _ _ Ht) as (h & Hh & [-> | ->]); unfold mbind, prog_bind, getS.
    + eexists. split; [done|]. intros d [= <-]. rewrite Hh. eauto.
    + rewrite on_ctx_live by (by apply Hl). exists None. split; [by destruct (obj s)|done].
  - eexists. split; [done|]. intros d. destruct (ctx_ (obj s)) as [h|] eqn:Hh; [|done].
    intros [= <-]. eauto.
Qed.

(** A call on the object while no [set_debug] is under way. *)
Lemma call_ok {A} (m : prog ModbusApi A) s :
  total_on (live_with (params (obj s))) m → sys_ok s → debugs s = ∅ →
  ∃ s', (_ ← on_obj m; mret tt) s = (Done tt, s') ∧ sys_ok s' ∧
    params (obj s') = params (obj s) ∧ thread s' = thread s.
Proof.
  intros Hm (Hl & He & _) Hdbg. destruct (Hm _ (conj Hl eq_refl)) as (x & a & Hrun & Ha & Hp).
  rewrite (prog_bind_eq _ _ _ _ _ (on_obj_run m s x a He Hrun)).
  eexists. split; [done|]. split; [|done]. split; [done|]. split; [done|]. intros t pc. simpl. by rewrite Hdbg.
Qed.

Lemma api_step ev s k :
  sys_ok s → is_delete ev = false → (is_call ev = true → debugs s = ∅) →
  (is_tick ev = true → ∀ r, thread s = Some r → may_retry (params (obj s)) r) →
  (∀ r, thread s = Some r → (r ≤ Z.of_nat k)%Z) →
  ∃ s', api_handle ev s = (Done tt, s') ∧ sys_ok s' ∧ params (obj s') = params (obj s) ∧
    (∀ r, thread s' = Some r → (r ≤ Z.of_nat (if is_tick ev then S k else k))%Z).
Proof.
  intros Hs Hdel Hcall Htick Hk. pose proof Hs as (Hl & He & Hd).
  assert (∀ A (m : prog ModbusApi A), is_tick ev = false → is_call ev = true →
    total_on (live_with (params (obj s))) m →
    ∃ s', (_ ← on_obj m; mret tt) s = (Done tt, s') ∧ sys_ok s' ∧ params (obj s') = params (obj s) ∧
      (∀ r, thread s' = Some r → (r ≤ Z.of_nat (if is_tick ev then S k else k))%Z)) as Hcalls.
  { intros A m -> Hc Hm. destruct (call_ok m s Hm Hs (Hcall Hc)) as (s' & Hrun & Hs' & Hp & Ht).
    exists s'. rewrite Ht. auto. }
  destruct ev; try discriminate; cbn [api_handle is_tick] in *.
  - apply Hcalls; [done|done|apply total_with_ctx].
  - apply Hcalls; [done|done|]. apply total_bind; [apply total_with_ctx|eauto with gw].
  - apply Hcalls; [done|done|]. apply total_bind; [apply total_with_ctx|eauto with gw].
  - destruct (debug_step_ok s t Hs) as (pc & Hrun & Hpc).
    rewrite (prog_bind_eq _ _ s s s) by done.
    rewrite (prog_bind_eq _ _ _ _ _ (on_obj_run _ s _ _ He Hrun)).
    eexists. split; [done|]. split; [|done]. split; [done|]. split; [done|]. intros t' d. simpl.
    destruct (decide (t' = t)) as [->|Hne].
    + rewrite lookup_partial_alter_eq. apply Hpc.
    + rewrite lookup_partial_alter_ne by done. apply Hd.
  - rewrite (on_obj_run stop s tt (set_runing false (obj s)) He) by done.
    eexists. split; [done|]. split; [|done]. by split.
  - rewrite (prog_bind_eq _ _ s s s) by done. destruct (thread s) as [r|] eqn:Ht; [|exists s; by rewrite Ht].
    destruct (reconnect_iter_ok r (obj s) Hl (Htick eq_refl r eq_refl)) as (r' & a' & Hrun & [Ha' Hp] & Hsame & Hr').
    rewrite (prog_bind_eq _ _ _ _ _ (on_obj_run _ s _ _ He Hrun)).
    eexists. split; [done|]. simpl. split; [|split; [done|]].
    + split; [done|]. split; [done|]. intros t d Htd. simpl in *. destruct (Hd t d Htd) as (h & Hh & Hd').
      exists h. by rewrite (Hsame (ex_intro _ h Hh)).
    + intros n ->. specialize (Hk r eq_refl). destruct (Hr' n eq_refl) as [-> |[-> | ->]]; lia.
Qed.

Lemma api_steps p evs s k :
  sys_ok s → params (obj s) = p → (∀ r, thread s = Some r → (r ≤ Z.of_nat k)%Z) →
  forallb (negb ∘ is_delete) evs = true → calls_wait evs s = true →
  ((0 < maxRetries_ p ≤ INT_MAX) ∨ Z.of_nat (k + length (filter is_tick evs)) ≤ INT_MAX)%Z →
  ∃ s', iterS evs api_handle s = (Done tt, s') ∧ sys_ok s'.
Proof.
  revert s k. induction evs as [|ev evs IH]; intros s k Hs Hp Hk Hdel Hwait Hmax; [by exists s|].
  cbn [forallb calls_wait] in Hdel, Hwait. apply andb_prop in Hdel as [Hev Hdel], Hwait as [Hcall Hwait].
  apply negb_true_iff in Hev. rewrite filter_cons in Hmax.
  destruct (api_step ev s k) as (s1 & Hrun & Hs1 & Hp1 & Hk1); [done|done| | |done|].
  - intros Hc. rewrite Hc in Hcall. by apply bool_decide_eq_true in Hcall.
  - intros Ht r Hr. rewrite Ht in Hmax. simpl in Hmax. specialize (Hk r Hr).
    unfold may_retry. rewrite Hp. destruct Hmax as [?|?]; [by right|left; lia].
  - rewrite Hrun in Hwait. cbn [snd] in Hwait.
    destruct (IH s1 (if is_tick ev then S k else k) Hs1 (eq_trans Hp1 Hp) Hk1 Hdel Hwait)
      as (s' & Hrest & Hs'); [|exists s'; cbn [iterS]; by rewrite (prog_bind_eq _ _ _ _ _ Hrun)].
    destruct Hmax as [?|Hmax]; [by left|right]. destruct (is_tick ev); simpl in Hmax; lia.
Qed.

(** Before the destructor runs, every trace runs to its end. *)
Lemma api_trace_total p w evs :
  forallb (negb ∘ is_delete) evs = true → calls_wait evs (api_start p w).2 = true →
  ((0 < maxRetries_ p ≤ INT_MAX) ∨ Z.of_nat (length (filter is_tick evs)) ≤ INT_MAX)%Z →
  ∃ s0 s, api_start p w = (Done tt, s0) ∧ iterS evs api_handle s0 = (Done tt, s) ∧ sys_ok s.
Proof.
  intros Hdel Hwait Hmax. destruct (construct_ok p w) as (a & Hmk & Ha & Hp). unfold api_start in *.
  rewrite Hmk in *. cbn [snd] in Hwait.
  destruct (api_steps p evs {| obj := a; thread := Some 0%Z; exists_ := true; debugs := ∅ |} 0)
    as (s' & Hrun & Hs'); try done.
  - by intros r [= <-].
  - by eexists _, s'.
Qed.
End SystemLemmas.

(** ** The device that does not answer *)

(** Contexts are allocated, connections fail. *)
Definition unreachable `{Libmodbus} : Prop :=
  (∀ ip port w, (mb_new_tcp ip port w).1 = true) ∧
  (∀ port baud parity data stop w, (mb_new_rtu port baud parity data stop w).1 = true) ∧
  (∀ h w, (mb_connect h w).1 = false).

Section Unreachable.
Context `{Libmodbus}.
Hypothesis Hdown : unreachable.

(** The state of a device given up on, after [n] more leaked contexts. *)
Definition leaked (n : nat) (a a' : ModbusApi) : Prop :=
  ctx_live a' ∧ ctx_ a' = None ∧ params a' = params a ∧ runing_ a' = runing_ a ∧
  size (live a') = (size (live a) + n)%nat.

Lemma createModbusContext_fails a :
  ctx_live a → ctx_ a = None → ∃ a', createModbusContext a = (Done None, a') ∧ leaked 1 a a'.
Proof.
  intros Ha Hnull. destruct Hdown as (Htcp & Hrtu & Hcon).
  destruct (createModbusContext_spec a Ha Hnull)
    as (r & a' & Hrun & Ha' & Hnull' & Hp & Hr & _ & _).
  revert Hrun. unfold createModbusContext, mbind, prog_bind, getS.
  set (f := match type_ (params a) with TCP => _ | RTU => _ end).
  assert (∃ g, f = new_ctx g ∧ (g (bus a)).1 = true) as (g & -> & Hg)
    by (subst f; destruct (type_ _); eauto).
  unfold new_ctx. destruct (g (bus a)) as [[] w1]; [|done].
  assert (Hsize : size ({[next_ctx a]} ∪ live a) = (size (live a) + 1)%nat).
  { rewrite size_union, size_singleton; [lia|]. intros h ->%elem_of_singleton Hh.
    apply Ha in Hh. lia. }
  rewrite on_ctx_live by (simpl; set_solver).
  destruct (mb_set_slave _ _ _) as [[] w2]; simpl.
  - rewrite on_ctx_live by (simpl; set_solver).
    pose proof (Hcon (next_ctx a) w2). destruct (mb_connect _ _) as [[] w3]; [done|]. simpl.
    unfold destroy. simpl. rewrite Hnull. intros [= <- <-]. eexists. by split_and!.
  - unfold destroy. simpl. rewrite Hnull. intros [= <- <-]. eexists. by split_and!.
Qed.

Lemma leaked_trans n m a b c : leaked n a b → leaked m b c → leaked (n + m) a c.
Proof.
  intros (_ & _ & Hp1 & Hr1 & Hs1) (? & ? & Hp2 & Hr2 & Hs2).
  split_and!; [done|done|congruence|congruence|lia].
Qed.

Lemma reconnect_iter_fails a retries :
  ctx_live a → ctx_ a = None → runing_ a = true → (retries < INT_MAX)%Z →
  (maxRetries_ (params a) ≤ 0 ∨ retries < maxRetries_ (params a))%Z →
  ∃ a', reconnect_iter retries a = (Done (Some (retries + 1)%Z), a') ∧ leaked 1 a a'.
Proof.
  intros Ha Hnull Hrun Hint Hmax. unfold reconnect_iter, mbind, prog_bind, getS.
  rewrite Hrun, Hnull. simpl. apply Z.ltb_lt in Hint.
  replace (_ && _) with false by (symmetry; apply andb_false_iff; rewrite Z.ltb_ge, Z.leb_gt; lia).
  destruct (createModbusContext_fails a Ha Hnull) as (a' & -> & Hl). simpl. rewrite Hint.
  eexists. split; [done|]. by destruct Hl as ([? ?] & ? & ? & ? & ?).
Qed.

Lemma reconnectLoop_fails n a retries :
  ctx_live a → ctx_ a = None → runing_ a = true → (retries + Z.of_nat n ≤ INT_MAX)%Z →
  (maxRetries_ (params a) ≤ 0 ∨ retries + Z.of_nat n ≤ maxRetries_ (params a))%Z →
  ∃ a', (∀ fuel, reconnectLoop (n + fuel) retries a = reconnectLoop fuel (retries + Z.of_nat n) a') ∧
        leaked n a a'.
Proof.
  revert a retries. induction n as [|n IH]; intros a retries Ha Hnull Hrun Hint Hmax.
  - exists a. split; [intros fuel; by rewrite Z.add_0_r|]. split_and!; [done..|lia].
  - destruct (reconnect_iter_fails a retries) as (a1 & Hit & Hl1); [done..|lia|lia|].
    pose proof Hl1 as (Ha1 & Hnull1 & Hp1 & Hr1 & _).
    destruct (IH a1 (retries + 1)%Z) as (a2 & Hloop & Hl2); [done..|congruence|lia|rewrite Hp1; lia|].
    exists a2. split; [|by apply (leaked_trans 1 n a a1 a2)].
    intros fuel. cbn [reconnectLoop Nat.add]. rewrite (prog_bind_eq _ _ _ _ _ Hit), Hloop.
    f_equal. lia.
Qed.
End Unreachable.

(** ** The device that comes back *)

(** The attempt after [n] failing ones connects, with the context [h]. *)
Inductive comes_up `{Libmodbus} : ModbusApi → nat → nat → Prop :=
| up_now a h a' : createModbusContext a = (Done (Some h), a') → comes_up a 0 h
| up_later a n h a' :
    createModbusContext a = (Done None, a') → comes_up a' n h → comes_up a (S n) h.

(** The calls of clients and the thread, neither [stop] nor the destructor. *)
Definition in_service (ev : api_event) : bool :=
  match ev with EvStop | EvDelete => false | _ => true end.

Section Recovery.
Context `{Libmodbus}.

Definition waiting (s : api_sys) (retries : Z) : Prop :=
  sys_ok s ∧ thread s = Some retries ∧ ctx_ (obj s) = None ∧ runing_ (obj s) = true.

(** Without a context the calls do nothing. *)
Lemma waiting_call ev s retries :
  waiting s retries → in_service ev = true → is_tick ev = false →
  api_handle ev s = (Done tt, s).
Proof.
  intros ((_ & He & Hd) & _ & Hn & _) Hs Ht.
  assert (Hdbg : debugs s = ∅).
  { apply map_empty. intros t. destruct (debugs s !! t) as [pc|] eqn:Hpc; [|done].
    destruct (Hd t pc Hpc) as (h & Hh & _). by rewrite Hh in Hn. }
  destruct s as [o t e d]. simpl in *. subst e d.
  destruct ev; try discriminate; simpl;
    unfold on_obj, readRegisters, writeRegister, writeRegisters, debug_step, mbind, prog_bind, getS; simpl;
    rewrite ?lookup_empty; simpl; rewrite ?with_ctx_null by done; rewrite ?Hn; try done.
Qed.

Lemma set_ctx_None a : ctx_ a = None → set_ctx None a = a.
Proof. intros Hn. destruct a. simpl in *. by subst. Qed.

(** One iteration of the thread makes one attempt. *)
Lemma waiting_tick s retries r a' :
  waiting s retries → (maxRetries_ (params (obj s)) ≤ 0 ∨ retries < maxRetries_ (params (obj s)))%Z →
  (r = None → retries < INT_MAX)%Z →
  createModbusContext (obj s) = (Done r, a') →
  api_handle EvTick s = (Done tt,
    {| obj := set_ctx r a';
       thread := Some (match r with Some _ => 0 | None => retries + 1 end)%Z; exists_ := true;
       debugs := debugs s |}).
Proof.
  intros ((_ & He & _) & Ht & Hn & Hr) Hmax Hint Hc. simpl.
  rewrite (prog_bind_eq _ _ s s s) by done. rewrite Ht.
  unfold on_obj, reconnect_iter, mbind, prog_bind, getS. rewrite He, Hr, Hn. simpl.
  replace (_ && _) with false by (symmetry; apply andb_false_iff; rewrite Z.ltb_ge, Z.leb_gt; lia).
  rewrite Hc. destruct r; [done|]. by rewrite (proj2 (Z.ltb_lt _ _) (Hint eq_refl)).
Qed.

Lemma waiting_comes_up evs s retries n h :
  waiting s retries → comes_up (obj s) n h →
  (maxRetries_ (params (obj s)) ≤ 0 ∨ retries + Z.of_nat n < maxRetries_ (params (obj s)))%Z →
  (retries + Z.of_nat n ≤ INT_MAX)%Z →
  forallb in_service evs = true → (n < length (filter is_tick evs))%nat →
  ∃ pre post s', evs = pre ++ post ∧ iterS pre api_handle s = (Done tt, s') ∧
    sys_ok s' ∧ thread s' = Some 0%Z ∧ ctx_ (obj s') = Some h.
Proof.
  revert s retries n. induction evs as [|ev evs IH]; intros s retries n Hw Hup Hmax Hint Hs Hn; [simpl in Hn; lia|].
  cbn [forallb] in Hs. apply andb_prop in Hs as [Hev Hs].
  destruct (is_tick ev) eqn:Htick.
  - destruct ev; try discriminate. rewrite filter_cons_True in Hn by done. cbn [length] in Hn.
    pose proof Hw as ((Hlive & He & Hd) & Ht & Hnull & Hrun).
    destruct (createModbusContext_spec (obj s) Hlive Hnull)
      as (r & a1 & Hc & Ha1 & Hn1 & Hp1 & Hr1 & _ & Hin).
    assert (Hstep := λ Hi, waiting_tick s retries r a1 Hw ltac:(lia) Hi Hc).
    inversion Hup as [a h' a' Hc'|a n' h' a' Hc' Hup']; subst; rewrite Hc in Hc'; simplify_eq.
    + eexists [EvTick], evs, _. split; [done|]. cbn [iterS].
      rewrite (prog_bind_eq _ _ _ _ _ (Hstep ltac:(done))). split; [done|]. split; [|done].
      split; [|split; [done|]].
      * apply ctx_live_set_ctx; [done|]. intros ? [= <-]. by apply Hin.
      * intros t pc Hpc. simpl in *. destruct (Hd t pc Hpc) as (h' & Hh' & _). by rewrite Hh' in Hnull.
    + specialize (Hstep ltac:(lia)). rewrite set_ctx_None in Hstep by done.
      destruct (IH {| obj := a'; thread := Some (retries + 1)%Z; exists_ := true; debugs := debugs s |}
        (retries + 1)%Z n')
        as (pre & post & s' & -> & Hrest & Hs'); try done; simpl; [|rewrite Hp1; lia|lia|lia|].
      * split; [|split; [done|split; [done|simpl; congruence]]]. split; [done|]. split; [done|].
        intros t pc Hpc. simpl in *. destruct (Hd t pc Hpc) as (h' & Hh' & _). by rewrite Hh' in Hnull.
      * exists (EvTick :: pre), post, s'. split; [done|]. cbn [iterS].
        by rewrite (prog_bind_eq _ _ _ _ _ Hstep).
  - rewrite filter_cons_False in Hn by (rewrite Htick; by intros []).
    destruct (IH s retries n) as (pre & post & s' & -> & Hrest & Hs'); try done.
    exists (ev :: pre), post, s'. split; [done|]. cbn [iterS].
    by rewrite (prog_bind_eq _ _ _ _ _ (waiting_call ev s retries Hw Hev Htick)).
Qed.
End Recovery.

(** ** Properties *)

(** C18: any interleaving of register calls, accesses of set_debug, stops and
    iterations of the reconnection thread runs to its end, as long as the
    object exists, with ctx_ null or live: no freed or null context is ever
    handed to libmodbus and no call throws.  Two conditions: no register call
    runs while a call of set_debug, which takes no lock and reads ctx_ twice,
    is under way (the task of a device calls it before its first read; without
    this the context may be gone); and the int that counts the attempts
    cannot overflow, because there is a retry limit, or because the thread
    makes at most 2147483647 iterations. *)
Theorem api_trace_safe `{Libmodbus} p w evs :
  forallb (negb ∘ is_delete) evs = true → calls_wait evs (api_start p w).2 = true →
  ((0 < maxRetries_ p ≤ INT_MAX) ∨ Z.of_nat (length (filter is_tick evs)) ≤ INT_MAX)%Z →
  ∃ s, api_trace p w evs = (Done tt, s) ∧ ctx_live (obj s) ∧ exists_ s = true.
Proof.
  intros Hevs Hwait Hmax. destruct (api_trace_total p w evs Hevs Hwait Hmax) as (s0 & s & Hmk & Hrun & Hl & He & _).
  exists s. unfold api_trace. by rewrite Hmk, Hrun.
Qed.

(** [set_debug] takes no lock: a read that fails in another thread between its
    test and its use of the context leaves it with a null context, or, when
    the context has been loaded for the call, with a freed one. *)
Theorem set_debug_race `{Libmodbus} s t addr nb h :
  ctx_live (obj s) → exists_ s = true → ctx_ (obj s) = Some h → debugs s !! t = None →
  (mb_read_registers h addr nb (bus (obj s))).1 = None →
  (iterS [EvDebug t; EvRead addr nb; EvDebug t; EvDebug t] api_handle s).1
    = Undef "null context handed to libmodbus" ∧
  (iterS [EvDebug t; EvDebug t; EvRead addr nb; EvDebug t] api_handle s).1
    = Undef "context used after free".
Proof.
  intros Hl He Hh Ht Hfail. destruct s as [o th e d]. simpl in *. subst e.
  destruct (mb_read_registers h addr nb (bus o)) as [r w] eqn:Hread. simpl in Hfail. subst r.
  assert (readRegisters addr nb o = (Done None,
    set_ctx None (set_live (live o ∖ {[h]}) (next_ctx o) (set_bus w o)))) as Hrun.
  { unfold readRegisters. rewrite (with_ctx_run _ o h) by done. by rewrite Hread. }
  unfold mbind, prog_bind, getS, modifyS, on_obj. simpl. rewrite Ht. simpl.
  unfold mbind, prog_bind, getS, modifyS, on_obj. simpl. rewrite Hh, Hrun. simpl.
  rewrite !lookup_partial_alter_eq. simpl. rewrite Hh, Hrun. simpl.
  rewrite !lookup_partial_alter_eq. simpl. split; [done|].
  unfold mbind, prog_bind, on_ctx. by rewrite decide_False by (simpl; set_solver).
Qed.

(** The destructor neither stops nor joins the reconnection thread: if the
    thread is still in its loop when the object is stopped and destroyed, its
    next iteration uses the destroyed object. *)
Theorem delete_under_running_thread `{Libmodbus} s retries :
  sys_ok s → thread s = Some retries →
  (iterS [EvStop; EvDelete; EvTick] api_handle s).1 = Undef "object used after its lifetime".
Proof.
  intros (Hl & He & _) Hth. simpl. unfold mbind, prog_bind, on_obj. rewrite He. simpl.
  destruct (total_destroy (set_runing false (obj s)) Hl) as (x & a' & Hd & _).
  rewrite Hd. simpl. by rewrite Hth.
Qed.

(** A device that accepts no connection costs one leaked context per
    attempt, and the thread makes exactly max_retries attempts before it
    leaves its loop (none of the contexts is ever freed). *)
Theorem reconnect_gives_up_and_leaks `{Libmodbus} a :
  unreachable → ctx_live a → ctx_ a = None → runing_ a = true →
  (0 < maxRetries_ (params a) ≤ INT_MAX)%Z →
  let n := Z.to_nat (maxRetries_ (params a)) in
  (∀ k, (k ≤ n)%nat →
     ∃ a', reconnectLoop k 0 a = (Done (Some (Z.of_nat k)), a') ∧
           size (live a') = (size (live a) + k)%nat) ∧
  (∃ a', reconnectLoop (S n) 0 a = (Done None, a') ∧ ctx_ a' = None ∧
         size (live a') = (size (live a) + n)%nat).
Proof.
  intros Hdown Ha Hnull Hrun Hmax n. split.
  - intros k Hk. destruct (reconnectLoop_fails Hdown k a 0) as (a' & Hloop & Hl); [done..|lia|lia|].
    exists a'. specialize (Hloop 0%nat). rewrite Nat.add_0_r in Hloop.
    rewrite Hloop. split; [done|]. apply Hl.
  - destruct (reconnectLoop_fails Hdown n a 0) as (a' & Hloop & Hl); [done..|lia|lia|].
    exists a'. specialize (Hloop 1%nat). rewrite Nat.add_1_r in Hloop. rewrite Hloop.
    destruct Hl as (? & Hnull' & Hp' & Hr' & ?). split; [|done].
    cbn [reconnectLoop]. unfold reconnect_iter, mbind, prog_bind, getS.
    rewrite Hr', Hrun, Hnull', Hp'. simpl.
    by replace (_ && _) with true by (symmetry; apply andb_true_iff; rewrite Z.ltb_lt, Z.leb_le; lia).
Qed.

(** C6: a device that comes back is used again: if the attempt after [n]
    failing ones would connect and the retry limit (or, without one, the
    largest int) has not been passed by then, then in every schedule of client
    calls, accesses of set_debug and thread iterations with more than [n]
    iterations (and no stop) there is a point where the context is established
    and live, the retry counter is back to zero, and every read that the
    device answers returns its registers. *)
Theorem device_recovers `{Libmodbus} evs s n h :
  ctx_live (obj s) → exists_ s = true → ctx_ (obj s) = None → runing_ (obj s) = true →
  thread s = Some 0%Z → debugs s = ∅ → comes_up (obj s) n h →
  (maxRetries_ (params (obj s)) ≤ 0 ∨ Z.of_nat n < maxRetries_ (params (obj s)))%Z →
  (Z.of_nat n ≤ INT_MAX)%Z →
  forallb in_service evs = true → (n < length (filter is_tick evs))%nat →
  ∃ pre post s', evs = pre ++ post ∧ iterS pre api_handle s = (Done tt, s') ∧
    ctx_ (obj s') = Some h ∧ ctx_live (obj s') ∧ thread s' = Some 0%Z ∧
    ∀ addr nb regs w, mb_read_registers h addr nb (bus (obj s')) = (Some regs, w) →
      (readRegisters addr nb (obj s')).1 = Done (Some regs).
Proof.
  intros Hlive He Hnull Hrun Hth Hdbg Hup Hmax Hint Hs Hn.
  destruct (waiting_comes_up evs s 0 n h) as (pre & post & s' & Heq & Hpre & (Hl' & He' & _) & Ht' & Hh'); try done.
  { split; [|done]. split; [done|]. split; [done|]. intros t pc. by rewrite Hdbg, lookup_empty. }
  exists pre, post, s'. split_and!; try done; [apply Hl'..|].
  intros addr nb regs w Hread. unfold readRegisters. rewrite (with_ctx_run _ _ h) by done.
  by rewrite Hread.
Qed.

(** Once the thread has left its loop and the context is gone, the device
    stays unavailable: whatever calls follow, every register read and write
    returns false and no context is ever created again. *)
Theorem given_up_forever `{Libmodbus} evs s :
  forallb (negb ∘ is_delete) evs = true →
  exists_ s = true → thread s = None → ctx_ (obj s) = None → debugs s = ∅ →
  ∃ s', iterS evs api_handle s = (Done tt, s') ∧
    thread s' = None ∧ ctx_ (obj s') = None ∧ live (obj s') = live (obj s) ∧
    (∀ addr nb, (readRegisters addr nb (obj s')).1 = Done None) ∧
    (∀ addr v, (writeRegister addr v (obj s')).1 = Done false).
Proof.
  intros Hevs He Hth Hnull Hdbg.
  set (I := λ t, exists_ t = true ∧ thread t = None ∧ ctx_ (obj t) = None ∧
                 live (obj t) = live (obj s) ∧ debugs t = ∅).
  assert (Hobj : ∀ A (m : prog ModbusApi A),
    (∀ a, ctx_ a = None → ∃ x, m a = (Done x, a)) → total_on I (on_obj m)).
  { intros A m Hm t (He' & Hth' & Hn' & Hl' & Hd'). destruct (Hm _ Hn') as [x Hx].
    unfold on_obj. rewrite He', Hx. by eexists _, _. }
  assert (Hw : ∀ A (call : nat → bus_state → option A * bus_state) a,
    ctx_ a = None → ∃ x, with_ctx call a = (Done x, a)).
  { intros. eexists. by apply with_ctx_null. }
  destruct (total_iterS I evs api_handle) with (s := s)
    as ([] & s' & Hrun & (He' & Hth' & Hn' & Hl' & Hd')); [|by split_and!|].
  2: { exists s'. split; [done|]. split_and!; [done..| |]; intros.
       - unfold readRegisters. by rewrite with_ctx_null.
       - unfold writeRegister, mbind, prog_bind. by rewrite with_ctx_null. }
  intros ev Hev. rewrite forallb_forall in Hevs. apply list_elem_of_In, Hevs in Hev.
  destruct ev; try discriminate; simpl.
  - apply total_bind; [by apply Hobj; eauto|eauto with gw].
  - apply total_bind; [apply Hobj|eauto with gw]. intros a Ha.
    unfold writeRegister, mbind, prog_bind. rewrite with_ctx_null by done. by eexists.
  - apply total_bind; [apply Hobj|eauto with gw]. intros a Ha.
    unfold writeRegisters, mbind, prog_bind. rewrite with_ctx_null by done. by eexists.
  - apply total_getS. intros t1 (He1 & Hth1 & Hn1 & Hl1 & Hd1). rewrite Hd1, lookup_empty. simpl.
    unfold mbind, prog_bind, on_obj. rewrite He1. simpl. rewrite Hn1. simpl.
    eexists _, _. split; [done|]. split_and!; simpl; try done. by rewrite Hd1.
  - intros t (He1 & Hth1 & Hn1 & Hl1 & Hd1). unfold on_obj. rewrite He1. by eexists _, _.
  - apply total_getS. intros t Ht. destruct Ht as (? & Hth1 & ?). rewrite Hth1. by eexists _, _.
Qed.

(** A block read that fails (a refused one of more than 125 registers
    in particular) returns false and tears the connection down: the context
    is freed and every later call fails until the thread reconnects. *)
Theorem failed_read_drops_connection `{LibmodbusOk} a addr nb h :
  ctx_live a → ctx_ a = Some h →
  (MODBUS_MAX_READ_REGISTERS < nb)%Z ∨ (mb_read_registers h addr nb (bus a)).1 = None →
  ∃ a', readRegisters addr nb a = (Done None, a') ∧ ctx_ a' = None ∧ live a' = live a ∖ {[h]} ∧
        (∀ addr' nb', (readRegisters addr' nb' a').1 = Done None).
Proof.
  intros Ha Hh Hfail. unfold readRegisters. rewrite (with_ctx_run _ a h) by done.
  assert ((mb_read_registers h addr nb (bus a)).1 = None) as Hnone
    by (destruct Hfail; [by apply mb_read_limit|done]).
  destruct (mb_read_registers h addr nb (bus a)) as [r w]. simpl in Hnone. subst r.
  eexists. split; [done|]. split_and!; [done..|]. intros. by rewrite with_ctx_null.
Qed.

(** ** A concrete bus for the witnesses: [up] says whether connections succeed *)

Definition demo_libmodbus (up : bool) : Libmodbus := {|
  bus_state := Z → Z;
  mb_new_tcp _ _ w := (true, w);
  mb_new_rtu _ _ _ _ _ w := (true, w);
  mb_set_slave _ _ w := (true, w);
  mb_connect _ w := (up, w);
  mb_read_registers _ addr nb w :=
    (if ((0 <=? nb) && (nb <=? 125))%Z then Some (w <$> seqZ addr nb) else None, w);
  mb_write_register _ addr v w := (true, λ a, if (a =? addr)%Z then v else w a);
  mb_write_registers _ _ _ w := (true, w)
|}.

Lemma demo_libmodbus_ok up : LibmodbusOk (H := demo_libmodbus up).
Proof.
  split; simpl.
  - intros h addr nb w regs w' Hr. destruct (0 <=? nb)%Z eqn:?, (nb <=? 125)%Z eqn:?; simplify_eq/=.
    gw_bool. rewrite length_fmap, length_seqZ. lia.
  - intros h addr nb w Hnb. unfold MODBUS_MAX_READ_REGISTERS in Hnb.
    replace (nb <=? 125)%Z with false by (symmetry; apply Z.leb_gt; lia).
    by rewrite andb_false_r.
Defined.

Definition demo_params : ModbusParams := {|
  slaveAddr_ := 1; type_ := TCP; channel_ := 0; cmdInterval_ := 1000; portName_ := "";
  baudrate_ := 0; parity_ := ODD; ip_ := "192.168.0.10"; port_ := 502; maxRetries_ := 3;
  retryInterval_ := 1000
|}.

Definition demo_api (up : bool) (ctx : option nat) : ModbusApi (H := demo_libmodbus up) :=
  @Build_ModbusApi (demo_libmodbus up) demo_params ctx true (from_option singleton ∅ ctx) 1
    (λ a, (a * 10)%Z).

Lemma api_trace_safe_witness :
  ∃ s, api_trace (H := demo_libmodbus true) demo_params (λ _, 0%Z)
         [EvTick; EvDebug 0; EvTick; EvDebug 0; EvStop; EvDebug 0; EvRead 0 200; EvDebug 0; EvTick; EvWrite 3 4]
         = (Done tt, s) ∧ ctx_live (obj s) ∧ exists_ s = true.
Proof.
  apply (api_trace_safe (H := demo_libmodbus true)).
  - reflexivity.
  - vm_compute. reflexivity.
  - left. unfold INT_MAX. simpl. lia.
Defined.

Lemma demo_ctx_live up ctx : (ctx = None ∨ ctx = Some 0%nat) → ctx_live (demo_api up ctx).
Proof. intros [->| ->]; split; simpl; intros; set_unfold; naive_solver lia. Qed.

Lemma reconnect_gives_up_and_leaks_witness :
  ∃ a', reconnectLoop 4 0 (demo_api false None) = (Done None, a') ∧ ctx_ a' = None ∧
        size (live a') = 3%nat.
Proof.
  destruct (reconnect_gives_up_and_leaks (H := demo_libmodbus false) (demo_api false None))
    as [_ (a' & Hrun & Hnull & Hsize)]; [done| |done..|].
  - apply demo_ctx_live. by left.
  - by exists a'.
Defined.

(** A bus that refuses two connections and then accepts: the state counts. *)
Definition demo_flaky : Libmodbus := {|
  bus_state := nat;
  mb_new_tcp _ _ w := (true, w);
  mb_new_rtu _ _ _ _ _ w := (true, w);
  mb_set_slave _ _ w := (true, w);
  mb_connect _ w := ((2 <=? w)%nat, S w);
  mb_read_registers _ addr nb w := (Some (seqZ addr nb), w);
  mb_write_register _ _ _ w := (true, w);
  mb_write_registers _ _ _ w := (true, w)
|}.

(** An attempt on this bus. *)
Lemma demo_flaky_attempt l n w :
  let a := @Build_ModbusApi demo_flaky demo_params None true l n w in
  createModbusContext a = (Done (if (2 <=? w)%nat then Some n else None),
    @Build_ModbusApi demo_flaky demo_params None true ({[n]} ∪ l) (S n) (S w)).
Proof.
  intros a. unfold createModbusContext, mbind, prog_bind, getS, new_ctx. simpl.
  rewrite on_ctx_live by (simpl; set_solver). simpl.
  rewrite on_ctx_live by (simpl; set_solver). simpl.
  destruct w as [|[|w]]; reflexivity.
Qed.

Lemma device_recovers_witness :
  let s := {| obj := @Build_ModbusApi demo_flaky demo_params None true ∅ 0 0%nat;
              thread := Some 0%Z; exists_ := true; debugs := ∅ |} in
  ∃ pre post s', [EvRead 0 2; EvTick; EvTick; EvRead 0 2; EvTick; EvRead 0 2] = pre ++ post ∧
    iterS pre (api_handle (H := demo_flaky)) s = (Done tt, s') ∧ ctx_ (obj s') = Some 2%nat.
Proof.
  intros s. edestruct (device_recovers (H := demo_flaky)
    [EvRead 0 2; EvTick; EvTick; EvRead 0 2; EvTick; EvRead 0 2] s 2 2)
    as (pre & post & s' & Heq & Hrun & Hh & _); try reflexivity.
  - split; simpl; [discriminate|set_solver].
  - eapply up_later; [apply demo_flaky_attempt|]. eapply up_later; [apply demo_flaky_attempt|].
    eapply up_now. apply demo_flaky_attempt.
  - right. simpl. lia.
  - unfold INT_MAX. lia.
  - simpl. lia.
  - exists pre, post, s'. split; [exact Heq|]. split; [exact Hrun|exact Hh].
Defined.

Lemma given_up_forever_witness :
  let s := {| obj := demo_api true None; thread := None; exists_ := true; debugs := ∅ |} in
  ∃ s', iterS [EvRead 0 1; EvTick; EvStop] (api_handle (H := demo_libmodbus true)) s = (Done tt, s') ∧
    thread s' = None ∧ ctx_ (obj s') = None ∧ live (obj s') = live (obj s) ∧
    (∀ addr nb, (readRegisters addr nb (obj s')).1 = Done None) ∧
    (∀ addr v, (writeRegister addr v (obj s')).1 = Done false).
Proof. intros s. by apply (given_up_forever (H := demo_libmodbus true)). Defined.

Lemma failed_read_drops_connection_witness :
  ∃ a', readRegisters 0 126 (demo_api true (Some 0%nat)) = (Done None, a') ∧ ctx_ a' = None ∧
        live a' = live (demo_api true (Some 0%nat)) ∖ {[0%nat]} ∧
        (∀ addr' nb', (readRegisters addr' nb' a').1 = Done None).
Proof.
  apply (@failed_read_drops_connection _ (demo_libmodbus_ok true)
    (demo_api true (Some 0%nat)) 0 126 0%nat); [|done|by left].
  apply demo_ctx_live. by right.
Defined.
