(* ===== verification/ModbusPoll.v ===== *)
(** * Polling a Modbus device

    The acquisition cycle of [core/modbus/app_modbus_client.cc]:
    [findContinuousRegisters], [processUserData] and
    [processContinuousRegisters].  The device is any [RegisterReader] (the
    instance is [ModbusApi]), the sink any [KvStore] (the instance is the
    Redis client), and [std::sort] is a parameter of which only sortedness
    and permutation are known, since it is not stable. *)

From Stdlib Require Import ZArith String SpecFloat Lia.
From stdpp Require Import base tactics option list numbers strings gmap sorting.
From S2P Require Import Prelude Text Store Config ModbusApi.
Import ConfigDataModbus.

Record RegisterRange := {
  start_addr : Z;      (* uint16_t *)
  count : Z;           (* int *)
  end_index : nat      (* size_t *)
}.

(** The two [switch]es over the data type: registers per point, [None] for
    the [default] label. *)
Definition reg_count (dt : data_type_e) : option Z :=
  match dt with
  | INT16 | UINT16 => Some 1
  | INT32 | UINT32 | FLOAT32 => Some 2
  | _ => None
  end%Z.

(** The [while] loop of [findContinuousRegisters] over the points that follow
    the start point, [idx] being the index of the first of them. *)
Fixpoint extend_range (rest : list data_points_t) (idx : nat) (next_expected_addr : Z)
    (range : RegisterRange) : RegisterRange :=
  match rest with
  | [] => range
  | p :: rest' =>
      match reg_count (data_type p) with
      | None => range
      | Some n =>
          if (address p =? next_expected_addr)%Z then
            extend_range rest' (S idx) (address p + n)
              {| start_addr := start_addr range; count := count range + n; end_index := idx |}
          else range
      end
  end.

Definition findContinuousRegisters (points : list data_points_t) (start_index : nat)
    : RegisterRange :=
  match points !! start_index with
  | None => {| start_addr := 0; count := 0; end_index := start_index |}
  | Some p =>
      match reg_count (data_type p) with
      | None => {| start_addr := address p; count := 0; end_index := start_index |}
      | Some n =>
          let range := {| start_addr := address p; count := n; end_index := start_index |} in
          if (start_index =? length points - 1)%nat then range
          else extend_range (drop (S start_index) points) (S start_index) (address p + n) range
      end
  end.

(** [dataBuffer[i]] on a [std::vector]. *)
Definition buffer_at (buf : list Z) (i : Z) : outcome Z :=
  match buf !! Z.to_nat i with
  | Some r => Done r
  | None => Undef "register buffer overrun"
  end.

(** [*reinterpret_cast<const float *>] on two consecutive words of a
    little-endian host: the first word is the low half of the binary32. *)
Definition f32_of_bits (b : Z) : spec_float :=
  let s := Z.testbit b 31 in
  let e := Z.land (Z.shiftr b 23) 255 in
  let m := Z.land b (2 ^ 23 - 1) in
  if (e =? 255)%Z then if (m =? 0)%Z then S754_infinity s else S754_nan
  else if (e =? 0)%Z then
    match m with Zpos p => S754_finite s p (-149) | _ => S754_zero s end
  else
    match (m + 2 ^ 23)%Z with Zpos p => S754_finite s p (e - 150) | _ => S754_nan end.

Definition f32_of_words (lo hi : Z) : spec_float := f32_of_bits (Z.lor lo (Z.shiftl hi 16)).

Definition redisKey (deviceId name : string) : string :=
  ("modbus_data:" ++ deviceId ++ ":" ++ name)%string.

Section Poll.
Context {A K : Type} `{RegisterReader A} `{KvStore K} `{FloatText}.

(** The body of the loop of [processUserData] on one point, from and to
    [uOffset] (a [uint32_t]). *)
Definition process_point (deviceId : string) (dataBuffer : list Z) (uOffset : Z)
    (point : data_points_t) : prog K Z :=
  let key := redisKey deviceId (name point) in
  match data_type point with
  | INT16 =>
      r ← liftO (buffer_at dataBuffer uOffset);
      _ ← storeInt key (wrap_s 16 r); mret (wrap_u 32 (uOffset + 1))
  | UINT16 =>
      r ← liftO (buffer_at dataBuffer uOffset);
      _ ← storeUInt key (wrap_u 16 r); mret (wrap_u 32 (uOffset + 1))
  | INT32 =>
      r ← liftO (buffer_at dataBuffer uOffset);
      _ ← storeDInt key (wrap_s 32 r); mret (wrap_u 32 (uOffset + 2))
  | UINT32 =>
      r ← liftO (buffer_at dataBuffer uOffset);
      _ ← storeUDInt key (wrap_u 32 r); mret (wrap_u 32 (uOffset + 2))
  | FLOAT32 =>
      lo ← liftO (buffer_at dataBuffer uOffset);
      hi ← liftO (buffer_at dataBuffer (uOffset + 1));
      _ ← storeLReal key (f32_of_words lo hi); mret (wrap_u 32 (uOffset + 2))
  | _ => mret uOffset
  end.

Fixpoint process_points (deviceId : string) (dataBuffer : list Z) (uOffset : Z)
    (points : list data_points_t) : prog K unit :=
  match points with
  | [] => mret tt
  | p :: points' =>
      off ← process_point deviceId dataBuffer uOffset p;
      process_points deviceId dataBuffer off points'
  end.

(** A Redis client lives for the duration of the call. *)
Definition processUserData (deviceId : string) (dataBuffer : list Z)
    (dataPoints : list data_points_t) : prog K bool :=
  kv_open;;
  process_points deviceId dataBuffer 0 dataPoints;;
  kv_close;;
  mret true.

(** The state of a cycle: the device and the store. *)
Definition on_device {X} (m : prog A X) : prog (A * K) X := λ s,
  let '(r, a) := m s.1 in (r, (a, s.2)).
Definition on_store {X} (m : prog K X) : prog (A * K) X := λ s,
  let '(r, k) := m s.2 in (r, (s.1, k)).

(** The [while] loop from index [i]; one unit of fuel per iteration. *)
Fixpoint process_ranges (fuel : nat) (deviceId : string) (points : list data_points_t)
    (i : nat) : prog (A * K) unit :=
  match fuel with
  | O => mret tt
  | S fuel' =>
      if (i <? length points)%nat then
        let range := findContinuousRegisters points i in
        buffer ← on_device (rr_read (start_addr range) (count range));
        match buffer with
        | None => mret tt
        | Some regs => _ ← on_store (processUserData deviceId regs points); mret tt
        end;;
        process_ranges fuel' deviceId points (S (end_index range))
      else mret tt
  end.

(** [std::sort] with the address comparison. *)
Context (std_sort : list data_points_t → list data_points_t).

Definition processContinuousRegisters (config : ConfigDataModbus.t) : prog (A * K) unit :=
  match data_points config with
  | [] => mret tt
  | pts =>
      let points := std_sort pts in
      process_ranges (length points) (device_id config) points 0
  end.
End Poll.

(** ** Reference: the maximal runs of consecutive registers *)

Definition regs_of (p : data_points_t) : Z := default 0%Z (reg_count (data_type p)).

Definition regs_total (seg : list data_points_t) : Z :=
  foldr (λ p acc, regs_of p + acc)%Z 0%Z seg.

Definition seg_addr (seg : list data_points_t) : Z :=
  match seg with [] => 0%Z | p :: _ => address p end.

Definition adjacent (p q : data_points_t) : bool := (address p + regs_of p =? address q)%Z.

Fixpoint segments (l : list data_points_t) : list (list data_points_t) :=
  match l with
  | [] => []
  | p :: l' =>
      match segments l' with
      | (q :: seg) :: segs =>
          if adjacent p q then (p :: q :: seg) :: segs else [p] :: (q :: seg) :: segs
      | segs => [p] :: segs
      end
  end.

(** Consecutive registers from one point to the next. *)
Fixpoint contiguous (l : list data_points_t) : Prop :=
  match l with
  | p :: ((q :: _) as l') => adjacent p q = true ∧ contiguous l'
  | _ => True
  end.

(** No point of a type that occupies no register (the parser rejects them). *)
Definition points_known (l : list data_points_t) : Prop :=
  Forall (λ p, is_Some (reg_count (data_type p))) l.

(** How many of [l] continue a run that expects [next]. *)
Fixpoint run_length (next : Z) (l : list data_points_t) : nat :=
  match l with
  | [] => 0
  | p :: l' => if (address p =? next)%Z then S (run_length (address p + regs_of p) l') else 0
  end.

Lemma regs_of_known p : is_Some (reg_count (data_type p)) →
  reg_count (data_type p) = Some (regs_of p) ∧ (1 ≤ regs_of p ≤ 2)%Z.
Proof. unfold regs_of. destruct (data_type p); simpl; intros [? ?]; simplify_eq; (split; [done|lia]). Qed.

Lemma extend_range_spec rest idx next range :
  points_known rest →
  let n := run_length next rest in
  extend_range rest idx next range =
    {| start_addr := start_addr range;
       count := count range + regs_total (take n rest);
       end_index := if (n =? 0)%nat then end_index range else (idx + n - 1)%nat |}.
Proof.
  intros Hk. revert idx next range.
  induction Hk as [|p rest Hp Hk IH]; intros idx next range; simpl.
  { destruct range; simpl. f_equal. lia. }
  destruct (regs_of_known p Hp) as [-> _].
  destruct (address p =? next)%Z eqn:Heq; simpl.
  - rewrite IH. simpl. f_equal; [lia|]. destruct (run_length _ rest); simpl; lia.
  - destruct range; simpl. f_equal. lia.
Qed.

Lemma segments_head p l : ∃ seg segs, segments (p :: l) = (p :: seg) :: segs.
Proof.
  simpl. destruct (segments l) as [|[|q seg] segs]; [by eexists _, _..|].
  destruct (adjacent p q); by eexists _, _.
Qed.

(** The first segment is the start point with the run that continues it. *)
Lemma segments_cons p l :
  let n := run_length (address p + regs_of p) l in
  segments (p :: l) = (p :: take n l) :: segments (drop n l).
Proof.
  revert p. induction l as [|q l IH]; intros p; [done|].
  cbn [run_length]. destruct (segments_head q l) as (seg & segs & Hseg).
  assert (Hadj : adjacent p q = (address q =? address p + regs_of p)%Z)
    by (unfold adjacent; apply Z.eqb_sym).
  cbn [segments] in *. rewrite Hseg, Hadj.
  destruct (address q =? _)%Z; cbn [take drop]; [|by rewrite <- Hseg].
  specialize (IH q). cbn [segments] in IH. rewrite Hseg in IH. by simplify_eq.
Qed.

Lemma find_spec points i p rest :
  points_known points → drop i points = p :: rest →
  let n := run_length (address p + regs_of p) rest in
  findContinuousRegisters points i =
    {| start_addr := address p; count := regs_total (p :: take n rest); end_index := (i + n)%nat |}.
Proof.
  intros Hk Hdrop n. unfold findContinuousRegisters.
  assert (Hp : points !! i = Some p).
  { rewrite <- (Nat.add_0_r i), <- lookup_drop, Hdrop. done. }
  assert (Hrest : drop (S i) points = rest).
  { replace (S i) with (i + 1)%nat by lia. rewrite <- drop_drop, Hdrop. done. }
  rewrite Hp. destruct (regs_of_known p) as [-> _].
  { by eapply (Forall_lookup_1 _ _ _ _ Hk). }
  assert (Hlen : length points = (S i + length rest)%nat).
  { apply lookup_lt_Some in Hp as Hlt. rewrite <- Hrest, length_drop. lia. }
  destruct (i =? length points - 1)%nat eqn:Heq.
  - apply Nat.eqb_eq in Heq. destruct rest; [|simpl in Hlen; lia].
    subst n. simpl. f_equal; lia.
  - rewrite Hrest, extend_range_spec by (rewrite <- Hrest; by apply Forall_drop).
    fold n. simpl. f_equal. destruct n; simpl; lia.
Qed.

Section PollLemmas.
Context {A K : Type} `{RegisterReader A} `{KvStore K} `{FloatText}.

(** One cycle step of the reference: read a segment, hand the registers over. *)
Definition poll_segment (deviceId : string) (points seg : list data_points_t)
    : prog (A * K) unit :=
  buffer ← on_device (rr_read (seg_addr seg) (regs_total seg));
  match buffer with
  | None => mret tt
  | Some regs => _ ← on_store (processUserData deviceId regs points); mret tt
  end.

Lemma process_ranges_segments fuel deviceId points i s :
  points_known points → (length points - i ≤ fuel)%nat →
  process_ranges fuel deviceId points i s =
    iterS (segments (drop i points)) (poll_segment deviceId points) s.
Proof.
  intros Hk. revert i s. induction fuel as [|fuel IH]; intros i s Hf; simpl.
  { by rewrite drop_ge by lia. }
  destruct (drop i points) as [|p rest] eqn:Hdrop.
  { replace (i <? length points)%nat with false; [done|].
    symmetry. apply Nat.ltb_ge. rewrite <- (take_drop i points), Hdrop, app_nil_r.
    rewrite length_take. lia. }
  assert (Hi : (i < length points)%nat).
  { destruct (decide (i < length points)%nat); [done|]. by rewrite drop_ge in Hdrop by lia. }
  apply Nat.ltb_lt in Hi as ->. rewrite (find_spec points i p rest) by done. simpl start_addr.
  rewrite segments_cons. set (n := run_length _ rest).
  cbn [iterS count end_index].
  assert (Hd : drop n rest = drop (S (i + n)) points).
  { replace (S (i + n)) with (i + (1 + n))%nat by lia. by rewrite <- drop_drop, Hdrop. }
  specialize (IH (S (i + n))). rewrite <- Hd in IH.
  set (it := iterS _ _) in *. unfold poll_segment, mbind, prog_bind. cbn [seg_addr].
  destruct (on_device _ s) as [[[regs|]|e|w] s1]; [|by apply IH; lia|done..].
  destruct (on_store _ s1) as [[b|e|w] s2]; [by apply IH; lia|done..].
Qed.
End PollLemmas.

Lemma segments_concat l : concat (segments l) = l.
Proof.
  induction l as [|p l IH]; [done|]. simpl.
  destruct (segments l) as [|[|q seg] segs]; simpl in *; [by rewrite <- IH|congruence|].
  destruct (adjacent p q); simpl; congruence.
Qed.

Lemma segments_contiguous l : Forall (λ seg, seg ≠ [] ∧ contiguous seg) (segments l).
Proof.
  induction l as [|p l IH]; [done|]. simpl.
  destruct (segments l) as [|[|q seg] segs]; [by repeat constructor| |].
  - apply Forall_cons in IH as [[? _] _]. done.
  - apply Forall_cons in IH as [[? Hc] IH]. destruct (adjacent p q) eqn:Hadj.
    + by constructor.
    + repeat constructor; done.
Qed.

(** A run that is not cut anywhere is one segment. *)
Lemma segments_contiguous_one p l : contiguous (p :: l) → segments (p :: l) = [p :: l].
Proof.
  revert p. induction l as [|q l IH]; intros p; [done|]. intros [Hadj Hc].
  specialize (IH q Hc). cbn [segments] in *. by rewrite IH, Hadj.
Qed.

(** Two neighbouring segments do not touch. *)
Definition cut (s1 s2 : list data_points_t) : Prop :=
  ∃ p q, last s1 = Some p ∧ head s2 = Some q ∧ adjacent p q = false.

Fixpoint all_cut (segs : list (list data_points_t)) : Prop :=
  match segs with
  | s1 :: ((s2 :: _) as segs') => cut s1 s2 ∧ all_cut segs'
  | _ => True
  end.

Lemma segments_step p q l seg segs :
  segments (q :: l) = (q :: seg) :: segs →
  segments (p :: q :: l) =
    if adjacent p q then (p :: q :: seg) :: segs else [p] :: (q :: seg) :: segs.
Proof. intros Hs. cbn [segments] in *. by rewrite Hs. Qed.

Lemma segments_cut l : all_cut (segments l).
Proof.
  induction l as [|p [|q' l'] IH]; [done..|].
  destruct (segments_head q' l') as (seg & segs & Hs).
  rewrite Hs in IH. rewrite (segments_step p q' l' seg segs Hs).
  destruct (adjacent p q') eqn:Hadj.
  - destruct segs as [|s2 segs]; [done|]. destruct IH as [(x & y & Hx & Hy & Hxy) IH].
    split; [|done]. exists x, y. split; [|done]. done.
  - split; [|done]. by exists p, q'.
Qed.

(** ** What a cycle stores *)

(** The text stored for a point whose first register is [lo] and second [hi]. *)
Definition value_text `{FloatText} (dt : data_type_e) (lo hi : Z) : string :=
  match dt with
  | INT16 => fmt_int F_d (wrap_s 16 lo)
  | UINT16 => fmt_int F_u (wrap_u 16 lo)
  | INT32 => fmt_int F_d (wrap_s 32 lo)
  | UINT32 => fmt_int F_u (wrap_u 32 lo)
  | _ => fmt_f (f32_of_words lo hi)
  end.

(** The writes of a cycle over the registers [regs], point after point. *)
Fixpoint point_writes `{FloatText} (deviceId : string) (regs : list Z)
    (points : list data_points_t) : list (string * string) :=
  match points with
  | [] => []
  | p :: points' =>
      (redisKey deviceId (name p),
       value_text (data_type p) (nth 0 regs 0%Z) (nth 1 regs 0%Z)) ::
      point_writes deviceId (drop (Z.to_nat (regs_of p)) regs) points'
  end.

(** Names that reach Redis unchanged. *)
Definition names_ok (deviceId : string) (points : list data_points_t) : Prop :=
  no_nul deviceId = true ∧ Forall (λ p, no_nul (name p) = true) points.

Lemma buffer_at_nth buf i : (0 ≤ i < Z.of_nat (length buf))%Z →
  buffer_at buf i = Done (nth (Z.to_nat i) buf 0%Z).
Proof.
  intros Hi. unfold buffer_at.
  destruct (nth_lookup_or_length buf (Z.to_nat i) 0%Z) as [->|Hlen]; [done|lia].
Qed.

Lemma buffer_at_overrun buf i : (Z.of_nat (length buf) ≤ i)%Z →
  buffer_at buf i = Undef "register buffer overrun".
Proof. intros Hi. unfold buffer_at. by rewrite lookup_ge_None_2 by lia. Qed.

Lemma regs_total_nonneg l : (0 ≤ regs_total l)%Z.
Proof.
  induction l as [|p l IH]; simpl; [lia|].
  unfold regs_of. destruct (data_type p); simpl; lia.
Qed.

Section StoreLemmas.
Context {K : Type} `{KvStoreOk K} `{FloatTextOk}.

Lemma no_nul_redisKey deviceId nm :
  no_nul deviceId = true → no_nul nm = true → no_nul (redisKey deviceId nm) = true.
Proof. intros Hd Hn. unfold redisKey. by rewrite !no_nul_app, Hd, Hn. Qed.

Lemma no_nul_value_text dt lo hi : no_nul (value_text dt lo hi) = true.
Proof. destruct dt; first [apply no_nul_fmt_int | apply fmt_f_no_nul]. Qed.

Lemma process_point_ok deviceId buf off p k :
  kv_ready k → is_Some (reg_count (data_type p)) →
  no_nul (redisKey deviceId (name p)) = true →
  (0 ≤ off)%Z → (off + regs_of p ≤ Z.of_nat (length buf))%Z → (Z.of_nat (length buf) < 2 ^ 32)%Z →
  ∃ k', process_point deviceId buf off p k = (Done (off + regs_of p)%Z, k') ∧ kv_ready k' ∧
        kv_view k' = <[redisKey deviceId (name p) :=
          value_text (data_type p) (nth (Z.to_nat off) buf 0%Z)
            (nth (Z.to_nat (off + 1)) buf 0%Z)]> (kv_view k).
Proof.
  intros Hk Hp Hkey Hoff Hlen Hmax. destruct (regs_of_known p Hp) as [_ Hr].
  destruct (kv_set_ok (redisKey deviceId (name p)) (value_text (data_type p)
    (nth (Z.to_nat off) buf 0%Z) (nth (Z.to_nat (off + 1)) buf 0%Z)) k)
    as (k' & Hset & Hk' & Hview); [done|done|apply no_nul_value_text|].
  exists k'. split; [|done]. clear Hview. unfold process_point.
  unfold regs_of in *. destruct (data_type p); simpl in *; try (by destruct Hp);
    unfold liftO, storeInt, storeUInt, storeDInt, storeUDInt, storeLReal, store_fmt;
    unfold mbind, prog_bind; rewrite !buffer_at_nth by lia; simpl; rewrite Hset;
    unfold mret, prog_ret; rewrite wrap_u_id by (unfold in_u; lia); done.
Qed.

Lemma process_point_overrun deviceId buf off p k :
  is_Some (reg_count (data_type p)) → (Z.of_nat (length buf) ≤ off)%Z →
  (process_point deviceId buf off p k).1 = Undef "register buffer overrun".
Proof.
  intros Hp Hoff. unfold process_point, liftO, mbind, prog_bind.
  destruct (data_type p); simpl in *; try (by destruct Hp);
    by rewrite buffer_at_overrun by lia.
Qed.

(** A prefix of the points that the buffer covers. *)
Lemma process_points_app deviceId buf l1 l2 off k :
  kv_ready k → points_known l1 → names_ok deviceId l1 →
  (0 ≤ off)%Z → (off + regs_total l1 ≤ Z.of_nat (length buf))%Z → (Z.of_nat (length buf) < 2 ^ 32)%Z →
  ∃ k', process_points deviceId buf off (l1 ++ l2) k =
          process_points deviceId buf (off + regs_total l1) l2 k' ∧ kv_ready k' ∧
        kv_view k' = foldl (λ m kv, <[kv.1 := kv.2]> m) (kv_view k)
          (point_writes deviceId (drop (Z.to_nat off) buf) l1).
Proof.
  intros Hk Hkn [Hd Hns]. revert off k Hk Hns.
  induction Hkn as [|p l1 Hp Hkn IH]; intros off k Hk Hns Hoff Hlen Hmax; simpl in *.
  { exists k. by rewrite Z.add_0_r. }
  apply Forall_cons in Hns as [Hn Hns]. destruct (regs_of_known p Hp) as [_ Hr].
  pose proof (regs_total_nonneg l1).
  destruct (process_point_ok deviceId buf off p k) as (k1 & Hpt & Hk1 & Hv1);
    [done|done|by apply no_nul_redisKey|lia..|].
  destruct (IH (off + regs_of p)%Z k1) as (k2 & Hrun & Hk2 & Hv2); [done|done|lia..|].
  exists k2. rewrite (prog_bind_eq _ _ _ _ _ Hpt), Hrun. split; [f_equal; lia|].
  split; [done|]. rewrite Hv2, Hv1. f_equal.
  - f_equal. rewrite !nth_skipn. do 2 f_equal; lia.
  - rewrite drop_drop. do 2 f_equal. lia.
Qed.
End StoreLemmas.

(** ** Sorting *)

(** [std::sort] by address: some permutation in ascending order. *)
Class StdSortOk (std_sort : list data_points_t → list data_points_t) : Prop := {
  std_sort_perm l : std_sort l ≡ₚ l;
  std_sort_sorted l : StronglySorted (λ p q, address p ≤ address q)%Z (std_sort l)
}.

Lemma contiguous_sorted p l :
  contiguous (p :: l) → points_known (p :: l) →
  StronglySorted (λ p q, address p ≤ address q)%Z (p :: l) ∧
  Forall (λ q, address p < address q)%Z l.
Proof.
  revert p. induction l as [|q l IH]; intros p Hc Hk.
  { split; repeat constructor. }
  destruct Hc as [Hadj Hc]. apply Forall_cons in Hk as [Hp Hk].
  destruct (regs_of_known p Hp) as [_ ?]. unfold adjacent in Hadj. gw_bool.
  destruct (IH q Hc Hk) as [Hs Hlt].
  assert (Forall (λ r, address p < address r)%Z (q :: l)) as Hall.
  { constructor; [lia|]. eapply Forall_impl; [exact Hlt|]. simpl. lia. }
  split; [|done]. constructor; [done|]. eapply Forall_impl; [exact Hall|]. simpl. lia.
Qed.

Lemma contiguous_inj l p q :
  contiguous l → points_known l → p ∈ l → q ∈ l → address p = address q → p = q.
Proof.
  induction l as [|r l IH]; intros Hc Hk Hp Hq Heq; [by apply elem_of_nil in Hp|].
  destruct (contiguous_sorted r l Hc Hk) as [_ Hlt]. rewrite Forall_forall in Hlt.
  apply elem_of_cons in Hp as [->|Hp], Hq as [->|Hq]; [done| | |].
  - specialize (Hlt q Hq). lia.
  - specialize (Hlt p Hp). lia.
  - apply IH; [|by apply Forall_cons in Hk as [_ ?]|done..].
    destruct l; [done|]. apply Hc.
Qed.

(** The points of a contiguous device are sorted into that order, whatever
    algorithm sorts them. *)
Lemma std_sort_contiguous std_sort `{!StdSortOk std_sort} pts l :
  pts ≡ₚ l → contiguous l → points_known l → std_sort pts = l.
Proof.
  intros Hperm Hc Hk. destruct l as [|p l].
  { apply Permutation_nil_r in Hperm as ->. apply Permutation_nil_r.
    apply std_sort_perm. }
  eapply (StronglySorted_unique_strong (λ p q, address p ≤ address q)%Z).
  - intros x y Hx Hy ? ?. apply (contiguous_inj (p :: l)); [done..| |done|lia].
    by rewrite (std_sort_perm pts), Hperm in Hx.
  - apply std_sort_sorted.
  - by apply contiguous_sorted.
  - by rewrite (std_sort_perm pts).
Qed.

Lemma contiguous_total p l :
  contiguous (p :: l) → points_known (p :: l) → Forall (λ q, in_u 16 (address q)) (p :: l) →
  (regs_total (p :: l) ≤ 65537 - address p)%Z.
Proof.
  revert p. induction l as [|q l IH]; intros p Hc Hk Hu.
  - apply Forall_cons in Hk as [Hp _], Hu as [Hu _]. unfold in_u in Hu. simpl.
    destruct (regs_of_known p Hp). lia.
  - destruct Hc as [Hadj Hc]. apply Forall_cons in Hk as [Hp Hk], Hu as [_ Hu].
    unfold adjacent in Hadj. gw_bool. specialize (IH q Hc Hk Hu).
    cbn [regs_total foldr] in *. fold (regs_total l) in *. lia.
Qed.

(** ** The writes of a cycle, key by key *)

Lemma redisKey_inj d n1 n2 : redisKey d n1 = redisKey d n2 → n1 = n2.
Proof.
  unfold redisKey. intros Heq. do 2 apply (inj (String.append _)) in Heq.
  by injection Heq.
Qed.

Section Writes.
Context `{FloatText}.

Lemma point_writes_keys d regs l : (point_writes d regs l).*1 = redisKey d ∘ name <$> l.
Proof. revert regs. induction l as [|p l IH]; intros regs; simpl; [done|]. by rewrite IH. Qed.

Lemma point_writes_at d regs l1 p l2 :
  (redisKey d (name p),
   value_text (data_type p) (nth (Z.to_nat (regs_total l1)) regs 0%Z)
     (nth (Z.to_nat (regs_total l1 + 1)) regs 0%Z)) ∈ point_writes d regs (l1 ++ p :: l2).
Proof.
  revert regs. induction l1 as [|q l1 IH]; intros regs; simpl; [left|right].
  specialize (IH (drop (Z.to_nat (regs_of q)) regs)). rewrite !nth_skipn in IH.
  pose proof (regs_total_nonneg l1). pose proof (regs_total_nonneg [q]) as Hq. simpl in Hq.
  replace (Z.to_nat (regs_of q + regs_total l1))
    with (Z.to_nat (regs_of q) + Z.to_nat (regs_total l1))%nat by lia.
  replace (Z.to_nat (regs_of q + regs_total l1 + 1))
    with (Z.to_nat (regs_of q) + Z.to_nat (regs_total l1 + 1))%nat by lia. done.
Qed.

Lemma writes_lookup d regs l (m : gmap string string) :
  NoDup (name <$> l) →
  let m' := foldl (λ (m : gmap string string) kv, <[kv.1 := kv.2]> m) m (point_writes d regs l) in
  (∀ l1 p l2, l = l1 ++ p :: l2 → m' !! redisKey d (name p) =
     Some (value_text (data_type p) (nth (Z.to_nat (regs_total l1)) regs 0%Z)
             (nth (Z.to_nat (regs_total l1 + 1)) regs 0%Z))) ∧
  (∀ key, (∀ p, p ∈ l → key ≠ redisKey d (name p)) → m' !! key = m !! key).
Proof.
  intros Hnd m'.
  assert (Hnd' : NoDup (point_writes d regs l).*1).
  { rewrite point_writes_keys, list_fmap_compose. apply NoDup_fmap_2; [|done].
    intros x y. apply redisKey_inj. }
  split.
  - intros l1 p l2 ->. unfold m'. rewrite foldl_insert_lookup by done.
    erewrite elem_of_list_to_map_1; [done|done|]. apply point_writes_at.
  - intros key Hkey. unfold m'. rewrite foldl_insert_lookup by done.
    rewrite not_elem_of_list_to_map_1; [done|].
    rewrite point_writes_keys. intros (p & -> & Hp)%list_elem_of_fmap. by apply (Hkey p).
Qed.
End Writes.

Section UserData.
Context {K : Type} `{KvStoreOk K} `{FloatTextOk}.

Lemma processUserData_ok deviceId buf points k :
  kv_up k → points_known points → names_ok deviceId points →
  (regs_total points ≤ Z.of_nat (length buf) < 2 ^ 32)%Z →
  ∃ k', processUserData deviceId buf points k = (Done true, k') ∧ kv_up k' ∧
        kv_view k' = foldl (λ m kv, <[kv.1 := kv.2]> m) (kv_view k)
                       (point_writes deviceId buf points).
Proof.
  intros Hup Hk Hn [Hle Hlt]. destruct (kv_open_ok k Hup) as (k1 & Ho & Hr1 & Hv1).
  destruct (process_points_app deviceId buf points [] 0 k1) as (k2 & Hrun & Hr2 & Hv2); [done..|lia|].
  destruct (kv_close_ok k2 Hr2) as (k3 & Hc & Hup3 & Hv3).
  exists k3. unfold processUserData. rewrite (prog_bind_eq _ _ _ _ _ Ho).
  rewrite app_nil_r in Hrun. rewrite (prog_bind_eq _ _ k1 tt k2) by done.
  rewrite (prog_bind_eq _ _ _ _ _ Hc). split; [done|]. split; [done|].
  by rewrite Hv3, Hv2, Hv1.
Qed.

(** A point beyond the registers that were read. *)
Lemma processUserData_overrun deviceId buf l1 p l2 k :
  kv_up k → points_known (l1 ++ p :: l2) → names_ok deviceId (l1 ++ p :: l2) →
  (regs_total l1 = Z.of_nat (length buf))%Z → (Z.of_nat (length buf) < 2 ^ 32)%Z →
  (processUserData deviceId buf (l1 ++ p :: l2) k).1 = Undef "register buffer overrun".
Proof.
  intros Hup Hk [Hd Hn] Heq Hlt. destruct (kv_open_ok k Hup) as (k1 & Ho & Hr1 & _).
  apply Forall_app in Hk as [Hk1 Hk2], Hn as [Hn1 _]. apply Forall_cons in Hk2 as [Hp _].
  destruct (process_points_app deviceId buf l1 (p :: l2) 0 k1) as (k2 & Hrun & _); [done..|lia|done|].
  unfold processUserData. rewrite (prog_bind_eq _ _ _ _ _ Ho).
  pose proof (process_point_overrun deviceId buf (0 + regs_total l1) p k2 Hp ltac:(lia)) as Hover.
  unfold mbind at 1, prog_bind at 1. rewrite Hrun. cbn [process_points].
  unfold mbind at 1, prog_bind at 1. destruct (process_point _ _ _ _ k2) as [o k3].
  simpl in Hover. by subst o.
Qed.
End UserData.

(** One cycle over a device whose points are contiguous. *)
Lemma poll_contiguous_view {A K} `{RegisterReaderOk A} `{KvStoreOk K} `{FloatTextOk}
    std_sort `{!StdSortOk std_sort} config l a k regs a' :
  l ≠ [] → data_points config ≡ₚ l → contiguous l → points_known l →
  Forall (λ q, in_u 16 (address q)) l → names_ok (device_id config) l →
  rr_inv a → kv_up k → rr_read (seg_addr l) (regs_total l) a = (Done (Some regs), a') →
  ∃ k', processContinuousRegisters std_sort config (a, k) = (Done tt, (a', k')) ∧ kv_up k' ∧
    kv_view k' = foldl (λ m kv, <[kv.1 := kv.2]> m) (kv_view k)
                   (point_writes (device_id config) regs l).
Proof.
  intros Hne Hperm Hc Hk Hu Hn Ha Hup Hread.
  destruct (rr_read_ok (seg_addr l) (regs_total l) a Ha) as (r & a2 & Hr & _ & Hlen).
  rewrite Hread in Hr. simplify_eq. specialize (Hlen regs eq_refl).
  destruct l as [|p0 l0]; [done|]. pose proof (contiguous_total p0 l0 Hc Hk Hu) as Htot.
  apply Forall_cons in Hu as [Hu0 _]. unfold in_u in Hu0.
  destruct (processUserData_ok (device_id config) regs (p0 :: l0) k) as (k' & Hrun & Hup' & Hview);
    [done..|lia|].
  exists k'. split; [|done]. unfold processContinuousRegisters.
  destruct (data_points config) as [|q qs] eqn:Hpts; [by apply Permutation_nil_l in Hperm|].
  rewrite (std_sort_contiguous std_sort (q :: qs) (p0 :: l0)) by done.
  rewrite process_ranges_segments by (done || lia). rewrite drop_0, segments_contiguous_one by done.
  cbn [iterS]. unfold poll_segment, mbind, prog_bind, on_device, on_store. cbn [fst snd].
  rewrite Hread. cbn [fst snd]. by rewrite Hrun.
Qed.

(** ** Properties *)

(** The polling loop reads exactly the maximal runs of consecutive
    registers, in order: its runs partition the points, each is contiguous and
    not empty, no two neighbours touch, and the indexed loop over
    findContinuousRegisters does the same as one read per run (it ends within
    one iteration per point). *)
Theorem poll_reads_maximal_runs {A K} `{RegisterReader A} `{KvStore K} `{FloatText} deviceId points :
  points_known points →
  (concat (segments points) = points ∧
   Forall (λ seg, seg ≠ [] ∧ contiguous seg) (segments points) ∧ all_cut (segments points)) ∧
  (∀ s : A * K, process_ranges (length points) deviceId points 0 s =
     iterS (segments points) (poll_segment deviceId points) s).
Proof.
  intros Hk. split.
  - split; [apply segments_concat|]. split; [apply segments_contiguous|apply segments_cut].
  - intros s. rewrite process_ranges_segments by (done || lia). by rewrite drop_0.
Qed.

(** C15: a device whose points occupy consecutive registers is read with one
    request and, when the read succeeds, every point's key holds the text of
    the point's own registers afterwards, in any configuration order and for
    any sorting algorithm, and no other key changes. *)
Theorem poll_contiguous_device {A K} `{RegisterReaderOk A} `{KvStoreOk K} `{FloatTextOk}
    std_sort `{!StdSortOk std_sort} config l a k regs a' :
  l ≠ [] → data_points config ≡ₚ l → contiguous l → points_known l →
  Forall (λ q, in_u 16 (address q)) l → names_ok (device_id config) l → NoDup (name <$> l) →
  rr_inv a → kv_up k → rr_read (seg_addr l) (regs_total l) a = (Done (Some regs), a') →
  ∃ k', processContinuousRegisters std_sort config (a, k) = (Done tt, (a', k')) ∧ kv_up k' ∧
    (∀ l1 p l2, l = l1 ++ p :: l2 →
       kv_view k' !! redisKey (device_id config) (name p) =
       Some (value_text (data_type p) (nth (Z.to_nat (regs_total l1)) regs 0%Z)
               (nth (Z.to_nat (regs_total l1 + 1)) regs 0%Z))) ∧
    (∀ key, (∀ p, p ∈ l → key ≠ redisKey (device_id config) (name p)) →
       kv_view k' !! key = kv_view k !! key).
Proof.
  intros Hne Hperm Hc Hk Hu Hn Hnd Ha Hup Hread.
  destruct (poll_contiguous_view std_sort config l a k regs a') as (k' & Hrun & Hup' & Hview);
    [done..|].
  exists k'. split; [done|]. split; [done|]. rewrite Hview. by apply writes_lookup.
Qed.

(** A device with a gap in its register addresses cannot be polled: after
    the first successful read, the registers of the first run are matched
    against the points of all runs, and the first point of the second run is
    read beyond the end of the buffer. *)
Theorem poll_gap_overruns {A K} `{RegisterReaderOk A} `{KvStoreOk K} `{FloatTextOk}
    std_sort `{!StdSortOk std_sort} config seg1 seg2 segs a k regs a' :
  segments (std_sort (data_points config)) = seg1 :: seg2 :: segs →
  points_known (data_points config) → names_ok (device_id config) (data_points config) →
  rr_inv a → kv_up k → (regs_total seg1 < 2 ^ 32)%Z →
  rr_read (seg_addr seg1) (regs_total seg1) a = (Done (Some regs), a') →
  (processContinuousRegisters std_sort config (a, k)).1 = Undef "register buffer overrun".
Proof.
  intros Hseg Hk [Hd Hn] Ha Hup Hlt Hread.
  destruct (rr_read_ok (seg_addr seg1) (regs_total seg1) a Ha) as (r & a2 & Hr & _ & Hlen).
  rewrite Hread in Hr. simplify_eq. specialize (Hlen regs eq_refl).
  set (points := std_sort (data_points config)) in *.
  assert (Hperm : points ≡ₚ data_points config) by apply std_sort_perm.
  assert (∃ p l2, points = seg1 ++ p :: l2) as (p & l2 & Heq).
  { pose proof (segments_contiguous points) as Hne. rewrite Hseg in Hne.
    apply Forall_cons in Hne as [_ [[Hne _] _]%Forall_cons].
    destruct seg2 as [|p seg2]; [done|]. exists p, (seg2 ++ concat segs).
    rewrite <- (segments_concat points), Hseg. done. }
  assert (points_known points) as Hk' by (unfold points_known; by rewrite Hperm).
  unfold processContinuousRegisters.
  destruct (data_points config) as [|q qs] eqn:Hpts.
  { apply Permutation_nil_r in Hperm. rewrite Hperm in Hseg. done. }
  fold points. rewrite process_ranges_segments by (done || lia). rewrite drop_0, Hseg.
  cbn [iterS]. set (rest := (poll_segment _ _ seg2;; _)).
  unfold poll_segment, mbind, prog_bind, on_device, on_store. cbn [fst snd].
  rewrite Hread. cbn [fst snd].
  pose proof (processUserData_overrun (device_id config) regs seg1 p l2 k Hup) as Hover.
  rewrite <- Heq in Hover.
  destruct (processUserData (device_id config) regs points k) as [o k2].
  simpl in Hover. rewrite Hover; [done|done| |lia|lia]. split; [done|]. by rewrite Hperm.
Qed.

(** 32-bit integers are stored from their first register alone: a poll of
    one INT32 or UINT32 point stores that register's value, so whenever the
    second register is not zero the stored text is neither the little-endian
    nor, if the first is not zero either, the big-endian 32-bit value. *)
Theorem int32_point_truncated {A K} `{RegisterReaderOk A} `{KvStoreOk K} `{FloatTextOk}
    std_sort `{!StdSortOk std_sort} config p a k lo hi a' :
  data_points config = [p] → data_type p = INT32 ∨ data_type p = UINT32 →
  in_u 16 (address p) → names_ok (device_id config) [p] → rr_inv a → kv_up k →
  in_u 16 lo → in_u 16 hi → (hi ≠ 0)%Z →
  rr_read (address p) 2 a = (Done (Some [lo; hi]), a') →
  ∃ k' text, processContinuousRegisters std_sort config (a, k) = (Done tt, (a', k')) ∧
    kv_view k' !! redisKey (device_id config) (name p) = Some text ∧ text = dec lo ∧
    text ≠ dec (wrap_s 32 (lo + 2 ^ 16 * hi)) ∧ text ≠ dec (wrap_u 32 (lo + 2 ^ 16 * hi)) ∧
    ((lo ≠ 0)%Z → text ≠ dec (wrap_s 32 (2 ^ 16 * lo + hi)) ∧
                  text ≠ dec (wrap_u 32 (2 ^ 16 * lo + hi))).
Proof.
  intros Hpts Hty Hu Hn Ha Hup Hlo Hhi Hnz Hread.
  assert (Hreg : regs_of p = 2%Z) by (unfold regs_of; by destruct Hty as [-> | ->]).
  destruct (poll_contiguous_view std_sort config [p] a k [lo; hi] a') as (k' & Hrun & _ & Hview);
    [done|by rewrite Hpts|done| |by apply Forall_singleton|done..| |].
  { apply Forall_singleton. by destruct Hty as [-> | ->]. }
  { simpl. by rewrite Hreg. }
  exists k', (dec lo). split; [done|]. split.
  { rewrite Hview. simpl. rewrite lookup_insert_eq. f_equal.
    destruct Hty as [-> | ->]; simpl.
    - assert (in_s 32 lo) by (unfold in_s, in_u in *; lia).
      by rewrite !(wrap_s_id 32 lo) by (lia || done).
    - by rewrite !(wrap_u_id 32 lo) by in_range. }
  assert (Hdiff : ∀ x, (2 ^ 16 ≤ x < 2 ^ 32)%Z → dec lo ≠ dec (wrap_s 32 x) ∧ dec lo ≠ dec (wrap_u 32 x)).
  { intros x Hx. unfold in_u in Hlo. rewrite wrap_u_id by (unfold in_u; lia).
    destruct (wrap_s_cases 32 x) as [-> | ->]; [lia|unfold in_u; lia|..];
      split; intros Heq%dec_inj; lia. }
  unfold in_u in Hlo, Hhi. split; [done|]. apply and_assoc. split; [apply Hdiff; lia|].
  intros ?. apply Hdiff. lia.
Qed.

(** ** Concrete instances for the witnesses: a bank of registers that always
    answers, a store in memory, and merge sort *)

Definition demo_reader : RegisterReader (Z → Z) := {|
  rr_read addr nb regs :=
    (Done (if (0 <=? nb)%Z then Some (regs <$> seqZ addr nb) else None), regs);
  rr_inv _ := True
|}.

Lemma demo_reader_ok : RegisterReaderOk (Z → Z) (H := demo_reader).
Proof.
  split. intros addr nb a _. eexists _, _. split; [done|]. split; [done|].
  intros regs Hr. destruct (0 <=? nb)%Z eqn:?; simplify_eq. gw_bool.
  rewrite length_fmap, length_seqZ. lia.
Defined.

Definition demo_store : KvStore (gmap string string) := {|
  kv_open m := (Done tt, m);
  kv_close m := (Done tt, m);
  kv_set k v m := (Done true, <[k := v]> m);
  kv_view m := m;
  kv_up _ := True;
  kv_ready _ := True
|}.

Lemma demo_store_ok : KvStoreOk (gmap string string) (H := demo_store).
Proof. split; simpl; eauto. Defined.

Definition demo_float : FloatText := {|
  fmt_f _ := "0.000000"%string;
  stod _ := Done (S754_zero false)
|}.

Lemma demo_float_ok : FloatTextOk (H := demo_float).
Proof. by split. Defined.

#[local] Instance address_le_dec :
  RelDecision (λ p q : data_points_t, address p ≤ address q)%Z :=
  λ p q, Z.le_dec (address p) (address q).

Definition demo_sort : list data_points_t → list data_points_t :=
  merge_sort (λ p q, address p ≤ address q)%Z.

Lemma demo_sort_ok : StdSortOk demo_sort.
Proof.
  split; intros l.
  - apply merge_sort_Permutation.
  - apply StronglySorted_merge_sort; [intros x y z; lia|intros x y; lia].
Defined.

Definition demo_pt (nm : string) (addr : Z) (dt : data_type_e) : data_points_t :=
  {| name := nm; address := addr; type := "holding"; data_type := dt;
     scale := S754_zero false; offset := S754_zero false |}.

Definition demo_config (pts : list data_points_t) : ConfigDataModbus.t := {|
  device_id := "dev1"; Type_ := "TCP"; tcp := {| ip := "10.0.0.1"; port := 502 |};
  rtu := {| port_name := ""; baudrate := 0; parity := "" |};
  slave_addr := 1; cmd_interval := 1000; max_retries := 3; retry_interval := 1000;
  byte_order := "big"; data_points := pts
|}.

Lemma demo_names_ok pts :
  forallb (λ p, no_nul (name p)) pts = true → names_ok "dev1" pts.
Proof.
  intros Hn. split; [done|]. apply Forall_forall. intros p Hp.
  rewrite forallb_forall in Hn. by apply Hn, list_elem_of_In.
Defined.

Lemma poll_reads_maximal_runs_witness :
  let pts := [demo_pt "a" 10 INT16; demo_pt "b" 11 FLOAT32; demo_pt "c" 20 UINT16] in
  segments pts = [[demo_pt "a" 10 INT16; demo_pt "b" 11 FLOAT32]; [demo_pt "c" 20 UINT16]] ∧
  let _ := demo_reader in let _ := demo_store in let _ := demo_float in
  ∀ s, process_ranges 3 "dev1" pts 0 s = iterS (segments pts) (poll_segment "dev1" pts) s.
Proof.
  intros pts. split; [done|]. intros rd st fl.
  apply (poll_reads_maximal_runs (H := rd) (H0 := st) (H1 := fl) "dev1" pts).
  repeat (constructor; [by eexists|]). constructor.
Defined.

Lemma poll_contiguous_device_witness :
  let pts := [demo_pt "b" 11 UINT16; demo_pt "a" 10 INT16] in
  let _ := demo_reader in let _ := demo_store in let _ := demo_float in
  ∃ k', processContinuousRegisters demo_sort (demo_config pts) (λ a, (65530 + a)%Z, ∅)
          = (Done tt, (λ a, (65530 + a)%Z, k')) ∧
        k' !! "modbus_data:dev1:a"%string = Some "4"%string.
Proof.
  intros pts rd st fl.
  destruct (@poll_contiguous_device _ _ _ demo_reader_ok _ demo_store_ok _ demo_float_ok
    demo_sort demo_sort_ok (demo_config pts) [demo_pt "a" 10 INT16; demo_pt "b" 11 UINT16]
    (λ a, (65530 + a)%Z) (∅ : gmap string string) [65540; 65541]%Z (λ a, (65530 + a)%Z))
    as (k' & Hrun & _ & Hview & _); try done.
  - apply Permutation_swap.
  - repeat (constructor; [by eexists|]). constructor.
  - repeat (constructor; [by vm_compute|]). constructor.
  - by apply demo_names_ok.
  - apply (bool_decide_unpack _). by vm_compute.
  - exists k'. split; [exact Hrun|]. apply (Hview [] (demo_pt "a" 10 INT16) _ eq_refl).
Defined.

Lemma poll_gap_overruns_witness :
  let pts := [demo_pt "a" 10 INT16; demo_pt "b" 12 UINT16] in
  let _ := demo_reader in let _ := demo_store in let _ := demo_float in
  (processContinuousRegisters demo_sort (demo_config pts) (λ a, a, ∅)).1
    = Undef "register buffer overrun".
Proof.
  intros pts rd st fl.
  apply (@poll_gap_overruns _ _ _ demo_reader_ok _ demo_store_ok _ demo_float_ok
    demo_sort demo_sort_ok (demo_config pts) [demo_pt "a" 10 INT16] [demo_pt "b" 12 UINT16] []
    (λ a, a) (∅ : gmap string string) [10]%Z (λ a, a)); try done.
  - repeat (constructor; [by eexists|]). constructor.
  - by apply demo_names_ok.
Defined.

Lemma int32_point_truncated_witness :
  let pts := [demo_pt "a" 10 INT32] in
  let _ := demo_reader in let _ := demo_store in let _ := demo_float in
  ∃ k' text, processContinuousRegisters demo_sort (demo_config pts) (λ a, a, ∅)
          = (Done tt, (λ a, a, k')) ∧
        k' !! "modbus_data:dev1:a"%string = Some text ∧ text = dec 10 ∧
        text ≠ dec (wrap_s 32 (10 + 2 ^ 16 * 11)).
Proof.
  intros pts rd st fl.
  destruct (@int32_point_truncated _ _ _ demo_reader_ok _ demo_store_ok _ demo_float_ok
    demo_sort demo_sort_ok (demo_config pts) (demo_pt "a" 10 INT32)
    (λ a, a) (∅ : gmap string string) 10 11 (λ a, a))
    as (k' & text & Hrun & Hview & Ht & Hne & _); try done.
  - by left.
  - by apply demo_names_ok.
  - exists k', text. by split_and!.
Defined.
