(* ===== verification/AppModbus.v ===== *)
(** * The Modbus application

    [AppModbus] of [core/modbus/app_modbus_client.{h,cc}]: the table of devices
    built from the configuration, the per-device polling tasks and the stop.
    The tasks of different devices share nothing but the Redis server, so a
    task is a program over the table and the store.  The last section joins
    the pieces: what a reader of Redis sees after a poll through [ModbusApi]
    and [DRDSDataRedis]. *)

From Stdlib Require Import ZArith String SpecFloat Lia.
From stdpp Require Import base tactics option list numbers strings gmap sorting.
From S2P Require Import Prelude Text Store Redis Config ModbusApi ModbusPoll.

Section App.
Context `{Libmodbus}.

Record AppModbus := {
  running_ : bool;
  devices_ : gmap string ModbusApi;
  tasks : nat                       (* polling tasks handed to the pool *)
}.

Definition AppModbus_new : AppModbus := {| running_ := true; devices_ := ∅; tasks := 0 |}.

Definition set_device (id : string) (a : ModbusApi) (app : AppModbus) : AppModbus :=
  {| running_ := running_ app; devices_ := <[id := a]> (devices_ app); tasks := tasks app |}.

(** The checks of [run] on one device: the transport, or [None] to skip it. *)
Definition modbus_valid (config : ConfigDataModbus.t) : option ModbusType :=
  if String.eqb (ConfigDataModbus.Type_ config) "" || String.eqb (ConfigDataModbus.device_id config) ""
  then None
  else if String.eqb (ConfigDataModbus.Type_ config) "TCP" then
    if String.eqb (ConfigDataModbus.ip (ConfigDataModbus.tcp config)) ""
       || (ConfigDataModbus.port (ConfigDataModbus.tcp config) <=? 0)%Z
    then None else Some TCP
  else if String.eqb (ConfigDataModbus.Type_ config) "RTU" then
    if String.eqb (ConfigDataModbus.port_name (ConfigDataModbus.rtu config)) ""
       || (ConfigDataModbus.baudrate (ConfigDataModbus.rtu config) <=? 0)%Z
    then None else Some RTU
  else None.

(** The arguments of [std::make_shared<ModbusApi>]. *)
Definition modbus_params (type : ModbusType) (config : ConfigDataModbus.t) : ModbusParams := {|
  slaveAddr_ := ConfigDataModbus.slave_addr config;
  type_ := type;
  channel_ := 0;
  cmdInterval_ := ConfigDataModbus.cmd_interval config;
  portName_ := ConfigDataModbus.port_name (ConfigDataModbus.rtu config);
  baudrate_ := ConfigDataModbus.baudrate (ConfigDataModbus.rtu config);
  parity_ := if String.eqb (ConfigDataModbus.parity (ConfigDataModbus.rtu config)) "NONE"
             then NONE else ODD;
  ip_ := ConfigDataModbus.ip (ConfigDataModbus.tcp config);
  ModbusApi.port_ := ConfigDataModbus.port (ConfigDataModbus.tcp config);
  maxRetries_ := ConfigDataModbus.max_retries config;
  retryInterval_ := ConfigDataModbus.retry_interval config
|}.

(** The world a device's object starts in, and the order in which the hash
    map of configurations is visited. *)
Context (initial_bus : ModbusParams → bus_state).
Context (hash_order : gmap string ConfigDataModbus.t → list (string * ConfigDataModbus.t)).

(** One iteration of the loop of [run].  The table is searched under the key
    of the configuration and extended under its [device_id]. *)
Definition run_device (entry : string * ConfigDataModbus.t) : prog AppModbus unit := λ app,
  match modbus_valid entry.2 with
  | None => (Done tt, app)
  | Some type =>
      match devices_ app !! entry.1 with
      | Some _ => (Done tt, app)
      | None =>
          let p := modbus_params type entry.2 in
          let '(r, a) := construct p (initial_bus p) in
          (r, set_device (ConfigDataModbus.device_id entry.2) a app)
      end
  end.

(** [config]: what [Config::getConfig] returns. *)
Definition run (config : option ConfigData) : prog AppModbus bool :=
  match config with
  | None => undefS "null configuration"
  | Some cd =>
      if bool_decide (modbus cd = ∅) then mret false
      else
        iterS (hash_order (modbus cd)) run_device;;
        modifyS (λ app, {| running_ := running_ app; devices_ := devices_ app;
                           tasks := size (devices_ app) |});;
        mret true
  end.

Definition getDeviceApi (app : AppModbus) (deviceId : string) : option ModbusApi :=
  devices_ app !! deviceId.

(** A call on the device [id] of the table: [None] when there is none. *)
Definition on_api {X} (id : string) (m : prog ModbusApi X) : prog AppModbus (option X) := λ app,
  match getDeviceApi app id with
  | None => (Done None, app)
  | Some a => let '(r, a') := m a in (x ← r; Done (Some x), set_device id a' app)
  end.

Definition app_readRegisters (id : string) (startAddr nbRegs : Z) : prog AppModbus unit :=
  _ ← on_api id (readRegisters startAddr nbRegs); mret tt.

Definition app_writeRegister (id : string) (addr value : Z) : prog AppModbus unit :=
  _ ← on_api id (writeRegister addr value); mret tt.

Definition app_stop : prog AppModbus unit := λ app,
  (Done tt, {| running_ := false; devices_ := set_runing false <$> devices_ app;
               tasks := tasks app |}).

(** *** The polling task of one device *)

Context {K : Type} `{KvStore K} `{FloatText}.
Context (std_sort : list ConfigDataModbus.data_points_t → list ConfigDataModbus.data_points_t).

(** One cycle on the device [id], which the task has looked up. *)
Definition poll_device (id : string) (mConfig : ConfigDataModbus.t)
    : prog (AppModbus * K) unit := λ s,
  match getDeviceApi s.1 id with
  | None => (Undef "null device", s)
  | Some a =>
      let '(r, (a', k')) := processContinuousRegisters std_sort mConfig (a, s.2) in
      (r, (set_device id a' s.1, k'))
  end.

(** [while (running_)], for at most [fuel] cycles. *)
Fixpoint poll_loop (fuel : nat) (id : string) (mConfig : ConfigDataModbus.t)
    : prog (AppModbus * K) unit :=
  match fuel with
  | O => mret tt
  | S fuel' =>
      s ← getS;
      if running_ s.1 then poll_device id mConfig;; poll_loop fuel' id mConfig else mret tt
  end.

(** The task that [runTask] starts for a device: [set_debug] is called before
    the null check. *)
Definition device_task (fuel : nat) (config : option ConfigData) (id : string)
    : prog (AppModbus * K) unit := λ s,
  match getDeviceApi s.1 id with
  | None => (Undef "null device", s)
  | Some a =>
      match set_debug a with
      | (Done _, a1) =>
          let s1 := (set_device id a1 s.1, s.2) in
          match config with
          | None => (Undef "null configuration", s1)
          | Some cd =>
              match getModbus cd id with
              | None => (Done tt, s1)
              | Some mConfig => poll_loop fuel id mConfig s1
              end
          end
      | (Threw e, a1) => (Threw e, s)
      | (Undef w, a1) => (Undef w, s)
      end
  end.
End App.

(** ** Lemmas *)

Section AppLemmas.
Context `{Libmodbus}.
Context (initial_bus : ModbusParams → bus_state).
Context (hash_order : gmap string ConfigDataModbus.t → list (string * ConfigDataModbus.t)).

(** The device that a configuration entry should give. *)
Definition device_for (config : ConfigDataModbus.t) : option ModbusApi :=
  type ← modbus_valid config;
  Some (construct (modbus_params type config) (initial_bus (modbus_params type config))).2.

Lemma run_device_step id c app :
  ConfigDataModbus.device_id c = id →
  ∃ app', run_device initial_bus (id, c) app = (Done tt, app') ∧ running_ app' = running_ app ∧
    ∀ k, devices_ app' !! k =
      match devices_ app !! k with
      | Some a => Some a
      | None => if decide (k = id) then device_for c else None
      end.
Proof.
  intros <-. unfold run_device, device_for. simpl.
  destruct (modbus_valid c) as [ty|] eqn:Hv.
  2: { exists app. split_and!; [done..|]. intros k.
       destruct (devices_ app !! k); [done|]. by case_decide. }
  destruct (devices_ app !! _) as [a|] eqn:Hl.
  { exists app. split_and!; [done..|]. intros k. destruct (devices_ app !! k) eqn:Hk; [done|].
    destruct (decide (k = _)) as [->|]; [by rewrite Hl in Hk|done]. }
  destruct (construct_ok (modbus_params ty c) (initial_bus (modbus_params ty c))) as (a & Hc & _).
  rewrite Hc. eexists. split_and!; [done..|]. intros k. simpl.
  destruct (decide (k = ConfigDataModbus.device_id c)) as [->|Hne].
  - by rewrite lookup_insert_eq, Hl, Hc.
  - rewrite lookup_insert_ne by done. by destruct (devices_ app !! k).
Qed.

Lemma run_devices_step l app :
  NoDup l.*1 → Forall (λ e, ConfigDataModbus.device_id e.2 = e.1) l →
  ∃ app', iterS l (run_device initial_bus) app = (Done tt, app') ∧ running_ app' = running_ app ∧
    ∀ k, devices_ app' !! k =
      match devices_ app !! k with
      | Some a => Some a
      | None => c ← (list_to_map l : gmap string ConfigDataModbus.t) !! k; device_for c
      end.
Proof.
  intros Hnd Hid. revert app. induction Hid as [|[id c] l Hc Hid IH]; intros app; simpl in *.
  { exists app. split_and!; [done..|]. intros k. by destruct (devices_ app !! k). }
  apply NoDup_cons in Hnd as [Hnin Hnd].
  destruct (run_device_step id c app Hc) as (app1 & Hrun1 & Hr1 & Hl1).
  destruct (IH Hnd app1) as (app2 & Hrun2 & Hr2 & Hl2).
  exists app2. rewrite (prog_bind_eq _ _ _ _ _ Hrun1), Hrun2.
  split_and!; [done|congruence|]. intros k. rewrite Hl2, Hl1.
  destruct (devices_ app !! k); [done|]. destruct (decide (k = id)) as [->|Hne].
  - rewrite lookup_insert_eq. apply not_elem_of_list_to_map_1 in Hnin. rewrite Hnin. simpl.
    by destruct (device_for c).
  - by rewrite lookup_insert_ne by done.
Qed.
End AppLemmas.

(** ** Properties *)

(** The table that [run] builds. *)
Lemma run_table `{Libmodbus} initial_bus hash_order cd :
  (∀ m, hash_order m ≡ₚ map_to_list m) → config_ok cd → modbus cd ≠ ∅ →
  ∃ app, run initial_bus hash_order (Some cd) AppModbus_new = (Done true, app) ∧
    running_ app = true ∧
    (∀ id, devices_ app !! id = (c ← modbus cd !! id; device_for initial_bus c)) ∧
    (∀ id a, devices_ app !! id = Some a → ctx_live a ∧ is_Some (getModbus cd id)).
Proof.
  intros Horder [Hok _ _] Hne. unfold run. rewrite bool_decide_false by done.
  pose proof (Horder (modbus cd)) as Hperm.
  destruct (run_devices_step initial_bus (hash_order (modbus cd)) AppModbus_new)
    as (app & Hrun & Hr & Hl).
  { rewrite Hperm. apply NoDup_fst_map_to_list. }
  { rewrite Hperm. apply Forall_forall. intros [id c] Hin. apply elem_of_map_to_list in Hin.
    apply (Hok id c Hin). }
  rewrite (prog_bind_eq _ _ _ _ _ Hrun). eexists. split; [done|]. split; [done|]. simpl.
  assert (Hdev : ∀ id, devices_ app !! id = (c ← modbus cd !! id; device_for initial_bus c)).
  { intros id. rewrite Hl. simpl. rewrite lookup_empty. f_equal.
    rewrite <- (list_to_map_to_list (modbus cd)) at 2.
    rewrite (list_to_map_proper _ (map_to_list (modbus cd))); [done| |done].
    rewrite Hperm. apply NoDup_fst_map_to_list. }
  split; [done|]. intros id a Ha. rewrite Hdev in Ha.
  destruct (modbus cd !! id) as [c|] eqn:Hc; [|done]. simpl in Ha. unfold device_for in Ha.
  destruct (modbus_valid c) as [ty|]; simplify_eq/=.
  destruct (construct_ok (modbus_params ty c) (initial_bus (modbus_params ty c))) as (a & -> & ? & _).
  split; [done|]. unfold getModbus. by rewrite Hc.
Qed.

(** Run fails only on an empty Modbus configuration (a missing one is a
    null dereference), and on a well-formed one it fills the table with
    exactly one device per valid configuration entry, under its id, each
    freshly constructed from that entry, whatever the iteration order. *)
Theorem run_builds_device_table `{Libmodbus} initial_bus hash_order cd :
  (∀ m, hash_order m ≡ₚ map_to_list m) → config_ok cd → modbus cd ≠ ∅ →
  ∃ app, run initial_bus hash_order (Some cd) AppModbus_new = (Done true, app) ∧
    running_ app = true ∧
    (∀ id, devices_ app !! id = (c ← modbus cd !! id; device_for initial_bus c)) ∧
    (∀ id a, devices_ app !! id = Some a → ctx_live a ∧ is_Some (getModbus cd id)).
Proof. apply run_table. Qed.

(** After stop every device of the table is still there, the reconnection
    loop of each one ends at its next iteration, and no polling task starts
    another cycle. *)
Theorem stop_ends_every_loop `{Libmodbus} {K} `{KvStore K} `{FloatText} std_sort app k :
  ∃ app', app_stop app = (Done tt, app') ∧ dom (devices_ app') = dom (devices_ app) ∧
    (∀ id a retries, devices_ app' !! id = Some a → reconnect_iter retries a = (Done None, a)) ∧
    (∀ fuel id c, poll_loop std_sort fuel id c (app', k) = (Done tt, (app', k))).
Proof.
  eexists. split; [done|]. simpl. split_and!.
  - apply dom_fmap_L.
  - intros id a retries Ha. rewrite lookup_fmap in Ha.
    destruct (devices_ app !! id); simplify_eq/=. done.
  - intros [|fuel] id c; done.
Qed.

(** *** From the register to the reader of Redis *)

Section EndToEnd.
Context `{LibmodbusOk} `{RedisServerOk} `{FloatTextOk}.

Lemma readRegisters_live a h addr nb regs w :
  ctx_live a → ctx_ a = Some h → mb_read_registers h addr nb (bus a) = (Some regs, w) →
  readRegisters addr nb a = (Done (Some regs), set_bus w a).
Proof.
  intros Ha Hh Hread. unfold readRegisters. rewrite (with_ctx_run _ a h) by done.
  by rewrite Hread.
Qed.

(** A client opened with the defaults reads back what the server holds. *)
Lemma fresh_read {X} d k key (dflt : X) conv s x :
  configured d = true → ctxs k = ∅ → srv_up (net k) → no_nul key = true →
  srv (net k) !! key = Some s → conv s = Done x →
  ((make_default d;; get_with key dflt conv) k).1 = Done x.
Proof.
  intros Hd Hctx Hup Hkey Hs Hconv. pose proof (redis_store_ok d Hd) as Hok.
  destruct (@kv_open_ok _ (redis_store d) Hok k) as (k1 & Hopen & [Hc Hup1] & Hview); [done|].
  simpl in *. rewrite (prog_bind_eq _ _ _ _ _ Hopen).
  erewrite get_with_connected; [exact Hconv|done..|]. by rewrite Hview.
Qed.
End EndToEnd.

(** A poll of consecutive registers, and what a reader sees afterwards. *)
Lemma poll_then_read `{LibmodbusOk} `{RedisServerOk} `{FloatTextOk}
    std_sort `{!StdSortOk std_sort} d config l a h k regs w :
  let _ := redis_store d in
  configured d = true → ctxs k = ∅ → srv_up (net k) →
  l ≠ [] → ConfigDataModbus.data_points config ≡ₚ l → contiguous l → Forall point_ok l →
  names_ok (ConfigDataModbus.device_id config) l → NoDup (ConfigDataModbus.name <$> l) →
  ctx_live a → ctx_ a = Some h →
  mb_read_registers h (seg_addr l) (regs_total l) (bus a) = (Some regs, w) →
  ∃ k', processContinuousRegisters std_sort config (a, k) = (Done tt, (set_bus w a, k')) ∧
    ctxs k' = ∅ ∧
    (∀ l1 p l2, l = l1 ++ p :: l2 →
       let key := redisKey (ConfigDataModbus.device_id config) (ConfigDataModbus.name p) in
       let reg := nth (Z.to_nat (regs_total l1)) regs 0%Z in
       (ConfigDataModbus.data_type p = ConfigDataModbus.INT16 →
          ((make_default d;; getDInt key) k').1 = Done (wrap_s 16 reg)) ∧
       (ConfigDataModbus.data_type p = ConfigDataModbus.UINT16 →
          ((make_default d;; getUDInt key) k').1 = Done (wrap_u 16 reg))).
Proof.
  intros kv Hd Hctx Hup Hne Hperm Hc Hpt Hn Hnd Ha Hh Hread.
  pose proof (redis_store_ok d Hd) as Hok.
  assert (points_known l) as Hk.
  { eapply Forall_impl; [exact Hpt|]. intros p (_ & Hp1 & Hp2).
    destruct (ConfigDataModbus.data_type p); first [congruence | by eexists]. }
  assert (Forall (λ q, in_u 16 (ConfigDataModbus.address q)) l) as Hu.
  { eapply Forall_impl; [exact Hpt|]. by intros p [? _]. }
  destruct (poll_contiguous_view (H2 := Hok) std_sort config l a k regs (set_bus w a))
    as (k' & Hrun & [Hctx' Hup'] & Hview); [done..| |].
  { by apply (readRegisters_live a h). }
  exists k'. split; [done|]. split; [done|]. intros l1 p l2 Hl key reg.
  destruct (writes_lookup (ConfigDataModbus.device_id config) regs l (srv (net k)) Hnd) as [Hlook _].
  specialize (Hlook l1 p l2 Hl). simpl in Hview. rewrite <- Hview in Hlook. fold key reg in Hlook.
  assert (no_nul key = true) as Hkey.
  { destruct Hn as [Hdev Hnames]. apply no_nul_redisKey; [done|].
    rewrite Hl in Hnames. by apply Forall_app in Hnames as [_ [? _]%Forall_cons]. }
  split; intros Hty; rewrite Hty in Hlook; simpl in Hlook.
  - pose proof (wrap_s_range 16 reg ltac:(lia)) as Hr.
    rewrite (wrap_s_id 32) in Hlook by (lia || in_range).
    eapply fresh_read; [done..| |]; [exact Hlook|].
    rewrite sto_signed_dec by in_range. simpl. by rewrite wrap_s_id by (lia || in_range).
  - pose proof (wrap_u_range 16 reg ltac:(lia)) as Hr.
    rewrite (wrap_u_id 32) in Hlook by in_range.
    eapply fresh_read; [done..| |]; [exact Hlook|].
    rewrite sto_unsigned_dec by in_range. simpl. by rewrite wrap_u_id by in_range.
Qed.

(** C13: end to end through ModbusApi, the poller and the Redis client: after
    one poll of a device with consecutive registers over a live context and a
    reachable server, a client opened with the default settings reads, for
    every 16-bit point, exactly the register of that point (as a signed or an
    unsigned number), and a poll leaves no Redis context allocated. *)
Theorem register_reaches_redis `{LibmodbusOk} `{RedisServerOk} `{FloatTextOk}
    std_sort `{!StdSortOk std_sort} d config l a h k regs w :
  let _ := redis_store d in
  configured d = true → ctxs k = ∅ → srv_up (net k) →
  l ≠ [] → ConfigDataModbus.data_points config ≡ₚ l → contiguous l → Forall point_ok l →
  names_ok (ConfigDataModbus.device_id config) l → NoDup (ConfigDataModbus.name <$> l) →
  ctx_live a → ctx_ a = Some h →
  mb_read_registers h (seg_addr l) (regs_total l) (bus a) = (Some regs, w) →
  ∃ k', processContinuousRegisters std_sort config (a, k) = (Done tt, (set_bus w a, k')) ∧
    ctxs k' = ∅ ∧
    (∀ l1 p l2, l = l1 ++ p :: l2 →
       let key := redisKey (ConfigDataModbus.device_id config) (ConfigDataModbus.name p) in
       let reg := nth (Z.to_nat (regs_total l1)) regs 0%Z in
       (ConfigDataModbus.data_type p = ConfigDataModbus.INT16 →
          ((make_default d;; getDInt key) k').1 = Done (wrap_s 16 reg)) ∧
       (ConfigDataModbus.data_type p = ConfigDataModbus.UINT16 →
          ((make_default d;; getUDInt key) k').1 = Done (wrap_u 16 reg))).
Proof.
  intros kv Hd Hctx Hup Hne Hperm Hc Hpt Hn Hnd Ha Hh Hread.
  exact (poll_then_read std_sort d config l a h k regs w Hd Hctx Hup Hne Hperm Hc Hpt Hn Hnd Ha Hh Hread).
Qed.

(** ** Witnesses *)

Definition demo_cd (c : ConfigDataModbus.t) : ConfigData :=
  {| modbus := {[ "dev1"%string := c ]}; iec61850 := ∅; iec104 := ∅ |}.

Lemma demo_cd_ok pts : Forall point_ok pts → config_ok (demo_cd (demo_config pts)).
Proof.
  intros Hpts. split; simpl; [|apply map_Forall_empty..].
  apply map_Forall_singleton. split; [done|]. split; [by left|done].
Qed.

Lemma run_builds_device_table_witness :
  let _ := demo_libmodbus true in
  let pts := [demo_pt "a" 10 ConfigDataModbus.INT16] in
  ∃ app, run (λ _ _, 0%Z) map_to_list (Some (demo_cd (demo_config pts))) AppModbus_new
           = (Done true, app) ∧ running_ app = true ∧ is_Some (devices_ app !! "dev1"%string).
Proof.
  intros lib pts.
  destruct (@run_builds_device_table lib (λ _ _, 0%Z) map_to_list (demo_cd (demo_config pts)))
    as (app & Hrun & Hr & Hdev & _); [done| |done|].
  - apply demo_cd_ok. repeat (constructor; [by vm_compute|]). constructor.
  - exists app. split; [exact Hrun|]. split; [done|]. rewrite Hdev. unfold demo_cd. cbn [modbus].
    rewrite lookup_singleton_eq. by eexists.
Defined.

(** The healthy server before any client is opened. *)
Definition demo_idle : DRDSDataRedis (H := demo_hiredis false (Some false)) :=
  set_ctxs ∅ (demo_client false (Some false)).

Definition demo_redis : KvStore (DRDSDataRedis (H := demo_hiredis false (Some false))) :=
  redis_store (H0 := demo_server false (Some false)) demo_defaults.

Lemma register_reaches_redis_witness :
  let pts := [demo_pt "a" 10 ConfigDataModbus.INT16; demo_pt "b" 11 ConfigDataModbus.UINT16] in
  ∃ k', processContinuousRegisters (H0 := demo_redis) (H1 := demo_float) demo_sort
          (demo_config pts) (demo_api true (Some 0%nat), demo_idle)
          = (Done tt, (demo_api true (Some 0%nat), k')) ∧
        ((make_default demo_defaults;; getUDInt "modbus_data:dev1:b") k').1 = Done 110%Z.
Proof.
  intros pts.
  destruct (@register_reaches_redis _ (demo_libmodbus_ok true) _ _ demo_server_ok _ demo_float_ok
    demo_sort demo_sort_ok demo_defaults (demo_config pts) pts (demo_api true (Some 0%nat)) 0%nat
    demo_idle [100; 110]%Z (bus (demo_api true (Some 0%nat))))
    as (k' & Hrun & _ & Hread); try done.
  - repeat (constructor; [by vm_compute|]). constructor.
  - by apply demo_names_ok.
  - apply (bool_decide_unpack _). by vm_compute.
  - apply demo_ctx_live. by right.
  - exists k'. split; [exact Hrun|].
    destruct (Hread [demo_pt "a" 10 ConfigDataModbus.INT16] (demo_pt "b" 11 ConfigDataModbus.UINT16)
      [] eq_refl) as [_ Hb]. by apply Hb.
Defined.
