(* ===== verification/IedModel.v ===== *)
(** * The structures of an IED data model and their well-formedness

    [core/iec61850/model/static_model.c] describes the data model that the
    IEC 61850 server publishes as C objects linked by pointers: logical
    device, logical nodes, data objects and data attributes, each with its
    parent, next sibling and first child, plus a data set and report control
    blocks.  This file has the structures (from the C initialisers and
    [iec61850_model.h]), the heap they live in, what it means for such a heap
    to hold a tree, a checker that finds the tree by following the pointers,
    and its soundness. *)

From Stdlib Require Import ZArith String Lia.
From stdpp Require Import base tactics option list numbers strings gmap pmap sorting.
From S2P Require Import Prelude Text.

(** The address of a static object. *)
Definition addr := positive.

Notation "& x" := (Some (x : addr)) (at level 9, x at level 0, only parsing) : gw_scope.
Notation NULL := None (only parsing).

Inductive FunctionalConstraint : Type :=
| IEC61850_FC_ST | IEC61850_FC_MX | IEC61850_FC_SP | IEC61850_FC_CF | IEC61850_FC_DC
| IEC61850_FC_SG | IEC61850_FC_CO | IEC61850_FC_EX.

Inductive DataAttributeType : Type :=
| IEC61850_BOOLEAN | IEC61850_INT32 | IEC61850_INT8U | IEC61850_INT16U | IEC61850_FLOAT32
| IEC61850_ENUMERATED | IEC61850_OCTET_STRING_64 | IEC61850_VISIBLE_STRING_129
| IEC61850_VISIBLE_STRING_255 | IEC61850_TIMESTAMP | IEC61850_QUALITY | IEC61850_CHECK
| IEC61850_CODEDENUM | IEC61850_CONSTRUCTED.

Definition TRG_OPT_DATA_CHANGED : Z := 1.
Definition TRG_OPT_QUALITY_CHANGED : Z := 2.

(** The values that the initialiser creates. *)
Inductive MmsValue : Type :=
| MmsValue_newIntegerFromInt32 (i : Z)
| MmsValue_newVisibleString (s : string).

#[export] Instance FunctionalConstraint_eq_dec : EqDecision FunctionalConstraint.
Proof. solve_decision. Defined.
#[export] Instance DataAttributeType_eq_dec : EqDecision DataAttributeType.
Proof. solve_decision. Defined.
#[export] Instance MmsValue_eq_dec : EqDecision MmsValue.
Proof. solve_decision. Defined.

(** One node of the model; the arguments are the fields of the C structures
    after [modelType], in their order.  The elements of an array attribute
    have no name (NULL) and their index. *)
Inductive ModelNode : Type :=
| LogicalDevice (name : string) (parent sibling firstChild : option addr)
    (ldName : option string)
| LogicalNode (name : string) (parent sibling firstChild : option addr)
| DataObject (name : string) (parent sibling firstChild : option addr)
    (elementCount arrayIndex : Z)
| DataAttribute (name : option string) (parent sibling firstChild : option addr)
    (elementCount arrayIndex : Z) (fc : FunctionalConstraint) (type : DataAttributeType)
    (triggerOptions : Z) (mmsValue : option MmsValue) (sAddr : Z).

Record DataSetEntry := {
  entry_logicalDeviceName : string;
  isLDNameDynamicallyAllocated : bool;
  variableName : string;
  index : Z;
  componentName : option string;
  entry_value : option MmsValue;
  entry_sibling : option addr
}.

Record DataSet := {
  ds_logicalDeviceName : string;
  ds_name : string;
  ds_elementCount : Z;
  fcdas : option addr;
  ds_sibling : option addr
}.

Record ReportControlBlock := {
  rcb_parent : addr;
  rcb_name : string;
  rptId : string;
  buffered : bool;
  dataSetName : string;
  confRef : Z;
  trgOps : Z;
  rcb_options : Z;
  bufferTime : Z;
  intPeriod : Z;
  clientReservation : list Z;
  rcb_sibling : option addr
}.

(** The root; the control block lists that the model leaves empty are null. *)
Record IedModel := {
  ied_name : string;
  ied_firstChild : option addr;
  dataSets : option addr;
  rcbs : option addr;
  gseCBs : option addr;
  svCBs : option addr;
  sgcbs : option addr;
  lcbs : option addr;
  logs : option addr
}.

(** The C types of the objects. *)
Inductive object_type : Type :=
| T_IedModel | T_LogicalDevice | T_LogicalNode | T_DataObject | T_DataAttribute.

(** ** Field access *)

(** The name of a node, or the index of an array element in its place. *)
Definition node_name (n : ModelNode) : string :=
  match n with
  | LogicalDevice nm _ _ _ _ | LogicalNode nm _ _ _ | DataObject nm _ _ _ _ _
  | DataAttribute (Some nm) _ _ _ _ _ _ _ _ _ _ => nm
  | DataAttribute None _ _ _ _ arrayIndex _ _ _ _ _ => dec arrayIndex
  end.
Definition node_parent (n : ModelNode) : option addr :=
  match n with
  | LogicalDevice _ p _ _ _ | LogicalNode _ p _ _ | DataObject _ p _ _ _ _
  | DataAttribute _ p _ _ _ _ _ _ _ _ _ => p
  end.
Definition node_sibling (n : ModelNode) : option addr :=
  match n with
  | LogicalDevice _ _ s _ _ | LogicalNode _ _ s _ | DataObject _ _ s _ _ _
  | DataAttribute _ _ s _ _ _ _ _ _ _ _ => s
  end.
Definition node_firstChild (n : ModelNode) : option addr :=
  match n with
  | LogicalDevice _ _ _ c _ | LogicalNode _ _ _ c | DataObject _ _ _ c _ _
  | DataAttribute _ _ _ c _ _ _ _ _ _ _ => c
  end.

(** [a.mmsValue = v]. *)
Definition set_mmsValue (v : MmsValue) (n : ModelNode) : ModelNode :=
  match n with
  | DataAttribute nm p s c e i fc ty trg _ sa => DataAttribute nm p s c e i fc ty trg (Some v) sa
  | _ => n
  end.
Definition node_mmsValue (n : ModelNode) : option MmsValue :=
  match n with DataAttribute _ _ _ _ _ _ _ _ _ v _ => v | _ => None end.

Notation heap := (gmap addr ModelNode).

(** ** Trees in the heap *)

Inductive tree : Type := Node (a : addr) (n : ModelNode) (children : list tree).

Definition tree_node (t : tree) : ModelNode := let '(Node _ n _) := t in n.
Definition tree_children (t : tree) : list tree := let '(Node _ _ cs) := t in cs.

(** [forest h p ptr ts]: following the sibling chain from [ptr], and the child
    chain of every node, gives the trees [ts], all of whose roots have the
    parent [p]; every chain ends with a null pointer. *)
Inductive forest (h : heap) : addr → option addr → list tree → Prop :=
| forest_nil p : forest h p None []
| forest_cons p a n cs ts :
    h !! a = Some n → node_parent n = Some p →
    forest h a (node_firstChild n) cs → forest h p (node_sibling n) ts →
    forest h p (Some a) (Node a n cs :: ts).

(** The walk, with fuel for the number of nodes. *)
Fixpoint walk (fuel : nat) (h : heap) (p : addr) (ptr : option addr) : option (list tree) :=
  match fuel with
  | O => None
  | S fuel' =>
      match ptr with
      | None => Some []
      | Some a =>
          match h !! a with
          | None => None
          | Some n =>
              if bool_decide (node_parent n = Some p) then
                match walk fuel' h a (node_firstChild n), walk fuel' h p (node_sibling n) with
                | Some cs, Some ts => Some (Node a n cs :: ts)
                | _, _ => None
                end
              else None
          end
      end
  end.

Lemma walk_sound fuel h p ptr ts : walk fuel h p ptr = Some ts → forest h p ptr ts.
Proof.
  revert p ptr ts. induction fuel as [|fuel IH]; intros p ptr ts Hw; simpl in Hw; [done|].
  destruct ptr as [a|]; [|by simplify_eq; constructor].
  destruct (h !! a) as [n|] eqn:Hn; [|done].
  destruct (bool_decide _) eqn:Hp; [|done]. gw_bool.
  destruct (walk fuel h a _) as [cs|] eqn:Hcs; [|done].
  destruct (walk fuel h p _) as [ts'|] eqn:Hts; simplify_eq.
  econstructor; eauto.
Qed.

(** What the pointers determine, they determine uniquely. *)
Lemma forest_det h p ptr ts1 ts2 : forest h p ptr ts1 → forest h p ptr ts2 → ts1 = ts2.
Proof.
  intros H1. revert ts2. induction H1 as [|p a n cs ts Hn Hp _ IHc _ IHs]; intros ts2 H2.
  { by inv H2. }
  inversion H2 as [|? ? n' cs' ts' Hn' _ Hc' Hs']; subst.
  rewrite Hn in Hn'. simplify_eq. f_equal; [|by apply IHs].
  f_equal. by apply IHc.
Qed.

(** ** References *)

Fixpoint tree_paths (t : tree) : list (list string) :=
  let '(Node _ n cs) := t in
  [node_name n] :: (cons (node_name n) <$> flat_map tree_paths cs).

Fixpoint tree_addrs (t : tree) : list addr :=
  let '(Node a _ cs) := t in a :: flat_map tree_addrs cs.

(** Children of one node have distinct names, all the way down. *)
Fixpoint tree_unique (t : tree) : bool :=
  let '(Node _ _ cs) := t in
  bool_decide (NoDup ((node_name ∘ tree_node) <$> cs)) && forallb tree_unique cs.

Definition forest_unique (ts : list tree) : bool :=
  bool_decide (NoDup ((node_name ∘ tree_node) <$> ts)) && forallb tree_unique ts.

(** The first child with a name: what a client resolving a reference meets. *)
Definition find_named (nm : string) (ts : list tree) : option tree :=
  List.find (λ t, String.eqb (node_name (tree_node t)) nm) ts.

Fixpoint resolve (ts : list tree) (path : list string) : option tree :=
  match path with
  | [] => None
  | [nm] => find_named nm ts
  | nm :: path' => t ← find_named nm ts; resolve (tree_children t) path'
  end.

Fixpoint tree_size (t : tree) : nat :=
  let '(Node _ _ cs) := t in S (list_sum (tree_size <$> cs)).

(** Induction over trees and their lists of children. *)
Lemma tree_rect_list (P : tree → Prop) :
  (∀ a n cs, Forall P cs → P (Node a n cs)) → ∀ t, P t.
Proof.
  intros HP. fix IH 1. intros [a n cs]. apply HP.
  induction cs as [|c cs IHcs]; constructor; [apply IH|apply IHcs].
Qed.

Definition forest_paths (ts : list tree) : list (list string) := flat_map tree_paths ts.

Lemma tree_paths_head t p : p ∈ tree_paths t → head p = Some (node_name (tree_node t)).
Proof.
  destruct t as [a n cs]. simpl. intros [->|(q & -> & _)%list_elem_of_fmap]%elem_of_cons; done.
Qed.

Lemma elem_of_flat_map {A B} (f : A → list B) l y : y ∈ flat_map f l ↔ ∃ x, x ∈ l ∧ y ∈ f x.
Proof.
  induction l as [|x l IH]; simpl; [set_solver|].
  rewrite elem_of_app, IH. set_solver.
Qed.

(** Trees with distinct root names have disjoint paths. *)
Lemma forest_paths_NoDup ts :
  Forall (λ t, NoDup (tree_paths t)) ts → NoDup ((node_name ∘ tree_node) <$> ts) →
  NoDup (forest_paths ts).
Proof.
  induction 1 as [|t ts Ht Hts IH]; intros Hnd; simpl in *; [constructor|].
  apply NoDup_cons in Hnd as [Hnin Hnd]. apply NoDup_app. split; [done|]. split; [|by apply IH].
  intros p Hp (t' & Ht' & Hp')%elem_of_flat_map. apply tree_paths_head in Hp, Hp'.
  apply Hnin, list_elem_of_fmap. exists t'. split; [|done]. simpl. congruence.
Qed.

Lemma tree_paths_NoDup t : tree_unique t = true → NoDup (tree_paths t).
Proof.
  induction t as [a n cs IH] using tree_rect_list. simpl. intros Hu. gw_bool.
  assert (NoDup (forest_paths cs)) as Hcs.
  { apply forest_paths_NoDup; [|done]. rewrite Forall_forall in IH |- *. intros t Ht.
    apply IH; [done|]. rewrite forallb_forall in *. by apply H0, list_elem_of_In. }
  constructor.
  - intros (q & Heq & Hq)%list_elem_of_fmap. injection Heq as <-.
    apply elem_of_flat_map in Hq as (t & _ & Hp%tree_paths_head). done.
  - apply NoDup_fmap_2; [|done]. intros x y [=]. done.
Qed.

Lemma forest_unique_spec ts : forest_unique ts = true →
  NoDup ((node_name ∘ tree_node) <$> ts) ∧ ∀ t, t ∈ ts → tree_unique t = true.
Proof.
  unfold forest_unique. intros Hu. gw_bool. split; [done|]. intros t Ht.
  rewrite forallb_forall in *. by apply H0, list_elem_of_In.
Qed.

Lemma find_named_unique ts t :
  NoDup ((node_name ∘ tree_node) <$> ts) → t ∈ ts →
  find_named (node_name (tree_node t)) ts = Some t.
Proof.
  unfold find_named. induction ts as [|t' ts IH]; intros Hnd Ht; [by apply elem_of_nil in Ht|].
  simpl in *. apply NoDup_cons in Hnd as [Hnin Hnd].
  apply elem_of_cons in Ht as [->|Ht]; [by rewrite String.eqb_refl|].
  destruct (String.eqb_spec (node_name (tree_node t')) (node_name (tree_node t))) as [Heq|_].
  - exfalso. apply Hnin, list_elem_of_fmap. by exists t.
  - by apply IH.
Qed.

(** A node below a forest and the names that lead to it. *)
Inductive at_path : list tree → list string → tree → Prop :=
| at_root ts t : t ∈ ts → at_path ts [node_name (tree_node t)] t
| at_below ts t path t' :
    t ∈ ts → path ≠ [] → at_path (tree_children t) path t' →
    at_path ts (node_name (tree_node t) :: path) t'.

(** With distinct sibling names a reference leads to the object it names. *)
Lemma resolve_at_path ts path t :
  forest_unique ts = true → at_path ts path t → resolve ts path = Some t.
Proof.
  intros Hu Hat. revert Hu. induction Hat as [ts t Ht|ts t path t' Ht Hne Hat IH]; intros Hu;
    destruct (forest_unique_spec ts Hu) as [Hnd Hall].
  - simpl. by apply find_named_unique.
  - destruct path as [|nm path]; [done|]. cbn [resolve].
    rewrite (find_named_unique ts t Hnd Ht). simpl. apply IH.
    specialize (Hall t Ht). destruct t as [a n cs]. done.
Qed.

(** ** Null-terminated chains of other objects *)

Fixpoint chain {N} (next : N → option addr) (h : gmap addr N) (fuel : nat)
    (ptr : option addr) : option (list N) :=
  match fuel, ptr with
  | _, None => Some []
  | O, Some _ => None
  | S fuel', Some a =>
      match h !! a with
      | None => None
      | Some n => ns ← chain next h fuel' (next n); Some (n :: ns)
      end
  end.

(** Split a string at a character. *)
Fixpoint split_on (c : Ascii.ascii) (s : string) : list string :=
  match s with
  | EmptyString => [EmptyString]
  | String c' s' =>
      if Ascii.eqb c c' then EmptyString :: split_on c s'
      else match split_on c s' with
           | w :: ws => String c' w :: ws
           | [] => [String c' EmptyString]
           end
  end.

Definition fc_name (fc : FunctionalConstraint) : string :=
  match fc with
  | IEC61850_FC_ST => "ST" | IEC61850_FC_MX => "MX" | IEC61850_FC_SP => "SP"
  | IEC61850_FC_CF => "CF" | IEC61850_FC_DC => "DC" | IEC61850_FC_SG => "SG"
  | IEC61850_FC_CO => "CO" | IEC61850_FC_EX => "EX"
  end.
