(* ===== verification/ModelFacts.v ===== *)
(** * Facts about static data models

    What is stated of every generated data model: the walk that finds its
    tree, the nesting rules of IEC 61850, its controls and initial values, the
    attributes that data set entries denote, and the macros of its header,
    each as a definition over the lists of objects of one model with the
    lemmas that [StaticModel] and [SampleModel] share. *)

From Stdlib Require Import ZArith Ascii String Lia.
From stdpp Require Import base tactics option list numbers strings gmap sorting.
From S2P Require Import Prelude Text IedModel.
#[local] Open Scope Z_scope.

(** ** Shape *)

(** The elements of an array attribute: unnamed, with the indices in order. *)
Fixpoint array_elements (i : Z) (ty : DataAttributeType) (cs : list tree) : bool :=
  match cs with
  | [] => true
  | Node _ (DataAttribute None _ _ _ 0 i' _ ty' _ _ _) [] :: cs' =>
      (i =? i') && bool_decide (ty' = ty) && array_elements (i + 1) ty cs'
  | _ => false
  end.

(** The nesting rules of IEC 61850-7-2: device, nodes, data objects,
    attributes; a component has its attribute's functional constraint; exactly
    the constructed attributes have named components, and an array has its
    elements. *)
Fixpoint tree_kinds (t : tree) : bool :=
  let '(Node _ n cs) := t in
  forallb tree_kinds cs &&
  match n with
  | LogicalDevice _ _ _ _ _ =>
      forallb (λ c, match tree_node c with LogicalNode _ _ _ _ => true | _ => false end) cs
  | LogicalNode _ _ _ _ =>
      forallb (λ c, match tree_node c with DataObject _ _ _ _ _ _ => true | _ => false end) cs
  | DataObject _ _ _ _ _ _ =>
      forallb (λ c, match tree_node c with
                    | DataObject _ _ _ _ _ _ | DataAttribute (Some _) _ _ _ _ _ _ _ _ _ _ => true
                    | _ => false
                    end) cs
  | DataAttribute _ _ _ _ elementCount _ fc ty _ _ _ =>
      forallb (λ c, match tree_node c with
                    | DataAttribute _ _ _ _ _ _ fc' _ _ _ _ => bool_decide (fc' = fc)
                    | _ => false
                    end) cs &&
      if elementCount =? 0 then
        forallb (λ c, match tree_node c with
                      | DataAttribute (Some _) _ _ _ _ _ _ _ _ _ _ => true
                      | _ => false
                      end) cs
        && Bool.eqb (bool_decide (ty = IEC61850_CONSTRUCTED)) (negb (bool_decide (length cs = 0%nat)))
      else array_elements 0 ty cs && (Z.of_nat (length cs) =? elementCount)
  end.

Definition type_of_node (n : ModelNode) : object_type :=
  match n with
  | LogicalDevice _ _ _ _ _ => T_LogicalDevice
  | LogicalNode _ _ _ _ => T_LogicalNode
  | DataObject _ _ _ _ _ _ => T_DataObject
  | DataAttribute _ _ _ _ _ _ _ _ _ _ _ => T_DataAttribute
  end.

Definition tree_addr (t : tree) : addr := let '(Node a _ _) := t in a.

(** ** Controls *)

Definition has_child (nm : string) (t : tree) : bool :=
  match find_named nm (tree_children t) with Some _ => true | None => false end.

(** The value of the attribute [ctlModel] of a data object. *)
Definition ctl_model (t : tree) : option MmsValue :=
  c ← find_named "ctlModel" (tree_children t); node_mmsValue (tree_node c).

(** The data objects of the model with their references. *)
Fixpoint tree_objects (prefix : list string) (t : tree) : list (list string * tree) :=
  let '(Node _ n cs) := t in
  let path := prefix ++ [node_name n] in
  match n with
  | DataObject _ _ _ _ _ _ => [(path, t)]
  | _ => []
  end ++ flat_map (tree_objects path) cs.

Definition controls (ts : list tree) : list (list string * tree) :=
  List.filter (λ p, has_child "Oper" p.2) (flat_map (tree_objects []) ts).

(** Does a value fit an attribute type? *)
Definition value_fits (v : MmsValue) (ty : DataAttributeType) : bool :=
  match v, ty with
  | MmsValue_newIntegerFromInt32 _, (IEC61850_ENUMERATED | IEC61850_INT32) => true
  | MmsValue_newVisibleString s, IEC61850_VISIBLE_STRING_129 => (String.length s <=? 129)%nat
  | MmsValue_newVisibleString s, IEC61850_VISIBLE_STRING_255 => (String.length s <=? 255)%nat
  | _, _ => false
  end.

(** An assignment to an address of the heap: its attribute with the value. *)
Definition assigned (h : heap) (av : addr * MmsValue) : bool :=
  match h !! av.1 with
  | Some (DataAttribute _ _ _ _ _ _ _ ty _ None _) => value_fits av.2 ty
  | _ => false
  end.

Lemma foldl_alter_other (f : MmsValue → ModelNode → ModelNode) (l : list (addr * MmsValue))
    (h : heap) (a : addr) :
  a ∉ l.*1 → foldl (λ (h : heap) av, alter (f av.2) av.1 h) h l !! a = h !! a.
Proof.
  revert h. induction l as [|[a' v] l IH]; intros h Ha; [done|]. cbn [foldl].
  apply not_elem_of_cons in Ha as [Hne Ha]. rewrite IH by done. by rewrite lookup_alter_ne.
Qed.

Lemma foldl_alter_at (f : MmsValue → ModelNode → ModelNode) (l : list (addr * MmsValue))
    (h : heap) (a : addr) v :
  NoDup l.*1 → (a, v) ∈ l →
  foldl (λ (h : heap) av, alter (f av.2) av.1 h) h l !! a = f v <$> h !! a.
Proof.
  revert h. induction l as [|[a' v'] l IH]; intros h Hnd Ha; [by apply elem_of_nil in Ha|].
  apply NoDup_cons in Hnd as [Hnin Hnd]. apply elem_of_cons in Ha as [Heq|Ha]; cbn [foldl].
  - injection Heq as -> ->. rewrite foldl_alter_other by done. apply lookup_alter_eq.
  - rewrite IH by done. rewrite lookup_alter_ne; [done|].
    intros Heq. apply Hnin. rewrite Heq. apply list_elem_of_fmap. by exists (a, v).
Qed.

(** ** Data sets *)

(** The attribute that an entry [LN$FC$DO$..$DA] of a device denotes. *)
Definition entry_target (ts : list tree) (e : DataSetEntry) : option ModelNode :=
  match split_on "$"%char (variableName e) with
  | ln :: fc :: path =>
      match resolve ts (entry_logicalDeviceName e :: ln :: path) with
      | Some (Node _ (DataAttribute nm p s c ec ai fc' ty trg v sa as n) _) =>
          if String.eqb (fc_name fc') fc then Some n else None
      | _ => None
      end
  | _ => None
  end.

Definition is_some_b {X} (o : option X) : bool := match o with Some _ => true | None => false end.

(** ** Headers *)

(** The nodes below a forest with the names that lead to them, in the order of
    the walk. *)
Fixpoint tree_named (t : tree) : list (list string * addr) :=
  let '(Node a n cs) := t in
  ([node_name n], a) :: (prod_map (cons (node_name n)) id <$> flat_map tree_named cs).

(** The macro for a path: [IEDMODEL_GenericIO_LLN0_Beh]. *)
Definition macro_name (path : list string) : string :=
  ("IEDMODEL" ++ String.concat "" (append "_" <$> path))%string.

(** What the preprocessor puts for a name: the latest definition of it. *)
Definition macro_value (macros : list (string * option addr)) (nm : string) : option addr :=
  foldl (λ v m, if String.eqb m.1 nm then m.2 else v) None macros.

(** A list whose map keeps every pair, with distinct values, has distinct keys. *)
Lemma map_keeps_NoDup {V} (l : list (string * V)) (m : gmap string V) :
  Forall (λ p, m !! p.1 = Some p.2) l → NoDup l.*2 → NoDup l.*1.
Proof.
  induction 1 as [|[k v] l Hkv Hl IH]; intros Hnd; simpl in *; [constructor|].
  apply NoDup_cons in Hnd as [Hnin Hnd]. constructor; [|by apply IH].
  intros ([k' v'] & Heq & Hin)%list_elem_of_fmap. simpl in Heq. subst k'.
  rewrite Forall_forall in Hl. specialize (Hl _ Hin). simpl in Hl.
  apply Hnin, list_elem_of_fmap. exists (k, v'). split; [|done]. simpl. congruence.
Qed.

Lemma latest_unique (l : list (string * option addr)) k v v0 :
  NoDup l.*1 → (k, v) ∈ l →
  foldl (λ v m, if String.eqb m.1 k then m.2 else v) v0 l = v.
Proof.
  assert (∀ l v0, k ∉ l.*1 →
    foldl (λ v (m : string * option addr), if String.eqb m.1 k then m.2 else v) v0 l = v0) as Hout.
  { clear. induction l as [|[k' v'] l IH]; intros v0 Hk; [done|]. cbn [foldl fmap list_fmap fst] in *.
    apply not_elem_of_cons in Hk as [Hne Hk]. rewrite (proj2 (String.eqb_neq k' k)) by done.
    by apply IH. }
  revert v0. induction l as [|[k' v'] l IH]; intros v0 Hnd Hin; [by apply elem_of_nil in Hin|].
  cbn [foldl fmap list_fmap fst snd] in *. apply NoDup_cons in Hnd as [Hnin Hnd].
  apply elem_of_cons in Hin as [[= -> ->]|Hin]; [|by apply IH].
  rewrite String.eqb_refl. by apply Hout.
Qed.

Lemma named_at_path ts path t : at_path ts path t → (path, tree_addr t) ∈ flat_map tree_named ts.
Proof.
  induction 1 as [ts t Ht|ts t path t' Ht _ _ IH]; apply elem_of_flat_map; exists t; split; try done;
    destruct t as [a n cs]; cbn [tree_named tree_node tree_children tree_addr] in *;
    apply elem_of_cons; [by left|right].
  apply list_elem_of_fmap. by exists (path, tree_addr t').
Qed.

(** ** What the checks show *)

Section Model.
Context (nodes : list (addr * ModelNode)) (root : addr) (first : option addr) (ts : list tree).

(** The walk visits the nodes in their order: they are one tree. *)
Lemma model_is_tree :
  walk (S (length nodes)) (list_to_map nodes) root first = Some ts →
  flat_map tree_addrs ts = nodes.*1 → NoDup nodes.*1 → forallb tree_kinds ts = true →
  ∃ ts, forest (list_to_map nodes) root first ts ∧
    (∀ ts', forest (list_to_map nodes) root first ts' → ts' = ts) ∧
    flat_map tree_addrs ts = nodes.*1 ∧ NoDup nodes.*1 ∧ forallb tree_kinds ts = true.
Proof.
  intros Hw Ha Hnd Hk. pose proof (walk_sound _ _ _ _ _ Hw) as Hf. exists ts.
  split; [done|]. split; [|done]. intros ts' Hts'. by eapply forest_det.
Qed.

(** Distinct sibling names make references unambiguous. *)
Lemma model_references :
  forest_unique ts = true →
  NoDup (forest_paths ts) ∧ ∀ path t, at_path ts path t → resolve ts path = Some t.
Proof.
  intros Hu. split; [|intros path t; by apply resolve_at_path].
  destruct (forest_unique_spec _ Hu) as [Hnd Hall]. apply forest_paths_NoDup; [|done].
  apply Forall_forall. intros t Ht. by apply tree_paths_NoDup, Hall.
Qed.

(** [table]: the macros by their names. *)
Context (macros : list (string * option addr)) (table : gmap string (option addr)).
Hypothesis Hmacros : macros = prod_map macro_name Some <$> flat_map tree_named ts.
Hypothesis Hnamed : (flat_map tree_named ts).*2 = nodes.*1.
Hypothesis Hnodes : NoDup nodes.*1.
Hypothesis Hkeeps : forallb (λ m, bool_decide (table !! m.1 = Some m.2)) macros = true.

Lemma model_macros_NoDup : NoDup macros.*1.
Proof.
  apply map_keeps_NoDup with table.
  - apply Forall_forall. intros m Hm. apply (bool_decide_eq_true_1 _).
    rewrite forallb_forall in Hkeeps. by apply Hkeeps, list_elem_of_In.
  - rewrite Hmacros, <- list_fmap_compose.
    replace (snd ∘ prod_map macro_name Some) with (Some ∘ snd (A := list string) (B := addr))
      by reflexivity.
    rewrite list_fmap_compose, Hnamed. apply NoDup_fmap_2; [|done]. intros x y [=]. done.
Qed.

Lemma model_macros :
  (∀ path t, at_path ts path t → macro_value macros (macro_name path) = Some (tree_addr t)) ∧
  (∀ m v, (m, v) ∈ macros →
     ∃ path a, (path, a) ∈ flat_map tree_named ts ∧ m = macro_name path ∧ v = Some a) ∧
  NoDup macros.*1.
Proof.
  split; [|split; [|apply model_macros_NoDup]].
  - intros path t Ht. apply latest_unique; [apply model_macros_NoDup|].
    rewrite Hmacros. apply list_elem_of_fmap. exists (path, tree_addr t).
    split; [done|]. by apply named_at_path.
  - intros m v Hin. rewrite Hmacros in Hin.
    apply list_elem_of_fmap in Hin as ([path a] & [= -> ->] & Hin). by exists path, a.
Qed.
End Model.

(** An initialiser that writes each address once. *)
Lemma initialized_lookup (h : heap) (l : list (addr * MmsValue)) :
  NoDup l.*1 →
  let h' := foldl (λ (h : heap) av, alter (set_mmsValue av.2) av.1 h) h l in
  (∀ a v, (a, v) ∈ l → h' !! a = set_mmsValue v <$> h !! a) ∧ (∀ a, a ∉ l.*1 → h' !! a = h !! a).
Proof.
  intros Hnd h'. split; [intros a v; by apply foldl_alter_at|intros a; by apply foldl_alter_other].
Qed.
