(* ===== verification/StaticModelData.v ===== *)
(** * The static data model, address by address

    The initialisers of [core/iec61850/model/static_model.c], one definition
    per run of consecutive C objects of a logical node, in the order of the
    file.  An address stands for the C object of the same name; a list pairs
    addresses with the structures stored there. *)

From Stdlib Require Import ZArith String.
From stdpp Require Import base option list strings gmap.
From S2P Require Import Prelude IedModel.
Open Scope Z_scope.
Open Scope gw_scope.

(** ** Addresses *)

Definition iedModel : addr := 1%positive.
Definition iedModel_GenericIO : addr := 2%positive.
Definition iedModel_GenericIO_LLN0 : addr := 3%positive.
Definition iedModel_GenericIO_LLN0_Beh : addr := 4%positive.
Definition iedModel_GenericIO_LLN0_Beh_stVal : addr := 5%positive.
Definition iedModel_GenericIO_LLN0_Beh_q : addr := 6%positive.
Definition iedModel_GenericIO_LLN0_Beh_t : addr := 7%positive.
Definition iedModel_GenericIO_LLN0_Mod : addr := 8%positive.
Definition iedModel_GenericIO_LLN0_Mod_stVal : addr := 9%positive.
Definition iedModel_GenericIO_LLN0_Mod_q : addr := 10%positive.
Definition iedModel_GenericIO_LLN0_Mod_t : addr := 11%positive.
Definition iedModel_GenericIO_LLN0_Mod_ctlModel : addr := 12%positive.
Definition iedModel_GenericIO_LLN0_Health : addr := 13%positive.
Definition iedModel_GenericIO_LLN0_Health_stVal : addr := 14%positive.
Definition iedModel_GenericIO_LLN0_Health_q : addr := 15%positive.
Definition iedModel_GenericIO_LLN0_Health_t : addr := 16%positive.
Definition iedModel_GenericIO_LLN0_NamPlt : addr := 17%positive.
Definition iedModel_GenericIO_LLN0_NamPlt_vendor : addr := 18%positive.
Definition iedModel_GenericIO_LLN0_NamPlt_swRev : addr := 19%positive.
Definition iedModel_GenericIO_LLN0_NamPlt_d : addr := 20%positive.
Definition iedModel_GenericIO_LLN0_NamPlt_configRev : addr := 21%positive.
Definition iedModel_GenericIO_LLN0_NamPlt_ldNs : addr := 22%positive.
Definition iedModel_GenericIO_LPHD1 : addr := 23%positive.
Definition iedModel_GenericIO_LPHD1_PhyNam : addr := 24%positive.
Definition iedModel_GenericIO_LPHD1_PhyNam_vendor : addr := 25%positive.
Definition iedModel_GenericIO_LPHD1_PhyHealth : addr := 26%positive.
Definition iedModel_GenericIO_LPHD1_PhyHealth_stVal : addr := 27%positive.
Definition iedModel_GenericIO_LPHD1_PhyHealth_q : addr := 28%positive.
Definition iedModel_GenericIO_LPHD1_PhyHealth_t : addr := 29%positive.
Definition iedModel_GenericIO_LPHD1_Proxy : addr := 30%positive.
Definition iedModel_GenericIO_LPHD1_Proxy_stVal : addr := 31%positive.
Definition iedModel_GenericIO_LPHD1_Proxy_q : addr := 32%positive.
Definition iedModel_GenericIO_LPHD1_Proxy_t : addr := 33%positive.
Definition iedModel_GenericIO_GGIO1 : addr := 34%positive.
Definition iedModel_GenericIO_GGIO1_Beh : addr := 35%positive.
Definition iedModel_GenericIO_GGIO1_Beh_stVal : addr := 36%positive.
Definition iedModel_GenericIO_GGIO1_Beh_q : addr := 37%positive.
Definition iedModel_GenericIO_GGIO1_Beh_t : addr := 38%positive.
Definition iedModel_GenericIO_GGIO1_Mod : addr := 39%positive.
Definition iedModel_GenericIO_GGIO1_Mod_stVal : addr := 40%positive.
Definition iedModel_GenericIO_GGIO1_Mod_q : addr := 41%positive.
Definition iedModel_GenericIO_GGIO1_Mod_t : addr := 42%positive.
Definition iedModel_GenericIO_GGIO1_Mod_ctlModel : addr := 43%positive.
Definition iedModel_GenericIO_GGIO1_Health : addr := 44%positive.
Definition iedModel_GenericIO_GGIO1_Health_stVal : addr := 45%positive.
Definition iedModel_GenericIO_GGIO1_Health_q : addr := 46%positive.
Definition iedModel_GenericIO_GGIO1_Health_t : addr := 47%positive.
Definition iedModel_GenericIO_GGIO1_NamPlt : addr := 48%positive.
Definition iedModel_GenericIO_GGIO1_NamPlt_vendor : addr := 49%positive.
Definition iedModel_GenericIO_GGIO1_NamPlt_swRev : addr := 50%positive.
Definition iedModel_GenericIO_GGIO1_NamPlt_d : addr := 51%positive.
Definition iedModel_GenericIO_GGIO1_AnIn1 : addr := 52%positive.
Definition iedModel_GenericIO_GGIO1_AnIn1_mag : addr := 53%positive.
Definition iedModel_GenericIO_GGIO1_AnIn1_mag_f : addr := 54%positive.
Definition iedModel_GenericIO_GGIO1_AnIn1_q : addr := 55%positive.
Definition iedModel_GenericIO_GGIO1_AnIn1_t : addr := 56%positive.
Definition iedModel_GenericIO_GGIO1_AnIn2 : addr := 57%positive.
Definition iedModel_GenericIO_GGIO1_AnIn2_mag : addr := 58%positive.
Definition iedModel_GenericIO_GGIO1_AnIn2_mag_f : addr := 59%positive.
Definition iedModel_GenericIO_GGIO1_AnIn2_q : addr := 60%positive.
Definition iedModel_GenericIO_GGIO1_AnIn2_t : addr := 61%positive.
Definition iedModel_GenericIO_GGIO1_AnIn3 : addr := 62%positive.
Definition iedModel_GenericIO_GGIO1_AnIn3_mag : addr := 63%positive.
Definition iedModel_GenericIO_GGIO1_AnIn3_mag_f : addr := 64%positive.
Definition iedModel_GenericIO_GGIO1_AnIn3_q : addr := 65%positive.
Definition iedModel_GenericIO_GGIO1_AnIn3_t : addr := 66%positive.
Definition iedModel_GenericIO_GGIO1_AnIn4 : addr := 67%positive.
Definition iedModel_GenericIO_GGIO1_AnIn4_mag : addr := 68%positive.
Definition iedModel_GenericIO_GGIO1_AnIn4_mag_f : addr := 69%positive.
Definition iedModel_GenericIO_GGIO1_AnIn4_q : addr := 70%positive.
Definition iedModel_GenericIO_GGIO1_AnIn4_t : addr := 71%positive.
Definition iedModel_GenericIO_GGIO1_SPCSO1 : addr := 72%positive.
Definition iedModel_GenericIO_GGIO1_SPCSO1_stVal : addr := 73%positive.
Definition iedModel_GenericIO_GGIO1_SPCSO1_q : addr := 74%positive.
Definition iedModel_GenericIO_GGIO1_SPCSO1_Oper : addr := 75%positive.
Definition iedModel_GenericIO_GGIO1_SPCSO1_Oper_ctlVal : addr := 76%positive.
Definition iedModel_GenericIO_GGIO1_SPCSO1_Oper_origin : addr := 77%positive.
Definition iedModel_GenericIO_GGIO1_SPCSO1_Oper_origin_orCat : addr := 78%positive.
Definition iedModel_GenericIO_GGIO1_SPCSO1_Oper_origin_orIdent : addr := 79%positive.
Definition iedModel_GenericIO_GGIO1_SPCSO1_Oper_ctlNum : addr := 80%positive.
Definition iedModel_GenericIO_GGIO1_SPCSO1_Oper_T : addr := 81%positive.
Definition iedModel_GenericIO_GGIO1_SPCSO1_Oper_Test : addr := 82%positive.
Definition iedModel_GenericIO_GGIO1_SPCSO1_Oper_Check : addr := 83%positive.
Definition iedModel_GenericIO_GGIO1_SPCSO1_ctlModel : addr := 84%positive.
Definition iedModel_GenericIO_GGIO1_SPCSO1_t : addr := 85%positive.
Definition iedModel_GenericIO_GGIO1_SPCSO2 : addr := 86%positive.
Definition iedModel_GenericIO_GGIO1_SPCSO2_stVal : addr := 87%positive.
Definition iedModel_GenericIO_GGIO1_SPCSO2_q : addr := 88%positive.
Definition iedModel_GenericIO_GGIO1_SPCSO2_SBO : addr := 89%positive.
Definition iedModel_GenericIO_GGIO1_SPCSO2_Oper : addr := 90%positive.
Definition iedModel_GenericIO_GGIO1_SPCSO2_Oper_ctlVal : addr := 91%positive.
Definition iedModel_GenericIO_GGIO1_SPCSO2_Oper_origin : addr := 92%positive.
Definition iedModel_GenericIO_GGIO1_SPCSO2_Oper_origin_orCat : addr := 93%positive.
Definition iedModel_GenericIO_GGIO1_SPCSO2_Oper_origin_orIdent : addr := 94%positive.
Definition iedModel_GenericIO_GGIO1_SPCSO2_Oper_ctlNum : addr := 95%positive.
Definition iedModel_GenericIO_GGIO1_SPCSO2_Oper_T : addr := 96%positive.
Definition iedModel_GenericIO_GGIO1_SPCSO2_Oper_Test : addr := 97%positive.
Definition iedModel_GenericIO_GGIO1_SPCSO2_Oper_Check : addr := 98%positive.
Definition iedModel_GenericIO_GGIO1_SPCSO2_Cancel : addr := 99%positive.
Definition iedModel_GenericIO_GGIO1_SPCSO2_Cancel_ctlVal : addr := 100%positive.
Definition iedModel_GenericIO_GGIO1_SPCSO2_Cancel_origin : addr := 101%positive.
Definition iedModel_GenericIO_GGIO1_SPCSO2_Cancel_origin_orCat : addr := 102%positive.
Definition iedModel_GenericIO_GGIO1_SPCSO2_Cancel_origin_orIdent : addr := 103%positive.
Definition iedModel_GenericIO_GGIO1_SPCSO2_Cancel_ctlNum : addr := 104%positive.
Definition iedModel_GenericIO_GGIO1_SPCSO2_Cancel_T : addr := 105%positive.
Definition iedModel_GenericIO_GGIO1_SPCSO2_Cancel_Test : addr := 106%positive.
Definition iedModel_GenericIO_GGIO1_SPCSO2_ctlModel : addr := 107%positive.
Definition iedModel_GenericIO_GGIO1_SPCSO2_t : addr := 108%positive.
Definition iedModel_GenericIO_GGIO1_SPCSO3 : addr := 109%positive.
Definition iedModel_GenericIO_GGIO1_SPCSO3_stVal : addr := 110%positive.
Definition iedModel_GenericIO_GGIO1_SPCSO3_q : addr := 111%positive.
Definition iedModel_GenericIO_GGIO1_SPCSO3_Oper : addr := 112%positive.
Definition iedModel_GenericIO_GGIO1_SPCSO3_Oper_ctlVal : addr := 113%positive.
Definition iedModel_GenericIO_GGIO1_SPCSO3_Oper_origin : addr := 114%positive.
Definition iedModel_GenericIO_GGIO1_SPCSO3_Oper_origin_orCat : addr := 115%positive.
Definition iedModel_GenericIO_GGIO1_SPCSO3_Oper_origin_orIdent : addr := 116%positive.
Definition iedModel_GenericIO_GGIO1_SPCSO3_Oper_ctlNum : addr := 117%positive.
Definition iedModel_GenericIO_GGIO1_SPCSO3_Oper_T : addr := 118%positive.
Definition iedModel_GenericIO_GGIO1_SPCSO3_Oper_Test : addr := 119%positive.
Definition iedModel_GenericIO_GGIO1_SPCSO3_Oper_Check : addr := 120%positive.
Definition iedModel_GenericIO_GGIO1_SPCSO3_ctlModel : addr := 121%positive.
Definition iedModel_GenericIO_GGIO1_SPCSO3_t : addr := 122%positive.
Definition iedModel_GenericIO_GGIO1_DPCSO1 : addr := 123%positive.
Definition iedModel_GenericIO_GGIO1_DPCSO1_stVal : addr := 124%positive.
Definition iedModel_GenericIO_GGIO1_DPCSO1_q : addr := 125%positive.
Definition iedModel_GenericIO_GGIO1_DPCSO1_Oper : addr := 126%positive.
Definition iedModel_GenericIO_GGIO1_DPCSO1_Oper_ctlVal : addr := 127%positive.
Definition iedModel_GenericIO_GGIO1_DPCSO1_Oper_origin : addr := 128%positive.
Definition iedModel_GenericIO_GGIO1_DPCSO1_Oper_origin_orCat : addr := 129%positive.
Definition iedModel_GenericIO_GGIO1_DPCSO1_Oper_origin_orIdent : addr := 130%positive.
Definition iedModel_GenericIO_GGIO1_DPCSO1_Oper_ctlNum : addr := 131%positive.
Definition iedModel_GenericIO_GGIO1_DPCSO1_Oper_T : addr := 132%positive.
Definition iedModel_GenericIO_GGIO1_DPCSO1_Oper_Test : addr := 133%positive.
Definition iedModel_GenericIO_GGIO1_DPCSO1_Oper_Check : addr := 134%positive.
Definition iedModel_GenericIO_GGIO1_DPCSO1_ctlModel : addr := 135%positive.
Definition iedModel_GenericIO_GGIO1_DPCSO1_t : addr := 136%positive.
Definition iedModel_GenericIO_GGIO1_Ind1 : addr := 137%positive.
Definition iedModel_GenericIO_GGIO1_Ind1_stVal : addr := 138%positive.
Definition iedModel_GenericIO_GGIO1_Ind1_q : addr := 139%positive.
Definition iedModel_GenericIO_GGIO1_Ind1_t : addr := 140%positive.
Definition iedModel_GenericIO_GGIO1_Ind2 : addr := 141%positive.
Definition iedModel_GenericIO_GGIO1_Ind2_stVal : addr := 142%positive.
Definition iedModel_GenericIO_GGIO1_Ind2_q : addr := 143%positive.
Definition iedModel_GenericIO_GGIO1_Ind2_t : addr := 144%positive.
Definition iedModel_GenericIO_GGIO1_Ind3 : addr := 145%positive.
Definition iedModel_GenericIO_GGIO1_Ind3_stVal : addr := 146%positive.
Definition iedModel_GenericIO_GGIO1_Ind3_q : addr := 147%positive.
Definition iedModel_GenericIO_GGIO1_Ind3_t : addr := 148%positive.
Definition iedModel_GenericIO_GGIO1_Ind4 : addr := 149%positive.
Definition iedModel_GenericIO_GGIO1_Ind4_stVal : addr := 150%positive.
Definition iedModel_GenericIO_GGIO1_Ind4_q : addr := 151%positive.
Definition iedModel_GenericIO_GGIO1_Ind4_t : addr := 152%positive.
Definition iedModel_GenericIO_TIM_GAPC1 : addr := 153%positive.
Definition iedModel_GenericIO_TIM_GAPC1_Beh : addr := 154%positive.
Definition iedModel_GenericIO_TIM_GAPC1_Beh_stVal : addr := 155%positive.
Definition iedModel_GenericIO_TIM_GAPC1_Beh_q : addr := 156%positive.
Definition iedModel_GenericIO_TIM_GAPC1_Beh_t : addr := 157%positive.
Definition iedModel_GenericIO_TIM_GAPC1_Mod : addr := 158%positive.
Definition iedModel_GenericIO_TIM_GAPC1_Mod_stVal : addr := 159%positive.
Definition iedModel_GenericIO_TIM_GAPC1_Mod_q : addr := 160%positive.
Definition iedModel_GenericIO_TIM_GAPC1_Mod_t : addr := 161%positive.
Definition iedModel_GenericIO_TIM_GAPC1_Mod_ctlModel : addr := 162%positive.
Definition iedModel_GenericIO_TIM_GAPC1_Str : addr := 163%positive.
Definition iedModel_GenericIO_TIM_GAPC1_Str_general : addr := 164%positive.
Definition iedModel_GenericIO_TIM_GAPC1_Str_dirGeneral : addr := 165%positive.
Definition iedModel_GenericIO_TIM_GAPC1_Str_q : addr := 166%positive.
Definition iedModel_GenericIO_TIM_GAPC1_Str_t : addr := 167%positive.
Definition iedModel_GenericIO_TIM_GAPC1_Op : addr := 168%positive.
Definition iedModel_GenericIO_TIM_GAPC1_Op_general : addr := 169%positive.
Definition iedModel_GenericIO_TIM_GAPC1_Op_q : addr := 170%positive.
Definition iedModel_GenericIO_TIM_GAPC1_Op_t : addr := 171%positive.
Definition iedModel_GenericIO_TIM_GAPC1_OpDlTmms : addr := 172%positive.
Definition iedModel_GenericIO_TIM_GAPC1_OpDlTmms_setVal : addr := 173%positive.
Definition iedModel_GenericIO_TIM_GAPC1_OpDlTmms_dataNs : addr := 174%positive.
Definition iedModel_GenericIO_TIM_GAPC1_RsDlTmms : addr := 175%positive.
Definition iedModel_GenericIO_TIM_GAPC1_RsDlTmms_setVal : addr := 176%positive.
Definition iedModel_GenericIO_TIM_GAPC1_RsDlTmms_dataNs : addr := 177%positive.
Definition iedModel_GenericIO_TIM_GAPC1_OpCntRs : addr := 178%positive.
Definition iedModel_GenericIO_TIM_GAPC1_OpCntRs_stVal : addr := 179%positive.
Definition iedModel_GenericIO_TIM_GAPC1_OpCntRs_q : addr := 180%positive.
Definition iedModel_GenericIO_TIM_GAPC1_OpCntRs_t : addr := 181%positive.
Definition iedModel_GenericIO_TIM_GAPC1_OpCntRs_Oper : addr := 182%positive.
Definition iedModel_GenericIO_TIM_GAPC1_OpCntRs_Oper_ctlVal : addr := 183%positive.
Definition iedModel_GenericIO_TIM_GAPC1_OpCntRs_Oper_origin : addr := 184%positive.
Definition iedModel_GenericIO_TIM_GAPC1_OpCntRs_Oper_origin_orCat : addr := 185%positive.
Definition iedModel_GenericIO_TIM_GAPC1_OpCntRs_Oper_origin_orIdent : addr := 186%positive.
Definition iedModel_GenericIO_TIM_GAPC1_OpCntRs_Oper_ctlNum : addr := 187%positive.
Definition iedModel_GenericIO_TIM_GAPC1_OpCntRs_Oper_T : addr := 188%positive.
Definition iedModel_GenericIO_TIM_GAPC1_OpCntRs_Oper_Test : addr := 189%positive.
Definition iedModel_GenericIO_TIM_GAPC1_OpCntRs_Oper_Check : addr := 190%positive.
Definition iedModel_GenericIO_TIM_GAPC1_OpCntRs_ctlModel : addr := 191%positive.
Definition iedModel_GenericIO_T60S_FSCH1 : addr := 192%positive.
Definition iedModel_GenericIO_T60S_FSCH1_Beh : addr := 193%positive.
Definition iedModel_GenericIO_T60S_FSCH1_Beh_stVal : addr := 194%positive.
Definition iedModel_GenericIO_T60S_FSCH1_Beh_q : addr := 195%positive.
Definition iedModel_GenericIO_T60S_FSCH1_Beh_t : addr := 196%positive.
Definition iedModel_GenericIO_T60S_FSCH1_SchdSt : addr := 197%positive.
Definition iedModel_GenericIO_T60S_FSCH1_SchdSt_stVal : addr := 198%positive.
Definition iedModel_GenericIO_T60S_FSCH1_SchdSt_q : addr := 199%positive.
Definition iedModel_GenericIO_T60S_FSCH1_SchdSt_t : addr := 200%positive.
Definition iedModel_GenericIO_T60S_FSCH1_SchdEntr : addr := 201%positive.
Definition iedModel_GenericIO_T60S_FSCH1_SchdEntr_stVal : addr := 202%positive.
Definition iedModel_GenericIO_T60S_FSCH1_SchdEntr_q : addr := 203%positive.
Definition iedModel_GenericIO_T60S_FSCH1_SchdEntr_t : addr := 204%positive.
Definition iedModel_GenericIO_T60S_FSCH1_ValSPS : addr := 205%positive.
Definition iedModel_GenericIO_T60S_FSCH1_ValSPS_stVal : addr := 206%positive.
Definition iedModel_GenericIO_T60S_FSCH1_ValSPS_q : addr := 207%positive.
Definition iedModel_GenericIO_T60S_FSCH1_ValSPS_t : addr := 208%positive.
Definition iedModel_GenericIO_T60S_FSCH1_VldReq : addr := 209%positive.
Definition iedModel_GenericIO_T60S_FSCH1_VldReq_stVal : addr := 210%positive.
Definition iedModel_GenericIO_T60S_FSCH1_VldReq_q : addr := 211%positive.
Definition iedModel_GenericIO_T60S_FSCH1_VldReq_Oper : addr := 212%positive.
Definition iedModel_GenericIO_T60S_FSCH1_VldReq_Oper_ctlVal : addr := 213%positive.
Definition iedModel_GenericIO_T60S_FSCH1_VldReq_Oper_origin : addr := 214%positive.
Definition iedModel_GenericIO_T60S_FSCH1_VldReq_Oper_origin_orCat : addr := 215%positive.
Definition iedModel_GenericIO_T60S_FSCH1_VldReq_Oper_origin_orIdent : addr := 216%positive.
Definition iedModel_GenericIO_T60S_FSCH1_VldReq_Oper_ctlNum : addr := 217%positive.
Definition iedModel_GenericIO_T60S_FSCH1_VldReq_Oper_T : addr := 218%positive.
Definition iedModel_GenericIO_T60S_FSCH1_VldReq_Oper_Test : addr := 219%positive.
Definition iedModel_GenericIO_T60S_FSCH1_VldReq_Oper_Check : addr := 220%positive.
Definition iedModel_GenericIO_T60S_FSCH1_VldReq_ctlModel : addr := 221%positive.
Definition iedModel_GenericIO_T60S_FSCH1_VldReq_t : addr := 222%positive.
Definition iedModel_GenericIO_T60S_FSCH1_EnaReq : addr := 223%positive.
Definition iedModel_GenericIO_T60S_FSCH1_EnaReq_stVal : addr := 224%positive.
Definition iedModel_GenericIO_T60S_FSCH1_EnaReq_q : addr := 225%positive.
Definition iedModel_GenericIO_T60S_FSCH1_EnaReq_Oper : addr := 226%positive.
Definition iedModel_GenericIO_T60S_FSCH1_EnaReq_Oper_ctlVal : addr := 227%positive.
Definition iedModel_GenericIO_T60S_FSCH1_EnaReq_Oper_origin : addr := 228%positive.
Definition iedModel_GenericIO_T60S_FSCH1_EnaReq_Oper_origin_orCat : addr := 229%positive.
Definition iedModel_GenericIO_T60S_FSCH1_EnaReq_Oper_origin_orIdent : addr := 230%positive.
Definition iedModel_GenericIO_T60S_FSCH1_EnaReq_Oper_ctlNum : addr := 231%positive.
Definition iedModel_GenericIO_T60S_FSCH1_EnaReq_Oper_T : addr := 232%positive.
Definition iedModel_GenericIO_T60S_FSCH1_EnaReq_Oper_Test : addr := 233%positive.
Definition iedModel_GenericIO_T60S_FSCH1_EnaReq_Oper_Check : addr := 234%positive.
Definition iedModel_GenericIO_T60S_FSCH1_EnaReq_ctlModel : addr := 235%positive.
Definition iedModel_GenericIO_T60S_FSCH1_EnaReq_t : addr := 236%positive.
Definition iedModel_GenericIO_T60S_FSCH1_EdtReq : addr := 237%positive.
Definition iedModel_GenericIO_T60S_FSCH1_EdtReq_stVal : addr := 238%positive.
Definition iedModel_GenericIO_T60S_FSCH1_EdtReq_q : addr := 239%positive.
Definition iedModel_GenericIO_T60S_FSCH1_EdtReq_Oper : addr := 240%positive.
Definition iedModel_GenericIO_T60S_FSCH1_EdtReq_Oper_ctlVal : addr := 241%positive.
Definition iedModel_GenericIO_T60S_FSCH1_EdtReq_Oper_origin : addr := 242%positive.
Definition iedModel_GenericIO_T60S_FSCH1_EdtReq_Oper_origin_orCat : addr := 243%positive.
Definition iedModel_GenericIO_T60S_FSCH1_EdtReq_Oper_origin_orIdent : addr := 244%positive.
Definition iedModel_GenericIO_T60S_FSCH1_EdtReq_Oper_ctlNum : addr := 245%positive.
Definition iedModel_GenericIO_T60S_FSCH1_EdtReq_Oper_T : addr := 246%positive.
Definition iedModel_GenericIO_T60S_FSCH1_EdtReq_Oper_Test : addr := 247%positive.
Definition iedModel_GenericIO_T60S_FSCH1_EdtReq_Oper_Check : addr := 248%positive.
Definition iedModel_GenericIO_T60S_FSCH1_EdtReq_ctlModel : addr := 249%positive.
Definition iedModel_GenericIO_T60S_FSCH1_EdtReq_t : addr := 250%positive.
Definition iedModel_GenericIO_T60S_FSCH1_DsaReq : addr := 251%positive.
Definition iedModel_GenericIO_T60S_FSCH1_DsaReq_stVal : addr := 252%positive.
Definition iedModel_GenericIO_T60S_FSCH1_DsaReq_q : addr := 253%positive.
Definition iedModel_GenericIO_T60S_FSCH1_DsaReq_Oper : addr := 254%positive.
Definition iedModel_GenericIO_T60S_FSCH1_DsaReq_Oper_ctlVal : addr := 255%positive.
Definition iedModel_GenericIO_T60S_FSCH1_DsaReq_Oper_origin : addr := 256%positive.
Definition iedModel_GenericIO_T60S_FSCH1_DsaReq_Oper_origin_orCat : addr := 257%positive.
Definition iedModel_GenericIO_T60S_FSCH1_DsaReq_Oper_origin_orIdent : addr := 258%positive.
Definition iedModel_GenericIO_T60S_FSCH1_DsaReq_Oper_ctlNum : addr := 259%positive.
Definition iedModel_GenericIO_T60S_FSCH1_DsaReq_Oper_T : addr := 260%positive.
Definition iedModel_GenericIO_T60S_FSCH1_DsaReq_Oper_Test : addr := 261%positive.
Definition iedModel_GenericIO_T60S_FSCH1_DsaReq_Oper_Check : addr := 262%positive.
Definition iedModel_GenericIO_T60S_FSCH1_DsaReq_ctlModel : addr := 263%positive.
Definition iedModel_GenericIO_T60S_FSCH1_DsaReq_t : addr := 264%positive.
Definition iedModel_GenericIO_T60S_FSCH1_SchdPrio : addr := 265%positive.
Definition iedModel_GenericIO_T60S_FSCH1_SchdPrio_setVal : addr := 266%positive.
Definition iedModel_GenericIO_T60S_FSCH1_NumEntr : addr := 267%positive.
Definition iedModel_GenericIO_T60S_FSCH1_NumEntr_setVal : addr := 268%positive.
Definition iedModel_GenericIO_T60S_FSCH1_SchdIntv : addr := 269%positive.
Definition iedModel_GenericIO_T60S_FSCH1_SchdIntv_setVal : addr := 270%positive.
Definition iedModel_GenericIO_T60S_FSCH1_ValSPG1 : addr := 271%positive.
Definition iedModel_GenericIO_T60S_FSCH1_ValSPG1_setVal : addr := 272%positive.
Definition iedModel_GenericIO_T60S_FSCH1_ValSPG2 : addr := 273%positive.
Definition iedModel_GenericIO_T60S_FSCH1_ValSPG2_setVal : addr := 274%positive.
Definition iedModel_GenericIO_T60S_FSCH1_ValSPG3 : addr := 275%positive.
Definition iedModel_GenericIO_T60S_FSCH1_ValSPG3_setVal : addr := 276%positive.
Definition iedModel_GenericIO_T60S_FSCH1_ValSPG4 : addr := 277%positive.
Definition iedModel_GenericIO_T60S_FSCH1_ValSPG4_setVal : addr := 278%positive.
Definition iedModel_GenericIO_T60S_FSCH1_ValSPG5 : addr := 279%positive.
Definition iedModel_GenericIO_T60S_FSCH1_ValSPG5_setVal : addr := 280%positive.
Definition iedModel_GenericIO_T60S_FSCH1_ValSPG6 : addr := 281%positive.
Definition iedModel_GenericIO_T60S_FSCH1_ValSPG6_setVal : addr := 282%positive.
Definition iedModel_GenericIO_T60S_FSCH1_ValSPG7 : addr := 283%positive.
Definition iedModel_GenericIO_T60S_FSCH1_ValSPG7_setVal : addr := 284%positive.
Definition iedModel_GenericIO_T60S_FSCH1_ValSPG8 : addr := 285%positive.
Definition iedModel_GenericIO_T60S_FSCH1_ValSPG8_setVal : addr := 286%positive.
Definition iedModel_GenericIO_T60S_FSCH1_ValSPG9 : addr := 287%positive.
Definition iedModel_GenericIO_T60S_FSCH1_ValSPG9_setVal : addr := 288%positive.
Definition iedModel_GenericIO_T60S_FSCH1_ValSPG10 : addr := 289%positive.
Definition iedModel_GenericIO_T60S_FSCH1_ValSPG10_setVal : addr := 290%positive.
Definition iedModel_GenericIO_T60S_FSCH1_ValSPG11 : addr := 291%positive.
Definition iedModel_GenericIO_T60S_FSCH1_ValSPG11_setVal : addr := 292%positive.
Definition iedModel_GenericIO_T60S_FSCH1_ValSPG12 : addr := 293%positive.
Definition iedModel_GenericIO_T60S_FSCH1_ValSPG12_setVal : addr := 294%positive.
Definition iedModel_GenericIO_T60S_FSCH1_ValSPG13 : addr := 295%positive.
Definition iedModel_GenericIO_T60S_FSCH1_ValSPG13_setVal : addr := 296%positive.
Definition iedModel_GenericIO_T60S_FSCH1_ValSPG14 : addr := 297%positive.
Definition iedModel_GenericIO_T60S_FSCH1_ValSPG14_setVal : addr := 298%positive.
Definition iedModel_GenericIO_T60S_FSCH1_ValSPG15 : addr := 299%positive.
Definition iedModel_GenericIO_T60S_FSCH1_ValSPG15_setVal : addr := 300%positive.
Definition iedModel_GenericIO_T60S_FSCH1_ValSPG16 : addr := 301%positive.
Definition iedModel_GenericIO_T60S_FSCH1_ValSPG16_setVal : addr := 302%positive.
Definition iedModel_GenericIO_T60S_FSCH1_ValSPG17 : addr := 303%positive.
Definition iedModel_GenericIO_T60S_FSCH1_ValSPG17_setVal : addr := 304%positive.
Definition iedModel_GenericIO_T60S_FSCH1_ValSPG18 : addr := 305%positive.
Definition iedModel_GenericIO_T60S_FSCH1_ValSPG18_setVal : addr := 306%positive.
Definition iedModel_GenericIO_T60S_FSCH1_ValSPG19 : addr := 307%positive.
Definition iedModel_GenericIO_T60S_FSCH1_ValSPG19_setVal : addr := 308%positive.
Definition iedModel_GenericIO_T60S_FSCH1_ValSPG20 : addr := 309%positive.
Definition iedModel_GenericIO_T60S_FSCH1_ValSPG20_setVal : addr := 310%positive.
Definition iedModel_GenericIO_T60S_FSCH1_ValSPG21 : addr := 311%positive.
Definition iedModel_GenericIO_T60S_FSCH1_ValSPG21_setVal : addr := 312%positive.
Definition iedModel_GenericIO_T60S_FSCH1_ValSPG22 : addr := 313%positive.
Definition iedModel_GenericIO_T60S_FSCH1_ValSPG22_setVal : addr := 314%positive.
Definition iedModel_GenericIO_T60S_FSCH1_ValSPG23 : addr := 315%positive.
Definition iedModel_GenericIO_T60S_FSCH1_ValSPG23_setVal : addr := 316%positive.
Definition iedModel_GenericIO_T60S_FSCH1_ValSPG24 : addr := 317%positive.
Definition iedModel_GenericIO_T60S_FSCH1_ValSPG24_setVal : addr := 318%positive.
Definition iedModel_GenericIO_T60S_FSCH1_ValSPG25 : addr := 319%positive.
Definition iedModel_GenericIO_T60S_FSCH1_ValSPG25_setVal : addr := 320%positive.
Definition iedModel_GenericIO_T60S_FSCH1_ValSPG26 : addr := 321%positive.
Definition iedModel_GenericIO_T60S_FSCH1_ValSPG26_setVal : addr := 322%positive.
Definition iedModel_GenericIO_T60S_FSCH1_ValSPG27 : addr := 323%positive.
Definition iedModel_GenericIO_T60S_FSCH1_ValSPG27_setVal : addr := 324%positive.
Definition iedModel_GenericIO_T60S_FSCH1_ValSPG28 : addr := 325%positive.
Definition iedModel_GenericIO_T60S_FSCH1_ValSPG28_setVal : addr := 326%positive.
Definition iedModel_GenericIO_T60S_FSCH1_ValSPG29 : addr := 327%positive.
Definition iedModel_GenericIO_T60S_FSCH1_ValSPG29_setVal : addr := 328%positive.
Definition iedModel_GenericIO_T60S_FSCH1_ValSPG30 : addr := 329%positive.
Definition iedModel_GenericIO_T60S_FSCH1_ValSPG30_setVal : addr := 330%positive.
Definition iedModel_GenericIO_T60S_FSCH1_ValSPG31 : addr := 331%positive.
Definition iedModel_GenericIO_T60S_FSCH1_ValSPG31_setVal : addr := 332%positive.
Definition iedModel_GenericIO_T60S_FSCH1_ValSPG32 : addr := 333%positive.
Definition iedModel_GenericIO_T60S_FSCH1_ValSPG32_setVal : addr := 334%positive.
Definition iedModel_GenericIO_T60S_FSCH1_ValSPG33 : addr := 335%positive.
Definition iedModel_GenericIO_T60S_FSCH1_ValSPG33_setVal : addr := 336%positive.
Definition iedModel_GenericIO_T60S_FSCH1_ValSPG34 : addr := 337%positive.
Definition iedModel_GenericIO_T60S_FSCH1_ValSPG34_setVal : addr := 338%positive.
Definition iedModel_GenericIO_T60S_FSCH1_ValSPG35 : addr := 339%positive.
Definition iedModel_GenericIO_T60S_FSCH1_ValSPG35_setVal : addr := 340%positive.
Definition iedModel_GenericIO_T60S_FSCH1_ValSPG36 : addr := 341%positive.
Definition iedModel_GenericIO_T60S_FSCH1_ValSPG36_setVal : addr := 342%positive.
Definition iedModel_GenericIO_T60S_FSCH1_ValSPG37 : addr := 343%positive.
Definition iedModel_GenericIO_T60S_FSCH1_ValSPG37_setVal : addr := 344%positive.
Definition iedModel_GenericIO_T60S_FSCH1_ValSPG38 : addr := 345%positive.
Definition iedModel_GenericIO_T60S_FSCH1_ValSPG38_setVal : addr := 346%positive.
Definition iedModel_GenericIO_T60S_FSCH1_ValSPG39 : addr := 347%positive.
Definition iedModel_GenericIO_T60S_FSCH1_ValSPG39_setVal : addr := 348%positive.
Definition iedModel_GenericIO_T60S_FSCH1_ValSPG40 : addr := 349%positive.
Definition iedModel_GenericIO_T60S_FSCH1_ValSPG40_setVal : addr := 350%positive.
Definition iedModel_GenericIO_T60S_FSCH1_ValSPG41 : addr := 351%positive.
Definition iedModel_GenericIO_T60S_FSCH1_ValSPG41_setVal : addr := 352%positive.
Definition iedModel_GenericIO_T60S_FSCH1_ValSPG42 : addr := 353%positive.
Definition iedModel_GenericIO_T60S_FSCH1_ValSPG42_setVal : addr := 354%positive.
Definition iedModel_GenericIO_T60S_FSCH1_ValSPG43 : addr := 355%positive.
Definition iedModel_GenericIO_T60S_FSCH1_ValSPG43_setVal : addr := 356%positive.
Definition iedModel_GenericIO_T60S_FSCH1_ValSPG44 : addr := 357%positive.
Definition iedModel_GenericIO_T60S_FSCH1_ValSPG44_setVal : addr := 358%positive.
Definition iedModel_GenericIO_T60S_FSCH1_ValSPG45 : addr := 359%positive.
Definition iedModel_GenericIO_T60S_FSCH1_ValSPG45_setVal : addr := 360%positive.
Definition iedModel_GenericIO_T60S_FSCH1_ValSPG46 : addr := 361%positive.
Definition iedModel_GenericIO_T60S_FSCH1_ValSPG46_setVal : addr := 362%positive.
Definition iedModel_GenericIO_T60S_FSCH1_ValSPG47 : addr := 363%positive.
Definition iedModel_GenericIO_T60S_FSCH1_ValSPG47_setVal : addr := 364%positive.
Definition iedModel_GenericIO_T60S_FSCH1_ValSPG48 : addr := 365%positive.
Definition iedModel_GenericIO_T60S_FSCH1_ValSPG48_setVal : addr := 366%positive.
Definition iedModel_GenericIO_T60S_FSCH1_ValSPG49 : addr := 367%positive.
Definition iedModel_GenericIO_T60S_FSCH1_ValSPG49_setVal : addr := 368%positive.
Definition iedModel_GenericIO_T60S_FSCH1_ValSPG50 : addr := 369%positive.
Definition iedModel_GenericIO_T60S_FSCH1_ValSPG50_setVal : addr := 370%positive.
Definition iedModel_GenericIO_T60S_FSCH1_ValSPG51 : addr := 371%positive.
Definition iedModel_GenericIO_T60S_FSCH1_ValSPG51_setVal : addr := 372%positive.
Definition iedModel_GenericIO_T60S_FSCH1_ValSPG52 : addr := 373%positive.
Definition iedModel_GenericIO_T60S_FSCH1_ValSPG52_setVal : addr := 374%positive.
Definition iedModel_GenericIO_T60S_FSCH1_ValSPG53 : addr := 375%positive.
Definition iedModel_GenericIO_T60S_FSCH1_ValSPG53_setVal : addr := 376%positive.
Definition iedModel_GenericIO_T60S_FSCH1_ValSPG54 : addr := 377%positive.
Definition iedModel_GenericIO_T60S_FSCH1_ValSPG54_setVal : addr := 378%positive.
Definition iedModel_GenericIO_T60S_FSCH1_ValSPG55 : addr := 379%positive.
Definition iedModel_GenericIO_T60S_FSCH1_ValSPG55_setVal : addr := 380%positive.
Definition iedModel_GenericIO_T60S_FSCH1_ValSPG56 : addr := 381%positive.
Definition iedModel_GenericIO_T60S_FSCH1_ValSPG56_setVal : addr := 382%positive.
Definition iedModel_GenericIO_T60S_FSCH1_ValSPG57 : addr := 383%positive.
Definition iedModel_GenericIO_T60S_FSCH1_ValSPG57_setVal : addr := 384%positive.
Definition iedModel_GenericIO_T60S_FSCH1_ValSPG58 : addr := 385%positive.
Definition iedModel_GenericIO_T60S_FSCH1_ValSPG58_setVal : addr := 386%positive.
Definition iedModel_GenericIO_T60S_FSCH1_ValSPG59 : addr := 387%positive.
Definition iedModel_GenericIO_T60S_FSCH1_ValSPG59_setVal : addr := 388%positive.
Definition iedModel_GenericIO_T60S_FSCH1_ValSPG60 : addr := 389%positive.
Definition iedModel_GenericIO_T60S_FSCH1_ValSPG60_setVal : addr := 390%positive.
Definition iedModel_GenericIO_T60S_FSCH1_StrTm : addr := 391%positive.
Definition iedModel_GenericIO_T60S_FSCH1_StrTm_setTm : addr := 392%positive.
Definition iedModel_GenericIO_T60S_FSCH1_StrTm_setCal : addr := 393%positive.
Definition iedModel_GenericIO_T60S_FSCH1_StrTm_setCal_occ : addr := 394%positive.
Definition iedModel_GenericIO_T60S_FSCH1_StrTm_setCal_occType : addr := 395%positive.
Definition iedModel_GenericIO_T60S_FSCH1_StrTm_setCal_occPer : addr := 396%positive.
Definition iedModel_GenericIO_T60S_FSCH1_StrTm_setCal_weekDay : addr := 397%positive.
Definition iedModel_GenericIO_T60S_FSCH1_StrTm_setCal_month : addr := 398%positive.
Definition iedModel_GenericIO_T60S_FSCH1_StrTm_setCal_day : addr := 399%positive.
Definition iedModel_GenericIO_T60S_FSCH1_StrTm_setCal_hr : addr := 400%positive.
Definition iedModel_GenericIO_T60S_FSCH1_StrTm_setCal_mn : addr := 401%positive.
Definition iedModel_GenericIO_T60S_FSCH1_IntvPer : addr := 402%positive.
Definition iedModel_GenericIO_T60S_FSCH1_IntvPer_setVal : addr := 403%positive.
Definition iedModel_GenericIO_T60S_FSCH1_IntvTyp : addr := 404%positive.
Definition iedModel_GenericIO_T60S_FSCH1_IntvTyp_setVal : addr := 405%positive.
Definition iedModel_GenericIO_T60S_FSCH1_SchdReuse : addr := 406%positive.
Definition iedModel_GenericIO_T60S_FSCH1_SchdReuse_setVal : addr := 407%positive.
Definition iedModel_GenericIO_T60S_FSCH2 : addr := 408%positive.
Definition iedModel_GenericIO_T60S_FSCH2_Beh : addr := 409%positive.
Definition iedModel_GenericIO_T60S_FSCH2_Beh_stVal : addr := 410%positive.
Definition iedModel_GenericIO_T60S_FSCH2_Beh_q : addr := 411%positive.
Definition iedModel_GenericIO_T60S_FSCH2_Beh_t : addr := 412%positive.
Definition iedModel_GenericIO_T60S_FSCH2_SchdSt : addr := 413%positive.
Definition iedModel_GenericIO_T60S_FSCH2_SchdSt_stVal : addr := 414%positive.
Definition iedModel_GenericIO_T60S_FSCH2_SchdSt_q : addr := 415%positive.
Definition iedModel_GenericIO_T60S_FSCH2_SchdSt_t : addr := 416%positive.
Definition iedModel_GenericIO_T60S_FSCH2_SchdEntr : addr := 417%positive.
Definition iedModel_GenericIO_T60S_FSCH2_SchdEntr_stVal : addr := 418%positive.
Definition iedModel_GenericIO_T60S_FSCH2_SchdEntr_q : addr := 419%positive.
Definition iedModel_GenericIO_T60S_FSCH2_SchdEntr_t : addr := 420%positive.
Definition iedModel_GenericIO_T60S_FSCH2_ValSPS : addr := 421%positive.
Definition iedModel_GenericIO_T60S_FSCH2_ValSPS_stVal : addr := 422%positive.
Definition iedModel_GenericIO_T60S_FSCH2_ValSPS_q : addr := 423%positive.
Definition iedModel_GenericIO_T60S_FSCH2_ValSPS_t : addr := 424%positive.
Definition iedModel_GenericIO_T60S_FSCH2_VldReq : addr := 425%positive.
Definition iedModel_GenericIO_T60S_FSCH2_VldReq_stVal : addr := 426%positive.
Definition iedModel_GenericIO_T60S_FSCH2_VldReq_q : addr := 427%positive.
Definition iedModel_GenericIO_T60S_FSCH2_VldReq_Oper : addr := 428%positive.
Definition iedModel_GenericIO_T60S_FSCH2_VldReq_Oper_ctlVal : addr := 429%positive.
Definition iedModel_GenericIO_T60S_FSCH2_VldReq_Oper_origin : addr := 430%positive.
Definition iedModel_GenericIO_T60S_FSCH2_VldReq_Oper_origin_orCat : addr := 431%positive.
Definition iedModel_GenericIO_T60S_FSCH2_VldReq_Oper_origin_orIdent : addr := 432%positive.
Definition iedModel_GenericIO_T60S_FSCH2_VldReq_Oper_ctlNum : addr := 433%positive.
Definition iedModel_GenericIO_T60S_FSCH2_VldReq_Oper_T : addr := 434%positive.
Definition iedModel_GenericIO_T60S_FSCH2_VldReq_Oper_Test : addr := 435%positive.
Definition iedModel_GenericIO_T60S_FSCH2_VldReq_Oper_Check : addr := 436%positive.
Definition iedModel_GenericIO_T60S_FSCH2_VldReq_ctlModel : addr := 437%positive.
Definition iedModel_GenericIO_T60S_FSCH2_VldReq_t : addr := 438%positive.
Definition iedModel_GenericIO_T60S_FSCH2_EnaReq : addr := 439%positive.
Definition iedModel_GenericIO_T60S_FSCH2_EnaReq_stVal : addr := 440%positive.
Definition iedModel_GenericIO_T60S_FSCH2_EnaReq_q : addr := 441%positive.
Definition iedModel_GenericIO_T60S_FSCH2_EnaReq_Oper : addr := 442%positive.
Definition iedModel_GenericIO_T60S_FSCH2_EnaReq_Oper_ctlVal : addr := 443%positive.
Definition iedModel_GenericIO_T60S_FSCH2_EnaReq_Oper_origin : addr := 444%positive.
Definition iedModel_GenericIO_T60S_FSCH2_EnaReq_Oper_origin_orCat : addr := 445%positive.
Definition iedModel_GenericIO_T60S_FSCH2_EnaReq_Oper_origin_orIdent : addr := 446%positive.
Definition iedModel_GenericIO_T60S_FSCH2_EnaReq_Oper_ctlNum : addr := 447%positive.
Definition iedModel_GenericIO_T60S_FSCH2_EnaReq_Oper_T : addr := 448%positive.
Definition iedModel_GenericIO_T60S_FSCH2_EnaReq_Oper_Test : addr := 449%positive.
Definition iedModel_GenericIO_T60S_FSCH2_EnaReq_Oper_Check : addr := 450%positive.
Definition iedModel_GenericIO_T60S_FSCH2_EnaReq_ctlModel : addr := 451%positive.
Definition iedModel_GenericIO_T60S_FSCH2_EnaReq_t : addr := 452%positive.
Definition iedModel_GenericIO_T60S_FSCH2_EdtReq : addr := 453%positive.
Definition iedModel_GenericIO_T60S_FSCH2_EdtReq_stVal : addr := 454%positive.
Definition iedModel_GenericIO_T60S_FSCH2_EdtReq_q : addr := 455%positive.
Definition iedModel_GenericIO_T60S_FSCH2_EdtReq_Oper : addr := 456%positive.
Definition iedModel_GenericIO_T60S_FSCH2_EdtReq_Oper_ctlVal : addr := 457%positive.
Definition iedModel_GenericIO_T60S_FSCH2_EdtReq_Oper_origin : addr := 458%positive.
Definition iedModel_GenericIO_T60S_FSCH2_EdtReq_Oper_origin_orCat : addr := 459%positive.
Definition iedModel_GenericIO_T60S_FSCH2_EdtReq_Oper_origin_orIdent : addr := 460%positive.
Definition iedModel_GenericIO_T60S_FSCH2_EdtReq_Oper_ctlNum : addr := 461%positive.
Definition iedModel_GenericIO_T60S_FSCH2_EdtReq_Oper_T : addr := 462%positive.
Definition iedModel_GenericIO_T60S_FSCH2_EdtReq_Oper_Test : addr := 463%positive.
Definition iedModel_GenericIO_T60S_FSCH2_EdtReq_Oper_Check : addr := 464%positive.
Definition iedModel_GenericIO_T60S_FSCH2_EdtReq_ctlModel : addr := 465%positive.
Definition iedModel_GenericIO_T60S_FSCH2_EdtReq_t : addr := 466%positive.
Definition iedModel_GenericIO_T60S_FSCH2_DsaReq : addr := 467%positive.
Definition iedModel_GenericIO_T60S_FSCH2_DsaReq_stVal : addr := 468%positive.
Definition iedModel_GenericIO_T60S_FSCH2_DsaReq_q : addr := 469%positive.
Definition iedModel_GenericIO_T60S_FSCH2_DsaReq_Oper : addr := 470%positive.
Definition iedModel_GenericIO_T60S_FSCH2_DsaReq_Oper_ctlVal : addr := 471%positive.
Definition iedModel_GenericIO_T60S_FSCH2_DsaReq_Oper_origin : addr := 472%positive.
Definition iedModel_GenericIO_T60S_FSCH2_DsaReq_Oper_origin_orCat : addr := 473%positive.
Definition iedModel_GenericIO_T60S_FSCH2_DsaReq_Oper_origin_orIdent : addr := 474%positive.
Definition iedModel_GenericIO_T60S_FSCH2_DsaReq_Oper_ctlNum : addr := 475%positive.
Definition iedModel_GenericIO_T60S_FSCH2_DsaReq_Oper_T : addr := 476%positive.
Definition iedModel_GenericIO_T60S_FSCH2_DsaReq_Oper_Test : addr := 477%positive.
Definition iedModel_GenericIO_T60S_FSCH2_DsaReq_Oper_Check : addr := 478%positive.
Definition iedModel_GenericIO_T60S_FSCH2_DsaReq_ctlModel : addr := 479%positive.
Definition iedModel_GenericIO_T60S_FSCH2_DsaReq_t : addr := 480%positive.
Definition iedModel_GenericIO_T60S_FSCH2_SchdPrio : addr := 481%positive.
Definition iedModel_GenericIO_T60S_FSCH2_SchdPrio_setVal : addr := 482%positive.
Definition iedModel_GenericIO_T60S_FSCH2_NumEntr : addr := 483%positive.
Definition iedModel_GenericIO_T60S_FSCH2_NumEntr_setVal : addr := 484%positive.
Definition iedModel_GenericIO_T60S_FSCH2_SchdIntv : addr := 485%positive.
Definition iedModel_GenericIO_T60S_FSCH2_SchdIntv_setVal : addr := 486%positive.
Definition iedModel_GenericIO_T60S_FSCH2_ValSPG1 : addr := 487%positive.
Definition iedModel_GenericIO_T60S_FSCH2_ValSPG1_setVal : addr := 488%positive.
Definition iedModel_GenericIO_T60S_FSCH2_ValSPG2 : addr := 489%positive.
Definition iedModel_GenericIO_T60S_FSCH2_ValSPG2_setVal : addr := 490%positive.
Definition iedModel_GenericIO_T60S_FSCH2_ValSPG3 : addr := 491%positive.
Definition iedModel_GenericIO_T60S_FSCH2_ValSPG3_setVal : addr := 492%positive.
Definition iedModel_GenericIO_T60S_FSCH2_ValSPG4 : addr := 493%positive.
Definition iedModel_GenericIO_T60S_FSCH2_ValSPG4_setVal : addr := 494%positive.
Definition iedModel_GenericIO_T60S_FSCH2_ValSPG5 : addr := 495%positive.
Definition iedModel_GenericIO_T60S_FSCH2_ValSPG5_setVal : addr := 496%positive.
Definition iedModel_GenericIO_T60S_FSCH2_ValSPG6 : addr := 497%positive.
Definition iedModel_GenericIO_T60S_FSCH2_ValSPG6_setVal : addr := 498%positive.
Definition iedModel_GenericIO_T60S_FSCH2_ValSPG7 : addr := 499%positive.
Definition iedModel_GenericIO_T60S_FSCH2_ValSPG7_setVal : addr := 500%positive.
Definition iedModel_GenericIO_T60S_FSCH2_ValSPG8 : addr := 501%positive.
Definition iedModel_GenericIO_T60S_FSCH2_ValSPG8_setVal : addr := 502%positive.
Definition iedModel_GenericIO_T60S_FSCH2_ValSPG9 : addr := 503%positive.
Definition iedModel_GenericIO_T60S_FSCH2_ValSPG9_setVal : addr := 504%positive.
Definition iedModel_GenericIO_T60S_FSCH2_ValSPG10 : addr := 505%positive.
Definition iedModel_GenericIO_T60S_FSCH2_ValSPG10_setVal : addr := 506%positive.
Definition iedModel_GenericIO_T60S_FSCH2_ValSPG11 : addr := 507%positive.
Definition iedModel_GenericIO_T60S_FSCH2_ValSPG11_setVal : addr := 508%positive.
Definition iedModel_GenericIO_T60S_FSCH2_ValSPG12 : addr := 509%positive.
Definition iedModel_GenericIO_T60S_FSCH2_ValSPG12_setVal : addr := 510%positive.
Definition iedModel_GenericIO_T60S_FSCH2_ValSPG13 : addr := 511%positive.
Definition iedModel_GenericIO_T60S_FSCH2_ValSPG13_setVal : addr := 512%positive.
Definition iedModel_GenericIO_T60S_FSCH2_ValSPG14 : addr := 513%positive.
Definition iedModel_GenericIO_T60S_FSCH2_ValSPG14_setVal : addr := 514%positive.
Definition iedModel_GenericIO_T60S_FSCH2_ValSPG15 : addr := 515%positive.
Definition iedModel_GenericIO_T60S_FSCH2_ValSPG15_setVal : addr := 516%positive.
Definition iedModel_GenericIO_T60S_FSCH2_ValSPG16 : addr := 517%positive.
Definition iedModel_GenericIO_T60S_FSCH2_ValSPG16_setVal : addr := 518%positive.
Definition iedModel_GenericIO_T60S_FSCH2_ValSPG17 : addr := 519%positive.
Definition iedModel_GenericIO_T60S_FSCH2_ValSPG17_setVal : addr := 520%positive.
Definition iedModel_GenericIO_T60S_FSCH2_ValSPG18 : addr := 521%positive.
Definition iedModel_GenericIO_T60S_FSCH2_ValSPG18_setVal : addr := 522%positive.
Definition iedModel_GenericIO_T60S_FSCH2_ValSPG19 : addr := 523%positive.
Definition iedModel_GenericIO_T60S_FSCH2_ValSPG19_setVal : addr := 524%positive.
Definition iedModel_GenericIO_T60S_FSCH2_ValSPG20 : addr := 525%positive.
Definition iedModel_GenericIO_T60S_FSCH2_ValSPG20_setVal : addr := 526%positive.
Definition iedModel_GenericIO_T60S_FSCH2_ValSPG21 : addr := 527%positive.
Definition iedModel_GenericIO_T60S_FSCH2_ValSPG21_setVal : addr := 528%positive.
Definition iedModel_GenericIO_T60S_FSCH2_ValSPG22 : addr := 529%positive.
Definition iedModel_GenericIO_T60S_FSCH2_ValSPG22_setVal : addr := 530%positive.
Definition iedModel_GenericIO_T60S_FSCH2_ValSPG23 : addr := 531%positive.
Definition iedModel_GenericIO_T60S_FSCH2_ValSPG23_setVal : addr := 532%positive.
Definition iedModel_GenericIO_T60S_FSCH2_ValSPG24 : addr := 533%positive.
Definition iedModel_GenericIO_T60S_FSCH2_ValSPG24_setVal : addr := 534%positive.
Definition iedModel_GenericIO_T60S_FSCH2_ValSPG25 : addr := 535%positive.
Definition iedModel_GenericIO_T60S_FSCH2_ValSPG25_setVal : addr := 536%positive.
Definition iedModel_GenericIO_T60S_FSCH2_ValSPG26 : addr := 537%positive.
Definition iedModel_GenericIO_T60S_FSCH2_ValSPG26_setVal : addr := 538%positive.
Definition iedModel_GenericIO_T60S_FSCH2_ValSPG27 : addr := 539%positive.
Definition iedModel_GenericIO_T60S_FSCH2_ValSPG27_setVal : addr := 540%positive.
Definition iedModel_GenericIO_T60S_FSCH2_ValSPG28 : addr := 541%positive.
Definition iedModel_GenericIO_T60S_FSCH2_ValSPG28_setVal : addr := 542%positive.
Definition iedModel_GenericIO_T60S_FSCH2_ValSPG29 : addr := 543%positive.
Definition iedModel_GenericIO_T60S_FSCH2_ValSPG29_setVal : addr := 544%positive.
Definition iedModel_GenericIO_T60S_FSCH2_ValSPG30 : addr := 545%positive.
Definition iedModel_GenericIO_T60S_FSCH2_ValSPG30_setVal : addr := 546%positive.
Definition iedModel_GenericIO_T60S_FSCH2_ValSPG31 : addr := 547%positive.
Definition iedModel_GenericIO_T60S_FSCH2_ValSPG31_setVal : addr := 548%positive.
Definition iedModel_GenericIO_T60S_FSCH2_ValSPG32 : addr := 549%positive.
Definition iedModel_GenericIO_T60S_FSCH2_ValSPG32_setVal : addr := 550%positive.
Definition iedModel_GenericIO_T60S_FSCH2_ValSPG33 : addr := 551%positive.
Definition iedModel_GenericIO_T60S_FSCH2_ValSPG33_setVal : addr := 552%positive.
Definition iedModel_GenericIO_T60S_FSCH2_ValSPG34 : addr := 553%positive.
Definition iedModel_GenericIO_T60S_FSCH2_ValSPG34_setVal : addr := 554%positive.
Definition iedModel_GenericIO_T60S_FSCH2_ValSPG35 : addr := 555%positive.
Definition iedModel_GenericIO_T60S_FSCH2_ValSPG35_setVal : addr := 556%positive.
Definition iedModel_GenericIO_T60S_FSCH2_ValSPG36 : addr := 557%positive.
Definition iedModel_GenericIO_T60S_FSCH2_ValSPG36_setVal : addr := 558%positive.
Definition iedModel_GenericIO_T60S_FSCH2_ValSPG37 : addr := 559%positive.
Definition iedModel_GenericIO_T60S_FSCH2_ValSPG37_setVal : addr := 560%positive.
Definition iedModel_GenericIO_T60S_FSCH2_ValSPG38 : addr := 561%positive.
Definition iedModel_GenericIO_T60S_FSCH2_ValSPG38_setVal : addr := 562%positive.
Definition iedModel_GenericIO_T60S_FSCH2_ValSPG39 : addr := 563%positive.
Definition iedModel_GenericIO_T60S_FSCH2_ValSPG39_setVal : addr := 564%positive.
Definition iedModel_GenericIO_T60S_FSCH2_ValSPG40 : addr := 565%positive.
Definition iedModel_GenericIO_T60S_FSCH2_ValSPG40_setVal : addr := 566%positive.
Definition iedModel_GenericIO_T60S_FSCH2_ValSPG41 : addr := 567%positive.
Definition iedModel_GenericIO_T60S_FSCH2_ValSPG41_setVal : addr := 568%positive.
Definition iedModel_GenericIO_T60S_FSCH2_ValSPG42 : addr := 569%positive.
Definition iedModel_GenericIO_T60S_FSCH2_ValSPG42_setVal : addr := 570%positive.
Definition iedModel_GenericIO_T60S_FSCH2_ValSPG43 : addr := 571%positive.
Definition iedModel_GenericIO_T60S_FSCH2_ValSPG43_setVal : addr := 572%positive.
Definition iedModel_GenericIO_T60S_FSCH2_ValSPG44 : addr := 573%positive.
Definition iedModel_GenericIO_T60S_FSCH2_ValSPG44_setVal : addr := 574%positive.
Definition iedModel_GenericIO_T60S_FSCH2_ValSPG45 : addr := 575%positive.
Definition iedModel_GenericIO_T60S_FSCH2_ValSPG45_setVal : addr := 576%positive.
Definition iedModel_GenericIO_T60S_FSCH2_ValSPG46 : addr := 577%positive.
Definition iedModel_GenericIO_T60S_FSCH2_ValSPG46_setVal : addr := 578%positive.
Definition iedModel_GenericIO_T60S_FSCH2_ValSPG47 : addr := 579%positive.
Definition iedModel_GenericIO_T60S_FSCH2_ValSPG47_setVal : addr := 580%positive.
Definition iedModel_GenericIO_T60S_FSCH2_ValSPG48 : addr := 581%positive.
Definition iedModel_GenericIO_T60S_FSCH2_ValSPG48_setVal : addr := 582%positive.
Definition iedModel_GenericIO_T60S_FSCH2_ValSPG49 : addr := 583%positive.
Definition iedModel_GenericIO_T60S_FSCH2_ValSPG49_setVal : addr := 584%positive.
Definition iedModel_GenericIO_T60S_FSCH2_ValSPG50 : addr := 585%positive.
Definition iedModel_GenericIO_T60S_FSCH2_ValSPG50_setVal : addr := 586%positive.
Definition iedModel_GenericIO_T60S_FSCH2_ValSPG51 : addr := 587%positive.
Definition iedModel_GenericIO_T60S_FSCH2_ValSPG51_setVal : addr := 588%positive.
Definition iedModel_GenericIO_T60S_FSCH2_ValSPG52 : addr := 589%positive.
Definition iedModel_GenericIO_T60S_FSCH2_ValSPG52_setVal : addr := 590%positive.
Definition iedModel_GenericIO_T60S_FSCH2_ValSPG53 : addr := 591%positive.
Definition iedModel_GenericIO_T60S_FSCH2_ValSPG53_setVal : addr := 592%positive.
Definition iedModel_GenericIO_T60S_FSCH2_ValSPG54 : addr := 593%positive.
Definition iedModel_GenericIO_T60S_FSCH2_ValSPG54_setVal : addr := 594%positive.
Definition iedModel_GenericIO_T60S_FSCH2_ValSPG55 : addr := 595%positive.
Definition iedModel_GenericIO_T60S_FSCH2_ValSPG55_setVal : addr := 596%positive.
Definition iedModel_GenericIO_T60S_FSCH2_ValSPG56 : addr := 597%positive.
Definition iedModel_GenericIO_T60S_FSCH2_ValSPG56_setVal : addr := 598%positive.
Definition iedModel_GenericIO_T60S_FSCH2_ValSPG57 : addr := 599%positive.
Definition iedModel_GenericIO_T60S_FSCH2_ValSPG57_setVal : addr := 600%positive.
Definition iedModel_GenericIO_T60S_FSCH2_ValSPG58 : addr := 601%positive.
Definition iedModel_GenericIO_T60S_FSCH2_ValSPG58_setVal : addr := 602%positive.
Definition iedModel_GenericIO_T60S_FSCH2_ValSPG59 : addr := 603%positive.
Definition iedModel_GenericIO_T60S_FSCH2_ValSPG59_setVal : addr := 604%positive.
Definition iedModel_GenericIO_T60S_FSCH2_ValSPG60 : addr := 605%positive.
Definition iedModel_GenericIO_T60S_FSCH2_ValSPG60_setVal : addr := 606%positive.
Definition iedModel_GenericIO_T60S_FSCH2_StrTm : addr := 607%positive.
Definition iedModel_GenericIO_T60S_FSCH2_StrTm_setTm : addr := 608%positive.
Definition iedModel_GenericIO_T60S_FSCH2_StrTm_setCal : addr := 609%positive.
Definition iedModel_GenericIO_T60S_FSCH2_StrTm_setCal_occ : addr := 610%positive.
Definition iedModel_GenericIO_T60S_FSCH2_StrTm_setCal_occType : addr := 611%positive.
Definition iedModel_GenericIO_T60S_FSCH2_StrTm_setCal_occPer : addr := 612%positive.
Definition iedModel_GenericIO_T60S_FSCH2_StrTm_setCal_weekDay : addr := 613%positive.
Definition iedModel_GenericIO_T60S_FSCH2_StrTm_setCal_month : addr := 614%positive.
Definition iedModel_GenericIO_T60S_FSCH2_StrTm_setCal_day : addr := 615%positive.
Definition iedModel_GenericIO_T60S_FSCH2_StrTm_setCal_hr : addr := 616%positive.
Definition iedModel_GenericIO_T60S_FSCH2_StrTm_setCal_mn : addr := 617%positive.
Definition iedModel_GenericIO_T60S_FSCH2_IntvPer : addr := 618%positive.
Definition iedModel_GenericIO_T60S_FSCH2_IntvPer_setVal : addr := 619%positive.
Definition iedModel_GenericIO_T60S_FSCH2_IntvTyp : addr := 620%positive.
Definition iedModel_GenericIO_T60S_FSCH2_IntvTyp_setVal : addr := 621%positive.
Definition iedModel_GenericIO_T60S_FSCH2_SchdReuse : addr := 622%positive.
Definition iedModel_GenericIO_T60S_FSCH2_SchdReuse_setVal : addr := 623%positive.
Definition iedModel_GenericIO_GGIO_FSCC1 : addr := 624%positive.
Definition iedModel_GenericIO_GGIO_FSCC1_Beh : addr := 625%positive.
Definition iedModel_GenericIO_GGIO_FSCC1_Beh_stVal : addr := 626%positive.
Definition iedModel_GenericIO_GGIO_FSCC1_Beh_q : addr := 627%positive.
Definition iedModel_GenericIO_GGIO_FSCC1_Beh_t : addr := 628%positive.
Definition iedModel_GenericIO_GGIO_FSCC1_ActSchdRef : addr := 629%positive.
Definition iedModel_GenericIO_GGIO_FSCC1_ActSchdRef_stVal : addr := 630%positive.
Definition iedModel_GenericIO_GGIO_FSCC1_ActSchdRef_q : addr := 631%positive.
Definition iedModel_GenericIO_GGIO_FSCC1_ActSchdRef_t : addr := 632%positive.
Definition iedModel_GenericIO_GGIO_FSCC1_CtlEnt : addr := 633%positive.
Definition iedModel_GenericIO_GGIO_FSCC1_CtlEnt_setSrcRef : addr := 634%positive.
Definition iedModel_GenericIO_GGIO_FSCC1_Schd1 : addr := 635%positive.
Definition iedModel_GenericIO_GGIO_FSCC1_Schd1_setSrcRef : addr := 636%positive.
Definition iedModel_GenericIO_GGIO_FSCC1_Schd2 : addr := 637%positive.
Definition iedModel_GenericIO_GGIO_FSCC1_Schd2_setSrcRef : addr := 638%positive.
Definition iedModelds_GenericIO_LLN0_Events_fcda0 : addr := 639%positive.
Definition iedModelds_GenericIO_LLN0_Events_fcda1 : addr := 640%positive.
Definition iedModelds_GenericIO_LLN0_Events_fcda2 : addr := 641%positive.
Definition iedModelds_GenericIO_LLN0_Events_fcda3 : addr := 642%positive.
Definition iedModelds_GenericIO_LLN0_Events : addr := 643%positive.
Definition iedModel_GenericIO_LLN0_report0 : addr := 644%positive.
Definition iedModel_GenericIO_LLN0_report1 : addr := 645%positive.
Definition iedModel_GenericIO_LLN0_report2 : addr := 646%positive.
Definition iedModel_GenericIO_LLN0_report3 : addr := 647%positive.
Definition iedModel_GenericIO_LLN0_report4 : addr := 648%positive.

(** ** The tree of nodes *)

Definition GenericIO_device : list (addr * ModelNode) := [
  (iedModel_GenericIO,
   LogicalDevice "GenericIO" &iedModel NULL &iedModel_GenericIO_LLN0 NULL)
].

Definition GenericIO_LLN0_nodes1 : list (addr * ModelNode) := [
  (iedModel_GenericIO_LLN0,
   LogicalNode "LLN0" &iedModel_GenericIO &iedModel_GenericIO_LPHD1 &iedModel_GenericIO_LLN0_Beh);
  (iedModel_GenericIO_LLN0_Beh,
   DataObject "Beh" &iedModel_GenericIO_LLN0 &iedModel_GenericIO_LLN0_Mod &iedModel_GenericIO_LLN0_Beh_stVal 0 (-1));
  (iedModel_GenericIO_LLN0_Beh_stVal,
   DataAttribute (Some "stVal") &iedModel_GenericIO_LLN0_Beh &iedModel_GenericIO_LLN0_Beh_q NULL 0 (-1) IEC61850_FC_ST IEC61850_ENUMERATED
     (0 + TRG_OPT_DATA_CHANGED) NULL 0);
  (iedModel_GenericIO_LLN0_Beh_q,
   DataAttribute (Some "q") &iedModel_GenericIO_LLN0_Beh &iedModel_GenericIO_LLN0_Beh_t NULL 0 (-1) IEC61850_FC_ST IEC61850_QUALITY
     (0 + TRG_OPT_QUALITY_CHANGED) NULL 0);
  (iedModel_GenericIO_LLN0_Beh_t,
   DataAttribute (Some "t") &iedModel_GenericIO_LLN0_Beh NULL NULL 0 (-1) IEC61850_FC_ST IEC61850_TIMESTAMP
     0 NULL 0);
  (iedModel_GenericIO_LLN0_Mod,
   DataObject "Mod" &iedModel_GenericIO_LLN0 &iedModel_GenericIO_LLN0_Health &iedModel_GenericIO_LLN0_Mod_stVal 0 (-1));
  (iedModel_GenericIO_LLN0_Mod_stVal,
   DataAttribute (Some "stVal") &iedModel_GenericIO_LLN0_Mod &iedModel_GenericIO_LLN0_Mod_q NULL 0 (-1) IEC61850_FC_ST IEC61850_ENUMERATED
     (0 + TRG_OPT_DATA_CHANGED) NULL 0);
  (iedModel_GenericIO_LLN0_Mod_q,
   DataAttribute (Some "q") &iedModel_GenericIO_LLN0_Mod &iedModel_GenericIO_LLN0_Mod_t NULL 0 (-1) IEC61850_FC_ST IEC61850_QUALITY
     (0 + TRG_OPT_QUALITY_CHANGED) NULL 0);
  (iedModel_GenericIO_LLN0_Mod_t,
   DataAttribute (Some "t") &iedModel_GenericIO_LLN0_Mod &iedModel_GenericIO_LLN0_Mod_ctlModel NULL 0 (-1) IEC61850_FC_ST IEC61850_TIMESTAMP
     0 NULL 0);
  (iedModel_GenericIO_LLN0_Mod_ctlModel,
   DataAttribute (Some "ctlModel") &iedModel_GenericIO_LLN0_Mod NULL NULL 0 (-1) IEC61850_FC_CF IEC61850_ENUMERATED
     0 NULL 0)
].

Definition GenericIO_LLN0_nodes2 : list (addr * ModelNode) := [
  (iedModel_GenericIO_LLN0_Health,
   DataObject "Health" &iedModel_GenericIO_LLN0 &iedModel_GenericIO_LLN0_NamPlt &iedModel_GenericIO_LLN0_Health_stVal 0 (-1));
  (iedModel_GenericIO_LLN0_Health_stVal,
   DataAttribute (Some "stVal") &iedModel_GenericIO_LLN0_Health &iedModel_GenericIO_LLN0_Health_q NULL 0 (-1) IEC61850_FC_ST IEC61850_ENUMERATED
     (0 + TRG_OPT_DATA_CHANGED) NULL 0);
  (iedModel_GenericIO_LLN0_Health_q,
   DataAttribute (Some "q") &iedModel_GenericIO_LLN0_Health &iedModel_GenericIO_LLN0_Health_t NULL 0 (-1) IEC61850_FC_ST IEC61850_QUALITY
     (0 + TRG_OPT_QUALITY_CHANGED) NULL 0);
  (iedModel_GenericIO_LLN0_Health_t,
   DataAttribute (Some "t") &iedModel_GenericIO_LLN0_Health NULL NULL 0 (-1) IEC61850_FC_ST IEC61850_TIMESTAMP
     0 NULL 0);
  (iedModel_GenericIO_LLN0_NamPlt,
   DataObject "NamPlt" &iedModel_GenericIO_LLN0 NULL &iedModel_GenericIO_LLN0_NamPlt_vendor 0 (-1));
  (iedModel_GenericIO_LLN0_NamPlt_vendor,
   DataAttribute (Some "vendor") &iedModel_GenericIO_LLN0_NamPlt &iedModel_GenericIO_LLN0_NamPlt_swRev NULL 0 (-1) IEC61850_FC_DC IEC61850_VISIBLE_STRING_255
     0 NULL 0);
  (iedModel_GenericIO_LLN0_NamPlt_swRev,
   DataAttribute (Some "swRev") &iedModel_GenericIO_LLN0_NamPlt &iedModel_GenericIO_LLN0_NamPlt_d NULL 0 (-1) IEC61850_FC_DC IEC61850_VISIBLE_STRING_255
     0 NULL 0);
  (iedModel_GenericIO_LLN0_NamPlt_d,
   DataAttribute (Some "d") &iedModel_GenericIO_LLN0_NamPlt &iedModel_GenericIO_LLN0_NamPlt_configRev NULL 0 (-1) IEC61850_FC_DC IEC61850_VISIBLE_STRING_255
     0 NULL 0);
  (iedModel_GenericIO_LLN0_NamPlt_configRev,
   DataAttribute (Some "configRev") &iedModel_GenericIO_LLN0_NamPlt &iedModel_GenericIO_LLN0_NamPlt_ldNs NULL 0 (-1) IEC61850_FC_DC IEC61850_VISIBLE_STRING_255
     0 NULL 0);
  (iedModel_GenericIO_LLN0_NamPlt_ldNs,
   DataAttribute (Some "ldNs") &iedModel_GenericIO_LLN0_NamPlt NULL NULL 0 (-1) IEC61850_FC_EX IEC61850_VISIBLE_STRING_255
     0 NULL 0)
].

Definition GenericIO_LPHD1_nodes1 : list (addr * ModelNode) := [
  (iedModel_GenericIO_LPHD1,
   LogicalNode "LPHD1" &iedModel_GenericIO &iedModel_GenericIO_GGIO1 &iedModel_GenericIO_LPHD1_PhyNam);
  (iedModel_GenericIO_LPHD1_PhyNam,
   DataObject "PhyNam" &iedModel_GenericIO_LPHD1 &iedModel_GenericIO_LPHD1_PhyHealth &iedModel_GenericIO_LPHD1_PhyNam_vendor 0 (-1));
  (iedModel_GenericIO_LPHD1_PhyNam_vendor,
   DataAttribute (Some "vendor") &iedModel_GenericIO_LPHD1_PhyNam NULL NULL 0 (-1) IEC61850_FC_DC IEC61850_VISIBLE_STRING_255
     0 NULL 0);
  (iedModel_GenericIO_LPHD1_PhyHealth,
   DataObject "PhyHealth" &iedModel_GenericIO_LPHD1 &iedModel_GenericIO_LPHD1_Proxy &iedModel_GenericIO_LPHD1_PhyHealth_stVal 0 (-1));
  (iedModel_GenericIO_LPHD1_PhyHealth_stVal,
   DataAttribute (Some "stVal") &iedModel_GenericIO_LPHD1_PhyHealth &iedModel_GenericIO_LPHD1_PhyHealth_q NULL 0 (-1) IEC61850_FC_ST IEC61850_ENUMERATED
     (0 + TRG_OPT_DATA_CHANGED) NULL 0);
  (iedModel_GenericIO_LPHD1_PhyHealth_q,
   DataAttribute (Some "q") &iedModel_GenericIO_LPHD1_PhyHealth &iedModel_GenericIO_LPHD1_PhyHealth_t NULL 0 (-1) IEC61850_FC_ST IEC61850_QUALITY
     (0 + TRG_OPT_QUALITY_CHANGED) NULL 0);
  (iedModel_GenericIO_LPHD1_PhyHealth_t,
   DataAttribute (Some "t") &iedModel_GenericIO_LPHD1_PhyHealth NULL NULL 0 (-1) IEC61850_FC_ST IEC61850_TIMESTAMP
     0 NULL 0);
  (iedModel_GenericIO_LPHD1_Proxy,
   DataObject "Proxy" &iedModel_GenericIO_LPHD1 NULL &iedModel_GenericIO_LPHD1_Proxy_stVal 0 (-1));
  (iedModel_GenericIO_LPHD1_Proxy_stVal,
   DataAttribute (Some "stVal") &iedModel_GenericIO_LPHD1_Proxy &iedModel_GenericIO_LPHD1_Proxy_q NULL 0 (-1) IEC61850_FC_ST IEC61850_BOOLEAN
     (0 + TRG_OPT_DATA_CHANGED) NULL 0);
  (iedModel_GenericIO_LPHD1_Proxy_q,
   DataAttribute (Some "q") &iedModel_GenericIO_LPHD1_Proxy &iedModel_GenericIO_LPHD1_Proxy_t NULL 0 (-1) IEC61850_FC_ST IEC61850_QUALITY
     (0 + TRG_OPT_QUALITY_CHANGED) NULL 0);
  (iedModel_GenericIO_LPHD1_Proxy_t,
   DataAttribute (Some "t") &iedModel_GenericIO_LPHD1_Proxy NULL NULL 0 (-1) IEC61850_FC_ST IEC61850_TIMESTAMP
     0 NULL 0)
].

Definition GenericIO_GGIO1_nodes1 : list (addr * ModelNode) := [
  (iedModel_GenericIO_GGIO1,
   LogicalNode "GGIO1" &iedModel_GenericIO &iedModel_GenericIO_TIM_GAPC1 &iedModel_GenericIO_GGIO1_Beh);
  (iedModel_GenericIO_GGIO1_Beh,
   DataObject "Beh" &iedModel_GenericIO_GGIO1 &iedModel_GenericIO_GGIO1_Mod &iedModel_GenericIO_GGIO1_Beh_stVal 0 (-1));
  (iedModel_GenericIO_GGIO1_Beh_stVal,
   DataAttribute (Some "stVal") &iedModel_GenericIO_GGIO1_Beh &iedModel_GenericIO_GGIO1_Beh_q NULL 0 (-1) IEC61850_FC_ST IEC61850_ENUMERATED
     (0 + TRG_OPT_DATA_CHANGED) NULL 0);
  (iedModel_GenericIO_GGIO1_Beh_q,
   DataAttribute (Some "q") &iedModel_GenericIO_GGIO1_Beh &iedModel_GenericIO_GGIO1_Beh_t NULL 0 (-1) IEC61850_FC_ST IEC61850_QUALITY
     (0 + TRG_OPT_QUALITY_CHANGED) NULL 0);
  (iedModel_GenericIO_GGIO1_Beh_t,
   DataAttribute (Some "t") &iedModel_GenericIO_GGIO1_Beh NULL NULL 0 (-1) IEC61850_FC_ST IEC61850_TIMESTAMP
     0 NULL 0);
  (iedModel_GenericIO_GGIO1_Mod,
   DataObject "Mod" &iedModel_GenericIO_GGIO1 &iedModel_GenericIO_GGIO1_Health &iedModel_GenericIO_GGIO1_Mod_stVal 0 (-1));
  (iedModel_GenericIO_GGIO1_Mod_stVal,
   DataAttribute (Some "stVal") &iedModel_GenericIO_GGIO1_Mod &iedModel_GenericIO_GGIO1_Mod_q NULL 0 (-1) IEC61850_FC_ST IEC61850_ENUMERATED
     (0 + TRG_OPT_DATA_CHANGED) NULL 0);
  (iedModel_GenericIO_GGIO1_Mod_q,
   DataAttribute (Some "q") &iedModel_GenericIO_GGIO1_Mod &iedModel_GenericIO_GGIO1_Mod_t NULL 0 (-1) IEC61850_FC_ST IEC61850_QUALITY
     (0 + TRG_OPT_QUALITY_CHANGED) NULL 0);
  (iedModel_GenericIO_GGIO1_Mod_t,
   DataAttribute (Some "t") &iedModel_GenericIO_GGIO1_Mod &iedModel_GenericIO_GGIO1_Mod_ctlModel NULL 0 (-1) IEC61850_FC_ST IEC61850_TIMESTAMP
     0 NULL 0);
  (iedModel_GenericIO_GGIO1_Mod_ctlModel,
   DataAttribute (Some "ctlModel") &iedModel_GenericIO_GGIO1_Mod NULL NULL 0 (-1) IEC61850_FC_CF IEC61850_ENUMERATED
     0 NULL 0)
].

Definition GenericIO_GGIO1_nodes2 : list (addr * ModelNode) := [
  (iedModel_GenericIO_GGIO1_Health,
   DataObject "Health" &iedModel_GenericIO_GGIO1 &iedModel_GenericIO_GGIO1_NamPlt &iedModel_GenericIO_GGIO1_Health_stVal 0 (-1));
  (iedModel_GenericIO_GGIO1_Health_stVal,
   DataAttribute (Some "stVal") &iedModel_GenericIO_GGIO1_Health &iedModel_GenericIO_GGIO1_Health_q NULL 0 (-1) IEC61850_FC_ST IEC61850_ENUMERATED
     (0 + TRG_OPT_DATA_CHANGED) NULL 0);
  (iedModel_GenericIO_GGIO1_Health_q,
   DataAttribute (Some "q") &iedModel_GenericIO_GGIO1_Health &iedModel_GenericIO_GGIO1_Health_t NULL 0 (-1) IEC61850_FC_ST IEC61850_QUALITY
     (0 + TRG_OPT_QUALITY_CHANGED) NULL 0);
  (iedModel_GenericIO_GGIO1_Health_t,
   DataAttribute (Some "t") &iedModel_GenericIO_GGIO1_Health NULL NULL 0 (-1) IEC61850_FC_ST IEC61850_TIMESTAMP
     0 NULL 0);
  (iedModel_GenericIO_GGIO1_NamPlt,
   DataObject "NamPlt" &iedModel_GenericIO_GGIO1 &iedModel_GenericIO_GGIO1_AnIn1 &iedModel_GenericIO_GGIO1_NamPlt_vendor 0 (-1));
  (iedModel_GenericIO_GGIO1_NamPlt_vendor,
   DataAttribute (Some "vendor") &iedModel_GenericIO_GGIO1_NamPlt &iedModel_GenericIO_GGIO1_NamPlt_swRev NULL 0 (-1) IEC61850_FC_DC IEC61850_VISIBLE_STRING_255
     0 NULL 0);
  (iedModel_GenericIO_GGIO1_NamPlt_swRev,
   DataAttribute (Some "swRev") &iedModel_GenericIO_GGIO1_NamPlt &iedModel_GenericIO_GGIO1_NamPlt_d NULL 0 (-1) IEC61850_FC_DC IEC61850_VISIBLE_STRING_255
     0 NULL 0);
  (iedModel_GenericIO_GGIO1_NamPlt_d,
   DataAttribute (Some "d") &iedModel_GenericIO_GGIO1_NamPlt NULL NULL 0 (-1) IEC61850_FC_DC IEC61850_VISIBLE_STRING_255
     0 NULL 0)
].

Definition GenericIO_GGIO1_nodes3 : list (addr * ModelNode) := [
  (iedModel_GenericIO_GGIO1_AnIn1,
   DataObject "AnIn1" &iedModel_GenericIO_GGIO1 &iedModel_GenericIO_GGIO1_AnIn2 &iedModel_GenericIO_GGIO1_AnIn1_mag 0 (-1));
  (iedModel_GenericIO_GGIO1_AnIn1_mag,
   DataAttribute (Some "mag") &iedModel_GenericIO_GGIO1_AnIn1 &iedModel_GenericIO_GGIO1_AnIn1_q &iedModel_GenericIO_GGIO1_AnIn1_mag_f 0 (-1) IEC61850_FC_MX IEC61850_CONSTRUCTED
     (0 + TRG_OPT_DATA_CHANGED) NULL 0);
  (iedModel_GenericIO_GGIO1_AnIn1_mag_f,
   DataAttribute (Some "f") &iedModel_GenericIO_GGIO1_AnIn1_mag NULL NULL 0 (-1) IEC61850_FC_MX IEC61850_FLOAT32
     (0 + TRG_OPT_DATA_CHANGED) NULL 0);
  (iedModel_GenericIO_GGIO1_AnIn1_q,
   DataAttribute (Some "q") &iedModel_GenericIO_GGIO1_AnIn1 &iedModel_GenericIO_GGIO1_AnIn1_t NULL 0 (-1) IEC61850_FC_MX IEC61850_QUALITY
     (0 + TRG_OPT_QUALITY_CHANGED) NULL 0);
  (iedModel_GenericIO_GGIO1_AnIn1_t,
   DataAttribute (Some "t") &iedModel_GenericIO_GGIO1_AnIn1 NULL NULL 0 (-1) IEC61850_FC_MX IEC61850_TIMESTAMP
     0 NULL 0);
  (iedModel_GenericIO_GGIO1_AnIn2,
   DataObject "AnIn2" &iedModel_GenericIO_GGIO1 &iedModel_GenericIO_GGIO1_AnIn3 &iedModel_GenericIO_GGIO1_AnIn2_mag 0 (-1));
  (iedModel_GenericIO_GGIO1_AnIn2_mag,
   DataAttribute (Some "mag") &iedModel_GenericIO_GGIO1_AnIn2 &iedModel_GenericIO_GGIO1_AnIn2_q &iedModel_GenericIO_GGIO1_AnIn2_mag_f 0 (-1) IEC61850_FC_MX IEC61850_CONSTRUCTED
     (0 + TRG_OPT_DATA_CHANGED) NULL 0);
  (iedModel_GenericIO_GGIO1_AnIn2_mag_f,
   DataAttribute (Some "f") &iedModel_GenericIO_GGIO1_AnIn2_mag NULL NULL 0 (-1) IEC61850_FC_MX IEC61850_FLOAT32
     (0 + TRG_OPT_DATA_CHANGED) NULL 0);
  (iedModel_GenericIO_GGIO1_AnIn2_q,
   DataAttribute (Some "q") &iedModel_GenericIO_GGIO1_AnIn2 &iedModel_GenericIO_GGIO1_AnIn2_t NULL 0 (-1) IEC61850_FC_MX IEC61850_QUALITY
     (0 + TRG_OPT_QUALITY_CHANGED) NULL 0);
  (iedModel_GenericIO_GGIO1_AnIn2_t,
   DataAttribute (Some "t") &iedModel_GenericIO_GGIO1_AnIn2 NULL NULL 0 (-1) IEC61850_FC_MX IEC61850_TIMESTAMP
     0 NULL 0)
].

Definition GenericIO_GGIO1_nodes4 : list (addr * ModelNode) := [
  (iedModel_GenericIO_GGIO1_AnIn3,
   DataObject "AnIn3" &iedModel_GenericIO_GGIO1 &iedModel_GenericIO_GGIO1_AnIn4 &iedModel_GenericIO_GGIO1_AnIn3_mag 0 (-1));
  (iedModel_GenericIO_GGIO1_AnIn3_mag,
   DataAttribute (Some "mag") &iedModel_GenericIO_GGIO1_AnIn3 &iedModel_GenericIO_GGIO1_AnIn3_q &iedModel_GenericIO_GGIO1_AnIn3_mag_f 0 (-1) IEC61850_FC_MX IEC61850_CONSTRUCTED
     (0 + TRG_OPT_DATA_CHANGED) NULL 0);
  (iedModel_GenericIO_GGIO1_AnIn3_mag_f,
   DataAttribute (Some "f") &iedModel_GenericIO_GGIO1_AnIn3_mag NULL NULL 0 (-1) IEC61850_FC_MX IEC61850_FLOAT32
     (0 + TRG_OPT_DATA_CHANGED) NULL 0);
  (iedModel_GenericIO_GGIO1_AnIn3_q,
   DataAttribute (Some "q") &iedModel_GenericIO_GGIO1_AnIn3 &iedModel_GenericIO_GGIO1_AnIn3_t NULL 0 (-1) IEC61850_FC_MX IEC61850_QUALITY
     (0 + TRG_OPT_QUALITY_CHANGED) NULL 0);
  (iedModel_GenericIO_GGIO1_AnIn3_t,
   DataAttribute (Some "t") &iedModel_GenericIO_GGIO1_AnIn3 NULL NULL 0 (-1) IEC61850_FC_MX IEC61850_TIMESTAMP
     0 NULL 0);
  (iedModel_GenericIO_GGIO1_AnIn4,
   DataObject "AnIn4" &iedModel_GenericIO_GGIO1 &iedModel_GenericIO_GGIO1_SPCSO1 &iedModel_GenericIO_GGIO1_AnIn4_mag 0 (-1));
  (iedModel_GenericIO_GGIO1_AnIn4_mag,
   DataAttribute (Some "mag") &iedModel_GenericIO_GGIO1_AnIn4 &iedModel_GenericIO_GGIO1_AnIn4_q &iedModel_GenericIO_GGIO1_AnIn4_mag_f 0 (-1) IEC61850_FC_MX IEC61850_CONSTRUCTED
     (0 + TRG_OPT_DATA_CHANGED) NULL 0);
  (iedModel_GenericIO_GGIO1_AnIn4_mag_f,
   DataAttribute (Some "f") &iedModel_GenericIO_GGIO1_AnIn4_mag NULL NULL 0 (-1) IEC61850_FC_MX IEC61850_FLOAT32
     (0 + TRG_OPT_DATA_CHANGED) NULL 0);
  (iedModel_GenericIO_GGIO1_AnIn4_q,
   DataAttribute (Some "q") &iedModel_GenericIO_GGIO1_AnIn4 &iedModel_GenericIO_GGIO1_AnIn4_t NULL 0 (-1) IEC61850_FC_MX IEC61850_QUALITY
     (0 + TRG_OPT_QUALITY_CHANGED) NULL 0);
  (iedModel_GenericIO_GGIO1_AnIn4_t,
   DataAttribute (Some "t") &iedModel_GenericIO_GGIO1_AnIn4 NULL NULL 0 (-1) IEC61850_FC_MX IEC61850_TIMESTAMP
     0 NULL 0)
].

Definition GenericIO_GGIO1_nodes5 : list (addr * ModelNode) := [
  (iedModel_GenericIO_GGIO1_SPCSO1,
   DataObject "SPCSO1" &iedModel_GenericIO_GGIO1 &iedModel_GenericIO_GGIO1_SPCSO2 &iedModel_GenericIO_GGIO1_SPCSO1_stVal 0 (-1));
  (iedModel_GenericIO_GGIO1_SPCSO1_stVal,
   DataAttribute (Some "stVal") &iedModel_GenericIO_GGIO1_SPCSO1 &iedModel_GenericIO_GGIO1_SPCSO1_q NULL 0 (-1) IEC61850_FC_ST IEC61850_BOOLEAN
     (0 + TRG_OPT_DATA_CHANGED) NULL 0);
  (iedModel_GenericIO_GGIO1_SPCSO1_q,
   DataAttribute (Some "q") &iedModel_GenericIO_GGIO1_SPCSO1 &iedModel_GenericIO_GGIO1_SPCSO1_Oper NULL 0 (-1) IEC61850_FC_ST IEC61850_QUALITY
     (0 + TRG_OPT_QUALITY_CHANGED) NULL 0);
  (iedModel_GenericIO_GGIO1_SPCSO1_Oper,
   DataAttribute (Some "Oper") &iedModel_GenericIO_GGIO1_SPCSO1 &iedModel_GenericIO_GGIO1_SPCSO1_ctlModel &iedModel_GenericIO_GGIO1_SPCSO1_Oper_ctlVal 0 (-1) IEC61850_FC_CO IEC61850_CONSTRUCTED
     0 NULL 0);
  (iedModel_GenericIO_GGIO1_SPCSO1_Oper_ctlVal,
   DataAttribute (Some "ctlVal") &iedModel_GenericIO_GGIO1_SPCSO1_Oper &iedModel_GenericIO_GGIO1_SPCSO1_Oper_origin NULL 0 (-1) IEC61850_FC_CO IEC61850_BOOLEAN
     0 NULL 0);
  (iedModel_GenericIO_GGIO1_SPCSO1_Oper_origin,
   DataAttribute (Some "origin") &iedModel_GenericIO_GGIO1_SPCSO1_Oper &iedModel_GenericIO_GGIO1_SPCSO1_Oper_ctlNum &iedModel_GenericIO_GGIO1_SPCSO1_Oper_origin_orCat 0 (-1) IEC61850_FC_CO IEC61850_CONSTRUCTED
     0 NULL 0);
  (iedModel_GenericIO_GGIO1_SPCSO1_Oper_origin_orCat,
   DataAttribute (Some "orCat") &iedModel_GenericIO_GGIO1_SPCSO1_Oper_origin &iedModel_GenericIO_GGIO1_SPCSO1_Oper_origin_orIdent NULL 0 (-1) IEC61850_FC_CO IEC61850_ENUMERATED
     0 NULL 0);
  (iedModel_GenericIO_GGIO1_SPCSO1_Oper_origin_orIdent,
   DataAttribute (Some "orIdent") &iedModel_GenericIO_GGIO1_SPCSO1_Oper_origin NULL NULL 0 (-1) IEC61850_FC_CO IEC61850_OCTET_STRING_64
     0 NULL 0);
  (iedModel_GenericIO_GGIO1_SPCSO1_Oper_ctlNum,
   DataAttribute (Some "ctlNum") &iedModel_GenericIO_GGIO1_SPCSO1_Oper &iedModel_GenericIO_GGIO1_SPCSO1_Oper_T NULL 0 (-1) IEC61850_FC_CO IEC61850_INT8U
     0 NULL 0);
  (iedModel_GenericIO_GGIO1_SPCSO1_Oper_T,
   DataAttribute (Some "T") &iedModel_GenericIO_GGIO1_SPCSO1_Oper &iedModel_GenericIO_GGIO1_SPCSO1_Oper_Test NULL 0 (-1) IEC61850_FC_CO IEC61850_TIMESTAMP
     0 NULL 0);
  (iedModel_GenericIO_GGIO1_SPCSO1_Oper_Test,
   DataAttribute (Some "Test") &iedModel_GenericIO_GGIO1_SPCSO1_Oper &iedModel_GenericIO_GGIO1_SPCSO1_Oper_Check NULL 0 (-1) IEC61850_FC_CO IEC61850_BOOLEAN
     0 NULL 0)
].

Definition GenericIO_GGIO1_nodes6 : list (addr * ModelNode) := [
  (iedModel_GenericIO_GGIO1_SPCSO1_Oper_Check,
   DataAttribute (Some "Check") &iedModel_GenericIO_GGIO1_SPCSO1_Oper NULL NULL 0 (-1) IEC61850_FC_CO IEC61850_CHECK
     0 NULL 0);
  (iedModel_GenericIO_GGIO1_SPCSO1_ctlModel,
   DataAttribute (Some "ctlModel") &iedModel_GenericIO_GGIO1_SPCSO1 &iedModel_GenericIO_GGIO1_SPCSO1_t NULL 0 (-1) IEC61850_FC_CF IEC61850_ENUMERATED
     0 NULL 0);
  (iedModel_GenericIO_GGIO1_SPCSO1_t,
   DataAttribute (Some "t") &iedModel_GenericIO_GGIO1_SPCSO1 NULL NULL 0 (-1) IEC61850_FC_ST IEC61850_TIMESTAMP
     0 NULL 0)
].

Definition GenericIO_GGIO1_nodes7 : list (addr * ModelNode) := [
  (iedModel_GenericIO_GGIO1_SPCSO2,
   DataObject "SPCSO2" &iedModel_GenericIO_GGIO1 &iedModel_GenericIO_GGIO1_SPCSO3 &iedModel_GenericIO_GGIO1_SPCSO2_stVal 0 (-1));
  (iedModel_GenericIO_GGIO1_SPCSO2_stVal,
   DataAttribute (Some "stVal") &iedModel_GenericIO_GGIO1_SPCSO2 &iedModel_GenericIO_GGIO1_SPCSO2_q NULL 0 (-1) IEC61850_FC_ST IEC61850_BOOLEAN
     (0 + TRG_OPT_DATA_CHANGED) NULL 0);
  (iedModel_GenericIO_GGIO1_SPCSO2_q,
   DataAttribute (Some "q") &iedModel_GenericIO_GGIO1_SPCSO2 &iedModel_GenericIO_GGIO1_SPCSO2_SBO NULL 0 (-1) IEC61850_FC_ST IEC61850_QUALITY
     (0 + TRG_OPT_QUALITY_CHANGED) NULL 0);
  (iedModel_GenericIO_GGIO1_SPCSO2_SBO,
   DataAttribute (Some "SBO") &iedModel_GenericIO_GGIO1_SPCSO2 &iedModel_GenericIO_GGIO1_SPCSO2_Oper NULL 0 (-1) IEC61850_FC_CO IEC61850_VISIBLE_STRING_129
     0 NULL 0);
  (iedModel_GenericIO_GGIO1_SPCSO2_Oper,
   DataAttribute (Some "Oper") &iedModel_GenericIO_GGIO1_SPCSO2 &iedModel_GenericIO_GGIO1_SPCSO2_Cancel &iedModel_GenericIO_GGIO1_SPCSO2_Oper_ctlVal 0 (-1) IEC61850_FC_CO IEC61850_CONSTRUCTED
     0 NULL 0);
  (iedModel_GenericIO_GGIO1_SPCSO2_Oper_ctlVal,
   DataAttribute (Some "ctlVal") &iedModel_GenericIO_GGIO1_SPCSO2_Oper &iedModel_GenericIO_GGIO1_SPCSO2_Oper_origin NULL 0 (-1) IEC61850_FC_CO IEC61850_BOOLEAN
     0 NULL 0);
  (iedModel_GenericIO_GGIO1_SPCSO2_Oper_origin,
   DataAttribute (Some "origin") &iedModel_GenericIO_GGIO1_SPCSO2_Oper &iedModel_GenericIO_GGIO1_SPCSO2_Oper_ctlNum &iedModel_GenericIO_GGIO1_SPCSO2_Oper_origin_orCat 0 (-1) IEC61850_FC_CO IEC61850_CONSTRUCTED
     0 NULL 0);
  (iedModel_GenericIO_GGIO1_SPCSO2_Oper_origin_orCat,
   DataAttribute (Some "orCat") &iedModel_GenericIO_GGIO1_SPCSO2_Oper_origin &iedModel_GenericIO_GGIO1_SPCSO2_Oper_origin_orIdent NULL 0 (-1) IEC61850_FC_CO IEC61850_ENUMERATED
     0 NULL 0);
  (iedModel_GenericIO_GGIO1_SPCSO2_Oper_origin_orIdent,
   DataAttribute (Some "orIdent") &iedModel_GenericIO_GGIO1_SPCSO2_Oper_origin NULL NULL 0 (-1) IEC61850_FC_CO IEC61850_OCTET_STRING_64
     0 NULL 0);
  (iedModel_GenericIO_GGIO1_SPCSO2_Oper_ctlNum,
   DataAttribute (Some "ctlNum") &iedModel_GenericIO_GGIO1_SPCSO2_Oper &iedModel_GenericIO_GGIO1_SPCSO2_Oper_T NULL 0 (-1) IEC61850_FC_CO IEC61850_INT8U
     0 NULL 0);
  (iedModel_GenericIO_GGIO1_SPCSO2_Oper_T,
   DataAttribute (Some "T") &iedModel_GenericIO_GGIO1_SPCSO2_Oper &iedModel_GenericIO_GGIO1_SPCSO2_Oper_Test NULL 0 (-1) IEC61850_FC_CO IEC61850_TIMESTAMP
     0 NULL 0)
].

Definition GenericIO_GGIO1_nodes8 : list (addr * ModelNode) := [
  (iedModel_GenericIO_GGIO1_SPCSO2_Oper_Test,
   DataAttribute (Some "Test") &iedModel_GenericIO_GGIO1_SPCSO2_Oper &iedModel_GenericIO_GGIO1_SPCSO2_Oper_Check NULL 0 (-1) IEC61850_FC_CO IEC61850_BOOLEAN
     0 NULL 0);
  (iedModel_GenericIO_GGIO1_SPCSO2_Oper_Check,
   DataAttribute (Some "Check") &iedModel_GenericIO_GGIO1_SPCSO2_Oper NULL NULL 0 (-1) IEC61850_FC_CO IEC61850_CHECK
     0 NULL 0);
  (iedModel_GenericIO_GGIO1_SPCSO2_Cancel,
   DataAttribute (Some "Cancel") &iedModel_GenericIO_GGIO1_SPCSO2 &iedModel_GenericIO_GGIO1_SPCSO2_ctlModel &iedModel_GenericIO_GGIO1_SPCSO2_Cancel_ctlVal 0 (-1) IEC61850_FC_CO IEC61850_CONSTRUCTED
     0 NULL 0);
  (iedModel_GenericIO_GGIO1_SPCSO2_Cancel_ctlVal,
   DataAttribute (Some "ctlVal") &iedModel_GenericIO_GGIO1_SPCSO2_Cancel &iedModel_GenericIO_GGIO1_SPCSO2_Cancel_origin NULL 0 (-1) IEC61850_FC_CO IEC61850_BOOLEAN
     0 NULL 0);
  (iedModel_GenericIO_GGIO1_SPCSO2_Cancel_origin,
   DataAttribute (Some "origin") &iedModel_GenericIO_GGIO1_SPCSO2_Cancel &iedModel_GenericIO_GGIO1_SPCSO2_Cancel_ctlNum &iedModel_GenericIO_GGIO1_SPCSO2_Cancel_origin_orCat 0 (-1) IEC61850_FC_CO IEC61850_CONSTRUCTED
     0 NULL 0);
  (iedModel_GenericIO_GGIO1_SPCSO2_Cancel_origin_orCat,
   DataAttribute (Some "orCat") &iedModel_GenericIO_GGIO1_SPCSO2_Cancel_origin &iedModel_GenericIO_GGIO1_SPCSO2_Cancel_origin_orIdent NULL 0 (-1) IEC61850_FC_CO IEC61850_ENUMERATED
     0 NULL 0);
  (iedModel_GenericIO_GGIO1_SPCSO2_Cancel_origin_orIdent,
   DataAttribute (Some "orIdent") &iedModel_GenericIO_GGIO1_SPCSO2_Cancel_origin NULL NULL 0 (-1) IEC61850_FC_CO IEC61850_OCTET_STRING_64
     0 NULL 0);
  (iedModel_GenericIO_GGIO1_SPCSO2_Cancel_ctlNum,
   DataAttribute (Some "ctlNum") &iedModel_GenericIO_GGIO1_SPCSO2_Cancel &iedModel_GenericIO_GGIO1_SPCSO2_Cancel_T NULL 0 (-1) IEC61850_FC_CO IEC61850_INT8U
     0 NULL 0);
  (iedModel_GenericIO_GGIO1_SPCSO2_Cancel_T,
   DataAttribute (Some "T") &iedModel_GenericIO_GGIO1_SPCSO2_Cancel &iedModel_GenericIO_GGIO1_SPCSO2_Cancel_Test NULL 0 (-1) IEC61850_FC_CO IEC61850_TIMESTAMP
     0 NULL 0);
  (iedModel_GenericIO_GGIO1_SPCSO2_Cancel_Test,
   DataAttribute (Some "Test") &iedModel_GenericIO_GGIO1_SPCSO2_Cancel NULL NULL 0 (-1) IEC61850_FC_CO IEC61850_BOOLEAN
     0 NULL 0)
].

Definition GenericIO_GGIO1_nodes9 : list (addr * ModelNode) := [
  (iedModel_GenericIO_GGIO1_SPCSO2_ctlModel,
   DataAttribute (Some "ctlModel") &iedModel_GenericIO_GGIO1_SPCSO2 &iedModel_GenericIO_GGIO1_SPCSO2_t NULL 0 (-1) IEC61850_FC_CF IEC61850_ENUMERATED
     0 NULL 0);
  (iedModel_GenericIO_GGIO1_SPCSO2_t,
   DataAttribute (Some "t") &iedModel_GenericIO_GGIO1_SPCSO2 NULL NULL 0 (-1) IEC61850_FC_ST IEC61850_TIMESTAMP
     0 NULL 0)
].

Definition GenericIO_GGIO1_nodes10 : list (addr * ModelNode) := [
  (iedModel_GenericIO_GGIO1_SPCSO3,
   DataObject "SPCSO3" &iedModel_GenericIO_GGIO1 &iedModel_GenericIO_GGIO1_DPCSO1 &iedModel_GenericIO_GGIO1_SPCSO3_stVal 0 (-1));
  (iedModel_GenericIO_GGIO1_SPCSO3_stVal,
   DataAttribute (Some "stVal") &iedModel_GenericIO_GGIO1_SPCSO3 &iedModel_GenericIO_GGIO1_SPCSO3_q NULL 0 (-1) IEC61850_FC_ST IEC61850_BOOLEAN
     (0 + TRG_OPT_DATA_CHANGED) NULL 0);
  (iedModel_GenericIO_GGIO1_SPCSO3_q,
   DataAttribute (Some "q") &iedModel_GenericIO_GGIO1_SPCSO3 &iedModel_GenericIO_GGIO1_SPCSO3_Oper NULL 0 (-1) IEC61850_FC_ST IEC61850_QUALITY
     (0 + TRG_OPT_QUALITY_CHANGED) NULL 0);
  (iedModel_GenericIO_GGIO1_SPCSO3_Oper,
   DataAttribute (Some "Oper") &iedModel_GenericIO_GGIO1_SPCSO3 &iedModel_GenericIO_GGIO1_SPCSO3_ctlModel &iedModel_GenericIO_GGIO1_SPCSO3_Oper_ctlVal 0 (-1) IEC61850_FC_CO IEC61850_CONSTRUCTED
     0 NULL 0);
  (iedModel_GenericIO_GGIO1_SPCSO3_Oper_ctlVal,
   DataAttribute (Some "ctlVal") &iedModel_GenericIO_GGIO1_SPCSO3_Oper &iedModel_GenericIO_GGIO1_SPCSO3_Oper_origin NULL 0 (-1) IEC61850_FC_CO IEC61850_BOOLEAN
     0 NULL 0);
  (iedModel_GenericIO_GGIO1_SPCSO3_Oper_origin,
   DataAttribute (Some "origin") &iedModel_GenericIO_GGIO1_SPCSO3_Oper &iedModel_GenericIO_GGIO1_SPCSO3_Oper_ctlNum &iedModel_GenericIO_GGIO1_SPCSO3_Oper_origin_orCat 0 (-1) IEC61850_FC_CO IEC61850_CONSTRUCTED
     0 NULL 0);
  (iedModel_GenericIO_GGIO1_SPCSO3_Oper_origin_orCat,
   DataAttribute (Some "orCat") &iedModel_GenericIO_GGIO1_SPCSO3_Oper_origin &iedModel_GenericIO_GGIO1_SPCSO3_Oper_origin_orIdent NULL 0 (-1) IEC61850_FC_CO IEC61850_ENUMERATED
     0 NULL 0);
  (iedModel_GenericIO_GGIO1_SPCSO3_Oper_origin_orIdent,
   DataAttribute (Some "orIdent") &iedModel_GenericIO_GGIO1_SPCSO3_Oper_origin NULL NULL 0 (-1) IEC61850_FC_CO IEC61850_OCTET_STRING_64
     0 NULL 0);
  (iedModel_GenericIO_GGIO1_SPCSO3_Oper_ctlNum,
   DataAttribute (Some "ctlNum") &iedModel_GenericIO_GGIO1_SPCSO3_Oper &iedModel_GenericIO_GGIO1_SPCSO3_Oper_T NULL 0 (-1) IEC61850_FC_CO IEC61850_INT8U
     0 NULL 0);
  (iedModel_GenericIO_GGIO1_SPCSO3_Oper_T,
   DataAttribute (Some "T") &iedModel_GenericIO_GGIO1_SPCSO3_Oper &iedModel_GenericIO_GGIO1_SPCSO3_Oper_Test NULL 0 (-1) IEC61850_FC_CO IEC61850_TIMESTAMP
     0 NULL 0);
  (iedModel_GenericIO_GGIO1_SPCSO3_Oper_Test,
   DataAttribute (Some "Test") &iedModel_GenericIO_GGIO1_SPCSO3_Oper &iedModel_GenericIO_GGIO1_SPCSO3_Oper_Check NULL 0 (-1) IEC61850_FC_CO IEC61850_BOOLEAN
     0 NULL 0)
].

Definition GenericIO_GGIO1_nodes11 : list (addr * ModelNode) := [
  (iedModel_GenericIO_GGIO1_SPCSO3_Oper_Check,
   DataAttribute (Some "Check") &iedModel_GenericIO_GGIO1_SPCSO3_Oper NULL NULL 0 (-1) IEC61850_FC_CO IEC61850_CHECK
     0 NULL 0);
  (iedModel_GenericIO_GGIO1_SPCSO3_ctlModel,
   DataAttribute (Some "ctlModel") &iedModel_GenericIO_GGIO1_SPCSO3 &iedModel_GenericIO_GGIO1_SPCSO3_t NULL 0 (-1) IEC61850_FC_CF IEC61850_ENUMERATED
     0 NULL 0);
  (iedModel_GenericIO_GGIO1_SPCSO3_t,
   DataAttribute (Some "t") &iedModel_GenericIO_GGIO1_SPCSO3 NULL NULL 0 (-1) IEC61850_FC_ST IEC61850_TIMESTAMP
     0 NULL 0)
].

Definition GenericIO_GGIO1_nodes12 : list (addr * ModelNode) := [
  (iedModel_GenericIO_GGIO1_DPCSO1,
   DataObject "DPCSO1" &iedModel_GenericIO_GGIO1 &iedModel_GenericIO_GGIO1_Ind1 &iedModel_GenericIO_GGIO1_DPCSO1_stVal 0 (-1));
  (iedModel_GenericIO_GGIO1_DPCSO1_stVal,
   DataAttribute (Some "stVal") &iedModel_GenericIO_GGIO1_DPCSO1 &iedModel_GenericIO_GGIO1_DPCSO1_q NULL 0 (-1) IEC61850_FC_ST IEC61850_CODEDENUM
     (0 + TRG_OPT_DATA_CHANGED) NULL 0);
  (iedModel_GenericIO_GGIO1_DPCSO1_q,
   DataAttribute (Some "q") &iedModel_GenericIO_GGIO1_DPCSO1 &iedModel_GenericIO_GGIO1_DPCSO1_Oper NULL 0 (-1) IEC61850_FC_ST IEC61850_QUALITY
     (0 + TRG_OPT_QUALITY_CHANGED) NULL 0);
  (iedModel_GenericIO_GGIO1_DPCSO1_Oper,
   DataAttribute (Some "Oper") &iedModel_GenericIO_GGIO1_DPCSO1 &iedModel_GenericIO_GGIO1_DPCSO1_ctlModel &iedModel_GenericIO_GGIO1_DPCSO1_Oper_ctlVal 0 (-1) IEC61850_FC_CO IEC61850_CONSTRUCTED
     0 NULL 0);
  (iedModel_GenericIO_GGIO1_DPCSO1_Oper_ctlVal,
   DataAttribute (Some "ctlVal") &iedModel_GenericIO_GGIO1_DPCSO1_Oper &iedModel_GenericIO_GGIO1_DPCSO1_Oper_origin NULL 0 (-1) IEC61850_FC_CO IEC61850_BOOLEAN
     0 NULL 0);
  (iedModel_GenericIO_GGIO1_DPCSO1_Oper_origin,
   DataAttribute (Some "origin") &iedModel_GenericIO_GGIO1_DPCSO1_Oper &iedModel_GenericIO_GGIO1_DPCSO1_Oper_ctlNum &iedModel_GenericIO_GGIO1_DPCSO1_Oper_origin_orCat 0 (-1) IEC61850_FC_CO IEC61850_CONSTRUCTED
     0 NULL 0);
  (iedModel_GenericIO_GGIO1_DPCSO1_Oper_origin_orCat,
   DataAttribute (Some "orCat") &iedModel_GenericIO_GGIO1_DPCSO1_Oper_origin &iedModel_GenericIO_GGIO1_DPCSO1_Oper_origin_orIdent NULL 0 (-1) IEC61850_FC_CO IEC61850_ENUMERATED
     0 NULL 0);
  (iedModel_GenericIO_GGIO1_DPCSO1_Oper_origin_orIdent,
   DataAttribute (Some "orIdent") &iedModel_GenericIO_GGIO1_DPCSO1_Oper_origin NULL NULL 0 (-1) IEC61850_FC_CO IEC61850_OCTET_STRING_64
     0 NULL 0);
  (iedModel_GenericIO_GGIO1_DPCSO1_Oper_ctlNum,
   DataAttribute (Some "ctlNum") &iedModel_GenericIO_GGIO1_DPCSO1_Oper &iedModel_GenericIO_GGIO1_DPCSO1_Oper_T NULL 0 (-1) IEC61850_FC_CO IEC61850_INT8U
     0 NULL 0);
  (iedModel_GenericIO_GGIO1_DPCSO1_Oper_T,
   DataAttribute (Some "T") &iedModel_GenericIO_GGIO1_DPCSO1_Oper &iedModel_GenericIO_GGIO1_DPCSO1_Oper_Test NULL 0 (-1) IEC61850_FC_CO IEC61850_TIMESTAMP
     0 NULL 0);
  (iedModel_GenericIO_GGIO1_DPCSO1_Oper_Test,
   DataAttribute (Some "Test") &iedModel_GenericIO_GGIO1_DPCSO1_Oper &iedModel_GenericIO_GGIO1_DPCSO1_Oper_Check NULL 0 (-1) IEC61850_FC_CO IEC61850_BOOLEAN
     0 NULL 0)
].

Definition GenericIO_GGIO1_nodes13 : list (addr * ModelNode) := [
  (iedModel_GenericIO_GGIO1_DPCSO1_Oper_Check,
   DataAttribute (Some "Check") &iedModel_GenericIO_GGIO1_DPCSO1_Oper NULL NULL 0 (-1) IEC61850_FC_CO IEC61850_CHECK
     0 NULL 0);
  (iedModel_GenericIO_GGIO1_DPCSO1_ctlModel,
   DataAttribute (Some "ctlModel") &iedModel_GenericIO_GGIO1_DPCSO1 &iedModel_GenericIO_GGIO1_DPCSO1_t NULL 0 (-1) IEC61850_FC_CF IEC61850_ENUMERATED
     0 NULL 0);
  (iedModel_GenericIO_GGIO1_DPCSO1_t,
   DataAttribute (Some "t") &iedModel_GenericIO_GGIO1_DPCSO1 NULL NULL 0 (-1) IEC61850_FC_ST IEC61850_TIMESTAMP
     0 NULL 0);
  (iedModel_GenericIO_GGIO1_Ind1,
   DataObject "Ind1" &iedModel_GenericIO_GGIO1 &iedModel_GenericIO_GGIO1_Ind2 &iedModel_GenericIO_GGIO1_Ind1_stVal 0 (-1));
  (iedModel_GenericIO_GGIO1_Ind1_stVal,
   DataAttribute (Some "stVal") &iedModel_GenericIO_GGIO1_Ind1 &iedModel_GenericIO_GGIO1_Ind1_q NULL 0 (-1) IEC61850_FC_ST IEC61850_BOOLEAN
     (0 + TRG_OPT_DATA_CHANGED) NULL 0);
  (iedModel_GenericIO_GGIO1_Ind1_q,
   DataAttribute (Some "q") &iedModel_GenericIO_GGIO1_Ind1 &iedModel_GenericIO_GGIO1_Ind1_t NULL 0 (-1) IEC61850_FC_ST IEC61850_QUALITY
     (0 + TRG_OPT_QUALITY_CHANGED) NULL 0);
  (iedModel_GenericIO_GGIO1_Ind1_t,
   DataAttribute (Some "t") &iedModel_GenericIO_GGIO1_Ind1 NULL NULL 0 (-1) IEC61850_FC_ST IEC61850_TIMESTAMP
     0 NULL 0);
  (iedModel_GenericIO_GGIO1_Ind2,
   DataObject "Ind2" &iedModel_GenericIO_GGIO1 &iedModel_GenericIO_GGIO1_Ind3 &iedModel_GenericIO_GGIO1_Ind2_stVal 0 (-1));
  (iedModel_GenericIO_GGIO1_Ind2_stVal,
   DataAttribute (Some "stVal") &iedModel_GenericIO_GGIO1_Ind2 &iedModel_GenericIO_GGIO1_Ind2_q NULL 0 (-1) IEC61850_FC_ST IEC61850_BOOLEAN
     (0 + TRG_OPT_DATA_CHANGED) NULL 0);
  (iedModel_GenericIO_GGIO1_Ind2_q,
   DataAttribute (Some "q") &iedModel_GenericIO_GGIO1_Ind2 &iedModel_GenericIO_GGIO1_Ind2_t NULL 0 (-1) IEC61850_FC_ST IEC61850_QUALITY
     (0 + TRG_OPT_QUALITY_CHANGED) NULL 0);
  (iedModel_GenericIO_GGIO1_Ind2_t,
   DataAttribute (Some "t") &iedModel_GenericIO_GGIO1_Ind2 NULL NULL 0 (-1) IEC61850_FC_ST IEC61850_TIMESTAMP
     0 NULL 0)
].

Definition GenericIO_GGIO1_nodes14 : list (addr * ModelNode) := [
  (iedModel_GenericIO_GGIO1_Ind3,
   DataObject "Ind3" &iedModel_GenericIO_GGIO1 &iedModel_GenericIO_GGIO1_Ind4 &iedModel_GenericIO_GGIO1_Ind3_stVal 0 (-1));
  (iedModel_GenericIO_GGIO1_Ind3_stVal,
   DataAttribute (Some "stVal") &iedModel_GenericIO_GGIO1_Ind3 &iedModel_GenericIO_GGIO1_Ind3_q NULL 0 (-1) IEC61850_FC_ST IEC61850_BOOLEAN
     (0 + TRG_OPT_DATA_CHANGED) NULL 0);
  (iedModel_GenericIO_GGIO1_Ind3_q,
   DataAttribute (Some "q") &iedModel_GenericIO_GGIO1_Ind3 &iedModel_GenericIO_GGIO1_Ind3_t NULL 0 (-1) IEC61850_FC_ST IEC61850_QUALITY
     (0 + TRG_OPT_QUALITY_CHANGED) NULL 0);
  (iedModel_GenericIO_GGIO1_Ind3_t,
   DataAttribute (Some "t") &iedModel_GenericIO_GGIO1_Ind3 NULL NULL 0 (-1) IEC61850_FC_ST IEC61850_TIMESTAMP
     0 NULL 0);
  (iedModel_GenericIO_GGIO1_Ind4,
   DataObject "Ind4" &iedModel_GenericIO_GGIO1 NULL &iedModel_GenericIO_GGIO1_Ind4_stVal 0 (-1));
  (iedModel_GenericIO_GGIO1_Ind4_stVal,
   DataAttribute (Some "stVal") &iedModel_GenericIO_GGIO1_Ind4 &iedModel_GenericIO_GGIO1_Ind4_q NULL 0 (-1) IEC61850_FC_ST IEC61850_BOOLEAN
     (0 + TRG_OPT_DATA_CHANGED) NULL 0);
  (iedModel_GenericIO_GGIO1_Ind4_q,
   DataAttribute (Some "q") &iedModel_GenericIO_GGIO1_Ind4 &iedModel_GenericIO_GGIO1_Ind4_t NULL 0 (-1) IEC61850_FC_ST IEC61850_QUALITY
     (0 + TRG_OPT_QUALITY_CHANGED) NULL 0);
  (iedModel_GenericIO_GGIO1_Ind4_t,
   DataAttribute (Some "t") &iedModel_GenericIO_GGIO1_Ind4 NULL NULL 0 (-1) IEC61850_FC_ST IEC61850_TIMESTAMP
     0 NULL 0)
].

Definition GenericIO_TIM_GAPC1_nodes1 : list (addr * ModelNode) := [
  (iedModel_GenericIO_TIM_GAPC1,
   LogicalNode "TIM_GAPC1" &iedModel_GenericIO &iedModel_GenericIO_T60S_FSCH1 &iedModel_GenericIO_TIM_GAPC1_Beh);
  (iedModel_GenericIO_TIM_GAPC1_Beh,
   DataObject "Beh" &iedModel_GenericIO_TIM_GAPC1 &iedModel_GenericIO_TIM_GAPC1_Mod &iedModel_GenericIO_TIM_GAPC1_Beh_stVal 0 (-1));
  (iedModel_GenericIO_TIM_GAPC1_Beh_stVal,
   DataAttribute (Some "stVal") &iedModel_GenericIO_TIM_GAPC1_Beh &iedModel_GenericIO_TIM_GAPC1_Beh_q NULL 0 (-1) IEC61850_FC_ST IEC61850_ENUMERATED
     (0 + TRG_OPT_DATA_CHANGED) NULL 0);
  (iedModel_GenericIO_TIM_GAPC1_Beh_q,
   DataAttribute (Some "q") &iedModel_GenericIO_TIM_GAPC1_Beh &iedModel_GenericIO_TIM_GAPC1_Beh_t NULL 0 (-1) IEC61850_FC_ST IEC61850_QUALITY
     (0 + TRG_OPT_QUALITY_CHANGED) NULL 0);
  (iedModel_GenericIO_TIM_GAPC1_Beh_t,
   DataAttribute (Some "t") &iedModel_GenericIO_TIM_GAPC1_Beh NULL NULL 0 (-1) IEC61850_FC_ST IEC61850_TIMESTAMP
     0 NULL 0);
  (iedModel_GenericIO_TIM_GAPC1_Mod,
   DataObject "Mod" &iedModel_GenericIO_TIM_GAPC1 &iedModel_GenericIO_TIM_GAPC1_Str &iedModel_GenericIO_TIM_GAPC1_Mod_stVal 0 (-1));
  (iedModel_GenericIO_TIM_GAPC1_Mod_stVal,
   DataAttribute (Some "stVal") &iedModel_GenericIO_TIM_GAPC1_Mod &iedModel_GenericIO_TIM_GAPC1_Mod_q NULL 0 (-1) IEC61850_FC_ST IEC61850_ENUMERATED
     (0 + TRG_OPT_DATA_CHANGED) NULL 0);
  (iedModel_GenericIO_TIM_GAPC1_Mod_q,
   DataAttribute (Some "q") &iedModel_GenericIO_TIM_GAPC1_Mod &iedModel_GenericIO_TIM_GAPC1_Mod_t NULL 0 (-1) IEC61850_FC_ST IEC61850_QUALITY
     (0 + TRG_OPT_QUALITY_CHANGED) NULL 0);
  (iedModel_GenericIO_TIM_GAPC1_Mod_t,
   DataAttribute (Some "t") &iedModel_GenericIO_TIM_GAPC1_Mod &iedModel_GenericIO_TIM_GAPC1_Mod_ctlModel NULL 0 (-1) IEC61850_FC_ST IEC61850_TIMESTAMP
     0 NULL 0);
  (iedModel_GenericIO_TIM_GAPC1_Mod_ctlModel,
   DataAttribute (Some "ctlModel") &iedModel_GenericIO_TIM_GAPC1_Mod NULL NULL 0 (-1) IEC61850_FC_CF IEC61850_ENUMERATED
     0 NULL 0)
].

Definition GenericIO_TIM_GAPC1_nodes2 : list (addr * ModelNode) := [
  (iedModel_GenericIO_TIM_GAPC1_Str,
   DataObject "Str" &iedModel_GenericIO_TIM_GAPC1 &iedModel_GenericIO_TIM_GAPC1_Op &iedModel_GenericIO_TIM_GAPC1_Str_general 0 (-1));
  (iedModel_GenericIO_TIM_GAPC1_Str_general,
   DataAttribute (Some "general") &iedModel_GenericIO_TIM_GAPC1_Str &iedModel_GenericIO_TIM_GAPC1_Str_dirGeneral NULL 0 (-1) IEC61850_FC_ST IEC61850_BOOLEAN
     (0 + TRG_OPT_DATA_CHANGED) NULL 0);
  (iedModel_GenericIO_TIM_GAPC1_Str_dirGeneral,
   DataAttribute (Some "dirGeneral") &iedModel_GenericIO_TIM_GAPC1_Str &iedModel_GenericIO_TIM_GAPC1_Str_q NULL 0 (-1) IEC61850_FC_ST IEC61850_ENUMERATED
     (0 + TRG_OPT_DATA_CHANGED) NULL 0);
  (iedModel_GenericIO_TIM_GAPC1_Str_q,
   DataAttribute (Some "q") &iedModel_GenericIO_TIM_GAPC1_Str &iedModel_GenericIO_TIM_GAPC1_Str_t NULL 0 (-1) IEC61850_FC_ST IEC61850_QUALITY
     (0 + TRG_OPT_QUALITY_CHANGED) NULL 0);
  (iedModel_GenericIO_TIM_GAPC1_Str_t,
   DataAttribute (Some "t") &iedModel_GenericIO_TIM_GAPC1_Str NULL NULL 0 (-1) IEC61850_FC_ST IEC61850_TIMESTAMP
     0 NULL 0);
  (iedModel_GenericIO_TIM_GAPC1_Op,
   DataObject "Op" &iedModel_GenericIO_TIM_GAPC1 &iedModel_GenericIO_TIM_GAPC1_OpDlTmms &iedModel_GenericIO_TIM_GAPC1_Op_general 0 (-1));
  (iedModel_GenericIO_TIM_GAPC1_Op_general,
   DataAttribute (Some "general") &iedModel_GenericIO_TIM_GAPC1_Op &iedModel_GenericIO_TIM_GAPC1_Op_q NULL 0 (-1) IEC61850_FC_ST IEC61850_BOOLEAN
     (0 + TRG_OPT_DATA_CHANGED) NULL 0);
  (iedModel_GenericIO_TIM_GAPC1_Op_q,
   DataAttribute (Some "q") &iedModel_GenericIO_TIM_GAPC1_Op &iedModel_GenericIO_TIM_GAPC1_Op_t NULL 0 (-1) IEC61850_FC_ST IEC61850_QUALITY
     (0 + TRG_OPT_QUALITY_CHANGED) NULL 0);
  (iedModel_GenericIO_TIM_GAPC1_Op_t,
   DataAttribute (Some "t") &iedModel_GenericIO_TIM_GAPC1_Op NULL NULL 0 (-1) IEC61850_FC_ST IEC61850_TIMESTAMP
     0 NULL 0)
].

Definition GenericIO_TIM_GAPC1_nodes3 : list (addr * ModelNode) := [
  (iedModel_GenericIO_TIM_GAPC1_OpDlTmms,
   DataObject "OpDlTmms" &iedModel_GenericIO_TIM_GAPC1 &iedModel_GenericIO_TIM_GAPC1_RsDlTmms &iedModel_GenericIO_TIM_GAPC1_OpDlTmms_setVal 0 (-1));
  (iedModel_GenericIO_TIM_GAPC1_OpDlTmms_setVal,
   DataAttribute (Some "setVal") &iedModel_GenericIO_TIM_GAPC1_OpDlTmms &iedModel_GenericIO_TIM_GAPC1_OpDlTmms_dataNs NULL 0 (-1) IEC61850_FC_SP IEC61850_INT32
     (0 + TRG_OPT_DATA_CHANGED) NULL 0);
  (iedModel_GenericIO_TIM_GAPC1_OpDlTmms_dataNs,
   DataAttribute (Some "dataNs") &iedModel_GenericIO_TIM_GAPC1_OpDlTmms NULL NULL 0 (-1) IEC61850_FC_EX IEC61850_VISIBLE_STRING_255
     0 NULL 0);
  (iedModel_GenericIO_TIM_GAPC1_RsDlTmms,
   DataObject "RsDlTmms" &iedModel_GenericIO_TIM_GAPC1 &iedModel_GenericIO_TIM_GAPC1_OpCntRs &iedModel_GenericIO_TIM_GAPC1_RsDlTmms_setVal 0 (-1));
  (iedModel_GenericIO_TIM_GAPC1_RsDlTmms_setVal,
   DataAttribute (Some "setVal") &iedModel_GenericIO_TIM_GAPC1_RsDlTmms &iedModel_GenericIO_TIM_GAPC1_RsDlTmms_dataNs NULL 0 (-1) IEC61850_FC_SP IEC61850_INT32
     (0 + TRG_OPT_DATA_CHANGED) NULL 0);
  (iedModel_GenericIO_TIM_GAPC1_RsDlTmms_dataNs,
   DataAttribute (Some "dataNs") &iedModel_GenericIO_TIM_GAPC1_RsDlTmms NULL NULL 0 (-1) IEC61850_FC_EX IEC61850_VISIBLE_STRING_255
     0 NULL 0)
].

Definition GenericIO_TIM_GAPC1_nodes4 : list (addr * ModelNode) := [
  (iedModel_GenericIO_TIM_GAPC1_OpCntRs,
   DataObject "OpCntRs" &iedModel_GenericIO_TIM_GAPC1 NULL &iedModel_GenericIO_TIM_GAPC1_OpCntRs_stVal 0 (-1));
  (iedModel_GenericIO_TIM_GAPC1_OpCntRs_stVal,
   DataAttribute (Some "stVal") &iedModel_GenericIO_TIM_GAPC1_OpCntRs &iedModel_GenericIO_TIM_GAPC1_OpCntRs_q NULL 0 (-1) IEC61850_FC_ST IEC61850_INT32
     (0 + TRG_OPT_DATA_CHANGED) NULL 0);
  (iedModel_GenericIO_TIM_GAPC1_OpCntRs_q,
   DataAttribute (Some "q") &iedModel_GenericIO_TIM_GAPC1_OpCntRs &iedModel_GenericIO_TIM_GAPC1_OpCntRs_t NULL 0 (-1) IEC61850_FC_ST IEC61850_QUALITY
     (0 + TRG_OPT_QUALITY_CHANGED) NULL 0);
  (iedModel_GenericIO_TIM_GAPC1_OpCntRs_t,
   DataAttribute (Some "t") &iedModel_GenericIO_TIM_GAPC1_OpCntRs &iedModel_GenericIO_TIM_GAPC1_OpCntRs_Oper NULL 0 (-1) IEC61850_FC_ST IEC61850_TIMESTAMP
     0 NULL 0);
  (iedModel_GenericIO_TIM_GAPC1_OpCntRs_Oper,
   DataAttribute (Some "Oper") &iedModel_GenericIO_TIM_GAPC1_OpCntRs &iedModel_GenericIO_TIM_GAPC1_OpCntRs_ctlModel &iedModel_GenericIO_TIM_GAPC1_OpCntRs_Oper_ctlVal 0 (-1) IEC61850_FC_CO IEC61850_CONSTRUCTED
     0 NULL 0);
  (iedModel_GenericIO_TIM_GAPC1_OpCntRs_Oper_ctlVal,
   DataAttribute (Some "ctlVal") &iedModel_GenericIO_TIM_GAPC1_OpCntRs_Oper &iedModel_GenericIO_TIM_GAPC1_OpCntRs_Oper_origin NULL 0 (-1) IEC61850_FC_CO IEC61850_INT32
     0 NULL 0);
  (iedModel_GenericIO_TIM_GAPC1_OpCntRs_Oper_origin,
   DataAttribute (Some "origin") &iedModel_GenericIO_TIM_GAPC1_OpCntRs_Oper &iedModel_GenericIO_TIM_GAPC1_OpCntRs_Oper_ctlNum &iedModel_GenericIO_TIM_GAPC1_OpCntRs_Oper_origin_orCat 0 (-1) IEC61850_FC_CO IEC61850_CONSTRUCTED
     0 NULL 0);
  (iedModel_GenericIO_TIM_GAPC1_OpCntRs_Oper_origin_orCat,
   DataAttribute (Some "orCat") &iedModel_GenericIO_TIM_GAPC1_OpCntRs_Oper_origin &iedModel_GenericIO_TIM_GAPC1_OpCntRs_Oper_origin_orIdent NULL 0 (-1) IEC61850_FC_CO IEC61850_ENUMERATED
     0 NULL 0);
  (iedModel_GenericIO_TIM_GAPC1_OpCntRs_Oper_origin_orIdent,
   DataAttribute (Some "orIdent") &iedModel_GenericIO_TIM_GAPC1_OpCntRs_Oper_origin NULL NULL 0 (-1) IEC61850_FC_CO IEC61850_OCTET_STRING_64
     0 NULL 0);
  (iedModel_GenericIO_TIM_GAPC1_OpCntRs_Oper_ctlNum,
   DataAttribute (Some "ctlNum") &iedModel_GenericIO_TIM_GAPC1_OpCntRs_Oper &iedModel_GenericIO_TIM_GAPC1_OpCntRs_Oper_T NULL 0 (-1) IEC61850_FC_CO IEC61850_INT8U
     0 NULL 0);
  (iedModel_GenericIO_TIM_GAPC1_OpCntRs_Oper_T,
   DataAttribute (Some "T") &iedModel_GenericIO_TIM_GAPC1_OpCntRs_Oper &iedModel_GenericIO_TIM_GAPC1_OpCntRs_Oper_Test NULL 0 (-1) IEC61850_FC_CO IEC61850_TIMESTAMP
     0 NULL 0)
].

Definition GenericIO_TIM_GAPC1_nodes5 : list (addr * ModelNode) := [
  (iedModel_GenericIO_TIM_GAPC1_OpCntRs_Oper_Test,
   DataAttribute (Some "Test") &iedModel_GenericIO_TIM_GAPC1_OpCntRs_Oper &iedModel_GenericIO_TIM_GAPC1_OpCntRs_Oper_Check NULL 0 (-1) IEC61850_FC_CO IEC61850_BOOLEAN
     0 NULL 0);
  (iedModel_GenericIO_TIM_GAPC1_OpCntRs_Oper_Check,
   DataAttribute (Some "Check") &iedModel_GenericIO_TIM_GAPC1_OpCntRs_Oper NULL NULL 0 (-1) IEC61850_FC_CO IEC61850_CHECK
     0 NULL 0);
  (iedModel_GenericIO_TIM_GAPC1_OpCntRs_ctlModel,
   DataAttribute (Some "ctlModel") &iedModel_GenericIO_TIM_GAPC1_OpCntRs NULL NULL 0 (-1) IEC61850_FC_CF IEC61850_ENUMERATED
     0 NULL 0)
].

Definition GenericIO_T60S_FSCH1_nodes1 : list (addr * ModelNode) := [
  (iedModel_GenericIO_T60S_FSCH1,
   LogicalNode "T60S_FSCH1" &iedModel_GenericIO &iedModel_GenericIO_T60S_FSCH2 &iedModel_GenericIO_T60S_FSCH1_Beh);
  (iedModel_GenericIO_T60S_FSCH1_Beh,
   DataObject "Beh" &iedModel_GenericIO_T60S_FSCH1 &iedModel_GenericIO_T60S_FSCH1_SchdSt &iedModel_GenericIO_T60S_FSCH1_Beh_stVal 0 (-1));
  (iedModel_GenericIO_T60S_FSCH1_Beh_stVal,
   DataAttribute (Some "stVal") &iedModel_GenericIO_T60S_FSCH1_Beh &iedModel_GenericIO_T60S_FSCH1_Beh_q NULL 0 (-1) IEC61850_FC_ST IEC61850_ENUMERATED
     (0 + TRG_OPT_DATA_CHANGED) NULL 0);
  (iedModel_GenericIO_T60S_FSCH1_Beh_q,
   DataAttribute (Some "q") &iedModel_GenericIO_T60S_FSCH1_Beh &iedModel_GenericIO_T60S_FSCH1_Beh_t NULL 0 (-1) IEC61850_FC_ST IEC61850_QUALITY
     (0 + TRG_OPT_QUALITY_CHANGED) NULL 0);
  (iedModel_GenericIO_T60S_FSCH1_Beh_t,
   DataAttribute (Some "t") &iedModel_GenericIO_T60S_FSCH1_Beh NULL NULL 0 (-1) IEC61850_FC_ST IEC61850_TIMESTAMP
     0 NULL 0);
  (iedModel_GenericIO_T60S_FSCH1_SchdSt,
   DataObject "SchdSt" &iedModel_GenericIO_T60S_FSCH1 &iedModel_GenericIO_T60S_FSCH1_SchdEntr &iedModel_GenericIO_T60S_FSCH1_SchdSt_stVal 0 (-1));
  (iedModel_GenericIO_T60S_FSCH1_SchdSt_stVal,
   DataAttribute (Some "stVal") &iedModel_GenericIO_T60S_FSCH1_SchdSt &iedModel_GenericIO_T60S_FSCH1_SchdSt_q NULL 0 (-1) IEC61850_FC_ST IEC61850_ENUMERATED
     (0 + TRG_OPT_DATA_CHANGED) NULL 0);
  (iedModel_GenericIO_T60S_FSCH1_SchdSt_q,
   DataAttribute (Some "q") &iedModel_GenericIO_T60S_FSCH1_SchdSt &iedModel_GenericIO_T60S_FSCH1_SchdSt_t NULL 0 (-1) IEC61850_FC_ST IEC61850_QUALITY
     (0 + TRG_OPT_QUALITY_CHANGED) NULL 0);
  (iedModel_GenericIO_T60S_FSCH1_SchdSt_t,
   DataAttribute (Some "t") &iedModel_GenericIO_T60S_FSCH1_SchdSt NULL NULL 0 (-1) IEC61850_FC_ST IEC61850_TIMESTAMP
     0 NULL 0)
].

Definition GenericIO_T60S_FSCH1_nodes2 : list (addr * ModelNode) := [
  (iedModel_GenericIO_T60S_FSCH1_SchdEntr,
   DataObject "SchdEntr" &iedModel_GenericIO_T60S_FSCH1 &iedModel_GenericIO_T60S_FSCH1_ValSPS &iedModel_GenericIO_T60S_FSCH1_SchdEntr_stVal 0 (-1));
  (iedModel_GenericIO_T60S_FSCH1_SchdEntr_stVal,
   DataAttribute (Some "stVal") &iedModel_GenericIO_T60S_FSCH1_SchdEntr &iedModel_GenericIO_T60S_FSCH1_SchdEntr_q NULL 0 (-1) IEC61850_FC_ST IEC61850_INT32
     (0 + TRG_OPT_DATA_CHANGED) NULL 0);
  (iedModel_GenericIO_T60S_FSCH1_SchdEntr_q,
   DataAttribute (Some "q") &iedModel_GenericIO_T60S_FSCH1_SchdEntr &iedModel_GenericIO_T60S_FSCH1_SchdEntr_t NULL 0 (-1) IEC61850_FC_ST IEC61850_QUALITY
     (0 + TRG_OPT_QUALITY_CHANGED) NULL 0);
  (iedModel_GenericIO_T60S_FSCH1_SchdEntr_t,
   DataAttribute (Some "t") &iedModel_GenericIO_T60S_FSCH1_SchdEntr NULL NULL 0 (-1) IEC61850_FC_ST IEC61850_TIMESTAMP
     0 NULL 0);
  (iedModel_GenericIO_T60S_FSCH1_ValSPS,
   DataObject "ValSPS" &iedModel_GenericIO_T60S_FSCH1 &iedModel_GenericIO_T60S_FSCH1_VldReq &iedModel_GenericIO_T60S_FSCH1_ValSPS_stVal 0 (-1));
  (iedModel_GenericIO_T60S_FSCH1_ValSPS_stVal,
   DataAttribute (Some "stVal") &iedModel_GenericIO_T60S_FSCH1_ValSPS &iedModel_GenericIO_T60S_FSCH1_ValSPS_q NULL 0 (-1) IEC61850_FC_ST IEC61850_BOOLEAN
     (0 + TRG_OPT_DATA_CHANGED) NULL 0);
  (iedModel_GenericIO_T60S_FSCH1_ValSPS_q,
   DataAttribute (Some "q") &iedModel_GenericIO_T60S_FSCH1_ValSPS &iedModel_GenericIO_T60S_FSCH1_ValSPS_t NULL 0 (-1) IEC61850_FC_ST IEC61850_QUALITY
     (0 + TRG_OPT_QUALITY_CHANGED) NULL 0);
  (iedModel_GenericIO_T60S_FSCH1_ValSPS_t,
   DataAttribute (Some "t") &iedModel_GenericIO_T60S_FSCH1_ValSPS NULL NULL 0 (-1) IEC61850_FC_ST IEC61850_TIMESTAMP
     0 NULL 0)
].

Definition GenericIO_T60S_FSCH1_nodes3 : list (addr * ModelNode) := [
  (iedModel_GenericIO_T60S_FSCH1_VldReq,
   DataObject "VldReq" &iedModel_GenericIO_T60S_FSCH1 &iedModel_GenericIO_T60S_FSCH1_EnaReq &iedModel_GenericIO_T60S_FSCH1_VldReq_stVal 0 (-1));
  (iedModel_GenericIO_T60S_FSCH1_VldReq_stVal,
   DataAttribute (Some "stVal") &iedModel_GenericIO_T60S_FSCH1_VldReq &iedModel_GenericIO_T60S_FSCH1_VldReq_q NULL 0 (-1) IEC61850_FC_ST IEC61850_BOOLEAN
     (0 + TRG_OPT_DATA_CHANGED) NULL 0);
  (iedModel_GenericIO_T60S_FSCH1_VldReq_q,
   DataAttribute (Some "q") &iedModel_GenericIO_T60S_FSCH1_VldReq &iedModel_GenericIO_T60S_FSCH1_VldReq_Oper NULL 0 (-1) IEC61850_FC_ST IEC61850_QUALITY
     (0 + TRG_OPT_QUALITY_CHANGED) NULL 0);
  (iedModel_GenericIO_T60S_FSCH1_VldReq_Oper,
   DataAttribute (Some "Oper") &iedModel_GenericIO_T60S_FSCH1_VldReq &iedModel_GenericIO_T60S_FSCH1_VldReq_ctlModel &iedModel_GenericIO_T60S_FSCH1_VldReq_Oper_ctlVal 0 (-1) IEC61850_FC_CO IEC61850_CONSTRUCTED
     0 NULL 0);
  (iedModel_GenericIO_T60S_FSCH1_VldReq_Oper_ctlVal,
   DataAttribute (Some "ctlVal") &iedModel_GenericIO_T60S_FSCH1_VldReq_Oper &iedModel_GenericIO_T60S_FSCH1_VldReq_Oper_origin NULL 0 (-1) IEC61850_FC_CO IEC61850_BOOLEAN
     0 NULL 0);
  (iedModel_GenericIO_T60S_FSCH1_VldReq_Oper_origin,
   DataAttribute (Some "origin") &iedModel_GenericIO_T60S_FSCH1_VldReq_Oper &iedModel_GenericIO_T60S_FSCH1_VldReq_Oper_ctlNum &iedModel_GenericIO_T60S_FSCH1_VldReq_Oper_origin_orCat 0 (-1) IEC61850_FC_CO IEC61850_CONSTRUCTED
     0 NULL 0);
  (iedModel_GenericIO_T60S_FSCH1_VldReq_Oper_origin_orCat,
   DataAttribute (Some "orCat") &iedModel_GenericIO_T60S_FSCH1_VldReq_Oper_origin &iedModel_GenericIO_T60S_FSCH1_VldReq_Oper_origin_orIdent NULL 0 (-1) IEC61850_FC_CO IEC61850_ENUMERATED
     0 NULL 0);
  (iedModel_GenericIO_T60S_FSCH1_VldReq_Oper_origin_orIdent,
   DataAttribute (Some "orIdent") &iedModel_GenericIO_T60S_FSCH1_VldReq_Oper_origin NULL NULL 0 (-1) IEC61850_FC_CO IEC61850_OCTET_STRING_64
     0 NULL 0);
  (iedModel_GenericIO_T60S_FSCH1_VldReq_Oper_ctlNum,
   DataAttribute (Some "ctlNum") &iedModel_GenericIO_T60S_FSCH1_VldReq_Oper &iedModel_GenericIO_T60S_FSCH1_VldReq_Oper_T NULL 0 (-1) IEC61850_FC_CO IEC61850_INT8U
     0 NULL 0);
  (iedModel_GenericIO_T60S_FSCH1_VldReq_Oper_T,
   DataAttribute (Some "T") &iedModel_GenericIO_T60S_FSCH1_VldReq_Oper &iedModel_GenericIO_T60S_FSCH1_VldReq_Oper_Test NULL 0 (-1) IEC61850_FC_CO IEC61850_TIMESTAMP
     0 NULL 0);
  (iedModel_GenericIO_T60S_FSCH1_VldReq_Oper_Test,
   DataAttribute (Some "Test") &iedModel_GenericIO_T60S_FSCH1_VldReq_Oper &iedModel_GenericIO_T60S_FSCH1_VldReq_Oper_Check NULL 0 (-1) IEC61850_FC_CO IEC61850_BOOLEAN
     0 NULL 0)
].

Definition GenericIO_T60S_FSCH1_nodes4 : list (addr * ModelNode) := [
  (iedModel_GenericIO_T60S_FSCH1_VldReq_Oper_Check,
   DataAttribute (Some "Check") &iedModel_GenericIO_T60S_FSCH1_VldReq_Oper NULL NULL 0 (-1) IEC61850_FC_CO IEC61850_CHECK
     0 NULL 0);
  (iedModel_GenericIO_T60S_FSCH1_VldReq_ctlModel,
   DataAttribute (Some "ctlModel") &iedModel_GenericIO_T60S_FSCH1_VldReq &iedModel_GenericIO_T60S_FSCH1_VldReq_t NULL 0 (-1) IEC61850_FC_CF IEC61850_ENUMERATED
     0 NULL 0);
  (iedModel_GenericIO_T60S_FSCH1_VldReq_t,
   DataAttribute (Some "t") &iedModel_GenericIO_T60S_FSCH1_VldReq NULL NULL 0 (-1) IEC61850_FC_ST IEC61850_TIMESTAMP
     0 NULL 0)
].

Definition GenericIO_T60S_FSCH1_nodes5 : list (addr * ModelNode) := [
  (iedModel_GenericIO_T60S_FSCH1_EnaReq,
   DataObject "EnaReq" &iedModel_GenericIO_T60S_FSCH1 &iedModel_GenericIO_T60S_FSCH1_EdtReq &iedModel_GenericIO_T60S_FSCH1_EnaReq_stVal 0 (-1));
  (iedModel_GenericIO_T60S_FSCH1_EnaReq_stVal,
   DataAttribute (Some "stVal") &iedModel_GenericIO_T60S_FSCH1_EnaReq &iedModel_GenericIO_T60S_FSCH1_EnaReq_q NULL 0 (-1) IEC61850_FC_ST IEC61850_BOOLEAN
     (0 + TRG_OPT_DATA_CHANGED) NULL 0);
  (iedModel_GenericIO_T60S_FSCH1_EnaReq_q,
   DataAttribute (Some "q") &iedModel_GenericIO_T60S_FSCH1_EnaReq &iedModel_GenericIO_T60S_FSCH1_EnaReq_Oper NULL 0 (-1) IEC61850_FC_ST IEC61850_QUALITY
     (0 + TRG_OPT_QUALITY_CHANGED) NULL 0);
  (iedModel_GenericIO_T60S_FSCH1_EnaReq_Oper,
   DataAttribute (Some "Oper") &iedModel_GenericIO_T60S_FSCH1_EnaReq &iedModel_GenericIO_T60S_FSCH1_EnaReq_ctlModel &iedModel_GenericIO_T60S_FSCH1_EnaReq_Oper_ctlVal 0 (-1) IEC61850_FC_CO IEC61850_CONSTRUCTED
     0 NULL 0);
  (iedModel_GenericIO_T60S_FSCH1_EnaReq_Oper_ctlVal,
   DataAttribute (Some "ctlVal") &iedModel_GenericIO_T60S_FSCH1_EnaReq_Oper &iedModel_GenericIO_T60S_FSCH1_EnaReq_Oper_origin NULL 0 (-1) IEC61850_FC_CO IEC61850_BOOLEAN
     0 NULL 0);
  (iedModel_GenericIO_T60S_FSCH1_EnaReq_Oper_origin,
   DataAttribute (Some "origin") &iedModel_GenericIO_T60S_FSCH1_EnaReq_Oper &iedModel_GenericIO_T60S_FSCH1_EnaReq_Oper_ctlNum &iedModel_GenericIO_T60S_FSCH1_EnaReq_Oper_origin_orCat 0 (-1) IEC61850_FC_CO IEC61850_CONSTRUCTED
     0 NULL 0);
  (iedModel_GenericIO_T60S_FSCH1_EnaReq_Oper_origin_orCat,
   DataAttribute (Some "orCat") &iedModel_GenericIO_T60S_FSCH1_EnaReq_Oper_origin &iedModel_GenericIO_T60S_FSCH1_EnaReq_Oper_origin_orIdent NULL 0 (-1) IEC61850_FC_CO IEC61850_ENUMERATED
     0 NULL 0);
  (iedModel_GenericIO_T60S_FSCH1_EnaReq_Oper_origin_orIdent,
   DataAttribute (Some "orIdent") &iedModel_GenericIO_T60S_FSCH1_EnaReq_Oper_origin NULL NULL 0 (-1) IEC61850_FC_CO IEC61850_OCTET_STRING_64
     0 NULL 0);
  (iedModel_GenericIO_T60S_FSCH1_EnaReq_Oper_ctlNum,
   DataAttribute (Some "ctlNum") &iedModel_GenericIO_T60S_FSCH1_EnaReq_Oper &iedModel_GenericIO_T60S_FSCH1_EnaReq_Oper_T NULL 0 (-1) IEC61850_FC_CO IEC61850_INT8U
     0 NULL 0);
  (iedModel_GenericIO_T60S_FSCH1_EnaReq_Oper_T,
   DataAttribute (Some "T") &iedModel_GenericIO_T60S_FSCH1_EnaReq_Oper &iedModel_GenericIO_T60S_FSCH1_EnaReq_Oper_Test NULL 0 (-1) IEC61850_FC_CO IEC61850_TIMESTAMP
     0 NULL 0);
  (iedModel_GenericIO_T60S_FSCH1_EnaReq_Oper_Test,
   DataAttribute (Some "Test") &iedModel_GenericIO_T60S_FSCH1_EnaReq_Oper &iedModel_GenericIO_T60S_FSCH1_EnaReq_Oper_Check NULL 0 (-1) IEC61850_FC_CO IEC61850_BOOLEAN
     0 NULL 0)
].

Definition GenericIO_T60S_FSCH1_nodes6 : list (addr * ModelNode) := [
  (iedModel_GenericIO_T60S_FSCH1_EnaReq_Oper_Check,
   DataAttribute (Some "Check") &iedModel_GenericIO_T60S_FSCH1_EnaReq_Oper NULL NULL 0 (-1) IEC61850_FC_CO IEC61850_CHECK
     0 NULL 0);
  (iedModel_GenericIO_T60S_FSCH1_EnaReq_ctlModel,
   DataAttribute (Some "ctlModel") &iedModel_GenericIO_T60S_FSCH1_EnaReq &iedModel_GenericIO_T60S_FSCH1_EnaReq_t NULL 0 (-1) IEC61850_FC_CF IEC61850_ENUMERATED
     0 NULL 0);
  (iedModel_GenericIO_T60S_FSCH1_EnaReq_t,
   DataAttribute (Some "t") &iedModel_GenericIO_T60S_FSCH1_EnaReq NULL NULL 0 (-1) IEC61850_FC_ST IEC61850_TIMESTAMP
     0 NULL 0)
].

Definition GenericIO_T60S_FSCH1_nodes7 : list (addr * ModelNode) := [
  (iedModel_GenericIO_T60S_FSCH1_EdtReq,
   DataObject "EdtReq" &iedModel_GenericIO_T60S_FSCH1 &iedModel_GenericIO_T60S_FSCH1_DsaReq &iedModel_GenericIO_T60S_FSCH1_EdtReq_stVal 0 (-1));
  (iedModel_GenericIO_T60S_FSCH1_EdtReq_stVal,
   DataAttribute (Some "stVal") &iedModel_GenericIO_T60S_FSCH1_EdtReq &iedModel_GenericIO_T60S_FSCH1_EdtReq_q NULL 0 (-1) IEC61850_FC_ST IEC61850_BOOLEAN
     (0 + TRG_OPT_DATA_CHANGED) NULL 0);
  (iedModel_GenericIO_T60S_FSCH1_EdtReq_q,
   DataAttribute (Some "q") &iedModel_GenericIO_T60S_FSCH1_EdtReq &iedModel_GenericIO_T60S_FSCH1_EdtReq_Oper NULL 0 (-1) IEC61850_FC_ST IEC61850_QUALITY
     (0 + TRG_OPT_QUALITY_CHANGED) NULL 0);
  (iedModel_GenericIO_T60S_FSCH1_EdtReq_Oper,
   DataAttribute (Some "Oper") &iedModel_GenericIO_T60S_FSCH1_EdtReq &iedModel_GenericIO_T60S_FSCH1_EdtReq_ctlModel &iedModel_GenericIO_T60S_FSCH1_EdtReq_Oper_ctlVal 0 (-1) IEC61850_FC_CO IEC61850_CONSTRUCTED
     0 NULL 0);
  (iedModel_GenericIO_T60S_FSCH1_EdtReq_Oper_ctlVal,
   DataAttribute (Some "ctlVal") &iedModel_GenericIO_T60S_FSCH1_EdtReq_Oper &iedModel_GenericIO_T60S_FSCH1_EdtReq_Oper_origin NULL 0 (-1) IEC61850_FC_CO IEC61850_BOOLEAN
     0 NULL 0);
  (iedModel_GenericIO_T60S_FSCH1_EdtReq_Oper_origin,
   DataAttribute (Some "origin") &iedModel_GenericIO_T60S_FSCH1_EdtReq_Oper &iedModel_GenericIO_T60S_FSCH1_EdtReq_Oper_ctlNum &iedModel_GenericIO_T60S_FSCH1_EdtReq_Oper_origin_orCat 0 (-1) IEC61850_FC_CO IEC61850_CONSTRUCTED
     0 NULL 0);
  (iedModel_GenericIO_T60S_FSCH1_EdtReq_Oper_origin_orCat,
   DataAttribute (Some "orCat") &iedModel_GenericIO_T60S_FSCH1_EdtReq_Oper_origin &iedModel_GenericIO_T60S_FSCH1_EdtReq_Oper_origin_orIdent NULL 0 (-1) IEC61850_FC_CO IEC61850_ENUMERATED
     0 NULL 0);
  (iedModel_GenericIO_T60S_FSCH1_EdtReq_Oper_origin_orIdent,
   DataAttribute (Some "orIdent") &iedModel_GenericIO_T60S_FSCH1_EdtReq_Oper_origin NULL NULL 0 (-1) IEC61850_FC_CO IEC61850_OCTET_STRING_64
     0 NULL 0);
  (iedModel_GenericIO_T60S_FSCH1_EdtReq_Oper_ctlNum,
   DataAttribute (Some "ctlNum") &iedModel_GenericIO_T60S_FSCH1_EdtReq_Oper &iedModel_GenericIO_T60S_FSCH1_EdtReq_Oper_T NULL 0 (-1) IEC61850_FC_CO IEC61850_INT8U
     0 NULL 0);
  (iedModel_GenericIO_T60S_FSCH1_EdtReq_Oper_T,
   DataAttribute (Some "T") &iedModel_GenericIO_T60S_FSCH1_EdtReq_Oper &iedModel_GenericIO_T60S_FSCH1_EdtReq_Oper_Test NULL 0 (-1) IEC61850_FC_CO IEC61850_TIMESTAMP
     0 NULL 0);
  (iedModel_GenericIO_T60S_FSCH1_EdtReq_Oper_Test,
   DataAttribute (Some "Test") &iedModel_GenericIO_T60S_FSCH1_EdtReq_Oper &iedModel_GenericIO_T60S_FSCH1_EdtReq_Oper_Check NULL 0 (-1) IEC61850_FC_CO IEC61850_BOOLEAN
     0 NULL 0)
].

Definition GenericIO_T60S_FSCH1_nodes8 : list (addr * ModelNode) := [
  (iedModel_GenericIO_T60S_FSCH1_EdtReq_Oper_Check,
   DataAttribute (Some "Check") &iedModel_GenericIO_T60S_FSCH1_EdtReq_Oper NULL NULL 0 (-1) IEC61850_FC_CO IEC61850_CHECK
     0 NULL 0);
  (iedModel_GenericIO_T60S_FSCH1_EdtReq_ctlModel,
   DataAttribute (Some "ctlModel") &iedModel_GenericIO_T60S_FSCH1_EdtReq &iedModel_GenericIO_T60S_FSCH1_EdtReq_t NULL 0 (-1) IEC61850_FC_CF IEC61850_ENUMERATED
     0 NULL 0);
  (iedModel_GenericIO_T60S_FSCH1_EdtReq_t,
   DataAttribute (Some "t") &iedModel_GenericIO_T60S_FSCH1_EdtReq NULL NULL 0 (-1) IEC61850_FC_ST IEC61850_TIMESTAMP
     0 NULL 0)
].

Definition GenericIO_T60S_FSCH1_nodes9 : list (addr * ModelNode) := [
  (iedModel_GenericIO_T60S_FSCH1_DsaReq,
   DataObject "DsaReq" &iedModel_GenericIO_T60S_FSCH1 &iedModel_GenericIO_T60S_FSCH1_SchdPrio &iedModel_GenericIO_T60S_FSCH1_DsaReq_stVal 0 (-1));
  (iedModel_GenericIO_T60S_FSCH1_DsaReq_stVal,
   DataAttribute (Some "stVal") &iedModel_GenericIO_T60S_FSCH1_DsaReq &iedModel_GenericIO_T60S_FSCH1_DsaReq_q NULL 0 (-1) IEC61850_FC_ST IEC61850_BOOLEAN
     (0 + TRG_OPT_DATA_CHANGED) NULL 0);
  (iedModel_GenericIO_T60S_FSCH1_DsaReq_q,
   DataAttribute (Some "q") &iedModel_GenericIO_T60S_FSCH1_DsaReq &iedModel_GenericIO_T60S_FSCH1_DsaReq_Oper NULL 0 (-1) IEC61850_FC_ST IEC61850_QUALITY
     (0 + TRG_OPT_QUALITY_CHANGED) NULL 0);
  (iedModel_GenericIO_T60S_FSCH1_DsaReq_Oper,
   DataAttribute (Some "Oper") &iedModel_GenericIO_T60S_FSCH1_DsaReq &iedModel_GenericIO_T60S_FSCH1_DsaReq_ctlModel &iedModel_GenericIO_T60S_FSCH1_DsaReq_Oper_ctlVal 0 (-1) IEC61850_FC_CO IEC61850_CONSTRUCTED
     0 NULL 0);
  (iedModel_GenericIO_T60S_FSCH1_DsaReq_Oper_ctlVal,
   DataAttribute (Some "ctlVal") &iedModel_GenericIO_T60S_FSCH1_DsaReq_Oper &iedModel_GenericIO_T60S_FSCH1_DsaReq_Oper_origin NULL 0 (-1) IEC61850_FC_CO IEC61850_BOOLEAN
     0 NULL 0);
  (iedModel_GenericIO_T60S_FSCH1_DsaReq_Oper_origin,
   DataAttribute (Some "origin") &iedModel_GenericIO_T60S_FSCH1_DsaReq_Oper &iedModel_GenericIO_T60S_FSCH1_DsaReq_Oper_ctlNum &iedModel_GenericIO_T60S_FSCH1_DsaReq_Oper_origin_orCat 0 (-1) IEC61850_FC_CO IEC61850_CONSTRUCTED
     0 NULL 0);
  (iedModel_GenericIO_T60S_FSCH1_DsaReq_Oper_origin_orCat,
   DataAttribute (Some "orCat") &iedModel_GenericIO_T60S_FSCH1_DsaReq_Oper_origin &iedModel_GenericIO_T60S_FSCH1_DsaReq_Oper_origin_orIdent NULL 0 (-1) IEC61850_FC_CO IEC61850_ENUMERATED
     0 NULL 0);
  (iedModel_GenericIO_T60S_FSCH1_DsaReq_Oper_origin_orIdent,
   DataAttribute (Some "orIdent") &iedModel_GenericIO_T60S_FSCH1_DsaReq_Oper_origin NULL NULL 0 (-1) IEC61850_FC_CO IEC61850_OCTET_STRING_64
     0 NULL 0);
  (iedModel_GenericIO_T60S_FSCH1_DsaReq_Oper_ctlNum,
   DataAttribute (Some "ctlNum") &iedModel_GenericIO_T60S_FSCH1_DsaReq_Oper &iedModel_GenericIO_T60S_FSCH1_DsaReq_Oper_T NULL 0 (-1) IEC61850_FC_CO IEC61850_INT8U
     0 NULL 0);
  (iedModel_GenericIO_T60S_FSCH1_DsaReq_Oper_T,
   DataAttribute (Some "T") &iedModel_GenericIO_T60S_FSCH1_DsaReq_Oper &iedModel_GenericIO_T60S_FSCH1_DsaReq_Oper_Test NULL 0 (-1) IEC61850_FC_CO IEC61850_TIMESTAMP
     0 NULL 0);
  (iedModel_GenericIO_T60S_FSCH1_DsaReq_Oper_Test,
   DataAttribute (Some "Test") &iedModel_GenericIO_T60S_FSCH1_DsaReq_Oper &iedModel_GenericIO_T60S_FSCH1_DsaReq_Oper_Check NULL 0 (-1) IEC61850_FC_CO IEC61850_BOOLEAN
     0 NULL 0)
].

Definition GenericIO_T60S_FSCH1_nodes10 : list (addr * ModelNode) := [
  (iedModel_GenericIO_T60S_FSCH1_DsaReq_Oper_Check,
   DataAttribute (Some "Check") &iedModel_GenericIO_T60S_FSCH1_DsaReq_Oper NULL NULL 0 (-1) IEC61850_FC_CO IEC61850_CHECK
     0 NULL 0);
  (iedModel_GenericIO_T60S_FSCH1_DsaReq_ctlModel,
   DataAttribute (Some "ctlModel") &iedModel_GenericIO_T60S_FSCH1_DsaReq &iedModel_GenericIO_T60S_FSCH1_DsaReq_t NULL 0 (-1) IEC61850_FC_CF IEC61850_ENUMERATED
     0 NULL 0);
  (iedModel_GenericIO_T60S_FSCH1_DsaReq_t,
   DataAttribute (Some "t") &iedModel_GenericIO_T60S_FSCH1_DsaReq NULL NULL 0 (-1) IEC61850_FC_ST IEC61850_TIMESTAMP
     0 NULL 0);
  (iedModel_GenericIO_T60S_FSCH1_SchdPrio,
   DataObject "SchdPrio" &iedModel_GenericIO_T60S_FSCH1 &iedModel_GenericIO_T60S_FSCH1_NumEntr &iedModel_GenericIO_T60S_FSCH1_SchdPrio_setVal 0 (-1));
  (iedModel_GenericIO_T60S_FSCH1_SchdPrio_setVal,
   DataAttribute (Some "setVal") &iedModel_GenericIO_T60S_FSCH1_SchdPrio NULL NULL 0 (-1) IEC61850_FC_SP IEC61850_INT32
     (0 + TRG_OPT_DATA_CHANGED) NULL 0);
  (iedModel_GenericIO_T60S_FSCH1_NumEntr,
   DataObject "NumEntr" &iedModel_GenericIO_T60S_FSCH1 &iedModel_GenericIO_T60S_FSCH1_SchdIntv &iedModel_GenericIO_T60S_FSCH1_NumEntr_setVal 0 (-1));
  (iedModel_GenericIO_T60S_FSCH1_NumEntr_setVal,
   DataAttribute (Some "setVal") &iedModel_GenericIO_T60S_FSCH1_NumEntr NULL NULL 0 (-1) IEC61850_FC_SP IEC61850_INT32
     (0 + TRG_OPT_DATA_CHANGED) NULL 0);
  (iedModel_GenericIO_T60S_FSCH1_SchdIntv,
   DataObject "SchdIntv" &iedModel_GenericIO_T60S_FSCH1 &iedModel_GenericIO_T60S_FSCH1_ValSPG1 &iedModel_GenericIO_T60S_FSCH1_SchdIntv_setVal 0 (-1));
  (iedModel_GenericIO_T60S_FSCH1_SchdIntv_setVal,
   DataAttribute (Some "setVal") &iedModel_GenericIO_T60S_FSCH1_SchdIntv NULL NULL 0 (-1) IEC61850_FC_SP IEC61850_INT32
     (0 + TRG_OPT_DATA_CHANGED) NULL 0);
  (iedModel_GenericIO_T60S_FSCH1_ValSPG1,
   DataObject "ValSPG1" &iedModel_GenericIO_T60S_FSCH1 &iedModel_GenericIO_T60S_FSCH1_ValSPG2 &iedModel_GenericIO_T60S_FSCH1_ValSPG1_setVal 0 (-1));
  (iedModel_GenericIO_T60S_FSCH1_ValSPG1_setVal,
   DataAttribute (Some "setVal") &iedModel_GenericIO_T60S_FSCH1_ValSPG1 NULL NULL 0 (-1) IEC61850_FC_SG IEC61850_BOOLEAN
     (0 + TRG_OPT_DATA_CHANGED) NULL 0)
].

Definition GenericIO_T60S_FSCH1_nodes11 : list (addr * ModelNode) := [
  (iedModel_GenericIO_T60S_FSCH1_ValSPG2,
   DataObject "ValSPG2" &iedModel_GenericIO_T60S_FSCH1 &iedModel_GenericIO_T60S_FSCH1_ValSPG3 &iedModel_GenericIO_T60S_FSCH1_ValSPG2_setVal 0 (-1));
  (iedModel_GenericIO_T60S_FSCH1_ValSPG2_setVal,
   DataAttribute (Some "setVal") &iedModel_GenericIO_T60S_FSCH1_ValSPG2 NULL NULL 0 (-1) IEC61850_FC_SG IEC61850_BOOLEAN
     (0 + TRG_OPT_DATA_CHANGED) NULL 0);
  (iedModel_GenericIO_T60S_FSCH1_ValSPG3,
   DataObject "ValSPG3" &iedModel_GenericIO_T60S_FSCH1 &iedModel_GenericIO_T60S_FSCH1_ValSPG4 &iedModel_GenericIO_T60S_FSCH1_ValSPG3_setVal 0 (-1));
  (iedModel_GenericIO_T60S_FSCH1_ValSPG3_setVal,
   DataAttribute (Some "setVal") &iedModel_GenericIO_T60S_FSCH1_ValSPG3 NULL NULL 0 (-1) IEC61850_FC_SG IEC61850_BOOLEAN
     (0 + TRG_OPT_DATA_CHANGED) NULL 0);
  (iedModel_GenericIO_T60S_FSCH1_ValSPG4,
   DataObject "ValSPG4" &iedModel_GenericIO_T60S_FSCH1 &iedModel_GenericIO_T60S_FSCH1_ValSPG5 &iedModel_GenericIO_T60S_FSCH1_ValSPG4_setVal 0 (-1));
  (iedModel_GenericIO_T60S_FSCH1_ValSPG4_setVal,
   DataAttribute (Some "setVal") &iedModel_GenericIO_T60S_FSCH1_ValSPG4 NULL NULL 0 (-1) IEC61850_FC_SG IEC61850_BOOLEAN
     (0 + TRG_OPT_DATA_CHANGED) NULL 0);
  (iedModel_GenericIO_T60S_FSCH1_ValSPG5,
   DataObject "ValSPG5" &iedModel_GenericIO_T60S_FSCH1 &iedModel_GenericIO_T60S_FSCH1_ValSPG6 &iedModel_GenericIO_T60S_FSCH1_ValSPG5_setVal 0 (-1));
  (iedModel_GenericIO_T60S_FSCH1_ValSPG5_setVal,
   DataAttribute (Some "setVal") &iedModel_GenericIO_T60S_FSCH1_ValSPG5 NULL NULL 0 (-1) IEC61850_FC_SG IEC61850_BOOLEAN
     (0 + TRG_OPT_DATA_CHANGED) NULL 0);
  (iedModel_GenericIO_T60S_FSCH1_ValSPG6,
   DataObject "ValSPG6" &iedModel_GenericIO_T60S_FSCH1 &iedModel_GenericIO_T60S_FSCH1_ValSPG7 &iedModel_GenericIO_T60S_FSCH1_ValSPG6_setVal 0 (-1));
  (iedModel_GenericIO_T60S_FSCH1_ValSPG6_setVal,
   DataAttribute (Some "setVal") &iedModel_GenericIO_T60S_FSCH1_ValSPG6 NULL NULL 0 (-1) IEC61850_FC_SG IEC61850_BOOLEAN
     (0 + TRG_OPT_DATA_CHANGED) NULL 0);
  (iedModel_GenericIO_T60S_FSCH1_ValSPG7,
   DataObject "ValSPG7" &iedModel_GenericIO_T60S_FSCH1 &iedModel_GenericIO_T60S_FSCH1_ValSPG8 &iedModel_GenericIO_T60S_FSCH1_ValSPG7_setVal 0 (-1));
  (iedModel_GenericIO_T60S_FSCH1_ValSPG7_setVal,
   DataAttribute (Some "setVal") &iedModel_GenericIO_T60S_FSCH1_ValSPG7 NULL NULL 0 (-1) IEC61850_FC_SG IEC61850_BOOLEAN
     (0 + TRG_OPT_DATA_CHANGED) NULL 0)
].

Definition GenericIO_T60S_FSCH1_nodes12 : list (addr * ModelNode) := [
  (iedModel_GenericIO_T60S_FSCH1_ValSPG8,
   DataObject "ValSPG8" &iedModel_GenericIO_T60S_FSCH1 &iedModel_GenericIO_T60S_FSCH1_ValSPG9 &iedModel_GenericIO_T60S_FSCH1_ValSPG8_setVal 0 (-1));
  (iedModel_GenericIO_T60S_FSCH1_ValSPG8_setVal,
   DataAttribute (Some "setVal") &iedModel_GenericIO_T60S_FSCH1_ValSPG8 NULL NULL 0 (-1) IEC61850_FC_SG IEC61850_BOOLEAN
     (0 + TRG_OPT_DATA_CHANGED) NULL 0);
  (iedModel_GenericIO_T60S_FSCH1_ValSPG9,
   DataObject "ValSPG9" &iedModel_GenericIO_T60S_FSCH1 &iedModel_GenericIO_T60S_FSCH1_ValSPG10 &iedModel_GenericIO_T60S_FSCH1_ValSPG9_setVal 0 (-1));
  (iedModel_GenericIO_T60S_FSCH1_ValSPG9_setVal,
   DataAttribute (Some "setVal") &iedModel_GenericIO_T60S_FSCH1_ValSPG9 NULL NULL 0 (-1) IEC61850_FC_SG IEC61850_BOOLEAN
     (0 + TRG_OPT_DATA_CHANGED) NULL 0);
  (iedModel_GenericIO_T60S_FSCH1_ValSPG10,
   DataObject "ValSPG10" &iedModel_GenericIO_T60S_FSCH1 &iedModel_GenericIO_T60S_FSCH1_ValSPG11 &iedModel_GenericIO_T60S_FSCH1_ValSPG10_setVal 0 (-1));
  (iedModel_GenericIO_T60S_FSCH1_ValSPG10_setVal,
   DataAttribute (Some "setVal") &iedModel_GenericIO_T60S_FSCH1_ValSPG10 NULL NULL 0 (-1) IEC61850_FC_SG IEC61850_BOOLEAN
     (0 + TRG_OPT_DATA_CHANGED) NULL 0);
  (iedModel_GenericIO_T60S_FSCH1_ValSPG11,
   DataObject "ValSPG11" &iedModel_GenericIO_T60S_FSCH1 &iedModel_GenericIO_T60S_FSCH1_ValSPG12 &iedModel_GenericIO_T60S_FSCH1_ValSPG11_setVal 0 (-1));
  (iedModel_GenericIO_T60S_FSCH1_ValSPG11_setVal,
   DataAttribute (Some "setVal") &iedModel_GenericIO_T60S_FSCH1_ValSPG11 NULL NULL 0 (-1) IEC61850_FC_SG IEC61850_BOOLEAN
     (0 + TRG_OPT_DATA_CHANGED) NULL 0);
  (iedModel_GenericIO_T60S_FSCH1_ValSPG12,
   DataObject "ValSPG12" &iedModel_GenericIO_T60S_FSCH1 &iedModel_GenericIO_T60S_FSCH1_ValSPG13 &iedModel_GenericIO_T60S_FSCH1_ValSPG12_setVal 0 (-1));
  (iedModel_GenericIO_T60S_FSCH1_ValSPG12_setVal,
   DataAttribute (Some "setVal") &iedModel_GenericIO_T60S_FSCH1_ValSPG12 NULL NULL 0 (-1) IEC61850_FC_SG IEC61850_BOOLEAN
     (0 + TRG_OPT_DATA_CHANGED) NULL 0);
  (iedModel_GenericIO_T60S_FSCH1_ValSPG13,
   DataObject "ValSPG13" &iedModel_GenericIO_T60S_FSCH1 &iedModel_GenericIO_T60S_FSCH1_ValSPG14 &iedModel_GenericIO_T60S_FSCH1_ValSPG13_setVal 0 (-1));
  (iedModel_GenericIO_T60S_FSCH1_ValSPG13_setVal,
   DataAttribute (Some "setVal") &iedModel_GenericIO_T60S_FSCH1_ValSPG13 NULL NULL 0 (-1) IEC61850_FC_SG IEC61850_BOOLEAN
     (0 + TRG_OPT_DATA_CHANGED) NULL 0)
].

Definition GenericIO_T60S_FSCH1_nodes13 : list (addr * ModelNode) := [
  (iedModel_GenericIO_T60S_FSCH1_ValSPG14,
   DataObject "ValSPG14" &iedModel_GenericIO_T60S_FSCH1 &iedModel_GenericIO_T60S_FSCH1_ValSPG15 &iedModel_GenericIO_T60S_FSCH1_ValSPG14_setVal 0 (-1));
  (iedModel_GenericIO_T60S_FSCH1_ValSPG14_setVal,
   DataAttribute (Some "setVal") &iedModel_GenericIO_T60S_FSCH1_ValSPG14 NULL NULL 0 (-1) IEC61850_FC_SG IEC61850_BOOLEAN
     (0 + TRG_OPT_DATA_CHANGED) NULL 0);
  (iedModel_GenericIO_T60S_FSCH1_ValSPG15,
   DataObject "ValSPG15" &iedModel_GenericIO_T60S_FSCH1 &iedModel_GenericIO_T60S_FSCH1_ValSPG16 &iedModel_GenericIO_T60S_FSCH1_ValSPG15_setVal 0 (-1));
  (iedModel_GenericIO_T60S_FSCH1_ValSPG15_setVal,
   DataAttribute (Some "setVal") &iedModel_GenericIO_T60S_FSCH1_ValSPG15 NULL NULL 0 (-1) IEC61850_FC_SG IEC61850_BOOLEAN
     (0 + TRG_OPT_DATA_CHANGED) NULL 0);
  (iedModel_GenericIO_T60S_FSCH1_ValSPG16,
   DataObject "ValSPG16" &iedModel_GenericIO_T60S_FSCH1 &iedModel_GenericIO_T60S_FSCH1_ValSPG17 &iedModel_GenericIO_T60S_FSCH1_ValSPG16_setVal 0 (-1));
  (iedModel_GenericIO_T60S_FSCH1_ValSPG16_setVal,
   DataAttribute (Some "setVal") &iedModel_GenericIO_T60S_FSCH1_ValSPG16 NULL NULL 0 (-1) IEC61850_FC_SG IEC61850_BOOLEAN
     (0 + TRG_OPT_DATA_CHANGED) NULL 0);
  (iedModel_GenericIO_T60S_FSCH1_ValSPG17,
   DataObject "ValSPG17" &iedModel_GenericIO_T60S_FSCH1 &iedModel_GenericIO_T60S_FSCH1_ValSPG18 &iedModel_GenericIO_T60S_FSCH1_ValSPG17_setVal 0 (-1));
  (iedModel_GenericIO_T60S_FSCH1_ValSPG17_setVal,
   DataAttribute (Some "setVal") &iedModel_GenericIO_T60S_FSCH1_ValSPG17 NULL NULL 0 (-1) IEC61850_FC_SG IEC61850_BOOLEAN
     (0 + TRG_OPT_DATA_CHANGED) NULL 0);
  (iedModel_GenericIO_T60S_FSCH1_ValSPG18,
   DataObject "ValSPG18" &iedModel_GenericIO_T60S_FSCH1 &iedModel_GenericIO_T60S_FSCH1_ValSPG19 &iedModel_GenericIO_T60S_FSCH1_ValSPG18_setVal 0 (-1));
  (iedModel_GenericIO_T60S_FSCH1_ValSPG18_setVal,
   DataAttribute (Some "setVal") &iedModel_GenericIO_T60S_FSCH1_ValSPG18 NULL NULL 0 (-1) IEC61850_FC_SG IEC61850_BOOLEAN
     (0 + TRG_OPT_DATA_CHANGED) NULL 0);
  (iedModel_GenericIO_T60S_FSCH1_ValSPG19,
   DataObject "ValSPG19" &iedModel_GenericIO_T60S_FSCH1 &iedModel_GenericIO_T60S_FSCH1_ValSPG20 &iedModel_GenericIO_T60S_FSCH1_ValSPG19_setVal 0 (-1));
  (iedModel_GenericIO_T60S_FSCH1_ValSPG19_setVal,
   DataAttribute (Some "setVal") &iedModel_GenericIO_T60S_FSCH1_ValSPG19 NULL NULL 0 (-1) IEC61850_FC_SG IEC61850_BOOLEAN
     (0 + TRG_OPT_DATA_CHANGED) NULL 0)
].

Definition GenericIO_T60S_FSCH1_nodes14 : list (addr * ModelNode) := [
  (iedModel_GenericIO_T60S_FSCH1_ValSPG20,
   DataObject "ValSPG20" &iedModel_GenericIO_T60S_FSCH1 &iedModel_GenericIO_T60S_FSCH1_ValSPG21 &iedModel_GenericIO_T60S_FSCH1_ValSPG20_setVal 0 (-1));
  (iedModel_GenericIO_T60S_FSCH1_ValSPG20_setVal,
   DataAttribute (Some "setVal") &iedModel_GenericIO_T60S_FSCH1_ValSPG20 NULL NULL 0 (-1) IEC61850_FC_SG IEC61850_BOOLEAN
     (0 + TRG_OPT_DATA_CHANGED) NULL 0);
  (iedModel_GenericIO_T60S_FSCH1_ValSPG21,
   DataObject "ValSPG21" &iedModel_GenericIO_T60S_FSCH1 &iedModel_GenericIO_T60S_FSCH1_ValSPG22 &iedModel_GenericIO_T60S_FSCH1_ValSPG21_setVal 0 (-1));
  (iedModel_GenericIO_T60S_FSCH1_ValSPG21_setVal,
   DataAttribute (Some "setVal") &iedModel_GenericIO_T60S_FSCH1_ValSPG21 NULL NULL 0 (-1) IEC61850_FC_SG IEC61850_BOOLEAN
     (0 + TRG_OPT_DATA_CHANGED) NULL 0);
  (iedModel_GenericIO_T60S_FSCH1_ValSPG22,
   DataObject "ValSPG22" &iedModel_GenericIO_T60S_FSCH1 &iedModel_GenericIO_T60S_FSCH1_ValSPG23 &iedModel_GenericIO_T60S_FSCH1_ValSPG22_setVal 0 (-1));
  (iedModel_GenericIO_T60S_FSCH1_ValSPG22_setVal,
   DataAttribute (Some "setVal") &iedModel_GenericIO_T60S_FSCH1_ValSPG22 NULL NULL 0 (-1) IEC61850_FC_SG IEC61850_BOOLEAN
     (0 + TRG_OPT_DATA_CHANGED) NULL 0);
  (iedModel_GenericIO_T60S_FSCH1_ValSPG23,
   DataObject "ValSPG23" &iedModel_GenericIO_T60S_FSCH1 &iedModel_GenericIO_T60S_FSCH1_ValSPG24 &iedModel_GenericIO_T60S_FSCH1_ValSPG23_setVal 0 (-1));
  (iedModel_GenericIO_T60S_FSCH1_ValSPG23_setVal,
   DataAttribute (Some "setVal") &iedModel_GenericIO_T60S_FSCH1_ValSPG23 NULL NULL 0 (-1) IEC61850_FC_SG IEC61850_BOOLEAN
     (0 + TRG_OPT_DATA_CHANGED) NULL 0);
  (iedModel_GenericIO_T60S_FSCH1_ValSPG24,
   DataObject "ValSPG24" &iedModel_GenericIO_T60S_FSCH1 &iedModel_GenericIO_T60S_FSCH1_ValSPG25 &iedModel_GenericIO_T60S_FSCH1_ValSPG24_setVal 0 (-1));
  (iedModel_GenericIO_T60S_FSCH1_ValSPG24_setVal,
   DataAttribute (Some "setVal") &iedModel_GenericIO_T60S_FSCH1_ValSPG24 NULL NULL 0 (-1) IEC61850_FC_SG IEC61850_BOOLEAN
     (0 + TRG_OPT_DATA_CHANGED) NULL 0);
  (iedModel_GenericIO_T60S_FSCH1_ValSPG25,
   DataObject "ValSPG25" &iedModel_GenericIO_T60S_FSCH1 &iedModel_GenericIO_T60S_FSCH1_ValSPG26 &iedModel_GenericIO_T60S_FSCH1_ValSPG25_setVal 0 (-1));
  (iedModel_GenericIO_T60S_FSCH1_ValSPG25_setVal,
   DataAttribute (Some "setVal") &iedModel_GenericIO_T60S_FSCH1_ValSPG25 NULL NULL 0 (-1) IEC61850_FC_SG IEC61850_BOOLEAN
     (0 + TRG_OPT_DATA_CHANGED) NULL 0)
].

Definition GenericIO_T60S_FSCH1_nodes15 : list (addr * ModelNode) := [
  (iedModel_GenericIO_T60S_FSCH1_ValSPG26,
   DataObject "ValSPG26" &iedModel_GenericIO_T60S_FSCH1 &iedModel_GenericIO_T60S_FSCH1_ValSPG27 &iedModel_GenericIO_T60S_FSCH1_ValSPG26_setVal 0 (-1));
  (iedModel_GenericIO_T60S_FSCH1_ValSPG26_setVal,
   DataAttribute (Some "setVal") &iedModel_GenericIO_T60S_FSCH1_ValSPG26 NULL NULL 0 (-1) IEC61850_FC_SG IEC61850_BOOLEAN
     (0 + TRG_OPT_DATA_CHANGED) NULL 0);
  (iedModel_GenericIO_T60S_FSCH1_ValSPG27,
   DataObject "ValSPG27" &iedModel_GenericIO_T60S_FSCH1 &iedModel_GenericIO_T60S_FSCH1_ValSPG28 &iedModel_GenericIO_T60S_FSCH1_ValSPG27_setVal 0 (-1));
  (iedModel_GenericIO_T60S_FSCH1_ValSPG27_setVal,
   DataAttribute (Some "setVal") &iedModel_GenericIO_T60S_FSCH1_ValSPG27 NULL NULL 0 (-1) IEC61850_FC_SG IEC61850_BOOLEAN
     (0 + TRG_OPT_DATA_CHANGED) NULL 0);
  (iedModel_GenericIO_T60S_FSCH1_ValSPG28,
   DataObject "ValSPG28" &iedModel_GenericIO_T60S_FSCH1 &iedModel_GenericIO_T60S_FSCH1_ValSPG29 &iedModel_GenericIO_T60S_FSCH1_ValSPG28_setVal 0 (-1));
  (iedModel_GenericIO_T60S_FSCH1_ValSPG28_setVal,
   DataAttribute (Some "setVal") &iedModel_GenericIO_T60S_FSCH1_ValSPG28 NULL NULL 0 (-1) IEC61850_FC_SG IEC61850_BOOLEAN
     (0 + TRG_OPT_DATA_CHANGED) NULL 0);
  (iedModel_GenericIO_T60S_FSCH1_ValSPG29,
   DataObject "ValSPG29" &iedModel_GenericIO_T60S_FSCH1 &iedModel_GenericIO_T60S_FSCH1_ValSPG30 &iedModel_GenericIO_T60S_FSCH1_ValSPG29_setVal 0 (-1));
  (iedModel_GenericIO_T60S_FSCH1_ValSPG29_setVal,
   DataAttribute (Some "setVal") &iedModel_GenericIO_T60S_FSCH1_ValSPG29 NULL NULL 0 (-1) IEC61850_FC_SG IEC61850_BOOLEAN
     (0 + TRG_OPT_DATA_CHANGED) NULL 0);
  (iedModel_GenericIO_T60S_FSCH1_ValSPG30,
   DataObject "ValSPG30" &iedModel_GenericIO_T60S_FSCH1 &iedModel_GenericIO_T60S_FSCH1_ValSPG31 &iedModel_GenericIO_T60S_FSCH1_ValSPG30_setVal 0 (-1));
  (iedModel_GenericIO_T60S_FSCH1_ValSPG30_setVal,
   DataAttribute (Some "setVal") &iedModel_GenericIO_T60S_FSCH1_ValSPG30 NULL NULL 0 (-1) IEC61850_FC_SG IEC61850_BOOLEAN
     (0 + TRG_OPT_DATA_CHANGED) NULL 0);
  (iedModel_GenericIO_T60S_FSCH1_ValSPG31,
   DataObject "ValSPG31" &iedModel_GenericIO_T60S_FSCH1 &iedModel_GenericIO_T60S_FSCH1_ValSPG32 &iedModel_GenericIO_T60S_FSCH1_ValSPG31_setVal 0 (-1));
  (iedModel_GenericIO_T60S_FSCH1_ValSPG31_setVal,
   DataAttribute (Some "setVal") &iedModel_GenericIO_T60S_FSCH1_ValSPG31 NULL NULL 0 (-1) IEC61850_FC_SG IEC61850_BOOLEAN
     (0 + TRG_OPT_DATA_CHANGED) NULL 0)
].

Definition GenericIO_T60S_FSCH1_nodes16 : list (addr * ModelNode) := [
  (iedModel_GenericIO_T60S_FSCH1_ValSPG32,
   DataObject "ValSPG32" &iedModel_GenericIO_T60S_FSCH1 &iedModel_GenericIO_T60S_FSCH1_ValSPG33 &iedModel_GenericIO_T60S_FSCH1_ValSPG32_setVal 0 (-1));
  (iedModel_GenericIO_T60S_FSCH1_ValSPG32_setVal,
   DataAttribute (Some "setVal") &iedModel_GenericIO_T60S_FSCH1_ValSPG32 NULL NULL 0 (-1) IEC61850_FC_SG IEC61850_BOOLEAN
     (0 + TRG_OPT_DATA_CHANGED) NULL 0);
  (iedModel_GenericIO_T60S_FSCH1_ValSPG33,
   DataObject "ValSPG33" &iedModel_GenericIO_T60S_FSCH1 &iedModel_GenericIO_T60S_FSCH1_ValSPG34 &iedModel_GenericIO_T60S_FSCH1_ValSPG33_setVal 0 (-1));
  (iedModel_GenericIO_T60S_FSCH1_ValSPG33_setVal,
   DataAttribute (Some "setVal") &iedModel_GenericIO_T60S_FSCH1_ValSPG33 NULL NULL 0 (-1) IEC61850_FC_SG IEC61850_BOOLEAN
     (0 + TRG_OPT_DATA_CHANGED) NULL 0);
  (iedModel_GenericIO_T60S_FSCH1_ValSPG34,
   DataObject "ValSPG34" &iedModel_GenericIO_T60S_FSCH1 &iedModel_GenericIO_T60S_FSCH1_ValSPG35 &iedModel_GenericIO_T60S_FSCH1_ValSPG34_setVal 0 (-1));
  (iedModel_GenericIO_T60S_FSCH1_ValSPG34_setVal,
   DataAttribute (Some "setVal") &iedModel_GenericIO_T60S_FSCH1_ValSPG34 NULL NULL 0 (-1) IEC61850_FC_SG IEC61850_BOOLEAN
     (0 + TRG_OPT_DATA_CHANGED) NULL 0);
  (iedModel_GenericIO_T60S_FSCH1_ValSPG35,
   DataObject "ValSPG35" &iedModel_GenericIO_T60S_FSCH1 &iedModel_GenericIO_T60S_FSCH1_ValSPG36 &iedModel_GenericIO_T60S_FSCH1_ValSPG35_setVal 0 (-1));
  (iedModel_GenericIO_T60S_FSCH1_ValSPG35_setVal,
   DataAttribute (Some "setVal") &iedModel_GenericIO_T60S_FSCH1_ValSPG35 NULL NULL 0 (-1) IEC61850_FC_SG IEC61850_BOOLEAN
     (0 + TRG_OPT_DATA_CHANGED) NULL 0);
  (iedModel_GenericIO_T60S_FSCH1_ValSPG36,
   DataObject "ValSPG36" &iedModel_GenericIO_T60S_FSCH1 &iedModel_GenericIO_T60S_FSCH1_ValSPG37 &iedModel_GenericIO_T60S_FSCH1_ValSPG36_setVal 0 (-1));
  (iedModel_GenericIO_T60S_FSCH1_ValSPG36_setVal,
   DataAttribute (Some "setVal") &iedModel_GenericIO_T60S_FSCH1_ValSPG36 NULL NULL 0 (-1) IEC61850_FC_SG IEC61850_BOOLEAN
     (0 + TRG_OPT_DATA_CHANGED) NULL 0);
  (iedModel_GenericIO_T60S_FSCH1_ValSPG37,
   DataObject "ValSPG37" &iedModel_GenericIO_T60S_FSCH1 &iedModel_GenericIO_T60S_FSCH1_ValSPG38 &iedModel_GenericIO_T60S_FSCH1_ValSPG37_setVal 0 (-1));
  (iedModel_GenericIO_T60S_FSCH1_ValSPG37_setVal,
   DataAttribute (Some "setVal") &iedModel_GenericIO_T60S_FSCH1_ValSPG37 NULL NULL 0 (-1) IEC61850_FC_SG IEC61850_BOOLEAN
     (0 + TRG_OPT_DATA_CHANGED) NULL 0)
].

Definition GenericIO_T60S_FSCH1_nodes17 : list (addr * ModelNode) := [
  (iedModel_GenericIO_T60S_FSCH1_ValSPG38,
   DataObject "ValSPG38" &iedModel_GenericIO_T60S_FSCH1 &iedModel_GenericIO_T60S_FSCH1_ValSPG39 &iedModel_GenericIO_T60S_FSCH1_ValSPG38_setVal 0 (-1));
  (iedModel_GenericIO_T60S_FSCH1_ValSPG38_setVal,
   DataAttribute (Some "setVal") &iedModel_GenericIO_T60S_FSCH1_ValSPG38 NULL NULL 0 (-1) IEC61850_FC_SG IEC61850_BOOLEAN
     (0 + TRG_OPT_DATA_CHANGED) NULL 0);
  (iedModel_GenericIO_T60S_FSCH1_ValSPG39,
   DataObject "ValSPG39" &iedModel_GenericIO_T60S_FSCH1 &iedModel_GenericIO_T60S_FSCH1_ValSPG40 &iedModel_GenericIO_T60S_FSCH1_ValSPG39_setVal 0 (-1));
  (iedModel_GenericIO_T60S_FSCH1_ValSPG39_setVal,
   DataAttribute (Some "setVal") &iedModel_GenericIO_T60S_FSCH1_ValSPG39 NULL NULL 0 (-1) IEC61850_FC_SG IEC61850_BOOLEAN
     (0 + TRG_OPT_DATA_CHANGED) NULL 0);
  (iedModel_GenericIO_T60S_FSCH1_ValSPG40,
   DataObject "ValSPG40" &iedModel_GenericIO_T60S_FSCH1 &iedModel_GenericIO_T60S_FSCH1_ValSPG41 &iedModel_GenericIO_T60S_FSCH1_ValSPG40_setVal 0 (-1));
  (iedModel_GenericIO_T60S_FSCH1_ValSPG40_setVal,
   DataAttribute (Some "setVal") &iedModel_GenericIO_T60S_FSCH1_ValSPG40 NULL NULL 0 (-1) IEC61850_FC_SG IEC61850_BOOLEAN
     (0 + TRG_OPT_DATA_CHANGED) NULL 0);
  (iedModel_GenericIO_T60S_FSCH1_ValSPG41,
   DataObject "ValSPG41" &iedModel_GenericIO_T60S_FSCH1 &iedModel_GenericIO_T60S_FSCH1_ValSPG42 &iedModel_GenericIO_T60S_FSCH1_ValSPG41_setVal 0 (-1));
  (iedModel_GenericIO_T60S_FSCH1_ValSPG41_setVal,
   DataAttribute (Some "setVal") &iedModel_GenericIO_T60S_FSCH1_ValSPG41 NULL NULL 0 (-1) IEC61850_FC_SG IEC61850_BOOLEAN
     (0 + TRG_OPT_DATA_CHANGED) NULL 0);
  (iedModel_GenericIO_T60S_FSCH1_ValSPG42,
   DataObject "ValSPG42" &iedModel_GenericIO_T60S_FSCH1 &iedModel_GenericIO_T60S_FSCH1_ValSPG43 &iedModel_GenericIO_T60S_FSCH1_ValSPG42_setVal 0 (-1));
  (iedModel_GenericIO_T60S_FSCH1_ValSPG42_setVal,
   DataAttribute (Some "setVal") &iedModel_GenericIO_T60S_FSCH1_ValSPG42 NULL NULL 0 (-1) IEC61850_FC_SG IEC61850_BOOLEAN
     (0 + TRG_OPT_DATA_CHANGED) NULL 0);
  (iedModel_GenericIO_T60S_FSCH1_ValSPG43,
   DataObject "ValSPG43" &iedModel_GenericIO_T60S_FSCH1 &iedModel_GenericIO_T60S_FSCH1_ValSPG44 &iedModel_GenericIO_T60S_FSCH1_ValSPG43_setVal 0 (-1));
  (iedModel_GenericIO_T60S_FSCH1_ValSPG43_setVal,
   DataAttribute (Some "setVal") &iedModel_GenericIO_T60S_FSCH1_ValSPG43 NULL NULL 0 (-1) IEC61850_FC_SG IEC61850_BOOLEAN
     (0 + TRG_OPT_DATA_CHANGED) NULL 0)
].

Definition GenericIO_T60S_FSCH1_nodes18 : list (addr * ModelNode) := [
  (iedModel_GenericIO_T60S_FSCH1_ValSPG44,
   DataObject "ValSPG44" &iedModel_GenericIO_T60S_FSCH1 &iedModel_GenericIO_T60S_FSCH1_ValSPG45 &iedModel_GenericIO_T60S_FSCH1_ValSPG44_setVal 0 (-1));
  (iedModel_GenericIO_T60S_FSCH1_ValSPG44_setVal,
   DataAttribute (Some "setVal") &iedModel_GenericIO_T60S_FSCH1_ValSPG44 NULL NULL 0 (-1) IEC61850_FC_SG IEC61850_BOOLEAN
     (0 + TRG_OPT_DATA_CHANGED) NULL 0);
  (iedModel_GenericIO_T60S_FSCH1_ValSPG45,
   DataObject "ValSPG45" &iedModel_GenericIO_T60S_FSCH1 &iedModel_GenericIO_T60S_FSCH1_ValSPG46 &iedModel_GenericIO_T60S_FSCH1_ValSPG45_setVal 0 (-1));
  (iedModel_GenericIO_T60S_FSCH1_ValSPG45_setVal,
   DataAttribute (Some "setVal") &iedModel_GenericIO_T60S_FSCH1_ValSPG45 NULL NULL 0 (-1) IEC61850_FC_SG IEC61850_BOOLEAN
     (0 + TRG_OPT_DATA_CHANGED) NULL 0);
  (iedModel_GenericIO_T60S_FSCH1_ValSPG46,
   DataObject "ValSPG46" &iedModel_GenericIO_T60S_FSCH1 &iedModel_GenericIO_T60S_FSCH1_ValSPG47 &iedModel_GenericIO_T60S_FSCH1_ValSPG46_setVal 0 (-1));
  (iedModel_GenericIO_T60S_FSCH1_ValSPG46_setVal,
   DataAttribute (Some "setVal") &iedModel_GenericIO_T60S_FSCH1_ValSPG46 NULL NULL 0 (-1) IEC61850_FC_SG IEC61850_BOOLEAN
     (0 + TRG_OPT_DATA_CHANGED) NULL 0);
  (iedModel_GenericIO_T60S_FSCH1_ValSPG47,
   DataObject "ValSPG47" &iedModel_GenericIO_T60S_FSCH1 &iedModel_GenericIO_T60S_FSCH1_ValSPG48 &iedModel_GenericIO_T60S_FSCH1_ValSPG47_setVal 0 (-1));
  (iedModel_GenericIO_T60S_FSCH1_ValSPG47_setVal,
   DataAttribute (Some "setVal") &iedModel_GenericIO_T60S_FSCH1_ValSPG47 NULL NULL 0 (-1) IEC61850_FC_SG IEC61850_BOOLEAN
     (0 + TRG_OPT_DATA_CHANGED) NULL 0);
  (iedModel_GenericIO_T60S_FSCH1_ValSPG48,
   DataObject "ValSPG48" &iedModel_GenericIO_T60S_FSCH1 &iedModel_GenericIO_T60S_FSCH1_ValSPG49 &iedModel_GenericIO_T60S_FSCH1_ValSPG48_setVal 0 (-1));
  (iedModel_GenericIO_T60S_FSCH1_ValSPG48_setVal,
   DataAttribute (Some "setVal") &iedModel_GenericIO_T60S_FSCH1_ValSPG48 NULL NULL 0 (-1) IEC61850_FC_SG IEC61850_BOOLEAN
     (0 + TRG_OPT_DATA_CHANGED) NULL 0);
  (iedModel_GenericIO_T60S_FSCH1_ValSPG49,
   DataObject "ValSPG49" &iedModel_GenericIO_T60S_FSCH1 &iedModel_GenericIO_T60S_FSCH1_ValSPG50 &iedModel_GenericIO_T60S_FSCH1_ValSPG49_setVal 0 (-1));
  (iedModel_GenericIO_T60S_FSCH1_ValSPG49_setVal,
   DataAttribute (Some "setVal") &iedModel_GenericIO_T60S_FSCH1_ValSPG49 NULL NULL 0 (-1) IEC61850_FC_SG IEC61850_BOOLEAN
     (0 + TRG_OPT_DATA_CHANGED) NULL 0)
].

Definition GenericIO_T60S_FSCH1_nodes19 : list (addr * ModelNode) := [
  (iedModel_GenericIO_T60S_FSCH1_ValSPG50,
   DataObject "ValSPG50" &iedModel_GenericIO_T60S_FSCH1 &iedModel_GenericIO_T60S_FSCH1_ValSPG51 &iedModel_GenericIO_T60S_FSCH1_ValSPG50_setVal 0 (-1));
  (iedModel_GenericIO_T60S_FSCH1_ValSPG50_setVal,
   DataAttribute (Some "setVal") &iedModel_GenericIO_T60S_FSCH1_ValSPG50 NULL NULL 0 (-1) IEC61850_FC_SG IEC61850_BOOLEAN
     (0 + TRG_OPT_DATA_CHANGED) NULL 0);
  (iedModel_GenericIO_T60S_FSCH1_ValSPG51,
   DataObject "ValSPG51" &iedModel_GenericIO_T60S_FSCH1 &iedModel_GenericIO_T60S_FSCH1_ValSPG52 &iedModel_GenericIO_T60S_FSCH1_ValSPG51_setVal 0 (-1));
  (iedModel_GenericIO_T60S_FSCH1_ValSPG51_setVal,
   DataAttribute (Some "setVal") &iedModel_GenericIO_T60S_FSCH1_ValSPG51 NULL NULL 0 (-1) IEC61850_FC_SG IEC61850_BOOLEAN
     (0 + TRG_OPT_DATA_CHANGED) NULL 0);
  (iedModel_GenericIO_T60S_FSCH1_ValSPG52,
   DataObject "ValSPG52" &iedModel_GenericIO_T60S_FSCH1 &iedModel_GenericIO_T60S_FSCH1_ValSPG53 &iedModel_GenericIO_T60S_FSCH1_ValSPG52_setVal 0 (-1));
  (iedModel_GenericIO_T60S_FSCH1_ValSPG52_setVal,
   DataAttribute (Some "setVal") &iedModel_GenericIO_T60S_FSCH1_ValSPG52 NULL NULL 0 (-1) IEC61850_FC_SG IEC61850_BOOLEAN
     (0 + TRG_OPT_DATA_CHANGED) NULL 0);
  (iedModel_GenericIO_T60S_FSCH1_ValSPG53,
   DataObject "ValSPG53" &iedModel_GenericIO_T60S_FSCH1 &iedModel_GenericIO_T60S_FSCH1_ValSPG54 &iedModel_GenericIO_T60S_FSCH1_ValSPG53_setVal 0 (-1));
  (iedModel_GenericIO_T60S_FSCH1_ValSPG53_setVal,
   DataAttribute (Some "setVal") &iedModel_GenericIO_T60S_FSCH1_ValSPG53 NULL NULL 0 (-1) IEC61850_FC_SG IEC61850_BOOLEAN
     (0 + TRG_OPT_DATA_CHANGED) NULL 0);
  (iedModel_GenericIO_T60S_FSCH1_ValSPG54,
   DataObject "ValSPG54" &iedModel_GenericIO_T60S_FSCH1 &iedModel_GenericIO_T60S_FSCH1_ValSPG55 &iedModel_GenericIO_T60S_FSCH1_ValSPG54_setVal 0 (-1));
  (iedModel_GenericIO_T60S_FSCH1_ValSPG54_setVal,
   DataAttribute (Some "setVal") &iedModel_GenericIO_T60S_FSCH1_ValSPG54 NULL NULL 0 (-1) IEC61850_FC_SG IEC61850_BOOLEAN
     (0 + TRG_OPT_DATA_CHANGED) NULL 0);
  (iedModel_GenericIO_T60S_FSCH1_ValSPG55,
   DataObject "ValSPG55" &iedModel_GenericIO_T60S_FSCH1 &iedModel_GenericIO_T60S_FSCH1_ValSPG56 &iedModel_GenericIO_T60S_FSCH1_ValSPG55_setVal 0 (-1));
  (iedModel_GenericIO_T60S_FSCH1_ValSPG55_setVal,
   DataAttribute (Some "setVal") &iedModel_GenericIO_T60S_FSCH1_ValSPG55 NULL NULL 0 (-1) IEC61850_FC_SG IEC61850_BOOLEAN
     (0 + TRG_OPT_DATA_CHANGED) NULL 0)
].

Definition GenericIO_T60S_FSCH1_nodes20 : list (addr * ModelNode) := [
  (iedModel_GenericIO_T60S_FSCH1_ValSPG56,
   DataObject "ValSPG56" &iedModel_GenericIO_T60S_FSCH1 &iedModel_GenericIO_T60S_FSCH1_ValSPG57 &iedModel_GenericIO_T60S_FSCH1_ValSPG56_setVal 0 (-1));
  (iedModel_GenericIO_T60S_FSCH1_ValSPG56_setVal,
   DataAttribute (Some "setVal") &iedModel_GenericIO_T60S_FSCH1_ValSPG56 NULL NULL 0 (-1) IEC61850_FC_SG IEC61850_BOOLEAN
     (0 + TRG_OPT_DATA_CHANGED) NULL 0);
  (iedModel_GenericIO_T60S_FSCH1_ValSPG57,
   DataObject "ValSPG57" &iedModel_GenericIO_T60S_FSCH1 &iedModel_GenericIO_T60S_FSCH1_ValSPG58 &iedModel_GenericIO_T60S_FSCH1_ValSPG57_setVal 0 (-1));
  (iedModel_GenericIO_T60S_FSCH1_ValSPG57_setVal,
   DataAttribute (Some "setVal") &iedModel_GenericIO_T60S_FSCH1_ValSPG57 NULL NULL 0 (-1) IEC61850_FC_SG IEC61850_BOOLEAN
     (0 + TRG_OPT_DATA_CHANGED) NULL 0);
  (iedModel_GenericIO_T60S_FSCH1_ValSPG58,
   DataObject "ValSPG58" &iedModel_GenericIO_T60S_FSCH1 &iedModel_GenericIO_T60S_FSCH1_ValSPG59 &iedModel_GenericIO_T60S_FSCH1_ValSPG58_setVal 0 (-1));
  (iedModel_GenericIO_T60S_FSCH1_ValSPG58_setVal,
   DataAttribute (Some "setVal") &iedModel_GenericIO_T60S_FSCH1_ValSPG58 NULL NULL 0 (-1) IEC61850_FC_SG IEC61850_BOOLEAN
     (0 + TRG_OPT_DATA_CHANGED) NULL 0);
  (iedModel_GenericIO_T60S_FSCH1_ValSPG59,
   DataObject "ValSPG59" &iedModel_GenericIO_T60S_FSCH1 &iedModel_GenericIO_T60S_FSCH1_ValSPG60 &iedModel_GenericIO_T60S_FSCH1_ValSPG59_setVal 0 (-1));
  (iedModel_GenericIO_T60S_FSCH1_ValSPG59_setVal,
   DataAttribute (Some "setVal") &iedModel_GenericIO_T60S_FSCH1_ValSPG59 NULL NULL 0 (-1) IEC61850_FC_SG IEC61850_BOOLEAN
     (0 + TRG_OPT_DATA_CHANGED) NULL 0);
  (iedModel_GenericIO_T60S_FSCH1_ValSPG60,
   DataObject "ValSPG60" &iedModel_GenericIO_T60S_FSCH1 &iedModel_GenericIO_T60S_FSCH1_StrTm &iedModel_GenericIO_T60S_FSCH1_ValSPG60_setVal 0 (-1));
  (iedModel_GenericIO_T60S_FSCH1_ValSPG60_setVal,
   DataAttribute (Some "setVal") &iedModel_GenericIO_T60S_FSCH1_ValSPG60 NULL NULL 0 (-1) IEC61850_FC_SG IEC61850_BOOLEAN
     (0 + TRG_OPT_DATA_CHANGED) NULL 0)
].

Definition GenericIO_T60S_FSCH1_nodes21 : list (addr * ModelNode) := [
  (iedModel_GenericIO_T60S_FSCH1_StrTm,
   DataObject "StrTm" &iedModel_GenericIO_T60S_FSCH1 &iedModel_GenericIO_T60S_FSCH1_IntvPer &iedModel_GenericIO_T60S_FSCH1_StrTm_setTm 0 (-1));
  (iedModel_GenericIO_T60S_FSCH1_StrTm_setTm,
   DataAttribute (Some "setTm") &iedModel_GenericIO_T60S_FSCH1_StrTm &iedModel_GenericIO_T60S_FSCH1_StrTm_setCal NULL 0 (-1) IEC61850_FC_SP IEC61850_TIMESTAMP
     (0 + TRG_OPT_DATA_CHANGED) NULL 0);
  (iedModel_GenericIO_T60S_FSCH1_StrTm_setCal,
   DataAttribute (Some "setCal") &iedModel_GenericIO_T60S_FSCH1_StrTm NULL &iedModel_GenericIO_T60S_FSCH1_StrTm_setCal_occ 0 (-1) IEC61850_FC_SP IEC61850_CONSTRUCTED
     (0 + TRG_OPT_DATA_CHANGED) NULL 0);
  (iedModel_GenericIO_T60S_FSCH1_StrTm_setCal_occ,
   DataAttribute (Some "occ") &iedModel_GenericIO_T60S_FSCH1_StrTm_setCal &iedModel_GenericIO_T60S_FSCH1_StrTm_setCal_occType NULL 0 (-1) IEC61850_FC_SP IEC61850_INT16U
     (0 + TRG_OPT_DATA_CHANGED) NULL 0);
  (iedModel_GenericIO_T60S_FSCH1_StrTm_setCal_occType,
   DataAttribute (Some "occType") &iedModel_GenericIO_T60S_FSCH1_StrTm_setCal &iedModel_GenericIO_T60S_FSCH1_StrTm_setCal_occPer NULL 0 (-1) IEC61850_FC_SP IEC61850_ENUMERATED
     (0 + TRG_OPT_DATA_CHANGED) NULL 0);
  (iedModel_GenericIO_T60S_FSCH1_StrTm_setCal_occPer,
   DataAttribute (Some "occPer") &iedModel_GenericIO_T60S_FSCH1_StrTm_setCal &iedModel_GenericIO_T60S_FSCH1_StrTm_setCal_weekDay NULL 0 (-1) IEC61850_FC_SP IEC61850_ENUMERATED
     (0 + TRG_OPT_DATA_CHANGED) NULL 0);
  (iedModel_GenericIO_T60S_FSCH1_StrTm_setCal_weekDay,
   DataAttribute (Some "weekDay") &iedModel_GenericIO_T60S_FSCH1_StrTm_setCal &iedModel_GenericIO_T60S_FSCH1_StrTm_setCal_month NULL 0 (-1) IEC61850_FC_SP IEC61850_ENUMERATED
     (0 + TRG_OPT_DATA_CHANGED) NULL 0);
  (iedModel_GenericIO_T60S_FSCH1_StrTm_setCal_month,
   DataAttribute (Some "month") &iedModel_GenericIO_T60S_FSCH1_StrTm_setCal &iedModel_GenericIO_T60S_FSCH1_StrTm_setCal_day NULL 0 (-1) IEC61850_FC_SP IEC61850_ENUMERATED
     (0 + TRG_OPT_DATA_CHANGED) NULL 0);
  (iedModel_GenericIO_T60S_FSCH1_StrTm_setCal_day,
   DataAttribute (Some "day") &iedModel_GenericIO_T60S_FSCH1_StrTm_setCal &iedModel_GenericIO_T60S_FSCH1_StrTm_setCal_hr NULL 0 (-1) IEC61850_FC_SP IEC61850_INT8U
     (0 + TRG_OPT_DATA_CHANGED) NULL 0);
  (iedModel_GenericIO_T60S_FSCH1_StrTm_setCal_hr,
   DataAttribute (Some "hr") &iedModel_GenericIO_T60S_FSCH1_StrTm_setCal &iedModel_GenericIO_T60S_FSCH1_StrTm_setCal_mn NULL 0 (-1) IEC61850_FC_SP IEC61850_INT8U
     (0 + TRG_OPT_DATA_CHANGED) NULL 0);
  (iedModel_GenericIO_T60S_FSCH1_StrTm_setCal_mn,
   DataAttribute (Some "mn") &iedModel_GenericIO_T60S_FSCH1_StrTm_setCal NULL NULL 0 (-1) IEC61850_FC_SP IEC61850_INT8U
     (0 + TRG_OPT_DATA_CHANGED) NULL 0)
].

Definition GenericIO_T60S_FSCH1_nodes22 : list (addr * ModelNode) := [
  (iedModel_GenericIO_T60S_FSCH1_IntvPer,
   DataObject "IntvPer" &iedModel_GenericIO_T60S_FSCH1 &iedModel_GenericIO_T60S_FSCH1_IntvTyp &iedModel_GenericIO_T60S_FSCH1_IntvPer_setVal 0 (-1));
  (iedModel_GenericIO_T60S_FSCH1_IntvPer_setVal,
   DataAttribute (Some "setVal") &iedModel_GenericIO_T60S_FSCH1_IntvPer NULL NULL 0 (-1) IEC61850_FC_SP IEC61850_INT32
     (0 + TRG_OPT_DATA_CHANGED) NULL 0);
  (iedModel_GenericIO_T60S_FSCH1_IntvTyp,
   DataObject "IntvTyp" &iedModel_GenericIO_T60S_FSCH1 &iedModel_GenericIO_T60S_FSCH1_SchdReuse &iedModel_GenericIO_T60S_FSCH1_IntvTyp_setVal 0 (-1));
  (iedModel_GenericIO_T60S_FSCH1_IntvTyp_setVal,
   DataAttribute (Some "setVal") &iedModel_GenericIO_T60S_FSCH1_IntvTyp NULL NULL 0 (-1) IEC61850_FC_SP IEC61850_ENUMERATED
     (0 + TRG_OPT_DATA_CHANGED) NULL 0);
  (iedModel_GenericIO_T60S_FSCH1_SchdReuse,
   DataObject "SchdReuse" &iedModel_GenericIO_T60S_FSCH1 NULL &iedModel_GenericIO_T60S_FSCH1_SchdReuse_setVal 0 (-1));
  (iedModel_GenericIO_T60S_FSCH1_SchdReuse_setVal,
   DataAttribute (Some "setVal") &iedModel_GenericIO_T60S_FSCH1_SchdReuse NULL NULL 0 (-1) IEC61850_FC_SG IEC61850_BOOLEAN
     (0 + TRG_OPT_DATA_CHANGED) NULL 0)
].

Definition GenericIO_T60S_FSCH2_nodes1 : list (addr * ModelNode) := [
  (iedModel_GenericIO_T60S_FSCH2,
   LogicalNode "T60S_FSCH2" &iedModel_GenericIO &iedModel_GenericIO_GGIO_FSCC1 &iedModel_GenericIO_T60S_FSCH2_Beh);
  (iedModel_GenericIO_T60S_FSCH2_Beh,
   DataObject "Beh" &iedModel_GenericIO_T60S_FSCH2 &iedModel_GenericIO_T60S_FSCH2_SchdSt &iedModel_GenericIO_T60S_FSCH2_Beh_stVal 0 (-1));
  (iedModel_GenericIO_T60S_FSCH2_Beh_stVal,
   DataAttribute (Some "stVal") &iedModel_GenericIO_T60S_FSCH2_Beh &iedModel_GenericIO_T60S_FSCH2_Beh_q NULL 0 (-1) IEC61850_FC_ST IEC61850_ENUMERATED
     (0 + TRG_OPT_DATA_CHANGED) NULL 0);
  (iedModel_GenericIO_T60S_FSCH2_Beh_q,
   DataAttribute (Some "q") &iedModel_GenericIO_T60S_FSCH2_Beh &iedModel_GenericIO_T60S_FSCH2_Beh_t NULL 0 (-1) IEC61850_FC_ST IEC61850_QUALITY
     (0 + TRG_OPT_QUALITY_CHANGED) NULL 0);
  (iedModel_GenericIO_T60S_FSCH2_Beh_t,
   DataAttribute (Some "t") &iedModel_GenericIO_T60S_FSCH2_Beh NULL NULL 0 (-1) IEC61850_FC_ST IEC61850_TIMESTAMP
     0 NULL 0);
  (iedModel_GenericIO_T60S_FSCH2_SchdSt,
   DataObject "SchdSt" &iedModel_GenericIO_T60S_FSCH2 &iedModel_GenericIO_T60S_FSCH2_SchdEntr &iedModel_GenericIO_T60S_FSCH2_SchdSt_stVal 0 (-1));
  (iedModel_GenericIO_T60S_FSCH2_SchdSt_stVal,
   DataAttribute (Some "stVal") &iedModel_GenericIO_T60S_FSCH2_SchdSt &iedModel_GenericIO_T60S_FSCH2_SchdSt_q NULL 0 (-1) IEC61850_FC_ST IEC61850_ENUMERATED
     (0 + TRG_OPT_DATA_CHANGED) NULL 0);
  (iedModel_GenericIO_T60S_FSCH2_SchdSt_q,
   DataAttribute (Some "q") &iedModel_GenericIO_T60S_FSCH2_SchdSt &iedModel_GenericIO_T60S_FSCH2_SchdSt_t NULL 0 (-1) IEC61850_FC_ST IEC61850_QUALITY
     (0 + TRG_OPT_QUALITY_CHANGED) NULL 0);
  (iedModel_GenericIO_T60S_FSCH2_SchdSt_t,
   DataAttribute (Some "t") &iedModel_GenericIO_T60S_FSCH2_SchdSt NULL NULL 0 (-1) IEC61850_FC_ST IEC61850_TIMESTAMP
     0 NULL 0)
].

Definition GenericIO_T60S_FSCH2_nodes2 : list (addr * ModelNode) := [
  (iedModel_GenericIO_T60S_FSCH2_SchdEntr,
   DataObject "SchdEntr" &iedModel_GenericIO_T60S_FSCH2 &iedModel_GenericIO_T60S_FSCH2_ValSPS &iedModel_GenericIO_T60S_FSCH2_SchdEntr_stVal 0 (-1));
  (iedModel_GenericIO_T60S_FSCH2_SchdEntr_stVal,
   DataAttribute (Some "stVal") &iedModel_GenericIO_T60S_FSCH2_SchdEntr &iedModel_GenericIO_T60S_FSCH2_SchdEntr_q NULL 0 (-1) IEC61850_FC_ST IEC61850_INT32
     (0 + TRG_OPT_DATA_CHANGED) NULL 0);
  (iedModel_GenericIO_T60S_FSCH2_SchdEntr_q,
   DataAttribute (Some "q") &iedModel_GenericIO_T60S_FSCH2_SchdEntr &iedModel_GenericIO_T60S_FSCH2_SchdEntr_t NULL 0 (-1) IEC61850_FC_ST IEC61850_QUALITY
     (0 + TRG_OPT_QUALITY_CHANGED) NULL 0);
  (iedModel_GenericIO_T60S_FSCH2_SchdEntr_t,
   DataAttribute (Some "t") &iedModel_GenericIO_T60S_FSCH2_SchdEntr NULL NULL 0 (-1) IEC61850_FC_ST IEC61850_TIMESTAMP
     0 NULL 0);
  (iedModel_GenericIO_T60S_FSCH2_ValSPS,
   DataObject "ValSPS" &iedModel_GenericIO_T60S_FSCH2 &iedModel_GenericIO_T60S_FSCH2_VldReq &iedModel_GenericIO_T60S_FSCH2_ValSPS_stVal 0 (-1));
  (iedModel_GenericIO_T60S_FSCH2_ValSPS_stVal,
   DataAttribute (Some "stVal") &iedModel_GenericIO_T60S_FSCH2_ValSPS &iedModel_GenericIO_T60S_FSCH2_ValSPS_q NULL 0 (-1) IEC61850_FC_ST IEC61850_BOOLEAN
     (0 + TRG_OPT_DATA_CHANGED) NULL 0);
  (iedModel_GenericIO_T60S_FSCH2_ValSPS_q,
   DataAttribute (Some "q") &iedModel_GenericIO_T60S_FSCH2_ValSPS &iedModel_GenericIO_T60S_FSCH2_ValSPS_t NULL 0 (-1) IEC61850_FC_ST IEC61850_QUALITY
     (0 + TRG_OPT_QUALITY_CHANGED) NULL 0);
  (iedModel_GenericIO_T60S_FSCH2_ValSPS_t,
   DataAttribute (Some "t") &iedModel_GenericIO_T60S_FSCH2_ValSPS NULL NULL 0 (-1) IEC61850_FC_ST IEC61850_TIMESTAMP
     0 NULL 0)
].

Definition GenericIO_T60S_FSCH2_nodes3 : list (addr * ModelNode) := [
  (iedModel_GenericIO_T60S_FSCH2_VldReq,
   DataObject "VldReq" &iedModel_GenericIO_T60S_FSCH2 &iedModel_GenericIO_T60S_FSCH2_EnaReq &iedModel_GenericIO_T60S_FSCH2_VldReq_stVal 0 (-1));
  (iedModel_GenericIO_T60S_FSCH2_VldReq_stVal,
   DataAttribute (Some "stVal") &iedModel_GenericIO_T60S_FSCH2_VldReq &iedModel_GenericIO_T60S_FSCH2_VldReq_q NULL 0 (-1) IEC61850_FC_ST IEC61850_BOOLEAN
     (0 + TRG_OPT_DATA_CHANGED) NULL 0);
  (iedModel_GenericIO_T60S_FSCH2_VldReq_q,
   DataAttribute (Some "q") &iedModel_GenericIO_T60S_FSCH2_VldReq &iedModel_GenericIO_T60S_FSCH2_VldReq_Oper NULL 0 (-1) IEC61850_FC_ST IEC61850_QUALITY
     (0 + TRG_OPT_QUALITY_CHANGED) NULL 0);
  (iedModel_GenericIO_T60S_FSCH2_VldReq_Oper,
   DataAttribute (Some "Oper") &iedModel_GenericIO_T60S_FSCH2_VldReq &iedModel_GenericIO_T60S_FSCH2_VldReq_ctlModel &iedModel_GenericIO_T60S_FSCH2_VldReq_Oper_ctlVal 0 (-1) IEC61850_FC_CO IEC61850_CONSTRUCTED
     0 NULL 0);
  (iedModel_GenericIO_T60S_FSCH2_VldReq_Oper_ctlVal,
   DataAttribute (Some "ctlVal") &iedModel_GenericIO_T60S_FSCH2_VldReq_Oper &iedModel_GenericIO_T60S_FSCH2_VldReq_Oper_origin NULL 0 (-1) IEC61850_FC_CO IEC61850_BOOLEAN
     0 NULL 0);
  (iedModel_GenericIO_T60S_FSCH2_VldReq_Oper_origin,
   DataAttribute (Some "origin") &iedModel_GenericIO_T60S_FSCH2_VldReq_Oper &iedModel_GenericIO_T60S_FSCH2_VldReq_Oper_ctlNum &iedModel_GenericIO_T60S_FSCH2_VldReq_Oper_origin_orCat 0 (-1) IEC61850_FC_CO IEC61850_CONSTRUCTED
     0 NULL 0);
  (iedModel_GenericIO_T60S_FSCH2_VldReq_Oper_origin_orCat,
   DataAttribute (Some "orCat") &iedModel_GenericIO_T60S_FSCH2_VldReq_Oper_origin &iedModel_GenericIO_T60S_FSCH2_VldReq_Oper_origin_orIdent NULL 0 (-1) IEC61850_FC_CO IEC61850_ENUMERATED
     0 NULL 0);
  (iedModel_GenericIO_T60S_FSCH2_VldReq_Oper_origin_orIdent,
   DataAttribute (Some "orIdent") &iedModel_GenericIO_T60S_FSCH2_VldReq_Oper_origin NULL NULL 0 (-1) IEC61850_FC_CO IEC61850_OCTET_STRING_64
     0 NULL 0);
  (iedModel_GenericIO_T60S_FSCH2_VldReq_Oper_ctlNum,
   DataAttribute (Some "ctlNum") &iedModel_GenericIO_T60S_FSCH2_VldReq_Oper &iedModel_GenericIO_T60S_FSCH2_VldReq_Oper_T NULL 0 (-1) IEC61850_FC_CO IEC61850_INT8U
     0 NULL 0);
  (iedModel_GenericIO_T60S_FSCH2_VldReq_Oper_T,
   DataAttribute (Some "T") &iedModel_GenericIO_T60S_FSCH2_VldReq_Oper &iedModel_GenericIO_T60S_FSCH2_VldReq_Oper_Test NULL 0 (-1) IEC61850_FC_CO IEC61850_TIMESTAMP
     0 NULL 0);
  (iedModel_GenericIO_T60S_FSCH2_VldReq_Oper_Test,
   DataAttribute (Some "Test") &iedModel_GenericIO_T60S_FSCH2_VldReq_Oper &iedModel_GenericIO_T60S_FSCH2_VldReq_Oper_Check NULL 0 (-1) IEC61850_FC_CO IEC61850_BOOLEAN
     0 NULL 0)
].

Definition GenericIO_T60S_FSCH2_nodes4 : list (addr * ModelNode) := [
  (iedModel_GenericIO_T60S_FSCH2_VldReq_Oper_Check,
   DataAttribute (Some "Check") &iedModel_GenericIO_T60S_FSCH2_VldReq_Oper NULL NULL 0 (-1) IEC61850_FC_CO IEC61850_CHECK
     0 NULL 0);
  (iedModel_GenericIO_T60S_FSCH2_VldReq_ctlModel,
   DataAttribute (Some "ctlModel") &iedModel_GenericIO_T60S_FSCH2_VldReq &iedModel_GenericIO_T60S_FSCH2_VldReq_t NULL 0 (-1) IEC61850_FC_CF IEC61850_ENUMERATED
     0 NULL 0);
  (iedModel_GenericIO_T60S_FSCH2_VldReq_t,
   DataAttribute (Some "t") &iedModel_GenericIO_T60S_FSCH2_VldReq NULL NULL 0 (-1) IEC61850_FC_ST IEC61850_TIMESTAMP
     0 NULL 0)
].

Definition GenericIO_T60S_FSCH2_nodes5 : list (addr * ModelNode) := [
  (iedModel_GenericIO_T60S_FSCH2_EnaReq,
   DataObject "EnaReq" &iedModel_GenericIO_T60S_FSCH2 &iedModel_GenericIO_T60S_FSCH2_EdtReq &iedModel_GenericIO_T60S_FSCH2_EnaReq_stVal 0 (-1));
  (iedModel_GenericIO_T60S_FSCH2_EnaReq_stVal,
   DataAttribute (Some "stVal") &iedModel_GenericIO_T60S_FSCH2_EnaReq &iedModel_GenericIO_T60S_FSCH2_EnaReq_q NULL 0 (-1) IEC61850_FC_ST IEC61850_BOOLEAN
     (0 + TRG_OPT_DATA_CHANGED) NULL 0);
  (iedModel_GenericIO_T60S_FSCH2_EnaReq_q,
   DataAttribute (Some "q") &iedModel_GenericIO_T60S_FSCH2_EnaReq &iedModel_GenericIO_T60S_FSCH2_EnaReq_Oper NULL 0 (-1) IEC61850_FC_ST IEC61850_QUALITY
     (0 + TRG_OPT_QUALITY_CHANGED) NULL 0);
  (iedModel_GenericIO_T60S_FSCH2_EnaReq_Oper,
   DataAttribute (Some "Oper") &iedModel_GenericIO_T60S_FSCH2_EnaReq &iedModel_GenericIO_T60S_FSCH2_EnaReq_ctlModel &iedModel_GenericIO_T60S_FSCH2_EnaReq_Oper_ctlVal 0 (-1) IEC61850_FC_CO IEC61850_CONSTRUCTED
     0 NULL 0);
  (iedModel_GenericIO_T60S_FSCH2_EnaReq_Oper_ctlVal,
   DataAttribute (Some "ctlVal") &iedModel_GenericIO_T60S_FSCH2_EnaReq_Oper &iedModel_GenericIO_T60S_FSCH2_EnaReq_Oper_origin NULL 0 (-1) IEC61850_FC_CO IEC61850_BOOLEAN
     0 NULL 0);
  (iedModel_GenericIO_T60S_FSCH2_EnaReq_Oper_origin,
   DataAttribute (Some "origin") &iedModel_GenericIO_T60S_FSCH2_EnaReq_Oper &iedModel_GenericIO_T60S_FSCH2_EnaReq_Oper_ctlNum &iedModel_GenericIO_T60S_FSCH2_EnaReq_Oper_origin_orCat 0 (-1) IEC61850_FC_CO IEC61850_CONSTRUCTED
     0 NULL 0);
  (iedModel_GenericIO_T60S_FSCH2_EnaReq_Oper_origin_orCat,
   DataAttribute (Some "orCat") &iedModel_GenericIO_T60S_FSCH2_EnaReq_Oper_origin &iedModel_GenericIO_T60S_FSCH2_EnaReq_Oper_origin_orIdent NULL 0 (-1) IEC61850_FC_CO IEC61850_ENUMERATED
     0 NULL 0);
  (iedModel_GenericIO_T60S_FSCH2_EnaReq_Oper_origin_orIdent,
   DataAttribute (Some "orIdent") &iedModel_GenericIO_T60S_FSCH2_EnaReq_Oper_origin NULL NULL 0 (-1) IEC61850_FC_CO IEC61850_OCTET_STRING_64
     0 NULL 0);
  (iedModel_GenericIO_T60S_FSCH2_EnaReq_Oper_ctlNum,
   DataAttribute (Some "ctlNum") &iedModel_GenericIO_T60S_FSCH2_EnaReq_Oper &iedModel_GenericIO_T60S_FSCH2_EnaReq_Oper_T NULL 0 (-1) IEC61850_FC_CO IEC61850_INT8U
     0 NULL 0);
  (iedModel_GenericIO_T60S_FSCH2_EnaReq_Oper_T,
   DataAttribute (Some "T") &iedModel_GenericIO_T60S_FSCH2_EnaReq_Oper &iedModel_GenericIO_T60S_FSCH2_EnaReq_Oper_Test NULL 0 (-1) IEC61850_FC_CO IEC61850_TIMESTAMP
     0 NULL 0);
  (iedModel_GenericIO_T60S_FSCH2_EnaReq_Oper_Test,
   DataAttribute (Some "Test") &iedModel_GenericIO_T60S_FSCH2_EnaReq_Oper &iedModel_GenericIO_T60S_FSCH2_EnaReq_Oper_Check NULL 0 (-1) IEC61850_FC_CO IEC61850_BOOLEAN
     0 NULL 0)
].

Definition GenericIO_T60S_FSCH2_nodes6 : list (addr * ModelNode) := [
  (iedModel_GenericIO_T60S_FSCH2_EnaReq_Oper_Check,
   DataAttribute (Some "Check") &iedModel_GenericIO_T60S_FSCH2_EnaReq_Oper NULL NULL 0 (-1) IEC61850_FC_CO IEC61850_CHECK
     0 NULL 0);
  (iedModel_GenericIO_T60S_FSCH2_EnaReq_ctlModel,
   DataAttribute (Some "ctlModel") &iedModel_GenericIO_T60S_FSCH2_EnaReq &iedModel_GenericIO_T60S_FSCH2_EnaReq_t NULL 0 (-1) IEC61850_FC_CF IEC61850_ENUMERATED
     0 NULL 0);
  (iedModel_GenericIO_T60S_FSCH2_EnaReq_t,
   DataAttribute (Some "t") &iedModel_GenericIO_T60S_FSCH2_EnaReq NULL NULL 0 (-1) IEC61850_FC_ST IEC61850_TIMESTAMP
     0 NULL 0)
].

Definition GenericIO_T60S_FSCH2_nodes7 : list (addr * ModelNode) := [
  (iedModel_GenericIO_T60S_FSCH2_EdtReq,
   DataObject "EdtReq" &iedModel_GenericIO_T60S_FSCH2 &iedModel_GenericIO_T60S_FSCH2_DsaReq &iedModel_GenericIO_T60S_FSCH2_EdtReq_stVal 0 (-1));
  (iedModel_GenericIO_T60S_FSCH2_EdtReq_stVal,
   DataAttribute (Some "stVal") &iedModel_GenericIO_T60S_FSCH2_EdtReq &iedModel_GenericIO_T60S_FSCH2_EdtReq_q NULL 0 (-1) IEC61850_FC_ST IEC61850_BOOLEAN
     (0 + TRG_OPT_DATA_CHANGED) NULL 0);
  (iedModel_GenericIO_T60S_FSCH2_EdtReq_q,
   DataAttribute (Some "q") &iedModel_GenericIO_T60S_FSCH2_EdtReq &iedModel_GenericIO_T60S_FSCH2_EdtReq_Oper NULL 0 (-1) IEC61850_FC_ST IEC61850_QUALITY
     (0 + TRG_OPT_QUALITY_CHANGED) NULL 0);
  (iedModel_GenericIO_T60S_FSCH2_EdtReq_Oper,
   DataAttribute (Some "Oper") &iedModel_GenericIO_T60S_FSCH2_EdtReq &iedModel_GenericIO_T60S_FSCH2_EdtReq_ctlModel &iedModel_GenericIO_T60S_FSCH2_EdtReq_Oper_ctlVal 0 (-1) IEC61850_FC_CO IEC61850_CONSTRUCTED
     0 NULL 0);
  (iedModel_GenericIO_T60S_FSCH2_EdtReq_Oper_ctlVal,
   DataAttribute (Some "ctlVal") &iedModel_GenericIO_T60S_FSCH2_EdtReq_Oper &iedModel_GenericIO_T60S_FSCH2_EdtReq_Oper_origin NULL 0 (-1) IEC61850_FC_CO IEC61850_BOOLEAN
     0 NULL 0);
  (iedModel_GenericIO_T60S_FSCH2_EdtReq_Oper_origin,
   DataAttribute (Some "origin") &iedModel_GenericIO_T60S_FSCH2_EdtReq_Oper &iedModel_GenericIO_T60S_FSCH2_EdtReq_Oper_ctlNum &iedModel_GenericIO_T60S_FSCH2_EdtReq_Oper_origin_orCat 0 (-1) IEC61850_FC_CO IEC61850_CONSTRUCTED
     0 NULL 0);
  (iedModel_GenericIO_T60S_FSCH2_EdtReq_Oper_origin_orCat,
   DataAttribute (Some "orCat") &iedModel_GenericIO_T60S_FSCH2_EdtReq_Oper_origin &iedModel_GenericIO_T60S_FSCH2_EdtReq_Oper_origin_orIdent NULL 0 (-1) IEC61850_FC_CO IEC61850_ENUMERATED
     0 NULL 0);
  (iedModel_GenericIO_T60S_FSCH2_EdtReq_Oper_origin_orIdent,
   DataAttribute (Some "orIdent") &iedModel_GenericIO_T60S_FSCH2_EdtReq_Oper_origin NULL NULL 0 (-1) IEC61850_FC_CO IEC61850_OCTET_STRING_64
     0 NULL 0);
  (iedModel_GenericIO_T60S_FSCH2_EdtReq_Oper_ctlNum,
   DataAttribute (Some "ctlNum") &iedModel_GenericIO_T60S_FSCH2_EdtReq_Oper &iedModel_GenericIO_T60S_FSCH2_EdtReq_Oper_T NULL 0 (-1) IEC61850_FC_CO IEC61850_INT8U
     0 NULL 0);
  (iedModel_GenericIO_T60S_FSCH2_EdtReq_Oper_T,
   DataAttribute (Some "T") &iedModel_GenericIO_T60S_FSCH2_EdtReq_Oper &iedModel_GenericIO_T60S_FSCH2_EdtReq_Oper_Test NULL 0 (-1) IEC61850_FC_CO IEC61850_TIMESTAMP
     0 NULL 0);
  (iedModel_GenericIO_T60S_FSCH2_EdtReq_Oper_Test,
   DataAttribute (Some "Test") &iedModel_GenericIO_T60S_FSCH2_EdtReq_Oper &iedModel_GenericIO_T60S_FSCH2_EdtReq_Oper_Check NULL 0 (-1) IEC61850_FC_CO IEC61850_BOOLEAN
     0 NULL 0)
].

Definition GenericIO_T60S_FSCH2_nodes8 : list (addr * ModelNode) := [
  (iedModel_GenericIO_T60S_FSCH2_EdtReq_Oper_Check,
   DataAttribute (Some "Check") &iedModel_GenericIO_T60S_FSCH2_EdtReq_Oper NULL NULL 0 (-1) IEC61850_FC_CO IEC61850_CHECK
     0 NULL 0);
  (iedModel_GenericIO_T60S_FSCH2_EdtReq_ctlModel,
   DataAttribute (Some "ctlModel") &iedModel_GenericIO_T60S_FSCH2_EdtReq &iedModel_GenericIO_T60S_FSCH2_EdtReq_t NULL 0 (-1) IEC61850_FC_CF IEC61850_ENUMERATED
     0 NULL 0);
  (iedModel_GenericIO_T60S_FSCH2_EdtReq_t,
   DataAttribute (Some "t") &iedModel_GenericIO_T60S_FSCH2_EdtReq NULL NULL 0 (-1) IEC61850_FC_ST IEC61850_TIMESTAMP
     0 NULL 0)
].

Definition GenericIO_T60S_FSCH2_nodes9 : list (addr * ModelNode) := [
  (iedModel_GenericIO_T60S_FSCH2_DsaReq,
   DataObject "DsaReq" &iedModel_GenericIO_T60S_FSCH2 &iedModel_GenericIO_T60S_FSCH2_SchdPrio &iedModel_GenericIO_T60S_FSCH2_DsaReq_stVal 0 (-1));
  (iedModel_GenericIO_T60S_FSCH2_DsaReq_stVal,
   DataAttribute (Some "stVal") &iedModel_GenericIO_T60S_FSCH2_DsaReq &iedModel_GenericIO_T60S_FSCH2_DsaReq_q NULL 0 (-1) IEC61850_FC_ST IEC61850_BOOLEAN
     (0 + TRG_OPT_DATA_CHANGED) NULL 0);
  (iedModel_GenericIO_T60S_FSCH2_DsaReq_q,
   DataAttribute (Some "q") &iedModel_GenericIO_T60S_FSCH2_DsaReq &iedModel_GenericIO_T60S_FSCH2_DsaReq_Oper NULL 0 (-1) IEC61850_FC_ST IEC61850_QUALITY
     (0 + TRG_OPT_QUALITY_CHANGED) NULL 0);
  (iedModel_GenericIO_T60S_FSCH2_DsaReq_Oper,
   DataAttribute (Some "Oper") &iedModel_GenericIO_T60S_FSCH2_DsaReq &iedModel_GenericIO_T60S_FSCH2_DsaReq_ctlModel &iedModel_GenericIO_T60S_FSCH2_DsaReq_Oper_ctlVal 0 (-1) IEC61850_FC_CO IEC61850_CONSTRUCTED
     0 NULL 0);
  (iedModel_GenericIO_T60S_FSCH2_DsaReq_Oper_ctlVal,
   DataAttribute (Some "ctlVal") &iedModel_GenericIO_T60S_FSCH2_DsaReq_Oper &iedModel_GenericIO_T60S_FSCH2_DsaReq_Oper_origin NULL 0 (-1) IEC61850_FC_CO IEC61850_BOOLEAN
     0 NULL 0);
  (iedModel_GenericIO_T60S_FSCH2_DsaReq_Oper_origin,
   DataAttribute (Some "origin") &iedModel_GenericIO_T60S_FSCH2_DsaReq_Oper &iedModel_GenericIO_T60S_FSCH2_DsaReq_Oper_ctlNum &iedModel_GenericIO_T60S_FSCH2_DsaReq_Oper_origin_orCat 0 (-1) IEC61850_FC_CO IEC61850_CONSTRUCTED
     0 NULL 0);
  (iedModel_GenericIO_T60S_FSCH2_DsaReq_Oper_origin_orCat,
   DataAttribute (Some "orCat") &iedModel_GenericIO_T60S_FSCH2_DsaReq_Oper_origin &iedModel_GenericIO_T60S_FSCH2_DsaReq_Oper_origin_orIdent NULL 0 (-1) IEC61850_FC_CO IEC61850_ENUMERATED
     0 NULL 0);
  (iedModel_GenericIO_T60S_FSCH2_DsaReq_Oper_origin_orIdent,
   DataAttribute (Some "orIdent") &iedModel_GenericIO_T60S_FSCH2_DsaReq_Oper_origin NULL NULL 0 (-1) IEC61850_FC_CO IEC61850_OCTET_STRING_64
     0 NULL 0);
  (iedModel_GenericIO_T60S_FSCH2_DsaReq_Oper_ctlNum,
   DataAttribute (Some "ctlNum") &iedModel_GenericIO_T60S_FSCH2_DsaReq_Oper &iedModel_GenericIO_T60S_FSCH2_DsaReq_Oper_T NULL 0 (-1) IEC61850_FC_CO IEC61850_INT8U
     0 NULL 0);
  (iedModel_GenericIO_T60S_FSCH2_DsaReq_Oper_T,
   DataAttribute (Some "T") &iedModel_GenericIO_T60S_FSCH2_DsaReq_Oper &iedModel_GenericIO_T60S_FSCH2_DsaReq_Oper_Test NULL 0 (-1) IEC61850_FC_CO IEC61850_TIMESTAMP
     0 NULL 0);
  (iedModel_GenericIO_T60S_FSCH2_DsaReq_Oper_Test,
   DataAttribute (Some "Test") &iedModel_GenericIO_T60S_FSCH2_DsaReq_Oper &iedModel_GenericIO_T60S_FSCH2_DsaReq_Oper_Check NULL 0 (-1) IEC61850_FC_CO IEC61850_BOOLEAN
     0 NULL 0)
].

Definition GenericIO_T60S_FSCH2_nodes10 : list (addr * ModelNode) := [
  (iedModel_GenericIO_T60S_FSCH2_DsaReq_Oper_Check,
   DataAttribute (Some "Check") &iedModel_GenericIO_T60S_FSCH2_DsaReq_Oper NULL NULL 0 (-1) IEC61850_FC_CO IEC61850_CHECK
     0 NULL 0);
  (iedModel_GenericIO_T60S_FSCH2_DsaReq_ctlModel,
   DataAttribute (Some "ctlModel") &iedModel_GenericIO_T60S_FSCH2_DsaReq &iedModel_GenericIO_T60S_FSCH2_DsaReq_t NULL 0 (-1) IEC61850_FC_CF IEC61850_ENUMERATED
     0 NULL 0);
  (iedModel_GenericIO_T60S_FSCH2_DsaReq_t,
   DataAttribute (Some "t") &iedModel_GenericIO_T60S_FSCH2_DsaReq NULL NULL 0 (-1) IEC61850_FC_ST IEC61850_TIMESTAMP
     0 NULL 0);
  (iedModel_GenericIO_T60S_FSCH2_SchdPrio,
   DataObject "SchdPrio" &iedModel_GenericIO_T60S_FSCH2 &iedModel_GenericIO_T60S_FSCH2_NumEntr &iedModel_GenericIO_T60S_FSCH2_SchdPrio_setVal 0 (-1));
  (iedModel_GenericIO_T60S_FSCH2_SchdPrio_setVal,
   DataAttribute (Some "setVal") &iedModel_GenericIO_T60S_FSCH2_SchdPrio NULL NULL 0 (-1) IEC61850_FC_SP IEC61850_INT32
     (0 + TRG_OPT_DATA_CHANGED) NULL 0);
  (iedModel_GenericIO_T60S_FSCH2_NumEntr,
   DataObject "NumEntr" &iedModel_GenericIO_T60S_FSCH2 &iedModel_GenericIO_T60S_FSCH2_SchdIntv &iedModel_GenericIO_T60S_FSCH2_NumEntr_setVal 0 (-1));
  (iedModel_GenericIO_T60S_FSCH2_NumEntr_setVal,
   DataAttribute (Some "setVal") &iedModel_GenericIO_T60S_FSCH2_NumEntr NULL NULL 0 (-1) IEC61850_FC_SP IEC61850_INT32
     (0 + TRG_OPT_DATA_CHANGED) NULL 0);
  (iedModel_GenericIO_T60S_FSCH2_SchdIntv,
   DataObject "SchdIntv" &iedModel_GenericIO_T60S_FSCH2 &iedModel_GenericIO_T60S_FSCH2_ValSPG1 &iedModel_GenericIO_T60S_FSCH2_SchdIntv_setVal 0 (-1));
  (iedModel_GenericIO_T60S_FSCH2_SchdIntv_setVal,
   DataAttribute (Some "setVal") &iedModel_GenericIO_T60S_FSCH2_SchdIntv NULL NULL 0 (-1) IEC61850_FC_SP IEC61850_INT32
     (0 + TRG_OPT_DATA_CHANGED) NULL 0);
  (iedModel_GenericIO_T60S_FSCH2_ValSPG1,
   DataObject "ValSPG1" &iedModel_GenericIO_T60S_FSCH2 &iedModel_GenericIO_T60S_FSCH2_ValSPG2 &iedModel_GenericIO_T60S_FSCH2_ValSPG1_setVal 0 (-1));
  (iedModel_GenericIO_T60S_FSCH2_ValSPG1_setVal,
   DataAttribute (Some "setVal") &iedModel_GenericIO_T60S_FSCH2_ValSPG1 NULL NULL 0 (-1) IEC61850_FC_SG IEC61850_BOOLEAN
     (0 + TRG_OPT_DATA_CHANGED) NULL 0)
].

Definition GenericIO_T60S_FSCH2_nodes11 : list (addr * ModelNode) := [
  (iedModel_GenericIO_T60S_FSCH2_ValSPG2,
   DataObject "ValSPG2" &iedModel_GenericIO_T60S_FSCH2 &iedModel_GenericIO_T60S_FSCH2_ValSPG3 &iedModel_GenericIO_T60S_FSCH2_ValSPG2_setVal 0 (-1));
  (iedModel_GenericIO_T60S_FSCH2_ValSPG2_setVal,
   DataAttribute (Some "setVal") &iedModel_GenericIO_T60S_FSCH2_ValSPG2 NULL NULL 0 (-1) IEC61850_FC_SG IEC61850_BOOLEAN
     (0 + TRG_OPT_DATA_CHANGED) NULL 0);
  (iedModel_GenericIO_T60S_FSCH2_ValSPG3,
   DataObject "ValSPG3" &iedModel_GenericIO_T60S_FSCH2 &iedModel_GenericIO_T60S_FSCH2_ValSPG4 &iedModel_GenericIO_T60S_FSCH2_ValSPG3_setVal 0 (-1));
  (iedModel_GenericIO_T60S_FSCH2_ValSPG3_setVal,
   DataAttribute (Some "setVal") &iedModel_GenericIO_T60S_FSCH2_ValSPG3 NULL NULL 0 (-1) IEC61850_FC_SG IEC61850_BOOLEAN
     (0 + TRG_OPT_DATA_CHANGED) NULL 0);
  (iedModel_GenericIO_T60S_FSCH2_ValSPG4,
   DataObject "ValSPG4" &iedModel_GenericIO_T60S_FSCH2 &iedModel_GenericIO_T60S_FSCH2_ValSPG5 &iedModel_GenericIO_T60S_FSCH2_ValSPG4_setVal 0 (-1));
  (iedModel_GenericIO_T60S_FSCH2_ValSPG4_setVal,
   DataAttribute (Some "setVal") &iedModel_GenericIO_T60S_FSCH2_ValSPG4 NULL NULL 0 (-1) IEC61850_FC_SG IEC61850_BOOLEAN
     (0 + TRG_OPT_DATA_CHANGED) NULL 0);
  (iedModel_GenericIO_T60S_FSCH2_ValSPG5,
   DataObject "ValSPG5" &iedModel_GenericIO_T60S_FSCH2 &iedModel_GenericIO_T60S_FSCH2_ValSPG6 &iedModel_GenericIO_T60S_FSCH2_ValSPG5_setVal 0 (-1));
  (iedModel_GenericIO_T60S_FSCH2_ValSPG5_setVal,
   DataAttribute (Some "setVal") &iedModel_GenericIO_T60S_FSCH2_ValSPG5 NULL NULL 0 (-1) IEC61850_FC_SG IEC61850_BOOLEAN
     (0 + TRG_OPT_DATA_CHANGED) NULL 0);
  (iedModel_GenericIO_T60S_FSCH2_ValSPG6,
   DataObject "ValSPG6" &iedModel_GenericIO_T60S_FSCH2 &iedModel_GenericIO_T60S_FSCH2_ValSPG7 &iedModel_GenericIO_T60S_FSCH2_ValSPG6_setVal 0 (-1));
  (iedModel_GenericIO_T60S_FSCH2_ValSPG6_setVal,
   DataAttribute (Some "setVal") &iedModel_GenericIO_T60S_FSCH2_ValSPG6 NULL NULL 0 (-1) IEC61850_FC_SG IEC61850_BOOLEAN
     (0 + TRG_OPT_DATA_CHANGED) NULL 0);
  (iedModel_GenericIO_T60S_FSCH2_ValSPG7,
   DataObject "ValSPG7" &iedModel_GenericIO_T60S_FSCH2 &iedModel_GenericIO_T60S_FSCH2_ValSPG8 &iedModel_GenericIO_T60S_FSCH2_ValSPG7_setVal 0 (-1));
  (iedModel_GenericIO_T60S_FSCH2_ValSPG7_setVal,
   DataAttribute (Some "setVal") &iedModel_GenericIO_T60S_FSCH2_ValSPG7 NULL NULL 0 (-1) IEC61850_FC_SG IEC61850_BOOLEAN
     (0 + TRG_OPT_DATA_CHANGED) NULL 0)
].

Definition GenericIO_T60S_FSCH2_nodes12 : list (addr * ModelNode) := [
  (iedModel_GenericIO_T60S_FSCH2_ValSPG8,
   DataObject "ValSPG8" &iedModel_GenericIO_T60S_FSCH2 &iedModel_GenericIO_T60S_FSCH2_ValSPG9 &iedModel_GenericIO_T60S_FSCH2_ValSPG8_setVal 0 (-1));
  (iedModel_GenericIO_T60S_FSCH2_ValSPG8_setVal,
   DataAttribute (Some "setVal") &iedModel_GenericIO_T60S_FSCH2_ValSPG8 NULL NULL 0 (-1) IEC61850_FC_SG IEC61850_BOOLEAN
     (0 + TRG_OPT_DATA_CHANGED) NULL 0);
  (iedModel_GenericIO_T60S_FSCH2_ValSPG9,
   DataObject "ValSPG9" &iedModel_GenericIO_T60S_FSCH2 &iedModel_GenericIO_T60S_FSCH2_ValSPG10 &iedModel_GenericIO_T60S_FSCH2_ValSPG9_setVal 0 (-1));
  (iedModel_GenericIO_T60S_FSCH2_ValSPG9_setVal,
   DataAttribute (Some "setVal") &iedModel_GenericIO_T60S_FSCH2_ValSPG9 NULL NULL 0 (-1) IEC61850_FC_SG IEC61850_BOOLEAN
     (0 + TRG_OPT_DATA_CHANGED) NULL 0);
  (iedModel_GenericIO_T60S_FSCH2_ValSPG10,
   DataObject "ValSPG10" &iedModel_GenericIO_T60S_FSCH2 &iedModel_GenericIO_T60S_FSCH2_ValSPG11 &iedModel_GenericIO_T60S_FSCH2_ValSPG10_setVal 0 (-1));
  (iedModel_GenericIO_T60S_FSCH2_ValSPG10_setVal,
   DataAttribute (Some "setVal") &iedModel_GenericIO_T60S_FSCH2_ValSPG10 NULL NULL 0 (-1) IEC61850_FC_SG IEC61850_BOOLEAN
     (0 + TRG_OPT_DATA_CHANGED) NULL 0);
  (iedModel_GenericIO_T60S_FSCH2_ValSPG11,
   DataObject "ValSPG11" &iedModel_GenericIO_T60S_FSCH2 &iedModel_GenericIO_T60S_FSCH2_ValSPG12 &iedModel_GenericIO_T60S_FSCH2_ValSPG11_setVal 0 (-1));
  (iedModel_GenericIO_T60S_FSCH2_ValSPG11_setVal,
   DataAttribute (Some "setVal") &iedModel_GenericIO_T60S_FSCH2_ValSPG11 NULL NULL 0 (-1) IEC61850_FC_SG IEC61850_BOOLEAN
     (0 + TRG_OPT_DATA_CHANGED) NULL 0);
  (iedModel_GenericIO_T60S_FSCH2_ValSPG12,
   DataObject "ValSPG12" &iedModel_GenericIO_T60S_FSCH2 &iedModel_GenericIO_T60S_FSCH2_ValSPG13 &iedModel_GenericIO_T60S_FSCH2_ValSPG12_setVal 0 (-1));
  (iedModel_GenericIO_T60S_FSCH2_ValSPG12_setVal,
   DataAttribute (Some "setVal") &iedModel_GenericIO_T60S_FSCH2_ValSPG12 NULL NULL 0 (-1) IEC61850_FC_SG IEC61850_BOOLEAN
     (0 + TRG_OPT_DATA_CHANGED) NULL 0);
  (iedModel_GenericIO_T60S_FSCH2_ValSPG13,
   DataObject "ValSPG13" &iedModel_GenericIO_T60S_FSCH2 &iedModel_GenericIO_T60S_FSCH2_ValSPG14 &iedModel_GenericIO_T60S_FSCH2_ValSPG13_setVal 0 (-1));
  (iedModel_GenericIO_T60S_FSCH2_ValSPG13_setVal,
   DataAttribute (Some "setVal") &iedModel_GenericIO_T60S_FSCH2_ValSPG13 NULL NULL 0 (-1) IEC61850_FC_SG IEC61850_BOOLEAN
     (0 + TRG_OPT_DATA_CHANGED) NULL 0)
].

Definition GenericIO_T60S_FSCH2_nodes13 : list (addr * ModelNode) := [
  (iedModel_GenericIO_T60S_FSCH2_ValSPG14,
   DataObject "ValSPG14" &iedModel_GenericIO_T60S_FSCH2 &iedModel_GenericIO_T60S_FSCH2_ValSPG15 &iedModel_GenericIO_T60S_FSCH2_ValSPG14_setVal 0 (-1));
  (iedModel_GenericIO_T60S_FSCH2_ValSPG14_setVal,
   DataAttribute (Some "setVal") &iedModel_GenericIO_T60S_FSCH2_ValSPG14 NULL NULL 0 (-1) IEC61850_FC_SG IEC61850_BOOLEAN
     (0 + TRG_OPT_DATA_CHANGED) NULL 0);
  (iedModel_GenericIO_T60S_FSCH2_ValSPG15,
   DataObject "ValSPG15" &iedModel_GenericIO_T60S_FSCH2 &iedModel_GenericIO_T60S_FSCH2_ValSPG16 &iedModel_GenericIO_T60S_FSCH2_ValSPG15_setVal 0 (-1));
  (iedModel_GenericIO_T60S_FSCH2_ValSPG15_setVal,
   DataAttribute (Some "setVal") &iedModel_GenericIO_T60S_FSCH2_ValSPG15 NULL NULL 0 (-1) IEC61850_FC_SG IEC61850_BOOLEAN
     (0 + TRG_OPT_DATA_CHANGED) NULL 0);
  (iedModel_GenericIO_T60S_FSCH2_ValSPG16,
   DataObject "ValSPG16" &iedModel_GenericIO_T60S_FSCH2 &iedModel_GenericIO_T60S_FSCH2_ValSPG17 &iedModel_GenericIO_T60S_FSCH2_ValSPG16_setVal 0 (-1));
  (iedModel_GenericIO_T60S_FSCH2_ValSPG16_setVal,
   DataAttribute (Some "setVal") &iedModel_GenericIO_T60S_FSCH2_ValSPG16 NULL NULL 0 (-1) IEC61850_FC_SG IEC61850_BOOLEAN
     (0 + TRG_OPT_DATA_CHANGED) NULL 0);
  (iedModel_GenericIO_T60S_FSCH2_ValSPG17,
   DataObject "ValSPG17" &iedModel_GenericIO_T60S_FSCH2 &iedModel_GenericIO_T60S_FSCH2_ValSPG18 &iedModel_GenericIO_T60S_FSCH2_ValSPG17_setVal 0 (-1));
  (iedModel_GenericIO_T60S_FSCH2_ValSPG17_setVal,
   DataAttribute (Some "setVal") &iedModel_GenericIO_T60S_FSCH2_ValSPG17 NULL NULL 0 (-1) IEC61850_FC_SG IEC61850_BOOLEAN
     (0 + TRG_OPT_DATA_CHANGED) NULL 0);
  (iedModel_GenericIO_T60S_FSCH2_ValSPG18,
   DataObject "ValSPG18" &iedModel_GenericIO_T60S_FSCH2 &iedModel_GenericIO_T60S_FSCH2_ValSPG19 &iedModel_GenericIO_T60S_FSCH2_ValSPG18_setVal 0 (-1));
  (iedModel_GenericIO_T60S_FSCH2_ValSPG18_setVal,
   DataAttribute (Some "setVal") &iedModel_GenericIO_T60S_FSCH2_ValSPG18 NULL NULL 0 (-1) IEC61850_FC_SG IEC61850_BOOLEAN
     (0 + TRG_OPT_DATA_CHANGED) NULL 0);
  (iedModel_GenericIO_T60S_FSCH2_ValSPG19,
   DataObject "ValSPG19" &iedModel_GenericIO_T60S_FSCH2 &iedModel_GenericIO_T60S_FSCH2_ValSPG20 &iedModel_GenericIO_T60S_FSCH2_ValSPG19_setVal 0 (-1));
  (iedModel_GenericIO_T60S_FSCH2_ValSPG19_setVal,
   DataAttribute (Some "setVal") &iedModel_GenericIO_T60S_FSCH2_ValSPG19 NULL NULL 0 (-1) IEC61850_FC_SG IEC61850_BOOLEAN
     (0 + TRG_OPT_DATA_CHANGED) NULL 0)
].

Definition GenericIO_T60S_FSCH2_nodes14 : list (addr * ModelNode) := [
  (iedModel_GenericIO_T60S_FSCH2_ValSPG20,
   DataObject "ValSPG20" &iedModel_GenericIO_T60S_FSCH2 &iedModel_GenericIO_T60S_FSCH2_ValSPG21 &iedModel_GenericIO_T60S_FSCH2_ValSPG20_setVal 0 (-1));
  (iedModel_GenericIO_T60S_FSCH2_ValSPG20_setVal,
   DataAttribute (Some "setVal") &iedModel_GenericIO_T60S_FSCH2_ValSPG20 NULL NULL 0 (-1) IEC61850_FC_SG IEC61850_BOOLEAN
     (0 + TRG_OPT_DATA_CHANGED) NULL 0);
  (iedModel_GenericIO_T60S_FSCH2_ValSPG21,
   DataObject "ValSPG21" &iedModel_GenericIO_T60S_FSCH2 &iedModel_GenericIO_T60S_FSCH2_ValSPG22 &iedModel_GenericIO_T60S_FSCH2_ValSPG21_setVal 0 (-1));
  (iedModel_GenericIO_T60S_FSCH2_ValSPG21_setVal,
   DataAttribute (Some "setVal") &iedModel_GenericIO_T60S_FSCH2_ValSPG21 NULL NULL 0 (-1) IEC61850_FC_SG IEC61850_BOOLEAN
     (0 + TRG_OPT_DATA_CHANGED) NULL 0);
  (iedModel_GenericIO_T60S_FSCH2_ValSPG22,
   DataObject "ValSPG22" &iedModel_GenericIO_T60S_FSCH2 &iedModel_GenericIO_T60S_FSCH2_ValSPG23 &iedModel_GenericIO_T60S_FSCH2_ValSPG22_setVal 0 (-1));
  (iedModel_GenericIO_T60S_FSCH2_ValSPG22_setVal,
   DataAttribute (Some "setVal") &iedModel_GenericIO_T60S_FSCH2_ValSPG22 NULL NULL 0 (-1) IEC61850_FC_SG IEC61850_BOOLEAN
     (0 + TRG_OPT_DATA_CHANGED) NULL 0);
  (iedModel_GenericIO_T60S_FSCH2_ValSPG23,
   DataObject "ValSPG23" &iedModel_GenericIO_T60S_FSCH2 &iedModel_GenericIO_T60S_FSCH2_ValSPG24 &iedModel_GenericIO_T60S_FSCH2_ValSPG23_setVal 0 (-1));
  (iedModel_GenericIO_T60S_FSCH2_ValSPG23_setVal,
   DataAttribute (Some "setVal") &iedModel_GenericIO_T60S_FSCH2_ValSPG23 NULL NULL 0 (-1) IEC61850_FC_SG IEC61850_BOOLEAN
     (0 + TRG_OPT_DATA_CHANGED) NULL 0);
  (iedModel_GenericIO_T60S_FSCH2_ValSPG24,
   DataObject "ValSPG24" &iedModel_GenericIO_T60S_FSCH2 &iedModel_GenericIO_T60S_FSCH2_ValSPG25 &iedModel_GenericIO_T60S_FSCH2_ValSPG24_setVal 0 (-1));
  (iedModel_GenericIO_T60S_FSCH2_ValSPG24_setVal,
   DataAttribute (Some "setVal") &iedModel_GenericIO_T60S_FSCH2_ValSPG24 NULL NULL 0 (-1) IEC61850_FC_SG IEC61850_BOOLEAN
     (0 + TRG_OPT_DATA_CHANGED) NULL 0);
  (iedModel_GenericIO_T60S_FSCH2_ValSPG25,
   DataObject "ValSPG25" &iedModel_GenericIO_T60S_FSCH2 &iedModel_GenericIO_T60S_FSCH2_ValSPG26 &iedModel_GenericIO_T60S_FSCH2_ValSPG25_setVal 0 (-1));
  (iedModel_GenericIO_T60S_FSCH2_ValSPG25_setVal,
   DataAttribute (Some "setVal") &iedModel_GenericIO_T60S_FSCH2_ValSPG25 NULL NULL 0 (-1) IEC61850_FC_SG IEC61850_BOOLEAN
     (0 + TRG_OPT_DATA_CHANGED) NULL 0)
].

Definition GenericIO_T60S_FSCH2_nodes15 : list (addr * ModelNode) := [
  (iedModel_GenericIO_T60S_FSCH2_ValSPG26,
   DataObject "ValSPG26" &iedModel_GenericIO_T60S_FSCH2 &iedModel_GenericIO_T60S_FSCH2_ValSPG27 &iedModel_GenericIO_T60S_FSCH2_ValSPG26_setVal 0 (-1));
  (iedModel_GenericIO_T60S_FSCH2_ValSPG26_setVal,
   DataAttribute (Some "setVal") &iedModel_GenericIO_T60S_FSCH2_ValSPG26 NULL NULL 0 (-1) IEC61850_FC_SG IEC61850_BOOLEAN
     (0 + TRG_OPT_DATA_CHANGED) NULL 0);
  (iedModel_GenericIO_T60S_FSCH2_ValSPG27,
   DataObject "ValSPG27" &iedModel_GenericIO_T60S_FSCH2 &iedModel_GenericIO_T60S_FSCH2_ValSPG28 &iedModel_GenericIO_T60S_FSCH2_ValSPG27_setVal 0 (-1));
  (iedModel_GenericIO_T60S_FSCH2_ValSPG27_setVal,
   DataAttribute (Some "setVal") &iedModel_GenericIO_T60S_FSCH2_ValSPG27 NULL NULL 0 (-1) IEC61850_FC_SG IEC61850_BOOLEAN
     (0 + TRG_OPT_DATA_CHANGED) NULL 0);
  (iedModel_GenericIO_T60S_FSCH2_ValSPG28,
   DataObject "ValSPG28" &iedModel_GenericIO_T60S_FSCH2 &iedModel_GenericIO_T60S_FSCH2_ValSPG29 &iedModel_GenericIO_T60S_FSCH2_ValSPG28_setVal 0 (-1));
  (iedModel_GenericIO_T60S_FSCH2_ValSPG28_setVal,
   DataAttribute (Some "setVal") &iedModel_GenericIO_T60S_FSCH2_ValSPG28 NULL NULL 0 (-1) IEC61850_FC_SG IEC61850_BOOLEAN
     (0 + TRG_OPT_DATA_CHANGED) NULL 0);
  (iedModel_GenericIO_T60S_FSCH2_ValSPG29,
   DataObject "ValSPG29" &iedModel_GenericIO_T60S_FSCH2 &iedModel_GenericIO_T60S_FSCH2_ValSPG30 &iedModel_GenericIO_T60S_FSCH2_ValSPG29_setVal 0 (-1));
  (iedModel_GenericIO_T60S_FSCH2_ValSPG29_setVal,
   DataAttribute (Some "setVal") &iedModel_GenericIO_T60S_FSCH2_ValSPG29 NULL NULL 0 (-1) IEC61850_FC_SG IEC61850_BOOLEAN
     (0 + TRG_OPT_DATA_CHANGED) NULL 0);
  (iedModel_GenericIO_T60S_FSCH2_ValSPG30,
   DataObject "ValSPG30" &iedModel_GenericIO_T60S_FSCH2 &iedModel_GenericIO_T60S_FSCH2_ValSPG31 &iedModel_GenericIO_T60S_FSCH2_ValSPG30_setVal 0 (-1));
  (iedModel_GenericIO_T60S_FSCH2_ValSPG30_setVal,
   DataAttribute (Some "setVal") &iedModel_GenericIO_T60S_FSCH2_ValSPG30 NULL NULL 0 (-1) IEC61850_FC_SG IEC61850_BOOLEAN
     (0 + TRG_OPT_DATA_CHANGED) NULL 0);
  (iedModel_GenericIO_T60S_FSCH2_ValSPG31,
   DataObject "ValSPG31" &iedModel_GenericIO_T60S_FSCH2 &iedModel_GenericIO_T60S_FSCH2_ValSPG32 &iedModel_GenericIO_T60S_FSCH2_ValSPG31_setVal 0 (-1));
  (iedModel_GenericIO_T60S_FSCH2_ValSPG31_setVal,
   DataAttribute (Some "setVal") &iedModel_GenericIO_T60S_FSCH2_ValSPG31 NULL NULL 0 (-1) IEC61850_FC_SG IEC61850_BOOLEAN
     (0 + TRG_OPT_DATA_CHANGED) NULL 0)
].

Definition GenericIO_T60S_FSCH2_nodes16 : list (addr * ModelNode) := [
  (iedModel_GenericIO_T60S_FSCH2_ValSPG32,
   DataObject "ValSPG32" &iedModel_GenericIO_T60S_FSCH2 &iedModel_GenericIO_T60S_FSCH2_ValSPG33 &iedModel_GenericIO_T60S_FSCH2_ValSPG32_setVal 0 (-1));
  (iedModel_GenericIO_T60S_FSCH2_ValSPG32_setVal,
   DataAttribute (Some "setVal") &iedModel_GenericIO_T60S_FSCH2_ValSPG32 NULL NULL 0 (-1) IEC61850_FC_SG IEC61850_BOOLEAN
     (0 + TRG_OPT_DATA_CHANGED) NULL 0);
  (iedModel_GenericIO_T60S_FSCH2_ValSPG33,
   DataObject "ValSPG33" &iedModel_GenericIO_T60S_FSCH2 &iedModel_GenericIO_T60S_FSCH2_ValSPG34 &iedModel_GenericIO_T60S_FSCH2_ValSPG33_setVal 0 (-1));
  (iedModel_GenericIO_T60S_FSCH2_ValSPG33_setVal,
   DataAttribute (Some "setVal") &iedModel_GenericIO_T60S_FSCH2_ValSPG33 NULL NULL 0 (-1) IEC61850_FC_SG IEC61850_BOOLEAN
     (0 + TRG_OPT_DATA_CHANGED) NULL 0);
  (iedModel_GenericIO_T60S_FSCH2_ValSPG34,
   DataObject "ValSPG34" &iedModel_GenericIO_T60S_FSCH2 &iedModel_GenericIO_T60S_FSCH2_ValSPG35 &iedModel_GenericIO_T60S_FSCH2_ValSPG34_setVal 0 (-1));
  (iedModel_GenericIO_T60S_FSCH2_ValSPG34_setVal,
   DataAttribute (Some "setVal") &iedModel_GenericIO_T60S_FSCH2_ValSPG34 NULL NULL 0 (-1) IEC61850_FC_SG IEC61850_BOOLEAN
     (0 + TRG_OPT_DATA_CHANGED) NULL 0);
  (iedModel_GenericIO_T60S_FSCH2_ValSPG35,
   DataObject "ValSPG35" &iedModel_GenericIO_T60S_FSCH2 &iedModel_GenericIO_T60S_FSCH2_ValSPG36 &iedModel_GenericIO_T60S_FSCH2_ValSPG35_setVal 0 (-1));
  (iedModel_GenericIO_T60S_FSCH2_ValSPG35_setVal,
   DataAttribute (Some "setVal") &iedModel_GenericIO_T60S_FSCH2_ValSPG35 NULL NULL 0 (-1) IEC61850_FC_SG IEC61850_BOOLEAN
     (0 + TRG_OPT_DATA_CHANGED) NULL 0);
  (iedModel_GenericIO_T60S_FSCH2_ValSPG36,
   DataObject "ValSPG36" &iedModel_GenericIO_T60S_FSCH2 &iedModel_GenericIO_T60S_FSCH2_ValSPG37 &iedModel_GenericIO_T60S_FSCH2_ValSPG36_setVal 0 (-1));
  (iedModel_GenericIO_T60S_FSCH2_ValSPG36_setVal,
   DataAttribute (Some "setVal") &iedModel_GenericIO_T60S_FSCH2_ValSPG36 NULL NULL 0 (-1) IEC61850_FC_SG IEC61850_BOOLEAN
     (0 + TRG_OPT_DATA_CHANGED) NULL 0);
  (iedModel_GenericIO_T60S_FSCH2_ValSPG37,
   DataObject "ValSPG37" &iedModel_GenericIO_T60S_FSCH2 &iedModel_GenericIO_T60S_FSCH2_ValSPG38 &iedModel_GenericIO_T60S_FSCH2_ValSPG37_setVal 0 (-1));
  (iedModel_GenericIO_T60S_FSCH2_ValSPG37_setVal,
   DataAttribute (Some "setVal") &iedModel_GenericIO_T60S_FSCH2_ValSPG37 NULL NULL 0 (-1) IEC61850_FC_SG IEC61850_BOOLEAN
     (0 + TRG_OPT_DATA_CHANGED) NULL 0)
].

Definition GenericIO_T60S_FSCH2_nodes17 : list (addr * ModelNode) := [
  (iedModel_GenericIO_T60S_FSCH2_ValSPG38,
   DataObject "ValSPG38" &iedModel_GenericIO_T60S_FSCH2 &iedModel_GenericIO_T60S_FSCH2_ValSPG39 &iedModel_GenericIO_T60S_FSCH2_ValSPG38_setVal 0 (-1));
  (iedModel_GenericIO_T60S_FSCH2_ValSPG38_setVal,
   DataAttribute (Some "setVal") &iedModel_GenericIO_T60S_FSCH2_ValSPG38 NULL NULL 0 (-1) IEC61850_FC_SG IEC61850_BOOLEAN
     (0 + TRG_OPT_DATA_CHANGED) NULL 0);
  (iedModel_GenericIO_T60S_FSCH2_ValSPG39,
   DataObject "ValSPG39" &iedModel_GenericIO_T60S_FSCH2 &iedModel_GenericIO_T60S_FSCH2_ValSPG40 &iedModel_GenericIO_T60S_FSCH2_ValSPG39_setVal 0 (-1));
  (iedModel_GenericIO_T60S_FSCH2_ValSPG39_setVal,
   DataAttribute (Some "setVal") &iedModel_GenericIO_T60S_FSCH2_ValSPG39 NULL NULL 0 (-1) IEC61850_FC_SG IEC61850_BOOLEAN
     (0 + TRG_OPT_DATA_CHANGED) NULL 0);
  (iedModel_GenericIO_T60S_FSCH2_ValSPG40,
   DataObject "ValSPG40" &iedModel_GenericIO_T60S_FSCH2 &iedModel_GenericIO_T60S_FSCH2_ValSPG41 &iedModel_GenericIO_T60S_FSCH2_ValSPG40_setVal 0 (-1));
  (iedModel_GenericIO_T60S_FSCH2_ValSPG40_setVal,
   DataAttribute (Some "setVal") &iedModel_GenericIO_T60S_FSCH2_ValSPG40 NULL NULL 0 (-1) IEC61850_FC_SG IEC61850_BOOLEAN
     (0 + TRG_OPT_DATA_CHANGED) NULL 0);
  (iedModel_GenericIO_T60S_FSCH2_ValSPG41,
   DataObject "ValSPG41" &iedModel_GenericIO_T60S_FSCH2 &iedModel_GenericIO_T60S_FSCH2_ValSPG42 &iedModel_GenericIO_T60S_FSCH2_ValSPG41_setVal 0 (-1));
  (iedModel_GenericIO_T60S_FSCH2_ValSPG41_setVal,
   DataAttribute (Some "setVal") &iedModel_GenericIO_T60S_FSCH2_ValSPG41 NULL NULL 0 (-1) IEC61850_FC_SG IEC61850_BOOLEAN
     (0 + TRG_OPT_DATA_CHANGED) NULL 0);
  (iedModel_GenericIO_T60S_FSCH2_ValSPG42,
   DataObject "ValSPG42" &iedModel_GenericIO_T60S_FSCH2 &iedModel_GenericIO_T60S_FSCH2_ValSPG43 &iedModel_GenericIO_T60S_FSCH2_ValSPG42_setVal 0 (-1));
  (iedModel_GenericIO_T60S_FSCH2_ValSPG42_setVal,
   DataAttribute (Some "setVal") &iedModel_GenericIO_T60S_FSCH2_ValSPG42 NULL NULL 0 (-1) IEC61850_FC_SG IEC61850_BOOLEAN
     (0 + TRG_OPT_DATA_CHANGED) NULL 0);
  (iedModel_GenericIO_T60S_FSCH2_ValSPG43,
   DataObject "ValSPG43" &iedModel_GenericIO_T60S_FSCH2 &iedModel_GenericIO_T60S_FSCH2_ValSPG44 &iedModel_GenericIO_T60S_FSCH2_ValSPG43_setVal 0 (-1));
  (iedModel_GenericIO_T60S_FSCH2_ValSPG43_setVal,
   DataAttribute (Some "setVal") &iedModel_GenericIO_T60S_FSCH2_ValSPG43 NULL NULL 0 (-1) IEC61850_FC_SG IEC61850_BOOLEAN
     (0 + TRG_OPT_DATA_CHANGED) NULL 0)
].

Definition GenericIO_T60S_FSCH2_nodes18 : list (addr * ModelNode) := [
  (iedModel_GenericIO_T60S_FSCH2_ValSPG44,
   DataObject "ValSPG44" &iedModel_GenericIO_T60S_FSCH2 &iedModel_GenericIO_T60S_FSCH2_ValSPG45 &iedModel_GenericIO_T60S_FSCH2_ValSPG44_setVal 0 (-1));
  (iedModel_GenericIO_T60S_FSCH2_ValSPG44_setVal,
   DataAttribute (Some "setVal") &iedModel_GenericIO_T60S_FSCH2_ValSPG44 NULL NULL 0 (-1) IEC61850_FC_SG IEC61850_BOOLEAN
     (0 + TRG_OPT_DATA_CHANGED) NULL 0);
  (iedModel_GenericIO_T60S_FSCH2_ValSPG45,
   DataObject "ValSPG45" &iedModel_GenericIO_T60S_FSCH2 &iedModel_GenericIO_T60S_FSCH2_ValSPG46 &iedModel_GenericIO_T60S_FSCH2_ValSPG45_setVal 0 (-1));
  (iedModel_GenericIO_T60S_FSCH2_ValSPG45_setVal,
   DataAttribute (Some "setVal") &iedModel_GenericIO_T60S_FSCH2_ValSPG45 NULL NULL 0 (-1) IEC61850_FC_SG IEC61850_BOOLEAN
     (0 + TRG_OPT_DATA_CHANGED) NULL 0);
  (iedModel_GenericIO_T60S_FSCH2_ValSPG46,
   DataObject "ValSPG46" &iedModel_GenericIO_T60S_FSCH2 &iedModel_GenericIO_T60S_FSCH2_ValSPG47 &iedModel_GenericIO_T60S_FSCH2_ValSPG46_setVal 0 (-1));
  (iedModel_GenericIO_T60S_FSCH2_ValSPG46_setVal,
   DataAttribute (Some "setVal") &iedModel_GenericIO_T60S_FSCH2_ValSPG46 NULL NULL 0 (-1) IEC61850_FC_SG IEC61850_BOOLEAN
     (0 + TRG_OPT_DATA_CHANGED) NULL 0);
  (iedModel_GenericIO_T60S_FSCH2_ValSPG47,
   DataObject "ValSPG47" &iedModel_GenericIO_T60S_FSCH2 &iedModel_GenericIO_T60S_FSCH2_ValSPG48 &iedModel_GenericIO_T60S_FSCH2_ValSPG47_setVal 0 (-1));
  (iedModel_GenericIO_T60S_FSCH2_ValSPG47_setVal,
   DataAttribute (Some "setVal") &iedModel_GenericIO_T60S_FSCH2_ValSPG47 NULL NULL 0 (-1) IEC61850_FC_SG IEC61850_BOOLEAN
     (0 + TRG_OPT_DATA_CHANGED) NULL 0);
  (iedModel_GenericIO_T60S_FSCH2_ValSPG48,
   DataObject "ValSPG48" &iedModel_GenericIO_T60S_FSCH2 &iedModel_GenericIO_T60S_FSCH2_ValSPG49 &iedModel_GenericIO_T60S_FSCH2_ValSPG48_setVal 0 (-1));
  (iedModel_GenericIO_T60S_FSCH2_ValSPG48_setVal,
   DataAttribute (Some "setVal") &iedModel_GenericIO_T60S_FSCH2_ValSPG48 NULL NULL 0 (-1) IEC61850_FC_SG IEC61850_BOOLEAN
     (0 + TRG_OPT_DATA_CHANGED) NULL 0);
  (iedModel_GenericIO_T60S_FSCH2_ValSPG49,
   DataObject "ValSPG49" &iedModel_GenericIO_T60S_FSCH2 &iedModel_GenericIO_T60S_FSCH2_ValSPG50 &iedModel_GenericIO_T60S_FSCH2_ValSPG49_setVal 0 (-1));
  (iedModel_GenericIO_T60S_FSCH2_ValSPG49_setVal,
   DataAttribute (Some "setVal") &iedModel_GenericIO_T60S_FSCH2_ValSPG49 NULL NULL 0 (-1) IEC61850_FC_SG IEC61850_BOOLEAN
     (0 + TRG_OPT_DATA_CHANGED) NULL 0)
].

Definition GenericIO_T60S_FSCH2_nodes19 : list (addr * ModelNode) := [
  (iedModel_GenericIO_T60S_FSCH2_ValSPG50,
   DataObject "ValSPG50" &iedModel_GenericIO_T60S_FSCH2 &iedModel_GenericIO_T60S_FSCH2_ValSPG51 &iedModel_GenericIO_T60S_FSCH2_ValSPG50_setVal 0 (-1));
  (iedModel_GenericIO_T60S_FSCH2_ValSPG50_setVal,
   DataAttribute (Some "setVal") &iedModel_GenericIO_T60S_FSCH2_ValSPG50 NULL NULL 0 (-1) IEC61850_FC_SG IEC61850_BOOLEAN
     (0 + TRG_OPT_DATA_CHANGED) NULL 0);
  (iedModel_GenericIO_T60S_FSCH2_ValSPG51,
   DataObject "ValSPG51" &iedModel_GenericIO_T60S_FSCH2 &iedModel_GenericIO_T60S_FSCH2_ValSPG52 &iedModel_GenericIO_T60S_FSCH2_ValSPG51_setVal 0 (-1));
  (iedModel_GenericIO_T60S_FSCH2_ValSPG51_setVal,
   DataAttribute (Some "setVal") &iedModel_GenericIO_T60S_FSCH2_ValSPG51 NULL NULL 0 (-1) IEC61850_FC_SG IEC61850_BOOLEAN
     (0 + TRG_OPT_DATA_CHANGED) NULL 0);
  (iedModel_GenericIO_T60S_FSCH2_ValSPG52,
   DataObject "ValSPG52" &iedModel_GenericIO_T60S_FSCH2 &iedModel_GenericIO_T60S_FSCH2_ValSPG53 &iedModel_GenericIO_T60S_FSCH2_ValSPG52_setVal 0 (-1));
  (iedModel_GenericIO_T60S_FSCH2_ValSPG52_setVal,
   DataAttribute (Some "setVal") &iedModel_GenericIO_T60S_FSCH2_ValSPG52 NULL NULL 0 (-1) IEC61850_FC_SG IEC61850_BOOLEAN
     (0 + TRG_OPT_DATA_CHANGED) NULL 0);
  (iedModel_GenericIO_T60S_FSCH2_ValSPG53,
   DataObject "ValSPG53" &iedModel_GenericIO_T60S_FSCH2 &iedModel_GenericIO_T60S_FSCH2_ValSPG54 &iedModel_GenericIO_T60S_FSCH2_ValSPG53_setVal 0 (-1));
  (iedModel_GenericIO_T60S_FSCH2_ValSPG53_setVal,
   DataAttribute (Some "setVal") &iedModel_GenericIO_T60S_FSCH2_ValSPG53 NULL NULL 0 (-1) IEC61850_FC_SG IEC61850_BOOLEAN
     (0 + TRG_OPT_DATA_CHANGED) NULL 0);
  (iedModel_GenericIO_T60S_FSCH2_ValSPG54,
   DataObject "ValSPG54" &iedModel_GenericIO_T60S_FSCH2 &iedModel_GenericIO_T60S_FSCH2_ValSPG55 &iedModel_GenericIO_T60S_FSCH2_ValSPG54_setVal 0 (-1));
  (iedModel_GenericIO_T60S_FSCH2_ValSPG54_setVal,
   DataAttribute (Some "setVal") &iedModel_GenericIO_T60S_FSCH2_ValSPG54 NULL NULL 0 (-1) IEC61850_FC_SG IEC61850_BOOLEAN
     (0 + TRG_OPT_DATA_CHANGED) NULL 0);
  (iedModel_GenericIO_T60S_FSCH2_ValSPG55,
   DataObject "ValSPG55" &iedModel_GenericIO_T60S_FSCH2 &iedModel_GenericIO_T60S_FSCH2_ValSPG56 &iedModel_GenericIO_T60S_FSCH2_ValSPG55_setVal 0 (-1));
  (iedModel_GenericIO_T60S_FSCH2_ValSPG55_setVal,
   DataAttribute (Some "setVal") &iedModel_GenericIO_T60S_FSCH2_ValSPG55 NULL NULL 0 (-1) IEC61850_FC_SG IEC61850_BOOLEAN
     (0 + TRG_OPT_DATA_CHANGED) NULL 0)
].

Definition GenericIO_T60S_FSCH2_nodes20 : list (addr * ModelNode) := [
  (iedModel_GenericIO_T60S_FSCH2_ValSPG56,
   DataObject "ValSPG56" &iedModel_GenericIO_T60S_FSCH2 &iedModel_GenericIO_T60S_FSCH2_ValSPG57 &iedModel_GenericIO_T60S_FSCH2_ValSPG56_setVal 0 (-1));
  (iedModel_GenericIO_T60S_FSCH2_ValSPG56_setVal,
   DataAttribute (Some "setVal") &iedModel_GenericIO_T60S_FSCH2_ValSPG56 NULL NULL 0 (-1) IEC61850_FC_SG IEC61850_BOOLEAN
     (0 + TRG_OPT_DATA_CHANGED) NULL 0);
  (iedModel_GenericIO_T60S_FSCH2_ValSPG57,
   DataObject "ValSPG57" &iedModel_GenericIO_T60S_FSCH2 &iedModel_GenericIO_T60S_FSCH2_ValSPG58 &iedModel_GenericIO_T60S_FSCH2_ValSPG57_setVal 0 (-1));
  (iedModel_GenericIO_T60S_FSCH2_ValSPG57_setVal,
   DataAttribute (Some "setVal") &iedModel_GenericIO_T60S_FSCH2_ValSPG57 NULL NULL 0 (-1) IEC61850_FC_SG IEC61850_BOOLEAN
     (0 + TRG_OPT_DATA_CHANGED) NULL 0);
  (iedModel_GenericIO_T60S_FSCH2_ValSPG58,
   DataObject "ValSPG58" &iedModel_GenericIO_T60S_FSCH2 &iedModel_GenericIO_T60S_FSCH2_ValSPG59 &iedModel_GenericIO_T60S_FSCH2_ValSPG58_setVal 0 (-1));
  (iedModel_GenericIO_T60S_FSCH2_ValSPG58_setVal,
   DataAttribute (Some "setVal") &iedModel_GenericIO_T60S_FSCH2_ValSPG58 NULL NULL 0 (-1) IEC61850_FC_SG IEC61850_BOOLEAN
     (0 + TRG_OPT_DATA_CHANGED) NULL 0);
  (iedModel_GenericIO_T60S_FSCH2_ValSPG59,
   DataObject "ValSPG59" &iedModel_GenericIO_T60S_FSCH2 &iedModel_GenericIO_T60S_FSCH2_ValSPG60 &iedModel_GenericIO_T60S_FSCH2_ValSPG59_setVal 0 (-1));
  (iedModel_GenericIO_T60S_FSCH2_ValSPG59_setVal,
   DataAttribute (Some "setVal") &iedModel_GenericIO_T60S_FSCH2_ValSPG59 NULL NULL 0 (-1) IEC61850_FC_SG IEC61850_BOOLEAN
     (0 + TRG_OPT_DATA_CHANGED) NULL 0);
  (iedModel_GenericIO_T60S_FSCH2_ValSPG60,
   DataObject "ValSPG60" &iedModel_GenericIO_T60S_FSCH2 &iedModel_GenericIO_T60S_FSCH2_StrTm &iedModel_GenericIO_T60S_FSCH2_ValSPG60_setVal 0 (-1));
  (iedModel_GenericIO_T60S_FSCH2_ValSPG60_setVal,
   DataAttribute (Some "setVal") &iedModel_GenericIO_T60S_FSCH2_ValSPG60 NULL NULL 0 (-1) IEC61850_FC_SG IEC61850_BOOLEAN
     (0 + TRG_OPT_DATA_CHANGED) NULL 0)
].

Definition GenericIO_T60S_FSCH2_nodes21 : list (addr * ModelNode) := [
  (iedModel_GenericIO_T60S_FSCH2_StrTm,
   DataObject "StrTm" &iedModel_GenericIO_T60S_FSCH2 &iedModel_GenericIO_T60S_FSCH2_IntvPer &iedModel_GenericIO_T60S_FSCH2_StrTm_setTm 0 (-1));
  (iedModel_GenericIO_T60S_FSCH2_StrTm_setTm,
   DataAttribute (Some "setTm") &iedModel_GenericIO_T60S_FSCH2_StrTm &iedModel_GenericIO_T60S_FSCH2_StrTm_setCal NULL 0 (-1) IEC61850_FC_SP IEC61850_TIMESTAMP
     (0 + TRG_OPT_DATA_CHANGED) NULL 0);
  (iedModel_GenericIO_T60S_FSCH2_StrTm_setCal,
   DataAttribute (Some "setCal") &iedModel_GenericIO_T60S_FSCH2_StrTm NULL &iedModel_GenericIO_T60S_FSCH2_StrTm_setCal_occ 0 (-1) IEC61850_FC_SP IEC61850_CONSTRUCTED
     (0 + TRG_OPT_DATA_CHANGED) NULL 0);
  (iedModel_GenericIO_T60S_FSCH2_StrTm_setCal_occ,
   DataAttribute (Some "occ") &iedModel_GenericIO_T60S_FSCH2_StrTm_setCal &iedModel_GenericIO_T60S_FSCH2_StrTm_setCal_occType NULL 0 (-1) IEC61850_FC_SP IEC61850_INT16U
     (0 + TRG_OPT_DATA_CHANGED) NULL 0);
  (iedModel_GenericIO_T60S_FSCH2_StrTm_setCal_occType,
   DataAttribute (Some "occType") &iedModel_GenericIO_T60S_FSCH2_StrTm_setCal &iedModel_GenericIO_T60S_FSCH2_StrTm_setCal_occPer NULL 0 (-1) IEC61850_FC_SP IEC61850_ENUMERATED
     (0 + TRG_OPT_DATA_CHANGED) NULL 0);
  (iedModel_GenericIO_T60S_FSCH2_StrTm_setCal_occPer,
   DataAttribute (Some "occPer") &iedModel_GenericIO_T60S_FSCH2_StrTm_setCal &iedModel_GenericIO_T60S_FSCH2_StrTm_setCal_weekDay NULL 0 (-1) IEC61850_FC_SP IEC61850_ENUMERATED
     (0 + TRG_OPT_DATA_CHANGED) NULL 0);
  (iedModel_GenericIO_T60S_FSCH2_StrTm_setCal_weekDay,
   DataAttribute (Some "weekDay") &iedModel_GenericIO_T60S_FSCH2_StrTm_setCal &iedModel_GenericIO_T60S_FSCH2_StrTm_setCal_month NULL 0 (-1) IEC61850_FC_SP IEC61850_ENUMERATED
     (0 + TRG_OPT_DATA_CHANGED) NULL 0);
  (iedModel_GenericIO_T60S_FSCH2_StrTm_setCal_month,
   DataAttribute (Some "month") &iedModel_GenericIO_T60S_FSCH2_StrTm_setCal &iedModel_GenericIO_T60S_FSCH2_StrTm_setCal_day NULL 0 (-1) IEC61850_FC_SP IEC61850_ENUMERATED
     (0 + TRG_OPT_DATA_CHANGED) NULL 0);
  (iedModel_GenericIO_T60S_FSCH2_StrTm_setCal_day,
   DataAttribute (Some "day") &iedModel_GenericIO_T60S_FSCH2_StrTm_setCal &iedModel_GenericIO_T60S_FSCH2_StrTm_setCal_hr NULL 0 (-1) IEC61850_FC_SP IEC61850_INT8U
     (0 + TRG_OPT_DATA_CHANGED) NULL 0);
  (iedModel_GenericIO_T60S_FSCH2_StrTm_setCal_hr,
   DataAttribute (Some "hr") &iedModel_GenericIO_T60S_FSCH2_StrTm_setCal &iedModel_GenericIO_T60S_FSCH2_StrTm_setCal_mn NULL 0 (-1) IEC61850_FC_SP IEC61850_INT8U
     (0 + TRG_OPT_DATA_CHANGED) NULL 0);
  (iedModel_GenericIO_T60S_FSCH2_StrTm_setCal_mn,
   DataAttribute (Some "mn") &iedModel_GenericIO_T60S_FSCH2_StrTm_setCal NULL NULL 0 (-1) IEC61850_FC_SP IEC61850_INT8U
     (0 + TRG_OPT_DATA_CHANGED) NULL 0)
].

Definition GenericIO_T60S_FSCH2_nodes22 : list (addr * ModelNode) := [
  (iedModel_GenericIO_T60S_FSCH2_IntvPer,
   DataObject "IntvPer" &iedModel_GenericIO_T60S_FSCH2 &iedModel_GenericIO_T60S_FSCH2_IntvTyp &iedModel_GenericIO_T60S_FSCH2_IntvPer_setVal 0 (-1));
  (iedModel_GenericIO_T60S_FSCH2_IntvPer_setVal,
   DataAttribute (Some "setVal") &iedModel_GenericIO_T60S_FSCH2_IntvPer NULL NULL 0 (-1) IEC61850_FC_SP IEC61850_INT32
     (0 + TRG_OPT_DATA_CHANGED) NULL 0);
  (iedModel_GenericIO_T60S_FSCH2_IntvTyp,
   DataObject "IntvTyp" &iedModel_GenericIO_T60S_FSCH2 &iedModel_GenericIO_T60S_FSCH2_SchdReuse &iedModel_GenericIO_T60S_FSCH2_IntvTyp_setVal 0 (-1));
  (iedModel_GenericIO_T60S_FSCH2_IntvTyp_setVal,
   DataAttribute (Some "setVal") &iedModel_GenericIO_T60S_FSCH2_IntvTyp NULL NULL 0 (-1) IEC61850_FC_SP IEC61850_ENUMERATED
     (0 + TRG_OPT_DATA_CHANGED) NULL 0);
  (iedModel_GenericIO_T60S_FSCH2_SchdReuse,
   DataObject "SchdReuse" &iedModel_GenericIO_T60S_FSCH2 NULL &iedModel_GenericIO_T60S_FSCH2_SchdReuse_setVal 0 (-1));
  (iedModel_GenericIO_T60S_FSCH2_SchdReuse_setVal,
   DataAttribute (Some "setVal") &iedModel_GenericIO_T60S_FSCH2_SchdReuse NULL NULL 0 (-1) IEC61850_FC_SG IEC61850_BOOLEAN
     (0 + TRG_OPT_DATA_CHANGED) NULL 0)
].

Definition GenericIO_GGIO_FSCC1_nodes1 : list (addr * ModelNode) := [
  (iedModel_GenericIO_GGIO_FSCC1,
   LogicalNode "GGIO_FSCC1" &iedModel_GenericIO NULL &iedModel_GenericIO_GGIO_FSCC1_Beh);
  (iedModel_GenericIO_GGIO_FSCC1_Beh,
   DataObject "Beh" &iedModel_GenericIO_GGIO_FSCC1 &iedModel_GenericIO_GGIO_FSCC1_ActSchdRef &iedModel_GenericIO_GGIO_FSCC1_Beh_stVal 0 (-1));
  (iedModel_GenericIO_GGIO_FSCC1_Beh_stVal,
   DataAttribute (Some "stVal") &iedModel_GenericIO_GGIO_FSCC1_Beh &iedModel_GenericIO_GGIO_FSCC1_Beh_q NULL 0 (-1) IEC61850_FC_ST IEC61850_ENUMERATED
     (0 + TRG_OPT_DATA_CHANGED) NULL 0);
  (iedModel_GenericIO_GGIO_FSCC1_Beh_q,
   DataAttribute (Some "q") &iedModel_GenericIO_GGIO_FSCC1_Beh &iedModel_GenericIO_GGIO_FSCC1_Beh_t NULL 0 (-1) IEC61850_FC_ST IEC61850_QUALITY
     (0 + TRG_OPT_QUALITY_CHANGED) NULL 0);
  (iedModel_GenericIO_GGIO_FSCC1_Beh_t,
   DataAttribute (Some "t") &iedModel_GenericIO_GGIO_FSCC1_Beh NULL NULL 0 (-1) IEC61850_FC_ST IEC61850_TIMESTAMP
     0 NULL 0);
  (iedModel_GenericIO_GGIO_FSCC1_ActSchdRef,
   DataObject "ActSchdRef" &iedModel_GenericIO_GGIO_FSCC1 &iedModel_GenericIO_GGIO_FSCC1_CtlEnt &iedModel_GenericIO_GGIO_FSCC1_ActSchdRef_stVal 0 (-1));
  (iedModel_GenericIO_GGIO_FSCC1_ActSchdRef_stVal,
   DataAttribute (Some "stVal") &iedModel_GenericIO_GGIO_FSCC1_ActSchdRef &iedModel_GenericIO_GGIO_FSCC1_ActSchdRef_q NULL 0 (-1) IEC61850_FC_ST IEC61850_VISIBLE_STRING_129
     (0 + TRG_OPT_DATA_CHANGED) NULL 0);
  (iedModel_GenericIO_GGIO_FSCC1_ActSchdRef_q,
   DataAttribute (Some "q") &iedModel_GenericIO_GGIO_FSCC1_ActSchdRef &iedModel_GenericIO_GGIO_FSCC1_ActSchdRef_t NULL 0 (-1) IEC61850_FC_ST IEC61850_QUALITY
     (0 + TRG_OPT_QUALITY_CHANGED) NULL 0);
  (iedModel_GenericIO_GGIO_FSCC1_ActSchdRef_t,
   DataAttribute (Some "t") &iedModel_GenericIO_GGIO_FSCC1_ActSchdRef NULL NULL 0 (-1) IEC61850_FC_ST IEC61850_TIMESTAMP
     0 NULL 0);
  (iedModel_GenericIO_GGIO_FSCC1_CtlEnt,
   DataObject "CtlEnt" &iedModel_GenericIO_GGIO_FSCC1 &iedModel_GenericIO_GGIO_FSCC1_Schd1 &iedModel_GenericIO_GGIO_FSCC1_CtlEnt_setSrcRef 0 (-1));
  (iedModel_GenericIO_GGIO_FSCC1_CtlEnt_setSrcRef,
   DataAttribute (Some "setSrcRef") &iedModel_GenericIO_GGIO_FSCC1_CtlEnt NULL NULL 0 (-1) IEC61850_FC_SP IEC61850_VISIBLE_STRING_129
     (0 + TRG_OPT_DATA_CHANGED) NULL 0)
].

Definition GenericIO_GGIO_FSCC1_nodes2 : list (addr * ModelNode) := [
  (iedModel_GenericIO_GGIO_FSCC1_Schd1,
   DataObject "Schd1" &iedModel_GenericIO_GGIO_FSCC1 &iedModel_GenericIO_GGIO_FSCC1_Schd2 &iedModel_GenericIO_GGIO_FSCC1_Schd1_setSrcRef 0 (-1));
  (iedModel_GenericIO_GGIO_FSCC1_Schd1_setSrcRef,
   DataAttribute (Some "setSrcRef") &iedModel_GenericIO_GGIO_FSCC1_Schd1 NULL NULL 0 (-1) IEC61850_FC_SP IEC61850_VISIBLE_STRING_129
     (0 + TRG_OPT_DATA_CHANGED) NULL 0);
  (iedModel_GenericIO_GGIO_FSCC1_Schd2,
   DataObject "Schd2" &iedModel_GenericIO_GGIO_FSCC1 NULL &iedModel_GenericIO_GGIO_FSCC1_Schd2_setSrcRef 0 (-1));
  (iedModel_GenericIO_GGIO_FSCC1_Schd2_setSrcRef,
   DataAttribute (Some "setSrcRef") &iedModel_GenericIO_GGIO_FSCC1_Schd2 NULL NULL 0 (-1) IEC61850_FC_SP IEC61850_VISIBLE_STRING_129
     (0 + TRG_OPT_DATA_CHANGED) NULL 0)
].

(** The memory of the static objects. *)
Definition static_nodes : list (addr * ModelNode) :=
  GenericIO_device ++
  GenericIO_LLN0_nodes1 ++
  GenericIO_LLN0_nodes2 ++
  GenericIO_LPHD1_nodes1 ++
  GenericIO_GGIO1_nodes1 ++
  GenericIO_GGIO1_nodes2 ++
  GenericIO_GGIO1_nodes3 ++
  GenericIO_GGIO1_nodes4 ++
  GenericIO_GGIO1_nodes5 ++
  GenericIO_GGIO1_nodes6 ++
  GenericIO_GGIO1_nodes7 ++
  GenericIO_GGIO1_nodes8 ++
  GenericIO_GGIO1_nodes9 ++
  GenericIO_GGIO1_nodes10 ++
  GenericIO_GGIO1_nodes11 ++
  GenericIO_GGIO1_nodes12 ++
  GenericIO_GGIO1_nodes13 ++
  GenericIO_GGIO1_nodes14 ++
  GenericIO_TIM_GAPC1_nodes1 ++
  GenericIO_TIM_GAPC1_nodes2 ++
  GenericIO_TIM_GAPC1_nodes3 ++
  GenericIO_TIM_GAPC1_nodes4 ++
  GenericIO_TIM_GAPC1_nodes5 ++
  GenericIO_T60S_FSCH1_nodes1 ++
  GenericIO_T60S_FSCH1_nodes2 ++
  GenericIO_T60S_FSCH1_nodes3 ++
  GenericIO_T60S_FSCH1_nodes4 ++
  GenericIO_T60S_FSCH1_nodes5 ++
  GenericIO_T60S_FSCH1_nodes6 ++
  GenericIO_T60S_FSCH1_nodes7 ++
  GenericIO_T60S_FSCH1_nodes8 ++
  GenericIO_T60S_FSCH1_nodes9 ++
  GenericIO_T60S_FSCH1_nodes10 ++
  GenericIO_T60S_FSCH1_nodes11 ++
  GenericIO_T60S_FSCH1_nodes12 ++
  GenericIO_T60S_FSCH1_nodes13 ++
  GenericIO_T60S_FSCH1_nodes14 ++
  GenericIO_T60S_FSCH1_nodes15 ++
  GenericIO_T60S_FSCH1_nodes16 ++
  GenericIO_T60S_FSCH1_nodes17 ++
  GenericIO_T60S_FSCH1_nodes18 ++
  GenericIO_T60S_FSCH1_nodes19 ++
  GenericIO_T60S_FSCH1_nodes20 ++
  GenericIO_T60S_FSCH1_nodes21 ++
  GenericIO_T60S_FSCH1_nodes22 ++
  GenericIO_T60S_FSCH2_nodes1 ++
  GenericIO_T60S_FSCH2_nodes2 ++
  GenericIO_T60S_FSCH2_nodes3 ++
  GenericIO_T60S_FSCH2_nodes4 ++
  GenericIO_T60S_FSCH2_nodes5 ++
  GenericIO_T60S_FSCH2_nodes6 ++
  GenericIO_T60S_FSCH2_nodes7 ++
  GenericIO_T60S_FSCH2_nodes8 ++
  GenericIO_T60S_FSCH2_nodes9 ++
  GenericIO_T60S_FSCH2_nodes10 ++
  GenericIO_T60S_FSCH2_nodes11 ++
  GenericIO_T60S_FSCH2_nodes12 ++
  GenericIO_T60S_FSCH2_nodes13 ++
  GenericIO_T60S_FSCH2_nodes14 ++
  GenericIO_T60S_FSCH2_nodes15 ++
  GenericIO_T60S_FSCH2_nodes16 ++
  GenericIO_T60S_FSCH2_nodes17 ++
  GenericIO_T60S_FSCH2_nodes18 ++
  GenericIO_T60S_FSCH2_nodes19 ++
  GenericIO_T60S_FSCH2_nodes20 ++
  GenericIO_T60S_FSCH2_nodes21 ++
  GenericIO_T60S_FSCH2_nodes22 ++
  GenericIO_GGIO_FSCC1_nodes1 ++
  GenericIO_GGIO_FSCC1_nodes2.

Definition static_heap : heap := list_to_map static_nodes.

(** ** The data set and the report control blocks *)

Definition static_entries : list (addr * DataSetEntry) := [
  (iedModelds_GenericIO_LLN0_Events_fcda0, Build_DataSetEntry "GenericIO" false "GGIO1$ST$SPCSO1$stVal" (-1) NULL NULL &iedModelds_GenericIO_LLN0_Events_fcda1);
  (iedModelds_GenericIO_LLN0_Events_fcda1, Build_DataSetEntry "GenericIO" false "GGIO1$ST$SPCSO2$stVal" (-1) NULL NULL &iedModelds_GenericIO_LLN0_Events_fcda2);
  (iedModelds_GenericIO_LLN0_Events_fcda2, Build_DataSetEntry "GenericIO" false "GGIO1$ST$SPCSO3$stVal" (-1) NULL NULL &iedModelds_GenericIO_LLN0_Events_fcda3);
  (iedModelds_GenericIO_LLN0_Events_fcda3, Build_DataSetEntry "GenericIO" false "GGIO1$ST$DPCSO1$stVal" (-1) NULL NULL NULL)
].

Definition static_dataSets : list (addr * DataSet) := [
  (iedModelds_GenericIO_LLN0_Events, Build_DataSet "GenericIO" "LLN0$Events" 4 &iedModelds_GenericIO_LLN0_Events_fcda0 NULL)
].

Definition static_rcbs : list (addr * ReportControlBlock) := [
  (iedModel_GenericIO_LLN0_report0, Build_ReportControlBlock iedModel_GenericIO_LLN0 "EventsRCB01" "Events1" false "Events" 1 88 239 50 1000
     [0; 0; 0; 0; 0; 0; 0; 0; 0; 0; 0; 0; 0; 0; 0; 0; 0] &iedModel_GenericIO_LLN0_report1);
  (iedModel_GenericIO_LLN0_report1, Build_ReportControlBlock iedModel_GenericIO_LLN0 "EventsRCB02" "Events1" false "Events" 1 88 239 50 1000
     [0; 0; 0; 0; 0; 0; 0; 0; 0; 0; 0; 0; 0; 0; 0; 0; 0] &iedModel_GenericIO_LLN0_report2);
  (iedModel_GenericIO_LLN0_report2, Build_ReportControlBlock iedModel_GenericIO_LLN0 "EventsRCB03" "Events1" false "Events" 1 88 239 50 1000
     [0; 0; 0; 0; 0; 0; 0; 0; 0; 0; 0; 0; 0; 0; 0; 0; 0] &iedModel_GenericIO_LLN0_report3);
  (iedModel_GenericIO_LLN0_report3, Build_ReportControlBlock iedModel_GenericIO_LLN0 "EventsRCB04" "Events1" false "Events" 1 88 239 50 1000
     [0; 0; 0; 0; 0; 0; 0; 0; 0; 0; 0; 0; 0; 0; 0; 0; 0] &iedModel_GenericIO_LLN0_report4);
  (iedModel_GenericIO_LLN0_report4, Build_ReportControlBlock iedModel_GenericIO_LLN0 "EventsRCB05" "Events1" false "Events" 1 88 239 50 1000
     [0; 0; 0; 0; 0; 0; 0; 0; 0; 0; 0; 0; 0; 0; 0; 0; 0] NULL)
].

Definition iedModel_root : IedModel :=
  Build_IedModel "beagle" &iedModel_GenericIO &iedModelds_GenericIO_LLN0_Events &iedModel_GenericIO_LLN0_report0 NULL NULL NULL NULL NULL.

(** [initializeValues]: the assignments of default values, in order. *)
Definition initial_values : list (addr * MmsValue) := [
  (iedModel_GenericIO_LLN0_Mod_ctlModel, MmsValue_newIntegerFromInt32 0);
  (iedModel_GenericIO_GGIO1_Mod_ctlModel, MmsValue_newIntegerFromInt32 0);
  (iedModel_GenericIO_GGIO1_SPCSO1_ctlModel, MmsValue_newIntegerFromInt32 1);
  (iedModel_GenericIO_GGIO1_SPCSO2_ctlModel, MmsValue_newIntegerFromInt32 1);
  (iedModel_GenericIO_GGIO1_SPCSO3_ctlModel, MmsValue_newIntegerFromInt32 1);
  (iedModel_GenericIO_GGIO1_DPCSO1_ctlModel, MmsValue_newIntegerFromInt32 1);
  (iedModel_GenericIO_TIM_GAPC1_Mod_ctlModel, MmsValue_newIntegerFromInt32 0);
  (iedModel_GenericIO_TIM_GAPC1_OpDlTmms_dataNs, MmsValue_newVisibleString "EXT:2015");
  (iedModel_GenericIO_TIM_GAPC1_RsDlTmms_dataNs, MmsValue_newVisibleString "EXT:2015");
  (iedModel_GenericIO_TIM_GAPC1_OpCntRs_ctlModel, MmsValue_newIntegerFromInt32 1)
].

Definition initializeValues (h : heap) : heap :=
  foldl (λ h av, alter (set_mmsValue av.2) av.1 h) h initial_values.
