(* ===== verification/StaticModelNames.v ===== *)
(** * The header of the static data model

    [core/iec61850/model/static_model.h], the interface through which the rest
    of the program names the objects of [StaticModelData]: the declarations of
    the C objects with their types, and one macro per node that stands for its
    address.  The lists follow the lines of the header. *)

From Stdlib Require Import String.
From stdpp Require Import base list strings.
From S2P Require Import Prelude IedModel StaticModelData.
#[local] Open Scope string_scope.
#[local] Open Scope gw_scope.

(** ** Declarations: [extern T x;] is [(T, x)] *)

Definition externs1 : list (object_type * addr) := [
  (T_IedModel, iedModel);
  (T_LogicalDevice, iedModel_GenericIO);
  (T_LogicalNode, iedModel_GenericIO_LLN0);
  (T_DataObject, iedModel_GenericIO_LLN0_Beh);
  (T_DataAttribute, iedModel_GenericIO_LLN0_Beh_stVal);
  (T_DataAttribute, iedModel_GenericIO_LLN0_Beh_q);
  (T_DataAttribute, iedModel_GenericIO_LLN0_Beh_t);
  (T_DataObject, iedModel_GenericIO_LLN0_Mod);
  (T_DataAttribute, iedModel_GenericIO_LLN0_Mod_stVal);
  (T_DataAttribute, iedModel_GenericIO_LLN0_Mod_q);
  (T_DataAttribute, iedModel_GenericIO_LLN0_Mod_t);
  (T_DataAttribute, iedModel_GenericIO_LLN0_Mod_ctlModel);
  (T_DataObject, iedModel_GenericIO_LLN0_Health);
  (T_DataAttribute, iedModel_GenericIO_LLN0_Health_stVal);
  (T_DataAttribute, iedModel_GenericIO_LLN0_Health_q);
  (T_DataAttribute, iedModel_GenericIO_LLN0_Health_t);
  (T_DataObject, iedModel_GenericIO_LLN0_NamPlt);
  (T_DataAttribute, iedModel_GenericIO_LLN0_NamPlt_vendor);
  (T_DataAttribute, iedModel_GenericIO_LLN0_NamPlt_swRev);
  (T_DataAttribute, iedModel_GenericIO_LLN0_NamPlt_d);
  (T_DataAttribute, iedModel_GenericIO_LLN0_NamPlt_configRev);
  (T_DataAttribute, iedModel_GenericIO_LLN0_NamPlt_ldNs);
  (T_LogicalNode, iedModel_GenericIO_LPHD1);
  (T_DataObject, iedModel_GenericIO_LPHD1_PhyNam);
  (T_DataAttribute, iedModel_GenericIO_LPHD1_PhyNam_vendor);
  (T_DataObject, iedModel_GenericIO_LPHD1_PhyHealth);
  (T_DataAttribute, iedModel_GenericIO_LPHD1_PhyHealth_stVal);
  (T_DataAttribute, iedModel_GenericIO_LPHD1_PhyHealth_q);
  (T_DataAttribute, iedModel_GenericIO_LPHD1_PhyHealth_t);
  (T_DataObject, iedModel_GenericIO_LPHD1_Proxy);
  (T_DataAttribute, iedModel_GenericIO_LPHD1_Proxy_stVal);
  (T_DataAttribute, iedModel_GenericIO_LPHD1_Proxy_q);
  (T_DataAttribute, iedModel_GenericIO_LPHD1_Proxy_t);
  (T_LogicalNode, iedModel_GenericIO_GGIO1);
  (T_DataObject, iedModel_GenericIO_GGIO1_Beh);
  (T_DataAttribute, iedModel_GenericIO_GGIO1_Beh_stVal);
  (T_DataAttribute, iedModel_GenericIO_GGIO1_Beh_q);
  (T_DataAttribute, iedModel_GenericIO_GGIO1_Beh_t);
  (T_DataObject, iedModel_GenericIO_GGIO1_Mod);
  (T_DataAttribute, iedModel_GenericIO_GGIO1_Mod_stVal);
  (T_DataAttribute, iedModel_GenericIO_GGIO1_Mod_q);
  (T_DataAttribute, iedModel_GenericIO_GGIO1_Mod_t);
  (T_DataAttribute, iedModel_GenericIO_GGIO1_Mod_ctlModel);
  (T_DataObject, iedModel_GenericIO_GGIO1_Health);
  (T_DataAttribute, iedModel_GenericIO_GGIO1_Health_stVal);
  (T_DataAttribute, iedModel_GenericIO_GGIO1_Health_q);
  (T_DataAttribute, iedModel_GenericIO_GGIO1_Health_t);
  (T_DataObject, iedModel_GenericIO_GGIO1_NamPlt);
  (T_DataAttribute, iedModel_GenericIO_GGIO1_NamPlt_vendor);
  (T_DataAttribute, iedModel_GenericIO_GGIO1_NamPlt_swRev);
  (T_DataAttribute, iedModel_GenericIO_GGIO1_NamPlt_d);
  (T_DataObject, iedModel_GenericIO_GGIO1_AnIn1);
  (T_DataAttribute, iedModel_GenericIO_GGIO1_AnIn1_mag);
  (T_DataAttribute, iedModel_GenericIO_GGIO1_AnIn1_mag_f);
  (T_DataAttribute, iedModel_GenericIO_GGIO1_AnIn1_q);
  (T_DataAttribute, iedModel_GenericIO_GGIO1_AnIn1_t);
  (T_DataObject, iedModel_GenericIO_GGIO1_AnIn2);
  (T_DataAttribute, iedModel_GenericIO_GGIO1_AnIn2_mag);
  (T_DataAttribute, iedModel_GenericIO_GGIO1_AnIn2_mag_f);
  (T_DataAttribute, iedModel_GenericIO_GGIO1_AnIn2_q);
  (T_DataAttribute, iedModel_GenericIO_GGIO1_AnIn2_t);
  (T_DataObject, iedModel_GenericIO_GGIO1_AnIn3);
  (T_DataAttribute, iedModel_GenericIO_GGIO1_AnIn3_mag);
  (T_DataAttribute, iedModel_GenericIO_GGIO1_AnIn3_mag_f);
  (T_DataAttribute, iedModel_GenericIO_GGIO1_AnIn3_q);
  (T_DataAttribute, iedModel_GenericIO_GGIO1_AnIn3_t);
  (T_DataObject, iedModel_GenericIO_GGIO1_AnIn4);
  (T_DataAttribute, iedModel_GenericIO_GGIO1_AnIn4_mag);
  (T_DataAttribute, iedModel_GenericIO_GGIO1_AnIn4_mag_f);
  (T_DataAttribute, iedModel_GenericIO_GGIO1_AnIn4_q);
  (T_DataAttribute, iedModel_GenericIO_GGIO1_AnIn4_t);
  (T_DataObject, iedModel_GenericIO_GGIO1_SPCSO1);
  (T_DataAttribute, iedModel_GenericIO_GGIO1_SPCSO1_stVal);
  (T_DataAttribute, iedModel_GenericIO_GGIO1_SPCSO1_q);
  (T_DataAttribute, iedModel_GenericIO_GGIO1_SPCSO1_Oper);
  (T_DataAttribute, iedModel_GenericIO_GGIO1_SPCSO1_Oper_ctlVal);
  (T_DataAttribute, iedModel_GenericIO_GGIO1_SPCSO1_Oper_origin);
  (T_DataAttribute, iedModel_GenericIO_GGIO1_SPCSO1_Oper_origin_orCat);
  (T_DataAttribute, iedModel_GenericIO_GGIO1_SPCSO1_Oper_origin_orIdent);
  (T_DataAttribute, iedModel_GenericIO_GGIO1_SPCSO1_Oper_ctlNum);
  (T_DataAttribute, iedModel_GenericIO_GGIO1_SPCSO1_Oper_T);
  (T_DataAttribute, iedModel_GenericIO_GGIO1_SPCSO1_Oper_Test);
  (T_DataAttribute, iedModel_GenericIO_GGIO1_SPCSO1_Oper_Check);
  (T_DataAttribute, iedModel_GenericIO_GGIO1_SPCSO1_ctlModel);
  (T_DataAttribute, iedModel_GenericIO_GGIO1_SPCSO1_t);
  (T_DataObject, iedModel_GenericIO_GGIO1_SPCSO2);
  (T_DataAttribute, iedModel_GenericIO_GGIO1_SPCSO2_stVal);
  (T_DataAttribute, iedModel_GenericIO_GGIO1_SPCSO2_q);
  (T_DataAttribute, iedModel_GenericIO_GGIO1_SPCSO2_SBO);
  (T_DataAttribute, iedModel_GenericIO_GGIO1_SPCSO2_Oper);
  (T_DataAttribute, iedModel_GenericIO_GGIO1_SPCSO2_Oper_ctlVal);
  (T_DataAttribute, iedModel_GenericIO_GGIO1_SPCSO2_Oper_origin);
  (T_DataAttribute, iedModel_GenericIO_GGIO1_SPCSO2_Oper_origin_orCat);
  (T_DataAttribute, iedModel_GenericIO_GGIO1_SPCSO2_Oper_origin_orIdent);
  (T_DataAttribute, iedModel_GenericIO_GGIO1_SPCSO2_Oper_ctlNum);
  (T_DataAttribute, iedModel_GenericIO_GGIO1_SPCSO2_Oper_T);
  (T_DataAttribute, iedModel_GenericIO_GGIO1_SPCSO2_Oper_Test);
  (T_DataAttribute, iedModel_GenericIO_GGIO1_SPCSO2_Oper_Check);
  (T_DataAttribute, iedModel_GenericIO_GGIO1_SPCSO2_Cancel);
  (T_DataAttribute, iedModel_GenericIO_GGIO1_SPCSO2_Cancel_ctlVal);
  (T_DataAttribute, iedModel_GenericIO_GGIO1_SPCSO2_Cancel_origin);
  (T_DataAttribute, iedModel_GenericIO_GGIO1_SPCSO2_Cancel_origin_orCat);
  (T_DataAttribute, iedModel_GenericIO_GGIO1_SPCSO2_Cancel_origin_orIdent);
  (T_DataAttribute, iedModel_GenericIO_GGIO1_SPCSO2_Cancel_ctlNum);
  (T_DataAttribute, iedModel_GenericIO_GGIO1_SPCSO2_Cancel_T);
  (T_DataAttribute, iedModel_GenericIO_GGIO1_SPCSO2_Cancel_Test);
  (T_DataAttribute, iedModel_GenericIO_GGIO1_SPCSO2_ctlModel);
  (T_DataAttribute, iedModel_GenericIO_GGIO1_SPCSO2_t);
  (T_DataObject, iedModel_GenericIO_GGIO1_SPCSO3);
  (T_DataAttribute, iedModel_GenericIO_GGIO1_SPCSO3_stVal);
  (T_DataAttribute, iedModel_GenericIO_GGIO1_SPCSO3_q);
  (T_DataAttribute, iedModel_GenericIO_GGIO1_SPCSO3_Oper);
  (T_DataAttribute, iedModel_GenericIO_GGIO1_SPCSO3_Oper_ctlVal);
  (T_DataAttribute, iedModel_GenericIO_GGIO1_SPCSO3_Oper_origin);
  (T_DataAttribute, iedModel_GenericIO_GGIO1_SPCSO3_Oper_origin_orCat);
  (T_DataAttribute, iedModel_GenericIO_GGIO1_SPCSO3_Oper_origin_orIdent);
  (T_DataAttribute, iedModel_GenericIO_GGIO1_SPCSO3_Oper_ctlNum);
  (T_DataAttribute, iedModel_GenericIO_GGIO1_SPCSO3_Oper_T);
  (T_DataAttribute, iedModel_GenericIO_GGIO1_SPCSO3_Oper_Test);
  (T_DataAttribute, iedModel_GenericIO_GGIO1_SPCSO3_Oper_Check);
  (T_DataAttribute, iedModel_GenericIO_GGIO1_SPCSO3_ctlModel);
  (T_DataAttribute, iedModel_GenericIO_GGIO1_SPCSO3_t);
  (T_DataObject, iedModel_GenericIO_GGIO1_DPCSO1);
  (T_DataAttribute, iedModel_GenericIO_GGIO1_DPCSO1_stVal);
  (T_DataAttribute, iedModel_GenericIO_GGIO1_DPCSO1_q);
  (T_DataAttribute, iedModel_GenericIO_GGIO1_DPCSO1_Oper);
  (T_DataAttribute, iedModel_GenericIO_GGIO1_DPCSO1_Oper_ctlVal);
  (T_DataAttribute, iedModel_GenericIO_GGIO1_DPCSO1_Oper_origin);
  (T_DataAttribute, iedModel_GenericIO_GGIO1_DPCSO1_Oper_origin_orCat);
  (T_DataAttribute, iedModel_GenericIO_GGIO1_DPCSO1_Oper_origin_orIdent);
  (T_DataAttribute, iedModel_GenericIO_GGIO1_DPCSO1_Oper_ctlNum);
  (T_DataAttribute, iedModel_GenericIO_GGIO1_DPCSO1_Oper_T);
  (T_DataAttribute, iedModel_GenericIO_GGIO1_DPCSO1_Oper_Test);
  (T_DataAttribute, iedModel_GenericIO_GGIO1_DPCSO1_Oper_Check);
  (T_DataAttribute, iedModel_GenericIO_GGIO1_DPCSO1_ctlModel);
  (T_DataAttribute, iedModel_GenericIO_GGIO1_DPCSO1_t);
  (T_DataObject, iedModel_GenericIO_GGIO1_Ind1);
  (T_DataAttribute, iedModel_GenericIO_GGIO1_Ind1_stVal);
  (T_DataAttribute, iedModel_GenericIO_GGIO1_Ind1_q);
  (T_DataAttribute, iedModel_GenericIO_GGIO1_Ind1_t);
  (T_DataObject, iedModel_GenericIO_GGIO1_Ind2);
  (T_DataAttribute, iedModel_GenericIO_GGIO1_Ind2_stVal);
  (T_DataAttribute, iedModel_GenericIO_GGIO1_Ind2_q);
  (T_DataAttribute, iedModel_GenericIO_GGIO1_Ind2_t);
  (T_DataObject, iedModel_GenericIO_GGIO1_Ind3);
  (T_DataAttribute, iedModel_GenericIO_GGIO1_Ind3_stVal);
  (T_DataAttribute, iedModel_GenericIO_GGIO1_Ind3_q);
  (T_DataAttribute, iedModel_GenericIO_GGIO1_Ind3_t)
].

Definition externs2 : list (object_type * addr) := [
  (T_DataObject, iedModel_GenericIO_GGIO1_Ind4);
  (T_DataAttribute, iedModel_GenericIO_GGIO1_Ind4_stVal);
  (T_DataAttribute, iedModel_GenericIO_GGIO1_Ind4_q);
  (T_DataAttribute, iedModel_GenericIO_GGIO1_Ind4_t);
  (T_LogicalNode, iedModel_GenericIO_TIM_GAPC1);
  (T_DataObject, iedModel_GenericIO_TIM_GAPC1_Beh);
  (T_DataAttribute, iedModel_GenericIO_TIM_GAPC1_Beh_stVal);
  (T_DataAttribute, iedModel_GenericIO_TIM_GAPC1_Beh_q);
  (T_DataAttribute, iedModel_GenericIO_TIM_GAPC1_Beh_t);
  (T_DataObject, iedModel_GenericIO_TIM_GAPC1_Mod);
  (T_DataAttribute, iedModel_GenericIO_TIM_GAPC1_Mod_stVal);
  (T_DataAttribute, iedModel_GenericIO_TIM_GAPC1_Mod_q);
  (T_DataAttribute, iedModel_GenericIO_TIM_GAPC1_Mod_t);
  (T_DataAttribute, iedModel_GenericIO_TIM_GAPC1_Mod_ctlModel);
  (T_DataObject, iedModel_GenericIO_TIM_GAPC1_Str);
  (T_DataAttribute, iedModel_GenericIO_TIM_GAPC1_Str_general);
  (T_DataAttribute, iedModel_GenericIO_TIM_GAPC1_Str_dirGeneral);
  (T_DataAttribute, iedModel_GenericIO_TIM_GAPC1_Str_q);
  (T_DataAttribute, iedModel_GenericIO_TIM_GAPC1_Str_t);
  (T_DataObject, iedModel_GenericIO_TIM_GAPC1_Op);
  (T_DataAttribute, iedModel_GenericIO_TIM_GAPC1_Op_general);
  (T_DataAttribute, iedModel_GenericIO_TIM_GAPC1_Op_q);
  (T_DataAttribute, iedModel_GenericIO_TIM_GAPC1_Op_t);
  (T_DataObject, iedModel_GenericIO_TIM_GAPC1_OpDlTmms);
  (T_DataAttribute, iedModel_GenericIO_TIM_GAPC1_OpDlTmms_setVal);
  (T_DataAttribute, iedModel_GenericIO_TIM_GAPC1_OpDlTmms_dataNs);
  (T_DataObject, iedModel_GenericIO_TIM_GAPC1_RsDlTmms);
  (T_DataAttribute, iedModel_GenericIO_TIM_GAPC1_RsDlTmms_setVal);
  (T_DataAttribute, iedModel_GenericIO_TIM_GAPC1_RsDlTmms_dataNs);
  (T_DataObject, iedModel_GenericIO_TIM_GAPC1_OpCntRs);
  (T_DataAttribute, iedModel_GenericIO_TIM_GAPC1_OpCntRs_stVal);
  (T_DataAttribute, iedModel_GenericIO_TIM_GAPC1_OpCntRs_q);
  (T_DataAttribute, iedModel_GenericIO_TIM_GAPC1_OpCntRs_t);
  (T_DataAttribute, iedModel_GenericIO_TIM_GAPC1_OpCntRs_Oper);
  (T_DataAttribute, iedModel_GenericIO_TIM_GAPC1_OpCntRs_Oper_ctlVal);
  (T_DataAttribute, iedModel_GenericIO_TIM_GAPC1_OpCntRs_Oper_origin);
  (T_DataAttribute, iedModel_GenericIO_TIM_GAPC1_OpCntRs_Oper_origin_orCat);
  (T_DataAttribute, iedModel_GenericIO_TIM_GAPC1_OpCntRs_Oper_origin_orIdent);
  (T_DataAttribute, iedModel_GenericIO_TIM_GAPC1_OpCntRs_Oper_ctlNum);
  (T_DataAttribute, iedModel_GenericIO_TIM_GAPC1_OpCntRs_Oper_T);
  (T_DataAttribute, iedModel_GenericIO_TIM_GAPC1_OpCntRs_Oper_Test);
  (T_DataAttribute, iedModel_GenericIO_TIM_GAPC1_OpCntRs_Oper_Check);
  (T_DataAttribute, iedModel_GenericIO_TIM_GAPC1_OpCntRs_ctlModel);
  (T_LogicalNode, iedModel_GenericIO_T60S_FSCH1);
  (T_DataObject, iedModel_GenericIO_T60S_FSCH1_Beh);
  (T_DataAttribute, iedModel_GenericIO_T60S_FSCH1_Beh_stVal);
  (T_DataAttribute, iedModel_GenericIO_T60S_FSCH1_Beh_q);
  (T_DataAttribute, iedModel_GenericIO_T60S_FSCH1_Beh_t);
  (T_DataObject, iedModel_GenericIO_T60S_FSCH1_SchdSt);
  (T_DataAttribute, iedModel_GenericIO_T60S_FSCH1_SchdSt_stVal);
  (T_DataAttribute, iedModel_GenericIO_T60S_FSCH1_SchdSt_q);
  (T_DataAttribute, iedModel_GenericIO_T60S_FSCH1_SchdSt_t);
  (T_DataObject, iedModel_GenericIO_T60S_FSCH1_SchdEntr);
  (T_DataAttribute, iedModel_GenericIO_T60S_FSCH1_SchdEntr_stVal);
  (T_DataAttribute, iedModel_GenericIO_T60S_FSCH1_SchdEntr_q);
  (T_DataAttribute, iedModel_GenericIO_T60S_FSCH1_SchdEntr_t);
  (T_DataObject, iedModel_GenericIO_T60S_FSCH1_ValSPS);
  (T_DataAttribute, iedModel_GenericIO_T60S_FSCH1_ValSPS_stVal);
  (T_DataAttribute, iedModel_GenericIO_T60S_FSCH1_ValSPS_q);
  (T_DataAttribute, iedModel_GenericIO_T60S_FSCH1_ValSPS_t);
  (T_DataObject, iedModel_GenericIO_T60S_FSCH1_VldReq);
  (T_DataAttribute, iedModel_GenericIO_T60S_FSCH1_VldReq_stVal);
  (T_DataAttribute, iedModel_GenericIO_T60S_FSCH1_VldReq_q);
  (T_DataAttribute, iedModel_GenericIO_T60S_FSCH1_VldReq_Oper);
  (T_DataAttribute, iedModel_GenericIO_T60S_FSCH1_VldReq_Oper_ctlVal);
  (T_DataAttribute, iedModel_GenericIO_T60S_FSCH1_VldReq_Oper_origin);
  (T_DataAttribute, iedModel_GenericIO_T60S_FSCH1_VldReq_Oper_origin_orCat);
  (T_DataAttribute, iedModel_GenericIO_T60S_FSCH1_VldReq_Oper_origin_orIdent);
  (T_DataAttribute, iedModel_GenericIO_T60S_FSCH1_VldReq_Oper_ctlNum);
  (T_DataAttribute, iedModel_GenericIO_T60S_FSCH1_VldReq_Oper_T);
  (T_DataAttribute, iedModel_GenericIO_T60S_FSCH1_VldReq_Oper_Test);
  (T_DataAttribute, iedModel_GenericIO_T60S_FSCH1_VldReq_Oper_Check);
  (T_DataAttribute, iedModel_GenericIO_T60S_FSCH1_VldReq_ctlModel);
  (T_DataAttribute, iedModel_GenericIO_T60S_FSCH1_VldReq_t);
  (T_DataObject, iedModel_GenericIO_T60S_FSCH1_EnaReq);
  (T_DataAttribute, iedModel_GenericIO_T60S_FSCH1_EnaReq_stVal);
  (T_DataAttribute, iedModel_GenericIO_T60S_FSCH1_EnaReq_q);
  (T_DataAttribute, iedModel_GenericIO_T60S_FSCH1_EnaReq_Oper);
  (T_DataAttribute, iedModel_GenericIO_T60S_FSCH1_EnaReq_Oper_ctlVal);
  (T_DataAttribute, iedModel_GenericIO_T60S_FSCH1_EnaReq_Oper_origin);
  (T_DataAttribute, iedModel_GenericIO_T60S_FSCH1_EnaReq_Oper_origin_orCat);
  (T_DataAttribute, iedModel_GenericIO_T60S_FSCH1_EnaReq_Oper_origin_orIdent);
  (T_DataAttribute, iedModel_GenericIO_T60S_FSCH1_EnaReq_Oper_ctlNum);
  (T_DataAttribute, iedModel_GenericIO_T60S_FSCH1_EnaReq_Oper_T);
  (T_DataAttribute, iedModel_GenericIO_T60S_FSCH1_EnaReq_Oper_Test);
  (T_DataAttribute, iedModel_GenericIO_T60S_FSCH1_EnaReq_Oper_Check);
  (T_DataAttribute, iedModel_GenericIO_T60S_FSCH1_EnaReq_ctlModel);
  (T_DataAttribute, iedModel_GenericIO_T60S_FSCH1_EnaReq_t);
  (T_DataObject, iedModel_GenericIO_T60S_FSCH1_EdtReq);
  (T_DataAttribute, iedModel_GenericIO_T60S_FSCH1_EdtReq_stVal);
  (T_DataAttribute, iedModel_GenericIO_T60S_FSCH1_EdtReq_q);
  (T_DataAttribute, iedModel_GenericIO_T60S_FSCH1_EdtReq_Oper);
  (T_DataAttribute, iedModel_GenericIO_T60S_FSCH1_EdtReq_Oper_ctlVal);
  (T_DataAttribute, iedModel_GenericIO_T60S_FSCH1_EdtReq_Oper_origin);
  (T_DataAttribute, iedModel_GenericIO_T60S_FSCH1_EdtReq_Oper_origin_orCat);
  (T_DataAttribute, iedModel_GenericIO_T60S_FSCH1_EdtReq_Oper_origin_orIdent);
  (T_DataAttribute, iedModel_GenericIO_T60S_FSCH1_EdtReq_Oper_ctlNum);
  (T_DataAttribute, iedModel_GenericIO_T60S_FSCH1_EdtReq_Oper_T);
  (T_DataAttribute, iedModel_GenericIO_T60S_FSCH1_EdtReq_Oper_Test);
  (T_DataAttribute, iedModel_GenericIO_T60S_FSCH1_EdtReq_Oper_Check);
  (T_DataAttribute, iedModel_GenericIO_T60S_FSCH1_EdtReq_ctlModel);
  (T_DataAttribute, iedModel_GenericIO_T60S_FSCH1_EdtReq_t);
  (T_DataObject, iedModel_GenericIO_T60S_FSCH1_DsaReq);
  (T_DataAttribute, iedModel_GenericIO_T60S_FSCH1_DsaReq_stVal);
  (T_DataAttribute, iedModel_GenericIO_T60S_FSCH1_DsaReq_q);
  (T_DataAttribute, iedModel_GenericIO_T60S_FSCH1_DsaReq_Oper);
  (T_DataAttribute, iedModel_GenericIO_T60S_FSCH1_DsaReq_Oper_ctlVal);
  (T_DataAttribute, iedModel_GenericIO_T60S_FSCH1_DsaReq_Oper_origin);
  (T_DataAttribute, iedModel_GenericIO_T60S_FSCH1_DsaReq_Oper_origin_orCat);
  (T_DataAttribute, iedModel_GenericIO_T60S_FSCH1_DsaReq_Oper_origin_orIdent);
  (T_DataAttribute, iedModel_GenericIO_T60S_FSCH1_DsaReq_Oper_ctlNum);
  (T_DataAttribute, iedModel_GenericIO_T60S_FSCH1_DsaReq_Oper_T);
  (T_DataAttribute, iedModel_GenericIO_T60S_FSCH1_DsaReq_Oper_Test);
  (T_DataAttribute, iedModel_GenericIO_T60S_FSCH1_DsaReq_Oper_Check);
  (T_DataAttribute, iedModel_GenericIO_T60S_FSCH1_DsaReq_ctlModel);
  (T_DataAttribute, iedModel_GenericIO_T60S_FSCH1_DsaReq_t);
  (T_DataObject, iedModel_GenericIO_T60S_FSCH1_SchdPrio);
  (T_DataAttribute, iedModel_GenericIO_T60S_FSCH1_SchdPrio_setVal);
  (T_DataObject, iedModel_GenericIO_T60S_FSCH1_NumEntr);
  (T_DataAttribute, iedModel_GenericIO_T60S_FSCH1_NumEntr_setVal);
  (T_DataObject, iedModel_GenericIO_T60S_FSCH1_SchdIntv);
  (T_DataAttribute, iedModel_GenericIO_T60S_FSCH1_SchdIntv_setVal);
  (T_DataObject, iedModel_GenericIO_T60S_FSCH1_ValSPG1);
  (T_DataAttribute, iedModel_GenericIO_T60S_FSCH1_ValSPG1_setVal);
  (T_DataObject, iedModel_GenericIO_T60S_FSCH1_ValSPG2);
  (T_DataAttribute, iedModel_GenericIO_T60S_FSCH1_ValSPG2_setVal);
  (T_DataObject, iedModel_GenericIO_T60S_FSCH1_ValSPG3);
  (T_DataAttribute, iedModel_GenericIO_T60S_FSCH1_ValSPG3_setVal);
  (T_DataObject, iedModel_GenericIO_T60S_FSCH1_ValSPG4);
  (T_DataAttribute, iedModel_GenericIO_T60S_FSCH1_ValSPG4_setVal);
  (T_DataObject, iedModel_GenericIO_T60S_FSCH1_ValSPG5);
  (T_DataAttribute, iedModel_GenericIO_T60S_FSCH1_ValSPG5_setVal);
  (T_DataObject, iedModel_GenericIO_T60S_FSCH1_ValSPG6);
  (T_DataAttribute, iedModel_GenericIO_T60S_FSCH1_ValSPG6_setVal);
  (T_DataObject, iedModel_GenericIO_T60S_FSCH1_ValSPG7);
  (T_DataAttribute, iedModel_GenericIO_T60S_FSCH1_ValSPG7_setVal);
  (T_DataObject, iedModel_GenericIO_T60S_FSCH1_ValSPG8);
  (T_DataAttribute, iedModel_GenericIO_T60S_FSCH1_ValSPG8_setVal);
  (T_DataObject, iedModel_GenericIO_T60S_FSCH1_ValSPG9);
  (T_DataAttribute, iedModel_GenericIO_T60S_FSCH1_ValSPG9_setVal);
  (T_DataObject, iedModel_GenericIO_T60S_FSCH1_ValSPG10);
  (T_DataAttribute, iedModel_GenericIO_T60S_FSCH1_ValSPG10_setVal);
  (T_DataObject, iedModel_GenericIO_T60S_FSCH1_ValSPG11);
  (T_DataAttribute, iedModel_GenericIO_T60S_FSCH1_ValSPG11_setVal);
  (T_DataObject, iedModel_GenericIO_T60S_FSCH1_ValSPG12);
  (T_DataAttribute, iedModel_GenericIO_T60S_FSCH1_ValSPG12_setVal);
  (T_DataObject, iedModel_GenericIO_T60S_FSCH1_ValSPG13);
  (T_DataAttribute, iedModel_GenericIO_T60S_FSCH1_ValSPG13_setVal)
].

Definition externs3 : list (object_type * addr) := [
  (T_DataObject, iedModel_GenericIO_T60S_FSCH1_ValSPG14);
  (T_DataAttribute, iedModel_GenericIO_T60S_FSCH1_ValSPG14_setVal);
  (T_DataObject, iedModel_GenericIO_T60S_FSCH1_ValSPG15);
  (T_DataAttribute, iedModel_GenericIO_T60S_FSCH1_ValSPG15_setVal);
  (T_DataObject, iedModel_GenericIO_T60S_FSCH1_ValSPG16);
  (T_DataAttribute, iedModel_GenericIO_T60S_FSCH1_ValSPG16_setVal);
  (T_DataObject, iedModel_GenericIO_T60S_FSCH1_ValSPG17);
  (T_DataAttribute, iedModel_GenericIO_T60S_FSCH1_ValSPG17_setVal);
  (T_DataObject, iedModel_GenericIO_T60S_FSCH1_ValSPG18);
  (T_DataAttribute, iedModel_GenericIO_T60S_FSCH1_ValSPG18_setVal);
  (T_DataObject, iedModel_GenericIO_T60S_FSCH1_ValSPG19);
  (T_DataAttribute, iedModel_GenericIO_T60S_FSCH1_ValSPG19_setVal);
  (T_DataObject, iedModel_GenericIO_T60S_FSCH1_ValSPG20);
  (T_DataAttribute, iedModel_GenericIO_T60S_FSCH1_ValSPG20_setVal);
  (T_DataObject, iedModel_GenericIO_T60S_FSCH1_ValSPG21);
  (T_DataAttribute, iedModel_GenericIO_T60S_FSCH1_ValSPG21_setVal);
  (T_DataObject, iedModel_GenericIO_T60S_FSCH1_ValSPG22);
  (T_DataAttribute, iedModel_GenericIO_T60S_FSCH1_ValSPG22_setVal);
  (T_DataObject, iedModel_GenericIO_T60S_FSCH1_ValSPG23);
  (T_DataAttribute, iedModel_GenericIO_T60S_FSCH1_ValSPG23_setVal);
  (T_DataObject, iedModel_GenericIO_T60S_FSCH1_ValSPG24);
  (T_DataAttribute, iedModel_GenericIO_T60S_FSCH1_ValSPG24_setVal);
  (T_DataObject, iedModel_GenericIO_T60S_FSCH1_ValSPG25);
  (T_DataAttribute, iedModel_GenericIO_T60S_FSCH1_ValSPG25_setVal);
  (T_DataObject, iedModel_GenericIO_T60S_FSCH1_ValSPG26);
  (T_DataAttribute, iedModel_GenericIO_T60S_FSCH1_ValSPG26_setVal);
  (T_DataObject, iedModel_GenericIO_T60S_FSCH1_ValSPG27);
  (T_DataAttribute, iedModel_GenericIO_T60S_FSCH1_ValSPG27_setVal);
  (T_DataObject, iedModel_GenericIO_T60S_FSCH1_ValSPG28);
  (T_DataAttribute, iedModel_GenericIO_T60S_FSCH1_ValSPG28_setVal);
  (T_DataObject, iedModel_GenericIO_T60S_FSCH1_ValSPG29);
  (T_DataAttribute, iedModel_GenericIO_T60S_FSCH1_ValSPG29_setVal);
  (T_DataObject, iedModel_GenericIO_T60S_FSCH1_ValSPG30);
  (T_DataAttribute, iedModel_GenericIO_T60S_FSCH1_ValSPG30_setVal);
  (T_DataObject, iedModel_GenericIO_T60S_FSCH1_ValSPG31);
  (T_DataAttribute, iedModel_GenericIO_T60S_FSCH1_ValSPG31_setVal);
  (T_DataObject, iedModel_GenericIO_T60S_FSCH1_ValSPG32);
  (T_DataAttribute, iedModel_GenericIO_T60S_FSCH1_ValSPG32_setVal);
  (T_DataObject, iedModel_GenericIO_T60S_FSCH1_ValSPG33);
  (T_DataAttribute, iedModel_GenericIO_T60S_FSCH1_ValSPG33_setVal);
  (T_DataObject, iedModel_GenericIO_T60S_FSCH1_ValSPG34);
  (T_DataAttribute, iedModel_GenericIO_T60S_FSCH1_ValSPG34_setVal);
  (T_DataObject, iedModel_GenericIO_T60S_FSCH1_ValSPG35);
  (T_DataAttribute, iedModel_GenericIO_T60S_FSCH1_ValSPG35_setVal);
  (T_DataObject, iedModel_GenericIO_T60S_FSCH1_ValSPG36);
  (T_DataAttribute, iedModel_GenericIO_T60S_FSCH1_ValSPG36_setVal);
  (T_DataObject, iedModel_GenericIO_T60S_FSCH1_ValSPG37);
  (T_DataAttribute, iedModel_GenericIO_T60S_FSCH1_ValSPG37_setVal);
  (T_DataObject, iedModel_GenericIO_T60S_FSCH1_ValSPG38);
  (T_DataAttribute, iedModel_GenericIO_T60S_FSCH1_ValSPG38_setVal);
  (T_DataObject, iedModel_GenericIO_T60S_FSCH1_ValSPG39);
  (T_DataAttribute, iedModel_GenericIO_T60S_FSCH1_ValSPG39_setVal);
  (T_DataObject, iedModel_GenericIO_T60S_FSCH1_ValSPG40);
  (T_DataAttribute, iedModel_GenericIO_T60S_FSCH1_ValSPG40_setVal);
  (T_DataObject, iedModel_GenericIO_T60S_FSCH1_ValSPG41);
  (T_DataAttribute, iedModel_GenericIO_T60S_FSCH1_ValSPG41_setVal);
  (T_DataObject, iedModel_GenericIO_T60S_FSCH1_ValSPG42);
  (T_DataAttribute, iedModel_GenericIO_T60S_FSCH1_ValSPG42_setVal);
  (T_DataObject, iedModel_GenericIO_T60S_FSCH1_ValSPG43);
  (T_DataAttribute, iedModel_GenericIO_T60S_FSCH1_ValSPG43_setVal);
  (T_DataObject, iedModel_GenericIO_T60S_FSCH1_ValSPG44);
  (T_DataAttribute, iedModel_GenericIO_T60S_FSCH1_ValSPG44_setVal);
  (T_DataObject, iedModel_GenericIO_T60S_FSCH1_ValSPG45);
  (T_DataAttribute, iedModel_GenericIO_T60S_FSCH1_ValSPG45_setVal);
  (T_DataObject, iedModel_GenericIO_T60S_FSCH1_ValSPG46);
  (T_DataAttribute, iedModel_GenericIO_T60S_FSCH1_ValSPG46_setVal);
  (T_DataObject, iedModel_GenericIO_T60S_FSCH1_ValSPG47);
  (T_DataAttribute, iedModel_GenericIO_T60S_FSCH1_ValSPG47_setVal);
  (T_DataObject, iedModel_GenericIO_T60S_FSCH1_ValSPG48);
  (T_DataAttribute, iedModel_GenericIO_T60S_FSCH1_ValSPG48_setVal);
  (T_DataObject, iedModel_GenericIO_T60S_FSCH1_ValSPG49);
  (T_DataAttribute, iedModel_GenericIO_T60S_FSCH1_ValSPG49_setVal);
  (T_DataObject, iedModel_GenericIO_T60S_FSCH1_ValSPG50);
  (T_DataAttribute, iedModel_GenericIO_T60S_FSCH1_ValSPG50_setVal);
  (T_DataObject, iedModel_GenericIO_T60S_FSCH1_ValSPG51);
  (T_DataAttribute, iedModel_GenericIO_T60S_FSCH1_ValSPG51_setVal);
  (T_DataObject, iedModel_GenericIO_T60S_FSCH1_ValSPG52);
  (T_DataAttribute, iedModel_GenericIO_T60S_FSCH1_ValSPG52_setVal);
  (T_DataObject, iedModel_GenericIO_T60S_FSCH1_ValSPG53);
  (T_DataAttribute, iedModel_GenericIO_T60S_FSCH1_ValSPG53_setVal);
  (T_DataObject, iedModel_GenericIO_T60S_FSCH1_ValSPG54);
  (T_DataAttribute, iedModel_GenericIO_T60S_FSCH1_ValSPG54_setVal);
  (T_DataObject, iedModel_GenericIO_T60S_FSCH1_ValSPG55);
  (T_DataAttribute, iedModel_GenericIO_T60S_FSCH1_ValSPG55_setVal);
  (T_DataObject, iedModel_GenericIO_T60S_FSCH1_ValSPG56);
  (T_DataAttribute, iedModel_GenericIO_T60S_FSCH1_ValSPG56_setVal);
  (T_DataObject, iedModel_GenericIO_T60S_FSCH1_ValSPG57);
  (T_DataAttribute, iedModel_GenericIO_T60S_FSCH1_ValSPG57_setVal);
  (T_DataObject, iedModel_GenericIO_T60S_FSCH1_ValSPG58);
  (T_DataAttribute, iedModel_GenericIO_T60S_FSCH1_ValSPG58_setVal);
  (T_DataObject, iedModel_GenericIO_T60S_FSCH1_ValSPG59);
  (T_DataAttribute, iedModel_GenericIO_T60S_FSCH1_ValSPG59_setVal);
  (T_DataObject, iedModel_GenericIO_T60S_FSCH1_ValSPG60);
  (T_DataAttribute, iedModel_GenericIO_T60S_FSCH1_ValSPG60_setVal);
  (T_DataObject, iedModel_GenericIO_T60S_FSCH1_StrTm);
  (T_DataAttribute, iedModel_GenericIO_T60S_FSCH1_StrTm_setTm);
  (T_DataAttribute, iedModel_GenericIO_T60S_FSCH1_StrTm_setCal);
  (T_DataAttribute, iedModel_GenericIO_T60S_FSCH1_StrTm_setCal_occ);
  (T_DataAttribute, iedModel_GenericIO_T60S_FSCH1_StrTm_setCal_occType);
  (T_DataAttribute, iedModel_GenericIO_T60S_FSCH1_StrTm_setCal_occPer);
  (T_DataAttribute, iedModel_GenericIO_T60S_FSCH1_StrTm_setCal_weekDay);
  (T_DataAttribute, iedModel_GenericIO_T60S_FSCH1_StrTm_setCal_month);
  (T_DataAttribute, iedModel_GenericIO_T60S_FSCH1_StrTm_setCal_day);
  (T_DataAttribute, iedModel_GenericIO_T60S_FSCH1_StrTm_setCal_hr);
  (T_DataAttribute, iedModel_GenericIO_T60S_FSCH1_StrTm_setCal_mn);
  (T_DataObject, iedModel_GenericIO_T60S_FSCH1_IntvPer);
  (T_DataAttribute, iedModel_GenericIO_T60S_FSCH1_IntvPer_setVal);
  (T_DataObject, iedModel_GenericIO_T60S_FSCH1_IntvTyp);
  (T_DataAttribute, iedModel_GenericIO_T60S_FSCH1_IntvTyp_setVal);
  (T_DataObject, iedModel_GenericIO_T60S_FSCH1_SchdReuse);
  (T_DataAttribute, iedModel_GenericIO_T60S_FSCH1_SchdReuse_setVal);
  (T_LogicalNode, iedModel_GenericIO_T60S_FSCH2);
  (T_DataObject, iedModel_GenericIO_T60S_FSCH2_Beh);
  (T_DataAttribute, iedModel_GenericIO_T60S_FSCH2_Beh_stVal);
  (T_DataAttribute, iedModel_GenericIO_T60S_FSCH2_Beh_q);
  (T_DataAttribute, iedModel_GenericIO_T60S_FSCH2_Beh_t);
  (T_DataObject, iedModel_GenericIO_T60S_FSCH2_SchdSt);
  (T_DataAttribute, iedModel_GenericIO_T60S_FSCH2_SchdSt_stVal);
  (T_DataAttribute, iedModel_GenericIO_T60S_FSCH2_SchdSt_q);
  (T_DataAttribute, iedModel_GenericIO_T60S_FSCH2_SchdSt_t);
  (T_DataObject, iedModel_GenericIO_T60S_FSCH2_SchdEntr);
  (T_DataAttribute, iedModel_GenericIO_T60S_FSCH2_SchdEntr_stVal);
  (T_DataAttribute, iedModel_GenericIO_T60S_FSCH2_SchdEntr_q);
  (T_DataAttribute, iedModel_GenericIO_T60S_FSCH2_SchdEntr_t);
  (T_DataObject, iedModel_GenericIO_T60S_FSCH2_ValSPS);
  (T_DataAttribute, iedModel_GenericIO_T60S_FSCH2_ValSPS_stVal);
  (T_DataAttribute, iedModel_GenericIO_T60S_FSCH2_ValSPS_q);
  (T_DataAttribute, iedModel_GenericIO_T60S_FSCH2_ValSPS_t);
  (T_DataObject, iedModel_GenericIO_T60S_FSCH2_VldReq);
  (T_DataAttribute, iedModel_GenericIO_T60S_FSCH2_VldReq_stVal);
  (T_DataAttribute, iedModel_GenericIO_T60S_FSCH2_VldReq_q);
  (T_DataAttribute, iedModel_GenericIO_T60S_FSCH2_VldReq_Oper);
  (T_DataAttribute, iedModel_GenericIO_T60S_FSCH2_VldReq_Oper_ctlVal);
  (T_DataAttribute, iedModel_GenericIO_T60S_FSCH2_VldReq_Oper_origin);
  (T_DataAttribute, iedModel_GenericIO_T60S_FSCH2_VldReq_Oper_origin_orCat);
  (T_DataAttribute, iedModel_GenericIO_T60S_FSCH2_VldReq_Oper_origin_orIdent);
  (T_DataAttribute, iedModel_GenericIO_T60S_FSCH2_VldReq_Oper_ctlNum);
  (T_DataAttribute, iedModel_GenericIO_T60S_FSCH2_VldReq_Oper_T);
  (T_DataAttribute, iedModel_GenericIO_T60S_FSCH2_VldReq_Oper_Test);
  (T_DataAttribute, iedModel_GenericIO_T60S_FSCH2_VldReq_Oper_Check);
  (T_DataAttribute, iedModel_GenericIO_T60S_FSCH2_VldReq_ctlModel);
  (T_DataAttribute, iedModel_GenericIO_T60S_FSCH2_VldReq_t);
  (T_DataObject, iedModel_GenericIO_T60S_FSCH2_EnaReq);
  (T_DataAttribute, iedModel_GenericIO_T60S_FSCH2_EnaReq_stVal);
  (T_DataAttribute, iedModel_GenericIO_T60S_FSCH2_EnaReq_q);
  (T_DataAttribute, iedModel_GenericIO_T60S_FSCH2_EnaReq_Oper);
  (T_DataAttribute, iedModel_GenericIO_T60S_FSCH2_EnaReq_Oper_ctlVal);
  (T_DataAttribute, iedModel_GenericIO_T60S_FSCH2_EnaReq_Oper_origin)
].

Definition externs4 : list (object_type * addr) := [
  (T_DataAttribute, iedModel_GenericIO_T60S_FSCH2_EnaReq_Oper_origin_orCat);
  (T_DataAttribute, iedModel_GenericIO_T60S_FSCH2_EnaReq_Oper_origin_orIdent);
  (T_DataAttribute, iedModel_GenericIO_T60S_FSCH2_EnaReq_Oper_ctlNum);
  (T_DataAttribute, iedModel_GenericIO_T60S_FSCH2_EnaReq_Oper_T);
  (T_DataAttribute, iedModel_GenericIO_T60S_FSCH2_EnaReq_Oper_Test);
  (T_DataAttribute, iedModel_GenericIO_T60S_FSCH2_EnaReq_Oper_Check);
  (T_DataAttribute, iedModel_GenericIO_T60S_FSCH2_EnaReq_ctlModel);
  (T_DataAttribute, iedModel_GenericIO_T60S_FSCH2_EnaReq_t);
  (T_DataObject, iedModel_GenericIO_T60S_FSCH2_EdtReq);
  (T_DataAttribute, iedModel_GenericIO_T60S_FSCH2_EdtReq_stVal);
  (T_DataAttribute, iedModel_GenericIO_T60S_FSCH2_EdtReq_q);
  (T_DataAttribute, iedModel_GenericIO_T60S_FSCH2_EdtReq_Oper);
  (T_DataAttribute, iedModel_GenericIO_T60S_FSCH2_EdtReq_Oper_ctlVal);
  (T_DataAttribute, iedModel_GenericIO_T60S_FSCH2_EdtReq_Oper_origin);
  (T_DataAttribute, iedModel_GenericIO_T60S_FSCH2_EdtReq_Oper_origin_orCat);
  (T_DataAttribute, iedModel_GenericIO_T60S_FSCH2_EdtReq_Oper_origin_orIdent);
  (T_DataAttribute, iedModel_GenericIO_T60S_FSCH2_EdtReq_Oper_ctlNum);
  (T_DataAttribute, iedModel_GenericIO_T60S_FSCH2_EdtReq_Oper_T);
  (T_DataAttribute, iedModel_GenericIO_T60S_FSCH2_EdtReq_Oper_Test);
  (T_DataAttribute, iedModel_GenericIO_T60S_FSCH2_EdtReq_Oper_Check);
  (T_DataAttribute, iedModel_GenericIO_T60S_FSCH2_EdtReq_ctlModel);
  (T_DataAttribute, iedModel_GenericIO_T60S_FSCH2_EdtReq_t);
  (T_DataObject, iedModel_GenericIO_T60S_FSCH2_DsaReq);
  (T_DataAttribute, iedModel_GenericIO_T60S_FSCH2_DsaReq_stVal);
  (T_DataAttribute, iedModel_GenericIO_T60S_FSCH2_DsaReq_q);
  (T_DataAttribute, iedModel_GenericIO_T60S_FSCH2_DsaReq_Oper);
  (T_DataAttribute, iedModel_GenericIO_T60S_FSCH2_DsaReq_Oper_ctlVal);
  (T_DataAttribute, iedModel_GenericIO_T60S_FSCH2_DsaReq_Oper_origin);
  (T_DataAttribute, iedModel_GenericIO_T60S_FSCH2_DsaReq_Oper_origin_orCat);
  (T_DataAttribute, iedModel_GenericIO_T60S_FSCH2_DsaReq_Oper_origin_orIdent);
  (T_DataAttribute, iedModel_GenericIO_T60S_FSCH2_DsaReq_Oper_ctlNum);
  (T_DataAttribute, iedModel_GenericIO_T60S_FSCH2_DsaReq_Oper_T);
  (T_DataAttribute, iedModel_GenericIO_T60S_FSCH2_DsaReq_Oper_Test);
  (T_DataAttribute, iedModel_GenericIO_T60S_FSCH2_DsaReq_Oper_Check);
  (T_DataAttribute, iedModel_GenericIO_T60S_FSCH2_DsaReq_ctlModel);
  (T_DataAttribute, iedModel_GenericIO_T60S_FSCH2_DsaReq_t);
  (T_DataObject, iedModel_GenericIO_T60S_FSCH2_SchdPrio);
  (T_DataAttribute, iedModel_GenericIO_T60S_FSCH2_SchdPrio_setVal);
  (T_DataObject, iedModel_GenericIO_T60S_FSCH2_NumEntr);
  (T_DataAttribute, iedModel_GenericIO_T60S_FSCH2_NumEntr_setVal);
  (T_DataObject, iedModel_GenericIO_T60S_FSCH2_SchdIntv);
  (T_DataAttribute, iedModel_GenericIO_T60S_FSCH2_SchdIntv_setVal);
  (T_DataObject, iedModel_GenericIO_T60S_FSCH2_ValSPG1);
  (T_DataAttribute, iedModel_GenericIO_T60S_FSCH2_ValSPG1_setVal);
  (T_DataObject, iedModel_GenericIO_T60S_FSCH2_ValSPG2);
  (T_DataAttribute, iedModel_GenericIO_T60S_FSCH2_ValSPG2_setVal);
  (T_DataObject, iedModel_GenericIO_T60S_FSCH2_ValSPG3);
  (T_DataAttribute, iedModel_GenericIO_T60S_FSCH2_ValSPG3_setVal);
  (T_DataObject, iedModel_GenericIO_T60S_FSCH2_ValSPG4);
  (T_DataAttribute, iedModel_GenericIO_T60S_FSCH2_ValSPG4_setVal);
  (T_DataObject, iedModel_GenericIO_T60S_FSCH2_ValSPG5);
  (T_DataAttribute, iedModel_GenericIO_T60S_FSCH2_ValSPG5_setVal);
  (T_DataObject, iedModel_GenericIO_T60S_FSCH2_ValSPG6);
  (T_DataAttribute, iedModel_GenericIO_T60S_FSCH2_ValSPG6_setVal);
  (T_DataObject, iedModel_GenericIO_T60S_FSCH2_ValSPG7);
  (T_DataAttribute, iedModel_GenericIO_T60S_FSCH2_ValSPG7_setVal);
  (T_DataObject, iedModel_GenericIO_T60S_FSCH2_ValSPG8);
  (T_DataAttribute, iedModel_GenericIO_T60S_FSCH2_ValSPG8_setVal);
  (T_DataObject, iedModel_GenericIO_T60S_FSCH2_ValSPG9);
  (T_DataAttribute, iedModel_GenericIO_T60S_FSCH2_ValSPG9_setVal);
  (T_DataObject, iedModel_GenericIO_T60S_FSCH2_ValSPG10);
  (T_DataAttribute, iedModel_GenericIO_T60S_FSCH2_ValSPG10_setVal);
  (T_DataObject, iedModel_GenericIO_T60S_FSCH2_ValSPG11);
  (T_DataAttribute, iedModel_GenericIO_T60S_FSCH2_ValSPG11_setVal);
  (T_DataObject, iedModel_GenericIO_T60S_FSCH2_ValSPG12);
  (T_DataAttribute, iedModel_GenericIO_T60S_FSCH2_ValSPG12_setVal);
  (T_DataObject, iedModel_GenericIO_T60S_FSCH2_ValSPG13);
  (T_DataAttribute, iedModel_GenericIO_T60S_FSCH2_ValSPG13_setVal);
  (T_DataObject, iedModel_GenericIO_T60S_FSCH2_ValSPG14);
  (T_DataAttribute, iedModel_GenericIO_T60S_FSCH2_ValSPG14_setVal);
  (T_DataObject, iedModel_GenericIO_T60S_FSCH2_ValSPG15);
  (T_DataAttribute, iedModel_GenericIO_T60S_FSCH2_ValSPG15_setVal);
  (T_DataObject, iedModel_GenericIO_T60S_FSCH2_ValSPG16);
  (T_DataAttribute, iedModel_GenericIO_T60S_FSCH2_ValSPG16_setVal);
  (T_DataObject, iedModel_GenericIO_T60S_FSCH2_ValSPG17);
  (T_DataAttribute, iedModel_GenericIO_T60S_FSCH2_ValSPG17_setVal);
  (T_DataObject, iedModel_GenericIO_T60S_FSCH2_ValSPG18);
  (T_DataAttribute, iedModel_GenericIO_T60S_FSCH2_ValSPG18_setVal);
  (T_DataObject, iedModel_GenericIO_T60S_FSCH2_ValSPG19);
  (T_DataAttribute, iedModel_GenericIO_T60S_FSCH2_ValSPG19_setVal);
  (T_DataObject, iedModel_GenericIO_T60S_FSCH2_ValSPG20);
  (T_DataAttribute, iedModel_GenericIO_T60S_FSCH2_ValSPG20_setVal);
  (T_DataObject, iedModel_GenericIO_T60S_FSCH2_ValSPG21);
  (T_DataAttribute, iedModel_GenericIO_T60S_FSCH2_ValSPG21_setVal);
  (T_DataObject, iedModel_GenericIO_T60S_FSCH2_ValSPG22);
  (T_DataAttribute, iedModel_GenericIO_T60S_FSCH2_ValSPG22_setVal);
  (T_DataObject, iedModel_GenericIO_T60S_FSCH2_ValSPG23);
  (T_DataAttribute, iedModel_GenericIO_T60S_FSCH2_ValSPG23_setVal);
  (T_DataObject, iedModel_GenericIO_T60S_FSCH2_ValSPG24);
  (T_DataAttribute, iedModel_GenericIO_T60S_FSCH2_ValSPG24_setVal);
  (T_DataObject, iedModel_GenericIO_T60S_FSCH2_ValSPG25);
  (T_DataAttribute, iedModel_GenericIO_T60S_FSCH2_ValSPG25_setVal);
  (T_DataObject, iedModel_GenericIO_T60S_FSCH2_ValSPG26);
  (T_DataAttribute, iedModel_GenericIO_T60S_FSCH2_ValSPG26_setVal);
  (T_DataObject, iedModel_GenericIO_T60S_FSCH2_ValSPG27);
  (T_DataAttribute, iedModel_GenericIO_T60S_FSCH2_ValSPG27_setVal);
  (T_DataObject, iedModel_GenericIO_T60S_FSCH2_ValSPG28);
  (T_DataAttribute, iedModel_GenericIO_T60S_FSCH2_ValSPG28_setVal);
  (T_DataObject, iedModel_GenericIO_T60S_FSCH2_ValSPG29);
  (T_DataAttribute, iedModel_GenericIO_T60S_FSCH2_ValSPG29_setVal);
  (T_DataObject, iedModel_GenericIO_T60S_FSCH2_ValSPG30);
  (T_DataAttribute, iedModel_GenericIO_T60S_FSCH2_ValSPG30_setVal);
  (T_DataObject, iedModel_GenericIO_T60S_FSCH2_ValSPG31);
  (T_DataAttribute, iedModel_GenericIO_T60S_FSCH2_ValSPG31_setVal);
  (T_DataObject, iedModel_GenericIO_T60S_FSCH2_ValSPG32);
  (T_DataAttribute, iedModel_GenericIO_T60S_FSCH2_ValSPG32_setVal);
  (T_DataObject, iedModel_GenericIO_T60S_FSCH2_ValSPG33);
  (T_DataAttribute, iedModel_GenericIO_T60S_FSCH2_ValSPG33_setVal);
  (T_DataObject, iedModel_GenericIO_T60S_FSCH2_ValSPG34);
  (T_DataAttribute, iedModel_GenericIO_T60S_FSCH2_ValSPG34_setVal);
  (T_DataObject, iedModel_GenericIO_T60S_FSCH2_ValSPG35);
  (T_DataAttribute, iedModel_GenericIO_T60S_FSCH2_ValSPG35_setVal);
  (T_DataObject, iedModel_GenericIO_T60S_FSCH2_ValSPG36);
  (T_DataAttribute, iedModel_GenericIO_T60S_FSCH2_ValSPG36_setVal);
  (T_DataObject, iedModel_GenericIO_T60S_FSCH2_ValSPG37);
  (T_DataAttribute, iedModel_GenericIO_T60S_FSCH2_ValSPG37_setVal);
  (T_DataObject, iedModel_GenericIO_T60S_FSCH2_ValSPG38);
  (T_DataAttribute, iedModel_GenericIO_T60S_FSCH2_ValSPG38_setVal);
  (T_DataObject, iedModel_GenericIO_T60S_FSCH2_ValSPG39);
  (T_DataAttribute, iedModel_GenericIO_T60S_FSCH2_ValSPG39_setVal);
  (T_DataObject, iedModel_GenericIO_T60S_FSCH2_ValSPG40);
  (T_DataAttribute, iedModel_GenericIO_T60S_FSCH2_ValSPG40_setVal);
  (T_DataObject, iedModel_GenericIO_T60S_FSCH2_ValSPG41);
  (T_DataAttribute, iedModel_GenericIO_T60S_FSCH2_ValSPG41_setVal);
  (T_DataObject, iedModel_GenericIO_T60S_FSCH2_ValSPG42);
  (T_DataAttribute, iedModel_GenericIO_T60S_FSCH2_ValSPG42_setVal);
  (T_DataObject, iedModel_GenericIO_T60S_FSCH2_ValSPG43);
  (T_DataAttribute, iedModel_GenericIO_T60S_FSCH2_ValSPG43_setVal);
  (T_DataObject, iedModel_GenericIO_T60S_FSCH2_ValSPG44);
  (T_DataAttribute, iedModel_GenericIO_T60S_FSCH2_ValSPG44_setVal);
  (T_DataObject, iedModel_GenericIO_T60S_FSCH2_ValSPG45);
  (T_DataAttribute, iedModel_GenericIO_T60S_FSCH2_ValSPG45_setVal);
  (T_DataObject, iedModel_GenericIO_T60S_FSCH2_ValSPG46);
  (T_DataAttribute, iedModel_GenericIO_T60S_FSCH2_ValSPG46_setVal);
  (T_DataObject, iedModel_GenericIO_T60S_FSCH2_ValSPG47);
  (T_DataAttribute, iedModel_GenericIO_T60S_FSCH2_ValSPG47_setVal);
  (T_DataObject, iedModel_GenericIO_T60S_FSCH2_ValSPG48);
  (T_DataAttribute, iedModel_GenericIO_T60S_FSCH2_ValSPG48_setVal);
  (T_DataObject, iedModel_GenericIO_T60S_FSCH2_ValSPG49);
  (T_DataAttribute, iedModel_GenericIO_T60S_FSCH2_ValSPG49_setVal);
  (T_DataObject, iedModel_GenericIO_T60S_FSCH2_ValSPG50);
  (T_DataAttribute, iedModel_GenericIO_T60S_FSCH2_ValSPG50_setVal);
  (T_DataObject, iedModel_GenericIO_T60S_FSCH2_ValSPG51);
  (T_DataAttribute, iedModel_GenericIO_T60S_FSCH2_ValSPG51_setVal);
  (T_DataObject, iedModel_GenericIO_T60S_FSCH2_ValSPG52);
  (T_DataAttribute, iedModel_GenericIO_T60S_FSCH2_ValSPG52_setVal);
  (T_DataObject, iedModel_GenericIO_T60S_FSCH2_ValSPG53);
  (T_DataAttribute, iedModel_GenericIO_T60S_FSCH2_ValSPG53_setVal)
].

Definition externs5 : list (object_type * addr) := [
  (T_DataObject, iedModel_GenericIO_T60S_FSCH2_ValSPG54);
  (T_DataAttribute, iedModel_GenericIO_T60S_FSCH2_ValSPG54_setVal);
  (T_DataObject, iedModel_GenericIO_T60S_FSCH2_ValSPG55);
  (T_DataAttribute, iedModel_GenericIO_T60S_FSCH2_ValSPG55_setVal);
  (T_DataObject, iedModel_GenericIO_T60S_FSCH2_ValSPG56);
  (T_DataAttribute, iedModel_GenericIO_T60S_FSCH2_ValSPG56_setVal);
  (T_DataObject, iedModel_GenericIO_T60S_FSCH2_ValSPG57);
  (T_DataAttribute, iedModel_GenericIO_T60S_FSCH2_ValSPG57_setVal);
  (T_DataObject, iedModel_GenericIO_T60S_FSCH2_ValSPG58);
  (T_DataAttribute, iedModel_GenericIO_T60S_FSCH2_ValSPG58_setVal);
  (T_DataObject, iedModel_GenericIO_T60S_FSCH2_ValSPG59);
  (T_DataAttribute, iedModel_GenericIO_T60S_FSCH2_ValSPG59_setVal);
  (T_DataObject, iedModel_GenericIO_T60S_FSCH2_ValSPG60);
  (T_DataAttribute, iedModel_GenericIO_T60S_FSCH2_ValSPG60_setVal);
  (T_DataObject, iedModel_GenericIO_T60S_FSCH2_StrTm);
  (T_DataAttribute, iedModel_GenericIO_T60S_FSCH2_StrTm_setTm);
  (T_DataAttribute, iedModel_GenericIO_T60S_FSCH2_StrTm_setCal);
  (T_DataAttribute, iedModel_GenericIO_T60S_FSCH2_StrTm_setCal_occ);
  (T_DataAttribute, iedModel_GenericIO_T60S_FSCH2_StrTm_setCal_occType);
  (T_DataAttribute, iedModel_GenericIO_T60S_FSCH2_StrTm_setCal_occPer);
  (T_DataAttribute, iedModel_GenericIO_T60S_FSCH2_StrTm_setCal_weekDay);
  (T_DataAttribute, iedModel_GenericIO_T60S_FSCH2_StrTm_setCal_month);
  (T_DataAttribute, iedModel_GenericIO_T60S_FSCH2_StrTm_setCal_day);
  (T_DataAttribute, iedModel_GenericIO_T60S_FSCH2_StrTm_setCal_hr);
  (T_DataAttribute, iedModel_GenericIO_T60S_FSCH2_StrTm_setCal_mn);
  (T_DataObject, iedModel_GenericIO_T60S_FSCH2_IntvPer);
  (T_DataAttribute, iedModel_GenericIO_T60S_FSCH2_IntvPer_setVal);
  (T_DataObject, iedModel_GenericIO_T60S_FSCH2_IntvTyp);
  (T_DataAttribute, iedModel_GenericIO_T60S_FSCH2_IntvTyp_setVal);
  (T_DataObject, iedModel_GenericIO_T60S_FSCH2_SchdReuse);
  (T_DataAttribute, iedModel_GenericIO_T60S_FSCH2_SchdReuse_setVal);
  (T_LogicalNode, iedModel_GenericIO_GGIO_FSCC1);
  (T_DataObject, iedModel_GenericIO_GGIO_FSCC1_Beh);
  (T_DataAttribute, iedModel_GenericIO_GGIO_FSCC1_Beh_stVal);
  (T_DataAttribute, iedModel_GenericIO_GGIO_FSCC1_Beh_q);
  (T_DataAttribute, iedModel_GenericIO_GGIO_FSCC1_Beh_t);
  (T_DataObject, iedModel_GenericIO_GGIO_FSCC1_ActSchdRef);
  (T_DataAttribute, iedModel_GenericIO_GGIO_FSCC1_ActSchdRef_stVal);
  (T_DataAttribute, iedModel_GenericIO_GGIO_FSCC1_ActSchdRef_q);
  (T_DataAttribute, iedModel_GenericIO_GGIO_FSCC1_ActSchdRef_t);
  (T_DataObject, iedModel_GenericIO_GGIO_FSCC1_CtlEnt);
  (T_DataAttribute, iedModel_GenericIO_GGIO_FSCC1_CtlEnt_setSrcRef);
  (T_DataObject, iedModel_GenericIO_GGIO_FSCC1_Schd1);
  (T_DataAttribute, iedModel_GenericIO_GGIO_FSCC1_Schd1_setSrcRef);
  (T_DataObject, iedModel_GenericIO_GGIO_FSCC1_Schd2);
  (T_DataAttribute, iedModel_GenericIO_GGIO_FSCC1_Schd2_setSrcRef)
].

Definition static_externs : list (object_type * addr) :=
  externs1 ++ externs2 ++ externs3 ++ externs4 ++ externs5.

(** ** Macros: [#define M (&x)] is [(M, &x)] *)

Definition macros1 : list (string * option addr) := [
  ("IEDMODEL_GenericIO", &iedModel_GenericIO);
  ("IEDMODEL_GenericIO_LLN0", &iedModel_GenericIO_LLN0);
  ("IEDMODEL_GenericIO_LLN0_Beh", &iedModel_GenericIO_LLN0_Beh);
  ("IEDMODEL_GenericIO_LLN0_Beh_stVal", &iedModel_GenericIO_LLN0_Beh_stVal);
  ("IEDMODEL_GenericIO_LLN0_Beh_q", &iedModel_GenericIO_LLN0_Beh_q);
  ("IEDMODEL_GenericIO_LLN0_Beh_t", &iedModel_GenericIO_LLN0_Beh_t);
  ("IEDMODEL_GenericIO_LLN0_Mod", &iedModel_GenericIO_LLN0_Mod);
  ("IEDMODEL_GenericIO_LLN0_Mod_stVal", &iedModel_GenericIO_LLN0_Mod_stVal);
  ("IEDMODEL_GenericIO_LLN0_Mod_q", &iedModel_GenericIO_LLN0_Mod_q);
  ("IEDMODEL_GenericIO_LLN0_Mod_t", &iedModel_GenericIO_LLN0_Mod_t);
  ("IEDMODEL_GenericIO_LLN0_Mod_ctlModel", &iedModel_GenericIO_LLN0_Mod_ctlModel);
  ("IEDMODEL_GenericIO_LLN0_Health", &iedModel_GenericIO_LLN0_Health);
  ("IEDMODEL_GenericIO_LLN0_Health_stVal", &iedModel_GenericIO_LLN0_Health_stVal);
  ("IEDMODEL_GenericIO_LLN0_Health_q", &iedModel_GenericIO_LLN0_Health_q);
  ("IEDMODEL_GenericIO_LLN0_Health_t", &iedModel_GenericIO_LLN0_Health_t);
  ("IEDMODEL_GenericIO_LLN0_NamPlt", &iedModel_GenericIO_LLN0_NamPlt);
  ("IEDMODEL_GenericIO_LLN0_NamPlt_vendor", &iedModel_GenericIO_LLN0_NamPlt_vendor);
  ("IEDMODEL_GenericIO_LLN0_NamPlt_swRev", &iedModel_GenericIO_LLN0_NamPlt_swRev);
  ("IEDMODEL_GenericIO_LLN0_NamPlt_d", &iedModel_GenericIO_LLN0_NamPlt_d);
  ("IEDMODEL_GenericIO_LLN0_NamPlt_configRev", &iedModel_GenericIO_LLN0_NamPlt_configRev);
  ("IEDMODEL_GenericIO_LLN0_NamPlt_ldNs", &iedModel_GenericIO_LLN0_NamPlt_ldNs);
  ("IEDMODEL_GenericIO_LPHD1", &iedModel_GenericIO_LPHD1);
  ("IEDMODEL_GenericIO_LPHD1_PhyNam", &iedModel_GenericIO_LPHD1_PhyNam);
  ("IEDMODEL_GenericIO_LPHD1_PhyNam_vendor", &iedModel_GenericIO_LPHD1_PhyNam_vendor);
  ("IEDMODEL_GenericIO_LPHD1_PhyHealth", &iedModel_GenericIO_LPHD1_PhyHealth);
  ("IEDMODEL_GenericIO_LPHD1_PhyHealth_stVal", &iedModel_GenericIO_LPHD1_PhyHealth_stVal);
  ("IEDMODEL_GenericIO_LPHD1_PhyHealth_q", &iedModel_GenericIO_LPHD1_PhyHealth_q);
  ("IEDMODEL_GenericIO_LPHD1_PhyHealth_t", &iedModel_GenericIO_LPHD1_PhyHealth_t);
  ("IEDMODEL_GenericIO_LPHD1_Proxy", &iedModel_GenericIO_LPHD1_Proxy);
  ("IEDMODEL_GenericIO_LPHD1_Proxy_stVal", &iedModel_GenericIO_LPHD1_Proxy_stVal);
  ("IEDMODEL_GenericIO_LPHD1_Proxy_q", &iedModel_GenericIO_LPHD1_Proxy_q);
  ("IEDMODEL_GenericIO_LPHD1_Proxy_t", &iedModel_GenericIO_LPHD1_Proxy_t);
  ("IEDMODEL_GenericIO_GGIO1", &iedModel_GenericIO_GGIO1);
  ("IEDMODEL_GenericIO_GGIO1_Beh", &iedModel_GenericIO_GGIO1_Beh);
  ("IEDMODEL_GenericIO_GGIO1_Beh_stVal", &iedModel_GenericIO_GGIO1_Beh_stVal);
  ("IEDMODEL_GenericIO_GGIO1_Beh_q", &iedModel_GenericIO_GGIO1_Beh_q);
  ("IEDMODEL_GenericIO_GGIO1_Beh_t", &iedModel_GenericIO_GGIO1_Beh_t);
  ("IEDMODEL_GenericIO_GGIO1_Mod", &iedModel_GenericIO_GGIO1_Mod);
  ("IEDMODEL_GenericIO_GGIO1_Mod_stVal", &iedModel_GenericIO_GGIO1_Mod_stVal);
  ("IEDMODEL_GenericIO_GGIO1_Mod_q", &iedModel_GenericIO_GGIO1_Mod_q);
  ("IEDMODEL_GenericIO_GGIO1_Mod_t", &iedModel_GenericIO_GGIO1_Mod_t);
  ("IEDMODEL_GenericIO_GGIO1_Mod_ctlModel", &iedModel_GenericIO_GGIO1_Mod_ctlModel);
  ("IEDMODEL_GenericIO_GGIO1_Health", &iedModel_GenericIO_GGIO1_Health);
  ("IEDMODEL_GenericIO_GGIO1_Health_stVal", &iedModel_GenericIO_GGIO1_Health_stVal);
  ("IEDMODEL_GenericIO_GGIO1_Health_q", &iedModel_GenericIO_GGIO1_Health_q);
  ("IEDMODEL_GenericIO_GGIO1_Health_t", &iedModel_GenericIO_GGIO1_Health_t);
  ("IEDMODEL_GenericIO_GGIO1_NamPlt", &iedModel_GenericIO_GGIO1_NamPlt);
  ("IEDMODEL_GenericIO_GGIO1_NamPlt_vendor", &iedModel_GenericIO_GGIO1_NamPlt_vendor);
  ("IEDMODEL_GenericIO_GGIO1_NamPlt_swRev", &iedModel_GenericIO_GGIO1_NamPlt_swRev);
  ("IEDMODEL_GenericIO_GGIO1_NamPlt_d", &iedModel_GenericIO_GGIO1_NamPlt_d);
  ("IEDMODEL_GenericIO_GGIO1_AnIn1", &iedModel_GenericIO_GGIO1_AnIn1);
  ("IEDMODEL_GenericIO_GGIO1_AnIn1_mag", &iedModel_GenericIO_GGIO1_AnIn1_mag);
  ("IEDMODEL_GenericIO_GGIO1_AnIn1_mag_f", &iedModel_GenericIO_GGIO1_AnIn1_mag_f);
  ("IEDMODEL_GenericIO_GGIO1_AnIn1_q", &iedModel_GenericIO_GGIO1_AnIn1_q);
  ("IEDMODEL_GenericIO_GGIO1_AnIn1_t", &iedModel_GenericIO_GGIO1_AnIn1_t);
  ("IEDMODEL_GenericIO_GGIO1_AnIn2", &iedModel_GenericIO_GGIO1_AnIn2);
  ("IEDMODEL_GenericIO_GGIO1_AnIn2_mag", &iedModel_GenericIO_GGIO1_AnIn2_mag);
  ("IEDMODEL_GenericIO_GGIO1_AnIn2_mag_f", &iedModel_GenericIO_GGIO1_AnIn2_mag_f);
  ("IEDMODEL_GenericIO_GGIO1_AnIn2_q", &iedModel_GenericIO_GGIO1_AnIn2_q);
  ("IEDMODEL_GenericIO_GGIO1_AnIn2_t", &iedModel_GenericIO_GGIO1_AnIn2_t);
  ("IEDMODEL_GenericIO_GGIO1_AnIn3", &iedModel_GenericIO_GGIO1_AnIn3);
  ("IEDMODEL_GenericIO_GGIO1_AnIn3_mag", &iedModel_GenericIO_GGIO1_AnIn3_mag);
  ("IEDMODEL_GenericIO_GGIO1_AnIn3_mag_f", &iedModel_GenericIO_GGIO1_AnIn3_mag_f);
  ("IEDMODEL_GenericIO_GGIO1_AnIn3_q", &iedModel_GenericIO_GGIO1_AnIn3_q);
  ("IEDMODEL_GenericIO_GGIO1_AnIn3_t", &iedModel_GenericIO_GGIO1_AnIn3_t);
  ("IEDMODEL_GenericIO_GGIO1_AnIn4", &iedModel_GenericIO_GGIO1_AnIn4);
  ("IEDMODEL_GenericIO_GGIO1_AnIn4_mag", &iedModel_GenericIO_GGIO1_AnIn4_mag);
  ("IEDMODEL_GenericIO_GGIO1_AnIn4_mag_f", &iedModel_GenericIO_GGIO1_AnIn4_mag_f);
  ("IEDMODEL_GenericIO_GGIO1_AnIn4_q", &iedModel_GenericIO_GGIO1_AnIn4_q);
  ("IEDMODEL_GenericIO_GGIO1_AnIn4_t", &iedModel_GenericIO_GGIO1_AnIn4_t);
  ("IEDMODEL_GenericIO_GGIO1_SPCSO1", &iedModel_GenericIO_GGIO1_SPCSO1);
  ("IEDMODEL_GenericIO_GGIO1_SPCSO1_stVal", &iedModel_GenericIO_GGIO1_SPCSO1_stVal);
  ("IEDMODEL_GenericIO_GGIO1_SPCSO1_q", &iedModel_GenericIO_GGIO1_SPCSO1_q);
  ("IEDMODEL_GenericIO_GGIO1_SPCSO1_Oper", &iedModel_GenericIO_GGIO1_SPCSO1_Oper);
  ("IEDMODEL_GenericIO_GGIO1_SPCSO1_Oper_ctlVal", &iedModel_GenericIO_GGIO1_SPCSO1_Oper_ctlVal);
  ("IEDMODEL_GenericIO_GGIO1_SPCSO1_Oper_origin", &iedModel_GenericIO_GGIO1_SPCSO1_Oper_origin);
  ("IEDMODEL_GenericIO_GGIO1_SPCSO1_Oper_origin_orCat", &iedModel_GenericIO_GGIO1_SPCSO1_Oper_origin_orCat);
  ("IEDMODEL_GenericIO_GGIO1_SPCSO1_Oper_origin_orIdent", &iedModel_GenericIO_GGIO1_SPCSO1_Oper_origin_orIdent);
  ("IEDMODEL_GenericIO_GGIO1_SPCSO1_Oper_ctlNum", &iedModel_GenericIO_GGIO1_SPCSO1_Oper_ctlNum);
  ("IEDMODEL_GenericIO_GGIO1_SPCSO1_Oper_T", &iedModel_GenericIO_GGIO1_SPCSO1_Oper_T);
  ("IEDMODEL_GenericIO_GGIO1_SPCSO1_Oper_Test", &iedModel_GenericIO_GGIO1_SPCSO1_Oper_Test);
  ("IEDMODEL_GenericIO_GGIO1_SPCSO1_Oper_Check", &iedModel_GenericIO_GGIO1_SPCSO1_Oper_Check);
  ("IEDMODEL_GenericIO_GGIO1_SPCSO1_ctlModel", &iedModel_GenericIO_GGIO1_SPCSO1_ctlModel);
  ("IEDMODEL_GenericIO_GGIO1_SPCSO1_t", &iedModel_GenericIO_GGIO1_SPCSO1_t);
  ("IEDMODEL_GenericIO_GGIO1_SPCSO2", &iedModel_GenericIO_GGIO1_SPCSO2);
  ("IEDMODEL_GenericIO_GGIO1_SPCSO2_stVal", &iedModel_GenericIO_GGIO1_SPCSO2_stVal);
  ("IEDMODEL_GenericIO_GGIO1_SPCSO2_q", &iedModel_GenericIO_GGIO1_SPCSO2_q);
  ("IEDMODEL_GenericIO_GGIO1_SPCSO2_SBO", &iedModel_GenericIO_GGIO1_SPCSO2_SBO);
  ("IEDMODEL_GenericIO_GGIO1_SPCSO2_Oper", &iedModel_GenericIO_GGIO1_SPCSO2_Oper);
  ("IEDMODEL_GenericIO_GGIO1_SPCSO2_Oper_ctlVal", &iedModel_GenericIO_GGIO1_SPCSO2_Oper_ctlVal);
  ("IEDMODEL_GenericIO_GGIO1_SPCSO2_Oper_origin", &iedModel_GenericIO_GGIO1_SPCSO2_Oper_origin);
  ("IEDMODEL_GenericIO_GGIO1_SPCSO2_Oper_origin_orCat", &iedModel_GenericIO_GGIO1_SPCSO2_Oper_origin_orCat);
  ("IEDMODEL_GenericIO_GGIO1_SPCSO2_Oper_origin_orIdent", &iedModel_GenericIO_GGIO1_SPCSO2_Oper_origin_orIdent);
  ("IEDMODEL_GenericIO_GGIO1_SPCSO2_Oper_ctlNum", &iedModel_GenericIO_GGIO1_SPCSO2_Oper_ctlNum);
  ("IEDMODEL_GenericIO_GGIO1_SPCSO2_Oper_T", &iedModel_GenericIO_GGIO1_SPCSO2_Oper_T);
  ("IEDMODEL_GenericIO_GGIO1_SPCSO2_Oper_Test", &iedModel_GenericIO_GGIO1_SPCSO2_Oper_Test);
  ("IEDMODEL_GenericIO_GGIO1_SPCSO2_Oper_Check", &iedModel_GenericIO_GGIO1_SPCSO2_Oper_Check);
  ("IEDMODEL_GenericIO_GGIO1_SPCSO2_Cancel", &iedModel_GenericIO_GGIO1_SPCSO2_Cancel);
  ("IEDMODEL_GenericIO_GGIO1_SPCSO2_Cancel_ctlVal", &iedModel_GenericIO_GGIO1_SPCSO2_Cancel_ctlVal);
  ("IEDMODEL_GenericIO_GGIO1_SPCSO2_Cancel_origin", &iedModel_GenericIO_GGIO1_SPCSO2_Cancel_origin);
  ("IEDMODEL_GenericIO_GGIO1_SPCSO2_Cancel_origin_orCat", &iedModel_GenericIO_GGIO1_SPCSO2_Cancel_origin_orCat);
  ("IEDMODEL_GenericIO_GGIO1_SPCSO2_Cancel_origin_orIdent", &iedModel_GenericIO_GGIO1_SPCSO2_Cancel_origin_orIdent);
  ("IEDMODEL_GenericIO_GGIO1_SPCSO2_Cancel_ctlNum", &iedModel_GenericIO_GGIO1_SPCSO2_Cancel_ctlNum);
  ("IEDMODEL_GenericIO_GGIO1_SPCSO2_Cancel_T", &iedModel_GenericIO_GGIO1_SPCSO2_Cancel_T);
  ("IEDMODEL_GenericIO_GGIO1_SPCSO2_Cancel_Test", &iedModel_GenericIO_GGIO1_SPCSO2_Cancel_Test);
  ("IEDMODEL_GenericIO_GGIO1_SPCSO2_ctlModel", &iedModel_GenericIO_GGIO1_SPCSO2_ctlModel);
  ("IEDMODEL_GenericIO_GGIO1_SPCSO2_t", &iedModel_GenericIO_GGIO1_SPCSO2_t);
  ("IEDMODEL_GenericIO_GGIO1_SPCSO3", &iedModel_GenericIO_GGIO1_SPCSO3);
  ("IEDMODEL_GenericIO_GGIO1_SPCSO3_stVal", &iedModel_GenericIO_GGIO1_SPCSO3_stVal);
  ("IEDMODEL_GenericIO_GGIO1_SPCSO3_q", &iedModel_GenericIO_GGIO1_SPCSO3_q);
  ("IEDMODEL_GenericIO_GGIO1_SPCSO3_Oper", &iedModel_GenericIO_GGIO1_SPCSO3_Oper);
  ("IEDMODEL_GenericIO_GGIO1_SPCSO3_Oper_ctlVal", &iedModel_GenericIO_GGIO1_SPCSO3_Oper_ctlVal);
  ("IEDMODEL_GenericIO_GGIO1_SPCSO3_Oper_origin", &iedModel_GenericIO_GGIO1_SPCSO3_Oper_origin);
  ("IEDMODEL_GenericIO_GGIO1_SPCSO3_Oper_origin_orCat", &iedModel_GenericIO_GGIO1_SPCSO3_Oper_origin_orCat);
  ("IEDMODEL_GenericIO_GGIO1_SPCSO3_Oper_origin_orIdent", &iedModel_GenericIO_GGIO1_SPCSO3_Oper_origin_orIdent);
  ("IEDMODEL_GenericIO_GGIO1_SPCSO3_Oper_ctlNum", &iedModel_GenericIO_GGIO1_SPCSO3_Oper_ctlNum);
  ("IEDMODEL_GenericIO_GGIO1_SPCSO3_Oper_T", &iedModel_GenericIO_GGIO1_SPCSO3_Oper_T);
  ("IEDMODEL_GenericIO_GGIO1_SPCSO3_Oper_Test", &iedModel_GenericIO_GGIO1_SPCSO3_Oper_Test);
  ("IEDMODEL_GenericIO_GGIO1_SPCSO3_Oper_Check", &iedModel_GenericIO_GGIO1_SPCSO3_Oper_Check);
  ("IEDMODEL_GenericIO_GGIO1_SPCSO3_ctlModel", &iedModel_GenericIO_GGIO1_SPCSO3_ctlModel);
  ("IEDMODEL_GenericIO_GGIO1_SPCSO3_t", &iedModel_GenericIO_GGIO1_SPCSO3_t);
  ("IEDMODEL_GenericIO_GGIO1_DPCSO1", &iedModel_GenericIO_GGIO1_DPCSO1);
  ("IEDMODEL_GenericIO_GGIO1_DPCSO1_stVal", &iedModel_GenericIO_GGIO1_DPCSO1_stVal);
  ("IEDMODEL_GenericIO_GGIO1_DPCSO1_q", &iedModel_GenericIO_GGIO1_DPCSO1_q);
  ("IEDMODEL_GenericIO_GGIO1_DPCSO1_Oper", &iedModel_GenericIO_GGIO1_DPCSO1_Oper);
  ("IEDMODEL_GenericIO_GGIO1_DPCSO1_Oper_ctlVal", &iedModel_GenericIO_GGIO1_DPCSO1_Oper_ctlVal);
  ("IEDMODEL_GenericIO_GGIO1_DPCSO1_Oper_origin", &iedModel_GenericIO_GGIO1_DPCSO1_Oper_origin);
  ("IEDMODEL_GenericIO_GGIO1_DPCSO1_Oper_origin_orCat", &iedModel_GenericIO_GGIO1_DPCSO1_Oper_origin_orCat);
  ("IEDMODEL_GenericIO_GGIO1_DPCSO1_Oper_origin_orIdent", &iedModel_GenericIO_GGIO1_DPCSO1_Oper_origin_orIdent);
  ("IEDMODEL_GenericIO_GGIO1_DPCSO1_Oper_ctlNum", &iedModel_GenericIO_GGIO1_DPCSO1_Oper_ctlNum);
  ("IEDMODEL_GenericIO_GGIO1_DPCSO1_Oper_T", &iedModel_GenericIO_GGIO1_DPCSO1_Oper_T);
  ("IEDMODEL_GenericIO_GGIO1_DPCSO1_Oper_Test", &iedModel_GenericIO_GGIO1_DPCSO1_Oper_Test);
  ("IEDMODEL_GenericIO_GGIO1_DPCSO1_Oper_Check", &iedModel_GenericIO_GGIO1_DPCSO1_Oper_Check);
  ("IEDMODEL_GenericIO_GGIO1_DPCSO1_ctlModel", &iedModel_GenericIO_GGIO1_DPCSO1_ctlModel);
  ("IEDMODEL_GenericIO_GGIO1_DPCSO1_t", &iedModel_GenericIO_GGIO1_DPCSO1_t);
  ("IEDMODEL_GenericIO_GGIO1_Ind1", &iedModel_GenericIO_GGIO1_Ind1);
  ("IEDMODEL_GenericIO_GGIO1_Ind1_stVal", &iedModel_GenericIO_GGIO1_Ind1_stVal);
  ("IEDMODEL_GenericIO_GGIO1_Ind1_q", &iedModel_GenericIO_GGIO1_Ind1_q);
  ("IEDMODEL_GenericIO_GGIO1_Ind1_t", &iedModel_GenericIO_GGIO1_Ind1_t);
  ("IEDMODEL_GenericIO_GGIO1_Ind2", &iedModel_GenericIO_GGIO1_Ind2);
  ("IEDMODEL_GenericIO_GGIO1_Ind2_stVal", &iedModel_GenericIO_GGIO1_Ind2_stVal);
  ("IEDMODEL_GenericIO_GGIO1_Ind2_q", &iedModel_GenericIO_GGIO1_Ind2_q);
  ("IEDMODEL_GenericIO_GGIO1_Ind2_t", &iedModel_GenericIO_GGIO1_Ind2_t);
  ("IEDMODEL_GenericIO_GGIO1_Ind3", &iedModel_GenericIO_GGIO1_Ind3);
  ("IEDMODEL_GenericIO_GGIO1_Ind3_stVal", &iedModel_GenericIO_GGIO1_Ind3_stVal);
  ("IEDMODEL_GenericIO_GGIO1_Ind3_q", &iedModel_GenericIO_GGIO1_Ind3_q);
  ("IEDMODEL_GenericIO_GGIO1_Ind3_t", &iedModel_GenericIO_GGIO1_Ind3_t);
  ("IEDMODEL_GenericIO_GGIO1_Ind4", &iedModel_GenericIO_GGIO1_Ind4)
].

Definition macros2 : list (string * option addr) := [
  ("IEDMODEL_GenericIO_GGIO1_Ind4_stVal", &iedModel_GenericIO_GGIO1_Ind4_stVal);
  ("IEDMODEL_GenericIO_GGIO1_Ind4_q", &iedModel_GenericIO_GGIO1_Ind4_q);
  ("IEDMODEL_GenericIO_GGIO1_Ind4_t", &iedModel_GenericIO_GGIO1_Ind4_t);
  ("IEDMODEL_GenericIO_TIM_GAPC1", &iedModel_GenericIO_TIM_GAPC1);
  ("IEDMODEL_GenericIO_TIM_GAPC1_Beh", &iedModel_GenericIO_TIM_GAPC1_Beh);
  ("IEDMODEL_GenericIO_TIM_GAPC1_Beh_stVal", &iedModel_GenericIO_TIM_GAPC1_Beh_stVal);
  ("IEDMODEL_GenericIO_TIM_GAPC1_Beh_q", &iedModel_GenericIO_TIM_GAPC1_Beh_q);
  ("IEDMODEL_GenericIO_TIM_GAPC1_Beh_t", &iedModel_GenericIO_TIM_GAPC1_Beh_t);
  ("IEDMODEL_GenericIO_TIM_GAPC1_Mod", &iedModel_GenericIO_TIM_GAPC1_Mod);
  ("IEDMODEL_GenericIO_TIM_GAPC1_Mod_stVal", &iedModel_GenericIO_TIM_GAPC1_Mod_stVal);
  ("IEDMODEL_GenericIO_TIM_GAPC1_Mod_q", &iedModel_GenericIO_TIM_GAPC1_Mod_q);
  ("IEDMODEL_GenericIO_TIM_GAPC1_Mod_t", &iedModel_GenericIO_TIM_GAPC1_Mod_t);
  ("IEDMODEL_GenericIO_TIM_GAPC1_Mod_ctlModel", &iedModel_GenericIO_TIM_GAPC1_Mod_ctlModel);
  ("IEDMODEL_GenericIO_TIM_GAPC1_Str", &iedModel_GenericIO_TIM_GAPC1_Str);
  ("IEDMODEL_GenericIO_TIM_GAPC1_Str_general", &iedModel_GenericIO_TIM_GAPC1_Str_general);
  ("IEDMODEL_GenericIO_TIM_GAPC1_Str_dirGeneral", &iedModel_GenericIO_TIM_GAPC1_Str_dirGeneral);
  ("IEDMODEL_GenericIO_TIM_GAPC1_Str_q", &iedModel_GenericIO_TIM_GAPC1_Str_q);
  ("IEDMODEL_GenericIO_TIM_GAPC1_Str_t", &iedModel_GenericIO_TIM_GAPC1_Str_t);
  ("IEDMODEL_GenericIO_TIM_GAPC1_Op", &iedModel_GenericIO_TIM_GAPC1_Op);
  ("IEDMODEL_GenericIO_TIM_GAPC1_Op_general", &iedModel_GenericIO_TIM_GAPC1_Op_general);
  ("IEDMODEL_GenericIO_TIM_GAPC1_Op_q", &iedModel_GenericIO_TIM_GAPC1_Op_q);
  ("IEDMODEL_GenericIO_TIM_GAPC1_Op_t", &iedModel_GenericIO_TIM_GAPC1_Op_t);
  ("IEDMODEL_GenericIO_TIM_GAPC1_OpDlTmms", &iedModel_GenericIO_TIM_GAPC1_OpDlTmms);
  ("IEDMODEL_GenericIO_TIM_GAPC1_OpDlTmms_setVal", &iedModel_GenericIO_TIM_GAPC1_OpDlTmms_setVal);
  ("IEDMODEL_GenericIO_TIM_GAPC1_OpDlTmms_dataNs", &iedModel_GenericIO_TIM_GAPC1_OpDlTmms_dataNs);
  ("IEDMODEL_GenericIO_TIM_GAPC1_RsDlTmms", &iedModel_GenericIO_TIM_GAPC1_RsDlTmms);
  ("IEDMODEL_GenericIO_TIM_GAPC1_RsDlTmms_setVal", &iedModel_GenericIO_TIM_GAPC1_RsDlTmms_setVal);
  ("IEDMODEL_GenericIO_TIM_GAPC1_RsDlTmms_dataNs", &iedModel_GenericIO_TIM_GAPC1_RsDlTmms_dataNs);
  ("IEDMODEL_GenericIO_TIM_GAPC1_OpCntRs", &iedModel_GenericIO_TIM_GAPC1_OpCntRs);
  ("IEDMODEL_GenericIO_TIM_GAPC1_OpCntRs_stVal", &iedModel_GenericIO_TIM_GAPC1_OpCntRs_stVal);
  ("IEDMODEL_GenericIO_TIM_GAPC1_OpCntRs_q", &iedModel_GenericIO_TIM_GAPC1_OpCntRs_q);
  ("IEDMODEL_GenericIO_TIM_GAPC1_OpCntRs_t", &iedModel_GenericIO_TIM_GAPC1_OpCntRs_t);
  ("IEDMODEL_GenericIO_TIM_GAPC1_OpCntRs_Oper", &iedModel_GenericIO_TIM_GAPC1_OpCntRs_Oper);
  ("IEDMODEL_GenericIO_TIM_GAPC1_OpCntRs_Oper_ctlVal", &iedModel_GenericIO_TIM_GAPC1_OpCntRs_Oper_ctlVal);
  ("IEDMODEL_GenericIO_TIM_GAPC1_OpCntRs_Oper_origin", &iedModel_GenericIO_TIM_GAPC1_OpCntRs_Oper_origin);
  ("IEDMODEL_GenericIO_TIM_GAPC1_OpCntRs_Oper_origin_orCat", &iedModel_GenericIO_TIM_GAPC1_OpCntRs_Oper_origin_orCat);
  ("IEDMODEL_GenericIO_TIM_GAPC1_OpCntRs_Oper_origin_orIdent", &iedModel_GenericIO_TIM_GAPC1_OpCntRs_Oper_origin_orIdent);
  ("IEDMODEL_GenericIO_TIM_GAPC1_OpCntRs_Oper_ctlNum", &iedModel_GenericIO_TIM_GAPC1_OpCntRs_Oper_ctlNum);
  ("IEDMODEL_GenericIO_TIM_GAPC1_OpCntRs_Oper_T", &iedModel_GenericIO_TIM_GAPC1_OpCntRs_Oper_T);
  ("IEDMODEL_GenericIO_TIM_GAPC1_OpCntRs_Oper_Test", &iedModel_GenericIO_TIM_GAPC1_OpCntRs_Oper_Test);
  ("IEDMODEL_GenericIO_TIM_GAPC1_OpCntRs_Oper_Check", &iedModel_GenericIO_TIM_GAPC1_OpCntRs_Oper_Check);
  ("IEDMODEL_GenericIO_TIM_GAPC1_OpCntRs_ctlModel", &iedModel_GenericIO_TIM_GAPC1_OpCntRs_ctlModel);
  ("IEDMODEL_GenericIO_T60S_FSCH1", &iedModel_GenericIO_T60S_FSCH1);
  ("IEDMODEL_GenericIO_T60S_FSCH1_Beh", &iedModel_GenericIO_T60S_FSCH1_Beh);
  ("IEDMODEL_GenericIO_T60S_FSCH1_Beh_stVal", &iedModel_GenericIO_T60S_FSCH1_Beh_stVal);
  ("IEDMODEL_GenericIO_T60S_FSCH1_Beh_q", &iedModel_GenericIO_T60S_FSCH1_Beh_q);
  ("IEDMODEL_GenericIO_T60S_FSCH1_Beh_t", &iedModel_GenericIO_T60S_FSCH1_Beh_t);
  ("IEDMODEL_GenericIO_T60S_FSCH1_SchdSt", &iedModel_GenericIO_T60S_FSCH1_SchdSt);
  ("IEDMODEL_GenericIO_T60S_FSCH1_SchdSt_stVal", &iedModel_GenericIO_T60S_FSCH1_SchdSt_stVal);
  ("IEDMODEL_GenericIO_T60S_FSCH1_SchdSt_q", &iedModel_GenericIO_T60S_FSCH1_SchdSt_q);
  ("IEDMODEL_GenericIO_T60S_FSCH1_SchdSt_t", &iedModel_GenericIO_T60S_FSCH1_SchdSt_t);
  ("IEDMODEL_GenericIO_T60S_FSCH1_SchdEntr", &iedModel_GenericIO_T60S_FSCH1_SchdEntr);
  ("IEDMODEL_GenericIO_T60S_FSCH1_SchdEntr_stVal", &iedModel_GenericIO_T60S_FSCH1_SchdEntr_stVal);
  ("IEDMODEL_GenericIO_T60S_FSCH1_SchdEntr_q", &iedModel_GenericIO_T60S_FSCH1_SchdEntr_q);
  ("IEDMODEL_GenericIO_T60S_FSCH1_SchdEntr_t", &iedModel_GenericIO_T60S_FSCH1_SchdEntr_t);
  ("IEDMODEL_GenericIO_T60S_FSCH1_ValSPS", &iedModel_GenericIO_T60S_FSCH1_ValSPS);
  ("IEDMODEL_GenericIO_T60S_FSCH1_ValSPS_stVal", &iedModel_GenericIO_T60S_FSCH1_ValSPS_stVal);
  ("IEDMODEL_GenericIO_T60S_FSCH1_ValSPS_q", &iedModel_GenericIO_T60S_FSCH1_ValSPS_q);
  ("IEDMODEL_GenericIO_T60S_FSCH1_ValSPS_t", &iedModel_GenericIO_T60S_FSCH1_ValSPS_t);
  ("IEDMODEL_GenericIO_T60S_FSCH1_VldReq", &iedModel_GenericIO_T60S_FSCH1_VldReq);
  ("IEDMODEL_GenericIO_T60S_FSCH1_VldReq_stVal", &iedModel_GenericIO_T60S_FSCH1_VldReq_stVal);
  ("IEDMODEL_GenericIO_T60S_FSCH1_VldReq_q", &iedModel_GenericIO_T60S_FSCH1_VldReq_q);
  ("IEDMODEL_GenericIO_T60S_FSCH1_VldReq_Oper", &iedModel_GenericIO_T60S_FSCH1_VldReq_Oper);
  ("IEDMODEL_GenericIO_T60S_FSCH1_VldReq_Oper_ctlVal", &iedModel_GenericIO_T60S_FSCH1_VldReq_Oper_ctlVal);
  ("IEDMODEL_GenericIO_T60S_FSCH1_VldReq_Oper_origin", &iedModel_GenericIO_T60S_FSCH1_VldReq_Oper_origin);
  ("IEDMODEL_GenericIO_T60S_FSCH1_VldReq_Oper_origin_orCat", &iedModel_GenericIO_T60S_FSCH1_VldReq_Oper_origin_orCat);
  ("IEDMODEL_GenericIO_T60S_FSCH1_VldReq_Oper_origin_orIdent", &iedModel_GenericIO_T60S_FSCH1_VldReq_Oper_origin_orIdent);
  ("IEDMODEL_GenericIO_T60S_FSCH1_VldReq_Oper_ctlNum", &iedModel_GenericIO_T60S_FSCH1_VldReq_Oper_ctlNum);
  ("IEDMODEL_GenericIO_T60S_FSCH1_VldReq_Oper_T", &iedModel_GenericIO_T60S_FSCH1_VldReq_Oper_T);
  ("IEDMODEL_GenericIO_T60S_FSCH1_VldReq_Oper_Test", &iedModel_GenericIO_T60S_FSCH1_VldReq_Oper_Test);
  ("IEDMODEL_GenericIO_T60S_FSCH1_VldReq_Oper_Check", &iedModel_GenericIO_T60S_FSCH1_VldReq_Oper_Check);
  ("IEDMODEL_GenericIO_T60S_FSCH1_VldReq_ctlModel", &iedModel_GenericIO_T60S_FSCH1_VldReq_ctlModel);
  ("IEDMODEL_GenericIO_T60S_FSCH1_VldReq_t", &iedModel_GenericIO_T60S_FSCH1_VldReq_t);
  ("IEDMODEL_GenericIO_T60S_FSCH1_EnaReq", &iedModel_GenericIO_T60S_FSCH1_EnaReq);
  ("IEDMODEL_GenericIO_T60S_FSCH1_EnaReq_stVal", &iedModel_GenericIO_T60S_FSCH1_EnaReq_stVal);
  ("IEDMODEL_GenericIO_T60S_FSCH1_EnaReq_q", &iedModel_GenericIO_T60S_FSCH1_EnaReq_q);
  ("IEDMODEL_GenericIO_T60S_FSCH1_EnaReq_Oper", &iedModel_GenericIO_T60S_FSCH1_EnaReq_Oper);
  ("IEDMODEL_GenericIO_T60S_FSCH1_EnaReq_Oper_ctlVal", &iedModel_GenericIO_T60S_FSCH1_EnaReq_Oper_ctlVal);
  ("IEDMODEL_GenericIO_T60S_FSCH1_EnaReq_Oper_origin", &iedModel_GenericIO_T60S_FSCH1_EnaReq_Oper_origin);
  ("IEDMODEL_GenericIO_T60S_FSCH1_EnaReq_Oper_origin_orCat", &iedModel_GenericIO_T60S_FSCH1_EnaReq_Oper_origin_orCat);
  ("IEDMODEL_GenericIO_T60S_FSCH1_EnaReq_Oper_origin_orIdent", &iedModel_GenericIO_T60S_FSCH1_EnaReq_Oper_origin_orIdent);
  ("IEDMODEL_GenericIO_T60S_FSCH1_EnaReq_Oper_ctlNum", &iedModel_GenericIO_T60S_FSCH1_EnaReq_Oper_ctlNum);
  ("IEDMODEL_GenericIO_T60S_FSCH1_EnaReq_Oper_T", &iedModel_GenericIO_T60S_FSCH1_EnaReq_Oper_T);
  ("IEDMODEL_GenericIO_T60S_FSCH1_EnaReq_Oper_Test", &iedModel_GenericIO_T60S_FSCH1_EnaReq_Oper_Test);
  ("IEDMODEL_GenericIO_T60S_FSCH1_EnaReq_Oper_Check", &iedModel_GenericIO_T60S_FSCH1_EnaReq_Oper_Check);
  ("IEDMODEL_GenericIO_T60S_FSCH1_EnaReq_ctlModel", &iedModel_GenericIO_T60S_FSCH1_EnaReq_ctlModel);
  ("IEDMODEL_GenericIO_T60S_FSCH1_EnaReq_t", &iedModel_GenericIO_T60S_FSCH1_EnaReq_t);
  ("IEDMODEL_GenericIO_T60S_FSCH1_EdtReq", &iedModel_GenericIO_T60S_FSCH1_EdtReq);
  ("IEDMODEL_GenericIO_T60S_FSCH1_EdtReq_stVal", &iedModel_GenericIO_T60S_FSCH1_EdtReq_stVal);
  ("IEDMODEL_GenericIO_T60S_FSCH1_EdtReq_q", &iedModel_GenericIO_T60S_FSCH1_EdtReq_q);
  ("IEDMODEL_GenericIO_T60S_FSCH1_EdtReq_Oper", &iedModel_GenericIO_T60S_FSCH1_EdtReq_Oper);
  ("IEDMODEL_GenericIO_T60S_FSCH1_EdtReq_Oper_ctlVal", &iedModel_GenericIO_T60S_FSCH1_EdtReq_Oper_ctlVal);
  ("IEDMODEL_GenericIO_T60S_FSCH1_EdtReq_Oper_origin", &iedModel_GenericIO_T60S_FSCH1_EdtReq_Oper_origin);
  ("IEDMODEL_GenericIO_T60S_FSCH1_EdtReq_Oper_origin_orCat", &iedModel_GenericIO_T60S_FSCH1_EdtReq_Oper_origin_orCat);
  ("IEDMODEL_GenericIO_T60S_FSCH1_EdtReq_Oper_origin_orIdent", &iedModel_GenericIO_T60S_FSCH1_EdtReq_Oper_origin_orIdent);
  ("IEDMODEL_GenericIO_T60S_FSCH1_EdtReq_Oper_ctlNum", &iedModel_GenericIO_T60S_FSCH1_EdtReq_Oper_ctlNum);
  ("IEDMODEL_GenericIO_T60S_FSCH1_EdtReq_Oper_T", &iedModel_GenericIO_T60S_FSCH1_EdtReq_Oper_T);
  ("IEDMODEL_GenericIO_T60S_FSCH1_EdtReq_Oper_Test", &iedModel_GenericIO_T60S_FSCH1_EdtReq_Oper_Test);
  ("IEDMODEL_GenericIO_T60S_FSCH1_EdtReq_Oper_Check", &iedModel_GenericIO_T60S_FSCH1_EdtReq_Oper_Check);
  ("IEDMODEL_GenericIO_T60S_FSCH1_EdtReq_ctlModel", &iedModel_GenericIO_T60S_FSCH1_EdtReq_ctlModel);
  ("IEDMODEL_GenericIO_T60S_FSCH1_EdtReq_t", &iedModel_GenericIO_T60S_FSCH1_EdtReq_t);
  ("IEDMODEL_GenericIO_T60S_FSCH1_DsaReq", &iedModel_GenericIO_T60S_FSCH1_DsaReq);
  ("IEDMODEL_GenericIO_T60S_FSCH1_DsaReq_stVal", &iedModel_GenericIO_T60S_FSCH1_DsaReq_stVal);
  ("IEDMODEL_GenericIO_T60S_FSCH1_DsaReq_q", &iedModel_GenericIO_T60S_FSCH1_DsaReq_q);
  ("IEDMODEL_GenericIO_T60S_FSCH1_DsaReq_Oper", &iedModel_GenericIO_T60S_FSCH1_DsaReq_Oper);
  ("IEDMODEL_GenericIO_T60S_FSCH1_DsaReq_Oper_ctlVal", &iedModel_GenericIO_T60S_FSCH1_DsaReq_Oper_ctlVal);
  ("IEDMODEL_GenericIO_T60S_FSCH1_DsaReq_Oper_origin", &iedModel_GenericIO_T60S_FSCH1_DsaReq_Oper_origin);
  ("IEDMODEL_GenericIO_T60S_FSCH1_DsaReq_Oper_origin_orCat", &iedModel_GenericIO_T60S_FSCH1_DsaReq_Oper_origin_orCat);
  ("IEDMODEL_GenericIO_T60S_FSCH1_DsaReq_Oper_origin_orIdent", &iedModel_GenericIO_T60S_FSCH1_DsaReq_Oper_origin_orIdent);
  ("IEDMODEL_GenericIO_T60S_FSCH1_DsaReq_Oper_ctlNum", &iedModel_GenericIO_T60S_FSCH1_DsaReq_Oper_ctlNum);
  ("IEDMODEL_GenericIO_T60S_FSCH1_DsaReq_Oper_T", &iedModel_GenericIO_T60S_FSCH1_DsaReq_Oper_T);
  ("IEDMODEL_GenericIO_T60S_FSCH1_DsaReq_Oper_Test", &iedModel_GenericIO_T60S_FSCH1_DsaReq_Oper_Test);
  ("IEDMODEL_GenericIO_T60S_FSCH1_DsaReq_Oper_Check", &iedModel_GenericIO_T60S_FSCH1_DsaReq_Oper_Check);
  ("IEDMODEL_GenericIO_T60S_FSCH1_DsaReq_ctlModel", &iedModel_GenericIO_T60S_FSCH1_DsaReq_ctlModel);
  ("IEDMODEL_GenericIO_T60S_FSCH1_DsaReq_t", &iedModel_GenericIO_T60S_FSCH1_DsaReq_t);
  ("IEDMODEL_GenericIO_T60S_FSCH1_SchdPrio", &iedModel_GenericIO_T60S_FSCH1_SchdPrio);
  ("IEDMODEL_GenericIO_T60S_FSCH1_SchdPrio_setVal", &iedModel_GenericIO_T60S_FSCH1_SchdPrio_setVal);
  ("IEDMODEL_GenericIO_T60S_FSCH1_NumEntr", &iedModel_GenericIO_T60S_FSCH1_NumEntr);
  ("IEDMODEL_GenericIO_T60S_FSCH1_NumEntr_setVal", &iedModel_GenericIO_T60S_FSCH1_NumEntr_setVal);
  ("IEDMODEL_GenericIO_T60S_FSCH1_SchdIntv", &iedModel_GenericIO_T60S_FSCH1_SchdIntv);
  ("IEDMODEL_GenericIO_T60S_FSCH1_SchdIntv_setVal", &iedModel_GenericIO_T60S_FSCH1_SchdIntv_setVal);
  ("IEDMODEL_GenericIO_T60S_FSCH1_ValSPG1", &iedModel_GenericIO_T60S_FSCH1_ValSPG1);
  ("IEDMODEL_GenericIO_T60S_FSCH1_ValSPG1_setVal", &iedModel_GenericIO_T60S_FSCH1_ValSPG1_setVal);
  ("IEDMODEL_GenericIO_T60S_FSCH1_ValSPG2", &iedModel_GenericIO_T60S_FSCH1_ValSPG2);
  ("IEDMODEL_GenericIO_T60S_FSCH1_ValSPG2_setVal", &iedModel_GenericIO_T60S_FSCH1_ValSPG2_setVal);
  ("IEDMODEL_GenericIO_T60S_FSCH1_ValSPG3", &iedModel_GenericIO_T60S_FSCH1_ValSPG3);
  ("IEDMODEL_GenericIO_T60S_FSCH1_ValSPG3_setVal", &iedModel_GenericIO_T60S_FSCH1_ValSPG3_setVal);
  ("IEDMODEL_GenericIO_T60S_FSCH1_ValSPG4", &iedModel_GenericIO_T60S_FSCH1_ValSPG4);
  ("IEDMODEL_GenericIO_T60S_FSCH1_ValSPG4_setVal", &iedModel_GenericIO_T60S_FSCH1_ValSPG4_setVal);
  ("IEDMODEL_GenericIO_T60S_FSCH1_ValSPG5", &iedModel_GenericIO_T60S_FSCH1_ValSPG5);
  ("IEDMODEL_GenericIO_T60S_FSCH1_ValSPG5_setVal", &iedModel_GenericIO_T60S_FSCH1_ValSPG5_setVal);
  ("IEDMODEL_GenericIO_T60S_FSCH1_ValSPG6", &iedModel_GenericIO_T60S_FSCH1_ValSPG6);
  ("IEDMODEL_GenericIO_T60S_FSCH1_ValSPG6_setVal", &iedModel_GenericIO_T60S_FSCH1_ValSPG6_setVal);
  ("IEDMODEL_GenericIO_T60S_FSCH1_ValSPG7", &iedModel_GenericIO_T60S_FSCH1_ValSPG7);
  ("IEDMODEL_GenericIO_T60S_FSCH1_ValSPG7_setVal", &iedModel_GenericIO_T60S_FSCH1_ValSPG7_setVal);
  ("IEDMODEL_GenericIO_T60S_FSCH1_ValSPG8", &iedModel_GenericIO_T60S_FSCH1_ValSPG8);
  ("IEDMODEL_GenericIO_T60S_FSCH1_ValSPG8_setVal", &iedModel_GenericIO_T60S_FSCH1_ValSPG8_setVal);
  ("IEDMODEL_GenericIO_T60S_FSCH1_ValSPG9", &iedModel_GenericIO_T60S_FSCH1_ValSPG9);
  ("IEDMODEL_GenericIO_T60S_FSCH1_ValSPG9_setVal", &iedModel_GenericIO_T60S_FSCH1_ValSPG9_setVal);
  ("IEDMODEL_GenericIO_T60S_FSCH1_ValSPG10", &iedModel_GenericIO_T60S_FSCH1_ValSPG10);
  ("IEDMODEL_GenericIO_T60S_FSCH1_ValSPG10_setVal", &iedModel_GenericIO_T60S_FSCH1_ValSPG10_setVal);
  ("IEDMODEL_GenericIO_T60S_FSCH1_ValSPG11", &iedModel_GenericIO_T60S_FSCH1_ValSPG11);
  ("IEDMODEL_GenericIO_T60S_FSCH1_ValSPG11_setVal", &iedModel_GenericIO_T60S_FSCH1_ValSPG11_setVal);
  ("IEDMODEL_GenericIO_T60S_FSCH1_ValSPG12", &iedModel_GenericIO_T60S_FSCH1_ValSPG12);
  ("IEDMODEL_GenericIO_T60S_FSCH1_ValSPG12_setVal", &iedModel_GenericIO_T60S_FSCH1_ValSPG12_setVal);
  ("IEDMODEL_GenericIO_T60S_FSCH1_ValSPG13", &iedModel_GenericIO_T60S_FSCH1_ValSPG13);
  ("IEDMODEL_GenericIO_T60S_FSCH1_ValSPG13_setVal", &iedModel_GenericIO_T60S_FSCH1_ValSPG13_setVal);
  ("IEDMODEL_GenericIO_T60S_FSCH1_ValSPG14", &iedModel_GenericIO_T60S_FSCH1_ValSPG14)
].

Definition macros3 : list (string * option addr) := [
  ("IEDMODEL_GenericIO_T60S_FSCH1_ValSPG14_setVal", &iedModel_GenericIO_T60S_FSCH1_ValSPG14_setVal);
  ("IEDMODEL_GenericIO_T60S_FSCH1_ValSPG15", &iedModel_GenericIO_T60S_FSCH1_ValSPG15);
  ("IEDMODEL_GenericIO_T60S_FSCH1_ValSPG15_setVal", &iedModel_GenericIO_T60S_FSCH1_ValSPG15_setVal);
  ("IEDMODEL_GenericIO_T60S_FSCH1_ValSPG16", &iedModel_GenericIO_T60S_FSCH1_ValSPG16);
  ("IEDMODEL_GenericIO_T60S_FSCH1_ValSPG16_setVal", &iedModel_GenericIO_T60S_FSCH1_ValSPG16_setVal);
  ("IEDMODEL_GenericIO_T60S_FSCH1_ValSPG17", &iedModel_GenericIO_T60S_FSCH1_ValSPG17);
  ("IEDMODEL_GenericIO_T60S_FSCH1_ValSPG17_setVal", &iedModel_GenericIO_T60S_FSCH1_ValSPG17_setVal);
  ("IEDMODEL_GenericIO_T60S_FSCH1_ValSPG18", &iedModel_GenericIO_T60S_FSCH1_ValSPG18);
  ("IEDMODEL_GenericIO_T60S_FSCH1_ValSPG18_setVal", &iedModel_GenericIO_T60S_FSCH1_ValSPG18_setVal);
  ("IEDMODEL_GenericIO_T60S_FSCH1_ValSPG19", &iedModel_GenericIO_T60S_FSCH1_ValSPG19);
  ("IEDMODEL_GenericIO_T60S_FSCH1_ValSPG19_setVal", &iedModel_GenericIO_T60S_FSCH1_ValSPG19_setVal);
  ("IEDMODEL_GenericIO_T60S_FSCH1_ValSPG20", &iedModel_GenericIO_T60S_FSCH1_ValSPG20);
  ("IEDMODEL_GenericIO_T60S_FSCH1_ValSPG20_setVal", &iedModel_GenericIO_T60S_FSCH1_ValSPG20_setVal);
  ("IEDMODEL_GenericIO_T60S_FSCH1_ValSPG21", &iedModel_GenericIO_T60S_FSCH1_ValSPG21);
  ("IEDMODEL_GenericIO_T60S_FSCH1_ValSPG21_setVal", &iedModel_GenericIO_T60S_FSCH1_ValSPG21_setVal);
  ("IEDMODEL_GenericIO_T60S_FSCH1_ValSPG22", &iedModel_GenericIO_T60S_FSCH1_ValSPG22);
  ("IEDMODEL_GenericIO_T60S_FSCH1_ValSPG22_setVal", &iedModel_GenericIO_T60S_FSCH1_ValSPG22_setVal);
  ("IEDMODEL_GenericIO_T60S_FSCH1_ValSPG23", &iedModel_GenericIO_T60S_FSCH1_ValSPG23);
  ("IEDMODEL_GenericIO_T60S_FSCH1_ValSPG23_setVal", &iedModel_GenericIO_T60S_FSCH1_ValSPG23_setVal);
  ("IEDMODEL_GenericIO_T60S_FSCH1_ValSPG24", &iedModel_GenericIO_T60S_FSCH1_ValSPG24);
  ("IEDMODEL_GenericIO_T60S_FSCH1_ValSPG24_setVal", &iedModel_GenericIO_T60S_FSCH1_ValSPG24_setVal);
  ("IEDMODEL_GenericIO_T60S_FSCH1_ValSPG25", &iedModel_GenericIO_T60S_FSCH1_ValSPG25);
  ("IEDMODEL_GenericIO_T60S_FSCH1_ValSPG25_setVal", &iedModel_GenericIO_T60S_FSCH1_ValSPG25_setVal);
  ("IEDMODEL_GenericIO_T60S_FSCH1_ValSPG26", &iedModel_GenericIO_T60S_FSCH1_ValSPG26);
  ("IEDMODEL_GenericIO_T60S_FSCH1_ValSPG26_setVal", &iedModel_GenericIO_T60S_FSCH1_ValSPG26_setVal);
  ("IEDMODEL_GenericIO_T60S_FSCH1_ValSPG27", &iedModel_GenericIO_T60S_FSCH1_ValSPG27);
  ("IEDMODEL_GenericIO_T60S_FSCH1_ValSPG27_setVal", &iedModel_GenericIO_T60S_FSCH1_ValSPG27_setVal);
  ("IEDMODEL_GenericIO_T60S_FSCH1_ValSPG28", &iedModel_GenericIO_T60S_FSCH1_ValSPG28);
  ("IEDMODEL_GenericIO_T60S_FSCH1_ValSPG28_setVal", &iedModel_GenericIO_T60S_FSCH1_ValSPG28_setVal);
  ("IEDMODEL_GenericIO_T60S_FSCH1_ValSPG29", &iedModel_GenericIO_T60S_FSCH1_ValSPG29);
  ("IEDMODEL_GenericIO_T60S_FSCH1_ValSPG29_setVal", &iedModel_GenericIO_T60S_FSCH1_ValSPG29_setVal);
  ("IEDMODEL_GenericIO_T60S_FSCH1_ValSPG30", &iedModel_GenericIO_T60S_FSCH1_ValSPG30);
  ("IEDMODEL_GenericIO_T60S_FSCH1_ValSPG30_setVal", &iedModel_GenericIO_T60S_FSCH1_ValSPG30_setVal);
  ("IEDMODEL_GenericIO_T60S_FSCH1_ValSPG31", &iedModel_GenericIO_T60S_FSCH1_ValSPG31);
  ("IEDMODEL_GenericIO_T60S_FSCH1_ValSPG31_setVal", &iedModel_GenericIO_T60S_FSCH1_ValSPG31_setVal);
  ("IEDMODEL_GenericIO_T60S_FSCH1_ValSPG32", &iedModel_GenericIO_T60S_FSCH1_ValSPG32);
  ("IEDMODEL_GenericIO_T60S_FSCH1_ValSPG32_setVal", &iedModel_GenericIO_T60S_FSCH1_ValSPG32_setVal);
  ("IEDMODEL_GenericIO_T60S_FSCH1_ValSPG33", &iedModel_GenericIO_T60S_FSCH1_ValSPG33);
  ("IEDMODEL_GenericIO_T60S_FSCH1_ValSPG33_setVal", &iedModel_GenericIO_T60S_FSCH1_ValSPG33_setVal);
  ("IEDMODEL_GenericIO_T60S_FSCH1_ValSPG34", &iedModel_GenericIO_T60S_FSCH1_ValSPG34);
  ("IEDMODEL_GenericIO_T60S_FSCH1_ValSPG34_setVal", &iedModel_GenericIO_T60S_FSCH1_ValSPG34_setVal);
  ("IEDMODEL_GenericIO_T60S_FSCH1_ValSPG35", &iedModel_GenericIO_T60S_FSCH1_ValSPG35);
  ("IEDMODEL_GenericIO_T60S_FSCH1_ValSPG35_setVal", &iedModel_GenericIO_T60S_FSCH1_ValSPG35_setVal);
  ("IEDMODEL_GenericIO_T60S_FSCH1_ValSPG36", &iedModel_GenericIO_T60S_FSCH1_ValSPG36);
  ("IEDMODEL_GenericIO_T60S_FSCH1_ValSPG36_setVal", &iedModel_GenericIO_T60S_FSCH1_ValSPG36_setVal);
  ("IEDMODEL_GenericIO_T60S_FSCH1_ValSPG37", &iedModel_GenericIO_T60S_FSCH1_ValSPG37);
  ("IEDMODEL_GenericIO_T60S_FSCH1_ValSPG37_setVal", &iedModel_GenericIO_T60S_FSCH1_ValSPG37_setVal);
  ("IEDMODEL_GenericIO_T60S_FSCH1_ValSPG38", &iedModel_GenericIO_T60S_FSCH1_ValSPG38);
  ("IEDMODEL_GenericIO_T60S_FSCH1_ValSPG38_setVal", &iedModel_GenericIO_T60S_FSCH1_ValSPG38_setVal);
  ("IEDMODEL_GenericIO_T60S_FSCH1_ValSPG39", &iedModel_GenericIO_T60S_FSCH1_ValSPG39);
  ("IEDMODEL_GenericIO_T60S_FSCH1_ValSPG39_setVal", &iedModel_GenericIO_T60S_FSCH1_ValSPG39_setVal);
  ("IEDMODEL_GenericIO_T60S_FSCH1_ValSPG40", &iedModel_GenericIO_T60S_FSCH1_ValSPG40);
  ("IEDMODEL_GenericIO_T60S_FSCH1_ValSPG40_setVal", &iedModel_GenericIO_T60S_FSCH1_ValSPG40_setVal);
  ("IEDMODEL_GenericIO_T60S_FSCH1_ValSPG41", &iedModel_GenericIO_T60S_FSCH1_ValSPG41);
  ("IEDMODEL_GenericIO_T60S_FSCH1_ValSPG41_setVal", &iedModel_GenericIO_T60S_FSCH1_ValSPG41_setVal);
  ("IEDMODEL_GenericIO_T60S_FSCH1_ValSPG42", &iedModel_GenericIO_T60S_FSCH1_ValSPG42);
  ("IEDMODEL_GenericIO_T60S_FSCH1_ValSPG42_setVal", &iedModel_GenericIO_T60S_FSCH1_ValSPG42_setVal);
  ("IEDMODEL_GenericIO_T60S_FSCH1_ValSPG43", &iedModel_GenericIO_T60S_FSCH1_ValSPG43);
  ("IEDMODEL_GenericIO_T60S_FSCH1_ValSPG43_setVal", &iedModel_GenericIO_T60S_FSCH1_ValSPG43_setVal);
  ("IEDMODEL_GenericIO_T60S_FSCH1_ValSPG44", &iedModel_GenericIO_T60S_FSCH1_ValSPG44);
  ("IEDMODEL_GenericIO_T60S_FSCH1_ValSPG44_setVal", &iedModel_GenericIO_T60S_FSCH1_ValSPG44_setVal);
  ("IEDMODEL_GenericIO_T60S_FSCH1_ValSPG45", &iedModel_GenericIO_T60S_FSCH1_ValSPG45);
  ("IEDMODEL_GenericIO_T60S_FSCH1_ValSPG45_setVal", &iedModel_GenericIO_T60S_FSCH1_ValSPG45_setVal);
  ("IEDMODEL_GenericIO_T60S_FSCH1_ValSPG46", &iedModel_GenericIO_T60S_FSCH1_ValSPG46);
  ("IEDMODEL_GenericIO_T60S_FSCH1_ValSPG46_setVal", &iedModel_GenericIO_T60S_FSCH1_ValSPG46_setVal);
  ("IEDMODEL_GenericIO_T60S_FSCH1_ValSPG47", &iedModel_GenericIO_T60S_FSCH1_ValSPG47);
  ("IEDMODEL_GenericIO_T60S_FSCH1_ValSPG47_setVal", &iedModel_GenericIO_T60S_FSCH1_ValSPG47_setVal);
  ("IEDMODEL_GenericIO_T60S_FSCH1_ValSPG48", &iedModel_GenericIO_T60S_FSCH1_ValSPG48);
  ("IEDMODEL_GenericIO_T60S_FSCH1_ValSPG48_setVal", &iedModel_GenericIO_T60S_FSCH1_ValSPG48_setVal);
  ("IEDMODEL_GenericIO_T60S_FSCH1_ValSPG49", &iedModel_GenericIO_T60S_FSCH1_ValSPG49);
  ("IEDMODEL_GenericIO_T60S_FSCH1_ValSPG49_setVal", &iedModel_GenericIO_T60S_FSCH1_ValSPG49_setVal);
  ("IEDMODEL_GenericIO_T60S_FSCH1_ValSPG50", &iedModel_GenericIO_T60S_FSCH1_ValSPG50);
  ("IEDMODEL_GenericIO_T60S_FSCH1_ValSPG50_setVal", &iedModel_GenericIO_T60S_FSCH1_ValSPG50_setVal);
  ("IEDMODEL_GenericIO_T60S_FSCH1_ValSPG51", &iedModel_GenericIO_T60S_FSCH1_ValSPG51);
  ("IEDMODEL_GenericIO_T60S_FSCH1_ValSPG51_setVal", &iedModel_GenericIO_T60S_FSCH1_ValSPG51_setVal);
  ("IEDMODEL_GenericIO_T60S_FSCH1_ValSPG52", &iedModel_GenericIO_T60S_FSCH1_ValSPG52);
  ("IEDMODEL_GenericIO_T60S_FSCH1_ValSPG52_setVal", &iedModel_GenericIO_T60S_FSCH1_ValSPG52_setVal);
  ("IEDMODEL_GenericIO_T60S_FSCH1_ValSPG53", &iedModel_GenericIO_T60S_FSCH1_ValSPG53);
  ("IEDMODEL_GenericIO_T60S_FSCH1_ValSPG53_setVal", &iedModel_GenericIO_T60S_FSCH1_ValSPG53_setVal);
  ("IEDMODEL_GenericIO_T60S_FSCH1_ValSPG54", &iedModel_GenericIO_T60S_FSCH1_ValSPG54);
  ("IEDMODEL_GenericIO_T60S_FSCH1_ValSPG54_setVal", &iedModel_GenericIO_T60S_FSCH1_ValSPG54_setVal);
  ("IEDMODEL_GenericIO_T60S_FSCH1_ValSPG55", &iedModel_GenericIO_T60S_FSCH1_ValSPG55);
  ("IEDMODEL_GenericIO_T60S_FSCH1_ValSPG55_setVal", &iedModel_GenericIO_T60S_FSCH1_ValSPG55_setVal);
  ("IEDMODEL_GenericIO_T60S_FSCH1_ValSPG56", &iedModel_GenericIO_T60S_FSCH1_ValSPG56);
  ("IEDMODEL_GenericIO_T60S_FSCH1_ValSPG56_setVal", &iedModel_GenericIO_T60S_FSCH1_ValSPG56_setVal);
  ("IEDMODEL_GenericIO_T60S_FSCH1_ValSPG57", &iedModel_GenericIO_T60S_FSCH1_ValSPG57);
  ("IEDMODEL_GenericIO_T60S_FSCH1_ValSPG57_setVal", &iedModel_GenericIO_T60S_FSCH1_ValSPG57_setVal);
  ("IEDMODEL_GenericIO_T60S_FSCH1_ValSPG58", &iedModel_GenericIO_T60S_FSCH1_ValSPG58);
  ("IEDMODEL_GenericIO_T60S_FSCH1_ValSPG58_setVal", &iedModel_GenericIO_T60S_FSCH1_ValSPG58_setVal);
  ("IEDMODEL_GenericIO_T60S_FSCH1_ValSPG59", &iedModel_GenericIO_T60S_FSCH1_ValSPG59);
  ("IEDMODEL_GenericIO_T60S_FSCH1_ValSPG59_setVal", &iedModel_GenericIO_T60S_FSCH1_ValSPG59_setVal);
  ("IEDMODEL_GenericIO_T60S_FSCH1_ValSPG60", &iedModel_GenericIO_T60S_FSCH1_ValSPG60);
  ("IEDMODEL_GenericIO_T60S_FSCH1_ValSPG60_setVal", &iedModel_GenericIO_T60S_FSCH1_ValSPG60_setVal);
  ("IEDMODEL_GenericIO_T60S_FSCH1_StrTm", &iedModel_GenericIO_T60S_FSCH1_StrTm);
  ("IEDMODEL_GenericIO_T60S_FSCH1_StrTm_setTm", &iedModel_GenericIO_T60S_FSCH1_StrTm_setTm);
  ("IEDMODEL_GenericIO_T60S_FSCH1_StrTm_setCal", &iedModel_GenericIO_T60S_FSCH1_StrTm_setCal);
  ("IEDMODEL_GenericIO_T60S_FSCH1_StrTm_setCal_occ", &iedModel_GenericIO_T60S_FSCH1_StrTm_setCal_occ);
  ("IEDMODEL_GenericIO_T60S_FSCH1_StrTm_setCal_occType", &iedModel_GenericIO_T60S_FSCH1_StrTm_setCal_occType);
  ("IEDMODEL_GenericIO_T60S_FSCH1_StrTm_setCal_occPer", &iedModel_GenericIO_T60S_FSCH1_StrTm_setCal_occPer);
  ("IEDMODEL_GenericIO_T60S_FSCH1_StrTm_setCal_weekDay", &iedModel_GenericIO_T60S_FSCH1_StrTm_setCal_weekDay);
  ("IEDMODEL_GenericIO_T60S_FSCH1_StrTm_setCal_month", &iedModel_GenericIO_T60S_FSCH1_StrTm_setCal_month);
  ("IEDMODEL_GenericIO_T60S_FSCH1_StrTm_setCal_day", &iedModel_GenericIO_T60S_FSCH1_StrTm_setCal_day);
  ("IEDMODEL_GenericIO_T60S_FSCH1_StrTm_setCal_hr", &iedModel_GenericIO_T60S_FSCH1_StrTm_setCal_hr);
  ("IEDMODEL_GenericIO_T60S_FSCH1_StrTm_setCal_mn", &iedModel_GenericIO_T60S_FSCH1_StrTm_setCal_mn);
  ("IEDMODEL_GenericIO_T60S_FSCH1_IntvPer", &iedModel_GenericIO_T60S_FSCH1_IntvPer);
  ("IEDMODEL_GenericIO_T60S_FSCH1_IntvPer_setVal", &iedModel_GenericIO_T60S_FSCH1_IntvPer_setVal);
  ("IEDMODEL_GenericIO_T60S_FSCH1_IntvTyp", &iedModel_GenericIO_T60S_FSCH1_IntvTyp);
  ("IEDMODEL_GenericIO_T60S_FSCH1_IntvTyp_setVal", &iedModel_GenericIO_T60S_FSCH1_IntvTyp_setVal);
  ("IEDMODEL_GenericIO_T60S_FSCH1_SchdReuse", &iedModel_GenericIO_T60S_FSCH1_SchdReuse);
  ("IEDMODEL_GenericIO_T60S_FSCH1_SchdReuse_setVal", &iedModel_GenericIO_T60S_FSCH1_SchdReuse_setVal);
  ("IEDMODEL_GenericIO_T60S_FSCH2", &iedModel_GenericIO_T60S_FSCH2);
  ("IEDMODEL_GenericIO_T60S_FSCH2_Beh", &iedModel_GenericIO_T60S_FSCH2_Beh);
  ("IEDMODEL_GenericIO_T60S_FSCH2_Beh_stVal", &iedModel_GenericIO_T60S_FSCH2_Beh_stVal);
  ("IEDMODEL_GenericIO_T60S_FSCH2_Beh_q", &iedModel_GenericIO_T60S_FSCH2_Beh_q);
  ("IEDMODEL_GenericIO_T60S_FSCH2_Beh_t", &iedModel_GenericIO_T60S_FSCH2_Beh_t);
  ("IEDMODEL_GenericIO_T60S_FSCH2_SchdSt", &iedModel_GenericIO_T60S_FSCH2_SchdSt);
  ("IEDMODEL_GenericIO_T60S_FSCH2_SchdSt_stVal", &iedModel_GenericIO_T60S_FSCH2_SchdSt_stVal);
  ("IEDMODEL_GenericIO_T60S_FSCH2_SchdSt_q", &iedModel_GenericIO_T60S_FSCH2_SchdSt_q);
  ("IEDMODEL_GenericIO_T60S_FSCH2_SchdSt_t", &iedModel_GenericIO_T60S_FSCH2_SchdSt_t);
  ("IEDMODEL_GenericIO_T60S_FSCH2_SchdEntr", &iedModel_GenericIO_T60S_FSCH2_SchdEntr);
  ("IEDMODEL_GenericIO_T60S_FSCH2_SchdEntr_stVal", &iedModel_GenericIO_T60S_FSCH2_SchdEntr_stVal);
  ("IEDMODEL_GenericIO_T60S_FSCH2_SchdEntr_q", &iedModel_GenericIO_T60S_FSCH2_SchdEntr_q);
  ("IEDMODEL_GenericIO_T60S_FSCH2_SchdEntr_t", &iedModel_GenericIO_T60S_FSCH2_SchdEntr_t);
  ("IEDMODEL_GenericIO_T60S_FSCH2_ValSPS", &iedModel_GenericIO_T60S_FSCH2_ValSPS);
  ("IEDMODEL_GenericIO_T60S_FSCH2_ValSPS_stVal", &iedModel_GenericIO_T60S_FSCH2_ValSPS_stVal);
  ("IEDMODEL_GenericIO_T60S_FSCH2_ValSPS_q", &iedModel_GenericIO_T60S_FSCH2_ValSPS_q);
  ("IEDMODEL_GenericIO_T60S_FSCH2_ValSPS_t", &iedModel_GenericIO_T60S_FSCH2_ValSPS_t);
  ("IEDMODEL_GenericIO_T60S_FSCH2_VldReq", &iedModel_GenericIO_T60S_FSCH2_VldReq);
  ("IEDMODEL_GenericIO_T60S_FSCH2_VldReq_stVal", &iedModel_GenericIO_T60S_FSCH2_VldReq_stVal);
  ("IEDMODEL_GenericIO_T60S_FSCH2_VldReq_q", &iedModel_GenericIO_T60S_FSCH2_VldReq_q);
  ("IEDMODEL_GenericIO_T60S_FSCH2_VldReq_Oper", &iedModel_GenericIO_T60S_FSCH2_VldReq_Oper);
  ("IEDMODEL_GenericIO_T60S_FSCH2_VldReq_Oper_ctlVal", &iedModel_GenericIO_T60S_FSCH2_VldReq_Oper_ctlVal);
  ("IEDMODEL_GenericIO_T60S_FSCH2_VldReq_Oper_origin", &iedModel_GenericIO_T60S_FSCH2_VldReq_Oper_origin);
  ("IEDMODEL_GenericIO_T60S_FSCH2_VldReq_Oper_origin_orCat", &iedModel_GenericIO_T60S_FSCH2_VldReq_Oper_origin_orCat);
  ("IEDMODEL_GenericIO_T60S_FSCH2_VldReq_Oper_origin_orIdent", &iedModel_GenericIO_T60S_FSCH2_VldReq_Oper_origin_orIdent);
  ("IEDMODEL_GenericIO_T60S_FSCH2_VldReq_Oper_ctlNum", &iedModel_GenericIO_T60S_FSCH2_VldReq_Oper_ctlNum);
  ("IEDMODEL_GenericIO_T60S_FSCH2_VldReq_Oper_T", &iedModel_GenericIO_T60S_FSCH2_VldReq_Oper_T);
  ("IEDMODEL_GenericIO_T60S_FSCH2_VldReq_Oper_Test", &iedModel_GenericIO_T60S_FSCH2_VldReq_Oper_Test);
  ("IEDMODEL_GenericIO_T60S_FSCH2_VldReq_Oper_Check", &iedModel_GenericIO_T60S_FSCH2_VldReq_Oper_Check);
  ("IEDMODEL_GenericIO_T60S_FSCH2_VldReq_ctlModel", &iedModel_GenericIO_T60S_FSCH2_VldReq_ctlModel);
  ("IEDMODEL_GenericIO_T60S_FSCH2_VldReq_t", &iedModel_GenericIO_T60S_FSCH2_VldReq_t);
  ("IEDMODEL_GenericIO_T60S_FSCH2_EnaReq", &iedModel_GenericIO_T60S_FSCH2_EnaReq);
  ("IEDMODEL_GenericIO_T60S_FSCH2_EnaReq_stVal", &iedModel_GenericIO_T60S_FSCH2_EnaReq_stVal);
  ("IEDMODEL_GenericIO_T60S_FSCH2_EnaReq_q", &iedModel_GenericIO_T60S_FSCH2_EnaReq_q);
  ("IEDMODEL_GenericIO_T60S_FSCH2_EnaReq_Oper", &iedModel_GenericIO_T60S_FSCH2_EnaReq_Oper);
  ("IEDMODEL_GenericIO_T60S_FSCH2_EnaReq_Oper_ctlVal", &iedModel_GenericIO_T60S_FSCH2_EnaReq_Oper_ctlVal);
  ("IEDMODEL_GenericIO_T60S_FSCH2_EnaReq_Oper_origin", &iedModel_GenericIO_T60S_FSCH2_EnaReq_Oper_origin);
  ("IEDMODEL_GenericIO_T60S_FSCH2_EnaReq_Oper_origin_orCat", &iedModel_GenericIO_T60S_FSCH2_EnaReq_Oper_origin_orCat)
].

Definition macros4 : list (string * option addr) := [
  ("IEDMODEL_GenericIO_T60S_FSCH2_EnaReq_Oper_origin_orIdent", &iedModel_GenericIO_T60S_FSCH2_EnaReq_Oper_origin_orIdent);
  ("IEDMODEL_GenericIO_T60S_FSCH2_EnaReq_Oper_ctlNum", &iedModel_GenericIO_T60S_FSCH2_EnaReq_Oper_ctlNum);
  ("IEDMODEL_GenericIO_T60S_FSCH2_EnaReq_Oper_T", &iedModel_GenericIO_T60S_FSCH2_EnaReq_Oper_T);
  ("IEDMODEL_GenericIO_T60S_FSCH2_EnaReq_Oper_Test", &iedModel_GenericIO_T60S_FSCH2_EnaReq_Oper_Test);
  ("IEDMODEL_GenericIO_T60S_FSCH2_EnaReq_Oper_Check", &iedModel_GenericIO_T60S_FSCH2_EnaReq_Oper_Check);
  ("IEDMODEL_GenericIO_T60S_FSCH2_EnaReq_ctlModel", &iedModel_GenericIO_T60S_FSCH2_EnaReq_ctlModel);
  ("IEDMODEL_GenericIO_T60S_FSCH2_EnaReq_t", &iedModel_GenericIO_T60S_FSCH2_EnaReq_t);
  ("IEDMODEL_GenericIO_T60S_FSCH2_EdtReq", &iedModel_GenericIO_T60S_FSCH2_EdtReq);
  ("IEDMODEL_GenericIO_T60S_FSCH2_EdtReq_stVal", &iedModel_GenericIO_T60S_FSCH2_EdtReq_stVal);
  ("IEDMODEL_GenericIO_T60S_FSCH2_EdtReq_q", &iedModel_GenericIO_T60S_FSCH2_EdtReq_q);
  ("IEDMODEL_GenericIO_T60S_FSCH2_EdtReq_Oper", &iedModel_GenericIO_T60S_FSCH2_EdtReq_Oper);
  ("IEDMODEL_GenericIO_T60S_FSCH2_EdtReq_Oper_ctlVal", &iedModel_GenericIO_T60S_FSCH2_EdtReq_Oper_ctlVal);
  ("IEDMODEL_GenericIO_T60S_FSCH2_EdtReq_Oper_origin", &iedModel_GenericIO_T60S_FSCH2_EdtReq_Oper_origin);
  ("IEDMODEL_GenericIO_T60S_FSCH2_EdtReq_Oper_origin_orCat", &iedModel_GenericIO_T60S_FSCH2_EdtReq_Oper_origin_orCat);
  ("IEDMODEL_GenericIO_T60S_FSCH2_EdtReq_Oper_origin_orIdent", &iedModel_GenericIO_T60S_FSCH2_EdtReq_Oper_origin_orIdent);
  ("IEDMODEL_GenericIO_T60S_FSCH2_EdtReq_Oper_ctlNum", &iedModel_GenericIO_T60S_FSCH2_EdtReq_Oper_ctlNum);
  ("IEDMODEL_GenericIO_T60S_FSCH2_EdtReq_Oper_T", &iedModel_GenericIO_T60S_FSCH2_EdtReq_Oper_T);
  ("IEDMODEL_GenericIO_T60S_FSCH2_EdtReq_Oper_Test", &iedModel_GenericIO_T60S_FSCH2_EdtReq_Oper_Test);
  ("IEDMODEL_GenericIO_T60S_FSCH2_EdtReq_Oper_Check", &iedModel_GenericIO_T60S_FSCH2_EdtReq_Oper_Check);
  ("IEDMODEL_GenericIO_T60S_FSCH2_EdtReq_ctlModel", &iedModel_GenericIO_T60S_FSCH2_EdtReq_ctlModel);
  ("IEDMODEL_GenericIO_T60S_FSCH2_EdtReq_t", &iedModel_GenericIO_T60S_FSCH2_EdtReq_t);
  ("IEDMODEL_GenericIO_T60S_FSCH2_DsaReq", &iedModel_GenericIO_T60S_FSCH2_DsaReq);
  ("IEDMODEL_GenericIO_T60S_FSCH2_DsaReq_stVal", &iedModel_GenericIO_T60S_FSCH2_DsaReq_stVal);
  ("IEDMODEL_GenericIO_T60S_FSCH2_DsaReq_q", &iedModel_GenericIO_T60S_FSCH2_DsaReq_q);
  ("IEDMODEL_GenericIO_T60S_FSCH2_DsaReq_Oper", &iedModel_GenericIO_T60S_FSCH2_DsaReq_Oper);
  ("IEDMODEL_GenericIO_T60S_FSCH2_DsaReq_Oper_ctlVal", &iedModel_GenericIO_T60S_FSCH2_DsaReq_Oper_ctlVal);
  ("IEDMODEL_GenericIO_T60S_FSCH2_DsaReq_Oper_origin", &iedModel_GenericIO_T60S_FSCH2_DsaReq_Oper_origin);
  ("IEDMODEL_GenericIO_T60S_FSCH2_DsaReq_Oper_origin_orCat", &iedModel_GenericIO_T60S_FSCH2_DsaReq_Oper_origin_orCat);
  ("IEDMODEL_GenericIO_T60S_FSCH2_DsaReq_Oper_origin_orIdent", &iedModel_GenericIO_T60S_FSCH2_DsaReq_Oper_origin_orIdent);
  ("IEDMODEL_GenericIO_T60S_FSCH2_DsaReq_Oper_ctlNum", &iedModel_GenericIO_T60S_FSCH2_DsaReq_Oper_ctlNum);
  ("IEDMODEL_GenericIO_T60S_FSCH2_DsaReq_Oper_T", &iedModel_GenericIO_T60S_FSCH2_DsaReq_Oper_T);
  ("IEDMODEL_GenericIO_T60S_FSCH2_DsaReq_Oper_Test", &iedModel_GenericIO_T60S_FSCH2_DsaReq_Oper_Test);
  ("IEDMODEL_GenericIO_T60S_FSCH2_DsaReq_Oper_Check", &iedModel_GenericIO_T60S_FSCH2_DsaReq_Oper_Check);
  ("IEDMODEL_GenericIO_T60S_FSCH2_DsaReq_ctlModel", &iedModel_GenericIO_T60S_FSCH2_DsaReq_ctlModel);
  ("IEDMODEL_GenericIO_T60S_FSCH2_DsaReq_t", &iedModel_GenericIO_T60S_FSCH2_DsaReq_t);
  ("IEDMODEL_GenericIO_T60S_FSCH2_SchdPrio", &iedModel_GenericIO_T60S_FSCH2_SchdPrio);
  ("IEDMODEL_GenericIO_T60S_FSCH2_SchdPrio_setVal", &iedModel_GenericIO_T60S_FSCH2_SchdPrio_setVal);
  ("IEDMODEL_GenericIO_T60S_FSCH2_NumEntr", &iedModel_GenericIO_T60S_FSCH2_NumEntr);
  ("IEDMODEL_GenericIO_T60S_FSCH2_NumEntr_setVal", &iedModel_GenericIO_T60S_FSCH2_NumEntr_setVal);
  ("IEDMODEL_GenericIO_T60S_FSCH2_SchdIntv", &iedModel_GenericIO_T60S_FSCH2_SchdIntv);
  ("IEDMODEL_GenericIO_T60S_FSCH2_SchdIntv_setVal", &iedModel_GenericIO_T60S_FSCH2_SchdIntv_setVal);
  ("IEDMODEL_GenericIO_T60S_FSCH2_ValSPG1", &iedModel_GenericIO_T60S_FSCH2_ValSPG1);
  ("IEDMODEL_GenericIO_T60S_FSCH2_ValSPG1_setVal", &iedModel_GenericIO_T60S_FSCH2_ValSPG1_setVal);
  ("IEDMODEL_GenericIO_T60S_FSCH2_ValSPG2", &iedModel_GenericIO_T60S_FSCH2_ValSPG2);
  ("IEDMODEL_GenericIO_T60S_FSCH2_ValSPG2_setVal", &iedModel_GenericIO_T60S_FSCH2_ValSPG2_setVal);
  ("IEDMODEL_GenericIO_T60S_FSCH2_ValSPG3", &iedModel_GenericIO_T60S_FSCH2_ValSPG3);
  ("IEDMODEL_GenericIO_T60S_FSCH2_ValSPG3_setVal", &iedModel_GenericIO_T60S_FSCH2_ValSPG3_setVal);
  ("IEDMODEL_GenericIO_T60S_FSCH2_ValSPG4", &iedModel_GenericIO_T60S_FSCH2_ValSPG4);
  ("IEDMODEL_GenericIO_T60S_FSCH2_ValSPG4_setVal", &iedModel_GenericIO_T60S_FSCH2_ValSPG4_setVal);
  ("IEDMODEL_GenericIO_T60S_FSCH2_ValSPG5", &iedModel_GenericIO_T60S_FSCH2_ValSPG5);
  ("IEDMODEL_GenericIO_T60S_FSCH2_ValSPG5_setVal", &iedModel_GenericIO_T60S_FSCH2_ValSPG5_setVal);
  ("IEDMODEL_GenericIO_T60S_FSCH2_ValSPG6", &iedModel_GenericIO_T60S_FSCH2_ValSPG6);
  ("IEDMODEL_GenericIO_T60S_FSCH2_ValSPG6_setVal", &iedModel_GenericIO_T60S_FSCH2_ValSPG6_setVal);
  ("IEDMODEL_GenericIO_T60S_FSCH2_ValSPG7", &iedModel_GenericIO_T60S_FSCH2_ValSPG7);
  ("IEDMODEL_GenericIO_T60S_FSCH2_ValSPG7_setVal", &iedModel_GenericIO_T60S_FSCH2_ValSPG7_setVal);
  ("IEDMODEL_GenericIO_T60S_FSCH2_ValSPG8", &iedModel_GenericIO_T60S_FSCH2_ValSPG8);
  ("IEDMODEL_GenericIO_T60S_FSCH2_ValSPG8_setVal", &iedModel_GenericIO_T60S_FSCH2_ValSPG8_setVal);
  ("IEDMODEL_GenericIO_T60S_FSCH2_ValSPG9", &iedModel_GenericIO_T60S_FSCH2_ValSPG9);
  ("IEDMODEL_GenericIO_T60S_FSCH2_ValSPG9_setVal", &iedModel_GenericIO_T60S_FSCH2_ValSPG9_setVal);
  ("IEDMODEL_GenericIO_T60S_FSCH2_ValSPG10", &iedModel_GenericIO_T60S_FSCH2_ValSPG10);
  ("IEDMODEL_GenericIO_T60S_FSCH2_ValSPG10_setVal", &iedModel_GenericIO_T60S_FSCH2_ValSPG10_setVal);
  ("IEDMODEL_GenericIO_T60S_FSCH2_ValSPG11", &iedModel_GenericIO_T60S_FSCH2_ValSPG11);
  ("IEDMODEL_GenericIO_T60S_FSCH2_ValSPG11_setVal", &iedModel_GenericIO_T60S_FSCH2_ValSPG11_setVal);
  ("IEDMODEL_GenericIO_T60S_FSCH2_ValSPG12", &iedModel_GenericIO_T60S_FSCH2_ValSPG12);
  ("IEDMODEL_GenericIO_T60S_FSCH2_ValSPG12_setVal", &iedModel_GenericIO_T60S_FSCH2_ValSPG12_setVal);
  ("IEDMODEL_GenericIO_T60S_FSCH2_ValSPG13", &iedModel_GenericIO_T60S_FSCH2_ValSPG13);
  ("IEDMODEL_GenericIO_T60S_FSCH2_ValSPG13_setVal", &iedModel_GenericIO_T60S_FSCH2_ValSPG13_setVal);
  ("IEDMODEL_GenericIO_T60S_FSCH2_ValSPG14", &iedModel_GenericIO_T60S_FSCH2_ValSPG14);
  ("IEDMODEL_GenericIO_T60S_FSCH2_ValSPG14_setVal", &iedModel_GenericIO_T60S_FSCH2_ValSPG14_setVal);
  ("IEDMODEL_GenericIO_T60S_FSCH2_ValSPG15", &iedModel_GenericIO_T60S_FSCH2_ValSPG15);
  ("IEDMODEL_GenericIO_T60S_FSCH2_ValSPG15_setVal", &iedModel_GenericIO_T60S_FSCH2_ValSPG15_setVal);
  ("IEDMODEL_GenericIO_T60S_FSCH2_ValSPG16", &iedModel_GenericIO_T60S_FSCH2_ValSPG16);
  ("IEDMODEL_GenericIO_T60S_FSCH2_ValSPG16_setVal", &iedModel_GenericIO_T60S_FSCH2_ValSPG16_setVal);
  ("IEDMODEL_GenericIO_T60S_FSCH2_ValSPG17", &iedModel_GenericIO_T60S_FSCH2_ValSPG17);
  ("IEDMODEL_GenericIO_T60S_FSCH2_ValSPG17_setVal", &iedModel_GenericIO_T60S_FSCH2_ValSPG17_setVal);
  ("IEDMODEL_GenericIO_T60S_FSCH2_ValSPG18", &iedModel_GenericIO_T60S_FSCH2_ValSPG18);
  ("IEDMODEL_GenericIO_T60S_FSCH2_ValSPG18_setVal", &iedModel_GenericIO_T60S_FSCH2_ValSPG18_setVal);
  ("IEDMODEL_GenericIO_T60S_FSCH2_ValSPG19", &iedModel_GenericIO_T60S_FSCH2_ValSPG19);
  ("IEDMODEL_GenericIO_T60S_FSCH2_ValSPG19_setVal", &iedModel_GenericIO_T60S_FSCH2_ValSPG19_setVal);
  ("IEDMODEL_GenericIO_T60S_FSCH2_ValSPG20", &iedModel_GenericIO_T60S_FSCH2_ValSPG20);
  ("IEDMODEL_GenericIO_T60S_FSCH2_ValSPG20_setVal", &iedModel_GenericIO_T60S_FSCH2_ValSPG20_setVal);
  ("IEDMODEL_GenericIO_T60S_FSCH2_ValSPG21", &iedModel_GenericIO_T60S_FSCH2_ValSPG21);
  ("IEDMODEL_GenericIO_T60S_FSCH2_ValSPG21_setVal", &iedModel_GenericIO_T60S_FSCH2_ValSPG21_setVal);
  ("IEDMODEL_GenericIO_T60S_FSCH2_ValSPG22", &iedModel_GenericIO_T60S_FSCH2_ValSPG22);
  ("IEDMODEL_GenericIO_T60S_FSCH2_ValSPG22_setVal", &iedModel_GenericIO_T60S_FSCH2_ValSPG22_setVal);
  ("IEDMODEL_GenericIO_T60S_FSCH2_ValSPG23", &iedModel_GenericIO_T60S_FSCH2_ValSPG23);
  ("IEDMODEL_GenericIO_T60S_FSCH2_ValSPG23_setVal", &iedModel_GenericIO_T60S_FSCH2_ValSPG23_setVal);
  ("IEDMODEL_GenericIO_T60S_FSCH2_ValSPG24", &iedModel_GenericIO_T60S_FSCH2_ValSPG24);
  ("IEDMODEL_GenericIO_T60S_FSCH2_ValSPG24_setVal", &iedModel_GenericIO_T60S_FSCH2_ValSPG24_setVal);
  ("IEDMODEL_GenericIO_T60S_FSCH2_ValSPG25", &iedModel_GenericIO_T60S_FSCH2_ValSPG25);
  ("IEDMODEL_GenericIO_T60S_FSCH2_ValSPG25_setVal", &iedModel_GenericIO_T60S_FSCH2_ValSPG25_setVal);
  ("IEDMODEL_GenericIO_T60S_FSCH2_ValSPG26", &iedModel_GenericIO_T60S_FSCH2_ValSPG26);
  ("IEDMODEL_GenericIO_T60S_FSCH2_ValSPG26_setVal", &iedModel_GenericIO_T60S_FSCH2_ValSPG26_setVal);
  ("IEDMODEL_GenericIO_T60S_FSCH2_ValSPG27", &iedModel_GenericIO_T60S_FSCH2_ValSPG27);
  ("IEDMODEL_GenericIO_T60S_FSCH2_ValSPG27_setVal", &iedModel_GenericIO_T60S_FSCH2_ValSPG27_setVal);
  ("IEDMODEL_GenericIO_T60S_FSCH2_ValSPG28", &iedModel_GenericIO_T60S_FSCH2_ValSPG28);
  ("IEDMODEL_GenericIO_T60S_FSCH2_ValSPG28_setVal", &iedModel_GenericIO_T60S_FSCH2_ValSPG28_setVal);
  ("IEDMODEL_GenericIO_T60S_FSCH2_ValSPG29", &iedModel_GenericIO_T60S_FSCH2_ValSPG29);
  ("IEDMODEL_GenericIO_T60S_FSCH2_ValSPG29_setVal", &iedModel_GenericIO_T60S_FSCH2_ValSPG29_setVal);
  ("IEDMODEL_GenericIO_T60S_FSCH2_ValSPG30", &iedModel_GenericIO_T60S_FSCH2_ValSPG30);
  ("IEDMODEL_GenericIO_T60S_FSCH2_ValSPG30_setVal", &iedModel_GenericIO_T60S_FSCH2_ValSPG30_setVal);
  ("IEDMODEL_GenericIO_T60S_FSCH2_ValSPG31", &iedModel_GenericIO_T60S_FSCH2_ValSPG31);
  ("IEDMODEL_GenericIO_T60S_FSCH2_ValSPG31_setVal", &iedModel_GenericIO_T60S_FSCH2_ValSPG31_setVal);
  ("IEDMODEL_GenericIO_T60S_FSCH2_ValSPG32", &iedModel_GenericIO_T60S_FSCH2_ValSPG32);
  ("IEDMODEL_GenericIO_T60S_FSCH2_ValSPG32_setVal", &iedModel_GenericIO_T60S_FSCH2_ValSPG32_setVal);
  ("IEDMODEL_GenericIO_T60S_FSCH2_ValSPG33", &iedModel_GenericIO_T60S_FSCH2_ValSPG33);
  ("IEDMODEL_GenericIO_T60S_FSCH2_ValSPG33_setVal", &iedModel_GenericIO_T60S_FSCH2_ValSPG33_setVal);
  ("IEDMODEL_GenericIO_T60S_FSCH2_ValSPG34", &iedModel_GenericIO_T60S_FSCH2_ValSPG34);
  ("IEDMODEL_GenericIO_T60S_FSCH2_ValSPG34_setVal", &iedModel_GenericIO_T60S_FSCH2_ValSPG34_setVal);
  ("IEDMODEL_GenericIO_T60S_FSCH2_ValSPG35", &iedModel_GenericIO_T60S_FSCH2_ValSPG35);
  ("IEDMODEL_GenericIO_T60S_FSCH2_ValSPG35_setVal", &iedModel_GenericIO_T60S_FSCH2_ValSPG35_setVal);
  ("IEDMODEL_GenericIO_T60S_FSCH2_ValSPG36", &iedModel_GenericIO_T60S_FSCH2_ValSPG36);
  ("IEDMODEL_GenericIO_T60S_FSCH2_ValSPG36_setVal", &iedModel_GenericIO_T60S_FSCH2_ValSPG36_setVal);
  ("IEDMODEL_GenericIO_T60S_FSCH2_ValSPG37", &iedModel_GenericIO_T60S_FSCH2_ValSPG37);
  ("IEDMODEL_GenericIO_T60S_FSCH2_ValSPG37_setVal", &iedModel_GenericIO_T60S_FSCH2_ValSPG37_setVal);
  ("IEDMODEL_GenericIO_T60S_FSCH2_ValSPG38", &iedModel_GenericIO_T60S_FSCH2_ValSPG38);
  ("IEDMODEL_GenericIO_T60S_FSCH2_ValSPG38_setVal", &iedModel_GenericIO_T60S_FSCH2_ValSPG38_setVal);
  ("IEDMODEL_GenericIO_T60S_FSCH2_ValSPG39", &iedModel_GenericIO_T60S_FSCH2_ValSPG39);
  ("IEDMODEL_GenericIO_T60S_FSCH2_ValSPG39_setVal", &iedModel_GenericIO_T60S_FSCH2_ValSPG39_setVal);
  ("IEDMODEL_GenericIO_T60S_FSCH2_ValSPG40", &iedModel_GenericIO_T60S_FSCH2_ValSPG40);
  ("IEDMODEL_GenericIO_T60S_FSCH2_ValSPG40_setVal", &iedModel_GenericIO_T60S_FSCH2_ValSPG40_setVal);
  ("IEDMODEL_GenericIO_T60S_FSCH2_ValSPG41", &iedModel_GenericIO_T60S_FSCH2_ValSPG41);
  ("IEDMODEL_GenericIO_T60S_FSCH2_ValSPG41_setVal", &iedModel_GenericIO_T60S_FSCH2_ValSPG41_setVal);
  ("IEDMODEL_GenericIO_T60S_FSCH2_ValSPG42", &iedModel_GenericIO_T60S_FSCH2_ValSPG42);
  ("IEDMODEL_GenericIO_T60S_FSCH2_ValSPG42_setVal", &iedModel_GenericIO_T60S_FSCH2_ValSPG42_setVal);
  ("IEDMODEL_GenericIO_T60S_FSCH2_ValSPG43", &iedModel_GenericIO_T60S_FSCH2_ValSPG43);
  ("IEDMODEL_GenericIO_T60S_FSCH2_ValSPG43_setVal", &iedModel_GenericIO_T60S_FSCH2_ValSPG43_setVal);
  ("IEDMODEL_GenericIO_T60S_FSCH2_ValSPG44", &iedModel_GenericIO_T60S_FSCH2_ValSPG44);
  ("IEDMODEL_GenericIO_T60S_FSCH2_ValSPG44_setVal", &iedModel_GenericIO_T60S_FSCH2_ValSPG44_setVal);
  ("IEDMODEL_GenericIO_T60S_FSCH2_ValSPG45", &iedModel_GenericIO_T60S_FSCH2_ValSPG45);
  ("IEDMODEL_GenericIO_T60S_FSCH2_ValSPG45_setVal", &iedModel_GenericIO_T60S_FSCH2_ValSPG45_setVal);
  ("IEDMODEL_GenericIO_T60S_FSCH2_ValSPG46", &iedModel_GenericIO_T60S_FSCH2_ValSPG46);
  ("IEDMODEL_GenericIO_T60S_FSCH2_ValSPG46_setVal", &iedModel_GenericIO_T60S_FSCH2_ValSPG46_setVal);
  ("IEDMODEL_GenericIO_T60S_FSCH2_ValSPG47", &iedModel_GenericIO_T60S_FSCH2_ValSPG47);
  ("IEDMODEL_GenericIO_T60S_FSCH2_ValSPG47_setVal", &iedModel_GenericIO_T60S_FSCH2_ValSPG47_setVal);
  ("IEDMODEL_GenericIO_T60S_FSCH2_ValSPG48", &iedModel_GenericIO_T60S_FSCH2_ValSPG48);
  ("IEDMODEL_GenericIO_T60S_FSCH2_ValSPG48_setVal", &iedModel_GenericIO_T60S_FSCH2_ValSPG48_setVal);
  ("IEDMODEL_GenericIO_T60S_FSCH2_ValSPG49", &iedModel_GenericIO_T60S_FSCH2_ValSPG49);
  ("IEDMODEL_GenericIO_T60S_FSCH2_ValSPG49_setVal", &iedModel_GenericIO_T60S_FSCH2_ValSPG49_setVal);
  ("IEDMODEL_GenericIO_T60S_FSCH2_ValSPG50", &iedModel_GenericIO_T60S_FSCH2_ValSPG50);
  ("IEDMODEL_GenericIO_T60S_FSCH2_ValSPG50_setVal", &iedModel_GenericIO_T60S_FSCH2_ValSPG50_setVal);
  ("IEDMODEL_GenericIO_T60S_FSCH2_ValSPG51", &iedModel_GenericIO_T60S_FSCH2_ValSPG51);
  ("IEDMODEL_GenericIO_T60S_FSCH2_ValSPG51_setVal", &iedModel_GenericIO_T60S_FSCH2_ValSPG51_setVal);
  ("IEDMODEL_GenericIO_T60S_FSCH2_ValSPG52", &iedModel_GenericIO_T60S_FSCH2_ValSPG52);
  ("IEDMODEL_GenericIO_T60S_FSCH2_ValSPG52_setVal", &iedModel_GenericIO_T60S_FSCH2_ValSPG52_setVal);
  ("IEDMODEL_GenericIO_T60S_FSCH2_ValSPG53", &iedModel_GenericIO_T60S_FSCH2_ValSPG53);
  ("IEDMODEL_GenericIO_T60S_FSCH2_ValSPG53_setVal", &iedModel_GenericIO_T60S_FSCH2_ValSPG53_setVal);
  ("IEDMODEL_GenericIO_T60S_FSCH2_ValSPG54", &iedModel_GenericIO_T60S_FSCH2_ValSPG54)
].

Definition macros5 : list (string * option addr) := [
  ("IEDMODEL_GenericIO_T60S_FSCH2_ValSPG54_setVal", &iedModel_GenericIO_T60S_FSCH2_ValSPG54_setVal);
  ("IEDMODEL_GenericIO_T60S_FSCH2_ValSPG55", &iedModel_GenericIO_T60S_FSCH2_ValSPG55);
  ("IEDMODEL_GenericIO_T60S_FSCH2_ValSPG55_setVal", &iedModel_GenericIO_T60S_FSCH2_ValSPG55_setVal);
  ("IEDMODEL_GenericIO_T60S_FSCH2_ValSPG56", &iedModel_GenericIO_T60S_FSCH2_ValSPG56);
  ("IEDMODEL_GenericIO_T60S_FSCH2_ValSPG56_setVal", &iedModel_GenericIO_T60S_FSCH2_ValSPG56_setVal);
  ("IEDMODEL_GenericIO_T60S_FSCH2_ValSPG57", &iedModel_GenericIO_T60S_FSCH2_ValSPG57);
  ("IEDMODEL_GenericIO_T60S_FSCH2_ValSPG57_setVal", &iedModel_GenericIO_T60S_FSCH2_ValSPG57_setVal);
  ("IEDMODEL_GenericIO_T60S_FSCH2_ValSPG58", &iedModel_GenericIO_T60S_FSCH2_ValSPG58);
  ("IEDMODEL_GenericIO_T60S_FSCH2_ValSPG58_setVal", &iedModel_GenericIO_T60S_FSCH2_ValSPG58_setVal);
  ("IEDMODEL_GenericIO_T60S_FSCH2_ValSPG59", &iedModel_GenericIO_T60S_FSCH2_ValSPG59);
  ("IEDMODEL_GenericIO_T60S_FSCH2_ValSPG59_setVal", &iedModel_GenericIO_T60S_FSCH2_ValSPG59_setVal);
  ("IEDMODEL_GenericIO_T60S_FSCH2_ValSPG60", &iedModel_GenericIO_T60S_FSCH2_ValSPG60);
  ("IEDMODEL_GenericIO_T60S_FSCH2_ValSPG60_setVal", &iedModel_GenericIO_T60S_FSCH2_ValSPG60_setVal);
  ("IEDMODEL_GenericIO_T60S_FSCH2_StrTm", &iedModel_GenericIO_T60S_FSCH2_StrTm);
  ("IEDMODEL_GenericIO_T60S_FSCH2_StrTm_setTm", &iedModel_GenericIO_T60S_FSCH2_StrTm_setTm);
  ("IEDMODEL_GenericIO_T60S_FSCH2_StrTm_setCal", &iedModel_GenericIO_T60S_FSCH2_StrTm_setCal);
  ("IEDMODEL_GenericIO_T60S_FSCH2_StrTm_setCal_occ", &iedModel_GenericIO_T60S_FSCH2_StrTm_setCal_occ);
  ("IEDMODEL_GenericIO_T60S_FSCH2_StrTm_setCal_occType", &iedModel_GenericIO_T60S_FSCH2_StrTm_setCal_occType);
  ("IEDMODEL_GenericIO_T60S_FSCH2_StrTm_setCal_occPer", &iedModel_GenericIO_T60S_FSCH2_StrTm_setCal_occPer);
  ("IEDMODEL_GenericIO_T60S_FSCH2_StrTm_setCal_weekDay", &iedModel_GenericIO_T60S_FSCH2_StrTm_setCal_weekDay);
  ("IEDMODEL_GenericIO_T60S_FSCH2_StrTm_setCal_month", &iedModel_GenericIO_T60S_FSCH2_StrTm_setCal_month);
  ("IEDMODEL_GenericIO_T60S_FSCH2_StrTm_setCal_day", &iedModel_GenericIO_T60S_FSCH2_StrTm_setCal_day);
  ("IEDMODEL_GenericIO_T60S_FSCH2_StrTm_setCal_hr", &iedModel_GenericIO_T60S_FSCH2_StrTm_setCal_hr);
  ("IEDMODEL_GenericIO_T60S_FSCH2_StrTm_setCal_mn", &iedModel_GenericIO_T60S_FSCH2_StrTm_setCal_mn);
  ("IEDMODEL_GenericIO_T60S_FSCH2_IntvPer", &iedModel_GenericIO_T60S_FSCH2_IntvPer);
  ("IEDMODEL_GenericIO_T60S_FSCH2_IntvPer_setVal", &iedModel_GenericIO_T60S_FSCH2_IntvPer_setVal);
  ("IEDMODEL_GenericIO_T60S_FSCH2_IntvTyp", &iedModel_GenericIO_T60S_FSCH2_IntvTyp);
  ("IEDMODEL_GenericIO_T60S_FSCH2_IntvTyp_setVal", &iedModel_GenericIO_T60S_FSCH2_IntvTyp_setVal);
  ("IEDMODEL_GenericIO_T60S_FSCH2_SchdReuse", &iedModel_GenericIO_T60S_FSCH2_SchdReuse);
  ("IEDMODEL_GenericIO_T60S_FSCH2_SchdReuse_setVal", &iedModel_GenericIO_T60S_FSCH2_SchdReuse_setVal);
  ("IEDMODEL_GenericIO_GGIO_FSCC1", &iedModel_GenericIO_GGIO_FSCC1);
  ("IEDMODEL_GenericIO_GGIO_FSCC1_Beh", &iedModel_GenericIO_GGIO_FSCC1_Beh);
  ("IEDMODEL_GenericIO_GGIO_FSCC1_Beh_stVal", &iedModel_GenericIO_GGIO_FSCC1_Beh_stVal);
  ("IEDMODEL_GenericIO_GGIO_FSCC1_Beh_q", &iedModel_GenericIO_GGIO_FSCC1_Beh_q);
  ("IEDMODEL_GenericIO_GGIO_FSCC1_Beh_t", &iedModel_GenericIO_GGIO_FSCC1_Beh_t);
  ("IEDMODEL_GenericIO_GGIO_FSCC1_ActSchdRef", &iedModel_GenericIO_GGIO_FSCC1_ActSchdRef);
  ("IEDMODEL_GenericIO_GGIO_FSCC1_ActSchdRef_stVal", &iedModel_GenericIO_GGIO_FSCC1_ActSchdRef_stVal);
  ("IEDMODEL_GenericIO_GGIO_FSCC1_ActSchdRef_q", &iedModel_GenericIO_GGIO_FSCC1_ActSchdRef_q);
  ("IEDMODEL_GenericIO_GGIO_FSCC1_ActSchdRef_t", &iedModel_GenericIO_GGIO_FSCC1_ActSchdRef_t);
  ("IEDMODEL_GenericIO_GGIO_FSCC1_CtlEnt", &iedModel_GenericIO_GGIO_FSCC1_CtlEnt);
  ("IEDMODEL_GenericIO_GGIO_FSCC1_CtlEnt_setSrcRef", &iedModel_GenericIO_GGIO_FSCC1_CtlEnt_setSrcRef);
  ("IEDMODEL_GenericIO_GGIO_FSCC1_Schd1", &iedModel_GenericIO_GGIO_FSCC1_Schd1);
  ("IEDMODEL_GenericIO_GGIO_FSCC1_Schd1_setSrcRef", &iedModel_GenericIO_GGIO_FSCC1_Schd1_setSrcRef);
  ("IEDMODEL_GenericIO_GGIO_FSCC1_Schd2", &iedModel_GenericIO_GGIO_FSCC1_Schd2);
  ("IEDMODEL_GenericIO_GGIO_FSCC1_Schd2_setSrcRef", &iedModel_GenericIO_GGIO_FSCC1_Schd2_setSrcRef)
].

Definition static_macros : list (string * option addr) :=
  macros1 ++ macros2 ++ macros3 ++ macros4 ++ macros5.
