(* ===== verification/StaticModel.v ===== *)
(** * The static data model is what the server needs it to be

    Facts about the heap of [StaticModelData]: it holds one tree with
    consistent parent and sibling pointers and nothing else, its references
    are unambiguous, its data set and report control blocks resolve, and the
    initialiser gives a value of the right type to the attributes it names.
    The checks are evaluated here; what they imply is in [ModelFacts]. *)

From Stdlib Require Import ZArith Ascii String Lia.
From stdpp Require Import base tactics option list numbers strings gmap sorting.
From S2P Require Import Prelude IedModel ModelFacts StaticModelData StaticModelNames.

(** The walk of the whole model, with one unit of fuel per object. *)
Definition model_forest (h : heap) : option (list tree) :=
  walk (S (length static_nodes)) h iedModel (ied_firstChild iedModel_root).

Definition static_forest : list tree := default [] (model_forest static_heap).

Definition initialized_heap : heap := initializeValues static_heap.
Definition initialized_forest : list tree := default [] (model_forest initialized_heap).

Definition entry_heap : gmap addr DataSetEntry := list_to_map static_entries.
Definition ds_heap : gmap addr DataSet := list_to_map static_dataSets.
Definition rcb_heap : gmap addr ReportControlBlock := list_to_map static_rcbs.

(** ** Checks *)

Lemma static_walk : model_forest static_heap = Some static_forest.
Proof. vm_compute. reflexivity. Qed.

Lemma static_unique : forest_unique static_forest = true.
Proof. vm_compute. reflexivity. Qed.

Lemma static_nodes_NoDup : NoDup static_nodes.*1.
Proof. apply (bool_decide_unpack _). vm_compute. exact I. Qed.

Lemma macros_are_nodes :
  static_macros = prod_map macro_name Some <$> flat_map tree_named static_forest.
Proof. vm_compute. reflexivity. Qed.

Lemma named_addrs : (flat_map tree_named static_forest).*2 = static_nodes.*1.
Proof. vm_compute. reflexivity. Qed.

(** The macros by name, for a linear check that none is defined twice. *)
Definition static_macro_table : gmap string (option addr) := list_to_map static_macros.

Lemma macro_map_keeps :
  forallb (λ m, bool_decide (static_macro_table !! m.1 = Some m.2)) static_macros = true.
Proof. vm_compute. reflexivity. Qed.

(** ** Properties *)

(** C23: starting from the device pointer of the root, the first-child and
    sibling pointers of the static objects form one finite tree: every chain
    is null-terminated, every object's parent pointer names the object whose
    chain it is on, every static object occurs in it exactly once (in the
    order of the file), and the nesting obeys the rules of the standard. *)
Theorem static_model_is_tree :
  ∃ ts, forest static_heap iedModel (ied_firstChild iedModel_root) ts ∧
    (∀ ts', forest static_heap iedModel (ied_firstChild iedModel_root) ts' → ts' = ts) ∧
    flat_map tree_addrs ts = static_nodes.*1 ∧ NoDup static_nodes.*1 ∧
    forallb tree_kinds ts = true.
Proof.
  apply (model_is_tree static_nodes _ _ static_forest);
    [exact static_walk|vm_compute; reflexivity|apply static_nodes_NoDup|vm_compute; reflexivity].
Qed.

(** The object references of the model are unambiguous: no two nodes have
    the same path of names, and resolving the path of a node by first match
    at every level leads to that node. *)
Theorem static_references_unambiguous :
  NoDup (forest_paths static_forest) ∧ length (forest_paths static_forest) = 637%nat ∧
  ∀ path t, at_path static_forest path t → resolve static_forest path = Some t.
Proof.
  destruct (model_references _ static_unique) as [Hnd Hr].
  split; [done|]. split; [vm_compute; reflexivity|exact Hr].
Qed.

(** The data set of the model is complete: its chain holds as many entries
    as it announces, they are on the model's device, and each names an
    existing attribute with the functional constraint it states. *)
Theorem data_set_resolves :
  ∃ ds entries, chain ds_sibling ds_heap 2 (dataSets iedModel_root) = Some [ds] ∧
    chain entry_sibling entry_heap 5 (fcdas ds) = Some entries ∧
    Z.of_nat (length entries) = ds_elementCount ds ∧
    Forall (λ e, entry_logicalDeviceName e = ds_logicalDeviceName ds ∧
                 is_Some (entry_target static_forest e)) entries.
Proof.
  eexists _, _. split; [vm_compute; reflexivity|]. split; [vm_compute; reflexivity|].
  split; [vm_compute; reflexivity|].
  repeat (apply Forall_cons; split; [split; [reflexivity|vm_compute; eexists; reflexivity]|]).
  apply Forall_nil. exact I.
Qed.

(** The report control blocks form a null-terminated chain of five with
    distinct names, all on the logical node LLN0, and the data set each one
    reports is the data set of the model on that node. *)
Theorem report_blocks_resolve :
  ∃ ds rs, chain ds_sibling ds_heap 2 (dataSets iedModel_root) = Some [ds] ∧
    chain rcb_sibling rcb_heap 6 (rcbs iedModel_root) = Some rs ∧
    length rs = 5%nat ∧ NoDup (rcb_name <$> rs) ∧
    Forall (λ r, ∃ n, static_heap !! rcb_parent r = Some n ∧
                 ds_name ds = (node_name n ++ "$" ++ dataSetName r)%string) rs.
Proof.
  eexists _, _. split; [vm_compute; reflexivity|]. split; [vm_compute; reflexivity|].
  split; [vm_compute; reflexivity|]. split.
  - apply (bool_decide_unpack _). vm_compute. exact I.
  - repeat (apply Forall_cons; split; [eexists; split; vm_compute; reflexivity|]).
    apply Forall_nil. exact I.
Qed.

(** InitializeValues writes only to existing, so far valueless attributes
    whose type fits the value, each once; afterwards exactly those attributes
    have their value, and every other object is unchanged. *)
Theorem initializeValues_correct :
  forallb (assigned static_heap) initial_values = true ∧
  (∀ a v, (a, v) ∈ initial_values →
     initialized_heap !! a = set_mmsValue v <$> static_heap !! a) ∧
  (∀ a, a ∉ initial_values.*1 → initialized_heap !! a = static_heap !! a).
Proof.
  split; [vm_compute; reflexivity|]. apply initialized_lookup.
  apply (bool_decide_unpack _). vm_compute. exact I.
Qed.

(** Of the thirteen controls of the model (data objects with an Oper
    attribute) the initialiser enables five, as direct control with normal
    security; the control model of the eight requests of the two schedule
    nodes is left without a value. *)
Theorem schedule_controls_have_no_model :
  model_forest initialized_heap = Some initialized_forest ∧
  (λ c, (c.1, ctl_model c.2)) <$> controls initialized_forest =
    ((λ p, ("GenericIO" :: p, Some (MmsValue_newIntegerFromInt32 1))) <$>
       [["GGIO1"; "SPCSO1"]; ["GGIO1"; "SPCSO2"]; ["GGIO1"; "SPCSO3"]; ["GGIO1"; "DPCSO1"];
        ["TIM_GAPC1"; "OpCntRs"]])%string ++
    ((λ p, ("GenericIO" :: p, None)) <$>
       [["T60S_FSCH1"; "VldReq"]; ["T60S_FSCH1"; "EnaReq"]; ["T60S_FSCH1"; "EdtReq"];
        ["T60S_FSCH1"; "DsaReq"]; ["T60S_FSCH2"; "VldReq"]; ["T60S_FSCH2"; "EnaReq"];
        ["T60S_FSCH2"; "EdtReq"]; ["T60S_FSCH2"; "DsaReq"]])%string.
Proof. split; vm_compute; reflexivity. Qed.

(** The header declares the objects of the model with their types: the root
    of the model, and then every static node, in the order in which the model
    defines them and each once, with the type of the structure stored at its
    address. *)
Lemma declared_types :
  static_externs = (T_IedModel, iedModel) ::
    ((λ p, (type_of_node p.2, p.1)) <$> static_nodes) ∧
  NoDup static_externs.*2.
Proof.
  split; [vm_compute; reflexivity|].
  replace static_externs.*2 with (iedModel :: static_nodes.*1) by (vm_compute; reflexivity).
  constructor; [|apply static_nodes_NoDup].
  apply (bool_decide_unpack _). vm_compute. exact I.
Qed.

(** C12: a macro of the header stands for the node that its name spells: for
    every node of the tree, reached by the names of a path, the macro
    IEDMODEL_ followed by these names joined with underscores is defined and
    expands to the address of that node, although the names of logical nodes
    contain underscores themselves; and, besides its include guard, the header
    defines no other macro. *)
Theorem macros_resolve :
  (∀ path t, at_path static_forest path t → macro_value static_macros (macro_name path) = Some (tree_addr t)) ∧
  (∀ m v, (m, v) ∈ static_macros →
     ∃ path a, (path, a) ∈ flat_map tree_named static_forest ∧ m = macro_name path ∧ v = Some a) ∧
  NoDup static_macros.*1.
Proof.
  exact (model_macros static_nodes _ _ static_macro_table macros_are_nodes named_addrs static_nodes_NoDup macro_map_keeps).
Qed.
