(* ===== verification/SampleModelData.v ===== *)
(** * The data model of the simple sample server, address by address

    The initialisers of [sample/server_example_simple/static_model.c], one definition
    per run of consecutive C objects of a logical node, in the order of the
    file.  An address stands for the C object of the same name; a list pairs
    addresses with the structures stored there. *)

From Stdlib Require Import ZArith String.
From stdpp Require Import base option list strings gmap.
From S2P Require Import Prelude IedModel.
Open Scope Z_scope.
Open Scope gw_scope.

(** ** Addresses *)

Definition iedModel : addr := 1%positive.
Definition iedModel_Device1 : addr := 2%positive.
Definition iedModel_Device1_LLN0 : addr := 3%positive.
Definition iedModel_Device1_LLN0_Mod : addr := 4%positive.
Definition iedModel_Device1_LLN0_Mod_q : addr := 5%positive.
Definition iedModel_Device1_LLN0_Mod_t : addr := 6%positive.
Definition iedModel_Device1_LLN0_Mod_ctlModel : addr := 7%positive.
Definition iedModel_Device1_LLN0_Beh : addr := 8%positive.
Definition iedModel_Device1_LLN0_Beh_stVal : addr := 9%positive.
Definition iedModel_Device1_LLN0_Beh_q : addr := 10%positive.
Definition iedModel_Device1_LLN0_Beh_t : addr := 11%positive.
Definition iedModel_Device1_LLN0_Health : addr := 12%positive.
Definition iedModel_Device1_LLN0_Health_stVal : addr := 13%positive.
Definition iedModel_Device1_LLN0_Health_q : addr := 14%positive.
Definition iedModel_Device1_LLN0_Health_t : addr := 15%positive.
Definition iedModel_Device1_LLN0_NamPlt : addr := 16%positive.
Definition iedModel_Device1_LLN0_NamPlt_vendor : addr := 17%positive.
Definition iedModel_Device1_LLN0_NamPlt_swRev : addr := 18%positive.
Definition iedModel_Device1_LLN0_NamPlt_d : addr := 19%positive.
Definition iedModel_Device1_LLN0_NamPlt_configRev : addr := 20%positive.
Definition iedModel_Device1_LLN0_NamPlt_ldNs : addr := 21%positive.
Definition iedModel_Device1_LPHD1 : addr := 22%positive.
Definition iedModel_Device1_LPHD1_PhyNam : addr := 23%positive.
Definition iedModel_Device1_LPHD1_PhyNam_vendor : addr := 24%positive.
Definition iedModel_Device1_LPHD1_PhyHealth : addr := 25%positive.
Definition iedModel_Device1_LPHD1_PhyHealth_stVal : addr := 26%positive.
Definition iedModel_Device1_LPHD1_PhyHealth_q : addr := 27%positive.
Definition iedModel_Device1_LPHD1_PhyHealth_t : addr := 28%positive.
Definition iedModel_Device1_LPHD1_Proxy : addr := 29%positive.
Definition iedModel_Device1_LPHD1_Proxy_stVal : addr := 30%positive.
Definition iedModel_Device1_LPHD1_Proxy_q : addr := 31%positive.
Definition iedModel_Device1_LPHD1_Proxy_t : addr := 32%positive.
Definition iedModel_Device1_DGEN1 : addr := 33%positive.
Definition iedModel_Device1_DGEN1_Mod : addr := 34%positive.
Definition iedModel_Device1_DGEN1_Mod_q : addr := 35%positive.
Definition iedModel_Device1_DGEN1_Mod_t : addr := 36%positive.
Definition iedModel_Device1_DGEN1_Mod_ctlModel : addr := 37%positive.
Definition iedModel_Device1_DGEN1_Beh : addr := 38%positive.
Definition iedModel_Device1_DGEN1_Beh_stVal : addr := 39%positive.
Definition iedModel_Device1_DGEN1_Beh_q : addr := 40%positive.
Definition iedModel_Device1_DGEN1_Beh_t : addr := 41%positive.
Definition iedModel_Device1_DGEN1_Health : addr := 42%positive.
Definition iedModel_Device1_DGEN1_Health_stVal : addr := 43%positive.
Definition iedModel_Device1_DGEN1_Health_q : addr := 44%positive.
Definition iedModel_Device1_DGEN1_Health_t : addr := 45%positive.
Definition iedModel_Device1_DGEN1_NamPlt : addr := 46%positive.
Definition iedModel_Device1_DGEN1_NamPlt_vendor : addr := 47%positive.
Definition iedModel_Device1_DGEN1_NamPlt_swRev : addr := 48%positive.
Definition iedModel_Device1_DGEN1_NamPlt_d : addr := 49%positive.
Definition iedModel_Device1_DGEN1_OpTmh : addr := 50%positive.
Definition iedModel_Device1_DGEN1_OpTmh_stVal : addr := 51%positive.
Definition iedModel_Device1_DGEN1_OpTmh_q : addr := 52%positive.
Definition iedModel_Device1_DGEN1_OpTmh_t : addr := 53%positive.
Definition iedModel_Device1_DGEN1_GnOpSt : addr := 54%positive.
Definition iedModel_Device1_DGEN1_GnOpSt_stVal : addr := 55%positive.
Definition iedModel_Device1_DGEN1_GnOpSt_q : addr := 56%positive.
Definition iedModel_Device1_DGEN1_GnOpSt_t : addr := 57%positive.
Definition iedModel_Device1_DGEN1_OpTmsRs : addr := 58%positive.
Definition iedModel_Device1_DGEN1_OpTmsRs_stVal : addr := 59%positive.
Definition iedModel_Device1_DGEN1_OpTmsRs_q : addr := 60%positive.
Definition iedModel_Device1_DGEN1_OpTmsRs_t : addr := 61%positive.
Definition iedModel_Device1_DGEN1_TotWh : addr := 62%positive.
Definition iedModel_Device1_DGEN1_TotWh_mag : addr := 63%positive.
Definition iedModel_Device1_DGEN1_TotWh_mag_f : addr := 64%positive.
Definition iedModel_Device1_DGEN1_TotWh_q : addr := 65%positive.
Definition iedModel_Device1_DGEN1_TotWh_t : addr := 66%positive.
Definition iedModel_Device1_DSCH1 : addr := 67%positive.
Definition iedModel_Device1_DSCH1_Mod : addr := 68%positive.
Definition iedModel_Device1_DSCH1_Mod_q : addr := 69%positive.
Definition iedModel_Device1_DSCH1_Mod_t : addr := 70%positive.
Definition iedModel_Device1_DSCH1_Mod_ctlModel : addr := 71%positive.
Definition iedModel_Device1_DSCH1_Beh : addr := 72%positive.
Definition iedModel_Device1_DSCH1_Beh_stVal : addr := 73%positive.
Definition iedModel_Device1_DSCH1_Beh_q : addr := 74%positive.
Definition iedModel_Device1_DSCH1_Beh_t : addr := 75%positive.
Definition iedModel_Device1_DSCH1_Health : addr := 76%positive.
Definition iedModel_Device1_DSCH1_Health_stVal : addr := 77%positive.
Definition iedModel_Device1_DSCH1_Health_q : addr := 78%positive.
Definition iedModel_Device1_DSCH1_Health_t : addr := 79%positive.
Definition iedModel_Device1_DSCH1_NamPlt : addr := 80%positive.
Definition iedModel_Device1_DSCH1_NamPlt_vendor : addr := 81%positive.
Definition iedModel_Device1_DSCH1_NamPlt_swRev : addr := 82%positive.
Definition iedModel_Device1_DSCH1_NamPlt_d : addr := 83%positive.
Definition iedModel_Device1_DSCH1_SchdSt : addr := 84%positive.
Definition iedModel_Device1_DSCH1_SchdSt_stVal : addr := 85%positive.
Definition iedModel_Device1_DSCH1_SchdSt_q : addr := 86%positive.
Definition iedModel_Device1_DSCH1_SchdSt_t : addr := 87%positive.
Definition iedModel_Device1_DSCH1_SchdId : addr := 88%positive.
Definition iedModel_Device1_DSCH1_SchdCat : addr := 89%positive.
Definition iedModel_Device1_DSCH1_SchdTyp : addr := 90%positive.
Definition iedModel_Device1_DSCH1_SchdAbsTm : addr := 91%positive.
Definition iedModel_Device1_DSCH1_SchdAbsTm_val : addr := 92%positive.
Definition iedModel_Device1_DSCH1_SchdAbsTm_val_0 : addr := 93%positive.
Definition iedModel_Device1_DSCH1_SchdAbsTm_val_1 : addr := 94%positive.
Definition iedModel_Device1_DSCH1_SchdAbsTm_val_2 : addr := 95%positive.
Definition iedModel_Device1_DSCH1_SchdAbsTm_val_3 : addr := 96%positive.
Definition iedModel_Device1_DSCH1_SchdAbsTm_val_4 : addr := 97%positive.
Definition iedModel_Device1_DSCH1_SchdAbsTm_val_5 : addr := 98%positive.
Definition iedModel_Device1_DSCH1_SchdAbsTm_val_6 : addr := 99%positive.
Definition iedModel_Device1_DSCH1_SchdAbsTm_val_7 : addr := 100%positive.
Definition iedModel_Device1_DSCH1_SchdAbsTm_val_8 : addr := 101%positive.
Definition iedModel_Device1_DSCH1_SchdAbsTm_val_9 : addr := 102%positive.
Definition iedModel_Device1_DSCH1_SchdAbsTm_val_10 : addr := 103%positive.
Definition iedModel_Device1_DSCH1_SchdAbsTm_val_11 : addr := 104%positive.
Definition iedModel_Device1_DSCH1_SchdAbsTm_val_12 : addr := 105%positive.
Definition iedModel_Device1_DSCH1_SchdAbsTm_val_13 : addr := 106%positive.
Definition iedModel_Device1_DSCH1_SchdAbsTm_val_14 : addr := 107%positive.
Definition iedModel_Device1_DSCH1_SchdAbsTm_val_15 : addr := 108%positive.
Definition iedModel_Device1_DSCH1_SchdAbsTm_val_16 : addr := 109%positive.
Definition iedModel_Device1_DSCH1_SchdAbsTm_val_17 : addr := 110%positive.
Definition iedModel_Device1_DSCH1_SchdAbsTm_val_18 : addr := 111%positive.
Definition iedModel_Device1_DSCH1_SchdAbsTm_val_19 : addr := 112%positive.
Definition iedModel_Device1_DSCH1_SchdAbsTm_val_20 : addr := 113%positive.
Definition iedModel_Device1_DSCH1_SchdAbsTm_val_21 : addr := 114%positive.
Definition iedModel_Device1_DSCH1_SchdAbsTm_val_22 : addr := 115%positive.
Definition iedModel_Device1_DSCH1_SchdAbsTm_val_23 : addr := 116%positive.
Definition iedModel_Device1_DSCH1_SchdAbsTm_val_24 : addr := 117%positive.
Definition iedModel_Device1_DSCH1_SchdAbsTm_val_25 : addr := 118%positive.
Definition iedModel_Device1_DSCH1_SchdAbsTm_val_26 : addr := 119%positive.
Definition iedModel_Device1_DSCH1_SchdAbsTm_val_27 : addr := 120%positive.
Definition iedModel_Device1_DSCH1_SchdAbsTm_val_28 : addr := 121%positive.
Definition iedModel_Device1_DSCH1_SchdAbsTm_val_29 : addr := 122%positive.
Definition iedModel_Device1_DSCH1_SchdAbsTm_val_30 : addr := 123%positive.
Definition iedModel_Device1_DSCH1_SchdAbsTm_val_31 : addr := 124%positive.
Definition iedModel_Device1_DSCH1_SchdAbsTm_val_32 : addr := 125%positive.
Definition iedModel_Device1_DSCH1_SchdAbsTm_val_33 : addr := 126%positive.
Definition iedModel_Device1_DSCH1_SchdAbsTm_val_34 : addr := 127%positive.
Definition iedModel_Device1_DSCH1_SchdAbsTm_val_35 : addr := 128%positive.
Definition iedModel_Device1_DSCH1_SchdAbsTm_val_36 : addr := 129%positive.
Definition iedModel_Device1_DSCH1_SchdAbsTm_val_37 : addr := 130%positive.
Definition iedModel_Device1_DSCH1_SchdAbsTm_val_38 : addr := 131%positive.
Definition iedModel_Device1_DSCH1_SchdAbsTm_val_39 : addr := 132%positive.
Definition iedModel_Device1_DSCH1_SchdAbsTm_val_40 : addr := 133%positive.
Definition iedModel_Device1_DSCH1_SchdAbsTm_val_41 : addr := 134%positive.
Definition iedModel_Device1_DSCH1_SchdAbsTm_val_42 : addr := 135%positive.
Definition iedModel_Device1_DSCH1_SchdAbsTm_val_43 : addr := 136%positive.
Definition iedModel_Device1_DSCH1_SchdAbsTm_val_44 : addr := 137%positive.
Definition iedModel_Device1_DSCH1_SchdAbsTm_val_45 : addr := 138%positive.
Definition iedModel_Device1_DSCH1_SchdAbsTm_val_46 : addr := 139%positive.
Definition iedModel_Device1_DSCH1_SchdAbsTm_val_47 : addr := 140%positive.
Definition iedModel_Device1_DSCH1_SchdAbsTm_val_48 : addr := 141%positive.
Definition iedModel_Device1_DSCH1_SchdAbsTm_val_49 : addr := 142%positive.
Definition iedModel_Device1_DSCH1_SchdAbsTm_val_50 : addr := 143%positive.
Definition iedModel_Device1_DSCH1_SchdAbsTm_val_51 : addr := 144%positive.
Definition iedModel_Device1_DSCH1_SchdAbsTm_val_52 : addr := 145%positive.
Definition iedModel_Device1_DSCH1_SchdAbsTm_val_53 : addr := 146%positive.
Definition iedModel_Device1_DSCH1_SchdAbsTm_val_54 : addr := 147%positive.
Definition iedModel_Device1_DSCH1_SchdAbsTm_val_55 : addr := 148%positive.
Definition iedModel_Device1_DSCH1_SchdAbsTm_val_56 : addr := 149%positive.
Definition iedModel_Device1_DSCH1_SchdAbsTm_val_57 : addr := 150%positive.
Definition iedModel_Device1_DSCH1_SchdAbsTm_val_58 : addr := 151%positive.
Definition iedModel_Device1_DSCH1_SchdAbsTm_val_59 : addr := 152%positive.
Definition iedModel_Device1_DSCH1_SchdAbsTm_val_60 : addr := 153%positive.
Definition iedModel_Device1_DSCH1_SchdAbsTm_val_61 : addr := 154%positive.
Definition iedModel_Device1_DSCH1_SchdAbsTm_val_62 : addr := 155%positive.
Definition iedModel_Device1_DSCH1_SchdAbsTm_val_63 : addr := 156%positive.
Definition iedModel_Device1_DSCH1_SchdAbsTm_val_64 : addr := 157%positive.
Definition iedModel_Device1_DSCH1_SchdAbsTm_val_65 : addr := 158%positive.
Definition iedModel_Device1_DSCH1_SchdAbsTm_val_66 : addr := 159%positive.
Definition iedModel_Device1_DSCH1_SchdAbsTm_val_67 : addr := 160%positive.
Definition iedModel_Device1_DSCH1_SchdAbsTm_val_68 : addr := 161%positive.
Definition iedModel_Device1_DSCH1_SchdAbsTm_val_69 : addr := 162%positive.
Definition iedModel_Device1_DSCH1_SchdAbsTm_val_70 : addr := 163%positive.
Definition iedModel_Device1_DSCH1_SchdAbsTm_val_71 : addr := 164%positive.
Definition iedModel_Device1_DSCH1_SchdAbsTm_val_72 : addr := 165%positive.
Definition iedModel_Device1_DSCH1_SchdAbsTm_val_73 : addr := 166%positive.
Definition iedModel_Device1_DSCH1_SchdAbsTm_val_74 : addr := 167%positive.
Definition iedModel_Device1_DSCH1_SchdAbsTm_val_75 : addr := 168%positive.
Definition iedModel_Device1_DSCH1_SchdAbsTm_val_76 : addr := 169%positive.
Definition iedModel_Device1_DSCH1_SchdAbsTm_val_77 : addr := 170%positive.
Definition iedModel_Device1_DSCH1_SchdAbsTm_val_78 : addr := 171%positive.
Definition iedModel_Device1_DSCH1_SchdAbsTm_val_79 : addr := 172%positive.
Definition iedModel_Device1_DSCH1_SchdAbsTm_val_80 : addr := 173%positive.
Definition iedModel_Device1_DSCH1_SchdAbsTm_val_81 : addr := 174%positive.
Definition iedModel_Device1_DSCH1_SchdAbsTm_val_82 : addr := 175%positive.
Definition iedModel_Device1_DSCH1_SchdAbsTm_val_83 : addr := 176%positive.
Definition iedModel_Device1_DSCH1_SchdAbsTm_val_84 : addr := 177%positive.
Definition iedModel_Device1_DSCH1_SchdAbsTm_val_85 : addr := 178%positive.
Definition iedModel_Device1_DSCH1_SchdAbsTm_val_86 : addr := 179%positive.
Definition iedModel_Device1_DSCH1_SchdAbsTm_val_87 : addr := 180%positive.
Definition iedModel_Device1_DSCH1_SchdAbsTm_val_88 : addr := 181%positive.
Definition iedModel_Device1_DSCH1_SchdAbsTm_val_89 : addr := 182%positive.
Definition iedModel_Device1_DSCH1_SchdAbsTm_val_90 : addr := 183%positive.
Definition iedModel_Device1_DSCH1_SchdAbsTm_val_91 : addr := 184%positive.
Definition iedModel_Device1_DSCH1_SchdAbsTm_val_92 : addr := 185%positive.
Definition iedModel_Device1_DSCH1_SchdAbsTm_val_93 : addr := 186%positive.
Definition iedModel_Device1_DSCH1_SchdAbsTm_val_94 : addr := 187%positive.
Definition iedModel_Device1_DSCH1_SchdAbsTm_val_95 : addr := 188%positive.
Definition iedModel_Device1_DSCH1_SchdAbsTm_val_96 : addr := 189%positive.
Definition iedModel_Device1_DSCH1_SchdAbsTm_val_97 : addr := 190%positive.
Definition iedModel_Device1_DSCH1_SchdAbsTm_val_98 : addr := 191%positive.
Definition iedModel_Device1_DSCH1_SchdAbsTm_val_99 : addr := 192%positive.
Definition iedModel_Device1_DSCH1_SchdAbsTm_val_100 : addr := 193%positive.
Definition iedModel_Device1_DSCH1_SchdAbsTm_val_101 : addr := 194%positive.
Definition iedModel_Device1_DSCH1_SchdAbsTm_val_102 : addr := 195%positive.
Definition iedModel_Device1_DSCH1_SchdAbsTm_val_103 : addr := 196%positive.
Definition iedModel_Device1_DSCH1_SchdAbsTm_val_104 : addr := 197%positive.
Definition iedModel_Device1_DSCH1_SchdAbsTm_val_105 : addr := 198%positive.
Definition iedModel_Device1_DSCH1_SchdAbsTm_val_106 : addr := 199%positive.
Definition iedModel_Device1_DSCH1_SchdAbsTm_val_107 : addr := 200%positive.
Definition iedModel_Device1_DSCH1_SchdAbsTm_val_108 : addr := 201%positive.
Definition iedModel_Device1_DSCH1_SchdAbsTm_val_109 : addr := 202%positive.
Definition iedModel_Device1_DSCH1_SchdAbsTm_val_110 : addr := 203%positive.
Definition iedModel_Device1_DSCH1_SchdAbsTm_val_111 : addr := 204%positive.
Definition iedModel_Device1_DSCH1_SchdAbsTm_val_112 : addr := 205%positive.
Definition iedModel_Device1_DSCH1_SchdAbsTm_val_113 : addr := 206%positive.
Definition iedModel_Device1_DSCH1_SchdAbsTm_val_114 : addr := 207%positive.
Definition iedModel_Device1_DSCH1_SchdAbsTm_val_115 : addr := 208%positive.
Definition iedModel_Device1_DSCH1_SchdAbsTm_val_116 : addr := 209%positive.
Definition iedModel_Device1_DSCH1_SchdAbsTm_val_117 : addr := 210%positive.
Definition iedModel_Device1_DSCH1_SchdAbsTm_val_118 : addr := 211%positive.
Definition iedModel_Device1_DSCH1_SchdAbsTm_val_119 : addr := 212%positive.
Definition iedModel_Device1_DSCH1_SchdAbsTm_val_120 : addr := 213%positive.
Definition iedModel_Device1_DSCH1_SchdAbsTm_val_121 : addr := 214%positive.
Definition iedModel_Device1_DSCH1_SchdAbsTm_val_122 : addr := 215%positive.
Definition iedModel_Device1_DSCH1_SchdAbsTm_val_123 : addr := 216%positive.
Definition iedModel_Device1_DSCH1_SchdAbsTm_val_124 : addr := 217%positive.
Definition iedModel_Device1_DSCH1_SchdAbsTm_val_125 : addr := 218%positive.
Definition iedModel_Device1_DSCH1_SchdAbsTm_val_126 : addr := 219%positive.
Definition iedModel_Device1_DSCH1_SchdAbsTm_val_127 : addr := 220%positive.
Definition iedModel_Device1_DSCH1_SchdAbsTm_val_128 : addr := 221%positive.
Definition iedModel_Device1_DSCH1_SchdAbsTm_val_129 : addr := 222%positive.
Definition iedModel_Device1_DSCH1_SchdAbsTm_val_130 : addr := 223%positive.
Definition iedModel_Device1_DSCH1_SchdAbsTm_val_131 : addr := 224%positive.
Definition iedModel_Device1_DSCH1_SchdAbsTm_val_132 : addr := 225%positive.
Definition iedModel_Device1_DSCH1_SchdAbsTm_val_133 : addr := 226%positive.
Definition iedModel_Device1_DSCH1_SchdAbsTm_val_134 : addr := 227%positive.
Definition iedModel_Device1_DSCH1_SchdAbsTm_val_135 : addr := 228%positive.
Definition iedModel_Device1_DSCH1_SchdAbsTm_val_136 : addr := 229%positive.
Definition iedModel_Device1_DSCH1_SchdAbsTm_val_137 : addr := 230%positive.
Definition iedModel_Device1_DSCH1_SchdAbsTm_val_138 : addr := 231%positive.
Definition iedModel_Device1_DSCH1_SchdAbsTm_val_139 : addr := 232%positive.
Definition iedModel_Device1_DSCH1_SchdAbsTm_val_140 : addr := 233%positive.
Definition iedModel_Device1_DSCH1_SchdAbsTm_val_141 : addr := 234%positive.
Definition iedModel_Device1_DSCH1_SchdAbsTm_val_142 : addr := 235%positive.
Definition iedModel_Device1_DSCH1_SchdAbsTm_val_143 : addr := 236%positive.
Definition iedModel_Device1_DSCH1_SchdAbsTm_val_144 : addr := 237%positive.
Definition iedModel_Device1_DSCH1_SchdAbsTm_val_145 : addr := 238%positive.
Definition iedModel_Device1_DSCH1_SchdAbsTm_val_146 : addr := 239%positive.
Definition iedModel_Device1_DSCH1_SchdAbsTm_val_147 : addr := 240%positive.
Definition iedModel_Device1_DSCH1_SchdAbsTm_val_148 : addr := 241%positive.
Definition iedModel_Device1_DSCH1_SchdAbsTm_val_149 : addr := 242%positive.
Definition iedModel_Device1_DSCH1_SchdAbsTm_val_150 : addr := 243%positive.
Definition iedModel_Device1_DSCH1_SchdAbsTm_val_151 : addr := 244%positive.
Definition iedModel_Device1_DSCH1_SchdAbsTm_val_152 : addr := 245%positive.
Definition iedModel_Device1_DSCH1_SchdAbsTm_val_153 : addr := 246%positive.
Definition iedModel_Device1_DSCH1_SchdAbsTm_val_154 : addr := 247%positive.
Definition iedModel_Device1_DSCH1_SchdAbsTm_val_155 : addr := 248%positive.
Definition iedModel_Device1_DSCH1_SchdAbsTm_val_156 : addr := 249%positive.
Definition iedModel_Device1_DSCH1_SchdAbsTm_val_157 : addr := 250%positive.
Definition iedModel_Device1_DSCH1_SchdAbsTm_val_158 : addr := 251%positive.
Definition iedModel_Device1_DSCH1_SchdAbsTm_val_159 : addr := 252%positive.
Definition iedModel_Device1_DSCH1_SchdAbsTm_val_160 : addr := 253%positive.
Definition iedModel_Device1_DSCH1_SchdAbsTm_val_161 : addr := 254%positive.
Definition iedModel_Device1_DSCH1_SchdAbsTm_val_162 : addr := 255%positive.
Definition iedModel_Device1_DSCH1_SchdAbsTm_val_163 : addr := 256%positive.
Definition iedModel_Device1_DSCH1_SchdAbsTm_val_164 : addr := 257%positive.
Definition iedModel_Device1_DSCH1_SchdAbsTm_val_165 : addr := 258%positive.
Definition iedModel_Device1_DSCH1_SchdAbsTm_val_166 : addr := 259%positive.
Definition iedModel_Device1_DSCH1_SchdAbsTm_val_167 : addr := 260%positive.
Definition iedModel_Device1_DSCH1_SchdAbsTm_val_168 : addr := 261%positive.
Definition iedModel_Device1_DSCH1_SchdAbsTm_val_169 : addr := 262%positive.
Definition iedModel_Device1_DSCH1_SchdAbsTm_val_170 : addr := 263%positive.
Definition iedModel_Device1_DSCH1_SchdAbsTm_val_171 : addr := 264%positive.
Definition iedModel_Device1_DSCH1_SchdAbsTm_val_172 : addr := 265%positive.
Definition iedModel_Device1_DSCH1_SchdAbsTm_val_173 : addr := 266%positive.
Definition iedModel_Device1_DSCH1_SchdAbsTm_val_174 : addr := 267%positive.
Definition iedModel_Device1_DSCH1_SchdAbsTm_val_175 : addr := 268%positive.
Definition iedModel_Device1_DSCH1_SchdAbsTm_val_176 : addr := 269%positive.
Definition iedModel_Device1_DSCH1_SchdAbsTm_val_177 : addr := 270%positive.
Definition iedModel_Device1_DSCH1_SchdAbsTm_val_178 : addr := 271%positive.
Definition iedModel_Device1_DSCH1_SchdAbsTm_val_179 : addr := 272%positive.
Definition iedModel_Device1_DSCH1_SchdAbsTm_val_180 : addr := 273%positive.
Definition iedModel_Device1_DSCH1_SchdAbsTm_val_181 : addr := 274%positive.
Definition iedModel_Device1_DSCH1_SchdAbsTm_val_182 : addr := 275%positive.
Definition iedModel_Device1_DSCH1_SchdAbsTm_val_183 : addr := 276%positive.
Definition iedModel_Device1_DSCH1_SchdAbsTm_val_184 : addr := 277%positive.
Definition iedModel_Device1_DSCH1_SchdAbsTm_val_185 : addr := 278%positive.
Definition iedModel_Device1_DSCH1_SchdAbsTm_val_186 : addr := 279%positive.
Definition iedModel_Device1_DSCH1_SchdAbsTm_val_187 : addr := 280%positive.
Definition iedModel_Device1_DSCH1_SchdAbsTm_val_188 : addr := 281%positive.
Definition iedModel_Device1_DSCH1_SchdAbsTm_val_189 : addr := 282%positive.
Definition iedModel_Device1_DSCH1_SchdAbsTm_val_190 : addr := 283%positive.
Definition iedModel_Device1_DSCH1_SchdAbsTm_val_191 : addr := 284%positive.
Definition iedModel_Device1_DSCH1_SchdAbsTm_val_192 : addr := 285%positive.
Definition iedModel_Device1_DSCH1_SchdAbsTm_val_193 : addr := 286%positive.
Definition iedModel_Device1_DSCH1_SchdAbsTm_val_194 : addr := 287%positive.
Definition iedModel_Device1_DSCH1_SchdAbsTm_val_195 : addr := 288%positive.
Definition iedModel_Device1_DSCH1_SchdAbsTm_val_196 : addr := 289%positive.
Definition iedModel_Device1_DSCH1_SchdAbsTm_val_197 : addr := 290%positive.
Definition iedModel_Device1_DSCH1_SchdAbsTm_val_198 : addr := 291%positive.
Definition iedModel_Device1_DSCH1_SchdAbsTm_val_199 : addr := 292%positive.
Definition iedModel_Device1_DSCH1_SchdAbsTm_val_200 : addr := 293%positive.
Definition iedModel_Device1_DSCH1_SchdAbsTm_val_201 : addr := 294%positive.
Definition iedModel_Device1_DSCH1_SchdAbsTm_val_202 : addr := 295%positive.
Definition iedModel_Device1_DSCH1_SchdAbsTm_val_203 : addr := 296%positive.
Definition iedModel_Device1_DSCH1_SchdAbsTm_val_204 : addr := 297%positive.
Definition iedModel_Device1_DSCH1_SchdAbsTm_val_205 : addr := 298%positive.
Definition iedModel_Device1_DSCH1_SchdAbsTm_val_206 : addr := 299%positive.
Definition iedModel_Device1_DSCH1_SchdAbsTm_val_207 : addr := 300%positive.
Definition iedModel_Device1_DSCH1_SchdAbsTm_val_208 : addr := 301%positive.
Definition iedModel_Device1_DSCH1_SchdAbsTm_val_209 : addr := 302%positive.
Definition iedModel_Device1_DSCH1_SchdAbsTm_val_210 : addr := 303%positive.
Definition iedModel_Device1_DSCH1_SchdAbsTm_val_211 : addr := 304%positive.
Definition iedModel_Device1_DSCH1_SchdAbsTm_val_212 : addr := 305%positive.
Definition iedModel_Device1_DSCH1_SchdAbsTm_val_213 : addr := 306%positive.
Definition iedModel_Device1_DSCH1_SchdAbsTm_val_214 : addr := 307%positive.
Definition iedModel_Device1_DSCH1_SchdAbsTm_val_215 : addr := 308%positive.
Definition iedModel_Device1_DSCH1_SchdAbsTm_val_216 : addr := 309%positive.
Definition iedModel_Device1_DSCH1_SchdAbsTm_val_217 : addr := 310%positive.
Definition iedModel_Device1_DSCH1_SchdAbsTm_val_218 : addr := 311%positive.
Definition iedModel_Device1_DSCH1_SchdAbsTm_val_219 : addr := 312%positive.
Definition iedModel_Device1_DSCH1_SchdAbsTm_val_220 : addr := 313%positive.
Definition iedModel_Device1_DSCH1_SchdAbsTm_val_221 : addr := 314%positive.
Definition iedModel_Device1_DSCH1_SchdAbsTm_val_222 : addr := 315%positive.
Definition iedModel_Device1_DSCH1_SchdAbsTm_val_223 : addr := 316%positive.
Definition iedModel_Device1_DSCH1_SchdAbsTm_val_224 : addr := 317%positive.
Definition iedModel_Device1_DSCH1_SchdAbsTm_val_225 : addr := 318%positive.
Definition iedModel_Device1_DSCH1_SchdAbsTm_val_226 : addr := 319%positive.
Definition iedModel_Device1_DSCH1_SchdAbsTm_val_227 : addr := 320%positive.
Definition iedModel_Device1_DSCH1_SchdAbsTm_val_228 : addr := 321%positive.
Definition iedModel_Device1_DSCH1_SchdAbsTm_val_229 : addr := 322%positive.
Definition iedModel_Device1_DSCH1_SchdAbsTm_val_230 : addr := 323%positive.
Definition iedModel_Device1_DSCH1_SchdAbsTm_val_231 : addr := 324%positive.
Definition iedModel_Device1_DSCH1_SchdAbsTm_val_232 : addr := 325%positive.
Definition iedModel_Device1_DSCH1_SchdAbsTm_val_233 : addr := 326%positive.
Definition iedModel_Device1_DSCH1_SchdAbsTm_val_234 : addr := 327%positive.
Definition iedModel_Device1_DSCH1_SchdAbsTm_val_235 : addr := 328%positive.
Definition iedModel_Device1_DSCH1_SchdAbsTm_val_236 : addr := 329%positive.
Definition iedModel_Device1_DSCH1_SchdAbsTm_val_237 : addr := 330%positive.
Definition iedModel_Device1_DSCH1_SchdAbsTm_val_238 : addr := 331%positive.
Definition iedModel_Device1_DSCH1_SchdAbsTm_val_239 : addr := 332%positive.
Definition iedModel_Device1_DSCH1_SchdAbsTm_val_240 : addr := 333%positive.
Definition iedModel_Device1_DSCH1_SchdAbsTm_val_241 : addr := 334%positive.
Definition iedModel_Device1_DSCH1_SchdAbsTm_val_242 : addr := 335%positive.
Definition iedModel_Device1_DSCH1_SchdAbsTm_val_243 : addr := 336%positive.
Definition iedModel_Device1_DSCH1_SchdAbsTm_val_244 : addr := 337%positive.
Definition iedModel_Device1_DSCH1_SchdAbsTm_val_245 : addr := 338%positive.
Definition iedModel_Device1_DSCH1_SchdAbsTm_val_246 : addr := 339%positive.
Definition iedModel_Device1_DSCH1_SchdAbsTm_val_247 : addr := 340%positive.
Definition iedModel_Device1_DSCH1_SchdAbsTm_val_248 : addr := 341%positive.
Definition iedModel_Device1_DSCH1_SchdAbsTm_val_249 : addr := 342%positive.
Definition iedModel_Device1_DSCH1_SchdAbsTm_val_250 : addr := 343%positive.
Definition iedModel_Device1_DSCH1_SchdAbsTm_val_251 : addr := 344%positive.
Definition iedModel_Device1_DSCH1_SchdAbsTm_val_252 : addr := 345%positive.
Definition iedModel_Device1_DSCH1_SchdAbsTm_val_253 : addr := 346%positive.
Definition iedModel_Device1_DSCH1_SchdAbsTm_val_254 : addr := 347%positive.
Definition iedModel_Device1_DSCH1_SchdAbsTm_time : addr := 348%positive.
Definition iedModel_Device1_DSCH1_SchdAbsTm_time_0 : addr := 349%positive.
Definition iedModel_Device1_DSCH1_SchdAbsTm_time_1 : addr := 350%positive.
Definition iedModel_Device1_DSCH1_SchdAbsTm_time_2 : addr := 351%positive.
Definition iedModel_Device1_DSCH1_SchdAbsTm_time_3 : addr := 352%positive.
Definition iedModel_Device1_DSCH1_SchdAbsTm_time_4 : addr := 353%positive.
Definition iedModel_Device1_DSCH1_SchdAbsTm_time_5 : addr := 354%positive.
Definition iedModel_Device1_DSCH1_SchdAbsTm_time_6 : addr := 355%positive.
Definition iedModel_Device1_DSCH1_SchdAbsTm_time_7 : addr := 356%positive.
Definition iedModel_Device1_DSCH1_SchdAbsTm_time_8 : addr := 357%positive.
Definition iedModel_Device1_DSCH1_SchdAbsTm_time_9 : addr := 358%positive.
Definition iedModel_Device1_DSCH1_SchdAbsTm_time_10 : addr := 359%positive.
Definition iedModel_Device1_DSCH1_SchdAbsTm_time_11 : addr := 360%positive.
Definition iedModel_Device1_DSCH1_SchdAbsTm_time_12 : addr := 361%positive.
Definition iedModel_Device1_DSCH1_SchdAbsTm_time_13 : addr := 362%positive.
Definition iedModel_Device1_DSCH1_SchdAbsTm_time_14 : addr := 363%positive.
Definition iedModel_Device1_DSCH1_SchdAbsTm_time_15 : addr := 364%positive.
Definition iedModel_Device1_DSCH1_SchdAbsTm_time_16 : addr := 365%positive.
Definition iedModel_Device1_DSCH1_SchdAbsTm_time_17 : addr := 366%positive.
Definition iedModel_Device1_DSCH1_SchdAbsTm_time_18 : addr := 367%positive.
Definition iedModel_Device1_DSCH1_SchdAbsTm_time_19 : addr := 368%positive.
Definition iedModel_Device1_DSCH1_SchdAbsTm_time_20 : addr := 369%positive.
Definition iedModel_Device1_DSCH1_SchdAbsTm_time_21 : addr := 370%positive.
Definition iedModel_Device1_DSCH1_SchdAbsTm_time_22 : addr := 371%positive.
Definition iedModel_Device1_DSCH1_SchdAbsTm_time_23 : addr := 372%positive.
Definition iedModel_Device1_DSCH1_SchdAbsTm_time_24 : addr := 373%positive.
Definition iedModel_Device1_DSCH1_SchdAbsTm_time_25 : addr := 374%positive.
Definition iedModel_Device1_DSCH1_SchdAbsTm_time_26 : addr := 375%positive.
Definition iedModel_Device1_DSCH1_SchdAbsTm_time_27 : addr := 376%positive.
Definition iedModel_Device1_DSCH1_SchdAbsTm_time_28 : addr := 377%positive.
Definition iedModel_Device1_DSCH1_SchdAbsTm_time_29 : addr := 378%positive.
Definition iedModel_Device1_DSCH1_SchdAbsTm_time_30 : addr := 379%positive.
Definition iedModel_Device1_DSCH1_SchdAbsTm_time_31 : addr := 380%positive.
Definition iedModel_Device1_DSCH1_SchdAbsTm_time_32 : addr := 381%positive.
Definition iedModel_Device1_DSCH1_SchdAbsTm_time_33 : addr := 382%positive.
Definition iedModel_Device1_DSCH1_SchdAbsTm_time_34 : addr := 383%positive.
Definition iedModel_Device1_DSCH1_SchdAbsTm_time_35 : addr := 384%positive.
Definition iedModel_Device1_DSCH1_SchdAbsTm_time_36 : addr := 385%positive.
Definition iedModel_Device1_DSCH1_SchdAbsTm_time_37 : addr := 386%positive.
Definition iedModel_Device1_DSCH1_SchdAbsTm_time_38 : addr := 387%positive.
Definition iedModel_Device1_DSCH1_SchdAbsTm_time_39 : addr := 388%positive.
Definition iedModel_Device1_DSCH1_SchdAbsTm_time_40 : addr := 389%positive.
Definition iedModel_Device1_DSCH1_SchdAbsTm_time_41 : addr := 390%positive.
Definition iedModel_Device1_DSCH1_SchdAbsTm_time_42 : addr := 391%positive.
Definition iedModel_Device1_DSCH1_SchdAbsTm_time_43 : addr := 392%positive.
Definition iedModel_Device1_DSCH1_SchdAbsTm_time_44 : addr := 393%positive.
Definition iedModel_Device1_DSCH1_SchdAbsTm_time_45 : addr := 394%positive.
Definition iedModel_Device1_DSCH1_SchdAbsTm_time_46 : addr := 395%positive.
Definition iedModel_Device1_DSCH1_SchdAbsTm_time_47 : addr := 396%positive.
Definition iedModel_Device1_DSCH1_SchdAbsTm_time_48 : addr := 397%positive.
Definition iedModel_Device1_DSCH1_SchdAbsTm_time_49 : addr := 398%positive.
Definition iedModel_Device1_DSCH1_SchdAbsTm_time_50 : addr := 399%positive.
Definition iedModel_Device1_DSCH1_SchdAbsTm_time_51 : addr := 400%positive.
Definition iedModel_Device1_DSCH1_SchdAbsTm_time_52 : addr := 401%positive.
Definition iedModel_Device1_DSCH1_SchdAbsTm_time_53 : addr := 402%positive.
Definition iedModel_Device1_DSCH1_SchdAbsTm_time_54 : addr := 403%positive.
Definition iedModel_Device1_DSCH1_SchdAbsTm_time_55 : addr := 404%positive.
Definition iedModel_Device1_DSCH1_SchdAbsTm_time_56 : addr := 405%positive.
Definition iedModel_Device1_DSCH1_SchdAbsTm_time_57 : addr := 406%positive.
Definition iedModel_Device1_DSCH1_SchdAbsTm_time_58 : addr := 407%positive.
Definition iedModel_Device1_DSCH1_SchdAbsTm_time_59 : addr := 408%positive.
Definition iedModel_Device1_DSCH1_SchdAbsTm_time_60 : addr := 409%positive.
Definition iedModel_Device1_DSCH1_SchdAbsTm_time_61 : addr := 410%positive.
Definition iedModel_Device1_DSCH1_SchdAbsTm_time_62 : addr := 411%positive.
Definition iedModel_Device1_DSCH1_SchdAbsTm_time_63 : addr := 412%positive.
Definition iedModel_Device1_DSCH1_SchdAbsTm_time_64 : addr := 413%positive.
Definition iedModel_Device1_DSCH1_SchdAbsTm_time_65 : addr := 414%positive.
Definition iedModel_Device1_DSCH1_SchdAbsTm_time_66 : addr := 415%positive.
Definition iedModel_Device1_DSCH1_SchdAbsTm_time_67 : addr := 416%positive.
Definition iedModel_Device1_DSCH1_SchdAbsTm_time_68 : addr := 417%positive.
Definition iedModel_Device1_DSCH1_SchdAbsTm_time_69 : addr := 418%positive.
Definition iedModel_Device1_DSCH1_SchdAbsTm_time_70 : addr := 419%positive.
Definition iedModel_Device1_DSCH1_SchdAbsTm_time_71 : addr := 420%positive.
Definition iedModel_Device1_DSCH1_SchdAbsTm_time_72 : addr := 421%positive.
Definition iedModel_Device1_DSCH1_SchdAbsTm_time_73 : addr := 422%positive.
Definition iedModel_Device1_DSCH1_SchdAbsTm_time_74 : addr := 423%positive.
Definition iedModel_Device1_DSCH1_SchdAbsTm_time_75 : addr := 424%positive.
Definition iedModel_Device1_DSCH1_SchdAbsTm_time_76 : addr := 425%positive.
Definition iedModel_Device1_DSCH1_SchdAbsTm_time_77 : addr := 426%positive.
Definition iedModel_Device1_DSCH1_SchdAbsTm_time_78 : addr := 427%positive.
Definition iedModel_Device1_DSCH1_SchdAbsTm_time_79 : addr := 428%positive.
Definition iedModel_Device1_DSCH1_SchdAbsTm_time_80 : addr := 429%positive.
Definition iedModel_Device1_DSCH1_SchdAbsTm_time_81 : addr := 430%positive.
Definition iedModel_Device1_DSCH1_SchdAbsTm_time_82 : addr := 431%positive.
Definition iedModel_Device1_DSCH1_SchdAbsTm_time_83 : addr := 432%positive.
Definition iedModel_Device1_DSCH1_SchdAbsTm_time_84 : addr := 433%positive.
Definition iedModel_Device1_DSCH1_SchdAbsTm_time_85 : addr := 434%positive.
Definition iedModel_Device1_DSCH1_SchdAbsTm_time_86 : addr := 435%positive.
Definition iedModel_Device1_DSCH1_SchdAbsTm_time_87 : addr := 436%positive.
Definition iedModel_Device1_DSCH1_SchdAbsTm_time_88 : addr := 437%positive.
Definition iedModel_Device1_DSCH1_SchdAbsTm_time_89 : addr := 438%positive.
Definition iedModel_Device1_DSCH1_SchdAbsTm_time_90 : addr := 439%positive.
Definition iedModel_Device1_DSCH1_SchdAbsTm_time_91 : addr := 440%positive.
Definition iedModel_Device1_DSCH1_SchdAbsTm_time_92 : addr := 441%positive.
Definition iedModel_Device1_DSCH1_SchdAbsTm_time_93 : addr := 442%positive.
Definition iedModel_Device1_DSCH1_SchdAbsTm_time_94 : addr := 443%positive.
Definition iedModel_Device1_DSCH1_SchdAbsTm_time_95 : addr := 444%positive.
Definition iedModel_Device1_DSCH1_SchdAbsTm_time_96 : addr := 445%positive.
Definition iedModel_Device1_DSCH1_SchdAbsTm_time_97 : addr := 446%positive.
Definition iedModel_Device1_DSCH1_SchdAbsTm_time_98 : addr := 447%positive.
Definition iedModel_Device1_DSCH1_SchdAbsTm_time_99 : addr := 448%positive.
Definition iedModel_Device1_DSCH1_SchdAbsTm_time_100 : addr := 449%positive.
Definition iedModel_Device1_DSCH1_SchdAbsTm_time_101 : addr := 450%positive.
Definition iedModel_Device1_DSCH1_SchdAbsTm_time_102 : addr := 451%positive.
Definition iedModel_Device1_DSCH1_SchdAbsTm_time_103 : addr := 452%positive.
Definition iedModel_Device1_DSCH1_SchdAbsTm_time_104 : addr := 453%positive.
Definition iedModel_Device1_DSCH1_SchdAbsTm_time_105 : addr := 454%positive.
Definition iedModel_Device1_DSCH1_SchdAbsTm_time_106 : addr := 455%positive.
Definition iedModel_Device1_DSCH1_SchdAbsTm_time_107 : addr := 456%positive.
Definition iedModel_Device1_DSCH1_SchdAbsTm_time_108 : addr := 457%positive.
Definition iedModel_Device1_DSCH1_SchdAbsTm_time_109 : addr := 458%positive.
Definition iedModel_Device1_DSCH1_SchdAbsTm_time_110 : addr := 459%positive.
Definition iedModel_Device1_DSCH1_SchdAbsTm_time_111 : addr := 460%positive.
Definition iedModel_Device1_DSCH1_SchdAbsTm_time_112 : addr := 461%positive.
Definition iedModel_Device1_DSCH1_SchdAbsTm_time_113 : addr := 462%positive.
Definition iedModel_Device1_DSCH1_SchdAbsTm_time_114 : addr := 463%positive.
Definition iedModel_Device1_DSCH1_SchdAbsTm_time_115 : addr := 464%positive.
Definition iedModel_Device1_DSCH1_SchdAbsTm_time_116 : addr := 465%positive.
Definition iedModel_Device1_DSCH1_SchdAbsTm_time_117 : addr := 466%positive.
Definition iedModel_Device1_DSCH1_SchdAbsTm_time_118 : addr := 467%positive.
Definition iedModel_Device1_DSCH1_SchdAbsTm_time_119 : addr := 468%positive.
Definition iedModel_Device1_DSCH1_SchdAbsTm_time_120 : addr := 469%positive.
Definition iedModel_Device1_DSCH1_SchdAbsTm_time_121 : addr := 470%positive.
Definition iedModel_Device1_DSCH1_SchdAbsTm_time_122 : addr := 471%positive.
Definition iedModel_Device1_DSCH1_SchdAbsTm_time_123 : addr := 472%positive.
Definition iedModel_Device1_DSCH1_SchdAbsTm_time_124 : addr := 473%positive.
Definition iedModel_Device1_DSCH1_SchdAbsTm_time_125 : addr := 474%positive.
Definition iedModel_Device1_DSCH1_SchdAbsTm_time_126 : addr := 475%positive.
Definition iedModel_Device1_DSCH1_SchdAbsTm_time_127 : addr := 476%positive.
Definition iedModel_Device1_DSCH1_SchdAbsTm_time_128 : addr := 477%positive.
Definition iedModel_Device1_DSCH1_SchdAbsTm_time_129 : addr := 478%positive.
Definition iedModel_Device1_DSCH1_SchdAbsTm_time_130 : addr := 479%positive.
Definition iedModel_Device1_DSCH1_SchdAbsTm_time_131 : addr := 480%positive.
Definition iedModel_Device1_DSCH1_SchdAbsTm_time_132 : addr := 481%positive.
Definition iedModel_Device1_DSCH1_SchdAbsTm_time_133 : addr := 482%positive.
Definition iedModel_Device1_DSCH1_SchdAbsTm_time_134 : addr := 483%positive.
Definition iedModel_Device1_DSCH1_SchdAbsTm_time_135 : addr := 484%positive.
Definition iedModel_Device1_DSCH1_SchdAbsTm_time_136 : addr := 485%positive.
Definition iedModel_Device1_DSCH1_SchdAbsTm_time_137 : addr := 486%positive.
Definition iedModel_Device1_DSCH1_SchdAbsTm_time_138 : addr := 487%positive.
Definition iedModel_Device1_DSCH1_SchdAbsTm_time_139 : addr := 488%positive.
Definition iedModel_Device1_DSCH1_SchdAbsTm_time_140 : addr := 489%positive.
Definition iedModel_Device1_DSCH1_SchdAbsTm_time_141 : addr := 490%positive.
Definition iedModel_Device1_DSCH1_SchdAbsTm_time_142 : addr := 491%positive.
Definition iedModel_Device1_DSCH1_SchdAbsTm_time_143 : addr := 492%positive.
Definition iedModel_Device1_DSCH1_SchdAbsTm_time_144 : addr := 493%positive.
Definition iedModel_Device1_DSCH1_SchdAbsTm_time_145 : addr := 494%positive.
Definition iedModel_Device1_DSCH1_SchdAbsTm_time_146 : addr := 495%positive.
Definition iedModel_Device1_DSCH1_SchdAbsTm_time_147 : addr := 496%positive.
Definition iedModel_Device1_DSCH1_SchdAbsTm_time_148 : addr := 497%positive.
Definition iedModel_Device1_DSCH1_SchdAbsTm_time_149 : addr := 498%positive.
Definition iedModel_Device1_DSCH1_SchdAbsTm_time_150 : addr := 499%positive.
Definition iedModel_Device1_DSCH1_SchdAbsTm_time_151 : addr := 500%positive.
Definition iedModel_Device1_DSCH1_SchdAbsTm_time_152 : addr := 501%positive.
Definition iedModel_Device1_DSCH1_SchdAbsTm_time_153 : addr := 502%positive.
Definition iedModel_Device1_DSCH1_SchdAbsTm_time_154 : addr := 503%positive.
Definition iedModel_Device1_DSCH1_SchdAbsTm_time_155 : addr := 504%positive.
Definition iedModel_Device1_DSCH1_SchdAbsTm_time_156 : addr := 505%positive.
Definition iedModel_Device1_DSCH1_SchdAbsTm_time_157 : addr := 506%positive.
Definition iedModel_Device1_DSCH1_SchdAbsTm_time_158 : addr := 507%positive.
Definition iedModel_Device1_DSCH1_SchdAbsTm_time_159 : addr := 508%positive.
Definition iedModel_Device1_DSCH1_SchdAbsTm_time_160 : addr := 509%positive.
Definition iedModel_Device1_DSCH1_SchdAbsTm_time_161 : addr := 510%positive.
Definition iedModel_Device1_DSCH1_SchdAbsTm_time_162 : addr := 511%positive.
Definition iedModel_Device1_DSCH1_SchdAbsTm_time_163 : addr := 512%positive.
Definition iedModel_Device1_DSCH1_SchdAbsTm_time_164 : addr := 513%positive.
Definition iedModel_Device1_DSCH1_SchdAbsTm_time_165 : addr := 514%positive.
Definition iedModel_Device1_DSCH1_SchdAbsTm_time_166 : addr := 515%positive.
Definition iedModel_Device1_DSCH1_SchdAbsTm_time_167 : addr := 516%positive.
Definition iedModel_Device1_DSCH1_SchdAbsTm_time_168 : addr := 517%positive.
Definition iedModel_Device1_DSCH1_SchdAbsTm_time_169 : addr := 518%positive.
Definition iedModel_Device1_DSCH1_SchdAbsTm_time_170 : addr := 519%positive.
Definition iedModel_Device1_DSCH1_SchdAbsTm_time_171 : addr := 520%positive.
Definition iedModel_Device1_DSCH1_SchdAbsTm_time_172 : addr := 521%positive.
Definition iedModel_Device1_DSCH1_SchdAbsTm_time_173 : addr := 522%positive.
Definition iedModel_Device1_DSCH1_SchdAbsTm_time_174 : addr := 523%positive.
Definition iedModel_Device1_DSCH1_SchdAbsTm_time_175 : addr := 524%positive.
Definition iedModel_Device1_DSCH1_SchdAbsTm_time_176 : addr := 525%positive.
Definition iedModel_Device1_DSCH1_SchdAbsTm_time_177 : addr := 526%positive.
Definition iedModel_Device1_DSCH1_SchdAbsTm_time_178 : addr := 527%positive.
Definition iedModel_Device1_DSCH1_SchdAbsTm_time_179 : addr := 528%positive.
Definition iedModel_Device1_DSCH1_SchdAbsTm_time_180 : addr := 529%positive.
Definition iedModel_Device1_DSCH1_SchdAbsTm_time_181 : addr := 530%positive.
Definition iedModel_Device1_DSCH1_SchdAbsTm_time_182 : addr := 531%positive.
Definition iedModel_Device1_DSCH1_SchdAbsTm_time_183 : addr := 532%positive.
Definition iedModel_Device1_DSCH1_SchdAbsTm_time_184 : addr := 533%positive.
Definition iedModel_Device1_DSCH1_SchdAbsTm_time_185 : addr := 534%positive.
Definition iedModel_Device1_DSCH1_SchdAbsTm_time_186 : addr := 535%positive.
Definition iedModel_Device1_DSCH1_SchdAbsTm_time_187 : addr := 536%positive.
Definition iedModel_Device1_DSCH1_SchdAbsTm_time_188 : addr := 537%positive.
Definition iedModel_Device1_DSCH1_SchdAbsTm_time_189 : addr := 538%positive.
Definition iedModel_Device1_DSCH1_SchdAbsTm_time_190 : addr := 539%positive.
Definition iedModel_Device1_DSCH1_SchdAbsTm_time_191 : addr := 540%positive.
Definition iedModel_Device1_DSCH1_SchdAbsTm_time_192 : addr := 541%positive.
Definition iedModel_Device1_DSCH1_SchdAbsTm_time_193 : addr := 542%positive.
Definition iedModel_Device1_DSCH1_SchdAbsTm_time_194 : addr := 543%positive.
Definition iedModel_Device1_DSCH1_SchdAbsTm_time_195 : addr := 544%positive.
Definition iedModel_Device1_DSCH1_SchdAbsTm_time_196 : addr := 545%positive.
Definition iedModel_Device1_DSCH1_SchdAbsTm_time_197 : addr := 546%positive.
Definition iedModel_Device1_DSCH1_SchdAbsTm_time_198 : addr := 547%positive.
Definition iedModel_Device1_DSCH1_SchdAbsTm_time_199 : addr := 548%positive.
Definition iedModel_Device1_DSCH1_SchdAbsTm_time_200 : addr := 549%positive.
Definition iedModel_Device1_DSCH1_SchdAbsTm_time_201 : addr := 550%positive.
Definition iedModel_Device1_DSCH1_SchdAbsTm_time_202 : addr := 551%positive.
Definition iedModel_Device1_DSCH1_SchdAbsTm_time_203 : addr := 552%positive.
Definition iedModel_Device1_DSCH1_SchdAbsTm_time_204 : addr := 553%positive.
Definition iedModel_Device1_DSCH1_SchdAbsTm_time_205 : addr := 554%positive.
Definition iedModel_Device1_DSCH1_SchdAbsTm_time_206 : addr := 555%positive.
Definition iedModel_Device1_DSCH1_SchdAbsTm_time_207 : addr := 556%positive.
Definition iedModel_Device1_DSCH1_SchdAbsTm_time_208 : addr := 557%positive.
Definition iedModel_Device1_DSCH1_SchdAbsTm_time_209 : addr := 558%positive.
Definition iedModel_Device1_DSCH1_SchdAbsTm_time_210 : addr := 559%positive.
Definition iedModel_Device1_DSCH1_SchdAbsTm_time_211 : addr := 560%positive.
Definition iedModel_Device1_DSCH1_SchdAbsTm_time_212 : addr := 561%positive.
Definition iedModel_Device1_DSCH1_SchdAbsTm_time_213 : addr := 562%positive.
Definition iedModel_Device1_DSCH1_SchdAbsTm_time_214 : addr := 563%positive.
Definition iedModel_Device1_DSCH1_SchdAbsTm_time_215 : addr := 564%positive.
Definition iedModel_Device1_DSCH1_SchdAbsTm_time_216 : addr := 565%positive.
Definition iedModel_Device1_DSCH1_SchdAbsTm_time_217 : addr := 566%positive.
Definition iedModel_Device1_DSCH1_SchdAbsTm_time_218 : addr := 567%positive.
Definition iedModel_Device1_DSCH1_SchdAbsTm_time_219 : addr := 568%positive.
Definition iedModel_Device1_DSCH1_SchdAbsTm_time_220 : addr := 569%positive.
Definition iedModel_Device1_DSCH1_SchdAbsTm_time_221 : addr := 570%positive.
Definition iedModel_Device1_DSCH1_SchdAbsTm_time_222 : addr := 571%positive.
Definition iedModel_Device1_DSCH1_SchdAbsTm_time_223 : addr := 572%positive.
Definition iedModel_Device1_DSCH1_SchdAbsTm_time_224 : addr := 573%positive.
Definition iedModel_Device1_DSCH1_SchdAbsTm_time_225 : addr := 574%positive.
Definition iedModel_Device1_DSCH1_SchdAbsTm_time_226 : addr := 575%positive.
Definition iedModel_Device1_DSCH1_SchdAbsTm_time_227 : addr := 576%positive.
Definition iedModel_Device1_DSCH1_SchdAbsTm_time_228 : addr := 577%positive.
Definition iedModel_Device1_DSCH1_SchdAbsTm_time_229 : addr := 578%positive.
Definition iedModel_Device1_DSCH1_SchdAbsTm_time_230 : addr := 579%positive.
Definition iedModel_Device1_DSCH1_SchdAbsTm_time_231 : addr := 580%positive.
Definition iedModel_Device1_DSCH1_SchdAbsTm_time_232 : addr := 581%positive.
Definition iedModel_Device1_DSCH1_SchdAbsTm_time_233 : addr := 582%positive.
Definition iedModel_Device1_DSCH1_SchdAbsTm_time_234 : addr := 583%positive.
Definition iedModel_Device1_DSCH1_SchdAbsTm_time_235 : addr := 584%positive.
Definition iedModel_Device1_DSCH1_SchdAbsTm_time_236 : addr := 585%positive.
Definition iedModel_Device1_DSCH1_SchdAbsTm_time_237 : addr := 586%positive.
Definition iedModel_Device1_DSCH1_SchdAbsTm_time_238 : addr := 587%positive.
Definition iedModel_Device1_DSCH1_SchdAbsTm_time_239 : addr := 588%positive.
Definition iedModel_Device1_DSCH1_SchdAbsTm_time_240 : addr := 589%positive.
Definition iedModel_Device1_DSCH1_SchdAbsTm_time_241 : addr := 590%positive.
Definition iedModel_Device1_DSCH1_SchdAbsTm_time_242 : addr := 591%positive.
Definition iedModel_Device1_DSCH1_SchdAbsTm_time_243 : addr := 592%positive.
Definition iedModel_Device1_DSCH1_SchdAbsTm_time_244 : addr := 593%positive.
Definition iedModel_Device1_DSCH1_SchdAbsTm_time_245 : addr := 594%positive.
Definition iedModel_Device1_DSCH1_SchdAbsTm_time_246 : addr := 595%positive.
Definition iedModel_Device1_DSCH1_SchdAbsTm_time_247 : addr := 596%positive.
Definition iedModel_Device1_DSCH1_SchdAbsTm_time_248 : addr := 597%positive.
Definition iedModel_Device1_DSCH1_SchdAbsTm_time_249 : addr := 598%positive.
Definition iedModel_Device1_DSCH1_SchdAbsTm_time_250 : addr := 599%positive.
Definition iedModel_Device1_DSCH1_SchdAbsTm_time_251 : addr := 600%positive.
Definition iedModel_Device1_DSCH1_SchdAbsTm_time_252 : addr := 601%positive.
Definition iedModel_Device1_DSCH1_SchdAbsTm_time_253 : addr := 602%positive.
Definition iedModel_Device1_DSCH1_SchdAbsTm_time_254 : addr := 603%positive.
Definition iedModel_Device1_MMXU1 : addr := 604%positive.
Definition iedModel_Device1_MMXU1_Mod : addr := 605%positive.
Definition iedModel_Device1_MMXU1_Mod_q : addr := 606%positive.
Definition iedModel_Device1_MMXU1_Mod_t : addr := 607%positive.
Definition iedModel_Device1_MMXU1_Mod_ctlModel : addr := 608%positive.
Definition iedModel_Device1_MMXU1_Beh : addr := 609%positive.
Definition iedModel_Device1_MMXU1_Beh_stVal : addr := 610%positive.
Definition iedModel_Device1_MMXU1_Beh_q : addr := 611%positive.
Definition iedModel_Device1_MMXU1_Beh_t : addr := 612%positive.
Definition iedModel_Device1_MMXU1_Health : addr := 613%positive.
Definition iedModel_Device1_MMXU1_Health_stVal : addr := 614%positive.
Definition iedModel_Device1_MMXU1_Health_q : addr := 615%positive.
Definition iedModel_Device1_MMXU1_Health_t : addr := 616%positive.
Definition iedModel_Device1_MMXU1_NamPlt : addr := 617%positive.
Definition iedModel_Device1_MMXU1_NamPlt_vendor : addr := 618%positive.
Definition iedModel_Device1_MMXU1_NamPlt_swRev : addr := 619%positive.
Definition iedModel_Device1_MMXU1_NamPlt_d : addr := 620%positive.
Definition iedModel_Device1_MMXU2 : addr := 621%positive.
Definition iedModel_Device1_MMXU2_Mod : addr := 622%positive.
Definition iedModel_Device1_MMXU2_Mod_q : addr := 623%positive.
Definition iedModel_Device1_MMXU2_Mod_t : addr := 624%positive.
Definition iedModel_Device1_MMXU2_Mod_ctlModel : addr := 625%positive.
Definition iedModel_Device1_MMXU2_Beh : addr := 626%positive.
Definition iedModel_Device1_MMXU2_Beh_stVal : addr := 627%positive.
Definition iedModel_Device1_MMXU2_Beh_q : addr := 628%positive.
Definition iedModel_Device1_MMXU2_Beh_t : addr := 629%positive.
Definition iedModel_Device1_MMXU2_Health : addr := 630%positive.
Definition iedModel_Device1_MMXU2_Health_stVal : addr := 631%positive.
Definition iedModel_Device1_MMXU2_Health_q : addr := 632%positive.
Definition iedModel_Device1_MMXU2_Health_t : addr := 633%positive.
Definition iedModel_Device1_MMXU2_NamPlt : addr := 634%positive.
Definition iedModel_Device1_MMXU2_NamPlt_vendor : addr := 635%positive.
Definition iedModel_Device1_MMXU2_NamPlt_swRev : addr := 636%positive.
Definition iedModel_Device1_MMXU2_NamPlt_d : addr := 637%positive.
Definition iedModel_Device1_MMXU2_TotW : addr := 638%positive.
Definition iedModel_Device1_MMXU2_TotW_mag : addr := 639%positive.
Definition iedModel_Device1_MMXU2_TotW_mag_f : addr := 640%positive.
Definition iedModel_Device1_MMXU2_TotW_q : addr := 641%positive.
Definition iedModel_Device1_MMXU2_TotW_t : addr := 642%positive.
Definition iedModelds_Device1_LLN0_dataset1_fcda0 : addr := 643%positive.
Definition iedModelds_Device1_LLN0_dataset1_fcda1 : addr := 644%positive.
Definition iedModelds_Device1_LLN0_dataset1_fcda2 : addr := 645%positive.
Definition iedModelds_Device1_LLN0_dataset1 : addr := 646%positive.
Definition iedModel_Device1_LLN0_report0 : addr := 647%positive.

(** ** The tree of nodes *)

Definition Device1_device : list (addr * ModelNode) := [
  (iedModel_Device1,
   LogicalDevice "Device1" &iedModel NULL &iedModel_Device1_LLN0 NULL)
].

Definition Device1_LLN0_nodes1 : list (addr * ModelNode) := [
  (iedModel_Device1_LLN0,
   LogicalNode "LLN0" &iedModel_Device1 &iedModel_Device1_LPHD1 &iedModel_Device1_LLN0_Mod);
  (iedModel_Device1_LLN0_Mod,
   DataObject "Mod" &iedModel_Device1_LLN0 &iedModel_Device1_LLN0_Beh &iedModel_Device1_LLN0_Mod_q 0 (-1));
  (iedModel_Device1_LLN0_Mod_q,
   DataAttribute (Some "q") &iedModel_Device1_LLN0_Mod &iedModel_Device1_LLN0_Mod_t NULL 0 (-1) IEC61850_FC_ST IEC61850_QUALITY
     (0 + TRG_OPT_QUALITY_CHANGED) NULL 0);
  (iedModel_Device1_LLN0_Mod_t,
   DataAttribute (Some "t") &iedModel_Device1_LLN0_Mod &iedModel_Device1_LLN0_Mod_ctlModel NULL 0 (-1) IEC61850_FC_ST IEC61850_TIMESTAMP
     0 NULL 0);
  (iedModel_Device1_LLN0_Mod_ctlModel,
   DataAttribute (Some "ctlModel") &iedModel_Device1_LLN0_Mod NULL NULL 0 (-1) IEC61850_FC_CF IEC61850_ENUMERATED
     0 NULL 0);
  (iedModel_Device1_LLN0_Beh,
   DataObject "Beh" &iedModel_Device1_LLN0 &iedModel_Device1_LLN0_Health &iedModel_Device1_LLN0_Beh_stVal 0 (-1));
  (iedModel_Device1_LLN0_Beh_stVal,
   DataAttribute (Some "stVal") &iedModel_Device1_LLN0_Beh &iedModel_Device1_LLN0_Beh_q NULL 0 (-1) IEC61850_FC_ST IEC61850_INT32
     (0 + TRG_OPT_DATA_CHANGED) NULL 0);
  (iedModel_Device1_LLN0_Beh_q,
   DataAttribute (Some "q") &iedModel_Device1_LLN0_Beh &iedModel_Device1_LLN0_Beh_t NULL 0 (-1) IEC61850_FC_ST IEC61850_QUALITY
     (0 + TRG_OPT_QUALITY_CHANGED) NULL 0);
  (iedModel_Device1_LLN0_Beh_t,
   DataAttribute (Some "t") &iedModel_Device1_LLN0_Beh NULL NULL 0 (-1) IEC61850_FC_ST IEC61850_TIMESTAMP
     0 NULL 0)
].

Definition Device1_LLN0_nodes2 : list (addr * ModelNode) := [
  (iedModel_Device1_LLN0_Health,
   DataObject "Health" &iedModel_Device1_LLN0 &iedModel_Device1_LLN0_NamPlt &iedModel_Device1_LLN0_Health_stVal 0 (-1));
  (iedModel_Device1_LLN0_Health_stVal,
   DataAttribute (Some "stVal") &iedModel_Device1_LLN0_Health &iedModel_Device1_LLN0_Health_q NULL 0 (-1) IEC61850_FC_ST IEC61850_INT32
     (0 + TRG_OPT_DATA_CHANGED) NULL 0);
  (iedModel_Device1_LLN0_Health_q,
   DataAttribute (Some "q") &iedModel_Device1_LLN0_Health &iedModel_Device1_LLN0_Health_t NULL 0 (-1) IEC61850_FC_ST IEC61850_QUALITY
     (0 + TRG_OPT_QUALITY_CHANGED) NULL 0);
  (iedModel_Device1_LLN0_Health_t,
   DataAttribute (Some "t") &iedModel_Device1_LLN0_Health NULL NULL 0 (-1) IEC61850_FC_ST IEC61850_TIMESTAMP
     0 NULL 0);
  (iedModel_Device1_LLN0_NamPlt,
   DataObject "NamPlt" &iedModel_Device1_LLN0 NULL &iedModel_Device1_LLN0_NamPlt_vendor 0 (-1));
  (iedModel_Device1_LLN0_NamPlt_vendor,
   DataAttribute (Some "vendor") &iedModel_Device1_LLN0_NamPlt &iedModel_Device1_LLN0_NamPlt_swRev NULL 0 (-1) IEC61850_FC_DC IEC61850_VISIBLE_STRING_255
     0 NULL 0);
  (iedModel_Device1_LLN0_NamPlt_swRev,
   DataAttribute (Some "swRev") &iedModel_Device1_LLN0_NamPlt &iedModel_Device1_LLN0_NamPlt_d NULL 0 (-1) IEC61850_FC_DC IEC61850_VISIBLE_STRING_255
     0 NULL 0);
  (iedModel_Device1_LLN0_NamPlt_d,
   DataAttribute (Some "d") &iedModel_Device1_LLN0_NamPlt &iedModel_Device1_LLN0_NamPlt_configRev NULL 0 (-1) IEC61850_FC_DC IEC61850_VISIBLE_STRING_255
     0 NULL 0);
  (iedModel_Device1_LLN0_NamPlt_configRev,
   DataAttribute (Some "configRev") &iedModel_Device1_LLN0_NamPlt &iedModel_Device1_LLN0_NamPlt_ldNs NULL 0 (-1) IEC61850_FC_DC IEC61850_VISIBLE_STRING_255
     0 NULL 0);
  (iedModel_Device1_LLN0_NamPlt_ldNs,
   DataAttribute (Some "ldNs") &iedModel_Device1_LLN0_NamPlt NULL NULL 0 (-1) IEC61850_FC_EX IEC61850_VISIBLE_STRING_255
     0 NULL 0)
].

Definition Device1_LPHD1_nodes1 : list (addr * ModelNode) := [
  (iedModel_Device1_LPHD1,
   LogicalNode "LPHD1" &iedModel_Device1 &iedModel_Device1_DGEN1 &iedModel_Device1_LPHD1_PhyNam);
  (iedModel_Device1_LPHD1_PhyNam,
   DataObject "PhyNam" &iedModel_Device1_LPHD1 &iedModel_Device1_LPHD1_PhyHealth &iedModel_Device1_LPHD1_PhyNam_vendor 0 (-1));
  (iedModel_Device1_LPHD1_PhyNam_vendor,
   DataAttribute (Some "vendor") &iedModel_Device1_LPHD1_PhyNam NULL NULL 0 (-1) IEC61850_FC_DC IEC61850_VISIBLE_STRING_255
     0 NULL 0);
  (iedModel_Device1_LPHD1_PhyHealth,
   DataObject "PhyHealth" &iedModel_Device1_LPHD1 &iedModel_Device1_LPHD1_Proxy &iedModel_Device1_LPHD1_PhyHealth_stVal 0 (-1));
  (iedModel_Device1_LPHD1_PhyHealth_stVal,
   DataAttribute (Some "stVal") &iedModel_Device1_LPHD1_PhyHealth &iedModel_Device1_LPHD1_PhyHealth_q NULL 0 (-1) IEC61850_FC_ST IEC61850_INT32
     (0 + TRG_OPT_DATA_CHANGED) NULL 0);
  (iedModel_Device1_LPHD1_PhyHealth_q,
   DataAttribute (Some "q") &iedModel_Device1_LPHD1_PhyHealth &iedModel_Device1_LPHD1_PhyHealth_t NULL 0 (-1) IEC61850_FC_ST IEC61850_QUALITY
     (0 + TRG_OPT_QUALITY_CHANGED) NULL 0);
  (iedModel_Device1_LPHD1_PhyHealth_t,
   DataAttribute (Some "t") &iedModel_Device1_LPHD1_PhyHealth NULL NULL 0 (-1) IEC61850_FC_ST IEC61850_TIMESTAMP
     0 NULL 0);
  (iedModel_Device1_LPHD1_Proxy,
   DataObject "Proxy" &iedModel_Device1_LPHD1 NULL &iedModel_Device1_LPHD1_Proxy_stVal 0 (-1));
  (iedModel_Device1_LPHD1_Proxy_stVal,
   DataAttribute (Some "stVal") &iedModel_Device1_LPHD1_Proxy &iedModel_Device1_LPHD1_Proxy_q NULL 0 (-1) IEC61850_FC_ST IEC61850_BOOLEAN
     (0 + TRG_OPT_DATA_CHANGED) NULL 0);
  (iedModel_Device1_LPHD1_Proxy_q,
   DataAttribute (Some "q") &iedModel_Device1_LPHD1_Proxy &iedModel_Device1_LPHD1_Proxy_t NULL 0 (-1) IEC61850_FC_ST IEC61850_QUALITY
     (0 + TRG_OPT_QUALITY_CHANGED) NULL 0);
  (iedModel_Device1_LPHD1_Proxy_t,
   DataAttribute (Some "t") &iedModel_Device1_LPHD1_Proxy NULL NULL 0 (-1) IEC61850_FC_ST IEC61850_TIMESTAMP
     0 NULL 0)
].

Definition Device1_DGEN1_nodes1 : list (addr * ModelNode) := [
  (iedModel_Device1_DGEN1,
   LogicalNode "DGEN1" &iedModel_Device1 &iedModel_Device1_DSCH1 &iedModel_Device1_DGEN1_Mod);
  (iedModel_Device1_DGEN1_Mod,
   DataObject "Mod" &iedModel_Device1_DGEN1 &iedModel_Device1_DGEN1_Beh &iedModel_Device1_DGEN1_Mod_q 0 (-1));
  (iedModel_Device1_DGEN1_Mod_q,
   DataAttribute (Some "q") &iedModel_Device1_DGEN1_Mod &iedModel_Device1_DGEN1_Mod_t NULL 0 (-1) IEC61850_FC_ST IEC61850_QUALITY
     (0 + TRG_OPT_QUALITY_CHANGED) NULL 0);
  (iedModel_Device1_DGEN1_Mod_t,
   DataAttribute (Some "t") &iedModel_Device1_DGEN1_Mod &iedModel_Device1_DGEN1_Mod_ctlModel NULL 0 (-1) IEC61850_FC_ST IEC61850_TIMESTAMP
     0 NULL 0);
  (iedModel_Device1_DGEN1_Mod_ctlModel,
   DataAttribute (Some "ctlModel") &iedModel_Device1_DGEN1_Mod NULL NULL 0 (-1) IEC61850_FC_CF IEC61850_ENUMERATED
     0 NULL 0);
  (iedModel_Device1_DGEN1_Beh,
   DataObject "Beh" &iedModel_Device1_DGEN1 &iedModel_Device1_DGEN1_Health &iedModel_Device1_DGEN1_Beh_stVal 0 (-1));
  (iedModel_Device1_DGEN1_Beh_stVal,
   DataAttribute (Some "stVal") &iedModel_Device1_DGEN1_Beh &iedModel_Device1_DGEN1_Beh_q NULL 0 (-1) IEC61850_FC_ST IEC61850_INT32
     (0 + TRG_OPT_DATA_CHANGED) NULL 0);
  (iedModel_Device1_DGEN1_Beh_q,
   DataAttribute (Some "q") &iedModel_Device1_DGEN1_Beh &iedModel_Device1_DGEN1_Beh_t NULL 0 (-1) IEC61850_FC_ST IEC61850_QUALITY
     (0 + TRG_OPT_QUALITY_CHANGED) NULL 0);
  (iedModel_Device1_DGEN1_Beh_t,
   DataAttribute (Some "t") &iedModel_Device1_DGEN1_Beh NULL NULL 0 (-1) IEC61850_FC_ST IEC61850_TIMESTAMP
     0 NULL 0)
].

Definition Device1_DGEN1_nodes2 : list (addr * ModelNode) := [
  (iedModel_Device1_DGEN1_Health,
   DataObject "Health" &iedModel_Device1_DGEN1 &iedModel_Device1_DGEN1_NamPlt &iedModel_Device1_DGEN1_Health_stVal 0 (-1));
  (iedModel_Device1_DGEN1_Health_stVal,
   DataAttribute (Some "stVal") &iedModel_Device1_DGEN1_Health &iedModel_Device1_DGEN1_Health_q NULL 0 (-1) IEC61850_FC_ST IEC61850_INT32
     (0 + TRG_OPT_DATA_CHANGED) NULL 0);
  (iedModel_Device1_DGEN1_Health_q,
   DataAttribute (Some "q") &iedModel_Device1_DGEN1_Health &iedModel_Device1_DGEN1_Health_t NULL 0 (-1) IEC61850_FC_ST IEC61850_QUALITY
     (0 + TRG_OPT_QUALITY_CHANGED) NULL 0);
  (iedModel_Device1_DGEN1_Health_t,
   DataAttribute (Some "t") &iedModel_Device1_DGEN1_Health NULL NULL 0 (-1) IEC61850_FC_ST IEC61850_TIMESTAMP
     0 NULL 0);
  (iedModel_Device1_DGEN1_NamPlt,
   DataObject "NamPlt" &iedModel_Device1_DGEN1 &iedModel_Device1_DGEN1_OpTmh &iedModel_Device1_DGEN1_NamPlt_vendor 0 (-1));
  (iedModel_Device1_DGEN1_NamPlt_vendor,
   DataAttribute (Some "vendor") &iedModel_Device1_DGEN1_NamPlt &iedModel_Device1_DGEN1_NamPlt_swRev NULL 0 (-1) IEC61850_FC_DC IEC61850_VISIBLE_STRING_255
     0 NULL 0);
  (iedModel_Device1_DGEN1_NamPlt_swRev,
   DataAttribute (Some "swRev") &iedModel_Device1_DGEN1_NamPlt &iedModel_Device1_DGEN1_NamPlt_d NULL 0 (-1) IEC61850_FC_DC IEC61850_VISIBLE_STRING_255
     0 NULL 0);
  (iedModel_Device1_DGEN1_NamPlt_d,
   DataAttribute (Some "d") &iedModel_Device1_DGEN1_NamPlt NULL NULL 0 (-1) IEC61850_FC_DC IEC61850_VISIBLE_STRING_255
     0 NULL 0)
].

Definition Device1_DGEN1_nodes3 : list (addr * ModelNode) := [
  (iedModel_Device1_DGEN1_OpTmh,
   DataObject "OpTmh" &iedModel_Device1_DGEN1 &iedModel_Device1_DGEN1_GnOpSt &iedModel_Device1_DGEN1_OpTmh_stVal 0 (-1));
  (iedModel_Device1_DGEN1_OpTmh_stVal,
   DataAttribute (Some "stVal") &iedModel_Device1_DGEN1_OpTmh &iedModel_Device1_DGEN1_OpTmh_q NULL 0 (-1) IEC61850_FC_ST IEC61850_INT32
     (0 + TRG_OPT_DATA_CHANGED) NULL 0);
  (iedModel_Device1_DGEN1_OpTmh_q,
   DataAttribute (Some "q") &iedModel_Device1_DGEN1_OpTmh &iedModel_Device1_DGEN1_OpTmh_t NULL 0 (-1) IEC61850_FC_ST IEC61850_QUALITY
     (0 + TRG_OPT_QUALITY_CHANGED) NULL 0);
  (iedModel_Device1_DGEN1_OpTmh_t,
   DataAttribute (Some "t") &iedModel_Device1_DGEN1_OpTmh NULL NULL 0 (-1) IEC61850_FC_ST IEC61850_TIMESTAMP
     0 NULL 0);
  (iedModel_Device1_DGEN1_GnOpSt,
   DataObject "GnOpSt" &iedModel_Device1_DGEN1 &iedModel_Device1_DGEN1_OpTmsRs &iedModel_Device1_DGEN1_GnOpSt_stVal 0 (-1));
  (iedModel_Device1_DGEN1_GnOpSt_stVal,
   DataAttribute (Some "stVal") &iedModel_Device1_DGEN1_GnOpSt &iedModel_Device1_DGEN1_GnOpSt_q NULL 0 (-1) IEC61850_FC_ST IEC61850_INT32
     (0 + TRG_OPT_DATA_CHANGED) NULL 0);
  (iedModel_Device1_DGEN1_GnOpSt_q,
   DataAttribute (Some "q") &iedModel_Device1_DGEN1_GnOpSt &iedModel_Device1_DGEN1_GnOpSt_t NULL 0 (-1) IEC61850_FC_ST IEC61850_QUALITY
     (0 + TRG_OPT_QUALITY_CHANGED) NULL 0);
  (iedModel_Device1_DGEN1_GnOpSt_t,
   DataAttribute (Some "t") &iedModel_Device1_DGEN1_GnOpSt NULL NULL 0 (-1) IEC61850_FC_ST IEC61850_TIMESTAMP
     0 NULL 0)
].

Definition Device1_DGEN1_nodes4 : list (addr * ModelNode) := [
  (iedModel_Device1_DGEN1_OpTmsRs,
   DataObject "OpTmsRs" &iedModel_Device1_DGEN1 &iedModel_Device1_DGEN1_TotWh &iedModel_Device1_DGEN1_OpTmsRs_stVal 0 (-1));
  (iedModel_Device1_DGEN1_OpTmsRs_stVal,
   DataAttribute (Some "stVal") &iedModel_Device1_DGEN1_OpTmsRs &iedModel_Device1_DGEN1_OpTmsRs_q NULL 0 (-1) IEC61850_FC_ST IEC61850_INT32
     (0 + TRG_OPT_DATA_CHANGED) NULL 0);
  (iedModel_Device1_DGEN1_OpTmsRs_q,
   DataAttribute (Some "q") &iedModel_Device1_DGEN1_OpTmsRs &iedModel_Device1_DGEN1_OpTmsRs_t NULL 0 (-1) IEC61850_FC_ST IEC61850_QUALITY
     (0 + TRG_OPT_QUALITY_CHANGED) NULL 0);
  (iedModel_Device1_DGEN1_OpTmsRs_t,
   DataAttribute (Some "t") &iedModel_Device1_DGEN1_OpTmsRs NULL NULL 0 (-1) IEC61850_FC_ST IEC61850_TIMESTAMP
     0 NULL 0);
  (iedModel_Device1_DGEN1_TotWh,
   DataObject "TotWh" &iedModel_Device1_DGEN1 NULL &iedModel_Device1_DGEN1_TotWh_mag 0 (-1));
  (iedModel_Device1_DGEN1_TotWh_mag,
   DataAttribute (Some "mag") &iedModel_Device1_DGEN1_TotWh &iedModel_Device1_DGEN1_TotWh_q &iedModel_Device1_DGEN1_TotWh_mag_f 0 (-1) IEC61850_FC_MX IEC61850_CONSTRUCTED
     (0 + TRG_OPT_DATA_CHANGED) NULL 0);
  (iedModel_Device1_DGEN1_TotWh_mag_f,
   DataAttribute (Some "f") &iedModel_Device1_DGEN1_TotWh_mag NULL NULL 0 (-1) IEC61850_FC_MX IEC61850_FLOAT32
     (0 + TRG_OPT_DATA_CHANGED) NULL 0);
  (iedModel_Device1_DGEN1_TotWh_q,
   DataAttribute (Some "q") &iedModel_Device1_DGEN1_TotWh &iedModel_Device1_DGEN1_TotWh_t NULL 0 (-1) IEC61850_FC_MX IEC61850_QUALITY
     (0 + TRG_OPT_QUALITY_CHANGED) NULL 0);
  (iedModel_Device1_DGEN1_TotWh_t,
   DataAttribute (Some "t") &iedModel_Device1_DGEN1_TotWh NULL NULL 0 (-1) IEC61850_FC_MX IEC61850_TIMESTAMP
     0 NULL 0)
].

Definition Device1_DSCH1_nodes1 : list (addr * ModelNode) := [
  (iedModel_Device1_DSCH1,
   LogicalNode "DSCH1" &iedModel_Device1 &iedModel_Device1_MMXU1 &iedModel_Device1_DSCH1_Mod);
  (iedModel_Device1_DSCH1_Mod,
   DataObject "Mod" &iedModel_Device1_DSCH1 &iedModel_Device1_DSCH1_Beh &iedModel_Device1_DSCH1_Mod_q 0 (-1));
  (iedModel_Device1_DSCH1_Mod_q,
   DataAttribute (Some "q") &iedModel_Device1_DSCH1_Mod &iedModel_Device1_DSCH1_Mod_t NULL 0 (-1) IEC61850_FC_ST IEC61850_QUALITY
     (0 + TRG_OPT_QUALITY_CHANGED) NULL 0);
  (iedModel_Device1_DSCH1_Mod_t,
   DataAttribute (Some "t") &iedModel_Device1_DSCH1_Mod &iedModel_Device1_DSCH1_Mod_ctlModel NULL 0 (-1) IEC61850_FC_ST IEC61850_TIMESTAMP
     0 NULL 0);
  (iedModel_Device1_DSCH1_Mod_ctlModel,
   DataAttribute (Some "ctlModel") &iedModel_Device1_DSCH1_Mod NULL NULL 0 (-1) IEC61850_FC_CF IEC61850_ENUMERATED
     0 NULL 0);
  (iedModel_Device1_DSCH1_Beh,
   DataObject "Beh" &iedModel_Device1_DSCH1 &iedModel_Device1_DSCH1_Health &iedModel_Device1_DSCH1_Beh_stVal 0 (-1));
  (iedModel_Device1_DSCH1_Beh_stVal,
   DataAttribute (Some "stVal") &iedModel_Device1_DSCH1_Beh &iedModel_Device1_DSCH1_Beh_q NULL 0 (-1) IEC61850_FC_ST IEC61850_INT32
     (0 + TRG_OPT_DATA_CHANGED) NULL 0);
  (iedModel_Device1_DSCH1_Beh_q,
   DataAttribute (Some "q") &iedModel_Device1_DSCH1_Beh &iedModel_Device1_DSCH1_Beh_t NULL 0 (-1) IEC61850_FC_ST IEC61850_QUALITY
     (0 + TRG_OPT_QUALITY_CHANGED) NULL 0);
  (iedModel_Device1_DSCH1_Beh_t,
   DataAttribute (Some "t") &iedModel_Device1_DSCH1_Beh NULL NULL 0 (-1) IEC61850_FC_ST IEC61850_TIMESTAMP
     0 NULL 0)
].

Definition Device1_DSCH1_nodes2 : list (addr * ModelNode) := [
  (iedModel_Device1_DSCH1_Health,
   DataObject "Health" &iedModel_Device1_DSCH1 &iedModel_Device1_DSCH1_NamPlt &iedModel_Device1_DSCH1_Health_stVal 0 (-1));
  (iedModel_Device1_DSCH1_Health_stVal,
   DataAttribute (Some "stVal") &iedModel_Device1_DSCH1_Health &iedModel_Device1_DSCH1_Health_q NULL 0 (-1) IEC61850_FC_ST IEC61850_INT32
     (0 + TRG_OPT_DATA_CHANGED) NULL 0);
  (iedModel_Device1_DSCH1_Health_q,
   DataAttribute (Some "q") &iedModel_Device1_DSCH1_Health &iedModel_Device1_DSCH1_Health_t NULL 0 (-1) IEC61850_FC_ST IEC61850_QUALITY
     (0 + TRG_OPT_QUALITY_CHANGED) NULL 0);
  (iedModel_Device1_DSCH1_Health_t,
   DataAttribute (Some "t") &iedModel_Device1_DSCH1_Health NULL NULL 0 (-1) IEC61850_FC_ST IEC61850_TIMESTAMP
     0 NULL 0);
  (iedModel_Device1_DSCH1_NamPlt,
   DataObject "NamPlt" &iedModel_Device1_DSCH1 &iedModel_Device1_DSCH1_SchdSt &iedModel_Device1_DSCH1_NamPlt_vendor 0 (-1));
  (iedModel_Device1_DSCH1_NamPlt_vendor,
   DataAttribute (Some "vendor") &iedModel_Device1_DSCH1_NamPlt &iedModel_Device1_DSCH1_NamPlt_swRev NULL 0 (-1) IEC61850_FC_DC IEC61850_VISIBLE_STRING_255
     0 NULL 0);
  (iedModel_Device1_DSCH1_NamPlt_swRev,
   DataAttribute (Some "swRev") &iedModel_Device1_DSCH1_NamPlt &iedModel_Device1_DSCH1_NamPlt_d NULL 0 (-1) IEC61850_FC_DC IEC61850_VISIBLE_STRING_255
     0 NULL 0);
  (iedModel_Device1_DSCH1_NamPlt_d,
   DataAttribute (Some "d") &iedModel_Device1_DSCH1_NamPlt NULL NULL 0 (-1) IEC61850_FC_DC IEC61850_VISIBLE_STRING_255
     0 NULL 0)
].

Definition Device1_DSCH1_nodes3 : list (addr * ModelNode) := [
  (iedModel_Device1_DSCH1_SchdSt,
   DataObject "SchdSt" &iedModel_Device1_DSCH1 &iedModel_Device1_DSCH1_SchdId &iedModel_Device1_DSCH1_SchdSt_stVal 0 (-1));
  (iedModel_Device1_DSCH1_SchdSt_stVal,
   DataAttribute (Some "stVal") &iedModel_Device1_DSCH1_SchdSt &iedModel_Device1_DSCH1_SchdSt_q NULL 0 (-1) IEC61850_FC_ST IEC61850_INT32
     (0 + TRG_OPT_DATA_CHANGED) NULL 0);
  (iedModel_Device1_DSCH1_SchdSt_q,
   DataAttribute (Some "q") &iedModel_Device1_DSCH1_SchdSt &iedModel_Device1_DSCH1_SchdSt_t NULL 0 (-1) IEC61850_FC_ST IEC61850_QUALITY
     (0 + TRG_OPT_QUALITY_CHANGED) NULL 0);
  (iedModel_Device1_DSCH1_SchdSt_t,
   DataAttribute (Some "t") &iedModel_Device1_DSCH1_SchdSt NULL NULL 0 (-1) IEC61850_FC_ST IEC61850_TIMESTAMP
     0 NULL 0);
  (iedModel_Device1_DSCH1_SchdId,
   DataObject "SchdId" &iedModel_Device1_DSCH1 &iedModel_Device1_DSCH1_SchdCat NULL 0 (-1));
  (iedModel_Device1_DSCH1_SchdCat,
   DataObject "SchdCat" &iedModel_Device1_DSCH1 &iedModel_Device1_DSCH1_SchdTyp NULL 0 (-1));
  (iedModel_Device1_DSCH1_SchdTyp,
   DataObject "SchdTyp" &iedModel_Device1_DSCH1 &iedModel_Device1_DSCH1_SchdAbsTm NULL 0 (-1))
].

Definition Device1_DSCH1_nodes4 : list (addr * ModelNode) := [
  (iedModel_Device1_DSCH1_SchdAbsTm,
   DataObject "SchdAbsTm" &iedModel_Device1_DSCH1 NULL &iedModel_Device1_DSCH1_SchdAbsTm_val 0 (-1));
  (iedModel_Device1_DSCH1_SchdAbsTm_val,
   DataAttribute (Some "val") &iedModel_Device1_DSCH1_SchdAbsTm &iedModel_Device1_DSCH1_SchdAbsTm_time &iedModel_Device1_DSCH1_SchdAbsTm_val_0 255 (-1) IEC61850_FC_SP IEC61850_FLOAT32
     (0 + TRG_OPT_DATA_CHANGED) NULL 0);
  (iedModel_Device1_DSCH1_SchdAbsTm_val_0,
   DataAttribute NULL &iedModel_Device1_DSCH1_SchdAbsTm_val &iedModel_Device1_DSCH1_SchdAbsTm_val_1 NULL 0 0 IEC61850_FC_SP IEC61850_FLOAT32
     (0 + TRG_OPT_DATA_CHANGED) NULL 0);
  (iedModel_Device1_DSCH1_SchdAbsTm_val_1,
   DataAttribute NULL &iedModel_Device1_DSCH1_SchdAbsTm_val &iedModel_Device1_DSCH1_SchdAbsTm_val_2 NULL 0 1 IEC61850_FC_SP IEC61850_FLOAT32
     (0 + TRG_OPT_DATA_CHANGED) NULL 0);
  (iedModel_Device1_DSCH1_SchdAbsTm_val_2,
   DataAttribute NULL &iedModel_Device1_DSCH1_SchdAbsTm_val &iedModel_Device1_DSCH1_SchdAbsTm_val_3 NULL 0 2 IEC61850_FC_SP IEC61850_FLOAT32
     (0 + TRG_OPT_DATA_CHANGED) NULL 0);
  (iedModel_Device1_DSCH1_SchdAbsTm_val_3,
   DataAttribute NULL &iedModel_Device1_DSCH1_SchdAbsTm_val &iedModel_Device1_DSCH1_SchdAbsTm_val_4 NULL 0 3 IEC61850_FC_SP IEC61850_FLOAT32
     (0 + TRG_OPT_DATA_CHANGED) NULL 0);
  (iedModel_Device1_DSCH1_SchdAbsTm_val_4,
   DataAttribute NULL &iedModel_Device1_DSCH1_SchdAbsTm_val &iedModel_Device1_DSCH1_SchdAbsTm_val_5 NULL 0 4 IEC61850_FC_SP IEC61850_FLOAT32
     (0 + TRG_OPT_DATA_CHANGED) NULL 0);
  (iedModel_Device1_DSCH1_SchdAbsTm_val_5,
   DataAttribute NULL &iedModel_Device1_DSCH1_SchdAbsTm_val &iedModel_Device1_DSCH1_SchdAbsTm_val_6 NULL 0 5 IEC61850_FC_SP IEC61850_FLOAT32
     (0 + TRG_OPT_DATA_CHANGED) NULL 0);
  (iedModel_Device1_DSCH1_SchdAbsTm_val_6,
   DataAttribute NULL &iedModel_Device1_DSCH1_SchdAbsTm_val &iedModel_Device1_DSCH1_SchdAbsTm_val_7 NULL 0 6 IEC61850_FC_SP IEC61850_FLOAT32
     (0 + TRG_OPT_DATA_CHANGED) NULL 0);
  (iedModel_Device1_DSCH1_SchdAbsTm_val_7,
   DataAttribute NULL &iedModel_Device1_DSCH1_SchdAbsTm_val &iedModel_Device1_DSCH1_SchdAbsTm_val_8 NULL 0 7 IEC61850_FC_SP IEC61850_FLOAT32
     (0 + TRG_OPT_DATA_CHANGED) NULL 0);
  (iedModel_Device1_DSCH1_SchdAbsTm_val_8,
   DataAttribute NULL &iedModel_Device1_DSCH1_SchdAbsTm_val &iedModel_Device1_DSCH1_SchdAbsTm_val_9 NULL 0 8 IEC61850_FC_SP IEC61850_FLOAT32
     (0 + TRG_OPT_DATA_CHANGED) NULL 0)
].

Definition Device1_DSCH1_nodes5 : list (addr * ModelNode) := [
  (iedModel_Device1_DSCH1_SchdAbsTm_val_9,
   DataAttribute NULL &iedModel_Device1_DSCH1_SchdAbsTm_val &iedModel_Device1_DSCH1_SchdAbsTm_val_10 NULL 0 9 IEC61850_FC_SP IEC61850_FLOAT32
     (0 + TRG_OPT_DATA_CHANGED) NULL 0);
  (iedModel_Device1_DSCH1_SchdAbsTm_val_10,
   DataAttribute NULL &iedModel_Device1_DSCH1_SchdAbsTm_val &iedModel_Device1_DSCH1_SchdAbsTm_val_11 NULL 0 10 IEC61850_FC_SP IEC61850_FLOAT32
     (0 + TRG_OPT_DATA_CHANGED) NULL 0);
  (iedModel_Device1_DSCH1_SchdAbsTm_val_11,
   DataAttribute NULL &iedModel_Device1_DSCH1_SchdAbsTm_val &iedModel_Device1_DSCH1_SchdAbsTm_val_12 NULL 0 11 IEC61850_FC_SP IEC61850_FLOAT32
     (0 + TRG_OPT_DATA_CHANGED) NULL 0);
  (iedModel_Device1_DSCH1_SchdAbsTm_val_12,
   DataAttribute NULL &iedModel_Device1_DSCH1_SchdAbsTm_val &iedModel_Device1_DSCH1_SchdAbsTm_val_13 NULL 0 12 IEC61850_FC_SP IEC61850_FLOAT32
     (0 + TRG_OPT_DATA_CHANGED) NULL 0);
  (iedModel_Device1_DSCH1_SchdAbsTm_val_13,
   DataAttribute NULL &iedModel_Device1_DSCH1_SchdAbsTm_val &iedModel_Device1_DSCH1_SchdAbsTm_val_14 NULL 0 13 IEC61850_FC_SP IEC61850_FLOAT32
     (0 + TRG_OPT_DATA_CHANGED) NULL 0);
  (iedModel_Device1_DSCH1_SchdAbsTm_val_14,
   DataAttribute NULL &iedModel_Device1_DSCH1_SchdAbsTm_val &iedModel_Device1_DSCH1_SchdAbsTm_val_15 NULL 0 14 IEC61850_FC_SP IEC61850_FLOAT32
     (0 + TRG_OPT_DATA_CHANGED) NULL 0);
  (iedModel_Device1_DSCH1_SchdAbsTm_val_15,
   DataAttribute NULL &iedModel_Device1_DSCH1_SchdAbsTm_val &iedModel_Device1_DSCH1_SchdAbsTm_val_16 NULL 0 15 IEC61850_FC_SP IEC61850_FLOAT32
     (0 + TRG_OPT_DATA_CHANGED) NULL 0);
  (iedModel_Device1_DSCH1_SchdAbsTm_val_16,
   DataAttribute NULL &iedModel_Device1_DSCH1_SchdAbsTm_val &iedModel_Device1_DSCH1_SchdAbsTm_val_17 NULL 0 16 IEC61850_FC_SP IEC61850_FLOAT32
     (0 + TRG_OPT_DATA_CHANGED) NULL 0);
  (iedModel_Device1_DSCH1_SchdAbsTm_val_17,
   DataAttribute NULL &iedModel_Device1_DSCH1_SchdAbsTm_val &iedModel_Device1_DSCH1_SchdAbsTm_val_18 NULL 0 17 IEC61850_FC_SP IEC61850_FLOAT32
     (0 + TRG_OPT_DATA_CHANGED) NULL 0);
  (iedModel_Device1_DSCH1_SchdAbsTm_val_18,
   DataAttribute NULL &iedModel_Device1_DSCH1_SchdAbsTm_val &iedModel_Device1_DSCH1_SchdAbsTm_val_19 NULL 0 18 IEC61850_FC_SP IEC61850_FLOAT32
     (0 + TRG_OPT_DATA_CHANGED) NULL 0)
].

Definition Device1_DSCH1_nodes6 : list (addr * ModelNode) := [
  (iedModel_Device1_DSCH1_SchdAbsTm_val_19,
   DataAttribute NULL &iedModel_Device1_DSCH1_SchdAbsTm_val &iedModel_Device1_DSCH1_SchdAbsTm_val_20 NULL 0 19 IEC61850_FC_SP IEC61850_FLOAT32
     (0 + TRG_OPT_DATA_CHANGED) NULL 0);
  (iedModel_Device1_DSCH1_SchdAbsTm_val_20,
   DataAttribute NULL &iedModel_Device1_DSCH1_SchdAbsTm_val &iedModel_Device1_DSCH1_SchdAbsTm_val_21 NULL 0 20 IEC61850_FC_SP IEC61850_FLOAT32
     (0 + TRG_OPT_DATA_CHANGED) NULL 0);
  (iedModel_Device1_DSCH1_SchdAbsTm_val_21,
   DataAttribute NULL &iedModel_Device1_DSCH1_SchdAbsTm_val &iedModel_Device1_DSCH1_SchdAbsTm_val_22 NULL 0 21 IEC61850_FC_SP IEC61850_FLOAT32
     (0 + TRG_OPT_DATA_CHANGED) NULL 0);
  (iedModel_Device1_DSCH1_SchdAbsTm_val_22,
   DataAttribute NULL &iedModel_Device1_DSCH1_SchdAbsTm_val &iedModel_Device1_DSCH1_SchdAbsTm_val_23 NULL 0 22 IEC61850_FC_SP IEC61850_FLOAT32
     (0 + TRG_OPT_DATA_CHANGED) NULL 0);
  (iedModel_Device1_DSCH1_SchdAbsTm_val_23,
   DataAttribute NULL &iedModel_Device1_DSCH1_SchdAbsTm_val &iedModel_Device1_DSCH1_SchdAbsTm_val_24 NULL 0 23 IEC61850_FC_SP IEC61850_FLOAT32
     (0 + TRG_OPT_DATA_CHANGED) NULL 0);
  (iedModel_Device1_DSCH1_SchdAbsTm_val_24,
   DataAttribute NULL &iedModel_Device1_DSCH1_SchdAbsTm_val &iedModel_Device1_DSCH1_SchdAbsTm_val_25 NULL 0 24 IEC61850_FC_SP IEC61850_FLOAT32
     (0 + TRG_OPT_DATA_CHANGED) NULL 0);
  (iedModel_Device1_DSCH1_SchdAbsTm_val_25,
   DataAttribute NULL &iedModel_Device1_DSCH1_SchdAbsTm_val &iedModel_Device1_DSCH1_SchdAbsTm_val_26 NULL 0 25 IEC61850_FC_SP IEC61850_FLOAT32
     (0 + TRG_OPT_DATA_CHANGED) NULL 0);
  (iedModel_Device1_DSCH1_SchdAbsTm_val_26,
   DataAttribute NULL &iedModel_Device1_DSCH1_SchdAbsTm_val &iedModel_Device1_DSCH1_SchdAbsTm_val_27 NULL 0 26 IEC61850_FC_SP IEC61850_FLOAT32
     (0 + TRG_OPT_DATA_CHANGED) NULL 0);
  (iedModel_Device1_DSCH1_SchdAbsTm_val_27,
   DataAttribute NULL &iedModel_Device1_DSCH1_SchdAbsTm_val &iedModel_Device1_DSCH1_SchdAbsTm_val_28 NULL 0 27 IEC61850_FC_SP IEC61850_FLOAT32
     (0 + TRG_OPT_DATA_CHANGED) NULL 0);
  (iedModel_Device1_DSCH1_SchdAbsTm_val_28,
   DataAttribute NULL &iedModel_Device1_DSCH1_SchdAbsTm_val &iedModel_Device1_DSCH1_SchdAbsTm_val_29 NULL 0 28 IEC61850_FC_SP IEC61850_FLOAT32
     (0 + TRG_OPT_DATA_CHANGED) NULL 0)
].

Definition Device1_DSCH1_nodes7 : list (addr * ModelNode) := [
  (iedModel_Device1_DSCH1_SchdAbsTm_val_29,
   DataAttribute NULL &iedModel_Device1_DSCH1_SchdAbsTm_val &iedModel_Device1_DSCH1_SchdAbsTm_val_30 NULL 0 29 IEC61850_FC_SP IEC61850_FLOAT32
     (0 + TRG_OPT_DATA_CHANGED) NULL 0);
  (iedModel_Device1_DSCH1_SchdAbsTm_val_30,
   DataAttribute NULL &iedModel_Device1_DSCH1_SchdAbsTm_val &iedModel_Device1_DSCH1_SchdAbsTm_val_31 NULL 0 30 IEC61850_FC_SP IEC61850_FLOAT32
     (0 + TRG_OPT_DATA_CHANGED) NULL 0);
  (iedModel_Device1_DSCH1_SchdAbsTm_val_31,
   DataAttribute NULL &iedModel_Device1_DSCH1_SchdAbsTm_val &iedModel_Device1_DSCH1_SchdAbsTm_val_32 NULL 0 31 IEC61850_FC_SP IEC61850_FLOAT32
     (0 + TRG_OPT_DATA_CHANGED) NULL 0);
  (iedModel_Device1_DSCH1_SchdAbsTm_val_32,
   DataAttribute NULL &iedModel_Device1_DSCH1_SchdAbsTm_val &iedModel_Device1_DSCH1_SchdAbsTm_val_33 NULL 0 32 IEC61850_FC_SP IEC61850_FLOAT32
     (0 + TRG_OPT_DATA_CHANGED) NULL 0);
  (iedModel_Device1_DSCH1_SchdAbsTm_val_33,
   DataAttribute NULL &iedModel_Device1_DSCH1_SchdAbsTm_val &iedModel_Device1_DSCH1_SchdAbsTm_val_34 NULL 0 33 IEC61850_FC_SP IEC61850_FLOAT32
     (0 + TRG_OPT_DATA_CHANGED) NULL 0);
  (iedModel_Device1_DSCH1_SchdAbsTm_val_34,
   DataAttribute NULL &iedModel_Device1_DSCH1_SchdAbsTm_val &iedModel_Device1_DSCH1_SchdAbsTm_val_35 NULL 0 34 IEC61850_FC_SP IEC61850_FLOAT32
     (0 + TRG_OPT_DATA_CHANGED) NULL 0);
  (iedModel_Device1_DSCH1_SchdAbsTm_val_35,
   DataAttribute NULL &iedModel_Device1_DSCH1_SchdAbsTm_val &iedModel_Device1_DSCH1_SchdAbsTm_val_36 NULL 0 35 IEC61850_FC_SP IEC61850_FLOAT32
     (0 + TRG_OPT_DATA_CHANGED) NULL 0);
  (iedModel_Device1_DSCH1_SchdAbsTm_val_36,
   DataAttribute NULL &iedModel_Device1_DSCH1_SchdAbsTm_val &iedModel_Device1_DSCH1_SchdAbsTm_val_37 NULL 0 36 IEC61850_FC_SP IEC61850_FLOAT32
     (0 + TRG_OPT_DATA_CHANGED) NULL 0);
  (iedModel_Device1_DSCH1_SchdAbsTm_val_37,
   DataAttribute NULL &iedModel_Device1_DSCH1_SchdAbsTm_val &iedModel_Device1_DSCH1_SchdAbsTm_val_38 NULL 0 37 IEC61850_FC_SP IEC61850_FLOAT32
     (0 + TRG_OPT_DATA_CHANGED) NULL 0);
  (iedModel_Device1_DSCH1_SchdAbsTm_val_38,
   DataAttribute NULL &iedModel_Device1_DSCH1_SchdAbsTm_val &iedModel_Device1_DSCH1_SchdAbsTm_val_39 NULL 0 38 IEC61850_FC_SP IEC61850_FLOAT32
     (0 + TRG_OPT_DATA_CHANGED) NULL 0)
].

Definition Device1_DSCH1_nodes8 : list (addr * ModelNode) := [
  (iedModel_Device1_DSCH1_SchdAbsTm_val_39,
   DataAttribute NULL &iedModel_Device1_DSCH1_SchdAbsTm_val &iedModel_Device1_DSCH1_SchdAbsTm_val_40 NULL 0 39 IEC61850_FC_SP IEC61850_FLOAT32
     (0 + TRG_OPT_DATA_CHANGED) NULL 0);
  (iedModel_Device1_DSCH1_SchdAbsTm_val_40,
   DataAttribute NULL &iedModel_Device1_DSCH1_SchdAbsTm_val &iedModel_Device1_DSCH1_SchdAbsTm_val_41 NULL 0 40 IEC61850_FC_SP IEC61850_FLOAT32
     (0 + TRG_OPT_DATA_CHANGED) NULL 0);
  (iedModel_Device1_DSCH1_SchdAbsTm_val_41,
   DataAttribute NULL &iedModel_Device1_DSCH1_SchdAbsTm_val &iedModel_Device1_DSCH1_SchdAbsTm_val_42 NULL 0 41 IEC61850_FC_SP IEC61850_FLOAT32
     (0 + TRG_OPT_DATA_CHANGED) NULL 0);
  (iedModel_Device1_DSCH1_SchdAbsTm_val_42,
   DataAttribute NULL &iedModel_Device1_DSCH1_SchdAbsTm_val &iedModel_Device1_DSCH1_SchdAbsTm_val_43 NULL 0 42 IEC61850_FC_SP IEC61850_FLOAT32
     (0 + TRG_OPT_DATA_CHANGED) NULL 0);
  (iedModel_Device1_DSCH1_SchdAbsTm_val_43,
   DataAttribute NULL &iedModel_Device1_DSCH1_SchdAbsTm_val &iedModel_Device1_DSCH1_SchdAbsTm_val_44 NULL 0 43 IEC61850_FC_SP IEC61850_FLOAT32
     (0 + TRG_OPT_DATA_CHANGED) NULL 0);
  (iedModel_Device1_DSCH1_SchdAbsTm_val_44,
   DataAttribute NULL &iedModel_Device1_DSCH1_SchdAbsTm_val &iedModel_Device1_DSCH1_SchdAbsTm_val_45 NULL 0 44 IEC61850_FC_SP IEC61850_FLOAT32
     (0 + TRG_OPT_DATA_CHANGED) NULL 0);
  (iedModel_Device1_DSCH1_SchdAbsTm_val_45,
   DataAttribute NULL &iedModel_Device1_DSCH1_SchdAbsTm_val &iedModel_Device1_DSCH1_SchdAbsTm_val_46 NULL 0 45 IEC61850_FC_SP IEC61850_FLOAT32
     (0 + TRG_OPT_DATA_CHANGED) NULL 0);
  (iedModel_Device1_DSCH1_SchdAbsTm_val_46,
   DataAttribute NULL &iedModel_Device1_DSCH1_SchdAbsTm_val &iedModel_Device1_DSCH1_SchdAbsTm_val_47 NULL 0 46 IEC61850_FC_SP IEC61850_FLOAT32
     (0 + TRG_OPT_DATA_CHANGED) NULL 0);
  (iedModel_Device1_DSCH1_SchdAbsTm_val_47,
   DataAttribute NULL &iedModel_Device1_DSCH1_SchdAbsTm_val &iedModel_Device1_DSCH1_SchdAbsTm_val_48 NULL 0 47 IEC61850_FC_SP IEC61850_FLOAT32
     (0 + TRG_OPT_DATA_CHANGED) NULL 0);
  (iedModel_Device1_DSCH1_SchdAbsTm_val_48,
   DataAttribute NULL &iedModel_Device1_DSCH1_SchdAbsTm_val &iedModel_Device1_DSCH1_SchdAbsTm_val_49 NULL 0 48 IEC61850_FC_SP IEC61850_FLOAT32
     (0 + TRG_OPT_DATA_CHANGED) NULL 0)
].

Definition Device1_DSCH1_nodes9 : list (addr * ModelNode) := [
  (iedModel_Device1_DSCH1_SchdAbsTm_val_49,
   DataAttribute NULL &iedModel_Device1_DSCH1_SchdAbsTm_val &iedModel_Device1_DSCH1_SchdAbsTm_val_50 NULL 0 49 IEC61850_FC_SP IEC61850_FLOAT32
     (0 + TRG_OPT_DATA_CHANGED) NULL 0);
  (iedModel_Device1_DSCH1_SchdAbsTm_val_50,
   DataAttribute NULL &iedModel_Device1_DSCH1_SchdAbsTm_val &iedModel_Device1_DSCH1_SchdAbsTm_val_51 NULL 0 50 IEC61850_FC_SP IEC61850_FLOAT32
     (0 + TRG_OPT_DATA_CHANGED) NULL 0);
  (iedModel_Device1_DSCH1_SchdAbsTm_val_51,
   DataAttribute NULL &iedModel_Device1_DSCH1_SchdAbsTm_val &iedModel_Device1_DSCH1_SchdAbsTm_val_52 NULL 0 51 IEC61850_FC_SP IEC61850_FLOAT32
     (0 + TRG_OPT_DATA_CHANGED) NULL 0);
  (iedModel_Device1_DSCH1_SchdAbsTm_val_52,
   DataAttribute NULL &iedModel_Device1_DSCH1_SchdAbsTm_val &iedModel_Device1_DSCH1_SchdAbsTm_val_53 NULL 0 52 IEC61850_FC_SP IEC61850_FLOAT32
     (0 + TRG_OPT_DATA_CHANGED) NULL 0);
  (iedModel_Device1_DSCH1_SchdAbsTm_val_53,
   DataAttribute NULL &iedModel_Device1_DSCH1_SchdAbsTm_val &iedModel_Device1_DSCH1_SchdAbsTm_val_54 NULL 0 53 IEC61850_FC_SP IEC61850_FLOAT32
     (0 + TRG_OPT_DATA_CHANGED) NULL 0);
  (iedModel_Device1_DSCH1_SchdAbsTm_val_54,
   DataAttribute NULL &iedModel_Device1_DSCH1_SchdAbsTm_val &iedModel_Device1_DSCH1_SchdAbsTm_val_55 NULL 0 54 IEC61850_FC_SP IEC61850_FLOAT32
     (0 + TRG_OPT_DATA_CHANGED) NULL 0);
  (iedModel_Device1_DSCH1_SchdAbsTm_val_55,
   DataAttribute NULL &iedModel_Device1_DSCH1_SchdAbsTm_val &iedModel_Device1_DSCH1_SchdAbsTm_val_56 NULL 0 55 IEC61850_FC_SP IEC61850_FLOAT32
     (0 + TRG_OPT_DATA_CHANGED) NULL 0);
  (iedModel_Device1_DSCH1_SchdAbsTm_val_56,
   DataAttribute NULL &iedModel_Device1_DSCH1_SchdAbsTm_val &iedModel_Device1_DSCH1_SchdAbsTm_val_57 NULL 0 56 IEC61850_FC_SP IEC61850_FLOAT32
     (0 + TRG_OPT_DATA_CHANGED) NULL 0);
  (iedModel_Device1_DSCH1_SchdAbsTm_val_57,
   DataAttribute NULL &iedModel_Device1_DSCH1_SchdAbsTm_val &iedModel_Device1_DSCH1_SchdAbsTm_val_58 NULL 0 57 IEC61850_FC_SP IEC61850_FLOAT32
     (0 + TRG_OPT_DATA_CHANGED) NULL 0);
  (iedModel_Device1_DSCH1_SchdAbsTm_val_58,
   DataAttribute NULL &iedModel_Device1_DSCH1_SchdAbsTm_val &iedModel_Device1_DSCH1_SchdAbsTm_val_59 NULL 0 58 IEC61850_FC_SP IEC61850_FLOAT32
     (0 + TRG_OPT_DATA_CHANGED) NULL 0)
].

Definition Device1_DSCH1_nodes10 : list (addr * ModelNode) := [
  (iedModel_Device1_DSCH1_SchdAbsTm_val_59,
   DataAttribute NULL &iedModel_Device1_DSCH1_SchdAbsTm_val &iedModel_Device1_DSCH1_SchdAbsTm_val_60 NULL 0 59 IEC61850_FC_SP IEC61850_FLOAT32
     (0 + TRG_OPT_DATA_CHANGED) NULL 0);
  (iedModel_Device1_DSCH1_SchdAbsTm_val_60,
   DataAttribute NULL &iedModel_Device1_DSCH1_SchdAbsTm_val &iedModel_Device1_DSCH1_SchdAbsTm_val_61 NULL 0 60 IEC61850_FC_SP IEC61850_FLOAT32
     (0 + TRG_OPT_DATA_CHANGED) NULL 0);
  (iedModel_Device1_DSCH1_SchdAbsTm_val_61,
   DataAttribute NULL &iedModel_Device1_DSCH1_SchdAbsTm_val &iedModel_Device1_DSCH1_SchdAbsTm_val_62 NULL 0 61 IEC61850_FC_SP IEC61850_FLOAT32
     (0 + TRG_OPT_DATA_CHANGED) NULL 0);
  (iedModel_Device1_DSCH1_SchdAbsTm_val_62,
   DataAttribute NULL &iedModel_Device1_DSCH1_SchdAbsTm_val &iedModel_Device1_DSCH1_SchdAbsTm_val_63 NULL 0 62 IEC61850_FC_SP IEC61850_FLOAT32
     (0 + TRG_OPT_DATA_CHANGED) NULL 0);
  (iedModel_Device1_DSCH1_SchdAbsTm_val_63,
   DataAttribute NULL &iedModel_Device1_DSCH1_SchdAbsTm_val &iedModel_Device1_DSCH1_SchdAbsTm_val_64 NULL 0 63 IEC61850_FC_SP IEC61850_FLOAT32
     (0 + TRG_OPT_DATA_CHANGED) NULL 0);
  (iedModel_Device1_DSCH1_SchdAbsTm_val_64,
   DataAttribute NULL &iedModel_Device1_DSCH1_SchdAbsTm_val &iedModel_Device1_DSCH1_SchdAbsTm_val_65 NULL 0 64 IEC61850_FC_SP IEC61850_FLOAT32
     (0 + TRG_OPT_DATA_CHANGED) NULL 0);
  (iedModel_Device1_DSCH1_SchdAbsTm_val_65,
   DataAttribute NULL &iedModel_Device1_DSCH1_SchdAbsTm_val &iedModel_Device1_DSCH1_SchdAbsTm_val_66 NULL 0 65 IEC61850_FC_SP IEC61850_FLOAT32
     (0 + TRG_OPT_DATA_CHANGED) NULL 0);
  (iedModel_Device1_DSCH1_SchdAbsTm_val_66,
   DataAttribute NULL &iedModel_Device1_DSCH1_SchdAbsTm_val &iedModel_Device1_DSCH1_SchdAbsTm_val_67 NULL 0 66 IEC61850_FC_SP IEC61850_FLOAT32
     (0 + TRG_OPT_DATA_CHANGED) NULL 0);
  (iedModel_Device1_DSCH1_SchdAbsTm_val_67,
   DataAttribute NULL &iedModel_Device1_DSCH1_SchdAbsTm_val &iedModel_Device1_DSCH1_SchdAbsTm_val_68 NULL 0 67 IEC61850_FC_SP IEC61850_FLOAT32
     (0 + TRG_OPT_DATA_CHANGED) NULL 0);
  (iedModel_Device1_DSCH1_SchdAbsTm_val_68,
   DataAttribute NULL &iedModel_Device1_DSCH1_SchdAbsTm_val &iedModel_Device1_DSCH1_SchdAbsTm_val_69 NULL 0 68 IEC61850_FC_SP IEC61850_FLOAT32
     (0 + TRG_OPT_DATA_CHANGED) NULL 0)
].

Definition Device1_DSCH1_nodes11 : list (addr * ModelNode) := [
  (iedModel_Device1_DSCH1_SchdAbsTm_val_69,
   DataAttribute NULL &iedModel_Device1_DSCH1_SchdAbsTm_val &iedModel_Device1_DSCH1_SchdAbsTm_val_70 NULL 0 69 IEC61850_FC_SP IEC61850_FLOAT32
     (0 + TRG_OPT_DATA_CHANGED) NULL 0);
  (iedModel_Device1_DSCH1_SchdAbsTm_val_70,
   DataAttribute NULL &iedModel_Device1_DSCH1_SchdAbsTm_val &iedModel_Device1_DSCH1_SchdAbsTm_val_71 NULL 0 70 IEC61850_FC_SP IEC61850_FLOAT32
     (0 + TRG_OPT_DATA_CHANGED) NULL 0);
  (iedModel_Device1_DSCH1_SchdAbsTm_val_71,
   DataAttribute NULL &iedModel_Device1_DSCH1_SchdAbsTm_val &iedModel_Device1_DSCH1_SchdAbsTm_val_72 NULL 0 71 IEC61850_FC_SP IEC61850_FLOAT32
     (0 + TRG_OPT_DATA_CHANGED) NULL 0);
  (iedModel_Device1_DSCH1_SchdAbsTm_val_72,
   DataAttribute NULL &iedModel_Device1_DSCH1_SchdAbsTm_val &iedModel_Device1_DSCH1_SchdAbsTm_val_73 NULL 0 72 IEC61850_FC_SP IEC61850_FLOAT32
     (0 + TRG_OPT_DATA_CHANGED) NULL 0);
  (iedModel_Device1_DSCH1_SchdAbsTm_val_73,
   DataAttribute NULL &iedModel_Device1_DSCH1_SchdAbsTm_val &iedModel_Device1_DSCH1_SchdAbsTm_val_74 NULL 0 73 IEC61850_FC_SP IEC61850_FLOAT32
     (0 + TRG_OPT_DATA_CHANGED) NULL 0);
  (iedModel_Device1_DSCH1_SchdAbsTm_val_74,
   DataAttribute NULL &iedModel_Device1_DSCH1_SchdAbsTm_val &iedModel_Device1_DSCH1_SchdAbsTm_val_75 NULL 0 74 IEC61850_FC_SP IEC61850_FLOAT32
     (0 + TRG_OPT_DATA_CHANGED) NULL 0);
  (iedModel_Device1_DSCH1_SchdAbsTm_val_75,
   DataAttribute NULL &iedModel_Device1_DSCH1_SchdAbsTm_val &iedModel_Device1_DSCH1_SchdAbsTm_val_76 NULL 0 75 IEC61850_FC_SP IEC61850_FLOAT32
     (0 + TRG_OPT_DATA_CHANGED) NULL 0);
  (iedModel_Device1_DSCH1_SchdAbsTm_val_76,
   DataAttribute NULL &iedModel_Device1_DSCH1_SchdAbsTm_val &iedModel_Device1_DSCH1_SchdAbsTm_val_77 NULL 0 76 IEC61850_FC_SP IEC61850_FLOAT32
     (0 + TRG_OPT_DATA_CHANGED) NULL 0);
  (iedModel_Device1_DSCH1_SchdAbsTm_val_77,
   DataAttribute NULL &iedModel_Device1_DSCH1_SchdAbsTm_val &iedModel_Device1_DSCH1_SchdAbsTm_val_78 NULL 0 77 IEC61850_FC_SP IEC61850_FLOAT32
     (0 + TRG_OPT_DATA_CHANGED) NULL 0);
  (iedModel_Device1_DSCH1_SchdAbsTm_val_78,
   DataAttribute NULL &iedModel_Device1_DSCH1_SchdAbsTm_val &iedModel_Device1_DSCH1_SchdAbsTm_val_79 NULL 0 78 IEC61850_FC_SP IEC61850_FLOAT32
     (0 + TRG_OPT_DATA_CHANGED) NULL 0)
].

Definition Device1_DSCH1_nodes12 : list (addr * ModelNode) := [
  (iedModel_Device1_DSCH1_SchdAbsTm_val_79,
   DataAttribute NULL &iedModel_Device1_DSCH1_SchdAbsTm_val &iedModel_Device1_DSCH1_SchdAbsTm_val_80 NULL 0 79 IEC61850_FC_SP IEC61850_FLOAT32
     (0 + TRG_OPT_DATA_CHANGED) NULL 0);
  (iedModel_Device1_DSCH1_SchdAbsTm_val_80,
   DataAttribute NULL &iedModel_Device1_DSCH1_SchdAbsTm_val &iedModel_Device1_DSCH1_SchdAbsTm_val_81 NULL 0 80 IEC61850_FC_SP IEC61850_FLOAT32
     (0 + TRG_OPT_DATA_CHANGED) NULL 0);
  (iedModel_Device1_DSCH1_SchdAbsTm_val_81,
   DataAttribute NULL &iedModel_Device1_DSCH1_SchdAbsTm_val &iedModel_Device1_DSCH1_SchdAbsTm_val_82 NULL 0 81 IEC61850_FC_SP IEC61850_FLOAT32
     (0 + TRG_OPT_DATA_CHANGED) NULL 0);
  (iedModel_Device1_DSCH1_SchdAbsTm_val_82,
   DataAttribute NULL &iedModel_Device1_DSCH1_SchdAbsTm_val &iedModel_Device1_DSCH1_SchdAbsTm_val_83 NULL 0 82 IEC61850_FC_SP IEC61850_FLOAT32
     (0 + TRG_OPT_DATA_CHANGED) NULL 0);
  (iedModel_Device1_DSCH1_SchdAbsTm_val_83,
   DataAttribute NULL &iedModel_Device1_DSCH1_SchdAbsTm_val &iedModel_Device1_DSCH1_SchdAbsTm_val_84 NULL 0 83 IEC61850_FC_SP IEC61850_FLOAT32
     (0 + TRG_OPT_DATA_CHANGED) NULL 0);
  (iedModel_Device1_DSCH1_SchdAbsTm_val_84,
   DataAttribute NULL &iedModel_Device1_DSCH1_SchdAbsTm_val &iedModel_Device1_DSCH1_SchdAbsTm_val_85 NULL 0 84 IEC61850_FC_SP IEC61850_FLOAT32
     (0 + TRG_OPT_DATA_CHANGED) NULL 0);
  (iedModel_Device1_DSCH1_SchdAbsTm_val_85,
   DataAttribute NULL &iedModel_Device1_DSCH1_SchdAbsTm_val &iedModel_Device1_DSCH1_SchdAbsTm_val_86 NULL 0 85 IEC61850_FC_SP IEC61850_FLOAT32
     (0 + TRG_OPT_DATA_CHANGED) NULL 0);
  (iedModel_Device1_DSCH1_SchdAbsTm_val_86,
   DataAttribute NULL &iedModel_Device1_DSCH1_SchdAbsTm_val &iedModel_Device1_DSCH1_SchdAbsTm_val_87 NULL 0 86 IEC61850_FC_SP IEC61850_FLOAT32
     (0 + TRG_OPT_DATA_CHANGED) NULL 0);
  (iedModel_Device1_DSCH1_SchdAbsTm_val_87,
   DataAttribute NULL &iedModel_Device1_DSCH1_SchdAbsTm_val &iedModel_Device1_DSCH1_SchdAbsTm_val_88 NULL 0 87 IEC61850_FC_SP IEC61850_FLOAT32
     (0 + TRG_OPT_DATA_CHANGED) NULL 0);
  (iedModel_Device1_DSCH1_SchdAbsTm_val_88,
   DataAttribute NULL &iedModel_Device1_DSCH1_SchdAbsTm_val &iedModel_Device1_DSCH1_SchdAbsTm_val_89 NULL 0 88 IEC61850_FC_SP IEC61850_FLOAT32
     (0 + TRG_OPT_DATA_CHANGED) NULL 0)
].

Definition Device1_DSCH1_nodes13 : list (addr * ModelNode) := [
  (iedModel_Device1_DSCH1_SchdAbsTm_val_89,
   DataAttribute NULL &iedModel_Device1_DSCH1_SchdAbsTm_val &iedModel_Device1_DSCH1_SchdAbsTm_val_90 NULL 0 89 IEC61850_FC_SP IEC61850_FLOAT32
     (0 + TRG_OPT_DATA_CHANGED) NULL 0);
  (iedModel_Device1_DSCH1_SchdAbsTm_val_90,
   DataAttribute NULL &iedModel_Device1_DSCH1_SchdAbsTm_val &iedModel_Device1_DSCH1_SchdAbsTm_val_91 NULL 0 90 IEC61850_FC_SP IEC61850_FLOAT32
     (0 + TRG_OPT_DATA_CHANGED) NULL 0);
  (iedModel_Device1_DSCH1_SchdAbsTm_val_91,
   DataAttribute NULL &iedModel_Device1_DSCH1_SchdAbsTm_val &iedModel_Device1_DSCH1_SchdAbsTm_val_92 NULL 0 91 IEC61850_FC_SP IEC61850_FLOAT32
     (0 + TRG_OPT_DATA_CHANGED) NULL 0);
  (iedModel_Device1_DSCH1_SchdAbsTm_val_92,
   DataAttribute NULL &iedModel_Device1_DSCH1_SchdAbsTm_val &iedModel_Device1_DSCH1_SchdAbsTm_val_93 NULL 0 92 IEC61850_FC_SP IEC61850_FLOAT32
     (0 + TRG_OPT_DATA_CHANGED) NULL 0);
  (iedModel_Device1_DSCH1_SchdAbsTm_val_93,
   DataAttribute NULL &iedModel_Device1_DSCH1_SchdAbsTm_val &iedModel_Device1_DSCH1_SchdAbsTm_val_94 NULL 0 93 IEC61850_FC_SP IEC61850_FLOAT32
     (0 + TRG_OPT_DATA_CHANGED) NULL 0);
  (iedModel_Device1_DSCH1_SchdAbsTm_val_94,
   DataAttribute NULL &iedModel_Device1_DSCH1_SchdAbsTm_val &iedModel_Device1_DSCH1_SchdAbsTm_val_95 NULL 0 94 IEC61850_FC_SP IEC61850_FLOAT32
     (0 + TRG_OPT_DATA_CHANGED) NULL 0);
  (iedModel_Device1_DSCH1_SchdAbsTm_val_95,
   DataAttribute NULL &iedModel_Device1_DSCH1_SchdAbsTm_val &iedModel_Device1_DSCH1_SchdAbsTm_val_96 NULL 0 95 IEC61850_FC_SP IEC61850_FLOAT32
     (0 + TRG_OPT_DATA_CHANGED) NULL 0);
  (iedModel_Device1_DSCH1_SchdAbsTm_val_96,
   DataAttribute NULL &iedModel_Device1_DSCH1_SchdAbsTm_val &iedModel_Device1_DSCH1_SchdAbsTm_val_97 NULL 0 96 IEC61850_FC_SP IEC61850_FLOAT32
     (0 + TRG_OPT_DATA_CHANGED) NULL 0);
  (iedModel_Device1_DSCH1_SchdAbsTm_val_97,
   DataAttribute NULL &iedModel_Device1_DSCH1_SchdAbsTm_val &iedModel_Device1_DSCH1_SchdAbsTm_val_98 NULL 0 97 IEC61850_FC_SP IEC61850_FLOAT32
     (0 + TRG_OPT_DATA_CHANGED) NULL 0);
  (iedModel_Device1_DSCH1_SchdAbsTm_val_98,
   DataAttribute NULL &iedModel_Device1_DSCH1_SchdAbsTm_val &iedModel_Device1_DSCH1_SchdAbsTm_val_99 NULL 0 98 IEC61850_FC_SP IEC61850_FLOAT32
     (0 + TRG_OPT_DATA_CHANGED) NULL 0)
].

Definition Device1_DSCH1_nodes14 : list (addr * ModelNode) := [
  (iedModel_Device1_DSCH1_SchdAbsTm_val_99,
   DataAttribute NULL &iedModel_Device1_DSCH1_SchdAbsTm_val &iedModel_Device1_DSCH1_SchdAbsTm_val_100 NULL 0 99 IEC61850_FC_SP IEC61850_FLOAT32
     (0 + TRG_OPT_DATA_CHANGED) NULL 0);
  (iedModel_Device1_DSCH1_SchdAbsTm_val_100,
   DataAttribute NULL &iedModel_Device1_DSCH1_SchdAbsTm_val &iedModel_Device1_DSCH1_SchdAbsTm_val_101 NULL 0 100 IEC61850_FC_SP IEC61850_FLOAT32
     (0 + TRG_OPT_DATA_CHANGED) NULL 0);
  (iedModel_Device1_DSCH1_SchdAbsTm_val_101,
   DataAttribute NULL &iedModel_Device1_DSCH1_SchdAbsTm_val &iedModel_Device1_DSCH1_SchdAbsTm_val_102 NULL 0 101 IEC61850_FC_SP IEC61850_FLOAT32
     (0 + TRG_OPT_DATA_CHANGED) NULL 0);
  (iedModel_Device1_DSCH1_SchdAbsTm_val_102,
   DataAttribute NULL &iedModel_Device1_DSCH1_SchdAbsTm_val &iedModel_Device1_DSCH1_SchdAbsTm_val_103 NULL 0 102 IEC61850_FC_SP IEC61850_FLOAT32
     (0 + TRG_OPT_DATA_CHANGED) NULL 0);
  (iedModel_Device1_DSCH1_SchdAbsTm_val_103,
   DataAttribute NULL &iedModel_Device1_DSCH1_SchdAbsTm_val &iedModel_Device1_DSCH1_SchdAbsTm_val_104 NULL 0 103 IEC61850_FC_SP IEC61850_FLOAT32
     (0 + TRG_OPT_DATA_CHANGED) NULL 0);
  (iedModel_Device1_DSCH1_SchdAbsTm_val_104,
   DataAttribute NULL &iedModel_Device1_DSCH1_SchdAbsTm_val &iedModel_Device1_DSCH1_SchdAbsTm_val_105 NULL 0 104 IEC61850_FC_SP IEC61850_FLOAT32
     (0 + TRG_OPT_DATA_CHANGED) NULL 0);
  (iedModel_Device1_DSCH1_SchdAbsTm_val_105,
   DataAttribute NULL &iedModel_Device1_DSCH1_SchdAbsTm_val &iedModel_Device1_DSCH1_SchdAbsTm_val_106 NULL 0 105 IEC61850_FC_SP IEC61850_FLOAT32
     (0 + TRG_OPT_DATA_CHANGED) NULL 0);
  (iedModel_Device1_DSCH1_SchdAbsTm_val_106,
   DataAttribute NULL &iedModel_Device1_DSCH1_SchdAbsTm_val &iedModel_Device1_DSCH1_SchdAbsTm_val_107 NULL 0 106 IEC61850_FC_SP IEC61850_FLOAT32
     (0 + TRG_OPT_DATA_CHANGED) NULL 0);
  (iedModel_Device1_DSCH1_SchdAbsTm_val_107,
   DataAttribute NULL &iedModel_Device1_DSCH1_SchdAbsTm_val &iedModel_Device1_DSCH1_SchdAbsTm_val_108 NULL 0 107 IEC61850_FC_SP IEC61850_FLOAT32
     (0 + TRG_OPT_DATA_CHANGED) NULL 0);
  (iedModel_Device1_DSCH1_SchdAbsTm_val_108,
   DataAttribute NULL &iedModel_Device1_DSCH1_SchdAbsTm_val &iedModel_Device1_DSCH1_SchdAbsTm_val_109 NULL 0 108 IEC61850_FC_SP IEC61850_FLOAT32
     (0 + TRG_OPT_DATA_CHANGED) NULL 0)
].

Definition Device1_DSCH1_nodes15 : list (addr * ModelNode) := [
  (iedModel_Device1_DSCH1_SchdAbsTm_val_109,
   DataAttribute NULL &iedModel_Device1_DSCH1_SchdAbsTm_val &iedModel_Device1_DSCH1_SchdAbsTm_val_110 NULL 0 109 IEC61850_FC_SP IEC61850_FLOAT32
     (0 + TRG_OPT_DATA_CHANGED) NULL 0);
  (iedModel_Device1_DSCH1_SchdAbsTm_val_110,
   DataAttribute NULL &iedModel_Device1_DSCH1_SchdAbsTm_val &iedModel_Device1_DSCH1_SchdAbsTm_val_111 NULL 0 110 IEC61850_FC_SP IEC61850_FLOAT32
     (0 + TRG_OPT_DATA_CHANGED) NULL 0);
  (iedModel_Device1_DSCH1_SchdAbsTm_val_111,
   DataAttribute NULL &iedModel_Device1_DSCH1_SchdAbsTm_val &iedModel_Device1_DSCH1_SchdAbsTm_val_112 NULL 0 111 IEC61850_FC_SP IEC61850_FLOAT32
     (0 + TRG_OPT_DATA_CHANGED) NULL 0);
  (iedModel_Device1_DSCH1_SchdAbsTm_val_112,
   DataAttribute NULL &iedModel_Device1_DSCH1_SchdAbsTm_val &iedModel_Device1_DSCH1_SchdAbsTm_val_113 NULL 0 112 IEC61850_FC_SP IEC61850_FLOAT32
     (0 + TRG_OPT_DATA_CHANGED) NULL 0);
  (iedModel_Device1_DSCH1_SchdAbsTm_val_113,
   DataAttribute NULL &iedModel_Device1_DSCH1_SchdAbsTm_val &iedModel_Device1_DSCH1_SchdAbsTm_val_114 NULL 0 113 IEC61850_FC_SP IEC61850_FLOAT32
     (0 + TRG_OPT_DATA_CHANGED) NULL 0);
  (iedModel_Device1_DSCH1_SchdAbsTm_val_114,
   DataAttribute NULL &iedModel_Device1_DSCH1_SchdAbsTm_val &iedModel_Device1_DSCH1_SchdAbsTm_val_115 NULL 0 114 IEC61850_FC_SP IEC61850_FLOAT32
     (0 + TRG_OPT_DATA_CHANGED) NULL 0);
  (iedModel_Device1_DSCH1_SchdAbsTm_val_115,
   DataAttribute NULL &iedModel_Device1_DSCH1_SchdAbsTm_val &iedModel_Device1_DSCH1_SchdAbsTm_val_116 NULL 0 115 IEC61850_FC_SP IEC61850_FLOAT32
     (0 + TRG_OPT_DATA_CHANGED) NULL 0);
  (iedModel_Device1_DSCH1_SchdAbsTm_val_116,
   DataAttribute NULL &iedModel_Device1_DSCH1_SchdAbsTm_val &iedModel_Device1_DSCH1_SchdAbsTm_val_117 NULL 0 116 IEC61850_FC_SP IEC61850_FLOAT32
     (0 + TRG_OPT_DATA_CHANGED) NULL 0);
  (iedModel_Device1_DSCH1_SchdAbsTm_val_117,
   DataAttribute NULL &iedModel_Device1_DSCH1_SchdAbsTm_val &iedModel_Device1_DSCH1_SchdAbsTm_val_118 NULL 0 117 IEC61850_FC_SP IEC61850_FLOAT32
     (0 + TRG_OPT_DATA_CHANGED) NULL 0);
  (iedModel_Device1_DSCH1_SchdAbsTm_val_118,
   DataAttribute NULL &iedModel_Device1_DSCH1_SchdAbsTm_val &iedModel_Device1_DSCH1_SchdAbsTm_val_119 NULL 0 118 IEC61850_FC_SP IEC61850_FLOAT32
     (0 + TRG_OPT_DATA_CHANGED) NULL 0)
].

Definition Device1_DSCH1_nodes16 : list (addr * ModelNode) := [
  (iedModel_Device1_DSCH1_SchdAbsTm_val_119,
   DataAttribute NULL &iedModel_Device1_DSCH1_SchdAbsTm_val &iedModel_Device1_DSCH1_SchdAbsTm_val_120 NULL 0 119 IEC61850_FC_SP IEC61850_FLOAT32
     (0 + TRG_OPT_DATA_CHANGED) NULL 0);
  (iedModel_Device1_DSCH1_SchdAbsTm_val_120,
   DataAttribute NULL &iedModel_Device1_DSCH1_SchdAbsTm_val &iedModel_Device1_DSCH1_SchdAbsTm_val_121 NULL 0 120 IEC61850_FC_SP IEC61850_FLOAT32
     (0 + TRG_OPT_DATA_CHANGED) NULL 0);
  (iedModel_Device1_DSCH1_SchdAbsTm_val_121,
   DataAttribute NULL &iedModel_Device1_DSCH1_SchdAbsTm_val &iedModel_Device1_DSCH1_SchdAbsTm_val_122 NULL 0 121 IEC61850_FC_SP IEC61850_FLOAT32
     (0 + TRG_OPT_DATA_CHANGED) NULL 0);
  (iedModel_Device1_DSCH1_SchdAbsTm_val_122,
   DataAttribute NULL &iedModel_Device1_DSCH1_SchdAbsTm_val &iedModel_Device1_DSCH1_SchdAbsTm_val_123 NULL 0 122 IEC61850_FC_SP IEC61850_FLOAT32
     (0 + TRG_OPT_DATA_CHANGED) NULL 0);
  (iedModel_Device1_DSCH1_SchdAbsTm_val_123,
   DataAttribute NULL &iedModel_Device1_DSCH1_SchdAbsTm_val &iedModel_Device1_DSCH1_SchdAbsTm_val_124 NULL 0 123 IEC61850_FC_SP IEC61850_FLOAT32
     (0 + TRG_OPT_DATA_CHANGED) NULL 0);
  (iedModel_Device1_DSCH1_SchdAbsTm_val_124,
   DataAttribute NULL &iedModel_Device1_DSCH1_SchdAbsTm_val &iedModel_Device1_DSCH1_SchdAbsTm_val_125 NULL 0 124 IEC61850_FC_SP IEC61850_FLOAT32
     (0 + TRG_OPT_DATA_CHANGED) NULL 0);
  (iedModel_Device1_DSCH1_SchdAbsTm_val_125,
   DataAttribute NULL &iedModel_Device1_DSCH1_SchdAbsTm_val &iedModel_Device1_DSCH1_SchdAbsTm_val_126 NULL 0 125 IEC61850_FC_SP IEC61850_FLOAT32
     (0 + TRG_OPT_DATA_CHANGED) NULL 0);
  (iedModel_Device1_DSCH1_SchdAbsTm_val_126,
   DataAttribute NULL &iedModel_Device1_DSCH1_SchdAbsTm_val &iedModel_Device1_DSCH1_SchdAbsTm_val_127 NULL 0 126 IEC61850_FC_SP IEC61850_FLOAT32
     (0 + TRG_OPT_DATA_CHANGED) NULL 0);
  (iedModel_Device1_DSCH1_SchdAbsTm_val_127,
   DataAttribute NULL &iedModel_Device1_DSCH1_SchdAbsTm_val &iedModel_Device1_DSCH1_SchdAbsTm_val_128 NULL 0 127 IEC61850_FC_SP IEC61850_FLOAT32
     (0 + TRG_OPT_DATA_CHANGED) NULL 0);
  (iedModel_Device1_DSCH1_SchdAbsTm_val_128,
   DataAttribute NULL &iedModel_Device1_DSCH1_SchdAbsTm_val &iedModel_Device1_DSCH1_SchdAbsTm_val_129 NULL 0 128 IEC61850_FC_SP IEC61850_FLOAT32
     (0 + TRG_OPT_DATA_CHANGED) NULL 0)
].

Definition Device1_DSCH1_nodes17 : list (addr * ModelNode) := [
  (iedModel_Device1_DSCH1_SchdAbsTm_val_129,
   DataAttribute NULL &iedModel_Device1_DSCH1_SchdAbsTm_val &iedModel_Device1_DSCH1_SchdAbsTm_val_130 NULL 0 129 IEC61850_FC_SP IEC61850_FLOAT32
     (0 + TRG_OPT_DATA_CHANGED) NULL 0);
  (iedModel_Device1_DSCH1_SchdAbsTm_val_130,
   DataAttribute NULL &iedModel_Device1_DSCH1_SchdAbsTm_val &iedModel_Device1_DSCH1_SchdAbsTm_val_131 NULL 0 130 IEC61850_FC_SP IEC61850_FLOAT32
     (0 + TRG_OPT_DATA_CHANGED) NULL 0);
  (iedModel_Device1_DSCH1_SchdAbsTm_val_131,
   DataAttribute NULL &iedModel_Device1_DSCH1_SchdAbsTm_val &iedModel_Device1_DSCH1_SchdAbsTm_val_132 NULL 0 131 IEC61850_FC_SP IEC61850_FLOAT32
     (0 + TRG_OPT_DATA_CHANGED) NULL 0);
  (iedModel_Device1_DSCH1_SchdAbsTm_val_132,
   DataAttribute NULL &iedModel_Device1_DSCH1_SchdAbsTm_val &iedModel_Device1_DSCH1_SchdAbsTm_val_133 NULL 0 132 IEC61850_FC_SP IEC61850_FLOAT32
     (0 + TRG_OPT_DATA_CHANGED) NULL 0);
  (iedModel_Device1_DSCH1_SchdAbsTm_val_133,
   DataAttribute NULL &iedModel_Device1_DSCH1_SchdAbsTm_val &iedModel_Device1_DSCH1_SchdAbsTm_val_134 NULL 0 133 IEC61850_FC_SP IEC61850_FLOAT32
     (0 + TRG_OPT_DATA_CHANGED) NULL 0);
  (iedModel_Device1_DSCH1_SchdAbsTm_val_134,
   DataAttribute NULL &iedModel_Device1_DSCH1_SchdAbsTm_val &iedModel_Device1_DSCH1_SchdAbsTm_val_135 NULL 0 134 IEC61850_FC_SP IEC61850_FLOAT32
     (0 + TRG_OPT_DATA_CHANGED) NULL 0);
  (iedModel_Device1_DSCH1_SchdAbsTm_val_135,
   DataAttribute NULL &iedModel_Device1_DSCH1_SchdAbsTm_val &iedModel_Device1_DSCH1_SchdAbsTm_val_136 NULL 0 135 IEC61850_FC_SP IEC61850_FLOAT32
     (0 + TRG_OPT_DATA_CHANGED) NULL 0);
  (iedModel_Device1_DSCH1_SchdAbsTm_val_136,
   DataAttribute NULL &iedModel_Device1_DSCH1_SchdAbsTm_val &iedModel_Device1_DSCH1_SchdAbsTm_val_137 NULL 0 136 IEC61850_FC_SP IEC61850_FLOAT32
     (0 + TRG_OPT_DATA_CHANGED) NULL 0);
  (iedModel_Device1_DSCH1_SchdAbsTm_val_137,
   DataAttribute NULL &iedModel_Device1_DSCH1_SchdAbsTm_val &iedModel_Device1_DSCH1_SchdAbsTm_val_138 NULL 0 137 IEC61850_FC_SP IEC61850_FLOAT32
     (0 + TRG_OPT_DATA_CHANGED) NULL 0);
  (iedModel_Device1_DSCH1_SchdAbsTm_val_138,
   DataAttribute NULL &iedModel_Device1_DSCH1_SchdAbsTm_val &iedModel_Device1_DSCH1_SchdAbsTm_val_139 NULL 0 138 IEC61850_FC_SP IEC61850_FLOAT32
     (0 + TRG_OPT_DATA_CHANGED) NULL 0)
].

Definition Device1_DSCH1_nodes18 : list (addr * ModelNode) := [
  (iedModel_Device1_DSCH1_SchdAbsTm_val_139,
   DataAttribute NULL &iedModel_Device1_DSCH1_SchdAbsTm_val &iedModel_Device1_DSCH1_SchdAbsTm_val_140 NULL 0 139 IEC61850_FC_SP IEC61850_FLOAT32
     (0 + TRG_OPT_DATA_CHANGED) NULL 0);
  (iedModel_Device1_DSCH1_SchdAbsTm_val_140,
   DataAttribute NULL &iedModel_Device1_DSCH1_SchdAbsTm_val &iedModel_Device1_DSCH1_SchdAbsTm_val_141 NULL 0 140 IEC61850_FC_SP IEC61850_FLOAT32
     (0 + TRG_OPT_DATA_CHANGED) NULL 0);
  (iedModel_Device1_DSCH1_SchdAbsTm_val_141,
   DataAttribute NULL &iedModel_Device1_DSCH1_SchdAbsTm_val &iedModel_Device1_DSCH1_SchdAbsTm_val_142 NULL 0 141 IEC61850_FC_SP IEC61850_FLOAT32
     (0 + TRG_OPT_DATA_CHANGED) NULL 0);
  (iedModel_Device1_DSCH1_SchdAbsTm_val_142,
   DataAttribute NULL &iedModel_Device1_DSCH1_SchdAbsTm_val &iedModel_Device1_DSCH1_SchdAbsTm_val_143 NULL 0 142 IEC61850_FC_SP IEC61850_FLOAT32
     (0 + TRG_OPT_DATA_CHANGED) NULL 0);
  (iedModel_Device1_DSCH1_SchdAbsTm_val_143,
   DataAttribute NULL &iedModel_Device1_DSCH1_SchdAbsTm_val &iedModel_Device1_DSCH1_SchdAbsTm_val_144 NULL 0 143 IEC61850_FC_SP IEC61850_FLOAT32
     (0 + TRG_OPT_DATA_CHANGED) NULL 0);
  (iedModel_Device1_DSCH1_SchdAbsTm_val_144,
   DataAttribute NULL &iedModel_Device1_DSCH1_SchdAbsTm_val &iedModel_Device1_DSCH1_SchdAbsTm_val_145 NULL 0 144 IEC61850_FC_SP IEC61850_FLOAT32
     (0 + TRG_OPT_DATA_CHANGED) NULL 0);
  (iedModel_Device1_DSCH1_SchdAbsTm_val_145,
   DataAttribute NULL &iedModel_Device1_DSCH1_SchdAbsTm_val &iedModel_Device1_DSCH1_SchdAbsTm_val_146 NULL 0 145 IEC61850_FC_SP IEC61850_FLOAT32
     (0 + TRG_OPT_DATA_CHANGED) NULL 0);
  (iedModel_Device1_DSCH1_SchdAbsTm_val_146,
   DataAttribute NULL &iedModel_Device1_DSCH1_SchdAbsTm_val &iedModel_Device1_DSCH1_SchdAbsTm_val_147 NULL 0 146 IEC61850_FC_SP IEC61850_FLOAT32
     (0 + TRG_OPT_DATA_CHANGED) NULL 0);
  (iedModel_Device1_DSCH1_SchdAbsTm_val_147,
   DataAttribute NULL &iedModel_Device1_DSCH1_SchdAbsTm_val &iedModel_Device1_DSCH1_SchdAbsTm_val_148 NULL 0 147 IEC61850_FC_SP IEC61850_FLOAT32
     (0 + TRG_OPT_DATA_CHANGED) NULL 0);
  (iedModel_Device1_DSCH1_SchdAbsTm_val_148,
   DataAttribute NULL &iedModel_Device1_DSCH1_SchdAbsTm_val &iedModel_Device1_DSCH1_SchdAbsTm_val_149 NULL 0 148 IEC61850_FC_SP IEC61850_FLOAT32
     (0 + TRG_OPT_DATA_CHANGED) NULL 0)
].

Definition Device1_DSCH1_nodes19 : list (addr * ModelNode) := [
  (iedModel_Device1_DSCH1_SchdAbsTm_val_149,
   DataAttribute NULL &iedModel_Device1_DSCH1_SchdAbsTm_val &iedModel_Device1_DSCH1_SchdAbsTm_val_150 NULL 0 149 IEC61850_FC_SP IEC61850_FLOAT32
     (0 + TRG_OPT_DATA_CHANGED) NULL 0);
  (iedModel_Device1_DSCH1_SchdAbsTm_val_150,
   DataAttribute NULL &iedModel_Device1_DSCH1_SchdAbsTm_val &iedModel_Device1_DSCH1_SchdAbsTm_val_151 NULL 0 150 IEC61850_FC_SP IEC61850_FLOAT32
     (0 + TRG_OPT_DATA_CHANGED) NULL 0);
  (iedModel_Device1_DSCH1_SchdAbsTm_val_151,
   DataAttribute NULL &iedModel_Device1_DSCH1_SchdAbsTm_val &iedModel_Device1_DSCH1_SchdAbsTm_val_152 NULL 0 151 IEC61850_FC_SP IEC61850_FLOAT32
     (0 + TRG_OPT_DATA_CHANGED) NULL 0);
  (iedModel_Device1_DSCH1_SchdAbsTm_val_152,
   DataAttribute NULL &iedModel_Device1_DSCH1_SchdAbsTm_val &iedModel_Device1_DSCH1_SchdAbsTm_val_153 NULL 0 152 IEC61850_FC_SP IEC61850_FLOAT32
     (0 + TRG_OPT_DATA_CHANGED) NULL 0);
  (iedModel_Device1_DSCH1_SchdAbsTm_val_153,
   DataAttribute NULL &iedModel_Device1_DSCH1_SchdAbsTm_val &iedModel_Device1_DSCH1_SchdAbsTm_val_154 NULL 0 153 IEC61850_FC_SP IEC61850_FLOAT32
     (0 + TRG_OPT_DATA_CHANGED) NULL 0);
  (iedModel_Device1_DSCH1_SchdAbsTm_val_154,
   DataAttribute NULL &iedModel_Device1_DSCH1_SchdAbsTm_val &iedModel_Device1_DSCH1_SchdAbsTm_val_155 NULL 0 154 IEC61850_FC_SP IEC61850_FLOAT32
     (0 + TRG_OPT_DATA_CHANGED) NULL 0);
  (iedModel_Device1_DSCH1_SchdAbsTm_val_155,
   DataAttribute NULL &iedModel_Device1_DSCH1_SchdAbsTm_val &iedModel_Device1_DSCH1_SchdAbsTm_val_156 NULL 0 155 IEC61850_FC_SP IEC61850_FLOAT32
     (0 + TRG_OPT_DATA_CHANGED) NULL 0);
  (iedModel_Device1_DSCH1_SchdAbsTm_val_156,
   DataAttribute NULL &iedModel_Device1_DSCH1_SchdAbsTm_val &iedModel_Device1_DSCH1_SchdAbsTm_val_157 NULL 0 156 IEC61850_FC_SP IEC61850_FLOAT32
     (0 + TRG_OPT_DATA_CHANGED) NULL 0);
  (iedModel_Device1_DSCH1_SchdAbsTm_val_157,
   DataAttribute NULL &iedModel_Device1_DSCH1_SchdAbsTm_val &iedModel_Device1_DSCH1_SchdAbsTm_val_158 NULL 0 157 IEC61850_FC_SP IEC61850_FLOAT32
     (0 + TRG_OPT_DATA_CHANGED) NULL 0);
  (iedModel_Device1_DSCH1_SchdAbsTm_val_158,
   DataAttribute NULL &iedModel_Device1_DSCH1_SchdAbsTm_val &iedModel_Device1_DSCH1_SchdAbsTm_val_159 NULL 0 158 IEC61850_FC_SP IEC61850_FLOAT32
     (0 + TRG_OPT_DATA_CHANGED) NULL 0)
].

Definition Device1_DSCH1_nodes20 : list (addr * ModelNode) := [
  (iedModel_Device1_DSCH1_SchdAbsTm_val_159,
   DataAttribute NULL &iedModel_Device1_DSCH1_SchdAbsTm_val &iedModel_Device1_DSCH1_SchdAbsTm_val_160 NULL 0 159 IEC61850_FC_SP IEC61850_FLOAT32
     (0 + TRG_OPT_DATA_CHANGED) NULL 0);
  (iedModel_Device1_DSCH1_SchdAbsTm_val_160,
   DataAttribute NULL &iedModel_Device1_DSCH1_SchdAbsTm_val &iedModel_Device1_DSCH1_SchdAbsTm_val_161 NULL 0 160 IEC61850_FC_SP IEC61850_FLOAT32
     (0 + TRG_OPT_DATA_CHANGED) NULL 0);
  (iedModel_Device1_DSCH1_SchdAbsTm_val_161,
   DataAttribute NULL &iedModel_Device1_DSCH1_SchdAbsTm_val &iedModel_Device1_DSCH1_SchdAbsTm_val_162 NULL 0 161 IEC61850_FC_SP IEC61850_FLOAT32
     (0 + TRG_OPT_DATA_CHANGED) NULL 0);
  (iedModel_Device1_DSCH1_SchdAbsTm_val_162,
   DataAttribute NULL &iedModel_Device1_DSCH1_SchdAbsTm_val &iedModel_Device1_DSCH1_SchdAbsTm_val_163 NULL 0 162 IEC61850_FC_SP IEC61850_FLOAT32
     (0 + TRG_OPT_DATA_CHANGED) NULL 0);
  (iedModel_Device1_DSCH1_SchdAbsTm_val_163,
   DataAttribute NULL &iedModel_Device1_DSCH1_SchdAbsTm_val &iedModel_Device1_DSCH1_SchdAbsTm_val_164 NULL 0 163 IEC61850_FC_SP IEC61850_FLOAT32
     (0 + TRG_OPT_DATA_CHANGED) NULL 0);
  (iedModel_Device1_DSCH1_SchdAbsTm_val_164,
   DataAttribute NULL &iedModel_Device1_DSCH1_SchdAbsTm_val &iedModel_Device1_DSCH1_SchdAbsTm_val_165 NULL 0 164 IEC61850_FC_SP IEC61850_FLOAT32
     (0 + TRG_OPT_DATA_CHANGED) NULL 0);
  (iedModel_Device1_DSCH1_SchdAbsTm_val_165,
   DataAttribute NULL &iedModel_Device1_DSCH1_SchdAbsTm_val &iedModel_Device1_DSCH1_SchdAbsTm_val_166 NULL 0 165 IEC61850_FC_SP IEC61850_FLOAT32
     (0 + TRG_OPT_DATA_CHANGED) NULL 0);
  (iedModel_Device1_DSCH1_SchdAbsTm_val_166,
   DataAttribute NULL &iedModel_Device1_DSCH1_SchdAbsTm_val &iedModel_Device1_DSCH1_SchdAbsTm_val_167 NULL 0 166 IEC61850_FC_SP IEC61850_FLOAT32
     (0 + TRG_OPT_DATA_CHANGED) NULL 0);
  (iedModel_Device1_DSCH1_SchdAbsTm_val_167,
   DataAttribute NULL &iedModel_Device1_DSCH1_SchdAbsTm_val &iedModel_Device1_DSCH1_SchdAbsTm_val_168 NULL 0 167 IEC61850_FC_SP IEC61850_FLOAT32
     (0 + TRG_OPT_DATA_CHANGED) NULL 0);
  (iedModel_Device1_DSCH1_SchdAbsTm_val_168,
   DataAttribute NULL &iedModel_Device1_DSCH1_SchdAbsTm_val &iedModel_Device1_DSCH1_SchdAbsTm_val_169 NULL 0 168 IEC61850_FC_SP IEC61850_FLOAT32
     (0 + TRG_OPT_DATA_CHANGED) NULL 0)
].

Definition Device1_DSCH1_nodes21 : list (addr * ModelNode) := [
  (iedModel_Device1_DSCH1_SchdAbsTm_val_169,
   DataAttribute NULL &iedModel_Device1_DSCH1_SchdAbsTm_val &iedModel_Device1_DSCH1_SchdAbsTm_val_170 NULL 0 169 IEC61850_FC_SP IEC61850_FLOAT32
     (0 + TRG_OPT_DATA_CHANGED) NULL 0);
  (iedModel_Device1_DSCH1_SchdAbsTm_val_170,
   DataAttribute NULL &iedModel_Device1_DSCH1_SchdAbsTm_val &iedModel_Device1_DSCH1_SchdAbsTm_val_171 NULL 0 170 IEC61850_FC_SP IEC61850_FLOAT32
     (0 + TRG_OPT_DATA_CHANGED) NULL 0);
  (iedModel_Device1_DSCH1_SchdAbsTm_val_171,
   DataAttribute NULL &iedModel_Device1_DSCH1_SchdAbsTm_val &iedModel_Device1_DSCH1_SchdAbsTm_val_172 NULL 0 171 IEC61850_FC_SP IEC61850_FLOAT32
     (0 + TRG_OPT_DATA_CHANGED) NULL 0);
  (iedModel_Device1_DSCH1_SchdAbsTm_val_172,
   DataAttribute NULL &iedModel_Device1_DSCH1_SchdAbsTm_val &iedModel_Device1_DSCH1_SchdAbsTm_val_173 NULL 0 172 IEC61850_FC_SP IEC61850_FLOAT32
     (0 + TRG_OPT_DATA_CHANGED) NULL 0);
  (iedModel_Device1_DSCH1_SchdAbsTm_val_173,
   DataAttribute NULL &iedModel_Device1_DSCH1_SchdAbsTm_val &iedModel_Device1_DSCH1_SchdAbsTm_val_174 NULL 0 173 IEC61850_FC_SP IEC61850_FLOAT32
     (0 + TRG_OPT_DATA_CHANGED) NULL 0);
  (iedModel_Device1_DSCH1_SchdAbsTm_val_174,
   DataAttribute NULL &iedModel_Device1_DSCH1_SchdAbsTm_val &iedModel_Device1_DSCH1_SchdAbsTm_val_175 NULL 0 174 IEC61850_FC_SP IEC61850_FLOAT32
     (0 + TRG_OPT_DATA_CHANGED) NULL 0);
  (iedModel_Device1_DSCH1_SchdAbsTm_val_175,
   DataAttribute NULL &iedModel_Device1_DSCH1_SchdAbsTm_val &iedModel_Device1_DSCH1_SchdAbsTm_val_176 NULL 0 175 IEC61850_FC_SP IEC61850_FLOAT32
     (0 + TRG_OPT_DATA_CHANGED) NULL 0);
  (iedModel_Device1_DSCH1_SchdAbsTm_val_176,
   DataAttribute NULL &iedModel_Device1_DSCH1_SchdAbsTm_val &iedModel_Device1_DSCH1_SchdAbsTm_val_177 NULL 0 176 IEC61850_FC_SP IEC61850_FLOAT32
     (0 + TRG_OPT_DATA_CHANGED) NULL 0);
  (iedModel_Device1_DSCH1_SchdAbsTm_val_177,
   DataAttribute NULL &iedModel_Device1_DSCH1_SchdAbsTm_val &iedModel_Device1_DSCH1_SchdAbsTm_val_178 NULL 0 177 IEC61850_FC_SP IEC61850_FLOAT32
     (0 + TRG_OPT_DATA_CHANGED) NULL 0);
  (iedModel_Device1_DSCH1_SchdAbsTm_val_178,
   DataAttribute NULL &iedModel_Device1_DSCH1_SchdAbsTm_val &iedModel_Device1_DSCH1_SchdAbsTm_val_179 NULL 0 178 IEC61850_FC_SP IEC61850_FLOAT32
     (0 + TRG_OPT_DATA_CHANGED) NULL 0)
].

Definition Device1_DSCH1_nodes22 : list (addr * ModelNode) := [
  (iedModel_Device1_DSCH1_SchdAbsTm_val_179,
   DataAttribute NULL &iedModel_Device1_DSCH1_SchdAbsTm_val &iedModel_Device1_DSCH1_SchdAbsTm_val_180 NULL 0 179 IEC61850_FC_SP IEC61850_FLOAT32
     (0 + TRG_OPT_DATA_CHANGED) NULL 0);
  (iedModel_Device1_DSCH1_SchdAbsTm_val_180,
   DataAttribute NULL &iedModel_Device1_DSCH1_SchdAbsTm_val &iedModel_Device1_DSCH1_SchdAbsTm_val_181 NULL 0 180 IEC61850_FC_SP IEC61850_FLOAT32
     (0 + TRG_OPT_DATA_CHANGED) NULL 0);
  (iedModel_Device1_DSCH1_SchdAbsTm_val_181,
   DataAttribute NULL &iedModel_Device1_DSCH1_SchdAbsTm_val &iedModel_Device1_DSCH1_SchdAbsTm_val_182 NULL 0 181 IEC61850_FC_SP IEC61850_FLOAT32
     (0 + TRG_OPT_DATA_CHANGED) NULL 0);
  (iedModel_Device1_DSCH1_SchdAbsTm_val_182,
   DataAttribute NULL &iedModel_Device1_DSCH1_SchdAbsTm_val &iedModel_Device1_DSCH1_SchdAbsTm_val_183 NULL 0 182 IEC61850_FC_SP IEC61850_FLOAT32
     (0 + TRG_OPT_DATA_CHANGED) NULL 0);
  (iedModel_Device1_DSCH1_SchdAbsTm_val_183,
   DataAttribute NULL &iedModel_Device1_DSCH1_SchdAbsTm_val &iedModel_Device1_DSCH1_SchdAbsTm_val_184 NULL 0 183 IEC61850_FC_SP IEC61850_FLOAT32
     (0 + TRG_OPT_DATA_CHANGED) NULL 0);
  (iedModel_Device1_DSCH1_SchdAbsTm_val_184,
   DataAttribute NULL &iedModel_Device1_DSCH1_SchdAbsTm_val &iedModel_Device1_DSCH1_SchdAbsTm_val_185 NULL 0 184 IEC61850_FC_SP IEC61850_FLOAT32
     (0 + TRG_OPT_DATA_CHANGED) NULL 0);
  (iedModel_Device1_DSCH1_SchdAbsTm_val_185,
   DataAttribute NULL &iedModel_Device1_DSCH1_SchdAbsTm_val &iedModel_Device1_DSCH1_SchdAbsTm_val_186 NULL 0 185 IEC61850_FC_SP IEC61850_FLOAT32
     (0 + TRG_OPT_DATA_CHANGED) NULL 0);
  (iedModel_Device1_DSCH1_SchdAbsTm_val_186,
   DataAttribute NULL &iedModel_Device1_DSCH1_SchdAbsTm_val &iedModel_Device1_DSCH1_SchdAbsTm_val_187 NULL 0 186 IEC61850_FC_SP IEC61850_FLOAT32
     (0 + TRG_OPT_DATA_CHANGED) NULL 0);
  (iedModel_Device1_DSCH1_SchdAbsTm_val_187,
   DataAttribute NULL &iedModel_Device1_DSCH1_SchdAbsTm_val &iedModel_Device1_DSCH1_SchdAbsTm_val_188 NULL 0 187 IEC61850_FC_SP IEC61850_FLOAT32
     (0 + TRG_OPT_DATA_CHANGED) NULL 0);
  (iedModel_Device1_DSCH1_SchdAbsTm_val_188,
   DataAttribute NULL &iedModel_Device1_DSCH1_SchdAbsTm_val &iedModel_Device1_DSCH1_SchdAbsTm_val_189 NULL 0 188 IEC61850_FC_SP IEC61850_FLOAT32
     (0 + TRG_OPT_DATA_CHANGED) NULL 0)
].

Definition Device1_DSCH1_nodes23 : list (addr * ModelNode) := [
  (iedModel_Device1_DSCH1_SchdAbsTm_val_189,
   DataAttribute NULL &iedModel_Device1_DSCH1_SchdAbsTm_val &iedModel_Device1_DSCH1_SchdAbsTm_val_190 NULL 0 189 IEC61850_FC_SP IEC61850_FLOAT32
     (0 + TRG_OPT_DATA_CHANGED) NULL 0);
  (iedModel_Device1_DSCH1_SchdAbsTm_val_190,
   DataAttribute NULL &iedModel_Device1_DSCH1_SchdAbsTm_val &iedModel_Device1_DSCH1_SchdAbsTm_val_191 NULL 0 190 IEC61850_FC_SP IEC61850_FLOAT32
     (0 + TRG_OPT_DATA_CHANGED) NULL 0);
  (iedModel_Device1_DSCH1_SchdAbsTm_val_191,
   DataAttribute NULL &iedModel_Device1_DSCH1_SchdAbsTm_val &iedModel_Device1_DSCH1_SchdAbsTm_val_192 NULL 0 191 IEC61850_FC_SP IEC61850_FLOAT32
     (0 + TRG_OPT_DATA_CHANGED) NULL 0);
  (iedModel_Device1_DSCH1_SchdAbsTm_val_192,
   DataAttribute NULL &iedModel_Device1_DSCH1_SchdAbsTm_val &iedModel_Device1_DSCH1_SchdAbsTm_val_193 NULL 0 192 IEC61850_FC_SP IEC61850_FLOAT32
     (0 + TRG_OPT_DATA_CHANGED) NULL 0);
  (iedModel_Device1_DSCH1_SchdAbsTm_val_193,
   DataAttribute NULL &iedModel_Device1_DSCH1_SchdAbsTm_val &iedModel_Device1_DSCH1_SchdAbsTm_val_194 NULL 0 193 IEC61850_FC_SP IEC61850_FLOAT32
     (0 + TRG_OPT_DATA_CHANGED) NULL 0);
  (iedModel_Device1_DSCH1_SchdAbsTm_val_194,
   DataAttribute NULL &iedModel_Device1_DSCH1_SchdAbsTm_val &iedModel_Device1_DSCH1_SchdAbsTm_val_195 NULL 0 194 IEC61850_FC_SP IEC61850_FLOAT32
     (0 + TRG_OPT_DATA_CHANGED) NULL 0);
  (iedModel_Device1_DSCH1_SchdAbsTm_val_195,
   DataAttribute NULL &iedModel_Device1_DSCH1_SchdAbsTm_val &iedModel_Device1_DSCH1_SchdAbsTm_val_196 NULL 0 195 IEC61850_FC_SP IEC61850_FLOAT32
     (0 + TRG_OPT_DATA_CHANGED) NULL 0);
  (iedModel_Device1_DSCH1_SchdAbsTm_val_196,
   DataAttribute NULL &iedModel_Device1_DSCH1_SchdAbsTm_val &iedModel_Device1_DSCH1_SchdAbsTm_val_197 NULL 0 196 IEC61850_FC_SP IEC61850_FLOAT32
     (0 + TRG_OPT_DATA_CHANGED) NULL 0);
  (iedModel_Device1_DSCH1_SchdAbsTm_val_197,
   DataAttribute NULL &iedModel_Device1_DSCH1_SchdAbsTm_val &iedModel_Device1_DSCH1_SchdAbsTm_val_198 NULL 0 197 IEC61850_FC_SP IEC61850_FLOAT32
     (0 + TRG_OPT_DATA_CHANGED) NULL 0);
  (iedModel_Device1_DSCH1_SchdAbsTm_val_198,
   DataAttribute NULL &iedModel_Device1_DSCH1_SchdAbsTm_val &iedModel_Device1_DSCH1_SchdAbsTm_val_199 NULL 0 198 IEC61850_FC_SP IEC61850_FLOAT32
     (0 + TRG_OPT_DATA_CHANGED) NULL 0)
].

Definition Device1_DSCH1_nodes24 : list (addr * ModelNode) := [
  (iedModel_Device1_DSCH1_SchdAbsTm_val_199,
   DataAttribute NULL &iedModel_Device1_DSCH1_SchdAbsTm_val &iedModel_Device1_DSCH1_SchdAbsTm_val_200 NULL 0 199 IEC61850_FC_SP IEC61850_FLOAT32
     (0 + TRG_OPT_DATA_CHANGED) NULL 0);
  (iedModel_Device1_DSCH1_SchdAbsTm_val_200,
   DataAttribute NULL &iedModel_Device1_DSCH1_SchdAbsTm_val &iedModel_Device1_DSCH1_SchdAbsTm_val_201 NULL 0 200 IEC61850_FC_SP IEC61850_FLOAT32
     (0 + TRG_OPT_DATA_CHANGED) NULL 0);
  (iedModel_Device1_DSCH1_SchdAbsTm_val_201,
   DataAttribute NULL &iedModel_Device1_DSCH1_SchdAbsTm_val &iedModel_Device1_DSCH1_SchdAbsTm_val_202 NULL 0 201 IEC61850_FC_SP IEC61850_FLOAT32
     (0 + TRG_OPT_DATA_CHANGED) NULL 0);
  (iedModel_Device1_DSCH1_SchdAbsTm_val_202,
   DataAttribute NULL &iedModel_Device1_DSCH1_SchdAbsTm_val &iedModel_Device1_DSCH1_SchdAbsTm_val_203 NULL 0 202 IEC61850_FC_SP IEC61850_FLOAT32
     (0 + TRG_OPT_DATA_CHANGED) NULL 0);
  (iedModel_Device1_DSCH1_SchdAbsTm_val_203,
   DataAttribute NULL &iedModel_Device1_DSCH1_SchdAbsTm_val &iedModel_Device1_DSCH1_SchdAbsTm_val_204 NULL 0 203 IEC61850_FC_SP IEC61850_FLOAT32
     (0 + TRG_OPT_DATA_CHANGED) NULL 0);
  (iedModel_Device1_DSCH1_SchdAbsTm_val_204,
   DataAttribute NULL &iedModel_Device1_DSCH1_SchdAbsTm_val &iedModel_Device1_DSCH1_SchdAbsTm_val_205 NULL 0 204 IEC61850_FC_SP IEC61850_FLOAT32
     (0 + TRG_OPT_DATA_CHANGED) NULL 0);
  (iedModel_Device1_DSCH1_SchdAbsTm_val_205,
   DataAttribute NULL &iedModel_Device1_DSCH1_SchdAbsTm_val &iedModel_Device1_DSCH1_SchdAbsTm_val_206 NULL 0 205 IEC61850_FC_SP IEC61850_FLOAT32
     (0 + TRG_OPT_DATA_CHANGED) NULL 0);
  (iedModel_Device1_DSCH1_SchdAbsTm_val_206,
   DataAttribute NULL &iedModel_Device1_DSCH1_SchdAbsTm_val &iedModel_Device1_DSCH1_SchdAbsTm_val_207 NULL 0 206 IEC61850_FC_SP IEC61850_FLOAT32
     (0 + TRG_OPT_DATA_CHANGED) NULL 0);
  (iedModel_Device1_DSCH1_SchdAbsTm_val_207,
   DataAttribute NULL &iedModel_Device1_DSCH1_SchdAbsTm_val &iedModel_Device1_DSCH1_SchdAbsTm_val_208 NULL 0 207 IEC61850_FC_SP IEC61850_FLOAT32
     (0 + TRG_OPT_DATA_CHANGED) NULL 0);
  (iedModel_Device1_DSCH1_SchdAbsTm_val_208,
   DataAttribute NULL &iedModel_Device1_DSCH1_SchdAbsTm_val &iedModel_Device1_DSCH1_SchdAbsTm_val_209 NULL 0 208 IEC61850_FC_SP IEC61850_FLOAT32
     (0 + TRG_OPT_DATA_CHANGED) NULL 0)
].

Definition Device1_DSCH1_nodes25 : list (addr * ModelNode) := [
  (iedModel_Device1_DSCH1_SchdAbsTm_val_209,
   DataAttribute NULL &iedModel_Device1_DSCH1_SchdAbsTm_val &iedModel_Device1_DSCH1_SchdAbsTm_val_210 NULL 0 209 IEC61850_FC_SP IEC61850_FLOAT32
     (0 + TRG_OPT_DATA_CHANGED) NULL 0);
  (iedModel_Device1_DSCH1_SchdAbsTm_val_210,
   DataAttribute NULL &iedModel_Device1_DSCH1_SchdAbsTm_val &iedModel_Device1_DSCH1_SchdAbsTm_val_211 NULL 0 210 IEC61850_FC_SP IEC61850_FLOAT32
     (0 + TRG_OPT_DATA_CHANGED) NULL 0);
  (iedModel_Device1_DSCH1_SchdAbsTm_val_211,
   DataAttribute NULL &iedModel_Device1_DSCH1_SchdAbsTm_val &iedModel_Device1_DSCH1_SchdAbsTm_val_212 NULL 0 211 IEC61850_FC_SP IEC61850_FLOAT32
     (0 + TRG_OPT_DATA_CHANGED) NULL 0);
  (iedModel_Device1_DSCH1_SchdAbsTm_val_212,
   DataAttribute NULL &iedModel_Device1_DSCH1_SchdAbsTm_val &iedModel_Device1_DSCH1_SchdAbsTm_val_213 NULL 0 212 IEC61850_FC_SP IEC61850_FLOAT32
     (0 + TRG_OPT_DATA_CHANGED) NULL 0);
  (iedModel_Device1_DSCH1_SchdAbsTm_val_213,
   DataAttribute NULL &iedModel_Device1_DSCH1_SchdAbsTm_val &iedModel_Device1_DSCH1_SchdAbsTm_val_214 NULL 0 213 IEC61850_FC_SP IEC61850_FLOAT32
     (0 + TRG_OPT_DATA_CHANGED) NULL 0);
  (iedModel_Device1_DSCH1_SchdAbsTm_val_214,
   DataAttribute NULL &iedModel_Device1_DSCH1_SchdAbsTm_val &iedModel_Device1_DSCH1_SchdAbsTm_val_215 NULL 0 214 IEC61850_FC_SP IEC61850_FLOAT32
     (0 + TRG_OPT_DATA_CHANGED) NULL 0);
  (iedModel_Device1_DSCH1_SchdAbsTm_val_215,
   DataAttribute NULL &iedModel_Device1_DSCH1_SchdAbsTm_val &iedModel_Device1_DSCH1_SchdAbsTm_val_216 NULL 0 215 IEC61850_FC_SP IEC61850_FLOAT32
     (0 + TRG_OPT_DATA_CHANGED) NULL 0);
  (iedModel_Device1_DSCH1_SchdAbsTm_val_216,
   DataAttribute NULL &iedModel_Device1_DSCH1_SchdAbsTm_val &iedModel_Device1_DSCH1_SchdAbsTm_val_217 NULL 0 216 IEC61850_FC_SP IEC61850_FLOAT32
     (0 + TRG_OPT_DATA_CHANGED) NULL 0);
  (iedModel_Device1_DSCH1_SchdAbsTm_val_217,
   DataAttribute NULL &iedModel_Device1_DSCH1_SchdAbsTm_val &iedModel_Device1_DSCH1_SchdAbsTm_val_218 NULL 0 217 IEC61850_FC_SP IEC61850_FLOAT32
     (0 + TRG_OPT_DATA_CHANGED) NULL 0);
  (iedModel_Device1_DSCH1_SchdAbsTm_val_218,
   DataAttribute NULL &iedModel_Device1_DSCH1_SchdAbsTm_val &iedModel_Device1_DSCH1_SchdAbsTm_val_219 NULL 0 218 IEC61850_FC_SP IEC61850_FLOAT32
     (0 + TRG_OPT_DATA_CHANGED) NULL 0)
].

Definition Device1_DSCH1_nodes26 : list (addr * ModelNode) := [
  (iedModel_Device1_DSCH1_SchdAbsTm_val_219,
   DataAttribute NULL &iedModel_Device1_DSCH1_SchdAbsTm_val &iedModel_Device1_DSCH1_SchdAbsTm_val_220 NULL 0 219 IEC61850_FC_SP IEC61850_FLOAT32
     (0 + TRG_OPT_DATA_CHANGED) NULL 0);
  (iedModel_Device1_DSCH1_SchdAbsTm_val_220,
   DataAttribute NULL &iedModel_Device1_DSCH1_SchdAbsTm_val &iedModel_Device1_DSCH1_SchdAbsTm_val_221 NULL 0 220 IEC61850_FC_SP IEC61850_FLOAT32
     (0 + TRG_OPT_DATA_CHANGED) NULL 0);
  (iedModel_Device1_DSCH1_SchdAbsTm_val_221,
   DataAttribute NULL &iedModel_Device1_DSCH1_SchdAbsTm_val &iedModel_Device1_DSCH1_SchdAbsTm_val_222 NULL 0 221 IEC61850_FC_SP IEC61850_FLOAT32
     (0 + TRG_OPT_DATA_CHANGED) NULL 0);
  (iedModel_Device1_DSCH1_SchdAbsTm_val_222,
   DataAttribute NULL &iedModel_Device1_DSCH1_SchdAbsTm_val &iedModel_Device1_DSCH1_SchdAbsTm_val_223 NULL 0 222 IEC61850_FC_SP IEC61850_FLOAT32
     (0 + TRG_OPT_DATA_CHANGED) NULL 0);
  (iedModel_Device1_DSCH1_SchdAbsTm_val_223,
   DataAttribute NULL &iedModel_Device1_DSCH1_SchdAbsTm_val &iedModel_Device1_DSCH1_SchdAbsTm_val_224 NULL 0 223 IEC61850_FC_SP IEC61850_FLOAT32
     (0 + TRG_OPT_DATA_CHANGED) NULL 0);
  (iedModel_Device1_DSCH1_SchdAbsTm_val_224,
   DataAttribute NULL &iedModel_Device1_DSCH1_SchdAbsTm_val &iedModel_Device1_DSCH1_SchdAbsTm_val_225 NULL 0 224 IEC61850_FC_SP IEC61850_FLOAT32
     (0 + TRG_OPT_DATA_CHANGED) NULL 0);
  (iedModel_Device1_DSCH1_SchdAbsTm_val_225,
   DataAttribute NULL &iedModel_Device1_DSCH1_SchdAbsTm_val &iedModel_Device1_DSCH1_SchdAbsTm_val_226 NULL 0 225 IEC61850_FC_SP IEC61850_FLOAT32
     (0 + TRG_OPT_DATA_CHANGED) NULL 0);
  (iedModel_Device1_DSCH1_SchdAbsTm_val_226,
   DataAttribute NULL &iedModel_Device1_DSCH1_SchdAbsTm_val &iedModel_Device1_DSCH1_SchdAbsTm_val_227 NULL 0 226 IEC61850_FC_SP IEC61850_FLOAT32
     (0 + TRG_OPT_DATA_CHANGED) NULL 0);
  (iedModel_Device1_DSCH1_SchdAbsTm_val_227,
   DataAttribute NULL &iedModel_Device1_DSCH1_SchdAbsTm_val &iedModel_Device1_DSCH1_SchdAbsTm_val_228 NULL 0 227 IEC61850_FC_SP IEC61850_FLOAT32
     (0 + TRG_OPT_DATA_CHANGED) NULL 0);
  (iedModel_Device1_DSCH1_SchdAbsTm_val_228,
   DataAttribute NULL &iedModel_Device1_DSCH1_SchdAbsTm_val &iedModel_Device1_DSCH1_SchdAbsTm_val_229 NULL 0 228 IEC61850_FC_SP IEC61850_FLOAT32
     (0 + TRG_OPT_DATA_CHANGED) NULL 0)
].

Definition Device1_DSCH1_nodes27 : list (addr * ModelNode) := [
  (iedModel_Device1_DSCH1_SchdAbsTm_val_229,
   DataAttribute NULL &iedModel_Device1_DSCH1_SchdAbsTm_val &iedModel_Device1_DSCH1_SchdAbsTm_val_230 NULL 0 229 IEC61850_FC_SP IEC61850_FLOAT32
     (0 + TRG_OPT_DATA_CHANGED) NULL 0);
  (iedModel_Device1_DSCH1_SchdAbsTm_val_230,
   DataAttribute NULL &iedModel_Device1_DSCH1_SchdAbsTm_val &iedModel_Device1_DSCH1_SchdAbsTm_val_231 NULL 0 230 IEC61850_FC_SP IEC61850_FLOAT32
     (0 + TRG_OPT_DATA_CHANGED) NULL 0);
  (iedModel_Device1_DSCH1_SchdAbsTm_val_231,
   DataAttribute NULL &iedModel_Device1_DSCH1_SchdAbsTm_val &iedModel_Device1_DSCH1_SchdAbsTm_val_232 NULL 0 231 IEC61850_FC_SP IEC61850_FLOAT32
     (0 + TRG_OPT_DATA_CHANGED) NULL 0);
  (iedModel_Device1_DSCH1_SchdAbsTm_val_232,
   DataAttribute NULL &iedModel_Device1_DSCH1_SchdAbsTm_val &iedModel_Device1_DSCH1_SchdAbsTm_val_233 NULL 0 232 IEC61850_FC_SP IEC61850_FLOAT32
     (0 + TRG_OPT_DATA_CHANGED) NULL 0);
  (iedModel_Device1_DSCH1_SchdAbsTm_val_233,
   DataAttribute NULL &iedModel_Device1_DSCH1_SchdAbsTm_val &iedModel_Device1_DSCH1_SchdAbsTm_val_234 NULL 0 233 IEC61850_FC_SP IEC61850_FLOAT32
     (0 + TRG_OPT_DATA_CHANGED) NULL 0);
  (iedModel_Device1_DSCH1_SchdAbsTm_val_234,
   DataAttribute NULL &iedModel_Device1_DSCH1_SchdAbsTm_val &iedModel_Device1_DSCH1_SchdAbsTm_val_235 NULL 0 234 IEC61850_FC_SP IEC61850_FLOAT32
     (0 + TRG_OPT_DATA_CHANGED) NULL 0);
  (iedModel_Device1_DSCH1_SchdAbsTm_val_235,
   DataAttribute NULL &iedModel_Device1_DSCH1_SchdAbsTm_val &iedModel_Device1_DSCH1_SchdAbsTm_val_236 NULL 0 235 IEC61850_FC_SP IEC61850_FLOAT32
     (0 + TRG_OPT_DATA_CHANGED) NULL 0);
  (iedModel_Device1_DSCH1_SchdAbsTm_val_236,
   DataAttribute NULL &iedModel_Device1_DSCH1_SchdAbsTm_val &iedModel_Device1_DSCH1_SchdAbsTm_val_237 NULL 0 236 IEC61850_FC_SP IEC61850_FLOAT32
     (0 + TRG_OPT_DATA_CHANGED) NULL 0);
  (iedModel_Device1_DSCH1_SchdAbsTm_val_237,
   DataAttribute NULL &iedModel_Device1_DSCH1_SchdAbsTm_val &iedModel_Device1_DSCH1_SchdAbsTm_val_238 NULL 0 237 IEC61850_FC_SP IEC61850_FLOAT32
     (0 + TRG_OPT_DATA_CHANGED) NULL 0);
  (iedModel_Device1_DSCH1_SchdAbsTm_val_238,
   DataAttribute NULL &iedModel_Device1_DSCH1_SchdAbsTm_val &iedModel_Device1_DSCH1_SchdAbsTm_val_239 NULL 0 238 IEC61850_FC_SP IEC61850_FLOAT32
     (0 + TRG_OPT_DATA_CHANGED) NULL 0)
].

Definition Device1_DSCH1_nodes28 : list (addr * ModelNode) := [
  (iedModel_Device1_DSCH1_SchdAbsTm_val_239,
   DataAttribute NULL &iedModel_Device1_DSCH1_SchdAbsTm_val &iedModel_Device1_DSCH1_SchdAbsTm_val_240 NULL 0 239 IEC61850_FC_SP IEC61850_FLOAT32
     (0 + TRG_OPT_DATA_CHANGED) NULL 0);
  (iedModel_Device1_DSCH1_SchdAbsTm_val_240,
   DataAttribute NULL &iedModel_Device1_DSCH1_SchdAbsTm_val &iedModel_Device1_DSCH1_SchdAbsTm_val_241 NULL 0 240 IEC61850_FC_SP IEC61850_FLOAT32
     (0 + TRG_OPT_DATA_CHANGED) NULL 0);
  (iedModel_Device1_DSCH1_SchdAbsTm_val_241,
   DataAttribute NULL &iedModel_Device1_DSCH1_SchdAbsTm_val &iedModel_Device1_DSCH1_SchdAbsTm_val_242 NULL 0 241 IEC61850_FC_SP IEC61850_FLOAT32
     (0 + TRG_OPT_DATA_CHANGED) NULL 0);
  (iedModel_Device1_DSCH1_SchdAbsTm_val_242,
   DataAttribute NULL &iedModel_Device1_DSCH1_SchdAbsTm_val &iedModel_Device1_DSCH1_SchdAbsTm_val_243 NULL 0 242 IEC61850_FC_SP IEC61850_FLOAT32
     (0 + TRG_OPT_DATA_CHANGED) NULL 0);
  (iedModel_Device1_DSCH1_SchdAbsTm_val_243,
   DataAttribute NULL &iedModel_Device1_DSCH1_SchdAbsTm_val &iedModel_Device1_DSCH1_SchdAbsTm_val_244 NULL 0 243 IEC61850_FC_SP IEC61850_FLOAT32
     (0 + TRG_OPT_DATA_CHANGED) NULL 0);
  (iedModel_Device1_DSCH1_SchdAbsTm_val_244,
   DataAttribute NULL &iedModel_Device1_DSCH1_SchdAbsTm_val &iedModel_Device1_DSCH1_SchdAbsTm_val_245 NULL 0 244 IEC61850_FC_SP IEC61850_FLOAT32
     (0 + TRG_OPT_DATA_CHANGED) NULL 0);
  (iedModel_Device1_DSCH1_SchdAbsTm_val_245,
   DataAttribute NULL &iedModel_Device1_DSCH1_SchdAbsTm_val &iedModel_Device1_DSCH1_SchdAbsTm_val_246 NULL 0 245 IEC61850_FC_SP IEC61850_FLOAT32
     (0 + TRG_OPT_DATA_CHANGED) NULL 0);
  (iedModel_Device1_DSCH1_SchdAbsTm_val_246,
   DataAttribute NULL &iedModel_Device1_DSCH1_SchdAbsTm_val &iedModel_Device1_DSCH1_SchdAbsTm_val_247 NULL 0 246 IEC61850_FC_SP IEC61850_FLOAT32
     (0 + TRG_OPT_DATA_CHANGED) NULL 0);
  (iedModel_Device1_DSCH1_SchdAbsTm_val_247,
   DataAttribute NULL &iedModel_Device1_DSCH1_SchdAbsTm_val &iedModel_Device1_DSCH1_SchdAbsTm_val_248 NULL 0 247 IEC61850_FC_SP IEC61850_FLOAT32
     (0 + TRG_OPT_DATA_CHANGED) NULL 0);
  (iedModel_Device1_DSCH1_SchdAbsTm_val_248,
   DataAttribute NULL &iedModel_Device1_DSCH1_SchdAbsTm_val &iedModel_Device1_DSCH1_SchdAbsTm_val_249 NULL 0 248 IEC61850_FC_SP IEC61850_FLOAT32
     (0 + TRG_OPT_DATA_CHANGED) NULL 0)
].

Definition Device1_DSCH1_nodes29 : list (addr * ModelNode) := [
  (iedModel_Device1_DSCH1_SchdAbsTm_val_249,
   DataAttribute NULL &iedModel_Device1_DSCH1_SchdAbsTm_val &iedModel_Device1_DSCH1_SchdAbsTm_val_250 NULL 0 249 IEC61850_FC_SP IEC61850_FLOAT32
     (0 + TRG_OPT_DATA_CHANGED) NULL 0);
  (iedModel_Device1_DSCH1_SchdAbsTm_val_250,
   DataAttribute NULL &iedModel_Device1_DSCH1_SchdAbsTm_val &iedModel_Device1_DSCH1_SchdAbsTm_val_251 NULL 0 250 IEC61850_FC_SP IEC61850_FLOAT32
     (0 + TRG_OPT_DATA_CHANGED) NULL 0);
  (iedModel_Device1_DSCH1_SchdAbsTm_val_251,
   DataAttribute NULL &iedModel_Device1_DSCH1_SchdAbsTm_val &iedModel_Device1_DSCH1_SchdAbsTm_val_252 NULL 0 251 IEC61850_FC_SP IEC61850_FLOAT32
     (0 + TRG_OPT_DATA_CHANGED) NULL 0);
  (iedModel_Device1_DSCH1_SchdAbsTm_val_252,
   DataAttribute NULL &iedModel_Device1_DSCH1_SchdAbsTm_val &iedModel_Device1_DSCH1_SchdAbsTm_val_253 NULL 0 252 IEC61850_FC_SP IEC61850_FLOAT32
     (0 + TRG_OPT_DATA_CHANGED) NULL 0);
  (iedModel_Device1_DSCH1_SchdAbsTm_val_253,
   DataAttribute NULL &iedModel_Device1_DSCH1_SchdAbsTm_val &iedModel_Device1_DSCH1_SchdAbsTm_val_254 NULL 0 253 IEC61850_FC_SP IEC61850_FLOAT32
     (0 + TRG_OPT_DATA_CHANGED) NULL 0);
  (iedModel_Device1_DSCH1_SchdAbsTm_val_254,
   DataAttribute NULL &iedModel_Device1_DSCH1_SchdAbsTm_val NULL NULL 0 254 IEC61850_FC_SP IEC61850_FLOAT32
     (0 + TRG_OPT_DATA_CHANGED) NULL 0);
  (iedModel_Device1_DSCH1_SchdAbsTm_time,
   DataAttribute (Some "time") &iedModel_Device1_DSCH1_SchdAbsTm NULL &iedModel_Device1_DSCH1_SchdAbsTm_time_0 255 (-1) IEC61850_FC_SP IEC61850_TIMESTAMP
     (0 + TRG_OPT_DATA_CHANGED) NULL 0);
  (iedModel_Device1_DSCH1_SchdAbsTm_time_0,
   DataAttribute NULL &iedModel_Device1_DSCH1_SchdAbsTm_time &iedModel_Device1_DSCH1_SchdAbsTm_time_1 NULL 0 0 IEC61850_FC_SP IEC61850_TIMESTAMP
     (0 + TRG_OPT_DATA_CHANGED) NULL 0);
  (iedModel_Device1_DSCH1_SchdAbsTm_time_1,
   DataAttribute NULL &iedModel_Device1_DSCH1_SchdAbsTm_time &iedModel_Device1_DSCH1_SchdAbsTm_time_2 NULL 0 1 IEC61850_FC_SP IEC61850_TIMESTAMP
     (0 + TRG_OPT_DATA_CHANGED) NULL 0);
  (iedModel_Device1_DSCH1_SchdAbsTm_time_2,
   DataAttribute NULL &iedModel_Device1_DSCH1_SchdAbsTm_time &iedModel_Device1_DSCH1_SchdAbsTm_time_3 NULL 0 2 IEC61850_FC_SP IEC61850_TIMESTAMP
     (0 + TRG_OPT_DATA_CHANGED) NULL 0)
].

Definition Device1_DSCH1_nodes30 : list (addr * ModelNode) := [
  (iedModel_Device1_DSCH1_SchdAbsTm_time_3,
   DataAttribute NULL &iedModel_Device1_DSCH1_SchdAbsTm_time &iedModel_Device1_DSCH1_SchdAbsTm_time_4 NULL 0 3 IEC61850_FC_SP IEC61850_TIMESTAMP
     (0 + TRG_OPT_DATA_CHANGED) NULL 0);
  (iedModel_Device1_DSCH1_SchdAbsTm_time_4,
   DataAttribute NULL &iedModel_Device1_DSCH1_SchdAbsTm_time &iedModel_Device1_DSCH1_SchdAbsTm_time_5 NULL 0 4 IEC61850_FC_SP IEC61850_TIMESTAMP
     (0 + TRG_OPT_DATA_CHANGED) NULL 0);
  (iedModel_Device1_DSCH1_SchdAbsTm_time_5,
   DataAttribute NULL &iedModel_Device1_DSCH1_SchdAbsTm_time &iedModel_Device1_DSCH1_SchdAbsTm_time_6 NULL 0 5 IEC61850_FC_SP IEC61850_TIMESTAMP
     (0 + TRG_OPT_DATA_CHANGED) NULL 0);
  (iedModel_Device1_DSCH1_SchdAbsTm_time_6,
   DataAttribute NULL &iedModel_Device1_DSCH1_SchdAbsTm_time &iedModel_Device1_DSCH1_SchdAbsTm_time_7 NULL 0 6 IEC61850_FC_SP IEC61850_TIMESTAMP
     (0 + TRG_OPT_DATA_CHANGED) NULL 0);
  (iedModel_Device1_DSCH1_SchdAbsTm_time_7,
   DataAttribute NULL &iedModel_Device1_DSCH1_SchdAbsTm_time &iedModel_Device1_DSCH1_SchdAbsTm_time_8 NULL 0 7 IEC61850_FC_SP IEC61850_TIMESTAMP
     (0 + TRG_OPT_DATA_CHANGED) NULL 0);
  (iedModel_Device1_DSCH1_SchdAbsTm_time_8,
   DataAttribute NULL &iedModel_Device1_DSCH1_SchdAbsTm_time &iedModel_Device1_DSCH1_SchdAbsTm_time_9 NULL 0 8 IEC61850_FC_SP IEC61850_TIMESTAMP
     (0 + TRG_OPT_DATA_CHANGED) NULL 0);
  (iedModel_Device1_DSCH1_SchdAbsTm_time_9,
   DataAttribute NULL &iedModel_Device1_DSCH1_SchdAbsTm_time &iedModel_Device1_DSCH1_SchdAbsTm_time_10 NULL 0 9 IEC61850_FC_SP IEC61850_TIMESTAMP
     (0 + TRG_OPT_DATA_CHANGED) NULL 0);
  (iedModel_Device1_DSCH1_SchdAbsTm_time_10,
   DataAttribute NULL &iedModel_Device1_DSCH1_SchdAbsTm_time &iedModel_Device1_DSCH1_SchdAbsTm_time_11 NULL 0 10 IEC61850_FC_SP IEC61850_TIMESTAMP
     (0 + TRG_OPT_DATA_CHANGED) NULL 0);
  (iedModel_Device1_DSCH1_SchdAbsTm_time_11,
   DataAttribute NULL &iedModel_Device1_DSCH1_SchdAbsTm_time &iedModel_Device1_DSCH1_SchdAbsTm_time_12 NULL 0 11 IEC61850_FC_SP IEC61850_TIMESTAMP
     (0 + TRG_OPT_DATA_CHANGED) NULL 0);
  (iedModel_Device1_DSCH1_SchdAbsTm_time_12,
   DataAttribute NULL &iedModel_Device1_DSCH1_SchdAbsTm_time &iedModel_Device1_DSCH1_SchdAbsTm_time_13 NULL 0 12 IEC61850_FC_SP IEC61850_TIMESTAMP
     (0 + TRG_OPT_DATA_CHANGED) NULL 0)
].

Definition Device1_DSCH1_nodes31 : list (addr * ModelNode) := [
  (iedModel_Device1_DSCH1_SchdAbsTm_time_13,
   DataAttribute NULL &iedModel_Device1_DSCH1_SchdAbsTm_time &iedModel_Device1_DSCH1_SchdAbsTm_time_14 NULL 0 13 IEC61850_FC_SP IEC61850_TIMESTAMP
     (0 + TRG_OPT_DATA_CHANGED) NULL 0);
  (iedModel_Device1_DSCH1_SchdAbsTm_time_14,
   DataAttribute NULL &iedModel_Device1_DSCH1_SchdAbsTm_time &iedModel_Device1_DSCH1_SchdAbsTm_time_15 NULL 0 14 IEC61850_FC_SP IEC61850_TIMESTAMP
     (0 + TRG_OPT_DATA_CHANGED) NULL 0);
  (iedModel_Device1_DSCH1_SchdAbsTm_time_15,
   DataAttribute NULL &iedModel_Device1_DSCH1_SchdAbsTm_time &iedModel_Device1_DSCH1_SchdAbsTm_time_16 NULL 0 15 IEC61850_FC_SP IEC61850_TIMESTAMP
     (0 + TRG_OPT_DATA_CHANGED) NULL 0);
  (iedModel_Device1_DSCH1_SchdAbsTm_time_16,
   DataAttribute NULL &iedModel_Device1_DSCH1_SchdAbsTm_time &iedModel_Device1_DSCH1_SchdAbsTm_time_17 NULL 0 16 IEC61850_FC_SP IEC61850_TIMESTAMP
     (0 + TRG_OPT_DATA_CHANGED) NULL 0);
  (iedModel_Device1_DSCH1_SchdAbsTm_time_17,
   DataAttribute NULL &iedModel_Device1_DSCH1_SchdAbsTm_time &iedModel_Device1_DSCH1_SchdAbsTm_time_18 NULL 0 17 IEC61850_FC_SP IEC61850_TIMESTAMP
     (0 + TRG_OPT_DATA_CHANGED) NULL 0);
  (iedModel_Device1_DSCH1_SchdAbsTm_time_18,
   DataAttribute NULL &iedModel_Device1_DSCH1_SchdAbsTm_time &iedModel_Device1_DSCH1_SchdAbsTm_time_19 NULL 0 18 IEC61850_FC_SP IEC61850_TIMESTAMP
     (0 + TRG_OPT_DATA_CHANGED) NULL 0);
  (iedModel_Device1_DSCH1_SchdAbsTm_time_19,
   DataAttribute NULL &iedModel_Device1_DSCH1_SchdAbsTm_time &iedModel_Device1_DSCH1_SchdAbsTm_time_20 NULL 0 19 IEC61850_FC_SP IEC61850_TIMESTAMP
     (0 + TRG_OPT_DATA_CHANGED) NULL 0);
  (iedModel_Device1_DSCH1_SchdAbsTm_time_20,
   DataAttribute NULL &iedModel_Device1_DSCH1_SchdAbsTm_time &iedModel_Device1_DSCH1_SchdAbsTm_time_21 NULL 0 20 IEC61850_FC_SP IEC61850_TIMESTAMP
     (0 + TRG_OPT_DATA_CHANGED) NULL 0);
  (iedModel_Device1_DSCH1_SchdAbsTm_time_21,
   DataAttribute NULL &iedModel_Device1_DSCH1_SchdAbsTm_time &iedModel_Device1_DSCH1_SchdAbsTm_time_22 NULL 0 21 IEC61850_FC_SP IEC61850_TIMESTAMP
     (0 + TRG_OPT_DATA_CHANGED) NULL 0);
  (iedModel_Device1_DSCH1_SchdAbsTm_time_22,
   DataAttribute NULL &iedModel_Device1_DSCH1_SchdAbsTm_time &iedModel_Device1_DSCH1_SchdAbsTm_time_23 NULL 0 22 IEC61850_FC_SP IEC61850_TIMESTAMP
     (0 + TRG_OPT_DATA_CHANGED) NULL 0)
].

Definition Device1_DSCH1_nodes32 : list (addr * ModelNode) := [
  (iedModel_Device1_DSCH1_SchdAbsTm_time_23,
   DataAttribute NULL &iedModel_Device1_DSCH1_SchdAbsTm_time &iedModel_Device1_DSCH1_SchdAbsTm_time_24 NULL 0 23 IEC61850_FC_SP IEC61850_TIMESTAMP
     (0 + TRG_OPT_DATA_CHANGED) NULL 0);
  (iedModel_Device1_DSCH1_SchdAbsTm_time_24,
   DataAttribute NULL &iedModel_Device1_DSCH1_SchdAbsTm_time &iedModel_Device1_DSCH1_SchdAbsTm_time_25 NULL 0 24 IEC61850_FC_SP IEC61850_TIMESTAMP
     (0 + TRG_OPT_DATA_CHANGED) NULL 0);
  (iedModel_Device1_DSCH1_SchdAbsTm_time_25,
   DataAttribute NULL &iedModel_Device1_DSCH1_SchdAbsTm_time &iedModel_Device1_DSCH1_SchdAbsTm_time_26 NULL 0 25 IEC61850_FC_SP IEC61850_TIMESTAMP
     (0 + TRG_OPT_DATA_CHANGED) NULL 0);
  (iedModel_Device1_DSCH1_SchdAbsTm_time_26,
   DataAttribute NULL &iedModel_Device1_DSCH1_SchdAbsTm_time &iedModel_Device1_DSCH1_SchdAbsTm_time_27 NULL 0 26 IEC61850_FC_SP IEC61850_TIMESTAMP
     (0 + TRG_OPT_DATA_CHANGED) NULL 0);
  (iedModel_Device1_DSCH1_SchdAbsTm_time_27,
   DataAttribute NULL &iedModel_Device1_DSCH1_SchdAbsTm_time &iedModel_Device1_DSCH1_SchdAbsTm_time_28 NULL 0 27 IEC61850_FC_SP IEC61850_TIMESTAMP
     (0 + TRG_OPT_DATA_CHANGED) NULL 0);
  (iedModel_Device1_DSCH1_SchdAbsTm_time_28,
   DataAttribute NULL &iedModel_Device1_DSCH1_SchdAbsTm_time &iedModel_Device1_DSCH1_SchdAbsTm_time_29 NULL 0 28 IEC61850_FC_SP IEC61850_TIMESTAMP
     (0 + TRG_OPT_DATA_CHANGED) NULL 0);
  (iedModel_Device1_DSCH1_SchdAbsTm_time_29,
   DataAttribute NULL &iedModel_Device1_DSCH1_SchdAbsTm_time &iedModel_Device1_DSCH1_SchdAbsTm_time_30 NULL 0 29 IEC61850_FC_SP IEC61850_TIMESTAMP
     (0 + TRG_OPT_DATA_CHANGED) NULL 0);
  (iedModel_Device1_DSCH1_SchdAbsTm_time_30,
   DataAttribute NULL &iedModel_Device1_DSCH1_SchdAbsTm_time &iedModel_Device1_DSCH1_SchdAbsTm_time_31 NULL 0 30 IEC61850_FC_SP IEC61850_TIMESTAMP
     (0 + TRG_OPT_DATA_CHANGED) NULL 0);
  (iedModel_Device1_DSCH1_SchdAbsTm_time_31,
   DataAttribute NULL &iedModel_Device1_DSCH1_SchdAbsTm_time &iedModel_Device1_DSCH1_SchdAbsTm_time_32 NULL 0 31 IEC61850_FC_SP IEC61850_TIMESTAMP
     (0 + TRG_OPT_DATA_CHANGED) NULL 0);
  (iedModel_Device1_DSCH1_SchdAbsTm_time_32,
   DataAttribute NULL &iedModel_Device1_DSCH1_SchdAbsTm_time &iedModel_Device1_DSCH1_SchdAbsTm_time_33 NULL 0 32 IEC61850_FC_SP IEC61850_TIMESTAMP
     (0 + TRG_OPT_DATA_CHANGED) NULL 0)
].

Definition Device1_DSCH1_nodes33 : list (addr * ModelNode) := [
  (iedModel_Device1_DSCH1_SchdAbsTm_time_33,
   DataAttribute NULL &iedModel_Device1_DSCH1_SchdAbsTm_time &iedModel_Device1_DSCH1_SchdAbsTm_time_34 NULL 0 33 IEC61850_FC_SP IEC61850_TIMESTAMP
     (0 + TRG_OPT_DATA_CHANGED) NULL 0);
  (iedModel_Device1_DSCH1_SchdAbsTm_time_34,
   DataAttribute NULL &iedModel_Device1_DSCH1_SchdAbsTm_time &iedModel_Device1_DSCH1_SchdAbsTm_time_35 NULL 0 34 IEC61850_FC_SP IEC61850_TIMESTAMP
     (0 + TRG_OPT_DATA_CHANGED) NULL 0);
  (iedModel_Device1_DSCH1_SchdAbsTm_time_35,
   DataAttribute NULL &iedModel_Device1_DSCH1_SchdAbsTm_time &iedModel_Device1_DSCH1_SchdAbsTm_time_36 NULL 0 35 IEC61850_FC_SP IEC61850_TIMESTAMP
     (0 + TRG_OPT_DATA_CHANGED) NULL 0);
  (iedModel_Device1_DSCH1_SchdAbsTm_time_36,
   DataAttribute NULL &iedModel_Device1_DSCH1_SchdAbsTm_time &iedModel_Device1_DSCH1_SchdAbsTm_time_37 NULL 0 36 IEC61850_FC_SP IEC61850_TIMESTAMP
     (0 + TRG_OPT_DATA_CHANGED) NULL 0);
  (iedModel_Device1_DSCH1_SchdAbsTm_time_37,
   DataAttribute NULL &iedModel_Device1_DSCH1_SchdAbsTm_time &iedModel_Device1_DSCH1_SchdAbsTm_time_38 NULL 0 37 IEC61850_FC_SP IEC61850_TIMESTAMP
     (0 + TRG_OPT_DATA_CHANGED) NULL 0);
  (iedModel_Device1_DSCH1_SchdAbsTm_time_38,
   DataAttribute NULL &iedModel_Device1_DSCH1_SchdAbsTm_time &iedModel_Device1_DSCH1_SchdAbsTm_time_39 NULL 0 38 IEC61850_FC_SP IEC61850_TIMESTAMP
     (0 + TRG_OPT_DATA_CHANGED) NULL 0);
  (iedModel_Device1_DSCH1_SchdAbsTm_time_39,
   DataAttribute NULL &iedModel_Device1_DSCH1_SchdAbsTm_time &iedModel_Device1_DSCH1_SchdAbsTm_time_40 NULL 0 39 IEC61850_FC_SP IEC61850_TIMESTAMP
     (0 + TRG_OPT_DATA_CHANGED) NULL 0);
  (iedModel_Device1_DSCH1_SchdAbsTm_time_40,
   DataAttribute NULL &iedModel_Device1_DSCH1_SchdAbsTm_time &iedModel_Device1_DSCH1_SchdAbsTm_time_41 NULL 0 40 IEC61850_FC_SP IEC61850_TIMESTAMP
     (0 + TRG_OPT_DATA_CHANGED) NULL 0);
  (iedModel_Device1_DSCH1_SchdAbsTm_time_41,
   DataAttribute NULL &iedModel_Device1_DSCH1_SchdAbsTm_time &iedModel_Device1_DSCH1_SchdAbsTm_time_42 NULL 0 41 IEC61850_FC_SP IEC61850_TIMESTAMP
     (0 + TRG_OPT_DATA_CHANGED) NULL 0);
  (iedModel_Device1_DSCH1_SchdAbsTm_time_42,
   DataAttribute NULL &iedModel_Device1_DSCH1_SchdAbsTm_time &iedModel_Device1_DSCH1_SchdAbsTm_time_43 NULL 0 42 IEC61850_FC_SP IEC61850_TIMESTAMP
     (0 + TRG_OPT_DATA_CHANGED) NULL 0)
].

Definition Device1_DSCH1_nodes34 : list (addr * ModelNode) := [
  (iedModel_Device1_DSCH1_SchdAbsTm_time_43,
   DataAttribute NULL &iedModel_Device1_DSCH1_SchdAbsTm_time &iedModel_Device1_DSCH1_SchdAbsTm_time_44 NULL 0 43 IEC61850_FC_SP IEC61850_TIMESTAMP
     (0 + TRG_OPT_DATA_CHANGED) NULL 0);
  (iedModel_Device1_DSCH1_SchdAbsTm_time_44,
   DataAttribute NULL &iedModel_Device1_DSCH1_SchdAbsTm_time &iedModel_Device1_DSCH1_SchdAbsTm_time_45 NULL 0 44 IEC61850_FC_SP IEC61850_TIMESTAMP
     (0 + TRG_OPT_DATA_CHANGED) NULL 0);
  (iedModel_Device1_DSCH1_SchdAbsTm_time_45,
   DataAttribute NULL &iedModel_Device1_DSCH1_SchdAbsTm_time &iedModel_Device1_DSCH1_SchdAbsTm_time_46 NULL 0 45 IEC61850_FC_SP IEC61850_TIMESTAMP
     (0 + TRG_OPT_DATA_CHANGED) NULL 0);
  (iedModel_Device1_DSCH1_SchdAbsTm_time_46,
   DataAttribute NULL &iedModel_Device1_DSCH1_SchdAbsTm_time &iedModel_Device1_DSCH1_SchdAbsTm_time_47 NULL 0 46 IEC61850_FC_SP IEC61850_TIMESTAMP
     (0 + TRG_OPT_DATA_CHANGED) NULL 0);
  (iedModel_Device1_DSCH1_SchdAbsTm_time_47,
   DataAttribute NULL &iedModel_Device1_DSCH1_SchdAbsTm_time &iedModel_Device1_DSCH1_SchdAbsTm_time_48 NULL 0 47 IEC61850_FC_SP IEC61850_TIMESTAMP
     (0 + TRG_OPT_DATA_CHANGED) NULL 0);
  (iedModel_Device1_DSCH1_SchdAbsTm_time_48,
   DataAttribute NULL &iedModel_Device1_DSCH1_SchdAbsTm_time &iedModel_Device1_DSCH1_SchdAbsTm_time_49 NULL 0 48 IEC61850_FC_SP IEC61850_TIMESTAMP
     (0 + TRG_OPT_DATA_CHANGED) NULL 0);
  (iedModel_Device1_DSCH1_SchdAbsTm_time_49,
   DataAttribute NULL &iedModel_Device1_DSCH1_SchdAbsTm_time &iedModel_Device1_DSCH1_SchdAbsTm_time_50 NULL 0 49 IEC61850_FC_SP IEC61850_TIMESTAMP
     (0 + TRG_OPT_DATA_CHANGED) NULL 0);
  (iedModel_Device1_DSCH1_SchdAbsTm_time_50,
   DataAttribute NULL &iedModel_Device1_DSCH1_SchdAbsTm_time &iedModel_Device1_DSCH1_SchdAbsTm_time_51 NULL 0 50 IEC61850_FC_SP IEC61850_TIMESTAMP
     (0 + TRG_OPT_DATA_CHANGED) NULL 0);
  (iedModel_Device1_DSCH1_SchdAbsTm_time_51,
   DataAttribute NULL &iedModel_Device1_DSCH1_SchdAbsTm_time &iedModel_Device1_DSCH1_SchdAbsTm_time_52 NULL 0 51 IEC61850_FC_SP IEC61850_TIMESTAMP
     (0 + TRG_OPT_DATA_CHANGED) NULL 0);
  (iedModel_Device1_DSCH1_SchdAbsTm_time_52,
   DataAttribute NULL &iedModel_Device1_DSCH1_SchdAbsTm_time &iedModel_Device1_DSCH1_SchdAbsTm_time_53 NULL 0 52 IEC61850_FC_SP IEC61850_TIMESTAMP
     (0 + TRG_OPT_DATA_CHANGED) NULL 0)
].

Definition Device1_DSCH1_nodes35 : list (addr * ModelNode) := [
  (iedModel_Device1_DSCH1_SchdAbsTm_time_53,
   DataAttribute NULL &iedModel_Device1_DSCH1_SchdAbsTm_time &iedModel_Device1_DSCH1_SchdAbsTm_time_54 NULL 0 53 IEC61850_FC_SP IEC61850_TIMESTAMP
     (0 + TRG_OPT_DATA_CHANGED) NULL 0);
  (iedModel_Device1_DSCH1_SchdAbsTm_time_54,
   DataAttribute NULL &iedModel_Device1_DSCH1_SchdAbsTm_time &iedModel_Device1_DSCH1_SchdAbsTm_time_55 NULL 0 54 IEC61850_FC_SP IEC61850_TIMESTAMP
     (0 + TRG_OPT_DATA_CHANGED) NULL 0);
  (iedModel_Device1_DSCH1_SchdAbsTm_time_55,
   DataAttribute NULL &iedModel_Device1_DSCH1_SchdAbsTm_time &iedModel_Device1_DSCH1_SchdAbsTm_time_56 NULL 0 55 IEC61850_FC_SP IEC61850_TIMESTAMP
     (0 + TRG_OPT_DATA_CHANGED) NULL 0);
  (iedModel_Device1_DSCH1_SchdAbsTm_time_56,
   DataAttribute NULL &iedModel_Device1_DSCH1_SchdAbsTm_time &iedModel_Device1_DSCH1_SchdAbsTm_time_57 NULL 0 56 IEC61850_FC_SP IEC61850_TIMESTAMP
     (0 + TRG_OPT_DATA_CHANGED) NULL 0);
  (iedModel_Device1_DSCH1_SchdAbsTm_time_57,
   DataAttribute NULL &iedModel_Device1_DSCH1_SchdAbsTm_time &iedModel_Device1_DSCH1_SchdAbsTm_time_58 NULL 0 57 IEC61850_FC_SP IEC61850_TIMESTAMP
     (0 + TRG_OPT_DATA_CHANGED) NULL 0);
  (iedModel_Device1_DSCH1_SchdAbsTm_time_58,
   DataAttribute NULL &iedModel_Device1_DSCH1_SchdAbsTm_time &iedModel_Device1_DSCH1_SchdAbsTm_time_59 NULL 0 58 IEC61850_FC_SP IEC61850_TIMESTAMP
     (0 + TRG_OPT_DATA_CHANGED) NULL 0);
  (iedModel_Device1_DSCH1_SchdAbsTm_time_59,
   DataAttribute NULL &iedModel_Device1_DSCH1_SchdAbsTm_time &iedModel_Device1_DSCH1_SchdAbsTm_time_60 NULL 0 59 IEC61850_FC_SP IEC61850_TIMESTAMP
     (0 + TRG_OPT_DATA_CHANGED) NULL 0);
  (iedModel_Device1_DSCH1_SchdAbsTm_time_60,
   DataAttribute NULL &iedModel_Device1_DSCH1_SchdAbsTm_time &iedModel_Device1_DSCH1_SchdAbsTm_time_61 NULL 0 60 IEC61850_FC_SP IEC61850_TIMESTAMP
     (0 + TRG_OPT_DATA_CHANGED) NULL 0);
  (iedModel_Device1_DSCH1_SchdAbsTm_time_61,
   DataAttribute NULL &iedModel_Device1_DSCH1_SchdAbsTm_time &iedModel_Device1_DSCH1_SchdAbsTm_time_62 NULL 0 61 IEC61850_FC_SP IEC61850_TIMESTAMP
     (0 + TRG_OPT_DATA_CHANGED) NULL 0);
  (iedModel_Device1_DSCH1_SchdAbsTm_time_62,
   DataAttribute NULL &iedModel_Device1_DSCH1_SchdAbsTm_time &iedModel_Device1_DSCH1_SchdAbsTm_time_63 NULL 0 62 IEC61850_FC_SP IEC61850_TIMESTAMP
     (0 + TRG_OPT_DATA_CHANGED) NULL 0)
].

Definition Device1_DSCH1_nodes36 : list (addr * ModelNode) := [
  (iedModel_Device1_DSCH1_SchdAbsTm_time_63,
   DataAttribute NULL &iedModel_Device1_DSCH1_SchdAbsTm_time &iedModel_Device1_DSCH1_SchdAbsTm_time_64 NULL 0 63 IEC61850_FC_SP IEC61850_TIMESTAMP
     (0 + TRG_OPT_DATA_CHANGED) NULL 0);
  (iedModel_Device1_DSCH1_SchdAbsTm_time_64,
   DataAttribute NULL &iedModel_Device1_DSCH1_SchdAbsTm_time &iedModel_Device1_DSCH1_SchdAbsTm_time_65 NULL 0 64 IEC61850_FC_SP IEC61850_TIMESTAMP
     (0 + TRG_OPT_DATA_CHANGED) NULL 0);
  (iedModel_Device1_DSCH1_SchdAbsTm_time_65,
   DataAttribute NULL &iedModel_Device1_DSCH1_SchdAbsTm_time &iedModel_Device1_DSCH1_SchdAbsTm_time_66 NULL 0 65 IEC61850_FC_SP IEC61850_TIMESTAMP
     (0 + TRG_OPT_DATA_CHANGED) NULL 0);
  (iedModel_Device1_DSCH1_SchdAbsTm_time_66,
   DataAttribute NULL &iedModel_Device1_DSCH1_SchdAbsTm_time &iedModel_Device1_DSCH1_SchdAbsTm_time_67 NULL 0 66 IEC61850_FC_SP IEC61850_TIMESTAMP
     (0 + TRG_OPT_DATA_CHANGED) NULL 0);
  (iedModel_Device1_DSCH1_SchdAbsTm_time_67,
   DataAttribute NULL &iedModel_Device1_DSCH1_SchdAbsTm_time &iedModel_Device1_DSCH1_SchdAbsTm_time_68 NULL 0 67 IEC61850_FC_SP IEC61850_TIMESTAMP
     (0 + TRG_OPT_DATA_CHANGED) NULL 0);
  (iedModel_Device1_DSCH1_SchdAbsTm_time_68,
   DataAttribute NULL &iedModel_Device1_DSCH1_SchdAbsTm_time &iedModel_Device1_DSCH1_SchdAbsTm_time_69 NULL 0 68 IEC61850_FC_SP IEC61850_TIMESTAMP
     (0 + TRG_OPT_DATA_CHANGED) NULL 0);
  (iedModel_Device1_DSCH1_SchdAbsTm_time_69,
   DataAttribute NULL &iedModel_Device1_DSCH1_SchdAbsTm_time &iedModel_Device1_DSCH1_SchdAbsTm_time_70 NULL 0 69 IEC61850_FC_SP IEC61850_TIMESTAMP
     (0 + TRG_OPT_DATA_CHANGED) NULL 0);
  (iedModel_Device1_DSCH1_SchdAbsTm_time_70,
   DataAttribute NULL &iedModel_Device1_DSCH1_SchdAbsTm_time &iedModel_Device1_DSCH1_SchdAbsTm_time_71 NULL 0 70 IEC61850_FC_SP IEC61850_TIMESTAMP
     (0 + TRG_OPT_DATA_CHANGED) NULL 0);
  (iedModel_Device1_DSCH1_SchdAbsTm_time_71,
   DataAttribute NULL &iedModel_Device1_DSCH1_SchdAbsTm_time &iedModel_Device1_DSCH1_SchdAbsTm_time_72 NULL 0 71 IEC61850_FC_SP IEC61850_TIMESTAMP
     (0 + TRG_OPT_DATA_CHANGED) NULL 0);
  (iedModel_Device1_DSCH1_SchdAbsTm_time_72,
   DataAttribute NULL &iedModel_Device1_DSCH1_SchdAbsTm_time &iedModel_Device1_DSCH1_SchdAbsTm_time_73 NULL 0 72 IEC61850_FC_SP IEC61850_TIMESTAMP
     (0 + TRG_OPT_DATA_CHANGED) NULL 0)
].

Definition Device1_DSCH1_nodes37 : list (addr * ModelNode) := [
  (iedModel_Device1_DSCH1_SchdAbsTm_time_73,
   DataAttribute NULL &iedModel_Device1_DSCH1_SchdAbsTm_time &iedModel_Device1_DSCH1_SchdAbsTm_time_74 NULL 0 73 IEC61850_FC_SP IEC61850_TIMESTAMP
     (0 + TRG_OPT_DATA_CHANGED) NULL 0);
  (iedModel_Device1_DSCH1_SchdAbsTm_time_74,
   DataAttribute NULL &iedModel_Device1_DSCH1_SchdAbsTm_time &iedModel_Device1_DSCH1_SchdAbsTm_time_75 NULL 0 74 IEC61850_FC_SP IEC61850_TIMESTAMP
     (0 + TRG_OPT_DATA_CHANGED) NULL 0);
  (iedModel_Device1_DSCH1_SchdAbsTm_time_75,
   DataAttribute NULL &iedModel_Device1_DSCH1_SchdAbsTm_time &iedModel_Device1_DSCH1_SchdAbsTm_time_76 NULL 0 75 IEC61850_FC_SP IEC61850_TIMESTAMP
     (0 + TRG_OPT_DATA_CHANGED) NULL 0);
  (iedModel_Device1_DSCH1_SchdAbsTm_time_76,
   DataAttribute NULL &iedModel_Device1_DSCH1_SchdAbsTm_time &iedModel_Device1_DSCH1_SchdAbsTm_time_77 NULL 0 76 IEC61850_FC_SP IEC61850_TIMESTAMP
     (0 + TRG_OPT_DATA_CHANGED) NULL 0);
  (iedModel_Device1_DSCH1_SchdAbsTm_time_77,
   DataAttribute NULL &iedModel_Device1_DSCH1_SchdAbsTm_time &iedModel_Device1_DSCH1_SchdAbsTm_time_78 NULL 0 77 IEC61850_FC_SP IEC61850_TIMESTAMP
     (0 + TRG_OPT_DATA_CHANGED) NULL 0);
  (iedModel_Device1_DSCH1_SchdAbsTm_time_78,
   DataAttribute NULL &iedModel_Device1_DSCH1_SchdAbsTm_time &iedModel_Device1_DSCH1_SchdAbsTm_time_79 NULL 0 78 IEC61850_FC_SP IEC61850_TIMESTAMP
     (0 + TRG_OPT_DATA_CHANGED) NULL 0);
  (iedModel_Device1_DSCH1_SchdAbsTm_time_79,
   DataAttribute NULL &iedModel_Device1_DSCH1_SchdAbsTm_time &iedModel_Device1_DSCH1_SchdAbsTm_time_80 NULL 0 79 IEC61850_FC_SP IEC61850_TIMESTAMP
     (0 + TRG_OPT_DATA_CHANGED) NULL 0);
  (iedModel_Device1_DSCH1_SchdAbsTm_time_80,
   DataAttribute NULL &iedModel_Device1_DSCH1_SchdAbsTm_time &iedModel_Device1_DSCH1_SchdAbsTm_time_81 NULL 0 80 IEC61850_FC_SP IEC61850_TIMESTAMP
     (0 + TRG_OPT_DATA_CHANGED) NULL 0);
  (iedModel_Device1_DSCH1_SchdAbsTm_time_81,
   DataAttribute NULL &iedModel_Device1_DSCH1_SchdAbsTm_time &iedModel_Device1_DSCH1_SchdAbsTm_time_82 NULL 0 81 IEC61850_FC_SP IEC61850_TIMESTAMP
     (0 + TRG_OPT_DATA_CHANGED) NULL 0);
  (iedModel_Device1_DSCH1_SchdAbsTm_time_82,
   DataAttribute NULL &iedModel_Device1_DSCH1_SchdAbsTm_time &iedModel_Device1_DSCH1_SchdAbsTm_time_83 NULL 0 82 IEC61850_FC_SP IEC61850_TIMESTAMP
     (0 + TRG_OPT_DATA_CHANGED) NULL 0)
].

Definition Device1_DSCH1_nodes38 : list (addr * ModelNode) := [
  (iedModel_Device1_DSCH1_SchdAbsTm_time_83,
   DataAttribute NULL &iedModel_Device1_DSCH1_SchdAbsTm_time &iedModel_Device1_DSCH1_SchdAbsTm_time_84 NULL 0 83 IEC61850_FC_SP IEC61850_TIMESTAMP
     (0 + TRG_OPT_DATA_CHANGED) NULL 0);
  (iedModel_Device1_DSCH1_SchdAbsTm_time_84,
   DataAttribute NULL &iedModel_Device1_DSCH1_SchdAbsTm_time &iedModel_Device1_DSCH1_SchdAbsTm_time_85 NULL 0 84 IEC61850_FC_SP IEC61850_TIMESTAMP
     (0 + TRG_OPT_DATA_CHANGED) NULL 0);
  (iedModel_Device1_DSCH1_SchdAbsTm_time_85,
   DataAttribute NULL &iedModel_Device1_DSCH1_SchdAbsTm_time &iedModel_Device1_DSCH1_SchdAbsTm_time_86 NULL 0 85 IEC61850_FC_SP IEC61850_TIMESTAMP
     (0 + TRG_OPT_DATA_CHANGED) NULL 0);
  (iedModel_Device1_DSCH1_SchdAbsTm_time_86,
   DataAttribute NULL &iedModel_Device1_DSCH1_SchdAbsTm_time &iedModel_Device1_DSCH1_SchdAbsTm_time_87 NULL 0 86 IEC61850_FC_SP IEC61850_TIMESTAMP
     (0 + TRG_OPT_DATA_CHANGED) NULL 0);
  (iedModel_Device1_DSCH1_SchdAbsTm_time_87,
   DataAttribute NULL &iedModel_Device1_DSCH1_SchdAbsTm_time &iedModel_Device1_DSCH1_SchdAbsTm_time_88 NULL 0 87 IEC61850_FC_SP IEC61850_TIMESTAMP
     (0 + TRG_OPT_DATA_CHANGED) NULL 0);
  (iedModel_Device1_DSCH1_SchdAbsTm_time_88,
   DataAttribute NULL &iedModel_Device1_DSCH1_SchdAbsTm_time &iedModel_Device1_DSCH1_SchdAbsTm_time_89 NULL 0 88 IEC61850_FC_SP IEC61850_TIMESTAMP
     (0 + TRG_OPT_DATA_CHANGED) NULL 0);
  (iedModel_Device1_DSCH1_SchdAbsTm_time_89,
   DataAttribute NULL &iedModel_Device1_DSCH1_SchdAbsTm_time &iedModel_Device1_DSCH1_SchdAbsTm_time_90 NULL 0 89 IEC61850_FC_SP IEC61850_TIMESTAMP
     (0 + TRG_OPT_DATA_CHANGED) NULL 0);
  (iedModel_Device1_DSCH1_SchdAbsTm_time_90,
   DataAttribute NULL &iedModel_Device1_DSCH1_SchdAbsTm_time &iedModel_Device1_DSCH1_SchdAbsTm_time_91 NULL 0 90 IEC61850_FC_SP IEC61850_TIMESTAMP
     (0 + TRG_OPT_DATA_CHANGED) NULL 0);
  (iedModel_Device1_DSCH1_SchdAbsTm_time_91,
   DataAttribute NULL &iedModel_Device1_DSCH1_SchdAbsTm_time &iedModel_Device1_DSCH1_SchdAbsTm_time_92 NULL 0 91 IEC61850_FC_SP IEC61850_TIMESTAMP
     (0 + TRG_OPT_DATA_CHANGED) NULL 0);
  (iedModel_Device1_DSCH1_SchdAbsTm_time_92,
   DataAttribute NULL &iedModel_Device1_DSCH1_SchdAbsTm_time &iedModel_Device1_DSCH1_SchdAbsTm_time_93 NULL 0 92 IEC61850_FC_SP IEC61850_TIMESTAMP
     (0 + TRG_OPT_DATA_CHANGED) NULL 0)
].

Definition Device1_DSCH1_nodes39 : list (addr * ModelNode) := [
  (iedModel_Device1_DSCH1_SchdAbsTm_time_93,
   DataAttribute NULL &iedModel_Device1_DSCH1_SchdAbsTm_time &iedModel_Device1_DSCH1_SchdAbsTm_time_94 NULL 0 93 IEC61850_FC_SP IEC61850_TIMESTAMP
     (0 + TRG_OPT_DATA_CHANGED) NULL 0);
  (iedModel_Device1_DSCH1_SchdAbsTm_time_94,
   DataAttribute NULL &iedModel_Device1_DSCH1_SchdAbsTm_time &iedModel_Device1_DSCH1_SchdAbsTm_time_95 NULL 0 94 IEC61850_FC_SP IEC61850_TIMESTAMP
     (0 + TRG_OPT_DATA_CHANGED) NULL 0);
  (iedModel_Device1_DSCH1_SchdAbsTm_time_95,
   DataAttribute NULL &iedModel_Device1_DSCH1_SchdAbsTm_time &iedModel_Device1_DSCH1_SchdAbsTm_time_96 NULL 0 95 IEC61850_FC_SP IEC61850_TIMESTAMP
     (0 + TRG_OPT_DATA_CHANGED) NULL 0);
  (iedModel_Device1_DSCH1_SchdAbsTm_time_96,
   DataAttribute NULL &iedModel_Device1_DSCH1_SchdAbsTm_time &iedModel_Device1_DSCH1_SchdAbsTm_time_97 NULL 0 96 IEC61850_FC_SP IEC61850_TIMESTAMP
     (0 + TRG_OPT_DATA_CHANGED) NULL 0);
  (iedModel_Device1_DSCH1_SchdAbsTm_time_97,
   DataAttribute NULL &iedModel_Device1_DSCH1_SchdAbsTm_time &iedModel_Device1_DSCH1_SchdAbsTm_time_98 NULL 0 97 IEC61850_FC_SP IEC61850_TIMESTAMP
     (0 + TRG_OPT_DATA_CHANGED) NULL 0);
  (iedModel_Device1_DSCH1_SchdAbsTm_time_98,
   DataAttribute NULL &iedModel_Device1_DSCH1_SchdAbsTm_time &iedModel_Device1_DSCH1_SchdAbsTm_time_99 NULL 0 98 IEC61850_FC_SP IEC61850_TIMESTAMP
     (0 + TRG_OPT_DATA_CHANGED) NULL 0);
  (iedModel_Device1_DSCH1_SchdAbsTm_time_99,
   DataAttribute NULL &iedModel_Device1_DSCH1_SchdAbsTm_time &iedModel_Device1_DSCH1_SchdAbsTm_time_100 NULL 0 99 IEC61850_FC_SP IEC61850_TIMESTAMP
     (0 + TRG_OPT_DATA_CHANGED) NULL 0);
  (iedModel_Device1_DSCH1_SchdAbsTm_time_100,
   DataAttribute NULL &iedModel_Device1_DSCH1_SchdAbsTm_time &iedModel_Device1_DSCH1_SchdAbsTm_time_101 NULL 0 100 IEC61850_FC_SP IEC61850_TIMESTAMP
     (0 + TRG_OPT_DATA_CHANGED) NULL 0);
  (iedModel_Device1_DSCH1_SchdAbsTm_time_101,
   DataAttribute NULL &iedModel_Device1_DSCH1_SchdAbsTm_time &iedModel_Device1_DSCH1_SchdAbsTm_time_102 NULL 0 101 IEC61850_FC_SP IEC61850_TIMESTAMP
     (0 + TRG_OPT_DATA_CHANGED) NULL 0);
  (iedModel_Device1_DSCH1_SchdAbsTm_time_102,
   DataAttribute NULL &iedModel_Device1_DSCH1_SchdAbsTm_time &iedModel_Device1_DSCH1_SchdAbsTm_time_103 NULL 0 102 IEC61850_FC_SP IEC61850_TIMESTAMP
     (0 + TRG_OPT_DATA_CHANGED) NULL 0)
].

Definition Device1_DSCH1_nodes40 : list (addr * ModelNode) := [
  (iedModel_Device1_DSCH1_SchdAbsTm_time_103,
   DataAttribute NULL &iedModel_Device1_DSCH1_SchdAbsTm_time &iedModel_Device1_DSCH1_SchdAbsTm_time_104 NULL 0 103 IEC61850_FC_SP IEC61850_TIMESTAMP
     (0 + TRG_OPT_DATA_CHANGED) NULL 0);
  (iedModel_Device1_DSCH1_SchdAbsTm_time_104,
   DataAttribute NULL &iedModel_Device1_DSCH1_SchdAbsTm_time &iedModel_Device1_DSCH1_SchdAbsTm_time_105 NULL 0 104 IEC61850_FC_SP IEC61850_TIMESTAMP
     (0 + TRG_OPT_DATA_CHANGED) NULL 0);
  (iedModel_Device1_DSCH1_SchdAbsTm_time_105,
   DataAttribute NULL &iedModel_Device1_DSCH1_SchdAbsTm_time &iedModel_Device1_DSCH1_SchdAbsTm_time_106 NULL 0 105 IEC61850_FC_SP IEC61850_TIMESTAMP
     (0 + TRG_OPT_DATA_CHANGED) NULL 0);
  (iedModel_Device1_DSCH1_SchdAbsTm_time_106,
   DataAttribute NULL &iedModel_Device1_DSCH1_SchdAbsTm_time &iedModel_Device1_DSCH1_SchdAbsTm_time_107 NULL 0 106 IEC61850_FC_SP IEC61850_TIMESTAMP
     (0 + TRG_OPT_DATA_CHANGED) NULL 0);
  (iedModel_Device1_DSCH1_SchdAbsTm_time_107,
   DataAttribute NULL &iedModel_Device1_DSCH1_SchdAbsTm_time &iedModel_Device1_DSCH1_SchdAbsTm_time_108 NULL 0 107 IEC61850_FC_SP IEC61850_TIMESTAMP
     (0 + TRG_OPT_DATA_CHANGED) NULL 0);
  (iedModel_Device1_DSCH1_SchdAbsTm_time_108,
   DataAttribute NULL &iedModel_Device1_DSCH1_SchdAbsTm_time &iedModel_Device1_DSCH1_SchdAbsTm_time_109 NULL 0 108 IEC61850_FC_SP IEC61850_TIMESTAMP
     (0 + TRG_OPT_DATA_CHANGED) NULL 0);
  (iedModel_Device1_DSCH1_SchdAbsTm_time_109,
   DataAttribute NULL &iedModel_Device1_DSCH1_SchdAbsTm_time &iedModel_Device1_DSCH1_SchdAbsTm_time_110 NULL 0 109 IEC61850_FC_SP IEC61850_TIMESTAMP
     (0 + TRG_OPT_DATA_CHANGED) NULL 0);
  (iedModel_Device1_DSCH1_SchdAbsTm_time_110,
   DataAttribute NULL &iedModel_Device1_DSCH1_SchdAbsTm_time &iedModel_Device1_DSCH1_SchdAbsTm_time_111 NULL 0 110 IEC61850_FC_SP IEC61850_TIMESTAMP
     (0 + TRG_OPT_DATA_CHANGED) NULL 0);
  (iedModel_Device1_DSCH1_SchdAbsTm_time_111,
   DataAttribute NULL &iedModel_Device1_DSCH1_SchdAbsTm_time &iedModel_Device1_DSCH1_SchdAbsTm_time_112 NULL 0 111 IEC61850_FC_SP IEC61850_TIMESTAMP
     (0 + TRG_OPT_DATA_CHANGED) NULL 0);
  (iedModel_Device1_DSCH1_SchdAbsTm_time_112,
   DataAttribute NULL &iedModel_Device1_DSCH1_SchdAbsTm_time &iedModel_Device1_DSCH1_SchdAbsTm_time_113 NULL 0 112 IEC61850_FC_SP IEC61850_TIMESTAMP
     (0 + TRG_OPT_DATA_CHANGED) NULL 0)
].

Definition Device1_DSCH1_nodes41 : list (addr * ModelNode) := [
  (iedModel_Device1_DSCH1_SchdAbsTm_time_113,
   DataAttribute NULL &iedModel_Device1_DSCH1_SchdAbsTm_time &iedModel_Device1_DSCH1_SchdAbsTm_time_114 NULL 0 113 IEC61850_FC_SP IEC61850_TIMESTAMP
     (0 + TRG_OPT_DATA_CHANGED) NULL 0);
  (iedModel_Device1_DSCH1_SchdAbsTm_time_114,
   DataAttribute NULL &iedModel_Device1_DSCH1_SchdAbsTm_time &iedModel_Device1_DSCH1_SchdAbsTm_time_115 NULL 0 114 IEC61850_FC_SP IEC61850_TIMESTAMP
     (0 + TRG_OPT_DATA_CHANGED) NULL 0);
  (iedModel_Device1_DSCH1_SchdAbsTm_time_115,
   DataAttribute NULL &iedModel_Device1_DSCH1_SchdAbsTm_time &iedModel_Device1_DSCH1_SchdAbsTm_time_116 NULL 0 115 IEC61850_FC_SP IEC61850_TIMESTAMP
     (0 + TRG_OPT_DATA_CHANGED) NULL 0);
  (iedModel_Device1_DSCH1_SchdAbsTm_time_116,
   DataAttribute NULL &iedModel_Device1_DSCH1_SchdAbsTm_time &iedModel_Device1_DSCH1_SchdAbsTm_time_117 NULL 0 116 IEC61850_FC_SP IEC61850_TIMESTAMP
     (0 + TRG_OPT_DATA_CHANGED) NULL 0);
  (iedModel_Device1_DSCH1_SchdAbsTm_time_117,
   DataAttribute NULL &iedModel_Device1_DSCH1_SchdAbsTm_time &iedModel_Device1_DSCH1_SchdAbsTm_time_118 NULL 0 117 IEC61850_FC_SP IEC61850_TIMESTAMP
     (0 + TRG_OPT_DATA_CHANGED) NULL 0);
  (iedModel_Device1_DSCH1_SchdAbsTm_time_118,
   DataAttribute NULL &iedModel_Device1_DSCH1_SchdAbsTm_time &iedModel_Device1_DSCH1_SchdAbsTm_time_119 NULL 0 118 IEC61850_FC_SP IEC61850_TIMESTAMP
     (0 + TRG_OPT_DATA_CHANGED) NULL 0);
  (iedModel_Device1_DSCH1_SchdAbsTm_time_119,
   DataAttribute NULL &iedModel_Device1_DSCH1_SchdAbsTm_time &iedModel_Device1_DSCH1_SchdAbsTm_time_120 NULL 0 119 IEC61850_FC_SP IEC61850_TIMESTAMP
     (0 + TRG_OPT_DATA_CHANGED) NULL 0);
  (iedModel_Device1_DSCH1_SchdAbsTm_time_120,
   DataAttribute NULL &iedModel_Device1_DSCH1_SchdAbsTm_time &iedModel_Device1_DSCH1_SchdAbsTm_time_121 NULL 0 120 IEC61850_FC_SP IEC61850_TIMESTAMP
     (0 + TRG_OPT_DATA_CHANGED) NULL 0);
  (iedModel_Device1_DSCH1_SchdAbsTm_time_121,
   DataAttribute NULL &iedModel_Device1_DSCH1_SchdAbsTm_time &iedModel_Device1_DSCH1_SchdAbsTm_time_122 NULL 0 121 IEC61850_FC_SP IEC61850_TIMESTAMP
     (0 + TRG_OPT_DATA_CHANGED) NULL 0);
  (iedModel_Device1_DSCH1_SchdAbsTm_time_122,
   DataAttribute NULL &iedModel_Device1_DSCH1_SchdAbsTm_time &iedModel_Device1_DSCH1_SchdAbsTm_time_123 NULL 0 122 IEC61850_FC_SP IEC61850_TIMESTAMP
     (0 + TRG_OPT_DATA_CHANGED) NULL 0)
].

Definition Device1_DSCH1_nodes42 : list (addr * ModelNode) := [
  (iedModel_Device1_DSCH1_SchdAbsTm_time_123,
   DataAttribute NULL &iedModel_Device1_DSCH1_SchdAbsTm_time &iedModel_Device1_DSCH1_SchdAbsTm_time_124 NULL 0 123 IEC61850_FC_SP IEC61850_TIMESTAMP
     (0 + TRG_OPT_DATA_CHANGED) NULL 0);
  (iedModel_Device1_DSCH1_SchdAbsTm_time_124,
   DataAttribute NULL &iedModel_Device1_DSCH1_SchdAbsTm_time &iedModel_Device1_DSCH1_SchdAbsTm_time_125 NULL 0 124 IEC61850_FC_SP IEC61850_TIMESTAMP
     (0 + TRG_OPT_DATA_CHANGED) NULL 0);
  (iedModel_Device1_DSCH1_SchdAbsTm_time_125,
   DataAttribute NULL &iedModel_Device1_DSCH1_SchdAbsTm_time &iedModel_Device1_DSCH1_SchdAbsTm_time_126 NULL 0 125 IEC61850_FC_SP IEC61850_TIMESTAMP
     (0 + TRG_OPT_DATA_CHANGED) NULL 0);
  (iedModel_Device1_DSCH1_SchdAbsTm_time_126,
   DataAttribute NULL &iedModel_Device1_DSCH1_SchdAbsTm_time &iedModel_Device1_DSCH1_SchdAbsTm_time_127 NULL 0 126 IEC61850_FC_SP IEC61850_TIMESTAMP
     (0 + TRG_OPT_DATA_CHANGED) NULL 0);
  (iedModel_Device1_DSCH1_SchdAbsTm_time_127,
   DataAttribute NULL &iedModel_Device1_DSCH1_SchdAbsTm_time &iedModel_Device1_DSCH1_SchdAbsTm_time_128 NULL 0 127 IEC61850_FC_SP IEC61850_TIMESTAMP
     (0 + TRG_OPT_DATA_CHANGED) NULL 0);
  (iedModel_Device1_DSCH1_SchdAbsTm_time_128,
   DataAttribute NULL &iedModel_Device1_DSCH1_SchdAbsTm_time &iedModel_Device1_DSCH1_SchdAbsTm_time_129 NULL 0 128 IEC61850_FC_SP IEC61850_TIMESTAMP
     (0 + TRG_OPT_DATA_CHANGED) NULL 0);
  (iedModel_Device1_DSCH1_SchdAbsTm_time_129,
   DataAttribute NULL &iedModel_Device1_DSCH1_SchdAbsTm_time &iedModel_Device1_DSCH1_SchdAbsTm_time_130 NULL 0 129 IEC61850_FC_SP IEC61850_TIMESTAMP
     (0 + TRG_OPT_DATA_CHANGED) NULL 0);
  (iedModel_Device1_DSCH1_SchdAbsTm_time_130,
   DataAttribute NULL &iedModel_Device1_DSCH1_SchdAbsTm_time &iedModel_Device1_DSCH1_SchdAbsTm_time_131 NULL 0 130 IEC61850_FC_SP IEC61850_TIMESTAMP
     (0 + TRG_OPT_DATA_CHANGED) NULL 0);
  (iedModel_Device1_DSCH1_SchdAbsTm_time_131,
   DataAttribute NULL &iedModel_Device1_DSCH1_SchdAbsTm_time &iedModel_Device1_DSCH1_SchdAbsTm_time_132 NULL 0 131 IEC61850_FC_SP IEC61850_TIMESTAMP
     (0 + TRG_OPT_DATA_CHANGED) NULL 0);
  (iedModel_Device1_DSCH1_SchdAbsTm_time_132,
   DataAttribute NULL &iedModel_Device1_DSCH1_SchdAbsTm_time &iedModel_Device1_DSCH1_SchdAbsTm_time_133 NULL 0 132 IEC61850_FC_SP IEC61850_TIMESTAMP
     (0 + TRG_OPT_DATA_CHANGED) NULL 0)
].

Definition Device1_DSCH1_nodes43 : list (addr * ModelNode) := [
  (iedModel_Device1_DSCH1_SchdAbsTm_time_133,
   DataAttribute NULL &iedModel_Device1_DSCH1_SchdAbsTm_time &iedModel_Device1_DSCH1_SchdAbsTm_time_134 NULL 0 133 IEC61850_FC_SP IEC61850_TIMESTAMP
     (0 + TRG_OPT_DATA_CHANGED) NULL 0);
  (iedModel_Device1_DSCH1_SchdAbsTm_time_134,
   DataAttribute NULL &iedModel_Device1_DSCH1_SchdAbsTm_time &iedModel_Device1_DSCH1_SchdAbsTm_time_135 NULL 0 134 IEC61850_FC_SP IEC61850_TIMESTAMP
     (0 + TRG_OPT_DATA_CHANGED) NULL 0);
  (iedModel_Device1_DSCH1_SchdAbsTm_time_135,
   DataAttribute NULL &iedModel_Device1_DSCH1_SchdAbsTm_time &iedModel_Device1_DSCH1_SchdAbsTm_time_136 NULL 0 135 IEC61850_FC_SP IEC61850_TIMESTAMP
     (0 + TRG_OPT_DATA_CHANGED) NULL 0);
  (iedModel_Device1_DSCH1_SchdAbsTm_time_136,
   DataAttribute NULL &iedModel_Device1_DSCH1_SchdAbsTm_time &iedModel_Device1_DSCH1_SchdAbsTm_time_137 NULL 0 136 IEC61850_FC_SP IEC61850_TIMESTAMP
     (0 + TRG_OPT_DATA_CHANGED) NULL 0);
  (iedModel_Device1_DSCH1_SchdAbsTm_time_137,
   DataAttribute NULL &iedModel_Device1_DSCH1_SchdAbsTm_time &iedModel_Device1_DSCH1_SchdAbsTm_time_138 NULL 0 137 IEC61850_FC_SP IEC61850_TIMESTAMP
     (0 + TRG_OPT_DATA_CHANGED) NULL 0);
  (iedModel_Device1_DSCH1_SchdAbsTm_time_138,
   DataAttribute NULL &iedModel_Device1_DSCH1_SchdAbsTm_time &iedModel_Device1_DSCH1_SchdAbsTm_time_139 NULL 0 138 IEC61850_FC_SP IEC61850_TIMESTAMP
     (0 + TRG_OPT_DATA_CHANGED) NULL 0);
  (iedModel_Device1_DSCH1_SchdAbsTm_time_139,
   DataAttribute NULL &iedModel_Device1_DSCH1_SchdAbsTm_time &iedModel_Device1_DSCH1_SchdAbsTm_time_140 NULL 0 139 IEC61850_FC_SP IEC61850_TIMESTAMP
     (0 + TRG_OPT_DATA_CHANGED) NULL 0);
  (iedModel_Device1_DSCH1_SchdAbsTm_time_140,
   DataAttribute NULL &iedModel_Device1_DSCH1_SchdAbsTm_time &iedModel_Device1_DSCH1_SchdAbsTm_time_141 NULL 0 140 IEC61850_FC_SP IEC61850_TIMESTAMP
     (0 + TRG_OPT_DATA_CHANGED) NULL 0);
  (iedModel_Device1_DSCH1_SchdAbsTm_time_141,
   DataAttribute NULL &iedModel_Device1_DSCH1_SchdAbsTm_time &iedModel_Device1_DSCH1_SchdAbsTm_time_142 NULL 0 141 IEC61850_FC_SP IEC61850_TIMESTAMP
     (0 + TRG_OPT_DATA_CHANGED) NULL 0);
  (iedModel_Device1_DSCH1_SchdAbsTm_time_142,
   DataAttribute NULL &iedModel_Device1_DSCH1_SchdAbsTm_time &iedModel_Device1_DSCH1_SchdAbsTm_time_143 NULL 0 142 IEC61850_FC_SP IEC61850_TIMESTAMP
     (0 + TRG_OPT_DATA_CHANGED) NULL 0)
].

Definition Device1_DSCH1_nodes44 : list (addr * ModelNode) := [
  (iedModel_Device1_DSCH1_SchdAbsTm_time_143,
   DataAttribute NULL &iedModel_Device1_DSCH1_SchdAbsTm_time &iedModel_Device1_DSCH1_SchdAbsTm_time_144 NULL 0 143 IEC61850_FC_SP IEC61850_TIMESTAMP
     (0 + TRG_OPT_DATA_CHANGED) NULL 0);
  (iedModel_Device1_DSCH1_SchdAbsTm_time_144,
   DataAttribute NULL &iedModel_Device1_DSCH1_SchdAbsTm_time &iedModel_Device1_DSCH1_SchdAbsTm_time_145 NULL 0 144 IEC61850_FC_SP IEC61850_TIMESTAMP
     (0 + TRG_OPT_DATA_CHANGED) NULL 0);
  (iedModel_Device1_DSCH1_SchdAbsTm_time_145,
   DataAttribute NULL &iedModel_Device1_DSCH1_SchdAbsTm_time &iedModel_Device1_DSCH1_SchdAbsTm_time_146 NULL 0 145 IEC61850_FC_SP IEC61850_TIMESTAMP
     (0 + TRG_OPT_DATA_CHANGED) NULL 0);
  (iedModel_Device1_DSCH1_SchdAbsTm_time_146,
   DataAttribute NULL &iedModel_Device1_DSCH1_SchdAbsTm_time &iedModel_Device1_DSCH1_SchdAbsTm_time_147 NULL 0 146 IEC61850_FC_SP IEC61850_TIMESTAMP
     (0 + TRG_OPT_DATA_CHANGED) NULL 0);
  (iedModel_Device1_DSCH1_SchdAbsTm_time_147,
   DataAttribute NULL &iedModel_Device1_DSCH1_SchdAbsTm_time &iedModel_Device1_DSCH1_SchdAbsTm_time_148 NULL 0 147 IEC61850_FC_SP IEC61850_TIMESTAMP
     (0 + TRG_OPT_DATA_CHANGED) NULL 0);
  (iedModel_Device1_DSCH1_SchdAbsTm_time_148,
   DataAttribute NULL &iedModel_Device1_DSCH1_SchdAbsTm_time &iedModel_Device1_DSCH1_SchdAbsTm_time_149 NULL 0 148 IEC61850_FC_SP IEC61850_TIMESTAMP
     (0 + TRG_OPT_DATA_CHANGED) NULL 0);
  (iedModel_Device1_DSCH1_SchdAbsTm_time_149,
   DataAttribute NULL &iedModel_Device1_DSCH1_SchdAbsTm_time &iedModel_Device1_DSCH1_SchdAbsTm_time_150 NULL 0 149 IEC61850_FC_SP IEC61850_TIMESTAMP
     (0 + TRG_OPT_DATA_CHANGED) NULL 0);
  (iedModel_Device1_DSCH1_SchdAbsTm_time_150,
   DataAttribute NULL &iedModel_Device1_DSCH1_SchdAbsTm_time &iedModel_Device1_DSCH1_SchdAbsTm_time_151 NULL 0 150 IEC61850_FC_SP IEC61850_TIMESTAMP
     (0 + TRG_OPT_DATA_CHANGED) NULL 0);
  (iedModel_Device1_DSCH1_SchdAbsTm_time_151,
   DataAttribute NULL &iedModel_Device1_DSCH1_SchdAbsTm_time &iedModel_Device1_DSCH1_SchdAbsTm_time_152 NULL 0 151 IEC61850_FC_SP IEC61850_TIMESTAMP
     (0 + TRG_OPT_DATA_CHANGED) NULL 0);
  (iedModel_Device1_DSCH1_SchdAbsTm_time_152,
   DataAttribute NULL &iedModel_Device1_DSCH1_SchdAbsTm_time &iedModel_Device1_DSCH1_SchdAbsTm_time_153 NULL 0 152 IEC61850_FC_SP IEC61850_TIMESTAMP
     (0 + TRG_OPT_DATA_CHANGED) NULL 0)
].

Definition Device1_DSCH1_nodes45 : list (addr * ModelNode) := [
  (iedModel_Device1_DSCH1_SchdAbsTm_time_153,
   DataAttribute NULL &iedModel_Device1_DSCH1_SchdAbsTm_time &iedModel_Device1_DSCH1_SchdAbsTm_time_154 NULL 0 153 IEC61850_FC_SP IEC61850_TIMESTAMP
     (0 + TRG_OPT_DATA_CHANGED) NULL 0);
  (iedModel_Device1_DSCH1_SchdAbsTm_time_154,
   DataAttribute NULL &iedModel_Device1_DSCH1_SchdAbsTm_time &iedModel_Device1_DSCH1_SchdAbsTm_time_155 NULL 0 154 IEC61850_FC_SP IEC61850_TIMESTAMP
     (0 + TRG_OPT_DATA_CHANGED) NULL 0);
  (iedModel_Device1_DSCH1_SchdAbsTm_time_155,
   DataAttribute NULL &iedModel_Device1_DSCH1_SchdAbsTm_time &iedModel_Device1_DSCH1_SchdAbsTm_time_156 NULL 0 155 IEC61850_FC_SP IEC61850_TIMESTAMP
     (0 + TRG_OPT_DATA_CHANGED) NULL 0);
  (iedModel_Device1_DSCH1_SchdAbsTm_time_156,
   DataAttribute NULL &iedModel_Device1_DSCH1_SchdAbsTm_time &iedModel_Device1_DSCH1_SchdAbsTm_time_157 NULL 0 156 IEC61850_FC_SP IEC61850_TIMESTAMP
     (0 + TRG_OPT_DATA_CHANGED) NULL 0);
  (iedModel_Device1_DSCH1_SchdAbsTm_time_157,
   DataAttribute NULL &iedModel_Device1_DSCH1_SchdAbsTm_time &iedModel_Device1_DSCH1_SchdAbsTm_time_158 NULL 0 157 IEC61850_FC_SP IEC61850_TIMESTAMP
     (0 + TRG_OPT_DATA_CHANGED) NULL 0);
  (iedModel_Device1_DSCH1_SchdAbsTm_time_158,
   DataAttribute NULL &iedModel_Device1_DSCH1_SchdAbsTm_time &iedModel_Device1_DSCH1_SchdAbsTm_time_159 NULL 0 158 IEC61850_FC_SP IEC61850_TIMESTAMP
     (0 + TRG_OPT_DATA_CHANGED) NULL 0);
  (iedModel_Device1_DSCH1_SchdAbsTm_time_159,
   DataAttribute NULL &iedModel_Device1_DSCH1_SchdAbsTm_time &iedModel_Device1_DSCH1_SchdAbsTm_time_160 NULL 0 159 IEC61850_FC_SP IEC61850_TIMESTAMP
     (0 + TRG_OPT_DATA_CHANGED) NULL 0);
  (iedModel_Device1_DSCH1_SchdAbsTm_time_160,
   DataAttribute NULL &iedModel_Device1_DSCH1_SchdAbsTm_time &iedModel_Device1_DSCH1_SchdAbsTm_time_161 NULL 0 160 IEC61850_FC_SP IEC61850_TIMESTAMP
     (0 + TRG_OPT_DATA_CHANGED) NULL 0);
  (iedModel_Device1_DSCH1_SchdAbsTm_time_161,
   DataAttribute NULL &iedModel_Device1_DSCH1_SchdAbsTm_time &iedModel_Device1_DSCH1_SchdAbsTm_time_162 NULL 0 161 IEC61850_FC_SP IEC61850_TIMESTAMP
     (0 + TRG_OPT_DATA_CHANGED) NULL 0);
  (iedModel_Device1_DSCH1_SchdAbsTm_time_162,
   DataAttribute NULL &iedModel_Device1_DSCH1_SchdAbsTm_time &iedModel_Device1_DSCH1_SchdAbsTm_time_163 NULL 0 162 IEC61850_FC_SP IEC61850_TIMESTAMP
     (0 + TRG_OPT_DATA_CHANGED) NULL 0)
].

Definition Device1_DSCH1_nodes46 : list (addr * ModelNode) := [
  (iedModel_Device1_DSCH1_SchdAbsTm_time_163,
   DataAttribute NULL &iedModel_Device1_DSCH1_SchdAbsTm_time &iedModel_Device1_DSCH1_SchdAbsTm_time_164 NULL 0 163 IEC61850_FC_SP IEC61850_TIMESTAMP
     (0 + TRG_OPT_DATA_CHANGED) NULL 0);
  (iedModel_Device1_DSCH1_SchdAbsTm_time_164,
   DataAttribute NULL &iedModel_Device1_DSCH1_SchdAbsTm_time &iedModel_Device1_DSCH1_SchdAbsTm_time_165 NULL 0 164 IEC61850_FC_SP IEC61850_TIMESTAMP
     (0 + TRG_OPT_DATA_CHANGED) NULL 0);
  (iedModel_Device1_DSCH1_SchdAbsTm_time_165,
   DataAttribute NULL &iedModel_Device1_DSCH1_SchdAbsTm_time &iedModel_Device1_DSCH1_SchdAbsTm_time_166 NULL 0 165 IEC61850_FC_SP IEC61850_TIMESTAMP
     (0 + TRG_OPT_DATA_CHANGED) NULL 0);
  (iedModel_Device1_DSCH1_SchdAbsTm_time_166,
   DataAttribute NULL &iedModel_Device1_DSCH1_SchdAbsTm_time &iedModel_Device1_DSCH1_SchdAbsTm_time_167 NULL 0 166 IEC61850_FC_SP IEC61850_TIMESTAMP
     (0 + TRG_OPT_DATA_CHANGED) NULL 0);
  (iedModel_Device1_DSCH1_SchdAbsTm_time_167,
   DataAttribute NULL &iedModel_Device1_DSCH1_SchdAbsTm_time &iedModel_Device1_DSCH1_SchdAbsTm_time_168 NULL 0 167 IEC61850_FC_SP IEC61850_TIMESTAMP
     (0 + TRG_OPT_DATA_CHANGED) NULL 0);
  (iedModel_Device1_DSCH1_SchdAbsTm_time_168,
   DataAttribute NULL &iedModel_Device1_DSCH1_SchdAbsTm_time &iedModel_Device1_DSCH1_SchdAbsTm_time_169 NULL 0 168 IEC61850_FC_SP IEC61850_TIMESTAMP
     (0 + TRG_OPT_DATA_CHANGED) NULL 0);
  (iedModel_Device1_DSCH1_SchdAbsTm_time_169,
   DataAttribute NULL &iedModel_Device1_DSCH1_SchdAbsTm_time &iedModel_Device1_DSCH1_SchdAbsTm_time_170 NULL 0 169 IEC61850_FC_SP IEC61850_TIMESTAMP
     (0 + TRG_OPT_DATA_CHANGED) NULL 0);
  (iedModel_Device1_DSCH1_SchdAbsTm_time_170,
   DataAttribute NULL &iedModel_Device1_DSCH1_SchdAbsTm_time &iedModel_Device1_DSCH1_SchdAbsTm_time_171 NULL 0 170 IEC61850_FC_SP IEC61850_TIMESTAMP
     (0 + TRG_OPT_DATA_CHANGED) NULL 0);
  (iedModel_Device1_DSCH1_SchdAbsTm_time_171,
   DataAttribute NULL &iedModel_Device1_DSCH1_SchdAbsTm_time &iedModel_Device1_DSCH1_SchdAbsTm_time_172 NULL 0 171 IEC61850_FC_SP IEC61850_TIMESTAMP
     (0 + TRG_OPT_DATA_CHANGED) NULL 0);
  (iedModel_Device1_DSCH1_SchdAbsTm_time_172,
   DataAttribute NULL &iedModel_Device1_DSCH1_SchdAbsTm_time &iedModel_Device1_DSCH1_SchdAbsTm_time_173 NULL 0 172 IEC61850_FC_SP IEC61850_TIMESTAMP
     (0 + TRG_OPT_DATA_CHANGED) NULL 0)
].

Definition Device1_DSCH1_nodes47 : list (addr * ModelNode) := [
  (iedModel_Device1_DSCH1_SchdAbsTm_time_173,
   DataAttribute NULL &iedModel_Device1_DSCH1_SchdAbsTm_time &iedModel_Device1_DSCH1_SchdAbsTm_time_174 NULL 0 173 IEC61850_FC_SP IEC61850_TIMESTAMP
     (0 + TRG_OPT_DATA_CHANGED) NULL 0);
  (iedModel_Device1_DSCH1_SchdAbsTm_time_174,
   DataAttribute NULL &iedModel_Device1_DSCH1_SchdAbsTm_time &iedModel_Device1_DSCH1_SchdAbsTm_time_175 NULL 0 174 IEC61850_FC_SP IEC61850_TIMESTAMP
     (0 + TRG_OPT_DATA_CHANGED) NULL 0);
  (iedModel_Device1_DSCH1_SchdAbsTm_time_175,
   DataAttribute NULL &iedModel_Device1_DSCH1_SchdAbsTm_time &iedModel_Device1_DSCH1_SchdAbsTm_time_176 NULL 0 175 IEC61850_FC_SP IEC61850_TIMESTAMP
     (0 + TRG_OPT_DATA_CHANGED) NULL 0);
  (iedModel_Device1_DSCH1_SchdAbsTm_time_176,
   DataAttribute NULL &iedModel_Device1_DSCH1_SchdAbsTm_time &iedModel_Device1_DSCH1_SchdAbsTm_time_177 NULL 0 176 IEC61850_FC_SP IEC61850_TIMESTAMP
     (0 + TRG_OPT_DATA_CHANGED) NULL 0);
  (iedModel_Device1_DSCH1_SchdAbsTm_time_177,
   DataAttribute NULL &iedModel_Device1_DSCH1_SchdAbsTm_time &iedModel_Device1_DSCH1_SchdAbsTm_time_178 NULL 0 177 IEC61850_FC_SP IEC61850_TIMESTAMP
     (0 + TRG_OPT_DATA_CHANGED) NULL 0);
  (iedModel_Device1_DSCH1_SchdAbsTm_time_178,
   DataAttribute NULL &iedModel_Device1_DSCH1_SchdAbsTm_time &iedModel_Device1_DSCH1_SchdAbsTm_time_179 NULL 0 178 IEC61850_FC_SP IEC61850_TIMESTAMP
     (0 + TRG_OPT_DATA_CHANGED) NULL 0);
  (iedModel_Device1_DSCH1_SchdAbsTm_time_179,
   DataAttribute NULL &iedModel_Device1_DSCH1_SchdAbsTm_time &iedModel_Device1_DSCH1_SchdAbsTm_time_180 NULL 0 179 IEC61850_FC_SP IEC61850_TIMESTAMP
     (0 + TRG_OPT_DATA_CHANGED) NULL 0);
  (iedModel_Device1_DSCH1_SchdAbsTm_time_180,
   DataAttribute NULL &iedModel_Device1_DSCH1_SchdAbsTm_time &iedModel_Device1_DSCH1_SchdAbsTm_time_181 NULL 0 180 IEC61850_FC_SP IEC61850_TIMESTAMP
     (0 + TRG_OPT_DATA_CHANGED) NULL 0);
  (iedModel_Device1_DSCH1_SchdAbsTm_time_181,
   DataAttribute NULL &iedModel_Device1_DSCH1_SchdAbsTm_time &iedModel_Device1_DSCH1_SchdAbsTm_time_182 NULL 0 181 IEC61850_FC_SP IEC61850_TIMESTAMP
     (0 + TRG_OPT_DATA_CHANGED) NULL 0);
  (iedModel_Device1_DSCH1_SchdAbsTm_time_182,
   DataAttribute NULL &iedModel_Device1_DSCH1_SchdAbsTm_time &iedModel_Device1_DSCH1_SchdAbsTm_time_183 NULL 0 182 IEC61850_FC_SP IEC61850_TIMESTAMP
     (0 + TRG_OPT_DATA_CHANGED) NULL 0)
].

Definition Device1_DSCH1_nodes48 : list (addr * ModelNode) := [
  (iedModel_Device1_DSCH1_SchdAbsTm_time_183,
   DataAttribute NULL &iedModel_Device1_DSCH1_SchdAbsTm_time &iedModel_Device1_DSCH1_SchdAbsTm_time_184 NULL 0 183 IEC61850_FC_SP IEC61850_TIMESTAMP
     (0 + TRG_OPT_DATA_CHANGED) NULL 0);
  (iedModel_Device1_DSCH1_SchdAbsTm_time_184,
   DataAttribute NULL &iedModel_Device1_DSCH1_SchdAbsTm_time &iedModel_Device1_DSCH1_SchdAbsTm_time_185 NULL 0 184 IEC61850_FC_SP IEC61850_TIMESTAMP
     (0 + TRG_OPT_DATA_CHANGED) NULL 0);
  (iedModel_Device1_DSCH1_SchdAbsTm_time_185,
   DataAttribute NULL &iedModel_Device1_DSCH1_SchdAbsTm_time &iedModel_Device1_DSCH1_SchdAbsTm_time_186 NULL 0 185 IEC61850_FC_SP IEC61850_TIMESTAMP
     (0 + TRG_OPT_DATA_CHANGED) NULL 0);
  (iedModel_Device1_DSCH1_SchdAbsTm_time_186,
   DataAttribute NULL &iedModel_Device1_DSCH1_SchdAbsTm_time &iedModel_Device1_DSCH1_SchdAbsTm_time_187 NULL 0 186 IEC61850_FC_SP IEC61850_TIMESTAMP
     (0 + TRG_OPT_DATA_CHANGED) NULL 0);
  (iedModel_Device1_DSCH1_SchdAbsTm_time_187,
   DataAttribute NULL &iedModel_Device1_DSCH1_SchdAbsTm_time &iedModel_Device1_DSCH1_SchdAbsTm_time_188 NULL 0 187 IEC61850_FC_SP IEC61850_TIMESTAMP
     (0 + TRG_OPT_DATA_CHANGED) NULL 0);
  (iedModel_Device1_DSCH1_SchdAbsTm_time_188,
   DataAttribute NULL &iedModel_Device1_DSCH1_SchdAbsTm_time &iedModel_Device1_DSCH1_SchdAbsTm_time_189 NULL 0 188 IEC61850_FC_SP IEC61850_TIMESTAMP
     (0 + TRG_OPT_DATA_CHANGED) NULL 0);
  (iedModel_Device1_DSCH1_SchdAbsTm_time_189,
   DataAttribute NULL &iedModel_Device1_DSCH1_SchdAbsTm_time &iedModel_Device1_DSCH1_SchdAbsTm_time_190 NULL 0 189 IEC61850_FC_SP IEC61850_TIMESTAMP
     (0 + TRG_OPT_DATA_CHANGED) NULL 0);
  (iedModel_Device1_DSCH1_SchdAbsTm_time_190,
   DataAttribute NULL &iedModel_Device1_DSCH1_SchdAbsTm_time &iedModel_Device1_DSCH1_SchdAbsTm_time_191 NULL 0 190 IEC61850_FC_SP IEC61850_TIMESTAMP
     (0 + TRG_OPT_DATA_CHANGED) NULL 0);
  (iedModel_Device1_DSCH1_SchdAbsTm_time_191,
   DataAttribute NULL &iedModel_Device1_DSCH1_SchdAbsTm_time &iedModel_Device1_DSCH1_SchdAbsTm_time_192 NULL 0 191 IEC61850_FC_SP IEC61850_TIMESTAMP
     (0 + TRG_OPT_DATA_CHANGED) NULL 0);
  (iedModel_Device1_DSCH1_SchdAbsTm_time_192,
   DataAttribute NULL &iedModel_Device1_DSCH1_SchdAbsTm_time &iedModel_Device1_DSCH1_SchdAbsTm_time_193 NULL 0 192 IEC61850_FC_SP IEC61850_TIMESTAMP
     (0 + TRG_OPT_DATA_CHANGED) NULL 0)
].

Definition Device1_DSCH1_nodes49 : list (addr * ModelNode) := [
  (iedModel_Device1_DSCH1_SchdAbsTm_time_193,
   DataAttribute NULL &iedModel_Device1_DSCH1_SchdAbsTm_time &iedModel_Device1_DSCH1_SchdAbsTm_time_194 NULL 0 193 IEC61850_FC_SP IEC61850_TIMESTAMP
     (0 + TRG_OPT_DATA_CHANGED) NULL 0);
  (iedModel_Device1_DSCH1_SchdAbsTm_time_194,
   DataAttribute NULL &iedModel_Device1_DSCH1_SchdAbsTm_time &iedModel_Device1_DSCH1_SchdAbsTm_time_195 NULL 0 194 IEC61850_FC_SP IEC61850_TIMESTAMP
     (0 + TRG_OPT_DATA_CHANGED) NULL 0);
  (iedModel_Device1_DSCH1_SchdAbsTm_time_195,
   DataAttribute NULL &iedModel_Device1_DSCH1_SchdAbsTm_time &iedModel_Device1_DSCH1_SchdAbsTm_time_196 NULL 0 195 IEC61850_FC_SP IEC61850_TIMESTAMP
     (0 + TRG_OPT_DATA_CHANGED) NULL 0);
  (iedModel_Device1_DSCH1_SchdAbsTm_time_196,
   DataAttribute NULL &iedModel_Device1_DSCH1_SchdAbsTm_time &iedModel_Device1_DSCH1_SchdAbsTm_time_197 NULL 0 196 IEC61850_FC_SP IEC61850_TIMESTAMP
     (0 + TRG_OPT_DATA_CHANGED) NULL 0);
  (iedModel_Device1_DSCH1_SchdAbsTm_time_197,
   DataAttribute NULL &iedModel_Device1_DSCH1_SchdAbsTm_time &iedModel_Device1_DSCH1_SchdAbsTm_time_198 NULL 0 197 IEC61850_FC_SP IEC61850_TIMESTAMP
     (0 + TRG_OPT_DATA_CHANGED) NULL 0);
  (iedModel_Device1_DSCH1_SchdAbsTm_time_198,
   DataAttribute NULL &iedModel_Device1_DSCH1_SchdAbsTm_time &iedModel_Device1_DSCH1_SchdAbsTm_time_199 NULL 0 198 IEC61850_FC_SP IEC61850_TIMESTAMP
     (0 + TRG_OPT_DATA_CHANGED) NULL 0);
  (iedModel_Device1_DSCH1_SchdAbsTm_time_199,
   DataAttribute NULL &iedModel_Device1_DSCH1_SchdAbsTm_time &iedModel_Device1_DSCH1_SchdAbsTm_time_200 NULL 0 199 IEC61850_FC_SP IEC61850_TIMESTAMP
     (0 + TRG_OPT_DATA_CHANGED) NULL 0);
  (iedModel_Device1_DSCH1_SchdAbsTm_time_200,
   DataAttribute NULL &iedModel_Device1_DSCH1_SchdAbsTm_time &iedModel_Device1_DSCH1_SchdAbsTm_time_201 NULL 0 200 IEC61850_FC_SP IEC61850_TIMESTAMP
     (0 + TRG_OPT_DATA_CHANGED) NULL 0);
  (iedModel_Device1_DSCH1_SchdAbsTm_time_201,
   DataAttribute NULL &iedModel_Device1_DSCH1_SchdAbsTm_time &iedModel_Device1_DSCH1_SchdAbsTm_time_202 NULL 0 201 IEC61850_FC_SP IEC61850_TIMESTAMP
     (0 + TRG_OPT_DATA_CHANGED) NULL 0);
  (iedModel_Device1_DSCH1_SchdAbsTm_time_202,
   DataAttribute NULL &iedModel_Device1_DSCH1_SchdAbsTm_time &iedModel_Device1_DSCH1_SchdAbsTm_time_203 NULL 0 202 IEC61850_FC_SP IEC61850_TIMESTAMP
     (0 + TRG_OPT_DATA_CHANGED) NULL 0)
].

Definition Device1_DSCH1_nodes50 : list (addr * ModelNode) := [
  (iedModel_Device1_DSCH1_SchdAbsTm_time_203,
   DataAttribute NULL &iedModel_Device1_DSCH1_SchdAbsTm_time &iedModel_Device1_DSCH1_SchdAbsTm_time_204 NULL 0 203 IEC61850_FC_SP IEC61850_TIMESTAMP
     (0 + TRG_OPT_DATA_CHANGED) NULL 0);
  (iedModel_Device1_DSCH1_SchdAbsTm_time_204,
   DataAttribute NULL &iedModel_Device1_DSCH1_SchdAbsTm_time &iedModel_Device1_DSCH1_SchdAbsTm_time_205 NULL 0 204 IEC61850_FC_SP IEC61850_TIMESTAMP
     (0 + TRG_OPT_DATA_CHANGED) NULL 0);
  (iedModel_Device1_DSCH1_SchdAbsTm_time_205,
   DataAttribute NULL &iedModel_Device1_DSCH1_SchdAbsTm_time &iedModel_Device1_DSCH1_SchdAbsTm_time_206 NULL 0 205 IEC61850_FC_SP IEC61850_TIMESTAMP
     (0 + TRG_OPT_DATA_CHANGED) NULL 0);
  (iedModel_Device1_DSCH1_SchdAbsTm_time_206,
   DataAttribute NULL &iedModel_Device1_DSCH1_SchdAbsTm_time &iedModel_Device1_DSCH1_SchdAbsTm_time_207 NULL 0 206 IEC61850_FC_SP IEC61850_TIMESTAMP
     (0 + TRG_OPT_DATA_CHANGED) NULL 0);
  (iedModel_Device1_DSCH1_SchdAbsTm_time_207,
   DataAttribute NULL &iedModel_Device1_DSCH1_SchdAbsTm_time &iedModel_Device1_DSCH1_SchdAbsTm_time_208 NULL 0 207 IEC61850_FC_SP IEC61850_TIMESTAMP
     (0 + TRG_OPT_DATA_CHANGED) NULL 0);
  (iedModel_Device1_DSCH1_SchdAbsTm_time_208,
   DataAttribute NULL &iedModel_Device1_DSCH1_SchdAbsTm_time &iedModel_Device1_DSCH1_SchdAbsTm_time_209 NULL 0 208 IEC61850_FC_SP IEC61850_TIMESTAMP
     (0 + TRG_OPT_DATA_CHANGED) NULL 0);
  (iedModel_Device1_DSCH1_SchdAbsTm_time_209,
   DataAttribute NULL &iedModel_Device1_DSCH1_SchdAbsTm_time &iedModel_Device1_DSCH1_SchdAbsTm_time_210 NULL 0 209 IEC61850_FC_SP IEC61850_TIMESTAMP
     (0 + TRG_OPT_DATA_CHANGED) NULL 0);
  (iedModel_Device1_DSCH1_SchdAbsTm_time_210,
   DataAttribute NULL &iedModel_Device1_DSCH1_SchdAbsTm_time &iedModel_Device1_DSCH1_SchdAbsTm_time_211 NULL 0 210 IEC61850_FC_SP IEC61850_TIMESTAMP
     (0 + TRG_OPT_DATA_CHANGED) NULL 0);
  (iedModel_Device1_DSCH1_SchdAbsTm_time_211,
   DataAttribute NULL &iedModel_Device1_DSCH1_SchdAbsTm_time &iedModel_Device1_DSCH1_SchdAbsTm_time_212 NULL 0 211 IEC61850_FC_SP IEC61850_TIMESTAMP
     (0 + TRG_OPT_DATA_CHANGED) NULL 0);
  (iedModel_Device1_DSCH1_SchdAbsTm_time_212,
   DataAttribute NULL &iedModel_Device1_DSCH1_SchdAbsTm_time &iedModel_Device1_DSCH1_SchdAbsTm_time_213 NULL 0 212 IEC61850_FC_SP IEC61850_TIMESTAMP
     (0 + TRG_OPT_DATA_CHANGED) NULL 0)
].

Definition Device1_DSCH1_nodes51 : list (addr * ModelNode) := [
  (iedModel_Device1_DSCH1_SchdAbsTm_time_213,
   DataAttribute NULL &iedModel_Device1_DSCH1_SchdAbsTm_time &iedModel_Device1_DSCH1_SchdAbsTm_time_214 NULL 0 213 IEC61850_FC_SP IEC61850_TIMESTAMP
     (0 + TRG_OPT_DATA_CHANGED) NULL 0);
  (iedModel_Device1_DSCH1_SchdAbsTm_time_214,
   DataAttribute NULL &iedModel_Device1_DSCH1_SchdAbsTm_time &iedModel_Device1_DSCH1_SchdAbsTm_time_215 NULL 0 214 IEC61850_FC_SP IEC61850_TIMESTAMP
     (0 + TRG_OPT_DATA_CHANGED) NULL 0);
  (iedModel_Device1_DSCH1_SchdAbsTm_time_215,
   DataAttribute NULL &iedModel_Device1_DSCH1_SchdAbsTm_time &iedModel_Device1_DSCH1_SchdAbsTm_time_216 NULL 0 215 IEC61850_FC_SP IEC61850_TIMESTAMP
     (0 + TRG_OPT_DATA_CHANGED) NULL 0);
  (iedModel_Device1_DSCH1_SchdAbsTm_time_216,
   DataAttribute NULL &iedModel_Device1_DSCH1_SchdAbsTm_time &iedModel_Device1_DSCH1_SchdAbsTm_time_217 NULL 0 216 IEC61850_FC_SP IEC61850_TIMESTAMP
     (0 + TRG_OPT_DATA_CHANGED) NULL 0);
  (iedModel_Device1_DSCH1_SchdAbsTm_time_217,
   DataAttribute NULL &iedModel_Device1_DSCH1_SchdAbsTm_time &iedModel_Device1_DSCH1_SchdAbsTm_time_218 NULL 0 217 IEC61850_FC_SP IEC61850_TIMESTAMP
     (0 + TRG_OPT_DATA_CHANGED) NULL 0);
  (iedModel_Device1_DSCH1_SchdAbsTm_time_218,
   DataAttribute NULL &iedModel_Device1_DSCH1_SchdAbsTm_time &iedModel_Device1_DSCH1_SchdAbsTm_time_219 NULL 0 218 IEC61850_FC_SP IEC61850_TIMESTAMP
     (0 + TRG_OPT_DATA_CHANGED) NULL 0);
  (iedModel_Device1_DSCH1_SchdAbsTm_time_219,
   DataAttribute NULL &iedModel_Device1_DSCH1_SchdAbsTm_time &iedModel_Device1_DSCH1_SchdAbsTm_time_220 NULL 0 219 IEC61850_FC_SP IEC61850_TIMESTAMP
     (0 + TRG_OPT_DATA_CHANGED) NULL 0);
  (iedModel_Device1_DSCH1_SchdAbsTm_time_220,
   DataAttribute NULL &iedModel_Device1_DSCH1_SchdAbsTm_time &iedModel_Device1_DSCH1_SchdAbsTm_time_221 NULL 0 220 IEC61850_FC_SP IEC61850_TIMESTAMP
     (0 + TRG_OPT_DATA_CHANGED) NULL 0);
  (iedModel_Device1_DSCH1_SchdAbsTm_time_221,
   DataAttribute NULL &iedModel_Device1_DSCH1_SchdAbsTm_time &iedModel_Device1_DSCH1_SchdAbsTm_time_222 NULL 0 221 IEC61850_FC_SP IEC61850_TIMESTAMP
     (0 + TRG_OPT_DATA_CHANGED) NULL 0);
  (iedModel_Device1_DSCH1_SchdAbsTm_time_222,
   DataAttribute NULL &iedModel_Device1_DSCH1_SchdAbsTm_time &iedModel_Device1_DSCH1_SchdAbsTm_time_223 NULL 0 222 IEC61850_FC_SP IEC61850_TIMESTAMP
     (0 + TRG_OPT_DATA_CHANGED) NULL 0)
].

Definition Device1_DSCH1_nodes52 : list (addr * ModelNode) := [
  (iedModel_Device1_DSCH1_SchdAbsTm_time_223,
   DataAttribute NULL &iedModel_Device1_DSCH1_SchdAbsTm_time &iedModel_Device1_DSCH1_SchdAbsTm_time_224 NULL 0 223 IEC61850_FC_SP IEC61850_TIMESTAMP
     (0 + TRG_OPT_DATA_CHANGED) NULL 0);
  (iedModel_Device1_DSCH1_SchdAbsTm_time_224,
   DataAttribute NULL &iedModel_Device1_DSCH1_SchdAbsTm_time &iedModel_Device1_DSCH1_SchdAbsTm_time_225 NULL 0 224 IEC61850_FC_SP IEC61850_TIMESTAMP
     (0 + TRG_OPT_DATA_CHANGED) NULL 0);
  (iedModel_Device1_DSCH1_SchdAbsTm_time_225,
   DataAttribute NULL &iedModel_Device1_DSCH1_SchdAbsTm_time &iedModel_Device1_DSCH1_SchdAbsTm_time_226 NULL 0 225 IEC61850_FC_SP IEC61850_TIMESTAMP
     (0 + TRG_OPT_DATA_CHANGED) NULL 0);
  (iedModel_Device1_DSCH1_SchdAbsTm_time_226,
   DataAttribute NULL &iedModel_Device1_DSCH1_SchdAbsTm_time &iedModel_Device1_DSCH1_SchdAbsTm_time_227 NULL 0 226 IEC61850_FC_SP IEC61850_TIMESTAMP
     (0 + TRG_OPT_DATA_CHANGED) NULL 0);
  (iedModel_Device1_DSCH1_SchdAbsTm_time_227,
   DataAttribute NULL &iedModel_Device1_DSCH1_SchdAbsTm_time &iedModel_Device1_DSCH1_SchdAbsTm_time_228 NULL 0 227 IEC61850_FC_SP IEC61850_TIMESTAMP
     (0 + TRG_OPT_DATA_CHANGED) NULL 0);
  (iedModel_Device1_DSCH1_SchdAbsTm_time_228,
   DataAttribute NULL &iedModel_Device1_DSCH1_SchdAbsTm_time &iedModel_Device1_DSCH1_SchdAbsTm_time_229 NULL 0 228 IEC61850_FC_SP IEC61850_TIMESTAMP
     (0 + TRG_OPT_DATA_CHANGED) NULL 0);
  (iedModel_Device1_DSCH1_SchdAbsTm_time_229,
   DataAttribute NULL &iedModel_Device1_DSCH1_SchdAbsTm_time &iedModel_Device1_DSCH1_SchdAbsTm_time_230 NULL 0 229 IEC61850_FC_SP IEC61850_TIMESTAMP
     (0 + TRG_OPT_DATA_CHANGED) NULL 0);
  (iedModel_Device1_DSCH1_SchdAbsTm_time_230,
   DataAttribute NULL &iedModel_Device1_DSCH1_SchdAbsTm_time &iedModel_Device1_DSCH1_SchdAbsTm_time_231 NULL 0 230 IEC61850_FC_SP IEC61850_TIMESTAMP
     (0 + TRG_OPT_DATA_CHANGED) NULL 0);
  (iedModel_Device1_DSCH1_SchdAbsTm_time_231,
   DataAttribute NULL &iedModel_Device1_DSCH1_SchdAbsTm_time &iedModel_Device1_DSCH1_SchdAbsTm_time_232 NULL 0 231 IEC61850_FC_SP IEC61850_TIMESTAMP
     (0 + TRG_OPT_DATA_CHANGED) NULL 0);
  (iedModel_Device1_DSCH1_SchdAbsTm_time_232,
   DataAttribute NULL &iedModel_Device1_DSCH1_SchdAbsTm_time &iedModel_Device1_DSCH1_SchdAbsTm_time_233 NULL 0 232 IEC61850_FC_SP IEC61850_TIMESTAMP
     (0 + TRG_OPT_DATA_CHANGED) NULL 0)
].

Definition Device1_DSCH1_nodes53 : list (addr * ModelNode) := [
  (iedModel_Device1_DSCH1_SchdAbsTm_time_233,
   DataAttribute NULL &iedModel_Device1_DSCH1_SchdAbsTm_time &iedModel_Device1_DSCH1_SchdAbsTm_time_234 NULL 0 233 IEC61850_FC_SP IEC61850_TIMESTAMP
     (0 + TRG_OPT_DATA_CHANGED) NULL 0);
  (iedModel_Device1_DSCH1_SchdAbsTm_time_234,
   DataAttribute NULL &iedModel_Device1_DSCH1_SchdAbsTm_time &iedModel_Device1_DSCH1_SchdAbsTm_time_235 NULL 0 234 IEC61850_FC_SP IEC61850_TIMESTAMP
     (0 + TRG_OPT_DATA_CHANGED) NULL 0);
  (iedModel_Device1_DSCH1_SchdAbsTm_time_235,
   DataAttribute NULL &iedModel_Device1_DSCH1_SchdAbsTm_time &iedModel_Device1_DSCH1_SchdAbsTm_time_236 NULL 0 235 IEC61850_FC_SP IEC61850_TIMESTAMP
     (0 + TRG_OPT_DATA_CHANGED) NULL 0);
  (iedModel_Device1_DSCH1_SchdAbsTm_time_236,
   DataAttribute NULL &iedModel_Device1_DSCH1_SchdAbsTm_time &iedModel_Device1_DSCH1_SchdAbsTm_time_237 NULL 0 236 IEC61850_FC_SP IEC61850_TIMESTAMP
     (0 + TRG_OPT_DATA_CHANGED) NULL 0);
  (iedModel_Device1_DSCH1_SchdAbsTm_time_237,
   DataAttribute NULL &iedModel_Device1_DSCH1_SchdAbsTm_time &iedModel_Device1_DSCH1_SchdAbsTm_time_238 NULL 0 237 IEC61850_FC_SP IEC61850_TIMESTAMP
     (0 + TRG_OPT_DATA_CHANGED) NULL 0);
  (iedModel_Device1_DSCH1_SchdAbsTm_time_238,
   DataAttribute NULL &iedModel_Device1_DSCH1_SchdAbsTm_time &iedModel_Device1_DSCH1_SchdAbsTm_time_239 NULL 0 238 IEC61850_FC_SP IEC61850_TIMESTAMP
     (0 + TRG_OPT_DATA_CHANGED) NULL 0);
  (iedModel_Device1_DSCH1_SchdAbsTm_time_239,
   DataAttribute NULL &iedModel_Device1_DSCH1_SchdAbsTm_time &iedModel_Device1_DSCH1_SchdAbsTm_time_240 NULL 0 239 IEC61850_FC_SP IEC61850_TIMESTAMP
     (0 + TRG_OPT_DATA_CHANGED) NULL 0);
  (iedModel_Device1_DSCH1_SchdAbsTm_time_240,
   DataAttribute NULL &iedModel_Device1_DSCH1_SchdAbsTm_time &iedModel_Device1_DSCH1_SchdAbsTm_time_241 NULL 0 240 IEC61850_FC_SP IEC61850_TIMESTAMP
     (0 + TRG_OPT_DATA_CHANGED) NULL 0);
  (iedModel_Device1_DSCH1_SchdAbsTm_time_241,
   DataAttribute NULL &iedModel_Device1_DSCH1_SchdAbsTm_time &iedModel_Device1_DSCH1_SchdAbsTm_time_242 NULL 0 241 IEC61850_FC_SP IEC61850_TIMESTAMP
     (0 + TRG_OPT_DATA_CHANGED) NULL 0);
  (iedModel_Device1_DSCH1_SchdAbsTm_time_242,
   DataAttribute NULL &iedModel_Device1_DSCH1_SchdAbsTm_time &iedModel_Device1_DSCH1_SchdAbsTm_time_243 NULL 0 242 IEC61850_FC_SP IEC61850_TIMESTAMP
     (0 + TRG_OPT_DATA_CHANGED) NULL 0)
].

Definition Device1_DSCH1_nodes54 : list (addr * ModelNode) := [
  (iedModel_Device1_DSCH1_SchdAbsTm_time_243,
   DataAttribute NULL &iedModel_Device1_DSCH1_SchdAbsTm_time &iedModel_Device1_DSCH1_SchdAbsTm_time_244 NULL 0 243 IEC61850_FC_SP IEC61850_TIMESTAMP
     (0 + TRG_OPT_DATA_CHANGED) NULL 0);
  (iedModel_Device1_DSCH1_SchdAbsTm_time_244,
   DataAttribute NULL &iedModel_Device1_DSCH1_SchdAbsTm_time &iedModel_Device1_DSCH1_SchdAbsTm_time_245 NULL 0 244 IEC61850_FC_SP IEC61850_TIMESTAMP
     (0 + TRG_OPT_DATA_CHANGED) NULL 0);
  (iedModel_Device1_DSCH1_SchdAbsTm_time_245,
   DataAttribute NULL &iedModel_Device1_DSCH1_SchdAbsTm_time &iedModel_Device1_DSCH1_SchdAbsTm_time_246 NULL 0 245 IEC61850_FC_SP IEC61850_TIMESTAMP
     (0 + TRG_OPT_DATA_CHANGED) NULL 0);
  (iedModel_Device1_DSCH1_SchdAbsTm_time_246,
   DataAttribute NULL &iedModel_Device1_DSCH1_SchdAbsTm_time &iedModel_Device1_DSCH1_SchdAbsTm_time_247 NULL 0 246 IEC61850_FC_SP IEC61850_TIMESTAMP
     (0 + TRG_OPT_DATA_CHANGED) NULL 0);
  (iedModel_Device1_DSCH1_SchdAbsTm_time_247,
   DataAttribute NULL &iedModel_Device1_DSCH1_SchdAbsTm_time &iedModel_Device1_DSCH1_SchdAbsTm_time_248 NULL 0 247 IEC61850_FC_SP IEC61850_TIMESTAMP
     (0 + TRG_OPT_DATA_CHANGED) NULL 0);
  (iedModel_Device1_DSCH1_SchdAbsTm_time_248,
   DataAttribute NULL &iedModel_Device1_DSCH1_SchdAbsTm_time &iedModel_Device1_DSCH1_SchdAbsTm_time_249 NULL 0 248 IEC61850_FC_SP IEC61850_TIMESTAMP
     (0 + TRG_OPT_DATA_CHANGED) NULL 0);
  (iedModel_Device1_DSCH1_SchdAbsTm_time_249,
   DataAttribute NULL &iedModel_Device1_DSCH1_SchdAbsTm_time &iedModel_Device1_DSCH1_SchdAbsTm_time_250 NULL 0 249 IEC61850_FC_SP IEC61850_TIMESTAMP
     (0 + TRG_OPT_DATA_CHANGED) NULL 0);
  (iedModel_Device1_DSCH1_SchdAbsTm_time_250,
   DataAttribute NULL &iedModel_Device1_DSCH1_SchdAbsTm_time &iedModel_Device1_DSCH1_SchdAbsTm_time_251 NULL 0 250 IEC61850_FC_SP IEC61850_TIMESTAMP
     (0 + TRG_OPT_DATA_CHANGED) NULL 0);
  (iedModel_Device1_DSCH1_SchdAbsTm_time_251,
   DataAttribute NULL &iedModel_Device1_DSCH1_SchdAbsTm_time &iedModel_Device1_DSCH1_SchdAbsTm_time_252 NULL 0 251 IEC61850_FC_SP IEC61850_TIMESTAMP
     (0 + TRG_OPT_DATA_CHANGED) NULL 0);
  (iedModel_Device1_DSCH1_SchdAbsTm_time_252,
   DataAttribute NULL &iedModel_Device1_DSCH1_SchdAbsTm_time &iedModel_Device1_DSCH1_SchdAbsTm_time_253 NULL 0 252 IEC61850_FC_SP IEC61850_TIMESTAMP
     (0 + TRG_OPT_DATA_CHANGED) NULL 0)
].

Definition Device1_DSCH1_nodes55 : list (addr * ModelNode) := [
  (iedModel_Device1_DSCH1_SchdAbsTm_time_253,
   DataAttribute NULL &iedModel_Device1_DSCH1_SchdAbsTm_time &iedModel_Device1_DSCH1_SchdAbsTm_time_254 NULL 0 253 IEC61850_FC_SP IEC61850_TIMESTAMP
     (0 + TRG_OPT_DATA_CHANGED) NULL 0);
  (iedModel_Device1_DSCH1_SchdAbsTm_time_254,
   DataAttribute NULL &iedModel_Device1_DSCH1_SchdAbsTm_time NULL NULL 0 254 IEC61850_FC_SP IEC61850_TIMESTAMP
     (0 + TRG_OPT_DATA_CHANGED) NULL 0)
].

Definition Device1_MMXU1_nodes1 : list (addr * ModelNode) := [
  (iedModel_Device1_MMXU1,
   LogicalNode "MMXU1" &iedModel_Device1 &iedModel_Device1_MMXU2 &iedModel_Device1_MMXU1_Mod);
  (iedModel_Device1_MMXU1_Mod,
   DataObject "Mod" &iedModel_Device1_MMXU1 &iedModel_Device1_MMXU1_Beh &iedModel_Device1_MMXU1_Mod_q 0 (-1));
  (iedModel_Device1_MMXU1_Mod_q,
   DataAttribute (Some "q") &iedModel_Device1_MMXU1_Mod &iedModel_Device1_MMXU1_Mod_t NULL 0 (-1) IEC61850_FC_ST IEC61850_QUALITY
     (0 + TRG_OPT_QUALITY_CHANGED) NULL 0);
  (iedModel_Device1_MMXU1_Mod_t,
   DataAttribute (Some "t") &iedModel_Device1_MMXU1_Mod &iedModel_Device1_MMXU1_Mod_ctlModel NULL 0 (-1) IEC61850_FC_ST IEC61850_TIMESTAMP
     0 NULL 0);
  (iedModel_Device1_MMXU1_Mod_ctlModel,
   DataAttribute (Some "ctlModel") &iedModel_Device1_MMXU1_Mod NULL NULL 0 (-1) IEC61850_FC_CF IEC61850_ENUMERATED
     0 NULL 0);
  (iedModel_Device1_MMXU1_Beh,
   DataObject "Beh" &iedModel_Device1_MMXU1 &iedModel_Device1_MMXU1_Health &iedModel_Device1_MMXU1_Beh_stVal 0 (-1));
  (iedModel_Device1_MMXU1_Beh_stVal,
   DataAttribute (Some "stVal") &iedModel_Device1_MMXU1_Beh &iedModel_Device1_MMXU1_Beh_q NULL 0 (-1) IEC61850_FC_ST IEC61850_INT32
     (0 + TRG_OPT_DATA_CHANGED) NULL 0);
  (iedModel_Device1_MMXU1_Beh_q,
   DataAttribute (Some "q") &iedModel_Device1_MMXU1_Beh &iedModel_Device1_MMXU1_Beh_t NULL 0 (-1) IEC61850_FC_ST IEC61850_QUALITY
     (0 + TRG_OPT_QUALITY_CHANGED) NULL 0);
  (iedModel_Device1_MMXU1_Beh_t,
   DataAttribute (Some "t") &iedModel_Device1_MMXU1_Beh NULL NULL 0 (-1) IEC61850_FC_ST IEC61850_TIMESTAMP
     0 NULL 0)
].

Definition Device1_MMXU1_nodes2 : list (addr * ModelNode) := [
  (iedModel_Device1_MMXU1_Health,
   DataObject "Health" &iedModel_Device1_MMXU1 &iedModel_Device1_MMXU1_NamPlt &iedModel_Device1_MMXU1_Health_stVal 0 (-1));
  (iedModel_Device1_MMXU1_Health_stVal,
   DataAttribute (Some "stVal") &iedModel_Device1_MMXU1_Health &iedModel_Device1_MMXU1_Health_q NULL 0 (-1) IEC61850_FC_ST IEC61850_INT32
     (0 + TRG_OPT_DATA_CHANGED) NULL 0);
  (iedModel_Device1_MMXU1_Health_q,
   DataAttribute (Some "q") &iedModel_Device1_MMXU1_Health &iedModel_Device1_MMXU1_Health_t NULL 0 (-1) IEC61850_FC_ST IEC61850_QUALITY
     (0 + TRG_OPT_QUALITY_CHANGED) NULL 0);
  (iedModel_Device1_MMXU1_Health_t,
   DataAttribute (Some "t") &iedModel_Device1_MMXU1_Health NULL NULL 0 (-1) IEC61850_FC_ST IEC61850_TIMESTAMP
     0 NULL 0);
  (iedModel_Device1_MMXU1_NamPlt,
   DataObject "NamPlt" &iedModel_Device1_MMXU1 NULL &iedModel_Device1_MMXU1_NamPlt_vendor 0 (-1));
  (iedModel_Device1_MMXU1_NamPlt_vendor,
   DataAttribute (Some "vendor") &iedModel_Device1_MMXU1_NamPlt &iedModel_Device1_MMXU1_NamPlt_swRev NULL 0 (-1) IEC61850_FC_DC IEC61850_VISIBLE_STRING_255
     0 NULL 0);
  (iedModel_Device1_MMXU1_NamPlt_swRev,
   DataAttribute (Some "swRev") &iedModel_Device1_MMXU1_NamPlt &iedModel_Device1_MMXU1_NamPlt_d NULL 0 (-1) IEC61850_FC_DC IEC61850_VISIBLE_STRING_255
     0 NULL 0);
  (iedModel_Device1_MMXU1_NamPlt_d,
   DataAttribute (Some "d") &iedModel_Device1_MMXU1_NamPlt NULL NULL 0 (-1) IEC61850_FC_DC IEC61850_VISIBLE_STRING_255
     0 NULL 0)
].

Definition Device1_MMXU2_nodes1 : list (addr * ModelNode) := [
  (iedModel_Device1_MMXU2,
   LogicalNode "MMXU2" &iedModel_Device1 NULL &iedModel_Device1_MMXU2_Mod);
  (iedModel_Device1_MMXU2_Mod,
   DataObject "Mod" &iedModel_Device1_MMXU2 &iedModel_Device1_MMXU2_Beh &iedModel_Device1_MMXU2_Mod_q 0 (-1));
  (iedModel_Device1_MMXU2_Mod_q,
   DataAttribute (Some "q") &iedModel_Device1_MMXU2_Mod &iedModel_Device1_MMXU2_Mod_t NULL 0 (-1) IEC61850_FC_ST IEC61850_QUALITY
     (0 + TRG_OPT_QUALITY_CHANGED) NULL 0);
  (iedModel_Device1_MMXU2_Mod_t,
   DataAttribute (Some "t") &iedModel_Device1_MMXU2_Mod &iedModel_Device1_MMXU2_Mod_ctlModel NULL 0 (-1) IEC61850_FC_ST IEC61850_TIMESTAMP
     0 NULL 0);
  (iedModel_Device1_MMXU2_Mod_ctlModel,
   DataAttribute (Some "ctlModel") &iedModel_Device1_MMXU2_Mod NULL NULL 0 (-1) IEC61850_FC_CF IEC61850_ENUMERATED
     0 NULL 0);
  (iedModel_Device1_MMXU2_Beh,
   DataObject "Beh" &iedModel_Device1_MMXU2 &iedModel_Device1_MMXU2_Health &iedModel_Device1_MMXU2_Beh_stVal 0 (-1));
  (iedModel_Device1_MMXU2_Beh_stVal,
   DataAttribute (Some "stVal") &iedModel_Device1_MMXU2_Beh &iedModel_Device1_MMXU2_Beh_q NULL 0 (-1) IEC61850_FC_ST IEC61850_INT32
     (0 + TRG_OPT_DATA_CHANGED) NULL 0);
  (iedModel_Device1_MMXU2_Beh_q,
   DataAttribute (Some "q") &iedModel_Device1_MMXU2_Beh &iedModel_Device1_MMXU2_Beh_t NULL 0 (-1) IEC61850_FC_ST IEC61850_QUALITY
     (0 + TRG_OPT_QUALITY_CHANGED) NULL 0);
  (iedModel_Device1_MMXU2_Beh_t,
   DataAttribute (Some "t") &iedModel_Device1_MMXU2_Beh NULL NULL 0 (-1) IEC61850_FC_ST IEC61850_TIMESTAMP
     0 NULL 0)
].

Definition Device1_MMXU2_nodes2 : list (addr * ModelNode) := [
  (iedModel_Device1_MMXU2_Health,
   DataObject "Health" &iedModel_Device1_MMXU2 &iedModel_Device1_MMXU2_NamPlt &iedModel_Device1_MMXU2_Health_stVal 0 (-1));
  (iedModel_Device1_MMXU2_Health_stVal,
   DataAttribute (Some "stVal") &iedModel_Device1_MMXU2_Health &iedModel_Device1_MMXU2_Health_q NULL 0 (-1) IEC61850_FC_ST IEC61850_INT32
     (0 + TRG_OPT_DATA_CHANGED) NULL 0);
  (iedModel_Device1_MMXU2_Health_q,
   DataAttribute (Some "q") &iedModel_Device1_MMXU2_Health &iedModel_Device1_MMXU2_Health_t NULL 0 (-1) IEC61850_FC_ST IEC61850_QUALITY
     (0 + TRG_OPT_QUALITY_CHANGED) NULL 0);
  (iedModel_Device1_MMXU2_Health_t,
   DataAttribute (Some "t") &iedModel_Device1_MMXU2_Health NULL NULL 0 (-1) IEC61850_FC_ST IEC61850_TIMESTAMP
     0 NULL 0);
  (iedModel_Device1_MMXU2_NamPlt,
   DataObject "NamPlt" &iedModel_Device1_MMXU2 &iedModel_Device1_MMXU2_TotW &iedModel_Device1_MMXU2_NamPlt_vendor 0 (-1));
  (iedModel_Device1_MMXU2_NamPlt_vendor,
   DataAttribute (Some "vendor") &iedModel_Device1_MMXU2_NamPlt &iedModel_Device1_MMXU2_NamPlt_swRev NULL 0 (-1) IEC61850_FC_DC IEC61850_VISIBLE_STRING_255
     0 NULL 0);
  (iedModel_Device1_MMXU2_NamPlt_swRev,
   DataAttribute (Some "swRev") &iedModel_Device1_MMXU2_NamPlt &iedModel_Device1_MMXU2_NamPlt_d NULL 0 (-1) IEC61850_FC_DC IEC61850_VISIBLE_STRING_255
     0 NULL 0);
  (iedModel_Device1_MMXU2_NamPlt_d,
   DataAttribute (Some "d") &iedModel_Device1_MMXU2_NamPlt NULL NULL 0 (-1) IEC61850_FC_DC IEC61850_VISIBLE_STRING_255
     0 NULL 0)
].

Definition Device1_MMXU2_nodes3 : list (addr * ModelNode) := [
  (iedModel_Device1_MMXU2_TotW,
   DataObject "TotW" &iedModel_Device1_MMXU2 NULL &iedModel_Device1_MMXU2_TotW_mag 0 (-1));
  (iedModel_Device1_MMXU2_TotW_mag,
   DataAttribute (Some "mag") &iedModel_Device1_MMXU2_TotW &iedModel_Device1_MMXU2_TotW_q &iedModel_Device1_MMXU2_TotW_mag_f 0 (-1) IEC61850_FC_MX IEC61850_CONSTRUCTED
     (0 + TRG_OPT_DATA_CHANGED) NULL 0);
  (iedModel_Device1_MMXU2_TotW_mag_f,
   DataAttribute (Some "f") &iedModel_Device1_MMXU2_TotW_mag NULL NULL 0 (-1) IEC61850_FC_MX IEC61850_FLOAT32
     (0 + TRG_OPT_DATA_CHANGED) NULL 0);
  (iedModel_Device1_MMXU2_TotW_q,
   DataAttribute (Some "q") &iedModel_Device1_MMXU2_TotW &iedModel_Device1_MMXU2_TotW_t NULL 0 (-1) IEC61850_FC_MX IEC61850_QUALITY
     (0 + TRG_OPT_QUALITY_CHANGED) NULL 0);
  (iedModel_Device1_MMXU2_TotW_t,
   DataAttribute (Some "t") &iedModel_Device1_MMXU2_TotW NULL NULL 0 (-1) IEC61850_FC_MX IEC61850_TIMESTAMP
     0 NULL 0)
].

(** The memory of the static objects. *)
Definition sample_nodes : list (addr * ModelNode) :=
  Device1_device ++
  Device1_LLN0_nodes1 ++
  Device1_LLN0_nodes2 ++
  Device1_LPHD1_nodes1 ++
  Device1_DGEN1_nodes1 ++
  Device1_DGEN1_nodes2 ++
  Device1_DGEN1_nodes3 ++
  Device1_DGEN1_nodes4 ++
  Device1_DSCH1_nodes1 ++
  Device1_DSCH1_nodes2 ++
  Device1_DSCH1_nodes3 ++
  Device1_DSCH1_nodes4 ++
  Device1_DSCH1_nodes5 ++
  Device1_DSCH1_nodes6 ++
  Device1_DSCH1_nodes7 ++
  Device1_DSCH1_nodes8 ++
  Device1_DSCH1_nodes9 ++
  Device1_DSCH1_nodes10 ++
  Device1_DSCH1_nodes11 ++
  Device1_DSCH1_nodes12 ++
  Device1_DSCH1_nodes13 ++
  Device1_DSCH1_nodes14 ++
  Device1_DSCH1_nodes15 ++
  Device1_DSCH1_nodes16 ++
  Device1_DSCH1_nodes17 ++
  Device1_DSCH1_nodes18 ++
  Device1_DSCH1_nodes19 ++
  Device1_DSCH1_nodes20 ++
  Device1_DSCH1_nodes21 ++
  Device1_DSCH1_nodes22 ++
  Device1_DSCH1_nodes23 ++
  Device1_DSCH1_nodes24 ++
  Device1_DSCH1_nodes25 ++
  Device1_DSCH1_nodes26 ++
  Device1_DSCH1_nodes27 ++
  Device1_DSCH1_nodes28 ++
  Device1_DSCH1_nodes29 ++
  Device1_DSCH1_nodes30 ++
  Device1_DSCH1_nodes31 ++
  Device1_DSCH1_nodes32 ++
  Device1_DSCH1_nodes33 ++
  Device1_DSCH1_nodes34 ++
  Device1_DSCH1_nodes35 ++
  Device1_DSCH1_nodes36 ++
  Device1_DSCH1_nodes37 ++
  Device1_DSCH1_nodes38 ++
  Device1_DSCH1_nodes39 ++
  Device1_DSCH1_nodes40 ++
  Device1_DSCH1_nodes41 ++
  Device1_DSCH1_nodes42 ++
  Device1_DSCH1_nodes43 ++
  Device1_DSCH1_nodes44 ++
  Device1_DSCH1_nodes45 ++
  Device1_DSCH1_nodes46 ++
  Device1_DSCH1_nodes47 ++
  Device1_DSCH1_nodes48 ++
  Device1_DSCH1_nodes49 ++
  Device1_DSCH1_nodes50 ++
  Device1_DSCH1_nodes51 ++
  Device1_DSCH1_nodes52 ++
  Device1_DSCH1_nodes53 ++
  Device1_DSCH1_nodes54 ++
  Device1_DSCH1_nodes55 ++
  Device1_MMXU1_nodes1 ++
  Device1_MMXU1_nodes2 ++
  Device1_MMXU2_nodes1 ++
  Device1_MMXU2_nodes2 ++
  Device1_MMXU2_nodes3.

Definition sample_heap : heap := list_to_map sample_nodes.

(** ** The data set and the report control blocks *)

Definition sample_entries : list (addr * DataSetEntry) := [
  (iedModelds_Device1_LLN0_dataset1_fcda0, Build_DataSetEntry "Device1" false "LLN0$ST$Mod$q" (-1) NULL NULL &iedModelds_Device1_LLN0_dataset1_fcda1);
  (iedModelds_Device1_LLN0_dataset1_fcda1, Build_DataSetEntry "Device1" false "MMXU1$ST$Mod$q" (-1) NULL NULL &iedModelds_Device1_LLN0_dataset1_fcda2);
  (iedModelds_Device1_LLN0_dataset1_fcda2, Build_DataSetEntry "Device1" false "MMXU1$CF$Mod$ctlModel" (-1) NULL NULL NULL)
].

Definition sample_dataSets : list (addr * DataSet) := [
  (iedModelds_Device1_LLN0_dataset1, Build_DataSet "Device1" "LLN0$dataset1" 3 &iedModelds_Device1_LLN0_dataset1_fcda0 NULL)
].

Definition sample_rcbs : list (addr * ReportControlBlock) := [
  (iedModel_Device1_LLN0_report0, Build_ReportControlBlock iedModel_Device1_LLN0 "LLN0_Events_BuffRep01" "LLN0$RP$brcbEV1" true "dataset1" 1 25 239 50 900000
     [0; 0; 0; 0; 0; 0; 0; 0; 0; 0; 0; 0; 0; 0; 0; 0; 0] NULL)
].

Definition iedModel_root : IedModel :=
  Build_IedModel "SampleIED" &iedModel_Device1 &iedModelds_Device1_LLN0_dataset1 &iedModel_Device1_LLN0_report0 NULL NULL NULL NULL NULL.

(** [initializeValues]: the assignments of default values, in order. *)
Definition initial_values : list (addr * MmsValue) := [
  (iedModel_Device1_LLN0_Mod_ctlModel, MmsValue_newIntegerFromInt32 0);
  (iedModel_Device1_DGEN1_Mod_ctlModel, MmsValue_newIntegerFromInt32 0);
  (iedModel_Device1_DSCH1_Mod_ctlModel, MmsValue_newIntegerFromInt32 0);
  (iedModel_Device1_MMXU1_Mod_ctlModel, MmsValue_newIntegerFromInt32 0);
  (iedModel_Device1_MMXU2_Mod_ctlModel, MmsValue_newIntegerFromInt32 0)
].

Definition initializeValues (h : heap) : heap :=
  foldl (λ h av, alter (set_mmsValue av.2) av.1 h) h initial_values.
