(* ===== verification/SampleModelNames.v ===== *)
(** * The header of the simple sample server's data model

    [sample/server_example_simple/static_model.h], the declarations
    of the C objects of [SampleModelData] with their types, and one macro per
    node that stands for its address, in the order of the lines. *)

From Stdlib Require Import String.
From stdpp Require Import base list strings.
From S2P Require Import Prelude IedModel SampleModelData.
#[local] Open Scope string_scope.
#[local] Open Scope gw_scope.

(** ** Declarations: [extern T x;] is [(T, x)] *)

Definition sample_externs1 : list (object_type * addr) := [
  (T_IedModel, iedModel);
  (T_LogicalDevice, iedModel_Device1);
  (T_LogicalNode, iedModel_Device1_LLN0);
  (T_DataObject, iedModel_Device1_LLN0_Mod);
  (T_DataAttribute, iedModel_Device1_LLN0_Mod_q);
  (T_DataAttribute, iedModel_Device1_LLN0_Mod_t);
  (T_DataAttribute, iedModel_Device1_LLN0_Mod_ctlModel);
  (T_DataObject, iedModel_Device1_LLN0_Beh);
  (T_DataAttribute, iedModel_Device1_LLN0_Beh_stVal);
  (T_DataAttribute, iedModel_Device1_LLN0_Beh_q);
  (T_DataAttribute, iedModel_Device1_LLN0_Beh_t);
  (T_DataObject, iedModel_Device1_LLN0_Health);
  (T_DataAttribute, iedModel_Device1_LLN0_Health_stVal);
  (T_DataAttribute, iedModel_Device1_LLN0_Health_q);
  (T_DataAttribute, iedModel_Device1_LLN0_Health_t);
  (T_DataObject, iedModel_Device1_LLN0_NamPlt);
  (T_DataAttribute, iedModel_Device1_LLN0_NamPlt_vendor);
  (T_DataAttribute, iedModel_Device1_LLN0_NamPlt_swRev);
  (T_DataAttribute, iedModel_Device1_LLN0_NamPlt_d);
  (T_DataAttribute, iedModel_Device1_LLN0_NamPlt_configRev);
  (T_DataAttribute, iedModel_Device1_LLN0_NamPlt_ldNs);
  (T_LogicalNode, iedModel_Device1_LPHD1);
  (T_DataObject, iedModel_Device1_LPHD1_PhyNam);
  (T_DataAttribute, iedModel_Device1_LPHD1_PhyNam_vendor);
  (T_DataObject, iedModel_Device1_LPHD1_PhyHealth);
  (T_DataAttribute, iedModel_Device1_LPHD1_PhyHealth_stVal);
  (T_DataAttribute, iedModel_Device1_LPHD1_PhyHealth_q);
  (T_DataAttribute, iedModel_Device1_LPHD1_PhyHealth_t);
  (T_DataObject, iedModel_Device1_LPHD1_Proxy);
  (T_DataAttribute, iedModel_Device1_LPHD1_Proxy_stVal);
  (T_DataAttribute, iedModel_Device1_LPHD1_Proxy_q);
  (T_DataAttribute, iedModel_Device1_LPHD1_Proxy_t);
  (T_LogicalNode, iedModel_Device1_DGEN1);
  (T_DataObject, iedModel_Device1_DGEN1_Mod);
  (T_DataAttribute, iedModel_Device1_DGEN1_Mod_q);
  (T_DataAttribute, iedModel_Device1_DGEN1_Mod_t);
  (T_DataAttribute, iedModel_Device1_DGEN1_Mod_ctlModel);
  (T_DataObject, iedModel_Device1_DGEN1_Beh);
  (T_DataAttribute, iedModel_Device1_DGEN1_Beh_stVal);
  (T_DataAttribute, iedModel_Device1_DGEN1_Beh_q);
  (T_DataAttribute, iedModel_Device1_DGEN1_Beh_t);
  (T_DataObject, iedModel_Device1_DGEN1_Health);
  (T_DataAttribute, iedModel_Device1_DGEN1_Health_stVal);
  (T_DataAttribute, iedModel_Device1_DGEN1_Health_q);
  (T_DataAttribute, iedModel_Device1_DGEN1_Health_t);
  (T_DataObject, iedModel_Device1_DGEN1_NamPlt);
  (T_DataAttribute, iedModel_Device1_DGEN1_NamPlt_vendor);
  (T_DataAttribute, iedModel_Device1_DGEN1_NamPlt_swRev);
  (T_DataAttribute, iedModel_Device1_DGEN1_NamPlt_d);
  (T_DataObject, iedModel_Device1_DGEN1_OpTmh);
  (T_DataAttribute, iedModel_Device1_DGEN1_OpTmh_stVal);
  (T_DataAttribute, iedModel_Device1_DGEN1_OpTmh_q);
  (T_DataAttribute, iedModel_Device1_DGEN1_OpTmh_t);
  (T_DataObject, iedModel_Device1_DGEN1_GnOpSt);
  (T_DataAttribute, iedModel_Device1_DGEN1_GnOpSt_stVal);
  (T_DataAttribute, iedModel_Device1_DGEN1_GnOpSt_q);
  (T_DataAttribute, iedModel_Device1_DGEN1_GnOpSt_t);
  (T_DataObject, iedModel_Device1_DGEN1_OpTmsRs);
  (T_DataAttribute, iedModel_Device1_DGEN1_OpTmsRs_stVal);
  (T_DataAttribute, iedModel_Device1_DGEN1_OpTmsRs_q);
  (T_DataAttribute, iedModel_Device1_DGEN1_OpTmsRs_t);
  (T_DataObject, iedModel_Device1_DGEN1_TotWh);
  (T_DataAttribute, iedModel_Device1_DGEN1_TotWh_mag);
  (T_DataAttribute, iedModel_Device1_DGEN1_TotWh_mag_f);
  (T_DataAttribute, iedModel_Device1_DGEN1_TotWh_q);
  (T_DataAttribute, iedModel_Device1_DGEN1_TotWh_t);
  (T_LogicalNode, iedModel_Device1_DSCH1);
  (T_DataObject, iedModel_Device1_DSCH1_Mod);
  (T_DataAttribute, iedModel_Device1_DSCH1_Mod_q);
  (T_DataAttribute, iedModel_Device1_DSCH1_Mod_t);
  (T_DataAttribute, iedModel_Device1_DSCH1_Mod_ctlModel);
  (T_DataObject, iedModel_Device1_DSCH1_Beh);
  (T_DataAttribute, iedModel_Device1_DSCH1_Beh_stVal);
  (T_DataAttribute, iedModel_Device1_DSCH1_Beh_q);
  (T_DataAttribute, iedModel_Device1_DSCH1_Beh_t);
  (T_DataObject, iedModel_Device1_DSCH1_Health);
  (T_DataAttribute, iedModel_Device1_DSCH1_Health_stVal);
  (T_DataAttribute, iedModel_Device1_DSCH1_Health_q);
  (T_DataAttribute, iedModel_Device1_DSCH1_Health_t);
  (T_DataObject, iedModel_Device1_DSCH1_NamPlt);
  (T_DataAttribute, iedModel_Device1_DSCH1_NamPlt_vendor);
  (T_DataAttribute, iedModel_Device1_DSCH1_NamPlt_swRev);
  (T_DataAttribute, iedModel_Device1_DSCH1_NamPlt_d);
  (T_DataObject, iedModel_Device1_DSCH1_SchdSt);
  (T_DataAttribute, iedModel_Device1_DSCH1_SchdSt_stVal);
  (T_DataAttribute, iedModel_Device1_DSCH1_SchdSt_q);
  (T_DataAttribute, iedModel_Device1_DSCH1_SchdSt_t);
  (T_DataObject, iedModel_Device1_DSCH1_SchdId);
  (T_DataObject, iedModel_Device1_DSCH1_SchdCat);
  (T_DataObject, iedModel_Device1_DSCH1_SchdTyp);
  (T_DataObject, iedModel_Device1_DSCH1_SchdAbsTm);
  (T_DataAttribute, iedModel_Device1_DSCH1_SchdAbsTm_val);
  (T_DataAttribute, iedModel_Device1_DSCH1_SchdAbsTm_val_0);
  (T_DataAttribute, iedModel_Device1_DSCH1_SchdAbsTm_val_1);
  (T_DataAttribute, iedModel_Device1_DSCH1_SchdAbsTm_val_2);
  (T_DataAttribute, iedModel_Device1_DSCH1_SchdAbsTm_val_3);
  (T_DataAttribute, iedModel_Device1_DSCH1_SchdAbsTm_val_4);
  (T_DataAttribute, iedModel_Device1_DSCH1_SchdAbsTm_val_5);
  (T_DataAttribute, iedModel_Device1_DSCH1_SchdAbsTm_val_6);
  (T_DataAttribute, iedModel_Device1_DSCH1_SchdAbsTm_val_7);
  (T_DataAttribute, iedModel_Device1_DSCH1_SchdAbsTm_val_8);
  (T_DataAttribute, iedModel_Device1_DSCH1_SchdAbsTm_val_9);
  (T_DataAttribute, iedModel_Device1_DSCH1_SchdAbsTm_val_10);
  (T_DataAttribute, iedModel_Device1_DSCH1_SchdAbsTm_val_11);
  (T_DataAttribute, iedModel_Device1_DSCH1_SchdAbsTm_val_12);
  (T_DataAttribute, iedModel_Device1_DSCH1_SchdAbsTm_val_13);
  (T_DataAttribute, iedModel_Device1_DSCH1_SchdAbsTm_val_14);
  (T_DataAttribute, iedModel_Device1_DSCH1_SchdAbsTm_val_15);
  (T_DataAttribute, iedModel_Device1_DSCH1_SchdAbsTm_val_16);
  (T_DataAttribute, iedModel_Device1_DSCH1_SchdAbsTm_val_17);
  (T_DataAttribute, iedModel_Device1_DSCH1_SchdAbsTm_val_18);
  (T_DataAttribute, iedModel_Device1_DSCH1_SchdAbsTm_val_19);
  (T_DataAttribute, iedModel_Device1_DSCH1_SchdAbsTm_val_20);
  (T_DataAttribute, iedModel_Device1_DSCH1_SchdAbsTm_val_21);
  (T_DataAttribute, iedModel_Device1_DSCH1_SchdAbsTm_val_22);
  (T_DataAttribute, iedModel_Device1_DSCH1_SchdAbsTm_val_23);
  (T_DataAttribute, iedModel_Device1_DSCH1_SchdAbsTm_val_24);
  (T_DataAttribute, iedModel_Device1_DSCH1_SchdAbsTm_val_25);
  (T_DataAttribute, iedModel_Device1_DSCH1_SchdAbsTm_val_26);
  (T_DataAttribute, iedModel_Device1_DSCH1_SchdAbsTm_val_27);
  (T_DataAttribute, iedModel_Device1_DSCH1_SchdAbsTm_val_28);
  (T_DataAttribute, iedModel_Device1_DSCH1_SchdAbsTm_val_29);
  (T_DataAttribute, iedModel_Device1_DSCH1_SchdAbsTm_val_30);
  (T_DataAttribute, iedModel_Device1_DSCH1_SchdAbsTm_val_31);
  (T_DataAttribute, iedModel_Device1_DSCH1_SchdAbsTm_val_32);
  (T_DataAttribute, iedModel_Device1_DSCH1_SchdAbsTm_val_33);
  (T_DataAttribute, iedModel_Device1_DSCH1_SchdAbsTm_val_34);
  (T_DataAttribute, iedModel_Device1_DSCH1_SchdAbsTm_val_35);
  (T_DataAttribute, iedModel_Device1_DSCH1_SchdAbsTm_val_36);
  (T_DataAttribute, iedModel_Device1_DSCH1_SchdAbsTm_val_37);
  (T_DataAttribute, iedModel_Device1_DSCH1_SchdAbsTm_val_38);
  (T_DataAttribute, iedModel_Device1_DSCH1_SchdAbsTm_val_39);
  (T_DataAttribute, iedModel_Device1_DSCH1_SchdAbsTm_val_40);
  (T_DataAttribute, iedModel_Device1_DSCH1_SchdAbsTm_val_41);
  (T_DataAttribute, iedModel_Device1_DSCH1_SchdAbsTm_val_42);
  (T_DataAttribute, iedModel_Device1_DSCH1_SchdAbsTm_val_43);
  (T_DataAttribute, iedModel_Device1_DSCH1_SchdAbsTm_val_44);
  (T_DataAttribute, iedModel_Device1_DSCH1_SchdAbsTm_val_45);
  (T_DataAttribute, iedModel_Device1_DSCH1_SchdAbsTm_val_46);
  (T_DataAttribute, iedModel_Device1_DSCH1_SchdAbsTm_val_47);
  (T_DataAttribute, iedModel_Device1_DSCH1_SchdAbsTm_val_48);
  (T_DataAttribute, iedModel_Device1_DSCH1_SchdAbsTm_val_49);
  (T_DataAttribute, iedModel_Device1_DSCH1_SchdAbsTm_val_50);
  (T_DataAttribute, iedModel_Device1_DSCH1_SchdAbsTm_val_51);
  (T_DataAttribute, iedModel_Device1_DSCH1_SchdAbsTm_val_52);
  (T_DataAttribute, iedModel_Device1_DSCH1_SchdAbsTm_val_53);
  (T_DataAttribute, iedModel_Device1_DSCH1_SchdAbsTm_val_54);
  (T_DataAttribute, iedModel_Device1_DSCH1_SchdAbsTm_val_55)
].

Definition sample_externs2 : list (object_type * addr) := [
  (T_DataAttribute, iedModel_Device1_DSCH1_SchdAbsTm_val_56);
  (T_DataAttribute, iedModel_Device1_DSCH1_SchdAbsTm_val_57);
  (T_DataAttribute, iedModel_Device1_DSCH1_SchdAbsTm_val_58);
  (T_DataAttribute, iedModel_Device1_DSCH1_SchdAbsTm_val_59);
  (T_DataAttribute, iedModel_Device1_DSCH1_SchdAbsTm_val_60);
  (T_DataAttribute, iedModel_Device1_DSCH1_SchdAbsTm_val_61);
  (T_DataAttribute, iedModel_Device1_DSCH1_SchdAbsTm_val_62);
  (T_DataAttribute, iedModel_Device1_DSCH1_SchdAbsTm_val_63);
  (T_DataAttribute, iedModel_Device1_DSCH1_SchdAbsTm_val_64);
  (T_DataAttribute, iedModel_Device1_DSCH1_SchdAbsTm_val_65);
  (T_DataAttribute, iedModel_Device1_DSCH1_SchdAbsTm_val_66);
  (T_DataAttribute, iedModel_Device1_DSCH1_SchdAbsTm_val_67);
  (T_DataAttribute, iedModel_Device1_DSCH1_SchdAbsTm_val_68);
  (T_DataAttribute, iedModel_Device1_DSCH1_SchdAbsTm_val_69);
  (T_DataAttribute, iedModel_Device1_DSCH1_SchdAbsTm_val_70);
  (T_DataAttribute, iedModel_Device1_DSCH1_SchdAbsTm_val_71);
  (T_DataAttribute, iedModel_Device1_DSCH1_SchdAbsTm_val_72);
  (T_DataAttribute, iedModel_Device1_DSCH1_SchdAbsTm_val_73);
  (T_DataAttribute, iedModel_Device1_DSCH1_SchdAbsTm_val_74);
  (T_DataAttribute, iedModel_Device1_DSCH1_SchdAbsTm_val_75);
  (T_DataAttribute, iedModel_Device1_DSCH1_SchdAbsTm_val_76);
  (T_DataAttribute, iedModel_Device1_DSCH1_SchdAbsTm_val_77);
  (T_DataAttribute, iedModel_Device1_DSCH1_SchdAbsTm_val_78);
  (T_DataAttribute, iedModel_Device1_DSCH1_SchdAbsTm_val_79);
  (T_DataAttribute, iedModel_Device1_DSCH1_SchdAbsTm_val_80);
  (T_DataAttribute, iedModel_Device1_DSCH1_SchdAbsTm_val_81);
  (T_DataAttribute, iedModel_Device1_DSCH1_SchdAbsTm_val_82);
  (T_DataAttribute, iedModel_Device1_DSCH1_SchdAbsTm_val_83);
  (T_DataAttribute, iedModel_Device1_DSCH1_SchdAbsTm_val_84);
  (T_DataAttribute, iedModel_Device1_DSCH1_SchdAbsTm_val_85);
  (T_DataAttribute, iedModel_Device1_DSCH1_SchdAbsTm_val_86);
  (T_DataAttribute, iedModel_Device1_DSCH1_SchdAbsTm_val_87);
  (T_DataAttribute, iedModel_Device1_DSCH1_SchdAbsTm_val_88);
  (T_DataAttribute, iedModel_Device1_DSCH1_SchdAbsTm_val_89);
  (T_DataAttribute, iedModel_Device1_DSCH1_SchdAbsTm_val_90);
  (T_DataAttribute, iedModel_Device1_DSCH1_SchdAbsTm_val_91);
  (T_DataAttribute, iedModel_Device1_DSCH1_SchdAbsTm_val_92);
  (T_DataAttribute, iedModel_Device1_DSCH1_SchdAbsTm_val_93);
  (T_DataAttribute, iedModel_Device1_DSCH1_SchdAbsTm_val_94);
  (T_DataAttribute, iedModel_Device1_DSCH1_SchdAbsTm_val_95);
  (T_DataAttribute, iedModel_Device1_DSCH1_SchdAbsTm_val_96);
  (T_DataAttribute, iedModel_Device1_DSCH1_SchdAbsTm_val_97);
  (T_DataAttribute, iedModel_Device1_DSCH1_SchdAbsTm_val_98);
  (T_DataAttribute, iedModel_Device1_DSCH1_SchdAbsTm_val_99);
  (T_DataAttribute, iedModel_Device1_DSCH1_SchdAbsTm_val_100);
  (T_DataAttribute, iedModel_Device1_DSCH1_SchdAbsTm_val_101);
  (T_DataAttribute, iedModel_Device1_DSCH1_SchdAbsTm_val_102);
  (T_DataAttribute, iedModel_Device1_DSCH1_SchdAbsTm_val_103);
  (T_DataAttribute, iedModel_Device1_DSCH1_SchdAbsTm_val_104);
  (T_DataAttribute, iedModel_Device1_DSCH1_SchdAbsTm_val_105);
  (T_DataAttribute, iedModel_Device1_DSCH1_SchdAbsTm_val_106);
  (T_DataAttribute, iedModel_Device1_DSCH1_SchdAbsTm_val_107);
  (T_DataAttribute, iedModel_Device1_DSCH1_SchdAbsTm_val_108);
  (T_DataAttribute, iedModel_Device1_DSCH1_SchdAbsTm_val_109);
  (T_DataAttribute, iedModel_Device1_DSCH1_SchdAbsTm_val_110);
  (T_DataAttribute, iedModel_Device1_DSCH1_SchdAbsTm_val_111);
  (T_DataAttribute, iedModel_Device1_DSCH1_SchdAbsTm_val_112);
  (T_DataAttribute, iedModel_Device1_DSCH1_SchdAbsTm_val_113);
  (T_DataAttribute, iedModel_Device1_DSCH1_SchdAbsTm_val_114);
  (T_DataAttribute, iedModel_Device1_DSCH1_SchdAbsTm_val_115);
  (T_DataAttribute, iedModel_Device1_DSCH1_SchdAbsTm_val_116);
  (T_DataAttribute, iedModel_Device1_DSCH1_SchdAbsTm_val_117);
  (T_DataAttribute, iedModel_Device1_DSCH1_SchdAbsTm_val_118);
  (T_DataAttribute, iedModel_Device1_DSCH1_SchdAbsTm_val_119);
  (T_DataAttribute, iedModel_Device1_DSCH1_SchdAbsTm_val_120);
  (T_DataAttribute, iedModel_Device1_DSCH1_SchdAbsTm_val_121);
  (T_DataAttribute, iedModel_Device1_DSCH1_SchdAbsTm_val_122);
  (T_DataAttribute, iedModel_Device1_DSCH1_SchdAbsTm_val_123);
  (T_DataAttribute, iedModel_Device1_DSCH1_SchdAbsTm_val_124);
  (T_DataAttribute, iedModel_Device1_DSCH1_SchdAbsTm_val_125);
  (T_DataAttribute, iedModel_Device1_DSCH1_SchdAbsTm_val_126);
  (T_DataAttribute, iedModel_Device1_DSCH1_SchdAbsTm_val_127);
  (T_DataAttribute, iedModel_Device1_DSCH1_SchdAbsTm_val_128);
  (T_DataAttribute, iedModel_Device1_DSCH1_SchdAbsTm_val_129);
  (T_DataAttribute, iedModel_Device1_DSCH1_SchdAbsTm_val_130);
  (T_DataAttribute, iedModel_Device1_DSCH1_SchdAbsTm_val_131);
  (T_DataAttribute, iedModel_Device1_DSCH1_SchdAbsTm_val_132);
  (T_DataAttribute, iedModel_Device1_DSCH1_SchdAbsTm_val_133);
  (T_DataAttribute, iedModel_Device1_DSCH1_SchdAbsTm_val_134);
  (T_DataAttribute, iedModel_Device1_DSCH1_SchdAbsTm_val_135);
  (T_DataAttribute, iedModel_Device1_DSCH1_SchdAbsTm_val_136);
  (T_DataAttribute, iedModel_Device1_DSCH1_SchdAbsTm_val_137);
  (T_DataAttribute, iedModel_Device1_DSCH1_SchdAbsTm_val_138);
  (T_DataAttribute, iedModel_Device1_DSCH1_SchdAbsTm_val_139);
  (T_DataAttribute, iedModel_Device1_DSCH1_SchdAbsTm_val_140);
  (T_DataAttribute, iedModel_Device1_DSCH1_SchdAbsTm_val_141);
  (T_DataAttribute, iedModel_Device1_DSCH1_SchdAbsTm_val_142);
  (T_DataAttribute, iedModel_Device1_DSCH1_SchdAbsTm_val_143);
  (T_DataAttribute, iedModel_Device1_DSCH1_SchdAbsTm_val_144);
  (T_DataAttribute, iedModel_Device1_DSCH1_SchdAbsTm_val_145);
  (T_DataAttribute, iedModel_Device1_DSCH1_SchdAbsTm_val_146);
  (T_DataAttribute, iedModel_Device1_DSCH1_SchdAbsTm_val_147);
  (T_DataAttribute, iedModel_Device1_DSCH1_SchdAbsTm_val_148);
  (T_DataAttribute, iedModel_Device1_DSCH1_SchdAbsTm_val_149);
  (T_DataAttribute, iedModel_Device1_DSCH1_SchdAbsTm_val_150);
  (T_DataAttribute, iedModel_Device1_DSCH1_SchdAbsTm_val_151);
  (T_DataAttribute, iedModel_Device1_DSCH1_SchdAbsTm_val_152);
  (T_DataAttribute, iedModel_Device1_DSCH1_SchdAbsTm_val_153);
  (T_DataAttribute, iedModel_Device1_DSCH1_SchdAbsTm_val_154);
  (T_DataAttribute, iedModel_Device1_DSCH1_SchdAbsTm_val_155);
  (T_DataAttribute, iedModel_Device1_DSCH1_SchdAbsTm_val_156);
  (T_DataAttribute, iedModel_Device1_DSCH1_SchdAbsTm_val_157);
  (T_DataAttribute, iedModel_Device1_DSCH1_SchdAbsTm_val_158);
  (T_DataAttribute, iedModel_Device1_DSCH1_SchdAbsTm_val_159);
  (T_DataAttribute, iedModel_Device1_DSCH1_SchdAbsTm_val_160);
  (T_DataAttribute, iedModel_Device1_DSCH1_SchdAbsTm_val_161);
  (T_DataAttribute, iedModel_Device1_DSCH1_SchdAbsTm_val_162);
  (T_DataAttribute, iedModel_Device1_DSCH1_SchdAbsTm_val_163);
  (T_DataAttribute, iedModel_Device1_DSCH1_SchdAbsTm_val_164);
  (T_DataAttribute, iedModel_Device1_DSCH1_SchdAbsTm_val_165);
  (T_DataAttribute, iedModel_Device1_DSCH1_SchdAbsTm_val_166);
  (T_DataAttribute, iedModel_Device1_DSCH1_SchdAbsTm_val_167);
  (T_DataAttribute, iedModel_Device1_DSCH1_SchdAbsTm_val_168);
  (T_DataAttribute, iedModel_Device1_DSCH1_SchdAbsTm_val_169);
  (T_DataAttribute, iedModel_Device1_DSCH1_SchdAbsTm_val_170);
  (T_DataAttribute, iedModel_Device1_DSCH1_SchdAbsTm_val_171);
  (T_DataAttribute, iedModel_Device1_DSCH1_SchdAbsTm_val_172);
  (T_DataAttribute, iedModel_Device1_DSCH1_SchdAbsTm_val_173);
  (T_DataAttribute, iedModel_Device1_DSCH1_SchdAbsTm_val_174);
  (T_DataAttribute, iedModel_Device1_DSCH1_SchdAbsTm_val_175);
  (T_DataAttribute, iedModel_Device1_DSCH1_SchdAbsTm_val_176);
  (T_DataAttribute, iedModel_Device1_DSCH1_SchdAbsTm_val_177);
  (T_DataAttribute, iedModel_Device1_DSCH1_SchdAbsTm_val_178);
  (T_DataAttribute, iedModel_Device1_DSCH1_SchdAbsTm_val_179);
  (T_DataAttribute, iedModel_Device1_DSCH1_SchdAbsTm_val_180);
  (T_DataAttribute, iedModel_Device1_DSCH1_SchdAbsTm_val_181);
  (T_DataAttribute, iedModel_Device1_DSCH1_SchdAbsTm_val_182);
  (T_DataAttribute, iedModel_Device1_DSCH1_SchdAbsTm_val_183);
  (T_DataAttribute, iedModel_Device1_DSCH1_SchdAbsTm_val_184);
  (T_DataAttribute, iedModel_Device1_DSCH1_SchdAbsTm_val_185);
  (T_DataAttribute, iedModel_Device1_DSCH1_SchdAbsTm_val_186);
  (T_DataAttribute, iedModel_Device1_DSCH1_SchdAbsTm_val_187);
  (T_DataAttribute, iedModel_Device1_DSCH1_SchdAbsTm_val_188);
  (T_DataAttribute, iedModel_Device1_DSCH1_SchdAbsTm_val_189);
  (T_DataAttribute, iedModel_Device1_DSCH1_SchdAbsTm_val_190);
  (T_DataAttribute, iedModel_Device1_DSCH1_SchdAbsTm_val_191);
  (T_DataAttribute, iedModel_Device1_DSCH1_SchdAbsTm_val_192);
  (T_DataAttribute, iedModel_Device1_DSCH1_SchdAbsTm_val_193);
  (T_DataAttribute, iedModel_Device1_DSCH1_SchdAbsTm_val_194);
  (T_DataAttribute, iedModel_Device1_DSCH1_SchdAbsTm_val_195);
  (T_DataAttribute, iedModel_Device1_DSCH1_SchdAbsTm_val_196);
  (T_DataAttribute, iedModel_Device1_DSCH1_SchdAbsTm_val_197);
  (T_DataAttribute, iedModel_Device1_DSCH1_SchdAbsTm_val_198);
  (T_DataAttribute, iedModel_Device1_DSCH1_SchdAbsTm_val_199);
  (T_DataAttribute, iedModel_Device1_DSCH1_SchdAbsTm_val_200);
  (T_DataAttribute, iedModel_Device1_DSCH1_SchdAbsTm_val_201);
  (T_DataAttribute, iedModel_Device1_DSCH1_SchdAbsTm_val_202);
  (T_DataAttribute, iedModel_Device1_DSCH1_SchdAbsTm_val_203)
].

Definition sample_externs3 : list (object_type * addr) := [
  (T_DataAttribute, iedModel_Device1_DSCH1_SchdAbsTm_val_204);
  (T_DataAttribute, iedModel_Device1_DSCH1_SchdAbsTm_val_205);
  (T_DataAttribute, iedModel_Device1_DSCH1_SchdAbsTm_val_206);
  (T_DataAttribute, iedModel_Device1_DSCH1_SchdAbsTm_val_207);
  (T_DataAttribute, iedModel_Device1_DSCH1_SchdAbsTm_val_208);
  (T_DataAttribute, iedModel_Device1_DSCH1_SchdAbsTm_val_209);
  (T_DataAttribute, iedModel_Device1_DSCH1_SchdAbsTm_val_210);
  (T_DataAttribute, iedModel_Device1_DSCH1_SchdAbsTm_val_211);
  (T_DataAttribute, iedModel_Device1_DSCH1_SchdAbsTm_val_212);
  (T_DataAttribute, iedModel_Device1_DSCH1_SchdAbsTm_val_213);
  (T_DataAttribute, iedModel_Device1_DSCH1_SchdAbsTm_val_214);
  (T_DataAttribute, iedModel_Device1_DSCH1_SchdAbsTm_val_215);
  (T_DataAttribute, iedModel_Device1_DSCH1_SchdAbsTm_val_216);
  (T_DataAttribute, iedModel_Device1_DSCH1_SchdAbsTm_val_217);
  (T_DataAttribute, iedModel_Device1_DSCH1_SchdAbsTm_val_218);
  (T_DataAttribute, iedModel_Device1_DSCH1_SchdAbsTm_val_219);
  (T_DataAttribute, iedModel_Device1_DSCH1_SchdAbsTm_val_220);
  (T_DataAttribute, iedModel_Device1_DSCH1_SchdAbsTm_val_221);
  (T_DataAttribute, iedModel_Device1_DSCH1_SchdAbsTm_val_222);
  (T_DataAttribute, iedModel_Device1_DSCH1_SchdAbsTm_val_223);
  (T_DataAttribute, iedModel_Device1_DSCH1_SchdAbsTm_val_224);
  (T_DataAttribute, iedModel_Device1_DSCH1_SchdAbsTm_val_225);
  (T_DataAttribute, iedModel_Device1_DSCH1_SchdAbsTm_val_226);
  (T_DataAttribute, iedModel_Device1_DSCH1_SchdAbsTm_val_227);
  (T_DataAttribute, iedModel_Device1_DSCH1_SchdAbsTm_val_228);
  (T_DataAttribute, iedModel_Device1_DSCH1_SchdAbsTm_val_229);
  (T_DataAttribute, iedModel_Device1_DSCH1_SchdAbsTm_val_230);
  (T_DataAttribute, iedModel_Device1_DSCH1_SchdAbsTm_val_231);
  (T_DataAttribute, iedModel_Device1_DSCH1_SchdAbsTm_val_232);
  (T_DataAttribute, iedModel_Device1_DSCH1_SchdAbsTm_val_233);
  (T_DataAttribute, iedModel_Device1_DSCH1_SchdAbsTm_val_234);
  (T_DataAttribute, iedModel_Device1_DSCH1_SchdAbsTm_val_235);
  (T_DataAttribute, iedModel_Device1_DSCH1_SchdAbsTm_val_236);
  (T_DataAttribute, iedModel_Device1_DSCH1_SchdAbsTm_val_237);
  (T_DataAttribute, iedModel_Device1_DSCH1_SchdAbsTm_val_238);
  (T_DataAttribute, iedModel_Device1_DSCH1_SchdAbsTm_val_239);
  (T_DataAttribute, iedModel_Device1_DSCH1_SchdAbsTm_val_240);
  (T_DataAttribute, iedModel_Device1_DSCH1_SchdAbsTm_val_241);
  (T_DataAttribute, iedModel_Device1_DSCH1_SchdAbsTm_val_242);
  (T_DataAttribute, iedModel_Device1_DSCH1_SchdAbsTm_val_243);
  (T_DataAttribute, iedModel_Device1_DSCH1_SchdAbsTm_val_244);
  (T_DataAttribute, iedModel_Device1_DSCH1_SchdAbsTm_val_245);
  (T_DataAttribute, iedModel_Device1_DSCH1_SchdAbsTm_val_246);
  (T_DataAttribute, iedModel_Device1_DSCH1_SchdAbsTm_val_247);
  (T_DataAttribute, iedModel_Device1_DSCH1_SchdAbsTm_val_248);
  (T_DataAttribute, iedModel_Device1_DSCH1_SchdAbsTm_val_249);
  (T_DataAttribute, iedModel_Device1_DSCH1_SchdAbsTm_val_250);
  (T_DataAttribute, iedModel_Device1_DSCH1_SchdAbsTm_val_251);
  (T_DataAttribute, iedModel_Device1_DSCH1_SchdAbsTm_val_252);
  (T_DataAttribute, iedModel_Device1_DSCH1_SchdAbsTm_val_253);
  (T_DataAttribute, iedModel_Device1_DSCH1_SchdAbsTm_val_254);
  (T_DataAttribute, iedModel_Device1_DSCH1_SchdAbsTm_time);
  (T_DataAttribute, iedModel_Device1_DSCH1_SchdAbsTm_time_0);
  (T_DataAttribute, iedModel_Device1_DSCH1_SchdAbsTm_time_1);
  (T_DataAttribute, iedModel_Device1_DSCH1_SchdAbsTm_time_2);
  (T_DataAttribute, iedModel_Device1_DSCH1_SchdAbsTm_time_3);
  (T_DataAttribute, iedModel_Device1_DSCH1_SchdAbsTm_time_4);
  (T_DataAttribute, iedModel_Device1_DSCH1_SchdAbsTm_time_5);
  (T_DataAttribute, iedModel_Device1_DSCH1_SchdAbsTm_time_6);
  (T_DataAttribute, iedModel_Device1_DSCH1_SchdAbsTm_time_7);
  (T_DataAttribute, iedModel_Device1_DSCH1_SchdAbsTm_time_8);
  (T_DataAttribute, iedModel_Device1_DSCH1_SchdAbsTm_time_9);
  (T_DataAttribute, iedModel_Device1_DSCH1_SchdAbsTm_time_10);
  (T_DataAttribute, iedModel_Device1_DSCH1_SchdAbsTm_time_11);
  (T_DataAttribute, iedModel_Device1_DSCH1_SchdAbsTm_time_12);
  (T_DataAttribute, iedModel_Device1_DSCH1_SchdAbsTm_time_13);
  (T_DataAttribute, iedModel_Device1_DSCH1_SchdAbsTm_time_14);
  (T_DataAttribute, iedModel_Device1_DSCH1_SchdAbsTm_time_15);
  (T_DataAttribute, iedModel_Device1_DSCH1_SchdAbsTm_time_16);
  (T_DataAttribute, iedModel_Device1_DSCH1_SchdAbsTm_time_17);
  (T_DataAttribute, iedModel_Device1_DSCH1_SchdAbsTm_time_18);
  (T_DataAttribute, iedModel_Device1_DSCH1_SchdAbsTm_time_19);
  (T_DataAttribute, iedModel_Device1_DSCH1_SchdAbsTm_time_20);
  (T_DataAttribute, iedModel_Device1_DSCH1_SchdAbsTm_time_21);
  (T_DataAttribute, iedModel_Device1_DSCH1_SchdAbsTm_time_22);
  (T_DataAttribute, iedModel_Device1_DSCH1_SchdAbsTm_time_23);
  (T_DataAttribute, iedModel_Device1_DSCH1_SchdAbsTm_time_24);
  (T_DataAttribute, iedModel_Device1_DSCH1_SchdAbsTm_time_25);
  (T_DataAttribute, iedModel_Device1_DSCH1_SchdAbsTm_time_26);
  (T_DataAttribute, iedModel_Device1_DSCH1_SchdAbsTm_time_27);
  (T_DataAttribute, iedModel_Device1_DSCH1_SchdAbsTm_time_28);
  (T_DataAttribute, iedModel_Device1_DSCH1_SchdAbsTm_time_29);
  (T_DataAttribute, iedModel_Device1_DSCH1_SchdAbsTm_time_30);
  (T_DataAttribute, iedModel_Device1_DSCH1_SchdAbsTm_time_31);
  (T_DataAttribute, iedModel_Device1_DSCH1_SchdAbsTm_time_32);
  (T_DataAttribute, iedModel_Device1_DSCH1_SchdAbsTm_time_33);
  (T_DataAttribute, iedModel_Device1_DSCH1_SchdAbsTm_time_34);
  (T_DataAttribute, iedModel_Device1_DSCH1_SchdAbsTm_time_35);
  (T_DataAttribute, iedModel_Device1_DSCH1_SchdAbsTm_time_36);
  (T_DataAttribute, iedModel_Device1_DSCH1_SchdAbsTm_time_37);
  (T_DataAttribute, iedModel_Device1_DSCH1_SchdAbsTm_time_38);
  (T_DataAttribute, iedModel_Device1_DSCH1_SchdAbsTm_time_39);
  (T_DataAttribute, iedModel_Device1_DSCH1_SchdAbsTm_time_40);
  (T_DataAttribute, iedModel_Device1_DSCH1_SchdAbsTm_time_41);
  (T_DataAttribute, iedModel_Device1_DSCH1_SchdAbsTm_time_42);
  (T_DataAttribute, iedModel_Device1_DSCH1_SchdAbsTm_time_43);
  (T_DataAttribute, iedModel_Device1_DSCH1_SchdAbsTm_time_44);
  (T_DataAttribute, iedModel_Device1_DSCH1_SchdAbsTm_time_45);
  (T_DataAttribute, iedModel_Device1_DSCH1_SchdAbsTm_time_46);
  (T_DataAttribute, iedModel_Device1_DSCH1_SchdAbsTm_time_47);
  (T_DataAttribute, iedModel_Device1_DSCH1_SchdAbsTm_time_48);
  (T_DataAttribute, iedModel_Device1_DSCH1_SchdAbsTm_time_49);
  (T_DataAttribute, iedModel_Device1_DSCH1_SchdAbsTm_time_50);
  (T_DataAttribute, iedModel_Device1_DSCH1_SchdAbsTm_time_51);
  (T_DataAttribute, iedModel_Device1_DSCH1_SchdAbsTm_time_52);
  (T_DataAttribute, iedModel_Device1_DSCH1_SchdAbsTm_time_53);
  (T_DataAttribute, iedModel_Device1_DSCH1_SchdAbsTm_time_54);
  (T_DataAttribute, iedModel_Device1_DSCH1_SchdAbsTm_time_55);
  (T_DataAttribute, iedModel_Device1_DSCH1_SchdAbsTm_time_56);
  (T_DataAttribute, iedModel_Device1_DSCH1_SchdAbsTm_time_57);
  (T_DataAttribute, iedModel_Device1_DSCH1_SchdAbsTm_time_58);
  (T_DataAttribute, iedModel_Device1_DSCH1_SchdAbsTm_time_59);
  (T_DataAttribute, iedModel_Device1_DSCH1_SchdAbsTm_time_60);
  (T_DataAttribute, iedModel_Device1_DSCH1_SchdAbsTm_time_61);
  (T_DataAttribute, iedModel_Device1_DSCH1_SchdAbsTm_time_62);
  (T_DataAttribute, iedModel_Device1_DSCH1_SchdAbsTm_time_63);
  (T_DataAttribute, iedModel_Device1_DSCH1_SchdAbsTm_time_64);
  (T_DataAttribute, iedModel_Device1_DSCH1_SchdAbsTm_time_65);
  (T_DataAttribute, iedModel_Device1_DSCH1_SchdAbsTm_time_66);
  (T_DataAttribute, iedModel_Device1_DSCH1_SchdAbsTm_time_67);
  (T_DataAttribute, iedModel_Device1_DSCH1_SchdAbsTm_time_68);
  (T_DataAttribute, iedModel_Device1_DSCH1_SchdAbsTm_time_69);
  (T_DataAttribute, iedModel_Device1_DSCH1_SchdAbsTm_time_70);
  (T_DataAttribute, iedModel_Device1_DSCH1_SchdAbsTm_time_71);
  (T_DataAttribute, iedModel_Device1_DSCH1_SchdAbsTm_time_72);
  (T_DataAttribute, iedModel_Device1_DSCH1_SchdAbsTm_time_73);
  (T_DataAttribute, iedModel_Device1_DSCH1_SchdAbsTm_time_74);
  (T_DataAttribute, iedModel_Device1_DSCH1_SchdAbsTm_time_75);
  (T_DataAttribute, iedModel_Device1_DSCH1_SchdAbsTm_time_76);
  (T_DataAttribute, iedModel_Device1_DSCH1_SchdAbsTm_time_77);
  (T_DataAttribute, iedModel_Device1_DSCH1_SchdAbsTm_time_78);
  (T_DataAttribute, iedModel_Device1_DSCH1_SchdAbsTm_time_79);
  (T_DataAttribute, iedModel_Device1_DSCH1_SchdAbsTm_time_80);
  (T_DataAttribute, iedModel_Device1_DSCH1_SchdAbsTm_time_81);
  (T_DataAttribute, iedModel_Device1_DSCH1_SchdAbsTm_time_82);
  (T_DataAttribute, iedModel_Device1_DSCH1_SchdAbsTm_time_83);
  (T_DataAttribute, iedModel_Device1_DSCH1_SchdAbsTm_time_84);
  (T_DataAttribute, iedModel_Device1_DSCH1_SchdAbsTm_time_85);
  (T_DataAttribute, iedModel_Device1_DSCH1_SchdAbsTm_time_86);
  (T_DataAttribute, iedModel_Device1_DSCH1_SchdAbsTm_time_87);
  (T_DataAttribute, iedModel_Device1_DSCH1_SchdAbsTm_time_88);
  (T_DataAttribute, iedModel_Device1_DSCH1_SchdAbsTm_time_89);
  (T_DataAttribute, iedModel_Device1_DSCH1_SchdAbsTm_time_90);
  (T_DataAttribute, iedModel_Device1_DSCH1_SchdAbsTm_time_91);
  (T_DataAttribute, iedModel_Device1_DSCH1_SchdAbsTm_time_92);
  (T_DataAttribute, iedModel_Device1_DSCH1_SchdAbsTm_time_93);
  (T_DataAttribute, iedModel_Device1_DSCH1_SchdAbsTm_time_94);
  (T_DataAttribute, iedModel_Device1_DSCH1_SchdAbsTm_time_95)
].

Definition sample_externs4 : list (object_type * addr) := [
  (T_DataAttribute, iedModel_Device1_DSCH1_SchdAbsTm_time_96);
  (T_DataAttribute, iedModel_Device1_DSCH1_SchdAbsTm_time_97);
  (T_DataAttribute, iedModel_Device1_DSCH1_SchdAbsTm_time_98);
  (T_DataAttribute, iedModel_Device1_DSCH1_SchdAbsTm_time_99);
  (T_DataAttribute, iedModel_Device1_DSCH1_SchdAbsTm_time_100);
  (T_DataAttribute, iedModel_Device1_DSCH1_SchdAbsTm_time_101);
  (T_DataAttribute, iedModel_Device1_DSCH1_SchdAbsTm_time_102);
  (T_DataAttribute, iedModel_Device1_DSCH1_SchdAbsTm_time_103);
  (T_DataAttribute, iedModel_Device1_DSCH1_SchdAbsTm_time_104);
  (T_DataAttribute, iedModel_Device1_DSCH1_SchdAbsTm_time_105);
  (T_DataAttribute, iedModel_Device1_DSCH1_SchdAbsTm_time_106);
  (T_DataAttribute, iedModel_Device1_DSCH1_SchdAbsTm_time_107);
  (T_DataAttribute, iedModel_Device1_DSCH1_SchdAbsTm_time_108);
  (T_DataAttribute, iedModel_Device1_DSCH1_SchdAbsTm_time_109);
  (T_DataAttribute, iedModel_Device1_DSCH1_SchdAbsTm_time_110);
  (T_DataAttribute, iedModel_Device1_DSCH1_SchdAbsTm_time_111);
  (T_DataAttribute, iedModel_Device1_DSCH1_SchdAbsTm_time_112);
  (T_DataAttribute, iedModel_Device1_DSCH1_SchdAbsTm_time_113);
  (T_DataAttribute, iedModel_Device1_DSCH1_SchdAbsTm_time_114);
  (T_DataAttribute, iedModel_Device1_DSCH1_SchdAbsTm_time_115);
  (T_DataAttribute, iedModel_Device1_DSCH1_SchdAbsTm_time_116);
  (T_DataAttribute, iedModel_Device1_DSCH1_SchdAbsTm_time_117);
  (T_DataAttribute, iedModel_Device1_DSCH1_SchdAbsTm_time_118);
  (T_DataAttribute, iedModel_Device1_DSCH1_SchdAbsTm_time_119);
  (T_DataAttribute, iedModel_Device1_DSCH1_SchdAbsTm_time_120);
  (T_DataAttribute, iedModel_Device1_DSCH1_SchdAbsTm_time_121);
  (T_DataAttribute, iedModel_Device1_DSCH1_SchdAbsTm_time_122);
  (T_DataAttribute, iedModel_Device1_DSCH1_SchdAbsTm_time_123);
  (T_DataAttribute, iedModel_Device1_DSCH1_SchdAbsTm_time_124);
  (T_DataAttribute, iedModel_Device1_DSCH1_SchdAbsTm_time_125);
  (T_DataAttribute, iedModel_Device1_DSCH1_SchdAbsTm_time_126);
  (T_DataAttribute, iedModel_Device1_DSCH1_SchdAbsTm_time_127);
  (T_DataAttribute, iedModel_Device1_DSCH1_SchdAbsTm_time_128);
  (T_DataAttribute, iedModel_Device1_DSCH1_SchdAbsTm_time_129);
  (T_DataAttribute, iedModel_Device1_DSCH1_SchdAbsTm_time_130);
  (T_DataAttribute, iedModel_Device1_DSCH1_SchdAbsTm_time_131);
  (T_DataAttribute, iedModel_Device1_DSCH1_SchdAbsTm_time_132);
  (T_DataAttribute, iedModel_Device1_DSCH1_SchdAbsTm_time_133);
  (T_DataAttribute, iedModel_Device1_DSCH1_SchdAbsTm_time_134);
  (T_DataAttribute, iedModel_Device1_DSCH1_SchdAbsTm_time_135);
  (T_DataAttribute, iedModel_Device1_DSCH1_SchdAbsTm_time_136);
  (T_DataAttribute, iedModel_Device1_DSCH1_SchdAbsTm_time_137);
  (T_DataAttribute, iedModel_Device1_DSCH1_SchdAbsTm_time_138);
  (T_DataAttribute, iedModel_Device1_DSCH1_SchdAbsTm_time_139);
  (T_DataAttribute, iedModel_Device1_DSCH1_SchdAbsTm_time_140);
  (T_DataAttribute, iedModel_Device1_DSCH1_SchdAbsTm_time_141);
  (T_DataAttribute, iedModel_Device1_DSCH1_SchdAbsTm_time_142);
  (T_DataAttribute, iedModel_Device1_DSCH1_SchdAbsTm_time_143);
  (T_DataAttribute, iedModel_Device1_DSCH1_SchdAbsTm_time_144);
  (T_DataAttribute, iedModel_Device1_DSCH1_SchdAbsTm_time_145);
  (T_DataAttribute, iedModel_Device1_DSCH1_SchdAbsTm_time_146);
  (T_DataAttribute, iedModel_Device1_DSCH1_SchdAbsTm_time_147);
  (T_DataAttribute, iedModel_Device1_DSCH1_SchdAbsTm_time_148);
  (T_DataAttribute, iedModel_Device1_DSCH1_SchdAbsTm_time_149);
  (T_DataAttribute, iedModel_Device1_DSCH1_SchdAbsTm_time_150);
  (T_DataAttribute, iedModel_Device1_DSCH1_SchdAbsTm_time_151);
  (T_DataAttribute, iedModel_Device1_DSCH1_SchdAbsTm_time_152);
  (T_DataAttribute, iedModel_Device1_DSCH1_SchdAbsTm_time_153);
  (T_DataAttribute, iedModel_Device1_DSCH1_SchdAbsTm_time_154);
  (T_DataAttribute, iedModel_Device1_DSCH1_SchdAbsTm_time_155);
  (T_DataAttribute, iedModel_Device1_DSCH1_SchdAbsTm_time_156);
  (T_DataAttribute, iedModel_Device1_DSCH1_SchdAbsTm_time_157);
  (T_DataAttribute, iedModel_Device1_DSCH1_SchdAbsTm_time_158);
  (T_DataAttribute, iedModel_Device1_DSCH1_SchdAbsTm_time_159);
  (T_DataAttribute, iedModel_Device1_DSCH1_SchdAbsTm_time_160);
  (T_DataAttribute, iedModel_Device1_DSCH1_SchdAbsTm_time_161);
  (T_DataAttribute, iedModel_Device1_DSCH1_SchdAbsTm_time_162);
  (T_DataAttribute, iedModel_Device1_DSCH1_SchdAbsTm_time_163);
  (T_DataAttribute, iedModel_Device1_DSCH1_SchdAbsTm_time_164);
  (T_DataAttribute, iedModel_Device1_DSCH1_SchdAbsTm_time_165);
  (T_DataAttribute, iedModel_Device1_DSCH1_SchdAbsTm_time_166);
  (T_DataAttribute, iedModel_Device1_DSCH1_SchdAbsTm_time_167);
  (T_DataAttribute, iedModel_Device1_DSCH1_SchdAbsTm_time_168);
  (T_DataAttribute, iedModel_Device1_DSCH1_SchdAbsTm_time_169);
  (T_DataAttribute, iedModel_Device1_DSCH1_SchdAbsTm_time_170);
  (T_DataAttribute, iedModel_Device1_DSCH1_SchdAbsTm_time_171);
  (T_DataAttribute, iedModel_Device1_DSCH1_SchdAbsTm_time_172);
  (T_DataAttribute, iedModel_Device1_DSCH1_SchdAbsTm_time_173);
  (T_DataAttribute, iedModel_Device1_DSCH1_SchdAbsTm_time_174);
  (T_DataAttribute, iedModel_Device1_DSCH1_SchdAbsTm_time_175);
  (T_DataAttribute, iedModel_Device1_DSCH1_SchdAbsTm_time_176);
  (T_DataAttribute, iedModel_Device1_DSCH1_SchdAbsTm_time_177);
  (T_DataAttribute, iedModel_Device1_DSCH1_SchdAbsTm_time_178);
  (T_DataAttribute, iedModel_Device1_DSCH1_SchdAbsTm_time_179);
  (T_DataAttribute, iedModel_Device1_DSCH1_SchdAbsTm_time_180);
  (T_DataAttribute, iedModel_Device1_DSCH1_SchdAbsTm_time_181);
  (T_DataAttribute, iedModel_Device1_DSCH1_SchdAbsTm_time_182);
  (T_DataAttribute, iedModel_Device1_DSCH1_SchdAbsTm_time_183);
  (T_DataAttribute, iedModel_Device1_DSCH1_SchdAbsTm_time_184);
  (T_DataAttribute, iedModel_Device1_DSCH1_SchdAbsTm_time_185);
  (T_DataAttribute, iedModel_Device1_DSCH1_SchdAbsTm_time_186);
  (T_DataAttribute, iedModel_Device1_DSCH1_SchdAbsTm_time_187);
  (T_DataAttribute, iedModel_Device1_DSCH1_SchdAbsTm_time_188);
  (T_DataAttribute, iedModel_Device1_DSCH1_SchdAbsTm_time_189);
  (T_DataAttribute, iedModel_Device1_DSCH1_SchdAbsTm_time_190);
  (T_DataAttribute, iedModel_Device1_DSCH1_SchdAbsTm_time_191);
  (T_DataAttribute, iedModel_Device1_DSCH1_SchdAbsTm_time_192);
  (T_DataAttribute, iedModel_Device1_DSCH1_SchdAbsTm_time_193);
  (T_DataAttribute, iedModel_Device1_DSCH1_SchdAbsTm_time_194);
  (T_DataAttribute, iedModel_Device1_DSCH1_SchdAbsTm_time_195);
  (T_DataAttribute, iedModel_Device1_DSCH1_SchdAbsTm_time_196);
  (T_DataAttribute, iedModel_Device1_DSCH1_SchdAbsTm_time_197);
  (T_DataAttribute, iedModel_Device1_DSCH1_SchdAbsTm_time_198);
  (T_DataAttribute, iedModel_Device1_DSCH1_SchdAbsTm_time_199);
  (T_DataAttribute, iedModel_Device1_DSCH1_SchdAbsTm_time_200);
  (T_DataAttribute, iedModel_Device1_DSCH1_SchdAbsTm_time_201);
  (T_DataAttribute, iedModel_Device1_DSCH1_SchdAbsTm_time_202);
  (T_DataAttribute, iedModel_Device1_DSCH1_SchdAbsTm_time_203);
  (T_DataAttribute, iedModel_Device1_DSCH1_SchdAbsTm_time_204);
  (T_DataAttribute, iedModel_Device1_DSCH1_SchdAbsTm_time_205);
  (T_DataAttribute, iedModel_Device1_DSCH1_SchdAbsTm_time_206);
  (T_DataAttribute, iedModel_Device1_DSCH1_SchdAbsTm_time_207);
  (T_DataAttribute, iedModel_Device1_DSCH1_SchdAbsTm_time_208);
  (T_DataAttribute, iedModel_Device1_DSCH1_SchdAbsTm_time_209);
  (T_DataAttribute, iedModel_Device1_DSCH1_SchdAbsTm_time_210);
  (T_DataAttribute, iedModel_Device1_DSCH1_SchdAbsTm_time_211);
  (T_DataAttribute, iedModel_Device1_DSCH1_SchdAbsTm_time_212);
  (T_DataAttribute, iedModel_Device1_DSCH1_SchdAbsTm_time_213);
  (T_DataAttribute, iedModel_Device1_DSCH1_SchdAbsTm_time_214);
  (T_DataAttribute, iedModel_Device1_DSCH1_SchdAbsTm_time_215);
  (T_DataAttribute, iedModel_Device1_DSCH1_SchdAbsTm_time_216);
  (T_DataAttribute, iedModel_Device1_DSCH1_SchdAbsTm_time_217);
  (T_DataAttribute, iedModel_Device1_DSCH1_SchdAbsTm_time_218);
  (T_DataAttribute, iedModel_Device1_DSCH1_SchdAbsTm_time_219);
  (T_DataAttribute, iedModel_Device1_DSCH1_SchdAbsTm_time_220);
  (T_DataAttribute, iedModel_Device1_DSCH1_SchdAbsTm_time_221);
  (T_DataAttribute, iedModel_Device1_DSCH1_SchdAbsTm_time_222);
  (T_DataAttribute, iedModel_Device1_DSCH1_SchdAbsTm_time_223);
  (T_DataAttribute, iedModel_Device1_DSCH1_SchdAbsTm_time_224);
  (T_DataAttribute, iedModel_Device1_DSCH1_SchdAbsTm_time_225);
  (T_DataAttribute, iedModel_Device1_DSCH1_SchdAbsTm_time_226);
  (T_DataAttribute, iedModel_Device1_DSCH1_SchdAbsTm_time_227);
  (T_DataAttribute, iedModel_Device1_DSCH1_SchdAbsTm_time_228);
  (T_DataAttribute, iedModel_Device1_DSCH1_SchdAbsTm_time_229);
  (T_DataAttribute, iedModel_Device1_DSCH1_SchdAbsTm_time_230);
  (T_DataAttribute, iedModel_Device1_DSCH1_SchdAbsTm_time_231);
  (T_DataAttribute, iedModel_Device1_DSCH1_SchdAbsTm_time_232);
  (T_DataAttribute, iedModel_Device1_DSCH1_SchdAbsTm_time_233);
  (T_DataAttribute, iedModel_Device1_DSCH1_SchdAbsTm_time_234);
  (T_DataAttribute, iedModel_Device1_DSCH1_SchdAbsTm_time_235);
  (T_DataAttribute, iedModel_Device1_DSCH1_SchdAbsTm_time_236);
  (T_DataAttribute, iedModel_Device1_DSCH1_SchdAbsTm_time_237);
  (T_DataAttribute, iedModel_Device1_DSCH1_SchdAbsTm_time_238);
  (T_DataAttribute, iedModel_Device1_DSCH1_SchdAbsTm_time_239);
  (T_DataAttribute, iedModel_Device1_DSCH1_SchdAbsTm_time_240);
  (T_DataAttribute, iedModel_Device1_DSCH1_SchdAbsTm_time_241);
  (T_DataAttribute, iedModel_Device1_DSCH1_SchdAbsTm_time_242);
  (T_DataAttribute, iedModel_Device1_DSCH1_SchdAbsTm_time_243)
].

Definition sample_externs5 : list (object_type * addr) := [
  (T_DataAttribute, iedModel_Device1_DSCH1_SchdAbsTm_time_244);
  (T_DataAttribute, iedModel_Device1_DSCH1_SchdAbsTm_time_245);
  (T_DataAttribute, iedModel_Device1_DSCH1_SchdAbsTm_time_246);
  (T_DataAttribute, iedModel_Device1_DSCH1_SchdAbsTm_time_247);
  (T_DataAttribute, iedModel_Device1_DSCH1_SchdAbsTm_time_248);
  (T_DataAttribute, iedModel_Device1_DSCH1_SchdAbsTm_time_249);
  (T_DataAttribute, iedModel_Device1_DSCH1_SchdAbsTm_time_250);
  (T_DataAttribute, iedModel_Device1_DSCH1_SchdAbsTm_time_251);
  (T_DataAttribute, iedModel_Device1_DSCH1_SchdAbsTm_time_252);
  (T_DataAttribute, iedModel_Device1_DSCH1_SchdAbsTm_time_253);
  (T_DataAttribute, iedModel_Device1_DSCH1_SchdAbsTm_time_254);
  (T_LogicalNode, iedModel_Device1_MMXU1);
  (T_DataObject, iedModel_Device1_MMXU1_Mod);
  (T_DataAttribute, iedModel_Device1_MMXU1_Mod_q);
  (T_DataAttribute, iedModel_Device1_MMXU1_Mod_t);
  (T_DataAttribute, iedModel_Device1_MMXU1_Mod_ctlModel);
  (T_DataObject, iedModel_Device1_MMXU1_Beh);
  (T_DataAttribute, iedModel_Device1_MMXU1_Beh_stVal);
  (T_DataAttribute, iedModel_Device1_MMXU1_Beh_q);
  (T_DataAttribute, iedModel_Device1_MMXU1_Beh_t);
  (T_DataObject, iedModel_Device1_MMXU1_Health);
  (T_DataAttribute, iedModel_Device1_MMXU1_Health_stVal);
  (T_DataAttribute, iedModel_Device1_MMXU1_Health_q);
  (T_DataAttribute, iedModel_Device1_MMXU1_Health_t);
  (T_DataObject, iedModel_Device1_MMXU1_NamPlt);
  (T_DataAttribute, iedModel_Device1_MMXU1_NamPlt_vendor);
  (T_DataAttribute, iedModel_Device1_MMXU1_NamPlt_swRev);
  (T_DataAttribute, iedModel_Device1_MMXU1_NamPlt_d);
  (T_LogicalNode, iedModel_Device1_MMXU2);
  (T_DataObject, iedModel_Device1_MMXU2_Mod);
  (T_DataAttribute, iedModel_Device1_MMXU2_Mod_q);
  (T_DataAttribute, iedModel_Device1_MMXU2_Mod_t);
  (T_DataAttribute, iedModel_Device1_MMXU2_Mod_ctlModel);
  (T_DataObject, iedModel_Device1_MMXU2_Beh);
  (T_DataAttribute, iedModel_Device1_MMXU2_Beh_stVal);
  (T_DataAttribute, iedModel_Device1_MMXU2_Beh_q);
  (T_DataAttribute, iedModel_Device1_MMXU2_Beh_t);
  (T_DataObject, iedModel_Device1_MMXU2_Health);
  (T_DataAttribute, iedModel_Device1_MMXU2_Health_stVal);
  (T_DataAttribute, iedModel_Device1_MMXU2_Health_q);
  (T_DataAttribute, iedModel_Device1_MMXU2_Health_t);
  (T_DataObject, iedModel_Device1_MMXU2_NamPlt);
  (T_DataAttribute, iedModel_Device1_MMXU2_NamPlt_vendor);
  (T_DataAttribute, iedModel_Device1_MMXU2_NamPlt_swRev);
  (T_DataAttribute, iedModel_Device1_MMXU2_NamPlt_d);
  (T_DataObject, iedModel_Device1_MMXU2_TotW);
  (T_DataAttribute, iedModel_Device1_MMXU2_TotW_mag);
  (T_DataAttribute, iedModel_Device1_MMXU2_TotW_mag_f);
  (T_DataAttribute, iedModel_Device1_MMXU2_TotW_q);
  (T_DataAttribute, iedModel_Device1_MMXU2_TotW_t)
].

Definition sample_externs : list (object_type * addr) :=
  sample_externs1 ++ sample_externs2 ++ sample_externs3 ++ sample_externs4 ++ sample_externs5.

(** ** Macros: [#define M (&x)] is [(M, &x)] *)

Definition sample_macros1 : list (string * option addr) := [
  ("IEDMODEL_Device1", &iedModel_Device1);
  ("IEDMODEL_Device1_LLN0", &iedModel_Device1_LLN0);
  ("IEDMODEL_Device1_LLN0_Mod", &iedModel_Device1_LLN0_Mod);
  ("IEDMODEL_Device1_LLN0_Mod_q", &iedModel_Device1_LLN0_Mod_q);
  ("IEDMODEL_Device1_LLN0_Mod_t", &iedModel_Device1_LLN0_Mod_t);
  ("IEDMODEL_Device1_LLN0_Mod_ctlModel", &iedModel_Device1_LLN0_Mod_ctlModel);
  ("IEDMODEL_Device1_LLN0_Beh", &iedModel_Device1_LLN0_Beh);
  ("IEDMODEL_Device1_LLN0_Beh_stVal", &iedModel_Device1_LLN0_Beh_stVal);
  ("IEDMODEL_Device1_LLN0_Beh_q", &iedModel_Device1_LLN0_Beh_q);
  ("IEDMODEL_Device1_LLN0_Beh_t", &iedModel_Device1_LLN0_Beh_t);
  ("IEDMODEL_Device1_LLN0_Health", &iedModel_Device1_LLN0_Health);
  ("IEDMODEL_Device1_LLN0_Health_stVal", &iedModel_Device1_LLN0_Health_stVal);
  ("IEDMODEL_Device1_LLN0_Health_q", &iedModel_Device1_LLN0_Health_q);
  ("IEDMODEL_Device1_LLN0_Health_t", &iedModel_Device1_LLN0_Health_t);
  ("IEDMODEL_Device1_LLN0_NamPlt", &iedModel_Device1_LLN0_NamPlt);
  ("IEDMODEL_Device1_LLN0_NamPlt_vendor", &iedModel_Device1_LLN0_NamPlt_vendor);
  ("IEDMODEL_Device1_LLN0_NamPlt_swRev", &iedModel_Device1_LLN0_NamPlt_swRev);
  ("IEDMODEL_Device1_LLN0_NamPlt_d", &iedModel_Device1_LLN0_NamPlt_d);
  ("IEDMODEL_Device1_LLN0_NamPlt_configRev", &iedModel_Device1_LLN0_NamPlt_configRev);
  ("IEDMODEL_Device1_LLN0_NamPlt_ldNs", &iedModel_Device1_LLN0_NamPlt_ldNs);
  ("IEDMODEL_Device1_LPHD1", &iedModel_Device1_LPHD1);
  ("IEDMODEL_Device1_LPHD1_PhyNam", &iedModel_Device1_LPHD1_PhyNam);
  ("IEDMODEL_Device1_LPHD1_PhyNam_vendor", &iedModel_Device1_LPHD1_PhyNam_vendor);
  ("IEDMODEL_Device1_LPHD1_PhyHealth", &iedModel_Device1_LPHD1_PhyHealth);
  ("IEDMODEL_Device1_LPHD1_PhyHealth_stVal", &iedModel_Device1_LPHD1_PhyHealth_stVal);
  ("IEDMODEL_Device1_LPHD1_PhyHealth_q", &iedModel_Device1_LPHD1_PhyHealth_q);
  ("IEDMODEL_Device1_LPHD1_PhyHealth_t", &iedModel_Device1_LPHD1_PhyHealth_t);
  ("IEDMODEL_Device1_LPHD1_Proxy", &iedModel_Device1_LPHD1_Proxy);
  ("IEDMODEL_Device1_LPHD1_Proxy_stVal", &iedModel_Device1_LPHD1_Proxy_stVal);
  ("IEDMODEL_Device1_LPHD1_Proxy_q", &iedModel_Device1_LPHD1_Proxy_q);
  ("IEDMODEL_Device1_LPHD1_Proxy_t", &iedModel_Device1_LPHD1_Proxy_t);
  ("IEDMODEL_Device1_DGEN1", &iedModel_Device1_DGEN1);
  ("IEDMODEL_Device1_DGEN1_Mod", &iedModel_Device1_DGEN1_Mod);
  ("IEDMODEL_Device1_DGEN1_Mod_q", &iedModel_Device1_DGEN1_Mod_q);
  ("IEDMODEL_Device1_DGEN1_Mod_t", &iedModel_Device1_DGEN1_Mod_t);
  ("IEDMODEL_Device1_DGEN1_Mod_ctlModel", &iedModel_Device1_DGEN1_Mod_ctlModel);
  ("IEDMODEL_Device1_DGEN1_Beh", &iedModel_Device1_DGEN1_Beh);
  ("IEDMODEL_Device1_DGEN1_Beh_stVal", &iedModel_Device1_DGEN1_Beh_stVal);
  ("IEDMODEL_Device1_DGEN1_Beh_q", &iedModel_Device1_DGEN1_Beh_q);
  ("IEDMODEL_Device1_DGEN1_Beh_t", &iedModel_Device1_DGEN1_Beh_t);
  ("IEDMODEL_Device1_DGEN1_Health", &iedModel_Device1_DGEN1_Health);
  ("IEDMODEL_Device1_DGEN1_Health_stVal", &iedModel_Device1_DGEN1_Health_stVal);
  ("IEDMODEL_Device1_DGEN1_Health_q", &iedModel_Device1_DGEN1_Health_q);
  ("IEDMODEL_Device1_DGEN1_Health_t", &iedModel_Device1_DGEN1_Health_t);
  ("IEDMODEL_Device1_DGEN1_NamPlt", &iedModel_Device1_DGEN1_NamPlt);
  ("IEDMODEL_Device1_DGEN1_NamPlt_vendor", &iedModel_Device1_DGEN1_NamPlt_vendor);
  ("IEDMODEL_Device1_DGEN1_NamPlt_swRev", &iedModel_Device1_DGEN1_NamPlt_swRev);
  ("IEDMODEL_Device1_DGEN1_NamPlt_d", &iedModel_Device1_DGEN1_NamPlt_d);
  ("IEDMODEL_Device1_DGEN1_OpTmh", &iedModel_Device1_DGEN1_OpTmh);
  ("IEDMODEL_Device1_DGEN1_OpTmh_stVal", &iedModel_Device1_DGEN1_OpTmh_stVal);
  ("IEDMODEL_Device1_DGEN1_OpTmh_q", &iedModel_Device1_DGEN1_OpTmh_q);
  ("IEDMODEL_Device1_DGEN1_OpTmh_t", &iedModel_Device1_DGEN1_OpTmh_t);
  ("IEDMODEL_Device1_DGEN1_GnOpSt", &iedModel_Device1_DGEN1_GnOpSt);
  ("IEDMODEL_Device1_DGEN1_GnOpSt_stVal", &iedModel_Device1_DGEN1_GnOpSt_stVal);
  ("IEDMODEL_Device1_DGEN1_GnOpSt_q", &iedModel_Device1_DGEN1_GnOpSt_q);
  ("IEDMODEL_Device1_DGEN1_GnOpSt_t", &iedModel_Device1_DGEN1_GnOpSt_t);
  ("IEDMODEL_Device1_DGEN1_OpTmsRs", &iedModel_Device1_DGEN1_OpTmsRs);
  ("IEDMODEL_Device1_DGEN1_OpTmsRs_stVal", &iedModel_Device1_DGEN1_OpTmsRs_stVal);
  ("IEDMODEL_Device1_DGEN1_OpTmsRs_q", &iedModel_Device1_DGEN1_OpTmsRs_q);
  ("IEDMODEL_Device1_DGEN1_OpTmsRs_t", &iedModel_Device1_DGEN1_OpTmsRs_t);
  ("IEDMODEL_Device1_DGEN1_TotWh", &iedModel_Device1_DGEN1_TotWh);
  ("IEDMODEL_Device1_DGEN1_TotWh_mag", &iedModel_Device1_DGEN1_TotWh_mag);
  ("IEDMODEL_Device1_DGEN1_TotWh_mag_f", &iedModel_Device1_DGEN1_TotWh_mag_f);
  ("IEDMODEL_Device1_DGEN1_TotWh_q", &iedModel_Device1_DGEN1_TotWh_q);
  ("IEDMODEL_Device1_DGEN1_TotWh_t", &iedModel_Device1_DGEN1_TotWh_t);
  ("IEDMODEL_Device1_DSCH1", &iedModel_Device1_DSCH1);
  ("IEDMODEL_Device1_DSCH1_Mod", &iedModel_Device1_DSCH1_Mod);
  ("IEDMODEL_Device1_DSCH1_Mod_q", &iedModel_Device1_DSCH1_Mod_q);
  ("IEDMODEL_Device1_DSCH1_Mod_t", &iedModel_Device1_DSCH1_Mod_t);
  ("IEDMODEL_Device1_DSCH1_Mod_ctlModel", &iedModel_Device1_DSCH1_Mod_ctlModel);
  ("IEDMODEL_Device1_DSCH1_Beh", &iedModel_Device1_DSCH1_Beh);
  ("IEDMODEL_Device1_DSCH1_Beh_stVal", &iedModel_Device1_DSCH1_Beh_stVal);
  ("IEDMODEL_Device1_DSCH1_Beh_q", &iedModel_Device1_DSCH1_Beh_q);
  ("IEDMODEL_Device1_DSCH1_Beh_t", &iedModel_Device1_DSCH1_Beh_t);
  ("IEDMODEL_Device1_DSCH1_Health", &iedModel_Device1_DSCH1_Health);
  ("IEDMODEL_Device1_DSCH1_Health_stVal", &iedModel_Device1_DSCH1_Health_stVal);
  ("IEDMODEL_Device1_DSCH1_Health_q", &iedModel_Device1_DSCH1_Health_q);
  ("IEDMODEL_Device1_DSCH1_Health_t", &iedModel_Device1_DSCH1_Health_t);
  ("IEDMODEL_Device1_DSCH1_NamPlt", &iedModel_Device1_DSCH1_NamPlt);
  ("IEDMODEL_Device1_DSCH1_NamPlt_vendor", &iedModel_Device1_DSCH1_NamPlt_vendor);
  ("IEDMODEL_Device1_DSCH1_NamPlt_swRev", &iedModel_Device1_DSCH1_NamPlt_swRev);
  ("IEDMODEL_Device1_DSCH1_NamPlt_d", &iedModel_Device1_DSCH1_NamPlt_d);
  ("IEDMODEL_Device1_DSCH1_SchdSt", &iedModel_Device1_DSCH1_SchdSt);
  ("IEDMODEL_Device1_DSCH1_SchdSt_stVal", &iedModel_Device1_DSCH1_SchdSt_stVal);
  ("IEDMODEL_Device1_DSCH1_SchdSt_q", &iedModel_Device1_DSCH1_SchdSt_q);
  ("IEDMODEL_Device1_DSCH1_SchdSt_t", &iedModel_Device1_DSCH1_SchdSt_t);
  ("IEDMODEL_Device1_DSCH1_SchdId", &iedModel_Device1_DSCH1_SchdId);
  ("IEDMODEL_Device1_DSCH1_SchdCat", &iedModel_Device1_DSCH1_SchdCat);
  ("IEDMODEL_Device1_DSCH1_SchdTyp", &iedModel_Device1_DSCH1_SchdTyp);
  ("IEDMODEL_Device1_DSCH1_SchdAbsTm", &iedModel_Device1_DSCH1_SchdAbsTm);
  ("IEDMODEL_Device1_DSCH1_SchdAbsTm_val", &iedModel_Device1_DSCH1_SchdAbsTm_val);
  ("IEDMODEL_Device1_DSCH1_SchdAbsTm_val_0", &iedModel_Device1_DSCH1_SchdAbsTm_val_0);
  ("IEDMODEL_Device1_DSCH1_SchdAbsTm_val_1", &iedModel_Device1_DSCH1_SchdAbsTm_val_1);
  ("IEDMODEL_Device1_DSCH1_SchdAbsTm_val_2", &iedModel_Device1_DSCH1_SchdAbsTm_val_2);
  ("IEDMODEL_Device1_DSCH1_SchdAbsTm_val_3", &iedModel_Device1_DSCH1_SchdAbsTm_val_3);
  ("IEDMODEL_Device1_DSCH1_SchdAbsTm_val_4", &iedModel_Device1_DSCH1_SchdAbsTm_val_4);
  ("IEDMODEL_Device1_DSCH1_SchdAbsTm_val_5", &iedModel_Device1_DSCH1_SchdAbsTm_val_5);
  ("IEDMODEL_Device1_DSCH1_SchdAbsTm_val_6", &iedModel_Device1_DSCH1_SchdAbsTm_val_6);
  ("IEDMODEL_Device1_DSCH1_SchdAbsTm_val_7", &iedModel_Device1_DSCH1_SchdAbsTm_val_7);
  ("IEDMODEL_Device1_DSCH1_SchdAbsTm_val_8", &iedModel_Device1_DSCH1_SchdAbsTm_val_8);
  ("IEDMODEL_Device1_DSCH1_SchdAbsTm_val_9", &iedModel_Device1_DSCH1_SchdAbsTm_val_9);
  ("IEDMODEL_Device1_DSCH1_SchdAbsTm_val_10", &iedModel_Device1_DSCH1_SchdAbsTm_val_10);
  ("IEDMODEL_Device1_DSCH1_SchdAbsTm_val_11", &iedModel_Device1_DSCH1_SchdAbsTm_val_11);
  ("IEDMODEL_Device1_DSCH1_SchdAbsTm_val_12", &iedModel_Device1_DSCH1_SchdAbsTm_val_12);
  ("IEDMODEL_Device1_DSCH1_SchdAbsTm_val_13", &iedModel_Device1_DSCH1_SchdAbsTm_val_13);
  ("IEDMODEL_Device1_DSCH1_SchdAbsTm_val_14", &iedModel_Device1_DSCH1_SchdAbsTm_val_14);
  ("IEDMODEL_Device1_DSCH1_SchdAbsTm_val_15", &iedModel_Device1_DSCH1_SchdAbsTm_val_15);
  ("IEDMODEL_Device1_DSCH1_SchdAbsTm_val_16", &iedModel_Device1_DSCH1_SchdAbsTm_val_16);
  ("IEDMODEL_Device1_DSCH1_SchdAbsTm_val_17", &iedModel_Device1_DSCH1_SchdAbsTm_val_17);
  ("IEDMODEL_Device1_DSCH1_SchdAbsTm_val_18", &iedModel_Device1_DSCH1_SchdAbsTm_val_18);
  ("IEDMODEL_Device1_DSCH1_SchdAbsTm_val_19", &iedModel_Device1_DSCH1_SchdAbsTm_val_19);
  ("IEDMODEL_Device1_DSCH1_SchdAbsTm_val_20", &iedModel_Device1_DSCH1_SchdAbsTm_val_20);
  ("IEDMODEL_Device1_DSCH1_SchdAbsTm_val_21", &iedModel_Device1_DSCH1_SchdAbsTm_val_21);
  ("IEDMODEL_Device1_DSCH1_SchdAbsTm_val_22", &iedModel_Device1_DSCH1_SchdAbsTm_val_22);
  ("IEDMODEL_Device1_DSCH1_SchdAbsTm_val_23", &iedModel_Device1_DSCH1_SchdAbsTm_val_23);
  ("IEDMODEL_Device1_DSCH1_SchdAbsTm_val_24", &iedModel_Device1_DSCH1_SchdAbsTm_val_24);
  ("IEDMODEL_Device1_DSCH1_SchdAbsTm_val_25", &iedModel_Device1_DSCH1_SchdAbsTm_val_25);
  ("IEDMODEL_Device1_DSCH1_SchdAbsTm_val_26", &iedModel_Device1_DSCH1_SchdAbsTm_val_26);
  ("IEDMODEL_Device1_DSCH1_SchdAbsTm_val_27", &iedModel_Device1_DSCH1_SchdAbsTm_val_27);
  ("IEDMODEL_Device1_DSCH1_SchdAbsTm_val_28", &iedModel_Device1_DSCH1_SchdAbsTm_val_28);
  ("IEDMODEL_Device1_DSCH1_SchdAbsTm_val_29", &iedModel_Device1_DSCH1_SchdAbsTm_val_29);
  ("IEDMODEL_Device1_DSCH1_SchdAbsTm_val_30", &iedModel_Device1_DSCH1_SchdAbsTm_val_30);
  ("IEDMODEL_Device1_DSCH1_SchdAbsTm_val_31", &iedModel_Device1_DSCH1_SchdAbsTm_val_31);
  ("IEDMODEL_Device1_DSCH1_SchdAbsTm_val_32", &iedModel_Device1_DSCH1_SchdAbsTm_val_32);
  ("IEDMODEL_Device1_DSCH1_SchdAbsTm_val_33", &iedModel_Device1_DSCH1_SchdAbsTm_val_33);
  ("IEDMODEL_Device1_DSCH1_SchdAbsTm_val_34", &iedModel_Device1_DSCH1_SchdAbsTm_val_34);
  ("IEDMODEL_Device1_DSCH1_SchdAbsTm_val_35", &iedModel_Device1_DSCH1_SchdAbsTm_val_35);
  ("IEDMODEL_Device1_DSCH1_SchdAbsTm_val_36", &iedModel_Device1_DSCH1_SchdAbsTm_val_36);
  ("IEDMODEL_Device1_DSCH1_SchdAbsTm_val_37", &iedModel_Device1_DSCH1_SchdAbsTm_val_37);
  ("IEDMODEL_Device1_DSCH1_SchdAbsTm_val_38", &iedModel_Device1_DSCH1_SchdAbsTm_val_38);
  ("IEDMODEL_Device1_DSCH1_SchdAbsTm_val_39", &iedModel_Device1_DSCH1_SchdAbsTm_val_39);
  ("IEDMODEL_Device1_DSCH1_SchdAbsTm_val_40", &iedModel_Device1_DSCH1_SchdAbsTm_val_40);
  ("IEDMODEL_Device1_DSCH1_SchdAbsTm_val_41", &iedModel_Device1_DSCH1_SchdAbsTm_val_41);
  ("IEDMODEL_Device1_DSCH1_SchdAbsTm_val_42", &iedModel_Device1_DSCH1_SchdAbsTm_val_42);
  ("IEDMODEL_Device1_DSCH1_SchdAbsTm_val_43", &iedModel_Device1_DSCH1_SchdAbsTm_val_43);
  ("IEDMODEL_Device1_DSCH1_SchdAbsTm_val_44", &iedModel_Device1_DSCH1_SchdAbsTm_val_44);
  ("IEDMODEL_Device1_DSCH1_SchdAbsTm_val_45", &iedModel_Device1_DSCH1_SchdAbsTm_val_45);
  ("IEDMODEL_Device1_DSCH1_SchdAbsTm_val_46", &iedModel_Device1_DSCH1_SchdAbsTm_val_46);
  ("IEDMODEL_Device1_DSCH1_SchdAbsTm_val_47", &iedModel_Device1_DSCH1_SchdAbsTm_val_47);
  ("IEDMODEL_Device1_DSCH1_SchdAbsTm_val_48", &iedModel_Device1_DSCH1_SchdAbsTm_val_48);
  ("IEDMODEL_Device1_DSCH1_SchdAbsTm_val_49", &iedModel_Device1_DSCH1_SchdAbsTm_val_49);
  ("IEDMODEL_Device1_DSCH1_SchdAbsTm_val_50", &iedModel_Device1_DSCH1_SchdAbsTm_val_50);
  ("IEDMODEL_Device1_DSCH1_SchdAbsTm_val_51", &iedModel_Device1_DSCH1_SchdAbsTm_val_51);
  ("IEDMODEL_Device1_DSCH1_SchdAbsTm_val_52", &iedModel_Device1_DSCH1_SchdAbsTm_val_52);
  ("IEDMODEL_Device1_DSCH1_SchdAbsTm_val_53", &iedModel_Device1_DSCH1_SchdAbsTm_val_53);
  ("IEDMODEL_Device1_DSCH1_SchdAbsTm_val_54", &iedModel_Device1_DSCH1_SchdAbsTm_val_54);
  ("IEDMODEL_Device1_DSCH1_SchdAbsTm_val_55", &iedModel_Device1_DSCH1_SchdAbsTm_val_55);
  ("IEDMODEL_Device1_DSCH1_SchdAbsTm_val_56", &iedModel_Device1_DSCH1_SchdAbsTm_val_56)
].

Definition sample_macros2 : list (string * option addr) := [
  ("IEDMODEL_Device1_DSCH1_SchdAbsTm_val_57", &iedModel_Device1_DSCH1_SchdAbsTm_val_57);
  ("IEDMODEL_Device1_DSCH1_SchdAbsTm_val_58", &iedModel_Device1_DSCH1_SchdAbsTm_val_58);
  ("IEDMODEL_Device1_DSCH1_SchdAbsTm_val_59", &iedModel_Device1_DSCH1_SchdAbsTm_val_59);
  ("IEDMODEL_Device1_DSCH1_SchdAbsTm_val_60", &iedModel_Device1_DSCH1_SchdAbsTm_val_60);
  ("IEDMODEL_Device1_DSCH1_SchdAbsTm_val_61", &iedModel_Device1_DSCH1_SchdAbsTm_val_61);
  ("IEDMODEL_Device1_DSCH1_SchdAbsTm_val_62", &iedModel_Device1_DSCH1_SchdAbsTm_val_62);
  ("IEDMODEL_Device1_DSCH1_SchdAbsTm_val_63", &iedModel_Device1_DSCH1_SchdAbsTm_val_63);
  ("IEDMODEL_Device1_DSCH1_SchdAbsTm_val_64", &iedModel_Device1_DSCH1_SchdAbsTm_val_64);
  ("IEDMODEL_Device1_DSCH1_SchdAbsTm_val_65", &iedModel_Device1_DSCH1_SchdAbsTm_val_65);
  ("IEDMODEL_Device1_DSCH1_SchdAbsTm_val_66", &iedModel_Device1_DSCH1_SchdAbsTm_val_66);
  ("IEDMODEL_Device1_DSCH1_SchdAbsTm_val_67", &iedModel_Device1_DSCH1_SchdAbsTm_val_67);
  ("IEDMODEL_Device1_DSCH1_SchdAbsTm_val_68", &iedModel_Device1_DSCH1_SchdAbsTm_val_68);
  ("IEDMODEL_Device1_DSCH1_SchdAbsTm_val_69", &iedModel_Device1_DSCH1_SchdAbsTm_val_69);
  ("IEDMODEL_Device1_DSCH1_SchdAbsTm_val_70", &iedModel_Device1_DSCH1_SchdAbsTm_val_70);
  ("IEDMODEL_Device1_DSCH1_SchdAbsTm_val_71", &iedModel_Device1_DSCH1_SchdAbsTm_val_71);
  ("IEDMODEL_Device1_DSCH1_SchdAbsTm_val_72", &iedModel_Device1_DSCH1_SchdAbsTm_val_72);
  ("IEDMODEL_Device1_DSCH1_SchdAbsTm_val_73", &iedModel_Device1_DSCH1_SchdAbsTm_val_73);
  ("IEDMODEL_Device1_DSCH1_SchdAbsTm_val_74", &iedModel_Device1_DSCH1_SchdAbsTm_val_74);
  ("IEDMODEL_Device1_DSCH1_SchdAbsTm_val_75", &iedModel_Device1_DSCH1_SchdAbsTm_val_75);
  ("IEDMODEL_Device1_DSCH1_SchdAbsTm_val_76", &iedModel_Device1_DSCH1_SchdAbsTm_val_76);
  ("IEDMODEL_Device1_DSCH1_SchdAbsTm_val_77", &iedModel_Device1_DSCH1_SchdAbsTm_val_77);
  ("IEDMODEL_Device1_DSCH1_SchdAbsTm_val_78", &iedModel_Device1_DSCH1_SchdAbsTm_val_78);
  ("IEDMODEL_Device1_DSCH1_SchdAbsTm_val_79", &iedModel_Device1_DSCH1_SchdAbsTm_val_79);
  ("IEDMODEL_Device1_DSCH1_SchdAbsTm_val_80", &iedModel_Device1_DSCH1_SchdAbsTm_val_80);
  ("IEDMODEL_Device1_DSCH1_SchdAbsTm_val_81", &iedModel_Device1_DSCH1_SchdAbsTm_val_81);
  ("IEDMODEL_Device1_DSCH1_SchdAbsTm_val_82", &iedModel_Device1_DSCH1_SchdAbsTm_val_82);
  ("IEDMODEL_Device1_DSCH1_SchdAbsTm_val_83", &iedModel_Device1_DSCH1_SchdAbsTm_val_83);
  ("IEDMODEL_Device1_DSCH1_SchdAbsTm_val_84", &iedModel_Device1_DSCH1_SchdAbsTm_val_84);
  ("IEDMODEL_Device1_DSCH1_SchdAbsTm_val_85", &iedModel_Device1_DSCH1_SchdAbsTm_val_85);
  ("IEDMODEL_Device1_DSCH1_SchdAbsTm_val_86", &iedModel_Device1_DSCH1_SchdAbsTm_val_86);
  ("IEDMODEL_Device1_DSCH1_SchdAbsTm_val_87", &iedModel_Device1_DSCH1_SchdAbsTm_val_87);
  ("IEDMODEL_Device1_DSCH1_SchdAbsTm_val_88", &iedModel_Device1_DSCH1_SchdAbsTm_val_88);
  ("IEDMODEL_Device1_DSCH1_SchdAbsTm_val_89", &iedModel_Device1_DSCH1_SchdAbsTm_val_89);
  ("IEDMODEL_Device1_DSCH1_SchdAbsTm_val_90", &iedModel_Device1_DSCH1_SchdAbsTm_val_90);
  ("IEDMODEL_Device1_DSCH1_SchdAbsTm_val_91", &iedModel_Device1_DSCH1_SchdAbsTm_val_91);
  ("IEDMODEL_Device1_DSCH1_SchdAbsTm_val_92", &iedModel_Device1_DSCH1_SchdAbsTm_val_92);
  ("IEDMODEL_Device1_DSCH1_SchdAbsTm_val_93", &iedModel_Device1_DSCH1_SchdAbsTm_val_93);
  ("IEDMODEL_Device1_DSCH1_SchdAbsTm_val_94", &iedModel_Device1_DSCH1_SchdAbsTm_val_94);
  ("IEDMODEL_Device1_DSCH1_SchdAbsTm_val_95", &iedModel_Device1_DSCH1_SchdAbsTm_val_95);
  ("IEDMODEL_Device1_DSCH1_SchdAbsTm_val_96", &iedModel_Device1_DSCH1_SchdAbsTm_val_96);
  ("IEDMODEL_Device1_DSCH1_SchdAbsTm_val_97", &iedModel_Device1_DSCH1_SchdAbsTm_val_97);
  ("IEDMODEL_Device1_DSCH1_SchdAbsTm_val_98", &iedModel_Device1_DSCH1_SchdAbsTm_val_98);
  ("IEDMODEL_Device1_DSCH1_SchdAbsTm_val_99", &iedModel_Device1_DSCH1_SchdAbsTm_val_99);
  ("IEDMODEL_Device1_DSCH1_SchdAbsTm_val_100", &iedModel_Device1_DSCH1_SchdAbsTm_val_100);
  ("IEDMODEL_Device1_DSCH1_SchdAbsTm_val_101", &iedModel_Device1_DSCH1_SchdAbsTm_val_101);
  ("IEDMODEL_Device1_DSCH1_SchdAbsTm_val_102", &iedModel_Device1_DSCH1_SchdAbsTm_val_102);
  ("IEDMODEL_Device1_DSCH1_SchdAbsTm_val_103", &iedModel_Device1_DSCH1_SchdAbsTm_val_103);
  ("IEDMODEL_Device1_DSCH1_SchdAbsTm_val_104", &iedModel_Device1_DSCH1_SchdAbsTm_val_104);
  ("IEDMODEL_Device1_DSCH1_SchdAbsTm_val_105", &iedModel_Device1_DSCH1_SchdAbsTm_val_105);
  ("IEDMODEL_Device1_DSCH1_SchdAbsTm_val_106", &iedModel_Device1_DSCH1_SchdAbsTm_val_106);
  ("IEDMODEL_Device1_DSCH1_SchdAbsTm_val_107", &iedModel_Device1_DSCH1_SchdAbsTm_val_107);
  ("IEDMODEL_Device1_DSCH1_SchdAbsTm_val_108", &iedModel_Device1_DSCH1_SchdAbsTm_val_108);
  ("IEDMODEL_Device1_DSCH1_SchdAbsTm_val_109", &iedModel_Device1_DSCH1_SchdAbsTm_val_109);
  ("IEDMODEL_Device1_DSCH1_SchdAbsTm_val_110", &iedModel_Device1_DSCH1_SchdAbsTm_val_110);
  ("IEDMODEL_Device1_DSCH1_SchdAbsTm_val_111", &iedModel_Device1_DSCH1_SchdAbsTm_val_111);
  ("IEDMODEL_Device1_DSCH1_SchdAbsTm_val_112", &iedModel_Device1_DSCH1_SchdAbsTm_val_112);
  ("IEDMODEL_Device1_DSCH1_SchdAbsTm_val_113", &iedModel_Device1_DSCH1_SchdAbsTm_val_113);
  ("IEDMODEL_Device1_DSCH1_SchdAbsTm_val_114", &iedModel_Device1_DSCH1_SchdAbsTm_val_114);
  ("IEDMODEL_Device1_DSCH1_SchdAbsTm_val_115", &iedModel_Device1_DSCH1_SchdAbsTm_val_115);
  ("IEDMODEL_Device1_DSCH1_SchdAbsTm_val_116", &iedModel_Device1_DSCH1_SchdAbsTm_val_116);
  ("IEDMODEL_Device1_DSCH1_SchdAbsTm_val_117", &iedModel_Device1_DSCH1_SchdAbsTm_val_117);
  ("IEDMODEL_Device1_DSCH1_SchdAbsTm_val_118", &iedModel_Device1_DSCH1_SchdAbsTm_val_118);
  ("IEDMODEL_Device1_DSCH1_SchdAbsTm_val_119", &iedModel_Device1_DSCH1_SchdAbsTm_val_119);
  ("IEDMODEL_Device1_DSCH1_SchdAbsTm_val_120", &iedModel_Device1_DSCH1_SchdAbsTm_val_120);
  ("IEDMODEL_Device1_DSCH1_SchdAbsTm_val_121", &iedModel_Device1_DSCH1_SchdAbsTm_val_121);
  ("IEDMODEL_Device1_DSCH1_SchdAbsTm_val_122", &iedModel_Device1_DSCH1_SchdAbsTm_val_122);
  ("IEDMODEL_Device1_DSCH1_SchdAbsTm_val_123", &iedModel_Device1_DSCH1_SchdAbsTm_val_123);
  ("IEDMODEL_Device1_DSCH1_SchdAbsTm_val_124", &iedModel_Device1_DSCH1_SchdAbsTm_val_124);
  ("IEDMODEL_Device1_DSCH1_SchdAbsTm_val_125", &iedModel_Device1_DSCH1_SchdAbsTm_val_125);
  ("IEDMODEL_Device1_DSCH1_SchdAbsTm_val_126", &iedModel_Device1_DSCH1_SchdAbsTm_val_126);
  ("IEDMODEL_Device1_DSCH1_SchdAbsTm_val_127", &iedModel_Device1_DSCH1_SchdAbsTm_val_127);
  ("IEDMODEL_Device1_DSCH1_SchdAbsTm_val_128", &iedModel_Device1_DSCH1_SchdAbsTm_val_128);
  ("IEDMODEL_Device1_DSCH1_SchdAbsTm_val_129", &iedModel_Device1_DSCH1_SchdAbsTm_val_129);
  ("IEDMODEL_Device1_DSCH1_SchdAbsTm_val_130", &iedModel_Device1_DSCH1_SchdAbsTm_val_130);
  ("IEDMODEL_Device1_DSCH1_SchdAbsTm_val_131", &iedModel_Device1_DSCH1_SchdAbsTm_val_131);
  ("IEDMODEL_Device1_DSCH1_SchdAbsTm_val_132", &iedModel_Device1_DSCH1_SchdAbsTm_val_132);
  ("IEDMODEL_Device1_DSCH1_SchdAbsTm_val_133", &iedModel_Device1_DSCH1_SchdAbsTm_val_133);
  ("IEDMODEL_Device1_DSCH1_SchdAbsTm_val_134", &iedModel_Device1_DSCH1_SchdAbsTm_val_134);
  ("IEDMODEL_Device1_DSCH1_SchdAbsTm_val_135", &iedModel_Device1_DSCH1_SchdAbsTm_val_135);
  ("IEDMODEL_Device1_DSCH1_SchdAbsTm_val_136", &iedModel_Device1_DSCH1_SchdAbsTm_val_136);
  ("IEDMODEL_Device1_DSCH1_SchdAbsTm_val_137", &iedModel_Device1_DSCH1_SchdAbsTm_val_137);
  ("IEDMODEL_Device1_DSCH1_SchdAbsTm_val_138", &iedModel_Device1_DSCH1_SchdAbsTm_val_138);
  ("IEDMODEL_Device1_DSCH1_SchdAbsTm_val_139", &iedModel_Device1_DSCH1_SchdAbsTm_val_139);
  ("IEDMODEL_Device1_DSCH1_SchdAbsTm_val_140", &iedModel_Device1_DSCH1_SchdAbsTm_val_140);
  ("IEDMODEL_Device1_DSCH1_SchdAbsTm_val_141", &iedModel_Device1_DSCH1_SchdAbsTm_val_141);
  ("IEDMODEL_Device1_DSCH1_SchdAbsTm_val_142", &iedModel_Device1_DSCH1_SchdAbsTm_val_142);
  ("IEDMODEL_Device1_DSCH1_SchdAbsTm_val_143", &iedModel_Device1_DSCH1_SchdAbsTm_val_143);
  ("IEDMODEL_Device1_DSCH1_SchdAbsTm_val_144", &iedModel_Device1_DSCH1_SchdAbsTm_val_144);
  ("IEDMODEL_Device1_DSCH1_SchdAbsTm_val_145", &iedModel_Device1_DSCH1_SchdAbsTm_val_145);
  ("IEDMODEL_Device1_DSCH1_SchdAbsTm_val_146", &iedModel_Device1_DSCH1_SchdAbsTm_val_146);
  ("IEDMODEL_Device1_DSCH1_SchdAbsTm_val_147", &iedModel_Device1_DSCH1_SchdAbsTm_val_147);
  ("IEDMODEL_Device1_DSCH1_SchdAbsTm_val_148", &iedModel_Device1_DSCH1_SchdAbsTm_val_148);
  ("IEDMODEL_Device1_DSCH1_SchdAbsTm_val_149", &iedModel_Device1_DSCH1_SchdAbsTm_val_149);
  ("IEDMODEL_Device1_DSCH1_SchdAbsTm_val_150", &iedModel_Device1_DSCH1_SchdAbsTm_val_150);
  ("IEDMODEL_Device1_DSCH1_SchdAbsTm_val_151", &iedModel_Device1_DSCH1_SchdAbsTm_val_151);
  ("IEDMODEL_Device1_DSCH1_SchdAbsTm_val_152", &iedModel_Device1_DSCH1_SchdAbsTm_val_152);
  ("IEDMODEL_Device1_DSCH1_SchdAbsTm_val_153", &iedModel_Device1_DSCH1_SchdAbsTm_val_153);
  ("IEDMODEL_Device1_DSCH1_SchdAbsTm_val_154", &iedModel_Device1_DSCH1_SchdAbsTm_val_154);
  ("IEDMODEL_Device1_DSCH1_SchdAbsTm_val_155", &iedModel_Device1_DSCH1_SchdAbsTm_val_155);
  ("IEDMODEL_Device1_DSCH1_SchdAbsTm_val_156", &iedModel_Device1_DSCH1_SchdAbsTm_val_156);
  ("IEDMODEL_Device1_DSCH1_SchdAbsTm_val_157", &iedModel_Device1_DSCH1_SchdAbsTm_val_157);
  ("IEDMODEL_Device1_DSCH1_SchdAbsTm_val_158", &iedModel_Device1_DSCH1_SchdAbsTm_val_158);
  ("IEDMODEL_Device1_DSCH1_SchdAbsTm_val_159", &iedModel_Device1_DSCH1_SchdAbsTm_val_159);
  ("IEDMODEL_Device1_DSCH1_SchdAbsTm_val_160", &iedModel_Device1_DSCH1_SchdAbsTm_val_160);
  ("IEDMODEL_Device1_DSCH1_SchdAbsTm_val_161", &iedModel_Device1_DSCH1_SchdAbsTm_val_161);
  ("IEDMODEL_Device1_DSCH1_SchdAbsTm_val_162", &iedModel_Device1_DSCH1_SchdAbsTm_val_162);
  ("IEDMODEL_Device1_DSCH1_SchdAbsTm_val_163", &iedModel_Device1_DSCH1_SchdAbsTm_val_163);
  ("IEDMODEL_Device1_DSCH1_SchdAbsTm_val_164", &iedModel_Device1_DSCH1_SchdAbsTm_val_164);
  ("IEDMODEL_Device1_DSCH1_SchdAbsTm_val_165", &iedModel_Device1_DSCH1_SchdAbsTm_val_165);
  ("IEDMODEL_Device1_DSCH1_SchdAbsTm_val_166", &iedModel_Device1_DSCH1_SchdAbsTm_val_166);
  ("IEDMODEL_Device1_DSCH1_SchdAbsTm_val_167", &iedModel_Device1_DSCH1_SchdAbsTm_val_167);
  ("IEDMODEL_Device1_DSCH1_SchdAbsTm_val_168", &iedModel_Device1_DSCH1_SchdAbsTm_val_168);
  ("IEDMODEL_Device1_DSCH1_SchdAbsTm_val_169", &iedModel_Device1_DSCH1_SchdAbsTm_val_169);
  ("IEDMODEL_Device1_DSCH1_SchdAbsTm_val_170", &iedModel_Device1_DSCH1_SchdAbsTm_val_170);
  ("IEDMODEL_Device1_DSCH1_SchdAbsTm_val_171", &iedModel_Device1_DSCH1_SchdAbsTm_val_171);
  ("IEDMODEL_Device1_DSCH1_SchdAbsTm_val_172", &iedModel_Device1_DSCH1_SchdAbsTm_val_172);
  ("IEDMODEL_Device1_DSCH1_SchdAbsTm_val_173", &iedModel_Device1_DSCH1_SchdAbsTm_val_173);
  ("IEDMODEL_Device1_DSCH1_SchdAbsTm_val_174", &iedModel_Device1_DSCH1_SchdAbsTm_val_174);
  ("IEDMODEL_Device1_DSCH1_SchdAbsTm_val_175", &iedModel_Device1_DSCH1_SchdAbsTm_val_175);
  ("IEDMODEL_Device1_DSCH1_SchdAbsTm_val_176", &iedModel_Device1_DSCH1_SchdAbsTm_val_176);
  ("IEDMODEL_Device1_DSCH1_SchdAbsTm_val_177", &iedModel_Device1_DSCH1_SchdAbsTm_val_177);
  ("IEDMODEL_Device1_DSCH1_SchdAbsTm_val_178", &iedModel_Device1_DSCH1_SchdAbsTm_val_178);
  ("IEDMODEL_Device1_DSCH1_SchdAbsTm_val_179", &iedModel_Device1_DSCH1_SchdAbsTm_val_179);
  ("IEDMODEL_Device1_DSCH1_SchdAbsTm_val_180", &iedModel_Device1_DSCH1_SchdAbsTm_val_180);
  ("IEDMODEL_Device1_DSCH1_SchdAbsTm_val_181", &iedModel_Device1_DSCH1_SchdAbsTm_val_181);
  ("IEDMODEL_Device1_DSCH1_SchdAbsTm_val_182", &iedModel_Device1_DSCH1_SchdAbsTm_val_182);
  ("IEDMODEL_Device1_DSCH1_SchdAbsTm_val_183", &iedModel_Device1_DSCH1_SchdAbsTm_val_183);
  ("IEDMODEL_Device1_DSCH1_SchdAbsTm_val_184", &iedModel_Device1_DSCH1_SchdAbsTm_val_184);
  ("IEDMODEL_Device1_DSCH1_SchdAbsTm_val_185", &iedModel_Device1_DSCH1_SchdAbsTm_val_185);
  ("IEDMODEL_Device1_DSCH1_SchdAbsTm_val_186", &iedModel_Device1_DSCH1_SchdAbsTm_val_186);
  ("IEDMODEL_Device1_DSCH1_SchdAbsTm_val_187", &iedModel_Device1_DSCH1_SchdAbsTm_val_187);
  ("IEDMODEL_Device1_DSCH1_SchdAbsTm_val_188", &iedModel_Device1_DSCH1_SchdAbsTm_val_188);
  ("IEDMODEL_Device1_DSCH1_SchdAbsTm_val_189", &iedModel_Device1_DSCH1_SchdAbsTm_val_189);
  ("IEDMODEL_Device1_DSCH1_SchdAbsTm_val_190", &iedModel_Device1_DSCH1_SchdAbsTm_val_190);
  ("IEDMODEL_Device1_DSCH1_SchdAbsTm_val_191", &iedModel_Device1_DSCH1_SchdAbsTm_val_191);
  ("IEDMODEL_Device1_DSCH1_SchdAbsTm_val_192", &iedModel_Device1_DSCH1_SchdAbsTm_val_192);
  ("IEDMODEL_Device1_DSCH1_SchdAbsTm_val_193", &iedModel_Device1_DSCH1_SchdAbsTm_val_193);
  ("IEDMODEL_Device1_DSCH1_SchdAbsTm_val_194", &iedModel_Device1_DSCH1_SchdAbsTm_val_194);
  ("IEDMODEL_Device1_DSCH1_SchdAbsTm_val_195", &iedModel_Device1_DSCH1_SchdAbsTm_val_195);
  ("IEDMODEL_Device1_DSCH1_SchdAbsTm_val_196", &iedModel_Device1_DSCH1_SchdAbsTm_val_196);
  ("IEDMODEL_Device1_DSCH1_SchdAbsTm_val_197", &iedModel_Device1_DSCH1_SchdAbsTm_val_197);
  ("IEDMODEL_Device1_DSCH1_SchdAbsTm_val_198", &iedModel_Device1_DSCH1_SchdAbsTm_val_198);
  ("IEDMODEL_Device1_DSCH1_SchdAbsTm_val_199", &iedModel_Device1_DSCH1_SchdAbsTm_val_199);
  ("IEDMODEL_Device1_DSCH1_SchdAbsTm_val_200", &iedModel_Device1_DSCH1_SchdAbsTm_val_200);
  ("IEDMODEL_Device1_DSCH1_SchdAbsTm_val_201", &iedModel_Device1_DSCH1_SchdAbsTm_val_201);
  ("IEDMODEL_Device1_DSCH1_SchdAbsTm_val_202", &iedModel_Device1_DSCH1_SchdAbsTm_val_202);
  ("IEDMODEL_Device1_DSCH1_SchdAbsTm_val_203", &iedModel_Device1_DSCH1_SchdAbsTm_val_203);
  ("IEDMODEL_Device1_DSCH1_SchdAbsTm_val_204", &iedModel_Device1_DSCH1_SchdAbsTm_val_204)
].

Definition sample_macros3 : list (string * option addr) := [
  ("IEDMODEL_Device1_DSCH1_SchdAbsTm_val_205", &iedModel_Device1_DSCH1_SchdAbsTm_val_205);
  ("IEDMODEL_Device1_DSCH1_SchdAbsTm_val_206", &iedModel_Device1_DSCH1_SchdAbsTm_val_206);
  ("IEDMODEL_Device1_DSCH1_SchdAbsTm_val_207", &iedModel_Device1_DSCH1_SchdAbsTm_val_207);
  ("IEDMODEL_Device1_DSCH1_SchdAbsTm_val_208", &iedModel_Device1_DSCH1_SchdAbsTm_val_208);
  ("IEDMODEL_Device1_DSCH1_SchdAbsTm_val_209", &iedModel_Device1_DSCH1_SchdAbsTm_val_209);
  ("IEDMODEL_Device1_DSCH1_SchdAbsTm_val_210", &iedModel_Device1_DSCH1_SchdAbsTm_val_210);
  ("IEDMODEL_Device1_DSCH1_SchdAbsTm_val_211", &iedModel_Device1_DSCH1_SchdAbsTm_val_211);
  ("IEDMODEL_Device1_DSCH1_SchdAbsTm_val_212", &iedModel_Device1_DSCH1_SchdAbsTm_val_212);
  ("IEDMODEL_Device1_DSCH1_SchdAbsTm_val_213", &iedModel_Device1_DSCH1_SchdAbsTm_val_213);
  ("IEDMODEL_Device1_DSCH1_SchdAbsTm_val_214", &iedModel_Device1_DSCH1_SchdAbsTm_val_214);
  ("IEDMODEL_Device1_DSCH1_SchdAbsTm_val_215", &iedModel_Device1_DSCH1_SchdAbsTm_val_215);
  ("IEDMODEL_Device1_DSCH1_SchdAbsTm_val_216", &iedModel_Device1_DSCH1_SchdAbsTm_val_216);
  ("IEDMODEL_Device1_DSCH1_SchdAbsTm_val_217", &iedModel_Device1_DSCH1_SchdAbsTm_val_217);
  ("IEDMODEL_Device1_DSCH1_SchdAbsTm_val_218", &iedModel_Device1_DSCH1_SchdAbsTm_val_218);
  ("IEDMODEL_Device1_DSCH1_SchdAbsTm_val_219", &iedModel_Device1_DSCH1_SchdAbsTm_val_219);
  ("IEDMODEL_Device1_DSCH1_SchdAbsTm_val_220", &iedModel_Device1_DSCH1_SchdAbsTm_val_220);
  ("IEDMODEL_Device1_DSCH1_SchdAbsTm_val_221", &iedModel_Device1_DSCH1_SchdAbsTm_val_221);
  ("IEDMODEL_Device1_DSCH1_SchdAbsTm_val_222", &iedModel_Device1_DSCH1_SchdAbsTm_val_222);
  ("IEDMODEL_Device1_DSCH1_SchdAbsTm_val_223", &iedModel_Device1_DSCH1_SchdAbsTm_val_223);
  ("IEDMODEL_Device1_DSCH1_SchdAbsTm_val_224", &iedModel_Device1_DSCH1_SchdAbsTm_val_224);
  ("IEDMODEL_Device1_DSCH1_SchdAbsTm_val_225", &iedModel_Device1_DSCH1_SchdAbsTm_val_225);
  ("IEDMODEL_Device1_DSCH1_SchdAbsTm_val_226", &iedModel_Device1_DSCH1_SchdAbsTm_val_226);
  ("IEDMODEL_Device1_DSCH1_SchdAbsTm_val_227", &iedModel_Device1_DSCH1_SchdAbsTm_val_227);
  ("IEDMODEL_Device1_DSCH1_SchdAbsTm_val_228", &iedModel_Device1_DSCH1_SchdAbsTm_val_228);
  ("IEDMODEL_Device1_DSCH1_SchdAbsTm_val_229", &iedModel_Device1_DSCH1_SchdAbsTm_val_229);
  ("IEDMODEL_Device1_DSCH1_SchdAbsTm_val_230", &iedModel_Device1_DSCH1_SchdAbsTm_val_230);
  ("IEDMODEL_Device1_DSCH1_SchdAbsTm_val_231", &iedModel_Device1_DSCH1_SchdAbsTm_val_231);
  ("IEDMODEL_Device1_DSCH1_SchdAbsTm_val_232", &iedModel_Device1_DSCH1_SchdAbsTm_val_232);
  ("IEDMODEL_Device1_DSCH1_SchdAbsTm_val_233", &iedModel_Device1_DSCH1_SchdAbsTm_val_233);
  ("IEDMODEL_Device1_DSCH1_SchdAbsTm_val_234", &iedModel_Device1_DSCH1_SchdAbsTm_val_234);
  ("IEDMODEL_Device1_DSCH1_SchdAbsTm_val_235", &iedModel_Device1_DSCH1_SchdAbsTm_val_235);
  ("IEDMODEL_Device1_DSCH1_SchdAbsTm_val_236", &iedModel_Device1_DSCH1_SchdAbsTm_val_236);
  ("IEDMODEL_Device1_DSCH1_SchdAbsTm_val_237", &iedModel_Device1_DSCH1_SchdAbsTm_val_237);
  ("IEDMODEL_Device1_DSCH1_SchdAbsTm_val_238", &iedModel_Device1_DSCH1_SchdAbsTm_val_238);
  ("IEDMODEL_Device1_DSCH1_SchdAbsTm_val_239", &iedModel_Device1_DSCH1_SchdAbsTm_val_239);
  ("IEDMODEL_Device1_DSCH1_SchdAbsTm_val_240", &iedModel_Device1_DSCH1_SchdAbsTm_val_240);
  ("IEDMODEL_Device1_DSCH1_SchdAbsTm_val_241", &iedModel_Device1_DSCH1_SchdAbsTm_val_241);
  ("IEDMODEL_Device1_DSCH1_SchdAbsTm_val_242", &iedModel_Device1_DSCH1_SchdAbsTm_val_242);
  ("IEDMODEL_Device1_DSCH1_SchdAbsTm_val_243", &iedModel_Device1_DSCH1_SchdAbsTm_val_243);
  ("IEDMODEL_Device1_DSCH1_SchdAbsTm_val_244", &iedModel_Device1_DSCH1_SchdAbsTm_val_244);
  ("IEDMODEL_Device1_DSCH1_SchdAbsTm_val_245", &iedModel_Device1_DSCH1_SchdAbsTm_val_245);
  ("IEDMODEL_Device1_DSCH1_SchdAbsTm_val_246", &iedModel_Device1_DSCH1_SchdAbsTm_val_246);
  ("IEDMODEL_Device1_DSCH1_SchdAbsTm_val_247", &iedModel_Device1_DSCH1_SchdAbsTm_val_247);
  ("IEDMODEL_Device1_DSCH1_SchdAbsTm_val_248", &iedModel_Device1_DSCH1_SchdAbsTm_val_248);
  ("IEDMODEL_Device1_DSCH1_SchdAbsTm_val_249", &iedModel_Device1_DSCH1_SchdAbsTm_val_249);
  ("IEDMODEL_Device1_DSCH1_SchdAbsTm_val_250", &iedModel_Device1_DSCH1_SchdAbsTm_val_250);
  ("IEDMODEL_Device1_DSCH1_SchdAbsTm_val_251", &iedModel_Device1_DSCH1_SchdAbsTm_val_251);
  ("IEDMODEL_Device1_DSCH1_SchdAbsTm_val_252", &iedModel_Device1_DSCH1_SchdAbsTm_val_252);
  ("IEDMODEL_Device1_DSCH1_SchdAbsTm_val_253", &iedModel_Device1_DSCH1_SchdAbsTm_val_253);
  ("IEDMODEL_Device1_DSCH1_SchdAbsTm_val_254", &iedModel_Device1_DSCH1_SchdAbsTm_val_254);
  ("IEDMODEL_Device1_DSCH1_SchdAbsTm_time", &iedModel_Device1_DSCH1_SchdAbsTm_time);
  ("IEDMODEL_Device1_DSCH1_SchdAbsTm_time_0", &iedModel_Device1_DSCH1_SchdAbsTm_time_0);
  ("IEDMODEL_Device1_DSCH1_SchdAbsTm_time_1", &iedModel_Device1_DSCH1_SchdAbsTm_time_1);
  ("IEDMODEL_Device1_DSCH1_SchdAbsTm_time_2", &iedModel_Device1_DSCH1_SchdAbsTm_time_2);
  ("IEDMODEL_Device1_DSCH1_SchdAbsTm_time_3", &iedModel_Device1_DSCH1_SchdAbsTm_time_3);
  ("IEDMODEL_Device1_DSCH1_SchdAbsTm_time_4", &iedModel_Device1_DSCH1_SchdAbsTm_time_4);
  ("IEDMODEL_Device1_DSCH1_SchdAbsTm_time_5", &iedModel_Device1_DSCH1_SchdAbsTm_time_5);
  ("IEDMODEL_Device1_DSCH1_SchdAbsTm_time_6", &iedModel_Device1_DSCH1_SchdAbsTm_time_6);
  ("IEDMODEL_Device1_DSCH1_SchdAbsTm_time_7", &iedModel_Device1_DSCH1_SchdAbsTm_time_7);
  ("IEDMODEL_Device1_DSCH1_SchdAbsTm_time_8", &iedModel_Device1_DSCH1_SchdAbsTm_time_8);
  ("IEDMODEL_Device1_DSCH1_SchdAbsTm_time_9", &iedModel_Device1_DSCH1_SchdAbsTm_time_9);
  ("IEDMODEL_Device1_DSCH1_SchdAbsTm_time_10", &iedModel_Device1_DSCH1_SchdAbsTm_time_10);
  ("IEDMODEL_Device1_DSCH1_SchdAbsTm_time_11", &iedModel_Device1_DSCH1_SchdAbsTm_time_11);
  ("IEDMODEL_Device1_DSCH1_SchdAbsTm_time_12", &iedModel_Device1_DSCH1_SchdAbsTm_time_12);
  ("IEDMODEL_Device1_DSCH1_SchdAbsTm_time_13", &iedModel_Device1_DSCH1_SchdAbsTm_time_13);
  ("IEDMODEL_Device1_DSCH1_SchdAbsTm_time_14", &iedModel_Device1_DSCH1_SchdAbsTm_time_14);
  ("IEDMODEL_Device1_DSCH1_SchdAbsTm_time_15", &iedModel_Device1_DSCH1_SchdAbsTm_time_15);
  ("IEDMODEL_Device1_DSCH1_SchdAbsTm_time_16", &iedModel_Device1_DSCH1_SchdAbsTm_time_16);
  ("IEDMODEL_Device1_DSCH1_SchdAbsTm_time_17", &iedModel_Device1_DSCH1_SchdAbsTm_time_17);
  ("IEDMODEL_Device1_DSCH1_SchdAbsTm_time_18", &iedModel_Device1_DSCH1_SchdAbsTm_time_18);
  ("IEDMODEL_Device1_DSCH1_SchdAbsTm_time_19", &iedModel_Device1_DSCH1_SchdAbsTm_time_19);
  ("IEDMODEL_Device1_DSCH1_SchdAbsTm_time_20", &iedModel_Device1_DSCH1_SchdAbsTm_time_20);
  ("IEDMODEL_Device1_DSCH1_SchdAbsTm_time_21", &iedModel_Device1_DSCH1_SchdAbsTm_time_21);
  ("IEDMODEL_Device1_DSCH1_SchdAbsTm_time_22", &iedModel_Device1_DSCH1_SchdAbsTm_time_22);
  ("IEDMODEL_Device1_DSCH1_SchdAbsTm_time_23", &iedModel_Device1_DSCH1_SchdAbsTm_time_23);
  ("IEDMODEL_Device1_DSCH1_SchdAbsTm_time_24", &iedModel_Device1_DSCH1_SchdAbsTm_time_24);
  ("IEDMODEL_Device1_DSCH1_SchdAbsTm_time_25", &iedModel_Device1_DSCH1_SchdAbsTm_time_25);
  ("IEDMODEL_Device1_DSCH1_SchdAbsTm_time_26", &iedModel_Device1_DSCH1_SchdAbsTm_time_26);
  ("IEDMODEL_Device1_DSCH1_SchdAbsTm_time_27", &iedModel_Device1_DSCH1_SchdAbsTm_time_27);
  ("IEDMODEL_Device1_DSCH1_SchdAbsTm_time_28", &iedModel_Device1_DSCH1_SchdAbsTm_time_28);
  ("IEDMODEL_Device1_DSCH1_SchdAbsTm_time_29", &iedModel_Device1_DSCH1_SchdAbsTm_time_29);
  ("IEDMODEL_Device1_DSCH1_SchdAbsTm_time_30", &iedModel_Device1_DSCH1_SchdAbsTm_time_30);
  ("IEDMODEL_Device1_DSCH1_SchdAbsTm_time_31", &iedModel_Device1_DSCH1_SchdAbsTm_time_31);
  ("IEDMODEL_Device1_DSCH1_SchdAbsTm_time_32", &iedModel_Device1_DSCH1_SchdAbsTm_time_32);
  ("IEDMODEL_Device1_DSCH1_SchdAbsTm_time_33", &iedModel_Device1_DSCH1_SchdAbsTm_time_33);
  ("IEDMODEL_Device1_DSCH1_SchdAbsTm_time_34", &iedModel_Device1_DSCH1_SchdAbsTm_time_34);
  ("IEDMODEL_Device1_DSCH1_SchdAbsTm_time_35", &iedModel_Device1_DSCH1_SchdAbsTm_time_35);
  ("IEDMODEL_Device1_DSCH1_SchdAbsTm_time_36", &iedModel_Device1_DSCH1_SchdAbsTm_time_36);
  ("IEDMODEL_Device1_DSCH1_SchdAbsTm_time_37", &iedModel_Device1_DSCH1_SchdAbsTm_time_37);
  ("IEDMODEL_Device1_DSCH1_SchdAbsTm_time_38", &iedModel_Device1_DSCH1_SchdAbsTm_time_38);
  ("IEDMODEL_Device1_DSCH1_SchdAbsTm_time_39", &iedModel_Device1_DSCH1_SchdAbsTm_time_39);
  ("IEDMODEL_Device1_DSCH1_SchdAbsTm_time_40", &iedModel_Device1_DSCH1_SchdAbsTm_time_40);
  ("IEDMODEL_Device1_DSCH1_SchdAbsTm_time_41", &iedModel_Device1_DSCH1_SchdAbsTm_time_41);
  ("IEDMODEL_Device1_DSCH1_SchdAbsTm_time_42", &iedModel_Device1_DSCH1_SchdAbsTm_time_42);
  ("IEDMODEL_Device1_DSCH1_SchdAbsTm_time_43", &iedModel_Device1_DSCH1_SchdAbsTm_time_43);
  ("IEDMODEL_Device1_DSCH1_SchdAbsTm_time_44", &iedModel_Device1_DSCH1_SchdAbsTm_time_44);
  ("IEDMODEL_Device1_DSCH1_SchdAbsTm_time_45", &iedModel_Device1_DSCH1_SchdAbsTm_time_45);
  ("IEDMODEL_Device1_DSCH1_SchdAbsTm_time_46", &iedModel_Device1_DSCH1_SchdAbsTm_time_46);
  ("IEDMODEL_Device1_DSCH1_SchdAbsTm_time_47", &iedModel_Device1_DSCH1_SchdAbsTm_time_47);
  ("IEDMODEL_Device1_DSCH1_SchdAbsTm_time_48", &iedModel_Device1_DSCH1_SchdAbsTm_time_48);
  ("IEDMODEL_Device1_DSCH1_SchdAbsTm_time_49", &iedModel_Device1_DSCH1_SchdAbsTm_time_49);
  ("IEDMODEL_Device1_DSCH1_SchdAbsTm_time_50", &iedModel_Device1_DSCH1_SchdAbsTm_time_50);
  ("IEDMODEL_Device1_DSCH1_SchdAbsTm_time_51", &iedModel_Device1_DSCH1_SchdAbsTm_time_51);
  ("IEDMODEL_Device1_DSCH1_SchdAbsTm_time_52", &iedModel_Device1_DSCH1_SchdAbsTm_time_52);
  ("IEDMODEL_Device1_DSCH1_SchdAbsTm_time_53", &iedModel_Device1_DSCH1_SchdAbsTm_time_53);
  ("IEDMODEL_Device1_DSCH1_SchdAbsTm_time_54", &iedModel_Device1_DSCH1_SchdAbsTm_time_54);
  ("IEDMODEL_Device1_DSCH1_SchdAbsTm_time_55", &iedModel_Device1_DSCH1_SchdAbsTm_time_55);
  ("IEDMODEL_Device1_DSCH1_SchdAbsTm_time_56", &iedModel_Device1_DSCH1_SchdAbsTm_time_56);
  ("IEDMODEL_Device1_DSCH1_SchdAbsTm_time_57", &iedModel_Device1_DSCH1_SchdAbsTm_time_57);
  ("IEDMODEL_Device1_DSCH1_SchdAbsTm_time_58", &iedModel_Device1_DSCH1_SchdAbsTm_time_58);
  ("IEDMODEL_Device1_DSCH1_SchdAbsTm_time_59", &iedModel_Device1_DSCH1_SchdAbsTm_time_59);
  ("IEDMODEL_Device1_DSCH1_SchdAbsTm_time_60", &iedModel_Device1_DSCH1_SchdAbsTm_time_60);
  ("IEDMODEL_Device1_DSCH1_SchdAbsTm_time_61", &iedModel_Device1_DSCH1_SchdAbsTm_time_61);
  ("IEDMODEL_Device1_DSCH1_SchdAbsTm_time_62", &iedModel_Device1_DSCH1_SchdAbsTm_time_62);
  ("IEDMODEL_Device1_DSCH1_SchdAbsTm_time_63", &iedModel_Device1_DSCH1_SchdAbsTm_time_63);
  ("IEDMODEL_Device1_DSCH1_SchdAbsTm_time_64", &iedModel_Device1_DSCH1_SchdAbsTm_time_64);
  ("IEDMODEL_Device1_DSCH1_SchdAbsTm_time_65", &iedModel_Device1_DSCH1_SchdAbsTm_time_65);
  ("IEDMODEL_Device1_DSCH1_SchdAbsTm_time_66", &iedModel_Device1_DSCH1_SchdAbsTm_time_66);
  ("IEDMODEL_Device1_DSCH1_SchdAbsTm_time_67", &iedModel_Device1_DSCH1_SchdAbsTm_time_67);
  ("IEDMODEL_Device1_DSCH1_SchdAbsTm_time_68", &iedModel_Device1_DSCH1_SchdAbsTm_time_68);
  ("IEDMODEL_Device1_DSCH1_SchdAbsTm_time_69", &iedModel_Device1_DSCH1_SchdAbsTm_time_69);
  ("IEDMODEL_Device1_DSCH1_SchdAbsTm_time_70", &iedModel_Device1_DSCH1_SchdAbsTm_time_70);
  ("IEDMODEL_Device1_DSCH1_SchdAbsTm_time_71", &iedModel_Device1_DSCH1_SchdAbsTm_time_71);
  ("IEDMODEL_Device1_DSCH1_SchdAbsTm_time_72", &iedModel_Device1_DSCH1_SchdAbsTm_time_72);
  ("IEDMODEL_Device1_DSCH1_SchdAbsTm_time_73", &iedModel_Device1_DSCH1_SchdAbsTm_time_73);
  ("IEDMODEL_Device1_DSCH1_SchdAbsTm_time_74", &iedModel_Device1_DSCH1_SchdAbsTm_time_74);
  ("IEDMODEL_Device1_DSCH1_SchdAbsTm_time_75", &iedModel_Device1_DSCH1_SchdAbsTm_time_75);
  ("IEDMODEL_Device1_DSCH1_SchdAbsTm_time_76", &iedModel_Device1_DSCH1_SchdAbsTm_time_76);
  ("IEDMODEL_Device1_DSCH1_SchdAbsTm_time_77", &iedModel_Device1_DSCH1_SchdAbsTm_time_77);
  ("IEDMODEL_Device1_DSCH1_SchdAbsTm_time_78", &iedModel_Device1_DSCH1_SchdAbsTm_time_78);
  ("IEDMODEL_Device1_DSCH1_SchdAbsTm_time_79", &iedModel_Device1_DSCH1_SchdAbsTm_time_79);
  ("IEDMODEL_Device1_DSCH1_SchdAbsTm_time_80", &iedModel_Device1_DSCH1_SchdAbsTm_time_80);
  ("IEDMODEL_Device1_DSCH1_SchdAbsTm_time_81", &iedModel_Device1_DSCH1_SchdAbsTm_time_81);
  ("IEDMODEL_Device1_DSCH1_SchdAbsTm_time_82", &iedModel_Device1_DSCH1_SchdAbsTm_time_82);
  ("IEDMODEL_Device1_DSCH1_SchdAbsTm_time_83", &iedModel_Device1_DSCH1_SchdAbsTm_time_83);
  ("IEDMODEL_Device1_DSCH1_SchdAbsTm_time_84", &iedModel_Device1_DSCH1_SchdAbsTm_time_84);
  ("IEDMODEL_Device1_DSCH1_SchdAbsTm_time_85", &iedModel_Device1_DSCH1_SchdAbsTm_time_85);
  ("IEDMODEL_Device1_DSCH1_SchdAbsTm_time_86", &iedModel_Device1_DSCH1_SchdAbsTm_time_86);
  ("IEDMODEL_Device1_DSCH1_SchdAbsTm_time_87", &iedModel_Device1_DSCH1_SchdAbsTm_time_87);
  ("IEDMODEL_Device1_DSCH1_SchdAbsTm_time_88", &iedModel_Device1_DSCH1_SchdAbsTm_time_88);
  ("IEDMODEL_Device1_DSCH1_SchdAbsTm_time_89", &iedModel_Device1_DSCH1_SchdAbsTm_time_89);
  ("IEDMODEL_Device1_DSCH1_SchdAbsTm_time_90", &iedModel_Device1_DSCH1_SchdAbsTm_time_90);
  ("IEDMODEL_Device1_DSCH1_SchdAbsTm_time_91", &iedModel_Device1_DSCH1_SchdAbsTm_time_91);
  ("IEDMODEL_Device1_DSCH1_SchdAbsTm_time_92", &iedModel_Device1_DSCH1_SchdAbsTm_time_92);
  ("IEDMODEL_Device1_DSCH1_SchdAbsTm_time_93", &iedModel_Device1_DSCH1_SchdAbsTm_time_93);
  ("IEDMODEL_Device1_DSCH1_SchdAbsTm_time_94", &iedModel_Device1_DSCH1_SchdAbsTm_time_94);
  ("IEDMODEL_Device1_DSCH1_SchdAbsTm_time_95", &iedModel_Device1_DSCH1_SchdAbsTm_time_95);
  ("IEDMODEL_Device1_DSCH1_SchdAbsTm_time_96", &iedModel_Device1_DSCH1_SchdAbsTm_time_96)
].

Definition sample_macros4 : list (string * option addr) := [
  ("IEDMODEL_Device1_DSCH1_SchdAbsTm_time_97", &iedModel_Device1_DSCH1_SchdAbsTm_time_97);
  ("IEDMODEL_Device1_DSCH1_SchdAbsTm_time_98", &iedModel_Device1_DSCH1_SchdAbsTm_time_98);
  ("IEDMODEL_Device1_DSCH1_SchdAbsTm_time_99", &iedModel_Device1_DSCH1_SchdAbsTm_time_99);
  ("IEDMODEL_Device1_DSCH1_SchdAbsTm_time_100", &iedModel_Device1_DSCH1_SchdAbsTm_time_100);
  ("IEDMODEL_Device1_DSCH1_SchdAbsTm_time_101", &iedModel_Device1_DSCH1_SchdAbsTm_time_101);
  ("IEDMODEL_Device1_DSCH1_SchdAbsTm_time_102", &iedModel_Device1_DSCH1_SchdAbsTm_time_102);
  ("IEDMODEL_Device1_DSCH1_SchdAbsTm_time_103", &iedModel_Device1_DSCH1_SchdAbsTm_time_103);
  ("IEDMODEL_Device1_DSCH1_SchdAbsTm_time_104", &iedModel_Device1_DSCH1_SchdAbsTm_time_104);
  ("IEDMODEL_Device1_DSCH1_SchdAbsTm_time_105", &iedModel_Device1_DSCH1_SchdAbsTm_time_105);
  ("IEDMODEL_Device1_DSCH1_SchdAbsTm_time_106", &iedModel_Device1_DSCH1_SchdAbsTm_time_106);
  ("IEDMODEL_Device1_DSCH1_SchdAbsTm_time_107", &iedModel_Device1_DSCH1_SchdAbsTm_time_107);
  ("IEDMODEL_Device1_DSCH1_SchdAbsTm_time_108", &iedModel_Device1_DSCH1_SchdAbsTm_time_108);
  ("IEDMODEL_Device1_DSCH1_SchdAbsTm_time_109", &iedModel_Device1_DSCH1_SchdAbsTm_time_109);
  ("IEDMODEL_Device1_DSCH1_SchdAbsTm_time_110", &iedModel_Device1_DSCH1_SchdAbsTm_time_110);
  ("IEDMODEL_Device1_DSCH1_SchdAbsTm_time_111", &iedModel_Device1_DSCH1_SchdAbsTm_time_111);
  ("IEDMODEL_Device1_DSCH1_SchdAbsTm_time_112", &iedModel_Device1_DSCH1_SchdAbsTm_time_112);
  ("IEDMODEL_Device1_DSCH1_SchdAbsTm_time_113", &iedModel_Device1_DSCH1_SchdAbsTm_time_113);
  ("IEDMODEL_Device1_DSCH1_SchdAbsTm_time_114", &iedModel_Device1_DSCH1_SchdAbsTm_time_114);
  ("IEDMODEL_Device1_DSCH1_SchdAbsTm_time_115", &iedModel_Device1_DSCH1_SchdAbsTm_time_115);
  ("IEDMODEL_Device1_DSCH1_SchdAbsTm_time_116", &iedModel_Device1_DSCH1_SchdAbsTm_time_116);
  ("IEDMODEL_Device1_DSCH1_SchdAbsTm_time_117", &iedModel_Device1_DSCH1_SchdAbsTm_time_117);
  ("IEDMODEL_Device1_DSCH1_SchdAbsTm_time_118", &iedModel_Device1_DSCH1_SchdAbsTm_time_118);
  ("IEDMODEL_Device1_DSCH1_SchdAbsTm_time_119", &iedModel_Device1_DSCH1_SchdAbsTm_time_119);
  ("IEDMODEL_Device1_DSCH1_SchdAbsTm_time_120", &iedModel_Device1_DSCH1_SchdAbsTm_time_120);
  ("IEDMODEL_Device1_DSCH1_SchdAbsTm_time_121", &iedModel_Device1_DSCH1_SchdAbsTm_time_121);
  ("IEDMODEL_Device1_DSCH1_SchdAbsTm_time_122", &iedModel_Device1_DSCH1_SchdAbsTm_time_122);
  ("IEDMODEL_Device1_DSCH1_SchdAbsTm_time_123", &iedModel_Device1_DSCH1_SchdAbsTm_time_123);
  ("IEDMODEL_Device1_DSCH1_SchdAbsTm_time_124", &iedModel_Device1_DSCH1_SchdAbsTm_time_124);
  ("IEDMODEL_Device1_DSCH1_SchdAbsTm_time_125", &iedModel_Device1_DSCH1_SchdAbsTm_time_125);
  ("IEDMODEL_Device1_DSCH1_SchdAbsTm_time_126", &iedModel_Device1_DSCH1_SchdAbsTm_time_126);
  ("IEDMODEL_Device1_DSCH1_SchdAbsTm_time_127", &iedModel_Device1_DSCH1_SchdAbsTm_time_127);
  ("IEDMODEL_Device1_DSCH1_SchdAbsTm_time_128", &iedModel_Device1_DSCH1_SchdAbsTm_time_128);
  ("IEDMODEL_Device1_DSCH1_SchdAbsTm_time_129", &iedModel_Device1_DSCH1_SchdAbsTm_time_129);
  ("IEDMODEL_Device1_DSCH1_SchdAbsTm_time_130", &iedModel_Device1_DSCH1_SchdAbsTm_time_130);
  ("IEDMODEL_Device1_DSCH1_SchdAbsTm_time_131", &iedModel_Device1_DSCH1_SchdAbsTm_time_131);
  ("IEDMODEL_Device1_DSCH1_SchdAbsTm_time_132", &iedModel_Device1_DSCH1_SchdAbsTm_time_132);
  ("IEDMODEL_Device1_DSCH1_SchdAbsTm_time_133", &iedModel_Device1_DSCH1_SchdAbsTm_time_133);
  ("IEDMODEL_Device1_DSCH1_SchdAbsTm_time_134", &iedModel_Device1_DSCH1_SchdAbsTm_time_134);
  ("IEDMODEL_Device1_DSCH1_SchdAbsTm_time_135", &iedModel_Device1_DSCH1_SchdAbsTm_time_135);
  ("IEDMODEL_Device1_DSCH1_SchdAbsTm_time_136", &iedModel_Device1_DSCH1_SchdAbsTm_time_136);
  ("IEDMODEL_Device1_DSCH1_SchdAbsTm_time_137", &iedModel_Device1_DSCH1_SchdAbsTm_time_137);
  ("IEDMODEL_Device1_DSCH1_SchdAbsTm_time_138", &iedModel_Device1_DSCH1_SchdAbsTm_time_138);
  ("IEDMODEL_Device1_DSCH1_SchdAbsTm_time_139", &iedModel_Device1_DSCH1_SchdAbsTm_time_139);
  ("IEDMODEL_Device1_DSCH1_SchdAbsTm_time_140", &iedModel_Device1_DSCH1_SchdAbsTm_time_140);
  ("IEDMODEL_Device1_DSCH1_SchdAbsTm_time_141", &iedModel_Device1_DSCH1_SchdAbsTm_time_141);
  ("IEDMODEL_Device1_DSCH1_SchdAbsTm_time_142", &iedModel_Device1_DSCH1_SchdAbsTm_time_142);
  ("IEDMODEL_Device1_DSCH1_SchdAbsTm_time_143", &iedModel_Device1_DSCH1_SchdAbsTm_time_143);
  ("IEDMODEL_Device1_DSCH1_SchdAbsTm_time_144", &iedModel_Device1_DSCH1_SchdAbsTm_time_144);
  ("IEDMODEL_Device1_DSCH1_SchdAbsTm_time_145", &iedModel_Device1_DSCH1_SchdAbsTm_time_145);
  ("IEDMODEL_Device1_DSCH1_SchdAbsTm_time_146", &iedModel_Device1_DSCH1_SchdAbsTm_time_146);
  ("IEDMODEL_Device1_DSCH1_SchdAbsTm_time_147", &iedModel_Device1_DSCH1_SchdAbsTm_time_147);
  ("IEDMODEL_Device1_DSCH1_SchdAbsTm_time_148", &iedModel_Device1_DSCH1_SchdAbsTm_time_148);
  ("IEDMODEL_Device1_DSCH1_SchdAbsTm_time_149", &iedModel_Device1_DSCH1_SchdAbsTm_time_149);
  ("IEDMODEL_Device1_DSCH1_SchdAbsTm_time_150", &iedModel_Device1_DSCH1_SchdAbsTm_time_150);
  ("IEDMODEL_Device1_DSCH1_SchdAbsTm_time_151", &iedModel_Device1_DSCH1_SchdAbsTm_time_151);
  ("IEDMODEL_Device1_DSCH1_SchdAbsTm_time_152", &iedModel_Device1_DSCH1_SchdAbsTm_time_152);
  ("IEDMODEL_Device1_DSCH1_SchdAbsTm_time_153", &iedModel_Device1_DSCH1_SchdAbsTm_time_153);
  ("IEDMODEL_Device1_DSCH1_SchdAbsTm_time_154", &iedModel_Device1_DSCH1_SchdAbsTm_time_154);
  ("IEDMODEL_Device1_DSCH1_SchdAbsTm_time_155", &iedModel_Device1_DSCH1_SchdAbsTm_time_155);
  ("IEDMODEL_Device1_DSCH1_SchdAbsTm_time_156", &iedModel_Device1_DSCH1_SchdAbsTm_time_156);
  ("IEDMODEL_Device1_DSCH1_SchdAbsTm_time_157", &iedModel_Device1_DSCH1_SchdAbsTm_time_157);
  ("IEDMODEL_Device1_DSCH1_SchdAbsTm_time_158", &iedModel_Device1_DSCH1_SchdAbsTm_time_158);
  ("IEDMODEL_Device1_DSCH1_SchdAbsTm_time_159", &iedModel_Device1_DSCH1_SchdAbsTm_time_159);
  ("IEDMODEL_Device1_DSCH1_SchdAbsTm_time_160", &iedModel_Device1_DSCH1_SchdAbsTm_time_160);
  ("IEDMODEL_Device1_DSCH1_SchdAbsTm_time_161", &iedModel_Device1_DSCH1_SchdAbsTm_time_161);
  ("IEDMODEL_Device1_DSCH1_SchdAbsTm_time_162", &iedModel_Device1_DSCH1_SchdAbsTm_time_162);
  ("IEDMODEL_Device1_DSCH1_SchdAbsTm_time_163", &iedModel_Device1_DSCH1_SchdAbsTm_time_163);
  ("IEDMODEL_Device1_DSCH1_SchdAbsTm_time_164", &iedModel_Device1_DSCH1_SchdAbsTm_time_164);
  ("IEDMODEL_Device1_DSCH1_SchdAbsTm_time_165", &iedModel_Device1_DSCH1_SchdAbsTm_time_165);
  ("IEDMODEL_Device1_DSCH1_SchdAbsTm_time_166", &iedModel_Device1_DSCH1_SchdAbsTm_time_166);
  ("IEDMODEL_Device1_DSCH1_SchdAbsTm_time_167", &iedModel_Device1_DSCH1_SchdAbsTm_time_167);
  ("IEDMODEL_Device1_DSCH1_SchdAbsTm_time_168", &iedModel_Device1_DSCH1_SchdAbsTm_time_168);
  ("IEDMODEL_Device1_DSCH1_SchdAbsTm_time_169", &iedModel_Device1_DSCH1_SchdAbsTm_time_169);
  ("IEDMODEL_Device1_DSCH1_SchdAbsTm_time_170", &iedModel_Device1_DSCH1_SchdAbsTm_time_170);
  ("IEDMODEL_Device1_DSCH1_SchdAbsTm_time_171", &iedModel_Device1_DSCH1_SchdAbsTm_time_171);
  ("IEDMODEL_Device1_DSCH1_SchdAbsTm_time_172", &iedModel_Device1_DSCH1_SchdAbsTm_time_172);
  ("IEDMODEL_Device1_DSCH1_SchdAbsTm_time_173", &iedModel_Device1_DSCH1_SchdAbsTm_time_173);
  ("IEDMODEL_Device1_DSCH1_SchdAbsTm_time_174", &iedModel_Device1_DSCH1_SchdAbsTm_time_174);
  ("IEDMODEL_Device1_DSCH1_SchdAbsTm_time_175", &iedModel_Device1_DSCH1_SchdAbsTm_time_175);
  ("IEDMODEL_Device1_DSCH1_SchdAbsTm_time_176", &iedModel_Device1_DSCH1_SchdAbsTm_time_176);
  ("IEDMODEL_Device1_DSCH1_SchdAbsTm_time_177", &iedModel_Device1_DSCH1_SchdAbsTm_time_177);
  ("IEDMODEL_Device1_DSCH1_SchdAbsTm_time_178", &iedModel_Device1_DSCH1_SchdAbsTm_time_178);
  ("IEDMODEL_Device1_DSCH1_SchdAbsTm_time_179", &iedModel_Device1_DSCH1_SchdAbsTm_time_179);
  ("IEDMODEL_Device1_DSCH1_SchdAbsTm_time_180", &iedModel_Device1_DSCH1_SchdAbsTm_time_180);
  ("IEDMODEL_Device1_DSCH1_SchdAbsTm_time_181", &iedModel_Device1_DSCH1_SchdAbsTm_time_181);
  ("IEDMODEL_Device1_DSCH1_SchdAbsTm_time_182", &iedModel_Device1_DSCH1_SchdAbsTm_time_182);
  ("IEDMODEL_Device1_DSCH1_SchdAbsTm_time_183", &iedModel_Device1_DSCH1_SchdAbsTm_time_183);
  ("IEDMODEL_Device1_DSCH1_SchdAbsTm_time_184", &iedModel_Device1_DSCH1_SchdAbsTm_time_184);
  ("IEDMODEL_Device1_DSCH1_SchdAbsTm_time_185", &iedModel_Device1_DSCH1_SchdAbsTm_time_185);
  ("IEDMODEL_Device1_DSCH1_SchdAbsTm_time_186", &iedModel_Device1_DSCH1_SchdAbsTm_time_186);
  ("IEDMODEL_Device1_DSCH1_SchdAbsTm_time_187", &iedModel_Device1_DSCH1_SchdAbsTm_time_187);
  ("IEDMODEL_Device1_DSCH1_SchdAbsTm_time_188", &iedModel_Device1_DSCH1_SchdAbsTm_time_188);
  ("IEDMODEL_Device1_DSCH1_SchdAbsTm_time_189", &iedModel_Device1_DSCH1_SchdAbsTm_time_189);
  ("IEDMODEL_Device1_DSCH1_SchdAbsTm_time_190", &iedModel_Device1_DSCH1_SchdAbsTm_time_190);
  ("IEDMODEL_Device1_DSCH1_SchdAbsTm_time_191", &iedModel_Device1_DSCH1_SchdAbsTm_time_191);
  ("IEDMODEL_Device1_DSCH1_SchdAbsTm_time_192", &iedModel_Device1_DSCH1_SchdAbsTm_time_192);
  ("IEDMODEL_Device1_DSCH1_SchdAbsTm_time_193", &iedModel_Device1_DSCH1_SchdAbsTm_time_193);
  ("IEDMODEL_Device1_DSCH1_SchdAbsTm_time_194", &iedModel_Device1_DSCH1_SchdAbsTm_time_194);
  ("IEDMODEL_Device1_DSCH1_SchdAbsTm_time_195", &iedModel_Device1_DSCH1_SchdAbsTm_time_195);
  ("IEDMODEL_Device1_DSCH1_SchdAbsTm_time_196", &iedModel_Device1_DSCH1_SchdAbsTm_time_196);
  ("IEDMODEL_Device1_DSCH1_SchdAbsTm_time_197", &iedModel_Device1_DSCH1_SchdAbsTm_time_197);
  ("IEDMODEL_Device1_DSCH1_SchdAbsTm_time_198", &iedModel_Device1_DSCH1_SchdAbsTm_time_198);
  ("IEDMODEL_Device1_DSCH1_SchdAbsTm_time_199", &iedModel_Device1_DSCH1_SchdAbsTm_time_199);
  ("IEDMODEL_Device1_DSCH1_SchdAbsTm_time_200", &iedModel_Device1_DSCH1_SchdAbsTm_time_200);
  ("IEDMODEL_Device1_DSCH1_SchdAbsTm_time_201", &iedModel_Device1_DSCH1_SchdAbsTm_time_201);
  ("IEDMODEL_Device1_DSCH1_SchdAbsTm_time_202", &iedModel_Device1_DSCH1_SchdAbsTm_time_202);
  ("IEDMODEL_Device1_DSCH1_SchdAbsTm_time_203", &iedModel_Device1_DSCH1_SchdAbsTm_time_203);
  ("IEDMODEL_Device1_DSCH1_SchdAbsTm_time_204", &iedModel_Device1_DSCH1_SchdAbsTm_time_204);
  ("IEDMODEL_Device1_DSCH1_SchdAbsTm_time_205", &iedModel_Device1_DSCH1_SchdAbsTm_time_205);
  ("IEDMODEL_Device1_DSCH1_SchdAbsTm_time_206", &iedModel_Device1_DSCH1_SchdAbsTm_time_206);
  ("IEDMODEL_Device1_DSCH1_SchdAbsTm_time_207", &iedModel_Device1_DSCH1_SchdAbsTm_time_207);
  ("IEDMODEL_Device1_DSCH1_SchdAbsTm_time_208", &iedModel_Device1_DSCH1_SchdAbsTm_time_208);
  ("IEDMODEL_Device1_DSCH1_SchdAbsTm_time_209", &iedModel_Device1_DSCH1_SchdAbsTm_time_209);
  ("IEDMODEL_Device1_DSCH1_SchdAbsTm_time_210", &iedModel_Device1_DSCH1_SchdAbsTm_time_210);
  ("IEDMODEL_Device1_DSCH1_SchdAbsTm_time_211", &iedModel_Device1_DSCH1_SchdAbsTm_time_211);
  ("IEDMODEL_Device1_DSCH1_SchdAbsTm_time_212", &iedModel_Device1_DSCH1_SchdAbsTm_time_212);
  ("IEDMODEL_Device1_DSCH1_SchdAbsTm_time_213", &iedModel_Device1_DSCH1_SchdAbsTm_time_213);
  ("IEDMODEL_Device1_DSCH1_SchdAbsTm_time_214", &iedModel_Device1_DSCH1_SchdAbsTm_time_214);
  ("IEDMODEL_Device1_DSCH1_SchdAbsTm_time_215", &iedModel_Device1_DSCH1_SchdAbsTm_time_215);
  ("IEDMODEL_Device1_DSCH1_SchdAbsTm_time_216", &iedModel_Device1_DSCH1_SchdAbsTm_time_216);
  ("IEDMODEL_Device1_DSCH1_SchdAbsTm_time_217", &iedModel_Device1_DSCH1_SchdAbsTm_time_217);
  ("IEDMODEL_Device1_DSCH1_SchdAbsTm_time_218", &iedModel_Device1_DSCH1_SchdAbsTm_time_218);
  ("IEDMODEL_Device1_DSCH1_SchdAbsTm_time_219", &iedModel_Device1_DSCH1_SchdAbsTm_time_219);
  ("IEDMODEL_Device1_DSCH1_SchdAbsTm_time_220", &iedModel_Device1_DSCH1_SchdAbsTm_time_220);
  ("IEDMODEL_Device1_DSCH1_SchdAbsTm_time_221", &iedModel_Device1_DSCH1_SchdAbsTm_time_221);
  ("IEDMODEL_Device1_DSCH1_SchdAbsTm_time_222", &iedModel_Device1_DSCH1_SchdAbsTm_time_222);
  ("IEDMODEL_Device1_DSCH1_SchdAbsTm_time_223", &iedModel_Device1_DSCH1_SchdAbsTm_time_223);
  ("IEDMODEL_Device1_DSCH1_SchdAbsTm_time_224", &iedModel_Device1_DSCH1_SchdAbsTm_time_224);
  ("IEDMODEL_Device1_DSCH1_SchdAbsTm_time_225", &iedModel_Device1_DSCH1_SchdAbsTm_time_225);
  ("IEDMODEL_Device1_DSCH1_SchdAbsTm_time_226", &iedModel_Device1_DSCH1_SchdAbsTm_time_226);
  ("IEDMODEL_Device1_DSCH1_SchdAbsTm_time_227", &iedModel_Device1_DSCH1_SchdAbsTm_time_227);
  ("IEDMODEL_Device1_DSCH1_SchdAbsTm_time_228", &iedModel_Device1_DSCH1_SchdAbsTm_time_228);
  ("IEDMODEL_Device1_DSCH1_SchdAbsTm_time_229", &iedModel_Device1_DSCH1_SchdAbsTm_time_229);
  ("IEDMODEL_Device1_DSCH1_SchdAbsTm_time_230", &iedModel_Device1_DSCH1_SchdAbsTm_time_230);
  ("IEDMODEL_Device1_DSCH1_SchdAbsTm_time_231", &iedModel_Device1_DSCH1_SchdAbsTm_time_231);
  ("IEDMODEL_Device1_DSCH1_SchdAbsTm_time_232", &iedModel_Device1_DSCH1_SchdAbsTm_time_232);
  ("IEDMODEL_Device1_DSCH1_SchdAbsTm_time_233", &iedModel_Device1_DSCH1_SchdAbsTm_time_233);
  ("IEDMODEL_Device1_DSCH1_SchdAbsTm_time_234", &iedModel_Device1_DSCH1_SchdAbsTm_time_234);
  ("IEDMODEL_Device1_DSCH1_SchdAbsTm_time_235", &iedModel_Device1_DSCH1_SchdAbsTm_time_235);
  ("IEDMODEL_Device1_DSCH1_SchdAbsTm_time_236", &iedModel_Device1_DSCH1_SchdAbsTm_time_236);
  ("IEDMODEL_Device1_DSCH1_SchdAbsTm_time_237", &iedModel_Device1_DSCH1_SchdAbsTm_time_237);
  ("IEDMODEL_Device1_DSCH1_SchdAbsTm_time_238", &iedModel_Device1_DSCH1_SchdAbsTm_time_238);
  ("IEDMODEL_Device1_DSCH1_SchdAbsTm_time_239", &iedModel_Device1_DSCH1_SchdAbsTm_time_239);
  ("IEDMODEL_Device1_DSCH1_SchdAbsTm_time_240", &iedModel_Device1_DSCH1_SchdAbsTm_time_240);
  ("IEDMODEL_Device1_DSCH1_SchdAbsTm_time_241", &iedModel_Device1_DSCH1_SchdAbsTm_time_241);
  ("IEDMODEL_Device1_DSCH1_SchdAbsTm_time_242", &iedModel_Device1_DSCH1_SchdAbsTm_time_242);
  ("IEDMODEL_Device1_DSCH1_SchdAbsTm_time_243", &iedModel_Device1_DSCH1_SchdAbsTm_time_243);
  ("IEDMODEL_Device1_DSCH1_SchdAbsTm_time_244", &iedModel_Device1_DSCH1_SchdAbsTm_time_244)
].

Definition sample_macros5 : list (string * option addr) := [
  ("IEDMODEL_Device1_DSCH1_SchdAbsTm_time_245", &iedModel_Device1_DSCH1_SchdAbsTm_time_245);
  ("IEDMODEL_Device1_DSCH1_SchdAbsTm_time_246", &iedModel_Device1_DSCH1_SchdAbsTm_time_246);
  ("IEDMODEL_Device1_DSCH1_SchdAbsTm_time_247", &iedModel_Device1_DSCH1_SchdAbsTm_time_247);
  ("IEDMODEL_Device1_DSCH1_SchdAbsTm_time_248", &iedModel_Device1_DSCH1_SchdAbsTm_time_248);
  ("IEDMODEL_Device1_DSCH1_SchdAbsTm_time_249", &iedModel_Device1_DSCH1_SchdAbsTm_time_249);
  ("IEDMODEL_Device1_DSCH1_SchdAbsTm_time_250", &iedModel_Device1_DSCH1_SchdAbsTm_time_250);
  ("IEDMODEL_Device1_DSCH1_SchdAbsTm_time_251", &iedModel_Device1_DSCH1_SchdAbsTm_time_251);
  ("IEDMODEL_Device1_DSCH1_SchdAbsTm_time_252", &iedModel_Device1_DSCH1_SchdAbsTm_time_252);
  ("IEDMODEL_Device1_DSCH1_SchdAbsTm_time_253", &iedModel_Device1_DSCH1_SchdAbsTm_time_253);
  ("IEDMODEL_Device1_DSCH1_SchdAbsTm_time_254", &iedModel_Device1_DSCH1_SchdAbsTm_time_254);
  ("IEDMODEL_Device1_MMXU1", &iedModel_Device1_MMXU1);
  ("IEDMODEL_Device1_MMXU1_Mod", &iedModel_Device1_MMXU1_Mod);
  ("IEDMODEL_Device1_MMXU1_Mod_q", &iedModel_Device1_MMXU1_Mod_q);
  ("IEDMODEL_Device1_MMXU1_Mod_t", &iedModel_Device1_MMXU1_Mod_t);
  ("IEDMODEL_Device1_MMXU1_Mod_ctlModel", &iedModel_Device1_MMXU1_Mod_ctlModel);
  ("IEDMODEL_Device1_MMXU1_Beh", &iedModel_Device1_MMXU1_Beh);
  ("IEDMODEL_Device1_MMXU1_Beh_stVal", &iedModel_Device1_MMXU1_Beh_stVal);
  ("IEDMODEL_Device1_MMXU1_Beh_q", &iedModel_Device1_MMXU1_Beh_q);
  ("IEDMODEL_Device1_MMXU1_Beh_t", &iedModel_Device1_MMXU1_Beh_t);
  ("IEDMODEL_Device1_MMXU1_Health", &iedModel_Device1_MMXU1_Health);
  ("IEDMODEL_Device1_MMXU1_Health_stVal", &iedModel_Device1_MMXU1_Health_stVal);
  ("IEDMODEL_Device1_MMXU1_Health_q", &iedModel_Device1_MMXU1_Health_q);
  ("IEDMODEL_Device1_MMXU1_Health_t", &iedModel_Device1_MMXU1_Health_t);
  ("IEDMODEL_Device1_MMXU1_NamPlt", &iedModel_Device1_MMXU1_NamPlt);
  ("IEDMODEL_Device1_MMXU1_NamPlt_vendor", &iedModel_Device1_MMXU1_NamPlt_vendor);
  ("IEDMODEL_Device1_MMXU1_NamPlt_swRev", &iedModel_Device1_MMXU1_NamPlt_swRev);
  ("IEDMODEL_Device1_MMXU1_NamPlt_d", &iedModel_Device1_MMXU1_NamPlt_d);
  ("IEDMODEL_Device1_MMXU2", &iedModel_Device1_MMXU2);
  ("IEDMODEL_Device1_MMXU2_Mod", &iedModel_Device1_MMXU2_Mod);
  ("IEDMODEL_Device1_MMXU2_Mod_q", &iedModel_Device1_MMXU2_Mod_q);
  ("IEDMODEL_Device1_MMXU2_Mod_t", &iedModel_Device1_MMXU2_Mod_t);
  ("IEDMODEL_Device1_MMXU2_Mod_ctlModel", &iedModel_Device1_MMXU2_Mod_ctlModel);
  ("IEDMODEL_Device1_MMXU2_Beh", &iedModel_Device1_MMXU2_Beh);
  ("IEDMODEL_Device1_MMXU2_Beh_stVal", &iedModel_Device1_MMXU2_Beh_stVal);
  ("IEDMODEL_Device1_MMXU2_Beh_q", &iedModel_Device1_MMXU2_Beh_q);
  ("IEDMODEL_Device1_MMXU2_Beh_t", &iedModel_Device1_MMXU2_Beh_t);
  ("IEDMODEL_Device1_MMXU2_Health", &iedModel_Device1_MMXU2_Health);
  ("IEDMODEL_Device1_MMXU2_Health_stVal", &iedModel_Device1_MMXU2_Health_stVal);
  ("IEDMODEL_Device1_MMXU2_Health_q", &iedModel_Device1_MMXU2_Health_q);
  ("IEDMODEL_Device1_MMXU2_Health_t", &iedModel_Device1_MMXU2_Health_t);
  ("IEDMODEL_Device1_MMXU2_NamPlt", &iedModel_Device1_MMXU2_NamPlt);
  ("IEDMODEL_Device1_MMXU2_NamPlt_vendor", &iedModel_Device1_MMXU2_NamPlt_vendor);
  ("IEDMODEL_Device1_MMXU2_NamPlt_swRev", &iedModel_Device1_MMXU2_NamPlt_swRev);
  ("IEDMODEL_Device1_MMXU2_NamPlt_d", &iedModel_Device1_MMXU2_NamPlt_d);
  ("IEDMODEL_Device1_MMXU2_TotW", &iedModel_Device1_MMXU2_TotW);
  ("IEDMODEL_Device1_MMXU2_TotW_mag", &iedModel_Device1_MMXU2_TotW_mag);
  ("IEDMODEL_Device1_MMXU2_TotW_mag_f", &iedModel_Device1_MMXU2_TotW_mag_f);
  ("IEDMODEL_Device1_MMXU2_TotW_q", &iedModel_Device1_MMXU2_TotW_q);
  ("IEDMODEL_Device1_MMXU2_TotW_t", &iedModel_Device1_MMXU2_TotW_t)
].

Definition sample_macros : list (string * option addr) :=
  sample_macros1 ++ sample_macros2 ++ sample_macros3 ++ sample_macros4 ++ sample_macros5.
