(* ===== verification/SampleModel.v ===== *)
(** * The simple sample server

    [sample/server_example_simple]: the generated data model of
    [static_model.{c,h}] ([SampleModelData], [SampleModelNames]), one device
    with six logical nodes and a schedule with two arrays of 255 elements, and
    the program [server_example_simple.c] that serves it.  The checks of the
    model are evaluated here; what they imply is in [ModelFacts]. *)

From Stdlib Require Import ZArith Ascii String Lia.
From stdpp Require Import base tactics option list numbers strings gmap sorting.
From S2P Require Import Prelude Text IedModel ModelFacts SampleModelData SampleModelNames.
#[local] Open Scope Z_scope.

(** ** The data model *)

Definition sample_forest_of (h : heap) : option (list tree) :=
  walk (S (length sample_nodes)) h iedModel (ied_firstChild iedModel_root).

Definition sample_forest : list tree := default [] (sample_forest_of sample_heap).
Definition sample_initialized : heap := initializeValues sample_heap.
Definition sample_initialized_forest : list tree := default [] (sample_forest_of sample_initialized).

Definition sample_entry_heap : gmap addr DataSetEntry := list_to_map sample_entries.
Definition sample_ds_heap : gmap addr DataSet := list_to_map sample_dataSets.
Definition sample_rcb_heap : gmap addr ReportControlBlock := list_to_map sample_rcbs.

Lemma sample_walk : sample_forest_of sample_heap = Some sample_forest.
Proof. vm_compute. reflexivity. Qed.

Lemma sample_nodes_NoDup : NoDup sample_nodes.*1.
Proof. apply (bool_decide_unpack _). vm_compute. exact I. Qed.

Lemma sample_unique : forest_unique sample_forest = true.
Proof. vm_compute. reflexivity. Qed.

Lemma sample_macros_are_nodes :
  sample_macros = prod_map macro_name Some <$> flat_map tree_named sample_forest.
Proof. vm_compute. reflexivity. Qed.

Lemma sample_named_addrs : (flat_map tree_named sample_forest).*2 = sample_nodes.*1.
Proof. vm_compute. reflexivity. Qed.

(** The macros by name, for a linear check that none is defined twice. *)
Definition sample_macro_table : gmap string (option addr) := list_to_map sample_macros.

Lemma sample_macros_keep :
  forallb (λ m, bool_decide (sample_macro_table !! m.1 = Some m.2)) sample_macros = true.
Proof. vm_compute. reflexivity. Qed.

(** ** The program *)

(** [atoi]: a number that does not fit is undefined. *)
Definition atoi (s : string) : outcome Z :=
  match strto s with
  | None => Done 0
  | Some (neg, m) =>
      let z := if (neg : bool) then - m else m in
      if (- 2 ^ 31 <=? z) && (z <? 2 ^ 31) then Done z else Undef "atoi: out of range"
  end.

(** The calls on the library, in order. *)
Inductive server_call : Type :=
| IedServer_create (model : IedModel)
| IedServer_start (tcpPort : Z)
| IedServer_stop
| IedServer_destroy.

(** [n] iterations of the loop; the signal handler runs before the iteration
    [sigint], if at all.  Is the loop left? *)
Fixpoint wait_loop (n : nat) (sigint : option nat) : bool :=
  match n, sigint with
  | O, _ => false
  | S _, Some O => true
  | S n', Some (S k) => wait_loop n' (Some k)
  | S n', None => wait_loop n' None
  end.

(** [main]: the calls it makes, and the exit status, [None] when it is still in
    its loop after [n] iterations.  [listen_ok] is the answer of
    [IedServer_isRunning]. *)
Definition main (argv : list string) (listen_ok : Z → bool) (sigint : option nat) (n : nat)
    : outcome (list server_call * option Z) :=
  tcpPort ← match argv with _ :: arg :: _ => atoi arg | _ => Done 102 end;
  let begin := [IedServer_create iedModel_root; IedServer_start tcpPort] in
  if negb (listen_ok tcpPort) then Done (begin ++ [IedServer_destroy], Some (-1))
  else if wait_loop n sigint then Done (begin ++ [IedServer_stop; IedServer_destroy], Some 0)
  else Done (begin, None).

Lemma atoi_dec z : in_s 32 z → atoi (dec z) = Done z.
Proof.
  unfold atoi, in_s. intros Hz. rewrite strto_dec.
  assert ((if z <? 0 then - Z.abs z else Z.abs z) = z) as -> by (destruct (Z.ltb_spec z 0); lia).
  by rewrite (proj2 (Z.leb_le _ _)), (proj2 (Z.ltb_lt _ _)) by lia.
Qed.

(** ** Properties *)

(** The objects of the sample model form one finite tree, each in it once in
    the order of the file, with consistent parent pointers, and it obeys the
    nesting rules; in particular its array attributes have as many unnamed
    elements as they announce, of their type, with the indices in order. *)
Theorem sample_model_is_tree :
  ∃ ts, forest sample_heap iedModel (ied_firstChild iedModel_root) ts ∧
    (∀ ts', forest sample_heap iedModel (ied_firstChild iedModel_root) ts' → ts' = ts) ∧
    flat_map tree_addrs ts = sample_nodes.*1 ∧ NoDup sample_nodes.*1 ∧
    forallb tree_kinds ts = true.
Proof.
  apply (model_is_tree sample_nodes _ _ sample_forest);
    [exact sample_walk|vm_compute; reflexivity|apply sample_nodes_NoDup|vm_compute; reflexivity].
Qed.

(** C26: a reference of the sample model, by names and array indices, leads to
    the node that it names and to no other; the header's macro for it, its
    parts joined with underscores, expands to the address of that node; and
    the header has no other macro and none twice. *)
Theorem sample_references :
  NoDup (forest_paths sample_forest) ∧ length (forest_paths sample_forest) = 641%nat ∧
  (∀ path t, at_path sample_forest path t →
     resolve sample_forest path = Some t ∧
     macro_value sample_macros (macro_name path) = Some (tree_addr t)) ∧
  (∀ m v, (m, v) ∈ sample_macros →
     ∃ path a, (path, a) ∈ flat_map tree_named sample_forest ∧ m = macro_name path ∧ v = Some a) ∧
  NoDup sample_macros.*1.
Proof.
  destruct (model_references _ sample_unique) as [Hnd Hr].
  destruct (model_macros sample_nodes _ _ sample_macro_table sample_macros_are_nodes sample_named_addrs
    sample_nodes_NoDup sample_macros_keep) as (Hm & Hall & Hndm).
  split; [done|]. split; [vm_compute; reflexivity|]. split; [|done].
  intros path t Ht. split; [by apply Hr|by apply Hm].
Qed.

(** The schedule: its values and its times are 255 elements each. *)
Theorem schedule_arrays :
  ∃ tv tt, resolve sample_forest ["Device1"; "DSCH1"; "SchdAbsTm"; "val"]%string = Some tv ∧
    resolve sample_forest ["Device1"; "DSCH1"; "SchdAbsTm"; "time"]%string = Some tt ∧
    array_elements 0 IEC61850_FLOAT32 (tree_children tv) = true ∧
    array_elements 0 IEC61850_TIMESTAMP (tree_children tt) = true ∧
    length (tree_children tv) = 255%nat ∧ length (tree_children tt) = 255%nat.
Proof.
  eexists _, _. split; [vm_compute; reflexivity|]. split; [vm_compute; reflexivity|].
  split_and!; vm_compute; reflexivity.
Qed.

(** The header declares every object of the model, with its type, once. *)
Theorem sample_declared_types :
  sample_externs = (T_IedModel, iedModel) ::
    ((λ p, (type_of_node p.2, p.1)) <$> sample_nodes) ∧
  NoDup sample_externs.*2.
Proof.
  split; [vm_compute; reflexivity|].
  replace sample_externs.*2 with (iedModel :: sample_nodes.*1) by (vm_compute; reflexivity).
  constructor; [|apply sample_nodes_NoDup].
  apply (bool_decide_unpack _). vm_compute. exact I.
Qed.

(** The report of the sample model works on existing attributes: the data
    set holds the three entries it announces, each an attribute of the device
    with the functional constraint that it states, and the one report control
    block, on LLN0, names that data set. *)
Theorem sample_report_resolves :
  ∃ ds entries r n, chain ds_sibling sample_ds_heap 2 (dataSets iedModel_root) = Some [ds] ∧
    chain entry_sibling sample_entry_heap 4 (fcdas ds) = Some entries ∧
    Z.of_nat (length entries) = ds_elementCount ds ∧
    Forall (λ e, entry_logicalDeviceName e = ds_logicalDeviceName ds ∧
                 is_Some (entry_target sample_forest e)) entries ∧
    chain rcb_sibling sample_rcb_heap 2 (rcbs iedModel_root) = Some [r] ∧
    sample_heap !! rcb_parent r = Some n ∧
    ds_name ds = (node_name n ++ "$" ++ dataSetName r)%string.
Proof.
  eexists _, _, _, _. split; [vm_compute; reflexivity|]. split; [vm_compute; reflexivity|].
  split; [vm_compute; reflexivity|]. split.
  { repeat (apply Forall_cons; split; [split; [reflexivity|vm_compute; eexists; reflexivity]|]).
    apply Forall_nil. exact I. }
  split; [vm_compute; reflexivity|]. split; vm_compute; reflexivity.
Qed.

(** Nothing of the sample model can be controlled: no data object has an Oper
    attribute, and the initialiser, which writes each of its five attributes
    once and nothing else, makes every control model status-only (0). *)
Theorem sample_status_only :
  controls sample_forest = [] ∧
  forallb (assigned sample_heap) initial_values = true ∧
  (∀ a v, (a, v) ∈ initial_values → v = MmsValue_newIntegerFromInt32 0 ∧
     sample_initialized !! a = set_mmsValue v <$> sample_heap !! a) ∧
  (∀ a, a ∉ initial_values.*1 → sample_initialized !! a = sample_heap !! a).
Proof.
  split; [vm_compute; reflexivity|]. split; [vm_compute; reflexivity|].
  destruct (initialized_lookup sample_heap initial_values) as [Hin Hout].
  { apply (bool_decide_unpack _). vm_compute. exact I. }
  split; [|exact Hout]. intros a v Hav. split; [|by apply Hin].
  repeat (apply elem_of_cons in Hav as [[= -> ->]|Hav]; [done|]). by apply elem_of_nil in Hav.
Qed.

(** The program serves its model on the port of its argument (102 without
    one) until SIGINT, and then stops and destroys the server; when it cannot
    listen it destroys the server and exits with -1. *)
Theorem simple_server_runs name args port listen_ok sigint n :
  (args = [] ∧ port = 102 ∨ args = [dec port] ∧ in_s 32 port) →
  main (name :: args) listen_ok sigint n = Done
    (if listen_ok port then
       match sigint with
       | Some k =>
           if (k <? n)%nat
           then ([IedServer_create iedModel_root; IedServer_start port; IedServer_stop; IedServer_destroy], Some 0)
           else ([IedServer_create iedModel_root; IedServer_start port], None)
       | None => ([IedServer_create iedModel_root; IedServer_start port], None)
       end
     else ([IedServer_create iedModel_root; IedServer_start port; IedServer_destroy], Some (-1))).
Proof.
  intros Hargs.
  assert (match name :: args with _ :: arg :: _ => atoi arg | _ => Done 102 end = Done port) as Hport.
  { destruct Hargs as [[-> ->]|[-> Hp]]; [done|by apply atoi_dec]. }
  assert (wait_loop n sigint = match sigint with Some k => (k <? n)%nat | None => false end) as Hloop.
  { clear. revert sigint. induction n as [|n IH]; intros [k|]; simpl; try done.
    - destruct k as [|k]; [done|]. by rewrite IH.
    - by rewrite IH. }
  unfold main. rewrite Hport, Hloop. simpl. destruct (listen_ok port); [|done]. simpl.
  destruct sigint as [k|]; [|done]. by destruct (k <? n)%nat.
Qed.

Lemma simple_server_runs_witness :
  main ["server"; "10102"]%string (λ _, true) (Some 3%nat) 5 =
    Done ([IedServer_create iedModel_root; IedServer_start 10102; IedServer_stop; IedServer_destroy], Some 0).
Proof.
  refine (simple_server_runs "server" ["10102"]%string 10102 (λ _, true) (Some 3%nat) 5 _).
  right. split; [reflexivity|]. unfold in_s. lia.
Defined.
