(* ===== verification/Iec104Server.v ===== *)
(** * The IEC 60870-5-104 server

    [IEC104Server] of [core/iec104/iec104Service.{h,cc}]: the table of data
    points, the periodic transmission, the answers to interrogation, clock
    and single commands, and the start and stop of the slave with its thread.
    lib60870 is the class [Cs101]: whether an information object still fits
    an ASDU is the library's decision, of which only what its header states
    is assumed.  What the server sends is kept as a list, in order. *)

From Stdlib Require Import ZArith String Lia.
From stdpp Require Import base tactics option list numbers strings gmap sorting.
From S2P Require Import Prelude.

Inductive DataPointType : Type := MEASURED_VALUE_SCALED | SINGLE_POINT.

#[export] Instance DataPointType_eq_dec : EqDecision DataPointType.
Proof. solve_decision. Defined.

(** The union of a data point: the member written last. *)
Inductive point_value : Type :=
| scaledValue (z : Z)             (* int16_t *)
| singlePointValue (b : bool).

Record DataPoint := {
  ioa : Z;
  type : DataPointType;
  value : point_value;
  quality : Z;
  timestamp : Z
}.

Record ServerConfig := {
  localAddress : string;
  port : Z;
  maxConnections : Z;
  maxQueueSize : Z
}.

Definition CS101_COT_PERIODIC : Z := 1.
Definition CS101_COT_ACTIVATION : Z := 6.
Definition CS101_COT_ACTIVATION_CON : Z := 7.
Definition CS101_COT_INTERROGATED_BY_STATION : Z := 20.
Definition CS101_COT_UNKNOWN_COT : Z := 45.
Definition CS101_COT_UNKNOWN_IOA : Z := 47.
Definition C_SC_NA_1 : Z := 45.
Definition IEC60870_QUALITY_GOOD : Z := 0.

(** ** lib60870 *)

Inductive InformationObject : Type :=
| MeasuredValueScaled (ioa value quality : Z)
| SinglePointInformation (ioa : Z) (value : bool) (quality : Z).

Definition io_type (io : InformationObject) : DataPointType :=
  match io with MeasuredValueScaled _ _ _ => MEASURED_VALUE_SCALED | _ => SINGLE_POINT end.
Definition io_address (io : InformationObject) : Z :=
  match io with MeasuredValueScaled a _ _ | SinglePointInformation a _ _ => a end.

Record CS101_ASDU := {
  asdu_cot : Z;
  asdu_oa : Z;
  asdu_ca : Z;
  asdu_objects : list InformationObject
}.

Class Cs101 : Type := {
  (** [CS101_ASDU_create] finds memory. *)
  asdu_memory : bool;
  (** The answer of [CS101_ASDU_addInformationObject]. *)
  asdu_accepts : CS101_ASDU → InformationObject → bool;
  asdu_capacity : DataPointType → nat;
  (** The TCP port of a slave whose port is not set. *)
  default_port : Z
}.

(** "Only information objects of the exact same type can be added to a single
    ASDU": others are refused; those of the right type while there is space
    are added. *)
Class Cs101Ok `{Cs101} : Prop := {
  asdu_same_type a io io' :
    asdu_accepts a io = true → head (asdu_objects a) = Some io' → io_type io = io_type io';
  asdu_has_space a io :
    Forall (λ o, io_type o = io_type io) (asdu_objects a) →
    (length (asdu_objects a) < asdu_capacity (io_type io))%nat → asdu_accepts a io = true
}.

(** ** The server object *)

(** A connection of a master. *)
Definition connection := nat.

(** What leaves the server; [None] is the queue of the slave. *)
Inductive sent : Type :=
| SentASDU (to_ : option connection) (a : CS101_ASDU)
| SentACT_CON (to_ : connection) (negative : bool)
| SentACT_TERM (to_ : connection)
| SentReply (to_ : connection) (cot : Z).

(** The periodic thread object: whether its memory is still allocated. *)
Record IEC104Server := {
  config_ : ServerConfig;
  slave_port : Z;
  listening : bool;
  dataPoints_ : gmap Z DataPoint;
  running_ : bool;
  periodicIntervalMs_ : Z;
  periodicThread_ : option bool;
  out : list sent
}.

Section Server.
Context `{Cs101}.

Definition IEC104Server_new (config : ServerConfig) : IEC104Server :=
  {| config_ := config; slave_port := default_port; listening := false; dataPoints_ := ∅;
     running_ := false; periodicIntervalMs_ := 1000; periodicThread_ := None; out := [] |}.

Definition set_points (m : gmap Z DataPoint) (s : IEC104Server) : IEC104Server :=
  {| config_ := config_ s; slave_port := slave_port s; listening := listening s; dataPoints_ := m;
     running_ := running_ s; periodicIntervalMs_ := periodicIntervalMs_ s;
     periodicThread_ := periodicThread_ s; out := out s |}.
Definition send (o : sent) (s : IEC104Server) : IEC104Server :=
  {| config_ := config_ s; slave_port := slave_port s; listening := listening s;
     dataPoints_ := dataPoints_ s; running_ := running_ s;
     periodicIntervalMs_ := periodicIntervalMs_ s; periodicThread_ := periodicThread_ s;
     out := out s ++ [o] |}.
Definition set_life (l r : bool) (t : option bool) (s : IEC104Server) : IEC104Server :=
  {| config_ := config_ s; slave_port := slave_port s; listening := l;
     dataPoints_ := dataPoints_ s; running_ := r;
     periodicIntervalMs_ := periodicIntervalMs_ s; periodicThread_ := t; out := out s |}.

Definition setPeriodicSendInterval (intervalMs : Z) (s : IEC104Server) : IEC104Server :=
  {| config_ := config_ s; slave_port := slave_port s; listening := listening s;
     dataPoints_ := dataPoints_ s; running_ := running_ s; periodicIntervalMs_ := intervalMs;
     periodicThread_ := periodicThread_ s; out := out s |}.

(** The two overloads of [addDataPoint]; [now] is [Hal_getTimeInMs()]. *)
Definition addDataPoint (now a : Z) (t : DataPointType) (v : point_value) (q : Z)
    : prog IEC104Server unit :=
  modifyS (λ s, set_points
    (<[a := {| ioa := a; type := t; value := v; quality := q; timestamp := now |}]> (dataPoints_ s)) s).

Definition value_type (v : point_value) : DataPointType :=
  match v with scaledValue _ => MEASURED_VALUE_SCALED | singlePointValue _ => SINGLE_POINT end.

Definition set_value (now : Z) (v : point_value) (dp : DataPoint) : DataPoint :=
  {| ioa := ioa dp; type := type dp; value := v; quality := quality dp; timestamp := now |}.

(** The two overloads of [updateDataPoint]: a point of the other type, or no
    point, is left alone. *)
Definition updateDataPoint (now a : Z) (v : point_value) : prog IEC104Server unit :=
  modifyS (λ s,
    match dataPoints_ s !! a with
    | Some dp =>
        if decide (type dp = value_type v) then set_points (<[a := set_value now v dp]> (dataPoints_ s)) s
        else s
    | None => s
    end).

(** The information object of a point: the member of the union named by the
    type is read. *)
Definition make_io (dp : DataPoint) : outcome InformationObject :=
  match type dp, value dp with
  | MEASURED_VALUE_SCALED, scaledValue z => Done (MeasuredValueScaled (ioa dp) z (quality dp))
  | SINGLE_POINT, singlePointValue b => Done (SinglePointInformation (ioa dp) b (quality dp))
  | _, _ => Undef "inactive union member"
  end.

(** [CS101_ASDU_addInformationObject], its result ignored. *)
Definition asdu_add (a : CS101_ASDU) (io : InformationObject) : CS101_ASDU :=
  if asdu_accepts a io then
    {| asdu_cot := asdu_cot a; asdu_oa := asdu_oa a; asdu_ca := asdu_ca a;
       asdu_objects := asdu_objects a ++ [io] |}
  else a.

Definition sendDataPoints (con : option connection) (points : list DataPoint) (cot : Z)
    : prog IEC104Server unit :=
  match points with
  | [] => mret tt
  | _ =>
      if asdu_memory then
        ios ← liftO (mapO make_io points);
        modifyS (send (SentASDU con (foldl asdu_add
          {| asdu_cot := cot; asdu_oa := 0; asdu_ca := 1; asdu_objects := [] |} ios)))
      else mret tt
  end.

(** The points in the order of the [std::map]. *)
Definition all_points (s : IEC104Server) : list DataPoint := (std_map_items (dataPoints_ s)).*2.

(** One iteration of [periodicSendTask]; [false] when the loop is left. *)
Definition periodicSendTask_iter : prog IEC104Server bool :=
  s ← getS;
  if running_ s then sendDataPoints None (all_points s) CS101_COT_PERIODIC;; mret true
  else mret false.

Definition interrogationHandler (con : connection) (qoi : Z) : prog IEC104Server bool :=
  if (qoi =? 20)%Z then
    modifyS (send (SentACT_CON con false));;
    s ← getS;
    sendDataPoints (Some con) (all_points s) CS101_COT_INTERROGATED_BY_STATION;;
    modifyS (send (SentACT_TERM con));;
    mret true
  else modifyS (send (SentACT_CON con true));; mret true.

(** A received ASDU: its type, its cause and its first element, when it
    decodes (the address and the state of the single command). *)
Record received := {
  rx_type : Z;
  rx_cot : Z;
  rx_element : option (Z * bool)
}.

(** [true]: the ASDU has been handled. *)
Definition asduHandler (now : Z) (con : connection) (asdu : received) : prog IEC104Server bool :=
  if (rx_type asdu =? C_SC_NA_1)%Z then
    cot ← (if (rx_cot asdu =? CS101_COT_ACTIVATION)%Z then
             match rx_element asdu with
             | Some (a, state) =>
                 updateDataPoint now a (singlePointValue state);; mret CS101_COT_ACTIVATION_CON
             | None => mret CS101_COT_UNKNOWN_IOA
             end
           else mret CS101_COT_UNKNOWN_COT);
    modifyS (send (SentReply con cot));;
    mret true
  else mret false.

(** The handler overwrites the received time with the server's own. *)
Definition clockSyncHandler (now newTime : Z) : bool * Z := (true, now).

Definition connectionRequestHandler (ipAddress : string) : bool := true.

(** [slave_ok]: [CS104_Slave_isRunning] after the start; [thread_ok]:
    [Thread_create] returns a thread. *)
Definition start (slave_ok thread_ok : bool) : prog IEC104Server bool :=
  s ← getS;
  if running_ s then mret false
  else if negb slave_ok then mret false
  else if negb thread_ok then modifyS (set_life false false None);; mret false
  else modifyS (set_life true true (Some true));; mret true.

(** [stop] up to and including [running_ = false]: is there more to do? *)
Definition stop_begin : prog IEC104Server bool :=
  s ← getS;
  if running_ s then modifyS (set_life (listening s) false (periodicThread_ s));; mret true
  else mret false.

(** The rest of [stop]: destroy the thread object, stop the slave. *)
Definition stop_end : prog IEC104Server unit :=
  s ← getS;
  match periodicThread_ s with
  | Some false => undefS "thread destroyed twice"
  | _ => modifyS (set_life false (running_ s) None)
  end.

(** The thread function returns (it does so when it sees [running_ = false]);
    the thread was created with [autodestroy], so its object goes with it. *)
Definition thread_exit : prog IEC104Server unit :=
  modifyS (λ s, if running_ s then s
                else set_life (listening s) false (option_map (λ _, false) (periodicThread_ s)) s).

(** [ends]: the thread comes to its end after [running_] is cleared and before
    [Thread_destroy]. *)
Definition stop (ends : bool) : prog IEC104Server unit :=
  more ← stop_begin;
  if (more : bool) then (if ends then thread_exit else mret tt);; stop_end
  else mret tt.

(** The destructor: it stops the server, and the slave is gone. *)
Definition server_delete (ends : bool) : prog IEC104Server unit :=
  stop ends;;
  modifyS (λ s, set_life false (running_ s) (periodicThread_ s) s).

(** *** The test program *)

Definition test_config : ServerConfig :=
  {| localAddress := "0.0.0.0"; port := 2404; maxConnections := 5; maxQueueSize := 5 |}.

Definition test_points (now : Z) : prog IEC104Server unit :=
  modifyS (setPeriodicSendInterval 2000);;
  addDataPoint now 100 MEASURED_VALUE_SCALED (scaledValue 1000) IEC60870_QUALITY_GOOD;;
  addDataPoint now 101 MEASURED_VALUE_SCALED (scaledValue 2000) IEC60870_QUALITY_GOOD;;
  addDataPoint now 200 SINGLE_POINT (singlePointValue true) IEC60870_QUALITY_GOOD;;
  addDataPoint now 201 SINGLE_POINT (singlePointValue false) IEC60870_QUALITY_GOOD.

(** One iteration of the update loop, from and to the [int16_t] counter. *)
Definition test_iter (now v : Z) : prog IEC104Server Z :=
  updateDataPoint now 100 (scaledValue v);;
  let v' := wrap_s 16 (v + 1) in
  updateDataPoint now 101 (scaledValue (wrap_s 16 (v' + 1000)));;
  updateDataPoint now 200 (singlePointValue (Z.rem v' 2 =? 0)%Z);;
  mret v'.

Fixpoint test_loop (n : nat) (now v : Z) : prog IEC104Server Z :=
  match n with
  | O => mret v
  | S n' => v' ← test_iter now v; test_loop n' now v'
  end.

(** [server104Test] until the loop has run [n] times and the program is
    interrupted: the exit code. *)
Definition server104Test (slave_ok thread_ok ends : bool) (n : nat) (now : Z) : prog IEC104Server Z :=
  test_points now;;
  ok ← start slave_ok thread_ok;
  if negb ok then server_delete ends;; mret 1%Z
  else _ ← test_loop n now 1000; stop ends;; server_delete ends;; mret 0%Z.
End Server.

(** ** Invariant *)

(** A point is stored under its address, with the member its type names. *)
Definition point_ok (a : Z) (dp : DataPoint) : Prop :=
  ioa dp = a ∧ value_type (value dp) = type dp.

Definition server_ok (s : IEC104Server) : Prop := map_Forall point_ok (dataPoints_ s).

(** The information object of a well-formed point. *)
Definition io_of (dp : DataPoint) : InformationObject :=
  match value dp with
  | scaledValue z => MeasuredValueScaled (ioa dp) z (quality dp)
  | singlePointValue b => SinglePointInformation (ioa dp) b (quality dp)
  end.

(** The ASDU that carries the whole table. *)
Definition table_asdu `{Cs101} (s : IEC104Server) (cot : Z) : CS101_ASDU :=
  foldl asdu_add {| asdu_cot := cot; asdu_oa := 0; asdu_ca := 1; asdu_objects := [] |}
    (io_of <$> all_points s).

Section ServerLemmas.
Context `{Cs101}.

Lemma all_points_spec s dp :
  dp ∈ all_points s ↔ ∃ a, dataPoints_ s !! a = Some dp.
Proof.
  unfold all_points. rewrite list_elem_of_fmap. split.
  - intros ([a dp'] & -> & Hin). exists a. by apply elem_of_std_map_items.
  - intros [a Ha]. exists (a, dp). split; [done|]. by apply elem_of_std_map_items.
Qed.

Lemma make_io_ok dp : value_type (value dp) = type dp → make_io dp = Done (io_of dp).
Proof. unfold make_io, io_of. destruct (type dp), (value dp); simpl; congruence. Qed.

Lemma io_of_type a dp : point_ok a dp → io_type (io_of dp) = type dp ∧ io_address (io_of dp) = a.
Proof. intros [<- <-]. unfold io_of. by destruct (value dp). Qed.

Lemma mapO_make_io s : server_ok s → mapO make_io (all_points s) = Done (io_of <$> all_points s).
Proof.
  intros Hs. assert (Forall (λ dp, value_type (value dp) = type dp) (all_points s)) as Hall.
  { apply Forall_forall. intros dp (a & Ha)%all_points_spec. by apply (Hs a dp). }
  induction Hall as [|dp l Hdp _ IH]; simpl; [done|]. by rewrite make_io_ok, IH.
Qed.

Lemma sendDataPoints_ok s con cot :
  server_ok s → asdu_memory = true → dataPoints_ s ≠ ∅ →
  sendDataPoints con (all_points s) cot s = (Done tt, send (SentASDU con (table_asdu s cot)) s).
Proof.
  intros Hs Hmem Hne. unfold sendDataPoints.
  destruct (all_points s) as [|dp l] eqn:Hl.
  { unfold all_points in Hl. apply fmap_nil_inv, std_map_items_nil in Hl. done. }
  rewrite Hmem, <- Hl, mapO_make_io by done. done.
Qed.

(** On any well-formed table the call returns, having sent at most one ASDU. *)
Lemma total_sendDataPoints con cot s :
  server_ok s → ∃ s', sendDataPoints con (all_points s) cot s = (Done tt, s') ∧
    (s' = s ∨ ∃ o, s' = send o s).
Proof.
  intros Hs. unfold sendDataPoints. destruct (all_points s) as [|dp l] eqn:Hl; [eauto|].
  destruct asdu_memory; [|eauto]. rewrite <- Hl, mapO_make_io by done. eauto.
Qed.

Lemma server_ok_insert a dp s : server_ok s → point_ok a dp →
  server_ok (set_points (<[a := dp]> (dataPoints_ s)) s).
Proof. intros Hs Hdp. by apply map_Forall_insert_2. Qed.

Lemma updateDataPoint_ok now a v s : server_ok s →
  ∃ m, updateDataPoint now a v s = (Done tt, set_points m s) ∧ map_Forall point_ok m.
Proof.
  intros Hs. unfold updateDataPoint, modifyS.
  assert (s = set_points (dataPoints_ s) s) as Hid by (by destruct s).
  destruct (dataPoints_ s !! a) as [dp|] eqn:Ha; [|exists (dataPoints_ s); by rewrite <- Hid].
  case_decide as Ht; [|exists (dataPoints_ s); by rewrite <- Hid]. eexists. split; [done|].
  apply map_Forall_insert_2; [|done]. destruct (Hs a dp Ha) as [? ?]. by split.
Qed.

(** Filling an ASDU: its objects come from the list, in order. *)
Lemma asdu_fill_incl ios a io :
  io ∈ asdu_objects (foldl asdu_add a ios) → io ∈ asdu_objects a ∨ io ∈ ios.
Proof.
  revert a. induction ios as [|x ios IH]; intros a Hin; simpl in *; [by left|].
  apply IH in Hin as [Hin|Hin]; [|right; by right]. unfold asdu_add in Hin.
  destruct (asdu_accepts a x); [|by left]. simpl in Hin. set_solver.
Qed.

(** Once the ASDU has a first object, only objects of its type are added. *)
Lemma asdu_fill_type `{!Cs101Ok} ios a io0 :
  head (asdu_objects a) = Some io0 → Forall (λ o, io_type o = io_type io0) (asdu_objects a) →
  Forall (λ o, io_type o = io_type io0) (asdu_objects (foldl asdu_add a ios)).
Proof.
  revert a. induction ios as [|x ios IH]; intros a Hh Hall; simpl; [done|].
  unfold asdu_add at 2. destruct (asdu_accepts a x) eqn:Hacc; [|by apply IH].
  apply IH; simpl.
  - destruct (asdu_objects a); [done|]. done.
  - apply Forall_app. split; [done|]. apply Forall_singleton. by eapply asdu_same_type.
Qed.

(** Whatever the ASDU takes, its objects have one type. *)
Lemma asdu_fill_uniform `{!Cs101Ok} ios a :
  (∀ io io', io ∈ asdu_objects a → io' ∈ asdu_objects a → io_type io = io_type io') →
  ∀ io io', io ∈ asdu_objects (foldl asdu_add a ios) → io' ∈ asdu_objects (foldl asdu_add a ios) →
    io_type io = io_type io'.
Proof.
  revert a. induction ios as [|x ios IH]; intros a Ha; simpl; [done|]. apply IH.
  unfold asdu_add. destruct (asdu_accepts a x) eqn:Hacc; [|done]. simpl.
  pose proof (λ y, asdu_same_type a x y Hacc) as Hx.
  assert (∀ y, y ∈ asdu_objects a → io_type y = io_type x) as Hold.
  { intros y Hy. destruct (asdu_objects a) as [|z l]; [by apply elem_of_nil in Hy|].
    rewrite (Hx z eq_refl). apply Ha; [done|by left]. }
  intros y y'. rewrite !elem_of_app, !list_elem_of_singleton.
  intros [Hy| ->] [Hy'| ->]; [by apply Ha|by apply Hold|symmetry; by apply Hold|done].
Qed.

(** Objects of one type that fit are all there. *)
Lemma asdu_fill_all `{!Cs101Ok} ios a T :
  Forall (λ o, io_type o = T) (asdu_objects a) → Forall (λ o, io_type o = T) ios →
  (length (asdu_objects a) + length ios ≤ asdu_capacity T)%nat →
  asdu_objects (foldl asdu_add a ios) = asdu_objects a ++ ios.
Proof.
  revert a. induction ios as [|x ios IH]; intros a Ha Hios Hlen; simpl in *.
  { by rewrite app_nil_r. }
  apply Forall_cons in Hios as [Hx Hios]. unfold asdu_add at 2.
  rewrite asdu_has_space; [|by rewrite Hx|rewrite Hx; lia].
  rewrite IH; simpl.
  - by rewrite <- app_assoc.
  - apply Forall_app. split; [done|]. by apply Forall_singleton.
  - done.
  - rewrite length_app. simpl. lia.
Qed.

(** An ASDU keeps its header, and takes a selection of the objects in order. *)
Lemma asdu_fill_sublist ios a :
  (∃ l, asdu_objects (foldl asdu_add a ios) = asdu_objects a ++ l ∧ l `sublist_of` ios) ∧
  asdu_cot (foldl asdu_add a ios) = asdu_cot a ∧ asdu_oa (foldl asdu_add a ios) = asdu_oa a ∧
  asdu_ca (foldl asdu_add a ios) = asdu_ca a.
Proof.
  revert a. induction ios as [|io ios IH]; intros a; simpl.
  { split; [|done]. exists []. by rewrite app_nil_r. }
  destruct (IH (asdu_add a io)) as ((l & Hl & Hsub) & Hc & Ho & Hca). rewrite Hc, Ho, Hca, Hl.
  unfold asdu_add. destruct (asdu_accepts a io); simpl.
  - split; [|done]. exists (io :: l). rewrite <- app_assoc. split; [done|by apply sublist_skip].
  - split; [|done]. exists l. split; [done|by apply sublist_cons].
Qed.

Lemma table_asdu_sublist s cot : asdu_objects (table_asdu s cot) `sublist_of` io_of <$> all_points s.
Proof.
  unfold table_asdu. destruct (asdu_fill_sublist (io_of <$> all_points s)
    {| asdu_cot := cot; asdu_oa := 0; asdu_ca := 1; asdu_objects := [] |}) as ((l & -> & Hsub) & _).
  exact Hsub.
Qed.

Lemma table_addresses s : server_ok s →
  io_address <$> (io_of <$> all_points s) = (std_map_items (dataPoints_ s)).*1.
Proof.
  intros Hs. unfold all_points. rewrite <- !list_fmap_compose. apply list_fmap_ext.
  intros i [a dp] Hi. simpl. apply (io_of_type a dp), Hs, elem_of_std_map_items.
  by eapply list_elem_of_lookup_2.
Qed.

(** There is always room for the first point. *)
Lemma table_asdu_first `{!Cs101Ok} s cot dp rest :
  server_ok s → all_points s = dp :: rest → (0 < asdu_capacity (type dp))%nat →
  io_of dp ∈ asdu_objects (table_asdu s cot).
Proof.
  intros Hs Hpts Hcap. unfold table_asdu. rewrite Hpts.
  assert (dp ∈ all_points s) as (a & Ha)%all_points_spec by (rewrite Hpts; left).
  destruct (io_of_type a dp) as [Hty _]; [by apply Hs|].
  cbn [fmap list_fmap foldl]. unfold asdu_add at 2.
  rewrite asdu_has_space; [|done|simpl; by rewrite Hty]. simpl.
  destruct (asdu_fill_sublist (io_of <$> rest)
    {| asdu_cot := cot; asdu_oa := 0; asdu_ca := 1; asdu_objects := [io_of dp] |}) as ((l & -> & _) & _).
  by left.
Qed.

(** Points of one type that fit are all in the ASDU. *)
Lemma table_asdu_all `{!Cs101Ok} s T cot :
  server_ok s → map_Forall (λ _ dp, type dp = T) (dataPoints_ s) →
  (size (dataPoints_ s) ≤ asdu_capacity T)%nat →
  asdu_objects (table_asdu s cot) = io_of <$> all_points s.
Proof.
  intros Hs Hall Hcap. unfold table_asdu. rewrite (asdu_fill_all _ _ T); [done|done| |].
  - apply Forall_fmap, Forall_forall. intros dp (a & Ha)%all_points_spec. simpl.
    destruct (io_of_type a dp) as [-> _]; [by apply Hs|]. by apply (Hall a).
  - simpl. rewrite length_fmap. unfold all_points. rewrite length_fmap.
    rewrite (Permutation_length (std_map_items_Permutation _)), length_map_to_list. done.
Qed.

(** The type of the first point decides for the whole ASDU. *)
Lemma table_asdu_type `{!Cs101Ok} s cot dp0 rest io :
  server_ok s → all_points s = dp0 :: rest → (0 < asdu_capacity (type dp0))%nat →
  io ∈ asdu_objects (table_asdu s cot) → io_type io = type dp0.
Proof.
  intros Hs Hpts Hcap. unfold table_asdu. rewrite Hpts.
  assert (dp0 ∈ all_points s) as (a & Ha)%all_points_spec by (rewrite Hpts; left).
  destruct (io_of_type a dp0) as [Hty _]; [by apply Hs|].
  cbn [fmap list_fmap foldl]. unfold asdu_add at 2.
  rewrite asdu_has_space; [|done|simpl; by rewrite Hty]. simpl. intros Hin.
  eapply (Forall_forall (λ o, io_type o = type dp0)); [|exact Hin].
  rewrite <- Hty. apply asdu_fill_type; [done|]. by apply Forall_singleton.
Qed.
End ServerLemmas.

(** A station interrogation of a table that is not empty. *)
Lemma interrogation_station `{Cs101} s con :
  server_ok s → asdu_memory = true → dataPoints_ s ≠ ∅ →
  interrogationHandler con 20 s =
    (Done true, send (SentACT_TERM con)
       (send (SentASDU (Some con) (table_asdu s CS101_COT_INTERROGATED_BY_STATION))
          (send (SentACT_CON con false) s))).
Proof.
  intros Hs Hmem Hne.
  pose proof (sendDataPoints_ok (send (SentACT_CON con false) s) (Some con)
    CS101_COT_INTERROGATED_BY_STATION Hs Hmem Hne) as Hsend.
  unfold interrogationHandler. rewrite Z.eqb_refl. unfold mbind, prog_bind, modifyS, getS.
  by rewrite Hsend.
Qed.

(** ** Properties *)

(** A value of the member that the type names. *)
Definition value_ok (t : DataPointType) (v : point_value) : bool := bool_decide (value_type v = t).

(** The calls and callbacks of a server; additions name the right member. *)
Inductive server_event : Type :=
| EvAdd (now a : Z) (t : DataPointType) (v : point_value) (q : Z) (Hv : value_ok t v = true)
| EvUpdate (now a : Z) (v : point_value)
| EvInterrogation (con : connection) (qoi : Z)
| EvCommand (now : Z) (con : connection) (asdu : received)
| EvPeriodic
| EvStart (slave_ok thread_ok : bool)
| EvStop (ends : bool).

Definition server_handle `{Cs101} (ev : server_event) : prog IEC104Server unit :=
  match ev with
  | EvAdd now a t v q _ => addDataPoint now a t v q
  | EvUpdate now a v => updateDataPoint now a v
  | EvInterrogation con qoi => _ ← interrogationHandler con qoi; mret tt
  | EvCommand now con asdu => _ ← asduHandler now con asdu; mret tt
  | EvPeriodic => _ ← periodicSendTask_iter; mret tt
  | EvStart ok1 ok2 => _ ← start ok1 ok2; mret tt
  | EvStop ends => stop ends
  end.

(** The thread object has not been destroyed behind the server's back. *)
Definition thread_ok (s : IEC104Server) : Prop := periodicThread_ s ≠ Some false.

Lemma total_server_handle `{Cs101} ev :
  ev ≠ EvStop true → total_on (λ s, server_ok s ∧ thread_ok s) (server_handle ev).
Proof.
  intros Hev. destruct ev as [now a t v q Hv|now a v|con qoi|now con asdu| |slave_ok thread_ok0|[]];
    [clear Hev..|done|clear Hev]; cbn [server_handle].
  - apply total_modifyS. intros s [Hs Ht]. split; [|done]. apply server_ok_insert; [done|].
    split; [done|]. unfold value_ok in Hv. by gw_bool.
  - intros s [Hs Ht]. destruct (updateDataPoint_ok now a v s Hs) as (m & Hrun & Hm).
    exists tt, (set_points m s). split; [exact Hrun|by split].
  - intros s [Hs Ht]. unfold interrogationHandler, mbind, prog_bind, modifyS, getS.
    destruct (qoi =? 20)%Z; [|by eexists _, _].
    destruct (total_sendDataPoints (Some con) CS101_COT_INTERROGATED_BY_STATION
      (send (SentACT_CON con false) s) Hs) as (s' & Hrun & Hs').
    rewrite Hrun. eexists _, _. split; [done|]. by destruct Hs' as [->|[o ->]].
  - intros s [Hs Ht]. unfold asduHandler, mbind, prog_bind.
    destruct (rx_type asdu =? _)%Z; [|by eexists _, _].
    destruct (rx_cot asdu =? _)%Z; [|by eexists _, _].
    destruct (rx_element asdu) as [[a st]|]; [|by eexists _, _].
    destruct (updateDataPoint_ok now a (singlePointValue st) s Hs) as (m & Hrun & Hm).
    unfold mbind, prog_bind. rewrite Hrun. eexists _, _. split; [done|]. by split.
  - intros s [Hs Ht]. unfold periodicSendTask_iter, mbind, prog_bind, getS.
    destruct (running_ s); [|by eexists _, _].
    destruct (total_sendDataPoints None CS101_COT_PERIODIC s Hs) as (s' & Hrun & Hs').
    rewrite Hrun. eexists _, _. split; [done|]. by destruct Hs' as [->|[o ->]].
  - intros s [Hs Ht]. unfold start, mbind, prog_bind, getS.
    destruct (running_ s), slave_ok, thread_ok0; by eexists _, _.
  - intros s [Hs Ht]. unfold stop, stop_begin, stop_end, mbind, prog_bind, getS.
    destruct (running_ s); [|by eexists _, _]. unfold thread_ok in Ht. simpl.
    destruct (periodicThread_ s) as [[]|]; [by eexists _, _|done|by eexists _, _].
Qed.

(** Whatever sequence of additions, updates, interrogations, commands,
    periodic transmissions, starts and stops a server sees, none of these
    during which its sending thread ends, no call has undefined behaviour (the
    union is only read through the member its type names), none throws, and every
    point stays under its own address with the member its type names. *)
Theorem server_trace_ok `{Cs101} config evs :
  EvStop true ∉ evs →
  ∃ s, iterS evs server_handle (IEC104Server_new config) = (Done tt, s) ∧ server_ok s.
Proof.
  intros Hevs. destruct (total_iterS (λ s, server_ok s ∧ thread_ok s) evs server_handle)
    with (s := IEC104Server_new config) as ([] & s & Hrun & Hs & _); [|done|by exists s].
  intros ev Hin. apply total_server_handle. by intros ->.
Qed.

(** A station interrogation is confirmed, answered with one ASDU of cause
    20 when there are points, and terminated, in this order; any other
    qualifier gets a negative confirmation and nothing else.  The table does
    not change. *)
Theorem interrogation_sequence `{Cs101} s con qoi :
  server_ok s → asdu_memory = true →
  ∃ s', interrogationHandler con qoi s = (Done true, s') ∧ dataPoints_ s' = dataPoints_ s ∧
    out s' = out s ++
      (if (qoi =? 20)%Z then
         [SentACT_CON con false] ++
         (if decide (dataPoints_ s = ∅) then []
          else [SentASDU (Some con) (table_asdu s CS101_COT_INTERROGATED_BY_STATION)]) ++
         [SentACT_TERM con]
       else [SentACT_CON con true]).
Proof.
  intros Hs Hmem. destruct (Z.eqb_spec qoi 20) as [->|Hq].
  - case_decide as Hemp.
    + assert (all_points (send (SentACT_CON con false) s) = []) as Hnil.
      { unfold all_points. simpl. rewrite Hemp. done. }
      unfold interrogationHandler. rewrite Z.eqb_refl.
      unfold mbind, prog_bind, modifyS, getS. rewrite Hnil.
      eexists. split; [done|]. split; [done|]. simpl. by rewrite <- app_assoc.
    + rewrite interrogation_station by done. eexists. split; [done|]. split; [done|]. simpl.
      by rewrite <- !app_assoc.
  - unfold interrogationHandler. rewrite (proj2 (Z.eqb_neq qoi 20) Hq). by eexists.
Qed.

(** When all points have the same type and fit one ASDU, the answer to an
    interrogation (and the periodic message) carries every point of the table
    once, in ascending order of address, with its value and quality. *)
Theorem homogeneous_table_complete `{Cs101Ok} s T cot :
  server_ok s → map_Forall (λ _ dp, type dp = T) (dataPoints_ s) →
  (size (dataPoints_ s) ≤ asdu_capacity T)%nat →
  asdu_objects (table_asdu s cot) = io_of <$> all_points s ∧
  io_address <$> asdu_objects (table_asdu s cot) = (std_map_items (dataPoints_ s)).*1 ∧
  (∀ a dp, dataPoints_ s !! a = Some dp → io_of dp ∈ asdu_objects (table_asdu s cot)).
Proof.
  intros Hs Hall Hcap. pose proof (table_asdu_all s T cot Hs Hall Hcap) as Hobj.
  split; [done|]. rewrite Hobj. split; [by apply table_addresses|].
  intros a dp Ha. apply list_elem_of_fmap. exists dp. split; [done|].
  apply all_points_spec. by exists a.
Qed.

(** Points of two types never reach a master together: every message, be it
    periodic or an answer to an interrogation, carries only points of the type
    of the lowest address, so a point of the other type is never transmitted
    (the refusals of the library are ignored). *)
Theorem mixed_types_never_sent `{Cs101Ok} s con dp0 rest a dp :
  server_ok s → asdu_memory = true → running_ s = true →
  all_points s = dp0 :: rest → (0 < asdu_capacity (type dp0))%nat →
  dataPoints_ s !! a = Some dp → type dp ≠ type dp0 →
  ∃ asdu1 asdu2 s1 s2,
    periodicSendTask_iter s = (Done true, s1) ∧ out s1 = out s ++ [SentASDU None asdu1] ∧
    interrogationHandler con 20 s = (Done true, s2) ∧
    out s2 = out s ++ [SentACT_CON con false; SentASDU (Some con) asdu2; SentACT_TERM con] ∧
    Forall (λ io, io_address io ≠ a) (asdu_objects asdu1 ++ asdu_objects asdu2).
Proof.
  intros Hs Hmem Hrun Hpts Hcap Ha Hty.
  assert (dataPoints_ s ≠ ∅) as Hne by (intros Heq; by rewrite Heq, lookup_empty in Ha).
  exists (table_asdu s CS101_COT_PERIODIC), (table_asdu s CS101_COT_INTERROGATED_BY_STATION).
  eexists _, _. split; [|split; [|split; [|split]]].
  - unfold periodicSendTask_iter, mbind, prog_bind, getS. rewrite Hrun.
    by rewrite sendDataPoints_ok.
  - done.
  - by apply interrogation_station.
  - simpl. by rewrite <- !app_assoc.
  - assert (∀ cot io, io ∈ asdu_objects (table_asdu s cot) → io_address io ≠ a) as Hno.
    { intros cot io Hin Hio. pose proof (table_asdu_type s cot dp0 rest io Hs Hpts Hcap Hin) as Ht.
      unfold table_asdu in Hin. apply asdu_fill_incl in Hin as [Hin|Hin]; [by apply elem_of_nil in Hin|].
      apply list_elem_of_fmap in Hin as (dp' & -> & (a' & Ha')%all_points_spec).
      destruct (io_of_type a' dp') as [Hty' Had]; [by apply Hs|]. congruence. }
    apply Forall_app. split; apply Forall_forall; intros io; apply Hno.
Qed.

(** A single command activates exactly the single point it addresses and
    is answered once; but a command to an address without a single point
    changes nothing and is confirmed all the same.  Other causes, a missing
    element and other types are told apart and change nothing. *)
Theorem single_command_handled `{Cs101} s now con asdu :
  server_ok s →
  ∃ handled s', asduHandler now con asdu s = (Done handled, s') ∧ server_ok s' ∧
    handled = (rx_type asdu =? C_SC_NA_1)%Z ∧
    (handled = false → s' = s) ∧
    (handled = true → ∃ cot, out s' = out s ++ [SentReply con cot] ∧
       match rx_element asdu with
       | Some (a, state) =>
           if (rx_cot asdu =? CS101_COT_ACTIVATION)%Z then
             cot = CS101_COT_ACTIVATION_CON ∧
             (∀ b, b ≠ a → dataPoints_ s' !! b = dataPoints_ s !! b) ∧
             dataPoints_ s' !! a =
               match dataPoints_ s !! a with
               | Some dp => Some (if decide (type dp = SINGLE_POINT)
                                  then set_value now (singlePointValue state) dp else dp)
               | None => None
               end
           else cot = CS101_COT_UNKNOWN_COT ∧ dataPoints_ s' = dataPoints_ s
       | None =>
           cot = (if (rx_cot asdu =? CS101_COT_ACTIVATION)%Z
                  then CS101_COT_UNKNOWN_IOA else CS101_COT_UNKNOWN_COT) ∧
           dataPoints_ s' = dataPoints_ s
       end).
Proof.
  intros Hs. unfold asduHandler. destruct (rx_type asdu =? C_SC_NA_1)%Z; [|by eexists _, _].
  destruct (rx_element asdu) as [[a state]|], (rx_cot asdu =? CS101_COT_ACTIVATION)%Z.
  2-4: eexists _, _; split; [done|]; split; [done|]; split; [done|]; split; [done|];
       intros _; eexists; done.
  destruct (updateDataPoint_ok now a (singlePointValue state) s Hs) as (m & Hrun & Hm).
  unfold mbind, prog_bind. rewrite Hrun. eexists _, _. split; [done|]. split; [done|].
  split; [done|]. split; [done|]. intros _. eexists. split; [done|]. split; [done|].
  unfold updateDataPoint, modifyS in Hrun.
  assert (m = dataPoints_ (set_points m s)) as Hm' by done. injection Hrun as Hrun.
  simpl. rewrite Hm', <- Hrun.
  destruct (dataPoints_ s !! a) as [dp|] eqn:Ha; [|by rewrite Ha].
  simpl value_type. case_decide; simpl; [|by rewrite Ha]. split.
  - intros b Hb. by rewrite lookup_insert_ne.
  - by rewrite lookup_insert_eq.
Qed.

(** Stopping a running server clears the flag, destroys the thread object
    once and stops the slave, after which the server can be started again;
    but the thread was created self-destroying, so when it ends between the
    clearing of the flag and the destruction, its object is destroyed twice. *)
Theorem stop_and_thread_exit `{Cs101} s :
  running_ s = true → periodicThread_ s = Some true →
  (∃ s', stop false s = (Done tt, s') ∧ running_ s' = false ∧ listening s' = false ∧
         periodicThread_ s' = None ∧ dataPoints_ s' = dataPoints_ s ∧
         ∃ s'', start true true s' = (Done true, s'') ∧ running_ s'' = true) ∧
  (stop true s).1 = Undef "thread destroyed twice".
Proof.
  intros Hrun Hth.
  unfold stop, stop_begin, stop_end, thread_exit, start, mbind, prog_bind, getS, modifyS.
  rewrite Hrun. simpl. rewrite Hth. simpl. split; [|done].
  eexists. split; [done|]. split_and!; [done..|]. by eexists.
Qed.

(** Point [a] holds [v], whatever the time. *)
Definition holds (s : IEC104Server) (a : Z) (v : point_value) : Prop :=
  ∃ dp, dataPoints_ s !! a = Some dp ∧ value dp = v ∧ type dp = value_type v.

Lemma update_holds `{Cs101} now a v v0 s :
  holds s a v0 → value_type v = value_type v0 →
  ∃ s', updateDataPoint now a v s = (Done tt, s') ∧ holds s' a v ∧
        ∀ b w, b ≠ a → holds s b w → holds s' b w.
Proof.
  intros (dp & Ha & Hv0 & Ht) Hv. unfold updateDataPoint, modifyS. rewrite Ha.
  rewrite decide_True by congruence. eexists. split; [done|]. split.
  - exists (set_value now v dp). simpl. rewrite lookup_insert_eq. split_and!; [done..|congruence].
  - intros b w Hb (dp' & Hdp' & ?). exists dp'. simpl. by rewrite lookup_insert_ne.
Qed.

(** One round of the test program. *)
Lemma test_iter_holds `{Cs101} now v v100 v101 b200 s :
  holds s 100 (scaledValue v100) → holds s 101 (scaledValue v101) →
  holds s 200 (singlePointValue b200) →
  let v' := wrap_s 16 (v + 1) in
  ∃ s', test_iter now v s = (Done v', s') ∧
    holds s' 100 (scaledValue v) ∧ holds s' 101 (scaledValue (wrap_s 16 (v + 1001))) ∧
    holds s' 200 (singlePointValue (Z.rem v' 2 =? 0)%Z).
Proof.
  intros H1 H2 H3 v'.
  destruct (update_holds now 100 (scaledValue v) _ s H1 eq_refl) as (s1 & E1 & A1 & K1).
  destruct (update_holds now 101 (scaledValue (wrap_s 16 (v' + 1000))) _ s1 (K1 101%Z _ ltac:(lia) H2) eq_refl)
    as (s2 & E2 & A2 & K2).
  destruct (update_holds now 200 (singlePointValue (Z.rem v' 2 =? 0)%Z) _ s2
    (K2 200%Z _ ltac:(lia) (K1 200%Z _ ltac:(lia) H3)) eq_refl) as (s3 & E3 & A3 & K3).
  exists s3. unfold test_iter. rewrite (prog_bind_eq _ _ _ _ _ E1), (prog_bind_eq _ _ _ _ _ E2),
    (prog_bind_eq _ _ _ _ _ E3). split; [done|].
  split; [by apply K3, K2|]. split; [|done].
  replace (wrap_s 16 (v + 1001)) with (wrap_s 16 (v' + 1000)); [by apply K3|].
  unfold v'. rewrite wrap_s_add_l by lia. f_equal. lia.
Qed.

(** The counter of the test program is a 16-bit integer that wraps around:
    after n rounds (n > 0) point 100 holds 999 + n and point 101 holds 2000 + n,
    both wrapped to 16 bits, and point 200 the parity of the wrapped counter. *)
Theorem test_program_values `{Cs101} n now v0 s :
  in_s 16 v0 → (∃ v100 v101 b, holds s 100 (scaledValue v100) ∧ holds s 101 (scaledValue v101) ∧
                holds s 200 (singlePointValue b)) →
  ∃ s', test_loop (S n) now v0 s = (Done (wrap_s 16 (v0 + Z.of_nat (S n))), s') ∧
    holds s' 100 (scaledValue (wrap_s 16 (v0 + Z.of_nat n))) ∧
    holds s' 101 (scaledValue (wrap_s 16 (v0 + 1001 + Z.of_nat n))) ∧
    holds s' 200 (singlePointValue (Z.rem (wrap_s 16 (v0 + Z.of_nat (S n))) 2 =? 0)%Z).
Proof.
  revert v0 s. induction n as [|n IH]; intros v0 s Hv (v100 & v101 & b & H1 & H2 & H3);
    destruct (test_iter_holds now v0 v100 v101 b s H1 H2 H3) as (s1 & Hit & A1 & A2 & A3).
  - exists s1. cbn [test_loop]. rewrite (prog_bind_eq _ _ _ _ _ Hit).
    rewrite !Z.add_0_r, (wrap_s_id 16 v0) by (lia || done). done.
  - destruct (IH (wrap_s 16 (v0 + 1)) s1) as (s2 & Hrun & B1 & B2 & B3).
    { by apply wrap_s_range. } { by eexists _, _, _. }
    exists s2. cbn [test_loop] in *. rewrite (prog_bind_eq _ _ _ _ _ Hit), Hrun.
    rewrite !wrap_s_add_l in * by lia. rewrite <- (Z.add_assoc (wrap_s 16 (v0 + 1))) in B2.
    rewrite wrap_s_add_l in B2 by lia.
    replace (v0 + Z.of_nat (S (S n)))%Z with (v0 + 1 + Z.of_nat (S n))%Z by lia.
    replace (v0 + Z.of_nat (S n))%Z with (v0 + 1 + Z.of_nat n)%Z by lia.
    replace (v0 + 1001 + Z.of_nat (S n))%Z with (v0 + 1 + (1001 + Z.of_nat n))%Z by lia. done.
Qed.

(** What the updates leave alone. *)
Definition life (s : IEC104Server) : bool * bool * option bool * list sent :=
  (running_ s, listening s, periodicThread_ s, out s).

Lemma update_life `{Cs101} now a v s : life (updateDataPoint now a v s).2 = life s.
Proof.
  unfold updateDataPoint, modifyS. destruct (dataPoints_ s !! a) as [dp|]; [|done].
  simpl. by case_decide.
Qed.

Lemma test_loop_life `{Cs101} n now v s : life (test_loop n now v s).2 = life s.
Proof.
  revert v s. induction n as [|n IH]; intros v s; [done|]. cbn [test_loop]. unfold test_iter.
  assert (∀ a w s, updateDataPoint now a w s = (Done tt, (updateDataPoint now a w s).2)) as Hrun by done.
  erewrite prog_bind_eq.
  2: { rewrite (prog_bind_eq _ _ _ _ _ (Hrun _ _ _)). cbv zeta. rewrite (prog_bind_eq _ _ _ _ _ (Hrun _ _ _)).
       rewrite (prog_bind_eq _ _ _ _ _ (Hrun _ _ _)). reflexivity. }
  by rewrite IH, !update_life.
Qed.

(** The whole test program, interrupted after any number of rounds: it starts
    the server on its four points, updates them, stops the server, whose sending
    thread has not ended before, and destroys it when it is stopped already. *)
Theorem test_program_ends `{Cs101} n now :
  ∃ s, server104Test true true false (S n) now (IEC104Server_new test_config) = (Done 0%Z, s) ∧
    running_ s = false ∧ listening s = false ∧ periodicThread_ s = None ∧ out s = [] ∧
    holds s 100 (scaledValue (wrap_s 16 (1000 + Z.of_nat n))) ∧
    holds s 101 (scaledValue (wrap_s 16 (2001 + Z.of_nat n))).
Proof.
  set (s0 := ((test_points now;; start true true) (IEC104Server_new test_config)).2).
  assert (Hs0 : life s0 = (true, true, Some true, [])) by reflexivity.
  destruct (test_program_values n now 1000 s0) as (s1 & Hrun & H100 & H101 & _).
  { by vm_compute. }
  { eexists 1000%Z, 2000%Z, true. split_and!; eexists; (split; [reflexivity|done]). }
  pose proof (test_loop_life (S n) now 1000 s0) as Hlife. rewrite Hrun in Hlife. cbn [snd] in Hlife.
  rewrite Hs0 in Hlife. injection Hlife as Hr Hl Ht Ho.
  exists (set_life false false None (set_life false false None s1)). split; [|done].
  assert (Hstart : test_points now (IEC104Server_new test_config) = (Done tt, (test_points now (IEC104Server_new test_config)).2)) by reflexivity.
  unfold server104Test. rewrite (prog_bind_eq _ _ _ _ _ Hstart).
  rewrite (prog_bind_eq _ _ _ true s0) by reflexivity. cbn [negb].
  rewrite (prog_bind_eq _ _ _ _ _ Hrun).
  unfold server_delete, stop, stop_begin, stop_end, mbind, prog_bind, getS, modifyS.
  rewrite Hr. simpl. by rewrite Ht.
Qed.

(** ** Witnesses: an ASDU of up to 60 objects of one type *)

Definition demo_cs101 : Cs101 := {|
  asdu_memory := true;
  asdu_accepts a io :=
    bool_decide (Forall (λ o, io_type o = io_type io) (asdu_objects a))
    && (length (asdu_objects a) <? 60)%nat;
  asdu_capacity _ := 60%nat;
  default_port := 2404
|}.

Lemma demo_cs101_ok : Cs101Ok (H := demo_cs101).
Proof.
  split; simpl.
  - intros a io io' Hacc Hh. gw_bool. destruct (asdu_objects a) as [|x l]; simplify_eq/=.
    by apply Forall_cons in H as [<- _].
  - intros a io Hall Hlen. rewrite bool_decide_true by done. simpl.
    by apply Nat.ltb_lt.
Defined.

(** The server of the test program, running with its four points. *)
Definition demo_server104 : IEC104Server :=
  let _ := demo_cs101 in
  ((test_points 0;; start true true) (IEC104Server_new test_config)).2.

Lemma demo_server104_ok : server_ok demo_server104.
Proof.
  unfold server_ok. intros a dp Ha.
  assert (a ∈ [100; 101; 200; 201]%Z) as Hin.
  { simpl in Ha. repeat (apply lookup_insert_Some in Ha as [[<- _]|[_ Ha]]; [set_solver|]).
    by rewrite lookup_empty in Ha. }
  set_unfold in Hin. destruct Hin as [->|[->|[->|[->|[]]]]]; by vm_compute in Ha; simplify_eq.
Qed.

Lemma interrogation_sequence_witness :
  let _ := demo_cs101 in
  ∃ s', interrogationHandler 1%nat 5 demo_server104 = (Done true, s') ∧
        out s' = out demo_server104 ++ [SentACT_CON 1%nat true].
Proof.
  intros lib. destruct (@interrogation_sequence lib demo_server104 1%nat 5 demo_server104_ok eq_refl)
    as (s' & Hrun & _ & Hout). by exists s'.
Defined.

Lemma homogeneous_table_complete_witness :
  let s := set_points {[ 7%Z := {| ioa := 7; type := SINGLE_POINT; value := singlePointValue true;
                                   quality := 0; timestamp := 0 |} ]} demo_server104 in
  asdu_objects (table_asdu (H := demo_cs101) s 20) = [SinglePointInformation 7 true 0].
Proof.
  intros s. destruct (@homogeneous_table_complete _ demo_cs101_ok s SINGLE_POINT 20) as [Hobj _].
  - apply map_Forall_singleton. done.
  - by apply map_Forall_singleton.
  - simpl. by rewrite map_size_singleton; lia.
  - rewrite Hobj. by vm_compute.
Defined.

Lemma mixed_types_never_sent_witness :
  let _ := demo_cs101 in
  ∃ asdu1 asdu2 s1 s2,
    periodicSendTask_iter demo_server104 = (Done true, s1) ∧
    out s1 = out demo_server104 ++ [SentASDU None asdu1] ∧
    interrogationHandler 1%nat 20 demo_server104 = (Done true, s2) ∧
    out s2 = out demo_server104 ++
      [SentACT_CON 1%nat false; SentASDU (Some 1%nat) asdu2; SentACT_TERM 1%nat] ∧
    Forall (λ io, io_address io ≠ 200%Z) (asdu_objects asdu1 ++ asdu_objects asdu2).
Proof.
  intros lib. eapply (@mixed_types_never_sent _ demo_cs101_ok demo_server104 1%nat);
    [apply demo_server104_ok|reflexivity|reflexivity|vm_compute; reflexivity| |reflexivity|done].
  simpl. lia.
Defined.

Lemma single_command_handled_witness :
  let _ := demo_cs101 in
  let asdu := {| rx_type := 45; rx_cot := 6; rx_element := Some (999%Z, true) |} in
  ∃ s', asduHandler 5 1%nat asdu demo_server104 = (Done true, s') ∧
        out s' = out demo_server104 ++ [SentReply 1%nat CS101_COT_ACTIVATION_CON] ∧
        dataPoints_ s' !! 999%Z = None.
Proof.
  intros lib asdu.
  destruct (@single_command_handled lib demo_server104 5 1%nat asdu demo_server104_ok)
    as (handled & s' & Hrun & _ & -> & _ & Hout).
  destruct (Hout eq_refl) as (cot & Ho & -> & _ & Ha). by exists s'.
Defined.

Lemma stop_and_thread_exit_witness :
  let _ := demo_cs101 in
  (stop true demo_server104).1 = Undef "thread destroyed twice".
Proof.
  intros lib. by destruct (@stop_and_thread_exit lib demo_server104 eq_refl eq_refl) as [_ Hrace].
Defined.

Lemma test_program_values_witness :
  let _ := demo_cs101 in
  ∃ s', test_loop 40000 0 1000 demo_server104 = (Done (wrap_s 16 41000), s') ∧
        holds s' 100 (scaledValue (-24537)).
Proof.
  intros lib. destruct (@test_program_values lib 39999 0 1000 demo_server104) as (s' & Hrun & H100 & _).
  - by vm_compute.
  - eexists 1000%Z, 2000%Z, true. split_and!; eexists; (split; [reflexivity|done]).
  - exists s'. split; [exact Hrun|exact H100].
Defined.
