(* ===== verification/Iec104Station.v ===== *)
(** * The controlled station, abstractly

    What [Iec104Server] promises to a master, without the library's frames,
    the thread objects and the time stamps: a station is a map from addresses
    to a value and its quality, in service or not, and every event allows a
    next station and a list of messages.  The messages of a step are described
    by what a master can rely on (each object is the current value of its
    address, in ascending order, of one type), not by how the server builds
    them.  The server refines this station. *)

From Stdlib Require Import ZArith String Sorted Lia.
From stdpp Require Import base tactics option list numbers gmap sorting.
From S2P Require Import Prelude Iec104Server.

(** ** The specification *)

Module Station.
Section Spec.
Context `{Cs101}.

Definition reading : Type := point_value * Z.

Record state := { points : gmap Z reading; up : bool }.

Definition initial : state := {| points := ∅; up := false |}.
Definition set (a : Z) (r : reading) (st : state) : state :=
  {| points := <[a := r]> (points st); up := up st |}.
Definition switch (b : bool) (st : state) : state := {| points := points st; up := b |}.

Definition kind (r : reading) : DataPointType := value_type r.1.

Definition object_reading (io : InformationObject) : reading :=
  match io with
  | MeasuredValueScaled _ z q => (scaledValue z, q)
  | SinglePointInformation _ b q => (singlePointValue b, q)
  end.

(** A message that reports the station: a selection of its points, each with
    its current value, in ascending order of address, of one type.  The point
    of the lowest address is always there, and all points are when they have
    one type and fit. *)
Record reports (m : gmap Z reading) (cot : Z) (asdu : CS101_ASDU) : Prop := {
  rep_header : asdu_cot asdu = cot ∧ asdu_oa asdu = 0%Z ∧ asdu_ca asdu = 1%Z;
  rep_current io : io ∈ asdu_objects asdu → m !! io_address io = Some (object_reading io);
  rep_ascending : StronglySorted Z.lt (io_address <$> asdu_objects asdu);
  rep_one_type io io' : io ∈ asdu_objects asdu → io' ∈ asdu_objects asdu → io_type io = io_type io';
  rep_lowest a r : m !! a = Some r → (∀ b, is_Some (m !! b) → (a ≤ b)%Z) →
    (0 < asdu_capacity (kind r))%nat → a ∈ io_address <$> asdu_objects asdu;
  rep_complete T a r : map_Forall (λ _ r, kind r = T) m → (size m ≤ asdu_capacity T)%nat →
    m !! a = Some r → a ∈ io_address <$> asdu_objects asdu
}.

(** The data that a station sends: nothing when it has no point or no memory. *)
Definition data (con : option connection) (cot : Z) (m : gmap Z reading) (msgs : list sent) : Prop :=
  if asdu_memory then
    (m = ∅ ∧ msgs = []) ∨ (m ≠ ∅ ∧ ∃ asdu, msgs = [SentASDU con asdu] ∧ reports m cot asdu)
  else msgs = [].

(** A value written to an address: kept when the point has that type. *)
Inductive written (a : Z) (v : point_value) (st : state) : state → Prop :=
| WrittenNone : points st !! a = None → written a v st st
| WrittenOther r : points st !! a = Some r → kind r ≠ value_type v → written a v st st
| WrittenSet r : points st !! a = Some r → kind r = value_type v → written a v st (set a (v, r.2) st).

(** The cause of the answer to a single command. *)
Definition answer (asdu : received) : Z :=
  if (rx_cot asdu =? CS101_COT_ACTIVATION)%Z then
    if rx_element asdu then CS101_COT_ACTIVATION_CON else CS101_COT_UNKNOWN_IOA
  else CS101_COT_UNKNOWN_COT.

Inductive step : server_event → state → state → list sent → Prop :=
| StAdd now a t v q Hv st : step (EvAdd now a t v q Hv) st (set a (v, q) st) []
| StUpdate now a v st st' : written a v st st' → step (EvUpdate now a v) st st' []
| StInterrogation con st msgs : data (Some con) CS101_COT_INTERROGATED_BY_STATION (points st) msgs →
    step (EvInterrogation con 20) st st ([SentACT_CON con false] ++ msgs ++ [SentACT_TERM con])
| StGroup con qoi st : qoi ≠ 20%Z → step (EvInterrogation con qoi) st st [SentACT_CON con true]
| StCommand now con asdu a b st st' : rx_type asdu = C_SC_NA_1 → rx_cot asdu = CS101_COT_ACTIVATION →
    rx_element asdu = Some (a, b) → written a (singlePointValue b) st st' →
    step (EvCommand now con asdu) st st' [SentReply con (answer asdu)]
| StBadCommand now con asdu st : rx_type asdu = C_SC_NA_1 →
    (rx_cot asdu ≠ CS101_COT_ACTIVATION ∨ rx_element asdu = None) →
    step (EvCommand now con asdu) st st [SentReply con (answer asdu)]
| StNotHandled now con asdu st : rx_type asdu ≠ C_SC_NA_1 → step (EvCommand now con asdu) st st []
| StPeriod st msgs : up st = true → data None CS101_COT_PERIODIC (points st) msgs → step EvPeriodic st st msgs
| StNoPeriod st : up st = false → step EvPeriodic st st []
| StStart ok1 ok2 st : step (EvStart ok1 ok2) st (switch (up st || ok1 && ok2) st) []
| StStop ends st : step (EvStop ends) st (switch false st) [].

(** A run of the station, with everything it has sent. *)
Inductive run : list server_event → state → state → list sent → Prop :=
| RunNil st : run [] st st []
| RunCons ev evs st st' st'' l l' : step ev st st' l → run evs st' st'' l' → run (ev :: evs) st st'' (l ++ l').
End Spec.
End Station.
Import Station.

(** ** The station of a server *)

Definition dp_reading (dp : DataPoint) : reading := (value dp, quality dp).

Definition abs (s : IEC104Server) : state :=
  {| points := dp_reading <$> dataPoints_ s; up := running_ s |}.

(** The server's own invariant, and the station that it stands for. *)
Definition represents (st : state) (s : IEC104Server) : Prop :=
  server_ok s ∧ thread_ok s ∧ st = abs s.

Lemma StronglySorted_sublist {A} (R : relation A) l k :
  l `sublist_of` k → StronglySorted R k → StronglySorted R l.
Proof.
  induction 1 as [|x l k Hsub IH|x l k Hsub IH]; intros Hs; [done|..].
  - apply StronglySorted_inv in Hs as [Hs Hx]. constructor; [by apply IH|].
    rewrite Forall_forall in Hx. apply Forall_forall. intros y Hy. apply Hx. by eapply sublist_subseteq.
  - apply StronglySorted_inv in Hs as [Hs _]. by apply IH.
Qed.

Section Messages.
Context `{Cs101Ok}.

Lemma io_of_reading a dp : point_ok a dp → object_reading (io_of dp) = dp_reading dp ∧
  kind (dp_reading dp) = type dp.
Proof. intros [_ Hv]. unfold io_of, dp_reading, kind. simpl. by destruct (value dp). Qed.

Lemma points_abs s a r : points (abs s) !! a = Some r ↔ ∃ dp, dataPoints_ s !! a = Some dp ∧ r = dp_reading dp.
Proof. simpl. rewrite lookup_fmap, fmap_Some. done. Qed.

Lemma abs_insert a dp s :
  abs (set_points (<[a := dp]> (dataPoints_ s)) s) = set a (dp_reading dp) (abs s).
Proof. unfold abs, set. simpl. by rewrite fmap_insert. Qed.

Lemma table_object s io : server_ok s → io ∈ io_of <$> all_points s →
  ∃ dp, dataPoints_ s !! io_address io = Some dp ∧ io = io_of dp.
Proof.
  intros Hs (dp & -> & (a & Ha)%all_points_spec)%list_elem_of_fmap. exists dp. split; [|done].
  by destruct (io_of_type a dp) as [_ ->]; [by apply Hs|].
Qed.

(** The lowest address is the first of the table. *)
Lemma lowest_first s a dp :
  dataPoints_ s !! a = Some dp → (∀ b, is_Some (dataPoints_ s !! b) → (a ≤ b)%Z) →
  ∃ rest, all_points s = dp :: rest.
Proof.
  intros Ha Hlow. unfold all_points. pose proof (std_map_items_ascending (dataPoints_ s)) as Hs.
  pose proof (proj2 (elem_of_std_map_items (dataPoints_ s) a dp) Ha) as Hin.
  destruct (std_map_items (dataPoints_ s)) as [|[b dp'] l] eqn:Hl; [by apply elem_of_nil in Hin|].
  assert (dataPoints_ s !! b = Some dp') as Hb by (apply elem_of_std_map_items; rewrite Hl; by left).
  apply elem_of_cons in Hin as [[= -> ->]|Hin]; [by eexists|].
  apply StronglySorted_inv in Hs as [_ Hs]. rewrite Forall_forall in Hs.
  pose proof (Hlow b (mk_is_Some _ _ Hb)).
  assert (b < a)%Z by (apply Hs, list_elem_of_fmap; by exists (a, dp)). lia.
Qed.

(** The ASDU of the whole table is a report of the station. *)
Lemma table_asdu_reports s cot : server_ok s → reports (points (abs s)) cot (table_asdu s cot).
Proof.
  intros Hs. pose proof (table_asdu_sublist s cot) as Hsub.
  assert (∀ io, io ∈ asdu_objects (table_asdu s cot) → ∃ dp, dataPoints_ s !! io_address io = Some dp ∧ io = io_of dp)
    as Hobj by (intros io Hin; apply table_object; [done|by eapply sublist_subseteq]).
  split.
  - destruct (asdu_fill_sublist (io_of <$> all_points s)
      {| asdu_cot := cot; asdu_oa := 0; asdu_ca := 1; asdu_objects := [] |}) as (_ & Hh). exact Hh.
  - intros io (dp & Ha & ->)%Hobj. apply points_abs. exists dp. split; [done|].
    by apply (io_of_reading _ dp (Hs _ _ Ha)).
  - eapply StronglySorted_sublist; [by apply fmap_sublist, Hsub|].
    rewrite table_addresses by done. apply std_map_items_ascending.
  - unfold table_asdu. apply asdu_fill_uniform. intros io io' Hin. by apply elem_of_nil in Hin.
  - intros a r (dp & Ha & ->)%points_abs Hlow Hcap. rewrite (proj2 (io_of_reading a dp (Hs _ _ Ha))) in Hcap.
    destruct (lowest_first s a dp Ha) as [rest Hpts].
    { intros b [dp' Hb]. apply Hlow. exists (dp_reading dp'). apply points_abs. by exists dp'. }
    apply list_elem_of_fmap. exists (io_of dp). split; [by destruct (io_of_type a dp (Hs _ _ Ha))|].
    by eapply table_asdu_first.
  - intros T a r HT Hsize (dp & Ha & ->)%points_abs. rewrite (table_asdu_all s T cot Hs).
    + rewrite table_addresses by done. apply list_elem_of_fmap. exists (a, dp). split; [done|].
      by apply elem_of_std_map_items.
    + intros b dp' Hb. rewrite <- (proj2 (io_of_reading b dp' (Hs _ _ Hb))).
      apply (HT b). apply points_abs. by exists dp'.
    + simpl in Hsize. by rewrite map_size_fmap in Hsize.
Qed.
End Messages.

(** ** The simulation *)

Section Simulation.
Context `{Cs101Ok}.

(** What a call of the server does, as a step of the station: it returns
    normally, in a server that represents the next station, having sent the
    messages of the step. *)
Definition simulates {A} (m : prog IEC104Server A) (s : IEC104Server)
    (P : A → state → list sent → Prop) : Prop :=
  ∃ x s' l, m s = (Done x, s') ∧ server_ok s' ∧ thread_ok s' ∧ out s' = out s ++ l ∧ P x (abs s') l.

Lemma simulates_bind {A B} (m : prog IEC104Server A) (k : A → prog IEC104Server B) s P Q :
  simulates m s P →
  (∀ x s' l, server_ok s' → thread_ok s' → P x (abs s') l →
     simulates (k x) s' (λ y st l', Q y st (l ++ l'))) →
  simulates (x ← m; k x) s Q.
Proof.
  intros (x & s1 & l1 & Hm & Hs1 & Ht1 & Ho1 & HP) Hk.
  destruct (Hk x s1 l1 Hs1 Ht1 HP) as (y & s2 & l2 & Hk2 & Hs2 & Ht2 & Ho2 & HQ).
  exists y, s2, (l1 ++ l2). rewrite (prog_bind_eq _ _ _ _ _ Hm). split_and!; [done..| |done].
  by rewrite Ho2, Ho1, app_assoc.
Qed.

Lemma simulates_ret {A} (x : A) s P : server_ok s → thread_ok s → P x (abs s) [] → simulates (mret x) s P.
Proof. intros. exists x, s, []. by rewrite app_nil_r. Qed.

Lemma simulates_send o s P :
  server_ok s → thread_ok s → P tt (abs s) [o] → simulates (modifyS (send o)) s P.
Proof. intros. by exists tt, (send o s), [o]. Qed.

Lemma simulates_data con cot s :
  server_ok s → thread_ok s →
  simulates (sendDataPoints con (all_points s) cot) s
    (λ _ st l, st = abs s ∧ data con cot (points (abs s)) l).
Proof.
  intros Hs Ht. unfold simulates, data. destruct (decide (dataPoints_ s = ∅)) as [He|Hne].
  - exists tt, s, []. unfold all_points. rewrite He, app_nil_r. split_and!; try done.
    destruct asdu_memory; [|done]. left. simpl. by rewrite He, fmap_empty.
  - destruct asdu_memory eqn:Hmem.
    + eexists tt, _, _. split; [by apply sendDataPoints_ok|]. split_and!; try done.
      right. split; [simpl; by rewrite fmap_empty_iff|]. eexists. split; [done|]. by apply table_asdu_reports.
    + exists tt, s, []. rewrite app_nil_r. split_and!; try done.
      unfold sendDataPoints. rewrite Hmem. by destruct (all_points s).
Qed.

Lemma simulates_update now a v s :
  server_ok s → thread_ok s →
  simulates (updateDataPoint now a v) s (λ _ st l, written a v (abs s) st ∧ l = []).
Proof.
  intros Hs Ht. unfold simulates, updateDataPoint, modifyS.
  eexists tt, _, []. split; [done|]. rewrite app_nil_r.
  destruct (dataPoints_ s !! a) as [dp|] eqn:Ha.
  2: { split_and!; try done. constructor. simpl. by rewrite lookup_fmap, Ha. }
  assert (points (abs s) !! a = Some (dp_reading dp)) as Hr by (simpl; by rewrite lookup_fmap, Ha).
  pose proof (proj2 (io_of_reading a dp (Hs _ _ Ha))) as Hkind.
  case_decide as Hty.
  2: { split_and!; try done. by eapply WrittenOther; [exact Hr|rewrite Hkind]. }
  split_and!; try done.
  - apply server_ok_insert; [done|]. destruct (Hs a dp Ha). by split.
  - rewrite abs_insert. change (dp_reading (set_value now v dp)) with (v, (dp_reading dp).2).
    by eapply (WrittenSet a v (abs s)); [exact Hr|rewrite Hkind].
Qed.

Lemma server_simulates ev s :
  ev ≠ EvStop true → server_ok s → thread_ok s →
  simulates (server_handle ev) s (λ _ st l, step ev (abs s) st l).
Proof.
  intros Hev Hs Ht.
  destruct ev as [now a t v q Hv|now a v|con qoi|now con asdu| |ok1 ok2|[]]; [clear Hev..|done|clear Hev]; cbn [server_handle].
  - eexists tt, _, []. split; [done|]. rewrite app_nil_r. split_and!; try done.
    + apply server_ok_insert; [done|]. unfold value_ok in Hv. gw_bool. by split.
    + rewrite abs_insert. apply StAdd.
  - destruct (simulates_update now a v s Hs Ht) as (x & s' & l & Hrun & Hs' & Ht' & Ho & Hw & ->).
    exists x, s', []. split_and!; try done. by constructor.
  - unfold interrogationHandler. destruct (Z.eqb_spec qoi 20) as [->|Hq].
    2: { eexists tt, _, _. split; [done|]. split_and!; [done..|]. by apply StGroup. }
    destruct (simulates_data (Some con) CS101_COT_INTERROGATED_BY_STATION (send (SentACT_CON con false) s) Hs Ht)
      as ([] & s' & l & Hrun & Hs' & Ht' & Ho & Ha & Hd).
    eexists tt, (send (SentACT_TERM con) s'), _. unfold mbind, prog_bind, modifyS, getS. rewrite Hrun.
    split; [done|]. split; [done|]. split; [done|]. split.
    { simpl. rewrite Ho. simpl. by rewrite <- !app_assoc. }
    change (abs (send (SentACT_TERM con) s')) with (abs s'). rewrite Ha. by apply (StInterrogation con (abs s) l).
  - unfold asduHandler. destruct (Z.eqb_spec (rx_type asdu) C_SC_NA_1) as [Hty|Hty].
    2: { exists tt, s, []. rewrite app_nil_r. split_and!; try done. by apply StNotHandled. }
    assert (∀ cot, cot = answer asdu → (rx_cot asdu ≠ CS101_COT_ACTIVATION ∨ rx_element asdu = None) →
      simulates (modifyS (send (SentReply con cot));; mret tt) s (λ _ st l, step (EvCommand now con asdu) (abs s) st l)) as Hbad.
    { intros cot -> Hb. eexists tt, _, _. split; [done|]. split_and!; [done..|]. by apply StBadCommand. }
    destruct (Z.eqb_spec (rx_cot asdu) CS101_COT_ACTIVATION) as [Hcot|Hcot].
    + destruct (rx_element asdu) as [[a b]|] eqn:Hel.
      * destruct (simulates_update now a (singlePointValue b) s Hs Ht)
          as ([] & s' & l & Hrun & Hs' & Ht' & Ho & Hw & ->).
        exists tt, (send (SentReply con (answer asdu)) s'), [SentReply con (answer asdu)].
        unfold mbind, prog_bind. rewrite Hrun. rewrite app_nil_r in Ho.
        split; [unfold answer; by rewrite Hcot, Hel|]. split_and!; try done; [simpl; by rewrite Ho|].
        by eapply StCommand.
      * eapply (Hbad CS101_COT_UNKNOWN_IOA); [unfold answer; by rewrite Hcot, Hel|by right].
    + apply (Hbad CS101_COT_UNKNOWN_COT); [|by left]. unfold answer. by rewrite (proj2 (Z.eqb_neq _ _) Hcot).
  - unfold periodicSendTask_iter. destruct (running_ s) eqn:Hr.
    + destruct (simulates_data None CS101_COT_PERIODIC s Hs Ht) as ([] & s' & l & Hrun & Hs' & Ht' & Ho & Ha & Hd).
      exists tt, s', l. unfold mbind, prog_bind, getS. rewrite Hr, Hrun. split_and!; try done.
      rewrite Ha. by apply StPeriod.
    + exists tt, s, []. unfold mbind, prog_bind, getS. rewrite Hr, app_nil_r. split_and!; try done.
      by apply StNoPeriod.
  - pose proof (StStart ok1 ok2 (abs s)) as Hst.
    unfold start, simulates, mbind, prog_bind, getS, switch, abs in *. simpl in *.
    destruct (running_ s) eqn:Hr, ok1, ok2; simpl in *;
      eexists tt, _, []; (split; [done|]); rewrite app_nil_r; split_and!; try done; simpl; by rewrite ?Hr.
  - pose proof (StStop false (abs s)) as Hst.
    unfold stop, stop_begin, stop_end, simulates, mbind, prog_bind, getS, switch, abs, thread_ok in *. simpl in *.
    destruct (running_ s) eqn:Hr; simpl; [destruct (periodicThread_ s) as [[]|]; [|done|]|];
      eexists tt, _, []; (split; [done|]); rewrite app_nil_r; split_and!; try done; simpl; by rewrite ?Hr.
Qed.

(** A whole run of the server is a run of the station. *)
Lemma server_runs evs s :
  EvStop true ∉ evs → server_ok s → thread_ok s →
  simulates (iterS evs server_handle) s (λ _ st l, run evs (abs s) st l).
Proof.
  revert s. induction evs as [|ev evs IH]; intros s Hevs Hs Ht; cbn [iterS].
  - apply simulates_ret; [done..|constructor].
  - apply not_elem_of_cons in Hevs as [Hev Hevs].
    destruct (server_simulates ev s ltac:(congruence) Hs Ht) as ([] & s1 & l1 & Hm & Hs1 & Ht1 & Ho1 & Hstep).
    destruct (IH s1 Hevs Hs1 Ht1) as ([] & s2 & l2 & Hm2 & Hs2 & Ht2 & Ho2 & Hrun).
    exists tt, s2, (l1 ++ l2). rewrite (prog_bind_eq _ _ _ _ _ Hm). split_and!; [done..| |by econstructor].
    by rewrite Ho2, Ho1, app_assoc.
Qed.
End Simulation.

(** ** The last value written *)







(** ** Properties *)

(** C2: the server implements the abstract station for as long as it is not
    stopped: whatever events but a stop it sees after its construction
    (additions, updates, interrogations, commands, starts, periods), no call
    fails, and everything it hands over to the library is a run of
    the station on the same events: reports that carry the current values of
    their addresses in ascending order and of one type, the lowest address
    always among them and all of a table of one type that fits, between a
    confirmation and a termination when they were asked for, at each period
    only while the station is in service, one answer for each command. *)
Theorem server_refines_station `{Cs101Ok} config evs :
  Forall (λ ev, match ev with EvStop _ => False | _ => True end) evs →
  ∃ s st, iterS evs server_handle (IEC104Server_new config) = (Done tt, s) ∧
    run evs initial st (out s) ∧ represents st s.
Proof.
  intros Hevs.
  destruct (server_runs evs (IEC104Server_new config)) as ([] & s & l & Hm & Hs & Ht & Ho & Hrun); [|done..|].
  { rewrite Forall_forall in Hevs. intros Hin. exact (Hevs _ Hin). }
  exists s, (abs s). split; [done|]. split; [|done]. rewrite Ho. simpl.
  by replace initial with (abs (IEC104Server_new config)) by (unfold abs, initial; simpl; by rewrite fmap_empty).
Qed.


(** ** Witnesses *)

Definition demo_events : list server_event :=
  [EvAdd 0 7 SINGLE_POINT (singlePointValue false) 0 eq_refl;
   EvStart true true; EvPeriodic; EvUpdate 1 7 (scaledValue 12);
   EvCommand 2 1%nat {| rx_type := 45; rx_cot := 6; rx_element := Some (7%Z, true) |}].

Lemma server_refines_station_witness :
  ∃ s st, iterS demo_events (server_handle (H := demo_cs101)) (IEC104Server_new (H := demo_cs101) test_config)
            = (Done tt, s) ∧
    run (H := demo_cs101) demo_events initial st (out s) ∧ represents st s.
Proof.
  apply (@server_refines_station demo_cs101 demo_cs101_ok test_config demo_events).
  repeat (constructor; [exact I|]). constructor.
Defined.

