(* ===== verification/Iec104Client.v ===== *)
(** * The IEC 60870-5-104 client and its manager

    [IEC104Client] of [core/iec104/iec104Client.{h,cc}] as a state machine:
    the calls of its owner, the callbacks of lib60870 and the iterations of
    its worker thread are the steps; what it transmits is kept as a list.
    The worker is a [std::thread], so a joinable one that is destroyed or
    assigned ends the program.  [IEC104ClientManger] and the callbacks it
    installs are from [core/iec104/iec104ClientManger.cc]. *)

From Stdlib Require Import ZArith String Lia.
From stdpp Require Import base tactics option list numbers strings gmap.
From S2P Require Import Prelude Config Iec104Server.

Inductive CS104_ConnectionEvent : Type :=
| CS104_CONNECTION_OPENED
| CS104_CONNECTION_CLOSED
| CS104_CONNECTION_STARTDT_CON_RECEIVED
| CS104_CONNECTION_STOPDT_CON_RECEIVED
| CS104_CONNECTION_FAILED.

#[export] Instance CS104_ConnectionEvent_eq_dec : EqDecision CS104_ConnectionEvent.
Proof. solve_decision. Defined.

(** What the client transmits. *)
Inductive transmission : Type :=
| TxStartDT
| TxStopDT
| TxInterrogation.

(** The constructor's arguments. *)
Record client_params := {
  server_ip_ : string;
  server_port_ : Z;             (* uint16_t *)
  local_ip_ : string;
  local_port_ : Z;
  t0_ : Z;
  originator_address_ : Z;
  gi_interval_ms_ : Z           (* int *)
}.

Record IEC104Client := {
  cparams : client_params;
  connecting : bool;                              (* connectAsync was called *)
  crunning_ : bool;
  start_dt_sent_ : bool;
  joinable : bool;                                (* worker_thread_ *)
  worker_runs : bool;                             (* its function has not returned *)
  last_gi_sent_ : Z;                              (* uint64_t *)
  last_event_lock_ : nat;                         (* the semaphore's count *)
  last_event_ : option CS104_ConnectionEvent;     (* [None] is -1 *)
  wire : list transmission
}.

(** [create_ok]: [CS104_Connection_create] returns a connection. *)
Definition IEC104Client_new (create_ok : bool) (p : client_params) : outcome IEC104Client :=
  if create_ok then
    Done {| cparams := p; connecting := false; crunning_ := false; start_dt_sent_ := false;
            joinable := false; worker_runs := false; last_gi_sent_ := 0; last_event_lock_ := 1;
            last_event_ := None; wire := [] |}
  else Threw (RuntimeError "Failed to create CS104_Connection").

Definition set_run (r j w : bool) (c : IEC104Client) : IEC104Client :=
  {| cparams := cparams c; connecting := connecting c; crunning_ := r;
     start_dt_sent_ := start_dt_sent_ c; joinable := j; worker_runs := w;
     last_gi_sent_ := last_gi_sent_ c; last_event_lock_ := last_event_lock_ c;
     last_event_ := last_event_ c; wire := wire c |}.
Definition set_connecting (c : IEC104Client) : IEC104Client :=
  {| cparams := cparams c; connecting := true; crunning_ := crunning_ c;
     start_dt_sent_ := start_dt_sent_ c; joinable := joinable c; worker_runs := worker_runs c;
     last_gi_sent_ := last_gi_sent_ c; last_event_lock_ := last_event_lock_ c;
     last_event_ := last_event_ c; wire := wire c |}.
Definition set_gi (t : Z) (c : IEC104Client) : IEC104Client :=
  {| cparams := cparams c; connecting := connecting c; crunning_ := crunning_ c;
     start_dt_sent_ := start_dt_sent_ c; joinable := joinable c; worker_runs := worker_runs c;
     last_gi_sent_ := t; last_event_lock_ := last_event_lock_ c;
     last_event_ := last_event_ c; wire := wire c |}.
Definition set_event (e : option CS104_ConnectionEvent) (n : nat) (c : IEC104Client) : IEC104Client :=
  {| cparams := cparams c; connecting := connecting c; crunning_ := crunning_ c;
     start_dt_sent_ := start_dt_sent_ c; joinable := joinable c; worker_runs := worker_runs c;
     last_gi_sent_ := last_gi_sent_ c; last_event_lock_ := n; last_event_ := e; wire := wire c |}.
Definition transmit (t : transmission) (c : IEC104Client) : IEC104Client :=
  {| cparams := cparams c; connecting := connecting c; crunning_ := crunning_ c;
     start_dt_sent_ := start_dt_sent_ c; joinable := joinable c; worker_runs := worker_runs c;
     last_gi_sent_ := last_gi_sent_ c; last_event_lock_ := last_event_lock_ c;
     last_event_ := last_event_ c; wire := wire c ++ [t] |}.

(** ** Operations *)

(** Assigning a new thread to a joinable [std::thread] calls [std::terminate]. *)
Definition client_start : prog IEC104Client bool :=
  c ← getS;
  if crunning_ c then mret false
  else
    modifyS (set_run true (joinable c) (worker_runs c));;
    modifyS set_connecting;;
    if joinable c then undefS "std::terminate: assignment to a joinable thread"
    else modifyS (set_run true true true);; mret true.

Definition sendStartDT : prog IEC104Client unit :=
  c ← getS; if crunning_ c then modifyS (transmit TxStartDT) else mret tt.

Definition sendStopDT : prog IEC104Client unit :=
  c ← getS; if crunning_ c then modifyS (transmit TxStopDT) else mret tt.

(** [send_ok]: the library accepts the command. *)
Definition sendInterrogationCommand (send_ok : bool) : prog IEC104Client bool :=
  c ← getS;
  if negb (crunning_ c) || negb (start_dt_sent_ c) then mret false
  else (if send_ok then modifyS (transmit TxInterrogation) else mret tt);; mret send_ok.

(** [join] returns when the worker's function has: [running_] is false, so it
    leaves its loop. *)
Definition client_stop : prog IEC104Client unit :=
  c ← getS;
  if crunning_ c then
    modifyS (set_run false (joinable c) (worker_runs c));;
    (if joinable c then modifyS (set_run false false false) else mret tt);;
    (if start_dt_sent_ c then sendStopDT else mret tt)
  else mret tt.

(** The destructor, then the one of [worker_thread_]. *)
Definition client_delete : prog IEC104Client unit :=
  client_stop;;
  c ← getS;
  if joinable c then undefS "std::terminate: joinable thread destroyed" else mret tt.

(** One iteration of [run]; a [Semaphore_wait] on a count of zero blocks. *)
Definition run_iter (now : Z) (send_ok : bool) : prog IEC104Client unit :=
  c ← getS;
  if negb (worker_runs c) then mret tt
  else if negb (crunning_ c) then modifyS (set_run (crunning_ c) (joinable c) false)
  else
    match last_event_lock_ c with
    | O => mret tt
    | S n =>
        modifyS (set_event (last_event_ c) n);;
        match last_event_ c with
        | Some CS104_CONNECTION_OPENED => sendStartDT
        | Some CS104_CONNECTION_CLOSED | Some CS104_CONNECTION_FAILED =>
            modifyS (λ c, set_run false (joinable c) (worker_runs c) c)
        | _ =>
            if start_dt_sent_ c then
              (if (now <? last_gi_sent_ c)%Z then modifyS (set_gi now) else mret tt);;
              c2 ← getS;
              if (wrap_u 64 (last_gi_sent_ c2 + wrap_u 64 (gi_interval_ms_ (cparams c2))) <? now)%Z then
                modifyS (set_gi now);;
                _ ← sendInterrogationCommand send_ok; mret tt
              else mret tt
            else mret tt
        end;;
        modifyS (λ c, set_event (last_event_ c) (S (last_event_lock_ c)) c)
    end.

(** The callback of the library: the semaphore is posted without a wait. *)
Definition connectionHandler (event : CS104_ConnectionEvent) : prog IEC104Client unit :=
  modifyS (λ c, set_event (Some event) (S (last_event_lock_ c)) c).

(** [None]: no callback installed. *)
Definition asduReceivedHandler (callback : option (CS101_ASDU → outcome bool)) (asdu : CS101_ASDU)
    : outcome bool :=
  match callback with Some f => f asdu | None => Done true end.

(** *** Steps *)

Inductive client_event : Type :=
| CStart | CStop
| CSendStartDT | CSendStopDT | CInterrogate (send_ok : bool)
| CWorker (now : Z) (send_ok : bool)
| CLibrary (event : CS104_ConnectionEvent).

Definition client_handle (ev : client_event) : prog IEC104Client unit :=
  match ev with
  | CStart => _ ← client_start; mret tt
  | CStop => client_stop
  | CSendStartDT => sendStartDT
  | CSendStopDT => sendStopDT
  | CInterrogate ok => _ ← sendInterrogationCommand ok; mret tt
  | CWorker now ok => run_iter now ok
  | CLibrary e => connectionHandler e
  end.

(** ** The manager *)

(** [CS101_ASDU_getElement] decodes an element by the type of the ASDU; the
    callback treats those of an [M_ME_NB_1] as single points. *)
Definition read_as_single_point (io : InformationObject) : outcome bool :=
  match io with
  | SinglePointInformation _ b _ => Done b
  | MeasuredValueScaled _ _ _ => Undef "scaled value read as a single point"
  end.

Definition asdu_is_scaled (asdu : CS101_ASDU) : bool :=
  match asdu_objects asdu with MeasuredValueScaled _ _ _ :: _ => true | _ => false end.

(** The callback that [initClients] (and [testFunction]) installs. *)
Definition log_asdu (asdu : CS101_ASDU) : outcome bool :=
  if asdu_is_scaled asdu then
    _ ← mapO read_as_single_point (asdu_objects asdu); Done true
  else Done true.

Definition params_of (c : ConfigDataIEC104.t) : client_params := {|
  server_ip_ := ConfigDataIEC104.ip (ConfigDataIEC104.tcp c);
  server_port_ := wrap_u 16 (ConfigDataIEC104.port (ConfigDataIEC104.tcp c));
  local_ip_ := ConfigDataIEC104.local_ip (ConfigDataIEC104.local_address c);
  local_port_ := ConfigDataIEC104.local_port (ConfigDataIEC104.local_address c);
  t0_ := ConfigDataIEC104.t0 (ConfigDataIEC104.apci (ConfigDataIEC104.protocol c));
  originator_address_ := ConfigDataIEC104.originator_address
    (ConfigDataIEC104.application_layer (ConfigDataIEC104.protocol c));
  gi_interval_ms_ := ConfigDataIEC104.gi_interval_ms (ConfigDataIEC104.communication c)
|}.

Section Manager.
Context (create_ok : client_params → bool).
Context (hash_order : gmap string ConfigDataIEC104.t → list (string * ConfigDataIEC104.t)).

(** [clients_] is the state. *)
Definition init_client (entry : string * ConfigDataIEC104.t) : prog (list IEC104Client) unit :=
  c ← liftO (IEC104Client_new (create_ok (params_of entry.2)) (params_of entry.2));
  match client_start c with
  | (Done true, c') => modifyS (λ cs, cs ++ [c'])
  | (Done false, _) => mret tt
  | (Threw e, _) => throwS e
  | (Undef w, _) => undefS w
  end.

Definition initClients (config : option ConfigData) : prog (list IEC104Client) unit :=
  match config with
  | None => mret tt
  | Some cd => iterS (hash_order (iec104 cd)) init_client
  end.

(** A call on every client of the vector, in order. *)
Definition on_each (m : prog IEC104Client unit) : prog (list IEC104Client) unit :=
  fix go cs :=
    match cs with
    | [] => (Done tt, [])
    | c :: cs' =>
        match m c with
        | (Done _, c') => let '(o, cs'') := go cs' in (o, c' :: cs'')
        | (Threw e, c') => (Threw e, c' :: cs')
        | (Undef w, c') => (Undef w, c' :: cs')
        end
    end.

(** The destructor: stop every client, then drop the last pointers to them. *)
Definition manager104_delete : prog (list IEC104Client) unit :=
  on_each client_stop;; on_each client_delete;; modifyS (λ _, []).
End Manager.

(** The client of the test program: [evs] is what the library and the worker
    do while it sleeps. *)
Definition testFunction (evs : list client_event) : prog IEC104Client unit :=
  _ ← client_start; iterS evs client_handle;; client_stop;; client_delete.

(** ** Lemmas *)

Ltac client_unfold :=
  unfold client_handle, client_delete, client_start, client_stop, run_iter, sendStartDT,
    sendStopDT, sendInterrogationCommand, connectionHandler, mbind, prog_bind, mret, prog_ret,
    getS, modifyS, undefS in *.

Definition is_library (ev : client_event) : bool :=
  match ev with CLibrary _ => true | _ => false end.

(** Case analysis over one step. *)
Ltac client_cases := repeat (case_match; simplify_eq/=; try done).

(** What a step can do to the flags and the wire of a client that has not
    recorded a STARTDT: the flag stays, and the wire grows by at most one
    STARTDT, or one STOPDT on request. *)
Lemma step_wire ev c :
  start_dt_sent_ c = false →
  let c' := (client_handle ev c).2 in
  start_dt_sent_ c' = false ∧
  (wire c' = wire c ∨ wire c' = wire c ++ [TxStartDT] ∨
   ev = CSendStopDT ∧ wire c' = wire c ++ [TxStopDT]).
Proof.
  intros Hdt. destruct ev; client_unfold; rewrite ?Hdt; simpl; client_cases; auto.
  all: rewrite ?orb_true_r in *; try done; auto.
Qed.

(** The semaphore counts the callbacks. *)
Lemma step_semaphore ev c :
  (0 < last_event_lock_ c)%nat → start_dt_sent_ c = false →
  last_event_lock_ (client_handle ev c).2 =
    (last_event_lock_ c + if is_library ev then 1 else 0)%nat.
Proof.
  intros Hpos Hdt. destruct ev; client_unfold; rewrite ?Hdt; simpl; client_cases; lia.
Qed.

(** A state of the lifecycle in which the worker is joinable exactly while
    the client is running and no loss of the connection has been seen. *)
Definition steady (c : IEC104Client) : Prop :=
  joinable c = crunning_ c ∧
  last_event_ c ≠ Some CS104_CONNECTION_CLOSED ∧ last_event_ c ≠ Some CS104_CONNECTION_FAILED.

Definition no_loss (ev : client_event) : bool :=
  match ev with
  | CLibrary CS104_CONNECTION_CLOSED | CLibrary CS104_CONNECTION_FAILED => false
  | _ => true
  end.

Lemma step_steady ev : no_loss ev = true → total_on steady (client_handle ev).
Proof.
  intros Hev c (Hj & H1 & H2).
  destruct (client_handle ev c) as [o c'] eqn:Hrun.
  assert ((∃ x, o = Done x) ∧ steady c') as [[x ->] Hs]; [|by exists x, c'].
  revert Hrun. unfold steady. destruct ev as [| | | | | |e]; client_unfold; simpl;
    try (destruct e; try discriminate); intros; client_cases; simplify_eq/=; gw_bool;
    split_and!; eauto; congruence.
Qed.

Lemma steady_delete c : steady c → ∃ c', client_delete c = (Done tt, c').
Proof.
  intros (Hj & _). client_unfold. destruct (crunning_ c) eqn:Hr; rewrite ?Hj.
  - simpl. destruct (start_dt_sent_ c); simpl; by eexists.
  - by eexists.
Qed.

Lemma steady_stop c : steady c → ∃ c', client_stop c = (Done tt, c') ∧ steady c'.
Proof.
  intros Hs. destruct (step_steady CStop eq_refl c Hs) as ([] & c' & Hrun & Hs'). by exists c'.
Qed.

Lemma steady_start c : crunning_ c = false → steady c →
  ∃ c', client_start c = (Done true, c') ∧ steady c'.
Proof.
  intros Hr (Hj & H1 & H2). rewrite Hr in Hj. client_unfold. rewrite Hr, Hj. by eexists.
Qed.

(** A call that every client allows. *)
Lemma on_each_ok (m : prog IEC104Client unit) (P Q : IEC104Client → Prop) cs :
  (∀ c, P c → ∃ c', m c = (Done tt, c') ∧ Q c') → Forall P cs →
  ∃ cs', on_each m cs = (Done tt, cs') ∧ Forall Q cs'.
Proof.
  intros Hm Hcs. induction Hcs as [|c cs Hc _ IH]; [by exists []|].
  destruct (Hm c Hc) as (c' & Hrun & HQ). destruct IH as (cs' & Hruns & HQs).
  exists (c' :: cs'). split; [|by constructor]. simpl. rewrite Hrun. by rewrite Hruns.
Qed.

(** A new client and the traces from it. *)
Definition client0 (p : client_params) : IEC104Client :=
  {| cparams := p; connecting := false; crunning_ := false; start_dt_sent_ := false;
     joinable := false; worker_runs := false; last_gi_sent_ := 0; last_event_lock_ := 1;
     last_event_ := None; wire := [] |}.

Lemma iterS_state_inv (P : list client_event → IEC104Client → Prop) evs c :
  P [] c →
  (∀ pre ev c, P pre c → P (pre ++ [ev]) (client_handle ev c).2) →
  ∃ pre, pre `prefix_of` evs ∧ P pre (iterS evs client_handle c).2 ∧
         ((iterS evs client_handle c).1 = Done tt → pre = evs).
Proof.
  intros H0 Hstep.
  assert (Hgen : ∀ evs done c, P done c →
    ∃ pre, pre `prefix_of` evs ∧ P (done ++ pre) (iterS evs client_handle c).2 ∧
           ((iterS evs client_handle c).1 = Done tt → pre = evs)).
  { clear c H0. intros evs'. induction evs' as [|ev evs' IH]; intros dn c Hc; simpl.
    { exists []. rewrite app_nil_r. by split_and!. }
    specialize (Hstep dn ev c Hc). unfold mbind, prog_bind.
    destruct (client_handle ev c) as [[[]|e|w] c1] eqn:Hrun; simpl in Hstep.
    - destruct (IH (dn ++ [ev]) c1 Hstep) as (pre & Hpre & HP & Hdone). exists (ev :: pre).
      rewrite <- app_assoc in HP. split; [by apply prefix_cons|]. split; [done|].
      intros Hd. f_equal. by apply Hdone.
    - exists [ev]. split; [apply prefix_cons, prefix_nil|]. by split.
    - exists [ev]. split; [apply prefix_cons, prefix_nil|]. by split. }
  apply (Hgen evs [] c H0).
Qed.

(** The callback on a message whose first object is a scaled value. *)
Lemma log_asdu_misreads `{Cs101Ok} s cot dp0 rest z :
  server_ok s → all_points s = dp0 :: rest → value dp0 = scaledValue z →
  (0 < asdu_capacity MEASURED_VALUE_SCALED)%nat →
  log_asdu (table_asdu s cot) = Undef "scaled value read as a single point".
Proof.
  intros Hs Hpts Hv Hcap. unfold table_asdu. rewrite Hpts. cbn [fmap list_fmap foldl].
  assert (∃ l, asdu_objects (foldl asdu_add (asdu_add
    {| asdu_cot := cot; asdu_oa := 0; asdu_ca := 1; asdu_objects := [] |} (io_of dp0))
    (io_of <$> rest)) = io_of dp0 :: l) as [l Hl].
  { assert (Hgen : ∀ ios a x l, asdu_objects a = x :: l → ∃ l', asdu_objects (foldl asdu_add a ios) = x :: l').
    { induction ios as [|io ios IH]; intros a x l Ha; simpl; [eauto|].
      unfold asdu_add at 2. destruct (asdu_accepts a io); [|eauto].
      eapply IH. simpl. by rewrite Ha. }
    eapply Hgen. unfold asdu_add. rewrite asdu_has_space; [done|done|].
    simpl. unfold io_of. by rewrite Hv. }
  unfold log_asdu, asdu_is_scaled. fold (fmap io_of rest).
  rewrite Hl. unfold io_of at 1 2. rewrite Hv. done.
Qed.

(** ** Properties *)

(** C37: the client never sends a general interrogation: the flag that records
    the STARTDT is never set, so in every reachable state interrogations are
    refused, none is on the wire, and STOPDT is sent only by an explicit
    call, never by stop. *)
Theorem interrogation_never_sent p evs :
  let c := (iterS evs client_handle (client0 p)).2 in
  start_dt_sent_ c = false ∧ TxInterrogation ∉ wire c ∧
  (CSendStopDT ∉ evs → TxStopDT ∉ wire c) ∧
  (∀ ok, sendInterrogationCommand ok c = (Done false, c)).
Proof.
  intros c.
  destruct (iterS_state_inv (λ pre c, start_dt_sent_ c = false ∧ TxInterrogation ∉ wire c ∧
    (CSendStopDT ∉ pre → TxStopDT ∉ wire c)) evs (client0 p)) as (pre & Hpre & (Hdt & Hgi & Hst) & _).
  - split_and!; [done|set_solver..].
  - intros pre ev c' (Hdt & Hgi & Hst). destruct (step_wire ev c' Hdt) as [Hdt' Hw].
    split; [done|]. destruct Hw as [->|[->|[-> ->]]]; set_solver.
  - fold c in Hdt, Hgi, Hst. split; [done|]. split; [done|]. split.
    + intros Hev. apply Hst. intros Hin. apply Hev. destruct Hpre as [k ->]. set_solver.
    + intros ok. unfold sendInterrogationCommand, mbind, prog_bind, getS.
      by rewrite Hdt, orb_true_r.
Qed.

(** C29: as long as the library reports no loss of the connection, any sequence
    of calls, callbacks and worker iterations runs without ending the program
    or throwing, the client can be deleted afterwards, and the worker never
    blocks: the semaphore counts one more than the callbacks so far (it is
    posted by every callback and never taken back, so it excludes nobody). *)
Theorem client_trace_ok p evs :
  forallb no_loss evs = true →
  ∃ c, iterS evs client_handle (client0 p) = (Done tt, c) ∧
    joinable c = crunning_ c ∧
    last_event_lock_ c = S (length (List.filter is_library evs)) ∧
    ∃ c', client_delete c = (Done tt, c').
Proof.
  intros Hevs.
  destruct (total_iterS steady evs client_handle) with (s := client0 p) as ([] & c & Hrun & Hs); [|done|].
  { intros ev Hev. apply step_steady. rewrite forallb_forall in Hevs. by apply Hevs, list_elem_of_In. }
  exists c. split; [done|]. split; [apply Hs|]. split; [|by apply steady_delete].
  destruct (iterS_state_inv (λ pre c, start_dt_sent_ c = false ∧
    last_event_lock_ c = S (length (List.filter is_library pre))) evs (client0 p))
    as (pre & _ & [_ Hsem] & Hpre); [done| |].
  - intros pre ev c' [Hdt Hsem]. split; [by apply step_wire|].
    rewrite step_semaphore by (done || lia). rewrite Hsem, List.filter_app, length_app. simpl.
    destruct (is_library ev); simpl; lia.
  - rewrite Hrun in *. by rewrite (Hpre eq_refl) in Hsem.
Qed.

(** Losing the connection is fatal to the program: once the worker of a
    running client has seen the connection closed or failed it stops itself
    without being joined, there is no reconnection, stop does nothing, and
    both a new start and the destructor end the program (a joinable
    std::thread is assigned, or destroyed). *)
Theorem connection_loss_terminates c e now ok n :
  crunning_ c = true → joinable c = true → worker_runs c = true → last_event_lock_ c = S n →
  e = CS104_CONNECTION_CLOSED ∨ e = CS104_CONNECTION_FAILED →
  ∃ c', (connectionHandler e;; run_iter now ok) c = (Done tt, c') ∧
    crunning_ c' = false ∧ wire c' = wire c ∧
    client_stop c' = (Done tt, c') ∧
    (client_start c').1 = Undef "std::terminate: assignment to a joinable thread" ∧
    (client_delete c').1 = Undef "std::terminate: joinable thread destroyed".
Proof.
  intros Hr Hj Hw Hn He. client_unfold. simpl. rewrite Hw, Hr. simpl.
  destruct He as [-> | ->]; simpl; rewrite Hj; eexists; (split; [done|]); simpl; split_and!; done.
Qed.

(** InitClients starts one client per configured device, in the order of
    the map, with the parameters of its configuration (the port reduced to 16
    bits); when a connection cannot be created the exception escapes and the
    clients started before it keep running. *)
Theorem initClients_spec create_ok hash_order cd cs :
  let entries := hash_order (iec104 cd) in
  let started c := set_run true true true (set_connecting (client0 (params_of c))) in
  (Forall (λ e, create_ok (params_of e.2) = true) entries →
   initClients create_ok hash_order (Some cd) cs =
     (Done tt, cs ++ (started ∘ snd <$> entries))) ∧
  (∀ pre e post, entries = pre ++ e :: post →
     Forall (λ e, create_ok (params_of e.2) = true) pre → create_ok (params_of e.2) = false →
     initClients create_ok hash_order (Some cd) cs =
       (Threw (RuntimeError "Failed to create CS104_Connection"), cs ++ (started ∘ snd <$> pre))).
Proof.
  intros entries started.
  assert (Hok : ∀ l cs, Forall (λ e, create_ok (params_of e.2) = true) l →
    iterS l (init_client create_ok) cs = (Done tt, cs ++ (started ∘ snd <$> l))).
  { intros l cs' Hl. revert cs'. induction Hl as [|e l He _ IH]; intros cs'; simpl.
    { by rewrite app_nil_r. }
    erewrite prog_bind_eq; [|unfold init_client, IEC104Client_new; rewrite He; reflexivity].
    rewrite IH. by rewrite <- app_assoc. }
  unfold initClients. fold entries. split; [apply Hok|].
  intros pre e post -> Hpre He. rewrite iterS_app, (prog_bind_eq _ _ _ _ _ (Hok pre cs Hpre)).
  simpl. unfold mbind at 1, prog_bind at 1. unfold init_client, IEC104Client_new. by rewrite He.
Qed.

(** The manager after any number of steps of its clients, none of which has
    lost its connection, can be deleted: every client is stopped, joined and
    destroyed. *)
Theorem manager104_delete_ok cs :
  Forall steady cs → manager104_delete cs = (Done tt, []).
Proof.
  intros Hcs. unfold manager104_delete.
  destruct (on_each_ok client_stop steady steady cs steady_stop Hcs) as (cs1 & Hrun1 & Hcs1).
  rewrite (prog_bind_eq _ _ _ _ _ Hrun1).
  destruct (on_each_ok client_delete steady (λ _, True) cs1) as (cs2 & Hrun2 & _); [|done|].
  { intros c Hc. destruct (steady_delete c Hc) as [c' ?]. by exists c'. }
  by rewrite (prog_bind_eq _ _ _ _ _ Hrun2).
Qed.

(** The client cannot take what the server sends: the callback reads the
    elements of a scaled-value message as single points, so every message of
    a server whose lowest address holds a scaled value, periodic or not, has
    undefined behaviour at the client. *)
Theorem client_misreads_scaled_values `{Cs101Ok} s cot dp0 rest z :
  server_ok s → all_points s = dp0 :: rest → value dp0 = scaledValue z →
  (0 < asdu_capacity MEASURED_VALUE_SCALED)%nat →
  asduReceivedHandler (Some log_asdu) (table_asdu s cot)
    = Undef "scaled value read as a single point".
Proof. intros Hs Hpts Hv Hcap. by eapply log_asdu_misreads. Qed.

(** ** Witnesses *)

Definition demo_cparams : client_params :=
  {| server_ip_ := "127.0.0.1"; server_port_ := 2404; local_ip_ := ""; local_port_ := -1;
     t0_ := 5; originator_address_ := 3; gi_interval_ms_ := 1000 |}.

Lemma client_trace_ok_witness :
  ∃ c, iterS [CStart; CLibrary CS104_CONNECTION_OPENED; CWorker 0 true;
              CLibrary CS104_CONNECTION_STARTDT_CON_RECEIVED; CWorker 5000 true; CStop]
         client_handle (client0 demo_cparams) = (Done tt, c) ∧
    joinable c = crunning_ c ∧ last_event_lock_ c = 3%nat ∧
    ∃ c', client_delete c = (Done tt, c').
Proof. by apply client_trace_ok. Defined.

Lemma connection_loss_terminates_witness :
  let c := (client_start (client0 demo_cparams)).2 in
  ∃ c', (connectionHandler CS104_CONNECTION_FAILED;; run_iter 0 true) c = (Done tt, c') ∧
    crunning_ c' = false ∧ wire c' = wire c ∧ client_stop c' = (Done tt, c') ∧
    (client_start c').1 = Undef "std::terminate: assignment to a joinable thread" ∧
    (client_delete c').1 = Undef "std::terminate: joinable thread destroyed".
Proof. intros c. apply (connection_loss_terminates c _ 0 true 0); try done. by right. Defined.

Lemma client_misreads_scaled_values_witness :
  asduReceivedHandler (Some log_asdu) (table_asdu (H := demo_cs101) demo_server104 CS101_COT_PERIODIC)
    = Undef "scaled value read as a single point".
Proof.
  eapply (@client_misreads_scaled_values _ demo_cs101_ok demo_server104 _ _ _ 1000);
    [apply demo_server104_ok|vm_compute; reflexivity|reflexivity|simpl; lia].
Defined.
