(* ===== verification/IcdParser.v ===== *)
(** * The ICD parser

    [IcdParser] of [core/iec61850/icd_parse.h]: from the SCL description of an
    IED to the list of data references with their functional constraints, the
    data sets and the report control blocks.  The document is what tinyxml2
    gives: the class [XMLDom] of elements with a name, attributes and child
    elements ([FirstChildElement]/[NextSiblingElement] with a name visit the
    children of that name in order; without one, all of them).  Passing a
    missing attribute to [strcmp] is undefined. *)

From Stdlib Require Import ZArith String Lia.
From stdpp Require Import base tactics option list numbers strings gmap.
From S2P Require Import Prelude.

Class XMLDom : Type := {
  XMLElement : Type;
  Name : XMLElement → string;
  Attribute : XMLElement → string → option string;      (* [None] is NULL *)
  BoolAttribute : XMLElement → string → bool → bool;
  ChildElements : XMLElement → list XMLElement
}.

Record DataNode := { path : string; fc : string }.

Record DataSetInfo := { dsi_name : string; fcdaPaths : list string }.

Record ReportControlInfo := { rci_name : string; datSet : string; rci_buffered : bool }.

Record ParseResult := {
  nodes : list DataNode;
  dataSetInfos : list DataSetInfo;
  reports : list ReportControlInfo
}.

Definition result_empty : ParseResult := {| nodes := []; dataSetInfos := []; reports := [] |}.

(** The results of two stretches of the document, one after the other. *)
Definition result_app (r1 r2 : ParseResult) : ParseResult :=
  {| nodes := nodes r1 ++ nodes r2; dataSetInfos := dataSetInfos r1 ++ dataSetInfos r2;
     reports := reports r1 ++ reports r2 |}.

#[export] Instance DataNode_eq_dec : EqDecision DataNode.
Proof. solve_decision. Defined.

(** A loop that appends the results of its iterations. *)
Fixpoint collectO {X} (f : X → outcome ParseResult) (l : list X) : outcome ParseResult :=
  match l with
  | [] => Done result_empty
  | x :: l' => r ← f x; rs ← collectO f l'; Done (result_app r rs)
  end.

Definition only_nodes (ns : list DataNode) : ParseResult :=
  {| nodes := ns; dataSetInfos := []; reports := [] |}.

(** A loop left by [return] in the iteration that finds something. *)
Fixpoint firstO {X Y} (f : X → outcome (option Y)) (l : list X) : outcome (option Y) :=
  match l with
  | [] => Done None
  | x :: l' => r ← f x; match r with Some y => Done (Some y) | None => firstO f l' end
  end.

Section Parser.
Context `{XMLDom}.

(** The children visited by [for (e = p->FirstChildElement(nm); e; e =
    e->NextSiblingElement(nm))]. *)
Definition children (e : XMLElement) (nm : string) : list XMLElement :=
  List.filter (λ c, String.eqb (Name c) nm) (ChildElements e).

Definition FirstChildElement (e : XMLElement) (nm : string) : option XMLElement :=
  head (children e nm).

(** [x ? x : dflt]. *)
Definition attr_or (e : XMLElement) (a dflt : string) : string := default dflt (Attribute e a).

(** [strcmp(e->Attribute(a), s) == 0]. *)
Definition attr_is (e : XMLElement) (a s : string) : outcome bool :=
  match Attribute e a with
  | Some v => Done (String.eqb v s)
  | None => Undef "strcmp on null"
  end.

(** The helpers get the root element [SCL], which [parse] has checked. *)
Definition templates (scl : XMLElement) : option XMLElement :=
  FirstChildElement scl "DataTypeTemplates".

Definition getDoTypeId (scl : XMLElement) (lnType doName : option string) : outcome string :=
  match lnType, doName, templates scl with
  | Some lt, Some dn, Some dtt =>
      r ← firstO (λ lnt,
            b ← attr_is lnt "id" lt;
            if negb b then Done None
            else firstO (λ doElem,
                   b ← attr_is doElem "name" dn;
                   Done (if (b : bool) then Some (attr_or doElem "type" "") else None))
                 (children lnt "DO"))
          (children dtt "LNodeType");
      Done (default "" r)
  | _, _, _ => Done ""
  end%string.

Definition isControlObject (scl : XMLElement) (doTypeId : string) : outcome bool :=
  match templates scl with
  | None => Done false
  | Some dtt =>
      r ← firstO (λ doType,
            b ← attr_is doType "id" doTypeId;
            Done (if (b : bool) then
                    Some (match Attribute doType "cdc" with
                          | Some cdc => String.eqb cdc "SPC" || String.eqb cdc "DPC"
                          | None => false
                          end)
                  else None))
          (children dtt "DOType");
      Done (default false r)
  end.

Definition getFcFromDoType (scl : XMLElement) (lnType doName daName : option string)
    : outcome string :=
  match lnType, doName, daName, templates scl with
  | Some lt, Some dn, Some an, Some dtt =>
      r ← firstO (λ lnt,
            b ← attr_is lnt "id" lt;
            if negb b then Done None
            else firstO (λ doElem,
                   b ← attr_is doElem "name" dn;
                   match b, Attribute doElem "type" with
                   | true, Some doTypeId =>
                       firstO (λ doType,
                         b ← attr_is doType "id" doTypeId;
                         if negb b then Done None
                         else firstO (λ da,
                                b ← attr_is da "name" an;
                                Done (if (b : bool) then Some (attr_or da "fc" "") else None))
                              (children doType "DA"))
                       (children dtt "DOType")
                   | _, _ => Done None
                   end)
                 (children lnt "DO"))
          (children dtt "LNodeType");
      Done (default "" r)
  | _, _, _, _ => Done ""
  end%string.

(** The nodes that one [DA] of a data object adds. *)
Definition da_nodes (lnRef doNameStr : string) (da : XMLElement) : list DataNode :=
  match Attribute da "name", Attribute da "fc" with
  | Some daName, Some f => [{| path := lnRef +:+ "." +:+ doNameStr +:+ "." +:+ daName; fc := f |}]
  | _, _ => []
  end%string.

Definition do_nodes (scl dtt : XMLElement) (lnRef : string) (doElem : XMLElement)
    : outcome (list DataNode) :=
  let doNameStr := attr_or doElem "name" "" in
  match Attribute doElem "type" with
  | None => Done []
  | Some doTypeId =>
      ctl ← isControlObject scl doTypeId;
      das ← mapO (λ doType,
              b ← attr_is doType "id" doTypeId;
              Done (if (b : bool) then flat_map (da_nodes lnRef doNameStr) (children doType "DA")
                    else []))
            (children dtt "DOType");
      Done ((if (ctl : bool) then [{| path := lnRef +:+ "." +:+ doNameStr; fc := "CO" |}] else [])
            ++ concat das)
  end.

Definition extractAllDoDa (scl : XMLElement) (lnRef lnType : string) : outcome (list DataNode) :=
  match templates scl with
  | None => Done []
  | Some dtt =>
      ns ← mapO (λ lnt,
             b ← attr_is lnt "id" lnType;
             if negb b then Done []
             else dos ← mapO (do_nodes scl dtt lnRef) (children lnt "DO"); Done (concat dos))
           (children dtt "LNodeType");
      Done (concat ns)
  end.

(** *** The loops of [parse] over one logical node *)

Definition fcda_path (iedNameStr : string) (fcda : XMLElement) : string :=
  iedNameStr +:+ attr_or fcda "ldInst" "" +:+ "/" +:+ attr_or fcda "lnClass" ""
    +:+ attr_or fcda "lnInst" "" +:+ "." +:+ attr_or fcda "doName" ""
    +:+ match Attribute fcda "daName" with Some da => "." +:+ da | None => "" end.

Definition parse_dataset (iedNameStr : string) (ds : XMLElement) : ParseResult :=
  let kept := List.filter (λ f, match Attribute f "fc" with Some _ => true | None => false end)
                (children ds "FCDA") in
  {| nodes := (λ f, {| path := fcda_path iedNameStr f; fc := attr_or f "fc" "" |}) <$> kept;
     dataSetInfos := [{| dsi_name := attr_or ds "name" ""; fcdaPaths := fcda_path iedNameStr <$> kept |}];
     reports := [] |}.

Definition parse_report (rpt : XMLElement) : ParseResult :=
  {| nodes := []; dataSetInfos := [];
     reports := [{| rci_name := attr_or rpt "name" ""; datSet := attr_or rpt "datSet" "";
                    rci_buffered := BoolAttribute rpt "buffered" false |}] |}.

Definition parse_dai (scl ln : XMLElement) (lnRef : string) (doi dai : XMLElement)
    : outcome ParseResult :=
  f ← getFcFromDoType scl (Attribute ln "lnType") (Attribute doi "name") (Attribute dai "name");
  Done (only_nodes
    (if String.eqb f "" then []
     else [{| path := lnRef +:+ "." +:+ attr_or doi "name" "" +:+ "." +:+ attr_or dai "name" ""; fc := f |}])).

Definition parse_doi (scl ln : XMLElement) (lnRef : string) (doi : XMLElement)
    : outcome ParseResult :=
  doTypeId ← getDoTypeId scl (Attribute ln "lnType") (Attribute doi "name");
  ctl ← (if String.eqb doTypeId "" then Done false else isControlObject scl doTypeId);
  dais ← collectO (parse_dai scl ln lnRef doi) (children doi "DAI");
  Done (result_app
    (only_nodes (if (ctl : bool) then [{| path := lnRef +:+ "." +:+ attr_or doi "name" ""; fc := "CO" |}]
                 else [])) dais).

(** The reference of a logical node. *)
Definition ln_ref (iedNameStr ldInstStr : string) (ln : XMLElement) : string :=
  iedNameStr +:+ ldInstStr +:+ "/" +:+ attr_or ln "lnClass" "" +:+ attr_or ln "inst" "".

Definition parse_ln (scl : XMLElement) (iedNameStr ldInstStr : string) (ln : XMLElement)
    : outcome ParseResult :=
  if negb (String.eqb (Name ln) "LN") && negb (String.eqb (Name ln) "LN0") then Done result_empty
  else
    let lnRef := ln_ref iedNameStr ldInstStr ln in
    dois ← collectO (parse_doi scl ln lnRef) (children ln "DOI");
    let lnType := attr_or ln "lnType" "" in
    all ← (if String.eqb lnType "" then Done [] else extractAllDoDa scl lnRef lnType);
    let dss := foldr result_app result_empty (parse_dataset iedNameStr <$> children ln "DataSet") in
    let rpts := foldr result_app result_empty (parse_report <$> children ln "ReportControl") in
    Done (result_app dss (result_app rpts (result_app dois (only_nodes all)))).

Definition parse_ldevice (scl : XMLElement) (iedNameStr : string) (lDevice : XMLElement)
    : outcome ParseResult :=
  collectO (parse_ln scl iedNameStr (attr_or lDevice "inst" "UnknownLDevice")) (ChildElements lDevice).

Definition parse_ap (scl : XMLElement) (iedNameStr : string) (ap : XMLElement)
    : outcome ParseResult :=
  match FirstChildElement ap "Server" with
  | None => Done result_empty
  | Some server => collectO (parse_ldevice scl iedNameStr) (children server "LDevice")
  end.

Definition parse_ied (scl ied : XMLElement) : outcome ParseResult :=
  collectO (parse_ap scl (attr_or ied "name" "UnknownIED")) (children ied "AccessPoint").

(** [doc]: the document's root, [None] when the file does not load. *)
Definition parse (doc : option XMLElement) : outcome ParseResult :=
  match doc with
  | None => Done result_empty
  | Some d =>
      match FirstChildElement d "SCL" with
      | None => Done result_empty
      | Some scl => collectO (parse_ied scl) (children scl "IED")
      end
  end.
End Parser.

(** ** Lemmas *)

(** [o] returns. *)
Definition returns {A} (o : outcome A) : Prop := ∃ a, o = Done a.

Lemma returns_bind {A B} (o : outcome A) (f : A → outcome B) :
  returns o → (∀ a, returns (f a)) → returns (o ≫= f).
Proof. intros [a ->] Hf. apply Hf. Qed.

Lemma returns_firstO {X Y} (f : X → outcome (option Y)) l :
  (∀ x, x ∈ l → returns (f x)) → returns (firstO f l).
Proof.
  induction l as [|x l IH]; intros Hf; simpl; [by eexists|].
  apply returns_bind; [apply Hf; left|]. intros [y|]; [by eexists|]. apply IH. set_solver.
Qed.

Lemma returns_mapO {X Y} (f : X → outcome Y) l :
  (∀ x, x ∈ l → returns (f x)) → returns (mapO f l).
Proof.
  induction l as [|x l IH]; intros Hf; simpl; [by eexists|].
  apply returns_bind; [apply Hf; left|]. intros y.
  apply returns_bind; [apply IH; set_solver|]. by eexists.
Qed.

Lemma returns_collectO {X} (f : X → outcome ParseResult) l :
  (∀ x, x ∈ l → returns (f x)) → returns (collectO f l).
Proof.
  induction l as [|x l IH]; intros Hf; simpl; [by eexists|].
  apply returns_bind; [apply Hf; left|]. intros y.
  apply returns_bind; [apply IH; set_solver|]. by eexists.
Qed.

(** A successful loop returns what its iterations return. *)
Lemma mapO_elem {X Y} (f : X → outcome Y) l ys :
  mapO f l = Done ys → ∀ y, y ∈ ys ↔ ∃ x, x ∈ l ∧ f x = Done y.
Proof.
  revert ys. induction l as [|x l IH]; intros ys Hm y; simpl in Hm.
  { simplify_eq. set_solver. }
  apply outcome_bind_Done in Hm as (y1 & Hy1 & Hm).
  apply outcome_bind_Done in Hm as (ys1 & Hys1 & ?). simplify_eq.
  rewrite elem_of_cons, (IH ys1 Hys1). split.
  - intros [->|(x' & ? & ?)]; [exists x; set_solver|exists x'; set_solver].
  - intros (x' & [->|Hx']%elem_of_cons & Hf); [left; congruence|right; eauto].
Qed.

Lemma mapO_at {X Y} (f : X → outcome Y) l ys x :
  mapO f l = Done ys → x ∈ l → ∃ y, y ∈ ys ∧ f x = Done y.
Proof.
  revert ys. induction l as [|x' l IH]; intros ys Hm Hx; [by apply elem_of_nil in Hx|].
  simpl in Hm. apply outcome_bind_Done in Hm as (y & Hy & Hm).
  apply outcome_bind_Done in Hm as (ys1 & Hys1 & ?). simplify_eq.
  apply elem_of_cons in Hx as [->|Hx]; [exists y; set_solver|].
  destruct (IH ys1 Hys1 Hx) as (y' & ? & ?). exists y'. set_solver.
Qed.

(** What an early-returning loop found, one of its elements had. *)
Lemma firstO_Some {X Y} (f : X → outcome (option Y)) l y :
  firstO f l = Done (Some y) → ∃ x, x ∈ l ∧ f x = Done (Some y).
Proof.
  induction l as [|x l IH]; intros Hf; simpl in Hf; [done|].
  apply outcome_bind_Done in Hf as ([y'|] & Hx & Hf); simplify_eq.
  - exists x. set_solver.
  - destruct (IH Hf) as (x' & ? & ?). exists x'. set_solver.
Qed.

Lemma elem_of_concat {X} (y : X) (ls : list (list X)) : y ∈ concat ls ↔ ∃ l, l ∈ ls ∧ y ∈ l.
Proof.
  induction ls as [|l ls IH]; simpl; [set_solver|]. rewrite elem_of_app, IH. set_solver.
Qed.

Lemma elem_of_flat_map' {X Y} (f : X → list Y) l y : y ∈ flat_map f l ↔ ∃ x, x ∈ l ∧ y ∈ f x.
Proof. induction l as [|x l IH]; simpl; [set_solver|]. rewrite elem_of_app, IH. set_solver. Qed.

Lemma elem_of_List_filter {X} (f : X → bool) l x : x ∈ List.filter f l ↔ x ∈ l ∧ f x = true.
Proof. rewrite !list_elem_of_In. apply List.filter_In. Qed.

Section ParserLemmas.
Context `{XMLDom}.

(** The identifiers that the parser compares are all there. *)
Definition templates_ok (scl : XMLElement) : Prop :=
  ∀ dtt, templates scl = Some dtt →
    (∀ lnt, lnt ∈ children dtt "LNodeType" → is_Some (Attribute lnt "id") ∧
       ∀ d, d ∈ children lnt "DO" → is_Some (Attribute d "name")) ∧
    (∀ t, t ∈ children dtt "DOType" → is_Some (Attribute t "id") ∧
       ∀ da, da ∈ children t "DA" → is_Some (Attribute da "name")).

Lemma attr_is_some e a s : is_Some (Attribute e a) → returns (attr_is e a s).
Proof. unfold attr_is. intros [v ->]. by eexists. Qed.

Lemma attr_is_true e a s : attr_is e a s = Done true → Attribute e a = Some s.
Proof.
  unfold attr_is. destruct (Attribute e a); intros; simplify_eq. gw_bool. by subst.
Qed.

Lemma returns_isControlObject scl ty : templates_ok scl → returns (isControlObject scl ty).
Proof.
  intros Hok. unfold isControlObject. destruct (templates scl) as [dtt|] eqn:Ht; [|by eexists].
  destruct (Hok dtt Ht) as [_ Hty]. apply returns_bind; [|by eexists].
  apply returns_firstO. intros t Hin. apply returns_bind; [by apply attr_is_some, Hty|by eexists].
Qed.

Lemma returns_getDoTypeId scl lt dn : templates_ok scl → returns (getDoTypeId scl lt dn).
Proof.
  intros Hok. unfold getDoTypeId. destruct lt as [lt|], dn as [dn|]; [|by eexists..].
  destruct (templates scl) as [dtt|] eqn:Ht; [|by eexists]. destruct (Hok dtt Ht) as [Hln _].
  apply returns_bind; [|by eexists]. apply returns_firstO. intros lnt Hin.
  destruct (Hln lnt Hin) as [Hid Hdo]. apply returns_bind; [by apply attr_is_some|].
  intros []; [|by eexists]. apply returns_firstO. intros d Hd.
  apply returns_bind; [by apply attr_is_some, Hdo|by eexists].
Qed.

Lemma returns_getFc scl lt dn an : templates_ok scl → returns (getFcFromDoType scl lt dn an).
Proof.
  intros Hok. unfold getFcFromDoType. destruct lt as [lt|], dn as [dn|], an as [an|]; [|by eexists..].
  destruct (templates scl) as [dtt|] eqn:Ht; [|by eexists]. destruct (Hok dtt Ht) as [Hln Hty].
  apply returns_bind; [|by eexists]. apply returns_firstO. intros lnt Hin.
  destruct (Hln lnt Hin) as [Hid Hdo]. apply returns_bind; [by apply attr_is_some|].
  intros []; [|by eexists]. apply returns_firstO. intros d Hd.
  apply returns_bind; [by apply attr_is_some, Hdo|]. intros []; [|by eexists].
  destruct (Attribute d "type") as [ty|]; [|by eexists].
  apply returns_firstO. intros t Ht'. destruct (Hty t Ht') as [Htid Hda].
  apply returns_bind; [by apply attr_is_some|]. intros []; [|by eexists].
  apply returns_firstO. intros da Hda'.
  apply returns_bind; [by apply attr_is_some, Hda|by eexists].
Qed.

Lemma returns_do_nodes scl dtt ref d :
  templates_ok scl → templates scl = Some dtt → returns (do_nodes scl dtt ref d).
Proof.
  intros Hok Ht. destruct (Hok dtt Ht) as [_ Hty]. unfold do_nodes.
  destruct (Attribute d "type") as [ty|]; [|by eexists].
  apply returns_bind; [by apply returns_isControlObject|]. intros ctl.
  apply returns_bind; [|by eexists]. apply returns_mapO. intros t Ht'.
  apply returns_bind; [by apply attr_is_some, Hty|by eexists].
Qed.

Lemma returns_extract scl ref lt : templates_ok scl → returns (extractAllDoDa scl ref lt).
Proof.
  intros Hok. unfold extractAllDoDa. destruct (templates scl) as [dtt|] eqn:Ht; [|by eexists].
  destruct (Hok dtt Ht) as [Hln _].
  apply returns_bind; [|by eexists]. apply returns_mapO. intros lnt Hin.
  destruct (Hln lnt Hin) as [Hid _]. apply returns_bind; [by apply attr_is_some|].
  intros []; [|by eexists]. apply returns_bind; [|by eexists]. apply returns_mapO. intros d Hd.
  by apply returns_do_nodes.
Qed.

Lemma returns_parse_ln scl ied ld ln : templates_ok scl → returns (parse_ln scl ied ld ln).
Proof.
  intros Hok. unfold parse_ln. destruct (_ && _); [by eexists|].
  apply returns_bind.
  - apply returns_collectO. intros doi _. unfold parse_doi.
    apply returns_bind; [by apply returns_getDoTypeId|]. intros ty.
    apply returns_bind; [case_match; [by eexists|by apply returns_isControlObject]|]. intros ctl.
    apply returns_bind; [|by eexists]. apply returns_collectO. intros dai _. unfold parse_dai.
    apply returns_bind; [by apply returns_getFc|by eexists].
  - intros dois. apply returns_bind; [case_match; [by eexists|by apply returns_extract]|by eexists].
Qed.

Lemma returns_parse doc :
  (∀ d scl, doc = Some d → FirstChildElement d "SCL" = Some scl → templates_ok scl) → returns (parse doc).
Proof.
  intros Hok. destruct doc as [d|]; [|by eexists]. simpl.
  destruct (FirstChildElement d "SCL") as [scl|] eqn:Hscl; [|by eexists].
  apply returns_collectO. intros ied _. apply returns_collectO. intros ap _. unfold parse_ap.
  destruct (FirstChildElement ap "Server") as [server|]; [|by eexists].
  apply returns_collectO. intros ldev _. apply returns_collectO. intros ln _.
  by apply returns_parse_ln, (Hok d scl).
Qed.

(** The data attribute [da] of the data object [d] of a node type [lt]. *)
Definition typed_attribute (dtt : XMLElement) (lt : string) (d da : XMLElement) : Prop :=
  ∃ lnt t ty, lnt ∈ children dtt "LNodeType" ∧ Attribute lnt "id" = Some lt ∧
    d ∈ children lnt "DO" ∧ Attribute d "type" = Some ty ∧
    t ∈ children dtt "DOType" ∧ Attribute t "id" = Some ty ∧ da ∈ children t "DA".

(** A data object of a node type and its type identifier. *)
Definition typed_object (dtt : XMLElement) (lt : string) (d : XMLElement) (ty : string) : Prop :=
  ∃ lnt, lnt ∈ children dtt "LNodeType" ∧ Attribute lnt "id" = Some lt ∧
    d ∈ children lnt "DO" ∧ Attribute d "type" = Some ty.

Lemma elem_of_do_nodes scl dtt ref d ty ns n :
  Attribute d "type" = Some ty → do_nodes scl dtt ref d = Done ns →
  n ∈ ns ↔
    (isControlObject scl ty = Done true ∧ n = {| path := ref +:+ "." +:+ attr_or d "name" ""; fc := "CO" |}) ∨
    (∃ t da an f, t ∈ children dtt "DOType" ∧ Attribute t "id" = Some ty ∧ da ∈ children t "DA" ∧
       Attribute da "name" = Some an ∧ Attribute da "fc" = Some f ∧
       n = {| path := ref +:+ "." +:+ attr_or d "name" "" +:+ "." +:+ an; fc := f |}).
Proof.
  intros Hty Hrun. unfold do_nodes in Hrun. rewrite Hty in Hrun.
  apply outcome_bind_Done in Hrun as (ctl & Hctl & Hrun).
  apply outcome_bind_Done in Hrun as (das & Hdas & ?). simplify_eq.
  rewrite elem_of_app, elem_of_concat, Hctl. apply Morphisms_Prop.or_iff_morphism.
  - destruct ctl; set_unfold; naive_solver.
  - split.
    + intros (l & Hl & Hn). apply (mapO_elem _ _ _ Hdas) in Hl as (t & Ht & Hl).
      apply outcome_bind_Done in Hl as (b & Hb & ?). simplify_eq.
      destruct b; [|by apply elem_of_nil in Hn]. apply attr_is_true in Hb.
      apply elem_of_flat_map' in Hn as (da & Hda & Hn). unfold da_nodes in Hn.
      destruct (Attribute da "name") as [an|] eqn:Han, (Attribute da "fc") as [f|] eqn:Hf;
        set_unfold in Hn; [|done..]. exists t, da, an, f. naive_solver.
    + intros (t & da & an & f & Ht & Hid & Hda & Han & Hf & ->).
      destruct (mapO_at _ _ _ t Hdas Ht) as (l & Hl & Hrun). exists l. split; [done|].
      unfold attr_is in Hrun. rewrite Hid, String.eqb_refl in Hrun. simpl in Hrun. simplify_eq.
      apply elem_of_flat_map'. exists da. split; [done|]. unfold da_nodes. rewrite Han, Hf.
      set_solver.
Qed.

(** The references that the type templates give a logical node. *)
Lemma elem_of_extract scl dtt ref lt ns n :
  templates scl = Some dtt → extractAllDoDa scl ref lt = Done ns →
  n ∈ ns ↔ ∃ d ty, typed_object dtt lt d ty ∧ ∃ l, do_nodes scl dtt ref d = Done l ∧ n ∈ l.
Proof.
  intros Ht Hext. unfold extractAllDoDa in Hext. rewrite Ht in Hext.
  apply outcome_bind_Done in Hext as (nss & Hm & ?). simplify_eq. rewrite elem_of_concat. split.
  - intros (l & Hl & Hn). apply (mapO_elem _ _ _ Hm) in Hl as (lnt & Hlnt & Hrun).
    apply outcome_bind_Done in Hrun as ([] & Hb & Hrun); simplify_eq/=; [|by apply elem_of_nil in Hn].
    apply outcome_bind_Done in Hrun as (dos & Hdos & ?). simplify_eq.
    apply elem_of_concat in Hn as (l & Hl & Hn).
    apply (mapO_elem _ _ _ Hdos) in Hl as (d & Hd & Hrun). apply attr_is_true in Hb.
    destruct (Attribute d "type") as [ty|] eqn:Hty.
    + exists d, ty. split; [by exists lnt|]. eauto.
    + unfold do_nodes in Hrun. rewrite Hty in Hrun. simplify_eq. by apply elem_of_nil in Hn.
  - intros (d & ty & (lnt & Hlnt & Hid & Hd & Hty) & l & Hl & Hn).
    destruct (mapO_at _ _ _ lnt Hm Hlnt) as (l' & Hl' & Hrun). exists l'. split; [done|].
    unfold attr_is in Hrun. rewrite Hid, String.eqb_refl in Hrun. simpl in Hrun.
    apply outcome_bind_Done in Hrun as (dos & Hdos & ?). simplify_eq.
    apply elem_of_concat. destruct (mapO_at _ _ _ d Hdos Hd) as (l2 & Hl2 & Hrun).
    exists l2. split; [done|]. congruence.
Qed.

(** What an instance attribute's functional constraint comes from. *)
Lemma getFc_found scl dtt lt dn an f :
  templates scl = Some dtt → getFcFromDoType scl (Some lt) (Some dn) (Some an) = Done f → f ≠ "" →
  ∃ d ty t da, typed_object dtt lt d ty ∧ Attribute d "name" = Some dn ∧
    t ∈ children dtt "DOType" ∧ Attribute t "id" = Some ty ∧ da ∈ children t "DA" ∧
    Attribute da "name" = Some an ∧ Attribute da "fc" = Some f.
Proof.
  intros Ht Hget Hne. unfold getFcFromDoType in Hget. rewrite Ht in Hget.
  apply outcome_bind_Done in Hget as ([f'|] & Hfirst & ?); simplify_eq/=.
  apply firstO_Some in Hfirst as (lnt & Hlnt & Hrun).
  apply outcome_bind_Done in Hrun as (b1 & Hb1 & Hrun); destruct b1; simplify_eq/=;
    apply attr_is_true in Hb1.
  apply firstO_Some in Hrun as (d & Hd & Hrun).
  apply outcome_bind_Done in Hrun as (b2 & Hb2 & Hrun); destruct b2; simplify_eq/=;
    apply attr_is_true in Hb2.
  destruct (Attribute d "type") as [ty|] eqn:Hty; simplify_eq/=.
  apply firstO_Some in Hrun as (t & Htt & Hrun).
  apply outcome_bind_Done in Hrun as (b3 & Hb3 & Hrun); destruct b3; simplify_eq/=;
    apply attr_is_true in Hb3.
  apply firstO_Some in Hrun as (da & Hda & Hrun).
  apply outcome_bind_Done in Hrun as (b4 & Hb4 & Hrun); destruct b4; simplify_eq/=;
    apply attr_is_true in Hb4.
  unfold attr_or in Hne. destruct (Attribute da "fc") as [f|] eqn:Hf; [|done].
  exists d, ty, t, da. split; [by exists lnt|]. unfold attr_or. by rewrite Hf.
Qed.
End ParserLemmas.

(** ** Properties *)

(** C27: on a document whose type templates name every node type, data object,
    object type and attribute, the parser returns (it compares no missing
    attribute), whatever else the document holds or lacks. *)
Theorem parse_returns `{XMLDom} doc :
  (∀ d scl, doc = Some d → FirstChildElement d "SCL" = Some scl → templates_ok scl) →
  ∃ r, parse doc = Done r.
Proof. apply returns_parse. Qed.

(** The references extracted for a logical node are exactly those of its
    type: one "CO" reference per data object of class SPC or DPC, and one
    reference with its functional constraint per named, constrained attribute
    of the object's type. *)
Theorem extracted_references `{XMLDom} scl dtt lnRef lnType ns n :
  templates scl = Some dtt → extractAllDoDa scl lnRef lnType = Done ns → templates_ok scl →
  n ∈ ns ↔ ∃ d ty, typed_object dtt lnType d ty ∧
    ((isControlObject scl ty = Done true ∧
      n = {| path := lnRef +:+ "." +:+ attr_or d "name" ""; fc := "CO" |}) ∨
     (∃ t da an f, t ∈ children dtt "DOType" ∧ Attribute t "id" = Some ty ∧ da ∈ children t "DA" ∧
        Attribute da "name" = Some an ∧ Attribute da "fc" = Some f ∧
        n = {| path := lnRef +:+ "." +:+ attr_or d "name" "" +:+ "." +:+ an; fc := f |})).
Proof.
  intros Ht Hext Hok. rewrite (elem_of_extract scl dtt lnRef lnType ns n Ht Hext). split.
  - intros (d & ty & Hd & l & Hl & Hn). exists d, ty. split; [done|].
    destruct Hd as (lnt & _ & _ & _ & Hty). by apply (elem_of_do_nodes scl dtt lnRef d ty l n Hty Hl).
  - intros (d & ty & Hd & Hn). exists d, ty. split; [done|].
    destruct Hd as (lnt & Hlnt & _ & Hdd & Hty).
    destruct (returns_do_nodes scl dtt lnRef d Hok Ht) as [l Hl].
    exists l. split; [done|]. by apply (elem_of_do_nodes scl dtt lnRef d ty l n Hty Hl).
Qed.

(** The references taken from the instance section (DOI/DAI) are all among
    those extracted from the templates: every attribute that the instance
    section gives a value is listed twice in the result. *)
Theorem instance_references_repeated `{XMLDom} scl ln lnRef doi dai r ns n :
  parse_dai scl ln lnRef doi dai = Done r → n ∈ nodes r →
  extractAllDoDa scl lnRef (attr_or ln "lnType" "") = Done ns → n ∈ ns.
Proof.
  intros Hdai Hn Hext. unfold parse_dai in Hdai.
  apply outcome_bind_Done in Hdai as (f & Hf & ?). simplify_eq/=.
  destruct (String.eqb_spec f "") as [->|Hne]; [by apply elem_of_nil in Hn|].
  set_unfold in Hn. destruct Hn as [->|[]].
  destruct (Attribute ln "lnType") as [lt|] eqn:Hlt, (Attribute doi "name") as [dn|] eqn:Hdn,
    (Attribute dai "name") as [an|] eqn:Han; try (by unfold getFcFromDoType in Hf; simplify_eq).
  destruct (templates scl) as [dtt|] eqn:Ht;
    [|unfold getFcFromDoType in Hf; rewrite Ht in Hf; by simplify_eq].
  unfold attr_or in Hext. rewrite Hlt in Hext. simpl in Hext.
  destruct (getFc_found scl dtt lt dn an f Ht Hf Hne)
    as (d & ty & t & da & Hobj & Hdname & Htt & Htid & Hda & Hdan & Hdafc).
  apply (elem_of_extract scl dtt lnRef lt ns _ Ht Hext). exists d, ty. split; [done|].
  destruct Hobj as (lnt & Hlnt & Hid & Hd & Hty).
  assert (∃ l, do_nodes scl dtt lnRef d = Done l) as [l Hl].
  { unfold extractAllDoDa in Hext. rewrite Ht in Hext.
    apply outcome_bind_Done in Hext as (nss & Hm & _).
    destruct (mapO_at _ _ _ lnt Hm Hlnt) as (l' & _ & Hrun).
    unfold attr_is in Hrun. rewrite Hid, String.eqb_refl in Hrun. simpl in Hrun.
    apply outcome_bind_Done in Hrun as (dos & Hdos & _).
    destruct (mapO_at _ _ _ d Hdos Hd) as (l2 & _ & Hrun). eauto. }
  exists l. split; [done|]. apply (elem_of_do_nodes scl dtt lnRef d ty l _ Hty Hl). right.
  exists t, da, an, f. unfold attr_or. by rewrite Hdn, Han, Hdname.
Qed.

(** The prefix of a logical node plays no part: two nodes that differ only
    in it give the same references, data sets and reports, so their
    references collide (the standard names a node by prefix, class and
    instance). *)
Theorem node_prefix_ignored `{XMLDom} scl ied ld ln1 ln2 :
  Name ln1 = Name ln2 → ChildElements ln1 = ChildElements ln2 →
  (∀ a, a ≠ "prefix" → Attribute ln1 a = Attribute ln2 a) →
  parse_ln scl ied ld ln1 = parse_ln scl ied ld ln2.
Proof.
  intros Hname Hch Hattr.
  assert (∀ nm, children ln1 nm = children ln2 nm) as Hc by (intros; unfold children; by rewrite Hch).
  assert (Hlt : Attribute ln1 "lnType" = Attribute ln2 "lnType") by (by apply Hattr).
  unfold parse_ln, ln_ref, attr_or. rewrite Hname, !Hc, Hlt, !Hattr by done.
  unfold parse_doi, parse_dai. by rewrite Hlt.
Qed.

(** ** Witnesses: documents as trees *)

Inductive demo_elem : Type :=
| E (name : string) (attrs : list (string * string)) (kids : list demo_elem).

Fixpoint assoc (l : list (string * string)) (a : string) : option string :=
  match l with
  | [] => None
  | (k, v) :: l' => if String.eqb k a then Some v else assoc l' a
  end.

Definition demo_dom : XMLDom := {|
  XMLElement := demo_elem;
  Name '(E nm _ _) := nm;
  Attribute '(E _ attrs _) a := assoc attrs a;
  BoolAttribute '(E _ attrs _) a dflt :=
    match assoc attrs a with Some v => String.eqb v "true" | None => dflt end;
  ChildElements '(E _ _ kids) := kids
|}.

Definition demo_da (nm f : string) : demo_elem := E "DA" [("name", nm); ("fc", f)]%string [].

Definition demo_templates : demo_elem :=
  E "DataTypeTemplates" []
    [E "LNodeType" [("id", "GGIO_t")]%string [E "DO" [("name", "SPCSO1"); ("type", "SPC_t")]%string []];
     E "DOType" [("id", "SPC_t"); ("cdc", "SPC")]%string [demo_da "stVal" "ST"; demo_da "ctlModel" "CF"]].

Definition demo_doi : demo_elem :=
  E "DOI" [("name", "SPCSO1")]%string [E "DAI" [("name", "ctlModel")]%string []].

Definition demo_ln (prefix : string) : demo_elem :=
  E "LN" [("prefix", prefix); ("lnClass", "GGIO"); ("inst", "1"); ("lnType", "GGIO_t")]%string [demo_doi].

Definition demo_scl : demo_elem :=
  E "SCL" []
    [E "IED" [("name", "IED1")]%string
       [E "AccessPoint" []
          [E "Server" [] [E "LDevice" [("inst", "GenericIO")]%string [demo_ln ""]]]];
     demo_templates].

Definition demo_doc : demo_elem := E "" [] [demo_scl].

Lemma demo_templates_ok : @templates_ok demo_dom demo_scl.
Proof.
  intros dtt Ht. vm_compute in Ht. simplify_eq. split.
  - intros lnt Hlnt. vm_compute in Hlnt. apply elem_of_cons in Hlnt as [->|Hlnt]; [|by apply elem_of_nil in Hlnt].
    split; [by eexists|]. intros d Hd. vm_compute in Hd.
    apply elem_of_cons in Hd as [->|Hd]; [by eexists|by apply elem_of_nil in Hd].
  - intros t Hin. vm_compute in Hin. apply elem_of_cons in Hin as [->|Hin]; [|by apply elem_of_nil in Hin].
    split; [by eexists|]. intros d Hd. vm_compute in Hd.
    apply elem_of_cons in Hd as [->|Hd]; [by eexists|].
    apply elem_of_cons in Hd as [->|Hd]; [by eexists|by apply elem_of_nil in Hd].
Qed.

Lemma parse_returns_witness : ∃ r, parse (H := demo_dom) (Some demo_doc) = Done r.
Proof.
  apply (@parse_returns demo_dom (Some demo_doc)). intros d scl [= <-] Hscl.
  vm_compute in Hscl. injection Hscl as <-. apply demo_templates_ok.
Defined.

Lemma extracted_references_witness :
  ∃ ns, extractAllDoDa (H := demo_dom) demo_scl "IED1GenericIO/GGIO1" "GGIO_t" = Done ns ∧
    {| path := "IED1GenericIO/GGIO1.SPCSO1"; fc := "CO" |} ∈ ns.
Proof.
  eexists. split; [vm_compute; reflexivity|].
  eapply (@extracted_references demo_dom demo_scl demo_templates "IED1GenericIO/GGIO1" "GGIO_t");
    [reflexivity|vm_compute; reflexivity|apply demo_templates_ok|].
  eexists (E "DO" [("name", "SPCSO1"); ("type", "SPC_t")]%string []), "SPC_t". split.
  - eexists. split; [left|]. split; [reflexivity|]. split; [left|reflexivity].
  - left. split; reflexivity.
Defined.

Lemma instance_references_repeated_witness :
  ∃ ns, extractAllDoDa (H := demo_dom) demo_scl "IED1GenericIO/GGIO1" "GGIO_t" = Done ns ∧
    {| path := "IED1GenericIO/GGIO1.SPCSO1.ctlModel"; fc := "CF" |} ∈ ns.
Proof.
  eexists. split; [vm_compute; reflexivity|].
  eapply (@instance_references_repeated demo_dom demo_scl (demo_ln "") "IED1GenericIO/GGIO1"
    demo_doi (E "DAI" [("name", "ctlModel")]%string []));
    [vm_compute; reflexivity|left|vm_compute; reflexivity].
Defined.

Lemma node_prefix_ignored_witness :
  parse_ln (H := demo_dom) demo_scl "IED1" "GenericIO" (demo_ln "A_")
  = parse_ln (H := demo_dom) demo_scl "IED1" "GenericIO" (demo_ln "B_").
Proof.
  apply (@node_prefix_ignored demo_dom demo_scl "IED1" "GenericIO" (demo_ln "A_") (demo_ln "B_"));
    [reflexivity..|].
  intros a Ha. unfold Attribute, demo_dom, demo_ln, assoc.
  destruct (String.eqb_spec "prefix" a) as [<-|_]; [by destruct Ha|reflexivity].
Defined.
