(* ===== verification/IcdDocument.v ===== *)
(** * What an ICD document says

    The contents of an SCL document, without the loops of [IcdParser]: its
    logical nodes with the names of their IED and device, the references that
    their types give them, those of their data sets, the data sets and the
    report control blocks.  The parser finds exactly these: what it collects
    from the instance section (DOI, DAI) is always among the references of
    the types. *)

From Stdlib Require Import ZArith String Lia.
From stdpp Require Import base tactics option sets list numbers strings.
From S2P Require Import Prelude IcdParser.

(** ** Documents *)

Section Document.
Context `{XMLDom}.

(** A logical node, with the name of its IED and the instance of its device. *)
Record logical_node := { ln_ied : string; ln_device : string; ln_element : XMLElement }.

Definition is_ln (e : XMLElement) : bool := String.eqb (Name e) "LN" || String.eqb (Name e) "LN0".

Definition device_nodes (ied ld : XMLElement) : list logical_node :=
  (λ e, {| ln_ied := attr_or ied "name" "UnknownIED"; ln_device := attr_or ld "inst" "UnknownLDevice";
           ln_element := e |}) <$> List.filter is_ln (ChildElements ld).

Definition access_point_nodes (ied ap : XMLElement) : list logical_node :=
  match FirstChildElement ap "Server" with
  | Some server => flat_map (device_nodes ied) (children server "LDevice")
  | None => []
  end.

Definition logical_nodes (scl : XMLElement) : list logical_node :=
  flat_map (λ ied, flat_map (access_point_nodes ied) (children ied "AccessPoint")) (children scl "IED").

Definition node_ref (ln : logical_node) : string := ln_ref (ln_ied ln) (ln_device ln) (ln_element ln).

(** The first type with the identifier [ty] is a controllable one. *)
Definition control_type (dtt : XMLElement) (ty : string) : Prop :=
  ∃ pre t post, children dtt "DOType" = pre ++ t :: post ∧
    Forall (λ t', ∃ v, Attribute t' "id" = Some v ∧ v ≠ ty) pre ∧ Attribute t "id" = Some ty ∧
    (Attribute t "cdc" = Some "SPC" ∨ Attribute t "cdc" = Some "DPC")%string.

(** A reference that the type of a node gives it: a control of a controllable
    data object, or a constrained attribute of a data object. *)
Inductive type_reference (dtt : XMLElement) (ref lt : string) : DataNode → Prop :=
| TControl d ty : typed_object dtt lt d ty → control_type dtt ty →
    type_reference dtt ref lt {| path := ref +:+ "." +:+ attr_or d "name" ""; fc := "CO" |}
| TAttribute d ty t da an f : typed_object dtt lt d ty →
    t ∈ children dtt "DOType" → Attribute t "id" = Some ty → da ∈ children t "DA" →
    Attribute da "name" = Some an → Attribute da "fc" = Some f →
    type_reference dtt ref lt {| path := ref +:+ "." +:+ attr_or d "name" "" +:+ "." +:+ an; fc := f |}.

Inductive set_reference (ied : string) (ln : XMLElement) : DataNode → Prop :=
| SEntry ds entry f : ds ∈ children ln "DataSet" → entry ∈ children ds "FCDA" → Attribute entry "fc" = Some f →
    set_reference ied ln {| path := fcda_path ied entry; fc := f |}.

(** The references of a logical node. *)
Definition reference (scl : XMLElement) (ln : logical_node) (n : DataNode) : Prop :=
  set_reference (ln_ied ln) (ln_element ln) n ∨
  ∃ dtt lt, templates scl = Some dtt ∧ Attribute (ln_element ln) "lnType" = Some lt ∧
    type_reference dtt (node_ref ln) lt n.

(** An entry of a data set that counts. *)
Definition constrained (e : XMLElement) : bool :=
  match Attribute e "fc" with Some _ => true | None => false end.

Definition node_sets (ln : logical_node) : list DataSetInfo :=
  (λ ds, {| dsi_name := attr_or ds "name" "";
            fcdaPaths := fcda_path (ln_ied ln) <$> List.filter constrained (children ds "FCDA") |})
    <$> children (ln_element ln) "DataSet".

Definition node_reports (ln : logical_node) : list ReportControlInfo :=
  (λ r, {| rci_name := attr_or r "name" ""; datSet := attr_or r "datSet" "";
           rci_buffered := BoolAttribute r "buffered" false |}) <$> children (ln_element ln) "ReportControl".

(** Identifiers are present, and those of node types are not empty. *)
Definition scl_ok (scl : XMLElement) : Prop :=
  templates_ok scl ∧
  ∀ dtt lnt, templates scl = Some dtt → lnt ∈ children dtt "LNodeType" → Attribute lnt "id" ≠ Some ""%string.

(** The [SCL] element of what tinyxml2 has loaded. *)
Definition document_scl (doc : option XMLElement) : option XMLElement :=
  doc ≫= λ d, FirstChildElement d "SCL".
End Document.

(** ** The loops that collect *)

(** A part of a result that is collected in order. *)
Record view {X} (V : ParseResult → list X) : Prop := {
  view_empty : V result_empty = [];
  view_app r1 r2 : V (result_app r1 r2) = V r1 ++ V r2
}.

Lemma nodes_view : view nodes.
Proof. by split. Qed.
Lemma sets_view : view dataSetInfos.
Proof. by split. Qed.
Lemma reports_view : view reports.
Proof. by split. Qed.
#[local] Hint Resolve nodes_view sets_view reports_view : core.

Lemma collectO_view {X Y} (V : ParseResult → list Y) f (g : X → list Y) l r :
  view V → collectO f l = Done r → (∀ x r, x ∈ l → f x = Done r → V r = g x) → V r = flat_map g l.
Proof.
  intros HV. revert r. induction l as [|x l IH]; intros r Hr Hf; simpl in Hr.
  { simplify_eq. apply (view_empty _ HV). }
  apply outcome_bind_Done in Hr as (r1 & H1 & Hr). apply outcome_bind_Done in Hr as (r2 & H2 & ?). simplify_eq.
  simpl. rewrite (view_app _ HV), (Hf x r1), (IH r2); [done|done| |left|done].
  intros y ry Hy. apply Hf. by right.
Qed.

Lemma flat_map_nothing {X Y} (l : list X) : flat_map (λ _, []) l = @nil Y.
Proof. by induction l. Qed.

Lemma flat_map_single {X Y} (g : X → Y) l : flat_map (λ x, [g x]) l = g <$> l.
Proof. induction l as [|x l IH]; [done|]. rewrite fmap_cons. simpl. by rewrite IH. Qed.

Lemma collectO_nothing {X Y} (V : ParseResult → list Y) (f : X → outcome ParseResult) l r :
  view V → collectO f l = Done r → (∀ x r, f x = Done r → V r = []) → V r = [].
Proof.
  intros HV Hr Hf. rewrite (collectO_view V f (λ _, []) l r HV Hr); [|intros; by eapply Hf].
  apply flat_map_nothing.
Qed.

Lemma foldr_view {X Y} (V : ParseResult → list Y) (f : X → ParseResult) l :
  view V → V (foldr result_app result_empty (f <$> l)) = flat_map (V ∘ f) l.
Proof.
  intros HV. induction l as [|x l IH]; [apply (view_empty _ HV)|].
  rewrite fmap_cons. cbn [foldr flat_map]. by rewrite (view_app _ HV), IH.
Qed.

Lemma collectO_nodes {X} f (P : X → DataNode → Prop) l r :
  collectO f l = Done r → (∀ x r, x ∈ l → f x = Done r → ∀ n, n ∈ nodes r ↔ P x n) →
  ∀ n, n ∈ nodes r ↔ ∃ x, x ∈ l ∧ P x n.
Proof.
  revert r. induction l as [|x l IH]; intros r Hr Hf n; simpl in Hr.
  { simplify_eq. simpl. set_solver. }
  apply outcome_bind_Done in Hr as (r1 & H1 & Hr). apply outcome_bind_Done in Hr as (r2 & H2 & ?). simplify_eq.
  simpl. rewrite elem_of_app, (Hf x r1 (list_elem_of_here _ _) H1),
    (IH r2 H2 (λ y ry Hy, Hf y ry (list_elem_of_further _ _ _ Hy))).
  setoid_rewrite elem_of_cons. naive_solver.
Qed.

(** An early-returning loop stops at the first element that gives something. *)
Lemma firstO_split {X Y} (f : X → outcome (option Y)) l y :
  firstO f l = Done (Some y) ↔
  ∃ pre x post, l = pre ++ x :: post ∧ Forall (λ x', f x' = Done None) pre ∧ f x = Done (Some y).
Proof.
  split.
  - induction l as [|x l IH]; simpl; [done|]. intros ([y'|] & Hx & Hf)%outcome_bind_Done; simplify_eq.
    + by exists [], x, l.
    + destruct (IH Hf) as (pre & x' & post & -> & Hpre & Hx'). exists (x :: pre), x', post. by repeat constructor.
  - intros (pre & x & post & -> & Hpre & Hx). induction Hpre as [|x' pre Hx' _ IH]; simpl.
    + by rewrite Hx.
    + by rewrite Hx'.
Qed.

(** ** What the parser finds *)

Section Found.
Context `{XMLDom}.
Context (scl : XMLElement).

Lemma attr_is_other e a v : attr_is e a v = Done false ↔ ∃ w, Attribute e a = Some w ∧ w ≠ v.
Proof.
  unfold attr_is. destruct (Attribute e a) as [w|]; [|naive_solver].
  destruct (String.eqb_spec w v); naive_solver.
Qed.

Lemma attr_is_same e a v : attr_is e a v = Done true ↔ Attribute e a = Some v.
Proof.
  unfold attr_is. destruct (Attribute e a) as [w|]; [|naive_solver].
  destruct (String.eqb_spec w v); naive_solver.
Qed.

Lemma isControlObject_iff dtt ty : templates scl = Some dtt →
  isControlObject scl ty = Done true ↔ control_type dtt ty.
Proof.
  intros Ht. unfold isControlObject, control_type. rewrite Ht.
  set (g := λ t : XMLElement, match Attribute t "cdc" with
              | Some cdc => String.eqb cdc "SPC" || String.eqb cdc "DPC" | None => false end).
  set (f := λ t : XMLElement, b ← attr_is t "id" ty; Done (if (b : bool) then Some (g t) else None)).
  assert (∀ t, f t = Done None ↔ ∃ v, Attribute t "id" = Some v ∧ v ≠ ty) as Hno.
  { intros t. rewrite <- attr_is_other. unfold f. destruct (attr_is t "id" ty) as [[]| |]; simpl; naive_solver. }
  assert (∀ t, f t = Done (Some true) ↔ Attribute t "id" = Some ty ∧
    (Attribute t "cdc" = Some "SPC" ∨ Attribute t "cdc" = Some "DPC")%string) as Hyes.
  { intros t. rewrite <- attr_is_same. unfold f, g.
    destruct (attr_is t "id" ty) as [[]| |]; simpl; [|naive_solver..].
    destruct (Attribute t "cdc") as [cdc|]; [|naive_solver].
    destruct (String.eqb_spec cdc "SPC"), (String.eqb_spec cdc "DPC"); simpl; naive_solver. }
  transitivity (firstO f (children dtt "DOType") = Done (Some true)).
  - change (firstO f (children dtt "DOType") ≫= (λ r, Done (default false r)) = Done true ↔
      firstO f (children dtt "DOType") = Done (Some true)).
    destruct (firstO f (children dtt "DOType")) as [[[]|]| |]; simpl; naive_solver.
  - rewrite firstO_split. split.
    + intros (pre & t & post & Hl & Hpre & Hx). exists pre, t, post. rewrite Hyes in Hx.
      split; [done|]. split; [|naive_solver]. eapply Forall_impl; [exact Hpre|]. intros t' Ht'. by apply Hno.
    + intros (pre & t & post & Hl & Hpre & Hid & Hcdc). exists pre, t, post. split; [done|].
      split; [|by apply Hyes]. eapply Forall_impl; [exact Hpre|]. intros t' Ht'. by apply Hno.
Qed.

(** The references of the types of a node are those that are extracted. *)
Lemma extracted_iff dtt ref lt ns n :
  templates scl = Some dtt → templates_ok scl → extractAllDoDa scl ref lt = Done ns →
  n ∈ ns ↔ type_reference dtt ref lt n.
Proof.
  intros Ht Hok Hext. rewrite (elem_of_extract scl dtt ref lt ns n Ht Hext). split.
  - intros (d & ty & Hd & l & Hl & Hn). pose proof Hd as (lnt & _ & _ & _ & Hty).
    apply (elem_of_do_nodes scl dtt ref d ty l n Hty Hl) in Hn
      as [[Hc ->]|(t & da & an & f & ? & ? & ? & ? & ? & ->)].
    + eapply TControl; [done|]. by apply isControlObject_iff.
    + by eapply TAttribute.
  - intros Hn. assert (∃ d ty, typed_object dtt lt d ty ∧
      ((isControlObject scl ty = Done true ∧ n = {| path := ref +:+ "." +:+ attr_or d "name" ""; fc := "CO" |}) ∨
       (∃ t da an f, t ∈ children dtt "DOType" ∧ Attribute t "id" = Some ty ∧ da ∈ children t "DA" ∧
         Attribute da "name" = Some an ∧ Attribute da "fc" = Some f ∧
         n = {| path := ref +:+ "." +:+ attr_or d "name" "" +:+ "." +:+ an; fc := f |}))) as (d & ty & Hd & Hn').
    { destruct Hn as [d ty Hd Hc|d ty t da an f Hd ? ? ? ? ?]; exists d, ty; (split; [done|]).
      - left. by rewrite isControlObject_iff.
      - right. by exists t, da, an, f. }
    exists d, ty. split; [done|]. pose proof Hd as (lnt & _ & _ & _ & Hty).
    destruct (returns_do_nodes scl dtt ref d Hok Ht) as [l Hl]. exists l. split; [done|].
    by apply (elem_of_do_nodes scl dtt ref d ty l n Hty Hl).
Qed.

(** *** The instance section *)

(** What a logical node's instance section refers to, its type has. *)
Definition from_type (ln : XMLElement) (ref : string) (n : DataNode) : Prop :=
  ∃ dtt lt, templates scl = Some dtt ∧ Attribute ln "lnType" = Some lt ∧ type_reference dtt ref lt n.

Lemma dai_from_type ln ref doi dai r n :
  parse_dai scl ln ref doi dai = Done r → n ∈ nodes r → from_type ln ref n.
Proof.
  intros Hdai Hn. unfold parse_dai in Hdai.
  apply outcome_bind_Done in Hdai as (f & Hf & ?). simplify_eq/=.
  destruct (String.eqb_spec f "") as [->|Hne]; [by apply elem_of_nil in Hn|].
  apply list_elem_of_singleton in Hn as ->.
  destruct (Attribute ln "lnType") as [lt|] eqn:Hlt, (Attribute doi "name") as [dn|] eqn:Hdn,
    (Attribute dai "name") as [an|] eqn:Han; try (by unfold getFcFromDoType in Hf; simplify_eq).
  destruct (templates scl) as [dtt|] eqn:Ht;
    [|unfold getFcFromDoType in Hf; rewrite Ht in Hf; by simplify_eq].
  destruct (getFc_found scl dtt lt dn an f Ht Hf Hne)
    as (d & ty & t & da & Hobj & Hdname & Htt & Htid & Hda & Hdan & Hdafc).
  exists dtt, lt. split; [done|]. split; [done|].
  replace (attr_or doi "name" "") with (attr_or d "name" "") by (unfold attr_or; by rewrite Hdn, Hdname).
  replace (attr_or dai "name" "") with an by (unfold attr_or; by rewrite Han).
  by eapply TAttribute.
Qed.

Lemma getDoTypeId_found lt dn ty :
  getDoTypeId scl lt dn = Done ty → ty ≠ ""%string →
  ∃ dtt lt' d, templates scl = Some dtt ∧ lt = Some lt' ∧ typed_object dtt lt' d ty ∧ Attribute d "name" = dn.
Proof.
  unfold getDoTypeId. intros Hget Hne. destruct lt as [lt|], dn as [dn|]; try by simplify_eq.
  destruct (templates scl) as [dtt|]; [|by simplify_eq].
  apply outcome_bind_Done in Hget as ([ty'|] & Hfirst & ?); simplify_eq/=.
  apply firstO_Some in Hfirst as (lnt & Hlnt & Hrun).
  apply outcome_bind_Done in Hrun as (b1 & Hb1 & Hrun); destruct b1; simplify_eq/=; apply attr_is_true in Hb1.
  apply firstO_Some in Hrun as (d & Hd & Hrun).
  apply outcome_bind_Done in Hrun as (b2 & Hb2 & Hrun); destruct b2; simplify_eq/=; apply attr_is_true in Hb2.
  exists dtt, lt, d. split; [done|]. split; [done|]. split; [|done].
  unfold attr_or in Hne. destruct (Attribute d "type") as [ty|] eqn:Hty; [|done]. exists lnt.
  unfold attr_or. by rewrite Hty.
Qed.

Lemma doi_from_type ln ref doi r n :
  parse_doi scl ln ref doi = Done r → n ∈ nodes r → from_type ln ref n.
Proof.
  intros Hdoi Hn. unfold parse_doi in Hdoi.
  apply outcome_bind_Done in Hdoi as (ty & Hty & Hdoi).
  apply outcome_bind_Done in Hdoi as (ctl & Hctl & Hdoi).
  apply outcome_bind_Done in Hdoi as (dais & Hdais & ?). simplify_eq/=.
  apply elem_of_app in Hn as [Hn|Hn].
  - destruct ctl; [|by apply elem_of_nil in Hn]. apply list_elem_of_singleton in Hn as ->.
    destruct (String.eqb_spec ty "") as [->|Hne]; [done|].
    destruct (getDoTypeId_found _ _ _ Hty Hne) as (dtt & lt & d & Ht & Hlt & Hobj & Hname).
    exists dtt, lt. split; [done|]. split; [done|].
    replace (attr_or doi "name" "") with (attr_or d "name" "") by (unfold attr_or; by rewrite Hname).
    apply (TControl _ _ _ _ ty); [done|]. by apply isControlObject_iff.
  - apply (collectO_nodes _ (λ dai n, ∃ r, parse_dai scl ln ref doi dai = Done r ∧ n ∈ nodes r) _ _ Hdais) in Hn
      as (dai & _ & r & Hr & Hn); [by eapply dai_from_type|].
    intros dai r _ Hr n'. split; [by eauto|]. intros (r' & Hr' & ?). rewrite Hr in Hr'. by injection Hr' as ->.
Qed.

Lemma doi_nothing ln ref doi r :
  parse_doi scl ln ref doi = Done r → dataSetInfos r = [] ∧ reports r = [].
Proof.
  unfold parse_doi. intros (ty & _ & Hdoi)%outcome_bind_Done.
  apply outcome_bind_Done in Hdoi as (ctl & _ & Hdoi).
  apply outcome_bind_Done in Hdoi as (dais & Hdais & ?). simplify_eq. simpl.
  assert (∀ dai r, parse_dai scl ln ref doi dai = Done r → dataSetInfos r = [] ∧ reports r = []) as Hdai.
  { intros dai r. unfold parse_dai. intros (f & _ & ?)%outcome_bind_Done. by simplify_eq. }
  split; (eapply collectO_nothing; [|exact Hdais|]; [auto|]; intros; by edestruct Hdai).
Qed.

(** *** One logical node *)

Lemma parse_dataset_nodes ied ln n :
  n ∈ nodes (foldr result_app result_empty (parse_dataset ied <$> children ln "DataSet")) ↔ set_reference ied ln n.
Proof.
  rewrite (foldr_view nodes) by auto. rewrite elem_of_flat_map'. split.
  - intros (ds & Hds & (e & -> & He)%list_elem_of_fmap). apply elem_of_List_filter in He as [He Hf].
    unfold attr_or. destruct (Attribute e "fc") as [f|] eqn:Hfc; [|done]. by eapply SEntry.
  - intros [ds e f Hds He Hf]. exists ds. split; [done|]. apply list_elem_of_fmap. exists e.
    unfold attr_or. rewrite Hf. split; [done|]. apply elem_of_List_filter. by rewrite Hf.
Qed.

(** The references of the types of a logical node. *)
Lemma all_from_type ln ref all n :
  scl_ok scl →
  (if String.eqb (attr_or ln "lnType" "") "" then Done [] else extractAllDoDa scl ref (attr_or ln "lnType" ""))
    = Done all →
  n ∈ all ↔ from_type ln ref n.
Proof.
  intros [Hok Hids] Hall. unfold from_type, attr_or in *. destruct (Attribute ln "lnType") as [lt|]; simpl in *.
  2: { simplify_eq. rewrite elem_of_nil. naive_solver. }
  destruct (String.eqb lt "") eqn:He; [apply String.eqb_eq in He as ->|].
  - simplify_eq. rewrite elem_of_nil. split; [done|]. intros (dtt & lt' & Ht & [= <-] & Hn). exfalso.
    assert (∃ d ty, typed_object dtt "" d ty) as (d & ty & lnt & Hlnt & Hid & _) by (destruct Hn; eauto).
    by eapply Hids.
  - destruct (templates scl) as [dtt|] eqn:Ht.
    + rewrite (extracted_iff dtt ref lt all n Ht Hok Hall). naive_solver.
    + unfold extractAllDoDa in Hall. rewrite Ht in Hall. simplify_eq. rewrite elem_of_nil. naive_solver.
Qed.

Lemma parse_ln_found ied ld ln r :
  parse_ln scl ied ld ln = Done r → is_ln ln = true → scl_ok scl →
  let p := {| ln_ied := ied; ln_device := ld; ln_element := ln |} in
  (∀ n, n ∈ nodes r ↔ reference scl p n) ∧ dataSetInfos r = node_sets p ∧ reports r = node_reports p.
Proof.
  intros Hln Hname Hok p. unfold parse_ln in Hln. unfold is_ln in Hname.
  rewrite <- negb_orb, Hname in Hln. simpl in Hln.
  apply outcome_bind_Done in Hln as (dois & Hdois & Hln).
  apply outcome_bind_Done in Hln as (all & Hall & ?). simplify_eq. cbn [nodes dataSetInfos reports result_app only_nodes].
  split; [|split].
  - intros n. rewrite !elem_of_app, parse_dataset_nodes, (all_from_type ln _ all n Hok Hall).
    rewrite (foldr_view nodes) by auto. unfold compose, parse_report. cbn [nodes].
    rewrite flat_map_nothing, elem_of_nil.
    pose proof (collectO_nodes _ (λ doi n, ∃ r, parse_doi scl ln (ln_ref ied ld ln) doi = Done r ∧ n ∈ nodes r)
      _ _ Hdois) as Hdoi.
    assert (n ∈ nodes dois → from_type ln (ln_ref ied ld ln) n) as Hsub.
    { intros Hn. apply Hdoi in Hn as (doi & _ & r & Hr & Hn); [by eapply doi_from_type|].
      intros doi r _ Hr n'. split; [by eauto|]. intros (r' & Hr' & ?). rewrite Hr in Hr'. by injection Hr' as ->. }
    unfold reference, from_type in *. simpl. tauto.
  - rewrite !(foldr_view dataSetInfos) by auto. unfold compose, parse_dataset, parse_report. cbn [dataSetInfos].
    rewrite flat_map_nothing, flat_map_single.
    rewrite (collectO_nothing dataSetInfos _ _ _ sets_view Hdois); [by rewrite !app_nil_r|].
    intros doi r. apply doi_nothing.
  - rewrite !(foldr_view reports) by auto. unfold compose, parse_dataset, parse_report. cbn [reports].
    rewrite flat_map_nothing, flat_map_single.
    rewrite (collectO_nothing reports _ _ _ reports_view Hdois); [by rewrite !app_nil_r|].
    intros doi r. apply doi_nothing.
Qed.

(** *** From one logical node to the document *)

(** A result with exactly what some logical nodes have. *)
Definition found (r : ParseResult) (lns : list logical_node) : Prop :=
  (∀ n, n ∈ nodes r ↔ ∃ p, p ∈ lns ∧ reference scl p n) ∧
  dataSetInfos r = flat_map node_sets lns ∧ reports r = flat_map node_reports lns.

Lemma found_empty : found result_empty [].
Proof. split; [|done]. intros n. simpl. rewrite elem_of_nil. set_solver. Qed.

Lemma found_app r1 r2 l1 l2 : found r1 l1 → found r2 l2 → found (result_app r1 r2) (l1 ++ l2).
Proof.
  intros (N1 & D1 & R1) (N2 & D2 & R2). unfold found. simpl. rewrite D1, D2, R1, R2, !flat_map_app.
  split; [|done]. intros n. rewrite elem_of_app, N1, N2. setoid_rewrite elem_of_app. naive_solver.
Qed.

Lemma collectO_found {X} (f : X → outcome ParseResult) (g : X → list logical_node) l r :
  collectO f l = Done r → (∀ x r, f x = Done r → found r (g x)) → found r (flat_map g l).
Proof.
  intros Hr Hf. revert r Hr. induction l as [|x l IH]; intros r Hr; simpl in Hr.
  { simplify_eq. apply found_empty. }
  apply outcome_bind_Done in Hr as (r1 & H1 & Hr). apply outcome_bind_Done in Hr as (r2 & H2 & ?). simplify_eq.
  simpl. apply found_app; [by apply Hf|by apply IH].
Qed.

Lemma flat_map_filter {X Y} (p : X → bool) (g : X → Y) l :
  flat_map (λ x, if p x then [g x] else []) l = g <$> List.filter p l.
Proof. induction l as [|x l IH]; [done|]. simpl. rewrite IH. by destruct (p x). Qed.

Lemma parse_ldevice_found ied ld r : scl_ok scl →
  parse_ldevice scl (attr_or ied "name" "UnknownIED") ld = Done r → found r (device_nodes ied ld).
Proof.
  intros Hok Hr. unfold device_nodes. rewrite <- flat_map_filter. eapply collectO_found; [exact Hr|].
  intros e re He. cbv beta. destruct (is_ln e) eqn:Hname.
  - destruct (parse_ln_found _ _ _ _ He Hname Hok) as (Hn & Hd & Hrep).
    unfold found. cbn [flat_map]. rewrite Hd, Hrep, !app_nil_r. split; [|done].
    intros n. rewrite Hn. split; [intros; eexists; split; [by left|done]|].
    intros (p & ->%list_elem_of_singleton & ?). done.
  - unfold parse_ln in He. unfold is_ln in Hname. rewrite <- negb_orb, Hname in He. simpl in He. simplify_eq.
    apply found_empty.
Qed.

Lemma parse_found r : scl_ok scl → collectO (parse_ied scl) (children scl "IED") = Done r → found r (logical_nodes scl).
Proof.
  intros Hok Hr. eapply collectO_found; [exact Hr|]. intros ied r1 H1.
  eapply collectO_found; [exact H1|]. intros ap r2 H2. unfold parse_ap in H2. unfold access_point_nodes.
  destruct (FirstChildElement ap "Server") as [server|]; [|simplify_eq; apply found_empty].
  eapply collectO_found; [exact H2|]. intros ld r3 H3. by apply parse_ldevice_found.
Qed.
End Found.

(** ** Properties *)

(** C10: on a document whose types are named, the parser returns exactly what
    the document says: a reference is in the result if and only if a logical
    node has it, from its data sets or from the controls and constrained
    attributes of its type; the data sets and report control blocks of all
    logical nodes, in document order; and nothing else: whatever the instance
    section holds, it adds no reference.  A file that does not load, or has no
    SCL element, gives an empty result. *)
Theorem parse_finds_document `{XMLDom} doc :
  (∀ scl, document_scl doc = Some scl → scl_ok scl) →
  ∃ r, parse doc = Done r ∧
    match document_scl doc with
    | Some scl =>
        (∀ n, n ∈ nodes r ↔ ∃ p, p ∈ logical_nodes scl ∧ reference scl p n) ∧
        dataSetInfos r = flat_map node_sets (logical_nodes scl) ∧
        reports r = flat_map node_reports (logical_nodes scl)
    | None => r = result_empty
    end.
Proof.
  intros Hok. assert (returns (parse doc)) as [r Hr].
  { apply returns_parse. intros d scl -> Hscl. by apply Hok. }
  exists r. split; [done|]. unfold document_scl in *. destruct doc as [d|]; simpl in *; [|congruence].
  destruct (FirstChildElement d "SCL") as [scl|]; [|congruence].
  by apply parse_found; [apply Hok|].
Qed.

(** ** Witness *)

Lemma parse_finds_document_witness :
  ∃ r, parse (H := demo_dom) (Some demo_doc) = Done r ∧
    {| path := "IED1GenericIO/GGIO1.SPCSO1.stVal"; fc := "ST" |} ∈ nodes r ∧ dataSetInfos r = [].
Proof.
  destruct (@parse_finds_document demo_dom (Some demo_doc)) as (r & Hr & Hn & Hd & _).
  - intros scl Hscl. assert (Some demo_scl = Some scl) as Hs by exact Hscl. injection Hs as <-.
    split; [apply demo_templates_ok|]. intros dtt lnt Ht Hlnt. vm_compute in Ht. simplify_eq.
    vm_compute in Hlnt. apply elem_of_cons in Hlnt as [->|Hlnt]; [discriminate|by apply elem_of_nil in Hlnt].
  - exists r. split; [exact Hr|]. split; [|exact Hd].
    apply Hn. eexists. split; [left|]. right. eexists demo_templates, "GGIO_t"%string.
    split; [reflexivity|]. split; [reflexivity|].
    refine (@TAttribute demo_dom demo_templates _ _ (E "DO" [("name", "SPCSO1"); ("type", "SPC_t")]%string []) "SPC_t"
      _ (demo_da "stVal" "ST") "stVal" "ST" _ _ _ _ _ _); [|left|reflexivity|left|reflexivity..].
    eexists. split; [left|]. split; [reflexivity|]. split; [left|reflexivity].
Defined.
