(* ===== verification/Iec61850Client.v ===== *)
(** * The IEC 61850 client: reading values and controlling objects

    [iec61850Client] of [core/iec61850/lec61850Client.cc]: the reading pass
    over the references of an ICD file ([readAllValues]), the walk over a
    structured value ([parseStructure]) and the control commands
    ([controlObjects]).  libiec61850 is the classes [MmsApi] (what the
    accessors give of a received value) and [IedApi] (the services of a
    connection); a value received by [IedConnection_readObject] belongs to
    the caller, so the model counts the values not yet deleted.  The Redis
    client is any [KvClient].  The life of the objects and of the reading
    threads is in [Iec61850Manager]. *)

From Stdlib Require Import ZArith String Ascii SpecFloat Lia.
From stdpp Require Import base tactics option list numbers strings gmap.
From S2P Require Import Prelude Text Store Redis IcdParser.

(** ** libiec61850 *)

Inductive MmsType : Type :=
| MMS_ARRAY | MMS_STRUCTURE | MMS_BOOLEAN | MMS_BIT_STRING | MMS_INTEGER | MMS_UNSIGNED
| MMS_FLOAT | MMS_OCTET_STRING | MMS_VISIBLE_STRING | MMS_GENERALIZED_TIME | MMS_BINARY_TIME
| MMS_BCD | MMS_OBJ_ID | MMS_STRING | MMS_UTC_TIME | MMS_DATA_ACCESS_ERROR.

#[export] Instance MmsType_eq_dec : EqDecision MmsType.
Proof. solve_decision. Defined.

Class MmsApi : Type := {
  MmsValue : Type;
  MmsVariableSpecification : Type;
  MmsValue_getType : MmsValue → MmsType;
  MmsValue_getBoolean : MmsValue → bool;
  MmsValue_toInt64 : MmsValue → Z;
  MmsValue_toDouble : MmsValue → spec_float;
  MmsValue_toString : MmsValue → option string;          (* [None] is NULL *)
  MmsValue_getBitStringSize : MmsValue → Z;
  MmsValue_getBitStringBit : MmsValue → Z → bool;
  MmsValue_getUtcTimeInMs : MmsValue → Z;                (* uint64_t *)
  MmsValue_getArraySize : MmsValue → Z;
  MmsValue_getElement : MmsValue → Z → option MmsValue;
  MmsValue_getSubElement : MmsValue → MmsVariableSpecification → string → option MmsValue
}.

(** What the header documents: C strings end at their NUL, [int64_t] results. *)
Class MmsApiOk `{MmsApi} : Prop := {
  toString_no_nul v s : MmsValue_toString v = Some s → no_nul s = true;
  toInt64_range v : in_s 64 (MmsValue_toInt64 v)
}.

(** The services of a connection, on the state of the network.  [IED_ERROR_OK]
    is [true]. *)
Class IedApi `{MmsApi} : Type := {
  ied_net : Type;
  (** From "is the connection connected": the error, and is it connected now. *)
  ied_connect : bool → string → Z → ied_net → bool * bool * ied_net;
  ied_readObject : bool → string → string → ied_net → option MmsValue * bool * ied_net;
  (** [None]: no control object; else its [ctlVal] type. *)
  ied_createControl : string → ied_net → option MmsType * ied_net;
  (** The operated value: [None] is NULL. *)
  ied_operate : string → option (bool + Z) → ied_net → bool * ied_net
}.

(** Documented: the connect service is not executed when the client is already
    connected; a read that fails returns NULL. *)
Class IedApiOk `{IedApi} : Prop := {
  connect_connected ip port w : ∃ w', ied_connect true ip port w = (false, true, w');
  connect_ok ip port w w' c : ied_connect false ip port w = (true, c, w') → c = true;
  connect_failed ip port w w' c : ied_connect false ip port w = (false, c, w') → c = false;
  read_failed c p f w w' v : ied_readObject c p f w = (v, false, w') → v = None
}.

(** ** The reading state *)

(** A line of the log of a structure walk: a component and its type, or an error. *)
Inductive log_entry : Type :=
| LogPart (subPath : string) (subType : MmsType)
| LogNoPart (nodePath : string) (i : Z)
| LogInvalid (nodePath : string)
| LogDepth (nodePath : string).

Section Reader.
Context `{IedApi} {K : Type} `{KvStore K} `{FloatText}.

Record rd := {
  rd_kv : K;
  rd_net : ied_net;
  rd_values : Z;              (* received values not yet deleted *)
  rd_part_freed : bool;       (* a component of the value at hand was deleted *)
  rd_log : list log_entry
}.

Definition set_kv (k : K) (s : rd) : rd :=
  {| rd_kv := k; rd_net := rd_net s; rd_values := rd_values s;
     rd_part_freed := rd_part_freed s; rd_log := rd_log s |}.
Definition set_ied (w : ied_net) (n : Z) (s : rd) : rd :=
  {| rd_kv := rd_kv s; rd_net := w; rd_values := n;
     rd_part_freed := rd_part_freed s; rd_log := rd_log s |}.
Definition set_part_freed (s : rd) : rd :=
  {| rd_kv := rd_kv s; rd_net := rd_net s; rd_values := rd_values s;
     rd_part_freed := true; rd_log := rd_log s |}.
Definition log_line (e : log_entry) (s : rd) : rd :=
  {| rd_kv := rd_kv s; rd_net := rd_net s; rd_values := rd_values s;
     rd_part_freed := rd_part_freed s; rd_log := rd_log s ++ [e] |}.

(** A call on the Redis client; nobody looks at its result. *)
Definition on_kv {A} (m : prog K A) : prog rd unit := λ s,
  match m (rd_kv s) with
  | (Done _, k) => (Done tt, set_kv k s)
  | (Threw e, k) => (Threw e, set_kv k s)
  | (Undef w, k) => (Undef w, set_kv k s)
  end.

(** [MmsValue_delete] of a received value deletes its components too. *)
Definition delete_value : prog rd unit := λ s,
  if rd_part_freed s then (Undef "component deleted twice", s)
  else (Done tt, set_ied (rd_net s) (rd_values s - 1) s).

(** ** Values as Redis keys *)

(** The loop over the bits of a bit string. *)
Definition bit_string (v : MmsValue) : string :=
  foldr (λ i s, String (if MmsValue_getBitStringBit v (Z.of_nat i) then "1" else "0")%char s)
    EmptyString (seq 0 (Z.to_nat (MmsValue_getBitStringSize v))).

(** The text of a string value: null becomes empty. *)
Definition string_of (v : MmsValue) : string := default ""%string (MmsValue_toString v).

(** The switch on the type of a value, structures apart: the write to Redis.
    [utc] is the value whose time is read. *)
Definition store_scalar (key : string) (v utc : MmsValue) : prog K bool :=
  match MmsValue_getType v with
  | MMS_BOOLEAN => storeBool key (MmsValue_getBoolean v)
  | MMS_INTEGER => storeLInt key (MmsValue_toInt64 v)
  | MMS_UNSIGNED => storeULInt key (wrap_u 64 (MmsValue_toInt64 v))
  | MMS_FLOAT => storeLReal key (MmsValue_toDouble v)
  | MMS_STRING | MMS_VISIBLE_STRING => storeString key (string_of v)
  | MMS_BIT_STRING => storeString key (bit_string v)
  | MMS_UTC_TIME => storeLInt key (wrap_s 64 (MmsValue_getUtcTimeInMs utc))
  | _ => mret true
  end.

(** ** Structured values *)

(** [parseStructure]; the recursion is cut by the code at level 11, so that
    twelve calls are enough. *)
Fixpoint parseStructure (fuel : nat) (value : option MmsValue) (nodePath : string)
    (varSpec : option MmsVariableSpecification) (indentLevel : Z) (targetPath : string)
    : prog rd unit :=
  match fuel with
  | O => undefS "out of fuel"
  | S fuel' =>
      match value with
      | None => modifyS (log_line (LogInvalid nodePath))
      | Some v =>
          if negb (bool_decide (MmsValue_getType v = MMS_STRUCTURE)) then
            modifyS (log_line (LogInvalid nodePath))
          else if (10 <? indentLevel)%Z then modifyS (log_line (LogDepth nodePath))
          else
            match String.eqb targetPath "", varSpec with
            | false, Some spec =>
                match MmsValue_getSubElement v spec targetPath with
                | Some subValue =>
                    let subPath := nodePath +:+ "." +:+ targetPath in
                    (if bool_decide (MmsValue_getType subValue = MMS_STRUCTURE) then
                       parseStructure fuel' (Some subValue) subPath None (indentLevel + 1) ""
                     else on_kv (store_scalar subPath subValue v));;
                    modifyS set_part_freed
                | None => modifyS (log_line (LogInvalid nodePath))
                end
            | _, _ =>
                iterS (seq 0 (Z.to_nat (MmsValue_getArraySize v))) (λ i,
                  match MmsValue_getElement v (Z.of_nat i) with
                  | None => modifyS (log_line (LogNoPart nodePath (Z.of_nat i)))
                  | Some subValue =>
                      let subPath := nodePath +:+ "[" +:+ dec (Z.of_nat i) +:+ "]" in
                      modifyS (log_line (LogPart subPath (MmsValue_getType subValue)));;
                      if bool_decide (MmsValue_getType subValue = MMS_STRUCTURE) then
                        parseStructure fuel' (Some subValue) subPath None (indentLevel + 1) ""
                      else mret tt
                  end)
            end
      end
  end.

(** ** The reading pass *)

(** [s.find(pat) != npos]. *)
Definition contains (pat s : string) : bool :=
  match String.index 0 pat s with Some _ => true | None => false end.

(** The filter at the head of the loop. *)
Definition skipped (node : DataNode) : bool :=
  negb (contains "/SPTR01." (path node)) || String.eqb (fc node) "CO"
  || (negb (String.eqb (fc node) "ST") && negb (String.eqb (fc node) "CF")).

(** [IedConnection_readObject] on a connection of the given state. *)
Definition readObject (connected : bool) (node : DataNode) : prog rd (option MmsValue * bool) := λ s,
  let '(v, ok, w) := ied_readObject connected (path node) (fc node) (rd_net s) in
  (Done (v, ok), set_ied w (rd_values s + if v then 1 else 0) s).

(** A received value: the second test of the path would leave it undeleted. *)
Definition process_value (node : DataNode) (v : MmsValue) : prog rd unit :=
  if negb (contains "/SPTR01." (path node)) then mret tt
  else
    (if bool_decide (MmsValue_getType v = MMS_STRUCTURE) then
       parseStructure 12 (Some v) (path node) None 0 ""
     else on_kv (store_scalar (path node) v v));;
    delete_value.

(** A failed read: the log line needs a string. *)
Definition report_failure (v : option MmsValue) : prog rd unit :=
  match v with
  | None => mret tt
  | Some x =>
      match MmsValue_toString x with
      | None => undefS "string built from null"
      | Some _ => mret tt
      end;;
      delete_value
  end.

(** One iteration of the loop over the nodes. *)
Definition read_node (connected : bool) (node : DataNode) : prog rd unit :=
  if skipped node then mret tt
  else
    r ← readObject connected node;
    match r with
    | (Some v, true) => process_value node v
    | (v, _) => report_failure v
    end.

Definition read_pass (connected : bool) (nodes : list DataNode) : prog rd unit :=
  iterS nodes (read_node connected).

(** The first [fuel] iterations of [while (running_)]; [true]: the loop has
    ended.  No function of the class clears [running_]. *)
Fixpoint read_loop (fuel : nat) (connected running_ : bool) (nodes : list DataNode) : prog rd bool :=
  match fuel with
  | O => mret false
  | S fuel' =>
      if running_ then read_pass connected nodes;; read_loop fuel' connected running_ nodes
      else mret true
  end.
End Reader.

#[global] Arguments rd {_ _} K.

Section ReadAll.
Context `{IedApi} {K : Type} `{KvClient K} `{FloatText}.

(** The first [fuel] iterations.  [kv_close] is the end of the scope of
    [redisClient]; [con_] is the connection pointer ([None] is NULL), with its
    state. *)
Definition readAllValues (fuel : nat) (con_ : option bool) (running_ : bool)
    (nodes : list DataNode) : prog (rd K) unit := λ s,
  match (kv_open;; kv_isInitialized) (rd_kv s) with
  | (Done init, k) =>
      let body : prog (rd K) bool :=
        if negb init then mret true
        else match nodes, con_ with
             | [], _ => mret true
             | _, None => mret true
             | _, Some connected => read_loop fuel connected running_ nodes
             end in
      (ended ← body; if (ended : bool) then on_kv kv_close else mret tt) (set_kv k s)
  | (Threw e, k) => (Threw e, set_kv k s)
  | (Undef w, k) => (Undef w, set_kv k s)
  end.
End ReadAll.

(** ** Control commands *)

Section Control.
Context `{IedApi}.

Record ctl := {
  ctl_net : ied_net;
  ctl_objects : Z;                                     (* controls not yet destroyed *)
  ctl_sent : list (string * option (bool + Z))         (* operate calls *)
}.

(** [bool ctlValBool = ctlVal == "true" || ...]. *)
Definition ctl_is_true (s : string) : bool :=
  String.eqb s "true" || String.eqb s "1" || String.eqb s "True" || String.eqb s "TRUE".

(** The switch on the type of the control value. *)
Definition ctl_value (type : MmsType) (ctlVal : string) : outcome (option (bool + Z)) :=
  match type with
  | MMS_BOOLEAN => Done (Some (inl (ctl_is_true ctlVal)))
  | MMS_INTEGER => i ← sto_signed 32 ctlVal; Done (Some (inr (if (i =? 0)%Z then 0 else 1)%Z))
  | _ => Done None
  end.

Definition control_object (ctlVal node : string) : prog ctl unit := λ s,
  match ied_createControl node (ctl_net s) with
  | (None, w) => (Done tt, {| ctl_net := w; ctl_objects := ctl_objects s; ctl_sent := ctl_sent s |})
  | (Some type, w) =>
      match ctl_value type ctlVal with
      | Done v =>
          let '(_, w') := ied_operate node v w in
          (Done tt, {| ctl_net := w'; ctl_objects := ctl_objects s;
                       ctl_sent := ctl_sent s ++ [(node, v)] |})
      | Threw e =>
          (Threw e, {| ctl_net := w; ctl_objects := ctl_objects s + 1; ctl_sent := ctl_sent s |})
      | Undef u =>
          (Undef u, {| ctl_net := w; ctl_objects := ctl_objects s + 1; ctl_sent := ctl_sent s |})
      end
  end.

Definition controlObjects (nodes : list string) (ctlVal : string) : prog ctl unit :=
  iterS nodes (control_object ctlVal).
End Control.

(** ** Lemmas *)

Section ReaderLemmas.
Context `{IedApi} {K : Type} `{KvStore K} `{FloatText}.

(** The text that a value leaves in Redis, [None] when it leaves none. *)
Definition scalar_text (v utc : MmsValue) : option string :=
  match MmsValue_getType v with
  | MMS_BOOLEAN => Some (if MmsValue_getBoolean v then "1" else "0")
  | MMS_INTEGER => Some (dec (wrap_s 64 (MmsValue_toInt64 v)))
  | MMS_UNSIGNED => Some (dec (wrap_u 64 (MmsValue_toInt64 v)))
  | MMS_FLOAT => Some (fmt_f (MmsValue_toDouble v))
  | MMS_STRING | MMS_VISIBLE_STRING => Some (string_of v)
  | MMS_BIT_STRING => Some (bit_string v)
  | MMS_UTC_TIME => Some (dec (wrap_s 64 (MmsValue_getUtcTimeInMs utc)))
  | _ => None
  end%string.

(** The writes of a pass and the state of the network after it. *)
Fixpoint pass_writes (connected : bool) (nodes : list DataNode) (w : ied_net)
    : list (string * string) * ied_net :=
  match nodes with
  | [] => ([], w)
  | n :: nodes' =>
      if skipped n then pass_writes connected nodes' w
      else
        let '(v, ok, w1) := ied_readObject connected (path n) (fc n) w in
        let '(ws, w2) := pass_writes connected nodes' w1 in
        (match v, ok with
         | Some x, true =>
             match scalar_text x x with Some t => [(path n, t)] | None => [] end
         | _, _ => []
         end ++ ws, w2)
  end.

Lemma wrap_u_twice z : wrap_u 64 (wrap_u 64 z) = wrap_u 64 z.
Proof. apply wrap_u_id, wrap_u_range. lia. Qed.

Lemma wrap_s_twice z : wrap_s 64 (wrap_s 64 z) = wrap_s 64 z.
Proof. apply wrap_s_id; [lia|]. apply wrap_s_range. lia. Qed.

Lemma store_scalar_text key v utc :
  store_scalar key v utc =
    match scalar_text v utc with Some t => kv_set key t | None => mret true end.
Proof.
  unfold store_scalar, scalar_text, storeBool, storeLInt, storeULInt, storeLReal, storeString,
    store_fmt, fmt_int. rewrite ?wrap_u_twice, ?wrap_s_twice.
  destruct (MmsValue_getType v); try done. by destruct (MmsValue_getBoolean v).
Qed.

(** *** The walk over a structure only logs *)

Definition only_log (s0 s : rd K) : Prop :=
  rd_kv s = rd_kv s0 ∧ rd_net s = rd_net s0 ∧ rd_values s = rd_values s0 ∧
  rd_part_freed s = rd_part_freed s0.

Lemma total_log s0 e : total_on (only_log s0) (modifyS (log_line e)).
Proof. by apply total_modifyS. Qed.

Lemma parseStructure_total fuel v p level s0 :
  (level ≤ 11)%Z → (12 - level ≤ Z.of_nat fuel)%Z →
  total_on (only_log s0) (parseStructure fuel v p None level "").
Proof.
  revert v p level. induction fuel as [|fuel IH]; intros v p level Hl Hf; [lia|].
  cbn [parseStructure]. destruct v as [v|]; [|apply total_log].
  destruct (negb _); [apply total_log|].
  destruct (10 <? level)%Z eqn:Hd; [apply total_log|]. gw_bool. simpl.
  apply total_iterS. intros i _.
  destruct (MmsValue_getElement v (Z.of_nat i)) as [x|]; [|apply total_log].
  apply total_bind; [apply total_log|]. intros _.
  destruct (bool_decide _); [|apply total_ret]. apply IH; lia.
Qed.

Lemma parseStructure_fuel f1 f2 v p level s :
  (level ≤ 11)%Z → (12 - level ≤ Z.of_nat f1)%Z → (12 - level ≤ Z.of_nat f2)%Z →
  parseStructure f1 v p None level "" s = parseStructure f2 v p None level "" s.
Proof.
  revert f2 v p level s. induction f1 as [|f1 IH]; intros f2 v p level s Hl H1' H2'; [lia|].
  destruct f2 as [|f2]; [lia|]. cbn [parseStructure]. destruct v as [v|]; [|done].
  destruct (negb _); [done|]. destruct (10 <? level)%Z eqn:Hd; [done|]. gw_bool. simpl.
  apply iterS_ext. intros i s'. destruct (MmsValue_getElement v (Z.of_nat i)); [|done].
  unfold mbind, prog_bind, modifyS. destruct (bool_decide _); [apply IH; lia|done].
Qed.
End ReaderLemmas.

Section PassLemmas.
Context `{IedApi} {K : Type} `{KvStoreOk K} `{FloatTextOk} `{!MmsApiOk} `{!IedApiOk}.

Lemma no_nul_bit_string v : no_nul (bit_string v) = true.
Proof.
  unfold bit_string. induction (seq 0 _) as [|i l IH]; [done|]. cbn [foldr no_nul].
  rewrite IH. by destruct (MmsValue_getBitStringBit v _).
Qed.

Lemma no_nul_scalar_text v utc t : scalar_text v utc = Some t → no_nul t = true.
Proof.
  unfold scalar_text, string_of. intros Ht.
  destruct (MmsValue_getType v); simplify_eq; auto using no_nul_dec, no_nul_bit_string, fmt_f_no_nul.
  - by destruct (MmsValue_getBoolean v).
  - destruct (MmsValue_toString v) eqn:Hs; [by eapply toString_no_nul|done].
  - destruct (MmsValue_toString v) eqn:Hs; [by eapply toString_no_nul|done].
Qed.

(** Storing a value on a working store. *)
Lemma store_value_ok key v (s : rd K) :
  kv_ready (rd_kv s) → no_nul key = true →
  ∃ k, on_kv (store_scalar key v v) s = (Done tt, set_kv k s) ∧ kv_ready k ∧
    kv_view k = match scalar_text v v with
                | Some t => <[key := t]> (kv_view (rd_kv s))
                | None => kv_view (rd_kv s)
                end.
Proof.
  intros Hk Hkey. unfold on_kv. rewrite store_scalar_text.
  destruct (scalar_text v v) as [t|] eqn:Ht.
  - destruct (kv_set_ok key t (rd_kv s)) as (k & Hset & ? & ?); [done..| |].
    { by eapply no_nul_scalar_text. }
    exists k. by rewrite Hset.
  - by exists (rd_kv s).
Qed.

(** The state between two iterations: what the next one needs. *)
Definition rd_ready (s : rd K) : Prop := kv_ready (rd_kv s) ∧ rd_part_freed s = false.

Lemma process_value_ok node v (s : rd K) :
  rd_ready s → no_nul (path node) = true → skipped node = false →
  ∃ s', process_value node v s = (Done tt, s') ∧ rd_ready s' ∧ rd_net s' = rd_net s ∧
    rd_values s' = (rd_values s - 1)%Z ∧
    kv_view (rd_kv s') = match scalar_text v v with
                         | Some t => <[path node := t]> (kv_view (rd_kv s))
                         | None => kv_view (rd_kv s)
                         end.
Proof.
  intros [Hk Hp] Hn Hskip. unfold process_value.
  assert (contains "/SPTR01." (path node) = true) as ->.
  { unfold skipped in Hskip. by destruct (contains _ _). }
  cbn [negb]. destruct (bool_decide _) eqn:Hty; gw_bool.
  - destruct (parseStructure_total 12 (Some v) (path node) 0 s) with (s := s)
      as ([] & s1 & Hrun & Hkv & Hnet & Hval & Hpf); [lia|lia|done|].
    rewrite (prog_bind_eq _ _ _ _ _ Hrun). unfold delete_value. rewrite Hpf, Hp.
    eexists. split; [done|]. unfold rd_ready. simpl. rewrite Hkv, Hnet, Hval, Hpf.
    split_and!; try done. unfold scalar_text. by rewrite Hty.
  - destruct (store_value_ok (path node) v s) as (k & Hrun & Hk' & Hview); [done..|].
    rewrite (prog_bind_eq _ _ _ _ _ Hrun). unfold delete_value. simpl. rewrite Hp.
    eexists. split; [done|]. unfold rd_ready. by simpl.
Qed.

Lemma read_node_ok connected node (s : rd K) :
  rd_ready s → no_nul (path node) = true →
  ∃ s', read_node connected node s = (Done tt, s') ∧ rd_ready s' ∧
    rd_net s' = (pass_writes connected [node] (rd_net s)).2 ∧ rd_values s' = rd_values s ∧
    kv_view (rd_kv s') = foldl (λ (m : gmap string string) kv, <[kv.1 := kv.2]> m)
      (kv_view (rd_kv s)) (pass_writes connected [node] (rd_net s)).1.
Proof.
  intros Hs Hn. unfold read_node. simpl. destruct (skipped node) eqn:Hskip; [by exists s|].
  unfold readObject, mbind, prog_bind.
  destruct (ied_readObject connected (path node) (fc node) (rd_net s)) as [[[v|] ok] w] eqn:Hread.
  - destruct ok; [|by apply read_failed in Hread].
    destruct (process_value_ok node v (set_ied w (rd_values s + 1) s)) as (s' & Hrun & ? & ? & Hv & Hview);
      [done..|].
    exists s'. split; [done|]. simpl in *. split; [done|]. split; [done|]. split; [lia|].
    rewrite Hview. rewrite app_nil_r. by destruct (scalar_text v v).
  - eexists. split; [done|]. simpl. split_and!; try done. lia.
Qed.

Lemma pass_writes_cons connected n nodes w :
  pass_writes connected (n :: nodes) w =
    let '(ws1, w1) := pass_writes connected [n] w in
    let '(ws2, w2) := pass_writes connected nodes w1 in (ws1 ++ ws2, w2).
Proof.
  simpl. destruct (skipped n).
  - by destruct (pass_writes connected nodes w).
  - destruct (ied_readObject connected (path n) (fc n) w) as [[v ok] w1].
    destruct (pass_writes connected nodes w1). by rewrite app_nil_r.
Qed.

Lemma pass_writes_app connected l1 l2 w :
  pass_writes connected (l1 ++ l2) w =
    let '(ws1, w1) := pass_writes connected l1 w in
    let '(ws2, w2) := pass_writes connected l2 w1 in (ws1 ++ ws2, w2).
Proof.
  revert w. induction l1 as [|n l1 IH]; intros w; simpl app.
  { simpl. by destruct (pass_writes connected l2 w). }
  rewrite (pass_writes_cons _ n (l1 ++ l2)), (pass_writes_cons _ n l1).
  destruct (pass_writes connected [n] w) as [ws1 w1]. rewrite IH. destruct (pass_writes connected l1 w1) as [ws2 w2].
  destruct (pass_writes connected l2 w2). by rewrite app_assoc.
Qed.

Lemma read_pass_ok connected nodes (s : rd K) :
  rd_ready s → Forall (λ n, no_nul (path n) = true) nodes →
  ∃ s', read_pass connected nodes s = (Done tt, s') ∧ rd_ready s' ∧
    rd_net s' = (pass_writes connected nodes (rd_net s)).2 ∧ rd_values s' = rd_values s ∧
    kv_view (rd_kv s') = foldl (λ (m : gmap string string) kv, <[kv.1 := kv.2]> m)
      (kv_view (rd_kv s)) (pass_writes connected nodes (rd_net s)).1.
Proof.
  intros Hs Hn. revert s Hs. induction Hn as [|n nodes Hn _ IH]; intros s Hs; [by exists s|].
  destruct (read_node_ok connected n s Hs Hn) as (s1 & Hrun1 & Hs1 & Hnet1 & Hval1 & Hview1).
  destruct (IH s1 Hs1) as (s2 & Hrun2 & Hs2 & Hnet2 & Hval2 & Hview2).
  exists s2. rewrite pass_writes_cons. unfold read_pass in *.
  rewrite (iterS_cons _ _ _ _ _ Hrun1). rewrite Hnet1 in Hnet2, Hview2. rewrite Hview1 in Hview2.
  destruct (pass_writes connected [n] (rd_net s)) as [ws1 w1].
  simpl in Hnet2, Hview2. destruct (pass_writes connected nodes w1) as [ws2 w2].
  simpl in *. split_and!; try done; [congruence|]. by rewrite foldl_app.
Qed.
End PassLemmas.

(** The writes of the first [n] passes. *)
Fixpoint loop_writes `{IedApi} `{FloatText} (n : nat) (connected : bool) (nodes : list DataNode)
    (w : ied_net) : list (string * string) * ied_net :=
  match n with
  | O => ([], w)
  | S n' =>
      let '(ws, w1) := pass_writes connected nodes w in
      let '(ws', w2) := loop_writes n' connected nodes w1 in (ws ++ ws', w2)
  end.

Section LoopLemmas.
Context `{IedApi} {K : Type} `{KvStoreOk K} `{FloatTextOk} `{!MmsApiOk} `{!IedApiOk}.

Lemma read_loop_ok n connected nodes (s : rd K) :
  rd_ready s → Forall (λ x, no_nul (path x) = true) nodes →
  ∃ s', read_loop n connected true nodes s = (Done false, s') ∧ rd_ready s' ∧
    rd_net s' = (loop_writes n connected nodes (rd_net s)).2 ∧ rd_values s' = rd_values s ∧
    kv_view (rd_kv s') = foldl (λ (m : gmap string string) kv, <[kv.1 := kv.2]> m)
      (kv_view (rd_kv s)) (loop_writes n connected nodes (rd_net s)).1.
Proof.
  intros Hs Hn. revert s Hs. induction n as [|n IH]; intros s Hs; [by exists s|].
  destruct (read_pass_ok connected nodes s Hs Hn) as (s1 & Hrun1 & Hs1 & Hnet1 & Hval1 & Hview1).
  destruct (IH s1 Hs1) as (s2 & Hrun2 & Hs2 & Hnet2 & Hval2 & Hview2).
  exists s2. cbn [read_loop loop_writes]. rewrite (prog_bind_eq _ _ _ _ _ Hrun1).
  rewrite Hnet1 in Hnet2, Hview2. rewrite Hview1 in Hview2.
  destruct (pass_writes connected nodes (rd_net s)) as [ws1 w1]. simpl in Hnet2, Hview2.
  destruct (loop_writes n connected nodes w1) as [ws2 w2].
  simpl in *. split_and!; try done; [congruence|]. by rewrite foldl_app.
Qed.

Lemma readAllValues_run `{!KvClient K} `{!KvClientOk K} n connected nodes (s : rd K) :
  nodes ≠ [] → Forall (λ x, no_nul (path x) = true) nodes →
  kv_up (rd_kv s) → rd_part_freed s = false →
  ∃ s', readAllValues n (Some connected) true nodes s = (Done tt, s') ∧ rd_ready s' ∧
    rd_net s' = (loop_writes n connected nodes (rd_net s)).2 ∧ rd_values s' = rd_values s ∧
    kv_view (rd_kv s') = foldl (λ (m : gmap string string) kv, <[kv.1 := kv.2]> m)
      (kv_view (rd_kv s)) (loop_writes n connected nodes (rd_net s)).1.
Proof.
  intros Hne Hn Hup Hp. unfold readAllValues.
  destruct (kv_open_ok (rd_kv s) Hup) as (k & Hopen & Hk & Hview).
  destruct (kv_open_initialized (rd_kv s) Hup) as (k' & Hopen' & Hinit).
  rewrite Hopen in Hopen'. simplify_eq. rewrite (prog_bind_eq _ _ _ _ _ Hopen), Hinit.
  cbn [negb]. destruct nodes as [|n0 nodes]; [done|].
  destruct (read_loop_ok n connected (n0 :: nodes) (set_kv k' s)) as (s' & Hrun & Hs' & Hnet & Hval & Hv);
    [done..|].
  exists s'. rewrite (prog_bind_eq _ _ _ _ _ Hrun). simpl in Hv. rewrite Hview in Hv. done.
Qed.
End LoopLemmas.

(** A write that no later one overwrites is what a reader finds. *)
Lemma foldl_insert_last (pre post : list (string * string)) (m : gmap string string) k v :
  k ∉ post.*1 →
  foldl (λ (m : gmap string string) kv, <[kv.1 := kv.2]> m) m (pre ++ (k, v) :: post) !! k = Some v.
Proof.
  intros Hk. rewrite foldl_app. simpl.
  generalize (foldl (λ (m : gmap string string) kv, <[kv.1 := kv.2]> m) m pre). clear m. intros m.
  assert (Hgen : ∀ (m : gmap string string), m !! k = Some v →
    foldl (λ (m : gmap string string) kv, <[kv.1 := kv.2]> m) m post !! k = Some v).
  { induction post as [|[k' v'] post IH]; intros m' Hm; [done|]. simpl in *.
    apply IH; [set_solver|]. rewrite lookup_insert_ne; [done|set_solver]. }
  apply Hgen, lookup_insert_eq.
Qed.

Lemma pass_writes_keys `{IedApi} `{FloatText} connected nodes w k :
  k ∈ (pass_writes connected nodes w).1.*1 → k ∈ path <$> nodes.
Proof.
  revert w. induction nodes as [|n nodes IH]; intros w; [done|]. simpl.
  destruct (skipped n); [set_solver|].
  destruct (ied_readObject connected (path n) (fc n) w) as [[v ok] w1]. specialize (IH w1).
  destruct (pass_writes connected nodes w1) as [ws w2].
  simpl in *. rewrite fmap_app, elem_of_app. intros [Hin|Hin]; [|set_solver].
  destruct v as [v|], ok; try (by apply elem_of_nil in Hin).
  destruct (scalar_text v v); set_solver.
Qed.

(** The references that are skipped do not matter to a pass. *)
Definition read_references (nodes : list DataNode) : list DataNode :=
  List.filter (λ n, negb (skipped n)) nodes.

Lemma pass_writes_read `{IedApi} `{FloatText} connected nodes w :
  pass_writes connected nodes w = pass_writes connected (read_references nodes) w.
Proof.
  revert w. induction nodes as [|n nodes IH]; intros w; [done|]. simpl.
  destruct (skipped n) eqn:Hn; simpl; [apply IH|]. rewrite Hn.
  destruct (ied_readObject connected (path n) (fc n) w) as [[v ok] w1]. by rewrite IH.
Qed.

(** The last read of a key leaves its text. *)
Lemma pass_writes_last `{IedApi} `{FloatText} connected l1 n l2 w v w' t (m : gmap string string) :
  skipped n = false → path n ∉ path <$> l2 →
  ied_readObject connected (path n) (fc n) (pass_writes connected l1 w).2 = (Some v, true, w') →
  scalar_text v v = Some t →
  foldl (λ (m : gmap string string) kv, <[kv.1 := kv.2]> m) m (pass_writes connected (l1 ++ n :: l2) w).1
    !! path n = Some t.
Proof.
  intros Hskip Hlast Hread Ht. rewrite pass_writes_app.
  destruct (pass_writes connected l1 w) as [ws1 w1]. simpl in Hread.
  cbn [pass_writes]. rewrite Hskip, Hread, Ht.
  pose proof (pass_writes_keys connected l2 w' (path n)) as Hkeys.
  destruct (pass_writes connected l2 w') as [ws2 w2]. simpl.
  apply foldl_insert_last. auto.
Qed.

(** The getter of the type of [v] finds [v] under [key]: booleans, signed
    integers, unsigned integers (as 64-bit numbers), UTC times (in
    milliseconds), strings, bit strings (as their text of ones and zeros), and
    of a floating point number what [%f] keeps of it.  Values of other types
    (structures and arrays among them) are not stored. *)
Definition reads_back `{MmsApi} `{FloatText} `{RedisServer} (v : MmsValue) (key : string) (k : DRDSDataRedis) : Prop :=
  (MmsValue_getType v = MMS_BOOLEAN → (getBool key k).1 = Done (MmsValue_getBoolean v)) ∧
  (MmsValue_getType v = MMS_INTEGER → (getLInt key k).1 = Done (MmsValue_toInt64 v)) ∧
  (MmsValue_getType v = MMS_UNSIGNED → (getULInt key k).1 = Done (wrap_u 64 (MmsValue_toInt64 v))) ∧
  (MmsValue_getType v = MMS_UTC_TIME →
     (getLInt key k).1 = Done (wrap_s 64 (MmsValue_getUtcTimeInMs v))) ∧
  (MmsValue_getType v = MMS_VISIBLE_STRING ∨ MmsValue_getType v = MMS_STRING →
     (getString key k).1 = Done (string_of v)) ∧
  (MmsValue_getType v = MMS_BIT_STRING → (getString key k).1 = Done (bit_string v)) ∧
  (MmsValue_getType v = MMS_FLOAT → (getLReal key k).1 = stod (fmt_f (MmsValue_toDouble v))).

Lemma text_reads_back `{MmsApiOk} `{FloatText} `{RedisServerOk} (v : MmsValue) key (k : DRDSDataRedis) :
  connected k → srv_up (net k) → no_nul key = true →
  (∀ t, scalar_text v v = Some t → srv (net k) !! key = Some t) →
  reads_back v key k.
Proof.
  intros Hcon Hup Hkey Hlook.
  assert (Hget : ∀ A (dflt : A) conv t, scalar_text v v = Some t →
    (get_with key dflt conv k).1 = conv t).
  { intros A dflt conv t Ht. apply get_with_connected; auto. }
  assert (Hstr : no_nul (string_of v) = true).
  { unfold string_of. destruct (MmsValue_toString v) eqn:Hs; [by eapply toString_no_nul|done]. }
  split_and!; intros Hty; unfold scalar_text in Hget; rewrite Hty in Hget || destruct Hty as [Hty|Hty]; rewrite ?Hty in Hget;
    unfold getBool, getLInt, getULInt, getString, getLReal; (erewrite Hget; [|done]).
  - by destruct (MmsValue_getBoolean v).
  - pose proof (toInt64_range v). rewrite wrap_s_id by (done || lia). rewrite sto_signed_dec by done.
    simpl. by rewrite wrap_s_id.
  - pose proof (wrap_u_range 64 (MmsValue_toInt64 v) ltac:(lia)). rewrite sto_unsigned_dec by done.
    simpl. by rewrite wrap_u_id.
  - pose proof (wrap_s_range 64 (MmsValue_getUtcTimeInMs v) ltac:(lia)).
    rewrite sto_signed_dec by done. simpl. by rewrite wrap_s_id.
  - by rewrite c_str_id.
  - by rewrite c_str_id.
  - by rewrite c_str_id by (apply no_nul_bit_string).
  - done.
Qed.

(** ** Properties *)

(** C28: the reading loop, over a Redis client and a server that work: the first
    n passes leave in Redis exactly the values of the selected references
    that were read, in the order of the passes, nothing else, and every value
    received from the library is deleted; the loop itself never ends and its
    Redis client stays open. *)
Theorem readAllValues_passes `{IedApi} {K} `{KvStoreOk K} `{!KvClient K} `{!KvClientOk K}
    `{FloatTextOk} `{!MmsApiOk} `{!IedApiOk} n connected nodes (s : rd K) :
  nodes ≠ [] → Forall (λ x, no_nul (path x) = true) nodes →
  kv_up (rd_kv s) → rd_part_freed s = false →
  ∃ s', readAllValues n (Some connected) true nodes s = (Done tt, s') ∧
    kv_ready (rd_kv s') ∧ rd_values s' = rd_values s ∧
    kv_view (rd_kv s') = foldl (λ (m : gmap string string) kv, <[kv.1 := kv.2]> m)
      (kv_view (rd_kv s)) (loop_writes n connected nodes (rd_net s)).1 ∧
    Forall (λ kv, ∃ x, x ∈ nodes ∧ skipped x = false ∧ kv.1 = path x)
      (pass_writes connected nodes (rd_net s)).1.
Proof.
  intros Hne Hn Hup Hp.
  destruct (readAllValues_run n connected nodes s) as (s' & Hrun & [Hk _] & _ & Hval & Hview); [done..|].
  exists s'. split_and!; [done..|]. clear. generalize (rd_net s).
  induction nodes as [|x nodes IH]; intros w; [by constructor|]. simpl.
  destruct (skipped x) eqn:Hx.
  { eapply Forall_impl; [apply IH|]. intros kv (y & ? & ? & ?). exists y. set_solver. }
  destruct (ied_readObject connected (path x) (fc x) w) as [[v ok] w1]. specialize (IH w1).
  destruct (pass_writes connected nodes w1) as [ws w2]. simpl in *. apply Forall_app. split.
  - destruct v as [v|], ok; try constructor. destruct (scalar_text v v); [|constructor].
    constructor; [|constructor]. exists x. set_solver.
  - eapply Forall_impl; [exact IH|]. intros kv (y & ? & ? & ?). exists y. set_solver.
Qed.

(** End to end through the reader and the Redis client: when the last
    occurrence of a selected reference is read, the getter of its type on the
    Redis client then returns the value that the server sent, for booleans,
    signed and unsigned integers, UTC times (in milliseconds) and strings. *)
Theorem attribute_reaches_redis `{IedApi} `{RedisServerOk} `{FloatTextOk} `{!MmsApiOk} `{!IedApiOk}
    d connected l1 n l2 (s : rd DRDSDataRedis) v w :
  let _ := redis_store d in
  configured d = true → ctxs (rd_kv s) = ∅ → srv_up (net (rd_kv s)) → rd_part_freed s = false →
  Forall (λ x, no_nul (path x) = true) (l1 ++ n :: l2) →
  skipped n = false → path n ∉ path <$> l2 →
  ied_readObject connected (path n) (fc n) (pass_writes connected l1 (rd_net s)).2 = (Some v, true, w) →
  ∃ s', readAllValues 1 (Some connected) true (l1 ++ n :: l2) s = (Done tt, s') ∧
    reads_back v (path n) (rd_kv s').
Proof.
  intros kv Hd Hctx Hup Hp Hn Hskip Hlast Hread.
  pose proof (redis_store_ok d Hd) as Hok. pose proof (redis_client_ok d Hd) as Hcok.
  destruct (readAllValues_run 1 connected (l1 ++ n :: l2) s)
    as (s' & Hrun & [[Hcon Hup'] _] & _ & _ & Hview); [by destruct l1|done..|].
  exists s'. split; [exact Hrun|]. simpl in Hcon, Hup', Hview.
  apply text_reads_back; [done|done| |].
  - by apply Forall_app in Hn as [_ [? _]%Forall_cons].
  - intros t Ht. rewrite Hview. simpl.
    pose proof (pass_writes_last connected l1 n l2 (rd_net s) v w t (srv (net (rd_kv s))) Hskip Hlast Hread Ht) as Hl.
    destruct (pass_writes connected (l1 ++ n :: l2) (rd_net s)) as [ws w2]. simpl. by rewrite app_nil_r.
Qed.

(** The walk over a structured value ends whatever the value (even one
    that contains itself), since it is cut eleven levels down: twelve calls
    are enough, and more change nothing.  It only logs: no component of a
    structure is ever written to Redis. *)
Theorem structures_are_only_logged `{IedApi} {K} `{KvStore K} `{FloatText} v p (s : rd K) :
  ∃ s', (∀ fuel, (12 ≤ fuel)%nat → parseStructure fuel v p None 0 "" s = (Done tt, s')) ∧
    rd_kv s' = rd_kv s ∧ rd_net s' = rd_net s ∧ rd_values s' = rd_values s ∧
    rd_part_freed s' = rd_part_freed s.
Proof.
  destruct (parseStructure_total 12 v p 0 s) with (s := s) as ([] & s' & Hrun & Hs'); [lia|lia|done|].
  exists s'. split; [|apply Hs']. intros fuel Hf. rewrite <- Hrun. apply parseStructure_fuel; lia.
Qed.

(** Asked for one component of a structure, the walk deletes that component
    although it still belongs to the structure: deleting the structure, as
    readAllValues does with every value, deletes it twice.  Of a time
    component, what it stores is the time of the enclosing structure. *)
Theorem component_deleted_twice `{IedApi} {K} `{KvStoreOk K} `{FloatTextOk} v spec target x p (s : rd K) :
  MmsValue_getType v = MMS_STRUCTURE → target ≠ ""%string →
  MmsValue_getSubElement v spec target = Some x → MmsValue_getType x = MMS_UTC_TIME →
  kv_ready (rd_kv s) → no_nul p = true → no_nul target = true →
  ∃ s', parseStructure 12 (Some v) p (Some spec) 0 target s = (Done tt, s') ∧
    (delete_value s').1 = Undef "component deleted twice" ∧
    kv_view (rd_kv s') !! (p +:+ "." +:+ target)
      = Some (dec (wrap_s 64 (MmsValue_getUtcTimeInMs v))).
Proof.
  intros Hv Htgt Hsub Hx Hk Hp Ht.
  change 12%nat with (S 11). generalize 11%nat. intros n. cbn [parseStructure].
  rewrite bool_decide_true by done. cbn [negb]. change (10 <? 0)%Z with false. cbv iota.
  destruct (String.eqb target "") eqn:He; gw_bool; [done|]. rewrite Hsub, Hx.
  set (key := p +:+ "." +:+ target).
  assert (no_nul key = true) as Hkey by (unfold key; rewrite !no_nul_app; by rewrite Hp, Ht).
  destruct (kv_set_ok key (dec (wrap_s 64 (MmsValue_getUtcTimeInMs v))) (rd_kv s) Hk Hkey (no_nul_dec _))
    as (k & Hset & _ & Hview).
  rewrite bool_decide_false by done.
  erewrite prog_bind_eq.
  2: { unfold on_kv. rewrite store_scalar_text. unfold scalar_text. rewrite Hx, Hset. reflexivity. }
  eexists. split; [done|]. split; [done|]. simpl. rewrite Hview. apply lookup_insert_eq.
Qed.

(** *** Control commands *)

Section ControlLemmas.
Context `{IedApi}.

(** What a command can carry, given the text asked for. *)
Definition ctl_allowed (ctlVal : string) (v : option (bool + Z)) : Prop :=
  v = None ∨ v = Some (inl (ctl_is_true ctlVal)) ∨
  ∃ i, sto_signed 32 ctlVal = Done i ∧ v = Some (inr (if (i =? 0)%Z then 0 else 1)%Z).

(** One iteration that returns sends at most one command, for its node. *)
Lemma control_object_step ctlVal node s :
  (∃ s' sent, control_object ctlVal node s = (Done tt, s') ∧ ctl_objects s' = ctl_objects s ∧
     ctl_sent s' = ctl_sent s ++ sent ∧
     (sent = [] ∨ ∃ v, sent = [(node, v)] ∧ ctl_allowed ctlVal v)) ∨
  (∃ e s', control_object ctlVal node s = (Threw e, s') ∧ sto_signed 32 ctlVal = Threw e ∧
     ctl_objects s' = (ctl_objects s + 1)%Z ∧ ctl_sent s' = ctl_sent s).
Proof.
  unfold control_object. destruct (ied_createControl node (ctl_net s)) as [[type|] w].
  2: { left. eexists _, []. split; [done|]. simpl. rewrite app_nil_r. auto. }
  assert (Hv : (∃ v, ctl_value type ctlVal = Done v ∧ ctl_allowed ctlVal v) ∨
               (∃ e, ctl_value type ctlVal = Threw e ∧ sto_signed 32 ctlVal = Threw e)).
  { unfold ctl_allowed. destruct type; simpl; try (left; eexists; split; [done|]; by left).
    - left. eexists. split; [done|]. right. by left.
    - unfold sto_signed. destruct (strto ctlVal) as [[neg m]|]; [|right; by eexists].
      destruct (_ && _); [|right; by eexists]. left. eexists. split; [done|]. right. right. by eexists. }
  destruct Hv as [(v & -> & Hv)|(e & -> & He)].
  - left. destruct (ied_operate node v w) as [ok w']. eexists _, [(node, v)].
    split; [done|]. simpl. split_and!; [done..|]. right. by exists v.
  - right. eexists _, _. split; [done|]. done.
Qed.

Lemma controlObjects_done nodes ctlVal s :
  (∀ e, sto_signed 32 ctlVal ≠ Threw e) →
  ∃ s' sent, controlObjects nodes ctlVal s = (Done tt, s') ∧ ctl_objects s' = ctl_objects s ∧
    ctl_sent s' = ctl_sent s ++ sent ∧ sent.*1 `sublist_of` nodes ∧
    Forall (λ c, ctl_allowed ctlVal c.2) sent.
Proof.
  intros Hi. revert s. induction nodes as [|n nodes IH]; intros s.
  { exists s, []. rewrite app_nil_r. split_and!; try done; constructor. }
  destruct (control_object_step ctlVal n s) as [(s1 & sent1 & Hrun1 & Ho1 & Hs1 & Hsent1)|(e & ? & _ & He & _)];
    [|by destruct (Hi e)].
  destruct (IH s1) as (s2 & sent2 & Hrun2 & Ho2 & Hs2 & Hsub & Hall).
  exists s2, (sent1 ++ sent2). unfold controlObjects in *. rewrite (iterS_cons _ _ _ _ _ Hrun1).
  split; [done|]. split; [congruence|]. rewrite Hs2, Hs1, app_assoc. split; [done|].
  destruct Hsent1 as [->|(v & -> & Hv)]; simpl.
  - split; [by constructor|done].
  - split; [by constructor|by constructor].
Qed.
End ControlLemmas.

(** A control request with a text that reads as an integer visits every
    node: at most one command per node, in the order of the nodes, carrying
    the boolean or the 0/1 that the text means, or no value at all (the
    control types the switch leaves out), and every control object is
    released. *)
Theorem control_request `{IedApi} nodes ctlVal i s :
  sto_signed 32 ctlVal = Done i →
  ∃ s' sent, controlObjects nodes ctlVal s = (Done tt, s') ∧ ctl_objects s' = ctl_objects s ∧
    ctl_sent s' = ctl_sent s ++ sent ∧ sent.*1 `sublist_of` nodes ∧
    Forall (λ c, c.2 = None ∨ c.2 = Some (inl (ctl_is_true ctlVal)) ∨
                 c.2 = Some (inr (if (i =? 0)%Z then 0 else 1)%Z)) sent.
Proof.
  intros Hi. destruct (controlObjects_done nodes ctlVal s) as (s' & sent & Hrun & Ho & Hs & Hsub & Hall).
  { intros e. by rewrite Hi. }
  exists s', sent. split_and!; try done. eapply Forall_impl; [exact Hall|].
  intros c [?|[?|(i' & Hi' & ?)]]; [by left|right; by left|]. rewrite Hi in Hi'. simplify_eq. auto.
Qed.

(** The texts "true" and "false", which the boolean controls take, make the
    request throw at the first integer control: that control object is never
    released and the nodes after it get no command. *)
Theorem control_request_throws `{IedApi} l1 n l2 s w s1 :
  controlObjects l1 "true" s = (Done tt, s1) →
  ied_createControl n (ctl_net s1) = (Some MMS_INTEGER, w) →
  ∃ s', controlObjects (l1 ++ n :: l2) "true" s = (Threw InvalidArgument, s') ∧
    ctl_sent s' = ctl_sent s1 ∧ ctl_objects s' = (ctl_objects s1 + 1)%Z ∧ ctl_net s' = w.
Proof.
  intros Hl1 Hn. unfold controlObjects in *. rewrite iterS_app, (prog_bind_eq _ _ _ _ _ Hl1).
  simpl. unfold mbind at 1, prog_bind at 1. unfold control_object at 1. rewrite Hn. simpl.
  eexists. split; [done|]. done.
Qed.

(** ** Witnesses *)

(** Values as trees. *)
Inductive demo_value : Type :=
| DvBool (b : bool) | DvInt (z : Z) | DvUtc (ms : Z) | DvStr (s : string) | DvStruct (l : list demo_value).

Definition demo_mms : MmsApi := {|
  MmsValue := demo_value;
  MmsVariableSpecification := list string;
  MmsValue_getType v := match v with
    | DvBool _ => MMS_BOOLEAN | DvInt _ => MMS_INTEGER | DvUtc _ => MMS_UTC_TIME
    | DvStr _ => MMS_VISIBLE_STRING | DvStruct _ => MMS_STRUCTURE end;
  MmsValue_getBoolean v := match v with DvBool b => b | _ => false end;
  MmsValue_toInt64 v := match v with DvInt z => wrap_s 64 z | _ => 0%Z end;
  MmsValue_toDouble _ := S754_zero false;
  MmsValue_toString v := match v with DvStr s => Some (c_str s) | _ => None end;
  MmsValue_getBitStringSize _ := 0%Z;
  MmsValue_getBitStringBit _ _ := false;
  MmsValue_getUtcTimeInMs v := match v with DvUtc ms => ms | _ => 0%Z end;
  MmsValue_getArraySize v := match v with DvStruct l => Z.of_nat (length l) | _ => 0%Z end;
  MmsValue_getElement v i := match v with DvStruct l => l !! Z.to_nat i | _ => None end;
  MmsValue_getSubElement v _ _ := match v with DvStruct l => last l | _ => None end
|}.

Lemma no_nul_c_str s : no_nul (c_str s) = true.
Proof.
  induction s as [|c s IH]; [done|]. simpl. destruct (Ascii.eqb c "000") eqn:Hc; [done|].
  cbn [no_nul]. by rewrite Hc, IH.
Qed.

Lemma demo_mms_ok : MmsApiOk (H := demo_mms).
Proof.
  split.
  - intros v s Hs. destruct v; simplify_eq/=. apply no_nul_c_str.
  - assert (in_s 64 0) as Hz by (unfold in_s; lia).
    intros v. destruct v; try exact Hz. apply wrap_s_range. lia.
Qed.

(** A server with a fixed set of attributes; every control is of type [ty]. *)
Definition demo_attributes : list (string * demo_value) :=
  [("IED1LD0/SPTR01.Beh.stVal", DvInt 3); ("IED1LD0/SPTR01.Op.general", DvBool true);
   ("IED1LD0/SPTR01.Op.q", DvStruct [DvInt 1; DvStruct [DvBool false]])]%string.

Definition demo_ied (ty : MmsType) : IedApi (H := demo_mms) := {|
  ied_net := nat;
  ied_connect c _ _ w := (negb c, true, S w);
  ied_readObject _ p _ w :=
    match (list_to_map demo_attributes : gmap string demo_value) !! p with
    | Some v => (Some v, true, S w)
    | None => (None, false, S w)
    end;
  ied_createControl _ w := (Some ty, S w);
  ied_operate _ _ w := (true, S w)
|}.

Lemma demo_ied_ok ty : IedApiOk (H0 := demo_ied ty).
Proof.
  split; simpl; intros.
  - by eexists.
  - by simplify_eq.
  - by simplify_eq.
  - by destruct (_ !! _); simplify_eq.
Qed.

Definition demo_node (p f : string) : DataNode := {| path := p; fc := f |}.

Definition demo_nodes : list DataNode :=
  [demo_node "IED1LD0/SPTR01.Beh.stVal" "ST"; demo_node "IED1LD0/GGIO1.Ind1.stVal" "ST";
   demo_node "IED1LD0/SPTR01.Op.general" "ST"; demo_node "IED1LD0/SPTR01.Op.q" "ST";
   demo_node "IED1LD0/SPTR01.Op.none" "CF"].

Definition demo_rd {K} (k : K) : @rd demo_mms (demo_ied MMS_INTEGER) K :=
  {| rd_kv := k; rd_net := (0%nat : @ied_net demo_mms (demo_ied MMS_INTEGER)); rd_values := 0;
     rd_part_freed := false; rd_log := [] |}.

Definition demo_idle_client : DRDSDataRedis (H := demo_hiredis false (Some false)) :=
  set_ctxs ∅ (demo_client false (Some false)).

Definition demo_fmt : FloatText :=
  {| fmt_f _ := "0.000000"%string; stod _ := Threw InvalidArgument |}.

Lemma demo_fmt_ok : FloatTextOk (H := demo_fmt).
Proof. by split. Qed.

Definition demo_kv : KvStore (DRDSDataRedis (H := demo_hiredis false (Some false))) :=
  redis_store (H0 := demo_server false (Some false)) demo_defaults.

Definition demo_kv_client : KvClient (H := demo_kv) (DRDSDataRedis (H := demo_hiredis false (Some false))) :=
  redis_client (H0 := demo_server false (Some false)) demo_defaults.

Lemma demo_nodes_ok : Forall (λ x, no_nul (path x) = true) demo_nodes.
Proof. repeat (constructor; [by vm_compute|]). constructor. Qed.

Lemma readAllValues_passes_witness :
  let _ := demo_mms in let _ := demo_ied MMS_INTEGER in let _ := demo_kv in
  let _ := demo_kv_client in let _ := demo_fmt in
  ∃ s', readAllValues 2 (Some true) true demo_nodes (demo_rd demo_idle_client) = (Done tt, s') ∧
    rd_values s' = 0%Z ∧
    kv_view (rd_kv s') !! "IED1LD0/SPTR01.Beh.stVal"%string = Some "3"%string ∧
    kv_view (rd_kv s') !! "IED1LD0/SPTR01.Op.q"%string = None.
Proof.
  intros mms ied kv kc ft.
  destruct (@readAllValues_passes mms ied _ kv
    (redis_store_ok (H1 := demo_server_ok) demo_defaults eq_refl) kc
    (redis_client_ok (H1 := demo_server_ok) demo_defaults eq_refl) ft demo_fmt_ok demo_mms_ok
    (demo_ied_ok MMS_INTEGER) 2 true demo_nodes (demo_rd demo_idle_client))
    as (s' & Hrun & _ & Hval & Hview & _); [done|exact demo_nodes_ok|done|done|].
  exists s'. split; [exact Hrun|]. split; [exact Hval|].
  split; (etrans; [exact (f_equal (lookup _) Hview)|by vm_compute]).
Defined.

Lemma attribute_reaches_redis_witness :
  let _ := demo_mms in let _ := demo_ied MMS_INTEGER in let _ := demo_kv in
  let _ := demo_kv_client in let _ := demo_fmt in
  ∃ s', readAllValues 1 (Some true) true demo_nodes (demo_rd demo_idle_client) = (Done tt, s') ∧
    (getLInt "IED1LD0/SPTR01.Beh.stVal" (rd_kv s')).1 = Done 3%Z.
Proof.
  intros mms ied kv kc ft.
  destruct (@attribute_reaches_redis mms ied _ _ demo_server_ok ft demo_fmt_ok demo_mms_ok
    (demo_ied_ok MMS_INTEGER) demo_defaults true [] (demo_node "IED1LD0/SPTR01.Beh.stVal" "ST")
    (tail demo_nodes) (demo_rd demo_idle_client) (DvInt 3) 1%nat)
    as (s' & Hrun & _ & Hint & _); try done.
  - exact demo_nodes_ok.
  - apply (bool_decide_unpack _). by vm_compute.
  - exists s'. split; [exact Hrun|]. by apply Hint.
Defined.

Lemma component_deleted_twice_witness :
  let _ := demo_mms in let _ := demo_ied MMS_INTEGER in let _ := demo_kv in let _ := demo_fmt in
  ∃ s', parseStructure 12 (Some (DvStruct [DvUtc 1700000000000])) "IED1LD0/SPTR01.Op"
          (Some [] : option MmsVariableSpecification) 0 "t" (demo_rd (demo_client false (Some false)))
          = (Done tt, s') ∧
    (delete_value s').1 = Undef "component deleted twice" ∧
    kv_view (rd_kv s') !! "IED1LD0/SPTR01.Op.t"%string = Some "0"%string.
Proof.
  intros mms ied kv ft.
  assert (connected (demo_client false (Some false))) as Hc by (by exists 0%nat).
  by apply (@component_deleted_twice mms ied _ kv
    (redis_store_ok (H1 := demo_server_ok) demo_defaults eq_refl) ft demo_fmt_ok
    (DvStruct [DvUtc 1700000000000]) [] "t" (DvUtc 1700000000000) "IED1LD0/SPTR01.Op"
    (demo_rd (demo_client false (Some false)))).
Defined.

Definition demo_ctl (ty : MmsType) : @ctl demo_mms (demo_ied ty) :=
  {| ctl_net := (0%nat : @ied_net demo_mms (demo_ied ty)); ctl_objects := 0; ctl_sent := [] |}.

Lemma control_request_witness :
  let _ := demo_mms in let _ := demo_ied MMS_BOOLEAN in
  ∃ s' sent, controlObjects ["a"; "b"]%string "1" (demo_ctl MMS_BOOLEAN) = (Done tt, s') ∧
    ctl_objects s' = 0%Z ∧ ctl_sent s' = sent ∧ sent.*1 `sublist_of` ["a"; "b"]%string.
Proof.
  intros mms ied.
  destruct (@control_request mms ied ["a"; "b"]%string "1" 1 (demo_ctl MMS_BOOLEAN) eq_refl)
    as (s' & sent & Hrun & Ho & Hs & Hsub & _).
  exists s', sent. done.
Defined.

Lemma control_request_throws_witness :
  let _ := demo_mms in let _ := demo_ied MMS_INTEGER in
  ∃ s', controlObjects ["a"; "b"]%string "true" (demo_ctl MMS_INTEGER) = (Threw InvalidArgument, s') ∧
    ctl_sent s' = [] ∧ ctl_objects s' = 1%Z ∧ ctl_net s' = 1%nat.
Proof.
  intros mms ied.
  by apply (@control_request_throws mms ied [] "a" ["b"]%string (demo_ctl MMS_INTEGER) 1%nat
    (demo_ctl MMS_INTEGER)).
Defined.
