(* ===== verification/Iec61850Document.v ===== *)
(** * From an ICD document to Redis

    The parser of [icd_parse.h] gives the client of [lec61850Client.cc] the
    references that it reads: the two together, from what the document says
    ([IcdDocument]) to what a reader of Redis gets. *)

From Stdlib Require Import ZArith String Lia.
From stdpp Require Import base tactics option sets list numbers strings gmap.
From S2P Require Import Prelude Text Store Redis IcdParser IcdDocument Iec61850Client.

(** A reference that the document gives to one of its logical nodes. *)
Definition document_reference `{XMLDom} (scl : XMLElement) (n : DataNode) : Prop :=
  ∃ ln, ln ∈ logical_nodes scl ∧ reference scl ln n.

Lemma parse_references `{XMLDom} doc scl :
  document_scl doc = Some scl → scl_ok scl →
  ∃ r, parse doc = Done r ∧ ∀ n, n ∈ nodes r ↔ document_reference scl n.
Proof.
  intros Hdoc Hok. destruct doc as [d|]; [|done]. unfold document_scl in Hdoc. simpl in Hdoc.
  assert (returns (parse (Some d))) as [r Hr].
  { apply returns_parse. intros d' scl' [= <-] Hscl. assert (scl' = scl) as -> by congruence. apply Hok. }
  exists r. split; [done|]. simpl in Hr. rewrite Hdoc in Hr. by apply parse_found.
Qed.

(** ** Properties *)

(** C8: from the document to the reader of Redis: the references parsed from a
    document are handed to the reading loop; after one pass, for every
    reference of the document that the loop reads (status or configuration,
    in a node SPTR01) and whose reads the server answers with a boolean, an
    integer, a time, a string, a bit string or a floating point number, the
    getter of its type returns the server's value, wherever the reference
    stands in the document, provided that no other reference of the document
    has its path with another constraint.  Unsigned integers come as 64-bit
    numbers, times in milliseconds, a bit string as its text, and a floating
    point number as the one that is read from its text in %f.  (Of a structure
    nothing is stored; nothing is said of it.) *)
Theorem document_reaches_reader `{XMLDom} `{IedApi} `{RedisServerOk} `{FloatTextOk} `{!MmsApiOk} `{!IedApiOk}
    d connected doc scl (s : rd DRDSDataRedis) n v :
  let _ := redis_store d in
  configured d = true → ctxs (rd_kv s) = ∅ → srv_up (net (rd_kv s)) → rd_part_freed s = false →
  document_scl doc = Some scl → scl_ok scl →
  (∀ n', document_reference scl n' → no_nul (path n') = true) →
  document_reference scl n → skipped n = false →
  (∀ n', document_reference scl n' → path n' = path n → fc n' = "ST" ∨ fc n' = "CF" → fc n' = fc n)%string →
  (∀ w, ∃ w', ied_readObject connected (path n) (fc n) w = (Some v, true, w')) →
  ∃ r s', parse doc = Done r ∧ readAllValues 1 (Some connected) true (nodes r) s = (Done tt, s') ∧
    reads_back v (path n) (rd_kv s').
Proof.
  intros kv Hd Hctx Hup Hp Hdoc Hok Hnul Hn Hskip Hfc Hread.
  pose proof (redis_store_ok d Hd) as Hkok. pose proof (redis_client_ok d Hd) as Hcok.
  destruct (parse_references doc scl Hdoc Hok) as (r & Hr & Hrefs).
  destruct (readAllValues_run 1 connected (nodes r) s) as (s' & Hrun & [[Hcon Hup'] _] & _ & _ & Hview); try done.
  { intros He. apply Hrefs in Hn. rewrite He in Hn. by apply elem_of_nil in Hn. }
  { apply Forall_forall. intros n' Hn'. by apply Hnul, Hrefs. }
  exists r, s'. split; [done|]. split; [exact Hrun|].
  apply text_reads_back; [done|done|by apply Hnul|]. intros t Ht. simpl in Hview. rewrite Hview.
  rewrite pass_writes_read.
  assert (n ∈ read_references (nodes r)) as Hin.
  { apply elem_of_List_filter. rewrite Hskip. split; [by apply Hrefs|done]. }
  destruct (list_elem_of_split_r _ _ Hin) as (l1 & l2 & Hl & Hlast). rewrite Hl.
  destruct (Hread (pass_writes connected l1 (rd_net s)).2) as [w' Hw'].
  assert (path n ∉ path <$> l2) as Hpath.
  { intros (n' & Hpn & Hn')%list_elem_of_fmap.
    assert (n' ∈ read_references (nodes r)) as Hn2 by (rewrite Hl; set_solver).
    apply elem_of_List_filter in Hn2 as [Hn2 Hsk]. apply negb_true_iff in Hsk.
    assert (fc n' = fc n) as Hf.
    { apply Hfc; [by apply Hrefs|done|]. unfold skipped in Hsk.
      destruct (String.eqb_spec (fc n') "ST"); [by left|]. destruct (String.eqb_spec (fc n') "CF"); [by right|].
      rewrite orb_true_r in Hsk. done. }
    assert (n' = n) as -> by (destruct n, n'; simpl in *; congruence). done. }
  pose proof (pass_writes_last connected l1 n l2 (rd_net s) v w' t (srv (net (rd_kv s))) Hskip Hpath Hw' Ht) as Hg.
  destruct (pass_writes connected (l1 ++ n :: l2) (rd_net s)) as [ws w2]. simpl. by rewrite app_nil_r.
Qed.

(** ** Witness: a document with one node SPTR01 *)

Definition sptr_scl : demo_elem :=
  E "SCL" []
    [E "IED" [("name", "IED1")]%string
       [E "AccessPoint" []
          [E "Server" []
             [E "LDevice" [("inst", "LD0")]%string
                [E "LN" [("lnClass", "SPTR"); ("inst", "01"); ("lnType", "SPTR_t")]%string []]]]];
     E "DataTypeTemplates" []
       [E "LNodeType" [("id", "SPTR_t")]%string [E "DO" [("name", "Beh"); ("type", "ENS_t")]%string []];
        E "DOType" [("id", "ENS_t")]%string [demo_da "stVal" "ST"]]].

Definition sptr_doc : demo_elem := E "" [] [sptr_scl].

Lemma sptr_scl_ok : scl_ok (H := demo_dom) sptr_scl.
Proof.
  split.
  - intros dtt Ht. vm_compute in Ht. injection Ht as <-. split.
    + intros lnt Hlnt. vm_compute in Hlnt. apply list_elem_of_singleton in Hlnt as ->.
      split; [by eexists|]. intros d Hd. vm_compute in Hd. apply list_elem_of_singleton in Hd as ->. by eexists.
    + intros t Hin. vm_compute in Hin. apply list_elem_of_singleton in Hin as ->.
      split; [by eexists|]. intros d Hd. vm_compute in Hd. apply list_elem_of_singleton in Hd as ->. by eexists.
  - intros dtt lnt Ht Hlnt. vm_compute in Ht. injection Ht as <-.
    vm_compute in Hlnt. apply list_elem_of_singleton in Hlnt as ->. discriminate.
Qed.

Lemma sptr_references n :
  document_reference (H := demo_dom) sptr_scl n ↔ n = demo_node "IED1LD0/SPTR01.Beh.stVal" "ST".
Proof.
  destruct (@parse_references demo_dom (Some sptr_doc) sptr_scl eq_refl sptr_scl_ok) as (r & Hr & Hn).
  vm_compute in Hr. injection Hr as <-. rewrite <- Hn. simpl. apply list_elem_of_singleton.
Qed.

Lemma document_reaches_reader_witness :
  let _ := demo_mms in let _ := demo_ied MMS_INTEGER in let _ := demo_kv in
  let _ := demo_kv_client in let _ := demo_fmt in
  ∃ r s', parse (H := demo_dom) (Some sptr_doc) = Done r ∧
    readAllValues 1 (Some true) true (nodes r) (demo_rd demo_idle_client) = (Done tt, s') ∧
    (getLInt "IED1LD0/SPTR01.Beh.stVal" (rd_kv s')).1 = Done 3%Z.
Proof.
  intros mms ied kv kc ft.
  destruct (@document_reaches_reader demo_dom mms ied _ _ demo_server_ok ft demo_fmt_ok demo_mms_ok
    (demo_ied_ok MMS_INTEGER) demo_defaults true (Some sptr_doc) sptr_scl (demo_rd demo_idle_client)
    (demo_node "IED1LD0/SPTR01.Beh.stVal" "ST") (DvInt 3))
    as (r & s' & Hr & Hrun & _ & Hint & _); try done.
  - apply sptr_scl_ok.
  - intros n' ->%sptr_references. reflexivity.
  - by apply sptr_references.
  - by intros n' ->%sptr_references.
  - intros w. exists (S w). reflexivity.
  - exists r, s'. split; [exact Hr|]. split; [exact Hrun|]. by apply Hint.
Defined.
