(* ===== verification/Iec61850Manager.v ===== *)
(** * The IEC 61850 clients and their manager: who owns what, and for how long

    The life of [iec61850Client] objects ([core/iec61850/lec61850Client.cc]:
    the constructor, [init], [connect], [disconnect]), of the connections they
    hold and of the detached threads that run [readAllValues] on them, under
    [iec61850ClientManger] ([core/iec61850/iec61850ClientManger.cc]).  The
    objects are a store indexed by their creation order, an object dies with
    its last [std::shared_ptr], a connection dies with
    [IedConnection_destroy]; using a dead one is undefined.  While the
    manager works on an entry, the thread of its client takes steps and the
    connection may be lost ([meanwhile]).  What a living reader does to Redis is
    in [Iec61850Client]. *)

From Stdlib Require Import ZArith String Lia.
From stdpp Require Import base tactics option list numbers strings gmap.
From S2P Require Import Prelude Config IcdParser Iec61850Client.

(** [con_]: NULL, or a connection in one of its states. *)
Inductive con_state : Type := ConNull | ConClosed | ConConnected | ConDestroyed.

#[export] Instance con_state_eq_dec : EqDecision con_state.
Proof. solve_decision. Defined.

(** The detached thread of [init], on its copy of the nodes. *)
Inductive reader_state : Type :=
| NoReader
| Starting (nodes : list DataNode)
| Looping (nodes : list DataNode)
| Ended.

Record iec61850Client := {
  ip_ : string;
  port_ : Z;                    (* uint16_t *)
  con_ : con_state;
  reader : reader_state;
  held : bool;                  (* a shared_ptr outside the manager *)
  alive : bool                  (* not destroyed *)
}.

Section Manager.
Context `{IedApi} `{XMLDom}.

Record world := {
  objs : list iec61850Client;
  clients_ : list nat;          (* the manager's vector *)
  wnet : ied_net
}.

Definition set_objs (l : list iec61850Client) (w : world) : world :=
  {| objs := l; clients_ := clients_ w; wnet := wnet w |}.
Definition set_clients (l : list nat) (w : world) : world :=
  {| objs := objs w; clients_ := l; wnet := wnet w |}.
Definition set_wnet (n : ied_net) (w : world) : world :=
  {| objs := objs w; clients_ := clients_ w; wnet := n |}.

Definition set_con (s : con_state) (c : iec61850Client) : iec61850Client :=
  {| ip_ := ip_ c; port_ := port_ c; con_ := s; reader := reader c; held := held c; alive := alive c |}.
Definition set_reader (r : reader_state) (c : iec61850Client) : iec61850Client :=
  {| ip_ := ip_ c; port_ := port_ c; con_ := con_ c; reader := r; held := held c; alive := alive c |}.
Definition set_owner (h a : bool) (c : iec61850Client) : iec61850Client :=
  {| ip_ := ip_ c; port_ := port_ c; con_ := con_ c; reader := reader c; held := h; alive := a |}.

Definition update (i : nat) (f : iec61850Client → iec61850Client) : prog world unit :=
  modifyS (λ w, set_objs (alter f i (objs w)) w).

(** A member function of the object [i]. *)
Definition with_obj {A} (i : nat) (f : iec61850Client → prog world A) : prog world A := λ w,
  match objs w !! i with
  | None => (Undef "no such object", w)
  | Some c => if alive c then f c w else (Undef "client used after destruction", w)
  end.

(** [created]: [IedConnection_create] does not return NULL. *)
Definition new_client (created : bool) (ip : string) (port : Z) : iec61850Client :=
  {| ip_ := ip; port_ := wrap_u 16 port; con_ := if created then ConClosed else ConNull;
     reader := NoReader; held := true; alive := true |}.

(** The connect service on a connection in the state [st]. *)
Definition connect_con (i : nat) (ip : string) (port : Z) (connected : bool) : prog world bool := λ w,
  let '(ok, now_connected, n) := ied_connect connected ip port (wnet w) in
  (Done ok, set_wnet n (set_objs (alter (set_con (if now_connected then ConConnected else ConClosed))
                                    i (objs w)) w)).

Definition connect (i : nat) : prog world bool :=
  with_obj i (λ c,
    match con_ c with
    | ConNull => undefS "null connection"
    | ConDestroyed => undefS "connection used after destroy"
    | ConClosed => connect_con i (ip_ c) (port_ c) false
    | ConConnected => connect_con i (ip_ c) (port_ c) true
    end).

(** [load]: the document that tinyxml2 reads from a file. *)
Context (load : string → option XMLElement).

Definition init (i : nat) (configFilePath : string) : prog world unit :=
  res ← liftO (parse (load configFilePath));
  ok ← connect i;
  if (ok : bool) then update i (set_reader (Starting (nodes res))) else mret tt.

Definition disconnect (i : nat) : prog world unit :=
  with_obj i (λ c,
    match con_ c with
    | ConNull => undefS "null connection"
    | ConDestroyed => undefS "connection destroyed twice"
    | _ => update i (set_con ConDestroyed)
    end).

(** *** The reading threads *)

(** One step of the thread of the object [i]: its opening, or one pass.
    [redis_ok]: the Redis client says that it is initialised. *)
Definition reader_step (redis_ok : bool) (i : nat) : prog world unit := λ w,
  match objs w !! i with
  | None => (Done tt, w)
  | Some c =>
      match reader c with
      | NoReader | Ended => (Done tt, w)
      | Starting ns =>
          if negb redis_ok then update i (set_reader Ended) w
          else match ns with
               | [] => update i (set_reader Ended) w
               | _ =>
                   with_obj i (λ c,
                     match con_ c with
                     | ConNull => update i (set_reader Ended)
                     | _ => update i (set_reader (Looping ns))
                     end) w
               end
      | Looping ns =>
          with_obj i (λ c,
            if existsb (λ n, negb (skipped n)) ns && bool_decide (con_ c = ConDestroyed)
            then undefS "connection used after destroy" else mret tt) w
      end
  end.

(** *** The manager *)

(** The owner outside the manager gives its pointer up. *)
Definition release (i : nat) : prog world unit :=
  w ← getS;
  update i (set_owner false (bool_decide (i ∈ clients_ w))).

Definition addClient (i : nat) : prog world unit :=
  modifyS (λ w, set_clients (clients_ w ++ [i]) w).

Definition removeClient (i : nat) : prog world unit :=
  modifyS (λ w, set_clients (filter (λ j, j ≠ i) (clients_ w)) w);;
  w ← getS;
  update i (λ c, set_owner (held c) (held c) c).

(** The other side closes a connection. *)
Definition lose (c : iec61850Client) : iec61850Client :=
  set_con (match con_ c with ConConnected => ConClosed | st => st end) c.

(** What happens in the middle of an iteration, before the second connect: the
    connection is lost or not, and the thread of the new client takes some
    steps (with the answers of its Redis client). *)
Record meanwhile := { lost : bool; thread_steps : list bool }.

(** One entry of the configuration; [client] is released at the end of the
    iteration. *)
Definition init_entry (created : bool) (m : meanwhile) (c : ConfigDataIEC61850.t) : prog world unit :=
  w ← getS;
  let i := length (objs w) in
  modifyS (set_objs (objs w ++ [new_client created (ConfigDataIEC61850.ip c) (ConfigDataIEC61850.port c)]));;
  init i (ConfigDataIEC61850.icd_file_path c);;
  iterS (thread_steps m) (λ redis_ok, reader_step redis_ok i);;
  (if lost m then update i lose else mret tt);;
  ok ← connect i;
  (if (ok : bool) then addClient i else mret tt);;
  release i.

Context (created : ConfigDataIEC61850.t → bool) (between : ConfigDataIEC61850.t → meanwhile).
Context (hash_order : gmap string ConfigDataIEC61850.t → list (string * ConfigDataIEC61850.t)).

Definition initClients (config : option ConfigData) : prog world unit :=
  match config with
  | None => mret tt
  | Some cd => iterS (hash_order (iec61850 cd)) (λ e, init_entry (created e.2) (between e.2) e.2)
  end.

(** The destructor: disconnect, then drop the pointers. *)
Definition manager_delete : prog world unit :=
  w ← getS;
  iterS (clients_ w) disconnect;;
  modifyS (λ w, set_clients [] w);;
  iterS (clients_ w) (λ i, update i (λ c, set_owner (held c) (held c) c)).

(** A new manager, in a process with no client yet. *)
Definition world0 (n : ied_net) : world := {| objs := []; clients_ := []; wnet := n |}.

(** ** Lemmas *)

(** A client that the manager keeps, and one that it does not. *)
Definition kept (c : iec61850Client) : Prop :=
  alive c = true ∧ held c = false ∧ con_ c = ConConnected ∧ reader c = NoReader.
Definition dropped (c : iec61850Client) : Prop :=
  alive c = false ∧ held c = false ∧
  (reader c = NoReader ∨ con_ c = ConConnected).

Definition manager_inv (w : world) : Prop :=
  NoDup (clients_ w) ∧ (∀ i, i ∈ clients_ w → i < length (objs w))%nat ∧
  ∀ i c, objs w !! i = Some c → if decide (i ∈ clients_ w) then kept c else dropped c.

Lemma last_new (l : list iec61850Client) c : (l ++ [c]) !! length l = Some c.
Proof. by rewrite lookup_app_r, Nat.sub_diag by lia. Qed.

Lemma alter_last (l : list iec61850Client) c f :
  alter f (length l) (l ++ [c]) = l ++ [f c].
Proof.
  rewrite <- (Nat.add_0_r (length l)). by rewrite alter_app_r.
Qed.

(** The last object, with the rest of the world. *)
Definition with_last (w : world) (c : iec61850Client) (cl : list nat) (n : ied_net) : world :=
  {| objs := objs w ++ [c]; clients_ := cl; wnet := n |}.

Lemma connect_last `{!IedApiOk} w c cl n :
  alive c = true → con_ c = ConClosed ∨ con_ c = ConConnected →
  ∃ ok st n', connect (length (objs w)) (with_last w c cl n)
      = (Done ok, with_last w (set_con st c) cl n') ∧
    (con_ c = ConConnected → ok = false ∧ st = ConConnected) ∧
    (con_ c = ConClosed → st = if ok then ConConnected else ConClosed).
Proof.
  intros Ha Hc. unfold connect, with_obj. cbn [objs with_last]. rewrite last_new, Ha.
  destruct Hc as [Hc|Hc]; rewrite Hc; unfold connect_con; cbn [wnet objs clients_ with_last].
  - destruct (ied_connect false (ip_ c) (port_ c) n) as [[ok now] n'] eqn:Hcon.
    rewrite alter_last. exists ok, (if now then ConConnected else ConClosed), n'.
    split; [done|]. split; [done|]. intros _.
    destruct ok; [apply connect_ok in Hcon|apply connect_failed in Hcon]; by subst.
  - destruct (connect_connected (ip_ c) (port_ c) n) as [n' Hcon]. rewrite Hcon, alter_last.
    exists false, ConConnected, n'. split; [done|]. by split.
Qed.

Lemma update_last w c cl n f :
  update (length (objs w)) f (with_last w c cl n) = (Done tt, with_last w (f c) cl n).
Proof. unfold update, modifyS, set_objs. simpl. by rewrite alter_last. Qed.

(** The thread of a new client does nothing to it but go on. *)
Lemma reader_steps_last l w c cl n :
  alive c = true → con_ c = ConClosed ∨ con_ c = ConConnected →
  ∃ r, iterS l (λ redis_ok, reader_step redis_ok (length (objs w))) (with_last w c cl n)
      = (Done tt, with_last w (set_reader r c) cl n) ∧ (reader c = NoReader → r = NoReader).
Proof.
  revert c. induction l as [|ok l IH]; intros c Ha Hc; [exists (reader c); by destruct c|].
  assert (∃ r, reader_step ok (length (objs w)) (with_last w c cl n)
      = (Done tt, with_last w (set_reader r c) cl n) ∧ (reader c = NoReader → r = NoReader))
    as (r1 & Hrun1 & Hr1).
  { assert (Hid : with_last w c cl n = with_last w (set_reader (reader c) c) cl n) by (by destruct c).
    unfold reader_step, with_obj. cbn [objs with_last]. rewrite last_new.
    destruct (reader c) as [|ns|ns|] eqn:Hr; [by exists NoReader; rewrite Hid| | |by exists Ended; rewrite Hid].
    - assert (∀ r, update (length (objs w)) (set_reader r) (with_last w c cl n)
        = (Done tt, with_last w (set_reader r c) cl n)) as Hup by (intros; apply update_last).
      destruct ok; cbn [negb]; [|by exists Ended].
      destruct ns; [by exists Ended|]. rewrite Ha.
      destruct Hc as [-> | ->]; by eexists.
    - rewrite Ha. exists (Looping ns). rewrite Hid. split; [|done].
      destruct Hc as [-> | ->]; by rewrite andb_false_r. }
  destruct (IH (set_reader r1 c) Ha Hc) as (r & Hrun & Hr).
  exists r. cbn [iterS]. rewrite (prog_bind_eq _ _ _ _ _ Hrun1), Hrun. split; [done|]. auto.
Qed.

(** Appending an object that is kept exactly when it is listed. *)
Lemma manager_inv_last w c (keep : bool) n :
  manager_inv w → (if keep then kept c else dropped c) →
  manager_inv (with_last w c (clients_ w ++ (if keep then [length (objs w)] else [])) n).
Proof.
  intros (Hnd & Hlt & Hobj) Hc. unfold manager_inv. simpl. rewrite length_app. simpl.
  assert (length (objs w) ∉ clients_ w) as Hnin by (intros ?%Hlt; lia).
  split_and!.
  - apply NoDup_app. split; [done|]. destruct keep; (split; [set_solver|]).
    + apply NoDup_singleton.
    + constructor.
  - intros i. rewrite elem_of_app. intros [Hi%Hlt|Hi]; [lia|].
    destruct keep; [apply list_elem_of_singleton in Hi; lia|by apply elem_of_nil in Hi].
  - intros i c' Hl. destruct (decide (i < length (objs w))%nat) as [Hi|Hi].
    + rewrite lookup_app_l in Hl by done. specialize (Hobj i c' Hl).
      destruct (decide (i ∈ clients_ w)).
      * rewrite decide_True by (rewrite elem_of_app; by left). done.
      * rewrite decide_False; [done|]. rewrite elem_of_app. intros [?|Hin]; [done|].
        destruct keep; [apply list_elem_of_singleton in Hin; lia|by apply elem_of_nil in Hin].
    + assert (i = length (objs w)) as ->.
      { apply lookup_lt_Some in Hl. rewrite length_app in Hl. simpl in Hl. lia. }
      rewrite last_new in Hl. simplify_eq. destruct keep.
      * rewrite decide_True by set_solver. done.
      * rewrite decide_False; [done|]. by rewrite app_nil_r.
Qed.

Lemma init_entry_ok `{!IedApiOk} m w c :
  manager_inv w → lost m = false → returns (parse (load (ConfigDataIEC61850.icd_file_path c))) →
  ∃ w', init_entry true m c w = (Done tt, w') ∧ manager_inv w' ∧
    length (objs w') = S (length (objs w)).
Proof.
  intros Hw Hlost [res Hres]. set (i := length (objs w)).
  set (c0 := new_client true (ConfigDataIEC61850.ip c) (ConfigDataIEC61850.port c)).
  destruct (connect_last w c0 (clients_ w) (wnet w)) as (ok1 & st1 & n1 & Hrun1 & _ & Hst1);
    [done|by left|]. specialize (Hst1 eq_refl).
  set (c1 := if ok1 then set_reader (Starting (nodes res)) (set_con st1 c0) else set_con st1 c0).
  assert (init i (ConfigDataIEC61850.icd_file_path c) (with_last w c0 (clients_ w) (wnet w))
    = (Done tt, with_last w c1 (clients_ w) n1)) as Hinit.
  { unfold init. rewrite Hres. erewrite prog_bind_eq by reflexivity.
    rewrite (prog_bind_eq _ _ _ _ _ Hrun1). subst c1. destruct ok1; [apply update_last|done]. }
  assert (alive c1 = true) as Ha1 by (subst c1; by destruct ok1).
  assert (con_ c1 = ConClosed ∨ con_ c1 = ConConnected) as Hc1 by (subst c1; rewrite Hst1; destruct ok1; simpl; auto).
  destruct (reader_steps_last (thread_steps m) w c1 (clients_ w) n1 Ha1 Hc1) as (r & Hsteps & Hr).
  set (c2 := set_reader r c1) in *. fold i in Hsteps.
  destruct (connect_last w c2 (clients_ w) n1 Ha1 Hc1) as (ok2 & st2 & n2 & Hrun2 & Hcon2 & Hst2).
  set (cl := clients_ w ++ (if ok2 then [i] else [])).
  exists (with_last w (set_owner false (bool_decide (i ∈ cl)) (set_con st2 c2)) cl n2).
  assert (bool_decide (i ∈ cl) = ok2) as Hcl.
  { destruct Hw as (_ & Hlt & _). subst cl. destruct ok2.
    - apply bool_decide_eq_true_2. set_solver.
    - apply bool_decide_eq_false_2. rewrite app_nil_r. intros Hi%Hlt. subst i. lia. }
  split_and!.
  - unfold init_entry. erewrite prog_bind_eq by reflexivity. erewrite prog_bind_eq by reflexivity.
    change (set_objs _ w) with (with_last w c0 (clients_ w) (wnet w)). fold i.
    rewrite (prog_bind_eq _ _ _ _ _ Hinit), (prog_bind_eq _ _ _ _ _ Hsteps), Hlost.
    erewrite prog_bind_eq by reflexivity. fold i in Hrun2. rewrite (prog_bind_eq _ _ _ _ _ Hrun2).
    erewrite prog_bind_eq.
    2: { instantiate (1 := with_last w (set_con st2 c2) cl n2). subst cl. instantiate (1 := tt).
         destruct ok2; [done|]. by rewrite app_nil_r. }
    unfold release. erewrite prog_bind_eq by reflexivity. apply update_last.
  - rewrite Hcl. apply (manager_inv_last w _ ok2); [done|]. subst c2 c1.
    destruct ok1; rewrite Hst1 in *; simpl in *.
    + destruct Hcon2 as [-> ->]; [done|]. split_and!; [done|done|by right].
    + rewrite Hst2, Hr by done. destruct ok2; [done|]. split_and!; [done|done|by left].
  - unfold with_last. cbn [objs]. rewrite length_app. simpl. lia.
Qed.

Lemma disconnect_all l w :
  NoDup l → (∀ i, i ∈ l → ∃ c, objs w !! i = Some c ∧ kept c) →
  ∃ w', iterS l disconnect w = (Done tt, w') ∧ clients_ w' = clients_ w ∧
    ∀ i, objs w' !! i = if decide (i ∈ l) then set_con ConDestroyed <$> objs w !! i else objs w !! i.
Proof.
  intros Hnd. revert w. induction Hnd as [|j l Hj _ IH]; intros w Hk.
  { exists w. split_and!; [done..|]. intros i. by rewrite decide_False by set_solver. }
  destruct (Hk j) as (c & Hc & Ha & Hh & Hcon & Hr); [set_solver|].
  set (w1 := set_objs (alter (set_con ConDestroyed) j (objs w)) w).
  assert (disconnect j w = (Done tt, w1)) as Hd.
  { unfold disconnect, with_obj. by rewrite Hc, Ha, Hcon. }
  destruct (IH w1) as (w2 & Hrun & Hcl & Hobj).
  { intros i Hi. destruct (Hk i) as (c' & Hc' & ?); [set_solver|]. exists c'. split; [|done].
    simpl. rewrite list_lookup_alter_ne; [done|]. set_solver. }
  exists w2. rewrite (iterS_cons _ _ _ _ _ Hd). split_and!; [done..|].
  intros i. rewrite Hobj. simpl. destruct (decide (i = j)) as [->|Hne].
  - rewrite decide_False by done. rewrite decide_True by set_solver. by rewrite list_lookup_alter_eq.
  - rewrite list_lookup_alter_ne by done. destruct (decide (i ∈ l)).
    + by rewrite decide_True by set_solver.
    + by rewrite decide_False by set_solver.
Qed.

Lemma update_owners l w :
  ∃ w', iterS l (λ i, update i (λ c, set_owner (held c) (held c) c)) w = (Done tt, w') ∧
    clients_ w' = clients_ w ∧
    ∀ i, objs w' !! i =
      if decide (i ∈ l) then (λ c, set_owner (held c) (held c) c) <$> objs w !! i else objs w !! i.
Proof.
  revert w. induction l as [|j l IH]; intros w.
  { exists w. split_and!; [done..|]. intros i. by rewrite decide_False by set_solver. }
  destruct (IH (set_objs (alter (λ c, set_owner (held c) (held c) c) j (objs w)) w))
    as (w2 & Hrun & Hcl & Hobj).
  exists w2. split_and!; [done..|]. intros i. rewrite Hobj. simpl.
  destruct (decide (i = j)) as [->|Hne].
  - rewrite (decide_True (P := j ∈ j :: l)) by set_solver. rewrite list_lookup_alter_eq.
    destruct (decide (j ∈ l)); [|done]. by destruct (objs w !! j).
  - rewrite list_lookup_alter_ne by done. destruct (decide (i ∈ l)).
    + by rewrite decide_True by set_solver.
    + by rewrite decide_False by set_solver.
Qed.

(** The hypotheses on a configuration: its ICD files parse, the library has
    memory for its connections, and no connection is lost between the two
    connects. *)
Definition loadable (cd : ConfigData) : Prop :=
  Forall (λ e, returns (parse (load (ConfigDataIEC61850.icd_file_path e.2))) ∧ created e.2 = true ∧
      lost (between e.2) = false)
    (hash_order (iec61850 cd)).

Lemma initClients_inv `{!IedApiOk} cd w :
  manager_inv w → loadable cd →
  ∃ w', initClients (Some cd) w = (Done tt, w') ∧ manager_inv w' ∧
    length (objs w') = (length (objs w) + length (hash_order (iec61850 cd)))%nat.
Proof.
  unfold initClients, loadable. intros Hw Hl. revert w Hw.
  induction Hl as [|e l (Hp & Hc & Hlost) _ IH]; intros w Hw; [exists w; simpl; split_and!; [done..|lia]|].
  destruct (init_entry_ok (between e.2) w e.2 Hw Hlost Hp) as (w1 & Hrun1 & Hw1 & Hlen1).
  destruct (IH w1 Hw1) as (w2 & Hrun2 & Hw2 & Hlen2). exists w2.
  erewrite iterS_cons; [|rewrite Hc; exact Hrun1]. split_and!; [done..|]. simpl. lia.
Qed.

Lemma manager_inv_world0 n : manager_inv (world0 n).
Proof. split_and!; simpl; [constructor|set_solver|]. intros i c. by rewrite lookup_nil. Qed.
End Manager.

(** ** Properties *)

(** A thread whose next step is a call on its client, when Redis is usable. *)
Definition about_to_call (c : iec61850Client) : bool :=
  match reader c with Starting (_ :: _) | Looping _ => true | _ => false end.

(** C36: init already connects, and the library refuses a second connect: so,
    when the ICD files parse and no connection is lost between the two
    connects, initClients returns, whatever steps the thread of a client
    takes while its entry is worked on; but every client that it keeps is one
    without a reading thread (its first connection had failed), and every
    client with a thread has been destroyed, its connection never released:
    the next call that the thread makes uses the destroyed client. *)
Theorem kept_clients_never_read `{IedApiOk} `{XMLDom} load created between hash_order cd n :
  loadable load created between hash_order cd →
  ∃ w, initClients load created between hash_order (Some cd) (world0 n) = (Done tt, w) ∧
    length (objs w) = length (hash_order (iec61850 cd)) ∧
    (∀ i, i ∈ clients_ w → ∃ c, objs w !! i = Some c ∧ alive c = true ∧
       con_ c = ConConnected ∧ reader c = NoReader) ∧
    (∀ i c, objs w !! i = Some c → reader c ≠ NoReader →
       i ∉ clients_ w ∧ alive c = false ∧ con_ c = ConConnected ∧
       (about_to_call c = true → (reader_step true i w).1 = Undef "client used after destruction")).
Proof.
  intros Hl. destruct (initClients_inv load created between hash_order cd (world0 n))
    as (w & Hrun & (_ & Hlt & Hobj) & Hlen); [apply manager_inv_world0|done|].
  exists w. split; [done|]. split; [done|]. split.
  - intros i Hi. destruct (lookup_lt_is_Some_2 (objs w) i (Hlt i Hi)) as [c Hc].
    specialize (Hobj i c Hc). rewrite decide_True in Hobj by done.
    destruct Hobj as (? & _ & ? & ?). by exists c.
  - intros i c Hc Hr. specialize (Hobj i c Hc).
    destruct (decide (i ∈ clients_ w)) as [|Hi]; [by destruct Hobj as (_ & _ & _ & Hn)|].
    destruct Hobj as (Ha & _ & [?|Hcon]); [done|]. split_and!; [done..|].
    unfold about_to_call, reader_step, with_obj. rewrite Hc.
    destruct (reader c) as [|[|]| |]; try done; simpl; intros _; by rewrite ?Hc, Ha.
Qed.

(** Deleting the manager after initClients closes and destroys the
    connection of every client it keeps exactly once, and every client object
    is then destroyed; the connections of the clients it did not keep are
    left as they were. *)
Theorem manager_delete_ok `{IedApiOk} `{XMLDom} load created between hash_order cd n w :
  loadable load created between hash_order cd →
  initClients load created between hash_order (Some cd) (world0 n) = (Done tt, w) →
  ∃ w', manager_delete w = (Done tt, w') ∧ clients_ w' = [] ∧
    ∀ i, match objs w !! i, objs w' !! i with
         | Some c, Some c' => alive c' = false ∧ reader c' = reader c ∧
             con_ c' = if decide (i ∈ clients_ w) then ConDestroyed else con_ c
         | None, None => True
         | _, _ => False
         end.
Proof.
  intros Hl Hinit. destruct (initClients_inv load created between hash_order cd (world0 n))
    as (w0 & Hrun & (Hnd & Hlt & Hobj) & _); [apply manager_inv_world0|done|].
  rewrite Hinit in Hrun. injection Hrun as <-.
  destruct (disconnect_all (clients_ w) w) as (w1 & Hrun1 & Hcl1 & Hobj1); [done| |].
  { intros i Hi. destruct (lookup_lt_is_Some_2 (objs w) i (Hlt i Hi)) as [c Hc]. exists c.
    split; [done|]. specialize (Hobj i c Hc). by rewrite decide_True in Hobj. }
  destruct (update_owners (clients_ w) (set_clients [] w1)) as (w2 & Hrun2 & Hcl2 & Hobj2).
  exists w2. split.
  { unfold manager_delete. erewrite prog_bind_eq by reflexivity.
    rewrite (prog_bind_eq _ _ _ _ _ Hrun1). by erewrite prog_bind_eq by reflexivity. }
  split; [done|]. intros i. rewrite Hobj2. simpl. rewrite Hobj1.
  destruct (objs w !! i) as [c|] eqn:Hc; specialize (Hobj i);
    destruct (decide (i ∈ clients_ w)); simpl; try done.
  - destruct (Hobj c Hc) as (_ & ? & _). done.
  - destruct (Hobj c Hc) as (? & _). done.
Qed.

(** A connected client with a reading thread that the owner keeps alive is
    read as long as nobody disconnects it; disconnect, with the thread still
    running, leaves it a destroyed connection that its next pass uses, and a
    second disconnect destroys the connection twice. *)
Theorem disconnect_under_reader `{IedApi} `{XMLDom} w i c ns redis_ok :
  objs w !! i = Some c → alive c = true → con_ c = ConConnected → reader c = Looping ns →
  existsb (λ n, negb (skipped n)) ns = true →
  reader_step redis_ok i w = (Done tt, w) ∧
  ∃ w', disconnect i w = (Done tt, w') ∧
    (reader_step redis_ok i w').1 = Undef "connection used after destroy" ∧
    (disconnect i w').1 = Undef "connection destroyed twice".
Proof.
  intros Hc Ha Hcon Hr Hns. split.
  { unfold reader_step, with_obj. by rewrite Hc, Hr, Ha, Hns, Hcon. }
  exists (set_objs (alter (set_con ConDestroyed) i (objs w)) w).
  split; [unfold disconnect, with_obj; by rewrite Hc, Ha, Hcon|].
  unfold reader_step, disconnect, with_obj. cbn [objs set_objs].
  rewrite !list_lookup_alter_eq, !Hc. simpl.
  by rewrite Hr, Ha, Hns.
Qed.

(** ** Witnesses *)

Definition demo_61850_cfg : ConfigDataIEC61850.t := {|
  ConfigDataIEC61850.device_id := "iec1"; ConfigDataIEC61850.ip := "10.0.0.1";
  ConfigDataIEC61850.icd_file_path := "demo.icd"; ConfigDataIEC61850.access_point := "";
  ConfigDataIEC61850.logical_device := ""; ConfigDataIEC61850.client_mms_name := "";
  ConfigDataIEC61850.port := 102; ConfigDataIEC61850.poll_interval := 1000;
  ConfigDataIEC61850.max_retries := 3; ConfigDataIEC61850.retry_interval := 1000;
  ConfigDataIEC61850.report_enabled := false; ConfigDataIEC61850.goose_enabled := false;
  ConfigDataIEC61850.tls_enabled := false; ConfigDataIEC61850.description := "";
  ConfigDataIEC61850.data_point_filters := [] |}.

Definition demo_61850_cd : ConfigData :=
  {| modbus := ∅; iec61850 := {[ "iec1"%string := demo_61850_cfg ]}; iec104 := ∅ |}.

Definition demo_order (m : gmap string ConfigDataIEC61850.t) : list (string * ConfigDataIEC61850.t) :=
  map_to_list m.

Definition demo_load (_ : string) : option (@XMLElement demo_dom) := Some demo_doc.

(** The thread of the client takes two steps in the middle. *)
Definition demo_between (_ : ConfigDataIEC61850.t) : meanwhile :=
  {| lost := false; thread_steps := [true; true] |}.

Lemma demo_loadable : loadable (H1 := demo_dom) demo_load (λ _, true) demo_between demo_order demo_61850_cd.
Proof.
  unfold loadable, demo_order. cbn [iec61850 demo_61850_cd]. rewrite map_to_list_singleton.
  constructor; [|constructor]. split; [|done]. eexists. by vm_compute.
Qed.

Definition demo_net : @ied_net demo_mms (demo_ied MMS_INTEGER) := 0%nat.

(** After initClients on it. *)
Definition demo_run : outcome unit * @world demo_mms (demo_ied MMS_INTEGER) :=
  initClients (H1 := demo_dom) demo_load (λ _, true) demo_between demo_order (Some demo_61850_cd) (world0 demo_net).

Lemma demo_run_result :
  demo_run.1 = Done tt ∧ clients_ demo_run.2 = [] ∧
  ∃ c ns, objs demo_run.2 !! 0%nat = Some c ∧ reader c = Looping ns.
Proof.
  split; [vm_compute; reflexivity|]. split; [vm_compute; reflexivity|].
  destruct (objs demo_run.2 !! 0%nat) as [c|] eqn:Hc; [|vm_compute in Hc; discriminate].
  vm_compute in Hc. injection Hc as <-. eexists _, _. split; reflexivity.
Qed.

(** The one client of the configuration: its reader is started, and it is gone. *)
Lemma kept_clients_never_read_witness :
  let _ := demo_mms in let _ := demo_ied MMS_INTEGER in let _ := demo_dom in
  ∃ w, initClients demo_load (λ _, true) demo_between demo_order (Some demo_61850_cd) (world0 demo_net)
         = (Done tt, w) ∧ clients_ w = [] ∧
       (reader_step true 0 w).1 = Undef "client used after destruction".
Proof.
  intros mms ied dom.
  destruct (@kept_clients_never_read mms ied (demo_ied_ok MMS_INTEGER) dom demo_load (λ _, true)
    demo_between demo_order demo_61850_cd demo_net demo_loadable) as (w & Hrun & _ & _ & Hdead).
  exists w. split; [exact Hrun|].
  assert (w = demo_run.2) as -> by exact (f_equal snd (eq_sym Hrun)).
  destruct demo_run_result as (_ & Hcl & c & ns & Hc & Hr). split; [exact Hcl|].
  destruct (Hdead 0%nat c Hc) as (_ & _ & _ & Hu); [rewrite Hr; discriminate|].
  apply Hu. unfold about_to_call. rewrite Hr. reflexivity.
Defined.

Lemma manager_delete_ok_witness :
  let _ := demo_mms in let _ := demo_ied MMS_INTEGER in let _ := demo_dom in
  ∃ w', manager_delete demo_run.2 = (Done tt, w') ∧ clients_ w' = [].
Proof.
  intros mms ied dom.
  destruct (@manager_delete_ok mms ied (demo_ied_ok MMS_INTEGER) dom demo_load (λ _, true)
    demo_between demo_order demo_61850_cd demo_net demo_run.2 demo_loadable) as (w' & Hrun & Hcl & _);
    [by rewrite <- (proj1 demo_run_result), <- surjective_pairing|].
  exists w'. split; [exact Hrun|exact Hcl].
Defined.

Lemma disconnect_under_reader_witness :
  let _ := demo_mms in let _ := demo_ied MMS_INTEGER in let _ := demo_dom in
  let c := set_reader (Looping demo_nodes) (set_con ConConnected (new_client true "10.0.0.1" 102)) in
  let w := set_objs [c] (world0 demo_net) in
  reader_step true 0 w = (Done tt, w) ∧
  ∃ w', disconnect 0 w = (Done tt, w') ∧
    (reader_step true 0 w').1 = Undef "connection used after destroy" ∧
    (disconnect 0 w').1 = Undef "connection destroyed twice".
Proof.
  intros mms ied dom c w.
  by apply (@disconnect_under_reader mms ied dom w 0 c demo_nodes true).
Defined.
