(* ===== verification/Iec61850Service.v ===== *)
(** * The IEC 61850 server of the gateway

    [ice61850Service] of [core/iec61850/ice61850Service.cc] as a state machine:
    the library server and the sampled-values publisher that it owns, its two
    threads, and the calls that create, start and stop them.  The model keeps
    the servers and publishers that exist, so that what is never destroyed
    shows; using a null server is undefined, and so is assigning or
    destroying a joinable thread.  The served model is the one of
    [StaticModel].  [running_], a plain bool, is read by the threads and
    written by the owner: its accesses are taken to be atomic.  The process-wide operation mode of
    [connectionIndicationHandler] is at the end. *)

From Stdlib Require Import ZArith String Lia.
From stdpp Require Import base tactics option list numbers strings gmap.
From S2P Require Import Prelude IedModel StaticModelData.

(** A library server: its settings and whether it listens. *)
Record IedServer := {
  srv_model : IedModel;
  srv_started : bool;
  srv_port : Z;
  srv_goose : bool;                                     (* GOOSE publishing *)
  srv_gooseInterfaceId : option string;
  srv_gooseInterfaceIdEx : list (addr * string * string)  (* node, block name, interface *)
}.

Record ice61850Service := {
  server_ : option nat;
  model_ : bool;                (* points to the static model *)
  svPublisher_ : option nat;
  running_ : bool;
  dataUpdateThread_ : bool;     (* joinable *)
  svThread_ : bool;
  servers : gmap nat IedServer; (* created and not destroyed *)
  publishers : gset nat;
  next_id : nat
}.

(** The constructor, in a process without servers. *)
Definition ice61850Service_new : ice61850Service :=
  {| server_ := None; model_ := false; svPublisher_ := None; running_ := false;
     dataUpdateThread_ := false; svThread_ := false; servers := ∅; publishers := ∅; next_id := 0 |}.

Definition set_server (h : option nat) (m : gmap nat IedServer) (n : nat) (s : ice61850Service) :=
  {| server_ := h; model_ := model_ s; svPublisher_ := svPublisher_ s; running_ := running_ s;
     dataUpdateThread_ := dataUpdateThread_ s; svThread_ := svThread_ s; servers := m;
     publishers := publishers s; next_id := n |}.
Definition set_publisher (h : option nat) (p : gset nat) (n : nat) (s : ice61850Service) :=
  {| server_ := server_ s; model_ := model_ s; svPublisher_ := h; running_ := running_ s;
     dataUpdateThread_ := dataUpdateThread_ s; svThread_ := svThread_ s; servers := servers s;
     publishers := p; next_id := n |}.
Definition set_run (r d v : bool) (s : ice61850Service) :=
  {| server_ := server_ s; model_ := model_ s; svPublisher_ := svPublisher_ s; running_ := r;
     dataUpdateThread_ := d; svThread_ := v; servers := servers s;
     publishers := publishers s; next_id := next_id s |}.
Definition set_model (m : bool) (s : ice61850Service) :=
  {| server_ := server_ s; model_ := m; svPublisher_ := svPublisher_ s; running_ := running_ s;
     dataUpdateThread_ := dataUpdateThread_ s; svThread_ := svThread_ s; servers := servers s;
     publishers := publishers s; next_id := next_id s |}.

(** ** Library calls on [server_] *)

Definition on_server (f : IedServer → IedServer) : prog ice61850Service unit := λ s,
  match server_ s with
  | None => (Undef "null server", s)
  | Some h =>
      match servers s !! h with
      | None => (Undef "server used after destroy", s)
      | Some x => (Done tt, set_server (Some h) (<[h := f x]> (servers s)) (next_id s) s)
      end
  end.

(** [create_ok]: the library creates the server. *)
Definition IedServer_create (create_ok : bool) : prog ice61850Service unit :=
  modifyS (λ s,
    if create_ok then
      set_server (Some (next_id s))
        (<[next_id s := {| srv_model := iedModel_root; srv_started := false; srv_port := 0;
                           srv_goose := false; srv_gooseInterfaceId := None;
                           srv_gooseInterfaceIdEx := [] |}]> (servers s)) (S (next_id s)) s
    else set_server None (servers s) (next_id s) s).

Definition IedServer_destroy : prog ice61850Service unit := λ s,
  match server_ s with
  | None => (Undef "null server", s)
  | Some h => (Done tt, set_server (Some h) (delete h (servers s)) (next_id s) s)
  end.

Definition setGooseInterfaceId (iface : string) (x : IedServer) : IedServer :=
  {| srv_model := srv_model x; srv_started := srv_started x; srv_port := srv_port x;
     srv_goose := srv_goose x; srv_gooseInterfaceId := Some iface;
     srv_gooseInterfaceIdEx := srv_gooseInterfaceIdEx x |}.
Definition setGooseInterfaceIdEx (ln : addr) (gcb iface : string) (x : IedServer) : IedServer :=
  {| srv_model := srv_model x; srv_started := srv_started x; srv_port := srv_port x;
     srv_goose := srv_goose x; srv_gooseInterfaceId := srv_gooseInterfaceId x;
     srv_gooseInterfaceIdEx := srv_gooseInterfaceIdEx x ++ [(ln, gcb, iface)] |}.
Definition set_started (b : bool) (port : Z) (x : IedServer) : IedServer :=
  {| srv_model := srv_model x; srv_started := b; srv_port := port;
     srv_goose := srv_goose x; srv_gooseInterfaceId := srv_gooseInterfaceId x;
     srv_gooseInterfaceIdEx := srv_gooseInterfaceIdEx x |}.
Definition enableGoosePublishing (x : IedServer) : IedServer :=
  {| srv_model := srv_model x; srv_started := srv_started x; srv_port := srv_port x;
     srv_goose := true; srv_gooseInterfaceId := srv_gooseInterfaceId x;
     srv_gooseInterfaceIdEx := srv_gooseInterfaceIdEx x |}.

(** ** Operations *)

Definition initializeGoose (interface specificGooseInterface specificGcbName : string)
    : prog ice61850Service unit :=
  (if String.eqb interface "" then mret tt else on_server (setGooseInterfaceId interface));;
  (if String.eqb specificGooseInterface "" then mret tt
   else on_server (setGooseInterfaceIdEx iedModel_GenericIO_LLN0 specificGcbName specificGooseInterface)).

Definition initializeSvPublisher (sv_ok : bool) : prog ice61850Service unit :=
  modifyS (λ s,
    if sv_ok then set_publisher (Some (next_id s)) ({[ next_id s ]} ∪ publishers s) (S (next_id s)) s
    else set_publisher None (publishers s) (next_id s) s).

Definition initializeLocalData : prog ice61850Service unit := mret tt.

Definition init (create_ok sv_ok : bool) (interface specificGooseInterface specificGcbName : string)
    : prog ice61850Service bool :=
  modifyS (set_model true);;
  IedServer_create create_ok;;
  s ← getS;
  match server_ s with
  | None => mret false
  | Some _ =>
      on_server id;;    (* IedServer_setConnectionIndicationHandler *)
      initializeGoose interface specificGooseInterface specificGcbName;;
      initializeSvPublisher sv_ok;;
      initializeLocalData;;
      mret true
  end.

(** [dataUpdateThread_ = std::thread(...)] and its like, for a thread with the
    joinability [joinable]: the constructor throws when there is no thread to
    be had, and the assignment to a joinable thread ends the program. *)
Definition assign_thread (created joinable : bool) : prog ice61850Service unit :=
  if negb created then throwS (RuntimeError "Resource temporarily unavailable")
  else if joinable then undefS "std::terminate: assignment to a joinable thread"
  else mret tt.

(** [listen_ok]: [IedServer_isRunning] after [IedServer_start]; [data_ok] and
    [sv_ok]: the two threads can be created. *)
Definition startServer (listen_ok data_ok sv_ok : bool) (port : Z) : prog ice61850Service bool :=
  s ← getS;
  match server_ s with
  | None => mret false
  | Some _ =>
      if running_ s then mret false
      else
        catchS
          (on_server (set_started listen_ok (wrap_u 16 port));;
           if negb listen_ok then mret false
           else
             on_server enableGoosePublishing;;
             modifyS (λ s, set_run true (dataUpdateThread_ s) (svThread_ s) s);;
             assign_thread data_ok (dataUpdateThread_ s);;
             modifyS (λ s, set_run true true (svThread_ s) s);;
             assign_thread sv_ok (svThread_ s);;
             modifyS (λ s, set_run true true true s);;
             mret true)
          (λ e, mret false)
  end.

(** [join] returns: with [running_] false both loops end. *)
Definition stopServer : prog ice61850Service unit :=
  s ← getS;
  (match server_ s, running_ s with
   | Some _, true =>
       modifyS (set_run false false false);;
       on_server (set_started false 0);;
       IedServer_destroy;;
       modifyS (λ s, set_server None (servers s) (next_id s) s)
   | _, _ => mret tt
   end);;
  modifyS (λ s, match svPublisher_ s with
                | None => s
                | Some h => set_publisher None (publishers s ∖ {[ h ]}) (next_id s) s
                end);;
  modifyS (set_model false).

(** The destructor, then those of the threads. *)
Definition service_delete : prog ice61850Service unit :=
  stopServer;;
  s ← getS;
  if dataUpdateThread_ s || svThread_ s then undefS "std::terminate: joinable thread destroyed"
  else mret tt.

(** One iteration of [updateDataLoop] ([lockDataModel], [unlockDataModel]),
    and one of [publishSvLoop], which does nothing. *)
Definition updateServerData : prog ice61850Service unit := on_server id;; on_server id.

Definition updateDataLoop_iter : prog ice61850Service unit :=
  s ← getS; if dataUpdateThread_ s && running_ s then updateServerData else mret tt.

Definition publishSvLoop_iter : prog ice61850Service unit := mret tt.

(** *** Steps *)

Inductive svc_event : Type :=
| SInit (create_ok sv_ok : bool) (interface specificGooseInterface specificGcbName : string)
| SStart (listen_ok data_ok sv_ok : bool) (port : Z)
| SStop
| SData
| SSv.

Definition svc_handle (ev : svc_event) : prog ice61850Service unit :=
  match ev with
  | SInit c v i g n => _ ← init c v i g n; mret tt
  | SStart l d v p => _ ← startServer l d v p; mret tt
  | SStop => stopServer
  | SData => updateDataLoop_iter
  | SSv => publishSvLoop_iter
  end.

(** ** The connection handler's globals *)

Record op_mode := { automaticOperationMode : bool; controllingClient : option nat }.

Definition op_mode0 : op_mode := {| automaticOperationMode := true; controllingClient := None |}.

Definition connectionIndicationHandler (connection : nat) (connected : bool) (m : op_mode) : op_mode :=
  if connected then m
  else if bool_decide (controllingClient m = Some connection)
  then {| automaticOperationMode := true; controllingClient := None |}
  else m.

(** ** Lemmas *)

(** What holds between the calls of an owner who initialises a stopped
    service: the pointers are valid, the data thread lives only while the
    server runs, and the thread of the publisher only beside it. *)
Definition svc_ok (s : ice61850Service) : Prop :=
  (∀ h, server_ s = Some h → is_Some (servers s !! h)) ∧
  (running_ s = true → is_Some (server_ s)) ∧
  (dataUpdateThread_ s = true → running_ s = true) ∧ (svThread_ s = true → dataUpdateThread_ s = true).

(** Both threads live while the server runs. *)
Definition both_threads (s : ice61850Service) : Prop :=
  dataUpdateThread_ s = running_ s ∧ svThread_ s = running_ s.

(** [init] on a stopped service: the result and the state it leaves. *)
Lemma init_spec c v i g n s :
  ∃ s', init c v i g n s = (Done c, s') ∧
    dataUpdateThread_ s' = dataUpdateThread_ s ∧ svThread_ s' = svThread_ s ∧
    running_ s' = running_ s ∧
    if c then
      server_ s' = Some (next_id s) ∧
      servers s' = <[next_id s :=
        {| srv_model := iedModel_root; srv_started := false; srv_port := 0; srv_goose := false;
           srv_gooseInterfaceId := if String.eqb i "" then None else Some i;
           srv_gooseInterfaceIdEx :=
             if String.eqb g "" then [] else [(iedModel_GenericIO_LLN0, n, g)] |}]> (servers s) ∧
      svPublisher_ s' = (if v then Some (S (next_id s)) else None) ∧
      publishers s' = (if v then {[ S (next_id s) ]} ∪ publishers s else publishers s)
    else server_ s' = None ∧ servers s' = servers s ∧ svPublisher_ s' = svPublisher_ s ∧
         publishers s' = publishers s.
Proof.
  unfold init, initializeGoose, initializeSvPublisher, IedServer_create, on_server, mbind, prog_bind,
    modifyS, getS, mret, prog_ret. destruct c; simpl; [|by eexists].
  rewrite lookup_insert_eq, insert_insert_eq. simpl.
  destruct (String.eqb i ""); simpl; rewrite ?lookup_insert_eq, ?insert_insert_eq; simpl;
    destruct (String.eqb g ""); simpl; rewrite ?lookup_insert_eq, ?insert_insert_eq; simpl;
    destruct v; simpl; eexists; split_and!; done.
Qed.

Ltac svc_unfold :=
  unfold svc_handle, startServer, assign_thread, catchS, throwS, stopServer, updateDataLoop_iter, updateServerData,
    publishSvLoop_iter, on_server, IedServer_destroy, mbind, prog_bind, modifyS, getS, mret,
    prog_ret, undefS in *.

Lemma svc_ok_threads s : svc_ok s → running_ s = false → dataUpdateThread_ s = false ∧ svThread_ s = false.
Proof. intros (_ & _ & Hd & Ht) Hr. destruct (svThread_ s), (dataUpdateThread_ s); intuition congruence. Qed.

(** The server listens and runs, with the threads that could be created. *)
Lemma start_spec l d v p s :
  svc_ok s →
  (server_ s = None ∨ running_ s = true) ∧ startServer l d v p s = (Done false, s) ∨
  ∃ h x, server_ s = Some h ∧ running_ s = false ∧ servers s !! h = Some x ∧
    startServer l d v p s = (Done (l && d && v),
      set_run l (l && d) (l && d && v) (set_server (Some h)
        (<[h := (if l then enableGoosePublishing else id) (set_started l (wrap_u 16 p) x)]> (servers s))
        (next_id s) s)).
Proof.
  intros Hok. pose proof Hok as (Hv & _). destruct (server_ s) as [h|] eqn:Hh; [|left; svc_unfold; rewrite Hh; auto].
  destruct (running_ s) eqn:Hrun; [left; svc_unfold; rewrite Hh, Hrun; auto|]. right.
  destruct (svc_ok_threads s Hok Hrun) as [Hd Ht].
  destruct (Hv h eq_refl) as [x Hx]. exists h, x. split_and!; [done..|].
  svc_unfold. rewrite Hh, Hrun. cbn -[lookup insert]. rewrite ?Hh. cbn -[lookup insert]. rewrite Hx. cbn -[lookup insert].
  destruct l; cbn -[lookup insert]; [|by destruct s; simpl in *; subst].
  rewrite lookup_insert_eq. cbn -[lookup insert]. rewrite Hd, Ht, insert_insert_eq.
  destruct d, v; cbn -[lookup insert]; by rewrite ?Ht.
Qed.

Lemma stop_spec s :
  svc_ok s →
  ∃ s', stopServer s = (Done tt, s') ∧ running_ s' = false ∧ dataUpdateThread_ s' = false ∧
    svThread_ s' = false ∧ svPublisher_ s' = None ∧
    (publishers s' = match svPublisher_ s with Some h => publishers s ∖ {[ h ]} | None => publishers s end) ∧
    match server_ s, running_ s with
    | Some h, true => server_ s' = None ∧ servers s' = delete h (servers s)
    | _, _ => server_ s' = server_ s ∧ servers s' = servers s
    end.
Proof.
  intros Hok. pose proof Hok as (Hv & Hr & _). pose proof (svc_ok_threads s Hok) as Hstopped.
  svc_unfold. destruct (server_ s) as [h|] eqn:Hh.
  - destruct (running_ s) eqn:Hrun.
    + destruct (Hv h eq_refl) as [x Hx]. cbn -[lookup insert delete]. rewrite Hh.
      cbn -[lookup insert delete]. rewrite Hx. cbn -[lookup insert delete].
      rewrite delete_insert_eq. destruct (svPublisher_ s) eqn:Hsv; eexists; (split; [done|]); done.
    + destruct (Hstopped eq_refl) as [Hd Ht]. simpl.
      destruct (svPublisher_ s) eqn:Hsv; eexists; (split; [done|]); simpl; split_and!; congruence.
  - destruct (running_ s) eqn:Hrun; [by destruct Hr|].
    destruct (Hstopped eq_refl) as [Hd Ht]. simpl. destruct (svPublisher_ s) eqn:Hsv; eexists; (split; [done|]); simpl; split_and!; congruence.
Qed.

Lemma on_server_id s h :
  server_ s = Some h → is_Some (servers s !! h) → on_server id s = (Done tt, s).
Proof.
  intros Hh [x Hx]. unfold on_server. rewrite Hh, Hx, insert_id by done.
  destruct s; simpl in *. by subst.
Qed.

Lemma data_iter_ok s : svc_ok s → updateDataLoop_iter s = (Done tt, s).
Proof.
  intros (Hv & Hr & Hd & _). unfold updateDataLoop_iter, updateServerData.
  erewrite prog_bind_eq by reflexivity.
  destruct (dataUpdateThread_ s); [|done]. rewrite Hd by done. destruct (Hr (Hd eq_refl)) as [h Hh].
  pose proof (on_server_id s h Hh (Hv h Hh)) as Hid. simpl.
  by rewrite (prog_bind_eq _ _ _ _ _ Hid).
Qed.

(** A start for which both threads can be created. *)
Definition threads_created (ev : svc_event) : bool :=
  match ev with SStart l d v _ => negb l || (d && v) | _ => true end.

(** The owner initialises a stopped service only. *)
Fixpoint init_when_stopped (evs : list svc_event) (s : ice61850Service) : bool :=
  match evs with
  | [] => true
  | ev :: evs' =>
      match ev with SInit _ _ _ _ _ => negb (running_ s) | _ => true end
      && init_when_stopped evs' (svc_handle ev s).2
  end.

Lemma step_svc_ok ev s :
  svc_ok s → match ev with SInit _ _ _ _ _ => running_ s = false | _ => True end →
  ∃ s', svc_handle ev s = (Done tt, s') ∧ svc_ok s' ∧
    (both_threads s → threads_created ev = true → both_threads s').
Proof.
  intros Hs Hev. pose proof Hs as (Hv & Hr & Hd & Ht). unfold both_threads.
  destruct ev as [c v i g n|l d v p| | |]; cbn [svc_handle threads_created].
  - destruct (init_spec c v i g n s) as (s' & Hrun & Hd' & Ht' & Hr' & Hc).
    exists s'. rewrite (prog_bind_eq _ _ _ _ _ Hrun). split; [done|]. unfold svc_ok.
    rewrite Hd', Ht', Hr', Hev. rewrite Hev in Hd. split; [|done]. destruct c.
    + destruct Hc as (-> & -> & _). split_and!; [|done..]. intros h [= <-].
      rewrite lookup_insert_eq. by eexists.
    + destruct Hc as (-> & _). by split_and!.
  - destruct (start_spec l d v p s Hs) as [[_ Hrun]|(h & x & Hh & Hf & Hx & Hrun)];
      rewrite (prog_bind_eq _ _ _ _ _ Hrun); [by exists s|].
    eexists. split; [done|]. unfold svc_ok. simpl. split; [split_and!|].
    + intros h' [= <-]. rewrite lookup_insert_eq. by eexists.
    + intros _. by eexists.
    + by destruct l.
    + by destruct l, d.
    + intros _. by destruct l, d, v.
  - destruct (stop_spec s Hs) as (s' & Hrun & Hr' & Hd' & Ht' & _ & _ & Hsrv).
    exists s'. split; [done|]. unfold svc_ok. rewrite Hr', Hd', Ht'. split; [|done]. split; [|done].
    intros h. destruct (server_ s) as [h'|] eqn:Hh; [destruct (running_ s)|];
      destruct Hsrv as [-> ->]; [done|apply Hv|done].
  - rewrite data_iter_ok by done. by exists s.
  - by exists s.
Qed.

Lemma svc_ok_new : svc_ok ice61850Service_new.
Proof. by split_and!. Qed.

Lemma trace_svc_ok evs s :
  svc_ok s → init_when_stopped evs s = true →
  ∃ s', iterS evs svc_handle s = (Done tt, s') ∧ svc_ok s' ∧
    (both_threads s → forallb threads_created evs = true → both_threads s').
Proof.
  revert s. induction evs as [|ev evs IH]; intros s Hs Hevs; [by exists s|].
  simpl in Hevs. apply andb_prop in Hevs as [Hev Hevs].
  destruct (step_svc_ok ev s Hs) as (s1 & Hrun & Hs1 & Hb1); [destruct ev; try done; by gw_bool|].
  rewrite Hrun in Hevs. destruct (IH s1 Hs1 Hevs) as (s2 & Hrun2 & Hs2 & Hb2).
  exists s2. rewrite (iterS_cons _ _ _ _ _ Hrun). split; [done|]. split; [done|].
  intros Hb [Hc Hcs]%andb_prop. auto.
Qed.

Lemma delete_ok s : svc_ok s → ∃ s', service_delete s = (Done tt, s') ∧ stopServer s = (Done tt, s').
Proof.
  intros Hs. destruct (stop_spec s Hs) as (s' & Hstop & _ & Hd' & Ht' & _).
  exists s'. split; [|done]. unfold service_delete. rewrite (prog_bind_eq _ _ _ _ _ Hstop).
  erewrite prog_bind_eq by reflexivity. by rewrite Hd', Ht'.
Qed.

(** ** Properties *)

(** C30: as long as init is called on a stopped service only, any sequence of
    init, start and stop calls and thread iterations runs without a null or
    destroyed server being used and without ending the program, whatever the
    library and the creation of the threads answer.  The data thread lives
    only while the server runs and the publisher's thread only beside it; both
    live exactly while it runs, unless a start could not create a thread (which
    startServer reports as a failure, with the server left running).  In every
    case the service can be deleted. *)
Theorem service_trace_ok evs :
  init_when_stopped evs ice61850Service_new = true →
  ∃ s, iterS evs svc_handle ice61850Service_new = (Done tt, s) ∧
    (dataUpdateThread_ s = true → running_ s = true) ∧ (svThread_ s = true → dataUpdateThread_ s = true) ∧
    (forallb threads_created evs = true → dataUpdateThread_ s = running_ s ∧ svThread_ s = running_ s) ∧
    updateDataLoop_iter s = (Done tt, s) ∧
    ∃ s', service_delete s = (Done tt, s').
Proof.
  intros Hevs. destruct (trace_svc_ok evs _ svc_ok_new Hevs) as (s & Hrun & Hs & Hb).
  exists s. split; [done|]. pose proof Hs as (_ & _ & Hd & Ht). split_and!; [done..| | |].
  - by apply Hb.
  - by apply data_iter_ok.
  - destruct (delete_ok s Hs) as (s' & Hdel & _). by exists s'.
Qed.

(** A start that cannot create a thread returns false, but the library server
    listens and [running_] stays set: every later start is refused, until
    [stopServer]. *)
Theorem failed_start_keeps_running (d v : bool) p p' d' v' s :
  svc_ok s → is_Some (server_ s) → running_ s = false → d && v = false →
  ∃ s', startServer true d v p s = (Done false, s') ∧ running_ s' = true ∧
    (∃ h x, server_ s' = Some h ∧ servers s' !! h = Some x ∧ srv_started x = true) ∧
    startServer true d' v' p' s' = (Done false, s').
Proof.
  intros Hs [h Hh] Hr Hdv. destruct (start_spec true d v p s Hs) as [[[?|?] _]|(h' & x & Hh' & _ & Hx & Hrun)];
    [congruence..|]. simpl in Hrun. rewrite Hdv in Hrun.
  eexists. split; [exact Hrun|]. split; [done|]. split; [|done].
  eexists h', _. split; [done|]. split; [apply lookup_insert_eq|done].
Qed.

(** The whole cycle: init creates one server on the static model with the
    GOOSE interfaces it is given and one publisher; start, on a port reduced
    to 16 bits, makes it listen and publish GOOSE; stop joins the threads and
    destroys both, leaving nothing; but a server that was never started (or
    whose start failed) survives stop and the destructor. *)
Theorem service_cycle v i g n port (listen_ok : bool) :
  ∃ s1 s2 s3 x,
    init true v i g n ice61850Service_new = (Done true, s1) ∧
    startServer listen_ok true true port s1 = (Done listen_ok, s2) ∧
    servers s2 = {[ 0%nat := x ]} ∧ srv_model x = iedModel_root ∧
    srv_started x = listen_ok ∧ srv_goose x = listen_ok ∧ srv_port x = wrap_u 16 port ∧
    srv_gooseInterfaceId x = (if String.eqb i "" then None else Some i) ∧
    srv_gooseInterfaceIdEx x = (if String.eqb g "" then [] else [(iedModel_GenericIO_LLN0, n, g)]) ∧
    service_delete s2 = (Done tt, s3) ∧ publishers s3 = ∅ ∧ svPublisher_ s3 = None ∧
    server_ s3 = (if listen_ok then None else Some 0%nat) ∧
    servers s3 = (if listen_ok then ∅ else {[ 0%nat := x ]}).
Proof.
  destruct (init_spec true v i g n ice61850Service_new)
    as (s1 & Hinit & Hd1 & Ht1 & Hr1 & Hsrv1 & Hs1 & Hp1 & Hps1).
  simpl in Hd1, Ht1, Hr1, Hsrv1, Hs1, Hp1, Hps1. rewrite insert_empty in Hs1.
  assert (svc_ok s1) as Hok1.
  { unfold svc_ok. rewrite Hsrv1, Hs1, Hr1, Hd1, Ht1. split_and!; try done.
    intros h [= <-]. rewrite lookup_singleton_eq. by eexists. }
  destruct (start_spec listen_ok true true port s1 Hok1) as [[[?|?] _]|(h & x & Hh & _ & Hx & Hstart)];
    [congruence..|].
  rewrite Hsrv1 in Hh. injection Hh as <-. rewrite Hs1, lookup_singleton_eq in Hx. injection Hx as <-.
  rewrite Hs1, insert_singleton_eq, !andb_true_r in Hstart.
  match type of Hstart with _ = (_, ?t) => set (s2 := t) in * end.
  assert (svc_ok s2) as Hok2.
  { unfold svc_ok, s2. simpl. split_and!; try done; try by eexists.
    intros h [= <-]. rewrite lookup_singleton_eq. by eexists. }
  destruct (stop_spec s2 Hok2) as (s3 & Hstop & _ & Hd3 & Ht3 & Hpub & Hpubs & Hsrv).
  eexists s1, s2, s3, _. split; [done|]. split; [done|]. split; [done|].
  split; [by destruct listen_ok|]. split; [by destruct listen_ok|]. split; [by destruct listen_ok|].
  split; [by destruct listen_ok|]. split; [by destruct listen_ok|]. split; [by destruct listen_ok|].
  split.
  { unfold service_delete. rewrite (prog_bind_eq _ _ _ _ _ Hstop).
    erewrite prog_bind_eq by reflexivity. by rewrite Hd3, Ht3. }
  simpl in Hpubs, Hsrv. rewrite Hp1, Hps1 in Hpubs.
  split; [rewrite Hpubs; destruct v; set_solver|]. split; [done|].
  destruct listen_ok; destruct Hsrv as [-> ->]; (split; [done|]); [|done].
  by rewrite delete_singleton_eq.
Qed.

(** Init on a running service whose server cannot be created leaves the
    threads running on a null server: the next data update uses it, stop no
    longer stops anything, and the destructor ends the program; when the
    server is created, the old one keeps listening for ever. *)
Theorem init_while_running (c v : bool) i g n s h x :
  svc_ok s → running_ s = true → dataUpdateThread_ s = true → server_ s = Some h → servers s !! h = Some x → (h < next_id s)%nat →
  ∃ s', init c v i g n s = (Done c, s') ∧
    if c then
      ∃ s2, service_delete s' = (Done tt, s2) ∧ server_ s2 = None ∧ servers s2 !! h = Some x
    else
      (updateDataLoop_iter s').1 = Undef "null server" ∧
      (∃ s2, stopServer s' = (Done tt, s2) ∧ running_ s2 = true ∧ dataUpdateThread_ s2 = true) ∧
      (service_delete s').1 = Undef "std::terminate: joinable thread destroyed".
Proof.
  intros (Hv & Hr & _ & Ht) Hrun Hd Hh Hx Hlt.
  destruct (init_spec c v i g n s) as (s' & Hinit & Hd' & Ht' & Hr' & Hc).
  exists s'. split; [done|]. rewrite Hrun in *. destruct c.
  - destruct Hc as (Hsrv & Hs & _).
    assert (svc_ok s') as Hok'.
    { unfold svc_ok. rewrite Hsrv, Hs, Hd', Ht', Hr'. split_and!; try done; try by eexists.
      intros h' [= <-]. rewrite lookup_insert_eq. by eexists. }
    destruct (stop_spec s' Hok') as (s2 & Hstop & _ & Hd2 & Ht2 & _ & _ & Hsrv2).
    rewrite Hsrv, Hr' in Hsrv2. destruct Hsrv2 as [Hnone Hdel]. exists s2. split.
    { unfold service_delete. rewrite (prog_bind_eq _ _ _ _ _ Hstop).
      erewrite prog_bind_eq by reflexivity. by rewrite Hd2, Ht2. }
    split; [done|]. rewrite Hdel, Hs, delete_insert_eq, lookup_delete_ne by lia. done.
  - destruct Hc as (Hsrv & Hs & _).
    assert (Hstop : ∃ s2, stopServer s' = (Done tt, s2) ∧ running_ s2 = true ∧
      dataUpdateThread_ s2 = true).
    { svc_unfold. rewrite Hsrv. destruct (svPublisher_ s') eqn:Hsv; eexists;
        (split; [done|]); simpl; split; congruence. }
    split_and!.
    + unfold updateDataLoop_iter. erewrite (prog_bind_eq getS) by reflexivity.
      rewrite Hd', Hd, Hr'. simpl. unfold updateServerData, mbind, prog_bind, on_server.
      by rewrite Hsrv.
    + done.
    + destruct Hstop as (s2 & Hstop & _ & Hd2). unfold service_delete.
      rewrite (prog_bind_eq _ _ _ _ _ Hstop). erewrite (prog_bind_eq getS) by reflexivity.
      by rewrite Hd2.
Qed.

(** The operation mode is dead: no sequence of connection indications ever
    leaves the automatic mode or records a controlling client; and the GOOSE
    block that init names by default belongs to no list of the served model,
    which has no GOOSE control block. *)
Theorem operation_mode_constant (evs : list (nat * bool)) :
  foldl (λ m e, connectionIndicationHandler e.1 e.2 m) op_mode0 evs = op_mode0 ∧
  gseCBs iedModel_root = None.
Proof.
  split; [|done]. induction evs as [|[c b] evs IH]; [done|]. simpl.
  by replace (connectionIndicationHandler c b op_mode0) with op_mode0 by (by destruct b).
Qed.

(** ** Witnesses *)

Lemma service_trace_ok_witness :
  let evs := [SInit true true "eth0" "" "gcbAnalogValues"; SStart true true true 102; SData; SSv; SStop;
              SInit true true "eth0" "" "gcbAnalogValues"; SStart true true true 102; SData] in
  ∃ s, iterS evs svc_handle ice61850Service_new = (Done tt, s) ∧ dataUpdateThread_ s = running_ s.
Proof.
  intros evs. destruct (service_trace_ok evs) as (s & Hrun & _ & _ & Hd & _); [reflexivity|].
  exists s. split; [exact Hrun|exact (proj1 (Hd eq_refl))].
Defined.

Definition demo_service : ice61850Service :=
  set_server (Some 0%nat)
    {[ 0%nat := {| srv_model := iedModel_root; srv_started := true; srv_port := 102; srv_goose := true;
                   srv_gooseInterfaceId := None; srv_gooseInterfaceIdEx := [] |} ]} 1
    (set_run true true true ice61850Service_new).

Lemma init_while_running_witness :
  ∃ s', init false false "" "" "" demo_service = (Done false, s') ∧
    (service_delete s').1 = Undef "std::terminate: joinable thread destroyed".
Proof.
  destruct (init_while_running false false "" "" "" demo_service 0
    {| srv_model := iedModel_root; srv_started := true; srv_port := 102; srv_goose := true;
       srv_gooseInterfaceId := None; srv_gooseInterfaceIdEx := [] |})
    as (s' & Hinit & _ & _ & Hdel); [|done|done|done|done|simpl; lia|by exists s'].
  unfold svc_ok, demo_service. simpl. split_and!; try done; try by eexists.
  intros h [= <-]. rewrite lookup_singleton_eq. by eexists.
Defined.
