(* ===== verification/LogSink.v ===== *)
(** * The rotating log file

    [custom_rotating_file_sink] of [common/log/custom_rotating_file_sink-inl.h]:
    a log file that is renamed after the process and the time when it is full,
    and whose oldest backups are then deleted.  The state is the log directory
    (the messages and the modification time of each file), the open file and
    the size the sink remembers.  The clock, the time stamp, the renaming and
    the listing of the directory are the environment of a call; [std::sort]
    leaves the order of files of the same age open, so it is a parameter. *)

From Stdlib Require Import ZArith String Ascii Lia.
From stdpp Require Import base tactics option list numbers strings gmap sorting.
From S2P Require Import Prelude.

Record log_file := { content : list string; mtime : Z }.

Definition file_size (f : log_file) : nat := sum_list (String.length <$> content f).

(** What a call finds: the time, and whether the renaming and the listing of
    the directory work. *)
Record sink_env := { now : Z; rename_works : bool; listing_works : bool }.

Record sink := {
  dir : gmap string log_file;
  opened : bool;
  current_size_ : nat
}.

Definition set_dir (d : gmap string log_file) (s : sink) : sink :=
  {| dir := d; opened := opened s; current_size_ := current_size_ s |}.
Definition set_opened (b : bool) (s : sink) : sink :=
  {| dir := dir s; opened := b; current_size_ := current_size_ s |}.
Definition set_size (n : nat) (s : sink) : sink :=
  {| dir := dir s; opened := opened s; current_size_ := n |}.

(** [s.rfind(pat)]: the last position, [None] for [npos]. *)
Fixpoint rfind (pat s : string) : option nat :=
  match s with
  | EmptyString => if String.prefix pat "" then Some 0%nat else None
  | String _ s' =>
      match rfind pat s' with
      | Some n => Some (S n)
      | None => if String.prefix pat s then Some 0%nat else None
      end
  end.

Definition npos : Z := (2 ^ 64 - 1)%Z.

Class FileSort (sort : list (string * Z) → list (string * Z)) : Prop := {
  sort_perm l : sort l ≡ₚ l;
  sort_sorted l : StronglySorted (λ a b, (a.2 ≤ b.2)%Z) (sort l)
}.

Section Sink.
Context (base_filename_ process_name : string) (max_size_ max_files_ : nat).
Context (get_timestamp : Z → string).
Context (std_sort : list (string * Z) → list (string * Z)).

Definition backup_name (t : Z) : string := process_name +:+ "_" +:+ get_timestamp t +:+ ".log".

(** The test on the names of the directory; the arithmetic is on [size_t]. *)
Definition is_backup (filename : string) : bool :=
  String.prefix (process_name +:+ "_") filename
  && (match rfind ".log" filename with Some n => Z.of_nat n | None => npos end
      =? wrap_u 64 (Z.of_nat (String.length filename) - 4))%Z.

(** [file_helper_.open(base_filename_, truncate)]. *)
Definition open_base (truncate : bool) (e : sink_env) : prog sink unit :=
  modifyS (λ s,
    let d := match dir s !! base_filename_, truncate with
             | Some f, false => dir s
             | _, _ => <[base_filename_ := {| content := []; mtime := now e |}]> (dir s)
             end in
    set_opened true (set_dir d s)).

(** [while (files.size() > max_files_)] remove the first one. *)
Fixpoint delete_oldest (files : list (string * Z)) (d : gmap string log_file) : gmap string log_file :=
  match files with
  | [] => d
  | f :: files' =>
      if (max_files_ <? length files)%nat then delete_oldest files' (delete f.1 d) else d
  end.

(** The backups of the directory with their times. *)
Definition backups (d : gmap string log_file) : list (string * Z) :=
  (λ p, (p.1, mtime p.2)) <$> filter (λ p, is_backup p.1 = true) (map_to_list d).

Definition rotate_ (e : sink_env) : prog sink unit :=
  modifyS (set_opened false);;
  s ← getS;
  match dir s !! base_filename_, rename_works e with
  | Some f, true =>
      let d := <[backup_name (now e) := f]> (delete base_filename_ (dir s)) in
      modifyS (set_dir d);;
      if listing_works e then
        modifyS (set_dir (delete_oldest (std_sort (backups d)) d));;
        open_base false e;;
        modifyS (set_size 0)
      else throwS (SpdlogEx "Error during file rotation")
  | _, _ =>
      open_base true e;;
      modifyS (set_size 0);;
      throwS (SpdlogEx "Failed to rotate file")
  end.

(** [file_helper_.size()] throws on a closed file, [write] ignores it. *)
Definition base_size : prog sink nat :=
  s ← getS;
  if opened s then mret (default 0%nat (file_size <$> dir s !! base_filename_))
  else throwS (SpdlogEx "Cannot use size() on closed file").

Definition append_message (e : sink_env) (formatted : string) : prog sink unit :=
  modifyS (λ s,
    if opened s then
      set_dir (alter (λ f, {| content := content f ++ [formatted]; mtime := now e |}) base_filename_ (dir s)) s
    else s).

Definition sink_it_ (e : sink_env) (formatted : string) : prog sink unit :=
  s ← getS;
  let new_size := (current_size_ s + String.length formatted)%nat in
  new_size ←
    (if (max_size_ <? new_size)%nat then
       n ← base_size;
       if (0 <? n)%nat then rotate_ e;; mret (String.length formatted) else mret new_size
     else mret new_size);
  append_message e formatted;;
  modifyS (set_size new_size).

(** The constructor, on a directory. *)
Definition sink_create (rotate_on_open : bool) (e : sink_env) : prog sink unit :=
  if (max_size_ =? 0)%nat then throwS (SpdlogEx "max_size arg cannot be zero")
  else if (200000 <? max_files_)%nat then throwS (SpdlogEx "max_files arg cannot exceed 200000")
  else
    open_base false e;;
    n ← base_size;
    modifyS (set_size n);;
    if rotate_on_open && (0 <? n)%nat then rotate_ e;; modifyS (set_size 0) else mret tt.

(** ** Lemmas *)

Context `{!FileSort std_sort}.

Definition works (e : sink_env) : Prop := rename_works e = true ∧ listing_works e = true.

(** Which files a deletion leaves. *)
Lemma delete_oldest_lookup files d name :
  NoDup files.*1 →
  delete_oldest files d !! name =
    if decide (name ∈ (take (length files - max_files_) files).*1) then None else d !! name.
Proof.
  revert d. induction files as [|f files IH]; intros d Hnd; [done|].
  rewrite fmap_cons in Hnd. apply NoDup_cons in Hnd as [Hf Hnd]. cbn [delete_oldest].
  destruct (Nat.ltb_spec max_files_ (length (f :: files))) as [Hlt|Hge].
  - simpl in Hlt. rewrite IH by done. simpl.
    replace (S (length files) - max_files_)%nat with (S (length files - max_files_)) by lia. simpl.
    destruct (decide (name = f.1)) as [->|Hne];
      [rewrite lookup_delete_eq|rewrite lookup_delete_ne by done];
      repeat case_decide; set_solver.
  - replace (length (f :: files) - max_files_)%nat with 0%nat by lia. done.
Qed.

Lemma backups_fst d : (backups d).*1 = (filter (λ p, is_backup p.1 = true) (map_to_list d)).*1.
Proof. unfold backups. rewrite <- list_fmap_compose. by apply list_fmap_ext. Qed.

Lemma elem_of_backups d name t :
  (name, t) ∈ backups d ↔ is_backup name = true ∧ ∃ f, d !! name = Some f ∧ mtime f = t.
Proof.
  unfold backups. rewrite list_elem_of_fmap. split.
  - intros ([n f] & Heq & Hin). simpl in Heq. simplify_eq.
    apply list_elem_of_filter in Hin as [Hb Hin]. apply elem_of_map_to_list in Hin. eauto.
  - intros (Hb & f & Hf & <-). exists (name, f). split; [done|].
    apply list_elem_of_filter. split; [done|]. by apply elem_of_map_to_list.
Qed.

Lemma backups_NoDup d : NoDup (backups d).*1.
Proof.
  rewrite backups_fst. eapply sublist_NoDup; [apply (NoDup_fst_map_to_list d)|].
  apply fmap_sublist, sublist_filter.
Qed.

(** The backups that stay are the last ones of the sorted list. *)
Lemma kept_backups d :
  let l := std_sort (backups d) in
  backups (delete_oldest l d) ≡ₚ drop (length l - max_files_) l.
Proof.
  intros l. assert (l ≡ₚ backups d) as Hperm by apply sort_perm.
  assert (NoDup l.*1) as Hnd by (rewrite Hperm; apply backups_NoDup).
  apply NoDup_Permutation.
  - eapply NoDup_fmap_1, backups_NoDup.
  - eapply NoDup_fmap_1. rewrite <- (take_drop (length l - max_files_) l), fmap_app in Hnd.
    by apply NoDup_app in Hnd as (_ & _ & Hnd).
  - intros [name t]. rewrite elem_of_backups. rewrite delete_oldest_lookup by done.
    rewrite <- (take_drop (length l - max_files_) l), fmap_app in Hnd.
    apply NoDup_app in Hnd as (_ & Hdis & _). split.
    + intros (Hb & f & Hf & <-). case_decide as Hin; [done|].
      assert ((name, mtime f) ∈ l) as Hl.
      { rewrite Hperm. apply elem_of_backups. eauto. }
      rewrite <- (take_drop (length l - max_files_) l) in Hl.
      apply elem_of_app in Hl as [Hl|Hl]; [|done]. destruct Hin.
      apply list_elem_of_fmap. by exists (name, mtime f).
    + intros Hin. assert ((name, t) ∈ backups d) as Hd.
      { rewrite <- Hperm, <- (take_drop (length l - max_files_) l). apply elem_of_app. by right. }
      apply elem_of_backups in Hd as (Hb & f & Hf & Ht). split; [done|]. exists f.
      rewrite decide_False; [done|]. intros Htake. apply (Hdis name Htake).
      apply list_elem_of_fmap. by exists (name, t).
Qed.

(** A deletion touches backups only, and the oldest ones. *)
Lemma deletion_oldest d name :
  let d' := delete_oldest (std_sort (backups d)) d in
  d' !! name = d !! name ∨
  d' !! name = None ∧ is_backup name = true ∧
    ∀ f other f', d !! name = Some f → is_backup other = true → d' !! other = Some f' →
      (mtime f ≤ mtime f')%Z.
Proof.
  intros d'. set (l := std_sort (backups d)) in *. assert (l ≡ₚ backups d) as Hperm by apply sort_perm.
  assert (NoDup l.*1) as Hnd by (rewrite Hperm; apply backups_NoDup).
  unfold d'. rewrite delete_oldest_lookup by done. case_decide as Hin; [right|by left].
  apply list_elem_of_fmap in Hin as ([n t] & -> & Hin). simpl.
  assert ((n, t) ∈ backups d) as Hb.
  { rewrite <- Hperm, <- (take_drop (length l - max_files_) l). apply elem_of_app. by left. }
  apply elem_of_backups in Hb as (Hb & f0 & Hf0 & Ht). split_and!; [done..|].
  intros f other f' Hf Hob Hof. simplify_eq.
  assert ((other, mtime f') ∈ drop (length l - max_files_) l) as Hdrop.
  { pose proof (kept_backups d) as Hk. cbn zeta in Hk. fold l in Hk. rewrite <- Hk.
    apply elem_of_backups. eauto. }
  pose proof (sort_sorted (backups d)) as Hsort. fold l in Hsort.
  rewrite <- (take_drop (length l - max_files_) l) in Hsort.
  rewrite StronglySorted_app in Hsort. destruct Hsort as (Hle & _ & _).
  exact (Hle _ _ Hin Hdrop).
Qed.

Lemma rotate_run e s f :
  works e → dir s !! base_filename_ = Some f → backup_name (now e) ≠ base_filename_ →
  let d := <[backup_name (now e) := f]> (delete base_filename_ (dir s)) in
  rotate_ e s = (Done tt,
    {| dir := <[base_filename_ := {| content := []; mtime := now e |}]>
                (delete_oldest (std_sort (backups d)) d);
       opened := true; current_size_ := 0 |}).
Proof.
  intros [Hr Hl] Hf Hne d. unfold rotate_, mbind, prog_bind, modifyS, getS. simpl.
  rewrite Hf, Hr. simpl. rewrite Hl. simpl. fold d. unfold set_size, set_opened, set_dir. simpl.
  assert (delete_oldest (std_sort (backups d)) d !! base_filename_ = None) as ->; [|done].
  destruct (deletion_oldest d base_filename_) as [->|[-> _]]; [|done].
  unfold d. rewrite lookup_insert_ne by done. apply lookup_delete_eq.
Qed.

(** The file that is open, in step with the remembered size and bounded. *)
Definition sink_inv (s : sink) : Prop :=
  opened s = true ∧ ∃ f, dir s !! base_filename_ = Some f ∧ file_size f = current_size_ s ∧
    ((file_size f ≤ max_size_)%nat ∨ ∃ m, m ∈ content f ∧ file_size f = String.length m).

(** At most [max_files_] backups. *)
Definition few_backups (s : sink) : Prop := (length (backups (dir s)) ≤ max_files_)%nat.

Lemma file_size_app f m t :
  file_size {| content := content f ++ [m]; mtime := t |} = (file_size f + String.length m)%nat.
Proof.
  unfold file_size. simpl. rewrite fmap_app. simpl.
  induction (String.length <$> content f) as [|n l IH]; simpl; unfold id in *; lia.
Qed.

(** Writing to a file that is not a backup changes no backup. *)
Lemma backups_base d f :
  is_backup base_filename_ = false → backups (<[base_filename_ := f]> d) ≡ₚ backups d.
Proof.
  intros Hb. apply NoDup_Permutation; [eapply NoDup_fmap_1, backups_NoDup..|].
  intros [name t]. rewrite !elem_of_backups. split; intros (Hn & f' & Hf & Ht).
  - rewrite lookup_insert_ne in Hf by congruence. eauto.
  - split; [done|]. exists f'. rewrite lookup_insert_ne by congruence. done.
Qed.

Lemma append_step e m n s f :
  opened s = true → dir s !! base_filename_ = Some f →
  (append_message e m;; modifyS (set_size n)) s = (Done tt,
    {| dir := <[base_filename_ := {| content := content f ++ [m]; mtime := now e |}]> (dir s);
       opened := true; current_size_ := n |}).
Proof.
  intros Ho Hf. unfold append_message, mbind, prog_bind, modifyS. rewrite Ho. unfold set_size, set_dir.
  simpl. rewrite Ho. do 2 f_equal. apply map_eq. intros i.
  destruct (decide (i = base_filename_)) as [->|].
  - by rewrite lookup_alter_eq, lookup_insert_eq, Hf.
  - by rewrite lookup_alter_ne, lookup_insert_ne.
Qed.

(** One message, in an environment that works: the file stays bounded and
    ends with the message. *)
Lemma sink_it_ok e m s :
  works e → is_backup base_filename_ = false → backup_name (now e) ≠ base_filename_ →
  sink_inv s → few_backups s →
  ∃ s' f, sink_it_ e m s = (Done tt, s') ∧ sink_inv s' ∧ few_backups s' ∧
    dir s' !! base_filename_ = Some f ∧ last (content f) = Some m.
Proof.
  intros He Hb Hne (Ho & f & Hf & Hsz & Hbound) Hfew.
  assert (Hend : ∀ s1 f1 n, opened s1 = true → dir s1 !! base_filename_ = Some f1 →
    few_backups s1 → n = (file_size f1 + String.length m)%nat →
    (n ≤ max_size_)%nat ∨ file_size f1 = 0%nat →
    ∃ s' f, (append_message e m;; modifyS (set_size n)) s1 = (Done tt, s') ∧ sink_inv s' ∧
      few_backups s' ∧ dir s' !! base_filename_ = Some f ∧ last (content f) = Some m).
  { intros s1 f1 n Ho1 Hf1 Hfew1 Hn Hmax. eexists _, _. split; [by apply append_step|].
    unfold sink_inv, few_backups. simpl. rewrite lookup_insert_eq, backups_base by done.
    split_and!; try done; [|by simpl; rewrite last_snoc].
    eexists. split; [done|]. rewrite file_size_app. split; [lia|]. destruct Hmax as [?|Hz]; [left; lia|].
    right. exists m. split; [simpl; set_solver|lia]. }
  unfold sink_it_. erewrite prog_bind_eq by reflexivity.
  destruct (Nat.ltb_spec max_size_ (current_size_ s + String.length m)) as [Hlt|Hge].
  2: { erewrite prog_bind_eq by reflexivity. apply (Hend s f); [done..|lia|left; lia]. }
  assert (base_size s = (Done (file_size f), s)) as Hbase.
  { unfold base_size, mbind, prog_bind, getS. by rewrite Ho, Hf. }
  destruct (Nat.ltb_spec 0 (file_size f)) as [Hpos|Hz].
  - pose proof (rotate_run e s f He Hf Hne) as Hrot.
    set (d := <[backup_name (now e) := f]> (delete base_filename_ (dir s))) in *.
    erewrite prog_bind_eq.
    2: { rewrite (prog_bind_eq _ _ _ _ _ Hbase). apply Nat.ltb_lt in Hpos. rewrite Hpos.
         by rewrite (prog_bind_eq _ _ _ _ _ Hrot). }
    eapply Hend; simpl; [done|apply lookup_insert_eq| |done|by right].
    unfold few_backups. simpl. rewrite backups_base by done.
    rewrite (kept_backups d), length_drop. lia.
  - erewrite prog_bind_eq.
    2: { rewrite (prog_bind_eq _ _ _ _ _ Hbase). apply Nat.ltb_ge in Hz. by rewrite Hz. }
    apply (Hend s f); [done..|lia|right; lia].
Qed.

(** Where the files of a rotated directory come from. *)
Lemma rotate_files e s f name f' :
  backup_name (now e) ≠ base_filename_ →
  let d := <[backup_name (now e) := f]> (delete base_filename_ (dir s)) in
  delete_oldest (std_sort (backups d)) d !! name = Some f' →
  name ≠ base_filename_ ∧
  (name = backup_name (now e) ∧ f' = f ∨ name ≠ backup_name (now e) ∧ dir s !! name = Some f').
Proof.
  intros Hne d Hl. destruct (deletion_oldest d name) as [Heq|[Heq _]]; rewrite Heq in Hl; [|done].
  unfold d in Hl. destruct (decide (name = backup_name (now e))) as [->|Hn].
  - rewrite lookup_insert_eq in Hl. simplify_eq. auto.
  - rewrite lookup_insert_ne in Hl by done. destruct (decide (name = base_filename_)) as [->|Hb].
    + by rewrite lookup_delete_eq in Hl.
    + rewrite lookup_delete_ne in Hl by done. auto.
Qed.

(** A strictly oldest backup goes first. *)
Lemma oldest_deleted d name t :
  (name, t) ∈ backups d → (max_files_ < length (backups d))%nat →
  (∀ other t', (other, t') ∈ backups d → other ≠ name → (t < t')%Z) →
  delete_oldest (std_sort (backups d)) d !! name = None.
Proof.
  intros Hin Hlen Hold. pose proof (sort_perm (backups d)) as Hperm.
  pose proof (sort_sorted (backups d)) as Hsort.
  assert (NoDup (std_sort (backups d)).*1) as Hnd by (rewrite Hperm; apply backups_NoDup).
  rewrite delete_oldest_lookup by done. rewrite <- Hperm in Hin, Hlen.
  destruct (std_sort (backups d)) as [|[x tx] l] eqn:Hl; [by apply elem_of_nil in Hin|].
  assert (x = name) as ->.
  { apply elem_of_cons in Hin as [Heq|Hin]; [by simplify_eq|].
    destruct (decide (x = name)) as [|Hne]; [done|].
    assert (tx ≤ t)%Z as Hle.
    { apply StronglySorted_inv in Hsort as [_ Hall]. rewrite Forall_forall in Hall.
      exact (Hall _ Hin). }
    pose proof (Hold x tx) as Hlt. rewrite <- Hperm in Hlt.
    specialize (Hlt ltac:(left) Hne). lia. }
  rewrite decide_True; [done|]. simpl in Hlen. cbn [length].
  replace (S (length l) - max_files_)%nat with (S (length l - max_files_)) by lia. simpl. left.
Qed.
End Sink.

(** A name that ends in ".log" passes the second test. *)
Lemma rfind_log s : rfind ".log" (s +:+ ".log") = Some (String.length s).
Proof. induction s as [|c s IH]; [reflexivity|]. simpl in *. by rewrite IH. Qed.

Lemma length_log s : String.length (s +:+ ".log") = (String.length s + 4)%nat.
Proof. induction s as [|c s IH]; [done|]. simpl in *. by rewrite IH. Qed.

Lemma prefix_app s t : String.prefix s (s +:+ t) = true.
Proof.
  induction s as [|c s IH]; [by destruct t|]. simpl. destruct (Ascii.ascii_dec c c); [done|congruence].
Qed.

Lemma string_app_assoc s t u : (s +:+ t) +:+ u = s +:+ (t +:+ u).
Proof. induction s as [|c s IH]; [done|]. exact (f_equal (String c) IH). Qed.

Lemma is_backup_log proc rest :
  (Z.of_nat (String.length (proc +:+ "_" +:+ rest)) < 2 ^ 64)%Z →
  is_backup proc (proc +:+ "_" +:+ rest +:+ ".log") = true.
Proof.
  intros Hlen. unfold is_backup.
  replace (proc +:+ "_" +:+ rest +:+ ".log") with ((proc +:+ "_" +:+ rest) +:+ ".log")
    by (by rewrite !string_app_assoc).
  rewrite rfind_log, length_log.
  replace ((proc +:+ "_" +:+ rest) +:+ ".log") with ((proc +:+ "_") +:+ rest +:+ ".log")
    by (by rewrite !string_app_assoc).
  rewrite prefix_app. simpl. apply Z.eqb_eq. rewrite wrap_u_id; [lia|]. unfold in_u. lia.
Qed.

(** The sink after messages each of which the logger may report as failed. *)
Definition log_messages (base proc : string) (max_size max_files : nat) (stamp : Z → string) sort
    (msgs : list (sink_env * string)) : prog sink unit :=
  iterS msgs (λ em, catchS (sink_it_ base proc max_size max_files stamp sort em.1 em.2) (λ _, mret tt)).

Lemma messages_ok base proc max_size max_files stamp sort `{!FileSort sort} msgs s0 (P : log_file → Prop) :
  is_backup proc base = false →
  sink_inv base max_size s0 → few_backups proc max_files s0 → (∃ f, dir s0 !! base = Some f ∧ P f) →
  Forall (λ em, works em.1 ∧ backup_name proc stamp (now em.1) ≠ base) msgs →
  ∃ s f, iterS msgs (λ em, sink_it_ base proc max_size max_files stamp sort em.1 em.2) s0 = (Done tt, s) ∧
    sink_inv base max_size s ∧ few_backups proc max_files s ∧ dir s !! base = Some f ∧
    match last msgs with Some em => last (content f) = Some em.2 | None => P f end.
Proof.
  intros Hb Hinv Hfew HP Hmsgs. revert s0 P Hinv Hfew HP.
  induction Hmsgs as [|[e m] msgs [Hw Hne] _ IH]; intros s0 P Hinv Hfew [f [Hf HP]].
  { exists s0, f. by split_and!. }
  destruct (sink_it_ok base proc max_size max_files stamp sort e m s0)
    as (s1 & f1 & Hrun & Hinv1 & Hfew1 & Hf1 & Hl1); [done..|].
  destruct (IH s1 (λ f, last (content f) = Some m)) as (s2 & f2 & Hrun2 & ? & ? & ? & Hlast); [done..|eauto|].
  exists s2, f2. erewrite iterS_cons; [|exact Hrun]. split_and!; try done.
  rewrite last_cons. by destruct (last msgs).
Qed.

(** ** Properties *)

(** C32: in an environment where files can be renamed and listed, a sink opened
    on a file that is not yet full, beside at most as many backups as are
    allowed, then given any messages, raises nothing;
    the size it remembers is the size of the file; the file is never larger
    than the limit unless a single message is; it ends with the last message;
    and there are never more backups than allowed. *)
Theorem log_file_bounded base proc max_size max_files stamp sort `{!FileSort sort} e0 d msgs :
  (0 < max_size)%nat → (max_files ≤ 200000)%nat → is_backup proc base = false →
  (default 0%nat (file_size <$> d !! base) ≤ max_size)%nat →
  (length (backups proc d) ≤ max_files)%nat →
  Forall (λ em, works em.1 ∧ backup_name proc stamp (now em.1) ≠ base) msgs →
  ∃ s f, (sink_create base proc max_size max_files stamp sort false e0;;
          iterS msgs (λ em, sink_it_ base proc max_size max_files stamp sort em.1 em.2))
           {| dir := d; opened := false; current_size_ := 0 |} = (Done tt, s) ∧
    dir s !! base = Some f ∧ file_size f = current_size_ s ∧
    ((file_size f ≤ max_size)%nat ∨ ∃ m, m ∈ content f ∧ file_size f = String.length m) ∧
    (length (backups proc (dir s)) ≤ max_files)%nat ∧
    (∀ em, last msgs = Some em → last (content f) = Some em.2).
Proof.
  intros Hpos Hmax Hb Hsize Hfew Hmsgs.
  assert (∃ s0, sink_create base proc max_size max_files stamp sort false e0
      {| dir := d; opened := false; current_size_ := 0 |} = (Done tt, s0) ∧
      sink_inv base max_size s0 ∧ few_backups proc max_files s0) as (s0 & Hcreate & Hinv & Hf0).
  { unfold sink_create. replace (max_size =? 0)%nat with false by (symmetry; apply Nat.eqb_neq; lia).
    replace (200000 <? max_files)%nat with false by (symmetry; apply Nat.ltb_ge; lia).
    unfold open_base, base_size, mbind, prog_bind, modifyS, getS. simpl.
    eexists. split; [reflexivity|]. unfold sink_inv, few_backups. simpl.
    destruct (d !! base) as [f|] eqn:Hf; simpl in *.
    - rewrite Hf. simpl. split; [|done]. split; [done|]. exists f. auto.
    - rewrite lookup_insert_eq. simpl. rewrite backups_base by done. split; [|done].
      split; [done|]. eexists. split; [done|]. split; [done|]. left. unfold file_size. simpl. lia. }
  rewrite (prog_bind_eq _ _ _ _ _ Hcreate). clear Hcreate.
  destruct (messages_ok base proc max_size max_files stamp sort msgs s0 (λ _, True))
    as (s & f & Hrun & (Ho & f' & Hf & Hsz & Hbound) & Hfew' & Hf' & Hlast); try done.
  { destruct Hinv as (_ & f & Hf & _). by exists f. }
  simplify_eq. exists s, f'. split_and!; try done. intros em Hem. by rewrite Hem in Hlast.
Qed.

(** A rotation in an environment that works leaves an empty log file, keeps
    every file that is not a backup of the process, keeps as many backups as
    allowed (counting the new one), and whatever it deletes is no younger
    than any backup it keeps. *)
Theorem rotation_retention base proc max_files stamp sort `{!FileSort sort} e s f :
  works e → dir s !! base = Some f → backup_name proc stamp (now e) ≠ base →
  is_backup proc base = false →
  let all := backups proc (<[backup_name proc stamp (now e) := f]> (delete base (dir s))) in
  ∃ s', rotate_ base proc max_files stamp sort e s = (Done tt, s') ∧
    dir s' !! base = Some {| content := []; mtime := now e |} ∧ current_size_ s' = 0%nat ∧
    length (backups proc (dir s')) = (length all `min` max_files)%nat ∧
    (∀ name, is_backup proc name = false → name ≠ base → name ≠ backup_name proc stamp (now e) →
       dir s' !! name = dir s !! name) ∧
    (∀ a fa b fb, is_backup proc b = true → dir s' !! b = Some fb → b ≠ base →
       dir s !! a = Some fa → a ≠ base → a ≠ backup_name proc stamp (now e) → dir s' !! a = None →
       (mtime fa ≤ mtime fb)%Z).
Proof.
  intros Hw Hf Hne Hb all. pose proof (rotate_run base proc max_files stamp sort e s f Hw Hf Hne) as Hrun.
  eexists. split; [exact Hrun|]. simpl. split; [apply lookup_insert_eq|]. split; [done|].
  set (d := <[backup_name proc stamp (now e) := f]> (delete base (dir s))) in *.
  split; [|split].
  - rewrite backups_base by done. rewrite (kept_backups proc max_files sort d), length_drop.
    rewrite (sort_perm (sort := sort)). unfold all. lia.
  - intros name Hn Hnb Hnn. rewrite lookup_insert_ne by done.
    destruct (deletion_oldest proc max_files sort d name) as [->|(_ & ? & _)]; [|congruence].
    unfold d. by rewrite lookup_insert_ne, lookup_delete_ne by done.
  - intros a fa b fb Hbb Hfb Hbn Hfa Han Hann Hgone.
    rewrite lookup_insert_ne in Hfb by done. rewrite lookup_insert_ne in Hgone by done.
    assert (d !! a = Some fa) as Hda.
    { unfold d. by rewrite lookup_insert_ne, lookup_delete_ne by done. }
    destruct (deletion_oldest proc max_files sort d a) as [Heq|(_ & _ & Hold)]; [congruence|].
    by eapply Hold.
Qed.

(** Backups are named to the second: a rotation in a second that already
    has its backup replaces it, and the messages that only that backup held
    are in no file of the directory any more, whatever the number of backups
    allowed. *)
Theorem same_second_rotation_loses base proc max_files stamp sort `{!FileSort sort} e s f old m :
  works e → dir s !! base = Some f → backup_name proc stamp (now e) ≠ base →
  dir s !! backup_name proc stamp (now e) = Some old → m ∈ content old →
  (∀ name f', name ≠ backup_name proc stamp (now e) → dir s !! name = Some f' → m ∉ content f') →
  ∃ s', rotate_ base proc max_files stamp sort e s = (Done tt, s') ∧
    ∀ name f', dir s' !! name = Some f' → m ∉ content f'.
Proof.
  intros Hw Hf Hne Hold Hm Hothers.
  pose proof (rotate_run base proc max_files stamp sort e s f Hw Hf Hne) as Hrun.
  eexists. split; [exact Hrun|]. simpl. intros name f' Hl.
  destruct (decide (name = base)) as [->|Hn].
  - rewrite lookup_insert_eq in Hl. simplify_eq. simpl. apply not_elem_of_nil.
  - rewrite lookup_insert_ne in Hl by done.
    destruct (rotate_files base proc max_files stamp sort e s f name f' Hne Hl)
      as (_ & [[_ ->]|[Hnn Hs]]); [by apply (Hothers base)|by apply (Hothers name)].
Qed.

(** The backups are recognised by the process name and an underscore, so
    the log of another program whose name starts that way is taken for one:
    when it is the oldest and there are more backups than allowed, the
    rotation deletes it. *)
Theorem other_program_log_deleted base proc other max_files stamp sort `{!FileSort sort} e s f fo :
  let name := proc +:+ "_" +:+ other +:+ ".log" in
  let d := <[backup_name proc stamp (now e) := f]> (delete base (dir s)) in
  works e → dir s !! base = Some f → backup_name proc stamp (now e) ≠ base → name ≠ base →
  (Z.of_nat (String.length (proc +:+ "_" +:+ other)) < 2 ^ 64)%Z →
  d !! name = Some fo → (max_files < length (backups proc d))%nat →
  (∀ n t, (n, t) ∈ backups proc d → n ≠ name → (mtime fo < t)%Z) →
  ∃ s', rotate_ base proc max_files stamp sort e s = (Done tt, s') ∧ dir s' !! name = None.
Proof.
  intros name d Hw Hf Hne Hnb Hlen Hfo Hcount Hold.
  pose proof (rotate_run base proc max_files stamp sort e s f Hw Hf Hne) as Hrun.
  eexists. split; [exact Hrun|]. simpl. rewrite lookup_insert_ne by done.
  apply (oldest_deleted proc max_files sort d name (mtime fo)); [|done|done].
  apply elem_of_backups. split; [by apply is_backup_log|]. by exists fo.
Qed.

(** When the directory cannot be listed, the rotation leaves the log file
    renamed and closed, and nothing opens it again: from then on no message
    ever reaches the directory, whatever happens, while the calls of the
    messages that fit return normally. *)
Theorem failed_cleanup_silences base proc max_size max_files stamp sort e s f msgs :
  rename_works e = true → listing_works e = false → dir s !! base = Some f →
  ∃ s1, rotate_ base proc max_files stamp sort e s
      = (Threw (SpdlogEx "Error during file rotation"), s1) ∧ opened s1 = false ∧
    (log_messages base proc max_size max_files stamp sort msgs s1).1 = Done tt ∧
    dir (log_messages base proc max_size max_files stamp sort msgs s1).2 = dir s1.
Proof.
  intros Hr Hl Hf. unfold rotate_, mbind, prog_bind, modifyS, getS. simpl. rewrite Hf, Hr. simpl.
  rewrite Hl. simpl. eexists. split; [reflexivity|]. split; [done|].
  set (s1 := set_dir _ _). assert (opened s1 = false) as Ho by done. revert Ho. generalize s1. clear.
  unfold log_messages. induction msgs as [|[e m] msgs IH]; intros s Ho; [done|].
  assert (∃ s', catchS (sink_it_ base proc max_size max_files stamp sort e m) (λ _, mret tt) s
    = (Done tt, s') ∧ opened s' = false ∧ dir s' = dir s) as (s' & Hrun & Ho' & Hd).
  { unfold catchS, sink_it_, base_size, append_message, mbind, prog_bind, modifyS, getS.
    destruct (max_size <? _)%nat; simpl; rewrite ?Ho; simpl; by eexists. }
  erewrite iterS_cons by exact Hrun. destruct (IH s' Ho') as [IH1 IH2]. split; [exact IH1|congruence].
Qed.

(** ** Witnesses *)

Definition time_le (a b : string * Z) : Prop := (a.2 ≤ b.2)%Z.

#[local] Instance time_le_dec : RelDecision time_le.
Proof. intros a b. unfold time_le. apply _. Defined.

#[local] Instance time_le_total : Total time_le.
Proof. intros a b. unfold time_le. lia. Qed.

#[local] Instance time_le_trans : Transitive time_le.
Proof. intros a b c. unfold time_le. lia. Qed.

Definition demo_file_sort : list (string * Z) → list (string * Z) := merge_sort time_le.

Lemma demo_file_sort_ok : FileSort demo_file_sort.
Proof.
  split; intros l; [apply merge_sort_Permutation|]. apply (StronglySorted_merge_sort time_le).
Qed.

Definition demo_stamp (t : Z) : string := if (t <? 10)%Z then "20250608_120000" else "20250608_120001".

Definition demo_env (t : Z) : sink_env := {| now := t; rename_works := true; listing_works := true |}.

Definition demo_msg_file (m : string) (t : Z) : log_file := {| content := [m]; mtime := t |}.

Lemma log_file_bounded_witness :
  ∃ s f, (sink_create "app.log" "gw" 5 2 demo_stamp demo_file_sort false (demo_env 0);;
          iterS [(demo_env 1, "abc"); (demo_env 2, "defg"); (demo_env 11, "hi")]%string
            (λ em, sink_it_ "app.log" "gw" 5 2 demo_stamp demo_file_sort em.1 em.2))
           {| dir := ∅; opened := false; current_size_ := 0 |} = (Done tt, s) ∧
    dir s !! "app.log"%string = Some f ∧ file_size f = current_size_ s ∧
    last (content f) = Some "hi"%string.
Proof.
  destruct (@log_file_bounded "app.log" "gw" 5 2 demo_stamp demo_file_sort demo_file_sort_ok (demo_env 0) ∅
    [(demo_env 1, "abc"); (demo_env 2, "defg"); (demo_env 11, "hi")]%string)
    as (s & f & Hrun & Hf & Hsz & _ & _ & Hlast); [lia|apply Nat.leb_le; vm_compute; reflexivity|reflexivity|..].
  - rewrite lookup_empty. simpl. lia.
  - unfold backups. rewrite map_to_list_empty. simpl. lia.
  - repeat (constructor; [by split|]). constructor.
  - exists s, f. split; [exact Hrun|]. split; [done|]. split; [done|]. by apply (Hlast (demo_env 11, "hi"%string)).
Defined.

(** A full log next to a backup of the same second. *)
Definition demo_log_sink : sink :=
  {| dir := {[ "app.log"%string := demo_msg_file "new" 5;
               "gw_20250608_120000.log"%string := demo_msg_file "old" 3;
               "other.txt"%string := demo_msg_file "x" 1 ]};
     opened := true; current_size_ := 3 |}.

Lemma rotation_retention_witness :
  ∃ s', rotate_ "app.log" "gw" 1 demo_stamp demo_file_sort (demo_env 11) demo_log_sink = (Done tt, s') ∧
    length (backups "gw" (dir s')) = 1%nat ∧
    dir s' !! "other.txt"%string = Some (demo_msg_file "x" 1).
Proof.
  destruct (@rotation_retention "app.log" "gw" 1 demo_stamp demo_file_sort demo_file_sort_ok (demo_env 11)
    demo_log_sink (demo_msg_file "new" 5)) as (s' & Hrun & _ & _ & Hlen & Hother & _);
    [done|reflexivity|done|reflexivity|].
  exists s'. split; [exact Hrun|]. split; [rewrite Hlen; vm_compute; reflexivity|].
  rewrite Hother; [reflexivity|reflexivity|done|done].
Defined.

Lemma same_second_rotation_loses_witness :
  ∃ s', rotate_ "app.log" "gw" 5 demo_stamp demo_file_sort (demo_env 6) demo_log_sink = (Done tt, s') ∧
    ∀ name f', dir s' !! name = Some f' → "old"%string ∉ content f'.
Proof.
  apply (@same_second_rotation_loses "app.log" "gw" 5 demo_stamp demo_file_sort demo_file_sort_ok
    (demo_env 6) demo_log_sink (demo_msg_file "new" 5) (demo_msg_file "old" 3));
    [done|reflexivity|done|reflexivity|simpl; left|].
  intros name f' Hn Hl. unfold demo_log_sink in Hl. cbn [dir] in Hl.
  apply lookup_insert_Some in Hl as [[_ <-]|[_ Hl]]; [simpl; set_solver|].
  apply lookup_insert_Some in Hl as [[Heq _]|[_ Hl]]; [by destruct Hn|].
  apply lookup_singleton_Some in Hl as [_ <-]. simpl. set_solver.
Defined.

Definition demo_other_sink : sink :=
  {| dir := {[ "app.log"%string := demo_msg_file "new" 5;
               "gw_sim_1.log"%string := demo_msg_file "not ours" 3 ]};
     opened := true; current_size_ := 3 |}.

Lemma other_program_log_deleted_witness :
  ∃ s', rotate_ "app.log" "gw" 1 demo_stamp demo_file_sort (demo_env 6) demo_other_sink = (Done tt, s') ∧
    dir s' !! "gw_sim_1.log"%string = None.
Proof.
  apply (@other_program_log_deleted "app.log" "gw" "sim_1" 1 demo_stamp demo_file_sort demo_file_sort_ok
    (demo_env 6) demo_other_sink (demo_msg_file "new" 5) (demo_msg_file "not ours" 3));
    [done|reflexivity|done|done|simpl; lia|reflexivity|vm_compute; lia|].
  intros n t Hin Hn. apply elem_of_backups in Hin as (_ & f & Hf & <-).
  unfold demo_other_sink in Hf. cbn [dir] in Hf.
  apply lookup_insert_Some in Hf as [[_ <-]|[_ Hf]]; [done|].
  apply lookup_delete_Some in Hf as [Hb Hf].
  apply lookup_insert_Some in Hf as [[Heq _]|[_ Hf]]; [by destruct Hb|].
  apply lookup_singleton_Some in Hf as [Heq _]. by destruct Hn.
Defined.

Lemma failed_cleanup_silences_witness :
  let e := {| now := 6; rename_works := true; listing_works := false |} in
  ∃ s1, rotate_ "app.log" "gw" 5 demo_stamp demo_file_sort e demo_log_sink
      = (Threw (SpdlogEx "Error during file rotation"), s1) ∧ opened s1 = false ∧
    dir (log_messages "app.log" "gw" 5 5 demo_stamp demo_file_sort [(demo_env 7, "lost"%string)] s1).2 = dir s1.
Proof.
  intros e.
  destruct (failed_cleanup_silences "app.log" "gw" 5 5 demo_stamp demo_file_sort e demo_log_sink
    (demo_msg_file "new" 5) [(demo_env 7, "lost"%string)]) as (s1 & Hrun & Ho & _ & Hd); [done..|].
  exists s1. split; [exact Hrun|]. split; [exact Ho|exact Hd].
Defined.
