(* ===== verification/LogHistory.v ===== *)
(** * What the files of a log hold together

    The names that [custom_rotating_file_sink-inl.h] gives to backups, from
    the path of the executable and the local time, and the log as a whole:
    while no two rotations happen in one second of local time and no backup
    has to be deleted, the backups followed by the log file hold every message
    ever written, in order. *)

From Stdlib Require Import ZArith String Ascii Lia.
From stdpp Require Import base tactics option list numbers strings gmap sorting.
From S2P Require Import Prelude Text LogSink.

(** ** Names *)

(** [fullPath.find_last_of('/')]. *)
Fixpoint last_component (fullPath : string) : option string :=
  match fullPath with
  | EmptyString => None
  | String c rest =>
      match last_component rest with
      | Some r => Some r
      | None => if Ascii.eqb c "/" then Some rest else None
      end
  end.

(** [readlink("/proc/self/exe")] gives [link], or fails. *)
Definition get_process_name (link : option string) : string :=
  match link with
  | Some fullPath => default fullPath (last_component fullPath)
  | None => "unknown"
  end.

(** The broken-down time of [std::localtime]. *)
Record tm := { tm_year : Z; tm_mon : Z; tm_mday : Z; tm_hour : Z; tm_min : Z; tm_sec : Z }.

#[export] Instance tm_eq_dec : EqDecision tm.
Proof. solve_decision. Defined.

Definition pad2 (n : Z) : string := String (digit_char (n / 10)) (String (digit_char (n mod 10)) EmptyString).

(** [std::put_time(..., "%Y%m%d_%H%M%S")]. *)
Definition put_time (t : tm) : string :=
  dec (1900 + tm_year t) +:+ pad2 (tm_mon t + 1) +:+ pad2 (tm_mday t) +:+ "_" +:+
  pad2 (tm_hour t) +:+ pad2 (tm_min t) +:+ pad2 (tm_sec t).

Definition get_timestamp (localtime : Z → tm) (now : Z) : string := put_time (localtime now).

(** [rotate_now], under the lock. *)
Definition rotate_now := rotate_.

(** What the standard says of the fields. *)
Definition tm_ok (t : tm) : Prop :=
  (0 ≤ tm_mon t < 12)%Z ∧ (1 ≤ tm_mday t ≤ 31)%Z ∧ (0 ≤ tm_hour t < 24)%Z ∧ (0 ≤ tm_min t < 60)%Z ∧
  (0 ≤ tm_sec t ≤ 60)%Z.

Lemma string_length_app s t : String.length (s +:+ t) = (String.length s + String.length t)%nat.
Proof. induction s as [|c s IH]; [done|]. simpl in *. by rewrite IH. Qed.

Lemma string_app_inj s1 s2 t1 t2 :
  s1 +:+ t1 = s2 +:+ t2 → String.length t1 = String.length t2 → s1 = s2 ∧ t1 = t2.
Proof.
  revert s2. induction s1 as [|c s1 IH]; intros [|c2 s2] Heq Hlen; [by split|..].
  - assert (String.length t1 = String.length (String c2 s2 +:+ t2)) as Hl by (by rewrite <- Heq).
    rewrite string_length_app in Hl. simpl in Hl. lia.
  - assert (String.length (String c s1 +:+ t1) = String.length t2) as Hl by (by rewrite Heq).
    rewrite string_length_app in Hl. simpl in Hl. lia.
  - injection Heq as -> Heq. by destruct (IH s2 Heq Hlen) as [-> ->].
Qed.

Lemma digit_char_inj a b : (0 ≤ a < 10)%Z → (0 ≤ b < 10)%Z → digit_char a = digit_char b → a = b.
Proof. intros Ha Hb H. apply (f_equal digit_val) in H. rewrite !digit_val_char in H by done. congruence. Qed.

Lemma pad2_inj a b : (0 ≤ a < 100)%Z → (0 ≤ b < 100)%Z → pad2 a = pad2 b → a = b.
Proof.
  intros Ha Hb H. injection H as H1 H2.
  apply digit_char_inj in H1; [|Z.div_mod_to_equations; lia..].
  apply digit_char_inj in H2; [|apply Z.mod_pos_bound; lia..].
  rewrite (Z.div_mod a 10), (Z.div_mod b 10) by lia. congruence.
Qed.

(** Different local times have different stamps. *)
Lemma put_time_inj t1 t2 : tm_ok t1 → tm_ok t2 → put_time t1 = put_time t2 → t1 = t2.
Proof.
  intros (M1 & D1 & H1 & I1 & S1) (M2 & D2 & H2 & I2 & S2) Heq. unfold put_time in Heq.
  apply string_app_inj in Heq as [HY Heq]; [|reflexivity].
  change (pad2 (tm_mon t1 + 1) +:+ (pad2 (tm_mday t1) +:+ "_" +:+ pad2 (tm_hour t1) +:+ pad2 (tm_min t1) +:+ pad2 (tm_sec t1)) =
    pad2 (tm_mon t2 + 1) +:+ (pad2 (tm_mday t2) +:+ "_" +:+ pad2 (tm_hour t2) +:+ pad2 (tm_min t2) +:+ pad2 (tm_sec t2))) in Heq.
  apply string_app_inj in Heq as [HM Heq]; [|reflexivity].
  apply string_app_inj in Heq as [HD Heq]; [|reflexivity].
  apply string_app_inj in Heq as [_ Heq]; [|reflexivity].
  apply string_app_inj in Heq as [HH Heq]; [|reflexivity].
  apply string_app_inj in Heq as [HI HS]; [|reflexivity].
  apply dec_inj in HY. apply pad2_inj in HM, HD, HH, HI, HS; [|lia..].
  destruct t1, t2; simpl in *. f_equal; lia.
Qed.

Lemma backup_name_inj localtime proc n1 n2 :
  tm_ok (localtime n1) → tm_ok (localtime n2) →
  backup_name proc (get_timestamp localtime) n1 = backup_name proc (get_timestamp localtime) n2 →
  localtime n1 = localtime n2.
Proof.
  intros H1 H2 Heq. unfold backup_name in Heq. apply put_time_inj; [done..|].
  assert (∀ p s1 s2, p +:+ s1 = p +:+ s2 → s1 = s2) as Hpre.
  { intros p s1 s2. induction p as [|c p IH]; [done|]. intros [= H]. by apply IH. }
  apply Hpre, Hpre, string_app_inj in Heq as [Heq _]; [done|reflexivity].
Qed.

(** ** The history of a log *)

Section History.
Context (base proc : string) (max_size max_files : nat) (localtime : Z → tm).
Context (std_sort : list (string * Z) → list (string * Z)) `{!FileSort std_sort}.
Context (Hbase : is_backup proc base = false).

Notation name_at e := (backup_name proc (get_timestamp localtime) (now e)).
Notation write := (sink_it_ base proc max_size max_files (get_timestamp localtime) std_sort).

Definition contents (d : gmap string log_file) (name : string) : list string :=
  default [] (content <$> d !! name).

(** The open log [s], whose backups since the start are [hist], in order, and
    hold with it the messages [written]; [n]: how many backups there may be. *)
Record history (hist : list string) (written : list string) (n : nat) (s : sink) : Prop := {
  hist_opened : opened s = true;
  hist_base : ∃ f, dir s !! base = Some f ∧ file_size f = current_size_ s;
  hist_nodup : NoDup hist;
  hist_no_base : base ∉ hist;
  hist_there name : name ∈ hist → is_Some (dir s !! name);
  hist_count : (length (backups proc (dir s)) ≤ n)%nat;
  hist_written : flat_map (contents (dir s)) hist ++ contents (dir s) base = written
}.

(** Nothing is deleted while there is room. *)
Lemma delete_oldest_few files d : (length files ≤ max_files)%nat → delete_oldest max_files files d = d.
Proof. destruct files as [|x files]; [done|]. intros Hl. simpl in *. by rewrite (proj2 (Nat.ltb_ge _ _)). Qed.

Lemma backups_added name f d : (length (backups proc (<[name := f]> (delete base d))) ≤ S (length (backups proc d)))%nat.
Proof.
  rewrite <- !(length_fmap fst). change (S (length (backups proc d).*1)) with (length (name :: (backups proc d).*1)).
  apply submseteq_length, NoDup_submseteq; [apply backups_NoDup|].
  intros x ([x' t] & -> & Hin)%list_elem_of_fmap. simpl. apply elem_of_backups in Hin as (Hb & f' & Hf & Ht).
  destruct (decide (x' = name)) as [->|Hne]; [by left|right].
  rewrite lookup_insert_ne in Hf by done. apply lookup_delete_Some in Hf as [_ Hf].
  apply list_elem_of_fmap. exists (x', t). split; [done|]. apply elem_of_backups. eauto.
Qed.

Lemma flat_map_contents (d d' : gmap string log_file) names :
  (∀ x, x ∈ names → d' !! x = d !! x) → flat_map (contents d') names = flat_map (contents d) names.
Proof.
  induction names as [|x names IH]; intros Heq; [done|]. simpl. unfold contents at 1 3.
  rewrite Heq by left. f_equal. apply IH. intros y Hy. apply Heq. by right.
Qed.

Lemma history_append hist written n s e m :
  history hist written n s →
  ∃ s', (append_message base e m;; modifyS (set_size (current_size_ s + String.length m))) s = (Done tt, s') ∧
    history hist (written ++ [m]) n s'.
Proof.
  intros [Ho (f & Hf & Hsz) Hnd Hnb Hth Hc Hw]. eexists. split; [by apply append_step|].
  split; simpl; try done.
  - eexists. rewrite lookup_insert_eq. split; [done|]. rewrite file_size_app. lia.
  - intros x Hx. rewrite lookup_insert_ne by (intros ->; done). by apply Hth.
  - by rewrite backups_base.
  - rewrite (flat_map_contents (dir s)).
    + unfold contents in *. rewrite lookup_insert_eq. rewrite <- Hw, Hf. simpl. by rewrite app_assoc.
    + intros x Hx. rewrite lookup_insert_ne; [done|]. by intros ->.
Qed.

Lemma history_rotate hist written n s e :
  history hist written n s → works e → name_at e ∉ hist → name_at e ≠ base → (S n ≤ max_files)%nat →
  ∃ s', rotate_ base proc max_files (get_timestamp localtime) std_sort e s = (Done tt, s') ∧
    history (hist ++ [name_at e]) written (S n) s' ∧ current_size_ s' = 0%nat.
Proof.
  intros [Ho (f & Hf & Hsz) Hnd Hnb Hth Hc Hw] He Hni Hne Hn. eexists.
  split; [by apply rotate_run|]. split; [|done].
  pose proof (backups_added (name_at e) f (dir s)) as Hadd.
  rewrite delete_oldest_few by (rewrite (sort_perm (sort := std_sort)); lia).
  split; simpl; try done.
  - eexists. by rewrite lookup_insert_eq.
  - apply NoDup_app. split; [done|]. split; [|apply NoDup_singleton]. intros x Hx ->%list_elem_of_singleton. done.
  - rewrite elem_of_app, list_elem_of_singleton. intros [?| ->]; done.
  - intros x [Hx| ->%list_elem_of_singleton]%elem_of_app.
    + assert (x ≠ base) by (intros ->; done). assert (x ≠ name_at e) by (intros ->; done).
      rewrite !lookup_insert_ne, lookup_delete_ne by done. by apply Hth.
    + rewrite lookup_insert_ne, lookup_insert_eq by done. by eexists.
  - rewrite backups_base by done. lia.
  - rewrite flat_map_app. simpl. rewrite (flat_map_contents (dir s)).
    + unfold contents in *. rewrite lookup_insert_ne, !lookup_insert_eq by done. simpl.
      rewrite Hf in Hw. simpl in Hw. by rewrite !app_nil_r.
    + intros x Hx. assert (x ≠ base) by (intros ->; done). assert (x ≠ name_at e) by (intros ->; done).
      by rewrite !lookup_insert_ne, lookup_delete_ne by done.
Qed.

Lemma history_write hist written n s e m :
  history hist written n s → works e → name_at e ∉ hist → name_at e ≠ base → (S n ≤ max_files)%nat →
  ∃ s' hist', write e m s = (Done tt, s') ∧ history hist' (written ++ [m]) (S n) s' ∧
    (hist' = hist ∨ hist' = hist ++ [name_at e]).
Proof.
  intros Hh He Hni Hne Hn.
  assert (history hist written (S n) s) as Hh' by (destruct Hh; split; try done; lia).
  pose proof (hist_opened _ _ _ _ Hh) as Ho. destruct (hist_base _ _ _ _ Hh) as (f & Hf & Hsz).
  destruct (history_append _ _ _ s e m Hh') as (s1 & Happ & Hs1).
  unfold sink_it_. erewrite prog_bind_eq by reflexivity.
  destruct (Nat.ltb_spec max_size (current_size_ s + String.length m)) as [Hlt|Hge].
  2: { erewrite prog_bind_eq by reflexivity. exists s1, hist. split; [exact Happ|]. by split; [|left]. }
  assert (base_size base s = (Done (file_size f), s)) as Hsize.
  { unfold base_size, mbind, prog_bind, getS. by rewrite Ho, Hf. }
  destruct (Nat.ltb_spec 0 (file_size f)) as [Hpos|Hz].
  - destruct (history_rotate hist written n s e) as (s2 & Hrot & Hs2 & Hz2); [done..|].
    destruct (history_append _ _ _ s2 e m Hs2) as (s3 & Happ3 & Hs3). rewrite Hz2 in Happ3.
    exists s3, (hist ++ [name_at e]). split; [|by split; [|right]].
    erewrite prog_bind_eq; [exact Happ3|].
    rewrite (prog_bind_eq _ _ _ _ _ Hsize). apply Nat.ltb_lt in Hpos. rewrite Hpos.
    by rewrite (prog_bind_eq _ _ _ _ _ Hrot).
  - exists s1, hist. split; [|by split; [|left]]. erewrite prog_bind_eq; [exact Happ|].
    rewrite (prog_bind_eq _ _ _ _ _ Hsize). apply Nat.ltb_ge in Hz. by rewrite Hz.
Qed.

Lemma history_writes msgs hist written n s :
  history hist written n s → (n + length msgs ≤ max_files)%nat →
  Forall (λ em, works em.1 ∧ name_at em.1 ≠ base ∧ name_at em.1 ∉ hist) msgs →
  NoDup ((λ em : sink_env * string, name_at em.1) <$> msgs) →
  ∃ s' hist', iterS msgs (λ em, write em.1 em.2) s = (Done tt, s') ∧
    history hist' (written ++ msgs.*2) (n + length msgs) s'.
Proof.
  intros Hh Hn Hall Hnd. revert hist written n s Hh Hn Hall.
  induction msgs as [|[e m] msgs IH]; intros hist written n s Hh Hn Hall.
  { exists s, hist. simpl. by rewrite app_nil_r, Nat.add_0_r. }
  apply Forall_cons in Hall as [(He & Hne & Hni) Hall]. rewrite fmap_cons in Hnd.
  apply NoDup_cons in Hnd as [Hx Hnd]. simpl in Hn.
  destruct (history_write hist written n s e m) as (s1 & hist1 & Hrun1 & Hh1 & Hcase); [done..|lia|].
  destruct (IH Hnd hist1 (written ++ [m]) (S n) s1) as (s2 & hist2 & Hrun2 & Hh2); [done|lia| |].
  - eapply Forall_impl; [apply Forall_and; split; [exact Hall|apply Forall_forall; intros y Hy; exact Hy]|].
    intros [e' m'] [(He' & Hne' & Hni') Hin]. simpl in *. split; [done|]. split; [done|].
    destruct Hcase as [->| ->]; [done|]. rewrite elem_of_app, list_elem_of_singleton. intros [?|Heq]; [done|].
    apply Hx. rewrite <- Heq. apply list_elem_of_fmap. by exists (e', m').
  - exists s2, hist2. erewrite iterS_cons; [|exact Hrun1]. split; [exact Hrun2|].
    rewrite fmap_cons. simpl. rewrite <- app_assoc in Hh2. simpl in Hh2. by rewrite Nat.add_succ_r.
Qed.

Lemma history_create e d :
  (0 < max_size)%nat → (max_files ≤ 200000)%nat →
  ∃ s, sink_create base proc max_size max_files (get_timestamp localtime) std_sort false e
         {| dir := d; opened := false; current_size_ := 0 |} = (Done tt, s) ∧
    history [] (contents d base) (length (backups proc d)) s.
Proof.
  intros Hpos Hmax. unfold sink_create. rewrite (proj2 (Nat.eqb_neq _ _)), (proj2 (Nat.ltb_ge _ _)) by lia.
  unfold open_base, base_size, mbind, prog_bind, modifyS, getS. simpl.
  eexists. split; [reflexivity|].
  destruct (d !! base) as [f|] eqn:Hf; split; simpl; unfold contents;
    rewrite ?backups_base, ?Hf, ?lookup_insert_eq by done; try done; try apply NoDup_nil_2; try set_solver; by eexists.
Qed.
End History.

(** ** Properties *)

(** C31: no message is lost: a log opened in any directory, then given messages in
    an environment that works, at pairwise different local seconds and with
    room for as many backups more, raises nothing, and the files that it has
    renamed followed by the log file contain exactly what the log file held at
    the start and then all messages, each once, in order, however many
    rotations there were. *)
Theorem log_complete base proc max_size max_files localtime std_sort `{!FileSort std_sort} e0 d msgs :
  let stamp := get_timestamp localtime in
  is_backup proc base = false → (0 < max_size)%nat → (max_files ≤ 200000)%nat →
  (length (backups proc d) + length msgs ≤ max_files)%nat →
  Forall (λ em, works em.1 ∧ tm_ok (localtime (now em.1)) ∧ backup_name proc stamp (now em.1) ≠ base) msgs →
  NoDup ((λ em : sink_env * string, localtime (now em.1)) <$> msgs) →
  ∃ s hist, (sink_create base proc max_size max_files stamp std_sort false e0;;
             iterS msgs (λ em, sink_it_ base proc max_size max_files stamp std_sort em.1 em.2))
      {| dir := d; opened := false; current_size_ := 0 |} = (Done tt, s) ∧
    NoDup hist ∧ base ∉ hist ∧
    flat_map (contents (dir s)) (hist ++ [base]) = contents d base ++ msgs.*2.
Proof.
  intros stamp Hb Hpos Hmax Hroom Hall Hnd.
  destruct (history_create base proc max_size max_files localtime std_sort Hb e0 d Hpos Hmax) as (s0 & Hc & Hh0).
  destruct (history_writes base proc max_size max_files localtime std_sort Hb msgs _ _ _ s0 Hh0 Hroom)
    as (s & hist & Hrun & Hh).
  - eapply Forall_impl; [exact Hall|]. intros [e m] (? & ? & ?). simpl. split_and!; [done..|]. by apply not_elem_of_nil.
  - apply NoDup_alt. intros i j x Hi Hj. rewrite list_lookup_fmap, fmap_Some in Hi, Hj.
    destruct Hi as ([e1 m1] & Hi & ->), Hj as ([e2 m2] & Hj & Heq).
    rewrite Forall_forall in Hall.
    destruct (Hall _ (list_elem_of_lookup_2 _ _ _ Hi)) as (_ & T1 & _), (Hall _ (list_elem_of_lookup_2 _ _ _ Hj)) as (_ & T2 & _).
    apply backup_name_inj in Heq; [|done..]. simpl in *.
    eapply NoDup_lookup; [exact Hnd| |]; rewrite list_lookup_fmap, fmap_Some; eexists; split; [exact Hi|done|exact Hj|done].
  - exists s, hist. rewrite (prog_bind_eq _ _ _ _ _ Hc). split; [exact Hrun|]. destruct Hh.
    split; [done|]. split; [done|]. rewrite flat_map_app. simpl. by rewrite app_nil_r.
Qed.

(** ** Witness: a clock of one day, and a limit of five bytes *)

Definition demo_localtime (t : Z) : tm :=
  {| tm_year := 125; tm_mon := 5; tm_mday := 8; tm_hour := 12; tm_min := 0; tm_sec := t mod 60 |}.

Definition demo_messages : list (sink_env * string) :=
  [(demo_env 1, "abc"); (demo_env 2, "defg"); (demo_env 3, "hi"); (demo_env 4, "jk")]%string.

Lemma log_complete_witness :
  ∃ s hist, (sink_create "app.log" "gw" 5 9 (get_timestamp demo_localtime) demo_file_sort false (demo_env 0);;
             iterS demo_messages (λ em, sink_it_ "app.log" "gw" 5 9 (get_timestamp demo_localtime) demo_file_sort em.1 em.2))
      {| dir := ∅; opened := false; current_size_ := 0 |} = (Done tt, s) ∧
    flat_map (contents (dir s)) (hist ++ ["app.log"%string]) = ["abc"; "defg"; "hi"; "jk"]%string.
Proof.
  destruct (@log_complete "app.log" "gw" 5 9 demo_localtime demo_file_sort demo_file_sort_ok (demo_env 0) ∅ demo_messages)
    as (s & hist & Hrun & _ & _ & Hf); [reflexivity|lia|apply Nat.leb_le; vm_compute; reflexivity|..].
  - unfold backups. rewrite map_to_list_empty. simpl. lia.
  - repeat (constructor; [split; [by split|]; split; [unfold tm_ok; vm_compute; intuition discriminate|discriminate]|]). constructor.
  - apply (bool_decide_unpack _). vm_compute. exact I.
  - exists s, hist. split; [exact Hrun|exact Hf].
Defined.
