(* ===== verification/Logger.v ===== *)
(** * The logger

    [LoggerImpl] of [common/log/logger_impl.cc] over spdlog: the creation of
    its sinks and of the registered logger, the levels, where a message goes
    and when it is flushed; and [LogStream] and [LogRateLimiter] of
    [common/log/logger.h].  A sink is shared by the implementation object and
    by the logger, so sinks are a store and the pointers to them are names.
    [LogSpec] is what a client may rely on, without sinks and pointers, and
    [logger_refines] shows that the implementation keeps it through any
    sequence of calls.  An asynchronous logger only queues a message; the
    threads of spdlog's pool take the messages out and give them to the sinks,
    one access after the other, so that the level of a sink is tested then.  (A
    caller waits while the queue is full, which is not a step.)  The
    environment variables, the number of processors
    and the creation of the file sink are parameters; the file sink itself is
    in [LogSink].  [LoggerConfig] is the configuration in JSON, which the
    program has but never reads. *)

From Stdlib Require Import ZArith String Lia.
From stdpp Require Import base tactics option list numbers strings gmap sorting.
From S2P Require Import Prelude Text.

(** [severity_level] and spdlog's [level_enum] number the levels alike. *)
#[local] Notation level := Z (only parsing).
Definition lv_trace : level := 0%Z.
Definition lv_err : level := 4%Z.

Inductive LoggerType : Type := both | console | file | other_type.

Inductive sink_kind : Type := ConsoleSink | FileSink.

#[export] Instance sink_kind_eq_dec : EqDecision sink_kind.
Proof. solve_decision. Defined.

(** What a sink is told to do, in order. *)
Inductive log_event : Type :=
| Wrote (k : sink_kind) (l : level) (msg : string)
| Flushed (k : sink_kind).

(** What a pool thread does for a message, sink by sink; a sink is known by
    [H]. *)
Inductive pool_op (H : Type) : Type :=
| PLog (h : H) (l : level) (msg : string)
| PFlush (h : H).
Arguments PLog {H} h l msg.
Arguments PFlush {H} h.

Record spd_logger := {
  lg_sinks : list nat;
  lg_level : level;
  lg_flush_on : level;
  lg_pattern : string;
  lg_async : bool
}.

Record LoggerImpl := {
  logger_ : option spd_logger;
  console_sink_ : option nat;
  file_sink_ : option nat;
  flushEvery_ : Z;                        (* uint32_t *)
  logBufferSize_ : option Z;              (* [None]: never initialised *)
  flushOnLevel_ : level;
  sink_store : gmap nat (sink_kind * level);
  next_sink : nat;
  registered : bool;                      (* the name "Logger" in spdlog *)
  periodic_flush : option Z;              (* the interval of [spdlog::flush_every] *)
  pool : list (list (pool_op nat));       (* the messages not done, oldest first *)
  emitted : list log_event
}.

Definition LoggerImpl_new : LoggerImpl :=
  {| logger_ := None; console_sink_ := None; file_sink_ := None; flushEvery_ := 0;
     logBufferSize_ := None; flushOnLevel_ := lv_err; sink_store := ∅; next_sink := 0;
     registered := false; periodic_flush := None; pool := []; emitted := [] |}.

Definition set_logger (l : option spd_logger) (r : bool) (s : LoggerImpl) : LoggerImpl :=
  {| logger_ := l; console_sink_ := console_sink_ s; file_sink_ := file_sink_ s;
     flushEvery_ := flushEvery_ s; logBufferSize_ := logBufferSize_ s; flushOnLevel_ := flushOnLevel_ s;
     sink_store := sink_store s; next_sink := next_sink s; registered := r;
     periodic_flush := periodic_flush s; pool := pool s; emitted := emitted s |}.
Definition set_sinks (c f : option nat) (st : gmap nat (sink_kind * level)) (n : nat) (s : LoggerImpl)
    : LoggerImpl :=
  {| logger_ := logger_ s; console_sink_ := c; file_sink_ := f;
     flushEvery_ := flushEvery_ s; logBufferSize_ := logBufferSize_ s; flushOnLevel_ := flushOnLevel_ s;
     sink_store := st; next_sink := n; registered := registered s;
     periodic_flush := periodic_flush s; pool := pool s; emitted := emitted s |}.
Definition set_config (e : Z) (b : option Z) (l : level) (s : LoggerImpl) : LoggerImpl :=
  {| logger_ := logger_ s; console_sink_ := console_sink_ s; file_sink_ := file_sink_ s;
     flushEvery_ := e; logBufferSize_ := b; flushOnLevel_ := l;
     sink_store := sink_store s; next_sink := next_sink s; registered := registered s;
     periodic_flush := periodic_flush s; pool := pool s; emitted := emitted s |}.
Definition set_periodic (p : option Z) (s : LoggerImpl) : LoggerImpl :=
  {| logger_ := logger_ s; console_sink_ := console_sink_ s; file_sink_ := file_sink_ s;
     flushEvery_ := flushEvery_ s; logBufferSize_ := logBufferSize_ s; flushOnLevel_ := flushOnLevel_ s;
     sink_store := sink_store s; next_sink := next_sink s; registered := registered s;
     periodic_flush := p; pool := pool s; emitted := emitted s |}.
Definition set_emitted (l : list log_event) (s : LoggerImpl) : LoggerImpl :=
  {| logger_ := logger_ s; console_sink_ := console_sink_ s; file_sink_ := file_sink_ s;
     flushEvery_ := flushEvery_ s; logBufferSize_ := logBufferSize_ s; flushOnLevel_ := flushOnLevel_ s;
     sink_store := sink_store s; next_sink := next_sink s; registered := registered s;
     periodic_flush := periodic_flush s; pool := pool s; emitted := l |}.
Definition set_pool (q : list (list (pool_op nat))) (s : LoggerImpl) : LoggerImpl :=
  {| logger_ := logger_ s; console_sink_ := console_sink_ s; file_sink_ := file_sink_ s;
     flushEvery_ := flushEvery_ s; logBufferSize_ := logBufferSize_ s; flushOnLevel_ := flushOnLevel_ s;
     sink_store := sink_store s; next_sink := next_sink s; registered := registered s;
     periodic_flush := periodic_flush s; pool := q; emitted := emitted s |}.

(** [set_pattern("...")] of [Init]. *)
Definition default_pattern : string := "[%Y-%m-%d %H:%M:%S.%e] [%^%l%$] [%t] [%s:%# %!] %v".

Section Impl.
Context (getenv : string → option string) (from_str : string → level).
Context (hardware_concurrency : Z).
(** The exception of the constructor of the file sink, if any. *)
Context (file_sink_fails : string → Z → Z → option exn).

Definition GetLogLevelFromEnv (env_var : string) (default_level : level) : level :=
  match getenv env_var with None => default_level | Some v => from_str v end.

(** *** Initialisation *)

Definition make_console (l : level) : prog LoggerImpl nat := λ s,
  (Done (next_sink s),
   set_sinks (Some (next_sink s)) (file_sink_ s)
     (<[next_sink s := (ConsoleSink, l)]> (sink_store s)) (S (next_sink s)) s).

Definition make_file (fileName : string) (max_file_size maxBackupIndex : Z) (l : level)
    : prog LoggerImpl nat := λ s,
  match file_sink_fails fileName max_file_size (wrap_u 64 maxBackupIndex) with
  | Some e => (Threw e, s)
  | None =>
      (Done (next_sink s),
       set_sinks (console_sink_ s) (Some (next_sink s))
         (<[next_sink s := (FileSink, l)]> (sink_store s)) (S (next_sink s)) s)
  end.

(** The switch on the type: the sinks of the logger, in order. *)
Definition make_sinks (fileName : string) (type : LoggerType) (max_file_size maxBackupIndex : Z)
    (console_level file_level : level) : prog LoggerImpl (list nat) :=
  match type with
  | both =>
      c ← make_console console_level;
      f ← make_file fileName max_file_size maxBackupIndex file_level;
      mret [f; c]
  | file => f ← make_file fileName max_file_size maxBackupIndex file_level; mret [f]
  | console | other_type => c ← make_console console_level; mret [c]
  end.

(** [spdlog::init_thread_pool(logBufferSize_, hardware_concurrency() / 4)]. *)
Definition init_thread_pool : prog LoggerImpl unit :=
  s ← getS;
  match logBufferSize_ s with
  | None => undefS "logBufferSize_ is not initialised"
  | Some _ =>
      let threads := (hardware_concurrency / 4)%Z in
      if (threads =? 0)%Z || (1000 <? threads)%Z
      then throwS (SpdlogEx "invalid threads_n param") else mret tt
  end.

(** The size in megabytes is multiplied as an [int]. *)
Definition max_file_size_of (maxFileSize : Z) : outcome Z :=
  if ((- 2 ^ 31 <=? 1048576 * maxFileSize) && (1048576 * maxFileSize <? 2 ^ 31))%Z
  then Done (wrap_u 64 (1048576 * maxFileSize)) else Undef "signed overflow".

Definition Init (fileName : string) (type : LoggerType) (l : level) (maxFileSize maxBackupIndex : Z)
    (isAsync : bool) : prog LoggerImpl bool :=
  max_file_size ← liftO (max_file_size_of maxFileSize);
  sinks ← make_sinks fileName type max_file_size maxBackupIndex
            (GetLogLevelFromEnv "LOG_CONSOLE_LEVEL" l) (GetLogLevelFromEnv "LOG_FILE_LEVEL" l);
  match sinks with
  | [] => mret false
  | _ =>
      (if isAsync then init_thread_pool else mret tt);;
      modifyS (λ s, set_logger (Some {| lg_sinks := sinks; lg_level := lv_trace;
                                        lg_flush_on := flushOnLevel_ s;
                                        lg_pattern := default_pattern; lg_async := isAsync |})
                      (registered s) s);;
      modifyS (λ s, set_periodic (if (0 <? flushEvery_ s)%Z then Some (flushEvery_ s)
                                  else periodic_flush s) s);;
      s ← getS;
      if registered s then throwS (SpdlogEx "logger with name 'Logger' already exists")
      else modifyS (set_logger (logger_ s) true);; mret true
  end.
End Impl.

(** The overload on a configuration file declares a function instead of
    reading the file. *)
Definition Init_json (logConfigFilePath : string) : prog LoggerImpl bool := mret true.

(** The sinks of a logger, as they are now. *)
Definition sinks_of (s : LoggerImpl) (lg : spd_logger) : list (sink_kind * level) :=
  omap (λ h, sink_store s !! h) (lg_sinks lg).

Definition flush_events (sinks : list (sink_kind * level)) : list log_event :=
  (λ p, Flushed p.1) <$> sinks.

(** [should_flush_]: [lv_off] is the level that never flushes. *)
Definition lv_off : level := 6%Z.
Definition should_flush (l lg_flush_on : level) : bool := (lg_flush_on <=? l)%Z && negb (l =? lv_off)%Z.

(** spdlog's [log]: the level of the logger, then the one of each sink; then
    the flush, if the message is of the flush level. *)
Definition log_events (l : level) (msg : string) (lg_level lg_flush_on : level)
    (sinks : list (sink_kind * level)) : list log_event :=
  if (l <? lg_level)%Z then []
  else flat_map (λ p, if (l <? p.2)%Z then [] else [Wrote p.1 l msg]) sinks ++
       (if should_flush l lg_flush_on then flush_events sinks else []).

(** *** The thread pool *)

(** The messages that an asynchronous logger posts. *)
Definition message_ops {H} (l : level) (msg : string) (lg_flush_on : level) (sinks : list H)
    : list (pool_op H) :=
  ((λ h, PLog h l msg) <$> sinks) ++ (if should_flush l lg_flush_on then PFlush <$> sinks else []).
Definition flush_ops {H} (sinks : list H) : list (pool_op H) := PFlush <$> sinks.

(** The events of an access, with the level that the sink has now. *)
Definition op_events {H} (sink : H → option (sink_kind * level)) (op : pool_op H) : list log_event :=
  match op with
  | PLog h l msg =>
      match sink h with
      | Some (k, lv) => if (l <? lv)%Z then [] else [Wrote k l msg]
      | None => []
      end
  | PFlush h => match sink h with Some (k, _) => [Flushed k] | None => [] end
  end.

(** The next access of the [i]-th message not done, for one of [n] threads: they
    take the messages in the order of the queue. *)
Definition next_op {H} (n i : nat) (q : list (list (pool_op H))) : option (pool_op H * list (list (pool_op H))) :=
  if (i <? n)%nat then
    match q !! i with
    | Some (op :: []) => Some (op, delete i q)
    | Some (op :: ops) => Some (op, <[i := ops]> q)
    | _ => None
    end
  else None.

Definition post (ops : list (pool_op nat)) (s : LoggerImpl) : LoggerImpl := set_pool (pool s ++ [ops]) s.

Definition flush_logger (lg : spd_logger) (s : LoggerImpl) : LoggerImpl :=
  if lg_async lg then post (flush_ops (lg_sinks lg)) s
  else set_emitted (emitted s ++ flush_events (sinks_of s lg)) s.

Definition log (l : level) (msg : string) : prog LoggerImpl unit :=
  modifyS (λ s,
    match logger_ s with
    | None => s
    | Some lg =>
        if lg_async lg then
          if (l <? lg_level lg)%Z then s else post (message_ops l msg (lg_flush_on lg) (lg_sinks lg)) s
        else set_emitted (emitted s ++
               log_events l msg (lg_level lg) (lg_flush_on lg) (sinks_of s lg)) s
    end).

(** The periodic flusher of spdlog: every registered logger is flushed. *)
Definition flusher_tick : prog LoggerImpl unit :=
  modifyS (λ s,
    match periodic_flush s, logger_ s with
    | Some _, Some lg => if registered s then flush_logger lg s else s
    | _, _ => s
    end).

Section Pool.
Context (hardware_concurrency : Z).

Definition threads : nat := Z.to_nat (hardware_concurrency / 4).

Definition pool_step (i : nat) : prog LoggerImpl unit :=
  modifyS (λ s,
    match next_op threads i (pool s) with
    | Some (op, q) => set_emitted (emitted s ++ op_events (λ h, sink_store s !! h) op) (set_pool q s)
    | None => s
    end).

(** The pool is destroyed: its threads do what there is, in the order [order]
    as far as it goes, and are joined. *)
Definition pool_join (order : list nat) : prog LoggerImpl unit :=
  iterS order pool_step;;
  modifyS (λ s, set_emitted (emitted s ++ flat_map (op_events (λ h, sink_store s !! h)) (concat (pool s)))
                  (set_pool [] s)).

(** [spdlog::shutdown] ends the periodic flush, drops every registered logger
    and destroys the pool. *)
Definition Uinit (order : list nat) : prog LoggerImpl unit :=
  modifyS (λ s,
    match logger_ s with
    | None => s
    | Some lg => set_logger None false (flush_logger lg s)
    end);;
  modifyS (λ s, set_periodic None (set_logger (logger_ s) false s));;
  pool_join order.
End Pool.

Definition setFlushEvery (flushEvery : Z) : prog LoggerImpl unit :=
  modifyS (λ s, if (0 <? flushEvery)%Z then set_config flushEvery (logBufferSize_ s) (flushOnLevel_ s) s else s).
Definition setFlushOnLevel (l : level) : prog LoggerImpl unit :=
  modifyS (λ s, set_config (flushEvery_ s) (logBufferSize_ s) l s).
Definition setLogBufferSize (size : Z) : prog LoggerImpl unit :=
  modifyS (λ s, set_config (flushEvery_ s) (Some size) (flushOnLevel_ s) s).
Definition setLogLevel (l : level) : prog LoggerImpl unit :=
  modifyS (λ s, match logger_ s with
                | None => s
                | Some lg => set_logger (Some {| lg_sinks := lg_sinks lg; lg_level := l;
                    lg_flush_on := lg_flush_on lg; lg_pattern := lg_pattern lg;
                    lg_async := lg_async lg |}) (registered s) s
                end).
Definition setLogPattern (pattern : string) : prog LoggerImpl unit :=
  modifyS (λ s, match logger_ s with
                | None => s
                | Some lg => set_logger (Some {| lg_sinks := lg_sinks lg; lg_level := lg_level lg;
                    lg_flush_on := lg_flush_on lg; lg_pattern := pattern;
                    lg_async := lg_async lg |}) (registered s) s
                end).

(** [sink->set_level(level)] through one of the two pointers. *)
Definition set_sink_level (h : option nat) (l : level) (s : LoggerImpl) : LoggerImpl :=
  match h with
  | None => s
  | Some h => set_sinks (console_sink_ s) (file_sink_ s) (alter (λ p, (p.1, l)) h (sink_store s)) (next_sink s) s
  end.
Definition setLogConsoleLevel (l : level) : prog LoggerImpl unit :=
  modifyS (λ s, set_sink_level (console_sink_ s) l s).
Definition setLogFileLevel (l : level) : prog LoggerImpl unit :=
  modifyS (λ s, set_sink_level (file_sink_ s) l s).

(** A call through the facade [Logger] (each one only forwards), a step of a
    thread of the pool, a tick of the periodic flusher. *)
Inductive call : Type :=
| CInit (fileName : string) (type : LoggerType) (l : level) (maxFileSize maxBackupIndex : Z) (isAsync : bool)
| CUinit (order : list nat)
| CLog (l : level) (msg : string)
| CFlushEvery (n : Z)
| CFlushOnLevel (l : level)
| CLogLevel (l : level)
| CLogPattern (pattern : string)
| CConsoleLevel (l : level)
| CFileLevel (l : level)
| CBufferSize (n : Z)
| CPool (i : nat)
| CTick.

Section Calls.
Context (getenv : string → option string) (from_str : string → level).
Context (hardware_concurrency : Z) (file_sink_fails : string → Z → Z → option exn).

Definition forward (c : call) : prog LoggerImpl unit :=
  match c with
  | CInit fileName type l size backups isAsync =>
      Init getenv from_str hardware_concurrency file_sink_fails fileName type l size backups isAsync;; mret tt
  | CUinit order => Uinit hardware_concurrency order
  | CLog l msg => log l msg
  | CFlushEvery n => setFlushEvery n
  | CFlushOnLevel l => setFlushOnLevel l
  | CLogLevel l => setLogLevel l
  | CLogPattern p => setLogPattern p
  | CConsoleLevel l => setLogConsoleLevel l
  | CFileLevel l => setLogFileLevel l
  | CBufferSize n => setLogBufferSize n
  | CPool i => pool_step hardware_concurrency i
  | CTick => flusher_tick
  end.
End Calls.

(** [LOG(level) << p1 << p2 ..;]: the destructor of the temporary [LogStream]
    logs what was streamed. *)
Definition LogStream (l : level) (pieces : list string) : prog LoggerImpl unit :=
  log l (String.concat "" pieces).

(** ** The rate limiter *)

(** Times are [steady_clock] ticks (nanoseconds); the state is the map of the
    calling thread. *)
Definition shouldLog (key : string) (interval_ms : Z) (now : Z) : prog (gmap string Z) bool := λ m,
  let due := match m !! key with
             | None => true
             | Some t => (interval_ms <=? Z.quot (now - t) 1000000)%Z
             end in
  if due then (Done true, <[key := now]> m) else (Done false, m).

(** [LOG_TIME(level, interval_ms) << p1 << p2 ..;] in a file, at a line. *)
Definition line_key (file : string) (line : Z) : string := file +:+ ":" +:+ dec line.

Definition LOG_TIME (l : level) (interval_ms : Z) (file : string) (line now : Z) (pieces : list string)
    : prog (gmap string Z * LoggerImpl) unit := λ '(m, s),
  match shouldLog (line_key file line) interval_ms now m with
  | (Done true, m') => let '(o, s') := LogStream l pieces s in (o, (m', s'))
  | (Done false, m') => (Done tt, (m', s))
  | (Threw e, m') => (Threw e, (m', s))
  | (Undef w, m') => (Undef w, (m', s))
  end.

(** The calls of one [LOG_TIME] line: at most one message per interval. *)
Fixpoint accepted (key : string) (interval_ms : Z) (times : list Z) (m : gmap string Z) : list Z :=
  match times with
  | [] => []
  | t :: times' =>
      match shouldLog key interval_ms t m with
      | (Done true, m') => t :: accepted key interval_ms times' m'
      | (_, m') => accepted key interval_ms times' m'
      end
  end.

(** Which sinks a type has. *)
Definition has_console (t : LoggerType) : bool := match t with file => false | _ => true end.
Definition has_file (t : LoggerType) : bool := match t with both | file => true | _ => false end.

(** ** What a client sees of the logger *)

Module LogSpec.
(** The logger that is on: its type, the levels of its sinks, its own. *)
Record on_logger := {
  on_type : LoggerType;
  on_console : level;
  on_file : level;
  on_level : level;
  on_flush : level;
  on_pattern : string;
  on_async : bool
}.

Record state := {
  flush_every : Z;
  buffer_size : option Z;
  flush_level : level;
  current : option on_logger;
  periodic : option Z;
  waiting : list (list (pool_op sink_kind));   (* messages not done, oldest first *)
  events : list log_event
}.

Definition initial : state :=
  {| flush_every := 0; buffer_size := None; flush_level := lv_err; current := None;
     periodic := None; waiting := []; events := [] |}.

Definition set_current (o : option on_logger) (p : option Z) (a : state) : state :=
  {| flush_every := flush_every a; buffer_size := buffer_size a; flush_level := flush_level a;
     current := o; periodic := p; waiting := waiting a; events := events a |}.
Definition set_defaults (e : Z) (b : option Z) (l : level) (a : state) : state :=
  {| flush_every := e; buffer_size := b; flush_level := l; current := current a;
     periodic := periodic a; waiting := waiting a; events := events a |}.
Definition say (es : list log_event) (a : state) : state :=
  {| flush_every := flush_every a; buffer_size := buffer_size a; flush_level := flush_level a;
     current := current a; periodic := periodic a; waiting := waiting a; events := events a ++ es |}.
Definition wait (q : list (list (pool_op sink_kind))) (a : state) : state :=
  {| flush_every := flush_every a; buffer_size := buffer_size a; flush_level := flush_level a;
     current := current a; periodic := periodic a; waiting := q; events := events a |}.

(** The sinks of a type: the file first. *)
Definition sinks (g : on_logger) : list (sink_kind * level) :=
  (if has_file (on_type g) then [(FileSink, on_file g)] else []) ++
  (if has_console (on_type g) then [(ConsoleSink, on_console g)] else []).

(** A sink with its level now. *)
Definition sink_now (g : on_logger) (k : sink_kind) : option (sink_kind * level) :=
  Some (k, match k with ConsoleSink => on_console g | FileSink => on_file g end).

(** A flush, and a message: at once, or put in the queue. *)
Definition flush_on (g : on_logger) (a : state) : state :=
  if on_async g then wait (waiting a ++ [flush_ops (sinks g).*1]) a else say (flush_events (sinks g)) a.
Definition log_on (l : level) (msg : string) (g : on_logger) (a : state) : state :=
  if on_async g then
    if (l <? on_level g)%Z then a else wait (waiting a ++ [message_ops l msg (on_flush g) (sinks g).*1]) a
  else say (log_events l msg (on_level g) (on_flush g) (sinks g)) a.

(** One access of a pool thread. *)
Definition pool_on (n i : nat) (g : on_logger) (a : state) : state :=
  match next_op n i (waiting a) with
  | Some (op, q) => say (op_events (sink_now g) op) (wait q a)
  | None => a
  end.

Definition finish_on (n : nat) (order : list nat) (g : on_logger) (a : state) : state :=
  let a := foldl (λ a i, pool_on n i g a) a order in
  say (flat_map (op_events (sink_now g)) (concat (waiting a))) (wait [] a).

(** A change of the logger that is on; nothing if it is off. *)
Definition on_current (f : on_logger → on_logger) : prog state unit :=
  modifyS (λ a, set_current (f <$> current a) (periodic a) a).

Section Spec.
Context (getenv : string → option string) (from_str : string → level).
Context (cores : Z) (fails : string → Z → Z → option exn).

(** Can the logger be created? *)
Definition creation (fileName : string) (type : LoggerType) (size backups : Z) (isAsync : bool) (a : state)
    : outcome unit :=
  bytes ← max_file_size_of size;
  match (if has_file type then fails fileName bytes (wrap_u 64 backups) else None) with
  | Some e => Threw e
  | None =>
      if isAsync then
        match buffer_size a with
        | None => Undef "logBufferSize_ is not initialised"
        | Some _ => if (4 <=? cores)%Z && (cores <? 4004)%Z then mret tt
                    else Threw (SpdlogEx "invalid threads_n param")
        end
      else mret tt
  end.

Definition step (c : call) : prog state unit :=
  match c with
  | CInit fileName type l size backups isAsync =>
      a ← getS;
      liftO (creation fileName type size backups isAsync a);;
      modifyS (set_current
        (Some {| on_type := type;
                 on_console := GetLogLevelFromEnv getenv from_str "LOG_CONSOLE_LEVEL" l;
                 on_file := GetLogLevelFromEnv getenv from_str "LOG_FILE_LEVEL" l;
                 on_level := lv_trace; on_flush := flush_level a;
                 on_pattern := default_pattern; on_async := isAsync |})
        (if (0 <? flush_every a)%Z then Some (flush_every a) else periodic a))
  | CUinit order =>
      modifyS (λ a, set_current None None
        match current a with
        | Some g => finish_on (threads cores) order g (flush_on g a)
        | None => a
        end)
  | CLog l msg => modifyS (λ a, match current a with None => a | Some g => log_on l msg g a end)
  | CPool i => modifyS (λ a, match current a with None => a | Some g => pool_on (threads cores) i g a end)
  | CTick => modifyS (λ a, match periodic a, current a with Some _, Some g => flush_on g a | _, _ => a end)
  | CFlushEvery n =>
      modifyS (λ a, if (0 <? n)%Z then set_defaults n (buffer_size a) (flush_level a) a else a)
  | CFlushOnLevel l => modifyS (λ a, set_defaults (flush_every a) (buffer_size a) l a)
  | CBufferSize n => modifyS (λ a, set_defaults (flush_every a) (Some n) (flush_level a) a)
  | CLogLevel l => on_current (λ g,
      {| on_type := on_type g; on_console := on_console g; on_file := on_file g; on_level := l;
         on_flush := on_flush g; on_pattern := on_pattern g; on_async := on_async g |})
  | CLogPattern p => on_current (λ g,
      {| on_type := on_type g; on_console := on_console g; on_file := on_file g; on_level := on_level g;
         on_flush := on_flush g; on_pattern := p; on_async := on_async g |})
  | CConsoleLevel l => on_current (λ g,
      {| on_type := on_type g; on_console := l; on_file := on_file g; on_level := on_level g;
         on_flush := on_flush g; on_pattern := on_pattern g; on_async := on_async g |})
  | CFileLevel l => on_current (λ g,
      {| on_type := on_type g; on_console := on_console g; on_file := l; on_level := on_level g;
         on_flush := on_flush g; on_pattern := on_pattern g; on_async := on_async g |})
  end.

(** The client's duty: no second [Init] without [Uinit]. *)
Definition allowed (c : call) (a : state) : Prop :=
  match c with CInit _ _ _ _ _ _ => current a = None | _ => True end.
End Spec.
End LogSpec.

(** Calls one after the other, each with its outcome: a caller may go on after
    an exception. *)
Fixpoint run_calls {S} (step : call → prog S unit) (cs : list call) (s : S) : list (outcome unit) * S :=
  match cs with
  | [] => ([], s)
  | c :: cs' =>
      let '(o, s1) := step c s in
      let '(os, s2) := run_calls step cs' s1 in (o :: os, s2)
  end.

Fixpoint all_allowed (step : call → prog LogSpec.state unit) (cs : list call) (a : LogSpec.state) : Prop :=
  match cs with
  | [] => True
  | c :: cs' => LogSpec.allowed c a ∧ all_allowed step cs' (step c a).2
  end.

(** ** Lemmas *)

Ltac log_unfold :=
  unfold Init, make_sinks, make_console, make_file, setLogConsoleLevel, setLogFileLevel, setLogLevel,
    log, liftO, mbind, prog_bind, mret, prog_ret, modifyS, getS, throwS in *.

Lemma max_file_size_ok n : (0 ≤ n < 2048)%Z → max_file_size_of n = Done (1048576 * n)%Z.
Proof.
  intros Hn. unfold max_file_size_of.
  replace (_ && _) with true by (symmetry; apply andb_true_intro; split; [apply Z.leb_le|apply Z.ltb_lt]; lia).
  rewrite wrap_u_id; [done|]. unfold in_u. lia.
Qed.

Lemma max_file_size_overflow n : (2048 ≤ n)%Z → max_file_size_of n = Undef "signed overflow".
Proof.
  intros Hn. unfold max_file_size_of.
  by replace (_ && _) with false by (symmetry; apply andb_false_intro2, Z.ltb_ge; lia).
Qed.

Lemma accepted_after key i times m t0 :
  (0 ≤ i)%Z → m !! key = Some t0 → StronglySorted Z.le (t0 :: times) →
  Forall (λ t, (t0 + 1000000 * i ≤ t)%Z) (accepted key i times m) ∧
  StronglySorted (λ a b, (a + 1000000 * i ≤ b)%Z) (accepted key i times m).
Proof.
  intros Hi. revert m t0. induction times as [|t times IH]; intros m t0 Hm Hs; simpl.
  { split; constructor. }
  apply StronglySorted_inv in Hs as [Hs Hle]. apply Forall_cons in Hle as [Ht Hle].
  unfold shouldLog. rewrite Hm. destruct (Z.leb_spec i (Z.quot (t - t0) 1000000)) as [Hd|Hd].
  - destruct (IH (<[key := t]> m) t (lookup_insert_eq _ _ _) Hs) as [Hall Hsorted].
    assert (t0 + 1000000 * i ≤ t)%Z as Hgap.
    { pose proof (Z.mul_quot_le (t - t0) 1000000 ltac:(lia) ltac:(lia)). nia. }
    split.
    + constructor; [done|]. eapply Forall_impl; [exact Hall|]. simpl. intros. nia.
    + by constructor.
  - apply (IH m t0 Hm). constructor; [by apply StronglySorted_inv in Hs as [? _]|done].
Qed.

(** *** The implementation against what a client sees *)

(** The two sinks by their kind. *)
Definition has (k : sink_kind) (t : LoggerType) : bool :=
  match k with ConsoleSink => has_console t | FileSink => has_file t end.
Definition pointer (k : sink_kind) (s : LoggerImpl) : option nat :=
  match k with ConsoleSink => console_sink_ s | FileSink => file_sink_ s end.
Definition on_sink (k : sink_kind) (g : LogSpec.on_logger) : level :=
  match k with ConsoleSink => LogSpec.on_console g | FileSink => LogSpec.on_file g end.

(** An access, the sink known otherwise. *)
Definition op_map {H K} (f : H → K) (op : pool_op H) : pool_op K :=
  match op with PLog h l msg => PLog (f h) l msg | PFlush h => PFlush (f h) end.
Definition ops_map {H K} (f : H → K) (ops : list (pool_op H)) : list (pool_op K) := op_map f <$> ops.
Definition op_sink {H} (op : pool_op H) : H := match op with PLog h _ _ | PFlush h => h end.

(** The messages not done, [h] being the sinks. *)
Definition same_pool (h : sink_kind → nat) (type : LoggerType) (p : list (list (pool_op nat)))
    (q : list (list (pool_op sink_kind))) : Prop :=
  p = ops_map h <$> q ∧ Forall (Forall (λ op, has (op_sink op) type = true)) q.

(** The logger that is on against the implementation's: its sinks are the ones
    that the pointers name, with the levels of the specification, and those of
    the messages that wait. *)
Definition same_logger (s : LoggerImpl) (lg : spd_logger) (g : LogSpec.on_logger)
    (q : list (list (pool_op sink_kind))) : Prop :=
  lg_level lg = LogSpec.on_level g ∧ lg_flush_on lg = LogSpec.on_flush g ∧
  lg_pattern lg = LogSpec.on_pattern g ∧ lg_async lg = LogSpec.on_async g ∧
  ∃ h : sink_kind → nat,
    lg_sinks lg = h <$> (LogSpec.sinks g).*1 ∧
    same_pool h (LogSpec.on_type g) (pool s) q ∧
    ∀ k, has k (LogSpec.on_type g) = true →
      pointer k s = Some (h k) ∧ sink_store s !! h k = Some (k, on_sink k g).

Definition same_state (o : option spd_logger) (s : LoggerImpl) (a : LogSpec.state) : Prop :=
  match o, LogSpec.current a with
  | None, None => pool s = [] ∧ LogSpec.waiting a = []
  | Some lg, Some g => same_logger s lg g (LogSpec.waiting a)
  | _, _ => False
  end.

(** Pointers name sinks of their kind, and the next name is fresh. *)
Definition pointers_ok (s : LoggerImpl) : Prop :=
  (∀ k h, pointer k s = Some h → ∃ l, sink_store s !! h = Some (k, l)) ∧
  ∀ h, (next_sink s ≤ h)%nat → sink_store s !! h = None.

Record log_sim (s : LoggerImpl) (a : LogSpec.state) : Prop := {
  sim_flush_every : flushEvery_ s = LogSpec.flush_every a;
  sim_buffer : logBufferSize_ s = LogSpec.buffer_size a;
  sim_flush : flushOnLevel_ s = LogSpec.flush_level a;
  sim_periodic : periodic_flush s = LogSpec.periodic a;
  sim_events : emitted s = LogSpec.events a;
  sim_registered : registered s = bool_decide (is_Some (LogSpec.current a));
  sim_pointers : pointers_ok s;
  sim_current : same_state (logger_ s) s a
}.

Lemma sim_initial : log_sim LoggerImpl_new LogSpec.initial.
Proof. split; try done. split; [by intros [] h|done]. Qed.

Lemma sinks_kinds g :
  (LogSpec.sinks g).*1 = (if has_file (LogSpec.on_type g) then [FileSink] else []) ++
                         (if has_console (LogSpec.on_type g) then [ConsoleSink] else []).
Proof. unfold LogSpec.sinks. by destruct (has_file _), (has_console _). Qed.

Lemma sinks_has g k : k ∈ (LogSpec.sinks g).*1 → has k (LogSpec.on_type g) = true.
Proof.
  rewrite sinks_kinds. destruct k; simpl; destruct (has_file _) eqn:Hf, (has_console _) eqn:Hc; simpl;
    intros Hin; try done; repeat (apply elem_of_cons in Hin as [Hin|Hin]; [done|]);
    by apply elem_of_nil in Hin.
Qed.

Lemma sinks_of_sim s lg g q : same_logger s lg g q → sinks_of s lg = LogSpec.sinks g.
Proof.
  intros (_ & _ & _ & _ & h & Hs & _ & Hk). unfold sinks_of. rewrite Hs, sinks_kinds. unfold LogSpec.sinks.
  pose proof (Hk FileSink) as Hf. pose proof (Hk ConsoleSink) as Hc. simpl in Hf, Hc.
  destruct (has_file (LogSpec.on_type g)), (has_console (LogSpec.on_type g)); simpl;
    rewrite ?(proj2 (Hf eq_refl)), ?(proj2 (Hc eq_refl)); done.
Qed.

(** Both sides, with the logger on or off. *)
Lemma sim_cases s a : log_sim s a →
  (∃ lg g, logger_ s = Some lg ∧ LogSpec.current a = Some g ∧ same_logger s lg g (LogSpec.waiting a)) ∨
  (logger_ s = None ∧ LogSpec.current a = None ∧ pool s = [] ∧ LogSpec.waiting a = []).
Proof.
  intros Hs. pose proof (sim_current _ _ Hs) as Hcur. unfold same_state in Hcur.
  destruct (logger_ s) as [lg|], (LogSpec.current a) as [g|]; try done; [left; by exists lg, g|right; done].
Qed.

(** A field of the logger that is on, and of the implementation's. *)
Lemma sim_on_logger s a f (lf : spd_logger → spd_logger) :
  log_sim s a →
  (∀ lg g q, same_logger s lg g q → same_logger s (lf lg) (f g) q) →
  log_sim (match logger_ s with
           | None => s
           | Some lg => set_logger (Some (lf lg)) (registered s) s
           end)
    (LogSpec.set_current (f <$> LogSpec.current a) (LogSpec.periodic a) a).
Proof.
  intros Hs Hlf. destruct (sim_cases s a Hs) as [(lg & g & Hlg & Hg & Hsame)|(Hlg & Hg & Hp & Hq)];
    destruct Hs as [He Hb Hf Hp' Hev Hr Hpt Hcur]; rewrite Hlg, Hg in *; simpl.
  - split; simpl; try done. exact (Hlf _ _ _ Hsame).
  - split; simpl; unfold same_state; simpl; rewrite ?Hlg; done.
Qed.

Definition set_on_sink (k : sink_kind) (l : level) (g : LogSpec.on_logger) : LogSpec.on_logger :=
  {| LogSpec.on_type := LogSpec.on_type g;
     LogSpec.on_console := match k with ConsoleSink => l | FileSink => LogSpec.on_console g end;
     LogSpec.on_file := match k with FileSink => l | ConsoleSink => LogSpec.on_file g end;
     LogSpec.on_level := LogSpec.on_level g; LogSpec.on_flush := LogSpec.on_flush g;
     LogSpec.on_pattern := LogSpec.on_pattern g; LogSpec.on_async := LogSpec.on_async g |}.

(** Setting the level of a sink through its pointer, which may be stale: then
    the logger that is on has no sink of this kind. *)
Lemma sim_sink_level k l s a :
  log_sim s a →
  log_sim (set_sink_level (pointer k s) l s)
    (LogSpec.set_current (set_on_sink k l <$> LogSpec.current a) (LogSpec.periodic a) a).
Proof.
  intros [He Hb Hf Hp Hev Hr [Hpt Hfresh] Hcur].
  assert (Hkeep : ∀ k' h l', sink_store s !! h = Some (k', l') →
    ∃ l'', sink_store (set_sink_level (pointer k s) l s) !! h = Some (k', l'')).
  { intros k' h l' Hh. unfold set_sink_level. destruct (pointer k s) as [h'|]; simpl; [|by eexists].
    destruct (decide (h = h')) as [->|Hne].
    - rewrite lookup_alter_eq, Hh. by eexists.
    - rewrite lookup_alter_ne by done. by eexists. }
  assert (Hsame : ∀ k', pointer k' (set_sink_level (pointer k s) l s) = pointer k' s).
  { intros k'. unfold set_sink_level. by destruct (pointer k s), k'. }
  split; unfold pointers_ok; simpl; try (unfold set_sink_level; destruct (pointer k s); done).
  - transitivity (registered s); [by unfold set_sink_level; destruct (pointer k s)|].
    rewrite Hr. by destruct (LogSpec.current a).
  - split.
    + intros k' h. rewrite Hsame. intros Hh. destruct (Hpt _ _ Hh) as [l' Hl']. by eapply Hkeep.
    + unfold set_sink_level. destruct (pointer k s) as [h'|]; simpl; [|done].
      intros h Hh. apply lookup_alter_None. auto.
  - unfold same_state in *. simpl.
    replace (logger_ (set_sink_level (pointer k s) l s)) with (logger_ s)
      by (unfold set_sink_level; by destruct (pointer k s)).
    assert (pool (set_sink_level (pointer k s) l s) = pool s) as Hpool
      by (unfold set_sink_level; by destruct (pointer k s)).
    destruct (logger_ s) as [lg|], (LogSpec.current a) as [g|]; simpl in *; rewrite ?Hpool; try done.
    destruct Hcur as (? & ? & ? & ? & h & Hs & Hq & Hk). split_and!; try done. exists h.
    split; [by rewrite Hs, !sinks_kinds|]. rewrite Hpool. split; [done|].
    intros k' Hk'. destruct (Hk k' Hk') as [Hptr Hst]. rewrite Hsame. split; [done|].
    unfold set_sink_level. destruct (decide (k = k')) as [<-|Hne].
    + rewrite Hptr. simpl. rewrite lookup_alter_eq, Hst. by destruct k.
    + replace (on_sink k' (set_on_sink k l g)) with (on_sink k' g) by (by destruct k, k').
      destruct (pointer k s) as [h'|] eqn:Hh'; simpl; [|done].
      destruct (Hpt k h' Hh') as [l' Hl']. rewrite lookup_alter_ne by congruence. done.
Qed.

(** A new sink of a kind, with the pointer to it. *)
Definition new_sink (k : sink_kind) (l : level) (s : LoggerImpl) : LoggerImpl :=
  set_sinks (match k with ConsoleSink => Some (next_sink s) | FileSink => console_sink_ s end)
    (match k with FileSink => Some (next_sink s) | ConsoleSink => file_sink_ s end)
    (<[next_sink s := (k, l)]> (sink_store s)) (S (next_sink s)) s.

Lemma new_sink_pointers k l s : pointers_ok s → pointers_ok (new_sink k l s).
Proof.
  intros [Hpt Hfresh]. split.
  - intros k' h Hh. cbn [new_sink set_sinks sink_store]. destruct (decide (k = k')) as [<-|Hne].
    + assert (h = next_sink s) as -> by (destruct k; simpl in Hh; congruence).
      exists l. apply lookup_insert_eq.
    + assert (pointer k' s = Some h) as Hh' by (by destruct k, k').
      destruct (Hpt k' h Hh') as [l' Hl']. exists l'. rewrite lookup_insert_ne; [done|].
      intros <-. rewrite Hfresh in Hl' by lia. done.
  - cbn [new_sink set_sinks sink_store next_sink]. intros h Hh.
    rewrite lookup_insert_ne by lia. apply Hfresh. lia.
Qed.

Lemma new_sink_at k l s :
  pointer k (new_sink k l s) = Some (next_sink s) ∧
  sink_store (new_sink k l s) !! next_sink s = Some (k, l).
Proof. split; [by destruct k|]. cbn [new_sink set_sinks sink_store]. apply lookup_insert_eq. Qed.

(** [s'] is [s] up to the sinks. *)
Definition up_to_sinks (s s' : LoggerImpl) : Prop :=
  s' = set_sinks (console_sink_ s') (file_sink_ s') (sink_store s') (next_sink s') s.

(** The sinks that the switch on the type makes. *)
Lemma make_sinks_spec fails fileName type bytes backups cl fl s :
  pointers_ok s →
  match (if has_file type then fails fileName bytes (wrap_u 64 backups) else None) with
  | Some e => ∃ s', make_sinks fails fileName type bytes backups cl fl s = (Threw e, s') ∧
      up_to_sinks s s' ∧ pointers_ok s'
  | None => ∃ x xs s' (h : sink_kind → nat),
      make_sinks fails fileName type bytes backups cl fl s = (Done (x :: xs), s') ∧
      up_to_sinks s s' ∧ pointers_ok s' ∧
      x :: xs = h <$> ((if has_file type then [FileSink] else []) ++
                       (if has_console type then [ConsoleSink] else [])) ∧
      ∀ k, has k type = true → pointer k s' = Some (h k) ∧
        sink_store s' !! h k = Some (k, match k with ConsoleSink => cl | FileSink => fl end)
  end.
Proof.
  intros Hok. pose proof (new_sink_pointers ConsoleSink cl s Hok) as Hc.
  unfold make_sinks.
  destruct type; simpl; [destruct (fails _ _ _) as [e|] eqn:Hfail| |destruct (fails _ _ _) as [e|] eqn:Hfail|].
  - exists (new_sink ConsoleSink cl s). split; [|done].
    unfold mbind, prog_bind, make_console, make_file. by rewrite Hfail.
  - eexists _, _, (new_sink FileSink fl (new_sink ConsoleSink cl s)),
      (λ k, match k with FileSink => S (next_sink s) | ConsoleSink => next_sink s end).
    split; [unfold mbind, prog_bind, make_console, make_file; by rewrite Hfail|].
    split; [done|]. split; [by apply new_sink_pointers|]. split; [done|].
    intros [] _; [|apply (new_sink_at FileSink fl (new_sink ConsoleSink cl s))].
    split; [done|]. cbn [new_sink set_sinks sink_store next_sink].
    rewrite lookup_insert_ne by lia. apply lookup_insert_eq.
  - eexists _, _, (new_sink ConsoleSink cl s), (λ _, next_sink s). repeat (split; [done|]).
    intros [] Hk; [apply new_sink_at|done].
  - exists s. split; [|split; [by destruct s|done]].
    unfold mbind, prog_bind, make_file. by rewrite Hfail.
  - eexists _, _, (new_sink FileSink fl s), (λ _, next_sink s).
    split; [unfold mbind, prog_bind, make_file; by rewrite Hfail|].
    split; [done|]. split; [by apply new_sink_pointers|]. split; [done|].
    intros [] Hk; [done|apply new_sink_at].
  - eexists _, _, (new_sink ConsoleSink cl s), (λ _, next_sink s). repeat (split; [done|]).
    intros [] Hk; [apply new_sink_at|done].
Qed.

(** A failed creation leaves the logger off. *)
Lemma sim_up_to_sinks s s' a :
  log_sim s a → LogSpec.current a = None → up_to_sinks s s' → pointers_ok s' → log_sim s' a.
Proof.
  intros Hs Ha Hs' Hok. destruct (sim_cases s a Hs) as [(? & ? & _ & Hg & _)|(Hlg & _ & Hp & Hq)]; [congruence|].
  destruct Hs as [He Hb Hf Hp' Hev Hr _ Hcur]. rewrite Hs'.
  split; simpl; unfold same_state; simpl; rewrite ?Ha, ?Hlg; try done. by rewrite Hr, Ha.
Qed.

Section Simulation.
Context (getenv : string → option string) (from_str : string → level).
Context (cores : Z) (fails : string → Z → Z → option exn) (Hcores : (0 ≤ cores)%Z).

Lemma thread_pool_spec s a : log_sim s a →
  init_thread_pool cores s =
    (match LogSpec.buffer_size a with
     | None => Undef "logBufferSize_ is not initialised"
     | Some _ => if (4 <=? cores)%Z && (cores <? 4004)%Z then mret tt
                 else Threw (SpdlogEx "invalid threads_n param")
     end, s).
Proof.
  intros Hs. unfold init_thread_pool. rewrite (prog_bind_eq _ _ s s s) by done.
  rewrite (sim_buffer _ _ Hs). destruct (LogSpec.buffer_size a); [|done]. cbv zeta.
  pose proof (Z.div_mod cores 4 ltac:(lia)). pose proof (Z.mod_pos_bound cores 4 ltac:(lia)).
  destruct (Z.eqb_spec (cores / 4) 0), (Z.ltb_spec 1000 (cores / 4)), (Z.leb_spec 4 cores),
    (Z.ltb_spec cores 4004); simpl; try done; lia.
Qed.

(** The logger that [Init] leaves. *)
Definition created (type : LoggerType) (l : level) (isAsync : bool) (a : LogSpec.state) : LogSpec.state :=
  LogSpec.set_current
    (Some {| LogSpec.on_type := type;
             LogSpec.on_console := GetLogLevelFromEnv getenv from_str "LOG_CONSOLE_LEVEL" l;
             LogSpec.on_file := GetLogLevelFromEnv getenv from_str "LOG_FILE_LEVEL" l;
             LogSpec.on_level := lv_trace; LogSpec.on_flush := LogSpec.flush_level a;
             LogSpec.on_pattern := default_pattern; LogSpec.on_async := isAsync |})
    (if (0 <? LogSpec.flush_every a)%Z then Some (LogSpec.flush_every a) else LogSpec.periodic a) a.

(** [Init] once its sinks exist. *)
Lemma sim_created type l isAsync s a h :
  log_sim s a → LogSpec.current a = None →
  let cl := GetLogLevelFromEnv getenv from_str "LOG_CONSOLE_LEVEL" l in
  let fl := GetLogLevelFromEnv getenv from_str "LOG_FILE_LEVEL" l in
  (∀ k, has k type = true → pointer k s = Some (h k) ∧
     sink_store s !! h k = Some (k, match k with ConsoleSink => cl | FileSink => fl end)) →
  let lg := {| lg_sinks := h <$> ((if has_file type then [FileSink] else []) ++
                                  (if has_console type then [ConsoleSink] else []));
               lg_level := lv_trace; lg_flush_on := flushOnLevel_ s;
               lg_pattern := default_pattern; lg_async := isAsync |} in
  log_sim
    (set_logger (Some lg) true
       (set_periodic (if (0 <? flushEvery_ s)%Z then Some (flushEvery_ s) else periodic_flush s)
          (set_logger (Some lg) (registered s) s))) (created type l isAsync a).
Proof.
  intros Hs Ha cl fl Hh lg.
  destruct (sim_cases s a Hs) as [(? & ? & _ & Hg & _)|(Hlg & _ & Hpool & Hq)]; [congruence|].
  destruct Hs as [He Hb Hf Hp Hev Hr Hpt Hcur]. unfold created. split; simpl; try done.
  - by rewrite He, Hp.
  - unfold same_state. simpl. split_and!; simpl; try done. exists h. rewrite sinks_kinds. split; [done|].
    split; [unfold same_pool; simpl; by rewrite Hpool, Hq|]. intros k Hk.
    destruct (Hh k Hk) as [Hk1 Hk2]. split; [by destruct k|]. rewrite Hk2. by destruct k.
Qed.

Lemma sim_init fileName type l size backups isAsync s a :
  log_sim s a → LogSpec.current a = None →
  let r := Init getenv from_str cores fails fileName type l size backups isAsync s in
  match LogSpec.creation cores fails fileName type size backups isAsync a with
  | Done _ => r.1 = Done true ∧ log_sim r.2 (created type l isAsync a)
  | Threw e => r.1 = Threw e ∧ log_sim r.2 a
  | Undef w => r.1 = Undef w ∧ log_sim r.2 a
  end.
Proof.
  intros Hs Ha r. subst r. unfold LogSpec.creation, Init.
  assert (liftO (max_file_size_of size) s = (max_file_size_of size, s)) as Hlift by done.
  destruct (max_file_size_of size) as [bytes|e|w]; cbn [mbind outcome_bind];
    [|rewrite (prog_bind_fail _ _ _ _ _ Hlift) by done; done..].
  rewrite (prog_bind_eq _ _ _ _ _ Hlift).
  set (cl := GetLogLevelFromEnv getenv from_str "LOG_CONSOLE_LEVEL" l).
  set (fl := GetLogLevelFromEnv getenv from_str "LOG_FILE_LEVEL" l).
  pose proof (make_sinks_spec fails fileName type bytes backups cl fl s (sim_pointers _ _ Hs)) as Hmk.
  destruct (if has_file type then fails fileName bytes (wrap_u 64 backups) else None) as [e|].
  { destruct Hmk as (s' & Hrun & Hup & Hok).
    rewrite (prog_bind_fail _ _ _ _ _ Hrun) by done. split; [done|]. by eapply sim_up_to_sinks. }
  destruct Hmk as (x & xs & s' & h & Hrun & Hup & Hok & Hxs & Hh).
  rewrite (prog_bind_eq _ _ _ _ _ Hrun).
  pose proof (sim_up_to_sinks _ _ _ Hs Ha Hup Hok) as Hs'.
  assert (Hrest : registered s' = false) by (rewrite (sim_registered _ _ Hs'), Ha; done).
  pose proof (sim_created type l isAsync s' a h Hs' Ha Hh) as Hcreated. rewrite <- Hxs in Hcreated.
  destruct isAsync.
  - pose proof (thread_pool_spec s' a Hs') as Hpool. destruct (LogSpec.buffer_size a) as [n|];
      [destruct (_ && _)|];
      [rewrite (prog_bind_eq _ _ _ _ _ Hpool)|rewrite (prog_bind_fail _ _ _ _ _ Hpool) by done; done..].
    log_unfold. simpl. rewrite Hrest. simpl. done.
  - log_unfold. simpl. rewrite Hrest. simpl. done.
Qed.

(** *** The queue *)

Lemma next_op_map {H K} (f : H → K) n i (q : list (list (pool_op H))) :
  next_op n i (ops_map f <$> q) =
    match next_op n i q with Some (op, q') => Some (op_map f op, ops_map f <$> q') | None => None end.
Proof.
  unfold next_op. destruct (_ <? _)%nat; [|done]. rewrite list_lookup_fmap.
  destruct (q !! i) as [[|op [|op' ops]]|]; simpl; try done.
  - by rewrite list_fmap_delete.
  - by rewrite list_fmap_insert.
Qed.

Lemma next_op_has {H} (P : H → Prop) n i (q : list (list (pool_op H))) op q' :
  Forall (Forall (λ op, P (op_sink op))) q → next_op n i q = Some (op, q') →
  P (op_sink op) ∧ Forall (Forall (λ op, P (op_sink op))) q'.
Proof.
  unfold next_op. intros Hq. destruct (_ <? _)%nat; [|done].
  destruct (q !! i) as [[|op1 [|op' ops]]|] eqn:Hi; intros Hn; simplify_eq;
    pose proof (Forall_lookup_1 _ _ _ _ Hq Hi) as Hops; apply Forall_cons in Hops as [Hop Hops];
    (split; [done|]); [by apply Forall_delete|by apply Forall_insert].
Qed.

(** A pool without messages. *)
Lemma pool_join_empty order s : pool s = [] → pool_join cores order s = (Done tt, s).
Proof.
  intros Hp. unfold pool_join. assert (iterS order (pool_step cores) s = (Done tt, s)) as Hit.
  { induction order as [|i o IH]; [done|]. cbn [iterS]. erewrite prog_bind_eq; [exact IH|].
    unfold pool_step, modifyS, next_op. rewrite Hp. simpl. by destruct (_ <? _)%nat. }
  rewrite (prog_bind_eq _ _ _ _ _ Hit). unfold modifyS. rewrite Hp. simpl. rewrite app_nil_r.
  destruct s; simpl in *; by subst.
Qed.

(** The pool on both sides; the implementation's logger does not matter. *)
Definition pool_sim (h : sink_kind → nat) (g : LogSpec.on_logger) (s : LoggerImpl) (a : LogSpec.state) : Prop :=
  same_pool h (LogSpec.on_type g) (pool s) (LogSpec.waiting a) ∧ emitted s = LogSpec.events a ∧
  ∀ k, has k (LogSpec.on_type g) = true → sink_store s !! h k = Some (k, on_sink k g).

(** All but the pool and the events. *)
Definition rest_of (s : LoggerImpl) : LoggerImpl := set_emitted [] (set_pool [] s).
Definition spec_rest (a : LogSpec.state) : LogSpec.state :=
  {| LogSpec.flush_every := LogSpec.flush_every a; LogSpec.buffer_size := LogSpec.buffer_size a;
     LogSpec.flush_level := LogSpec.flush_level a; LogSpec.current := LogSpec.current a;
     LogSpec.periodic := LogSpec.periodic a; LogSpec.waiting := []; LogSpec.events := [] |}.

Lemma rest_pointer s s' k : rest_of s' = rest_of s → pointer k s' = pointer k s.
Proof. intros [=]. by destruct k. Qed.

Lemma rest_pointers_ok s s' : rest_of s' = rest_of s → pointers_ok s → pointers_ok s'.
Proof.
  intros Hr [Hp Hn]. pose proof (λ k, rest_pointer s s' k Hr) as Hk. injection Hr as R1 R2 R3 R4 R5 R6 R7 R8 R9 R10.
  split; rewrite R7; [|rewrite R8; exact Hn]. intros k x. rewrite Hk. apply Hp.
Qed.

Lemma op_events_sim h g s op :
  (∀ k, has k (LogSpec.on_type g) = true → sink_store s !! h k = Some (k, on_sink k g)) →
  has (op_sink op) (LogSpec.on_type g) = true →
  op_events (λ x, sink_store s !! x) (op_map h op) = op_events (LogSpec.sink_now g) op.
Proof. intros Hk Hop. destruct op as [k l msg|k]; simpl in *; rewrite (Hk k Hop); by destruct k. Qed.

Lemma pool_step_sim h g i s a :
  pool_sim h g s a →
  ∃ s', pool_step cores i s = (Done tt, s') ∧ rest_of s' = rest_of s ∧
    pool_sim h g s' (LogSpec.pool_on (threads cores) i g a) ∧
    spec_rest (LogSpec.pool_on (threads cores) i g a) = spec_rest a.
Proof.
  intros ([Hp Hq] & Hev & Hk). unfold pool_step, modifyS, LogSpec.pool_on. rewrite Hp, next_op_map.
  destruct (next_op (threads cores) i (LogSpec.waiting a)) as [[op q]|] eqn:Hn; simpl.
  2:{ exists s. split_and!; try done. }
  destruct (next_op_has (λ k, has k (LogSpec.on_type g) = true) _ _ _ _ _ Hq Hn) as [Hop Hq'].
  eexists. split; [done|]. split; [done|]. split; [|done]. split; [done|]. split; [|done].
  simpl. by rewrite Hev, (op_events_sim h g s op Hk Hop).
Qed.

Lemma pool_steps_sim h g order s a :
  pool_sim h g s a →
  let a' := foldl (λ a i, LogSpec.pool_on (threads cores) i g a) a order in
  ∃ s', iterS order (pool_step cores) s = (Done tt, s') ∧ rest_of s' = rest_of s ∧
    pool_sim h g s' a' ∧ spec_rest a' = spec_rest a.
Proof.
  revert s a. induction order as [|i order IH]; intros s a Hs; [by exists s|].
  destruct (pool_step_sim h g i s a Hs) as (s1 & Hrun & Hr & Hs1 & Ha1).
  destruct (IH _ _ Hs1) as (s2 & Hrun2 & Hr2 & Hs2 & Ha2). exists s2. cbn [iterS foldl].
  rewrite (prog_bind_eq _ _ _ _ _ Hrun). split; [done|]. split; [congruence|]. split; [done|]. congruence.
Qed.

Lemma pool_join_sim h g order s a :
  pool_sim h g s a →
  ∃ s', pool_join cores order s = (Done tt, s') ∧ rest_of s' = rest_of s ∧ pool s' = [] ∧
    let a' := LogSpec.finish_on (threads cores) order g a in
    emitted s' = LogSpec.events a' ∧ spec_rest a' = spec_rest a ∧ LogSpec.waiting a' = [].
Proof.
  intros Hs. destruct (pool_steps_sim h g order s a Hs) as (s1 & Hrun & Hr & ([Hp Hq] & Hev & Hk) & Ha).
  unfold pool_join. rewrite (prog_bind_eq _ _ _ _ _ Hrun). eexists. split; [done|]. split; [done|].
  split; [done|]. unfold LogSpec.finish_on. cbv zeta. set (a1 := foldl _ _ _) in *. split; [|done].
  simpl. rewrite Hev. f_equal. rewrite Hp. clear -Hq Hk.
  induction Hq as [|ops q Hops Hq IH]; [done|]. cbn [fmap list_fmap concat].
  rewrite !flat_map_app, IH. f_equal. clear -Hops Hk. unfold ops_map.
  induction Hops as [|op ops Hop Hops IH]; [done|]. cbn [fmap list_fmap flat_map].
  rewrite IH. f_equal. by apply op_events_sim.
Qed.

(** What is posted on both sides. *)
Lemma sim_post lg g s a (ops : ∀ H, list H → list (pool_op H)) :
  (∀ H K (f : H → K) l, ops K (f <$> l) = op_map f <$> ops H l) →
  (∀ H l, Forall (λ op, op_sink op ∈ l) (ops H l)) →
  log_sim s a → logger_ s = Some lg → LogSpec.current a = Some g → same_logger s lg g (LogSpec.waiting a) →
  log_sim (post (ops nat (lg_sinks lg)) s)
    (LogSpec.wait (LogSpec.waiting a ++ [ops sink_kind (LogSpec.sinks g).*1]) a).
Proof.
  intros Hmap Hin Hs Hlg Hg (H1 & H2 & H3 & H4 & h & Hsinks & [Hp Hq] & Hk).
  destruct Hs as [He Hb Hf Hp' Hev Hr Hpt Hcur]. unfold post.
  split; simpl; unfold same_state; simpl; rewrite ?Hlg, ?Hg; try done. { by rewrite Hr, Hg. }
  split_and!; try done. exists h. split; [done|]. split; [|done]. split; simpl.
  - rewrite fmap_app, Hp. simpl. by rewrite Hsinks, Hmap.
  - apply Forall_app. split; [done|]. apply Forall_singleton. eapply Forall_impl; [apply Hin|].
    intros op. apply sinks_has.
Qed.

Lemma sim_say es lg g s a :
  log_sim s a → logger_ s = Some lg → LogSpec.current a = Some g → same_logger s lg g (LogSpec.waiting a) →
  log_sim (set_emitted (emitted s ++ es) s) (LogSpec.say es a).
Proof.
  intros [He Hb Hf Hp Hev Hr Hpt Hcur] Hlg Hg Hsame.
  split; simpl; unfold same_state; simpl; rewrite ?Hlg, ?Hg; try done; [by rewrite Hev|by rewrite Hr, Hg].
Qed.

Lemma sim_flush_on lg g s a :
  log_sim s a → logger_ s = Some lg → LogSpec.current a = Some g → same_logger s lg g (LogSpec.waiting a) →
  log_sim (flush_logger lg s) (LogSpec.flush_on g a).
Proof.
  intros Hs Hlg Hg Hsame. pose proof Hsame as (_ & _ & _ & Has & _).
  unfold flush_logger, LogSpec.flush_on. rewrite Has. destruct (LogSpec.on_async g).
  - apply (sim_post lg g s a (@flush_ops)); try done.
    + intros H K f l. unfold flush_ops. by rewrite <- !list_fmap_compose.
    + intros H l. apply Forall_forall. intros op (x & -> & Hx)%list_elem_of_fmap. done.
  - rewrite (sinks_of_sim _ _ _ _ Hsame). by eapply sim_say.
Qed.

Lemma sim_log_on l msg lg g s a :
  log_sim s a → logger_ s = Some lg → LogSpec.current a = Some g → same_logger s lg g (LogSpec.waiting a) →
  ∃ s', log l msg s = (Done tt, s') ∧ log_sim s' (LogSpec.log_on l msg g a).
Proof.
  intros Hs Hlg Hg Hsame. pose proof Hsame as (Hlv & Hfl & _ & Has & _).
  unfold log, modifyS, LogSpec.log_on. rewrite Hlg, Has, Hlv, Hfl. eexists. split; [done|].
  destruct (LogSpec.on_async g); [destruct (l <? LogSpec.on_level g)%Z; [done|]|].
  - apply (sim_post lg g s a (λ H, @message_ops H l msg (LogSpec.on_flush g))); try done.
    + intros H K f xs. unfold message_ops. rewrite fmap_app, <- !list_fmap_compose.
      destruct (should_flush _ _); [by rewrite <- !list_fmap_compose|done].
    + intros H xs. unfold message_ops. apply Forall_app. split; [|destruct (should_flush _ _); [|done]];
        apply Forall_forall; intros op (x & -> & Hx)%list_elem_of_fmap; done.
  - rewrite (sinks_of_sim _ _ _ _ Hsame). by eapply sim_say.
Qed.

(** The two steps of the library, and the end. *)
Lemma sim_pool i s a :
  log_sim s a →
  ∃ s', pool_step cores i s = (Done tt, s') ∧
    log_sim s' (match LogSpec.current a with None => a | Some g => LogSpec.pool_on (threads cores) i g a end).
Proof.
  intros Hs. destruct (sim_cases s a Hs) as [(lg & g & Hlg & Hg & Hsame)|(Hlg & Hg & Hp & Hq)]; rewrite Hg.
  - destruct Hsame as (H1 & H2 & H3 & H4 & h & Hsinks & Hpool & Hk).
    destruct (pool_step_sim h g i s a) as (s' & Hrun & Hr & (Hp' & Hev' & Hk') & Ha').
    { split; [done|]. split; [apply (sim_events _ _ Hs)|]. intros k Hh. by apply Hk. }
    exists s'. split; [done|]. destruct Hs as [He Hb Hf Hpd Hev Hreg Hpt Hcur].
    pose proof (rest_pointers_ok _ _ Hr Hpt) as Hpt'. pose proof (λ k, rest_pointer _ _ k Hr) as Hptrs.
    injection Hr as R1 R2 R3 R4 R5 R6 R7 R8 R9 R10. injection Ha' as A1 A2 A3 A4 A5.
    split; try congruence.
    + by rewrite R9, A4.
    + unfold same_state. rewrite R1, A4, Hlg, Hg. split_and!; try done. exists h. split; [done|].
      split; [done|]. intros k Hh. destruct (Hk k Hh) as [Hptr Hst]. rewrite R7, Hptrs. by split.
  - exists s. split; [|done]. unfold pool_step, modifyS, next_op. rewrite Hp. simpl. by destruct (_ <? _)%nat.
Qed.

Lemma sim_tick s a :
  log_sim s a →
  ∃ s', flusher_tick s = (Done tt, s') ∧
    log_sim s' (match LogSpec.periodic a, LogSpec.current a with
                | Some _, Some g => LogSpec.flush_on g a
                | _, _ => a
                end).
Proof.
  intros Hs. unfold flusher_tick, modifyS. eexists. split; [done|].
  rewrite (sim_periodic _ _ Hs), (sim_registered _ _ Hs). destruct (LogSpec.periodic a) as [e|]; [|done].
  destruct (sim_cases s a Hs) as [(lg & g & Hlg & Hg & Hsame)|(Hlg & Hg & Hp & Hq)]; rewrite Hlg, Hg; [|done].
  rewrite bool_decide_eq_true_2 by done. by apply sim_flush_on.
Qed.

Lemma sim_uinit order s a :
  log_sim s a →
  ∃ s', Uinit cores order s = (Done tt, s') ∧
    log_sim s' (LogSpec.set_current None None
                  match LogSpec.current a with
                  | Some g => LogSpec.finish_on (threads cores) order g (LogSpec.flush_on g a)
                  | None => a
                  end).
Proof.
  intros Hs. unfold Uinit. do 2 (erewrite prog_bind_eq by reflexivity).
  destruct (sim_cases s a Hs) as [(lg & g & Hlg & Hg & Hsame)|(Hlg & Hg & Hp & Hq)]; rewrite Hlg, Hg.
  - pose proof (sim_flush_on lg g s a Hs Hlg Hg Hsame) as Hf.
    set (s1 := flush_logger lg s) in *. set (a1 := LogSpec.flush_on g a) in *.
    assert (LogSpec.current a1 = Some g) as Hg1 by (unfold a1, LogSpec.flush_on; by destruct (LogSpec.on_async g)).
    destruct (sim_cases s1 a1 Hf) as [(lg1 & g1 & _ & Hg1' & (_ & _ & _ & _ & h & _ & Hpool & Hk))|(_ & Hn & _)];
      [|congruence]. assert (g1 = g) as -> by congruence.
    destruct (pool_join_sim h g order (set_periodic None (set_logger None false s1)) a1)
      as (s' & Hrun & Hr & Hp' & Hev' & Ha' & Hw').
    { split; [done|]. split; [apply (sim_events _ _ Hf)|]. intros k Hh. by apply Hk. }
    exists s'. split; [exact Hrun|]. set (a2 := LogSpec.finish_on _ _ _ _) in *.
    destruct Hf as [He Hb Hfl Hpd Hev Hreg Hpt Hcur].
    assert (pointers_ok s') as Hpt' by by apply (rest_pointers_ok _ _ Hr).
    injection Hr as R1 R2 R3 R4 R5 R6 R7 R8 R9 R10. injection Ha' as A1 A2 A3 A4 A5.
    simpl in *. split; simpl; try congruence.
    + unfold same_state. rewrite R1. simpl. done.
  - destruct Hs as [He Hb Hf Hpd Hev Hr Hpt Hcur].
    eexists. split; [by apply pool_join_empty|]. split; simpl; unfold same_state; simpl; rewrite ?Hlg; done.
Qed.

(** One call on each side. *)
Lemma sim_call c s a :
  log_sim s a → LogSpec.allowed c a →
  let r := forward getenv from_str cores fails c s in
  let q := LogSpec.step getenv from_str cores fails c a in
  r.1 = q.1 ∧ log_sim r.2 q.2.
Proof.
  intros Hs Ha r q. subst r q. destruct c; cbn [forward LogSpec.step].
  - pose proof (sim_init fileName type l maxFileSize maxBackupIndex isAsync s a Hs Ha) as Hi.
    cbv zeta in Hi. rewrite (prog_bind_eq _ _ a a a) by done.
    unfold mbind, prog_bind, liftO.
    destruct (LogSpec.creation _ _ _ _ _ _ _ _) as [[]|e|w], (Init _ _ _ _ _ _ _ _ _ _ _) as [o s'];
      simpl in Hi; destruct Hi as [-> Hi]; done.
  - destruct (sim_uinit order s a Hs) as (s' & -> & Hs'). done.
  - destruct (sim_cases s a Hs) as [(lg & g & Hlg & Hg & Hsame)|(Hlg & Hg & _)].
    + destruct (sim_log_on l msg lg g s a Hs Hlg Hg Hsame) as (s' & -> & Hs'). unfold modifyS. by rewrite Hg.
    + unfold log, modifyS. by rewrite Hlg, Hg.
  - split; [done|]. unfold setFlushEvery. log_unfold. simpl.
    destruct (0 <? n)%Z; [|done]. by destruct Hs; split.
  - split; [done|]. unfold setFlushOnLevel. log_unfold. simpl. by destruct Hs; split.
  - split; [done|]. unfold setLogLevel, LogSpec.on_current. log_unfold. simpl.
    apply (sim_on_logger _ _ _ (λ lg, {| lg_sinks := lg_sinks lg; lg_level := l;
      lg_flush_on := lg_flush_on lg; lg_pattern := lg_pattern lg; lg_async := lg_async lg |})); [done|].
    intros lg g q (? & ? & ? & ? & ?). done.
  - split; [done|]. unfold setLogPattern, LogSpec.on_current. log_unfold. simpl.
    apply (sim_on_logger _ _ _ (λ lg, {| lg_sinks := lg_sinks lg; lg_level := lg_level lg;
      lg_flush_on := lg_flush_on lg; lg_pattern := pattern; lg_async := lg_async lg |})); [done|].
    intros lg g q (? & ? & ? & ? & ?). done.
  - split; [done|]. unfold setLogConsoleLevel, LogSpec.on_current. log_unfold. simpl.
    by apply (sim_sink_level ConsoleSink).
  - split; [done|]. unfold setLogFileLevel, LogSpec.on_current. log_unfold. simpl.
    by apply (sim_sink_level FileSink).
  - split; [done|]. unfold setLogBufferSize. log_unfold. simpl. by destruct Hs; split.
  - destruct (sim_pool i s a Hs) as (s' & -> & Hs'). done.
  - destruct (sim_tick s a Hs) as (s' & -> & Hs'). done.
Qed.

Lemma sim_run cs s a :
  log_sim s a → all_allowed (LogSpec.step getenv from_str cores fails) cs a →
  let r := run_calls (forward getenv from_str cores fails) cs s in
  let q := run_calls (LogSpec.step getenv from_str cores fails) cs a in
  r.1 = q.1 ∧ log_sim r.2 q.2.
Proof.
  revert s a. induction cs as [|c cs IH]; intros s a Hs Hall; [done|].
  destruct Hall as [Hc Hcs]. destruct (sim_call c s a Hs Hc) as [Ho Hs1]. cbn [run_calls].
  destruct (forward _ _ _ _ c s) as [o s1], (LogSpec.step _ _ _ _ c a) as [o' a1]; simpl in *.
  destruct (IH s1 a1 Hs1 Hcs) as [Hos Hs2].
  destruct (run_calls _ cs s1) as [os s2], (run_calls _ cs a1) as [os' a2]; simpl in *.
  by subst.
Qed.
End Simulation.

(** ** Properties *)

(** C3: the logger, synchronous or not, keeps its contract through any sequence
    of calls, steps of the pool's threads and ticks of the periodic flusher, in
    which Init is not called on a logger that is on: each call has the outcome
    of the abstract logger (creation fails exactly when the file cannot be
    created, the size overflows or the thread pool cannot be made), and the
    sinks are told to write and to flush exactly what it says, in its order,
    although a pointer of the implementation may name a sink of an earlier
    logger: a synchronous logger at once, an asynchronous one when a thread
    comes to the message and its sink, with the level that the sink has then,
    and at the latest in Uinit; spdlog knows the logger exactly while it is
    on. *)
Theorem logger_refines getenv from_str cores fails cs :
  (0 ≤ cores)%Z → all_allowed (LogSpec.step getenv from_str cores fails) cs LogSpec.initial →
  let r := run_calls (forward getenv from_str cores fails) cs LoggerImpl_new in
  let q := run_calls (LogSpec.step getenv from_str cores fails) cs LogSpec.initial in
  r.1 = q.1 ∧ emitted r.2 = LogSpec.events q.2 ∧ periodic_flush r.2 = LogSpec.periodic q.2 ∧
  registered r.2 = bool_decide (is_Some (LogSpec.current q.2)).
Proof.
  intros Hcores Hall r q. subst r q.
  destruct (sim_run getenv from_str cores fails Hcores cs _ _ sim_initial Hall) as [Ho Hs].
  split; [done|]. by destruct Hs.
Qed.

(** A synchronous logger of any type, created from fresh with a size below
    2048 MB, delivers a message to exactly the sinks of its type whose current
    level allows it, file first, and then flushes all of its sinks if the
    message is an error or worse; the levels of the two sinks are set
    independently; and after Uinit, which flushes, nothing is delivered. *)
Theorem message_delivery getenv from_str cores fails fileName type l size backups cl fl ml msg :
  (0 ≤ size < 2048)%Z → (∀ n b, fails fileName n b = None) → (lv_trace ≤ ml < lv_off)%Z →
  let start := (Init getenv from_str cores fails fileName type l size backups false;;
                setLogConsoleLevel cl;; setLogFileLevel fl) in
  let sent := (if has_file type && (fl <=? ml)%Z then [Wrote FileSink ml msg] else [])
              ++ (if has_console type && (cl <=? ml)%Z then [Wrote ConsoleSink ml msg] else []) in
  let flushed := (if has_file type then [Flushed FileSink] else [])
                 ++ (if has_console type then [Flushed ConsoleSink] else []) in
  ∃ s, start LoggerImpl_new = (Done tt, s) ∧
    (∃ s', log ml msg s = (Done tt, s') ∧
       emitted s' = sent ++ (if (lv_err <=? ml)%Z then flushed else [])) ∧
    (∀ order, ∃ s', (Uinit cores order;; log ml msg) s = (Done tt, s') ∧ emitted s' = flushed).
Proof.
  intros Hsize Hfails Hml start sent flushed.
  assert (∃ s, start LoggerImpl_new = (Done tt, s) ∧ pool s = [] ∧
    ∃ lg, logger_ s = Some lg ∧ lg_async lg = false ∧ lg_level lg = lv_trace ∧ lg_flush_on lg = lv_err ∧
      sinks_of s lg = (if has_file type then [(FileSink, fl)] else []) ++
                      (if has_console type then [(ConsoleSink, cl)] else []) ∧ emitted s = [])
    as (s & Hstart & Hpool & lg & Hlg & Has & Hlv & Hfo & Hsinks & Hem).
  { subst start. log_unfold. rewrite max_file_size_ok by done.
    destruct type; simpl; rewrite ?Hfails; simpl; (eexists; split; [reflexivity|]); (split; [reflexivity|]);
      unfold set_sink_level, sinks_of; simpl; (eexists; split; [reflexivity|]); simpl;
      repeat (rewrite ?lookup_alter_eq, ?lookup_insert_eq, ?lookup_alter_ne, ?lookup_insert_ne by done; simpl);
      done. }
  exists s. split; [done|].
  assert (Hflush : flush_events (sinks_of s lg) = flushed).
  { rewrite Hsinks. subst flushed. by destruct (has_file type), (has_console type). }
  split.
  - unfold log, modifyS. rewrite Hlg, Has. eexists. split; [done|]. simpl. rewrite Hem. simpl.
    unfold log_events. rewrite Hlv, Hfo, Hflush, Hsinks.
    assert ((ml <? lv_trace) = false)%Z as -> by (apply Z.ltb_ge; lia). unfold should_flush.
    assert ((ml =? lv_off) = false)%Z as -> by (apply Z.eqb_neq; lia). rewrite andb_true_r. f_equal.
    subst sent. rewrite !Z.leb_antisym.
    destruct (has_file type), (has_console type); simpl; rewrite ?app_nil_r;
      repeat destruct (_ <? _)%Z; done.
  - intros order. set (s1 := set_periodic None (set_logger None false (flush_logger lg s))).
    assert (Uinit cores order s = (Done tt, s1)) as Hu.
    { unfold Uinit. erewrite prog_bind_eq by reflexivity. rewrite Hlg.
      erewrite prog_bind_eq by reflexivity. apply pool_join_empty.
      simpl. unfold flush_logger. by rewrite Has. }
    rewrite (prog_bind_eq _ _ _ _ _ Hu). exists s1. split; [done|]. unfold s1, flush_logger.
    rewrite Has. simpl. by rewrite Hem, Hflush.
Qed.

(** Initialising twice without Uinit throws, but only after the working
    logger has been replaced by one with new sinks that spdlog does not know;
    an asynchronous logger cannot be created on a machine with fewer than four
    processors, and is undefined before the buffer size has been set; a size
    of 2048 MB or more overflows. *)
Theorem init_failures getenv from_str cores fails fileName type l size backups s :
  (∀ n b, fails fileName n b = None) →
  ((0 ≤ size < 2048)%Z → registered s = true →
     ∃ s' lg, Init getenv from_str cores fails fileName type l size backups false s
       = (Threw (SpdlogEx "logger with name 'Logger' already exists"), s') ∧
     logger_ s' = Some lg ∧ Forall (λ h, next_sink s ≤ h)%nat (lg_sinks lg)) ∧
  ((0 ≤ size < 2048)%Z → (0 ≤ cores < 4)%Z → is_Some (logBufferSize_ s) →
     (Init getenv from_str cores fails fileName type l size backups true s).1
       = Threw (SpdlogEx "invalid threads_n param")) ∧
  ((0 ≤ size < 2048)%Z → logBufferSize_ s = None →
     (Init getenv from_str cores fails fileName type l size backups true s).1
       = Undef "logBufferSize_ is not initialised") ∧
  ((2048 ≤ size)%Z → ∀ b,
     (Init getenv from_str cores fails fileName type l size backups b s).1 = Undef "signed overflow").
Proof.
  intros Hfails. split_and!.
  - intros Hsize Hreg. log_unfold. rewrite max_file_size_ok by done.
    destruct type; simpl; rewrite ?Hfails; simpl; rewrite Hreg; eexists _, _;
      (split; [reflexivity|]); (split; [reflexivity|]); simpl; repeat constructor; lia.
  - intros Hsize Hc [b Hb]. log_unfold. unfold init_thread_pool. log_unfold. rewrite max_file_size_ok by done.
    assert (cores / 4 = 0)%Z as Hdiv by (apply Z.div_small; lia).
    destruct type; simpl; rewrite ?Hfails; simpl; rewrite Hb, Hdiv; done.
  - intros Hsize Hb. log_unfold. unfold init_thread_pool. log_unfold. rewrite max_file_size_ok by done.
    destruct type; simpl; rewrite ?Hfails; simpl; by rewrite Hb.
  - intros Hsize b. log_unfold. by rewrite max_file_size_overflow.
Qed.

(** Whatever the calls of one rate-limited log line on a clock that does
    not go back, the first one logs, and two messages are never closer than
    the interval. *)
Theorem rate_limit_spacing key interval_ms t times m :
  (0 ≤ interval_ms)%Z → m !! key = None → StronglySorted Z.le (t :: times) →
  ∃ rest, accepted key interval_ms (t :: times) m = t :: rest ∧
    StronglySorted (λ a b, (a + 1000000 * interval_ms ≤ b)%Z) (t :: rest).
Proof.
  intros Hi Hm Hs. eexists. split; [simpl; unfold shouldLog; rewrite Hm; reflexivity|].
  destruct (accepted_after key interval_ms times (<[key := t]> m) t) as [Hall Hsorted];
    [done|apply lookup_insert_eq|done|]. by constructor.
Qed.

(** ** Witnesses *)

(** A console logger; then an asynchronous one on both sinks: the level of its
    console is raised after a message has been posted, and its pool does the
    rest when it is destroyed. *)
Definition demo_calls : list call :=
  [CFlushOnLevel 2; CInit "log/myapp.log" console 2 60 5 false; CLog 1 "quiet"; CLog 2 "hello";
   CUinit []; CLog 5 "lost"; CBufferSize 8192; CInit "log/myapp.log" both 1 60 5 true;
   CConsoleLevel 0; CLog 1 "kept"; CConsoleLevel 3; CPool 0; CPool 0; CLog 4 "last"; CUinit [0; 0]%nat].

Lemma logger_refines_witness :
  all_allowed (LogSpec.step (λ _, None) (λ _, 0%Z) 8 (λ _ _ _, None)) demo_calls LogSpec.initial ∧
  emitted (run_calls (forward (λ _, None) (λ _, 0%Z) 8 (λ _ _ _, None)) demo_calls LoggerImpl_new).2 =
    [Wrote ConsoleSink 2 "hello"; Flushed ConsoleSink; Flushed ConsoleSink; Wrote FileSink 1 "kept";
     Wrote FileSink 4 "last"; Wrote ConsoleSink 4 "last"; Flushed FileSink; Flushed ConsoleSink;
     Flushed FileSink; Flushed ConsoleSink].
Proof.
  assert (all_allowed (LogSpec.step (λ _, None) (λ _, 0%Z) 8 (λ _ _ _, None)) demo_calls LogSpec.initial)
    as Hall by repeat split.
  split; [exact Hall|].
  destruct (logger_refines (λ _, None) (λ _, 0%Z) 8 (λ _ _ _, None) demo_calls) as (_ & Hev & _);
    [lia|exact Hall|]. rewrite Hev. reflexivity.
Defined.

Lemma message_delivery_witness :
  ∃ s, (Init (λ _, None) (λ _, 0%Z) 2 (λ _ _ _, None) "log/myapp.log" both 2 60 5 false;;
        setLogConsoleLevel 4;; setLogFileLevel 2) LoggerImpl_new = (Done tt, s) ∧
    ∃ s', log 3 "warning" s = (Done tt, s') ∧ emitted s' = [Wrote FileSink 3 "warning"].
Proof.
  destruct (message_delivery (λ _, None) (λ _, 0%Z) 2 (λ _ _ _, None) "log/myapp.log" both 2 60 5 4 2 3
    "warning") as (s & Hrun & Hlog & _); [lia|done|unfold lv_trace, lv_off; lia|].
  exists s. split; [exact Hrun|exact Hlog].
Defined.

Lemma init_failures_witness :
  let s := (Init (λ _, None) (λ _, 0%Z) 2 (λ _ _ _, None) "" console 2 60 5 false LoggerImpl_new).2 in
  (∃ s', Init (λ _, None) (λ _, 0%Z) 2 (λ _ _ _, None) "" console 2 60 5 false s
     = (Threw (SpdlogEx "logger with name 'Logger' already exists"), s')) ∧
  (Init (λ _, None) (λ _, 0%Z) 2 (λ _ _ _, None) "" console 2 4096 5 false s).1 = Undef "signed overflow".
Proof.
  intros s. split.
  - destruct (init_failures (λ _, None) (λ _, 0%Z) 2 (λ _ _ _, None) "" console 2 60 5 s)
      as (Htwice & _); [done|].
    destruct Htwice as (s' & lg & Hrun & _); [lia|reflexivity|]. by exists s'.
  - destruct (init_failures (λ _, None) (λ _, 0%Z) 2 (λ _ _ _, None) "" console 2 4096 5 s)
      as (_ & _ & _ & Hover); [done|]. apply Hover. lia.
Defined.

Lemma rate_limit_spacing_witness :
  ∃ rest, accepted "a.cc:1" 1000 [0; 500000000; 1000000000; 1500000000]%Z ∅ = 0%Z :: rest ∧
    StronglySorted (λ a b, (a + 1000000 * 1000 ≤ b)%Z) (0%Z :: rest).
Proof.
  apply (rate_limit_spacing "a.cc:1" 1000); [lia|reflexivity|].
  repeat constructor; lia.
Defined.
