(* ===== verification/LoggerConfig.v ===== *)
(** * The JSON configuration of the logger

    The constructor of [LoggerConfig] in [common/log/logger_impl.h]: defaults
    for a file that cannot be opened, and the fields that the object
    ["LoggerConfig"] of the document has otherwise, one after the other until
    one of them has the wrong type.  Parsing is nlohmann's; a document is its
    tree of values.  (No code calls this constructor: see [Logger.Init_json].) *)

From Stdlib Require Import ZArith String Lia.
From stdpp Require Import base tactics option list numbers strings.
From S2P Require Import Prelude.

(** A JSON value; of a floating-point number only the integral part is used. *)
Inductive json : Type :=
| JNull
| JBool (b : bool)
| JInt (z : Z)
| JFloat (trunc : Z)
| JString (s : string)
| JArray (l : list json)
| JObject (members : list (string * json)).

(** What [std::ifstream] and [inFile >> j] find. *)
Inductive json_file : Type :=
| NotOpen
| Malformed
| Document (j : json).

Record LoggerConfig := {
  fileName : string;
  type : string;
  level : string;
  maxFileSize : Z;       (* int *)
  maxBackupIndex : Z;
  isAsync : bool;
  flushEvery : Z;
  flushOnLevel : string;
  LogConsoleLevel : string;
  LogFileLevel : string;
  LogPattern : string
}.

Definition default_config : LoggerConfig :=
  {| fileName := "./"; type := "console"; level := "info"; maxFileSize := 60; maxBackupIndex := 5;
     isAsync := false; flushEvery := 1; flushOnLevel := "error"; LogConsoleLevel := "info";
     LogFileLevel := "info"; LogPattern := "[%Y-%m-%d %H:%M:%S.%e] [%^%l%$] [%t] [%s:%# %!] %v" |}.

(** ** [json::get] and [json::value] *)

Definition type_error_302 : exn := JsonEx 302.   (* a value of another type *)
Definition type_error_306 : exn := JsonEx 306.   (* [value] of something that is no object *)

Definition get_string (j : json) : outcome string :=
  match j with JString s => Done s | _ => Threw type_error_302 end.
Definition get_bool (j : json) : outcome bool :=
  match j with JBool b => Done b | _ => Threw type_error_302 end.
(** [get<int>] casts numbers, and takes booleans. *)
Definition get_int (j : json) : outcome Z :=
  match j with
  | JInt z => Done (wrap_s 32 z)
  | JFloat t => if (- 2 ^ 31 <=? t)%Z && (t <? 2 ^ 31)%Z then Done t else Undef "float out of int"
  | JBool b => Done (if b then 1 else 0)%Z
  | _ => Threw type_error_302
  end.

Definition find_member (key : string) (members : list (string * json)) : option json :=
  snd <$> List.find (λ m, String.eqb m.1 key) members.

(** [j.value(key, default)]. *)
Definition json_value {A} (get : json → outcome A) (j : json) (key : string) (default_value : A) : outcome A :=
  match j with
  | JObject members =>
      match find_member key members with
      | Some v => get v
      | None => Done default_value
      end
  | _ => Threw type_error_306
  end.

(** ** The constructor *)

(** One assignment [field = loggerConfig.value(key, field)]. *)
Definition assign {A} (get : json → outcome A) (j : json) (key : string) (field : LoggerConfig → A)
    (set : A → LoggerConfig → LoggerConfig) : prog LoggerConfig unit :=
  c ← getS;
  v ← liftO (json_value get j key (field c));
  modifyS (set v).

Definition set_names (f t l : string) (c : LoggerConfig) : LoggerConfig :=
  {| fileName := f; type := t; level := l; maxFileSize := maxFileSize c;
     maxBackupIndex := maxBackupIndex c; isAsync := isAsync c; flushEvery := flushEvery c;
     flushOnLevel := flushOnLevel c; LogConsoleLevel := LogConsoleLevel c;
     LogFileLevel := LogFileLevel c; LogPattern := LogPattern c |}.
Definition set_numbers (m b : Z) (a : bool) (e : Z) (c : LoggerConfig) : LoggerConfig :=
  {| fileName := fileName c; type := type c; level := level c; maxFileSize := m;
     maxBackupIndex := b; isAsync := a; flushEvery := e;
     flushOnLevel := flushOnLevel c; LogConsoleLevel := LogConsoleLevel c;
     LogFileLevel := LogFileLevel c; LogPattern := LogPattern c |}.
Definition set_levels (o k f p : string) (c : LoggerConfig) : LoggerConfig :=
  {| fileName := fileName c; type := type c; level := level c; maxFileSize := maxFileSize c;
     maxBackupIndex := maxBackupIndex c; isAsync := isAsync c; flushEvery := flushEvery c;
     flushOnLevel := o; LogConsoleLevel := k; LogFileLevel := f; LogPattern := p |}.

Definition assignments (j : json) : list (prog LoggerConfig unit) := [
  assign get_string j "FileName" fileName (λ v c, set_names v (type c) (level c) c);
  assign get_string j "LogType" type (λ v c, set_names (fileName c) v (level c) c);
  assign get_string j "LogLevel" level (λ v c, set_names (fileName c) (type c) v c);
  assign get_int j "MaxFileSize" maxFileSize (λ v c, set_numbers v (maxBackupIndex c) (isAsync c) (flushEvery c) c);
  assign get_int j "MaxBackupIndex" maxBackupIndex (λ v c, set_numbers (maxFileSize c) v (isAsync c) (flushEvery c) c);
  assign get_bool j "IsAsync" isAsync (λ v c, set_numbers (maxFileSize c) (maxBackupIndex c) v (flushEvery c) c);
  assign get_int j "FlushEvery" flushEvery (λ v c, set_numbers (maxFileSize c) (maxBackupIndex c) (isAsync c) v c);
  assign get_string j "FlushOnLevel" flushOnLevel (λ v c, set_levels v (LogConsoleLevel c) (LogFileLevel c) (LogPattern c) c);
  assign get_string j "ConsoleLogLevel" LogConsoleLevel (λ v c, set_levels (flushOnLevel c) v (LogFileLevel c) (LogPattern c) c);
  assign get_string j "FileLogLevel" LogFileLevel (λ v c, set_levels (flushOnLevel c) (LogConsoleLevel c) v (LogPattern c) c);
  assign get_string j "LogPattern" LogPattern (λ v c, set_levels (flushOnLevel c) (LogConsoleLevel c) (LogFileLevel c) v c)
]%string.

Definition LoggerConfig_read (j : json) : prog LoggerConfig unit :=
  loggerConfig ← liftO (json_value Done j "LoggerConfig" (JObject []));
  iterS (assignments loggerConfig) id.

(** [catch (const json::exception &)]. *)
Definition LoggerConfig_new (jsonPath : json_file) : outcome unit * LoggerConfig :=
  match jsonPath with
  | NotOpen => (Done tt, default_config)
  | Malformed => (Done tt, default_config)
  | Document j => catchS (LoggerConfig_read j) (λ _, mret tt) default_config
  end.

(** ** The document of a configuration *)

Definition config_members (c : LoggerConfig) : list (string * json) := [
  ("FileName", JString (fileName c)); ("LogType", JString (type c)); ("LogLevel", JString (level c));
  ("MaxFileSize", JInt (maxFileSize c)); ("MaxBackupIndex", JInt (maxBackupIndex c));
  ("IsAsync", JBool (isAsync c)); ("FlushEvery", JInt (flushEvery c));
  ("FlushOnLevel", JString (flushOnLevel c)); ("ConsoleLogLevel", JString (LogConsoleLevel c));
  ("FileLogLevel", JString (LogFileLevel c)); ("LogPattern", JString (LogPattern c))
]%string.

Definition config_document (c : LoggerConfig) : json :=
  JObject [("LoggerConfig"%string, JObject (config_members c))].

(** The numbers are C [int]s. *)
Definition config_in_range (c : LoggerConfig) : Prop :=
  in_s 32 (maxFileSize c) ∧ in_s 32 (maxBackupIndex c) ∧ in_s 32 (flushEvery c).

(** ** Properties *)

(** A configuration written as a document is read back unchanged, whatever
    further members the document and its object have after it. *)
Theorem config_roundtrip c extra rest :
  config_in_range c →
  LoggerConfig_new (Document (JObject
    (("LoggerConfig"%string, JObject (config_members c ++ extra)) :: rest))) = (Done tt, c).
Proof.
  intros (Hm & Hb & He). destruct c. simpl in *.
  unfold catchS, LoggerConfig_read, assignments, assign, liftO, mbind, prog_bind, getS, modifyS, mret, prog_ret.
  simpl. by rewrite !wrap_s_id by done.
Qed.

(** A document whose first ill-typed member of the object is the one of the
    [i]-th field: the fields before it are read, it and the later ones keep
    their defaults, and no exception leaves the constructor; a file that
    cannot be opened or parsed gives the defaults. *)
Theorem config_prefix members i a c e :
  iterS (take i (assignments (JObject members))) id default_config = (Done tt, c) →
  assignments (JObject members) !! i = Some a → a c = (Threw e, c) →
  LoggerConfig_new (Document (JObject [("LoggerConfig"%string, JObject members)])) = (Done tt, c) ∧
  LoggerConfig_new NotOpen = (Done tt, default_config) ∧
  LoggerConfig_new Malformed = (Done tt, default_config).
Proof.
  intros Hpre Ha Hbad. split; [|done]. unfold LoggerConfig_new, catchS, LoggerConfig_read.
  rewrite (prog_bind_eq _ _ default_config (JObject members) default_config) by done.
  rewrite <- (take_drop_middle _ _ _ Ha), iterS_app, (prog_bind_eq _ _ _ _ _ Hpre). cbn [iterS].
  by rewrite (prog_bind_fail _ _ _ _ _ Hbad) by done.
Qed.

(** ** Witnesses *)

Lemma config_roundtrip_witness :
  LoggerConfig_new (Document (JObject [("LoggerConfig"%string, JObject (config_members default_config))]))
    = (Done tt, default_config).
Proof.
  rewrite <- (app_nil_r (config_members default_config)).
  apply (config_roundtrip default_config [] []). unfold config_in_range, in_s. simpl. lia.
Defined.

Lemma config_prefix_witness :
  LoggerConfig_new (Document (JObject [("LoggerConfig"%string,
    JObject [("MaxFileSize", JInt 4294967298); ("LogPattern", JString "%v"); ("IsAsync", JInt 1)]%string)]))
    = (Done tt, set_numbers 2 5 false 1 default_config).
Proof.
  eapply (config_prefix _ 5); [reflexivity|reflexivity|reflexivity].
Defined.
