(* ===== verification/ConfigPrint.v ===== *)
(** * Printing a configuration

    The [to_string] functions of [common/config/config.h]: the messages that
    they log of a device, at the level [info], and that these messages determine
    the device. *)

From Stdlib Require Import ZArith String SpecFloat Lia.
From stdpp Require Import base tactics option list numbers strings gmap.
From S2P Require Import Prelude Text Yaml Config Logger.

(** The message of [LOG(info) << p1 << p2 ..;] is its pieces. *)
Notation message := (list string) (only parsing).

Definition lv_info : Z := 2.

Definition nl : string := String (Ascii.ascii_of_nat 10) "".

(** [operator<<] of a [bool]. *)
Definition print_bool (b : bool) : string := if b then "1" else "0".

Module PrintModbus.
Import ConfigDataModbus.
Section Print.
(** [operator<<] of a [float]. *)
Context (print_float : spec_float → string).

(** The value of an enumerator. *)
Definition data_type_value (d : data_type_e) : Z :=
  match d with
  | UNKNOWN => -1 | INT16 => 0 | UINT16 => 1 | INT32 => 2 | UINT32 => 3 | FLOAT32 => 4 | STRING => 5
  end.

(** [data_points_t::to_string]. *)
Definition point_to_string (p : data_points_t) : list message :=
  [["name: "; name p];
   ["address: "; dec (address p)];
   ["type: "; type p];
   ["data_type: "; getDataTypeString (data_type p)];
   ["scale: "; print_float (scale p)];
   ["offset: "; print_float (offset p)]].

(** The body of the loop over the points. *)
Definition data_point_lines (p : data_points_t) : list message :=
  [["data_point.name: "; name p];
   ["data_point.address: "; dec (address p)];
   ["data_point.type: "; type p];
   ["data_point.data_type: "; dec (data_type_value (data_type p))];
   ["data_point.scale: "; print_float (scale p)];
   ["data_point.offset: "; print_float (offset p)];
   [nl +:+ "------------------------" +:+ nl]].

Definition to_string (c : t) : list message :=
  [["device_id: "; device_id c];
   ["Type: "; Type_ c];
   ["cmd_interval: "; dec (cmd_interval c)];
   ["max_retries: "; dec (max_retries c)];
   ["retry_interval: "; dec (retry_interval c)];
   ["slave_addr: "; dec (slave_addr c)];
   ["tcp.ip: "; ip (tcp c)];
   ["tcp.port: "; dec (port (tcp c))];
   ["rtu.port_name: "; port_name (rtu c)];
   ["rtu.baudrate: "; dec (baudrate (rtu c))];
   ["rtu.parity: "; parity (rtu c)];
   ["byte_order: "; byte_order c]] ++
  flat_map data_point_lines (data_points c).
End Print.
End PrintModbus.

Module PrintIEC61850.
Import ConfigDataIEC61850.
Definition to_string (c : t) : list message :=
  [["device_id: "; device_id c];
   ["ip: "; ip c];
   ["icd_file_path: "; icd_file_path c];
   ["access_point: "; access_point c];
   ["logical_device: "; logical_device c];
   ["client_mms_name: "; client_mms_name c];
   ["port: "; dec (port c)];
   ["poll_interval: "; dec (poll_interval c)];
   ["max_retries: "; dec (max_retries c)];
   ["retry_interval: "; dec (retry_interval c)];
   ["report_enabled: "; print_bool (report_enabled c)];
   ["goose_enabled: "; print_bool (goose_enabled c)];
   ["tls_enabled: "; print_bool (tls_enabled c)];
   ["description: "; description c];
   ["data_point_filters: "]] ++
  ((λ filter, [filter]) <$> data_point_filters c).
End PrintIEC61850.

Module PrintIEC104.
Import ConfigDataIEC104.
Definition report_lines (i : nat) (r : Report) : list message :=
  [["communication.reports["; dec (Z.of_nat i); "].ioa: "; dec (report_ioa r)];
   ["communication.reports["; dec (Z.of_nat i); "].report_id: "; report_id r]].

Definition data_point_lines (i : nat) (d : DataPoint) : list message :=
  [["data_points["; dec (Z.of_nat i); "].ioa: "; dec (ioa d)];
   ["data_points["; dec (Z.of_nat i); "].type: "; dp_type d];
   ["data_points["; dec (Z.of_nat i); "].description: "; description d];
   ["data_points["; dec (Z.of_nat i); "].iec61850_path: "; iec61850_path d];
   [nl +:+ "------------------------" +:+ nl]].

Definition to_string (c : t) : list message :=
  [["device_id: "; device_id c];
   ["type: "; type c];
   ["tcp.ip: "; ip (tcp c)];
   ["tcp.port: "; dec (port (tcp c))];
   ["local_address.ip: "; local_ip (local_address c)];
   ["local_address.port: "; dec (local_port (local_address c))];
   ["protocol.apci.t0: "; dec (t0 (apci (protocol c)))];
   ["protocol.apci.t1: "; dec (t1 (apci (protocol c)))];
   ["protocol.apci.t2: "; dec (t2 (apci (protocol c)))];
   ["protocol.apci.t3: "; dec (t3 (apci (protocol c)))];
   ["protocol.apci.k: "; dec (k (apci (protocol c)))];
   ["protocol.apci.w: "; dec (w (apci (protocol c)))];
   ["protocol.application_layer.originator_address: ";
    dec (originator_address (application_layer (protocol c)))];
   ["protocol.application_layer.common_address: ";
    dec (common_address (application_layer (protocol c)))];
   ["protocol.application_layer.asdu_size: "; dec (asdu_size (application_layer (protocol c)))];
   ["communication.gi_interval_ms: "; dec (gi_interval_ms (communication c))];
   ["communication.report_enabled: "; if report_enabled (communication c) then "true" else "false"]] ++
  concat (imap report_lines (reports (communication c))) ++
  [["error_handling.reconnect_interval_ms: "; dec (reconnect_interval_ms (error_handling c))];
   ["error_handling.max_reconnect_attempts: "; dec (max_reconnect_attempts (error_handling c))]] ++
  concat (imap data_point_lines (data_points c)).
End PrintIEC104.

(** A [to_string] on the logger of the program. *)
Definition print_messages (l : list message) : prog LoggerImpl unit := iterS l (LogStream lv_info).

Definition text_of (m : message) : string := String.concat "" m.
Definition texts (l : list message) : list string := text_of <$> l.

(** ** Lemmas *)

Lemma texts_app l l' : texts (l ++ l') = texts l ++ texts l'.
Proof. apply fmap_app. Qed.

Lemma texts_blocks {A} (f : nat → A → list message) l :
  texts (concat (imap f l)) = concat (imap (λ i x, texts (f i x)) l).
Proof.
  revert f. induction l as [|x l IH]; intros f; [done|].
  rewrite !imap_cons. cbn [concat]. by rewrite texts_app, IH.
Qed.

Lemma flat_map_blocks {A} (f : A → list message) l : flat_map f l = concat (imap (λ _, f) l).
Proof. induction l as [|x l IH]; [done|]. rewrite imap_cons. cbn. by rewrite IH. Qed.

(** Blocks of lines that determine their element up to [R], and that start
    with a line that the text after them does not start with, determine their
    elements and that text. *)
Lemma blocks_inj {A} (R : A → A → Prop) (P : string → Prop) (l l' : list A) :
  ∀ (f : nat → A → list string) t t',
  (∀ i x, ∃ b r, f i x = b :: r ∧ P b) →
  (∀ i x y r r', f i x ++ r = f i y ++ r' → R x y ∧ r = r') →
  (∀ b, head t = Some b → ¬ P b) → (∀ b, head t' = Some b → ¬ P b) →
  concat (imap f l) ++ t = concat (imap f l') ++ t' → Forall2 R l l' ∧ t = t'.
Proof.
  revert l'. induction l as [|x l IH]; intros [|y l'] f t t' Hhd Hinj Ht Ht' H.
  - by split.
  - destruct (Hhd O y) as (b & r & Hy & Hb). rewrite imap_cons in H. cbn in H. rewrite Hy in H.
    by destruct (Ht b); [rewrite H|].
  - destruct (Hhd O x) as (b & r & Hx & Hb). rewrite imap_cons in H. cbn in H. rewrite Hx in H.
    by destruct (Ht' b); [rewrite <- H|].
  - rewrite !imap_cons in H. cbn [concat] in H. rewrite <- !app_assoc in H.
    destruct (Hinj _ _ _ _ _ H) as [Hxy H'].
    destruct (IH l' (f ∘ S) t t') as [Hl ->]; try done; [intros i; apply Hhd|intros i; apply Hinj|].
    split; [by constructor|done].
Qed.

Lemma print_bool_inj b b' : print_bool b = print_bool b' → b = b'.
Proof. by destruct b, b'. Qed.

Lemma data_type_value_inj d d' :
  PrintModbus.data_type_value d = PrintModbus.data_type_value d' → d = d'.
Proof. by destruct d, d'. Qed.

Ltac no_empty :=
  repeat match goal with
  | E : context [String.append EmptyString ?s] |- _ => change (String.append EmptyString s) with s in E
  end.

(** What two equal lists of lines say, line by line. *)
Ltac lines_inj H :=
  injection H; clear H; intros; no_empty;
  repeat match goal with
  | E : (dec ?i +:+ _)%string = (dec ?i +:+ _)%string |- _ =>
      apply (inj (String.append (dec i))) in E; injection E; clear E; intros; no_empty
  end;
  repeat match goal with
  | E : dec _ = dec _ |- _ => apply dec_inj in E
  | E : print_bool _ = print_bool _ |- _ => apply print_bool_inj in E
  | E : PrintModbus.data_type_value _ = PrintModbus.data_type_value _ |- _ => apply data_type_value_inj in E
  | E : (if ?b then _ else _) = (if ?b' then _ else _) |- _ =>
      assert (b = b') by (by destruct b, b'); clear E
  end.

Section Modbus.
Import ConfigDataModbus.
Context (print_float : spec_float → string).

(** Points and devices that cannot be told apart by their texts: the floats
    are only known as they are printed. *)
Definition point_alike (p p' : data_points_t) : Prop :=
  name p = name p' ∧ address p = address p' ∧ type p = type p' ∧ data_type p = data_type p' ∧
  print_float (scale p) = print_float (scale p') ∧ print_float (offset p) = print_float (offset p').

Definition device_alike (c c' : t) : Prop :=
  device_id c = device_id c' ∧ Type_ c = Type_ c' ∧ tcp c = tcp c' ∧ rtu c = rtu c' ∧
  slave_addr c = slave_addr c' ∧ cmd_interval c = cmd_interval c' ∧ max_retries c = max_retries c' ∧
  retry_interval c = retry_interval c' ∧ byte_order c = byte_order c' ∧
  Forall2 point_alike (data_points c) (data_points c').

#[export] Instance point_alike_equiv : Equivalence point_alike.
Proof. split; unfold point_alike; [intros p|intros p q|intros p q r]; intuition congruence. Qed.

#[export] Instance device_alike_equiv : Equivalence device_alike.
Proof.
  split; unfold device_alike.
  - intros c. split_and!; reflexivity.
  - intros c c' (? & ? & ? & ? & ? & ? & ? & ? & ? & ?). split_and!; by symmetry.
  - intros c c' c'' (? & ? & ? & ? & ? & ? & ? & ? & ? & ?) (? & ? & ? & ? & ? & ? & ? & ? & ? & ?).
    split_and!; by etrans.
Qed.

Lemma point_lines_inj p p' r r' :
  texts (PrintModbus.data_point_lines print_float p) ++ r =
  texts (PrintModbus.data_point_lines print_float p') ++ r' → point_alike p p' ∧ r = r'.
Proof. intros H. lines_inj H. done. Qed.

Lemma point_lines_alike p p' :
  point_alike p p' →
  texts (PrintModbus.data_point_lines print_float p) = texts (PrintModbus.data_point_lines print_float p').
Proof. intros (H1 & H2 & H3 & H4 & H5 & H6). cbn. by rewrite H1, H2, H3, H4, H5, H6. Qed.

(** Devices that are alike print alike. *)
#[export] Instance to_string_proper : Proper (device_alike ==> eq) (λ c, texts (PrintModbus.to_string print_float c)).
Proof.
  intros c c' (H1 & H2 & H3 & H4 & H5 & H6 & H7 & H8 & H9 & Hp). unfold PrintModbus.to_string.
  rewrite H1, H2, H3, H4, H5, H6, H7, H8, H9, !texts_app. f_equal.
  induction Hp as [|p p' l l' Hpp _ IH]; [done|].
  cbn [flat_map]. by rewrite !texts_app, IH, (point_lines_alike _ _ Hpp).
Qed.

(** The messages of a Modbus device say everything about it, but for the
    floats of its points, of which they have the text: two devices print the
    same messages exactly when they agree on all the rest. *)
Theorem modbus_print_determines c c' :
  texts (PrintModbus.to_string print_float c) = texts (PrintModbus.to_string print_float c') ↔
  device_alike c c'.
Proof.
  split; [|intros Hc; exact (to_string_proper _ _ Hc)].
  unfold PrintModbus.to_string. rewrite !texts_app, !flat_map_blocks, !texts_blocks. intros H.
  lines_inj H. rewrite <- (app_nil_r (concat (imap _ (data_points c)))) in H.
  rewrite <- (app_nil_r (concat (imap _ (data_points c')))) in H.
  apply (blocks_inj point_alike (λ _, True)) in H as [Hp _]; try done.
  - destruct c as [? ? [] [] ? ? ? ? ? ?], c' as [? ? [] [] ? ? ? ? ? ?]. simpl in *. subst.
    by split_and!.
  - intros i x. eexists _, _. by split.
  - intros i x y r r'. apply point_lines_inj.
Qed.
End Modbus.

Section IEC61850.
Import ConfigDataIEC61850.

(** Two IEC 61850 devices that print the same messages are the same. *)
Theorem iec61850_print_determines c c' :
  texts (PrintIEC61850.to_string c) = texts (PrintIEC61850.to_string c') → c = c'.
Proof.
  unfold PrintIEC61850.to_string. rewrite !texts_app. intros H. lines_inj H.
  unfold texts in H. rewrite <- !list_fmap_compose in H.
  assert (data_point_filters c = data_point_filters c').
  { apply (inj (fmap (text_of ∘ λ filter, [filter]))). exact H. }
  destruct c, c'. simpl in *. by subst.
Qed.
End IEC61850.

Section IEC104.
Import ConfigDataIEC104.

Lemma report_lines_inj i r r' t t' :
  texts (PrintIEC104.report_lines i r) ++ t = texts (PrintIEC104.report_lines i r') ++ t' → r = r' ∧ t = t'.
Proof. intros H. lines_inj H. destruct r, r'. simpl in *. by subst. Qed.

Lemma point104_lines_inj i d d' t t' :
  texts (PrintIEC104.data_point_lines i d) ++ t = texts (PrintIEC104.data_point_lines i d') ++ t' →
  d = d' ∧ t = t'.
Proof. intros H. lines_inj H. destruct d, d'. simpl in *. by subst. Qed.

(** Two IEC 104 devices that print the same messages are the same, with the
    same reports and the same points in the same order. *)
Theorem iec104_print_determines c c' :
  texts (PrintIEC104.to_string c) = texts (PrintIEC104.to_string c') → c = c'.
Proof.
  unfold PrintIEC104.to_string. rewrite !texts_app, !texts_blocks. intros H. lines_inj H.
  apply (blocks_inj eq (λ b, String.prefix "communication.reports" b = true)) in H as [Hr H].
  - lines_inj H. rewrite <- (app_nil_r (concat (imap _ (data_points c)))) in H.
    rewrite <- (app_nil_r (concat (imap _ (data_points c')))) in H.
    apply (blocks_inj eq (λ _, True)) in H as [Hd _]; try done.
    + apply list_eq_Forall2 in Hr, Hd.
      destruct c as [? ? [] [] [[] []] [] [] ?], c' as [? ? [] [] [[] []] [] [] ?].
      simpl in *. by subst.
    + intros i x. eexists _, _. by split.
    + intros i x y r r'. apply point104_lines_inj.
  - intros i x. eexists _, _. split; reflexivity.
  - intros i x y r r'. apply report_lines_inj.
  - intros b [= <-]. done.
  - intros b [= <-]. done.
Qed.
End IEC104.

(** ** On the logger *)

(** The texts that a sink wrote. *)
Definition written (kd : sink_kind) (l : list log_event) : list string :=
  omap (λ e, match e with
             | Wrote kd' _ msg => if decide (kd' = kd) then Some msg else None
             | Flushed _ => None
             end) l.

(** A logger that has been set up, with the sink [kd] once and nothing that
    holds back its informations. *)
Definition logs_info (kd : sink_kind) (s : LoggerImpl) : Prop :=
  ∃ lg sl, logger_ s = Some lg ∧ lg_async lg = false ∧ (lg_level lg ≤ lv_info)%Z ∧
    filter (λ p : sink_kind * Z, p.1 = kd) (sinks_of s lg) = [(kd, sl)] ∧ (sl ≤ lv_info)%Z.

Lemma written_app kd l l' : written kd (l ++ l') = written kd l ++ written kd l'.
Proof. apply omap_app. Qed.

Lemma written_flush kd sinks : written kd (flush_events sinks) = [].
Proof. induction sinks as [|p sinks IH]; [done|]. exact IH. Qed.

Lemma written_sinks kd l msg (sinks : list (sink_kind * Z)) :
  written kd (flat_map (λ p, if (l <? p.2)%Z then [] else [Wrote p.1 l msg]) sinks) =
  flat_map (λ p, if (l <? p.2)%Z then [] else [msg]) (filter (λ p : sink_kind * Z, p.1 = kd) sinks).
Proof.
  induction sinks as [|[k sl] sinks IH]; [done|].
  rewrite filter_cons. cbn [flat_map fst snd]. rewrite written_app, IH.
  destruct (l <? sl)%Z eqn:Hl; case_decide; cbn; rewrite ?Hl; [done..| |].
  - by rewrite decide_True.
  - by rewrite decide_False.
Qed.

Lemma info_written kd m s : logs_info kd s →
  ∃ s', LogStream lv_info m s = (Done tt, s') ∧ logs_info kd s' ∧
    written kd (emitted s') = written kd (emitted s) ++ [text_of m].
Proof.
  intros (lg & sl & Hlg & Has & Hl & Hf & Hsl). unfold LogStream, log, modifyS. rewrite Hlg, Has.
  eexists. split; [reflexivity|]. split; [exists lg, sl; done|].
  cbn [emitted set_emitted]. rewrite written_app. f_equal. unfold log_events.
  rewrite (proj2 (Z.ltb_ge _ _) Hl), written_app, written_sinks, Hf. cbn.
  rewrite (proj2 (Z.ltb_ge _ _) Hsl). case_match; [by rewrite written_flush|done].
Qed.

(** Printing ends, and the sink has then got exactly the messages of the
    device, in order. *)
Theorem messages_written kd l s : logs_info kd s →
  ∃ s', print_messages l s = (Done tt, s') ∧ logs_info kd s' ∧
    written kd (emitted s') = written kd (emitted s) ++ texts l.
Proof.
  revert s. induction l as [|m l IH]; intros s Hs.
  - exists s. split; [done|]. by rewrite app_nil_r.
  - destruct (info_written kd m s Hs) as (s1 & H1 & Hs1 & Hw1).
    destruct (IH s1 Hs1) as (s2 & H2 & Hs2 & Hw2). exists s2. split.
    + unfold print_messages. cbn [iterS]. by rewrite (prog_bind_eq _ _ _ _ _ H1).
    + split; [done|]. by rewrite Hw2, Hw1, <- app_assoc.
Qed.
