(* ===== verification/Gateway.v ===== *)
(** * The program

    [core/main.cc] as it stands: the logger, the configuration, the defaults
    of the Redis clients, the 104 server in a detached thread, and the test
    client that talks to it.  The thread and the main function share nothing
    but the connection, so each acts on its own part of the process; a
    schedule says who runs next while the main function sleeps in
    [testFunction].  (The Modbus application, the IEC 61850 clients and the
    IEC 61850 server are commented out in [main]; what they would do with the
    loaded configuration is [ConfiguredModbus] below.) *)

From Stdlib Require Import ZArith String SpecFloat Lia.
From stdpp Require Import base tactics option list numbers strings gmap sorting.
From S2P Require Import Prelude Text Store Redis Yaml Config ConfigDocument ModbusApi ModbusPoll AppModbus.
From S2P Require Import Iec104Server Iec104Client Logger.

(** ** The process *)

Record process := {
  p_log : LoggerImpl;                       (* Logger::Instance() *)
  p_config : option ConfigData;             (* Config::getInstance() *)
  p_redis : redis_defaults;                 (* the statics of DRDSDataRedis *)
  p_server : option (IEC104Server * Z);     (* of the thread, with its counter *)
  p_queue : list CS101_ASDU;                (* the event queue of its slave *)
  p_client : option IEC104Client            (* of testFunction *)
}.

Definition p_set_log (l : LoggerImpl) (p : process) : process :=
  {| p_log := l; p_config := p_config p; p_redis := p_redis p; p_server := p_server p;
     p_queue := p_queue p; p_client := p_client p |}.
Definition p_set_config (c : option ConfigData) (p : process) : process :=
  {| p_log := p_log p; p_config := c; p_redis := p_redis p; p_server := p_server p;
     p_queue := p_queue p; p_client := p_client p |}.
Definition p_set_redis (d : redis_defaults) (p : process) : process :=
  {| p_log := p_log p; p_config := p_config p; p_redis := d; p_server := p_server p;
     p_queue := p_queue p; p_client := p_client p |}.
Definition p_set_server (s : option (IEC104Server * Z)) (p : process) : process :=
  {| p_log := p_log p; p_config := p_config p; p_redis := p_redis p; p_server := s;
     p_queue := p_queue p; p_client := p_client p |}.
Definition p_set_client (c : option IEC104Client) (p : process) : process :=
  {| p_log := p_log p; p_config := p_config p; p_redis := p_redis p; p_server := p_server p;
     p_queue := p_queue p; p_client := c |}.
Definition p_set_queue (q : list CS101_ASDU) (p : process) : process :=
  {| p_log := p_log p; p_config := p_config p; p_redis := p_redis p; p_server := p_server p;
     p_queue := q; p_client := p_client p |}.

(** The process at the start of [main]. *)
Definition process_start : process :=
  {| p_log := LoggerImpl_new; p_config := None; p_redis := setDefaultConnectionInfo "" "" 0;
     p_server := None; p_queue := []; p_client := None |}.

Definition on_log {A} (m : prog LoggerImpl A) : prog process A := λ p,
  let '(o, l) := m (p_log p) in (o, p_set_log l p).
Definition on_config {A} (m : prog (option ConfigData) A) : prog process A := λ p,
  let '(o, c) := m (p_config p) in (o, p_set_config c p).

(** *** Severity levels *)

Definition lv_info : Z := 2%Z.

Section Main.
Context `{Cs101} `{YamlConvert}.
(** The environment: variables, processors, the log file, the configuration
    file, the network of the two 104 endpoints. *)
Context (getenv : string → option string) (from_str : string → Z) (cores : Z).
Context (file_sink_fails : string → Z → Z → option exn) (LoadFile : string → outcome Yaml).
Context (slave_ok thread_ok create_ok : bool).
(** [CS104_Slave_enqueueASDU]: the event queue of the given size after it. *)
Context (slave_enqueue : Z → list CS101_ASDU → CS101_ASDU → list CS101_ASDU).

Definition config_path : string := "/home/wwk/workspaces/IEC61850DataGateway/config/config.yaml".

(** [IEC104Client client("127.0.0.1", 2404, "", -1, 5, 3, 1000)]. *)
Definition test_client : client_params :=
  {| server_ip_ := "127.0.0.1"; server_port_ := 2404; local_ip_ := ""; local_port_ := -1;
     t0_ := 5; originator_address_ := 3; gi_interval_ms_ := 1000 |}.

(** The thread of [server104Test] up to its loop: [None] when it has returned. *)
Definition server_thread (now : Z) : prog process unit := λ p,
  match (test_points now;; Iec104Server.start slave_ok thread_ok) (IEC104Server_new test_config) with
  | (Done true, s) => (Done tt, p_set_server (Some (s, 1000%Z)) p)
  | (Done false, _) => (Done tt, p_set_server None p)
  | (Threw e, _) => (Undef "std::terminate: exception in a thread", p)
  | (Undef w, _) => (Undef w, p)
  end.

(** What happens while [testFunction] sleeps: the thread goes round its loop,
    the periodic thread of the server sends, the client's library and worker
    act, and a message in the queue of the server reaches the client's
    callback. *)
Inductive step : Type :=
| MServer (now : Z)
| MPeriodic
| MClient (ev : client_event)
| MDeliver (i : nat).

Definition sent_asdu (o : sent) : option CS101_ASDU :=
  match o with SentASDU None a => Some a | _ => None end.

(** The messages that the server has given to its slave for the event queue. *)
Definition handed (p : process) : list CS101_ASDU :=
  match p_server p with Some (s, _) => omap sent_asdu (out s) | None => [] end.

(** The size of the event queue: the constructor creates its slave with
    [CS104_Slave_create(config_.maxConnections, config_.maxQueueSize)]. *)
Definition queue_size (p : process) : Z :=
  match p_server p with Some (s, _) => maxConnections (config_ s) | None => 0 end.

(** The messages given since there were [n] come into the queue. *)
Definition enqueue_since (n : nat) (p : process) : process :=
  p_set_queue (foldl (slave_enqueue (queue_size p)) (p_queue p) (drop n (handed p))) p.

Definition on_server {A} (m : Z → prog IEC104Server (A * Z)) : prog process unit := λ p,
  match p_server p with
  | None => (Done tt, p)
  | Some (s, v) =>
      match m v s with
      | (Done r, s') => (Done tt, p_set_server (Some (s', r.2)) p)
      | (Threw e, s') => (Undef "std::terminate: exception in a thread", p_set_server (Some (s', v)) p)
      | (Undef w, s') => (Undef w, p_set_server (Some (s', v)) p)
      end
  end.

(** A call on the client, which is in scope. *)
Definition on_client {A} (m : prog IEC104Client A) : prog process A := λ p,
  match p_client p with
  | None => (Undef "no client", p)
  | Some c => let '(o, c') := m c in (o, p_set_client (Some c') p)
  end.

Definition main_step (e : step) : prog process unit :=
  match e with
  | MServer now => on_server (λ v, v' ← test_iter now v; mret (tt, v'))
  | MPeriodic =>
      p ← getS;
      on_server (λ v, _ ← periodicSendTask_iter; mret (tt, v));;
      modifyS (enqueue_since (length (handed p)))
  | MClient ev => on_client (client_handle ev)
  | MDeliver i =>
      p ← getS;
      match p_queue p !! i with
      | None => mret tt
      | Some a =>
          modifyS (p_set_queue (delete i (p_queue p)));;
          _ ← liftO (asduReceivedHandler (Some log_asdu) a); mret tt
      end
  end.

(** [testFunction]: the client, its start, the sleep, its stop, and the
    destructor at the end of the scope. *)
Definition main_testFunction (schedule : list step) : prog process unit :=
  c ← liftO (IEC104Client_new create_ok test_client);
  modifyS (p_set_client (Some c));;
  started ← on_client client_start;
  (if (started : bool) then on_log (LogStream lv_info ["Client started, connecting to 127.0.0.1:2404"])
   else mret tt);;
  iterS schedule main_step;;
  on_client client_stop;;
  on_log (LogStream lv_info ["Client stopped"]);;
  on_client client_delete;;
  modifyS (p_set_client None).

Definition newline : Ascii.ascii := Ascii.ascii_of_nat 10.

(** [while (std::cin.get() != '\n')]: does it end?  When the input ends without
    a newline, [get] answers EOF for ever. *)
Fixpoint wait_enter (input : string) : bool :=
  match input with
  | EmptyString => false
  | String c rest => if Ascii.eqb c newline then true else wait_enter rest
  end.

(** The exit code; [None]: the program never gets past the loop on its input. *)
Definition main (now : Z) (schedule : list step) (input : string) : prog process (option Z) :=
  on_log (setFlushOnLevel lv_info);;
  _ ← on_log (Init getenv from_str cores file_sink_fails "log/myapp.log" console lv_info 60 5 false);
  ok ← on_config (init LoadFile config_path);
  if negb ok then
    on_log (LogStream lv_err ["Failed to load configuration."]);; mret (Some (-1)%Z)
  else
    modifyS (p_set_redis (setDefaultConnectionInfo "" "127.0.0.1" 6380));;
    server_thread now;;
    main_testFunction schedule;;
    if wait_enter input then
      on_log (LogStream lv_info ["Press Enter to stop the program..."]);;
      mret (Some 0%Z)
    else mret None.
End Main.

Lemma on_client_run {A} (m : prog IEC104Client A) p c x c' :
  p_client p = Some c → m c = (Done x, c') → on_client m p = (Done x, p_set_client (Some c') p).
Proof. intros Hc Hm. unfold on_client. by rewrite Hc, Hm. Qed.

Lemma on_log_run {A} (m : prog LoggerImpl A) p x l :
  m (p_log p) = (Done x, l) → on_log m p = (Done x, p_set_log l p).
Proof. intros Hm. unfold on_log. by rewrite Hm. Qed.

Lemma on_config_run {A} (m : prog (option ConfigData) A) p x c :
  m (p_config p) = (Done x, c) → on_config m p = (Done x, p_set_config c p).
Proof. intros Hm. unfold on_config. by rewrite Hm. Qed.

(** ** The log of the program *)

(** The logger that [main] creates: synchronous, with a console sink of level
    [cl], flushed at every message of level info or more. *)
Definition console_log (cl : Z) (l : LoggerImpl) : Prop :=
  ∃ lg, logger_ l = Some lg ∧ lg_async lg = false ∧ lg_level lg = lv_trace ∧ lg_flush_on lg = lv_info ∧
    sinks_of l lg = [(ConsoleSink, cl)].

Lemma console_log_line cl lv msgs p :
  console_log cl (p_log p) → (cl ≤ lv)%Z → (lv_info ≤ lv < lv_off)%Z →
  ∃ l', on_log (LogStream lv msgs) p = (Done tt, p_set_log l' p) ∧ console_log cl l' ∧
    emitted l' = emitted (p_log p) ++ [Wrote ConsoleSink lv (String.concat "" msgs); Flushed ConsoleSink].
Proof.
  intros (lg & Hlg & Has & Hlv & Hfl & Hs) Hcl Hr. unfold on_log, LogStream, log, modifyS. rewrite Hlg, Has.
  eexists. split; [done|]. split; [by exists lg|].
  simpl. unfold log_events. rewrite Hlv, Hfl, Hs. unfold lv_trace, lv_info, lv_off in *.
  rewrite (proj2 (Z.ltb_ge lv 0)) by lia. simpl. rewrite (proj2 (Z.ltb_ge lv cl)) by lia.
  unfold should_flush, lv_off. rewrite (proj2 (Z.leb_le 2 lv)), (proj2 (Z.eqb_neq lv 6)) by lia. done.
Qed.

(** ** The table of the test server *)

(** Its lowest address, 100, holds a scaled value. *)
Definition table (s : IEC104Server) : Prop :=
  server_ok s ∧ (∀ a dp, dataPoints_ s !! a = Some dp → (100 ≤ a)%Z) ∧
  ∃ dp, dataPoints_ s !! 100%Z = Some dp ∧ type dp = MEASURED_VALUE_SCALED.

Section Table.
Context `{Cs101}.

Lemma table_update now a v s :
  table s → ∃ s', updateDataPoint now a v s = (Done tt, s') ∧ table s' ∧
    running_ s' = running_ s ∧ out s' = out s ∧ config_ s' = config_ s.
Proof.
  intros (Hok & Hlow & dp0 & H0 & Ht0). unfold updateDataPoint, modifyS.
  assert (Hid : table s) by (split_and!; [done|done|by exists dp0]).
  destruct (dataPoints_ s !! a) as [dp|] eqn:Ha; [|by exists s].
  case_decide as Ht; [|by exists s].
  eexists. split; [done|]. split; [|done]. split; [|split].
  - apply server_ok_insert; [done|]. destruct (Hok a dp Ha) as [? ?]. by split.
  - intros b dp'. simpl. intros [[-> _]|[_ Hb]]%lookup_insert_Some; [by eapply Hlow|by eapply Hlow].
  - simpl. destruct (decide (a = 100%Z)) as [->|Hne].
    + rewrite lookup_insert_eq. eexists. split; [done|]. simpl. congruence.
    + rewrite lookup_insert_ne by done. by exists dp0.
Qed.

Lemma table_iter now v s :
  table s → ∃ s', test_iter now v s = (Done (wrap_s 16 (v + 1)), s') ∧ table s' ∧
    running_ s' = running_ s ∧ out s' = out s ∧ config_ s' = config_ s.
Proof.
  intros Ht. unfold test_iter.
  destruct (table_update now 100 (scaledValue v) s Ht) as (s1 & E1 & T1 & R1 & O1 & C1).
  rewrite (prog_bind_eq _ _ _ _ _ E1). cbv zeta.
  destruct (table_update now 101 (scaledValue (wrap_s 16 (wrap_s 16 (v + 1) + 1000))) s1 T1)
    as (s2 & E2 & T2 & R2 & O2 & C2). rewrite (prog_bind_eq _ _ _ _ _ E2).
  destruct (table_update now 200 (singlePointValue (Z.rem (wrap_s 16 (v + 1)) 2 =? 0)%Z) s2 T2)
    as (s3 & E3 & T3 & R3 & O3 & C3). rewrite (prog_bind_eq _ _ _ _ _ E3).
  exists s3. split_and!; [done|done|congruence..].
Qed.

(** The first point that a message carries. *)
Lemma table_first s : table s → ∃ dp rest z, all_points s = dp :: rest ∧ value dp = scaledValue z.
Proof.
  intros (Hok & Hlow & dp0 & H0 & Ht0). unfold all_points.
  pose proof (proj2 (elem_of_std_map_items (dataPoints_ s) 100%Z dp0) H0) as Hin.
  destruct (std_map_items (dataPoints_ s)) as [|[a dp] l] eqn:Hl; [by apply elem_of_nil in Hin|].
  assert (dataPoints_ s !! a = Some dp) as Ha.
  { apply elem_of_std_map_items. rewrite Hl. by left. }
  assert (a = 100%Z) as ->.
  { pose proof (Hlow a dp Ha). pose proof (std_map_items_sorted (dataPoints_ s)) as Hs. rewrite Hl in Hs.
    apply StronglySorted_inv in Hs as [_ Hs]. rewrite Forall_forall in Hs.
    apply elem_of_cons in Hin as [[= -> _]|Hin]; [lia|]. specialize (Hs _ Hin). unfold key_le in Hs.
    simpl in Hs. lia. }
  assert (dp = dp0) as -> by congruence. destruct (Hok _ _ Ha) as [_ Hv]. rewrite Ht0 in Hv.
  destruct (value dp0) as [z|] eqn:Hz; [|done]. by exists dp0, l.*2, z.
Qed.
End Table.

(** ** While the main function sleeps *)

(** The event queue of the slave: a message is added at its end; it never has
    more than its size, and what it has was given to it; while there is space
    nothing is lost, and a full queue stays full. *)
Definition enqueue_ok (slave_enqueue : Z → list CS101_ASDU → CS101_ASDU → list CS101_ASDU) : Prop :=
  ∀ n q a, (0 < n)%Z →
    slave_enqueue n q a ⊆ q ++ [a] ∧
    ((Z.of_nat (length q) ≤ n)%Z → length (slave_enqueue n q a) = Nat.min (S (length q)) (Z.to_nat n)).

Definition is_delivery (e : step) : bool := match e with MDeliver _ => true | _ => false end.
Definition is_periodic (e : step) : bool := match e with MPeriodic => true | _ => false end.
Definition is_update (e : step) : bool := match e with MServer _ => true | _ => false end.

(** The client's library reports no loss of the connection. *)
Definition undisturbed (e : step) : bool := match e with MClient ev => no_loss ev | _ => true end.

Definition misread (a : CS101_ASDU) : Prop := log_asdu a = Undef "scaled value read as a single point".

(** After [k] rounds of the thread and [m] periodic messages. *)
Definition serving (k m : nat) (p : process) : Prop :=
  ∃ s c, p_server p = Some (s, wrap_s 16 (1000 + Z.of_nat k)) ∧ p_client p = Some c ∧ steady c ∧
    table s ∧ running_ s = true ∧ maxConnections (config_ s) = 5%Z ∧ length (handed p) = m ∧
    length (p_queue p) = Nat.min m 5 ∧ Forall misread (p_queue p).

Section Serving.
Context `{Cs101Ok}.
Context (slave_enqueue : Z → list CS101_ASDU → CS101_ASDU → list CS101_ASDU).
Context (Henqueue : enqueue_ok slave_enqueue).

(** The parts of the process that a step leaves alone. *)
Definition same_rest (p p' : process) : Prop :=
  p_log p' = p_log p ∧ p_config p' = p_config p ∧ p_redis p' = p_redis p.

Lemma serving_step k m e p :
  serving k m p → undisturbed e = true → is_delivery e = false →
  asdu_memory = true → (0 < asdu_capacity MEASURED_VALUE_SCALED)%nat →
  ∃ p', main_step slave_enqueue e p = (Done tt, p') ∧ same_rest p p' ∧
    serving (if is_update e then S k else k) (if is_periodic e then S m else m) p'.
Proof.
  intros (s & c & Hs & Hc & Hst & Ht & Hr & Hmax & Hlen & Hql & Hq) Hun Hdel Hmem Hcap.
  destruct e as [now| |ev|i]; simpl in Hun, Hdel; try discriminate; cbn [main_step is_update is_periodic].
  - destruct (table_iter now (wrap_s 16 (1000 + Z.of_nat k)) s Ht) as (s' & Hrun & Ht' & Hr' & Ho' & Hc').
    unfold on_server. rewrite Hs. cbv beta. rewrite (prog_bind_eq _ _ _ _ _ Hrun).
    eexists. split; [done|]. split; [done|]. exists s', c. simpl. split_and!; try done.
    + rewrite wrap_s_add_l by lia. do 3 f_equal. lia.
    + congruence.
    + congruence.
    + unfold handed in *. simpl. rewrite Hs in Hlen. by rewrite Ho'.
  - destruct (table_first s Ht) as (dp & rest & z & Hpts & Hz). destruct Ht as (Hok & Hlow & dp0 & H0' & Ht0).
    assert (dataPoints_ s ≠ ∅) as Hne by (intros He; by rewrite He in H0').
    pose proof (sendDataPoints_ok s None CS101_COT_PERIODIC Hok Hmem Hne) as Hsend.
    set (a := table_asdu s CS101_COT_PERIODIC) in *.
    set (p1 := p_set_server (Some (send (SentASDU None a) s, wrap_s 16 (1000 + Z.of_nat k))) p).
    assert (on_server (λ v, _ ← periodicSendTask_iter; mret (tt, v)) p = (Done tt, p1)) as Hon.
    { unfold on_server. rewrite Hs. unfold periodicSendTask_iter.
      unfold mbind, prog_bind, getS. rewrite Hr, Hsend. done. }
    erewrite prog_bind_eq by reflexivity. rewrite (prog_bind_eq _ _ _ _ _ Hon).
    assert (handed p1 = handed p ++ [a]) as Hhanded.
    { unfold handed, p1. simpl. rewrite Hs. by rewrite omap_app. }
    assert (queue_size p1 = 5%Z) as Hsize by (unfold queue_size, p1; simpl; exact Hmax).
    destruct (Henqueue 5%Z (p_queue p) a ltac:(lia)) as [Hsub Hlen'].
    specialize (Hlen' ltac:(lia)).
    assert (enqueue_since slave_enqueue (length (handed p)) p1 =
            p_set_queue (slave_enqueue 5%Z (p_queue p) a) p1) as Hnew.
    { unfold enqueue_since. rewrite Hhanded, Hsize, drop_app_length. done. }
    eexists. split; [unfold modifyS; rewrite Hnew; reflexivity|]. split; [done|].
    eexists _, c. split; [reflexivity|]. split; [done|]. split; [done|].
    split; [split_and!; [done|done|by exists dp0]|]. split; [done|]. split; [done|].
    split; [|split].
    + change (handed (p_set_queue _ p1)) with (handed p1). rewrite Hhanded, length_app, Hlen. simpl. lia.
    + simpl. rewrite Hlen', Hql. lia.
    + simpl. apply Forall_forall. intros b Hb. apply Hsub in Hb. rewrite Forall_forall in Hq.
      apply elem_of_app in Hb as [Hb|Hb]; [by apply Hq|]. apply list_elem_of_singleton in Hb as ->.
      by eapply log_asdu_misreads.
  - destruct (step_steady ev Hun c Hst) as ([] & c' & Hrun & Hst').
    unfold on_client. rewrite Hc, Hrun. eexists. split; [done|]. split; [done|].
    exists s, c'. split_and!; done.
Qed.

Definition count (f : step → bool) (es : list step) : nat := length (List.filter f es).

Lemma serving_steps es k m p :
  serving k m p → forallb undisturbed es = true → forallb (negb ∘ is_delivery) es = true →
  asdu_memory = true → (0 < asdu_capacity MEASURED_VALUE_SCALED)%nat →
  ∃ p', iterS es (main_step slave_enqueue) p = (Done tt, p') ∧ same_rest p p' ∧
    serving (k + count is_update es) (m + count is_periodic es) p'.
Proof.
  intros Hp Hun Hdel Hmem Hcap. revert k m p Hp. induction es as [|e es IH]; intros k m p Hp.
  { exists p. unfold count. simpl. by rewrite !Nat.add_0_r. }
  cbn [forallb] in Hun, Hdel. apply andb_prop in Hun as [He Hun], Hdel as [Hd Hdel].
  apply negb_true_iff in Hd.
  destruct (serving_step k m e p Hp He Hd Hmem Hcap) as (p1 & Hrun1 & (A1 & A2 & A3) & Hp1).
  destruct (IH Hun Hdel _ _ _ Hp1) as (p2 & Hrun2 & (B1 & B2 & B3) & Hp2).
  exists p2. cbn [iterS]. rewrite (prog_bind_eq _ _ _ _ _ Hrun1). split; [done|].
  split; [split_and!; congruence|]. unfold count in *. cbn [List.filter].
  destruct (is_update e), (is_periodic e); cbn [length]; rewrite ?Nat.add_succ_r; done.
Qed.
End Serving.

(** ** [main] up to the sleep of the test client *)

Section Startup.
Context `{Cs101Ok} `{YamlConvert}.
Context (getenv : string → option string) (from_str : string → Z) (cores : Z).
Context (fails : string → Z → Z → option exn) (LoadFile : string → outcome Yaml).
Context (slave_enqueue : Z → list CS101_ASDU → CS101_ASDU → list CS101_ASDU).

Let cl : Z := GetLogLevelFromEnv getenv from_str "LOG_CONSOLE_LEVEL" lv_info.

(** The program's logger is always created: it is synchronous and on the console. *)
Lemma main_logger :
  ∃ l, setFlushOnLevel lv_info LoggerImpl_new = (Done tt, set_config 0 None lv_info LoggerImpl_new) ∧
    Init getenv from_str cores fails "log/myapp.log" console lv_info 60 5 false
      (set_config 0 None lv_info LoggerImpl_new) = (Done true, l) ∧
    console_log cl l ∧ emitted l = [].
Proof.
  eexists. split; [done|]. split; [reflexivity|]. split; [|done].
  eexists. split; [reflexivity|]. split; [done|]. split; [done|]. split; [done|].
  unfold sinks_of. simpl. by rewrite lookup_insert_eq.
Qed.

(** The thread starts the server on its table. *)
Lemma server_thread_ok now p :
  ∃ s, server_thread true true now p = (Done tt, p_set_server (Some (s, 1000%Z)) p) ∧
    table s ∧ running_ s = true ∧ out s = [] ∧ maxConnections (config_ s) = 5%Z.
Proof.
  eexists. split; [reflexivity|]. split; [|done]. split; [|split].
  - simpl. repeat (apply map_Forall_insert_2; [done|]). apply map_Forall_empty.
  - intros a dp. simpl.
    repeat (intros [[<- _]|[_ Ha]]%lookup_insert_Some; [lia|revert Ha]). by rewrite lookup_empty.
  - eexists. split; [simpl; do 3 (rewrite lookup_insert_ne by done); apply lookup_insert_eq|done].
Qed.

(** [testFunction] from the sleep on. *)
Definition after_start (sched : list step) : prog process unit :=
  iterS sched (main_step slave_enqueue);;
  on_client client_stop;;
  on_log (LogStream lv_info ["Client stopped"%string]);;
  on_client client_delete;;
  modifyS (p_set_client None).

Lemma testFunction_start sched p :
  console_log cl (p_log p) → (cl ≤ lv_info)%Z →
  ∃ c l, main_testFunction true slave_enqueue sched p = after_start sched (p_set_log l (p_set_client (Some c) p)) ∧
    steady c ∧ console_log cl l ∧
    emitted l = emitted (p_log p) ++
      [Wrote ConsoleSink lv_info "Client started, connecting to 127.0.0.1:2404"; Flushed ConsoleSink].
Proof.
  intros Hl Hcl. unfold main_testFunction.
  rewrite (prog_bind_eq _ _ p (client0 test_client) p) by done.
  rewrite (prog_bind_eq _ _ p tt (p_set_client (Some (client0 test_client)) p)) by done.
  destruct (steady_start (client0 test_client)) as (c & Hrun & Hst); [done|by repeat split|].
  assert (Hon := on_client_run client_start (p_set_client (Some (client0 test_client)) p) _ _ _ eq_refl Hrun).
  rewrite (prog_bind_eq _ _ _ _ _ Hon).
  destruct (console_log_line cl lv_info ["Client started, connecting to 127.0.0.1:2404"%string]
    (p_set_client (Some c) (p_set_client (Some (client0 test_client)) p))) as (l & Hline & Hl' & Hem); [done|done|unfold lv_info, lv_off; lia|].
  exists c, l. split; [|split; [done|split; [done|exact Hem]]].
  erewrite prog_bind_eq by exact Hline. done.
Qed.


(** What [main] has done when the test client goes to sleep. *)
Lemma main_asleep c now sched input :
  init LoadFile config_path None = (Done true, c) → (cl ≤ lv_info)%Z →
  ∃ p, main getenv from_str cores fails LoadFile true true true slave_enqueue now sched input process_start =
      (after_start sched;;
       if wait_enter input then
         on_log (LogStream lv_info ["Press Enter to stop the program..."%string]);; mret (Some 0%Z)
       else mret None) p ∧
    serving 0 0 p ∧ p_config p = c ∧ p_redis p = setDefaultConnectionInfo "" "127.0.0.1" 6380 ∧
    console_log cl (p_log p) ∧
    emitted (p_log p) = [Wrote ConsoleSink lv_info "Client started, connecting to 127.0.0.1:2404";
                         Flushed ConsoleSink].
Proof.
  intros Hinit Hcl. destruct main_logger as (l & Hset & Hnew & Hl & Hem). unfold main.
  rewrite (prog_bind_eq _ _ _ _ _ (on_log_run _ process_start _ _ Hset)).
  rewrite (prog_bind_eq _ _ _ _ _ (on_log_run _ (p_set_log _ process_start) _ _ Hnew)).
  rewrite (prog_bind_eq _ _ _ _ _ (on_config_run _ (p_set_log l (p_set_log (set_config 0 None lv_info LoggerImpl_new) process_start))
    _ _ Hinit)). cbn [negb].
  erewrite prog_bind_eq by reflexivity.
  set (p1 := p_set_redis _ _). destruct (server_thread_ok now p1) as (s & Hthr & Ht & Hr & Ho & Hmax).
  rewrite (prog_bind_eq _ _ _ _ _ Hthr).
  destruct (testFunction_start sched (p_set_server (Some (s, 1000%Z)) p1)) as (cc & l' & Hrun & Hst & Hl' & Hem');
    [done|done|].
  exists (p_set_log l' (p_set_client (Some cc) (p_set_server (Some (s, 1000%Z)) p1))).
  split; [by apply prog_bind_cong|]. split; [|split_and!; try done; simpl; rewrite Hem'; simpl; by rewrite Hem].
  exists s, cc. split_and!; try done. unfold handed. simpl. by rewrite Ho.
Qed.
End Startup.

(** ** The Modbus application on the loaded configuration *)

Section ConfiguredModbus.
Context `{LibmodbusOk}.

(** The bus lets a TCP device connect: the three calls of the constructor
    succeed on its first context. *)
Definition accepts_device (p : ModbusParams) (w w' : bus_state) : Prop :=
  ∃ w1 w2, mb_new_tcp (c_str (ip_ p)) (ModbusApi.port_ p) w = (true, w1) ∧
    mb_set_slave 0 (slaveAddr_ p) w1 = (true, w2) ∧ mb_connect 0 w2 = (true, w').

Lemma construct_connects p w w' :
  type_ p = TCP → accepts_device p w w' →
  ∃ a, construct p w = (Done tt, a) ∧ ctx_ a = Some 0%nat ∧ bus a = w' ∧ ctx_live a.
Proof.
  intros Ht (w1 & w2 & H1 & H2 & H3). destruct (construct_ok p w) as (a & Hc & Hlive & _).
  exists a. split; [done|]. revert Hc. unfold construct, createModbusContext, mbind, prog_bind, getS.
  cbn [params]. rewrite Ht. unfold new_ctx. cbn [bus next_ctx set_bus set_live]. rewrite H1.
  rewrite on_ctx_live by (simpl; set_solver). cbn [bus set_bus set_live next_ctx]. rewrite H2. cbn [fst snd negb].
  rewrite on_ctx_live by (simpl; set_solver). cbn [bus set_bus set_live next_ctx]. rewrite H3. cbn [fst snd negb].
  intros [= <-]. done.
Qed.

(** The polling task of a device, for one cycle. *)
Lemma device_task_once {K} `{KvStore K} `{FloatText} std_sort cd id c (app : AppModbus) (k k' : K) a a' :
  AppModbus.running_ app = true → getDeviceApi app id = Some a → ctx_live a → getModbus cd id = Some c →
  processContinuousRegisters std_sort c (a, k) = (Done tt, (a', k')) →
  ∃ app', device_task std_sort 1 (Some cd) id (app, k) = (Done tt, (app', k')).
Proof.
  intros Hr Ha Hlive Hc Hpoll. unfold device_task. cbn [fst snd]. rewrite Ha.
  rewrite (set_debug_live a Hlive).
  rewrite Hc. cbn [poll_loop]. unfold mbind, prog_bind, getS. cbn [fst AppModbus.running_ set_device]. rewrite Hr.
  unfold poll_device, getDeviceApi. cbn [fst snd devices_ set_device]. rewrite lookup_insert_eq, Hpoll.
  by eexists.
Qed.

(** A TCP device that [run] accepts. *)
Definition tcp_device (c : ConfigDataModbus.t) : Prop :=
  ConfigDataModbus.Type_ c = "TCP"%string ∧ ConfigDataModbus.device_id c ≠ ""%string ∧
  ConfigDataModbus.ip (ConfigDataModbus.tcp c) ≠ ""%string ∧
  (0 < ConfigDataModbus.port (ConfigDataModbus.tcp c))%Z.

Lemma tcp_device_valid c : tcp_device c → modbus_valid c = Some TCP.
Proof.
  intros (Ht & Hid & Hip & Hport). unfold modbus_valid. rewrite Ht. cbn [orb].
  apply String.eqb_neq in Hid, Hip. rewrite Hid, Hip. simpl.
  by rewrite (proj2 (Z.leb_gt _ 0)) by lia.
Qed.

Lemma described_points_ok `{YamlConvertOk} y c :
  describes_modbus y c → Forall Config.point_ok (ConfigDataModbus.data_points c).
Proof.
  intros (_ & _ & _ & _ & _ & _ & _ & _ & (items & _ & Hall)). induction Hall as [|i p items ps Hp _ IH]; constructor; [|done].
  destruct Hp as (_ & (t & _ & Ha) & _ & _ & _ & _ & Hu & Hs). split; [|done].
  by eapply decode_uint16_range.
Qed.
End ConfiguredModbus.

(** ** Properties *)

(** C1: from the text of the configuration file to the reader of Redis: a file
    describes Modbus devices; the configuration is loaded from it, the Modbus
    application is started on it and the task of one of its TCP devices, which
    accepts the connection and answers the block read of its consecutive
    registers, runs one cycle against a reachable Redis server.  Every one of
    these steps succeeds, and a client opened with the defaults that main sets
    then reads each 16-bit point of the file as the register the device
    answered, signed or unsigned as the file says. *)
Theorem configured_register_reaches_reader `{LibmodbusOk} `{RedisServerOk} `{FloatTextOk} `{YamlConvertOk}
    std_sort `{!StdSortOk std_sort} initial_bus hash_order LoadFile path y ms ss fs c l k regs w w' :
  let d := setDefaultConnectionInfo "" "127.0.0.1" 6380 in
  let _ := redis_store d in
  let params := modbus_params TCP c in
  let id := ConfigDataModbus.device_id c in
  LoadFile path = Done y → describes_file y ms ss fs → NoDup (ConfigDataModbus.device_id <$> ms) →
  c ∈ ms → tcp_device c → (∀ m, hash_order m ≡ₚ map_to_list m) →
  accepts_device params (initial_bus params) w →
  l ≠ [] → ConfigDataModbus.data_points c ≡ₚ l → contiguous l → names_ok id l →
  NoDup (ConfigDataModbus.name <$> l) →
  mb_read_registers 0 (seg_addr l) (regs_total l) w = (Some regs, w') →
  ctxs k = ∅ → srv_up (net k) →
  ∃ cd app app' k',
    init LoadFile path None = (Done true, Some cd) ∧
    run initial_bus hash_order (Some cd) AppModbus_new = (Done true, app) ∧
    device_task std_sort 1 (Some cd) id (app, k) = (Done tt, (app', k')) ∧ ctxs k' = ∅ ∧
    (∀ l1 p l2, l = l1 ++ p :: l2 →
       let key := redisKey id (ConfigDataModbus.name p) in
       let reg := nth (Z.to_nat (regs_total l1)) regs 0%Z in
       (ConfigDataModbus.data_type p = ConfigDataModbus.INT16 →
          ((make_default d;; getDInt key) k').1 = Done (wrap_s 16 reg)) ∧
       (ConfigDataModbus.data_type p = ConfigDataModbus.UINT16 →
          ((make_default d;; getUDInt key) k').1 = Done (wrap_u 16 reg))).
Proof.
  intros d kv params id Hload Hdesc Hnd Hc Htcp Horder Hacc Hne Hperm Hcont Hnames Hndn Hread Hk Hup.
  pose proof (init_described LoadFile path y ms ss fs Hload Hdesc) as Hinit.
  set (cd := loaded ms ss fs) in *.
  assert (modbus cd !! id = Some c) as Hcd by (by apply by_id_unique).
  assert (config_ok cd) as Hok.
  { pose proof (init_ok LoadFile path None I) as Hok. by rewrite Hinit in Hok. }
  destruct (run_table initial_bus hash_order cd Horder Hok) as (app & Hrun & Hrunning & Hdev & _).
  { intros He. by rewrite He in Hcd. }
  destruct (construct_connects params (initial_bus params) w) as (a & Ha & Hh & Hbus & Hlive); [done|done|].
  assert (getDeviceApi app id = Some a) as Hget.
  { unfold getDeviceApi. rewrite Hdev, Hcd. simpl. unfold device_for. rewrite (tcp_device_valid c Htcp). simpl.
    fold params. by rewrite Ha. }
  assert (Forall Config.point_ok l) as Hpts.
  { rewrite <- Hperm. destruct Hdesc as (Hm & _). destruct Hm as [[_ ->]|(items & _ & Hall)]; [by apply elem_of_nil in Hc|].
    apply list_elem_of_lookup in Hc as [i Hi]. destruct (Forall2_lookup_r _ _ _ _ _ Hall Hi) as (yc & _ & Hyc).
    by eapply described_points_ok. }
  destruct (poll_then_read std_sort d c l a 0 k regs w') as (k' & Hpoll & Hk' & Hreads); try done.
  { by rewrite Hbus. }
  destruct (device_task_once std_sort cd id c app k k' a _ Hrunning Hget Hlive Hcd Hpoll) as (app' & Htask).
  by exists cd, app, app', k'.
Qed.

(** A configuration that cannot be loaded ends the program: main logs the
    failure as an error, flushed, and returns -1 without having set the Redis
    defaults, started the server or created the client. *)
Theorem main_config_failure `{Cs101} `{YamlConvert} getenv from_str cores fails LoadFile sok tok cok enqueue c now sched input :
  init LoadFile config_path None = (Done false, c) →
  (GetLogLevelFromEnv getenv from_str "LOG_CONSOLE_LEVEL" lv_info ≤ lv_err)%Z →
  ∃ p, main getenv from_str cores fails LoadFile sok tok cok enqueue now sched input process_start = (Done (Some (-1)%Z), p) ∧
    emitted (p_log p) = [Wrote ConsoleSink lv_err "Failed to load configuration."; Flushed ConsoleSink] ∧
    p_config p = c ∧ p_server p = None ∧ p_client p = None ∧ p_redis p = p_redis process_start.
Proof.
  intros Hinit Hcl. destruct (main_logger getenv from_str cores fails) as (l & Hset & Hnew & Hl & Hem).
  unfold main.
  rewrite (prog_bind_eq _ _ _ _ _ (on_log_run _ process_start _ _ Hset)).
  rewrite (prog_bind_eq _ _ _ _ _ (on_log_run _ (p_set_log _ process_start) _ _ Hnew)).
  rewrite (prog_bind_eq _ _ _ _ _ (on_config_run _ (p_set_log l (p_set_log (set_config 0 None lv_info LoggerImpl_new) process_start))
    _ _ Hinit)). cbn [negb].
  set (p0 := p_set_config _ _).
  destruct (console_log_line _ lv_err ["Failed to load configuration."%string] p0 Hl Hcl)
    as (l' & Hline & _ & Hem'); [unfold lv_info, lv_err, lv_off; lia|].
  rewrite (prog_bind_eq _ _ _ _ _ Hline). eexists. split; [done|]. simpl.
  split; [|done]. by rewrite Hem'; simpl; rewrite Hem.
Qed.


(** C38: the first message that arrives ends the good behaviour of main: the
    lowest address of the test server is a scaled value, the callback of the
    test client reads every element as a single point, so as soon as one of
    the messages that wait in the event queue of the slave (which holds five
    of those that the server has given to it) is delivered, whatever the order
    of the steps before, what main does is undefined. *)
Theorem main_first_delivery `{Cs101Ok} `{YamlConvert} getenv from_str cores fails LoadFile enqueue c now pre i post input :
  enqueue_ok enqueue →
  init LoadFile config_path None = (Done true, c) →
  (GetLogLevelFromEnv getenv from_str "LOG_CONSOLE_LEVEL" lv_info ≤ lv_info)%Z →
  forallb undisturbed pre = true → forallb (negb ∘ is_delivery) pre = true →
  asdu_memory = true → (0 < asdu_capacity MEASURED_VALUE_SCALED)%nat →
  (i < Nat.min (count is_periodic pre) 5)%nat →
  (main getenv from_str cores fails LoadFile true true true enqueue now (pre ++ MDeliver i :: post) input process_start).1
    = Undef "scaled value read as a single point".
Proof.
  intros Henq Hinit Hcl Hun Hdel Hmem Hcap Hi.
  destruct (main_asleep getenv from_str cores fails LoadFile enqueue c now (pre ++ MDeliver i :: post) input Hinit Hcl)
    as (p & Hmain & Hserv & _). rewrite Hmain.
  destruct (serving_steps enqueue Henq pre 0 0 p Hserv Hun Hdel Hmem Hcap) as (p1 & Hrun & _ & Hserv1).
  destruct Hserv1 as (s & cc & _ & _ & _ & _ & _ & _ & _ & Hlen & Hq).
  assert (Hundef : (iterS (pre ++ MDeliver i :: post) (main_step enqueue) p).1 =
    Undef "scaled value read as a single point").
  { rewrite iterS_app, (prog_bind_eq _ _ _ _ _ Hrun).
    destruct (lookup_lt_is_Some_2 (p_queue p1) i ltac:(simpl in Hlen; lia)) as [a Ha].
    rewrite Forall_forall in Hq. specialize (Hq a (list_elem_of_lookup_2 _ _ _ Ha)).
    cbn [iterS main_step]. unfold mbind, prog_bind, getS, liftO, asduReceivedHandler.
    by rewrite Ha, Hq. }
  unfold after_start.
  destruct (iterS (pre ++ MDeliver i :: post) (main_step enqueue) p) as [o p2] eqn:Hit. simpl in Hundef. subst o.
  unfold mbind, prog_bind. by rewrite Hit.
Qed.

(** ** Witnesses *)

Definition demo_getenv (v : string) : option string := None.

(** A full queue loses its oldest message. *)
Definition demo_enqueue (n : Z) (q : list CS101_ASDU) (a : CS101_ASDU) : list CS101_ASDU :=
  if (Z.of_nat (length q) <? n)%Z then q ++ [a] else drop 1 (q ++ [a]).

Lemma demo_enqueue_ok : enqueue_ok demo_enqueue.
Proof.
  intros n q a Hn. unfold demo_enqueue. destruct (Z.ltb_spec (Z.of_nat (length q)) n) as [Hlt|Hge].
  - split; [done|]. intros _. rewrite length_app. cbn [length]. lia.
  - split; [intros b Hb; by apply (subseteq_drop 1)|]. intros Hle. rewrite length_drop, length_app. cbn [length]. lia.
Qed.

Lemma main_config_failure_witness :
  ∃ p, main (H := demo_cs101) (H0 := demo_convert) demo_getenv (λ _, 0%Z) 4 (λ _ _ _, None)
         (λ _, Threw BadFile) true true true demo_enqueue 0 [MServer 0] "" process_start = (Done (Some (-1)%Z), p) ∧
       p_server p = None ∧
       emitted (p_log p) = [Wrote ConsoleSink lv_err "Failed to load configuration."; Flushed ConsoleSink].
Proof.
  destruct (main_config_failure (H := demo_cs101) (H0 := demo_convert) demo_getenv (λ _, 0%Z) 4 (λ _ _ _, None)
    (λ _, Threw BadFile) true true true demo_enqueue None 0 [MServer 0] "") as (p & Hrun & Hem & _ & Hs & _).
  - reflexivity.
  - unfold GetLogLevelFromEnv, demo_getenv, lv_info, lv_err. lia.
  - exists p. split; [exact Hrun|]. split; [exact Hs|exact Hem].
Defined.

Definition demo_schedule : list step :=
  [MServer 1; MPeriodic; MClient (CLibrary CS104_CONNECTION_OPENED); MClient (CWorker 2 true);
   MServer 3; MPeriodic].

(** Some letters, then the enter key. *)
Definition demo_input : string := "ok" +:+ String newline "".


Lemma main_first_delivery_witness :
  (main (H := demo_cs101) (H0 := demo_convert) demo_getenv (λ _, 0%Z) 4 (λ _ _ _, None)
     (λ _, Done demo_file) true true true demo_enqueue 0 (demo_schedule ++ [MDeliver 1]) demo_input process_start).1
    = Undef "scaled value read as a single point".
Proof.
  destruct (init (H := demo_convert) (λ _, Done demo_file) config_path None) as [o c] eqn:Hinit.
  assert (o = Done true) as -> by (exact (f_equal fst (eq_sym Hinit))).
  apply (main_first_delivery (H := demo_cs101) (H0 := demo_cs101_ok) (H1 := demo_convert) demo_getenv
    (λ _, 0%Z) 4 (λ _ _ _, None) (λ _, Done demo_file) demo_enqueue c 0 demo_schedule 1 [] demo_input demo_enqueue_ok Hinit);
    try reflexivity; simpl; unfold count; simpl; lia.
Defined.

(** The device of [ConfigDocument.demo_file] on a bus whose register [a] holds
    [10 * a]. *)
Lemma configured_register_reaches_reader_witness :
  ∃ cd app' k',
    init (H := demo_convert) (λ _, Done demo_file) "config.yaml" None = (Done true, Some cd) ∧
    (∃ app, device_task (H := demo_libmodbus true) (H0 := redis_store (H0 := demo_server false (Some false))
        (setDefaultConnectionInfo "" "127.0.0.1" 6380)) (H1 := demo_float) demo_sort 1 (Some cd) "modbus_1"
        (app, demo_idle) = (Done tt, (app', k'))) ∧
    ((make_default (setDefaultConnectionInfo "" "127.0.0.1" 6380);; getUDInt "modbus_data:modbus_1:Temperature") k').1
      = Done 10%Z.
Proof.
  edestruct (@configured_register_reaches_reader (demo_libmodbus true) (demo_libmodbus_ok true) _ _ demo_server_ok _
    demo_float_ok demo_convert demo_convert_ok demo_sort demo_sort_ok (λ _ a, (10 * a)%Z) map_to_list
    (λ _, Done demo_file) "config.yaml" demo_file [demo_device] [] [] demo_device
    (ConfigDataModbus.data_points demo_device) demo_idle [0; 10]%Z)
    as (cd & app & app' & k' & Hinit & _ & Htask & _ & Hread); try reflexivity.
  - split; [|split; [left; split; reflexivity|left; split; reflexivity]].
    right. eexists. split; [eexists; split; reflexivity|]. constructor; [|constructor].
    apply (proj1 (parse_modbus_device_iff _ _)). vm_compute. reflexivity.
  - apply NoDup_singleton.
  - by apply list_elem_of_singleton.
  - repeat split; discriminate.
  - eexists _, _. repeat split; reflexivity.
  - discriminate.
  - simpl. repeat constructor.
  - split; [reflexivity|]. repeat constructor.
  - apply (bool_decide_unpack _). vm_compute. exact I.
  - reflexivity.
  - exists cd, app', k'. split; [exact Hinit|]. split; [by exists app|].
    destruct (Hread [ConfigDataModbus.Build_data_points_t "Status" 0 "holding_register"
      ConfigDataModbus.UINT16 (S754_zero false) (S754_zero false)]
      (ConfigDataModbus.Build_data_points_t "Temperature" 1 "holding_register"
      ConfigDataModbus.UINT16 (S754_zero false) (S754_zero false)) [] eq_refl) as [_ Hu].
    by apply Hu.
Defined.
