(* ===== verification/SimpleServer104.v ===== *)
(** * The sample IEC 60870-5-104 server

    [sample/cs104_server/simple_server.c]: the handlers that it installs, with
    the ASDUs and information objects that they allocate, and [main].  lib60870
    is the class [Lib60870]: whether an information object fits an ASDU is its
    decision, of which what the header documents is [Lib60870Ok].  At the end
    the gateway's own client meets this server. *)

From Stdlib Require Import ZArith String Lia.
From stdpp Require Import base tactics option list numbers strings gmap.
From S2P Require Import Prelude Iec104Server Config Iec104Client.
#[local] Open Scope Z_scope.

(** An information object: those of the gateway's server, and bit strings. *)
Inductive object : Type :=
| Plain (io : InformationObject)
| BitString32 (ioa value : Z).

Inductive object_kind : Type := K_Scaled | K_Single | K_BitString.
#[export] Instance object_kind_eq_dec : EqDecision object_kind.
Proof. solve_decision. Defined.

Definition kind_of (o : object) : object_kind :=
  match o with
  | Plain (MeasuredValueScaled _ _ _) => K_Scaled
  | Plain (SinglePointInformation _ _ _) => K_Single
  | BitString32 _ _ => K_BitString
  end.
Definition address_of (o : object) : Z :=
  match o with Plain io => io_address io | BitString32 a _ => a end.

Record ASDU := {
  isSequence : bool;
  cot : Z;
  oa : Z;
  ca : Z;
  objects : list object
}.

Class Lib60870 : Type := {
  asdu_accepts_object : ASDU → object → bool;
  kind_capacity : bool → object_kind → nat     (* by [isSequence] *)
}.

(** "true when added, false when there not enough space left in the ASDU or IO
    cannot be added to the sequence because of wrong" address; "only
    information objects of the exact same type can be added". *)
Class Lib60870Ok `{Lib60870} : Prop := {
  object_same_kind a o o' :
    asdu_accepts_object a o = true → head (objects a) = Some o' → kind_of o = kind_of o';
  object_has_space a o :
    Forall (λ o', kind_of o' = kind_of o) (objects a) →
    (length (objects a) < kind_capacity (isSequence a) (kind_of o))%nat →
    (isSequence a = true → ∀ o', last (objects a) = Some o' → address_of o = address_of o' + 1) →
    asdu_accepts_object a o = true
}.

(** A received ASDU, as the handlers look at it. *)
Record message := {
  typeID : Z;
  msg_cot : Z;
  element : option (Z * bool)     (* address and state of the first command *)
}.

(** What leaves the server. *)
Inductive answer104 : Type :=
| ActCon (con : nat) (negative : bool)
| ActTerm (con : nat)
| Send (con : nat) (a : ASDU)
| SendBack (con : nat) (newCot : Z).

(** The process: the flags, the live ASDUs and information objects that the
    program has to release, and the answers. *)
Record simple104 := {
  running : bool;
  connected : bool;
  asdus : Z;
  ios : Z;
  answers : list answer104
}.

Definition simple104_new : simple104 :=
  {| running := true; connected := false; asdus := 0; ios := 0; answers := [] |}.

Definition count (da di : Z) (s : simple104) : simple104 :=
  {| running := running s; connected := connected s; asdus := asdus s + da; ios := ios s + di;
     answers := answers s |}.
Definition reply (x : answer104) (s : simple104) : simple104 :=
  {| running := running s; connected := connected s; asdus := asdus s; ios := ios s;
     answers := answers s ++ [x] |}.
Definition set_flags (r c : bool) (s : simple104) : simple104 :=
  {| running := r; connected := c; asdus := asdus s; ios := ios s; answers := answers s |}.

Section Server.
Context `{Lib60870}.

Definition asdu_create (sequence : bool) : prog simple104 ASDU :=
  modifyS (count 1 0);;
  mret {| isSequence := sequence; cot := CS101_COT_INTERROGATED_BY_STATION; oa := 0; ca := 1;
          objects := [] |}.
Definition asdu_destroy : prog simple104 unit := modifyS (count (-1) 0).

(** [X_create(NULL, ...)] allocates; [X_create(io, ...)] reuses [io]. *)
Definition io_create (o : object) : prog simple104 object := modifyS (count 0 1);; mret o.
Definition io_reuse (o : object) : prog simple104 object := mret o.
Definition io_destroy : prog simple104 unit := modifyS (count 0 (-1)).

(** The object is encoded into the ASDU; the result is ignored. *)
Definition asdu_add (a : ASDU) (o : object) : ASDU :=
  if asdu_accepts_object a o then
    {| isSequence := isSequence a; cot := cot a; oa := oa a; ca := ca a; objects := objects a ++ [o] |}
  else a.

(** ** Handlers *)

Definition clockSyncHandler (now newTime : Z) : bool * Z := (true, now).

Definition scaled (a v : Z) : object := Plain (MeasuredValueScaled a v IEC60870_QUALITY_GOOD).
Definition single (a : Z) (b : bool) : object := Plain (SinglePointInformation a b IEC60870_QUALITY_GOOD).

Definition interrogationHandler (con : nat) (qoi : Z) : prog simple104 bool :=
  modifyS (count 1 0);;                                     (* CS101_ASDU_clone *)
  (if qoi =? 20 then
     modifyS (reply (ActCon con false));;
     newAsdu ← asdu_create false;
     o ← io_create (scaled 100 (-1));
     let newAsdu := asdu_add newAsdu o in
     o ← io_reuse (scaled 101 23);
     let newAsdu := asdu_add newAsdu o in
     o ← io_reuse (scaled 102 2300);
     let newAsdu := asdu_add newAsdu o in
     io_destroy;;
     modifyS (reply (Send con newAsdu));;
     asdu_destroy;;
     newAsdu ← asdu_create false;
     o ← io_create (single 104 true);
     let newAsdu := asdu_add newAsdu o in
     o ← io_reuse (single 105 false);
     let newAsdu := asdu_add newAsdu o in
     io_destroy;;
     modifyS (reply (Send con newAsdu));;
     asdu_destroy;;
     newAsdu ← asdu_create true;
     o ← io_create (single 300 true);
     let newAsdu := asdu_add newAsdu o in
     o ← io_reuse (single 301 false);
     let newAsdu := asdu_add newAsdu o in
     o ← io_reuse (single 302 true);
     let newAsdu := asdu_add newAsdu o in
     o ← io_reuse (single 303 false);
     let newAsdu := asdu_add newAsdu o in
     o ← io_reuse (single 304 true);
     let newAsdu := asdu_add newAsdu o in
     o ← io_reuse (single 305 false);
     let newAsdu := asdu_add newAsdu o in
     o ← io_reuse (single 306 true);
     let newAsdu := asdu_add newAsdu o in
     o ← io_reuse (single 307 false);
     let newAsdu := asdu_add newAsdu o in
     io_destroy;;
     modifyS (reply (Send con newAsdu));;
     asdu_destroy;;
     newAsdu ← asdu_create false;
     o ← io_create (BitString32 500 43690);                 (* 0xaaaa *)
     let newAsdu := asdu_add newAsdu o in
     io_destroy;;
     modifyS (reply (Send con newAsdu));;
     asdu_destroy;;
     modifyS (reply (ActTerm con))
   else modifyS (reply (ActCon con true)));;
  mret true.

Definition asduHandler (con : nat) (asdu : message) : prog simple104 bool :=
  if typeID asdu =? C_SC_NA_1 then
    if msg_cot asdu =? CS101_COT_ACTIVATION then
      match element asdu with
      | Some (a, _) =>
          modifyS (count 0 1);;
          let newCot := if a =? 5000 then CS101_COT_ACTIVATION_CON else CS101_COT_UNKNOWN_IOA in
          io_destroy;;
          modifyS (reply (SendBack con newCot));;
          mret true
      | None => mret true
      end
    else modifyS (reply (SendBack con CS101_COT_UNKNOWN_COT));; mret true
  else mret false.

Definition connectionRequestHandler (ipAddress : string) : bool := true.

Inductive peer_event : Type :=
| CS104_CON_EVENT_CONNECTION_OPENED | CS104_CON_EVENT_CONNECTION_CLOSED
| CS104_CON_EVENT_ACTIVATED | CS104_CON_EVENT_DEACTIVATED.

Definition connectionEventHandler (event : peer_event) : prog simple104 unit :=
  match event with
  | CS104_CON_EVENT_CONNECTION_OPENED => modifyS (λ s, set_flags (running s) true s)
  | _ => mret tt
  end.

Definition sigint_handler : prog simple104 unit := modifyS (λ s, set_flags false (connected s) s).

(** ** The program *)

(** What the library and the system do while [main] sleeps. *)
Inductive event104 : Type :=
| XInterrogation (con : nat) (qoi : Z)
| XAsdu (con : nat) (asdu : message)
| XConnection (event : peer_event)
| XSigint.

Definition handle104 (ev : event104) : prog simple104 unit :=
  match ev with
  | XInterrogation con qoi => _ ← interrogationHandler con qoi; mret tt
  | XAsdu con asdu => _ ← asduHandler con asdu; mret tt
  | XConnection event => connectionEventHandler event
  | XSigint => sigint_handler
  end.

(** The calls on the slave, in order. *)
Inductive slave_call : Type :=
| CS104_Slave_create | CS104_Slave_setHandlers | CS104_Slave_start | CS104_Slave_stop
| CS104_Slave_destroy.

(** The loop, with the events of each second of sleep; the rest of the seconds
    are left when it ends, and [None] when it has not ended. *)
Fixpoint main_loop (seconds : list (list event104)) : prog simple104 (option (list (list event104))) :=
  s ← getS;
  if negb (running s) then mret (Some seconds)
  else
    match seconds with
    | [] => mret None
    | evs :: seconds' => iterS evs handle104;; main_loop seconds'
    end.

(** [main]: the calls, and whether it came to its end.  [start_ok] is the
    answer of [CS104_Slave_isRunning]; [before] happens before the loop. *)
Definition main (start_ok : bool) (before : list event104) (seconds : list (list event104))
    : prog simple104 (list slave_call * bool) :=
  iterS before handle104;;
  let begin := [CS104_Slave_create; CS104_Slave_setHandlers; CS104_Slave_start] in
  if negb start_ok then mret (begin ++ [CS104_Slave_destroy], true)
  else
    rest ← main_loop seconds;
    match rest with
    | None => mret (begin, false)
    | Some rest =>
        iterS (hd [] rest) handle104;;        (* the last second of sleep *)
        mret (begin ++ [CS104_Slave_stop; CS104_Slave_destroy], true)
    end.
End Server.

(** ** Lemmas *)

(** What the interrogation sends, when everything fits. *)
Definition station_asdu (sequence : bool) (os : list object) : ASDU :=
  {| isSequence := sequence; cot := CS101_COT_INTERROGATED_BY_STATION; oa := 0; ca := 1; objects := os |}.

Definition station : list (bool * list object) :=
  [(false, [scaled 100 (-1); scaled 101 23; scaled 102 2300]);
   (false, [single 104 true; single 105 false]);
   (true, [single 300 true; single 301 false; single 302 true; single 303 false;
           single 304 true; single 305 false; single 306 true; single 307 false]);
   (false, [BitString32 500 43690])].

Section Lemmas.
Context `{Lib60870}.

(** The additions to one ASDU, in order. *)
Definition fill (sequence : bool) (os : list object) : ASDU := foldl asdu_add (station_asdu sequence []) os.

(** The handler: its answers are these additions, and only the clone stays. *)
Lemma interrogation_run con qoi s :
  interrogationHandler con qoi s =
    (Done true,
     {| running := running s; connected := connected s; asdus := asdus s + 1; ios := ios s;
        answers := answers s ++
          if qoi =? 20 then
            [ActCon con false] ++ ((λ p, Send con (fill p.1 p.2)) <$> station) ++ [ActTerm con]
          else [ActCon con true] |}).
Proof.
  assert (∃ s', interrogationHandler con qoi s = (Done true, s') ∧
    running s' = running s ∧ connected s' = connected s ∧ asdus s' = asdus s + 1 ∧ ios s' = ios s ∧
    answers s' = answers s ++
      if qoi =? 20 then
        [ActCon con false] ++ ((λ p, Send con (fill p.1 p.2)) <$> station) ++ [ActTerm con]
      else [ActCon con true]) as (s' & -> & Hr & Hc & Ha & Hi & Hans).
  { unfold interrogationHandler. destruct (qoi =? 20).
    - eexists. split; [gw_run ltac:(fun _ => reflexivity)|]. cbn -[asdu_add Z.add app].
      split_and!; try done; try lia. by rewrite <- !app_assoc.
    - eexists. split; [gw_run ltac:(fun _ => reflexivity)|]. simpl. split_and!; try done; lia. }
  destruct s'. simpl in *. by subst.
Qed.

(** Objects of one kind that fit, with consecutive addresses in a sequence. *)
Fixpoint consecutive (os : list object) : bool :=
  match os with
  | o :: (o' :: _) as os' => (address_of o' =? address_of o + 1) && consecutive os'
  | _ => true
  end.

Lemma fill_ok `{!Lib60870Ok} sequence k os :
  Forall (λ o, kind_of o = k) os → (length os ≤ kind_capacity sequence k)%nat →
  (sequence = true → consecutive os = true) →
  fill sequence os = station_asdu sequence os.
Proof.
  unfold fill. induction os as [|o os IH] using rev_ind; intros Hk Hlen Hseq; [done|].
  rewrite foldl_app. cbn [foldl]. apply Forall_app in Hk as [Hk Ho]. apply Forall_cons in Ho as [Ho _].
  rewrite length_app in Hlen. simpl in Hlen.
  assert (∀ os o, consecutive (os ++ [o]) = true → consecutive os = true ∧
    ∀ o', last os = Some o' → address_of o = address_of o' + 1) as Hcon.
  { clear. induction os as [|o1 os IH]; intros o Hc; [done|]. destruct os as [|o2 os].
    - simpl in *. gw_bool. split; [done|]. by intros o' [= <-].
    - cbn [app consecutive] in *. apply andb_prop in Hc as [Ha Hc].
      destruct (IH _ Hc) as [Hc' Hl]. by rewrite Ha. }
  rewrite IH; [|done|lia|intros Hs; by apply (Hcon os o (Hseq Hs))].
  unfold asdu_add. rewrite object_has_space; [done| | |]; simpl.
  - eapply Forall_impl; [exact Hk|]. simpl. intros. congruence.
  - rewrite Ho. lia.
  - intros Hs. by apply (Hcon os o (Hseq Hs)).
Qed.

Lemma station_filled `{!Lib60870Ok} con :
  (∀ b k, (8 ≤ kind_capacity b k)%nat) →
  ((λ p, Send con (fill p.1 p.2)) <$> station) = ((λ p, Send con (station_asdu p.1 p.2)) <$> station).
Proof.
  intros Hcap. unfold station. cbn [fmap list_fmap fst snd].
  assert (∀ sequence k os, Forall (λ o, kind_of o = k) os → (length os ≤ 8)%nat →
    (sequence = true → consecutive os = true) → fill sequence os = station_asdu sequence os) as Hfill.
  { intros sequence k os Hk Hlen Hseq. apply (fill_ok _ k); [done| |done].
    specialize (Hcap sequence k). lia. }
  rewrite (Hfill false K_Scaled), (Hfill false K_Single), (Hfill true K_Single),
    (Hfill false K_BitString); try done; try (by repeat constructor); simpl; lia.
Qed.

Ltac ended := eexists; split; [reflexivity|]; simpl; split_and!; lia || done.

Lemma handle104_total ev s : ∃ s', handle104 ev s = (Done tt, s') ∧ ios s' = ios s ∧
  asdus s' = asdus s + (match ev with XInterrogation _ _ => 1 | _ => 0 end) ∧
  running s' = match ev with XSigint => false | _ => running s end.
Proof.
  destruct ev as [con qoi|con asdu|[]|]; cbn [handle104].
  - rewrite (prog_bind_eq _ _ _ _ _ (interrogation_run con qoi s)). eexists. by split.
  - unfold asduHandler. destruct (typeID asdu =? C_SC_NA_1); [|ended].
    destruct (msg_cot asdu =? _); [|ended]. destruct (element asdu) as [[a b]|]; ended.
  - ended.
  - ended.
  - ended.
  - ended.
  - ended.
Qed.

Definition is_interrogation (ev : event104) : bool :=
  match ev with XInterrogation _ _ => true | _ => false end.
Definition is_sigint (ev : event104) : bool := match ev with XSigint => true | _ => false end.

Lemma events_total evs s : ∃ s', iterS evs handle104 s = (Done tt, s') ∧ ios s' = ios s ∧
  asdus s' = asdus s + Z.of_nat (length (List.filter is_interrogation evs)) ∧
  running s' = running s && negb (existsb is_sigint evs).
Proof.
  revert s. induction evs as [|ev evs IH]; intros s.
  { exists s. split; [done|]. split; [done|]. simpl. split; [lia|by rewrite andb_true_r]. }
  destruct (handle104_total ev s) as (s1 & Hrun & Hi & Ha & Hr).
  destruct (IH s1) as (s2 & Hrun2 & Hi2 & Ha2 & Hr2). exists s2.
  rewrite (iterS_cons _ _ _ _ _ Hrun). split; [done|]. split; [congruence|].
  rewrite Ha2, Ha, Hr2, Hr. simpl. destruct ev; simpl; split; try lia; done || by rewrite andb_false_r.
Qed.

(** The loop ends at the first second in which the signal came. *)
Lemma main_loop_total seconds s : ∃ rest s', main_loop seconds s = (Done rest, s') ∧
  (rest = None ↔ running s = true ∧ existsb is_sigint (concat seconds) = false).
Proof.
  revert s. induction seconds as [|evs seconds IH]; intros s; cbn [main_loop concat];
    (erewrite prog_bind_eq by reflexivity); destruct (running s) eqn:Hr; simpl.
  - exists None, s. split; [done|]. naive_solver.
  - exists (Some []), s. split; [done|]. naive_solver.
  - destruct (events_total evs s) as (s1 & Hrun & _ & _ & Hr1). rewrite (prog_bind_eq _ _ _ _ _ Hrun).
    destruct (IH s1) as (rest & s2 & Hloop & Hrest). exists rest, s2. split; [done|].
    rewrite Hrest, Hr1, Hr, existsb_app. simpl. destruct (existsb is_sigint evs); simpl; naive_solver.
  - exists (Some (evs :: seconds)), s. split; [done|]. naive_solver.
Qed.
End Lemmas.

(** ** Properties *)

(** C34: a station interrogation (qualifier 20) is answered completely and in
    order when ASDUs have room for eight objects: confirmation, three scaled
    values, two single points, a sequence of eight single points, a bit string,
    termination; any other qualifier gets a negative confirmation and nothing
    else.  Every object and every ASDU created for it is released, but the copy
    of the request that the handler makes is not. *)
Theorem station_interrogation `{Lib60870Ok} con qoi s :
  (∀ b k, (8 ≤ kind_capacity b k)%nat) →
  ∃ s', interrogationHandler con qoi s = (Done true, s') ∧
    answers s' = answers s ++
      (if qoi =? 20 then
         [ActCon con false;
          Send con (station_asdu false [scaled 100 (-1); scaled 101 23; scaled 102 2300]);
          Send con (station_asdu false [single 104 true; single 105 false]);
          Send con (station_asdu true ((λ i, single (300 + Z.of_nat i) (Nat.even i)) <$> seq 0 8));
          Send con (station_asdu false [BitString32 500 (16 * 2730 + 10)]); ActTerm con]
       else [ActCon con true]) ∧
    ios s' = ios s ∧ asdus s' = asdus s + 1 ∧ running s' = running s.
Proof.
  intros Hcap. rewrite interrogation_run, station_filled by done. eexists. by split.
Qed.

(** Whatever messages arrive, every information object is released again,
    and the number of ASDUs that are never released is the number of
    interrogations, accepted or not: memory is lost for as long as the server
    runs. *)
Theorem interrogations_leak `{Lib60870} evs s :
  ∃ s', iterS evs handle104 s = (Done tt, s') ∧ ios s' = ios s ∧
    asdus s' = asdus s + Z.of_nat (length (List.filter is_interrogation evs)).
Proof. destruct (events_total evs s) as (s' & ? & ? & ? & _). by exists s'. Qed.

(** A message is answered unless it is not a single command, which is left
    to the library, or it is an activation without a command in it: with the
    confirmation for address 5000, "unknown address" for any other, and "unknown
    cause" when it is not an activation; the message goes back once, and nothing
    else changes. *)
Theorem single_command_answer `{Lib60870} con asdu s :
  asduHandler con asdu s =
    (Done (typeID asdu =? C_SC_NA_1),
     {| running := running s; connected := connected s; asdus := asdus s; ios := ios s;
        answers := answers s ++
          if negb (typeID asdu =? C_SC_NA_1) then []
          else match msg_cot asdu =? CS101_COT_ACTIVATION, element asdu with
               | true, None => []
               | true, Some (a, _) =>
                   [SendBack con (if a =? 5000 then CS101_COT_ACTIVATION_CON else CS101_COT_UNKNOWN_IOA)]
               | false, _ => [SendBack con CS101_COT_UNKNOWN_COT]
               end |}).
Proof.
  unfold asduHandler. destruct s as [r c a i ans].
  destruct (typeID asdu =? C_SC_NA_1); [|simpl; by rewrite app_nil_r].
  destruct (msg_cot asdu =? CS101_COT_ACTIVATION); [|done].
  destruct (element asdu) as [[addr b]|]; [|simpl; by rewrite app_nil_r].
  etrans; [gw_run ltac:(fun _ => reflexivity)|].
  unfold count, reply. cbn -[Z.add]. do 2 f_equal; lia.
Qed.

(** The program ends when the signal comes, and not before; then it has stopped
    and destroyed the slave, once. *)
Theorem main_ends_on_signal `{Lib60870} before seconds :
  ∃ calls ended s', main true before seconds simple104_new = (Done (calls, ended), s') ∧
    ended = existsb is_sigint (before ++ concat seconds) ∧
    calls = [CS104_Slave_create; CS104_Slave_setHandlers; CS104_Slave_start] ++
            if (ended : bool) then [CS104_Slave_stop; CS104_Slave_destroy] else [].
Proof.
  unfold main. destruct (events_total before simple104_new) as (s1 & Hrun & _ & _ & Hr).
  rewrite (prog_bind_eq _ _ _ _ _ Hrun). cbn [negb].
  destruct (main_loop_total seconds s1) as (rest & s2 & Hloop & Hrest).
  rewrite (prog_bind_eq _ _ _ _ _ Hloop). rewrite existsb_app. simpl in Hr. rewrite Hr in Hrest.
  destruct rest as [rest|].
  - destruct (events_total (hd [] rest) s2) as (s3 & Hlast & _).
    rewrite (prog_bind_eq _ _ _ _ _ Hlast). eexists _, true, s3. split; [done|]. split; [|done].
    destruct (existsb is_sigint before); [done|]. simpl.
    destruct (existsb is_sigint (concat seconds)); [done|].
    discriminate (proj2 Hrest (conj eq_refl eq_refl)).
  - eexists _, false, s2. split; [done|]. split; [|done].
    destruct (proj1 Hrest eq_refl) as [Hb Hs]. gw_bool. by rewrite Hb, Hs.
Qed.

(** ** The gateway's client *)

(** What the gateway's client receives of an ASDU (which has no bit strings). *)
Definition as_received (a : ASDU) : CS101_ASDU :=
  {| asdu_cot := cot a; asdu_oa := oa a; asdu_ca := ca a;
     asdu_objects := omap (λ o, match o with Plain io => Some io | _ => None end) (objects a) |}.

(** Were the gateway to interrogate this server, its callback would not
    survive the first answer: it reads the scaled values of the first ASDU as
    single points, which is undefined; the other answers it ignores. *)
Theorem station_answer_breaks_client :
  (λ p, asduReceivedHandler (Some log_asdu) (as_received (station_asdu p.1 p.2))) <$> station =
    [Undef "scaled value read as a single point"; Done true; Done true; Done true].
Proof. reflexivity. Qed.

(** ** Witnesses *)

Definition demo_60870 : Lib60870 := {|
  asdu_accepts_object a o :=
    match objects a with
    | [] => true
    | o' :: _ => bool_decide (kind_of o = kind_of o') && (length (objects a) <? 20)%nat
    end;
  kind_capacity _ _ := 20%nat
|}.

Lemma demo_60870_ok : Lib60870Ok (H := demo_60870).
Proof.
  split; simpl.
  - intros a o o' Ha Hh. destruct (objects a); simplify_eq/=. by gw_bool.
  - intros a o Hk Hl _. destruct (objects a) as [|o' os]; [done|].
    apply Forall_cons in Hk as [Hk _]. rewrite bool_decide_eq_true_2 by done.
    by apply Nat.ltb_lt.
Qed.

Lemma station_interrogation_witness :
  ∃ s', interrogationHandler (H := demo_60870) 1 20 simple104_new = (Done true, s') ∧ asdus s' = 1.
Proof.
  destruct (@station_interrogation demo_60870 demo_60870_ok 1 20 simple104_new)
    as (s' & Hrun & _ & _ & Ha & _); [intros b k; simpl; lia|].
  by exists s'.
Defined.
