(* ===== verification/GooseSamples.v ===== *)
(** * The GOOSE samples

    [sample/goose_subpub]: [goose_publisher_example.c], which publishes a data
    set once a second ten thousand times, the last time with one member too
    many, and [goose_subscriber_example.c], which prints what it receives.
    Of libiec61850 the model has what its headers document: a publication
    carries the settings of the publisher and increases the sequence number;
    a subscriber ignores other destinations, application identifiers and
    control blocks; whether a message is valid is the library's answer. *)

From Stdlib Require Import ZArith String Lia.
From stdpp Require Import base tactics option list numbers strings.
From S2P Require Import Prelude Text.
#[local] Open Scope Z_scope.

Inductive goose_value : Type :=
| GvInteger (i : Z)
| GvBinaryTime (timeOfDay : bool)
| GvBoolean (b : bool).

Record CommParameters := {
  appId : Z;
  dstAddress : list Z;
  vlanId : Z;
  vlanPriority : Z
}.

Record GoosePublisher := {
  parameters : CommParameters;
  interfaceID : string;
  goCbRef : string;
  confRev : Z;
  dataSetRef : string;
  timeAllowedToLive : Z;
  stNum : Z;
  sqNum : Z
}.

(** A message: the publisher's settings and the values. *)
Record goose_message := { msg_from : GoosePublisher; msg_values : list goose_value }.

(** The publishing process: the values in the list, how many values and
    publishers are not released, the messages sent and the errors printed. *)
Record pub_state := {
  dataSetValues : list goose_value;
  live_values : Z;
  publisher : option GoosePublisher;
  sent : list goose_message;
  errors : list string
}.

Definition pub_state0 : pub_state :=
  {| dataSetValues := []; live_values := 0; publisher := None; sent := []; errors := [] |}.

Definition set_pub (p : option GoosePublisher) (s : pub_state) : pub_state :=
  {| dataSetValues := dataSetValues s; live_values := live_values s; publisher := p;
     sent := sent s; errors := errors s |}.

Definition LinkedList_add (v : goose_value) : prog pub_state unit :=
  modifyS (λ s, {| dataSetValues := dataSetValues s ++ [v]; live_values := live_values s + 1;
                   publisher := publisher s; sent := sent s; errors := errors s |}).
Definition LinkedList_destroyDeep : prog pub_state unit :=
  modifyS (λ s, {| dataSetValues := [];
                   live_values := live_values s - Z.of_nat (length (dataSetValues s));
                   publisher := publisher s; sent := sent s; errors := errors s |}).
Definition print_error (l : string) : prog pub_state unit :=
  modifyS (λ s, {| dataSetValues := dataSetValues s; live_values := live_values s;
                   publisher := publisher s; sent := sent s; errors := errors s ++ [l] |}).

Definition on_publisher (f : GoosePublisher → GoosePublisher) : prog pub_state unit := λ s,
  match publisher s with
  | None => (Undef "no publisher", s)
  | Some p => (Done tt, set_pub (Some (f p)) s)
  end.

Definition GoosePublisher_setGoCbRef (r : string) := on_publisher (λ p,
  {| parameters := parameters p; interfaceID := interfaceID p; goCbRef := r; confRev := confRev p;
     dataSetRef := dataSetRef p; timeAllowedToLive := timeAllowedToLive p; stNum := stNum p;
     sqNum := sqNum p |}).
Definition GoosePublisher_setConfRev (r : Z) := on_publisher (λ p,
  {| parameters := parameters p; interfaceID := interfaceID p; goCbRef := goCbRef p; confRev := r;
     dataSetRef := dataSetRef p; timeAllowedToLive := timeAllowedToLive p; stNum := stNum p;
     sqNum := sqNum p |}).
Definition GoosePublisher_setDataSetRef (r : string) := on_publisher (λ p,
  {| parameters := parameters p; interfaceID := interfaceID p; goCbRef := goCbRef p;
     confRev := confRev p; dataSetRef := r; timeAllowedToLive := timeAllowedToLive p;
     stNum := stNum p; sqNum := sqNum p |}).
Definition GoosePublisher_setTimeAllowedToLive (t : Z) := on_publisher (λ p,
  {| parameters := parameters p; interfaceID := interfaceID p; goCbRef := goCbRef p;
     confRev := confRev p; dataSetRef := dataSetRef p; timeAllowedToLive := t; stNum := stNum p;
     sqNum := sqNum p |}).

(** The next sequence number, an unsigned 32-bit one. *)
Definition next_sqNum (p : GoosePublisher) : GoosePublisher :=
  {| parameters := parameters p; interfaceID := interfaceID p; goCbRef := goCbRef p;
     confRev := confRev p; dataSetRef := dataSetRef p; timeAllowedToLive := timeAllowedToLive p;
     stNum := stNum p; sqNum := wrap_u 32 (sqNum p + 1) |}.

(** [r]: the result, -1 when sending failed. *)
Definition GoosePublisher_publish (r : Z) : prog pub_state Z := λ s,
  match publisher s with
  | None => (Undef "no publisher", s)
  | Some p =>
      (Done r,
       {| dataSetValues := dataSetValues s; live_values := live_values s;
          publisher := Some (next_sqNum p);
          sent := if r =? -1 then sent s
                  else sent s ++ [{| msg_from := p; msg_values := dataSetValues s |}];
          errors := errors s |})
  end.

(** ** The publisher *)

Definition goose_parameters : CommParameters :=
  {| appId := 1000; dstAddress := [1; 12; 205; 1; 0; 1]; vlanId := 0; vlanPriority := 4 |}.

Definition goose_ref : string := "simpleIOGenericIO/LLN0$GO$gcbAnalogValues".

(** One iteration; [publish_result i] is the library's answer. *)
Definition publish_iter (publish_result : Z → Z) (i : Z) : prog pub_state unit :=
  if i =? 9999 then
    LinkedList_add (GvBoolean true);;
    _ ← GoosePublisher_publish (publish_result i); mret tt
  else
    r ← GoosePublisher_publish (publish_result i);
    if r =? -1 then print_error "Error sending message!" else mret tt.

(** What is done with the publisher: its settings, the loop, its destruction. *)
Definition publishing (publish_result : Z → Z) : prog pub_state unit :=
  GoosePublisher_setGoCbRef goose_ref;;
  GoosePublisher_setConfRev 1;;
  GoosePublisher_setDataSetRef "simpleIOGenericIO/LLN0$AnalogValues";;
  GoosePublisher_setTimeAllowedToLive 500;;
  iterS (seqZ 0 10000) (publish_iter publish_result);;
  modifyS (set_pub None).

(** [create]: the publisher of the library for these parameters, if it can be
    created, with its first numbers. *)
Definition publisher_main (argv : list string) (create : string → option (Z * Z))
    (publish_result : Z → Z) : prog pub_state Z :=
  let interface := match argv with _ :: arg :: _ => arg | _ => "eth1"%string end in
  LinkedList_add (GvInteger 1234);;
  LinkedList_add (GvBinaryTime false);;
  LinkedList_add (GvInteger 5678);;
  modifyS (set_pub (p ← create interface;
    Some {| parameters := goose_parameters; interfaceID := interface; goCbRef := ""; confRev := 0;
            dataSetRef := ""; timeAllowedToLive := 0; stNum := p.1; sqNum := p.2 |}));;
  s ← getS;
  match publisher s with
  | Some _ => publishing publish_result
  | None => print_error ("Failed to create GOOSE publisher. Reason can be that the Ethernet interface doesn't exist or "
      ++ "root permission are required.")
  end;;
  LinkedList_destroyDeep;;
  mret 0.

(** ** The subscriber *)

Record GooseSubscriber := { sub_goCbRef : string; sub_dstMac : list Z; sub_appId : Z }.

(** The subscriber that [main] sets up. *)
Definition subscriber : GooseSubscriber :=
  {| sub_goCbRef := "simpleIOGenericIO/LLN0$GO$gcbAnalogValues"; sub_dstMac := [1; 12; 205; 1; 0; 1];
     sub_appId := 1000 |}.

(** Is a message one for the subscriber? *)
Definition concerns (x : GooseSubscriber) (m : goose_message) : bool :=
  String.eqb (sub_goCbRef x) (goCbRef (msg_from m)) &&
  bool_decide (sub_dstMac x = dstAddress (parameters (msg_from m))) &&
  (sub_appId x =? appId (parameters (msg_from m))).

(** [gooseListener]: the lines it prints.  [timestamp] is the time of the
    message, [valid] and [text] the library's answers. *)
Definition gooseListener (m : goose_message) (timestamp : Z) (valid : bool) (text : string) : list string :=
  ["GOOSE event:";
   "  stNum: " ++ dec (wrap_u 32 (stNum (msg_from m))) ++ " sqNum: " ++ dec (wrap_u 32 (sqNum (msg_from m)));
   "  timeToLive: " ++ dec (wrap_u 32 (timeAllowedToLive (msg_from m)));
   "  timestamp: " ++ dec (wrap_u 32 (timestamp / 1000)) ++ "." ++ dec (wrap_u 32 (timestamp mod 1000));
   "  message is " ++ (if valid then "valid" else "INVALID");
   "  allData: " ++ text]%string.

(** The calls on the receiver. *)
Inductive receiver_call : Type :=
| GooseReceiver_create
| GooseReceiver_setInterfaceId (interface : string)
| GooseReceiver_addSubscriber (x : GooseSubscriber)
| GooseReceiver_start | GooseReceiver_stop | GooseReceiver_destroy.

(** The loop of the subscriber; [sigint] as the iterations before the signal. *)
Fixpoint receive_loop (n : nat) (sigint : option nat) : bool :=
  match n, sigint with
  | O, _ => false
  | S _, Some O => true
  | S n', Some (S k) => receive_loop n' (Some k)
  | S n', None => receive_loop n' None
  end.

(** [main] of the subscriber: its calls, and whether it has ended after [n]
    iterations of the loop. *)
Definition subscriber_main (argv : list string) (is_running : bool) (sigint : option nat) (n : nat)
    : list receiver_call * bool :=
  let interface := match argv with _ :: arg :: _ => arg | _ => "eth1"%string end in
  let begin := [GooseReceiver_create; GooseReceiver_setInterfaceId interface;
                GooseReceiver_addSubscriber subscriber; GooseReceiver_start] in
  if negb is_running || receive_loop n sigint
  then (begin ++ [GooseReceiver_stop; GooseReceiver_destroy], true)
  else (begin, false).

(** ** Lemmas *)

(** The publisher after [k] publications. *)
Definition publications (k : Z) (p : GoosePublisher) : GoosePublisher :=
  {| parameters := parameters p; interfaceID := interfaceID p; goCbRef := goCbRef p;
     confRev := confRev p; dataSetRef := dataSetRef p; timeAllowedToLive := timeAllowedToLive p;
     stNum := stNum p; sqNum := wrap_u 32 (sqNum p + k) |}.

Lemma publications_0 p : in_u 32 (sqNum p) → publications 0 p = p.
Proof. intros Hp. destruct p. unfold publications. simpl in *. by rewrite Z.add_0_r, wrap_u_id. Qed.

Lemma publications_next k p : next_sqNum (publications k p) = publications (k + 1) p.
Proof.
  unfold next_sqNum, publications. simpl. f_equal. unfold wrap_u.
  rewrite Zplus_mod_idemp_l. f_equal. lia.
Qed.

(** The state after the publications of the unchanged data set. *)
Definition after_publications (n : Z) (p : GoosePublisher) (s : pub_state) : pub_state :=
  {| dataSetValues := dataSetValues s; live_values := live_values s;
     publisher := Some (publications n p);
     sent := sent s ++
       ((λ i, {| msg_from := publications i p; msg_values := dataSetValues s |}) <$> seqZ 0 n);
     errors := errors s |}.

Lemma publish_loop result n p s :
  publisher s = Some p → in_u 32 (sqNum p) → Z.of_nat n ≤ 9999 → (∀ i, result i ≠ -1) →
  iterS (seqZ 0 (Z.of_nat n)) (publish_iter result) s = (Done tt, after_publications (Z.of_nat n) p s).
Proof.
  intros Hp Hsq Hn Hres. induction n as [|n IH].
  { cbn [seqZ iterS]. unfold after_publications. simpl. rewrite app_nil_r, publications_0 by done.
    destruct s. simpl in *. by subst. }
  rewrite seqZ_S, iterS_app. rewrite (prog_bind_eq _ _ _ _ _ (IH ltac:(lia))).
  rewrite Z.add_0_l. cbn [iterS]. unfold publish_iter. rewrite (proj2 (Z.eqb_neq _ _)) by lia.
  unfold GoosePublisher_publish, mbind, prog_bind, after_publications. cbn [publisher].
  rewrite (proj2 (Z.eqb_neq _ _)) by (apply Hres). cbn.
  rewrite publications_next, seqZ_S, fmap_app, app_assoc. do 3 f_equal. f_equal. lia.
Qed.

(** The publisher as [main] has set it up. *)
Definition configured_publisher (interface : string) (st sq : Z) : GoosePublisher :=
  {| parameters := goose_parameters; interfaceID := interface; goCbRef := goose_ref; confRev := 1;
     dataSetRef := "simpleIOGenericIO/LLN0$AnalogValues"; timeAllowedToLive := 500; stNum := st;
     sqNum := sq |}.

(** The [i]-th message. *)
Definition session_message (interface : string) (st sq i : Z) : goose_message :=
  {| msg_from := publications i (configured_publisher interface st sq);
     msg_values := [GvInteger 1234; GvBinaryTime false; GvInteger 5678] ++
                   if i =? 9999 then [GvBoolean true] else [] |}.

(** The loop and the last, oversized message. *)
Lemma publish_all result p s :
  publisher s = Some p → in_u 32 (sqNum p) → (∀ i, result i ≠ -1) →
  iterS (seqZ 0 10000) (publish_iter result) s = (Done tt,
    {| dataSetValues := dataSetValues s ++ [GvBoolean true]; live_values := live_values s + 1;
       publisher := Some (publications 10000 p);
       sent := sent s ++
         ((λ i, {| msg_from := publications i p; msg_values := dataSetValues s |}) <$> seqZ 0 9999) ++
         [{| msg_from := publications 9999 p; msg_values := dataSetValues s ++ [GvBoolean true] |}];
       errors := errors s |}).
Proof.
  intros Hp Hsq Hres. change 10000 with (Z.of_nat (S (Z.to_nat 9999))) at 1. rewrite seqZ_S, iterS_app.
  pose proof (publish_loop result (Z.to_nat 9999) p s Hp Hsq ltac:(lia) Hres) as Hloop.
  rewrite (prog_bind_eq _ _ _ _ _ Hloop), Z.add_0_l, Z2Nat.id by lia. cbn [iterS].
  unfold publish_iter. rewrite Z.eqb_refl.
  unfold LinkedList_add, modifyS, GoosePublisher_publish, mbind, prog_bind, after_publications.
  cbn [publisher set_pub dataSetValues sent errors live_values].
  rewrite (proj2 (Z.eqb_neq _ _)) by apply Hres. cbn [mret prog_ret].
  rewrite publications_next, <- app_assoc. done.
Qed.

(** The sent messages of [publishing]. *)
Lemma publishing_run result p s :
  publisher s = Some p → in_u 32 (sqNum p) → (∀ i, result i ≠ -1) →
  let p' := {| parameters := parameters p; interfaceID := interfaceID p; goCbRef := goose_ref;
               confRev := 1; dataSetRef := "simpleIOGenericIO/LLN0$AnalogValues";
               timeAllowedToLive := 500; stNum := stNum p; sqNum := sqNum p |} in
  publishing result s = (Done tt,
    {| dataSetValues := dataSetValues s ++ [GvBoolean true]; live_values := live_values s + 1;
       publisher := None;
       sent := sent s ++
         ((λ i, {| msg_from := publications i p'; msg_values := dataSetValues s |}) <$> seqZ 0 9999) ++
         [{| msg_from := publications 9999 p'; msg_values := dataSetValues s ++ [GvBoolean true] |}];
       errors := errors s |}).
Proof.
  intros Hp Hsq Hres p'. unfold publishing. destruct s as [vs lv pub se er]. simpl in Hp. subst pub.
  do 4 (eapply prog_run; [reflexivity|]).
  eapply prog_run; [apply (publish_all result p'); [reflexivity|done|done]|]. reflexivity.
Qed.

Lemma session_messages interface st sq :
  session_message interface st sq <$> seqZ 0 10000 =
  ((λ i, {| msg_from := publications i (configured_publisher interface st sq);
            msg_values := [GvInteger 1234; GvBinaryTime false; GvInteger 5678] |}) <$> seqZ 0 9999) ++
  [session_message interface st sq 9999].
Proof.
  change 10000 with (Z.of_nat (S (Z.to_nat 9999))). rewrite seqZ_S, fmap_app.
  rewrite Z.add_0_l, Z2Nat.id by lia. apply (f_equal2 app); [|exact eq_refl]. apply list_fmap_ext. intros j i [-> Hi]%lookup_seqZ.
  unfold session_message. by rewrite (proj2 (Z.eqb_neq _ _)) by lia.
Qed.

Lemma session_concerns interface st sq i :
  concerns subscriber (session_message interface st sq i) = true.
Proof. reflexivity. Qed.

(** ** Properties *)

(** C35: the publisher ends, with everything that it allocated released: it sends
    ten thousand messages when it can be created and the network takes them, all
    with the same state number and consecutive sequence numbers, the three
    values each, and in the last one a fourth under the same configuration
    revision; and every one of them concerns the subscriber. *)
Theorem goose_session argv create result :
  (∀ i, result i ≠ -1) →
  (∀ interface st sq, create interface = Some (st, sq) → in_u 32 sq) →
  let interface := match argv with _ :: arg :: _ => arg | _ => "eth1"%string end in
  ∃ s', publisher_main argv create result pub_state0 = (Done 0, s') ∧
    live_values s' = 0 ∧ dataSetValues s' = [] ∧ publisher s' = None ∧
    sent s' = match create interface with
              | Some (st, sq) => session_message interface st sq <$> seqZ 0 10000
              | None => []
              end ∧
    Forall (λ m, concerns subscriber m = true) (sent s').
Proof.
  intros Hres Hsq interface. destruct (create interface) as [[st sq]|] eqn:Hc.
  - eexists. split.
    { unfold publisher_main. fold interface. do 3 (eapply prog_run; [reflexivity|]).
      rewrite Hc. do 2 (eapply prog_run; [reflexivity|]). cbn [publisher set_pub mbind option_bind].
      eapply prog_run; [apply (publishing_run result); [reflexivity|exact (Hsq _ _ _ Hc)|exact Hres]|].
      eapply prog_run; reflexivity. }
    cbn [live_values dataSetValues publisher sent set_pub pub_state0 fst snd].
    split; [exact eq_refl|]. split; [exact eq_refl|]. split; [exact eq_refl|].
    match goal with |- ?l = _ ∧ _ =>
      assert (Hl : l = session_message interface st sq <$> seqZ 0 10000) end.
    { rewrite session_messages. rewrite (app_nil_l (_ ++ _)).
      apply (f_equal2 app); [apply list_fmap_ext; intros; exact eq_refl | exact eq_refl]. }
    rewrite Hl. split; [exact eq_refl|]. apply Forall_fmap, Forall_forall.
    intros i _. apply session_concerns.
  - eexists. split.
    { unfold publisher_main. fold interface. do 3 (eapply prog_run; [reflexivity|]).
      rewrite Hc. do 2 (eapply prog_run; [reflexivity|]). do 2 (eapply prog_run; [reflexivity|]).
      reflexivity. }
    split_and!; [reflexivity..|constructor].
Qed.

(** One publisher, with the state number 1 and the sequence number 0. *)
Lemma goose_session_witness :
  ∃ s', publisher_main ["goose_publisher_example"%string; "lo"%string] (λ _, Some (1, 0)) (λ _, 0) pub_state0
          = (Done 0, s') ∧
    live_values s' = 0 ∧ dataSetValues s' = [] ∧ publisher s' = None ∧
    sent s' = session_message "lo" 1 0 <$> seqZ 0 10000 ∧
    Forall (λ m, concerns subscriber m = true) (sent s').
Proof.
  apply (goose_session ["goose_publisher_example"%string; "lo"%string] (λ _, Some (1, 0)) (λ _, 0)).
  - intros i. discriminate.
  - intros interface st sq H. injection H as <- <-. unfold in_u. lia.
Defined.
