(* ===== verification/DemoModelData.v ===== *)
(** * The data model of the demonstration server, address by address

    The initialisers of [sample/61850_demo/static_model.c], one definition
    per run of consecutive C objects of a logical node, in the order of the
    file.  The objects have the names of the gateway's model, and so the
    addresses of [StaticModelData]; a list pairs
    addresses with the structures stored there. *)

From Stdlib Require Import ZArith String.
From stdpp Require Import base option list strings gmap.
From S2P Require Import Prelude IedModel StaticModelData.
#[local] Open Scope Z_scope.
#[local] Open Scope gw_scope.

(** ** The tree of nodes *)

Definition demo_GenericIO_device : list (addr * ModelNode) := [
  (iedModel_GenericIO,
   LogicalDevice "GenericIO" &iedModel NULL &iedModel_GenericIO_LLN0 NULL)
].

Definition demo_GenericIO_LLN0_nodes1 : list (addr * ModelNode) := [
  (iedModel_GenericIO_LLN0,
   LogicalNode "LLN0" &iedModel_GenericIO &iedModel_GenericIO_LPHD1 &iedModel_GenericIO_LLN0_Beh);
  (iedModel_GenericIO_LLN0_Beh,
   DataObject "Beh" &iedModel_GenericIO_LLN0 &iedModel_GenericIO_LLN0_Mod &iedModel_GenericIO_LLN0_Beh_stVal 0 (-1));
  (iedModel_GenericIO_LLN0_Beh_stVal,
   DataAttribute (Some "stVal") &iedModel_GenericIO_LLN0_Beh &iedModel_GenericIO_LLN0_Beh_q NULL 0 (-1) IEC61850_FC_ST IEC61850_ENUMERATED
     (0 + TRG_OPT_DATA_CHANGED) NULL 0);
  (iedModel_GenericIO_LLN0_Beh_q,
   DataAttribute (Some "q") &iedModel_GenericIO_LLN0_Beh &iedModel_GenericIO_LLN0_Beh_t NULL 0 (-1) IEC61850_FC_ST IEC61850_QUALITY
     (0 + TRG_OPT_QUALITY_CHANGED) NULL 0);
  (iedModel_GenericIO_LLN0_Beh_t,
   DataAttribute (Some "t") &iedModel_GenericIO_LLN0_Beh NULL NULL 0 (-1) IEC61850_FC_ST IEC61850_TIMESTAMP
     0 NULL 0);
  (iedModel_GenericIO_LLN0_Mod,
   DataObject "Mod" &iedModel_GenericIO_LLN0 &iedModel_GenericIO_LLN0_Health &iedModel_GenericIO_LLN0_Mod_stVal 0 (-1));
  (iedModel_GenericIO_LLN0_Mod_stVal,
   DataAttribute (Some "stVal") &iedModel_GenericIO_LLN0_Mod &iedModel_GenericIO_LLN0_Mod_q NULL 0 (-1) IEC61850_FC_ST IEC61850_ENUMERATED
     (0 + TRG_OPT_DATA_CHANGED) NULL 0);
  (iedModel_GenericIO_LLN0_Mod_q,
   DataAttribute (Some "q") &iedModel_GenericIO_LLN0_Mod &iedModel_GenericIO_LLN0_Mod_t NULL 0 (-1) IEC61850_FC_ST IEC61850_QUALITY
     (0 + TRG_OPT_QUALITY_CHANGED) NULL 0);
  (iedModel_GenericIO_LLN0_Mod_t,
   DataAttribute (Some "t") &iedModel_GenericIO_LLN0_Mod &iedModel_GenericIO_LLN0_Mod_ctlModel NULL 0 (-1) IEC61850_FC_ST IEC61850_TIMESTAMP
     0 NULL 0);
  (iedModel_GenericIO_LLN0_Mod_ctlModel,
   DataAttribute (Some "ctlModel") &iedModel_GenericIO_LLN0_Mod NULL NULL 0 (-1) IEC61850_FC_CF IEC61850_ENUMERATED
     0 NULL 0)
].

Definition demo_GenericIO_LLN0_nodes2 : list (addr * ModelNode) := [
  (iedModel_GenericIO_LLN0_Health,
   DataObject "Health" &iedModel_GenericIO_LLN0 &iedModel_GenericIO_LLN0_NamPlt &iedModel_GenericIO_LLN0_Health_stVal 0 (-1));
  (iedModel_GenericIO_LLN0_Health_stVal,
   DataAttribute (Some "stVal") &iedModel_GenericIO_LLN0_Health &iedModel_GenericIO_LLN0_Health_q NULL 0 (-1) IEC61850_FC_ST IEC61850_ENUMERATED
     (0 + TRG_OPT_DATA_CHANGED) NULL 0);
  (iedModel_GenericIO_LLN0_Health_q,
   DataAttribute (Some "q") &iedModel_GenericIO_LLN0_Health &iedModel_GenericIO_LLN0_Health_t NULL 0 (-1) IEC61850_FC_ST IEC61850_QUALITY
     (0 + TRG_OPT_QUALITY_CHANGED) NULL 0);
  (iedModel_GenericIO_LLN0_Health_t,
   DataAttribute (Some "t") &iedModel_GenericIO_LLN0_Health NULL NULL 0 (-1) IEC61850_FC_ST IEC61850_TIMESTAMP
     0 NULL 0);
  (iedModel_GenericIO_LLN0_NamPlt,
   DataObject "NamPlt" &iedModel_GenericIO_LLN0 NULL &iedModel_GenericIO_LLN0_NamPlt_vendor 0 (-1));
  (iedModel_GenericIO_LLN0_NamPlt_vendor,
   DataAttribute (Some "vendor") &iedModel_GenericIO_LLN0_NamPlt &iedModel_GenericIO_LLN0_NamPlt_swRev NULL 0 (-1) IEC61850_FC_DC IEC61850_VISIBLE_STRING_255
     0 NULL 0);
  (iedModel_GenericIO_LLN0_NamPlt_swRev,
   DataAttribute (Some "swRev") &iedModel_GenericIO_LLN0_NamPlt &iedModel_GenericIO_LLN0_NamPlt_d NULL 0 (-1) IEC61850_FC_DC IEC61850_VISIBLE_STRING_255
     0 NULL 0);
  (iedModel_GenericIO_LLN0_NamPlt_d,
   DataAttribute (Some "d") &iedModel_GenericIO_LLN0_NamPlt &iedModel_GenericIO_LLN0_NamPlt_configRev NULL 0 (-1) IEC61850_FC_DC IEC61850_VISIBLE_STRING_255
     0 NULL 0);
  (iedModel_GenericIO_LLN0_NamPlt_configRev,
   DataAttribute (Some "configRev") &iedModel_GenericIO_LLN0_NamPlt &iedModel_GenericIO_LLN0_NamPlt_ldNs NULL 0 (-1) IEC61850_FC_DC IEC61850_VISIBLE_STRING_255
     0 NULL 0);
  (iedModel_GenericIO_LLN0_NamPlt_ldNs,
   DataAttribute (Some "ldNs") &iedModel_GenericIO_LLN0_NamPlt NULL NULL 0 (-1) IEC61850_FC_EX IEC61850_VISIBLE_STRING_255
     0 NULL 0)
].

Definition demo_GenericIO_LPHD1_nodes1 : list (addr * ModelNode) := [
  (iedModel_GenericIO_LPHD1,
   LogicalNode "LPHD1" &iedModel_GenericIO &iedModel_GenericIO_GGIO1 &iedModel_GenericIO_LPHD1_PhyNam);
  (iedModel_GenericIO_LPHD1_PhyNam,
   DataObject "PhyNam" &iedModel_GenericIO_LPHD1 &iedModel_GenericIO_LPHD1_PhyHealth &iedModel_GenericIO_LPHD1_PhyNam_vendor 0 (-1));
  (iedModel_GenericIO_LPHD1_PhyNam_vendor,
   DataAttribute (Some "vendor") &iedModel_GenericIO_LPHD1_PhyNam NULL NULL 0 (-1) IEC61850_FC_DC IEC61850_VISIBLE_STRING_255
     0 NULL 0);
  (iedModel_GenericIO_LPHD1_PhyHealth,
   DataObject "PhyHealth" &iedModel_GenericIO_LPHD1 &iedModel_GenericIO_LPHD1_Proxy &iedModel_GenericIO_LPHD1_PhyHealth_stVal 0 (-1));
  (iedModel_GenericIO_LPHD1_PhyHealth_stVal,
   DataAttribute (Some "stVal") &iedModel_GenericIO_LPHD1_PhyHealth &iedModel_GenericIO_LPHD1_PhyHealth_q NULL 0 (-1) IEC61850_FC_ST IEC61850_ENUMERATED
     (0 + TRG_OPT_DATA_CHANGED) NULL 0);
  (iedModel_GenericIO_LPHD1_PhyHealth_q,
   DataAttribute (Some "q") &iedModel_GenericIO_LPHD1_PhyHealth &iedModel_GenericIO_LPHD1_PhyHealth_t NULL 0 (-1) IEC61850_FC_ST IEC61850_QUALITY
     (0 + TRG_OPT_QUALITY_CHANGED) NULL 0);
  (iedModel_GenericIO_LPHD1_PhyHealth_t,
   DataAttribute (Some "t") &iedModel_GenericIO_LPHD1_PhyHealth NULL NULL 0 (-1) IEC61850_FC_ST IEC61850_TIMESTAMP
     0 NULL 0);
  (iedModel_GenericIO_LPHD1_Proxy,
   DataObject "Proxy" &iedModel_GenericIO_LPHD1 NULL &iedModel_GenericIO_LPHD1_Proxy_stVal 0 (-1));
  (iedModel_GenericIO_LPHD1_Proxy_stVal,
   DataAttribute (Some "stVal") &iedModel_GenericIO_LPHD1_Proxy &iedModel_GenericIO_LPHD1_Proxy_q NULL 0 (-1) IEC61850_FC_ST IEC61850_BOOLEAN
     (0 + TRG_OPT_DATA_CHANGED) NULL 0);
  (iedModel_GenericIO_LPHD1_Proxy_q,
   DataAttribute (Some "q") &iedModel_GenericIO_LPHD1_Proxy &iedModel_GenericIO_LPHD1_Proxy_t NULL 0 (-1) IEC61850_FC_ST IEC61850_QUALITY
     (0 + TRG_OPT_QUALITY_CHANGED) NULL 0);
  (iedModel_GenericIO_LPHD1_Proxy_t,
   DataAttribute (Some "t") &iedModel_GenericIO_LPHD1_Proxy NULL NULL 0 (-1) IEC61850_FC_ST IEC61850_TIMESTAMP
     0 NULL 0)
].

Definition demo_GenericIO_GGIO1_nodes1 : list (addr * ModelNode) := [
  (iedModel_GenericIO_GGIO1,
   LogicalNode "GGIO1" &iedModel_GenericIO &iedModel_GenericIO_TIM_GAPC1 &iedModel_GenericIO_GGIO1_Beh);
  (iedModel_GenericIO_GGIO1_Beh,
   DataObject "Beh" &iedModel_GenericIO_GGIO1 &iedModel_GenericIO_GGIO1_Mod &iedModel_GenericIO_GGIO1_Beh_stVal 0 (-1));
  (iedModel_GenericIO_GGIO1_Beh_stVal,
   DataAttribute (Some "stVal") &iedModel_GenericIO_GGIO1_Beh &iedModel_GenericIO_GGIO1_Beh_q NULL 0 (-1) IEC61850_FC_ST IEC61850_ENUMERATED
     (0 + TRG_OPT_DATA_CHANGED) NULL 0);
  (iedModel_GenericIO_GGIO1_Beh_q,
   DataAttribute (Some "q") &iedModel_GenericIO_GGIO1_Beh &iedModel_GenericIO_GGIO1_Beh_t NULL 0 (-1) IEC61850_FC_ST IEC61850_QUALITY
     (0 + TRG_OPT_QUALITY_CHANGED) NULL 0);
  (iedModel_GenericIO_GGIO1_Beh_t,
   DataAttribute (Some "t") &iedModel_GenericIO_GGIO1_Beh NULL NULL 0 (-1) IEC61850_FC_ST IEC61850_TIMESTAMP
     0 NULL 0);
  (iedModel_GenericIO_GGIO1_Mod,
   DataObject "Mod" &iedModel_GenericIO_GGIO1 &iedModel_GenericIO_GGIO1_Health &iedModel_GenericIO_GGIO1_Mod_stVal 0 (-1));
  (iedModel_GenericIO_GGIO1_Mod_stVal,
   DataAttribute (Some "stVal") &iedModel_GenericIO_GGIO1_Mod &iedModel_GenericIO_GGIO1_Mod_q NULL 0 (-1) IEC61850_FC_ST IEC61850_ENUMERATED
     (0 + TRG_OPT_DATA_CHANGED) NULL 0);
  (iedModel_GenericIO_GGIO1_Mod_q,
   DataAttribute (Some "q") &iedModel_GenericIO_GGIO1_Mod &iedModel_GenericIO_GGIO1_Mod_t NULL 0 (-1) IEC61850_FC_ST IEC61850_QUALITY
     (0 + TRG_OPT_QUALITY_CHANGED) NULL 0);
  (iedModel_GenericIO_GGIO1_Mod_t,
   DataAttribute (Some "t") &iedModel_GenericIO_GGIO1_Mod &iedModel_GenericIO_GGIO1_Mod_ctlModel NULL 0 (-1) IEC61850_FC_ST IEC61850_TIMESTAMP
     0 NULL 0);
  (iedModel_GenericIO_GGIO1_Mod_ctlModel,
   DataAttribute (Some "ctlModel") &iedModel_GenericIO_GGIO1_Mod NULL NULL 0 (-1) IEC61850_FC_CF IEC61850_ENUMERATED
     0 NULL 0)
].

Definition demo_GenericIO_GGIO1_nodes2 : list (addr * ModelNode) := [
  (iedModel_GenericIO_GGIO1_Health,
   DataObject "Health" &iedModel_GenericIO_GGIO1 &iedModel_GenericIO_GGIO1_NamPlt &iedModel_GenericIO_GGIO1_Health_stVal 0 (-1));
  (iedModel_GenericIO_GGIO1_Health_stVal,
   DataAttribute (Some "stVal") &iedModel_GenericIO_GGIO1_Health &iedModel_GenericIO_GGIO1_Health_q NULL 0 (-1) IEC61850_FC_ST IEC61850_ENUMERATED
     (0 + TRG_OPT_DATA_CHANGED) NULL 0);
  (iedModel_GenericIO_GGIO1_Health_q,
   DataAttribute (Some "q") &iedModel_GenericIO_GGIO1_Health &iedModel_GenericIO_GGIO1_Health_t NULL 0 (-1) IEC61850_FC_ST IEC61850_QUALITY
     (0 + TRG_OPT_QUALITY_CHANGED) NULL 0);
  (iedModel_GenericIO_GGIO1_Health_t,
   DataAttribute (Some "t") &iedModel_GenericIO_GGIO1_Health NULL NULL 0 (-1) IEC61850_FC_ST IEC61850_TIMESTAMP
     0 NULL 0);
  (iedModel_GenericIO_GGIO1_NamPlt,
   DataObject "NamPlt" &iedModel_GenericIO_GGIO1 &iedModel_GenericIO_GGIO1_AnIn1 &iedModel_GenericIO_GGIO1_NamPlt_vendor 0 (-1));
  (iedModel_GenericIO_GGIO1_NamPlt_vendor,
   DataAttribute (Some "vendor") &iedModel_GenericIO_GGIO1_NamPlt &iedModel_GenericIO_GGIO1_NamPlt_swRev NULL 0 (-1) IEC61850_FC_DC IEC61850_VISIBLE_STRING_255
     0 NULL 0);
  (iedModel_GenericIO_GGIO1_NamPlt_swRev,
   DataAttribute (Some "swRev") &iedModel_GenericIO_GGIO1_NamPlt &iedModel_GenericIO_GGIO1_NamPlt_d NULL 0 (-1) IEC61850_FC_DC IEC61850_VISIBLE_STRING_255
     0 NULL 0);
  (iedModel_GenericIO_GGIO1_NamPlt_d,
   DataAttribute (Some "d") &iedModel_GenericIO_GGIO1_NamPlt NULL NULL 0 (-1) IEC61850_FC_DC IEC61850_VISIBLE_STRING_255
     0 NULL 0)
].

Definition demo_GenericIO_GGIO1_nodes3 : list (addr * ModelNode) := [
  (iedModel_GenericIO_GGIO1_AnIn1,
   DataObject "AnIn1" &iedModel_GenericIO_GGIO1 &iedModel_GenericIO_GGIO1_AnIn2 &iedModel_GenericIO_GGIO1_AnIn1_mag 0 (-1));
  (iedModel_GenericIO_GGIO1_AnIn1_mag,
   DataAttribute (Some "mag") &iedModel_GenericIO_GGIO1_AnIn1 &iedModel_GenericIO_GGIO1_AnIn1_q &iedModel_GenericIO_GGIO1_AnIn1_mag_f 0 (-1) IEC61850_FC_MX IEC61850_CONSTRUCTED
     (0 + TRG_OPT_DATA_CHANGED) NULL 0);
  (iedModel_GenericIO_GGIO1_AnIn1_mag_f,
   DataAttribute (Some "f") &iedModel_GenericIO_GGIO1_AnIn1_mag NULL NULL 0 (-1) IEC61850_FC_MX IEC61850_FLOAT32
     (0 + TRG_OPT_DATA_CHANGED) NULL 0);
  (iedModel_GenericIO_GGIO1_AnIn1_q,
   DataAttribute (Some "q") &iedModel_GenericIO_GGIO1_AnIn1 &iedModel_GenericIO_GGIO1_AnIn1_t NULL 0 (-1) IEC61850_FC_MX IEC61850_QUALITY
     (0 + TRG_OPT_QUALITY_CHANGED) NULL 0);
  (iedModel_GenericIO_GGIO1_AnIn1_t,
   DataAttribute (Some "t") &iedModel_GenericIO_GGIO1_AnIn1 NULL NULL 0 (-1) IEC61850_FC_MX IEC61850_TIMESTAMP
     0 NULL 0);
  (iedModel_GenericIO_GGIO1_AnIn2,
   DataObject "AnIn2" &iedModel_GenericIO_GGIO1 &iedModel_GenericIO_GGIO1_AnIn3 &iedModel_GenericIO_GGIO1_AnIn2_mag 0 (-1));
  (iedModel_GenericIO_GGIO1_AnIn2_mag,
   DataAttribute (Some "mag") &iedModel_GenericIO_GGIO1_AnIn2 &iedModel_GenericIO_GGIO1_AnIn2_q &iedModel_GenericIO_GGIO1_AnIn2_mag_f 0 (-1) IEC61850_FC_MX IEC61850_CONSTRUCTED
     (0 + TRG_OPT_DATA_CHANGED) NULL 0);
  (iedModel_GenericIO_GGIO1_AnIn2_mag_f,
   DataAttribute (Some "f") &iedModel_GenericIO_GGIO1_AnIn2_mag NULL NULL 0 (-1) IEC61850_FC_MX IEC61850_FLOAT32
     (0 + TRG_OPT_DATA_CHANGED) NULL 0);
  (iedModel_GenericIO_GGIO1_AnIn2_q,
   DataAttribute (Some "q") &iedModel_GenericIO_GGIO1_AnIn2 &iedModel_GenericIO_GGIO1_AnIn2_t NULL 0 (-1) IEC61850_FC_MX IEC61850_QUALITY
     (0 + TRG_OPT_QUALITY_CHANGED) NULL 0);
  (iedModel_GenericIO_GGIO1_AnIn2_t,
   DataAttribute (Some "t") &iedModel_GenericIO_GGIO1_AnIn2 NULL NULL 0 (-1) IEC61850_FC_MX IEC61850_TIMESTAMP
     0 NULL 0)
].

Definition demo_GenericIO_GGIO1_nodes4 : list (addr * ModelNode) := [
  (iedModel_GenericIO_GGIO1_AnIn3,
   DataObject "AnIn3" &iedModel_GenericIO_GGIO1 &iedModel_GenericIO_GGIO1_AnIn4 &iedModel_GenericIO_GGIO1_AnIn3_mag 0 (-1));
  (iedModel_GenericIO_GGIO1_AnIn3_mag,
   DataAttribute (Some "mag") &iedModel_GenericIO_GGIO1_AnIn3 &iedModel_GenericIO_GGIO1_AnIn3_q &iedModel_GenericIO_GGIO1_AnIn3_mag_f 0 (-1) IEC61850_FC_MX IEC61850_CONSTRUCTED
     (0 + TRG_OPT_DATA_CHANGED) NULL 0);
  (iedModel_GenericIO_GGIO1_AnIn3_mag_f,
   DataAttribute (Some "f") &iedModel_GenericIO_GGIO1_AnIn3_mag NULL NULL 0 (-1) IEC61850_FC_MX IEC61850_FLOAT32
     (0 + TRG_OPT_DATA_CHANGED) NULL 0);
  (iedModel_GenericIO_GGIO1_AnIn3_q,
   DataAttribute (Some "q") &iedModel_GenericIO_GGIO1_AnIn3 &iedModel_GenericIO_GGIO1_AnIn3_t NULL 0 (-1) IEC61850_FC_MX IEC61850_QUALITY
     (0 + TRG_OPT_QUALITY_CHANGED) NULL 0);
  (iedModel_GenericIO_GGIO1_AnIn3_t,
   DataAttribute (Some "t") &iedModel_GenericIO_GGIO1_AnIn3 NULL NULL 0 (-1) IEC61850_FC_MX IEC61850_TIMESTAMP
     0 NULL 0);
  (iedModel_GenericIO_GGIO1_AnIn4,
   DataObject "AnIn4" &iedModel_GenericIO_GGIO1 &iedModel_GenericIO_GGIO1_SPCSO1 &iedModel_GenericIO_GGIO1_AnIn4_mag 0 (-1));
  (iedModel_GenericIO_GGIO1_AnIn4_mag,
   DataAttribute (Some "mag") &iedModel_GenericIO_GGIO1_AnIn4 &iedModel_GenericIO_GGIO1_AnIn4_q &iedModel_GenericIO_GGIO1_AnIn4_mag_f 0 (-1) IEC61850_FC_MX IEC61850_CONSTRUCTED
     (0 + TRG_OPT_DATA_CHANGED) NULL 0);
  (iedModel_GenericIO_GGIO1_AnIn4_mag_f,
   DataAttribute (Some "f") &iedModel_GenericIO_GGIO1_AnIn4_mag NULL NULL 0 (-1) IEC61850_FC_MX IEC61850_FLOAT32
     (0 + TRG_OPT_DATA_CHANGED) NULL 0);
  (iedModel_GenericIO_GGIO1_AnIn4_q,
   DataAttribute (Some "q") &iedModel_GenericIO_GGIO1_AnIn4 &iedModel_GenericIO_GGIO1_AnIn4_t NULL 0 (-1) IEC61850_FC_MX IEC61850_QUALITY
     (0 + TRG_OPT_QUALITY_CHANGED) NULL 0);
  (iedModel_GenericIO_GGIO1_AnIn4_t,
   DataAttribute (Some "t") &iedModel_GenericIO_GGIO1_AnIn4 NULL NULL 0 (-1) IEC61850_FC_MX IEC61850_TIMESTAMP
     0 NULL 0)
].

Definition demo_GenericIO_GGIO1_nodes5 : list (addr * ModelNode) := [
  (iedModel_GenericIO_GGIO1_SPCSO1,
   DataObject "SPCSO1" &iedModel_GenericIO_GGIO1 &iedModel_GenericIO_GGIO1_SPCSO2 &iedModel_GenericIO_GGIO1_SPCSO1_stVal 0 (-1));
  (iedModel_GenericIO_GGIO1_SPCSO1_stVal,
   DataAttribute (Some "stVal") &iedModel_GenericIO_GGIO1_SPCSO1 &iedModel_GenericIO_GGIO1_SPCSO1_q NULL 0 (-1) IEC61850_FC_ST IEC61850_BOOLEAN
     (0 + TRG_OPT_DATA_CHANGED) NULL 0);
  (iedModel_GenericIO_GGIO1_SPCSO1_q,
   DataAttribute (Some "q") &iedModel_GenericIO_GGIO1_SPCSO1 &iedModel_GenericIO_GGIO1_SPCSO1_Oper NULL 0 (-1) IEC61850_FC_ST IEC61850_QUALITY
     (0 + TRG_OPT_QUALITY_CHANGED) NULL 0);
  (iedModel_GenericIO_GGIO1_SPCSO1_Oper,
   DataAttribute (Some "Oper") &iedModel_GenericIO_GGIO1_SPCSO1 &iedModel_GenericIO_GGIO1_SPCSO1_ctlModel &iedModel_GenericIO_GGIO1_SPCSO1_Oper_ctlVal 0 (-1) IEC61850_FC_CO IEC61850_CONSTRUCTED
     0 NULL 0);
  (iedModel_GenericIO_GGIO1_SPCSO1_Oper_ctlVal,
   DataAttribute (Some "ctlVal") &iedModel_GenericIO_GGIO1_SPCSO1_Oper &iedModel_GenericIO_GGIO1_SPCSO1_Oper_origin NULL 0 (-1) IEC61850_FC_CO IEC61850_BOOLEAN
     0 NULL 0);
  (iedModel_GenericIO_GGIO1_SPCSO1_Oper_origin,
   DataAttribute (Some "origin") &iedModel_GenericIO_GGIO1_SPCSO1_Oper &iedModel_GenericIO_GGIO1_SPCSO1_Oper_ctlNum &iedModel_GenericIO_GGIO1_SPCSO1_Oper_origin_orCat 0 (-1) IEC61850_FC_CO IEC61850_CONSTRUCTED
     0 NULL 0);
  (iedModel_GenericIO_GGIO1_SPCSO1_Oper_origin_orCat,
   DataAttribute (Some "orCat") &iedModel_GenericIO_GGIO1_SPCSO1_Oper_origin &iedModel_GenericIO_GGIO1_SPCSO1_Oper_origin_orIdent NULL 0 (-1) IEC61850_FC_CO IEC61850_ENUMERATED
     0 NULL 0);
  (iedModel_GenericIO_GGIO1_SPCSO1_Oper_origin_orIdent,
   DataAttribute (Some "orIdent") &iedModel_GenericIO_GGIO1_SPCSO1_Oper_origin NULL NULL 0 (-1) IEC61850_FC_CO IEC61850_OCTET_STRING_64
     0 NULL 0);
  (iedModel_GenericIO_GGIO1_SPCSO1_Oper_ctlNum,
   DataAttribute (Some "ctlNum") &iedModel_GenericIO_GGIO1_SPCSO1_Oper &iedModel_GenericIO_GGIO1_SPCSO1_Oper_T NULL 0 (-1) IEC61850_FC_CO IEC61850_INT8U
     0 NULL 0);
  (iedModel_GenericIO_GGIO1_SPCSO1_Oper_T,
   DataAttribute (Some "T") &iedModel_GenericIO_GGIO1_SPCSO1_Oper &iedModel_GenericIO_GGIO1_SPCSO1_Oper_Test NULL 0 (-1) IEC61850_FC_CO IEC61850_TIMESTAMP
     0 NULL 0);
  (iedModel_GenericIO_GGIO1_SPCSO1_Oper_Test,
   DataAttribute (Some "Test") &iedModel_GenericIO_GGIO1_SPCSO1_Oper &iedModel_GenericIO_GGIO1_SPCSO1_Oper_Check NULL 0 (-1) IEC61850_FC_CO IEC61850_BOOLEAN
     0 NULL 0)
].

Definition demo_GenericIO_GGIO1_nodes6 : list (addr * ModelNode) := [
  (iedModel_GenericIO_GGIO1_SPCSO1_Oper_Check,
   DataAttribute (Some "Check") &iedModel_GenericIO_GGIO1_SPCSO1_Oper NULL NULL 0 (-1) IEC61850_FC_CO IEC61850_CHECK
     0 NULL 0);
  (iedModel_GenericIO_GGIO1_SPCSO1_ctlModel,
   DataAttribute (Some "ctlModel") &iedModel_GenericIO_GGIO1_SPCSO1 &iedModel_GenericIO_GGIO1_SPCSO1_t NULL 0 (-1) IEC61850_FC_CF IEC61850_ENUMERATED
     0 NULL 0);
  (iedModel_GenericIO_GGIO1_SPCSO1_t,
   DataAttribute (Some "t") &iedModel_GenericIO_GGIO1_SPCSO1 NULL NULL 0 (-1) IEC61850_FC_ST IEC61850_TIMESTAMP
     0 NULL 0)
].

Definition demo_GenericIO_GGIO1_nodes7 : list (addr * ModelNode) := [
  (iedModel_GenericIO_GGIO1_SPCSO2,
   DataObject "SPCSO2" &iedModel_GenericIO_GGIO1 &iedModel_GenericIO_GGIO1_SPCSO3 &iedModel_GenericIO_GGIO1_SPCSO2_stVal 0 (-1));
  (iedModel_GenericIO_GGIO1_SPCSO2_stVal,
   DataAttribute (Some "stVal") &iedModel_GenericIO_GGIO1_SPCSO2 &iedModel_GenericIO_GGIO1_SPCSO2_q NULL 0 (-1) IEC61850_FC_ST IEC61850_BOOLEAN
     (0 + TRG_OPT_DATA_CHANGED) NULL 0);
  (iedModel_GenericIO_GGIO1_SPCSO2_q,
   DataAttribute (Some "q") &iedModel_GenericIO_GGIO1_SPCSO2 &iedModel_GenericIO_GGIO1_SPCSO2_SBO NULL 0 (-1) IEC61850_FC_ST IEC61850_QUALITY
     (0 + TRG_OPT_QUALITY_CHANGED) NULL 0);
  (iedModel_GenericIO_GGIO1_SPCSO2_SBO,
   DataAttribute (Some "SBO") &iedModel_GenericIO_GGIO1_SPCSO2 &iedModel_GenericIO_GGIO1_SPCSO2_Oper NULL 0 (-1) IEC61850_FC_CO IEC61850_VISIBLE_STRING_129
     0 NULL 0);
  (iedModel_GenericIO_GGIO1_SPCSO2_Oper,
   DataAttribute (Some "Oper") &iedModel_GenericIO_GGIO1_SPCSO2 &iedModel_GenericIO_GGIO1_SPCSO2_Cancel &iedModel_GenericIO_GGIO1_SPCSO2_Oper_ctlVal 0 (-1) IEC61850_FC_CO IEC61850_CONSTRUCTED
     0 NULL 0);
  (iedModel_GenericIO_GGIO1_SPCSO2_Oper_ctlVal,
   DataAttribute (Some "ctlVal") &iedModel_GenericIO_GGIO1_SPCSO2_Oper &iedModel_GenericIO_GGIO1_SPCSO2_Oper_origin NULL 0 (-1) IEC61850_FC_CO IEC61850_BOOLEAN
     0 NULL 0);
  (iedModel_GenericIO_GGIO1_SPCSO2_Oper_origin,
   DataAttribute (Some "origin") &iedModel_GenericIO_GGIO1_SPCSO2_Oper &iedModel_GenericIO_GGIO1_SPCSO2_Oper_ctlNum &iedModel_GenericIO_GGIO1_SPCSO2_Oper_origin_orCat 0 (-1) IEC61850_FC_CO IEC61850_CONSTRUCTED
     0 NULL 0);
  (iedModel_GenericIO_GGIO1_SPCSO2_Oper_origin_orCat,
   DataAttribute (Some "orCat") &iedModel_GenericIO_GGIO1_SPCSO2_Oper_origin &iedModel_GenericIO_GGIO1_SPCSO2_Oper_origin_orIdent NULL 0 (-1) IEC61850_FC_CO IEC61850_ENUMERATED
     0 NULL 0);
  (iedModel_GenericIO_GGIO1_SPCSO2_Oper_origin_orIdent,
   DataAttribute (Some "orIdent") &iedModel_GenericIO_GGIO1_SPCSO2_Oper_origin NULL NULL 0 (-1) IEC61850_FC_CO IEC61850_OCTET_STRING_64
     0 NULL 0);
  (iedModel_GenericIO_GGIO1_SPCSO2_Oper_ctlNum,
   DataAttribute (Some "ctlNum") &iedModel_GenericIO_GGIO1_SPCSO2_Oper &iedModel_GenericIO_GGIO1_SPCSO2_Oper_T NULL 0 (-1) IEC61850_FC_CO IEC61850_INT8U
     0 NULL 0);
  (iedModel_GenericIO_GGIO1_SPCSO2_Oper_T,
   DataAttribute (Some "T") &iedModel_GenericIO_GGIO1_SPCSO2_Oper &iedModel_GenericIO_GGIO1_SPCSO2_Oper_Test NULL 0 (-1) IEC61850_FC_CO IEC61850_TIMESTAMP
     0 NULL 0)
].

Definition demo_GenericIO_GGIO1_nodes8 : list (addr * ModelNode) := [
  (iedModel_GenericIO_GGIO1_SPCSO2_Oper_Test,
   DataAttribute (Some "Test") &iedModel_GenericIO_GGIO1_SPCSO2_Oper &iedModel_GenericIO_GGIO1_SPCSO2_Oper_Check NULL 0 (-1) IEC61850_FC_CO IEC61850_BOOLEAN
     0 NULL 0);
  (iedModel_GenericIO_GGIO1_SPCSO2_Oper_Check,
   DataAttribute (Some "Check") &iedModel_GenericIO_GGIO1_SPCSO2_Oper NULL NULL 0 (-1) IEC61850_FC_CO IEC61850_CHECK
     0 NULL 0);
  (iedModel_GenericIO_GGIO1_SPCSO2_Cancel,
   DataAttribute (Some "Cancel") &iedModel_GenericIO_GGIO1_SPCSO2 &iedModel_GenericIO_GGIO1_SPCSO2_ctlModel &iedModel_GenericIO_GGIO1_SPCSO2_Cancel_ctlVal 0 (-1) IEC61850_FC_CO IEC61850_CONSTRUCTED
     0 NULL 0);
  (iedModel_GenericIO_GGIO1_SPCSO2_Cancel_ctlVal,
   DataAttribute (Some "ctlVal") &iedModel_GenericIO_GGIO1_SPCSO2_Cancel &iedModel_GenericIO_GGIO1_SPCSO2_Cancel_origin NULL 0 (-1) IEC61850_FC_CO IEC61850_BOOLEAN
     0 NULL 0);
  (iedModel_GenericIO_GGIO1_SPCSO2_Cancel_origin,
   DataAttribute (Some "origin") &iedModel_GenericIO_GGIO1_SPCSO2_Cancel &iedModel_GenericIO_GGIO1_SPCSO2_Cancel_ctlNum &iedModel_GenericIO_GGIO1_SPCSO2_Cancel_origin_orCat 0 (-1) IEC61850_FC_CO IEC61850_CONSTRUCTED
     0 NULL 0);
  (iedModel_GenericIO_GGIO1_SPCSO2_Cancel_origin_orCat,
   DataAttribute (Some "orCat") &iedModel_GenericIO_GGIO1_SPCSO2_Cancel_origin &iedModel_GenericIO_GGIO1_SPCSO2_Cancel_origin_orIdent NULL 0 (-1) IEC61850_FC_CO IEC61850_ENUMERATED
     0 NULL 0);
  (iedModel_GenericIO_GGIO1_SPCSO2_Cancel_origin_orIdent,
   DataAttribute (Some "orIdent") &iedModel_GenericIO_GGIO1_SPCSO2_Cancel_origin NULL NULL 0 (-1) IEC61850_FC_CO IEC61850_OCTET_STRING_64
     0 NULL 0);
  (iedModel_GenericIO_GGIO1_SPCSO2_Cancel_ctlNum,
   DataAttribute (Some "ctlNum") &iedModel_GenericIO_GGIO1_SPCSO2_Cancel &iedModel_GenericIO_GGIO1_SPCSO2_Cancel_T NULL 0 (-1) IEC61850_FC_CO IEC61850_INT8U
     0 NULL 0);
  (iedModel_GenericIO_GGIO1_SPCSO2_Cancel_T,
   DataAttribute (Some "T") &iedModel_GenericIO_GGIO1_SPCSO2_Cancel &iedModel_GenericIO_GGIO1_SPCSO2_Cancel_Test NULL 0 (-1) IEC61850_FC_CO IEC61850_TIMESTAMP
     0 NULL 0);
  (iedModel_GenericIO_GGIO1_SPCSO2_Cancel_Test,
   DataAttribute (Some "Test") &iedModel_GenericIO_GGIO1_SPCSO2_Cancel NULL NULL 0 (-1) IEC61850_FC_CO IEC61850_BOOLEAN
     0 NULL 0)
].

Definition demo_GenericIO_GGIO1_nodes9 : list (addr * ModelNode) := [
  (iedModel_GenericIO_GGIO1_SPCSO2_ctlModel,
   DataAttribute (Some "ctlModel") &iedModel_GenericIO_GGIO1_SPCSO2 &iedModel_GenericIO_GGIO1_SPCSO2_t NULL 0 (-1) IEC61850_FC_CF IEC61850_ENUMERATED
     0 NULL 0);
  (iedModel_GenericIO_GGIO1_SPCSO2_t,
   DataAttribute (Some "t") &iedModel_GenericIO_GGIO1_SPCSO2 NULL NULL 0 (-1) IEC61850_FC_ST IEC61850_TIMESTAMP
     0 NULL 0)
].

Definition demo_GenericIO_GGIO1_nodes10 : list (addr * ModelNode) := [
  (iedModel_GenericIO_GGIO1_SPCSO3,
   DataObject "SPCSO3" &iedModel_GenericIO_GGIO1 &iedModel_GenericIO_GGIO1_DPCSO1 &iedModel_GenericIO_GGIO1_SPCSO3_stVal 0 (-1));
  (iedModel_GenericIO_GGIO1_SPCSO3_stVal,
   DataAttribute (Some "stVal") &iedModel_GenericIO_GGIO1_SPCSO3 &iedModel_GenericIO_GGIO1_SPCSO3_q NULL 0 (-1) IEC61850_FC_ST IEC61850_BOOLEAN
     (0 + TRG_OPT_DATA_CHANGED) NULL 0);
  (iedModel_GenericIO_GGIO1_SPCSO3_q,
   DataAttribute (Some "q") &iedModel_GenericIO_GGIO1_SPCSO3 &iedModel_GenericIO_GGIO1_SPCSO3_Oper NULL 0 (-1) IEC61850_FC_ST IEC61850_QUALITY
     (0 + TRG_OPT_QUALITY_CHANGED) NULL 0);
  (iedModel_GenericIO_GGIO1_SPCSO3_Oper,
   DataAttribute (Some "Oper") &iedModel_GenericIO_GGIO1_SPCSO3 &iedModel_GenericIO_GGIO1_SPCSO3_ctlModel &iedModel_GenericIO_GGIO1_SPCSO3_Oper_ctlVal 0 (-1) IEC61850_FC_CO IEC61850_CONSTRUCTED
     0 NULL 0);
  (iedModel_GenericIO_GGIO1_SPCSO3_Oper_ctlVal,
   DataAttribute (Some "ctlVal") &iedModel_GenericIO_GGIO1_SPCSO3_Oper &iedModel_GenericIO_GGIO1_SPCSO3_Oper_origin NULL 0 (-1) IEC61850_FC_CO IEC61850_BOOLEAN
     0 NULL 0);
  (iedModel_GenericIO_GGIO1_SPCSO3_Oper_origin,
   DataAttribute (Some "origin") &iedModel_GenericIO_GGIO1_SPCSO3_Oper &iedModel_GenericIO_GGIO1_SPCSO3_Oper_ctlNum &iedModel_GenericIO_GGIO1_SPCSO3_Oper_origin_orCat 0 (-1) IEC61850_FC_CO IEC61850_CONSTRUCTED
     0 NULL 0);
  (iedModel_GenericIO_GGIO1_SPCSO3_Oper_origin_orCat,
   DataAttribute (Some "orCat") &iedModel_GenericIO_GGIO1_SPCSO3_Oper_origin &iedModel_GenericIO_GGIO1_SPCSO3_Oper_origin_orIdent NULL 0 (-1) IEC61850_FC_CO IEC61850_ENUMERATED
     0 NULL 0);
  (iedModel_GenericIO_GGIO1_SPCSO3_Oper_origin_orIdent,
   DataAttribute (Some "orIdent") &iedModel_GenericIO_GGIO1_SPCSO3_Oper_origin NULL NULL 0 (-1) IEC61850_FC_CO IEC61850_OCTET_STRING_64
     0 NULL 0);
  (iedModel_GenericIO_GGIO1_SPCSO3_Oper_ctlNum,
   DataAttribute (Some "ctlNum") &iedModel_GenericIO_GGIO1_SPCSO3_Oper &iedModel_GenericIO_GGIO1_SPCSO3_Oper_T NULL 0 (-1) IEC61850_FC_CO IEC61850_INT8U
     0 NULL 0);
  (iedModel_GenericIO_GGIO1_SPCSO3_Oper_T,
   DataAttribute (Some "T") &iedModel_GenericIO_GGIO1_SPCSO3_Oper &iedModel_GenericIO_GGIO1_SPCSO3_Oper_Test NULL 0 (-1) IEC61850_FC_CO IEC61850_TIMESTAMP
     0 NULL 0);
  (iedModel_GenericIO_GGIO1_SPCSO3_Oper_Test,
   DataAttribute (Some "Test") &iedModel_GenericIO_GGIO1_SPCSO3_Oper &iedModel_GenericIO_GGIO1_SPCSO3_Oper_Check NULL 0 (-1) IEC61850_FC_CO IEC61850_BOOLEAN
     0 NULL 0)
].

Definition demo_GenericIO_GGIO1_nodes11 : list (addr * ModelNode) := [
  (iedModel_GenericIO_GGIO1_SPCSO3_Oper_Check,
   DataAttribute (Some "Check") &iedModel_GenericIO_GGIO1_SPCSO3_Oper NULL NULL 0 (-1) IEC61850_FC_CO IEC61850_CHECK
     0 NULL 0);
  (iedModel_GenericIO_GGIO1_SPCSO3_ctlModel,
   DataAttribute (Some "ctlModel") &iedModel_GenericIO_GGIO1_SPCSO3 &iedModel_GenericIO_GGIO1_SPCSO3_t NULL 0 (-1) IEC61850_FC_CF IEC61850_ENUMERATED
     0 NULL 0);
  (iedModel_GenericIO_GGIO1_SPCSO3_t,
   DataAttribute (Some "t") &iedModel_GenericIO_GGIO1_SPCSO3 NULL NULL 0 (-1) IEC61850_FC_ST IEC61850_TIMESTAMP
     0 NULL 0)
].

Definition demo_GenericIO_GGIO1_nodes12 : list (addr * ModelNode) := [
  (iedModel_GenericIO_GGIO1_DPCSO1,
   DataObject "DPCSO1" &iedModel_GenericIO_GGIO1 &iedModel_GenericIO_GGIO1_Ind1 &iedModel_GenericIO_GGIO1_DPCSO1_stVal 0 (-1));
  (iedModel_GenericIO_GGIO1_DPCSO1_stVal,
   DataAttribute (Some "stVal") &iedModel_GenericIO_GGIO1_DPCSO1 &iedModel_GenericIO_GGIO1_DPCSO1_q NULL 0 (-1) IEC61850_FC_ST IEC61850_CODEDENUM
     (0 + TRG_OPT_DATA_CHANGED) NULL 0);
  (iedModel_GenericIO_GGIO1_DPCSO1_q,
   DataAttribute (Some "q") &iedModel_GenericIO_GGIO1_DPCSO1 &iedModel_GenericIO_GGIO1_DPCSO1_Oper NULL 0 (-1) IEC61850_FC_ST IEC61850_QUALITY
     (0 + TRG_OPT_QUALITY_CHANGED) NULL 0);
  (iedModel_GenericIO_GGIO1_DPCSO1_Oper,
   DataAttribute (Some "Oper") &iedModel_GenericIO_GGIO1_DPCSO1 &iedModel_GenericIO_GGIO1_DPCSO1_ctlModel &iedModel_GenericIO_GGIO1_DPCSO1_Oper_ctlVal 0 (-1) IEC61850_FC_CO IEC61850_CONSTRUCTED
     0 NULL 0);
  (iedModel_GenericIO_GGIO1_DPCSO1_Oper_ctlVal,
   DataAttribute (Some "ctlVal") &iedModel_GenericIO_GGIO1_DPCSO1_Oper &iedModel_GenericIO_GGIO1_DPCSO1_Oper_origin NULL 0 (-1) IEC61850_FC_CO IEC61850_BOOLEAN
     0 NULL 0);
  (iedModel_GenericIO_GGIO1_DPCSO1_Oper_origin,
   DataAttribute (Some "origin") &iedModel_GenericIO_GGIO1_DPCSO1_Oper &iedModel_GenericIO_GGIO1_DPCSO1_Oper_ctlNum &iedModel_GenericIO_GGIO1_DPCSO1_Oper_origin_orCat 0 (-1) IEC61850_FC_CO IEC61850_CONSTRUCTED
     0 NULL 0);
  (iedModel_GenericIO_GGIO1_DPCSO1_Oper_origin_orCat,
   DataAttribute (Some "orCat") &iedModel_GenericIO_GGIO1_DPCSO1_Oper_origin &iedModel_GenericIO_GGIO1_DPCSO1_Oper_origin_orIdent NULL 0 (-1) IEC61850_FC_CO IEC61850_ENUMERATED
     0 NULL 0);
  (iedModel_GenericIO_GGIO1_DPCSO1_Oper_origin_orIdent,
   DataAttribute (Some "orIdent") &iedModel_GenericIO_GGIO1_DPCSO1_Oper_origin NULL NULL 0 (-1) IEC61850_FC_CO IEC61850_OCTET_STRING_64
     0 NULL 0);
  (iedModel_GenericIO_GGIO1_DPCSO1_Oper_ctlNum,
   DataAttribute (Some "ctlNum") &iedModel_GenericIO_GGIO1_DPCSO1_Oper &iedModel_GenericIO_GGIO1_DPCSO1_Oper_T NULL 0 (-1) IEC61850_FC_CO IEC61850_INT8U
     0 NULL 0);
  (iedModel_GenericIO_GGIO1_DPCSO1_Oper_T,
   DataAttribute (Some "T") &iedModel_GenericIO_GGIO1_DPCSO1_Oper &iedModel_GenericIO_GGIO1_DPCSO1_Oper_Test NULL 0 (-1) IEC61850_FC_CO IEC61850_TIMESTAMP
     0 NULL 0);
  (iedModel_GenericIO_GGIO1_DPCSO1_Oper_Test,
   DataAttribute (Some "Test") &iedModel_GenericIO_GGIO1_DPCSO1_Oper &iedModel_GenericIO_GGIO1_DPCSO1_Oper_Check NULL 0 (-1) IEC61850_FC_CO IEC61850_BOOLEAN
     0 NULL 0)
].

Definition demo_GenericIO_GGIO1_nodes13 : list (addr * ModelNode) := [
  (iedModel_GenericIO_GGIO1_DPCSO1_Oper_Check,
   DataAttribute (Some "Check") &iedModel_GenericIO_GGIO1_DPCSO1_Oper NULL NULL 0 (-1) IEC61850_FC_CO IEC61850_CHECK
     0 NULL 0);
  (iedModel_GenericIO_GGIO1_DPCSO1_ctlModel,
   DataAttribute (Some "ctlModel") &iedModel_GenericIO_GGIO1_DPCSO1 &iedModel_GenericIO_GGIO1_DPCSO1_t NULL 0 (-1) IEC61850_FC_CF IEC61850_ENUMERATED
     0 NULL 0);
  (iedModel_GenericIO_GGIO1_DPCSO1_t,
   DataAttribute (Some "t") &iedModel_GenericIO_GGIO1_DPCSO1 NULL NULL 0 (-1) IEC61850_FC_ST IEC61850_TIMESTAMP
     0 NULL 0);
  (iedModel_GenericIO_GGIO1_Ind1,
   DataObject "Ind1" &iedModel_GenericIO_GGIO1 &iedModel_GenericIO_GGIO1_Ind2 &iedModel_GenericIO_GGIO1_Ind1_stVal 0 (-1));
  (iedModel_GenericIO_GGIO1_Ind1_stVal,
   DataAttribute (Some "stVal") &iedModel_GenericIO_GGIO1_Ind1 &iedModel_GenericIO_GGIO1_Ind1_q NULL 0 (-1) IEC61850_FC_ST IEC61850_BOOLEAN
     (0 + TRG_OPT_DATA_CHANGED) NULL 0);
  (iedModel_GenericIO_GGIO1_Ind1_q,
   DataAttribute (Some "q") &iedModel_GenericIO_GGIO1_Ind1 &iedModel_GenericIO_GGIO1_Ind1_t NULL 0 (-1) IEC61850_FC_ST IEC61850_QUALITY
     (0 + TRG_OPT_QUALITY_CHANGED) NULL 0);
  (iedModel_GenericIO_GGIO1_Ind1_t,
   DataAttribute (Some "t") &iedModel_GenericIO_GGIO1_Ind1 NULL NULL 0 (-1) IEC61850_FC_ST IEC61850_TIMESTAMP
     0 NULL 0);
  (iedModel_GenericIO_GGIO1_Ind2,
   DataObject "Ind2" &iedModel_GenericIO_GGIO1 &iedModel_GenericIO_GGIO1_Ind3 &iedModel_GenericIO_GGIO1_Ind2_stVal 0 (-1));
  (iedModel_GenericIO_GGIO1_Ind2_stVal,
   DataAttribute (Some "stVal") &iedModel_GenericIO_GGIO1_Ind2 &iedModel_GenericIO_GGIO1_Ind2_q NULL 0 (-1) IEC61850_FC_ST IEC61850_BOOLEAN
     (0 + TRG_OPT_DATA_CHANGED) NULL 0);
  (iedModel_GenericIO_GGIO1_Ind2_q,
   DataAttribute (Some "q") &iedModel_GenericIO_GGIO1_Ind2 &iedModel_GenericIO_GGIO1_Ind2_t NULL 0 (-1) IEC61850_FC_ST IEC61850_QUALITY
     (0 + TRG_OPT_QUALITY_CHANGED) NULL 0);
  (iedModel_GenericIO_GGIO1_Ind2_t,
   DataAttribute (Some "t") &iedModel_GenericIO_GGIO1_Ind2 NULL NULL 0 (-1) IEC61850_FC_ST IEC61850_TIMESTAMP
     0 NULL 0)
].

Definition demo_GenericIO_GGIO1_nodes14 : list (addr * ModelNode) := [
  (iedModel_GenericIO_GGIO1_Ind3,
   DataObject "Ind3" &iedModel_GenericIO_GGIO1 &iedModel_GenericIO_GGIO1_Ind4 &iedModel_GenericIO_GGIO1_Ind3_stVal 0 (-1));
  (iedModel_GenericIO_GGIO1_Ind3_stVal,
   DataAttribute (Some "stVal") &iedModel_GenericIO_GGIO1_Ind3 &iedModel_GenericIO_GGIO1_Ind3_q NULL 0 (-1) IEC61850_FC_ST IEC61850_BOOLEAN
     (0 + TRG_OPT_DATA_CHANGED) NULL 0);
  (iedModel_GenericIO_GGIO1_Ind3_q,
   DataAttribute (Some "q") &iedModel_GenericIO_GGIO1_Ind3 &iedModel_GenericIO_GGIO1_Ind3_t NULL 0 (-1) IEC61850_FC_ST IEC61850_QUALITY
     (0 + TRG_OPT_QUALITY_CHANGED) NULL 0);
  (iedModel_GenericIO_GGIO1_Ind3_t,
   DataAttribute (Some "t") &iedModel_GenericIO_GGIO1_Ind3 NULL NULL 0 (-1) IEC61850_FC_ST IEC61850_TIMESTAMP
     0 NULL 0);
  (iedModel_GenericIO_GGIO1_Ind4,
   DataObject "Ind4" &iedModel_GenericIO_GGIO1 NULL &iedModel_GenericIO_GGIO1_Ind4_stVal 0 (-1));
  (iedModel_GenericIO_GGIO1_Ind4_stVal,
   DataAttribute (Some "stVal") &iedModel_GenericIO_GGIO1_Ind4 &iedModel_GenericIO_GGIO1_Ind4_q NULL 0 (-1) IEC61850_FC_ST IEC61850_BOOLEAN
     (0 + TRG_OPT_DATA_CHANGED) NULL 0);
  (iedModel_GenericIO_GGIO1_Ind4_q,
   DataAttribute (Some "q") &iedModel_GenericIO_GGIO1_Ind4 &iedModel_GenericIO_GGIO1_Ind4_t NULL 0 (-1) IEC61850_FC_ST IEC61850_QUALITY
     (0 + TRG_OPT_QUALITY_CHANGED) NULL 0);
  (iedModel_GenericIO_GGIO1_Ind4_t,
   DataAttribute (Some "t") &iedModel_GenericIO_GGIO1_Ind4 NULL NULL 0 (-1) IEC61850_FC_ST IEC61850_TIMESTAMP
     0 NULL 0)
].

Definition demo_GenericIO_TIM_GAPC1_nodes1 : list (addr * ModelNode) := [
  (iedModel_GenericIO_TIM_GAPC1,
   LogicalNode "TIM_GAPC1" &iedModel_GenericIO &iedModel_GenericIO_T60S_FSCH1 &iedModel_GenericIO_TIM_GAPC1_Beh);
  (iedModel_GenericIO_TIM_GAPC1_Beh,
   DataObject "Beh" &iedModel_GenericIO_TIM_GAPC1 &iedModel_GenericIO_TIM_GAPC1_Mod &iedModel_GenericIO_TIM_GAPC1_Beh_stVal 0 (-1));
  (iedModel_GenericIO_TIM_GAPC1_Beh_stVal,
   DataAttribute (Some "stVal") &iedModel_GenericIO_TIM_GAPC1_Beh &iedModel_GenericIO_TIM_GAPC1_Beh_q NULL 0 (-1) IEC61850_FC_ST IEC61850_ENUMERATED
     (0 + TRG_OPT_DATA_CHANGED) NULL 0);
  (iedModel_GenericIO_TIM_GAPC1_Beh_q,
   DataAttribute (Some "q") &iedModel_GenericIO_TIM_GAPC1_Beh &iedModel_GenericIO_TIM_GAPC1_Beh_t NULL 0 (-1) IEC61850_FC_ST IEC61850_QUALITY
     (0 + TRG_OPT_QUALITY_CHANGED) NULL 0);
  (iedModel_GenericIO_TIM_GAPC1_Beh_t,
   DataAttribute (Some "t") &iedModel_GenericIO_TIM_GAPC1_Beh NULL NULL 0 (-1) IEC61850_FC_ST IEC61850_TIMESTAMP
     0 NULL 0);
  (iedModel_GenericIO_TIM_GAPC1_Mod,
   DataObject "Mod" &iedModel_GenericIO_TIM_GAPC1 &iedModel_GenericIO_TIM_GAPC1_Str &iedModel_GenericIO_TIM_GAPC1_Mod_stVal 0 (-1));
  (iedModel_GenericIO_TIM_GAPC1_Mod_stVal,
   DataAttribute (Some "stVal") &iedModel_GenericIO_TIM_GAPC1_Mod &iedModel_GenericIO_TIM_GAPC1_Mod_q NULL 0 (-1) IEC61850_FC_ST IEC61850_ENUMERATED
     (0 + TRG_OPT_DATA_CHANGED) NULL 0);
  (iedModel_GenericIO_TIM_GAPC1_Mod_q,
   DataAttribute (Some "q") &iedModel_GenericIO_TIM_GAPC1_Mod &iedModel_GenericIO_TIM_GAPC1_Mod_t NULL 0 (-1) IEC61850_FC_ST IEC61850_QUALITY
     (0 + TRG_OPT_QUALITY_CHANGED) NULL 0);
  (iedModel_GenericIO_TIM_GAPC1_Mod_t,
   DataAttribute (Some "t") &iedModel_GenericIO_TIM_GAPC1_Mod &iedModel_GenericIO_TIM_GAPC1_Mod_ctlModel NULL 0 (-1) IEC61850_FC_ST IEC61850_TIMESTAMP
     0 NULL 0);
  (iedModel_GenericIO_TIM_GAPC1_Mod_ctlModel,
   DataAttribute (Some "ctlModel") &iedModel_GenericIO_TIM_GAPC1_Mod NULL NULL 0 (-1) IEC61850_FC_CF IEC61850_ENUMERATED
     0 NULL 0)
].

Definition demo_GenericIO_TIM_GAPC1_nodes2 : list (addr * ModelNode) := [
  (iedModel_GenericIO_TIM_GAPC1_Str,
   DataObject "Str" &iedModel_GenericIO_TIM_GAPC1 &iedModel_GenericIO_TIM_GAPC1_Op &iedModel_GenericIO_TIM_GAPC1_Str_general 0 (-1));
  (iedModel_GenericIO_TIM_GAPC1_Str_general,
   DataAttribute (Some "general") &iedModel_GenericIO_TIM_GAPC1_Str &iedModel_GenericIO_TIM_GAPC1_Str_dirGeneral NULL 0 (-1) IEC61850_FC_ST IEC61850_BOOLEAN
     (0 + TRG_OPT_DATA_CHANGED) NULL 0);
  (iedModel_GenericIO_TIM_GAPC1_Str_dirGeneral,
   DataAttribute (Some "dirGeneral") &iedModel_GenericIO_TIM_GAPC1_Str &iedModel_GenericIO_TIM_GAPC1_Str_q NULL 0 (-1) IEC61850_FC_ST IEC61850_ENUMERATED
     (0 + TRG_OPT_DATA_CHANGED) NULL 0);
  (iedModel_GenericIO_TIM_GAPC1_Str_q,
   DataAttribute (Some "q") &iedModel_GenericIO_TIM_GAPC1_Str &iedModel_GenericIO_TIM_GAPC1_Str_t NULL 0 (-1) IEC61850_FC_ST IEC61850_QUALITY
     (0 + TRG_OPT_QUALITY_CHANGED) NULL 0);
  (iedModel_GenericIO_TIM_GAPC1_Str_t,
   DataAttribute (Some "t") &iedModel_GenericIO_TIM_GAPC1_Str NULL NULL 0 (-1) IEC61850_FC_ST IEC61850_TIMESTAMP
     0 NULL 0);
  (iedModel_GenericIO_TIM_GAPC1_Op,
   DataObject "Op" &iedModel_GenericIO_TIM_GAPC1 &iedModel_GenericIO_TIM_GAPC1_OpDlTmms &iedModel_GenericIO_TIM_GAPC1_Op_general 0 (-1));
  (iedModel_GenericIO_TIM_GAPC1_Op_general,
   DataAttribute (Some "general") &iedModel_GenericIO_TIM_GAPC1_Op &iedModel_GenericIO_TIM_GAPC1_Op_q NULL 0 (-1) IEC61850_FC_ST IEC61850_BOOLEAN
     (0 + TRG_OPT_DATA_CHANGED) NULL 0);
  (iedModel_GenericIO_TIM_GAPC1_Op_q,
   DataAttribute (Some "q") &iedModel_GenericIO_TIM_GAPC1_Op &iedModel_GenericIO_TIM_GAPC1_Op_t NULL 0 (-1) IEC61850_FC_ST IEC61850_QUALITY
     (0 + TRG_OPT_QUALITY_CHANGED) NULL 0);
  (iedModel_GenericIO_TIM_GAPC1_Op_t,
   DataAttribute (Some "t") &iedModel_GenericIO_TIM_GAPC1_Op NULL NULL 0 (-1) IEC61850_FC_ST IEC61850_TIMESTAMP
     0 NULL 0)
].

Definition demo_GenericIO_TIM_GAPC1_nodes3 : list (addr * ModelNode) := [
  (iedModel_GenericIO_TIM_GAPC1_OpDlTmms,
   DataObject "OpDlTmms" &iedModel_GenericIO_TIM_GAPC1 &iedModel_GenericIO_TIM_GAPC1_RsDlTmms &iedModel_GenericIO_TIM_GAPC1_OpDlTmms_setVal 0 (-1));
  (iedModel_GenericIO_TIM_GAPC1_OpDlTmms_setVal,
   DataAttribute (Some "setVal") &iedModel_GenericIO_TIM_GAPC1_OpDlTmms &iedModel_GenericIO_TIM_GAPC1_OpDlTmms_dataNs NULL 0 (-1) IEC61850_FC_SP IEC61850_INT32
     (0 + TRG_OPT_DATA_CHANGED) NULL 0);
  (iedModel_GenericIO_TIM_GAPC1_OpDlTmms_dataNs,
   DataAttribute (Some "dataNs") &iedModel_GenericIO_TIM_GAPC1_OpDlTmms NULL NULL 0 (-1) IEC61850_FC_EX IEC61850_VISIBLE_STRING_255
     0 NULL 0);
  (iedModel_GenericIO_TIM_GAPC1_RsDlTmms,
   DataObject "RsDlTmms" &iedModel_GenericIO_TIM_GAPC1 &iedModel_GenericIO_TIM_GAPC1_OpCntRs &iedModel_GenericIO_TIM_GAPC1_RsDlTmms_setVal 0 (-1));
  (iedModel_GenericIO_TIM_GAPC1_RsDlTmms_setVal,
   DataAttribute (Some "setVal") &iedModel_GenericIO_TIM_GAPC1_RsDlTmms &iedModel_GenericIO_TIM_GAPC1_RsDlTmms_dataNs NULL 0 (-1) IEC61850_FC_SP IEC61850_INT32
     (0 + TRG_OPT_DATA_CHANGED) NULL 0);
  (iedModel_GenericIO_TIM_GAPC1_RsDlTmms_dataNs,
   DataAttribute (Some "dataNs") &iedModel_GenericIO_TIM_GAPC1_RsDlTmms NULL NULL 0 (-1) IEC61850_FC_EX IEC61850_VISIBLE_STRING_255
     0 NULL 0)
].

Definition demo_GenericIO_TIM_GAPC1_nodes4 : list (addr * ModelNode) := [
  (iedModel_GenericIO_TIM_GAPC1_OpCntRs,
   DataObject "OpCntRs" &iedModel_GenericIO_TIM_GAPC1 NULL &iedModel_GenericIO_TIM_GAPC1_OpCntRs_stVal 0 (-1));
  (iedModel_GenericIO_TIM_GAPC1_OpCntRs_stVal,
   DataAttribute (Some "stVal") &iedModel_GenericIO_TIM_GAPC1_OpCntRs &iedModel_GenericIO_TIM_GAPC1_OpCntRs_q NULL 0 (-1) IEC61850_FC_ST IEC61850_INT32
     (0 + TRG_OPT_DATA_CHANGED) NULL 0);
  (iedModel_GenericIO_TIM_GAPC1_OpCntRs_q,
   DataAttribute (Some "q") &iedModel_GenericIO_TIM_GAPC1_OpCntRs &iedModel_GenericIO_TIM_GAPC1_OpCntRs_t NULL 0 (-1) IEC61850_FC_ST IEC61850_QUALITY
     (0 + TRG_OPT_QUALITY_CHANGED) NULL 0);
  (iedModel_GenericIO_TIM_GAPC1_OpCntRs_t,
   DataAttribute (Some "t") &iedModel_GenericIO_TIM_GAPC1_OpCntRs &iedModel_GenericIO_TIM_GAPC1_OpCntRs_Oper NULL 0 (-1) IEC61850_FC_ST IEC61850_TIMESTAMP
     0 NULL 0);
  (iedModel_GenericIO_TIM_GAPC1_OpCntRs_Oper,
   DataAttribute (Some "Oper") &iedModel_GenericIO_TIM_GAPC1_OpCntRs &iedModel_GenericIO_TIM_GAPC1_OpCntRs_ctlModel &iedModel_GenericIO_TIM_GAPC1_OpCntRs_Oper_ctlVal 0 (-1) IEC61850_FC_CO IEC61850_CONSTRUCTED
     0 NULL 0);
  (iedModel_GenericIO_TIM_GAPC1_OpCntRs_Oper_ctlVal,
   DataAttribute (Some "ctlVal") &iedModel_GenericIO_TIM_GAPC1_OpCntRs_Oper &iedModel_GenericIO_TIM_GAPC1_OpCntRs_Oper_origin NULL 0 (-1) IEC61850_FC_CO IEC61850_INT32
     0 NULL 0);
  (iedModel_GenericIO_TIM_GAPC1_OpCntRs_Oper_origin,
   DataAttribute (Some "origin") &iedModel_GenericIO_TIM_GAPC1_OpCntRs_Oper &iedModel_GenericIO_TIM_GAPC1_OpCntRs_Oper_ctlNum &iedModel_GenericIO_TIM_GAPC1_OpCntRs_Oper_origin_orCat 0 (-1) IEC61850_FC_CO IEC61850_CONSTRUCTED
     0 NULL 0);
  (iedModel_GenericIO_TIM_GAPC1_OpCntRs_Oper_origin_orCat,
   DataAttribute (Some "orCat") &iedModel_GenericIO_TIM_GAPC1_OpCntRs_Oper_origin &iedModel_GenericIO_TIM_GAPC1_OpCntRs_Oper_origin_orIdent NULL 0 (-1) IEC61850_FC_CO IEC61850_ENUMERATED
     0 NULL 0);
  (iedModel_GenericIO_TIM_GAPC1_OpCntRs_Oper_origin_orIdent,
   DataAttribute (Some "orIdent") &iedModel_GenericIO_TIM_GAPC1_OpCntRs_Oper_origin NULL NULL 0 (-1) IEC61850_FC_CO IEC61850_OCTET_STRING_64
     0 NULL 0);
  (iedModel_GenericIO_TIM_GAPC1_OpCntRs_Oper_ctlNum,
   DataAttribute (Some "ctlNum") &iedModel_GenericIO_TIM_GAPC1_OpCntRs_Oper &iedModel_GenericIO_TIM_GAPC1_OpCntRs_Oper_T NULL 0 (-1) IEC61850_FC_CO IEC61850_INT8U
     0 NULL 0);
  (iedModel_GenericIO_TIM_GAPC1_OpCntRs_Oper_T,
   DataAttribute (Some "T") &iedModel_GenericIO_TIM_GAPC1_OpCntRs_Oper &iedModel_GenericIO_TIM_GAPC1_OpCntRs_Oper_Test NULL 0 (-1) IEC61850_FC_CO IEC61850_TIMESTAMP
     0 NULL 0)
].

Definition demo_GenericIO_TIM_GAPC1_nodes5 : list (addr * ModelNode) := [
  (iedModel_GenericIO_TIM_GAPC1_OpCntRs_Oper_Test,
   DataAttribute (Some "Test") &iedModel_GenericIO_TIM_GAPC1_OpCntRs_Oper &iedModel_GenericIO_TIM_GAPC1_OpCntRs_Oper_Check NULL 0 (-1) IEC61850_FC_CO IEC61850_BOOLEAN
     0 NULL 0);
  (iedModel_GenericIO_TIM_GAPC1_OpCntRs_Oper_Check,
   DataAttribute (Some "Check") &iedModel_GenericIO_TIM_GAPC1_OpCntRs_Oper NULL NULL 0 (-1) IEC61850_FC_CO IEC61850_CHECK
     0 NULL 0);
  (iedModel_GenericIO_TIM_GAPC1_OpCntRs_ctlModel,
   DataAttribute (Some "ctlModel") &iedModel_GenericIO_TIM_GAPC1_OpCntRs NULL NULL 0 (-1) IEC61850_FC_CF IEC61850_ENUMERATED
     0 NULL 0)
].

Definition demo_GenericIO_T60S_FSCH1_nodes1 : list (addr * ModelNode) := [
  (iedModel_GenericIO_T60S_FSCH1,
   LogicalNode "T60S_FSCH1" &iedModel_GenericIO &iedModel_GenericIO_T60S_FSCH2 &iedModel_GenericIO_T60S_FSCH1_Beh);
  (iedModel_GenericIO_T60S_FSCH1_Beh,
   DataObject "Beh" &iedModel_GenericIO_T60S_FSCH1 &iedModel_GenericIO_T60S_FSCH1_SchdSt &iedModel_GenericIO_T60S_FSCH1_Beh_stVal 0 (-1));
  (iedModel_GenericIO_T60S_FSCH1_Beh_stVal,
   DataAttribute (Some "stVal") &iedModel_GenericIO_T60S_FSCH1_Beh &iedModel_GenericIO_T60S_FSCH1_Beh_q NULL 0 (-1) IEC61850_FC_ST IEC61850_ENUMERATED
     (0 + TRG_OPT_DATA_CHANGED) NULL 0);
  (iedModel_GenericIO_T60S_FSCH1_Beh_q,
   DataAttribute (Some "q") &iedModel_GenericIO_T60S_FSCH1_Beh &iedModel_GenericIO_T60S_FSCH1_Beh_t NULL 0 (-1) IEC61850_FC_ST IEC61850_QUALITY
     (0 + TRG_OPT_QUALITY_CHANGED) NULL 0);
  (iedModel_GenericIO_T60S_FSCH1_Beh_t,
   DataAttribute (Some "t") &iedModel_GenericIO_T60S_FSCH1_Beh NULL NULL 0 (-1) IEC61850_FC_ST IEC61850_TIMESTAMP
     0 NULL 0);
  (iedModel_GenericIO_T60S_FSCH1_SchdSt,
   DataObject "SchdSt" &iedModel_GenericIO_T60S_FSCH1 &iedModel_GenericIO_T60S_FSCH1_SchdEntr &iedModel_GenericIO_T60S_FSCH1_SchdSt_stVal 0 (-1));
  (iedModel_GenericIO_T60S_FSCH1_SchdSt_stVal,
   DataAttribute (Some "stVal") &iedModel_GenericIO_T60S_FSCH1_SchdSt &iedModel_GenericIO_T60S_FSCH1_SchdSt_q NULL 0 (-1) IEC61850_FC_ST IEC61850_ENUMERATED
     (0 + TRG_OPT_DATA_CHANGED) NULL 0);
  (iedModel_GenericIO_T60S_FSCH1_SchdSt_q,
   DataAttribute (Some "q") &iedModel_GenericIO_T60S_FSCH1_SchdSt &iedModel_GenericIO_T60S_FSCH1_SchdSt_t NULL 0 (-1) IEC61850_FC_ST IEC61850_QUALITY
     (0 + TRG_OPT_QUALITY_CHANGED) NULL 0);
  (iedModel_GenericIO_T60S_FSCH1_SchdSt_t,
   DataAttribute (Some "t") &iedModel_GenericIO_T60S_FSCH1_SchdSt NULL NULL 0 (-1) IEC61850_FC_ST IEC61850_TIMESTAMP
     0 NULL 0)
].

Definition demo_GenericIO_T60S_FSCH1_nodes2 : list (addr * ModelNode) := [
  (iedModel_GenericIO_T60S_FSCH1_SchdEntr,
   DataObject "SchdEntr" &iedModel_GenericIO_T60S_FSCH1 &iedModel_GenericIO_T60S_FSCH1_ValSPS &iedModel_GenericIO_T60S_FSCH1_SchdEntr_stVal 0 (-1));
  (iedModel_GenericIO_T60S_FSCH1_SchdEntr_stVal,
   DataAttribute (Some "stVal") &iedModel_GenericIO_T60S_FSCH1_SchdEntr &iedModel_GenericIO_T60S_FSCH1_SchdEntr_q NULL 0 (-1) IEC61850_FC_ST IEC61850_INT32
     (0 + TRG_OPT_DATA_CHANGED) NULL 0);
  (iedModel_GenericIO_T60S_FSCH1_SchdEntr_q,
   DataAttribute (Some "q") &iedModel_GenericIO_T60S_FSCH1_SchdEntr &iedModel_GenericIO_T60S_FSCH1_SchdEntr_t NULL 0 (-1) IEC61850_FC_ST IEC61850_QUALITY
     (0 + TRG_OPT_QUALITY_CHANGED) NULL 0);
  (iedModel_GenericIO_T60S_FSCH1_SchdEntr_t,
   DataAttribute (Some "t") &iedModel_GenericIO_T60S_FSCH1_SchdEntr NULL NULL 0 (-1) IEC61850_FC_ST IEC61850_TIMESTAMP
     0 NULL 0);
  (iedModel_GenericIO_T60S_FSCH1_ValSPS,
   DataObject "ValSPS" &iedModel_GenericIO_T60S_FSCH1 &iedModel_GenericIO_T60S_FSCH1_VldReq &iedModel_GenericIO_T60S_FSCH1_ValSPS_stVal 0 (-1));
  (iedModel_GenericIO_T60S_FSCH1_ValSPS_stVal,
   DataAttribute (Some "stVal") &iedModel_GenericIO_T60S_FSCH1_ValSPS &iedModel_GenericIO_T60S_FSCH1_ValSPS_q NULL 0 (-1) IEC61850_FC_ST IEC61850_BOOLEAN
     (0 + TRG_OPT_DATA_CHANGED) NULL 0);
  (iedModel_GenericIO_T60S_FSCH1_ValSPS_q,
   DataAttribute (Some "q") &iedModel_GenericIO_T60S_FSCH1_ValSPS &iedModel_GenericIO_T60S_FSCH1_ValSPS_t NULL 0 (-1) IEC61850_FC_ST IEC61850_QUALITY
     (0 + TRG_OPT_QUALITY_CHANGED) NULL 0);
  (iedModel_GenericIO_T60S_FSCH1_ValSPS_t,
   DataAttribute (Some "t") &iedModel_GenericIO_T60S_FSCH1_ValSPS NULL NULL 0 (-1) IEC61850_FC_ST IEC61850_TIMESTAMP
     0 NULL 0)
].

Definition demo_GenericIO_T60S_FSCH1_nodes3 : list (addr * ModelNode) := [
  (iedModel_GenericIO_T60S_FSCH1_VldReq,
   DataObject "VldReq" &iedModel_GenericIO_T60S_FSCH1 &iedModel_GenericIO_T60S_FSCH1_EnaReq &iedModel_GenericIO_T60S_FSCH1_VldReq_stVal 0 (-1));
  (iedModel_GenericIO_T60S_FSCH1_VldReq_stVal,
   DataAttribute (Some "stVal") &iedModel_GenericIO_T60S_FSCH1_VldReq &iedModel_GenericIO_T60S_FSCH1_VldReq_q NULL 0 (-1) IEC61850_FC_ST IEC61850_BOOLEAN
     (0 + TRG_OPT_DATA_CHANGED) NULL 0);
  (iedModel_GenericIO_T60S_FSCH1_VldReq_q,
   DataAttribute (Some "q") &iedModel_GenericIO_T60S_FSCH1_VldReq &iedModel_GenericIO_T60S_FSCH1_VldReq_Oper NULL 0 (-1) IEC61850_FC_ST IEC61850_QUALITY
     (0 + TRG_OPT_QUALITY_CHANGED) NULL 0);
  (iedModel_GenericIO_T60S_FSCH1_VldReq_Oper,
   DataAttribute (Some "Oper") &iedModel_GenericIO_T60S_FSCH1_VldReq &iedModel_GenericIO_T60S_FSCH1_VldReq_ctlModel &iedModel_GenericIO_T60S_FSCH1_VldReq_Oper_ctlVal 0 (-1) IEC61850_FC_CO IEC61850_CONSTRUCTED
     0 NULL 0);
  (iedModel_GenericIO_T60S_FSCH1_VldReq_Oper_ctlVal,
   DataAttribute (Some "ctlVal") &iedModel_GenericIO_T60S_FSCH1_VldReq_Oper &iedModel_GenericIO_T60S_FSCH1_VldReq_Oper_origin NULL 0 (-1) IEC61850_FC_CO IEC61850_BOOLEAN
     0 NULL 0);
  (iedModel_GenericIO_T60S_FSCH1_VldReq_Oper_origin,
   DataAttribute (Some "origin") &iedModel_GenericIO_T60S_FSCH1_VldReq_Oper &iedModel_GenericIO_T60S_FSCH1_VldReq_Oper_ctlNum &iedModel_GenericIO_T60S_FSCH1_VldReq_Oper_origin_orCat 0 (-1) IEC61850_FC_CO IEC61850_CONSTRUCTED
     0 NULL 0);
  (iedModel_GenericIO_T60S_FSCH1_VldReq_Oper_origin_orCat,
   DataAttribute (Some "orCat") &iedModel_GenericIO_T60S_FSCH1_VldReq_Oper_origin &iedModel_GenericIO_T60S_FSCH1_VldReq_Oper_origin_orIdent NULL 0 (-1) IEC61850_FC_CO IEC61850_ENUMERATED
     0 NULL 0);
  (iedModel_GenericIO_T60S_FSCH1_VldReq_Oper_origin_orIdent,
   DataAttribute (Some "orIdent") &iedModel_GenericIO_T60S_FSCH1_VldReq_Oper_origin NULL NULL 0 (-1) IEC61850_FC_CO IEC61850_OCTET_STRING_64
     0 NULL 0);
  (iedModel_GenericIO_T60S_FSCH1_VldReq_Oper_ctlNum,
   DataAttribute (Some "ctlNum") &iedModel_GenericIO_T60S_FSCH1_VldReq_Oper &iedModel_GenericIO_T60S_FSCH1_VldReq_Oper_T NULL 0 (-1) IEC61850_FC_CO IEC61850_INT8U
     0 NULL 0);
  (iedModel_GenericIO_T60S_FSCH1_VldReq_Oper_T,
   DataAttribute (Some "T") &iedModel_GenericIO_T60S_FSCH1_VldReq_Oper &iedModel_GenericIO_T60S_FSCH1_VldReq_Oper_Test NULL 0 (-1) IEC61850_FC_CO IEC61850_TIMESTAMP
     0 NULL 0);
  (iedModel_GenericIO_T60S_FSCH1_VldReq_Oper_Test,
   DataAttribute (Some "Test") &iedModel_GenericIO_T60S_FSCH1_VldReq_Oper &iedModel_GenericIO_T60S_FSCH1_VldReq_Oper_Check NULL 0 (-1) IEC61850_FC_CO IEC61850_BOOLEAN
     0 NULL 0)
].

Definition demo_GenericIO_T60S_FSCH1_nodes4 : list (addr * ModelNode) := [
  (iedModel_GenericIO_T60S_FSCH1_VldReq_Oper_Check,
   DataAttribute (Some "Check") &iedModel_GenericIO_T60S_FSCH1_VldReq_Oper NULL NULL 0 (-1) IEC61850_FC_CO IEC61850_CHECK
     0 NULL 0);
  (iedModel_GenericIO_T60S_FSCH1_VldReq_ctlModel,
   DataAttribute (Some "ctlModel") &iedModel_GenericIO_T60S_FSCH1_VldReq &iedModel_GenericIO_T60S_FSCH1_VldReq_t NULL 0 (-1) IEC61850_FC_CF IEC61850_ENUMERATED
     0 NULL 0);
  (iedModel_GenericIO_T60S_FSCH1_VldReq_t,
   DataAttribute (Some "t") &iedModel_GenericIO_T60S_FSCH1_VldReq NULL NULL 0 (-1) IEC61850_FC_ST IEC61850_TIMESTAMP
     0 NULL 0)
].

Definition demo_GenericIO_T60S_FSCH1_nodes5 : list (addr * ModelNode) := [
  (iedModel_GenericIO_T60S_FSCH1_EnaReq,
   DataObject "EnaReq" &iedModel_GenericIO_T60S_FSCH1 &iedModel_GenericIO_T60S_FSCH1_EdtReq &iedModel_GenericIO_T60S_FSCH1_EnaReq_stVal 0 (-1));
  (iedModel_GenericIO_T60S_FSCH1_EnaReq_stVal,
   DataAttribute (Some "stVal") &iedModel_GenericIO_T60S_FSCH1_EnaReq &iedModel_GenericIO_T60S_FSCH1_EnaReq_q NULL 0 (-1) IEC61850_FC_ST IEC61850_BOOLEAN
     (0 + TRG_OPT_DATA_CHANGED) NULL 0);
  (iedModel_GenericIO_T60S_FSCH1_EnaReq_q,
   DataAttribute (Some "q") &iedModel_GenericIO_T60S_FSCH1_EnaReq &iedModel_GenericIO_T60S_FSCH1_EnaReq_Oper NULL 0 (-1) IEC61850_FC_ST IEC61850_QUALITY
     (0 + TRG_OPT_QUALITY_CHANGED) NULL 0);
  (iedModel_GenericIO_T60S_FSCH1_EnaReq_Oper,
   DataAttribute (Some "Oper") &iedModel_GenericIO_T60S_FSCH1_EnaReq &iedModel_GenericIO_T60S_FSCH1_EnaReq_ctlModel &iedModel_GenericIO_T60S_FSCH1_EnaReq_Oper_ctlVal 0 (-1) IEC61850_FC_CO IEC61850_CONSTRUCTED
     0 NULL 0);
  (iedModel_GenericIO_T60S_FSCH1_EnaReq_Oper_ctlVal,
   DataAttribute (Some "ctlVal") &iedModel_GenericIO_T60S_FSCH1_EnaReq_Oper &iedModel_GenericIO_T60S_FSCH1_EnaReq_Oper_origin NULL 0 (-1) IEC61850_FC_CO IEC61850_BOOLEAN
     0 NULL 0);
  (iedModel_GenericIO_T60S_FSCH1_EnaReq_Oper_origin,
   DataAttribute (Some "origin") &iedModel_GenericIO_T60S_FSCH1_EnaReq_Oper &iedModel_GenericIO_T60S_FSCH1_EnaReq_Oper_ctlNum &iedModel_GenericIO_T60S_FSCH1_EnaReq_Oper_origin_orCat 0 (-1) IEC61850_FC_CO IEC61850_CONSTRUCTED
     0 NULL 0);
  (iedModel_GenericIO_T60S_FSCH1_EnaReq_Oper_origin_orCat,
   DataAttribute (Some "orCat") &iedModel_GenericIO_T60S_FSCH1_EnaReq_Oper_origin &iedModel_GenericIO_T60S_FSCH1_EnaReq_Oper_origin_orIdent NULL 0 (-1) IEC61850_FC_CO IEC61850_ENUMERATED
     0 NULL 0);
  (iedModel_GenericIO_T60S_FSCH1_EnaReq_Oper_origin_orIdent,
   DataAttribute (Some "orIdent") &iedModel_GenericIO_T60S_FSCH1_EnaReq_Oper_origin NULL NULL 0 (-1) IEC61850_FC_CO IEC61850_OCTET_STRING_64
     0 NULL 0);
  (iedModel_GenericIO_T60S_FSCH1_EnaReq_Oper_ctlNum,
   DataAttribute (Some "ctlNum") &iedModel_GenericIO_T60S_FSCH1_EnaReq_Oper &iedModel_GenericIO_T60S_FSCH1_EnaReq_Oper_T NULL 0 (-1) IEC61850_FC_CO IEC61850_INT8U
     0 NULL 0);
  (iedModel_GenericIO_T60S_FSCH1_EnaReq_Oper_T,
   DataAttribute (Some "T") &iedModel_GenericIO_T60S_FSCH1_EnaReq_Oper &iedModel_GenericIO_T60S_FSCH1_EnaReq_Oper_Test NULL 0 (-1) IEC61850_FC_CO IEC61850_TIMESTAMP
     0 NULL 0);
  (iedModel_GenericIO_T60S_FSCH1_EnaReq_Oper_Test,
   DataAttribute (Some "Test") &iedModel_GenericIO_T60S_FSCH1_EnaReq_Oper &iedModel_GenericIO_T60S_FSCH1_EnaReq_Oper_Check NULL 0 (-1) IEC61850_FC_CO IEC61850_BOOLEAN
     0 NULL 0)
].

Definition demo_GenericIO_T60S_FSCH1_nodes6 : list (addr * ModelNode) := [
  (iedModel_GenericIO_T60S_FSCH1_EnaReq_Oper_Check,
   DataAttribute (Some "Check") &iedModel_GenericIO_T60S_FSCH1_EnaReq_Oper NULL NULL 0 (-1) IEC61850_FC_CO IEC61850_CHECK
     0 NULL 0);
  (iedModel_GenericIO_T60S_FSCH1_EnaReq_ctlModel,
   DataAttribute (Some "ctlModel") &iedModel_GenericIO_T60S_FSCH1_EnaReq &iedModel_GenericIO_T60S_FSCH1_EnaReq_t NULL 0 (-1) IEC61850_FC_CF IEC61850_ENUMERATED
     0 NULL 0);
  (iedModel_GenericIO_T60S_FSCH1_EnaReq_t,
   DataAttribute (Some "t") &iedModel_GenericIO_T60S_FSCH1_EnaReq NULL NULL 0 (-1) IEC61850_FC_ST IEC61850_TIMESTAMP
     0 NULL 0)
].

Definition demo_GenericIO_T60S_FSCH1_nodes7 : list (addr * ModelNode) := [
  (iedModel_GenericIO_T60S_FSCH1_EdtReq,
   DataObject "EdtReq" &iedModel_GenericIO_T60S_FSCH1 &iedModel_GenericIO_T60S_FSCH1_DsaReq &iedModel_GenericIO_T60S_FSCH1_EdtReq_stVal 0 (-1));
  (iedModel_GenericIO_T60S_FSCH1_EdtReq_stVal,
   DataAttribute (Some "stVal") &iedModel_GenericIO_T60S_FSCH1_EdtReq &iedModel_GenericIO_T60S_FSCH1_EdtReq_q NULL 0 (-1) IEC61850_FC_ST IEC61850_BOOLEAN
     (0 + TRG_OPT_DATA_CHANGED) NULL 0);
  (iedModel_GenericIO_T60S_FSCH1_EdtReq_q,
   DataAttribute (Some "q") &iedModel_GenericIO_T60S_FSCH1_EdtReq &iedModel_GenericIO_T60S_FSCH1_EdtReq_Oper NULL 0 (-1) IEC61850_FC_ST IEC61850_QUALITY
     (0 + TRG_OPT_QUALITY_CHANGED) NULL 0);
  (iedModel_GenericIO_T60S_FSCH1_EdtReq_Oper,
   DataAttribute (Some "Oper") &iedModel_GenericIO_T60S_FSCH1_EdtReq &iedModel_GenericIO_T60S_FSCH1_EdtReq_ctlModel &iedModel_GenericIO_T60S_FSCH1_EdtReq_Oper_ctlVal 0 (-1) IEC61850_FC_CO IEC61850_CONSTRUCTED
     0 NULL 0);
  (iedModel_GenericIO_T60S_FSCH1_EdtReq_Oper_ctlVal,
   DataAttribute (Some "ctlVal") &iedModel_GenericIO_T60S_FSCH1_EdtReq_Oper &iedModel_GenericIO_T60S_FSCH1_EdtReq_Oper_origin NULL 0 (-1) IEC61850_FC_CO IEC61850_BOOLEAN
     0 NULL 0);
  (iedModel_GenericIO_T60S_FSCH1_EdtReq_Oper_origin,
   DataAttribute (Some "origin") &iedModel_GenericIO_T60S_FSCH1_EdtReq_Oper &iedModel_GenericIO_T60S_FSCH1_EdtReq_Oper_ctlNum &iedModel_GenericIO_T60S_FSCH1_EdtReq_Oper_origin_orCat 0 (-1) IEC61850_FC_CO IEC61850_CONSTRUCTED
     0 NULL 0);
  (iedModel_GenericIO_T60S_FSCH1_EdtReq_Oper_origin_orCat,
   DataAttribute (Some "orCat") &iedModel_GenericIO_T60S_FSCH1_EdtReq_Oper_origin &iedModel_GenericIO_T60S_FSCH1_EdtReq_Oper_origin_orIdent NULL 0 (-1) IEC61850_FC_CO IEC61850_ENUMERATED
     0 NULL 0);
  (iedModel_GenericIO_T60S_FSCH1_EdtReq_Oper_origin_orIdent,
   DataAttribute (Some "orIdent") &iedModel_GenericIO_T60S_FSCH1_EdtReq_Oper_origin NULL NULL 0 (-1) IEC61850_FC_CO IEC61850_OCTET_STRING_64
     0 NULL 0);
  (iedModel_GenericIO_T60S_FSCH1_EdtReq_Oper_ctlNum,
   DataAttribute (Some "ctlNum") &iedModel_GenericIO_T60S_FSCH1_EdtReq_Oper &iedModel_GenericIO_T60S_FSCH1_EdtReq_Oper_T NULL 0 (-1) IEC61850_FC_CO IEC61850_INT8U
     0 NULL 0);
  (iedModel_GenericIO_T60S_FSCH1_EdtReq_Oper_T,
   DataAttribute (Some "T") &iedModel_GenericIO_T60S_FSCH1_EdtReq_Oper &iedModel_GenericIO_T60S_FSCH1_EdtReq_Oper_Test NULL 0 (-1) IEC61850_FC_CO IEC61850_TIMESTAMP
     0 NULL 0);
  (iedModel_GenericIO_T60S_FSCH1_EdtReq_Oper_Test,
   DataAttribute (Some "Test") &iedModel_GenericIO_T60S_FSCH1_EdtReq_Oper &iedModel_GenericIO_T60S_FSCH1_EdtReq_Oper_Check NULL 0 (-1) IEC61850_FC_CO IEC61850_BOOLEAN
     0 NULL 0)
].

Definition demo_GenericIO_T60S_FSCH1_nodes8 : list (addr * ModelNode) := [
  (iedModel_GenericIO_T60S_FSCH1_EdtReq_Oper_Check,
   DataAttribute (Some "Check") &iedModel_GenericIO_T60S_FSCH1_EdtReq_Oper NULL NULL 0 (-1) IEC61850_FC_CO IEC61850_CHECK
     0 NULL 0);
  (iedModel_GenericIO_T60S_FSCH1_EdtReq_ctlModel,
   DataAttribute (Some "ctlModel") &iedModel_GenericIO_T60S_FSCH1_EdtReq &iedModel_GenericIO_T60S_FSCH1_EdtReq_t NULL 0 (-1) IEC61850_FC_CF IEC61850_ENUMERATED
     0 NULL 0);
  (iedModel_GenericIO_T60S_FSCH1_EdtReq_t,
   DataAttribute (Some "t") &iedModel_GenericIO_T60S_FSCH1_EdtReq NULL NULL 0 (-1) IEC61850_FC_ST IEC61850_TIMESTAMP
     0 NULL 0)
].

Definition demo_GenericIO_T60S_FSCH1_nodes9 : list (addr * ModelNode) := [
  (iedModel_GenericIO_T60S_FSCH1_DsaReq,
   DataObject "DsaReq" &iedModel_GenericIO_T60S_FSCH1 &iedModel_GenericIO_T60S_FSCH1_SchdPrio &iedModel_GenericIO_T60S_FSCH1_DsaReq_stVal 0 (-1));
  (iedModel_GenericIO_T60S_FSCH1_DsaReq_stVal,
   DataAttribute (Some "stVal") &iedModel_GenericIO_T60S_FSCH1_DsaReq &iedModel_GenericIO_T60S_FSCH1_DsaReq_q NULL 0 (-1) IEC61850_FC_ST IEC61850_BOOLEAN
     (0 + TRG_OPT_DATA_CHANGED) NULL 0);
  (iedModel_GenericIO_T60S_FSCH1_DsaReq_q,
   DataAttribute (Some "q") &iedModel_GenericIO_T60S_FSCH1_DsaReq &iedModel_GenericIO_T60S_FSCH1_DsaReq_Oper NULL 0 (-1) IEC61850_FC_ST IEC61850_QUALITY
     (0 + TRG_OPT_QUALITY_CHANGED) NULL 0);
  (iedModel_GenericIO_T60S_FSCH1_DsaReq_Oper,
   DataAttribute (Some "Oper") &iedModel_GenericIO_T60S_FSCH1_DsaReq &iedModel_GenericIO_T60S_FSCH1_DsaReq_ctlModel &iedModel_GenericIO_T60S_FSCH1_DsaReq_Oper_ctlVal 0 (-1) IEC61850_FC_CO IEC61850_CONSTRUCTED
     0 NULL 0);
  (iedModel_GenericIO_T60S_FSCH1_DsaReq_Oper_ctlVal,
   DataAttribute (Some "ctlVal") &iedModel_GenericIO_T60S_FSCH1_DsaReq_Oper &iedModel_GenericIO_T60S_FSCH1_DsaReq_Oper_origin NULL 0 (-1) IEC61850_FC_CO IEC61850_BOOLEAN
     0 NULL 0);
  (iedModel_GenericIO_T60S_FSCH1_DsaReq_Oper_origin,
   DataAttribute (Some "origin") &iedModel_GenericIO_T60S_FSCH1_DsaReq_Oper &iedModel_GenericIO_T60S_FSCH1_DsaReq_Oper_ctlNum &iedModel_GenericIO_T60S_FSCH1_DsaReq_Oper_origin_orCat 0 (-1) IEC61850_FC_CO IEC61850_CONSTRUCTED
     0 NULL 0);
  (iedModel_GenericIO_T60S_FSCH1_DsaReq_Oper_origin_orCat,
   DataAttribute (Some "orCat") &iedModel_GenericIO_T60S_FSCH1_DsaReq_Oper_origin &iedModel_GenericIO_T60S_FSCH1_DsaReq_Oper_origin_orIdent NULL 0 (-1) IEC61850_FC_CO IEC61850_ENUMERATED
     0 NULL 0);
  (iedModel_GenericIO_T60S_FSCH1_DsaReq_Oper_origin_orIdent,
   DataAttribute (Some "orIdent") &iedModel_GenericIO_T60S_FSCH1_DsaReq_Oper_origin NULL NULL 0 (-1) IEC61850_FC_CO IEC61850_OCTET_STRING_64
     0 NULL 0);
  (iedModel_GenericIO_T60S_FSCH1_DsaReq_Oper_ctlNum,
   DataAttribute (Some "ctlNum") &iedModel_GenericIO_T60S_FSCH1_DsaReq_Oper &iedModel_GenericIO_T60S_FSCH1_DsaReq_Oper_T NULL 0 (-1) IEC61850_FC_CO IEC61850_INT8U
     0 NULL 0);
  (iedModel_GenericIO_T60S_FSCH1_DsaReq_Oper_T,
   DataAttribute (Some "T") &iedModel_GenericIO_T60S_FSCH1_DsaReq_Oper &iedModel_GenericIO_T60S_FSCH1_DsaReq_Oper_Test NULL 0 (-1) IEC61850_FC_CO IEC61850_TIMESTAMP
     0 NULL 0);
  (iedModel_GenericIO_T60S_FSCH1_DsaReq_Oper_Test,
   DataAttribute (Some "Test") &iedModel_GenericIO_T60S_FSCH1_DsaReq_Oper &iedModel_GenericIO_T60S_FSCH1_DsaReq_Oper_Check NULL 0 (-1) IEC61850_FC_CO IEC61850_BOOLEAN
     0 NULL 0)
].

Definition demo_GenericIO_T60S_FSCH1_nodes10 : list (addr * ModelNode) := [
  (iedModel_GenericIO_T60S_FSCH1_DsaReq_Oper_Check,
   DataAttribute (Some "Check") &iedModel_GenericIO_T60S_FSCH1_DsaReq_Oper NULL NULL 0 (-1) IEC61850_FC_CO IEC61850_CHECK
     0 NULL 0);
  (iedModel_GenericIO_T60S_FSCH1_DsaReq_ctlModel,
   DataAttribute (Some "ctlModel") &iedModel_GenericIO_T60S_FSCH1_DsaReq &iedModel_GenericIO_T60S_FSCH1_DsaReq_t NULL 0 (-1) IEC61850_FC_CF IEC61850_ENUMERATED
     0 NULL 0);
  (iedModel_GenericIO_T60S_FSCH1_DsaReq_t,
   DataAttribute (Some "t") &iedModel_GenericIO_T60S_FSCH1_DsaReq NULL NULL 0 (-1) IEC61850_FC_ST IEC61850_TIMESTAMP
     0 NULL 0);
  (iedModel_GenericIO_T60S_FSCH1_SchdPrio,
   DataObject "SchdPrio" &iedModel_GenericIO_T60S_FSCH1 &iedModel_GenericIO_T60S_FSCH1_NumEntr &iedModel_GenericIO_T60S_FSCH1_SchdPrio_setVal 0 (-1));
  (iedModel_GenericIO_T60S_FSCH1_SchdPrio_setVal,
   DataAttribute (Some "setVal") &iedModel_GenericIO_T60S_FSCH1_SchdPrio NULL NULL 0 (-1) IEC61850_FC_SP IEC61850_INT32
     (0 + TRG_OPT_DATA_CHANGED) NULL 0);
  (iedModel_GenericIO_T60S_FSCH1_NumEntr,
   DataObject "NumEntr" &iedModel_GenericIO_T60S_FSCH1 &iedModel_GenericIO_T60S_FSCH1_SchdIntv &iedModel_GenericIO_T60S_FSCH1_NumEntr_setVal 0 (-1));
  (iedModel_GenericIO_T60S_FSCH1_NumEntr_setVal,
   DataAttribute (Some "setVal") &iedModel_GenericIO_T60S_FSCH1_NumEntr NULL NULL 0 (-1) IEC61850_FC_SP IEC61850_INT32
     (0 + TRG_OPT_DATA_CHANGED) NULL 0);
  (iedModel_GenericIO_T60S_FSCH1_SchdIntv,
   DataObject "SchdIntv" &iedModel_GenericIO_T60S_FSCH1 &iedModel_GenericIO_T60S_FSCH1_ValSPG1 &iedModel_GenericIO_T60S_FSCH1_SchdIntv_setVal 0 (-1));
  (iedModel_GenericIO_T60S_FSCH1_SchdIntv_setVal,
   DataAttribute (Some "setVal") &iedModel_GenericIO_T60S_FSCH1_SchdIntv NULL NULL 0 (-1) IEC61850_FC_SP IEC61850_INT32
     (0 + TRG_OPT_DATA_CHANGED) NULL 0);
  (iedModel_GenericIO_T60S_FSCH1_ValSPG1,
   DataObject "ValSPG1" &iedModel_GenericIO_T60S_FSCH1 &iedModel_GenericIO_T60S_FSCH1_ValSPG2 &iedModel_GenericIO_T60S_FSCH1_ValSPG1_setVal 0 (-1));
  (iedModel_GenericIO_T60S_FSCH1_ValSPG1_setVal,
   DataAttribute (Some "setVal") &iedModel_GenericIO_T60S_FSCH1_ValSPG1 NULL NULL 0 (-1) IEC61850_FC_SG IEC61850_BOOLEAN
     (0 + TRG_OPT_DATA_CHANGED) NULL 0)
].

Definition demo_GenericIO_T60S_FSCH1_nodes11 : list (addr * ModelNode) := [
  (iedModel_GenericIO_T60S_FSCH1_ValSPG2,
   DataObject "ValSPG2" &iedModel_GenericIO_T60S_FSCH1 &iedModel_GenericIO_T60S_FSCH1_ValSPG3 &iedModel_GenericIO_T60S_FSCH1_ValSPG2_setVal 0 (-1));
  (iedModel_GenericIO_T60S_FSCH1_ValSPG2_setVal,
   DataAttribute (Some "setVal") &iedModel_GenericIO_T60S_FSCH1_ValSPG2 NULL NULL 0 (-1) IEC61850_FC_SG IEC61850_BOOLEAN
     (0 + TRG_OPT_DATA_CHANGED) NULL 0);
  (iedModel_GenericIO_T60S_FSCH1_ValSPG3,
   DataObject "ValSPG3" &iedModel_GenericIO_T60S_FSCH1 &iedModel_GenericIO_T60S_FSCH1_ValSPG4 &iedModel_GenericIO_T60S_FSCH1_ValSPG3_setVal 0 (-1));
  (iedModel_GenericIO_T60S_FSCH1_ValSPG3_setVal,
   DataAttribute (Some "setVal") &iedModel_GenericIO_T60S_FSCH1_ValSPG3 NULL NULL 0 (-1) IEC61850_FC_SG IEC61850_BOOLEAN
     (0 + TRG_OPT_DATA_CHANGED) NULL 0);
  (iedModel_GenericIO_T60S_FSCH1_ValSPG4,
   DataObject "ValSPG4" &iedModel_GenericIO_T60S_FSCH1 &iedModel_GenericIO_T60S_FSCH1_ValSPG5 &iedModel_GenericIO_T60S_FSCH1_ValSPG4_setVal 0 (-1));
  (iedModel_GenericIO_T60S_FSCH1_ValSPG4_setVal,
   DataAttribute (Some "setVal") &iedModel_GenericIO_T60S_FSCH1_ValSPG4 NULL NULL 0 (-1) IEC61850_FC_SG IEC61850_BOOLEAN
     (0 + TRG_OPT_DATA_CHANGED) NULL 0);
  (iedModel_GenericIO_T60S_FSCH1_ValSPG5,
   DataObject "ValSPG5" &iedModel_GenericIO_T60S_FSCH1 &iedModel_GenericIO_T60S_FSCH1_ValSPG6 &iedModel_GenericIO_T60S_FSCH1_ValSPG5_setVal 0 (-1));
  (iedModel_GenericIO_T60S_FSCH1_ValSPG5_setVal,
   DataAttribute (Some "setVal") &iedModel_GenericIO_T60S_FSCH1_ValSPG5 NULL NULL 0 (-1) IEC61850_FC_SG IEC61850_BOOLEAN
     (0 + TRG_OPT_DATA_CHANGED) NULL 0);
  (iedModel_GenericIO_T60S_FSCH1_ValSPG6,
   DataObject "ValSPG6" &iedModel_GenericIO_T60S_FSCH1 &iedModel_GenericIO_T60S_FSCH1_ValSPG7 &iedModel_GenericIO_T60S_FSCH1_ValSPG6_setVal 0 (-1));
  (iedModel_GenericIO_T60S_FSCH1_ValSPG6_setVal,
   DataAttribute (Some "setVal") &iedModel_GenericIO_T60S_FSCH1_ValSPG6 NULL NULL 0 (-1) IEC61850_FC_SG IEC61850_BOOLEAN
     (0 + TRG_OPT_DATA_CHANGED) NULL 0);
  (iedModel_GenericIO_T60S_FSCH1_ValSPG7,
   DataObject "ValSPG7" &iedModel_GenericIO_T60S_FSCH1 &iedModel_GenericIO_T60S_FSCH1_ValSPG8 &iedModel_GenericIO_T60S_FSCH1_ValSPG7_setVal 0 (-1));
  (iedModel_GenericIO_T60S_FSCH1_ValSPG7_setVal,
   DataAttribute (Some "setVal") &iedModel_GenericIO_T60S_FSCH1_ValSPG7 NULL NULL 0 (-1) IEC61850_FC_SG IEC61850_BOOLEAN
     (0 + TRG_OPT_DATA_CHANGED) NULL 0)
].

Definition demo_GenericIO_T60S_FSCH1_nodes12 : list (addr * ModelNode) := [
  (iedModel_GenericIO_T60S_FSCH1_ValSPG8,
   DataObject "ValSPG8" &iedModel_GenericIO_T60S_FSCH1 &iedModel_GenericIO_T60S_FSCH1_ValSPG9 &iedModel_GenericIO_T60S_FSCH1_ValSPG8_setVal 0 (-1));
  (iedModel_GenericIO_T60S_FSCH1_ValSPG8_setVal,
   DataAttribute (Some "setVal") &iedModel_GenericIO_T60S_FSCH1_ValSPG8 NULL NULL 0 (-1) IEC61850_FC_SG IEC61850_BOOLEAN
     (0 + TRG_OPT_DATA_CHANGED) NULL 0);
  (iedModel_GenericIO_T60S_FSCH1_ValSPG9,
   DataObject "ValSPG9" &iedModel_GenericIO_T60S_FSCH1 &iedModel_GenericIO_T60S_FSCH1_ValSPG10 &iedModel_GenericIO_T60S_FSCH1_ValSPG9_setVal 0 (-1));
  (iedModel_GenericIO_T60S_FSCH1_ValSPG9_setVal,
   DataAttribute (Some "setVal") &iedModel_GenericIO_T60S_FSCH1_ValSPG9 NULL NULL 0 (-1) IEC61850_FC_SG IEC61850_BOOLEAN
     (0 + TRG_OPT_DATA_CHANGED) NULL 0);
  (iedModel_GenericIO_T60S_FSCH1_ValSPG10,
   DataObject "ValSPG10" &iedModel_GenericIO_T60S_FSCH1 &iedModel_GenericIO_T60S_FSCH1_ValSPG11 &iedModel_GenericIO_T60S_FSCH1_ValSPG10_setVal 0 (-1));
  (iedModel_GenericIO_T60S_FSCH1_ValSPG10_setVal,
   DataAttribute (Some "setVal") &iedModel_GenericIO_T60S_FSCH1_ValSPG10 NULL NULL 0 (-1) IEC61850_FC_SG IEC61850_BOOLEAN
     (0 + TRG_OPT_DATA_CHANGED) NULL 0);
  (iedModel_GenericIO_T60S_FSCH1_ValSPG11,
   DataObject "ValSPG11" &iedModel_GenericIO_T60S_FSCH1 &iedModel_GenericIO_T60S_FSCH1_ValSPG12 &iedModel_GenericIO_T60S_FSCH1_ValSPG11_setVal 0 (-1));
  (iedModel_GenericIO_T60S_FSCH1_ValSPG11_setVal,
   DataAttribute (Some "setVal") &iedModel_GenericIO_T60S_FSCH1_ValSPG11 NULL NULL 0 (-1) IEC61850_FC_SG IEC61850_BOOLEAN
     (0 + TRG_OPT_DATA_CHANGED) NULL 0);
  (iedModel_GenericIO_T60S_FSCH1_ValSPG12,
   DataObject "ValSPG12" &iedModel_GenericIO_T60S_FSCH1 &iedModel_GenericIO_T60S_FSCH1_ValSPG13 &iedModel_GenericIO_T60S_FSCH1_ValSPG12_setVal 0 (-1));
  (iedModel_GenericIO_T60S_FSCH1_ValSPG12_setVal,
   DataAttribute (Some "setVal") &iedModel_GenericIO_T60S_FSCH1_ValSPG12 NULL NULL 0 (-1) IEC61850_FC_SG IEC61850_BOOLEAN
     (0 + TRG_OPT_DATA_CHANGED) NULL 0);
  (iedModel_GenericIO_T60S_FSCH1_ValSPG13,
   DataObject "ValSPG13" &iedModel_GenericIO_T60S_FSCH1 &iedModel_GenericIO_T60S_FSCH1_ValSPG14 &iedModel_GenericIO_T60S_FSCH1_ValSPG13_setVal 0 (-1));
  (iedModel_GenericIO_T60S_FSCH1_ValSPG13_setVal,
   DataAttribute (Some "setVal") &iedModel_GenericIO_T60S_FSCH1_ValSPG13 NULL NULL 0 (-1) IEC61850_FC_SG IEC61850_BOOLEAN
     (0 + TRG_OPT_DATA_CHANGED) NULL 0)
].

Definition demo_GenericIO_T60S_FSCH1_nodes13 : list (addr * ModelNode) := [
  (iedModel_GenericIO_T60S_FSCH1_ValSPG14,
   DataObject "ValSPG14" &iedModel_GenericIO_T60S_FSCH1 &iedModel_GenericIO_T60S_FSCH1_ValSPG15 &iedModel_GenericIO_T60S_FSCH1_ValSPG14_setVal 0 (-1));
  (iedModel_GenericIO_T60S_FSCH1_ValSPG14_setVal,
   DataAttribute (Some "setVal") &iedModel_GenericIO_T60S_FSCH1_ValSPG14 NULL NULL 0 (-1) IEC61850_FC_SG IEC61850_BOOLEAN
     (0 + TRG_OPT_DATA_CHANGED) NULL 0);
  (iedModel_GenericIO_T60S_FSCH1_ValSPG15,
   DataObject "ValSPG15" &iedModel_GenericIO_T60S_FSCH1 &iedModel_GenericIO_T60S_FSCH1_ValSPG16 &iedModel_GenericIO_T60S_FSCH1_ValSPG15_setVal 0 (-1));
  (iedModel_GenericIO_T60S_FSCH1_ValSPG15_setVal,
   DataAttribute (Some "setVal") &iedModel_GenericIO_T60S_FSCH1_ValSPG15 NULL NULL 0 (-1) IEC61850_FC_SG IEC61850_BOOLEAN
     (0 + TRG_OPT_DATA_CHANGED) NULL 0);
  (iedModel_GenericIO_T60S_FSCH1_ValSPG16,
   DataObject "ValSPG16" &iedModel_GenericIO_T60S_FSCH1 &iedModel_GenericIO_T60S_FSCH1_ValSPG17 &iedModel_GenericIO_T60S_FSCH1_ValSPG16_setVal 0 (-1));
  (iedModel_GenericIO_T60S_FSCH1_ValSPG16_setVal,
   DataAttribute (Some "setVal") &iedModel_GenericIO_T60S_FSCH1_ValSPG16 NULL NULL 0 (-1) IEC61850_FC_SG IEC61850_BOOLEAN
     (0 + TRG_OPT_DATA_CHANGED) NULL 0);
  (iedModel_GenericIO_T60S_FSCH1_ValSPG17,
   DataObject "ValSPG17" &iedModel_GenericIO_T60S_FSCH1 &iedModel_GenericIO_T60S_FSCH1_ValSPG18 &iedModel_GenericIO_T60S_FSCH1_ValSPG17_setVal 0 (-1));
  (iedModel_GenericIO_T60S_FSCH1_ValSPG17_setVal,
   DataAttribute (Some "setVal") &iedModel_GenericIO_T60S_FSCH1_ValSPG17 NULL NULL 0 (-1) IEC61850_FC_SG IEC61850_BOOLEAN
     (0 + TRG_OPT_DATA_CHANGED) NULL 0);
  (iedModel_GenericIO_T60S_FSCH1_ValSPG18,
   DataObject "ValSPG18" &iedModel_GenericIO_T60S_FSCH1 &iedModel_GenericIO_T60S_FSCH1_ValSPG19 &iedModel_GenericIO_T60S_FSCH1_ValSPG18_setVal 0 (-1));
  (iedModel_GenericIO_T60S_FSCH1_ValSPG18_setVal,
   DataAttribute (Some "setVal") &iedModel_GenericIO_T60S_FSCH1_ValSPG18 NULL NULL 0 (-1) IEC61850_FC_SG IEC61850_BOOLEAN
     (0 + TRG_OPT_DATA_CHANGED) NULL 0);
  (iedModel_GenericIO_T60S_FSCH1_ValSPG19,
   DataObject "ValSPG19" &iedModel_GenericIO_T60S_FSCH1 &iedModel_GenericIO_T60S_FSCH1_ValSPG20 &iedModel_GenericIO_T60S_FSCH1_ValSPG19_setVal 0 (-1));
  (iedModel_GenericIO_T60S_FSCH1_ValSPG19_setVal,
   DataAttribute (Some "setVal") &iedModel_GenericIO_T60S_FSCH1_ValSPG19 NULL NULL 0 (-1) IEC61850_FC_SG IEC61850_BOOLEAN
     (0 + TRG_OPT_DATA_CHANGED) NULL 0)
].

Definition demo_GenericIO_T60S_FSCH1_nodes14 : list (addr * ModelNode) := [
  (iedModel_GenericIO_T60S_FSCH1_ValSPG20,
   DataObject "ValSPG20" &iedModel_GenericIO_T60S_FSCH1 &iedModel_GenericIO_T60S_FSCH1_ValSPG21 &iedModel_GenericIO_T60S_FSCH1_ValSPG20_setVal 0 (-1));
  (iedModel_GenericIO_T60S_FSCH1_ValSPG20_setVal,
   DataAttribute (Some "setVal") &iedModel_GenericIO_T60S_FSCH1_ValSPG20 NULL NULL 0 (-1) IEC61850_FC_SG IEC61850_BOOLEAN
     (0 + TRG_OPT_DATA_CHANGED) NULL 0);
  (iedModel_GenericIO_T60S_FSCH1_ValSPG21,
   DataObject "ValSPG21" &iedModel_GenericIO_T60S_FSCH1 &iedModel_GenericIO_T60S_FSCH1_ValSPG22 &iedModel_GenericIO_T60S_FSCH1_ValSPG21_setVal 0 (-1));
  (iedModel_GenericIO_T60S_FSCH1_ValSPG21_setVal,
   DataAttribute (Some "setVal") &iedModel_GenericIO_T60S_FSCH1_ValSPG21 NULL NULL 0 (-1) IEC61850_FC_SG IEC61850_BOOLEAN
     (0 + TRG_OPT_DATA_CHANGED) NULL 0);
  (iedModel_GenericIO_T60S_FSCH1_ValSPG22,
   DataObject "ValSPG22" &iedModel_GenericIO_T60S_FSCH1 &iedModel_GenericIO_T60S_FSCH1_ValSPG23 &iedModel_GenericIO_T60S_FSCH1_ValSPG22_setVal 0 (-1));
  (iedModel_GenericIO_T60S_FSCH1_ValSPG22_setVal,
   DataAttribute (Some "setVal") &iedModel_GenericIO_T60S_FSCH1_ValSPG22 NULL NULL 0 (-1) IEC61850_FC_SG IEC61850_BOOLEAN
     (0 + TRG_OPT_DATA_CHANGED) NULL 0);
  (iedModel_GenericIO_T60S_FSCH1_ValSPG23,
   DataObject "ValSPG23" &iedModel_GenericIO_T60S_FSCH1 &iedModel_GenericIO_T60S_FSCH1_ValSPG24 &iedModel_GenericIO_T60S_FSCH1_ValSPG23_setVal 0 (-1));
  (iedModel_GenericIO_T60S_FSCH1_ValSPG23_setVal,
   DataAttribute (Some "setVal") &iedModel_GenericIO_T60S_FSCH1_ValSPG23 NULL NULL 0 (-1) IEC61850_FC_SG IEC61850_BOOLEAN
     (0 + TRG_OPT_DATA_CHANGED) NULL 0);
  (iedModel_GenericIO_T60S_FSCH1_ValSPG24,
   DataObject "ValSPG24" &iedModel_GenericIO_T60S_FSCH1 &iedModel_GenericIO_T60S_FSCH1_ValSPG25 &iedModel_GenericIO_T60S_FSCH1_ValSPG24_setVal 0 (-1));
  (iedModel_GenericIO_T60S_FSCH1_ValSPG24_setVal,
   DataAttribute (Some "setVal") &iedModel_GenericIO_T60S_FSCH1_ValSPG24 NULL NULL 0 (-1) IEC61850_FC_SG IEC61850_BOOLEAN
     (0 + TRG_OPT_DATA_CHANGED) NULL 0);
  (iedModel_GenericIO_T60S_FSCH1_ValSPG25,
   DataObject "ValSPG25" &iedModel_GenericIO_T60S_FSCH1 &iedModel_GenericIO_T60S_FSCH1_ValSPG26 &iedModel_GenericIO_T60S_FSCH1_ValSPG25_setVal 0 (-1));
  (iedModel_GenericIO_T60S_FSCH1_ValSPG25_setVal,
   DataAttribute (Some "setVal") &iedModel_GenericIO_T60S_FSCH1_ValSPG25 NULL NULL 0 (-1) IEC61850_FC_SG IEC61850_BOOLEAN
     (0 + TRG_OPT_DATA_CHANGED) NULL 0)
].

Definition demo_GenericIO_T60S_FSCH1_nodes15 : list (addr * ModelNode) := [
  (iedModel_GenericIO_T60S_FSCH1_ValSPG26,
   DataObject "ValSPG26" &iedModel_GenericIO_T60S_FSCH1 &iedModel_GenericIO_T60S_FSCH1_ValSPG27 &iedModel_GenericIO_T60S_FSCH1_ValSPG26_setVal 0 (-1));
  (iedModel_GenericIO_T60S_FSCH1_ValSPG26_setVal,
   DataAttribute (Some "setVal") &iedModel_GenericIO_T60S_FSCH1_ValSPG26 NULL NULL 0 (-1) IEC61850_FC_SG IEC61850_BOOLEAN
     (0 + TRG_OPT_DATA_CHANGED) NULL 0);
  (iedModel_GenericIO_T60S_FSCH1_ValSPG27,
   DataObject "ValSPG27" &iedModel_GenericIO_T60S_FSCH1 &iedModel_GenericIO_T60S_FSCH1_ValSPG28 &iedModel_GenericIO_T60S_FSCH1_ValSPG27_setVal 0 (-1));
  (iedModel_GenericIO_T60S_FSCH1_ValSPG27_setVal,
   DataAttribute (Some "setVal") &iedModel_GenericIO_T60S_FSCH1_ValSPG27 NULL NULL 0 (-1) IEC61850_FC_SG IEC61850_BOOLEAN
     (0 + TRG_OPT_DATA_CHANGED) NULL 0);
  (iedModel_GenericIO_T60S_FSCH1_ValSPG28,
   DataObject "ValSPG28" &iedModel_GenericIO_T60S_FSCH1 &iedModel_GenericIO_T60S_FSCH1_ValSPG29 &iedModel_GenericIO_T60S_FSCH1_ValSPG28_setVal 0 (-1));
  (iedModel_GenericIO_T60S_FSCH1_ValSPG28_setVal,
   DataAttribute (Some "setVal") &iedModel_GenericIO_T60S_FSCH1_ValSPG28 NULL NULL 0 (-1) IEC61850_FC_SG IEC61850_BOOLEAN
     (0 + TRG_OPT_DATA_CHANGED) NULL 0);
  (iedModel_GenericIO_T60S_FSCH1_ValSPG29,
   DataObject "ValSPG29" &iedModel_GenericIO_T60S_FSCH1 &iedModel_GenericIO_T60S_FSCH1_ValSPG30 &iedModel_GenericIO_T60S_FSCH1_ValSPG29_setVal 0 (-1));
  (iedModel_GenericIO_T60S_FSCH1_ValSPG29_setVal,
   DataAttribute (Some "setVal") &iedModel_GenericIO_T60S_FSCH1_ValSPG29 NULL NULL 0 (-1) IEC61850_FC_SG IEC61850_BOOLEAN
     (0 + TRG_OPT_DATA_CHANGED) NULL 0);
  (iedModel_GenericIO_T60S_FSCH1_ValSPG30,
   DataObject "ValSPG30" &iedModel_GenericIO_T60S_FSCH1 &iedModel_GenericIO_T60S_FSCH1_ValSPG31 &iedModel_GenericIO_T60S_FSCH1_ValSPG30_setVal 0 (-1));
  (iedModel_GenericIO_T60S_FSCH1_ValSPG30_setVal,
   DataAttribute (Some "setVal") &iedModel_GenericIO_T60S_FSCH1_ValSPG30 NULL NULL 0 (-1) IEC61850_FC_SG IEC61850_BOOLEAN
     (0 + TRG_OPT_DATA_CHANGED) NULL 0);
  (iedModel_GenericIO_T60S_FSCH1_ValSPG31,
   DataObject "ValSPG31" &iedModel_GenericIO_T60S_FSCH1 &iedModel_GenericIO_T60S_FSCH1_ValSPG32 &iedModel_GenericIO_T60S_FSCH1_ValSPG31_setVal 0 (-1));
  (iedModel_GenericIO_T60S_FSCH1_ValSPG31_setVal,
   DataAttribute (Some "setVal") &iedModel_GenericIO_T60S_FSCH1_ValSPG31 NULL NULL 0 (-1) IEC61850_FC_SG IEC61850_BOOLEAN
     (0 + TRG_OPT_DATA_CHANGED) NULL 0)
].

Definition demo_GenericIO_T60S_FSCH1_nodes16 : list (addr * ModelNode) := [
  (iedModel_GenericIO_T60S_FSCH1_ValSPG32,
   DataObject "ValSPG32" &iedModel_GenericIO_T60S_FSCH1 &iedModel_GenericIO_T60S_FSCH1_ValSPG33 &iedModel_GenericIO_T60S_FSCH1_ValSPG32_setVal 0 (-1));
  (iedModel_GenericIO_T60S_FSCH1_ValSPG32_setVal,
   DataAttribute (Some "setVal") &iedModel_GenericIO_T60S_FSCH1_ValSPG32 NULL NULL 0 (-1) IEC61850_FC_SG IEC61850_BOOLEAN
     (0 + TRG_OPT_DATA_CHANGED) NULL 0);
  (iedModel_GenericIO_T60S_FSCH1_ValSPG33,
   DataObject "ValSPG33" &iedModel_GenericIO_T60S_FSCH1 &iedModel_GenericIO_T60S_FSCH1_ValSPG34 &iedModel_GenericIO_T60S_FSCH1_ValSPG33_setVal 0 (-1));
  (iedModel_GenericIO_T60S_FSCH1_ValSPG33_setVal,
   DataAttribute (Some "setVal") &iedModel_GenericIO_T60S_FSCH1_ValSPG33 NULL NULL 0 (-1) IEC61850_FC_SG IEC61850_BOOLEAN
     (0 + TRG_OPT_DATA_CHANGED) NULL 0);
  (iedModel_GenericIO_T60S_FSCH1_ValSPG34,
   DataObject "ValSPG34" &iedModel_GenericIO_T60S_FSCH1 &iedModel_GenericIO_T60S_FSCH1_ValSPG35 &iedModel_GenericIO_T60S_FSCH1_ValSPG34_setVal 0 (-1));
  (iedModel_GenericIO_T60S_FSCH1_ValSPG34_setVal,
   DataAttribute (Some "setVal") &iedModel_GenericIO_T60S_FSCH1_ValSPG34 NULL NULL 0 (-1) IEC61850_FC_SG IEC61850_BOOLEAN
     (0 + TRG_OPT_DATA_CHANGED) NULL 0);
  (iedModel_GenericIO_T60S_FSCH1_ValSPG35,
   DataObject "ValSPG35" &iedModel_GenericIO_T60S_FSCH1 &iedModel_GenericIO_T60S_FSCH1_ValSPG36 &iedModel_GenericIO_T60S_FSCH1_ValSPG35_setVal 0 (-1));
  (iedModel_GenericIO_T60S_FSCH1_ValSPG35_setVal,
   DataAttribute (Some "setVal") &iedModel_GenericIO_T60S_FSCH1_ValSPG35 NULL NULL 0 (-1) IEC61850_FC_SG IEC61850_BOOLEAN
     (0 + TRG_OPT_DATA_CHANGED) NULL 0);
  (iedModel_GenericIO_T60S_FSCH1_ValSPG36,
   DataObject "ValSPG36" &iedModel_GenericIO_T60S_FSCH1 &iedModel_GenericIO_T60S_FSCH1_ValSPG37 &iedModel_GenericIO_T60S_FSCH1_ValSPG36_setVal 0 (-1));
  (iedModel_GenericIO_T60S_FSCH1_ValSPG36_setVal,
   DataAttribute (Some "setVal") &iedModel_GenericIO_T60S_FSCH1_ValSPG36 NULL NULL 0 (-1) IEC61850_FC_SG IEC61850_BOOLEAN
     (0 + TRG_OPT_DATA_CHANGED) NULL 0);
  (iedModel_GenericIO_T60S_FSCH1_ValSPG37,
   DataObject "ValSPG37" &iedModel_GenericIO_T60S_FSCH1 &iedModel_GenericIO_T60S_FSCH1_ValSPG38 &iedModel_GenericIO_T60S_FSCH1_ValSPG37_setVal 0 (-1));
  (iedModel_GenericIO_T60S_FSCH1_ValSPG37_setVal,
   DataAttribute (Some "setVal") &iedModel_GenericIO_T60S_FSCH1_ValSPG37 NULL NULL 0 (-1) IEC61850_FC_SG IEC61850_BOOLEAN
     (0 + TRG_OPT_DATA_CHANGED) NULL 0)
].

Definition demo_GenericIO_T60S_FSCH1_nodes17 : list (addr * ModelNode) := [
  (iedModel_GenericIO_T60S_FSCH1_ValSPG38,
   DataObject "ValSPG38" &iedModel_GenericIO_T60S_FSCH1 &iedModel_GenericIO_T60S_FSCH1_ValSPG39 &iedModel_GenericIO_T60S_FSCH1_ValSPG38_setVal 0 (-1));
  (iedModel_GenericIO_T60S_FSCH1_ValSPG38_setVal,
   DataAttribute (Some "setVal") &iedModel_GenericIO_T60S_FSCH1_ValSPG38 NULL NULL 0 (-1) IEC61850_FC_SG IEC61850_BOOLEAN
     (0 + TRG_OPT_DATA_CHANGED) NULL 0);
  (iedModel_GenericIO_T60S_FSCH1_ValSPG39,
   DataObject "ValSPG39" &iedModel_GenericIO_T60S_FSCH1 &iedModel_GenericIO_T60S_FSCH1_ValSPG40 &iedModel_GenericIO_T60S_FSCH1_ValSPG39_setVal 0 (-1));
  (iedModel_GenericIO_T60S_FSCH1_ValSPG39_setVal,
   DataAttribute (Some "setVal") &iedModel_GenericIO_T60S_FSCH1_ValSPG39 NULL NULL 0 (-1) IEC61850_FC_SG IEC61850_BOOLEAN
     (0 + TRG_OPT_DATA_CHANGED) NULL 0);
  (iedModel_GenericIO_T60S_FSCH1_ValSPG40,
   DataObject "ValSPG40" &iedModel_GenericIO_T60S_FSCH1 &iedModel_GenericIO_T60S_FSCH1_ValSPG41 &iedModel_GenericIO_T60S_FSCH1_ValSPG40_setVal 0 (-1));
  (iedModel_GenericIO_T60S_FSCH1_ValSPG40_setVal,
   DataAttribute (Some "setVal") &iedModel_GenericIO_T60S_FSCH1_ValSPG40 NULL NULL 0 (-1) IEC61850_FC_SG IEC61850_BOOLEAN
     (0 + TRG_OPT_DATA_CHANGED) NULL 0);
  (iedModel_GenericIO_T60S_FSCH1_ValSPG41,
   DataObject "ValSPG41" &iedModel_GenericIO_T60S_FSCH1 &iedModel_GenericIO_T60S_FSCH1_ValSPG42 &iedModel_GenericIO_T60S_FSCH1_ValSPG41_setVal 0 (-1));
  (iedModel_GenericIO_T60S_FSCH1_ValSPG41_setVal,
   DataAttribute (Some "setVal") &iedModel_GenericIO_T60S_FSCH1_ValSPG41 NULL NULL 0 (-1) IEC61850_FC_SG IEC61850_BOOLEAN
     (0 + TRG_OPT_DATA_CHANGED) NULL 0);
  (iedModel_GenericIO_T60S_FSCH1_ValSPG42,
   DataObject "ValSPG42" &iedModel_GenericIO_T60S_FSCH1 &iedModel_GenericIO_T60S_FSCH1_ValSPG43 &iedModel_GenericIO_T60S_FSCH1_ValSPG42_setVal 0 (-1));
  (iedModel_GenericIO_T60S_FSCH1_ValSPG42_setVal,
   DataAttribute (Some "setVal") &iedModel_GenericIO_T60S_FSCH1_ValSPG42 NULL NULL 0 (-1) IEC61850_FC_SG IEC61850_BOOLEAN
     (0 + TRG_OPT_DATA_CHANGED) NULL 0);
  (iedModel_GenericIO_T60S_FSCH1_ValSPG43,
   DataObject "ValSPG43" &iedModel_GenericIO_T60S_FSCH1 &iedModel_GenericIO_T60S_FSCH1_ValSPG44 &iedModel_GenericIO_T60S_FSCH1_ValSPG43_setVal 0 (-1));
  (iedModel_GenericIO_T60S_FSCH1_ValSPG43_setVal,
   DataAttribute (Some "setVal") &iedModel_GenericIO_T60S_FSCH1_ValSPG43 NULL NULL 0 (-1) IEC61850_FC_SG IEC61850_BOOLEAN
     (0 + TRG_OPT_DATA_CHANGED) NULL 0)
].

Definition demo_GenericIO_T60S_FSCH1_nodes18 : list (addr * ModelNode) := [
  (iedModel_GenericIO_T60S_FSCH1_ValSPG44,
   DataObject "ValSPG44" &iedModel_GenericIO_T60S_FSCH1 &iedModel_GenericIO_T60S_FSCH1_ValSPG45 &iedModel_GenericIO_T60S_FSCH1_ValSPG44_setVal 0 (-1));
  (iedModel_GenericIO_T60S_FSCH1_ValSPG44_setVal,
   DataAttribute (Some "setVal") &iedModel_GenericIO_T60S_FSCH1_ValSPG44 NULL NULL 0 (-1) IEC61850_FC_SG IEC61850_BOOLEAN
     (0 + TRG_OPT_DATA_CHANGED) NULL 0);
  (iedModel_GenericIO_T60S_FSCH1_ValSPG45,
   DataObject "ValSPG45" &iedModel_GenericIO_T60S_FSCH1 &iedModel_GenericIO_T60S_FSCH1_ValSPG46 &iedModel_GenericIO_T60S_FSCH1_ValSPG45_setVal 0 (-1));
  (iedModel_GenericIO_T60S_FSCH1_ValSPG45_setVal,
   DataAttribute (Some "setVal") &iedModel_GenericIO_T60S_FSCH1_ValSPG45 NULL NULL 0 (-1) IEC61850_FC_SG IEC61850_BOOLEAN
     (0 + TRG_OPT_DATA_CHANGED) NULL 0);
  (iedModel_GenericIO_T60S_FSCH1_ValSPG46,
   DataObject "ValSPG46" &iedModel_GenericIO_T60S_FSCH1 &iedModel_GenericIO_T60S_FSCH1_ValSPG47 &iedModel_GenericIO_T60S_FSCH1_ValSPG46_setVal 0 (-1));
  (iedModel_GenericIO_T60S_FSCH1_ValSPG46_setVal,
   DataAttribute (Some "setVal") &iedModel_GenericIO_T60S_FSCH1_ValSPG46 NULL NULL 0 (-1) IEC61850_FC_SG IEC61850_BOOLEAN
     (0 + TRG_OPT_DATA_CHANGED) NULL 0);
  (iedModel_GenericIO_T60S_FSCH1_ValSPG47,
   DataObject "ValSPG47" &iedModel_GenericIO_T60S_FSCH1 &iedModel_GenericIO_T60S_FSCH1_ValSPG48 &iedModel_GenericIO_T60S_FSCH1_ValSPG47_setVal 0 (-1));
  (iedModel_GenericIO_T60S_FSCH1_ValSPG47_setVal,
   DataAttribute (Some "setVal") &iedModel_GenericIO_T60S_FSCH1_ValSPG47 NULL NULL 0 (-1) IEC61850_FC_SG IEC61850_BOOLEAN
     (0 + TRG_OPT_DATA_CHANGED) NULL 0);
  (iedModel_GenericIO_T60S_FSCH1_ValSPG48,
   DataObject "ValSPG48" &iedModel_GenericIO_T60S_FSCH1 &iedModel_GenericIO_T60S_FSCH1_ValSPG49 &iedModel_GenericIO_T60S_FSCH1_ValSPG48_setVal 0 (-1));
  (iedModel_GenericIO_T60S_FSCH1_ValSPG48_setVal,
   DataAttribute (Some "setVal") &iedModel_GenericIO_T60S_FSCH1_ValSPG48 NULL NULL 0 (-1) IEC61850_FC_SG IEC61850_BOOLEAN
     (0 + TRG_OPT_DATA_CHANGED) NULL 0);
  (iedModel_GenericIO_T60S_FSCH1_ValSPG49,
   DataObject "ValSPG49" &iedModel_GenericIO_T60S_FSCH1 &iedModel_GenericIO_T60S_FSCH1_ValSPG50 &iedModel_GenericIO_T60S_FSCH1_ValSPG49_setVal 0 (-1));
  (iedModel_GenericIO_T60S_FSCH1_ValSPG49_setVal,
   DataAttribute (Some "setVal") &iedModel_GenericIO_T60S_FSCH1_ValSPG49 NULL NULL 0 (-1) IEC61850_FC_SG IEC61850_BOOLEAN
     (0 + TRG_OPT_DATA_CHANGED) NULL 0)
].

Definition demo_GenericIO_T60S_FSCH1_nodes19 : list (addr * ModelNode) := [
  (iedModel_GenericIO_T60S_FSCH1_ValSPG50,
   DataObject "ValSPG50" &iedModel_GenericIO_T60S_FSCH1 &iedModel_GenericIO_T60S_FSCH1_ValSPG51 &iedModel_GenericIO_T60S_FSCH1_ValSPG50_setVal 0 (-1));
  (iedModel_GenericIO_T60S_FSCH1_ValSPG50_setVal,
   DataAttribute (Some "setVal") &iedModel_GenericIO_T60S_FSCH1_ValSPG50 NULL NULL 0 (-1) IEC61850_FC_SG IEC61850_BOOLEAN
     (0 + TRG_OPT_DATA_CHANGED) NULL 0);
  (iedModel_GenericIO_T60S_FSCH1_ValSPG51,
   DataObject "ValSPG51" &iedModel_GenericIO_T60S_FSCH1 &iedModel_GenericIO_T60S_FSCH1_ValSPG52 &iedModel_GenericIO_T60S_FSCH1_ValSPG51_setVal 0 (-1));
  (iedModel_GenericIO_T60S_FSCH1_ValSPG51_setVal,
   DataAttribute (Some "setVal") &iedModel_GenericIO_T60S_FSCH1_ValSPG51 NULL NULL 0 (-1) IEC61850_FC_SG IEC61850_BOOLEAN
     (0 + TRG_OPT_DATA_CHANGED) NULL 0);
  (iedModel_GenericIO_T60S_FSCH1_ValSPG52,
   DataObject "ValSPG52" &iedModel_GenericIO_T60S_FSCH1 &iedModel_GenericIO_T60S_FSCH1_ValSPG53 &iedModel_GenericIO_T60S_FSCH1_ValSPG52_setVal 0 (-1));
  (iedModel_GenericIO_T60S_FSCH1_ValSPG52_setVal,
   DataAttribute (Some "setVal") &iedModel_GenericIO_T60S_FSCH1_ValSPG52 NULL NULL 0 (-1) IEC61850_FC_SG IEC61850_BOOLEAN
     (0 + TRG_OPT_DATA_CHANGED) NULL 0);
  (iedModel_GenericIO_T60S_FSCH1_ValSPG53,
   DataObject "ValSPG53" &iedModel_GenericIO_T60S_FSCH1 &iedModel_GenericIO_T60S_FSCH1_ValSPG54 &iedModel_GenericIO_T60S_FSCH1_ValSPG53_setVal 0 (-1));
  (iedModel_GenericIO_T60S_FSCH1_ValSPG53_setVal,
   DataAttribute (Some "setVal") &iedModel_GenericIO_T60S_FSCH1_ValSPG53 NULL NULL 0 (-1) IEC61850_FC_SG IEC61850_BOOLEAN
     (0 + TRG_OPT_DATA_CHANGED) NULL 0);
  (iedModel_GenericIO_T60S_FSCH1_ValSPG54,
   DataObject "ValSPG54" &iedModel_GenericIO_T60S_FSCH1 &iedModel_GenericIO_T60S_FSCH1_ValSPG55 &iedModel_GenericIO_T60S_FSCH1_ValSPG54_setVal 0 (-1));
  (iedModel_GenericIO_T60S_FSCH1_ValSPG54_setVal,
   DataAttribute (Some "setVal") &iedModel_GenericIO_T60S_FSCH1_ValSPG54 NULL NULL 0 (-1) IEC61850_FC_SG IEC61850_BOOLEAN
     (0 + TRG_OPT_DATA_CHANGED) NULL 0);
  (iedModel_GenericIO_T60S_FSCH1_ValSPG55,
   DataObject "ValSPG55" &iedModel_GenericIO_T60S_FSCH1 &iedModel_GenericIO_T60S_FSCH1_ValSPG56 &iedModel_GenericIO_T60S_FSCH1_ValSPG55_setVal 0 (-1));
  (iedModel_GenericIO_T60S_FSCH1_ValSPG55_setVal,
   DataAttribute (Some "setVal") &iedModel_GenericIO_T60S_FSCH1_ValSPG55 NULL NULL 0 (-1) IEC61850_FC_SG IEC61850_BOOLEAN
     (0 + TRG_OPT_DATA_CHANGED) NULL 0)
].

Definition demo_GenericIO_T60S_FSCH1_nodes20 : list (addr * ModelNode) := [
  (iedModel_GenericIO_T60S_FSCH1_ValSPG56,
   DataObject "ValSPG56" &iedModel_GenericIO_T60S_FSCH1 &iedModel_GenericIO_T60S_FSCH1_ValSPG57 &iedModel_GenericIO_T60S_FSCH1_ValSPG56_setVal 0 (-1));
  (iedModel_GenericIO_T60S_FSCH1_ValSPG56_setVal,
   DataAttribute (Some "setVal") &iedModel_GenericIO_T60S_FSCH1_ValSPG56 NULL NULL 0 (-1) IEC61850_FC_SG IEC61850_BOOLEAN
     (0 + TRG_OPT_DATA_CHANGED) NULL 0);
  (iedModel_GenericIO_T60S_FSCH1_ValSPG57,
   DataObject "ValSPG57" &iedModel_GenericIO_T60S_FSCH1 &iedModel_GenericIO_T60S_FSCH1_ValSPG58 &iedModel_GenericIO_T60S_FSCH1_ValSPG57_setVal 0 (-1));
  (iedModel_GenericIO_T60S_FSCH1_ValSPG57_setVal,
   DataAttribute (Some "setVal") &iedModel_GenericIO_T60S_FSCH1_ValSPG57 NULL NULL 0 (-1) IEC61850_FC_SG IEC61850_BOOLEAN
     (0 + TRG_OPT_DATA_CHANGED) NULL 0);
  (iedModel_GenericIO_T60S_FSCH1_ValSPG58,
   DataObject "ValSPG58" &iedModel_GenericIO_T60S_FSCH1 &iedModel_GenericIO_T60S_FSCH1_ValSPG59 &iedModel_GenericIO_T60S_FSCH1_ValSPG58_setVal 0 (-1));
  (iedModel_GenericIO_T60S_FSCH1_ValSPG58_setVal,
   DataAttribute (Some "setVal") &iedModel_GenericIO_T60S_FSCH1_ValSPG58 NULL NULL 0 (-1) IEC61850_FC_SG IEC61850_BOOLEAN
     (0 + TRG_OPT_DATA_CHANGED) NULL 0);
  (iedModel_GenericIO_T60S_FSCH1_ValSPG59,
   DataObject "ValSPG59" &iedModel_GenericIO_T60S_FSCH1 &iedModel_GenericIO_T60S_FSCH1_ValSPG60 &iedModel_GenericIO_T60S_FSCH1_ValSPG59_setVal 0 (-1));
  (iedModel_GenericIO_T60S_FSCH1_ValSPG59_setVal,
   DataAttribute (Some "setVal") &iedModel_GenericIO_T60S_FSCH1_ValSPG59 NULL NULL 0 (-1) IEC61850_FC_SG IEC61850_BOOLEAN
     (0 + TRG_OPT_DATA_CHANGED) NULL 0);
  (iedModel_GenericIO_T60S_FSCH1_ValSPG60,
   DataObject "ValSPG60" &iedModel_GenericIO_T60S_FSCH1 &iedModel_GenericIO_T60S_FSCH1_StrTm &iedModel_GenericIO_T60S_FSCH1_ValSPG60_setVal 0 (-1));
  (iedModel_GenericIO_T60S_FSCH1_ValSPG60_setVal,
   DataAttribute (Some "setVal") &iedModel_GenericIO_T60S_FSCH1_ValSPG60 NULL NULL 0 (-1) IEC61850_FC_SG IEC61850_BOOLEAN
     (0 + TRG_OPT_DATA_CHANGED) NULL 0)
].

Definition demo_GenericIO_T60S_FSCH1_nodes21 : list (addr * ModelNode) := [
  (iedModel_GenericIO_T60S_FSCH1_StrTm,
   DataObject "StrTm" &iedModel_GenericIO_T60S_FSCH1 &iedModel_GenericIO_T60S_FSCH1_IntvPer &iedModel_GenericIO_T60S_FSCH1_StrTm_setTm 0 (-1));
  (iedModel_GenericIO_T60S_FSCH1_StrTm_setTm,
   DataAttribute (Some "setTm") &iedModel_GenericIO_T60S_FSCH1_StrTm &iedModel_GenericIO_T60S_FSCH1_StrTm_setCal NULL 0 (-1) IEC61850_FC_SP IEC61850_TIMESTAMP
     (0 + TRG_OPT_DATA_CHANGED) NULL 0);
  (iedModel_GenericIO_T60S_FSCH1_StrTm_setCal,
   DataAttribute (Some "setCal") &iedModel_GenericIO_T60S_FSCH1_StrTm NULL &iedModel_GenericIO_T60S_FSCH1_StrTm_setCal_occ 0 (-1) IEC61850_FC_SP IEC61850_CONSTRUCTED
     (0 + TRG_OPT_DATA_CHANGED) NULL 0);
  (iedModel_GenericIO_T60S_FSCH1_StrTm_setCal_occ,
   DataAttribute (Some "occ") &iedModel_GenericIO_T60S_FSCH1_StrTm_setCal &iedModel_GenericIO_T60S_FSCH1_StrTm_setCal_occType NULL 0 (-1) IEC61850_FC_SP IEC61850_INT16U
     (0 + TRG_OPT_DATA_CHANGED) NULL 0);
  (iedModel_GenericIO_T60S_FSCH1_StrTm_setCal_occType,
   DataAttribute (Some "occType") &iedModel_GenericIO_T60S_FSCH1_StrTm_setCal &iedModel_GenericIO_T60S_FSCH1_StrTm_setCal_occPer NULL 0 (-1) IEC61850_FC_SP IEC61850_ENUMERATED
     (0 + TRG_OPT_DATA_CHANGED) NULL 0);
  (iedModel_GenericIO_T60S_FSCH1_StrTm_setCal_occPer,
   DataAttribute (Some "occPer") &iedModel_GenericIO_T60S_FSCH1_StrTm_setCal &iedModel_GenericIO_T60S_FSCH1_StrTm_setCal_weekDay NULL 0 (-1) IEC61850_FC_SP IEC61850_ENUMERATED
     (0 + TRG_OPT_DATA_CHANGED) NULL 0);
  (iedModel_GenericIO_T60S_FSCH1_StrTm_setCal_weekDay,
   DataAttribute (Some "weekDay") &iedModel_GenericIO_T60S_FSCH1_StrTm_setCal &iedModel_GenericIO_T60S_FSCH1_StrTm_setCal_month NULL 0 (-1) IEC61850_FC_SP IEC61850_ENUMERATED
     (0 + TRG_OPT_DATA_CHANGED) NULL 0);
  (iedModel_GenericIO_T60S_FSCH1_StrTm_setCal_month,
   DataAttribute (Some "month") &iedModel_GenericIO_T60S_FSCH1_StrTm_setCal &iedModel_GenericIO_T60S_FSCH1_StrTm_setCal_day NULL 0 (-1) IEC61850_FC_SP IEC61850_ENUMERATED
     (0 + TRG_OPT_DATA_CHANGED) NULL 0);
  (iedModel_GenericIO_T60S_FSCH1_StrTm_setCal_day,
   DataAttribute (Some "day") &iedModel_GenericIO_T60S_FSCH1_StrTm_setCal &iedModel_GenericIO_T60S_FSCH1_StrTm_setCal_hr NULL 0 (-1) IEC61850_FC_SP IEC61850_INT8U
     (0 + TRG_OPT_DATA_CHANGED) NULL 0);
  (iedModel_GenericIO_T60S_FSCH1_StrTm_setCal_hr,
   DataAttribute (Some "hr") &iedModel_GenericIO_T60S_FSCH1_StrTm_setCal &iedModel_GenericIO_T60S_FSCH1_StrTm_setCal_mn NULL 0 (-1) IEC61850_FC_SP IEC61850_INT8U
     (0 + TRG_OPT_DATA_CHANGED) NULL 0);
  (iedModel_GenericIO_T60S_FSCH1_StrTm_setCal_mn,
   DataAttribute (Some "mn") &iedModel_GenericIO_T60S_FSCH1_StrTm_setCal NULL NULL 0 (-1) IEC61850_FC_SP IEC61850_INT8U
     (0 + TRG_OPT_DATA_CHANGED) NULL 0)
].

Definition demo_GenericIO_T60S_FSCH1_nodes22 : list (addr * ModelNode) := [
  (iedModel_GenericIO_T60S_FSCH1_IntvPer,
   DataObject "IntvPer" &iedModel_GenericIO_T60S_FSCH1 &iedModel_GenericIO_T60S_FSCH1_IntvTyp &iedModel_GenericIO_T60S_FSCH1_IntvPer_setVal 0 (-1));
  (iedModel_GenericIO_T60S_FSCH1_IntvPer_setVal,
   DataAttribute (Some "setVal") &iedModel_GenericIO_T60S_FSCH1_IntvPer NULL NULL 0 (-1) IEC61850_FC_SP IEC61850_INT32
     (0 + TRG_OPT_DATA_CHANGED) NULL 0);
  (iedModel_GenericIO_T60S_FSCH1_IntvTyp,
   DataObject "IntvTyp" &iedModel_GenericIO_T60S_FSCH1 &iedModel_GenericIO_T60S_FSCH1_SchdReuse &iedModel_GenericIO_T60S_FSCH1_IntvTyp_setVal 0 (-1));
  (iedModel_GenericIO_T60S_FSCH1_IntvTyp_setVal,
   DataAttribute (Some "setVal") &iedModel_GenericIO_T60S_FSCH1_IntvTyp NULL NULL 0 (-1) IEC61850_FC_SP IEC61850_ENUMERATED
     (0 + TRG_OPT_DATA_CHANGED) NULL 0);
  (iedModel_GenericIO_T60S_FSCH1_SchdReuse,
   DataObject "SchdReuse" &iedModel_GenericIO_T60S_FSCH1 NULL &iedModel_GenericIO_T60S_FSCH1_SchdReuse_setVal 0 (-1));
  (iedModel_GenericIO_T60S_FSCH1_SchdReuse_setVal,
   DataAttribute (Some "setVal") &iedModel_GenericIO_T60S_FSCH1_SchdReuse NULL NULL 0 (-1) IEC61850_FC_SG IEC61850_BOOLEAN
     (0 + TRG_OPT_DATA_CHANGED) NULL 0)
].

Definition demo_GenericIO_T60S_FSCH2_nodes1 : list (addr * ModelNode) := [
  (iedModel_GenericIO_T60S_FSCH2,
   LogicalNode "T60S_FSCH2" &iedModel_GenericIO &iedModel_GenericIO_GGIO_FSCC1 &iedModel_GenericIO_T60S_FSCH2_Beh);
  (iedModel_GenericIO_T60S_FSCH2_Beh,
   DataObject "Beh" &iedModel_GenericIO_T60S_FSCH2 &iedModel_GenericIO_T60S_FSCH2_SchdSt &iedModel_GenericIO_T60S_FSCH2_Beh_stVal 0 (-1));
  (iedModel_GenericIO_T60S_FSCH2_Beh_stVal,
   DataAttribute (Some "stVal") &iedModel_GenericIO_T60S_FSCH2_Beh &iedModel_GenericIO_T60S_FSCH2_Beh_q NULL 0 (-1) IEC61850_FC_ST IEC61850_ENUMERATED
     (0 + TRG_OPT_DATA_CHANGED) NULL 0);
  (iedModel_GenericIO_T60S_FSCH2_Beh_q,
   DataAttribute (Some "q") &iedModel_GenericIO_T60S_FSCH2_Beh &iedModel_GenericIO_T60S_FSCH2_Beh_t NULL 0 (-1) IEC61850_FC_ST IEC61850_QUALITY
     (0 + TRG_OPT_QUALITY_CHANGED) NULL 0);
  (iedModel_GenericIO_T60S_FSCH2_Beh_t,
   DataAttribute (Some "t") &iedModel_GenericIO_T60S_FSCH2_Beh NULL NULL 0 (-1) IEC61850_FC_ST IEC61850_TIMESTAMP
     0 NULL 0);
  (iedModel_GenericIO_T60S_FSCH2_SchdSt,
   DataObject "SchdSt" &iedModel_GenericIO_T60S_FSCH2 &iedModel_GenericIO_T60S_FSCH2_SchdEntr &iedModel_GenericIO_T60S_FSCH2_SchdSt_stVal 0 (-1));
  (iedModel_GenericIO_T60S_FSCH2_SchdSt_stVal,
   DataAttribute (Some "stVal") &iedModel_GenericIO_T60S_FSCH2_SchdSt &iedModel_GenericIO_T60S_FSCH2_SchdSt_q NULL 0 (-1) IEC61850_FC_ST IEC61850_ENUMERATED
     (0 + TRG_OPT_DATA_CHANGED) NULL 0);
  (iedModel_GenericIO_T60S_FSCH2_SchdSt_q,
   DataAttribute (Some "q") &iedModel_GenericIO_T60S_FSCH2_SchdSt &iedModel_GenericIO_T60S_FSCH2_SchdSt_t NULL 0 (-1) IEC61850_FC_ST IEC61850_QUALITY
     (0 + TRG_OPT_QUALITY_CHANGED) NULL 0);
  (iedModel_GenericIO_T60S_FSCH2_SchdSt_t,
   DataAttribute (Some "t") &iedModel_GenericIO_T60S_FSCH2_SchdSt NULL NULL 0 (-1) IEC61850_FC_ST IEC61850_TIMESTAMP
     0 NULL 0)
].

Definition demo_GenericIO_T60S_FSCH2_nodes2 : list (addr * ModelNode) := [
  (iedModel_GenericIO_T60S_FSCH2_SchdEntr,
   DataObject "SchdEntr" &iedModel_GenericIO_T60S_FSCH2 &iedModel_GenericIO_T60S_FSCH2_ValSPS &iedModel_GenericIO_T60S_FSCH2_SchdEntr_stVal 0 (-1));
  (iedModel_GenericIO_T60S_FSCH2_SchdEntr_stVal,
   DataAttribute (Some "stVal") &iedModel_GenericIO_T60S_FSCH2_SchdEntr &iedModel_GenericIO_T60S_FSCH2_SchdEntr_q NULL 0 (-1) IEC61850_FC_ST IEC61850_INT32
     (0 + TRG_OPT_DATA_CHANGED) NULL 0);
  (iedModel_GenericIO_T60S_FSCH2_SchdEntr_q,
   DataAttribute (Some "q") &iedModel_GenericIO_T60S_FSCH2_SchdEntr &iedModel_GenericIO_T60S_FSCH2_SchdEntr_t NULL 0 (-1) IEC61850_FC_ST IEC61850_QUALITY
     (0 + TRG_OPT_QUALITY_CHANGED) NULL 0);
  (iedModel_GenericIO_T60S_FSCH2_SchdEntr_t,
   DataAttribute (Some "t") &iedModel_GenericIO_T60S_FSCH2_SchdEntr NULL NULL 0 (-1) IEC61850_FC_ST IEC61850_TIMESTAMP
     0 NULL 0);
  (iedModel_GenericIO_T60S_FSCH2_ValSPS,
   DataObject "ValSPS" &iedModel_GenericIO_T60S_FSCH2 &iedModel_GenericIO_T60S_FSCH2_VldReq &iedModel_GenericIO_T60S_FSCH2_ValSPS_stVal 0 (-1));
  (iedModel_GenericIO_T60S_FSCH2_ValSPS_stVal,
   DataAttribute (Some "stVal") &iedModel_GenericIO_T60S_FSCH2_ValSPS &iedModel_GenericIO_T60S_FSCH2_ValSPS_q NULL 0 (-1) IEC61850_FC_ST IEC61850_BOOLEAN
     (0 + TRG_OPT_DATA_CHANGED) NULL 0);
  (iedModel_GenericIO_T60S_FSCH2_ValSPS_q,
   DataAttribute (Some "q") &iedModel_GenericIO_T60S_FSCH2_ValSPS &iedModel_GenericIO_T60S_FSCH2_ValSPS_t NULL 0 (-1) IEC61850_FC_ST IEC61850_QUALITY
     (0 + TRG_OPT_QUALITY_CHANGED) NULL 0);
  (iedModel_GenericIO_T60S_FSCH2_ValSPS_t,
   DataAttribute (Some "t") &iedModel_GenericIO_T60S_FSCH2_ValSPS NULL NULL 0 (-1) IEC61850_FC_ST IEC61850_TIMESTAMP
     0 NULL 0)
].

Definition demo_GenericIO_T60S_FSCH2_nodes3 : list (addr * ModelNode) := [
  (iedModel_GenericIO_T60S_FSCH2_VldReq,
   DataObject "VldReq" &iedModel_GenericIO_T60S_FSCH2 &iedModel_GenericIO_T60S_FSCH2_EnaReq &iedModel_GenericIO_T60S_FSCH2_VldReq_stVal 0 (-1));
  (iedModel_GenericIO_T60S_FSCH2_VldReq_stVal,
   DataAttribute (Some "stVal") &iedModel_GenericIO_T60S_FSCH2_VldReq &iedModel_GenericIO_T60S_FSCH2_VldReq_q NULL 0 (-1) IEC61850_FC_ST IEC61850_BOOLEAN
     (0 + TRG_OPT_DATA_CHANGED) NULL 0);
  (iedModel_GenericIO_T60S_FSCH2_VldReq_q,
   DataAttribute (Some "q") &iedModel_GenericIO_T60S_FSCH2_VldReq &iedModel_GenericIO_T60S_FSCH2_VldReq_Oper NULL 0 (-1) IEC61850_FC_ST IEC61850_QUALITY
     (0 + TRG_OPT_QUALITY_CHANGED) NULL 0);
  (iedModel_GenericIO_T60S_FSCH2_VldReq_Oper,
   DataAttribute (Some "Oper") &iedModel_GenericIO_T60S_FSCH2_VldReq &iedModel_GenericIO_T60S_FSCH2_VldReq_ctlModel &iedModel_GenericIO_T60S_FSCH2_VldReq_Oper_ctlVal 0 (-1) IEC61850_FC_CO IEC61850_CONSTRUCTED
     0 NULL 0);
  (iedModel_GenericIO_T60S_FSCH2_VldReq_Oper_ctlVal,
   DataAttribute (Some "ctlVal") &iedModel_GenericIO_T60S_FSCH2_VldReq_Oper &iedModel_GenericIO_T60S_FSCH2_VldReq_Oper_origin NULL 0 (-1) IEC61850_FC_CO IEC61850_BOOLEAN
     0 NULL 0);
  (iedModel_GenericIO_T60S_FSCH2_VldReq_Oper_origin,
   DataAttribute (Some "origin") &iedModel_GenericIO_T60S_FSCH2_VldReq_Oper &iedModel_GenericIO_T60S_FSCH2_VldReq_Oper_ctlNum &iedModel_GenericIO_T60S_FSCH2_VldReq_Oper_origin_orCat 0 (-1) IEC61850_FC_CO IEC61850_CONSTRUCTED
     0 NULL 0);
  (iedModel_GenericIO_T60S_FSCH2_VldReq_Oper_origin_orCat,
   DataAttribute (Some "orCat") &iedModel_GenericIO_T60S_FSCH2_VldReq_Oper_origin &iedModel_GenericIO_T60S_FSCH2_VldReq_Oper_origin_orIdent NULL 0 (-1) IEC61850_FC_CO IEC61850_ENUMERATED
     0 NULL 0);
  (iedModel_GenericIO_T60S_FSCH2_VldReq_Oper_origin_orIdent,
   DataAttribute (Some "orIdent") &iedModel_GenericIO_T60S_FSCH2_VldReq_Oper_origin NULL NULL 0 (-1) IEC61850_FC_CO IEC61850_OCTET_STRING_64
     0 NULL 0);
  (iedModel_GenericIO_T60S_FSCH2_VldReq_Oper_ctlNum,
   DataAttribute (Some "ctlNum") &iedModel_GenericIO_T60S_FSCH2_VldReq_Oper &iedModel_GenericIO_T60S_FSCH2_VldReq_Oper_T NULL 0 (-1) IEC61850_FC_CO IEC61850_INT8U
     0 NULL 0);
  (iedModel_GenericIO_T60S_FSCH2_VldReq_Oper_T,
   DataAttribute (Some "T") &iedModel_GenericIO_T60S_FSCH2_VldReq_Oper &iedModel_GenericIO_T60S_FSCH2_VldReq_Oper_Test NULL 0 (-1) IEC61850_FC_CO IEC61850_TIMESTAMP
     0 NULL 0);
  (iedModel_GenericIO_T60S_FSCH2_VldReq_Oper_Test,
   DataAttribute (Some "Test") &iedModel_GenericIO_T60S_FSCH2_VldReq_Oper &iedModel_GenericIO_T60S_FSCH2_VldReq_Oper_Check NULL 0 (-1) IEC61850_FC_CO IEC61850_BOOLEAN
     0 NULL 0)
].

Definition demo_GenericIO_T60S_FSCH2_nodes4 : list (addr * ModelNode) := [
  (iedModel_GenericIO_T60S_FSCH2_VldReq_Oper_Check,
   DataAttribute (Some "Check") &iedModel_GenericIO_T60S_FSCH2_VldReq_Oper NULL NULL 0 (-1) IEC61850_FC_CO IEC61850_CHECK
     0 NULL 0);
  (iedModel_GenericIO_T60S_FSCH2_VldReq_ctlModel,
   DataAttribute (Some "ctlModel") &iedModel_GenericIO_T60S_FSCH2_VldReq &iedModel_GenericIO_T60S_FSCH2_VldReq_t NULL 0 (-1) IEC61850_FC_CF IEC61850_ENUMERATED
     0 NULL 0);
  (iedModel_GenericIO_T60S_FSCH2_VldReq_t,
   DataAttribute (Some "t") &iedModel_GenericIO_T60S_FSCH2_VldReq NULL NULL 0 (-1) IEC61850_FC_ST IEC61850_TIMESTAMP
     0 NULL 0)
].

Definition demo_GenericIO_T60S_FSCH2_nodes5 : list (addr * ModelNode) := [
  (iedModel_GenericIO_T60S_FSCH2_EnaReq,
   DataObject "EnaReq" &iedModel_GenericIO_T60S_FSCH2 &iedModel_GenericIO_T60S_FSCH2_EdtReq &iedModel_GenericIO_T60S_FSCH2_EnaReq_stVal 0 (-1));
  (iedModel_GenericIO_T60S_FSCH2_EnaReq_stVal,
   DataAttribute (Some "stVal") &iedModel_GenericIO_T60S_FSCH2_EnaReq &iedModel_GenericIO_T60S_FSCH2_EnaReq_q NULL 0 (-1) IEC61850_FC_ST IEC61850_BOOLEAN
     (0 + TRG_OPT_DATA_CHANGED) NULL 0);
  (iedModel_GenericIO_T60S_FSCH2_EnaReq_q,
   DataAttribute (Some "q") &iedModel_GenericIO_T60S_FSCH2_EnaReq &iedModel_GenericIO_T60S_FSCH2_EnaReq_Oper NULL 0 (-1) IEC61850_FC_ST IEC61850_QUALITY
     (0 + TRG_OPT_QUALITY_CHANGED) NULL 0);
  (iedModel_GenericIO_T60S_FSCH2_EnaReq_Oper,
   DataAttribute (Some "Oper") &iedModel_GenericIO_T60S_FSCH2_EnaReq &iedModel_GenericIO_T60S_FSCH2_EnaReq_ctlModel &iedModel_GenericIO_T60S_FSCH2_EnaReq_Oper_ctlVal 0 (-1) IEC61850_FC_CO IEC61850_CONSTRUCTED
     0 NULL 0);
  (iedModel_GenericIO_T60S_FSCH2_EnaReq_Oper_ctlVal,
   DataAttribute (Some "ctlVal") &iedModel_GenericIO_T60S_FSCH2_EnaReq_Oper &iedModel_GenericIO_T60S_FSCH2_EnaReq_Oper_origin NULL 0 (-1) IEC61850_FC_CO IEC61850_BOOLEAN
     0 NULL 0);
  (iedModel_GenericIO_T60S_FSCH2_EnaReq_Oper_origin,
   DataAttribute (Some "origin") &iedModel_GenericIO_T60S_FSCH2_EnaReq_Oper &iedModel_GenericIO_T60S_FSCH2_EnaReq_Oper_ctlNum &iedModel_GenericIO_T60S_FSCH2_EnaReq_Oper_origin_orCat 0 (-1) IEC61850_FC_CO IEC61850_CONSTRUCTED
     0 NULL 0);
  (iedModel_GenericIO_T60S_FSCH2_EnaReq_Oper_origin_orCat,
   DataAttribute (Some "orCat") &iedModel_GenericIO_T60S_FSCH2_EnaReq_Oper_origin &iedModel_GenericIO_T60S_FSCH2_EnaReq_Oper_origin_orIdent NULL 0 (-1) IEC61850_FC_CO IEC61850_ENUMERATED
     0 NULL 0);
  (iedModel_GenericIO_T60S_FSCH2_EnaReq_Oper_origin_orIdent,
   DataAttribute (Some "orIdent") &iedModel_GenericIO_T60S_FSCH2_EnaReq_Oper_origin NULL NULL 0 (-1) IEC61850_FC_CO IEC61850_OCTET_STRING_64
     0 NULL 0);
  (iedModel_GenericIO_T60S_FSCH2_EnaReq_Oper_ctlNum,
   DataAttribute (Some "ctlNum") &iedModel_GenericIO_T60S_FSCH2_EnaReq_Oper &iedModel_GenericIO_T60S_FSCH2_EnaReq_Oper_T NULL 0 (-1) IEC61850_FC_CO IEC61850_INT8U
     0 NULL 0);
  (iedModel_GenericIO_T60S_FSCH2_EnaReq_Oper_T,
   DataAttribute (Some "T") &iedModel_GenericIO_T60S_FSCH2_EnaReq_Oper &iedModel_GenericIO_T60S_FSCH2_EnaReq_Oper_Test NULL 0 (-1) IEC61850_FC_CO IEC61850_TIMESTAMP
     0 NULL 0);
  (iedModel_GenericIO_T60S_FSCH2_EnaReq_Oper_Test,
   DataAttribute (Some "Test") &iedModel_GenericIO_T60S_FSCH2_EnaReq_Oper &iedModel_GenericIO_T60S_FSCH2_EnaReq_Oper_Check NULL 0 (-1) IEC61850_FC_CO IEC61850_BOOLEAN
     0 NULL 0)
].

Definition demo_GenericIO_T60S_FSCH2_nodes6 : list (addr * ModelNode) := [
  (iedModel_GenericIO_T60S_FSCH2_EnaReq_Oper_Check,
   DataAttribute (Some "Check") &iedModel_GenericIO_T60S_FSCH2_EnaReq_Oper NULL NULL 0 (-1) IEC61850_FC_CO IEC61850_CHECK
     0 NULL 0);
  (iedModel_GenericIO_T60S_FSCH2_EnaReq_ctlModel,
   DataAttribute (Some "ctlModel") &iedModel_GenericIO_T60S_FSCH2_EnaReq &iedModel_GenericIO_T60S_FSCH2_EnaReq_t NULL 0 (-1) IEC61850_FC_CF IEC61850_ENUMERATED
     0 NULL 0);
  (iedModel_GenericIO_T60S_FSCH2_EnaReq_t,
   DataAttribute (Some "t") &iedModel_GenericIO_T60S_FSCH2_EnaReq NULL NULL 0 (-1) IEC61850_FC_ST IEC61850_TIMESTAMP
     0 NULL 0)
].

Definition demo_GenericIO_T60S_FSCH2_nodes7 : list (addr * ModelNode) := [
  (iedModel_GenericIO_T60S_FSCH2_EdtReq,
   DataObject "EdtReq" &iedModel_GenericIO_T60S_FSCH2 &iedModel_GenericIO_T60S_FSCH2_DsaReq &iedModel_GenericIO_T60S_FSCH2_EdtReq_stVal 0 (-1));
  (iedModel_GenericIO_T60S_FSCH2_EdtReq_stVal,
   DataAttribute (Some "stVal") &iedModel_GenericIO_T60S_FSCH2_EdtReq &iedModel_GenericIO_T60S_FSCH2_EdtReq_q NULL 0 (-1) IEC61850_FC_ST IEC61850_BOOLEAN
     (0 + TRG_OPT_DATA_CHANGED) NULL 0);
  (iedModel_GenericIO_T60S_FSCH2_EdtReq_q,
   DataAttribute (Some "q") &iedModel_GenericIO_T60S_FSCH2_EdtReq &iedModel_GenericIO_T60S_FSCH2_EdtReq_Oper NULL 0 (-1) IEC61850_FC_ST IEC61850_QUALITY
     (0 + TRG_OPT_QUALITY_CHANGED) NULL 0);
  (iedModel_GenericIO_T60S_FSCH2_EdtReq_Oper,
   DataAttribute (Some "Oper") &iedModel_GenericIO_T60S_FSCH2_EdtReq &iedModel_GenericIO_T60S_FSCH2_EdtReq_ctlModel &iedModel_GenericIO_T60S_FSCH2_EdtReq_Oper_ctlVal 0 (-1) IEC61850_FC_CO IEC61850_CONSTRUCTED
     0 NULL 0);
  (iedModel_GenericIO_T60S_FSCH2_EdtReq_Oper_ctlVal,
   DataAttribute (Some "ctlVal") &iedModel_GenericIO_T60S_FSCH2_EdtReq_Oper &iedModel_GenericIO_T60S_FSCH2_EdtReq_Oper_origin NULL 0 (-1) IEC61850_FC_CO IEC61850_BOOLEAN
     0 NULL 0);
  (iedModel_GenericIO_T60S_FSCH2_EdtReq_Oper_origin,
   DataAttribute (Some "origin") &iedModel_GenericIO_T60S_FSCH2_EdtReq_Oper &iedModel_GenericIO_T60S_FSCH2_EdtReq_Oper_ctlNum &iedModel_GenericIO_T60S_FSCH2_EdtReq_Oper_origin_orCat 0 (-1) IEC61850_FC_CO IEC61850_CONSTRUCTED
     0 NULL 0);
  (iedModel_GenericIO_T60S_FSCH2_EdtReq_Oper_origin_orCat,
   DataAttribute (Some "orCat") &iedModel_GenericIO_T60S_FSCH2_EdtReq_Oper_origin &iedModel_GenericIO_T60S_FSCH2_EdtReq_Oper_origin_orIdent NULL 0 (-1) IEC61850_FC_CO IEC61850_ENUMERATED
     0 NULL 0);
  (iedModel_GenericIO_T60S_FSCH2_EdtReq_Oper_origin_orIdent,
   DataAttribute (Some "orIdent") &iedModel_GenericIO_T60S_FSCH2_EdtReq_Oper_origin NULL NULL 0 (-1) IEC61850_FC_CO IEC61850_OCTET_STRING_64
     0 NULL 0);
  (iedModel_GenericIO_T60S_FSCH2_EdtReq_Oper_ctlNum,
   DataAttribute (Some "ctlNum") &iedModel_GenericIO_T60S_FSCH2_EdtReq_Oper &iedModel_GenericIO_T60S_FSCH2_EdtReq_Oper_T NULL 0 (-1) IEC61850_FC_CO IEC61850_INT8U
     0 NULL 0);
  (iedModel_GenericIO_T60S_FSCH2_EdtReq_Oper_T,
   DataAttribute (Some "T") &iedModel_GenericIO_T60S_FSCH2_EdtReq_Oper &iedModel_GenericIO_T60S_FSCH2_EdtReq_Oper_Test NULL 0 (-1) IEC61850_FC_CO IEC61850_TIMESTAMP
     0 NULL 0);
  (iedModel_GenericIO_T60S_FSCH2_EdtReq_Oper_Test,
   DataAttribute (Some "Test") &iedModel_GenericIO_T60S_FSCH2_EdtReq_Oper &iedModel_GenericIO_T60S_FSCH2_EdtReq_Oper_Check NULL 0 (-1) IEC61850_FC_CO IEC61850_BOOLEAN
     0 NULL 0)
].

Definition demo_GenericIO_T60S_FSCH2_nodes8 : list (addr * ModelNode) := [
  (iedModel_GenericIO_T60S_FSCH2_EdtReq_Oper_Check,
   DataAttribute (Some "Check") &iedModel_GenericIO_T60S_FSCH2_EdtReq_Oper NULL NULL 0 (-1) IEC61850_FC_CO IEC61850_CHECK
     0 NULL 0);
  (iedModel_GenericIO_T60S_FSCH2_EdtReq_ctlModel,
   DataAttribute (Some "ctlModel") &iedModel_GenericIO_T60S_FSCH2_EdtReq &iedModel_GenericIO_T60S_FSCH2_EdtReq_t NULL 0 (-1) IEC61850_FC_CF IEC61850_ENUMERATED
     0 NULL 0);
  (iedModel_GenericIO_T60S_FSCH2_EdtReq_t,
   DataAttribute (Some "t") &iedModel_GenericIO_T60S_FSCH2_EdtReq NULL NULL 0 (-1) IEC61850_FC_ST IEC61850_TIMESTAMP
     0 NULL 0)
].

Definition demo_GenericIO_T60S_FSCH2_nodes9 : list (addr * ModelNode) := [
  (iedModel_GenericIO_T60S_FSCH2_DsaReq,
   DataObject "DsaReq" &iedModel_GenericIO_T60S_FSCH2 &iedModel_GenericIO_T60S_FSCH2_SchdPrio &iedModel_GenericIO_T60S_FSCH2_DsaReq_stVal 0 (-1));
  (iedModel_GenericIO_T60S_FSCH2_DsaReq_stVal,
   DataAttribute (Some "stVal") &iedModel_GenericIO_T60S_FSCH2_DsaReq &iedModel_GenericIO_T60S_FSCH2_DsaReq_q NULL 0 (-1) IEC61850_FC_ST IEC61850_BOOLEAN
     (0 + TRG_OPT_DATA_CHANGED) NULL 0);
  (iedModel_GenericIO_T60S_FSCH2_DsaReq_q,
   DataAttribute (Some "q") &iedModel_GenericIO_T60S_FSCH2_DsaReq &iedModel_GenericIO_T60S_FSCH2_DsaReq_Oper NULL 0 (-1) IEC61850_FC_ST IEC61850_QUALITY
     (0 + TRG_OPT_QUALITY_CHANGED) NULL 0);
  (iedModel_GenericIO_T60S_FSCH2_DsaReq_Oper,
   DataAttribute (Some "Oper") &iedModel_GenericIO_T60S_FSCH2_DsaReq &iedModel_GenericIO_T60S_FSCH2_DsaReq_ctlModel &iedModel_GenericIO_T60S_FSCH2_DsaReq_Oper_ctlVal 0 (-1) IEC61850_FC_CO IEC61850_CONSTRUCTED
     0 NULL 0);
  (iedModel_GenericIO_T60S_FSCH2_DsaReq_Oper_ctlVal,
   DataAttribute (Some "ctlVal") &iedModel_GenericIO_T60S_FSCH2_DsaReq_Oper &iedModel_GenericIO_T60S_FSCH2_DsaReq_Oper_origin NULL 0 (-1) IEC61850_FC_CO IEC61850_BOOLEAN
     0 NULL 0);
  (iedModel_GenericIO_T60S_FSCH2_DsaReq_Oper_origin,
   DataAttribute (Some "origin") &iedModel_GenericIO_T60S_FSCH2_DsaReq_Oper &iedModel_GenericIO_T60S_FSCH2_DsaReq_Oper_ctlNum &iedModel_GenericIO_T60S_FSCH2_DsaReq_Oper_origin_orCat 0 (-1) IEC61850_FC_CO IEC61850_CONSTRUCTED
     0 NULL 0);
  (iedModel_GenericIO_T60S_FSCH2_DsaReq_Oper_origin_orCat,
   DataAttribute (Some "orCat") &iedModel_GenericIO_T60S_FSCH2_DsaReq_Oper_origin &iedModel_GenericIO_T60S_FSCH2_DsaReq_Oper_origin_orIdent NULL 0 (-1) IEC61850_FC_CO IEC61850_ENUMERATED
     0 NULL 0);
  (iedModel_GenericIO_T60S_FSCH2_DsaReq_Oper_origin_orIdent,
   DataAttribute (Some "orIdent") &iedModel_GenericIO_T60S_FSCH2_DsaReq_Oper_origin NULL NULL 0 (-1) IEC61850_FC_CO IEC61850_OCTET_STRING_64
     0 NULL 0);
  (iedModel_GenericIO_T60S_FSCH2_DsaReq_Oper_ctlNum,
   DataAttribute (Some "ctlNum") &iedModel_GenericIO_T60S_FSCH2_DsaReq_Oper &iedModel_GenericIO_T60S_FSCH2_DsaReq_Oper_T NULL 0 (-1) IEC61850_FC_CO IEC61850_INT8U
     0 NULL 0);
  (iedModel_GenericIO_T60S_FSCH2_DsaReq_Oper_T,
   DataAttribute (Some "T") &iedModel_GenericIO_T60S_FSCH2_DsaReq_Oper &iedModel_GenericIO_T60S_FSCH2_DsaReq_Oper_Test NULL 0 (-1) IEC61850_FC_CO IEC61850_TIMESTAMP
     0 NULL 0);
  (iedModel_GenericIO_T60S_FSCH2_DsaReq_Oper_Test,
   DataAttribute (Some "Test") &iedModel_GenericIO_T60S_FSCH2_DsaReq_Oper &iedModel_GenericIO_T60S_FSCH2_DsaReq_Oper_Check NULL 0 (-1) IEC61850_FC_CO IEC61850_BOOLEAN
     0 NULL 0)
].

Definition demo_GenericIO_T60S_FSCH2_nodes10 : list (addr * ModelNode) := [
  (iedModel_GenericIO_T60S_FSCH2_DsaReq_Oper_Check,
   DataAttribute (Some "Check") &iedModel_GenericIO_T60S_FSCH2_DsaReq_Oper NULL NULL 0 (-1) IEC61850_FC_CO IEC61850_CHECK
     0 NULL 0);
  (iedModel_GenericIO_T60S_FSCH2_DsaReq_ctlModel,
   DataAttribute (Some "ctlModel") &iedModel_GenericIO_T60S_FSCH2_DsaReq &iedModel_GenericIO_T60S_FSCH2_DsaReq_t NULL 0 (-1) IEC61850_FC_CF IEC61850_ENUMERATED
     0 NULL 0);
  (iedModel_GenericIO_T60S_FSCH2_DsaReq_t,
   DataAttribute (Some "t") &iedModel_GenericIO_T60S_FSCH2_DsaReq NULL NULL 0 (-1) IEC61850_FC_ST IEC61850_TIMESTAMP
     0 NULL 0);
  (iedModel_GenericIO_T60S_FSCH2_SchdPrio,
   DataObject "SchdPrio" &iedModel_GenericIO_T60S_FSCH2 &iedModel_GenericIO_T60S_FSCH2_NumEntr &iedModel_GenericIO_T60S_FSCH2_SchdPrio_setVal 0 (-1));
  (iedModel_GenericIO_T60S_FSCH2_SchdPrio_setVal,
   DataAttribute (Some "setVal") &iedModel_GenericIO_T60S_FSCH2_SchdPrio NULL NULL 0 (-1) IEC61850_FC_SP IEC61850_INT32
     (0 + TRG_OPT_DATA_CHANGED) NULL 0);
  (iedModel_GenericIO_T60S_FSCH2_NumEntr,
   DataObject "NumEntr" &iedModel_GenericIO_T60S_FSCH2 &iedModel_GenericIO_T60S_FSCH2_SchdIntv &iedModel_GenericIO_T60S_FSCH2_NumEntr_setVal 0 (-1));
  (iedModel_GenericIO_T60S_FSCH2_NumEntr_setVal,
   DataAttribute (Some "setVal") &iedModel_GenericIO_T60S_FSCH2_NumEntr NULL NULL 0 (-1) IEC61850_FC_SP IEC61850_INT32
     (0 + TRG_OPT_DATA_CHANGED) NULL 0);
  (iedModel_GenericIO_T60S_FSCH2_SchdIntv,
   DataObject "SchdIntv" &iedModel_GenericIO_T60S_FSCH2 &iedModel_GenericIO_T60S_FSCH2_ValSPG1 &iedModel_GenericIO_T60S_FSCH2_SchdIntv_setVal 0 (-1));
  (iedModel_GenericIO_T60S_FSCH2_SchdIntv_setVal,
   DataAttribute (Some "setVal") &iedModel_GenericIO_T60S_FSCH2_SchdIntv NULL NULL 0 (-1) IEC61850_FC_SP IEC61850_INT32
     (0 + TRG_OPT_DATA_CHANGED) NULL 0);
  (iedModel_GenericIO_T60S_FSCH2_ValSPG1,
   DataObject "ValSPG1" &iedModel_GenericIO_T60S_FSCH2 &iedModel_GenericIO_T60S_FSCH2_ValSPG2 &iedModel_GenericIO_T60S_FSCH2_ValSPG1_setVal 0 (-1));
  (iedModel_GenericIO_T60S_FSCH2_ValSPG1_setVal,
   DataAttribute (Some "setVal") &iedModel_GenericIO_T60S_FSCH2_ValSPG1 NULL NULL 0 (-1) IEC61850_FC_SG IEC61850_BOOLEAN
     (0 + TRG_OPT_DATA_CHANGED) NULL 0)
].

Definition demo_GenericIO_T60S_FSCH2_nodes11 : list (addr * ModelNode) := [
  (iedModel_GenericIO_T60S_FSCH2_ValSPG2,
   DataObject "ValSPG2" &iedModel_GenericIO_T60S_FSCH2 &iedModel_GenericIO_T60S_FSCH2_ValSPG3 &iedModel_GenericIO_T60S_FSCH2_ValSPG2_setVal 0 (-1));
  (iedModel_GenericIO_T60S_FSCH2_ValSPG2_setVal,
   DataAttribute (Some "setVal") &iedModel_GenericIO_T60S_FSCH2_ValSPG2 NULL NULL 0 (-1) IEC61850_FC_SG IEC61850_BOOLEAN
     (0 + TRG_OPT_DATA_CHANGED) NULL 0);
  (iedModel_GenericIO_T60S_FSCH2_ValSPG3,
   DataObject "ValSPG3" &iedModel_GenericIO_T60S_FSCH2 &iedModel_GenericIO_T60S_FSCH2_ValSPG4 &iedModel_GenericIO_T60S_FSCH2_ValSPG3_setVal 0 (-1));
  (iedModel_GenericIO_T60S_FSCH2_ValSPG3_setVal,
   DataAttribute (Some "setVal") &iedModel_GenericIO_T60S_FSCH2_ValSPG3 NULL NULL 0 (-1) IEC61850_FC_SG IEC61850_BOOLEAN
     (0 + TRG_OPT_DATA_CHANGED) NULL 0);
  (iedModel_GenericIO_T60S_FSCH2_ValSPG4,
   DataObject "ValSPG4" &iedModel_GenericIO_T60S_FSCH2 &iedModel_GenericIO_T60S_FSCH2_ValSPG5 &iedModel_GenericIO_T60S_FSCH2_ValSPG4_setVal 0 (-1));
  (iedModel_GenericIO_T60S_FSCH2_ValSPG4_setVal,
   DataAttribute (Some "setVal") &iedModel_GenericIO_T60S_FSCH2_ValSPG4 NULL NULL 0 (-1) IEC61850_FC_SG IEC61850_BOOLEAN
     (0 + TRG_OPT_DATA_CHANGED) NULL 0);
  (iedModel_GenericIO_T60S_FSCH2_ValSPG5,
   DataObject "ValSPG5" &iedModel_GenericIO_T60S_FSCH2 &iedModel_GenericIO_T60S_FSCH2_ValSPG6 &iedModel_GenericIO_T60S_FSCH2_ValSPG5_setVal 0 (-1));
  (iedModel_GenericIO_T60S_FSCH2_ValSPG5_setVal,
   DataAttribute (Some "setVal") &iedModel_GenericIO_T60S_FSCH2_ValSPG5 NULL NULL 0 (-1) IEC61850_FC_SG IEC61850_BOOLEAN
     (0 + TRG_OPT_DATA_CHANGED) NULL 0);
  (iedModel_GenericIO_T60S_FSCH2_ValSPG6,
   DataObject "ValSPG6" &iedModel_GenericIO_T60S_FSCH2 &iedModel_GenericIO_T60S_FSCH2_ValSPG7 &iedModel_GenericIO_T60S_FSCH2_ValSPG6_setVal 0 (-1));
  (iedModel_GenericIO_T60S_FSCH2_ValSPG6_setVal,
   DataAttribute (Some "setVal") &iedModel_GenericIO_T60S_FSCH2_ValSPG6 NULL NULL 0 (-1) IEC61850_FC_SG IEC61850_BOOLEAN
     (0 + TRG_OPT_DATA_CHANGED) NULL 0);
  (iedModel_GenericIO_T60S_FSCH2_ValSPG7,
   DataObject "ValSPG7" &iedModel_GenericIO_T60S_FSCH2 &iedModel_GenericIO_T60S_FSCH2_ValSPG8 &iedModel_GenericIO_T60S_FSCH2_ValSPG7_setVal 0 (-1));
  (iedModel_GenericIO_T60S_FSCH2_ValSPG7_setVal,
   DataAttribute (Some "setVal") &iedModel_GenericIO_T60S_FSCH2_ValSPG7 NULL NULL 0 (-1) IEC61850_FC_SG IEC61850_BOOLEAN
     (0 + TRG_OPT_DATA_CHANGED) NULL 0)
].

Definition demo_GenericIO_T60S_FSCH2_nodes12 : list (addr * ModelNode) := [
  (iedModel_GenericIO_T60S_FSCH2_ValSPG8,
   DataObject "ValSPG8" &iedModel_GenericIO_T60S_FSCH2 &iedModel_GenericIO_T60S_FSCH2_ValSPG9 &iedModel_GenericIO_T60S_FSCH2_ValSPG8_setVal 0 (-1));
  (iedModel_GenericIO_T60S_FSCH2_ValSPG8_setVal,
   DataAttribute (Some "setVal") &iedModel_GenericIO_T60S_FSCH2_ValSPG8 NULL NULL 0 (-1) IEC61850_FC_SG IEC61850_BOOLEAN
     (0 + TRG_OPT_DATA_CHANGED) NULL 0);
  (iedModel_GenericIO_T60S_FSCH2_ValSPG9,
   DataObject "ValSPG9" &iedModel_GenericIO_T60S_FSCH2 &iedModel_GenericIO_T60S_FSCH2_ValSPG10 &iedModel_GenericIO_T60S_FSCH2_ValSPG9_setVal 0 (-1));
  (iedModel_GenericIO_T60S_FSCH2_ValSPG9_setVal,
   DataAttribute (Some "setVal") &iedModel_GenericIO_T60S_FSCH2_ValSPG9 NULL NULL 0 (-1) IEC61850_FC_SG IEC61850_BOOLEAN
     (0 + TRG_OPT_DATA_CHANGED) NULL 0);
  (iedModel_GenericIO_T60S_FSCH2_ValSPG10,
   DataObject "ValSPG10" &iedModel_GenericIO_T60S_FSCH2 &iedModel_GenericIO_T60S_FSCH2_ValSPG11 &iedModel_GenericIO_T60S_FSCH2_ValSPG10_setVal 0 (-1));
  (iedModel_GenericIO_T60S_FSCH2_ValSPG10_setVal,
   DataAttribute (Some "setVal") &iedModel_GenericIO_T60S_FSCH2_ValSPG10 NULL NULL 0 (-1) IEC61850_FC_SG IEC61850_BOOLEAN
     (0 + TRG_OPT_DATA_CHANGED) NULL 0);
  (iedModel_GenericIO_T60S_FSCH2_ValSPG11,
   DataObject "ValSPG11" &iedModel_GenericIO_T60S_FSCH2 &iedModel_GenericIO_T60S_FSCH2_ValSPG12 &iedModel_GenericIO_T60S_FSCH2_ValSPG11_setVal 0 (-1));
  (iedModel_GenericIO_T60S_FSCH2_ValSPG11_setVal,
   DataAttribute (Some "setVal") &iedModel_GenericIO_T60S_FSCH2_ValSPG11 NULL NULL 0 (-1) IEC61850_FC_SG IEC61850_BOOLEAN
     (0 + TRG_OPT_DATA_CHANGED) NULL 0);
  (iedModel_GenericIO_T60S_FSCH2_ValSPG12,
   DataObject "ValSPG12" &iedModel_GenericIO_T60S_FSCH2 &iedModel_GenericIO_T60S_FSCH2_ValSPG13 &iedModel_GenericIO_T60S_FSCH2_ValSPG12_setVal 0 (-1));
  (iedModel_GenericIO_T60S_FSCH2_ValSPG12_setVal,
   DataAttribute (Some "setVal") &iedModel_GenericIO_T60S_FSCH2_ValSPG12 NULL NULL 0 (-1) IEC61850_FC_SG IEC61850_BOOLEAN
     (0 + TRG_OPT_DATA_CHANGED) NULL 0);
  (iedModel_GenericIO_T60S_FSCH2_ValSPG13,
   DataObject "ValSPG13" &iedModel_GenericIO_T60S_FSCH2 &iedModel_GenericIO_T60S_FSCH2_ValSPG14 &iedModel_GenericIO_T60S_FSCH2_ValSPG13_setVal 0 (-1));
  (iedModel_GenericIO_T60S_FSCH2_ValSPG13_setVal,
   DataAttribute (Some "setVal") &iedModel_GenericIO_T60S_FSCH2_ValSPG13 NULL NULL 0 (-1) IEC61850_FC_SG IEC61850_BOOLEAN
     (0 + TRG_OPT_DATA_CHANGED) NULL 0)
].

Definition demo_GenericIO_T60S_FSCH2_nodes13 : list (addr * ModelNode) := [
  (iedModel_GenericIO_T60S_FSCH2_ValSPG14,
   DataObject "ValSPG14" &iedModel_GenericIO_T60S_FSCH2 &iedModel_GenericIO_T60S_FSCH2_ValSPG15 &iedModel_GenericIO_T60S_FSCH2_ValSPG14_setVal 0 (-1));
  (iedModel_GenericIO_T60S_FSCH2_ValSPG14_setVal,
   DataAttribute (Some "setVal") &iedModel_GenericIO_T60S_FSCH2_ValSPG14 NULL NULL 0 (-1) IEC61850_FC_SG IEC61850_BOOLEAN
     (0 + TRG_OPT_DATA_CHANGED) NULL 0);
  (iedModel_GenericIO_T60S_FSCH2_ValSPG15,
   DataObject "ValSPG15" &iedModel_GenericIO_T60S_FSCH2 &iedModel_GenericIO_T60S_FSCH2_ValSPG16 &iedModel_GenericIO_T60S_FSCH2_ValSPG15_setVal 0 (-1));
  (iedModel_GenericIO_T60S_FSCH2_ValSPG15_setVal,
   DataAttribute (Some "setVal") &iedModel_GenericIO_T60S_FSCH2_ValSPG15 NULL NULL 0 (-1) IEC61850_FC_SG IEC61850_BOOLEAN
     (0 + TRG_OPT_DATA_CHANGED) NULL 0);
  (iedModel_GenericIO_T60S_FSCH2_ValSPG16,
   DataObject "ValSPG16" &iedModel_GenericIO_T60S_FSCH2 &iedModel_GenericIO_T60S_FSCH2_ValSPG17 &iedModel_GenericIO_T60S_FSCH2_ValSPG16_setVal 0 (-1));
  (iedModel_GenericIO_T60S_FSCH2_ValSPG16_setVal,
   DataAttribute (Some "setVal") &iedModel_GenericIO_T60S_FSCH2_ValSPG16 NULL NULL 0 (-1) IEC61850_FC_SG IEC61850_BOOLEAN
     (0 + TRG_OPT_DATA_CHANGED) NULL 0);
  (iedModel_GenericIO_T60S_FSCH2_ValSPG17,
   DataObject "ValSPG17" &iedModel_GenericIO_T60S_FSCH2 &iedModel_GenericIO_T60S_FSCH2_ValSPG18 &iedModel_GenericIO_T60S_FSCH2_ValSPG17_setVal 0 (-1));
  (iedModel_GenericIO_T60S_FSCH2_ValSPG17_setVal,
   DataAttribute (Some "setVal") &iedModel_GenericIO_T60S_FSCH2_ValSPG17 NULL NULL 0 (-1) IEC61850_FC_SG IEC61850_BOOLEAN
     (0 + TRG_OPT_DATA_CHANGED) NULL 0);
  (iedModel_GenericIO_T60S_FSCH2_ValSPG18,
   DataObject "ValSPG18" &iedModel_GenericIO_T60S_FSCH2 &iedModel_GenericIO_T60S_FSCH2_ValSPG19 &iedModel_GenericIO_T60S_FSCH2_ValSPG18_setVal 0 (-1));
  (iedModel_GenericIO_T60S_FSCH2_ValSPG18_setVal,
   DataAttribute (Some "setVal") &iedModel_GenericIO_T60S_FSCH2_ValSPG18 NULL NULL 0 (-1) IEC61850_FC_SG IEC61850_BOOLEAN
     (0 + TRG_OPT_DATA_CHANGED) NULL 0);
  (iedModel_GenericIO_T60S_FSCH2_ValSPG19,
   DataObject "ValSPG19" &iedModel_GenericIO_T60S_FSCH2 &iedModel_GenericIO_T60S_FSCH2_ValSPG20 &iedModel_GenericIO_T60S_FSCH2_ValSPG19_setVal 0 (-1));
  (iedModel_GenericIO_T60S_FSCH2_ValSPG19_setVal,
   DataAttribute (Some "setVal") &iedModel_GenericIO_T60S_FSCH2_ValSPG19 NULL NULL 0 (-1) IEC61850_FC_SG IEC61850_BOOLEAN
     (0 + TRG_OPT_DATA_CHANGED) NULL 0)
].

Definition demo_GenericIO_T60S_FSCH2_nodes14 : list (addr * ModelNode) := [
  (iedModel_GenericIO_T60S_FSCH2_ValSPG20,
   DataObject "ValSPG20" &iedModel_GenericIO_T60S_FSCH2 &iedModel_GenericIO_T60S_FSCH2_ValSPG21 &iedModel_GenericIO_T60S_FSCH2_ValSPG20_setVal 0 (-1));
  (iedModel_GenericIO_T60S_FSCH2_ValSPG20_setVal,
   DataAttribute (Some "setVal") &iedModel_GenericIO_T60S_FSCH2_ValSPG20 NULL NULL 0 (-1) IEC61850_FC_SG IEC61850_BOOLEAN
     (0 + TRG_OPT_DATA_CHANGED) NULL 0);
  (iedModel_GenericIO_T60S_FSCH2_ValSPG21,
   DataObject "ValSPG21" &iedModel_GenericIO_T60S_FSCH2 &iedModel_GenericIO_T60S_FSCH2_ValSPG22 &iedModel_GenericIO_T60S_FSCH2_ValSPG21_setVal 0 (-1));
  (iedModel_GenericIO_T60S_FSCH2_ValSPG21_setVal,
   DataAttribute (Some "setVal") &iedModel_GenericIO_T60S_FSCH2_ValSPG21 NULL NULL 0 (-1) IEC61850_FC_SG IEC61850_BOOLEAN
     (0 + TRG_OPT_DATA_CHANGED) NULL 0);
  (iedModel_GenericIO_T60S_FSCH2_ValSPG22,
   DataObject "ValSPG22" &iedModel_GenericIO_T60S_FSCH2 &iedModel_GenericIO_T60S_FSCH2_ValSPG23 &iedModel_GenericIO_T60S_FSCH2_ValSPG22_setVal 0 (-1));
  (iedModel_GenericIO_T60S_FSCH2_ValSPG22_setVal,
   DataAttribute (Some "setVal") &iedModel_GenericIO_T60S_FSCH2_ValSPG22 NULL NULL 0 (-1) IEC61850_FC_SG IEC61850_BOOLEAN
     (0 + TRG_OPT_DATA_CHANGED) NULL 0);
  (iedModel_GenericIO_T60S_FSCH2_ValSPG23,
   DataObject "ValSPG23" &iedModel_GenericIO_T60S_FSCH2 &iedModel_GenericIO_T60S_FSCH2_ValSPG24 &iedModel_GenericIO_T60S_FSCH2_ValSPG23_setVal 0 (-1));
  (iedModel_GenericIO_T60S_FSCH2_ValSPG23_setVal,
   DataAttribute (Some "setVal") &iedModel_GenericIO_T60S_FSCH2_ValSPG23 NULL NULL 0 (-1) IEC61850_FC_SG IEC61850_BOOLEAN
     (0 + TRG_OPT_DATA_CHANGED) NULL 0);
  (iedModel_GenericIO_T60S_FSCH2_ValSPG24,
   DataObject "ValSPG24" &iedModel_GenericIO_T60S_FSCH2 &iedModel_GenericIO_T60S_FSCH2_ValSPG25 &iedModel_GenericIO_T60S_FSCH2_ValSPG24_setVal 0 (-1));
  (iedModel_GenericIO_T60S_FSCH2_ValSPG24_setVal,
   DataAttribute (Some "setVal") &iedModel_GenericIO_T60S_FSCH2_ValSPG24 NULL NULL 0 (-1) IEC61850_FC_SG IEC61850_BOOLEAN
     (0 + TRG_OPT_DATA_CHANGED) NULL 0);
  (iedModel_GenericIO_T60S_FSCH2_ValSPG25,
   DataObject "ValSPG25" &iedModel_GenericIO_T60S_FSCH2 &iedModel_GenericIO_T60S_FSCH2_ValSPG26 &iedModel_GenericIO_T60S_FSCH2_ValSPG25_setVal 0 (-1));
  (iedModel_GenericIO_T60S_FSCH2_ValSPG25_setVal,
   DataAttribute (Some "setVal") &iedModel_GenericIO_T60S_FSCH2_ValSPG25 NULL NULL 0 (-1) IEC61850_FC_SG IEC61850_BOOLEAN
     (0 + TRG_OPT_DATA_CHANGED) NULL 0)
].

Definition demo_GenericIO_T60S_FSCH2_nodes15 : list (addr * ModelNode) := [
  (iedModel_GenericIO_T60S_FSCH2_ValSPG26,
   DataObject "ValSPG26" &iedModel_GenericIO_T60S_FSCH2 &iedModel_GenericIO_T60S_FSCH2_ValSPG27 &iedModel_GenericIO_T60S_FSCH2_ValSPG26_setVal 0 (-1));
  (iedModel_GenericIO_T60S_FSCH2_ValSPG26_setVal,
   DataAttribute (Some "setVal") &iedModel_GenericIO_T60S_FSCH2_ValSPG26 NULL NULL 0 (-1) IEC61850_FC_SG IEC61850_BOOLEAN
     (0 + TRG_OPT_DATA_CHANGED) NULL 0);
  (iedModel_GenericIO_T60S_FSCH2_ValSPG27,
   DataObject "ValSPG27" &iedModel_GenericIO_T60S_FSCH2 &iedModel_GenericIO_T60S_FSCH2_ValSPG28 &iedModel_GenericIO_T60S_FSCH2_ValSPG27_setVal 0 (-1));
  (iedModel_GenericIO_T60S_FSCH2_ValSPG27_setVal,
   DataAttribute (Some "setVal") &iedModel_GenericIO_T60S_FSCH2_ValSPG27 NULL NULL 0 (-1) IEC61850_FC_SG IEC61850_BOOLEAN
     (0 + TRG_OPT_DATA_CHANGED) NULL 0);
  (iedModel_GenericIO_T60S_FSCH2_ValSPG28,
   DataObject "ValSPG28" &iedModel_GenericIO_T60S_FSCH2 &iedModel_GenericIO_T60S_FSCH2_ValSPG29 &iedModel_GenericIO_T60S_FSCH2_ValSPG28_setVal 0 (-1));
  (iedModel_GenericIO_T60S_FSCH2_ValSPG28_setVal,
   DataAttribute (Some "setVal") &iedModel_GenericIO_T60S_FSCH2_ValSPG28 NULL NULL 0 (-1) IEC61850_FC_SG IEC61850_BOOLEAN
     (0 + TRG_OPT_DATA_CHANGED) NULL 0);
  (iedModel_GenericIO_T60S_FSCH2_ValSPG29,
   DataObject "ValSPG29" &iedModel_GenericIO_T60S_FSCH2 &iedModel_GenericIO_T60S_FSCH2_ValSPG30 &iedModel_GenericIO_T60S_FSCH2_ValSPG29_setVal 0 (-1));
  (iedModel_GenericIO_T60S_FSCH2_ValSPG29_setVal,
   DataAttribute (Some "setVal") &iedModel_GenericIO_T60S_FSCH2_ValSPG29 NULL NULL 0 (-1) IEC61850_FC_SG IEC61850_BOOLEAN
     (0 + TRG_OPT_DATA_CHANGED) NULL 0);
  (iedModel_GenericIO_T60S_FSCH2_ValSPG30,
   DataObject "ValSPG30" &iedModel_GenericIO_T60S_FSCH2 &iedModel_GenericIO_T60S_FSCH2_ValSPG31 &iedModel_GenericIO_T60S_FSCH2_ValSPG30_setVal 0 (-1));
  (iedModel_GenericIO_T60S_FSCH2_ValSPG30_setVal,
   DataAttribute (Some "setVal") &iedModel_GenericIO_T60S_FSCH2_ValSPG30 NULL NULL 0 (-1) IEC61850_FC_SG IEC61850_BOOLEAN
     (0 + TRG_OPT_DATA_CHANGED) NULL 0);
  (iedModel_GenericIO_T60S_FSCH2_ValSPG31,
   DataObject "ValSPG31" &iedModel_GenericIO_T60S_FSCH2 &iedModel_GenericIO_T60S_FSCH2_ValSPG32 &iedModel_GenericIO_T60S_FSCH2_ValSPG31_setVal 0 (-1));
  (iedModel_GenericIO_T60S_FSCH2_ValSPG31_setVal,
   DataAttribute (Some "setVal") &iedModel_GenericIO_T60S_FSCH2_ValSPG31 NULL NULL 0 (-1) IEC61850_FC_SG IEC61850_BOOLEAN
     (0 + TRG_OPT_DATA_CHANGED) NULL 0)
].

Definition demo_GenericIO_T60S_FSCH2_nodes16 : list (addr * ModelNode) := [
  (iedModel_GenericIO_T60S_FSCH2_ValSPG32,
   DataObject "ValSPG32" &iedModel_GenericIO_T60S_FSCH2 &iedModel_GenericIO_T60S_FSCH2_ValSPG33 &iedModel_GenericIO_T60S_FSCH2_ValSPG32_setVal 0 (-1));
  (iedModel_GenericIO_T60S_FSCH2_ValSPG32_setVal,
   DataAttribute (Some "setVal") &iedModel_GenericIO_T60S_FSCH2_ValSPG32 NULL NULL 0 (-1) IEC61850_FC_SG IEC61850_BOOLEAN
     (0 + TRG_OPT_DATA_CHANGED) NULL 0);
  (iedModel_GenericIO_T60S_FSCH2_ValSPG33,
   DataObject "ValSPG33" &iedModel_GenericIO_T60S_FSCH2 &iedModel_GenericIO_T60S_FSCH2_ValSPG34 &iedModel_GenericIO_T60S_FSCH2_ValSPG33_setVal 0 (-1));
  (iedModel_GenericIO_T60S_FSCH2_ValSPG33_setVal,
   DataAttribute (Some "setVal") &iedModel_GenericIO_T60S_FSCH2_ValSPG33 NULL NULL 0 (-1) IEC61850_FC_SG IEC61850_BOOLEAN
     (0 + TRG_OPT_DATA_CHANGED) NULL 0);
  (iedModel_GenericIO_T60S_FSCH2_ValSPG34,
   DataObject "ValSPG34" &iedModel_GenericIO_T60S_FSCH2 &iedModel_GenericIO_T60S_FSCH2_ValSPG35 &iedModel_GenericIO_T60S_FSCH2_ValSPG34_setVal 0 (-1));
  (iedModel_GenericIO_T60S_FSCH2_ValSPG34_setVal,
   DataAttribute (Some "setVal") &iedModel_GenericIO_T60S_FSCH2_ValSPG34 NULL NULL 0 (-1) IEC61850_FC_SG IEC61850_BOOLEAN
     (0 + TRG_OPT_DATA_CHANGED) NULL 0);
  (iedModel_GenericIO_T60S_FSCH2_ValSPG35,
   DataObject "ValSPG35" &iedModel_GenericIO_T60S_FSCH2 &iedModel_GenericIO_T60S_FSCH2_ValSPG36 &iedModel_GenericIO_T60S_FSCH2_ValSPG35_setVal 0 (-1));
  (iedModel_GenericIO_T60S_FSCH2_ValSPG35_setVal,
   DataAttribute (Some "setVal") &iedModel_GenericIO_T60S_FSCH2_ValSPG35 NULL NULL 0 (-1) IEC61850_FC_SG IEC61850_BOOLEAN
     (0 + TRG_OPT_DATA_CHANGED) NULL 0);
  (iedModel_GenericIO_T60S_FSCH2_ValSPG36,
   DataObject "ValSPG36" &iedModel_GenericIO_T60S_FSCH2 &iedModel_GenericIO_T60S_FSCH2_ValSPG37 &iedModel_GenericIO_T60S_FSCH2_ValSPG36_setVal 0 (-1));
  (iedModel_GenericIO_T60S_FSCH2_ValSPG36_setVal,
   DataAttribute (Some "setVal") &iedModel_GenericIO_T60S_FSCH2_ValSPG36 NULL NULL 0 (-1) IEC61850_FC_SG IEC61850_BOOLEAN
     (0 + TRG_OPT_DATA_CHANGED) NULL 0);
  (iedModel_GenericIO_T60S_FSCH2_ValSPG37,
   DataObject "ValSPG37" &iedModel_GenericIO_T60S_FSCH2 &iedModel_GenericIO_T60S_FSCH2_ValSPG38 &iedModel_GenericIO_T60S_FSCH2_ValSPG37_setVal 0 (-1));
  (iedModel_GenericIO_T60S_FSCH2_ValSPG37_setVal,
   DataAttribute (Some "setVal") &iedModel_GenericIO_T60S_FSCH2_ValSPG37 NULL NULL 0 (-1) IEC61850_FC_SG IEC61850_BOOLEAN
     (0 + TRG_OPT_DATA_CHANGED) NULL 0)
].

Definition demo_GenericIO_T60S_FSCH2_nodes17 : list (addr * ModelNode) := [
  (iedModel_GenericIO_T60S_FSCH2_ValSPG38,
   DataObject "ValSPG38" &iedModel_GenericIO_T60S_FSCH2 &iedModel_GenericIO_T60S_FSCH2_ValSPG39 &iedModel_GenericIO_T60S_FSCH2_ValSPG38_setVal 0 (-1));
  (iedModel_GenericIO_T60S_FSCH2_ValSPG38_setVal,
   DataAttribute (Some "setVal") &iedModel_GenericIO_T60S_FSCH2_ValSPG38 NULL NULL 0 (-1) IEC61850_FC_SG IEC61850_BOOLEAN
     (0 + TRG_OPT_DATA_CHANGED) NULL 0);
  (iedModel_GenericIO_T60S_FSCH2_ValSPG39,
   DataObject "ValSPG39" &iedModel_GenericIO_T60S_FSCH2 &iedModel_GenericIO_T60S_FSCH2_ValSPG40 &iedModel_GenericIO_T60S_FSCH2_ValSPG39_setVal 0 (-1));
  (iedModel_GenericIO_T60S_FSCH2_ValSPG39_setVal,
   DataAttribute (Some "setVal") &iedModel_GenericIO_T60S_FSCH2_ValSPG39 NULL NULL 0 (-1) IEC61850_FC_SG IEC61850_BOOLEAN
     (0 + TRG_OPT_DATA_CHANGED) NULL 0);
  (iedModel_GenericIO_T60S_FSCH2_ValSPG40,
   DataObject "ValSPG40" &iedModel_GenericIO_T60S_FSCH2 &iedModel_GenericIO_T60S_FSCH2_ValSPG41 &iedModel_GenericIO_T60S_FSCH2_ValSPG40_setVal 0 (-1));
  (iedModel_GenericIO_T60S_FSCH2_ValSPG40_setVal,
   DataAttribute (Some "setVal") &iedModel_GenericIO_T60S_FSCH2_ValSPG40 NULL NULL 0 (-1) IEC61850_FC_SG IEC61850_BOOLEAN
     (0 + TRG_OPT_DATA_CHANGED) NULL 0);
  (iedModel_GenericIO_T60S_FSCH2_ValSPG41,
   DataObject "ValSPG41" &iedModel_GenericIO_T60S_FSCH2 &iedModel_GenericIO_T60S_FSCH2_ValSPG42 &iedModel_GenericIO_T60S_FSCH2_ValSPG41_setVal 0 (-1));
  (iedModel_GenericIO_T60S_FSCH2_ValSPG41_setVal,
   DataAttribute (Some "setVal") &iedModel_GenericIO_T60S_FSCH2_ValSPG41 NULL NULL 0 (-1) IEC61850_FC_SG IEC61850_BOOLEAN
     (0 + TRG_OPT_DATA_CHANGED) NULL 0);
  (iedModel_GenericIO_T60S_FSCH2_ValSPG42,
   DataObject "ValSPG42" &iedModel_GenericIO_T60S_FSCH2 &iedModel_GenericIO_T60S_FSCH2_ValSPG43 &iedModel_GenericIO_T60S_FSCH2_ValSPG42_setVal 0 (-1));
  (iedModel_GenericIO_T60S_FSCH2_ValSPG42_setVal,
   DataAttribute (Some "setVal") &iedModel_GenericIO_T60S_FSCH2_ValSPG42 NULL NULL 0 (-1) IEC61850_FC_SG IEC61850_BOOLEAN
     (0 + TRG_OPT_DATA_CHANGED) NULL 0);
  (iedModel_GenericIO_T60S_FSCH2_ValSPG43,
   DataObject "ValSPG43" &iedModel_GenericIO_T60S_FSCH2 &iedModel_GenericIO_T60S_FSCH2_ValSPG44 &iedModel_GenericIO_T60S_FSCH2_ValSPG43_setVal 0 (-1));
  (iedModel_GenericIO_T60S_FSCH2_ValSPG43_setVal,
   DataAttribute (Some "setVal") &iedModel_GenericIO_T60S_FSCH2_ValSPG43 NULL NULL 0 (-1) IEC61850_FC_SG IEC61850_BOOLEAN
     (0 + TRG_OPT_DATA_CHANGED) NULL 0)
].

Definition demo_GenericIO_T60S_FSCH2_nodes18 : list (addr * ModelNode) := [
  (iedModel_GenericIO_T60S_FSCH2_ValSPG44,
   DataObject "ValSPG44" &iedModel_GenericIO_T60S_FSCH2 &iedModel_GenericIO_T60S_FSCH2_ValSPG45 &iedModel_GenericIO_T60S_FSCH2_ValSPG44_setVal 0 (-1));
  (iedModel_GenericIO_T60S_FSCH2_ValSPG44_setVal,
   DataAttribute (Some "setVal") &iedModel_GenericIO_T60S_FSCH2_ValSPG44 NULL NULL 0 (-1) IEC61850_FC_SG IEC61850_BOOLEAN
     (0 + TRG_OPT_DATA_CHANGED) NULL 0);
  (iedModel_GenericIO_T60S_FSCH2_ValSPG45,
   DataObject "ValSPG45" &iedModel_GenericIO_T60S_FSCH2 &iedModel_GenericIO_T60S_FSCH2_ValSPG46 &iedModel_GenericIO_T60S_FSCH2_ValSPG45_setVal 0 (-1));
  (iedModel_GenericIO_T60S_FSCH2_ValSPG45_setVal,
   DataAttribute (Some "setVal") &iedModel_GenericIO_T60S_FSCH2_ValSPG45 NULL NULL 0 (-1) IEC61850_FC_SG IEC61850_BOOLEAN
     (0 + TRG_OPT_DATA_CHANGED) NULL 0);
  (iedModel_GenericIO_T60S_FSCH2_ValSPG46,
   DataObject "ValSPG46" &iedModel_GenericIO_T60S_FSCH2 &iedModel_GenericIO_T60S_FSCH2_ValSPG47 &iedModel_GenericIO_T60S_FSCH2_ValSPG46_setVal 0 (-1));
  (iedModel_GenericIO_T60S_FSCH2_ValSPG46_setVal,
   DataAttribute (Some "setVal") &iedModel_GenericIO_T60S_FSCH2_ValSPG46 NULL NULL 0 (-1) IEC61850_FC_SG IEC61850_BOOLEAN
     (0 + TRG_OPT_DATA_CHANGED) NULL 0);
  (iedModel_GenericIO_T60S_FSCH2_ValSPG47,
   DataObject "ValSPG47" &iedModel_GenericIO_T60S_FSCH2 &iedModel_GenericIO_T60S_FSCH2_ValSPG48 &iedModel_GenericIO_T60S_FSCH2_ValSPG47_setVal 0 (-1));
  (iedModel_GenericIO_T60S_FSCH2_ValSPG47_setVal,
   DataAttribute (Some "setVal") &iedModel_GenericIO_T60S_FSCH2_ValSPG47 NULL NULL 0 (-1) IEC61850_FC_SG IEC61850_BOOLEAN
     (0 + TRG_OPT_DATA_CHANGED) NULL 0);
  (iedModel_GenericIO_T60S_FSCH2_ValSPG48,
   DataObject "ValSPG48" &iedModel_GenericIO_T60S_FSCH2 &iedModel_GenericIO_T60S_FSCH2_ValSPG49 &iedModel_GenericIO_T60S_FSCH2_ValSPG48_setVal 0 (-1));
  (iedModel_GenericIO_T60S_FSCH2_ValSPG48_setVal,
   DataAttribute (Some "setVal") &iedModel_GenericIO_T60S_FSCH2_ValSPG48 NULL NULL 0 (-1) IEC61850_FC_SG IEC61850_BOOLEAN
     (0 + TRG_OPT_DATA_CHANGED) NULL 0);
  (iedModel_GenericIO_T60S_FSCH2_ValSPG49,
   DataObject "ValSPG49" &iedModel_GenericIO_T60S_FSCH2 &iedModel_GenericIO_T60S_FSCH2_ValSPG50 &iedModel_GenericIO_T60S_FSCH2_ValSPG49_setVal 0 (-1));
  (iedModel_GenericIO_T60S_FSCH2_ValSPG49_setVal,
   DataAttribute (Some "setVal") &iedModel_GenericIO_T60S_FSCH2_ValSPG49 NULL NULL 0 (-1) IEC61850_FC_SG IEC61850_BOOLEAN
     (0 + TRG_OPT_DATA_CHANGED) NULL 0)
].

Definition demo_GenericIO_T60S_FSCH2_nodes19 : list (addr * ModelNode) := [
  (iedModel_GenericIO_T60S_FSCH2_ValSPG50,
   DataObject "ValSPG50" &iedModel_GenericIO_T60S_FSCH2 &iedModel_GenericIO_T60S_FSCH2_ValSPG51 &iedModel_GenericIO_T60S_FSCH2_ValSPG50_setVal 0 (-1));
  (iedModel_GenericIO_T60S_FSCH2_ValSPG50_setVal,
   DataAttribute (Some "setVal") &iedModel_GenericIO_T60S_FSCH2_ValSPG50 NULL NULL 0 (-1) IEC61850_FC_SG IEC61850_BOOLEAN
     (0 + TRG_OPT_DATA_CHANGED) NULL 0);
  (iedModel_GenericIO_T60S_FSCH2_ValSPG51,
   DataObject "ValSPG51" &iedModel_GenericIO_T60S_FSCH2 &iedModel_GenericIO_T60S_FSCH2_ValSPG52 &iedModel_GenericIO_T60S_FSCH2_ValSPG51_setVal 0 (-1));
  (iedModel_GenericIO_T60S_FSCH2_ValSPG51_setVal,
   DataAttribute (Some "setVal") &iedModel_GenericIO_T60S_FSCH2_ValSPG51 NULL NULL 0 (-1) IEC61850_FC_SG IEC61850_BOOLEAN
     (0 + TRG_OPT_DATA_CHANGED) NULL 0);
  (iedModel_GenericIO_T60S_FSCH2_ValSPG52,
   DataObject "ValSPG52" &iedModel_GenericIO_T60S_FSCH2 &iedModel_GenericIO_T60S_FSCH2_ValSPG53 &iedModel_GenericIO_T60S_FSCH2_ValSPG52_setVal 0 (-1));
  (iedModel_GenericIO_T60S_FSCH2_ValSPG52_setVal,
   DataAttribute (Some "setVal") &iedModel_GenericIO_T60S_FSCH2_ValSPG52 NULL NULL 0 (-1) IEC61850_FC_SG IEC61850_BOOLEAN
     (0 + TRG_OPT_DATA_CHANGED) NULL 0);
  (iedModel_GenericIO_T60S_FSCH2_ValSPG53,
   DataObject "ValSPG53" &iedModel_GenericIO_T60S_FSCH2 &iedModel_GenericIO_T60S_FSCH2_ValSPG54 &iedModel_GenericIO_T60S_FSCH2_ValSPG53_setVal 0 (-1));
  (iedModel_GenericIO_T60S_FSCH2_ValSPG53_setVal,
   DataAttribute (Some "setVal") &iedModel_GenericIO_T60S_FSCH2_ValSPG53 NULL NULL 0 (-1) IEC61850_FC_SG IEC61850_BOOLEAN
     (0 + TRG_OPT_DATA_CHANGED) NULL 0);
  (iedModel_GenericIO_T60S_FSCH2_ValSPG54,
   DataObject "ValSPG54" &iedModel_GenericIO_T60S_FSCH2 &iedModel_GenericIO_T60S_FSCH2_ValSPG55 &iedModel_GenericIO_T60S_FSCH2_ValSPG54_setVal 0 (-1));
  (iedModel_GenericIO_T60S_FSCH2_ValSPG54_setVal,
   DataAttribute (Some "setVal") &iedModel_GenericIO_T60S_FSCH2_ValSPG54 NULL NULL 0 (-1) IEC61850_FC_SG IEC61850_BOOLEAN
     (0 + TRG_OPT_DATA_CHANGED) NULL 0);
  (iedModel_GenericIO_T60S_FSCH2_ValSPG55,
   DataObject "ValSPG55" &iedModel_GenericIO_T60S_FSCH2 &iedModel_GenericIO_T60S_FSCH2_ValSPG56 &iedModel_GenericIO_T60S_FSCH2_ValSPG55_setVal 0 (-1));
  (iedModel_GenericIO_T60S_FSCH2_ValSPG55_setVal,
   DataAttribute (Some "setVal") &iedModel_GenericIO_T60S_FSCH2_ValSPG55 NULL NULL 0 (-1) IEC61850_FC_SG IEC61850_BOOLEAN
     (0 + TRG_OPT_DATA_CHANGED) NULL 0)
].

Definition demo_GenericIO_T60S_FSCH2_nodes20 : list (addr * ModelNode) := [
  (iedModel_GenericIO_T60S_FSCH2_ValSPG56,
   DataObject "ValSPG56" &iedModel_GenericIO_T60S_FSCH2 &iedModel_GenericIO_T60S_FSCH2_ValSPG57 &iedModel_GenericIO_T60S_FSCH2_ValSPG56_setVal 0 (-1));
  (iedModel_GenericIO_T60S_FSCH2_ValSPG56_setVal,
   DataAttribute (Some "setVal") &iedModel_GenericIO_T60S_FSCH2_ValSPG56 NULL NULL 0 (-1) IEC61850_FC_SG IEC61850_BOOLEAN
     (0 + TRG_OPT_DATA_CHANGED) NULL 0);
  (iedModel_GenericIO_T60S_FSCH2_ValSPG57,
   DataObject "ValSPG57" &iedModel_GenericIO_T60S_FSCH2 &iedModel_GenericIO_T60S_FSCH2_ValSPG58 &iedModel_GenericIO_T60S_FSCH2_ValSPG57_setVal 0 (-1));
  (iedModel_GenericIO_T60S_FSCH2_ValSPG57_setVal,
   DataAttribute (Some "setVal") &iedModel_GenericIO_T60S_FSCH2_ValSPG57 NULL NULL 0 (-1) IEC61850_FC_SG IEC61850_BOOLEAN
     (0 + TRG_OPT_DATA_CHANGED) NULL 0);
  (iedModel_GenericIO_T60S_FSCH2_ValSPG58,
   DataObject "ValSPG58" &iedModel_GenericIO_T60S_FSCH2 &iedModel_GenericIO_T60S_FSCH2_ValSPG59 &iedModel_GenericIO_T60S_FSCH2_ValSPG58_setVal 0 (-1));
  (iedModel_GenericIO_T60S_FSCH2_ValSPG58_setVal,
   DataAttribute (Some "setVal") &iedModel_GenericIO_T60S_FSCH2_ValSPG58 NULL NULL 0 (-1) IEC61850_FC_SG IEC61850_BOOLEAN
     (0 + TRG_OPT_DATA_CHANGED) NULL 0);
  (iedModel_GenericIO_T60S_FSCH2_ValSPG59,
   DataObject "ValSPG59" &iedModel_GenericIO_T60S_FSCH2 &iedModel_GenericIO_T60S_FSCH2_ValSPG60 &iedModel_GenericIO_T60S_FSCH2_ValSPG59_setVal 0 (-1));
  (iedModel_GenericIO_T60S_FSCH2_ValSPG59_setVal,
   DataAttribute (Some "setVal") &iedModel_GenericIO_T60S_FSCH2_ValSPG59 NULL NULL 0 (-1) IEC61850_FC_SG IEC61850_BOOLEAN
     (0 + TRG_OPT_DATA_CHANGED) NULL 0);
  (iedModel_GenericIO_T60S_FSCH2_ValSPG60,
   DataObject "ValSPG60" &iedModel_GenericIO_T60S_FSCH2 &iedModel_GenericIO_T60S_FSCH2_StrTm &iedModel_GenericIO_T60S_FSCH2_ValSPG60_setVal 0 (-1));
  (iedModel_GenericIO_T60S_FSCH2_ValSPG60_setVal,
   DataAttribute (Some "setVal") &iedModel_GenericIO_T60S_FSCH2_ValSPG60 NULL NULL 0 (-1) IEC61850_FC_SG IEC61850_BOOLEAN
     (0 + TRG_OPT_DATA_CHANGED) NULL 0)
].

Definition demo_GenericIO_T60S_FSCH2_nodes21 : list (addr * ModelNode) := [
  (iedModel_GenericIO_T60S_FSCH2_StrTm,
   DataObject "StrTm" &iedModel_GenericIO_T60S_FSCH2 &iedModel_GenericIO_T60S_FSCH2_IntvPer &iedModel_GenericIO_T60S_FSCH2_StrTm_setTm 0 (-1));
  (iedModel_GenericIO_T60S_FSCH2_StrTm_setTm,
   DataAttribute (Some "setTm") &iedModel_GenericIO_T60S_FSCH2_StrTm &iedModel_GenericIO_T60S_FSCH2_StrTm_setCal NULL 0 (-1) IEC61850_FC_SP IEC61850_TIMESTAMP
     (0 + TRG_OPT_DATA_CHANGED) NULL 0);
  (iedModel_GenericIO_T60S_FSCH2_StrTm_setCal,
   DataAttribute (Some "setCal") &iedModel_GenericIO_T60S_FSCH2_StrTm NULL &iedModel_GenericIO_T60S_FSCH2_StrTm_setCal_occ 0 (-1) IEC61850_FC_SP IEC61850_CONSTRUCTED
     (0 + TRG_OPT_DATA_CHANGED) NULL 0);
  (iedModel_GenericIO_T60S_FSCH2_StrTm_setCal_occ,
   DataAttribute (Some "occ") &iedModel_GenericIO_T60S_FSCH2_StrTm_setCal &iedModel_GenericIO_T60S_FSCH2_StrTm_setCal_occType NULL 0 (-1) IEC61850_FC_SP IEC61850_INT16U
     (0 + TRG_OPT_DATA_CHANGED) NULL 0);
  (iedModel_GenericIO_T60S_FSCH2_StrTm_setCal_occType,
   DataAttribute (Some "occType") &iedModel_GenericIO_T60S_FSCH2_StrTm_setCal &iedModel_GenericIO_T60S_FSCH2_StrTm_setCal_occPer NULL 0 (-1) IEC61850_FC_SP IEC61850_ENUMERATED
     (0 + TRG_OPT_DATA_CHANGED) NULL 0);
  (iedModel_GenericIO_T60S_FSCH2_StrTm_setCal_occPer,
   DataAttribute (Some "occPer") &iedModel_GenericIO_T60S_FSCH2_StrTm_setCal &iedModel_GenericIO_T60S_FSCH2_StrTm_setCal_weekDay NULL 0 (-1) IEC61850_FC_SP IEC61850_ENUMERATED
     (0 + TRG_OPT_DATA_CHANGED) NULL 0);
  (iedModel_GenericIO_T60S_FSCH2_StrTm_setCal_weekDay,
   DataAttribute (Some "weekDay") &iedModel_GenericIO_T60S_FSCH2_StrTm_setCal &iedModel_GenericIO_T60S_FSCH2_StrTm_setCal_month NULL 0 (-1) IEC61850_FC_SP IEC61850_ENUMERATED
     (0 + TRG_OPT_DATA_CHANGED) NULL 0);
  (iedModel_GenericIO_T60S_FSCH2_StrTm_setCal_month,
   DataAttribute (Some "month") &iedModel_GenericIO_T60S_FSCH2_StrTm_setCal &iedModel_GenericIO_T60S_FSCH2_StrTm_setCal_day NULL 0 (-1) IEC61850_FC_SP IEC61850_ENUMERATED
     (0 + TRG_OPT_DATA_CHANGED) NULL 0);
  (iedModel_GenericIO_T60S_FSCH2_StrTm_setCal_day,
   DataAttribute (Some "day") &iedModel_GenericIO_T60S_FSCH2_StrTm_setCal &iedModel_GenericIO_T60S_FSCH2_StrTm_setCal_hr NULL 0 (-1) IEC61850_FC_SP IEC61850_INT8U
     (0 + TRG_OPT_DATA_CHANGED) NULL 0);
  (iedModel_GenericIO_T60S_FSCH2_StrTm_setCal_hr,
   DataAttribute (Some "hr") &iedModel_GenericIO_T60S_FSCH2_StrTm_setCal &iedModel_GenericIO_T60S_FSCH2_StrTm_setCal_mn NULL 0 (-1) IEC61850_FC_SP IEC61850_INT8U
     (0 + TRG_OPT_DATA_CHANGED) NULL 0);
  (iedModel_GenericIO_T60S_FSCH2_StrTm_setCal_mn,
   DataAttribute (Some "mn") &iedModel_GenericIO_T60S_FSCH2_StrTm_setCal NULL NULL 0 (-1) IEC61850_FC_SP IEC61850_INT8U
     (0 + TRG_OPT_DATA_CHANGED) NULL 0)
].

Definition demo_GenericIO_T60S_FSCH2_nodes22 : list (addr * ModelNode) := [
  (iedModel_GenericIO_T60S_FSCH2_IntvPer,
   DataObject "IntvPer" &iedModel_GenericIO_T60S_FSCH2 &iedModel_GenericIO_T60S_FSCH2_IntvTyp &iedModel_GenericIO_T60S_FSCH2_IntvPer_setVal 0 (-1));
  (iedModel_GenericIO_T60S_FSCH2_IntvPer_setVal,
   DataAttribute (Some "setVal") &iedModel_GenericIO_T60S_FSCH2_IntvPer NULL NULL 0 (-1) IEC61850_FC_SP IEC61850_INT32
     (0 + TRG_OPT_DATA_CHANGED) NULL 0);
  (iedModel_GenericIO_T60S_FSCH2_IntvTyp,
   DataObject "IntvTyp" &iedModel_GenericIO_T60S_FSCH2 &iedModel_GenericIO_T60S_FSCH2_SchdReuse &iedModel_GenericIO_T60S_FSCH2_IntvTyp_setVal 0 (-1));
  (iedModel_GenericIO_T60S_FSCH2_IntvTyp_setVal,
   DataAttribute (Some "setVal") &iedModel_GenericIO_T60S_FSCH2_IntvTyp NULL NULL 0 (-1) IEC61850_FC_SP IEC61850_ENUMERATED
     (0 + TRG_OPT_DATA_CHANGED) NULL 0);
  (iedModel_GenericIO_T60S_FSCH2_SchdReuse,
   DataObject "SchdReuse" &iedModel_GenericIO_T60S_FSCH2 NULL &iedModel_GenericIO_T60S_FSCH2_SchdReuse_setVal 0 (-1));
  (iedModel_GenericIO_T60S_FSCH2_SchdReuse_setVal,
   DataAttribute (Some "setVal") &iedModel_GenericIO_T60S_FSCH2_SchdReuse NULL NULL 0 (-1) IEC61850_FC_SG IEC61850_BOOLEAN
     (0 + TRG_OPT_DATA_CHANGED) NULL 0)
].

Definition demo_GenericIO_GGIO_FSCC1_nodes1 : list (addr * ModelNode) := [
  (iedModel_GenericIO_GGIO_FSCC1,
   LogicalNode "GGIO_FSCC1" &iedModel_GenericIO NULL &iedModel_GenericIO_GGIO_FSCC1_Beh);
  (iedModel_GenericIO_GGIO_FSCC1_Beh,
   DataObject "Beh" &iedModel_GenericIO_GGIO_FSCC1 &iedModel_GenericIO_GGIO_FSCC1_ActSchdRef &iedModel_GenericIO_GGIO_FSCC1_Beh_stVal 0 (-1));
  (iedModel_GenericIO_GGIO_FSCC1_Beh_stVal,
   DataAttribute (Some "stVal") &iedModel_GenericIO_GGIO_FSCC1_Beh &iedModel_GenericIO_GGIO_FSCC1_Beh_q NULL 0 (-1) IEC61850_FC_ST IEC61850_ENUMERATED
     (0 + TRG_OPT_DATA_CHANGED) NULL 0);
  (iedModel_GenericIO_GGIO_FSCC1_Beh_q,
   DataAttribute (Some "q") &iedModel_GenericIO_GGIO_FSCC1_Beh &iedModel_GenericIO_GGIO_FSCC1_Beh_t NULL 0 (-1) IEC61850_FC_ST IEC61850_QUALITY
     (0 + TRG_OPT_QUALITY_CHANGED) NULL 0);
  (iedModel_GenericIO_GGIO_FSCC1_Beh_t,
   DataAttribute (Some "t") &iedModel_GenericIO_GGIO_FSCC1_Beh NULL NULL 0 (-1) IEC61850_FC_ST IEC61850_TIMESTAMP
     0 NULL 0);
  (iedModel_GenericIO_GGIO_FSCC1_ActSchdRef,
   DataObject "ActSchdRef" &iedModel_GenericIO_GGIO_FSCC1 &iedModel_GenericIO_GGIO_FSCC1_CtlEnt &iedModel_GenericIO_GGIO_FSCC1_ActSchdRef_stVal 0 (-1));
  (iedModel_GenericIO_GGIO_FSCC1_ActSchdRef_stVal,
   DataAttribute (Some "stVal") &iedModel_GenericIO_GGIO_FSCC1_ActSchdRef &iedModel_GenericIO_GGIO_FSCC1_ActSchdRef_q NULL 0 (-1) IEC61850_FC_ST IEC61850_VISIBLE_STRING_129
     (0 + TRG_OPT_DATA_CHANGED) NULL 0);
  (iedModel_GenericIO_GGIO_FSCC1_ActSchdRef_q,
   DataAttribute (Some "q") &iedModel_GenericIO_GGIO_FSCC1_ActSchdRef &iedModel_GenericIO_GGIO_FSCC1_ActSchdRef_t NULL 0 (-1) IEC61850_FC_ST IEC61850_QUALITY
     (0 + TRG_OPT_QUALITY_CHANGED) NULL 0);
  (iedModel_GenericIO_GGIO_FSCC1_ActSchdRef_t,
   DataAttribute (Some "t") &iedModel_GenericIO_GGIO_FSCC1_ActSchdRef NULL NULL 0 (-1) IEC61850_FC_ST IEC61850_TIMESTAMP
     0 NULL 0);
  (iedModel_GenericIO_GGIO_FSCC1_CtlEnt,
   DataObject "CtlEnt" &iedModel_GenericIO_GGIO_FSCC1 &iedModel_GenericIO_GGIO_FSCC1_Schd1 &iedModel_GenericIO_GGIO_FSCC1_CtlEnt_setSrcRef 0 (-1));
  (iedModel_GenericIO_GGIO_FSCC1_CtlEnt_setSrcRef,
   DataAttribute (Some "setSrcRef") &iedModel_GenericIO_GGIO_FSCC1_CtlEnt NULL NULL 0 (-1) IEC61850_FC_SP IEC61850_VISIBLE_STRING_129
     (0 + TRG_OPT_DATA_CHANGED) NULL 0)
].

Definition demo_GenericIO_GGIO_FSCC1_nodes2 : list (addr * ModelNode) := [
  (iedModel_GenericIO_GGIO_FSCC1_Schd1,
   DataObject "Schd1" &iedModel_GenericIO_GGIO_FSCC1 &iedModel_GenericIO_GGIO_FSCC1_Schd2 &iedModel_GenericIO_GGIO_FSCC1_Schd1_setSrcRef 0 (-1));
  (iedModel_GenericIO_GGIO_FSCC1_Schd1_setSrcRef,
   DataAttribute (Some "setSrcRef") &iedModel_GenericIO_GGIO_FSCC1_Schd1 NULL NULL 0 (-1) IEC61850_FC_SP IEC61850_VISIBLE_STRING_129
     (0 + TRG_OPT_DATA_CHANGED) NULL 0);
  (iedModel_GenericIO_GGIO_FSCC1_Schd2,
   DataObject "Schd2" &iedModel_GenericIO_GGIO_FSCC1 NULL &iedModel_GenericIO_GGIO_FSCC1_Schd2_setSrcRef 0 (-1));
  (iedModel_GenericIO_GGIO_FSCC1_Schd2_setSrcRef,
   DataAttribute (Some "setSrcRef") &iedModel_GenericIO_GGIO_FSCC1_Schd2 NULL NULL 0 (-1) IEC61850_FC_SP IEC61850_VISIBLE_STRING_129
     (0 + TRG_OPT_DATA_CHANGED) NULL 0)
].

(** The memory of the static objects. *)
Definition demo_nodes : list (addr * ModelNode) :=
  demo_GenericIO_device ++
  demo_GenericIO_LLN0_nodes1 ++
  demo_GenericIO_LLN0_nodes2 ++
  demo_GenericIO_LPHD1_nodes1 ++
  demo_GenericIO_GGIO1_nodes1 ++
  demo_GenericIO_GGIO1_nodes2 ++
  demo_GenericIO_GGIO1_nodes3 ++
  demo_GenericIO_GGIO1_nodes4 ++
  demo_GenericIO_GGIO1_nodes5 ++
  demo_GenericIO_GGIO1_nodes6 ++
  demo_GenericIO_GGIO1_nodes7 ++
  demo_GenericIO_GGIO1_nodes8 ++
  demo_GenericIO_GGIO1_nodes9 ++
  demo_GenericIO_GGIO1_nodes10 ++
  demo_GenericIO_GGIO1_nodes11 ++
  demo_GenericIO_GGIO1_nodes12 ++
  demo_GenericIO_GGIO1_nodes13 ++
  demo_GenericIO_GGIO1_nodes14 ++
  demo_GenericIO_TIM_GAPC1_nodes1 ++
  demo_GenericIO_TIM_GAPC1_nodes2 ++
  demo_GenericIO_TIM_GAPC1_nodes3 ++
  demo_GenericIO_TIM_GAPC1_nodes4 ++
  demo_GenericIO_TIM_GAPC1_nodes5 ++
  demo_GenericIO_T60S_FSCH1_nodes1 ++
  demo_GenericIO_T60S_FSCH1_nodes2 ++
  demo_GenericIO_T60S_FSCH1_nodes3 ++
  demo_GenericIO_T60S_FSCH1_nodes4 ++
  demo_GenericIO_T60S_FSCH1_nodes5 ++
  demo_GenericIO_T60S_FSCH1_nodes6 ++
  demo_GenericIO_T60S_FSCH1_nodes7 ++
  demo_GenericIO_T60S_FSCH1_nodes8 ++
  demo_GenericIO_T60S_FSCH1_nodes9 ++
  demo_GenericIO_T60S_FSCH1_nodes10 ++
  demo_GenericIO_T60S_FSCH1_nodes11 ++
  demo_GenericIO_T60S_FSCH1_nodes12 ++
  demo_GenericIO_T60S_FSCH1_nodes13 ++
  demo_GenericIO_T60S_FSCH1_nodes14 ++
  demo_GenericIO_T60S_FSCH1_nodes15 ++
  demo_GenericIO_T60S_FSCH1_nodes16 ++
  demo_GenericIO_T60S_FSCH1_nodes17 ++
  demo_GenericIO_T60S_FSCH1_nodes18 ++
  demo_GenericIO_T60S_FSCH1_nodes19 ++
  demo_GenericIO_T60S_FSCH1_nodes20 ++
  demo_GenericIO_T60S_FSCH1_nodes21 ++
  demo_GenericIO_T60S_FSCH1_nodes22 ++
  demo_GenericIO_T60S_FSCH2_nodes1 ++
  demo_GenericIO_T60S_FSCH2_nodes2 ++
  demo_GenericIO_T60S_FSCH2_nodes3 ++
  demo_GenericIO_T60S_FSCH2_nodes4 ++
  demo_GenericIO_T60S_FSCH2_nodes5 ++
  demo_GenericIO_T60S_FSCH2_nodes6 ++
  demo_GenericIO_T60S_FSCH2_nodes7 ++
  demo_GenericIO_T60S_FSCH2_nodes8 ++
  demo_GenericIO_T60S_FSCH2_nodes9 ++
  demo_GenericIO_T60S_FSCH2_nodes10 ++
  demo_GenericIO_T60S_FSCH2_nodes11 ++
  demo_GenericIO_T60S_FSCH2_nodes12 ++
  demo_GenericIO_T60S_FSCH2_nodes13 ++
  demo_GenericIO_T60S_FSCH2_nodes14 ++
  demo_GenericIO_T60S_FSCH2_nodes15 ++
  demo_GenericIO_T60S_FSCH2_nodes16 ++
  demo_GenericIO_T60S_FSCH2_nodes17 ++
  demo_GenericIO_T60S_FSCH2_nodes18 ++
  demo_GenericIO_T60S_FSCH2_nodes19 ++
  demo_GenericIO_T60S_FSCH2_nodes20 ++
  demo_GenericIO_T60S_FSCH2_nodes21 ++
  demo_GenericIO_T60S_FSCH2_nodes22 ++
  demo_GenericIO_GGIO_FSCC1_nodes1 ++
  demo_GenericIO_GGIO_FSCC1_nodes2.

Definition demo_heap : heap := list_to_map demo_nodes.

(** ** The data set and the report control blocks *)

Definition demo_entries : list (addr * DataSetEntry) := [
  (iedModelds_GenericIO_LLN0_Events_fcda0, Build_DataSetEntry "GenericIO" false "GGIO1$ST$SPCSO1$stVal" (-1) NULL NULL &iedModelds_GenericIO_LLN0_Events_fcda1);
  (iedModelds_GenericIO_LLN0_Events_fcda1, Build_DataSetEntry "GenericIO" false "GGIO1$ST$SPCSO2$stVal" (-1) NULL NULL &iedModelds_GenericIO_LLN0_Events_fcda2);
  (iedModelds_GenericIO_LLN0_Events_fcda2, Build_DataSetEntry "GenericIO" false "GGIO1$ST$SPCSO3$stVal" (-1) NULL NULL &iedModelds_GenericIO_LLN0_Events_fcda3);
  (iedModelds_GenericIO_LLN0_Events_fcda3, Build_DataSetEntry "GenericIO" false "GGIO1$ST$DPCSO1$stVal" (-1) NULL NULL NULL)
].

Definition demo_dataSets : list (addr * DataSet) := [
  (iedModelds_GenericIO_LLN0_Events, Build_DataSet "GenericIO" "LLN0$Events" 4 &iedModelds_GenericIO_LLN0_Events_fcda0 NULL)
].

Definition demo_rcbs : list (addr * ReportControlBlock) := [
  (iedModel_GenericIO_LLN0_report0, Build_ReportControlBlock iedModel_GenericIO_LLN0 "EventsRCB01" "Events1" false "Events" 1 88 239 50 1000
     [0; 0; 0; 0; 0; 0; 0; 0; 0; 0; 0; 0; 0; 0; 0; 0; 0] &iedModel_GenericIO_LLN0_report1);
  (iedModel_GenericIO_LLN0_report1, Build_ReportControlBlock iedModel_GenericIO_LLN0 "EventsRCB02" "Events1" false "Events" 1 88 239 50 1000
     [0; 0; 0; 0; 0; 0; 0; 0; 0; 0; 0; 0; 0; 0; 0; 0; 0] &iedModel_GenericIO_LLN0_report2);
  (iedModel_GenericIO_LLN0_report2, Build_ReportControlBlock iedModel_GenericIO_LLN0 "EventsRCB03" "Events1" false "Events" 1 88 239 50 1000
     [0; 0; 0; 0; 0; 0; 0; 0; 0; 0; 0; 0; 0; 0; 0; 0; 0] &iedModel_GenericIO_LLN0_report3);
  (iedModel_GenericIO_LLN0_report3, Build_ReportControlBlock iedModel_GenericIO_LLN0 "EventsRCB04" "Events1" false "Events" 1 88 239 50 1000
     [0; 0; 0; 0; 0; 0; 0; 0; 0; 0; 0; 0; 0; 0; 0; 0; 0] &iedModel_GenericIO_LLN0_report4);
  (iedModel_GenericIO_LLN0_report4, Build_ReportControlBlock iedModel_GenericIO_LLN0 "EventsRCB05" "Events1" false "Events" 1 88 239 50 1000
     [0; 0; 0; 0; 0; 0; 0; 0; 0; 0; 0; 0; 0; 0; 0; 0; 0] NULL)
].

Definition iedModel_root : IedModel :=
  Build_IedModel "beagle" &iedModel_GenericIO &iedModelds_GenericIO_LLN0_Events &iedModel_GenericIO_LLN0_report0 NULL NULL NULL NULL NULL.

(** [initializeValues]: the assignments of default values, in order. *)
Definition initial_values : list (addr * MmsValue) := [
  (iedModel_GenericIO_LLN0_Mod_ctlModel, MmsValue_newIntegerFromInt32 0);
  (iedModel_GenericIO_GGIO1_Mod_ctlModel, MmsValue_newIntegerFromInt32 0);
  (iedModel_GenericIO_GGIO1_SPCSO1_ctlModel, MmsValue_newIntegerFromInt32 1);
  (iedModel_GenericIO_GGIO1_SPCSO2_ctlModel, MmsValue_newIntegerFromInt32 1);
  (iedModel_GenericIO_GGIO1_SPCSO3_ctlModel, MmsValue_newIntegerFromInt32 1);
  (iedModel_GenericIO_GGIO1_DPCSO1_ctlModel, MmsValue_newIntegerFromInt32 1);
  (iedModel_GenericIO_TIM_GAPC1_Mod_ctlModel, MmsValue_newIntegerFromInt32 0);
  (iedModel_GenericIO_TIM_GAPC1_OpDlTmms_dataNs, MmsValue_newVisibleString "EXT:2015");
  (iedModel_GenericIO_TIM_GAPC1_RsDlTmms_dataNs, MmsValue_newVisibleString "EXT:2015");
  (iedModel_GenericIO_TIM_GAPC1_OpCntRs_ctlModel, MmsValue_newIntegerFromInt32 1)
].

Definition initializeValues (h : heap) : heap :=
  foldl (λ h av, alter (set_mmsValue av.2) av.1 h) h initial_values.
