(* ===== verification/BeagleServer.v ===== *)
(** * The demonstration server with four LEDs

    [service] of [sample/61850_demo/beagle_demo.c] with its callbacks, over
    the data model of [StaticModelData] (the sample's [static_model.c] is the
    same file) and the LED functions of [beaglebone_leds.c] in the simulated
    build, where a command to an LED is a line of output.  The main thread
    blinks three LEDs until a client takes control; the library's thread
    calls the handlers in between.

    Both threads are cut at their accesses to what they share.  A function that
    updates attributes, switches an LED or touches the operation counter is the
    list of its [access]es, and the accesses of the main thread, which takes no
    lock for them, are interleaved with those of a handler, one by one.  "In
    the context of a library callback the data model is always already locked",
    and "client requests will be postponed until the lock is removed": so one
    handler runs at a time, and none while the main thread has locked the data
    model for the analog values.  What only the library's thread touches (the
    client in control) is read and written in one step; the main thread reads
    no more of it than the mode.

    The library calls [performCheckHandler] through a type of five arguments,
    but the handler has six: what it finds as its connection is whatever the
    place of the sixth argument holds, so a request carries that value besides
    the connection it came from. *)

From Stdlib Require Import ZArith String SpecFloat Lia.
From stdpp Require Import base tactics option list numbers strings gmap.
From S2P Require Import Prelude IedModel StaticModelData.
#[local] Open Scope Z_scope.

(** ** The library and the mathematical library *)

Class BeagleLib : Type := {
  ctl_val : Type;
  MmsValue_getBoolean : ctl_val → bool;
  MmsValue_toInt32 : ctl_val → Z;
  sinf : spec_float → spec_float;
  (** Does a control without a handler succeed? *)
  no_handler : addr → bool
}.

Class BeagleLibOk `{BeagleLib} : Prop := {
  toInt32_range v : in_s 32 (MmsValue_toInt32 v)
}.

(** [ClientConnection]: [None] is NULL. *)
Definition ClientConnection : Type := option nat.

Inductive CheckHandlerResult : Type := CONTROL_ACCEPTED | CONTROL_TEMPORARILY_UNAVAILABLE.
Inductive ControlHandlerResult : Type := CONTROL_RESULT_FAILED | CONTROL_RESULT_OK.
Inductive MmsDataAccessError : Type :=
| DATA_ACCESS_ERROR_SUCCESS | DATA_ACCESS_ERROR_OBJECT_VALUE_INVALID
| DATA_ACCESS_ERROR_OBJECT_ACCESS_DENIED.

#[export] Instance CheckHandlerResult_eq_dec : EqDecision CheckHandlerResult.
Proof. solve_decision. Defined.
#[export] Instance ControlHandlerResult_eq_dec : EqDecision ControlHandlerResult.
Proof. solve_decision. Defined.
#[export] Instance MmsDataAccessError_eq_dec : EqDecision MmsDataAccessError.
Proof. solve_decision. Defined.

Definition QUALITY_VALIDITY_GOOD : Z := 0.
Definition QUALITY_VALIDITY_QUESTIONABLE : Z := 3.
Definition QUALITY_DETAIL_OSCILLATORY : Z := 32.
Definition QUALITY_SOURCE_SUBSTITUTED : Z := 1024.

(** [Dbpos], by its codes. *)
Definition DBPOS_INTERMEDIATE_STATE : Z := 0.
Definition DBPOS_OFF : Z := 1.
Definition DBPOS_ON : Z := 2.

(** Two bits of a coded enum, the first one the most significant; and the two
    bits that [MmsValue_setBitStringFromInteger] sets, the first one the least
    significant. *)
Definition dbpos_bits (d : Z) : list bool := [Z.testbit d 1; Z.testbit d 0].
Definition bits_dbpos (bits : list bool) : Z :=
  match bits with [b1; b0] => 2 * Z.b2z b1 + Z.b2z b0 | _ => -1 end.
Definition bits_little_endian (i : Z) : list bool := [Z.testbit i 0; Z.testbit i 1].

Inductive attr_value : Type :=
| AvBoolean (b : bool)
| AvInt32 (i : Z)
| AvUtcTime (ms : Z)
| AvQuality (q : Z)
| AvFloat (f : spec_float)
| AvBitString (bits : list bool).

(** Which function a control handler is. *)
Inductive control_handler : Type := HBinaryOutput | HInt32Controls.

(** The server object: the installed handlers with their parameters, the
    values that the program gave to attributes, whether it listens. *)
Record IedServer := {
  check_handlers : list addr;
  control_handlers : list (addr * (control_handler * addr));
  write_handlers : list addr;
  attributes : gmap addr attr_value;
  listening : bool
}.

(** ** The process *)

(** A line of output about an LED. *)
Inductive led_line : Type :=
| SWITCH (led : string) (value : Z)
| FLASH (led : string)
| SWITCH4 (led : string) (on : bool).   (* and a pointer, printed as an int *)

(** An access to what the threads share. *)
Inductive access : Type :=
| APrint (x : led_line)
| AUpdate (a : addr) (v : attr_value)
| ATime (a : addr)                      (* an attribute gets the time of the access *)
| ACntStore (n : Z)                     (* opCnt = n *)
| ACntLoad                              (* opCnt is read *)
| ACntInc                               (* and written, increased, in opCnt++ *)
| ACntShow                              (* and passed to the update of its status *)
| AOnStore (n : Z)                      (* ledOnTimeMs = n *)
| AOffStore (n : Z)                     (* ledOffTimeMs = n *)
| ASleep.                               (* Thread_sleep *)

(** Where the main thread is: at the test of [running], after the decision to
    toggle, before the rest of the accesses of a toggle, before the analog
    values, between the stop and the destruction of the server, at the end. *)
Inductive loop_pc : Type :=
| LTop
| LBlink (currentTime : Z)
| LRun (todo : list access) (currentTime : Z)
| LAnalog (currentTime : Z)
| LStop
| LEnd.

(** The local variables of [service], and the value of [opCnt] that the main
    thread has read last. *)
Record locals := {
  pc : loop_pc;
  t : spec_float;
  ledStateValue : bool;
  nextLedToggleTime : Z;
  cnt_read : Z
}.

(** [job]: what the running handler has still to do, and [job_cnt] the value
    of [opCnt] that it has read last.  The static [dpcState] is never used. *)
Record beagle := {
  iedServer : option IedServer;
  running : bool;
  automaticOperationMode : bool;
  controllingClient : ClientConnection;
  ledOnTimeMs : Z;
  ledOffTimeMs : Z;
  opCnt : Z;
  loc : locals;
  job : list access;
  job_cnt : Z;
  lines : list led_line
}.

(** The static variables as the program starts. *)
Definition beagle_new : beagle :=
  {| iedServer := None; running := false; automaticOperationMode := true;
     controllingClient := None; ledOnTimeMs := 1000; ledOffTimeMs := 1000; opCnt := 0;
     loc := {| pc := LEnd; t := S754_zero false; ledStateValue := false; nextLedToggleTime := 0; cnt_read := 0 |};
     job := []; job_cnt := 0; lines := [] |}.

Definition set_srv (x : option IedServer) (s : beagle) : beagle :=
  {| iedServer := x; running := running s; automaticOperationMode := automaticOperationMode s;
     controllingClient := controllingClient s; ledOnTimeMs := ledOnTimeMs s;
     ledOffTimeMs := ledOffTimeMs s; opCnt := opCnt s; loc := loc s;
     job := job s; job_cnt := job_cnt s; lines := lines s |}.
Definition set_running (b : bool) (s : beagle) : beagle :=
  {| iedServer := iedServer s; running := b; automaticOperationMode := automaticOperationMode s;
     controllingClient := controllingClient s; ledOnTimeMs := ledOnTimeMs s;
     ledOffTimeMs := ledOffTimeMs s; opCnt := opCnt s; loc := loc s;
     job := job s; job_cnt := job_cnt s; lines := lines s |}.
Definition set_control (m : bool) (c : ClientConnection) (s : beagle) : beagle :=
  {| iedServer := iedServer s; running := running s; automaticOperationMode := m;
     controllingClient := c; ledOnTimeMs := ledOnTimeMs s;
     ledOffTimeMs := ledOffTimeMs s; opCnt := opCnt s; loc := loc s;
     job := job s; job_cnt := job_cnt s; lines := lines s |}.
Definition set_times (on off : Z) (s : beagle) : beagle :=
  {| iedServer := iedServer s; running := running s;
     automaticOperationMode := automaticOperationMode s;
     controllingClient := controllingClient s; ledOnTimeMs := on;
     ledOffTimeMs := off; opCnt := opCnt s; loc := loc s;
     job := job s; job_cnt := job_cnt s; lines := lines s |}.
Definition set_opCnt (n : Z) (s : beagle) : beagle :=
  {| iedServer := iedServer s; running := running s;
     automaticOperationMode := automaticOperationMode s;
     controllingClient := controllingClient s; ledOnTimeMs := ledOnTimeMs s;
     ledOffTimeMs := ledOffTimeMs s; opCnt := n; loc := loc s;
     job := job s; job_cnt := job_cnt s; lines := lines s |}.
Definition set_loc (l : locals) (s : beagle) : beagle :=
  {| iedServer := iedServer s; running := running s;
     automaticOperationMode := automaticOperationMode s;
     controllingClient := controllingClient s; ledOnTimeMs := ledOnTimeMs s;
     ledOffTimeMs := ledOffTimeMs s; opCnt := opCnt s; loc := l;
     job := job s; job_cnt := job_cnt s; lines := lines s |}.
Definition set_job (l : list access) (c : Z) (s : beagle) : beagle :=
  {| iedServer := iedServer s; running := running s;
     automaticOperationMode := automaticOperationMode s;
     controllingClient := controllingClient s; ledOnTimeMs := ledOnTimeMs s;
     ledOffTimeMs := ledOffTimeMs s; opCnt := opCnt s; loc := loc s;
     job := l; job_cnt := c; lines := lines s |}.
Definition print_line (x : led_line) (s : beagle) : beagle :=
  {| iedServer := iedServer s; running := running s;
     automaticOperationMode := automaticOperationMode s;
     controllingClient := controllingClient s; ledOnTimeMs := ledOnTimeMs s;
     ledOffTimeMs := ledOffTimeMs s; opCnt := opCnt s; loc := loc s;
     job := job s; job_cnt := job_cnt s; lines := lines s ++ [x] |}.
Definition goto (p : loop_pc) (c : Z) (s : beagle) : beagle :=
  set_loc {| pc := p; t := t (loc s); ledStateValue := ledStateValue (loc s);
             nextLedToggleTime := nextLedToggleTime (loc s); cnt_read := c |} s.

(** ** [beaglebone_leds.c] *)

Definition LED1 : string := "/sys/class/leds/beaglebone:green:usr0".
Definition LED2 : string := "/sys/class/leds/beaglebone:green:usr1".
Definition LED3 : string := "/sys/class/leds/beaglebone:green:usr2".
Definition LED4 : string := "/sys/class/leds/beaglebone:green:usr3".

Definition flashLED (led : string) : list access := [APrint (FLASH led)].
Definition switchLED (led : string) (value : Z) : list access := [APrint (SWITCH led value)].
Definition initLEDs : list access :=
  switchLED LED1 0 ++ switchLED LED2 0 ++ switchLED LED3 0 ++ switchLED LED4 0.

(** ** Calls on the server object *)

Definition on_server (f : IedServer → IedServer) : prog beagle unit := λ s,
  match iedServer s with
  | None => (Undef "no server", s)
  | Some x => (Done tt, set_srv (Some (f x)) s)
  end.

Definition update (a : addr) (v : attr_value) (x : IedServer) : IedServer :=
  {| check_handlers := check_handlers x; control_handlers := control_handlers x;
     write_handlers := write_handlers x; attributes := <[a := v]> (attributes x);
     listening := listening x |}.

Definition IedServer_updateBooleanAttributeValue a b : list access := [AUpdate a (AvBoolean b)].
Definition IedServer_updateInt32AttributeValue a i : list access := [AUpdate a (AvInt32 i)].
Definition IedServer_updateUTCTimeAttributeValue a ms : list access := [AUpdate a (AvUtcTime ms)].
Definition IedServer_updateQuality a q : list access := [AUpdate a (AvQuality q)].
Definition IedServer_updateFloatAttributeValue a f : list access := [AUpdate a (AvFloat f)].
Definition IedServer_updateDbposValue a d : list access := [AUpdate a (AvBitString (dbpos_bits d))].

(** An access at the time [now]; [c] is the value of [opCnt] that the thread
    has read, and the result the one it has read then. *)
Definition run_access (now c : Z) (x : access) : prog beagle Z :=
  match x with
  | APrint l => modifyS (print_line l);; mret c
  | AUpdate a v => on_server (update a v);; mret c
  | ATime a => on_server (update a (AvUtcTime now));; mret c
  | ACntStore n => modifyS (set_opCnt n);; mret c
  | ACntLoad => s ← getS; mret (opCnt s)
  | ACntInc =>
      if decide (c + 1 < 2 ^ 31) then modifyS (set_opCnt (c + 1));; mret c
      else undefS "signed overflow: opCnt++"
  | ACntShow => on_server (update iedModel_GenericIO_TIM_GAPC1_OpCntRs_stVal (AvInt32 c));; mret c
  | AOnStore n => modifyS (λ s, set_times n (ledOffTimeMs s) s);; mret c
  | AOffStore n => modifyS (λ s, set_times (ledOnTimeMs s) n s);; mret c
  | ASleep => mret c
  end.

(** Accesses in a row, before there is another thread or with the lock. *)
Definition run_accesses (l : list access) : prog beagle unit :=
  iterS l (λ x, _ ← run_access 0 0 x; mret tt).

Definition add_check (node : addr) (x : IedServer) : IedServer :=
  {| check_handlers := node :: check_handlers x; control_handlers := control_handlers x;
     write_handlers := write_handlers x; attributes := attributes x; listening := listening x |}.
Definition add_control (node : addr) (h : control_handler) (param : addr) (x : IedServer) : IedServer :=
  {| check_handlers := check_handlers x;
     control_handlers := (node, (h, param)) :: control_handlers x;
     write_handlers := write_handlers x; attributes := attributes x; listening := listening x |}.
Definition add_write (a : addr) (x : IedServer) : IedServer :=
  {| check_handlers := check_handlers x; control_handlers := control_handlers x;
     write_handlers := a :: write_handlers x; attributes := attributes x;
     listening := listening x |}.
Definition listen (b : bool) (x : IedServer) : IedServer :=
  {| check_handlers := check_handlers x; control_handlers := control_handlers x;
     write_handlers := write_handlers x; attributes := attributes x; listening := b |}.

Definition IedServer_setPerformCheckHandler node := on_server (add_check node).
Definition IedServer_setControlHandler node h param := on_server (add_control node h param).
Definition IedServer_handleWriteAccess a := on_server (add_write a).
Definition set_listening b := on_server (listen b).

(** ** Handlers *)

Section Handlers.
Context `{BeagleLib}.

Definition connectionIndicationHandler (connection : ClientConnection) (connected : bool)
    : prog beagle unit :=
  if connected then mret tt
  else
    s ← getS;
    if decide (controllingClient s = connection) then modifyS (set_control true None) else mret tt.

Definition performCheckHandler (test : bool) (connection : ClientConnection)
    : prog beagle CheckHandlerResult :=
  s ← getS;
  match controllingClient s with
  | None => modifyS (set_control false connection)
  | Some _ => mret tt
  end;;
  if test then mret CONTROL_TEMPORARILY_UNAVAILABLE
  else
    s ← getS;
    if decide (controllingClient s = connection) then mret CONTROL_ACCEPTED
    else mret CONTROL_TEMPORARILY_UNAVAILABLE.

Definition updateLED1stVal (newLedState : bool) (timeStamp : Z) : list access :=
  switchLED LED1 (Z.b2z newLedState) ++
  IedServer_updateUTCTimeAttributeValue iedModel_GenericIO_GGIO1_SPCSO1_t timeStamp ++
  IedServer_updateBooleanAttributeValue iedModel_GenericIO_GGIO1_SPCSO1_stVal newLedState ++
  IedServer_updateQuality iedModel_GenericIO_GGIO1_SPCSO1_q
    (Z.lor QUALITY_VALIDITY_GOOD QUALITY_SOURCE_SUBSTITUTED).

Definition updateLED2stVal (newLedState : bool) (timeStamp : Z) : list access :=
  switchLED LED2 (Z.b2z newLedState) ++
  IedServer_updateUTCTimeAttributeValue iedModel_GenericIO_GGIO1_SPCSO2_t timeStamp ++
  IedServer_updateBooleanAttributeValue iedModel_GenericIO_GGIO1_SPCSO2_stVal newLedState ++
  IedServer_updateQuality iedModel_GenericIO_GGIO1_SPCSO2_q
    (Z.lor QUALITY_VALIDITY_QUESTIONABLE QUALITY_DETAIL_OSCILLATORY).

Definition updateLED3stVal (newLedState : bool) (timeStamp : Z) : list access :=
  switchLED LED3 (Z.b2z newLedState) ++
  IedServer_updateUTCTimeAttributeValue iedModel_GenericIO_GGIO1_SPCSO3_t timeStamp ++
  IedServer_updateBooleanAttributeValue iedModel_GenericIO_GGIO1_SPCSO3_stVal newLedState ++
  IedServer_updateQuality iedModel_GenericIO_GGIO1_SPCSO3_q QUALITY_VALIDITY_GOOD.

(** The branch of the double point output; its first time stamp is the one of
    the handler, its last one is read after the sleep. *)
Definition updateDPCstVal (newState : bool) (timeStamp : Z) : list access :=
  IedServer_updateDbposValue iedModel_GenericIO_GGIO1_DPCSO1_stVal DBPOS_INTERMEDIATE_STATE ++
  IedServer_updateUTCTimeAttributeValue iedModel_GenericIO_GGIO1_DPCSO1_t timeStamp ++
  flashLED LED4 ++
  [ASleep] ++
  [APrint (SWITCH4 LED4 newState)] ++
  IedServer_updateDbposValue iedModel_GenericIO_GGIO1_DPCSO1_stVal
    (if newState then DBPOS_ON else DBPOS_OFF) ++
  [ATime iedModel_GenericIO_GGIO1_DPCSO1_t].

(** A handler: what it does, and its result. *)
Definition controlHandlerForBinaryOutput (timeStamp : Z) (parameter : addr) (value : ctl_val) (test : bool)
    : list access * ControlHandlerResult :=
  if test then ([], CONTROL_RESULT_OK)
  else
    let newState := MmsValue_getBoolean value in
    ((if decide (parameter = iedModel_GenericIO_GGIO1_SPCSO1)
      then updateLED1stVal newState timeStamp else []) ++
     (if decide (parameter = iedModel_GenericIO_GGIO1_SPCSO2)
      then updateLED2stVal newState timeStamp else []) ++
     (if decide (parameter = iedModel_GenericIO_GGIO1_SPCSO3)
      then updateLED3stVal newState timeStamp else []) ++
     (if decide (parameter = iedModel_GenericIO_GGIO1_DPCSO1)
      then updateDPCstVal newState timeStamp else []),
     CONTROL_RESULT_OK).

Definition controlHandlerForInt32Controls (parameter : addr) (value : ctl_val) (test : bool)
    : list access * ControlHandlerResult :=
  if test then ([], CONTROL_RESULT_OK)
  else
    (if decide (parameter = iedModel_GenericIO_TIM_GAPC1_OpCntRs) then
       [ACntStore (MmsValue_toInt32 value); ATime iedModel_GenericIO_TIM_GAPC1_OpCntRs_t;
        ACntLoad; ACntShow]
     else [], CONTROL_RESULT_OK).

Definition int32WriteAccessHandler (dataAttribute : addr) (value : ctl_val)
    : list access * MmsDataAccessError :=
  let newValue := MmsValue_toInt32 value in
  if newValue <? 0 then ([], DATA_ACCESS_ERROR_OBJECT_VALUE_INVALID)
  else if decide (dataAttribute = iedModel_GenericIO_TIM_GAPC1_OpDlTmms_setVal) then
    ([AOffStore newValue], DATA_ACCESS_ERROR_SUCCESS)
  else if decide (dataAttribute = iedModel_GenericIO_TIM_GAPC1_RsDlTmms_setVal) then
    ([AOnStore newValue], DATA_ACCESS_ERROR_SUCCESS)
  else ([], DATA_ACCESS_ERROR_OBJECT_ACCESS_DENIED).

(** *** What the library does with a request *)

(** The handler begins; its answer is known, and the client gets it when the
    handler has done what it does. *)
Definition begin_job (l : list access) : prog beagle unit := modifyS (λ s, set_job l (job_cnt s) s).

(** A control is checked by the check handler of its object, if it has one,
    and an accepted one goes to the control handler. *)
Definition operate (obj : addr) (sixth : ClientConnection) (v : ctl_val) (test : bool) (now : Z)
    : prog beagle bool := λ s,
  match iedServer s with
  | None => (Undef "no server", s)
  | Some x =>
      (r ← (if decide (obj ∈ check_handlers x) then performCheckHandler test sixth
            else mret CONTROL_ACCEPTED);
       match r with
       | CONTROL_TEMPORARILY_UNAVAILABLE => mret false
       | CONTROL_ACCEPTED =>
           match List.find (λ h, bool_decide (h.1 = obj)) (control_handlers x) with
           | None => mret (no_handler obj)
           | Some (_, (HBinaryOutput, p)) =>
               let '(l, r) := controlHandlerForBinaryOutput now p v test in
               begin_job l;; mret (bool_decide (r = CONTROL_RESULT_OK))
           | Some (_, (HInt32Controls, p)) =>
               let '(l, r) := controlHandlerForInt32Controls p v test in
               begin_job l;; mret (bool_decide (r = CONTROL_RESULT_OK))
           end
       end) s
  end.

(** "When the callback returns DATA_ACCESS_ERROR_SUCCESS the write access is
    accepted and the stack will update the value automatically."  A write to
    another attribute is none of the program's business. *)
Definition write_access (a : addr) (v : ctl_val) : prog beagle MmsDataAccessError := λ s,
  match iedServer s with
  | None => (Undef "no server", s)
  | Some x =>
      (if decide (a ∈ write_handlers x) then
         let '(l, r) := int32WriteAccessHandler a v in
         begin_job (l ++ if decide (r = DATA_ACCESS_ERROR_SUCCESS)
                         then IedServer_updateInt32AttributeValue a (MmsValue_toInt32 v) else []);;
         mret r
       else mret DATA_ACCESS_ERROR_OBJECT_ACCESS_DENIED) s
  end.

(** The next access of the running handler. *)
Definition job_step (now : Z) : prog beagle unit :=
  s ← getS;
  match job s with
  | [] => mret tt
  | x :: l => c ← run_access now (job_cnt s) x; modifyS (set_job l c)
  end.

(** ** [service] *)

(** Up to the loop; [false] is [exit(-1)].  [listen_ok]: the port can be
    listened on. *)
Definition service_start (listen_ok : bool) (now : Z) : prog beagle bool :=
  run_accesses initLEDs;;
  modifyS (set_srv (Some {| check_handlers := []; control_handlers := []; write_handlers := [];
                            attributes := ∅; listening := false |}));;
  IedServer_setPerformCheckHandler iedModel_GenericIO_GGIO1_SPCSO1;;
  IedServer_setControlHandler iedModel_GenericIO_GGIO1_SPCSO1 HBinaryOutput iedModel_GenericIO_GGIO1_SPCSO1;;
  IedServer_setPerformCheckHandler iedModel_GenericIO_GGIO1_SPCSO2;;
  IedServer_setControlHandler iedModel_GenericIO_GGIO1_SPCSO2 HBinaryOutput iedModel_GenericIO_GGIO1_SPCSO2;;
  IedServer_setPerformCheckHandler iedModel_GenericIO_GGIO1_SPCSO3;;
  IedServer_setControlHandler iedModel_GenericIO_GGIO1_SPCSO3 HBinaryOutput iedModel_GenericIO_GGIO1_SPCSO3;;
  IedServer_setPerformCheckHandler iedModel_GenericIO_GGIO1_DPCSO1;;
  IedServer_setControlHandler iedModel_GenericIO_GGIO1_DPCSO1 HBinaryOutput iedModel_GenericIO_GGIO1_DPCSO1;;
  IedServer_setControlHandler iedModel_GenericIO_TIM_GAPC1_OpCntRs HInt32Controls
    iedModel_GenericIO_TIM_GAPC1_OpCntRs;;
  on_server (update iedModel_GenericIO_GGIO1_DPCSO1_stVal (AvBitString (bits_little_endian 1)));;
  s ← getS;
  run_accesses (IedServer_updateInt32AttributeValue iedModel_GenericIO_TIM_GAPC1_OpDlTmms_setVal (ledOffTimeMs s));;
  run_accesses (IedServer_updateInt32AttributeValue iedModel_GenericIO_TIM_GAPC1_RsDlTmms_setVal (ledOnTimeMs s));;
  IedServer_handleWriteAccess iedModel_GenericIO_TIM_GAPC1_OpDlTmms_setVal;;
  IedServer_handleWriteAccess iedModel_GenericIO_TIM_GAPC1_RsDlTmms_setVal;;
  set_listening listen_ok;;
  if negb listen_ok then modifyS (set_srv None);; mret false
  else
    modifyS (set_running true);;
    modifyS (set_loc {| pc := LTop; t := S754_zero false; ledStateValue := false;
                        nextLedToggleTime := wrap_u 64 (now + 1000); cnt_read := 0 |});;
    mret true.

(** Single precision; [0.1f], [1.f], [2.f] and [3.f]. *)
Definition f32_add : spec_float → spec_float → spec_float := SFadd 24 128.
Definition f32_tenth : spec_float := S754_finite false 13421773 (-27).
Definition f32_of (n : positive) : spec_float := binary_normalize 24 128 (Zpos n) 0 false.

Definition update_AnIn (mag_f q t : addr) (f : spec_float) (now : Z) : list access :=
  IedServer_updateFloatAttributeValue mag_f f ++
  IedServer_updateQuality q QUALITY_VALIDITY_GOOD ++
  IedServer_updateUTCTimeAttributeValue t now.

(** The accesses of a toggle to the new state [led]. *)
Definition toggle_accesses (led : bool) (currentTime : Z) : list access :=
  (if led then
     [ACntLoad; ACntInc] ++
     IedServer_updateUTCTimeAttributeValue iedModel_GenericIO_TIM_GAPC1_OpCntRs_t currentTime ++
     [ACntLoad; ACntShow]
   else []) ++
  updateLED1stVal led currentTime ++ updateLED2stVal led currentTime ++ updateLED3stVal led currentTime.

(** The toggling: the next time, the state, and what is to be done then.  The
    sum of a [uint64_t] and an [int] is a [uint64_t]. *)
Definition blink (currentTime : Z) : prog beagle unit :=
  s ← getS;
  let l := loc s in
  let next := wrap_u 64 (currentTime + if ledStateValue l then ledOffTimeMs s else ledOnTimeMs s) in
  modifyS (set_loc {| pc := LRun (toggle_accesses (negb (ledStateValue l)) currentTime) currentTime;
                      t := t l; ledStateValue := negb (ledStateValue l);
                      nextLedToggleTime := next; cnt_read := cnt_read l |}).

(** The analog values, with the data model locked. *)
Definition analog (currentTime : Z) : prog beagle unit :=
  modifyS (λ s, set_loc {| pc := LTop; t := f32_add (t (loc s)) f32_tenth;
                           ledStateValue := ledStateValue (loc s);
                           nextLedToggleTime := nextLedToggleTime (loc s);
                           cnt_read := cnt_read (loc s) |} s);;
  s ← getS;
  let x := t (loc s) in
  run_accesses
    (update_AnIn iedModel_GenericIO_GGIO1_AnIn1_mag_f iedModel_GenericIO_GGIO1_AnIn1_q
       iedModel_GenericIO_GGIO1_AnIn1_t (sinf x) currentTime ++
     update_AnIn iedModel_GenericIO_GGIO1_AnIn2_mag_f iedModel_GenericIO_GGIO1_AnIn2_q
       iedModel_GenericIO_GGIO1_AnIn2_t (sinf (f32_add x (f32_of 1))) currentTime ++
     update_AnIn iedModel_GenericIO_GGIO1_AnIn3_mag_f iedModel_GenericIO_GGIO1_AnIn3_q
       iedModel_GenericIO_GGIO1_AnIn3_t (sinf (f32_add x (f32_of 2))) currentTime ++
     update_AnIn iedModel_GenericIO_GGIO1_AnIn4_mag_f iedModel_GenericIO_GGIO1_AnIn4_q
       iedModel_GenericIO_GGIO1_AnIn4_t (sinf (f32_add x (f32_of 3))) currentTime).

(** One step of the main thread; [now] is the time it reads at the top of the
    loop. *)
Definition loop_step (now : Z) : prog beagle unit :=
  s ← getS;
  match pc (loc s) with
  | LTop =>
      if running s then
        if automaticOperationMode s && (nextLedToggleTime (loc s) <=? now)
        then modifyS (goto (LBlink now) (cnt_read (loc s)))
        else modifyS (goto (LAnalog now) (cnt_read (loc s)))
      else set_listening false;; modifyS (goto LStop (cnt_read (loc s)))   (* IedServer_stop *)
  | LBlink currentTime => blink currentTime
  | LRun [] currentTime => modifyS (goto (LAnalog currentTime) (cnt_read (loc s)))
  | LRun (x :: l) currentTime =>
      c ← run_access now (cnt_read (loc s)) x;
      modifyS (goto (LRun l currentTime) c)
  | LAnalog currentTime => analog currentTime
  | LStop => modifyS (set_srv None);; modifyS (goto LEnd (cnt_read (loc s)))   (* IedServer_destroy *)
  | LEnd => mret tt
  end.

(** ** Traces *)

Inductive event : Type :=
| EConnection (con : nat) (connected : bool)
| EOperate (obj : addr) (con : nat) (sixth : ClientConnection) (v : ctl_val) (test : bool) (now : Z)
| EJob (now : Z)
| EWrite (a : addr) (v : ctl_val)
| EStep (now : Z)
| ESigint.

(** The answer to a request: was the control successful, was the write
    accepted. *)
Inductive answer : Type :=
| ANone
| AControl (ok : bool)
| AWrite (r : MmsDataAccessError).

Definition handle (ev : event) : prog beagle answer :=
  match ev with
  | EConnection con connected => connectionIndicationHandler (Some con) connected;; mret ANone
  | EOperate obj con sixth v test now => ok ← operate obj sixth v test now; mret (AControl ok)
  | EJob now => job_step now;; mret ANone
  | EWrite a v => r ← write_access a v; mret (AWrite r)
  | EStep now => loop_step now;; mret ANone
  | ESigint => modifyS (set_running false);; mret ANone
  end.

(** The library takes a request or an indication while the server listens and
    no handler is running. *)
Definition serving (s : beagle) : Prop :=
  match iedServer s with Some x => listening x = true ∧ job s = [] | None => False end.

(** The library calls the handlers for the connections that are open.  The
    main thread waits for the handler that is running when it locks the data
    model and when it stops the server, which ends the library's thread. *)
Definition enabled (opened : gset nat) (s : beagle) (ev : event) : Prop :=
  match ev with
  | EConnection con true => serving s ∧ con ∉ opened
  | EConnection con false | EOperate _ con _ _ _ _ => serving s ∧ con ∈ opened
  | EJob _ => job s ≠ []
  | EWrite _ _ => serving s
  | EStep _ =>
      match pc (loc s) with
      | LTop => running s = true ∨ job s = []
      | LAnalog _ => job s = []
      | LEnd => False
      | _ => True
      end
  | ESigint => True
  end.

Definition opened_after (ev : event) (opened : gset nat) : gset nat :=
  match ev with
  | EConnection con true => {[ con ]} ∪ opened
  | EConnection con false => opened ∖ {[ con ]}
  | _ => opened
  end.

Inductive trace : beagle → gset nat → list (event * answer) → beagle → gset nat → Prop :=
| trace_nil s opened : trace s opened [] s opened
| trace_cons s opened ev a s1 l s2 opened2 :
    enabled opened s ev → handle ev s = (Done a, s1) →
    trace s1 (opened_after ev opened) l s2 opened2 →
    trace s opened ((ev, a) :: l) s2 opened2.
End Handlers.

(** ** Lemmas *)

(** The last command to an LED. *)
Definition last_switch (led : string) (l : list led_line) : option Z :=
  last (omap (λ x, match x with
                   | SWITCH led' v => if decide (led' = led) then Some v else None
                   | _ => None
                   end) l).

(** The state of the last double point command that woke. *)
Definition last_position (l : list led_line) : option bool :=
  last (omap (λ x, match x with SWITCH4 _ b => Some b | _ => None end) l).

Lemma last_switch_snoc led l y :
  last_switch led (l ++ [y]) =
    match y with
    | SWITCH led' v => if decide (led' = led) then Some v else last_switch led l
    | _ => last_switch led l
    end.
Proof.
  unfold last_switch. rewrite omap_app.
  destruct y as [led' v|led'|led' b]; cbn [omap list_omap]; try (by rewrite app_nil_r).
  destruct (decide _); [apply last_snoc|by rewrite app_nil_r].
Qed.

Lemma last_position_snoc l y :
  last_position (l ++ [y]) = match y with SWITCH4 _ b => Some b | _ => last_position l end.
Proof.
  unfold last_position. rewrite omap_app.
  destruct y; cbn [omap list_omap]; [by rewrite app_nil_r..|apply last_snoc].
Qed.

(** The status that a client reads: false until the first update. *)
Definition shown (m : gmap addr attr_value) (a : addr) : option bool :=
  match m !! a with
  | None => Some false
  | Some (AvBoolean b) => Some b
  | _ => None
  end.

Definition led_agrees (led : string) (stVal : addr) (l : list led_line) (m : gmap addr attr_value) : Prop :=
  last_switch led l = Z.b2z <$> shown m stVal ∧ is_Some (shown m stVal).

(** The value of an attribute after an update, by computation on addresses. *)
Lemma attr_update a v x b :
  attributes (update a v x) !! b = if (a =? b)%positive then Some v else attributes x !! b.
Proof.
  simpl. destruct (Pos.eqb_spec a b) as [->|Hne]; [apply lookup_insert_eq|by apply lookup_insert_ne].
Qed.

Ltac attrs :=
  repeat (rewrite attr_update;
          match goal with
          | |- context [Pos.eqb ?b ?a] =>
              let r := eval vm_compute in (Pos.eqb b a) in change (Pos.eqb b a) with r
          end; cbv iota).

(** Comparisons of given addresses. *)
Ltac decide_addr :=
  repeat match goal with
  | |- context [decide (?a = ?b :> addr)] =>
      first [rewrite (decide_True (P := (a = b))) by reflexivity
            |rewrite (decide_False (P := (a = b))) by (vm_compute; discriminate)]
  end.

(** The handlers that [service] installs. *)
Definition guarded : list addr :=
  [iedModel_GenericIO_GGIO1_DPCSO1; iedModel_GenericIO_GGIO1_SPCSO3;
   iedModel_GenericIO_GGIO1_SPCSO2; iedModel_GenericIO_GGIO1_SPCSO1].

Definition installed (x : IedServer) : Prop :=
  check_handlers x = guarded ∧
  control_handlers x =
    (iedModel_GenericIO_TIM_GAPC1_OpCntRs, (HInt32Controls, iedModel_GenericIO_TIM_GAPC1_OpCntRs)) ::
    ((λ a, (a, (HBinaryOutput, a))) <$> guarded) ∧
  write_handlers x =
    [iedModel_GenericIO_TIM_GAPC1_RsDlTmms_setVal; iedModel_GenericIO_TIM_GAPC1_OpDlTmms_setVal].

(** The accesses that a handler, and those that a toggle can make. *)
Definition handler_access (y : access) : Prop :=
  match y with
  | ACntStore n => in_s 32 n
  | AOnStore n | AOffStore n => 0 ≤ n < 2 ^ 31
  | ACntInc => False
  | ATime a => a = iedModel_GenericIO_GGIO1_DPCSO1_t ∨ a = iedModel_GenericIO_TIM_GAPC1_OpCntRs_t
  | _ => True
  end.

Definition toggle_access (y : access) : Prop :=
  match y with ACntStore _ | AOnStore _ | AOffStore _ | ATime _ => False | _ => True end.

(** What the main thread has still to do for a toggle. *)
Definition todo (s : beagle) : list access :=
  match pc (loc s) with LRun l _ => l | _ => [] end.

(** What holds between the steps, whatever the sixth arguments are. *)
Record beagle_ok (s : beagle) (x : IedServer) : Prop := {
  ok_handlers : installed x;
  ok_listening : listening x = match pc (loc s) with LStop => false | _ => true end;
  ok_stopped : pc (loc s) = LStop → job s = [];
  ok_on : 0 ≤ ledOnTimeMs s < 2 ^ 31;
  ok_off : 0 ≤ ledOffTimeMs s < 2 ^ 31;
  ok_cnt : in_s 32 (opCnt s);
  ok_read : in_s 32 (cnt_read (loc s));
  ok_job_cnt : in_s 32 (job_cnt s);
  ok_job : Forall handler_access (job s);
  ok_todo : ∃ led ct pre, toggle_accesses led ct = pre ++ todo s
}.

Definition server_ok (s : beagle) : Prop :=
  match iedServer s with
  | Some x => beagle_ok s x ∧ pc (loc s) ≠ LEnd
  | None => pc (loc s) = LEnd ∧ job s = []
  end.

Lemma on_server_eq f s x :
  iedServer s = Some x → on_server f s = (Done tt, set_srv (Some (f x)) s).
Proof. unfold on_server. by intros ->. Qed.

(** Run a straight-line program on a state with a server. *)
Ltac run_prog :=
  gw_run ltac:(fun _ =>
    first [reflexivity | eassumption | apply on_server_eq; first [eassumption | reflexivity]]).

#[export] Instance answer_eq_dec : EqDecision answer.
Proof. solve_decision. Defined.

(** *** One access *)

(** What an access does, field by field. *)
Definition server_after (now c : Z) (y : access) (x : IedServer) : IedServer :=
  match y with
  | AUpdate a v => update a v x
  | ATime a => update a (AvUtcTime now) x
  | ACntShow => update iedModel_GenericIO_TIM_GAPC1_OpCntRs_stVal (AvInt32 c) x
  | _ => x
  end.
Definition opCnt_after (c : Z) (y : access) (n : Z) : Z :=
  match y with ACntStore m => m | ACntInc => c + 1 | _ => n end.
Definition on_after (y : access) (n : Z) : Z := match y with AOnStore m => m | _ => n end.
Definition off_after (y : access) (n : Z) : Z := match y with AOffStore m => m | _ => n end.
Definition read_after (c : Z) (y : access) (n : Z) : Z := match y with ACntLoad => n | _ => c end.
Definition prints (y : access) : list led_line := match y with APrint l => [l] | _ => [] end.

(** The state after an access. *)
Definition accessed (now c : Z) (y : access) (s : beagle) (x : IedServer) : beagle :=
  {| iedServer := Some (server_after now c y x); running := running s;
     automaticOperationMode := automaticOperationMode s; controllingClient := controllingClient s;
     ledOnTimeMs := on_after y (ledOnTimeMs s); ledOffTimeMs := off_after y (ledOffTimeMs s);
     opCnt := opCnt_after c y (opCnt s); loc := loc s; job := job s; job_cnt := job_cnt s;
     lines := lines s ++ prints y |}.

Section Lemmas.
Context `{BeagleLib}.

Lemma run_access_eq now c y s x :
  iedServer s = Some x → (y = ACntInc → c + 1 < 2 ^ 31) →
  run_access now c y s = (Done (read_after c y (opCnt s)), accessed now c y s x).
Proof.
  intros Hx Hc. destruct s as [? ? ? ? ? ? ? ? ? ? ls]. simpl in Hx. subst.
  assert (ls = ls ++ []) as Hls by by rewrite app_nil_r.
  destruct y; unfold accessed; simpl; rewrite <- ?Hls; try reflexivity.
  unfold run_access. rewrite decide_True by by apply Hc. simpl. reflexivity.
Qed.

Lemma run_access_overflow now c s :
  ¬ c + 1 < 2 ^ 31 → run_access now c ACntInc s = (Undef "signed overflow: opCnt++", s).
Proof. intros Hc. unfold run_access. by rewrite decide_False. Qed.

(** Accesses in a row that only update attributes. *)
Lemma run_updates (l : list (addr * attr_value)) s x :
  iedServer s = Some x →
  run_accesses ((λ p, AUpdate p.1 p.2) <$> l) s =
    (Done tt, set_srv (Some (foldl (λ x p, update p.1 p.2 x) x l)) s).
Proof.
  revert s x. induction l as [|p l IH]; intros s x Hx.
  { destruct s. simpl in *. by subst. }
  unfold run_accesses in *. cbn [fmap list_fmap iterS]. erewrite prog_bind_eq.
  2:{ cbn [run_access]. erewrite prog_bind_eq by (eapply prog_run; [by apply on_server_eq|reflexivity]).
      reflexivity. }
  by rewrite (IH _ (update p.1 p.2 x)).
Qed.

Lemma foldl_update_other l x :
  let x' := foldl (λ x p, update p.1 p.2 x) x l in
  check_handlers x' = check_handlers x ∧ control_handlers x' = control_handlers x ∧
  write_handlers x' = write_handlers x ∧ listening x' = listening x ∧
  ∀ b, b ∉ l.*1 → attributes x' !! b = attributes x !! b.
Proof.
  revert x. induction l as [|p l IH]; intros x; [done|]. cbn [foldl].
  destruct (IH (update p.1 p.2 x)) as (-> & -> & -> & -> & Hb). split_and!; try done.
  intros b Hin. cbn [fmap list_fmap] in Hin. apply not_elem_of_cons in Hin as [Hne Hin].
  rewrite Hb by done. cbn [attributes update]. by rewrite lookup_insert_ne by congruence.
Qed.

Lemma server_after_fields now c y x :
  check_handlers (server_after now c y x) = check_handlers x ∧
  control_handlers (server_after now c y x) = control_handlers x ∧
  write_handlers (server_after now c y x) = write_handlers x ∧
  listening (server_after now c y x) = listening x.
Proof. by destruct y. Qed.

Lemma toggle_accesses_ok led ct : Forall toggle_access (toggle_accesses led ct).
Proof. destruct led; repeat constructor. Qed.

Lemma todo_ok s x y l :
  beagle_ok s x → todo s = y :: l → toggle_access y ∧ ∃ led ct pre, toggle_accesses led ct = pre ++ l.
Proof.
  intros Hok Ht. destruct (ok_todo s x Hok) as (led & ct & pre & Hpre). rewrite Ht in Hpre. split.
  - pose proof (toggle_accesses_ok led ct) as Hf. rewrite Hpre in Hf.
    apply Forall_app in Hf as [_ Hf]. by apply Forall_cons in Hf as [Hf _].
  - exists led, ct, (pre ++ [y]). by rewrite <- app_assoc.
Qed.

Lemma nothing_todo : ∃ led ct pre, toggle_accesses led ct = pre ++ [].
Proof. exists true, 0, (toggle_accesses true 0). by rewrite app_nil_r. Qed.

(** *** What the events do *)

(** The lock: the mode and the client in control. *)
Definition lock (s : beagle) : bool * ClientConnection :=
  (automaticOperationMode s, controllingClient s).

(** The state in which a request meets the control handler: a guarded object
    is taken by the first who asks. *)
Definition checked (obj : addr) (sixth : ClientConnection) (s : beagle) : beagle :=
  if decide (obj ∈ guarded) then
    match controllingClient s with None => set_control false sixth s | Some _ => s end
  else s.

Definition passes (obj : addr) (sixth : ClientConnection) (test : bool) (s : beagle) : bool :=
  negb test && bool_decide (controllingClient (checked obj sixth s) = sixth).

Definition lock_after (ev : event) (l : bool * ClientConnection) : bool * ClientConnection :=
  match ev with
  | EConnection con false => if decide (l.2 = Some con) then (true, None) else l
  | EOperate obj _ sixth _ _ _ =>
      if decide (obj ∈ guarded) then match l.2 with None => (false, sixth) | Some _ => l end else l
  | _ => l
  end.

(** What the handler of a successful request does. *)
Definition operation_accesses (obj : addr) (v : ctl_val) (test : bool) (now : Z) : list access :=
  if decide (obj ∈ guarded) then (controlHandlerForBinaryOutput now obj v test).1
  else if decide (obj = iedModel_GenericIO_TIM_GAPC1_OpCntRs)
       then (controlHandlerForInt32Controls obj v test).1 else [].

Definition write_accesses (a : addr) (v : ctl_val) : list access :=
  (int32WriteAccessHandler a v).1 ++ [AUpdate a (AvInt32 (MmsValue_toInt32 v))].

Definition job_after (ev : event) (a : answer) (s : beagle) : list access :=
  match ev, a with
  | EOperate obj _ _ v test now, AControl true => operation_accesses obj v test now
  | EWrite at_ v, AWrite DATA_ACCESS_ERROR_SUCCESS => write_accesses at_ v
  | EJob _, _ => tail (job s)
  | _, _ => job s
  end.

(** Where the main thread is after a step. *)
Definition next_loc (now : Z) (s : beagle) : locals :=
  let l := loc s in
  let at_ p c := {| pc := p; t := t l; ledStateValue := ledStateValue l;
                    nextLedToggleTime := nextLedToggleTime l; cnt_read := c |} in
  match pc l with
  | LTop =>
      at_ (if running s then
             if automaticOperationMode s && (nextLedToggleTime l <=? now) then LBlink now else LAnalog now
           else LStop) (cnt_read l)
  | LBlink ct =>
      {| pc := LRun (toggle_accesses (negb (ledStateValue l)) ct) ct; t := t l;
         ledStateValue := negb (ledStateValue l);
         nextLedToggleTime :=
           wrap_u 64 (ct + if ledStateValue l then ledOffTimeMs s else ledOnTimeMs s);
         cnt_read := cnt_read l |}
  | LRun [] ct => at_ (LAnalog ct) (cnt_read l)
  | LRun (y :: r) ct => at_ (LRun r ct) (read_after (cnt_read l) y (opCnt s))
  | LAnalog ct => {| pc := LTop; t := f32_add (t l) f32_tenth; ledStateValue := ledStateValue l;
                     nextLedToggleTime := nextLedToggleTime l; cnt_read := cnt_read l |}
  | LStop | LEnd => at_ LEnd (cnt_read l)
  end.

Definition loc_after (ev : event) (s : beagle) : locals :=
  match ev with EStep now => next_loc now s | _ => loc s end.

(** The access that an event is, with its time and the value of [opCnt] that
    its thread has read, if it is one of a handler or of a toggle. *)
Definition access_of (ev : event) (s : beagle) : option (Z * Z * access) :=
  match ev with
  | EJob now => match job s with y :: _ => Some (now, job_cnt s, y) | [] => None end
  | EStep now => match todo s with y :: _ => Some (now, cnt_read (loc s), y) | [] => None end
  | _ => None
  end.

Definition event_lines (ev : event) (s : beagle) : list led_line :=
  match access_of ev s with Some (_, _, y) => prints y | None => [] end.

(** The attributes of the simulated measurements. *)
Definition analog_addrs : list addr :=
  [iedModel_GenericIO_GGIO1_AnIn1_mag_f; iedModel_GenericIO_GGIO1_AnIn1_q; iedModel_GenericIO_GGIO1_AnIn1_t;
   iedModel_GenericIO_GGIO1_AnIn2_mag_f; iedModel_GenericIO_GGIO1_AnIn2_q; iedModel_GenericIO_GGIO1_AnIn2_t;
   iedModel_GenericIO_GGIO1_AnIn3_mag_f; iedModel_GenericIO_GGIO1_AnIn3_q; iedModel_GenericIO_GGIO1_AnIn3_t;
   iedModel_GenericIO_GGIO1_AnIn4_mag_f; iedModel_GenericIO_GGIO1_AnIn4_q; iedModel_GenericIO_GGIO1_AnIn4_t].

(** The updates of an iteration, [f] being the accumulated time. *)
Definition analog_updates (f : spec_float) (ct : Z) : list (addr * attr_value) :=
  [(iedModel_GenericIO_GGIO1_AnIn1_mag_f, AvFloat (sinf f));
   (iedModel_GenericIO_GGIO1_AnIn1_q, AvQuality QUALITY_VALIDITY_GOOD);
   (iedModel_GenericIO_GGIO1_AnIn1_t, AvUtcTime ct);
   (iedModel_GenericIO_GGIO1_AnIn2_mag_f, AvFloat (sinf (f32_add f (f32_of 1))));
   (iedModel_GenericIO_GGIO1_AnIn2_q, AvQuality QUALITY_VALIDITY_GOOD);
   (iedModel_GenericIO_GGIO1_AnIn2_t, AvUtcTime ct);
   (iedModel_GenericIO_GGIO1_AnIn3_mag_f, AvFloat (sinf (f32_add f (f32_of 2))));
   (iedModel_GenericIO_GGIO1_AnIn3_q, AvQuality QUALITY_VALIDITY_GOOD);
   (iedModel_GenericIO_GGIO1_AnIn3_t, AvUtcTime ct);
   (iedModel_GenericIO_GGIO1_AnIn4_mag_f, AvFloat (sinf (f32_add f (f32_of 3))));
   (iedModel_GenericIO_GGIO1_AnIn4_q, AvQuality QUALITY_VALIDITY_GOOD);
   (iedModel_GenericIO_GGIO1_AnIn4_t, AvUtcTime ct)].

(** The attributes are the same, or with such updates. *)
Definition analog_only (x x' : IedServer) : Prop :=
  attributes x' = attributes x ∨
  ∃ f ct, attributes x' = attributes (foldl (λ x p, update p.1 p.2 x) x (analog_updates f ct)).

(** What the threads share, but for the lines: it changes by accesses only. *)
Definition data_after (ev : event) (s s' : beagle) : Prop := ∀ x x',
  iedServer s = Some x → iedServer s' = Some x' →
  let on_access {T} (f : Z → Z → access → T) (d : T) :=
    match access_of ev s with Some (now, c, y) => f now c y | None => d end in
  match access_of ev s with
  | Some (now, c, y) => attributes x' = attributes (server_after now c y x)
  | None => analog_only x x'
  end ∧
  opCnt s' = on_access (λ _ c y, opCnt_after c y (opCnt s)) (opCnt s) ∧
  ledOnTimeMs s' = on_access (λ _ _ y, on_after y (ledOnTimeMs s)) (ledOnTimeMs s) ∧
  ledOffTimeMs s' = on_access (λ _ _ y, off_after y (ledOffTimeMs s)) (ledOffTimeMs s) ∧
  job_cnt s' = match ev with
               | EJob _ => on_access (λ _ c y, read_after c y (opCnt s)) (job_cnt s)
               | _ => job_cnt s
               end.

(** The request that the check passes gets a success; a write that succeeds
    is one that its handler accepts. *)
Definition answer_ok (ev : event) (a : answer) (s : beagle) : Prop :=
  match ev with
  | EOperate obj _ sixth _ test _ => obj ∈ guarded → a = AControl (passes obj sixth test s)
  | EWrite at_ v =>
      a = AWrite DATA_ACCESS_ERROR_SUCCESS → (int32WriteAccessHandler at_ v).2 = DATA_ACCESS_ERROR_SUCCESS
  | _ => True
  end.

Lemma data_other ev s s' x x' b :
  data_after ev s s' → iedServer s = Some x → iedServer s' = Some x' → b ∉ analog_addrs →
  attributes x' !! b = match access_of ev s with
                       | Some (now, c, y) => attributes (server_after now c y x) !! b
                       | None => attributes x !! b
                       end.
Proof.
  intros Hd Hx Hx' Hb. destruct (Hd x x' Hx Hx') as [Ha _].
  destruct (access_of ev s) as [[[now c] y]|]; [by rewrite Ha|].
  destruct Ha as [->|(f & ct & ->)]; [done|].
  by apply (foldl_update_other (analog_updates f ct) x).
Qed.

Record after (ev : event) (a : answer) (s s' : beagle) : Prop := {
  after_ok : server_ok s';
  after_lock : lock s' = lock_after ev (lock s);
  after_lines : lines s' = lines s ++ event_lines ev s;
  after_loc : loc s' = loc_after ev s;
  after_job : job s' = job_after ev a s;
  after_data : data_after ev s s';
  after_answer : answer_ok ev a s
}.

(** An event that touches none of the shared data. *)
Lemma data_same ev s s' :
  access_of ev s = None →
  (∀ x x', iedServer s = Some x → iedServer s' = Some x' → analog_only x x') →
  opCnt s' = opCnt s → ledOnTimeMs s' = ledOnTimeMs s → ledOffTimeMs s' = ledOffTimeMs s →
  job_cnt s' = job_cnt s → data_after ev s s'.
Proof.
  intros Ha Hb H1 H2 H3 H4 x x' Hx Hx'. rewrite Ha. cbv zeta. split_and!; try done.
  - by apply Hb.
  - by destruct ev.
Qed.

Lemma serving_open s : server_ok s → serving s →
  ∃ x, iedServer s = Some x ∧ beagle_ok s x ∧ job s = [] ∧
    pc (loc s) ≠ LEnd ∧ pc (loc s) ≠ LStop.
Proof.
  unfold server_ok, serving. destruct (iedServer s) as [x|]; [|done].
  intros [Hok Hpc] [Hl Hj]. exists x. split_and!; try done. intros Hp.
  pose proof (ok_listening s x Hok) as Hl'. rewrite Hp in Hl'. congruence.
Qed.

Lemma ok_set_control m c s x : beagle_ok s x → beagle_ok (set_control m c s) x.
Proof. intros []. by constructor. Qed.

Lemma ok_begin l s x :
  beagle_ok s x → pc (loc s) ≠ LStop → Forall handler_access l → beagle_ok (set_job l (job_cnt s) s) x.
Proof. intros [] Hpc Hl. by constructor. Qed.

Lemma handle_connection con connected s :
  server_ok s → serving s →
  ∃ s', handle (EConnection con connected) s = (Done ANone, s') ∧
    after (EConnection con connected) ANone s s'.
Proof.
  intros Hs Hv. destruct (serving_open s Hs Hv) as (x & Hx & Hok & Hj & Hpc & _).
  assert (∀ s', iedServer s' = Some x → loc s' = loc s → beagle_ok s' x → lines s' = lines s → job s' = job s →
    opCnt s' = opCnt s → ledOnTimeMs s' = ledOnTimeMs s → ledOffTimeMs s' = ledOffTimeMs s →
    job_cnt s' = job_cnt s → lock s' = lock_after (EConnection con connected) (lock s) →
    after (EConnection con connected) ANone s s') as Hsame.
  { intros s' Hx' Hl Hok' Hln Hjb H1 H2 H3 H4 Hlk. constructor; try done.
    - unfold server_ok. by rewrite Hx', Hl.
    - by rewrite Hln, app_nil_r.
    - apply data_same; try done. intros y y' Hy Hy'. left. congruence. }
  destruct connected; cbn [handle].
  { exists s. split; [done|]. by apply Hsame. }
  unfold connectionIndicationHandler. cbn [lock snd]. destruct (decide (controllingClient s = Some con)) as [Hc|Hc].
  - eexists. split.
    { eapply prog_run; [|reflexivity]. erewrite prog_bind_eq by reflexivity.
      rewrite decide_True by done. reflexivity. }
    apply Hsame; try done; [by apply ok_set_control|]. simpl. by rewrite decide_True.
  - exists s. split.
    { eapply prog_run; [|reflexivity]. erewrite prog_bind_eq by reflexivity.
      by rewrite decide_False by done. }
    apply Hsame; try done. simpl. by rewrite decide_False.
Qed.

(** *** Requests *)

Lemma performCheck_eq obj test sixth s :
  obj ∈ guarded →
  performCheckHandler test sixth s =
    (Done (if passes obj sixth test s then CONTROL_ACCEPTED else CONTROL_TEMPORARILY_UNAVAILABLE),
     checked obj sixth s).
Proof.
  intros Hobj. unfold passes, checked. rewrite decide_True by done.
  unfold performCheckHandler. erewrite prog_bind_eq by reflexivity.
  destruct (controllingClient s) as [c|] eqn:Hc; destruct test; try done.
  - erewrite prog_bind_eq by reflexivity. erewrite prog_bind_eq by reflexivity. rewrite Hc.
    case_decide; [by rewrite bool_decide_eq_true_2|by rewrite bool_decide_eq_false_2].
  - erewrite prog_bind_eq by reflexivity. erewrite prog_bind_eq by reflexivity.
    rewrite decide_True by done. simpl. by rewrite bool_decide_eq_true_2.
Qed.

Lemma find_guarded (x : IedServer) obj :
  installed x → obj ∈ guarded →
  List.find (λ h, bool_decide (h.1 = obj)) (control_handlers x) = Some (obj, (HBinaryOutput, obj)).
Proof.
  intros (_ & -> & _) Hobj. unfold guarded in *.
  repeat (apply elem_of_cons in Hobj as [->|Hobj]); [..|by apply elem_of_nil in Hobj];
    vm_compute; reflexivity.
Qed.

Lemma binary_output_ok ts obj v test : (controlHandlerForBinaryOutput ts obj v test).2 = CONTROL_RESULT_OK.
Proof. unfold controlHandlerForBinaryOutput. by destruct test. Qed.

Lemma int32_control_ok obj v test : (controlHandlerForInt32Controls obj v test).2 = CONTROL_RESULT_OK.
Proof. unfold controlHandlerForInt32Controls. by destruct test. Qed.

Lemma checked_fields obj sixth s :
  iedServer (checked obj sixth s) = iedServer s ∧ loc (checked obj sixth s) = loc s ∧
  lines (checked obj sixth s) = lines s ∧ job (checked obj sixth s) = job s ∧
  job_cnt (checked obj sixth s) = job_cnt s ∧ opCnt (checked obj sixth s) = opCnt s ∧
  ledOnTimeMs (checked obj sixth s) = ledOnTimeMs s ∧ ledOffTimeMs (checked obj sixth s) = ledOffTimeMs s.
Proof. unfold checked. case_decide; [|done]. by destruct (controllingClient s). Qed.

Lemma lock_checked obj con sixth v test now s :
  lock (checked obj sixth s) = lock_after (EOperate obj con sixth v test now) (lock s).
Proof.
  unfold lock, checked, lock_after. case_decide; [|done]. cbn [snd].
  destruct (controllingClient s) eqn:Hc; [by rewrite Hc|done].
Qed.

(** The lists that the handlers can be asked to do. *)
Lemma operation_accesses_ok `{!BeagleLibOk} obj v test now :
  Forall handler_access (operation_accesses obj v test now).
Proof.
  unfold operation_accesses, controlHandlerForBinaryOutput, controlHandlerForInt32Controls.
  destruct test; [by repeat case_decide|].
  case_decide; [|case_decide; [cbn [fst]; repeat constructor; apply toInt32_range|done]].
  cbn [fst]. repeat (apply Forall_app_2); case_decide; repeat constructor.
Qed.

Lemma write_accesses_ok `{!BeagleLibOk} a v : Forall handler_access (write_accesses a v).
Proof.
  pose proof (toInt32_range v) as Hv. unfold in_s in Hv.
  unfold write_accesses, int32WriteAccessHandler. destruct (MmsValue_toInt32 v <? 0) eqn:Hneg;
    [by repeat constructor|]. gw_bool.
  repeat case_decide; cbn [fst app]; repeat constructor; simpl; lia.
Qed.

(** Every request: its answer, the lock, and the handler that begins. *)
Lemma operate_spec obj sixth v test now s x :
  iedServer s = Some x → installed x → job s = [] →
  ∃ ok, operate obj sixth v test now s =
      (Done ok, set_job (if ok : bool then operation_accesses obj v test now else [])
                  (job_cnt s) (checked obj sixth s)) ∧
    (obj ∈ guarded → ok = passes obj sixth test s).
Proof.
  intros Hx Hi Hj. pose proof Hi as (H1 & H2 & _). unfold operate. rewrite Hx, H1.
  assert (∀ s0, job s0 = [] → job_cnt s0 = job_cnt s → set_job [] (job_cnt s) s0 = s0) as Hnone.
  { intros [] Hj0 Hc0. simpl in *. by subst. }
  destruct (checked_fields obj sixth s) as (_ & _ & _ & Hjc & Hcc & _).
  destruct (decide (obj ∈ guarded)) as [Hg|Hg].
  - exists (passes obj sixth test s). split; [|done].
    rewrite (prog_bind_eq _ _ _ _ _ (performCheck_eq obj test sixth s Hg)).
    destruct (passes obj sixth test s); [|by rewrite Hnone by congruence].
    rewrite find_guarded by done. unfold operation_accesses. rewrite decide_True by done.
    pose proof (binary_output_ok now obj v test) as Hr.
    destruct (controlHandlerForBinaryOutput now obj v test) as [l r]. simpl in Hr. subst r.
    unfold begin_job. erewrite prog_bind_eq by reflexivity. cbn [fst]. by rewrite Hcc.
  - assert (checked obj sixth s = s) as -> by (unfold checked; by rewrite decide_False).
    erewrite prog_bind_eq by reflexivity. rewrite H2. cbn [List.find fst].
    destruct (decide (iedModel_GenericIO_TIM_GAPC1_OpCntRs = obj)) as [<-|Hne].
    + rewrite bool_decide_eq_true_2 by done. exists true. split; [|done].
      unfold operation_accesses. rewrite decide_False, decide_True by done.
      pose proof (int32_control_ok iedModel_GenericIO_TIM_GAPC1_OpCntRs v test) as Hr.
      destruct (controlHandlerForInt32Controls _ v test) as [l r]. simpl in Hr. by subst r.
    + rewrite bool_decide_eq_false_2 by done.
      assert (List.find (λ h : addr * (control_handler * addr), bool_decide (h.1 = obj))
                ((λ a, (a, (HBinaryOutput, a))) <$> guarded) = None) as ->.
      { revert Hg. generalize guarded as g. induction g as [|a g IH]; intros Hobj; [done|].
        apply not_elem_of_cons in Hobj as [Ha Hobj]. cbn [fmap list_fmap List.find fst].
        rewrite bool_decide_eq_false_2 by done. by apply IH. }
      exists (no_handler obj). split; [|done]. unfold operation_accesses.
      rewrite decide_False, decide_False by done. by destruct (no_handler obj); rewrite Hnone.
Qed.

Lemma handle_operate `{!BeagleLibOk} obj con sixth v test now s :
  server_ok s → serving s →
  ∃ ok, let s' := set_job (if ok : bool then operation_accesses obj v test now else [])
                    (job_cnt s) (checked obj sixth s) in
    handle (EOperate obj con sixth v test now) s = (Done (AControl ok), s') ∧
    after (EOperate obj con sixth v test now) (AControl ok) s s'.
Proof.
  intros Hs Hv. destruct (serving_open s Hs Hv) as (x & Hx & Hok & Hj & Hpc & Hstop).
  destruct (operate_spec obj sixth v test now s x Hx (ok_handlers _ _ Hok) Hj) as (ok & Hrun & Hans).
  destruct (checked_fields obj sixth s) as (Hx' & Hl & Hln & Hjc & Hcc & Hop & Hon & Hoff).
  exists ok. cbv zeta. split; [by apply (prog_run _ _ _ _ _ _ Hrun)|]. constructor.
  - unfold server_ok. cbn [iedServer set_job loc]. rewrite Hx', Hx, Hl. split; [|done].
    assert (beagle_ok (checked obj sixth s) x) as Hok'.
    { unfold checked. case_decide; [|done]. destruct (controllingClient s); [done|].
      by apply ok_set_control. }
    rewrite <- Hcc. apply ok_begin; [done|by rewrite Hl|].
    destruct ok; [apply operation_accesses_ok|constructor].
  - apply (lock_checked obj con sixth v test now).
  - cbn [lines set_job]. by rewrite Hln, app_nil_r.
  - exact Hl.
  - cbn [job set_job job_after]. by destruct ok.
  - apply data_same; cbn [opCnt ledOnTimeMs ledOffTimeMs job_cnt set_job]; try done.
    intros y y' Hy Hy'. cbn [iedServer set_job] in Hy'. left. congruence.
  - intros Hg. by rewrite Hans.
Qed.

Lemma handle_write `{!BeagleLibOk} a v s :
  server_ok s → serving s →
  ∃ r s', handle (EWrite a v) s = (Done (AWrite r), s') ∧ after (EWrite a v) (AWrite r) s s'.
Proof.
  intros Hs Hv. destruct (serving_open s Hs Hv) as (x & Hx & Hok & Hj & Hpc & Hstop).
  pose proof (ok_handlers _ _ Hok) as (_ & _ & H3).
  assert (∀ r l, Forall handler_access l → l = job_after (EWrite a v) (AWrite r) s →
    (r = DATA_ACCESS_ERROR_SUCCESS → (int32WriteAccessHandler a v).2 = r) →
    after (EWrite a v) (AWrite r) s (set_job l (job_cnt s) s)) as Hafter.
  { intros r l Hl Hja Hr. constructor; try done.
    - unfold server_ok. cbn [iedServer set_job loc]. rewrite Hx. split; [|done]. by apply ok_begin.
    - by rewrite app_nil_r.
    - apply data_same; try done. intros y y' Hy Hy'. cbn [iedServer set_job] in Hy'. left. congruence.
    - intros [= ->]. by apply Hr. }
  assert (set_job [] (job_cnt s) s = s) as Hnone by (destruct s; simpl in *; by subst).
  cbn [handle]. destruct (decide (a ∈ write_handlers x)) as [Ha|Ha].
  - destruct (int32WriteAccessHandler a v) as [l r] eqn:Hh. exists r. eexists. split.
    { eapply prog_run; [|reflexivity]. unfold write_access. rewrite Hx, decide_True by done.
      rewrite Hh. reflexivity. }
    apply Hafter.
    + pose proof (write_accesses_ok a v) as Hw. unfold write_accesses in Hw. rewrite Hh in Hw.
      apply Forall_app in Hw as [Hl Hu]. apply Forall_app_2; [done|]. by case_decide.
    + unfold job_after. destruct r; cbn [decide].
      * unfold write_accesses. by rewrite Hh.
      * rewrite decide_False by done. rewrite Hj, app_nil_r.
        unfold int32WriteAccessHandler in Hh. by repeat case_match; simplify_eq.
      * rewrite decide_False by done. rewrite Hj, app_nil_r.
        unfold int32WriteAccessHandler in Hh. by repeat case_match; simplify_eq.
    + done.
  - exists DATA_ACCESS_ERROR_OBJECT_ACCESS_DENIED, s. split.
    { eapply prog_run; [|reflexivity]. unfold write_access. by rewrite Hx, decide_False by done. }
    rewrite <- Hnone at 2. by apply Hafter.
Qed.

(** *** Accesses of the handler and of the main thread *)

Lemma accessed_data ev now c y s x s' :
  iedServer s = Some x → access_of ev s = Some (now, c, y) →
  (match iedServer s' with Some x' => attributes x' = attributes (server_after now c y x) | None => False end) →
  opCnt s' = opCnt_after c y (opCnt s) → ledOnTimeMs s' = on_after y (ledOnTimeMs s) →
  ledOffTimeMs s' = off_after y (ledOffTimeMs s) →
  job_cnt s' = match ev with EJob _ => read_after c y (opCnt s) | _ => job_cnt s end →
  data_after ev s s'.
Proof.
  intros Hx Ha Hs' H1 H2 H3 H4 x0 x' Hx0 Hx'. rewrite Ha. cbv zeta beta iota.
  rewrite Hx in Hx0. injection Hx0 as <-. rewrite Hx' in Hs'. rewrite Hs'.
  split_and!; try done.
Qed.

Lemma handle_job now s :
  server_ok s → job s ≠ [] →
  ∃ s', handle (EJob now) s = (Done ANone, s') ∧ after (EJob now) ANone s s'.
Proof.
  intros Hs Hj. unfold server_ok in Hs. destruct (iedServer s) as [x|] eqn:Hx; [|by destruct Hs].
  destruct Hs as [Hok Hpc]. destruct (job s) as [|y l] eqn:Hjob; [done|].
  pose proof (ok_job _ _ Hok) as Hall. rewrite Hjob in Hall. apply Forall_cons in Hall as [Hy Hl].
  assert (Hrun : run_access now (job_cnt s) y s = (Done (read_after (job_cnt s) y (opCnt s)),
            accessed now (job_cnt s) y s x)).
  { apply run_access_eq; [done|]. by intros ->. }
  eexists. split.
  { cbn [handle]. unfold job_step. eapply prog_run; [|reflexivity].
    erewrite prog_bind_eq by reflexivity. rewrite Hjob. rewrite (prog_bind_eq _ _ _ _ _ Hrun). reflexivity. }
  destruct (server_after_fields now (job_cnt s) y x) as (E1 & E2 & E3 & E4).
  constructor; try done.
  - unfold server_ok. cbn. split; [|done]. destruct Hok.
    constructor; cbn; rewrite ?E4; try done.
    + unfold installed. rewrite E1, E2, E3. done.
    + intros Hp. specialize (ok_stopped0 Hp). congruence.
    + by destruct y.
    + by destruct y.
    + by destruct y.
    + by destruct y.
  - cbn [lines set_job accessed]. unfold event_lines. cbn [access_of]. by rewrite Hjob.
  - cbn [job set_job job_after]. by rewrite Hjob.
  - eapply accessed_data; [exact Hx|cbn [access_of]; by rewrite Hjob|done..].
Qed.

(** The result of a step of the main thread. *)
Lemma step_after now s s' x' :
  iedServer s' = Some x' → beagle_ok s' x' → pc (loc s') ≠ LEnd → lock s' = lock s →
  lines s' = lines s ++ event_lines (EStep now) s → loc s' = next_loc now s → job s' = job s →
  data_after (EStep now) s s' → after (EStep now) ANone s s'.
Proof. intros Hx Hok Hp Hl Hln Hloc Hj Hd. constructor; try done. unfold server_ok. by rewrite Hx. Qed.

Lemma handle_run now y l ct s x :
  iedServer s = Some x → beagle_ok s x → pc (loc s) = LRun (y :: l) ct →
  (y = ACntInc ∧ cnt_read (loc s) = 2 ^ 31 - 1 ∧
   (handle (EStep now) s).1 = Undef "signed overflow: opCnt++") ∨
  ∃ s', handle (EStep now) s = (Done ANone, s') ∧ after (EStep now) ANone s s'.
Proof.
  intros Hx Hok Hpc. assert (todo s = y :: l) as Ht by by (unfold todo; rewrite Hpc).
  destruct (todo_ok s x y l Hok Ht) as [Hy Hpre].
  pose proof (ok_read _ _ Hok) as Hread. unfold in_s in Hread.
  assert ((y = ACntInc ∧ ¬ cnt_read (loc s) + 1 < 2 ^ 31) ∨
          (y = ACntInc → cnt_read (loc s) + 1 < 2 ^ 31)) as [[-> Hov]|Hno].
  { destruct y; try (by right). destruct (decide (cnt_read (loc s) + 1 < 2 ^ 31)); [by right|by left]. }
  { left. split; [done|]. split; [lia|]. cbn [handle].
    assert (loop_step now s = (Undef "signed overflow: opCnt++", s)) as Hstep.
    { unfold loop_step. erewrite prog_bind_eq by reflexivity. rewrite Hpc.
      by rewrite (prog_bind_fail _ _ _ _ _ (run_access_overflow now _ s Hov)). }
    by rewrite (prog_bind_fail _ _ _ _ _ Hstep). }
  right.
  assert (Hrun : run_access now (cnt_read (loc s)) y s =
     (Done (read_after (cnt_read (loc s)) y (opCnt s)), accessed now (cnt_read (loc s)) y s x)).
  { by apply run_access_eq. }
  eexists. split.
  { cbn [handle]. unfold loop_step. eapply prog_run; [|reflexivity].
    erewrite prog_bind_eq by reflexivity. rewrite Hpc. rewrite (prog_bind_eq _ _ _ _ _ Hrun). reflexivity. }
  destruct (server_after_fields now (cnt_read (loc s)) y x) as (E1 & E2 & E3 & E4).
  eapply step_after; [reflexivity| |done|done| | |done|].
  - destruct Hok. constructor; cbn; rewrite ?E4; try done.
    + unfold installed. rewrite E1, E2, E3. done.
    + by rewrite ok_listening0, Hpc.
    + by destruct y.
    + by destruct y.
    + unfold in_s in *. destruct y; try done. simpl. specialize (Hno eq_refl). lia.
    + by destruct y.
  - cbn. unfold event_lines. cbn [access_of]. by rewrite Ht.
  - unfold next_loc. by rewrite Hpc.
  - eapply accessed_data; [exact Hx|cbn [access_of]; by rewrite Ht|done..].
Qed.

(** A step of the main thread that is none of the accesses of a toggle. *)
Lemma local_step now s s' x x' :
  iedServer s = Some x → beagle_ok s x → todo s = [] →
  iedServer s' = Some x' → installed x' → listening x' = match pc (loc s') with LStop => false | _ => true end →
  analog_only x x' → loc s' = next_loc now s → cnt_read (loc s') = cnt_read (loc s) → pc (loc s') ≠ LEnd →
  (pc (loc s') = LStop → job s = []) →
  (∃ led ct pre, toggle_accesses led ct = pre ++ todo s') →
  lock s' = lock s → lines s' = lines s → job s' = job s → job_cnt s' = job_cnt s →
  opCnt s' = opCnt s → ledOnTimeMs s' = ledOnTimeMs s → ledOffTimeMs s' = ledOffTimeMs s →
  after (EStep now) ANone s s'.
Proof.
  intros Hx [] Ht Hx' Hi Hl Hb Hloc Hc Hp Hst Htd Hlk Hln Hj Hjc Hop Hon Hoff.
  eapply step_after; try done.
  - constructor; try congruence. intros Hs. rewrite Hj. by apply Hst.
  - rewrite Hln. unfold event_lines. cbn [access_of]. by rewrite Ht, app_nil_r.
  - apply data_same; try done; [cbn [access_of]; by rewrite Ht|].
    intros y y' Hy Hy'. rewrite Hx in Hy. rewrite Hx' in Hy'. by simplify_eq.
Qed.

Lemma todo_goto p c s : todo (goto p c s) = match p with LRun l _ => l | _ => [] end.
Proof. done. Qed.

Lemma handle_analog now ct s x :
  iedServer s = Some x → beagle_ok s x → pc (loc s) = LAnalog ct →
  ∃ s', handle (EStep now) s = (Done ANone, s') ∧ after (EStep now) ANone s s'.
Proof.
  intros Hx Hok Hpc. set (f := f32_add (t (loc s)) f32_tenth).
  set (l := analog_updates f ct).
  set (s1 := set_loc {| pc := LTop; t := f; ledStateValue := ledStateValue (loc s);
                        nextLedToggleTime := nextLedToggleTime (loc s); cnt_read := cnt_read (loc s) |} s).
  pose proof (run_updates l s1 x Hx) as Hrun.
  exists (set_srv (Some (foldl (λ x p, update p.1 p.2 x) x l)) s1). split.
  { cbn [handle]. unfold loop_step. eapply prog_run; [|reflexivity].
    erewrite prog_bind_eq by reflexivity. rewrite Hpc. unfold analog.
    do 2 (erewrite prog_bind_eq by reflexivity). exact Hrun. }
  destruct (foldl_update_other l x) as (E1 & E2 & E3 & E4 & _).
  pose proof (ok_handlers _ _ Hok) as (H1 & H2 & H3). pose proof (ok_listening _ _ Hok) as Hl.
  rewrite Hpc in Hl.
  eapply local_step; [exact Hx|exact Hok|unfold todo; by rewrite Hpc|reflexivity| | |right; by exists f, ct|..];
    try done.
  - unfold next_loc. by rewrite Hpc.
  - apply nothing_todo.
Qed.

(** A step of the main thread: it is defined, but for the overflow. *)
Lemma handle_step opened now s :
  server_ok s → enabled opened s (EStep now) →
  ((∃ l ct, pc (loc s) = LRun (ACntInc :: l) ct) ∧ cnt_read (loc s) = 2 ^ 31 - 1 ∧
     (handle (EStep now) s).1 = Undef "signed overflow: opCnt++") ∨
  ∃ s', handle (EStep now) s = (Done ANone, s') ∧ after (EStep now) ANone s s'.
Proof.
  intros Hs Hen. unfold server_ok in Hs. destruct (iedServer s) as [x|] eqn:Hx.
  2:{ destruct Hs as [Hp _]. simpl in Hen. by rewrite Hp in Hen. }
  destruct Hs as [Hok Hend].
  pose proof (ok_handlers _ _ Hok) as Hi. pose proof (ok_listening _ _ Hok) as Hl.
  assert (∀ p, handle (EStep now) s = (Done ANone, goto p (cnt_read (loc s)) s) →
    todo s = [] → next_loc now s = loc (goto p (cnt_read (loc s)) s) → p ≠ LEnd → p ≠ LStop →
    pc (loc s) ≠ LStop → match p with LRun _ _ => False | _ => True end →
    ∃ s', handle (EStep now) s = (Done ANone, s') ∧ after (EStep now) ANone s s') as Hgoto.
  { intros p Hh Ht Hn He Hp Hp' Hr. eexists. split; [exact Hh|].
    eapply local_step; [exact Hx|exact Hok|exact Ht|exact Hx|exact Hi|..]; try done; try (by left).
    - rewrite Hl. simpl. by destruct p, (pc (loc s)).
    - rewrite todo_goto. destruct p; try done; apply nothing_todo. }
  destruct (pc (loc s)) as [|ct|[|y l] ct|ct| |] eqn:Hpc; [| | | | | |done].
  - right. assert (todo s = []) as Ht by by (unfold todo; rewrite Hpc).
    destruct (running s) eqn:Hr; [destruct (automaticOperationMode s && (nextLedToggleTime (loc s) <=? now)) eqn:Hm|].
    + apply (Hgoto (LBlink now)); try done.
      * cbn [handle]. unfold loop_step. eapply prog_run; [|reflexivity].
        erewrite prog_bind_eq by reflexivity. by rewrite Hpc, Hr, Hm.
      * unfold next_loc. by rewrite Hpc, Hr, Hm.
    + apply (Hgoto (LAnalog now)); try done.
      * cbn [handle]. unfold loop_step. eapply prog_run; [|reflexivity].
        erewrite prog_bind_eq by reflexivity. by rewrite Hpc, Hr, Hm.
      * unfold next_loc. by rewrite Hpc, Hr, Hm.
    + simpl in Hen. rewrite Hpc, Hr in Hen. destruct Hen as [?|Hj]; [done|].
      eexists. split.
      { cbn [handle]. unfold loop_step. eapply prog_run; [|reflexivity].
        erewrite prog_bind_eq by reflexivity. rewrite Hpc, Hr. unfold set_listening.
        eapply prog_run; [by apply on_server_eq|reflexivity]. }
      eapply local_step; [exact Hx|exact Hok|exact Ht|reflexivity|exact Hi|..];
        try done; try (by left); try apply nothing_todo; unfold next_loc; rewrite ?Hpc, ?Hr; try done.
  - right. eexists. split.
    { cbn [handle]. unfold loop_step. eapply prog_run; [|reflexivity].
      erewrite prog_bind_eq by reflexivity. rewrite Hpc. unfold blink.
      erewrite prog_bind_eq by reflexivity. reflexivity. }
    eapply local_step; [exact Hx|exact Hok|unfold todo; by rewrite Hpc|exact Hx|exact Hi|..];
      try done; [by left|unfold next_loc; by rewrite Hpc|by eexists _, _, []].
  - right. apply (Hgoto (LAnalog ct)); try done.
    + cbn [handle]. unfold loop_step. eapply prog_run; [|reflexivity].
      erewrite prog_bind_eq by reflexivity. by rewrite Hpc.
    + unfold todo. by rewrite Hpc.
    + unfold next_loc. by rewrite Hpc.
  - destruct (handle_run now y l ct s x Hx Hok Hpc) as [(-> & Hc & Hu)|Hs'].
    + left. split; [by eexists _, _|done].
    + by right.
  - right. by eapply handle_analog.
  - right. pose proof (ok_stopped _ _ Hok Hpc) as Hj. eexists. split.
    { cbn [handle]. unfold loop_step. eapply prog_run; [|reflexivity].
      erewrite prog_bind_eq by reflexivity. rewrite Hpc. erewrite prog_bind_eq by reflexivity. reflexivity. }
    constructor; try done.
    + unfold event_lines. cbn [access_of]. unfold todo. rewrite Hpc. cbn. by rewrite app_nil_r.
    + cbn [loc_after]. unfold next_loc. by rewrite Hpc.
Qed.

(** An event of the library or of the main thread: the counter overflows, or
    it is handled, and this is what it does. *)
Lemma handle_spec `{!BeagleLibOk} opened s ev :
  server_ok s → enabled opened s ev →
  ((∃ now, ev = EStep now) ∧ (∃ l ct, pc (loc s) = LRun (ACntInc :: l) ct) ∧
     cnt_read (loc s) = 2 ^ 31 - 1 ∧ (handle ev s).1 = Undef "signed overflow: opCnt++") ∨
  ∃ a s', handle ev s = (Done a, s') ∧ after ev a s s'.
Proof.
  intros Hs Hen. destruct ev as [con connected|obj con sixth v test now|now|a v|now|].
  - right. exists ANone. apply handle_connection; [done|]. by destruct connected; destruct Hen.
  - right. destruct (handle_operate obj con sixth v test now s Hs (proj1 Hen)) as (ok & ?).
    by eexists _, _.
  - right. exists ANone. by apply handle_job.
  - right. destruct (handle_write a v s Hs Hen) as (r & s' & ?). by exists (AWrite r), s'.
  - destruct (handle_step opened now s Hs Hen) as [(? & ? & ?)|(s' & ?)];
      [left; split; [by eexists|done]|right; by exists ANone, s'].
  - right. exists ANone, (set_running false s). split; [done|]. constructor; try done.
    + unfold server_ok in *. simpl. destruct (iedServer s); [|done].
      split; [|apply Hs]. destruct Hs as [[] _]. by constructor.
    + by rewrite app_nil_r.
    + apply data_same; try done. intros y y' Hy Hy'. cbn in Hy'. left. congruence.
Qed.

(** *** The start *)

Lemma service_start_eq now :
  ∃ s x, service_start true now beagle_new = (Done true, s) ∧ s =
    set_loc {| pc := LTop; t := S754_zero false; ledStateValue := false;
               nextLedToggleTime := wrap_u 64 (now + 1000); cnt_read := 0 |}
      (set_running true (set_srv (Some x)
        (print_line (SWITCH LED4 0) (print_line (SWITCH LED3 0)
          (print_line (SWITCH LED2 0) (print_line (SWITCH LED1 0) beagle_new)))))) ∧
    installed x ∧ listening x = true ∧
    attributes x = <[iedModel_GenericIO_TIM_GAPC1_RsDlTmms_setVal := AvInt32 1000]>
      (<[iedModel_GenericIO_TIM_GAPC1_OpDlTmms_setVal := AvInt32 1000]>
      (<[iedModel_GenericIO_GGIO1_DPCSO1_stVal := AvBitString (bits_little_endian 1)]> ∅)).
Proof.
  eexists _, _. split.
  { unfold service_start, run_accesses, initLEDs. cbn [negb]. run_prog. }
  split; [reflexivity|]. split; [split_and!; reflexivity|]. split; reflexivity.
Qed.
End Lemmas.
