(* ===== verification/BeagleControl.v ===== *)
(** * Who controls the demonstration server, and what its LEDs show

    Theorems about the traces of [BeagleServer]: any interleaving of the
    connections, requests, accesses of the handlers and steps of the main
    thread.  They hold whatever value the check handler finds as its connection
    (the sixth value of a request), but where a condition on it is stated.  What
    the two threads both update is right when they do not update it at the same
    time ([never_both]); [status_can_differ] shows what happens otherwise. *)

From Stdlib Require Import ZArith String SpecFloat Lia.
From stdpp Require Import base tactics option list numbers strings gmap sorting.
From S2P Require Import Prelude IedModel StaticModelData BeagleServer.
#[local] Open Scope Z_scope.

(** The process when the main loop begins. *)
Definition started `{BeagleLib} (now : Z) : beagle := (service_start true now beagle_new).2.

(** The handler that wants six arguments gets the right one. *)
Definition honest `{BeagleLib} (ev : event) : Prop :=
  match ev with EOperate _ con sixth _ _ _ => sixth = Some con | _ => True end.

(** The times that the steps of the main thread read. *)
Definition step_times `{BeagleLib} (l : list (event * answer)) : list Z :=
  omap (λ p, match p.1 with EStep now => Some now | _ => None end) l.

(** The lines of a command, and those of the accepted commands among requests. *)
Definition command_lines (obj : addr) (b : bool) : list led_line :=
  if decide (obj = iedModel_GenericIO_GGIO1_SPCSO1) then [SWITCH LED1 (Z.b2z b)]
  else if decide (obj = iedModel_GenericIO_GGIO1_SPCSO2) then [SWITCH LED2 (Z.b2z b)]
  else if decide (obj = iedModel_GenericIO_GGIO1_SPCSO3) then [SWITCH LED3 (Z.b2z b)]
  else if decide (obj = iedModel_GenericIO_GGIO1_DPCSO1) then [FLASH LED4; SWITCH4 LED4 b]
  else [].

Definition accepted_lines `{BeagleLib} (p : event * answer) : list led_line :=
  match p with
  | (EOperate obj _ _ v _ _, AControl true) => command_lines obj (MmsValue_getBoolean v)
  | _ => []
  end.

(** An accepted command on a guarded object has [k] as its sixth value. *)
Definition accepted_by `{BeagleLib} (k : ClientConnection) (p : event * answer) : Prop :=
  match p with
  | (EOperate obj _ sixth _ _ _, AControl true) => obj ∈ guarded → sixth = k
  | _ => True
  end.

(** The event leaves the control with [k]: it is not the end of that connection
    and, if [k] is NULL, no check that finds something else. *)
Definition keeps `{BeagleLib} (k : ClientConnection) (ev : event) : Prop :=
  match ev with
  | EConnection c false => Some c ≠ k
  | EOperate obj _ sixth _ _ _ => k = None → obj ∈ guarded → sixth = None
  | _ => True
  end.

(** The lines that the running handler has still to print. *)
Definition printed (l : list access) : list led_line := flat_map prints l.

(** The main thread is not in the middle of a toggle. *)
Definition not_toggling (s : beagle) : Prop :=
  match pc (loc s) with LBlink _ | LRun _ _ => False | _ => True end.

(** *** Accesses to one output *)

Definition of_led (led : string) (stVal : addr) (y : access) : bool :=
  match y with
  | APrint (SWITCH led' _) => bool_decide (led' = led)
  | AUpdate a _ => bool_decide (a = stVal)
  | _ => false
  end.

Definition of_counter (y : access) : bool :=
  match y with
  | ACntStore _ | ACntLoad | ACntInc | ACntShow => true
  | AUpdate a _ => bool_decide (a = iedModel_GenericIO_TIM_GAPC1_OpCntRs_stVal)
  | _ => false
  end.

(** A thread has such an access still to do; both have. *)
Definition pending (f : access → bool) (l : list access) : bool := existsb f l.
Definition both_pending (f : access → bool) (s : beagle) : bool := pending f (todo s) && pending f (job s).
Definition none_pending (f : access → bool) (s : beagle) : bool := negb (pending f (todo s) || pending f (job s)).

(** In no state of the run, from its first to its last one, are both threads
    updating the output. *)
Definition never_both `{BeagleLib} (f : access → bool) (s : beagle) (op : gset nat)
    (l : list (event * answer)) : Prop :=
  ∀ l1 s1 op1, l1 `prefix_of` l → trace s op l1 s1 op1 → both_pending f s1 = false.

(** *** Running a list of events with the answers expected *)

#[export] Instance serving_dec s : Decision (serving s).
Proof. unfold serving. destruct (iedServer s); apply _. Defined.

Definition enabledb `{BeagleLib} (opened : gset nat) (s : beagle) (ev : event) : bool :=
  match ev with
  | EConnection con true => bool_decide (serving s) && bool_decide (con ∉ opened)
  | EConnection con false | EOperate _ con _ _ _ _ => bool_decide (serving s) && bool_decide (con ∈ opened)
  | EJob _ => negb (bool_decide (job s = []))
  | EWrite _ _ => bool_decide (serving s)
  | EStep _ =>
      match pc (loc s) with
      | LTop => running s || bool_decide (job s = [])
      | LAnalog _ => bool_decide (job s = [])
      | LEnd => false
      | _ => true
      end
  | ESigint => true
  end.

Fixpoint exec `{BeagleLib} (s : beagle) (opened : gset nat) (l : list (event * answer))
    : option (beagle * gset nat) :=
  match l with
  | [] => Some (s, opened)
  | (ev, a) :: l' =>
      if enabledb opened s ev then
        match handle ev s with
        | (Done a', s') => if decide (a' = a) then exec s' (opened_after ev opened) l' else None
        | _ => None
        end
      else None
  end.

(** [never_both] for such a list. *)
Fixpoint never_bothb `{BeagleLib} (f : access → bool) (s : beagle) (l : list (event * answer)) : bool :=
  negb (both_pending f s) &&
  match l with
  | [] => true
  | (ev, _) :: l' => match handle ev s with (Done _, s') => never_bothb f s' l' | _ => true end
  end.

(** ** Lemmas *)

Section Lemmas.
Context `{BeagleLib, !BeagleLibOk}.

Lemma started_eq now :
  ∃ x, iedServer (started now) = Some x ∧ beagle_ok (started now) x ∧
    job (started now) = [] ∧ lock (started now) = (true, None) ∧
    pc (loc (started now)) = LTop ∧
    lines (started now) = [SWITCH LED1 0; SWITCH LED2 0; SWITCH LED3 0; SWITCH LED4 0] ∧
    opCnt (started now) = 0 ∧ ledOnTimeMs (started now) = 1000 ∧ ledOffTimeMs (started now) = 1000 ∧
    attributes x = <[iedModel_GenericIO_TIM_GAPC1_RsDlTmms_setVal := AvInt32 1000]>
      (<[iedModel_GenericIO_TIM_GAPC1_OpDlTmms_setVal := AvInt32 1000]>
      (<[iedModel_GenericIO_GGIO1_DPCSO1_stVal := AvBitString (bits_little_endian 1)]> ∅)).
Proof.
  unfold started. destruct (service_start_eq now) as (s & x & -> & -> & Hi & Hl & Hx).
  exists x. cbn [snd]. split; [reflexivity|]. split; [|done].
  constructor; simpl; try done. apply nothing_todo.
Qed.

Lemma started_ok now : server_ok (started now).
Proof.
  destruct (started_eq now) as (x & Hx & Hok & _ & _ & Hpc & _). unfold server_ok.
  rewrite Hx, Hpc. done.
Qed.

Lemma trace_app s op l1 s1 op1 l2 s2 op2 :
  trace s op l1 s1 op1 → trace s1 op1 l2 s2 op2 → trace s op (l1 ++ l2) s2 op2.
Proof. induction 1; intros; simpl; [done|econstructor; eauto]. Qed.

Lemma trace_app_inv s op l1 l2 s2 op2 :
  trace s op (l1 ++ l2) s2 op2 → ∃ s1 op1, trace s op l1 s1 op1 ∧ trace s1 op1 l2 s2 op2.
Proof.
  revert s op. induction l1 as [|p l1 IH]; intros s op Ht; simpl in *.
  { eexists _, _. split; [constructor|done]. }
  inversion Ht as [|? ? ev a s1 ? ? ? Hen Hh Ht']; subst.
  destruct (IH _ _ Ht') as (s3 & op3 & H1 & H2). exists s3, op3. split; [|done]. by econstructor.
Qed.

(** An event that is handled does what [handle_spec] says. *)
Lemma handle_after op s ev a s' :
  server_ok s → enabled op s ev → handle ev s = (Done a, s') → after ev a s s'.
Proof.
  intros Hs Hen Hh.
  destruct (handle_spec op s ev Hs Hen) as [(_ & _ & _ & Hu)|(a' & s1 & Hh' & Ha)].
  - by rewrite Hh in Hu.
  - rewrite Hh in Hh'. by simplify_eq.
Qed.

(** What every handled event preserves holds at the end of a trace. *)
Lemma trace_ind_after (P : beagle → Prop) (Q : event * answer → Prop) s op l s2 op2 :
  (∀ s ev a s', P s → Q (ev, a) → after ev a s s' → P s') →
  server_ok s → P s → Forall Q l → trace s op l s2 op2 → server_ok s2 ∧ P s2.
Proof.
  intros Hstep Hs HP HQ Ht. revert Hs HP HQ.
  induction Ht as [|s op ev a s1 l s2 op2 Hen Hh Ht IH]; intros Hs HP HQ; [done|].
  apply Forall_cons in HQ as [HQ1 HQ]. pose proof (handle_after _ _ _ _ _ Hs Hen Hh) as Ha.
  apply IH; [apply Ha|by eapply Hstep|done].
Qed.

Lemma trace_ok s op l s2 op2 : server_ok s → trace s op l s2 op2 → server_ok s2.
Proof.
  intros Hs Ht.
  refine (proj1 (trace_ind_after (λ _, True) (λ _, True) s op l s2 op2 _ Hs I _ Ht)); [done|].
  by apply Forall_true.
Qed.

Lemma exec_trace l s op s2 op2 : exec s op l = Some (s2, op2) → trace s op l s2 op2.
Proof.
  revert s op. induction l as [|[ev a] l IH]; intros s op He; simpl in He; [simplify_eq; constructor|].
  destruct (enabledb op s ev) eqn:Hen; [|done].
  destruct (handle ev s) as [[a'| |] s1] eqn:Hh; try done. case_decide; [subst|done].
  econstructor; [|done|by apply IH].
  destruct ev as [c []| | | | |]; simpl in Hen |- *; gw_bool; try done.
  destruct (pc (loc s)); try done.
  - apply orb_true_iff in Hen as [|Hj%bool_decide_eq_true]; auto.
  - by apply bool_decide_eq_true in Hen.
Qed.

Lemma trace_det s op l s1 op1 s2 op2 :
  trace s op l s1 op1 → trace s op l s2 op2 → s1 = s2 ∧ op1 = op2.
Proof.
  intros H1. revert s2 op2. induction H1 as [|s op ev a s1 l s3 op3 _ Hh _ IH]; intros s2 op2 H2.
  { by inversion H2. }
  inversion H2 as [|? ? ? ? s1' ? ? ? _ Hh' H2']; subst. rewrite Hh in Hh'. simplify_eq. by apply IH.
Qed.

(** *** The lock *)

Lemma lock_pair s m c : lock s = (m, c) → automaticOperationMode s = m ∧ controllingClient s = c.
Proof. unfold lock. by intros [= -> ->]. Qed.

(** While somebody is in control the mode is not automatic. *)
Definition mode_ok (s : beagle) : Prop := controllingClient s ≠ None → automaticOperationMode s = false.

Lemma mode_step s ev a s' : mode_ok s → True → after ev a s s' → mode_ok s'.
Proof.
  unfold mode_ok. intros Hm _ Ha. pose proof (after_lock _ _ _ _ Ha) as Hl.
  assert (lock s' = lock s ∨ controllingClient s' = None ∨ automaticOperationMode s' = false)
    as [Hs|[Hn|Hn]].
  2:{ by apply lock_pair in Hs as [-> ->]. }
  2:{ by rewrite Hn. }
  2:{ done. }
  destruct ev as [con []|obj con sixth v test t|t|a' v|t|]; try (by left); simpl in Hl.
  - case_decide; [|by left]. apply lock_pair in Hl as [_ ->]. auto.
  - case_decide; [|by left]. destruct (controllingClient s); [by left|].
    apply lock_pair in Hl as [-> _]. auto.
Qed.

Lemma started_mode now : mode_ok (started now).
Proof.
  destruct (started_eq now) as (x & _ & _ & _ & Hl & _). apply lock_pair in Hl as [_ Hc].
  unfold mode_ok. by rewrite Hc.
Qed.

Lemma reached_mode now l s op : trace (started now) ∅ l s op → server_ok s ∧ mode_ok s.
Proof.
  intros Ht. refine (trace_ind_after mode_ok (λ _, True) _ _ _ _ _ mode_step (started_ok now)
    (started_mode now) _ Ht). by apply Forall_true.
Qed.

(** While [k] keeps control the lock stays. *)
Lemma keeps_lock k s ev a s' : lock s = (false, k) → keeps k ev → after ev a s s' → lock s' = (false, k).
Proof.
  intros Hl Hk Ha. rewrite (after_lock _ _ _ _ Ha), Hl.
  destruct ev as [con []|obj con sixth v test t|t|a' v|t|]; simpl in *; try done.
  - by rewrite decide_False by congruence.
  - case_decide as Hg; [|done]. destruct k; [done|]. by rewrite (Hk eq_refl Hg).
Qed.

(** While client [c] stays, the lock is its own. *)
Lemma kept_lock c s ev a s' :
  controllingClient s = Some c → ev ≠ EConnection c false → after ev a s s' → lock s' = lock s.
Proof.
  intros Hc Hne Ha. rewrite (after_lock _ _ _ _ Ha). unfold lock.
  destruct ev as [con []|obj con sixth v test t|t|a' v|t|]; simpl; rewrite ?Hc; try done.
  - by rewrite decide_False by congruence.
  - by case_decide.
Qed.

(** An accepted command on a guarded object comes from the one in control. *)
Lemma accepted_owner obj con sixth v test now s s' :
  obj ∈ guarded → after (EOperate obj con sixth v test now) (AControl true) s s' →
  test = false ∧ controllingClient s' = sixth ∧
  (controllingClient s = None ∨ controllingClient s = sixth).
Proof.
  intros Hg Ha. pose proof (after_answer _ _ _ _ Ha Hg) as Hp. injection Hp as Hp. symmetry in Hp.
  unfold passes in Hp. gw_bool. split; [done|].
  pose proof (f_equal snd (after_lock _ _ _ _ Ha)) as Hl. simpl in Hl. rewrite decide_True in Hl by done.
  rewrite Hl. unfold checked in *. rewrite decide_True in * by done.
  destruct (controllingClient s) eqn:Hc; simpl in *; [|by auto]. rewrite Hc in *. auto.
Qed.

Lemma closes_dec c (evs : list event) : EConnection c false ∈ evs ∨ EConnection c false ∉ evs.
Proof.
  induction evs as [|ev evs IH]; [right; apply not_elem_of_nil|].
  assert (EConnection c false = ev ∨ EConnection c false ≠ ev) as [->|Hne];
    [|left; by apply elem_of_cons; left|].
  { destruct ev as [c' []| | | | |]; try (by right). destruct (decide (c = c')) as [->|]; [by left|].
    right. congruence. }
  destruct IH as [IH|IH]; [left; by apply elem_of_cons; right|right; by apply not_elem_of_cons].
Qed.

(** The one in control stays in control through a trace without its closing. *)
Lemma kept_trace c s op l s2 op2 :
  server_ok s → controllingClient s = Some c → EConnection c false ∉ l.*1 →
  trace s op l s2 op2 → server_ok s2 ∧ controllingClient s2 = Some c.
Proof.
  intros Hs Hc Hl Ht.
  eapply (trace_ind_after (λ s, controllingClient s = Some c) (λ p, p.1 ≠ EConnection c false));
    [|done|done| |exact Ht].
  - intros s' ev a s'' Hc' Hne Ha. pose proof (kept_lock c _ _ _ _ Hc' Hne Ha) as Hl'.
    unfold lock in Hl'. congruence.
  - apply Forall_forall. intros p Hp Heq. apply Hl. apply list_elem_of_fmap. by exists p.
Qed.

(** *** What the threads have still to do to an output *)

Lemma pending_fold {V} (act : access → V → V) f l v :
  (∀ y v, f y = false → act y v = v) → pending f l = false → foldl (λ v y, act y v) v l = v.
Proof.
  intros Ho. revert v. induction l as [|y l IH]; intros v Hp; [done|]. simpl in *.
  apply orb_false_iff in Hp as [Hy Hl]. rewrite Ho by done. by apply IH.
Qed.

Lemma never_both_cons f s op ev a s1 l :
  enabled op s ev → handle ev s = (Done a, s1) → never_both f s op ((ev, a) :: l) →
  both_pending f s = false ∧ never_both f s1 (opened_after ev op) l.
Proof.
  intros Hen Hh Hn. split.
  - apply (Hn [] s op); [apply prefix_nil|constructor].
  - intros l1 s2 op2 Hl Ht. apply (Hn ((ev, a) :: l1) s2 op2); [by apply prefix_cons|by econstructor].
Qed.

Lemma never_bothb_ok f s op l : never_bothb f s l = true → never_both f s op l.
Proof.
  revert s op. induction l as [|[ev a] l IH]; intros s op Hn l1 s1 op1 Hl Ht; simpl in Hn;
    apply andb_true_iff in Hn as [Hb Hn]; apply negb_true_iff in Hb.
  { apply prefix_nil_inv in Hl as ->. by inversion Ht; subst. }
  destruct l1 as [|p l1]; [by inversion Ht; subst|].
  pose proof (prefix_cons_inv_1 _ _ _ _ Hl) as ->. apply prefix_cons_inv_2 in Hl.
  inversion Ht as [|? ? ? ? s2 ? ? ? Hen Hh Ht']; subst. rewrite Hh in Hn. by eapply IH.
Qed.

Lemma never_both_last f s op l s2 op2 : trace s op l s2 op2 → never_both f s op l → both_pending f s2 = false.
Proof. intros Ht Hn. by apply (Hn l s2 op2). Qed.

(** A successful request: what its handler does, by the object. *)
Definition request_accesses (ev : event) : option (list access) :=
  match ev with
  | EOperate obj _ _ v test now => Some (operation_accesses obj v test now)
  | EWrite a v =>
      if decide ((int32WriteAccessHandler a v).2 = DATA_ACCESS_ERROR_SUCCESS)
      then Some (write_accesses a v) else None
  | _ => None
  end.

(** The access of an event, and whether it is one of the main thread. *)
Definition acting (ev : event) (s : beagle) : option (bool * access) :=
  match ev with
  | EJob _ => (λ y, (false, y)) <$> head (job s)
  | EStep _ => (λ y, (true, y)) <$> head (todo s)
  | _ => None
  end.

(** How the two lists change. *)
Lemma lists_after op s ev a s' :
  server_ok s → enabled op s ev → after ev a s s' →
  (∃ y, acting ev s = Some (false, y) ∧ job s = y :: job s' ∧ todo s' = todo s) ∨
  (∃ y, acting ev s = Some (true, y) ∧ todo s = y :: todo s' ∧ job s' = job s) ∨
  acting ev s = None ∧
    ((∃ led ct, todo s = [] ∧ todo s' = toggle_accesses led ct ∧ job s' = job s) ∨
     (∃ l, request_accesses ev = Some l ∧ job s = [] ∧ job s' = l ∧ todo s' = todo s) ∨
     (todo s' = todo s ∧ job s' = job s)).
Proof.
  intros Hs Hen Ha. pose proof (after_loc _ _ _ _ Ha) as Hloc. pose proof (after_job _ _ _ _ Ha) as Hj.
  assert (serving s → job s = []) as Hserv.
  { unfold serving. destruct (iedServer s); [by intros [_ ?]|done]. }
  destruct ev as [con c|obj con sixth v test t|t|a' v|t|];
    unfold acting, todo in *; cbn [loc_after job_after request_accesses] in *; rewrite Hloc.
  - right; right. split; [done|]. right; right. done.
  - right; right. split; [done|]. right.
    destruct a as [|[]|]; try (by right). left. eexists. destruct Hen as [Hv _]. auto.
  - left. simpl in Hen. destruct (job s) as [|y l]; [done|]. exists y. by rewrite Hj.
  - right; right. split; [done|]. right.
    destruct a as [| |[]]; try (by right). left. eexists. rewrite decide_True; [auto|].
    by apply (after_answer _ _ _ _ Ha).
  - right. unfold next_loc. destruct (pc (loc s)) as [|ct|[|y l] ct|ct| |] eqn:Hpc; cbn [pc hd_error fmap option_fmap option_map].
    + right. split; [done|]. right; right. split; [|done]. destruct (running s); [|done]. by destruct (_ && _).
    + right. split; [done|]. left. by eexists _, _.
    + right. split; [done|]. right; right. done.
    + left. by eexists.
    + right. split; [done|]. right; right. done.
    + right. split; [done|]. right; right. done.
    + by simpl in Hen; rewrite Hpc in Hen.
  - right; right. split; [done|]. right; right. done.
Qed.

(** The server that an event leaves is one that it found. *)
Lemma server_before op s ev a s' x' :
  server_ok s → enabled op s ev → handle ev s = (Done a, s') → iedServer s' = Some x' →
  ∃ x, iedServer s = Some x.
Proof.
  intros Hs Hen Hh Hx'. destruct (iedServer s) as [x|] eqn:Hx; [by eexists|].
  unfold server_ok in Hs. rewrite Hx in Hs. destruct Hs as [Hpc Hj].
  destruct ev as [con []|obj con sixth v test t|t|a' v|t|]; simpl in Hen; unfold serving in Hen;
    rewrite ?Hx in Hen; try (by destruct Hen); try done.
  - by rewrite Hpc in Hen.
  - injection Hh as <- <-. change (iedServer s = Some x') in Hx'. congruence.
Qed.

(** An output as the server shows it and the device has it ([view]), and what
    the accesses of the main thread and of a handler do to that. *)
Section Output.
Context {V : Type} (view : beagle → IedServer → V) (act : bool → access → V → V)
        (agree : V → Prop) (f : access → bool).
Hypothesis view_after : ∀ ev a s s' x x',
  after ev a s s' → beagle_ok s x → iedServer s = Some x → iedServer s' = Some x' →
  view s' x' = match acting ev s with Some (w, y) => act w y (view s x) | None => view s x end.
Hypothesis act_other : ∀ w y v, f y = false → act w y v = v.
Hypothesis toggle_agrees : ∀ led ct v, agree v → agree (foldl (λ v y, act true y v) v (toggle_accesses led ct)).
Hypothesis request_agrees : ∀ ev l v,
  request_accesses ev = Some l → agree v → agree (foldl (λ v y, act false y v) v l).

(** When both threads have done what they have still to do, it agrees. *)
Definition settled (s : beagle) (x : IedServer) : Prop :=
  agree (foldl (λ v y, act true y v) (foldl (λ v y, act false y v) (view s x) (job s)) (todo s)).

Lemma fold_other w l v : pending f l = false → foldl (λ v y, act w y v) v l = v.
Proof. apply pending_fold. intros y v'. apply act_other. Qed.

Lemma fold_commute w y l v :
  f y = false ∨ pending f l = false →
  act w y (foldl (λ v y, act (negb w) y v) v l) = foldl (λ v y, act (negb w) y v) (act w y v) l.
Proof.
  intros [Hy|Hl]; [by rewrite !act_other by done|]. by rewrite !fold_other by done.
Qed.

Lemma settled_step op s ev a s' x x' :
  server_ok s → enabled op s ev → after ev a s s' → iedServer s = Some x → iedServer s' = Some x' →
  both_pending f s = false → both_pending f s' = false → settled s x → settled s' x'.
Proof.
  intros Hs Hen Ha Hx Hx' Hb Hb' Hset.
  assert (beagle_ok s x) as Hok by (unfold server_ok in Hs; rewrite Hx in Hs; apply Hs).
  pose proof (view_after _ _ _ _ _ _ Ha Hok Hx Hx') as Hv. unfold settled in *. rewrite Hv.
  unfold both_pending in Hb, Hb'.
  destruct (lists_after op s ev a s' Hs Hen Ha)
    as [(y & -> & Hj & Ht)|[(y & -> & Ht & Hj)|(-> & [(led & ct & Ht & Ht' & Hj)|[(l & Hr & Hj & Hj' & Ht)|(Ht & Hj)]])]].
  - rewrite Ht. by rewrite Hj in Hset.
  - rewrite Hj. rewrite Ht in Hset, Hb. cbn [foldl] in Hset. rewrite (fold_commute true) in Hset; [done|].
    apply andb_false_iff in Hb as [Hb|Hb]; [|by right]. left. by apply orb_false_iff in Hb as [Hb _].
  - rewrite Ht', Hj. apply toggle_agrees. by rewrite Ht in Hset.
  - rewrite Hj', Ht. rewrite Hj in Hset. rewrite Ht, Hj' in Hb'. cbn [foldl] in Hset.
    apply andb_false_iff in Hb' as [Hb'|Hb'].
    + rewrite (fold_other true) in Hset |- * by done. by apply (request_agrees ev).
    + by rewrite (fold_other false) by done.
  - by rewrite Ht, Hj.
Qed.

Lemma settled_trace s op l s2 op2 x2 :
  server_ok s → (∀ x, iedServer s = Some x → settled s x) → trace s op l s2 op2 →
  never_both f s op l → iedServer s2 = Some x2 → settled s2 x2.
Proof.
  intros Hs Hset Ht. revert Hs Hset.
  induction Ht as [|s op ev a s1 l s2 op2 Hen Hh Ht IH]; intros Hs Hset Hn Hx2; [by apply Hset|].
  destruct (never_both_cons _ _ _ _ _ _ _ Hen Hh Hn) as [Hb Hn'].
  pose proof (handle_after _ _ _ _ _ Hs Hen Hh) as Ha.
  apply IH; [apply Ha| |done|done]. intros x1 Hx1.
  destruct (server_before _ _ _ _ _ _ Hs Hen Hh Hx1) as [x Hx].
  eapply settled_step; try done; [|by apply Hset].
  apply (Hn' [] s1 (opened_after ev op)); [apply prefix_nil|constructor].
Qed.

Lemma settled_agrees s x : settled s x → none_pending f s = true → agree (view s x).
Proof.
  unfold settled, none_pending. intros Hs Hn. apply negb_true_iff, orb_false_iff in Hn as [Ht Hj].
  by rewrite !fold_other in Hs by done.
Qed.

(** From the start. *)
Lemma output_agrees now l s op x :
  (∀ x0, iedServer (started now) = Some x0 → agree (view (started now) x0)) →
  trace (started now) ∅ l s op → never_both f (started now) ∅ l → iedServer s = Some x →
  none_pending f s = true → agree (view s x).
Proof.
  intros Hbegin Ht Hn Hx Hp. apply settled_agrees; [|done].
  eapply settled_trace; [apply started_ok| |done..].
  intros x0 Hx0. destruct (started_eq now) as (x1 & _ & _ & Hj & _ & Hpc & _).
  unfold settled, todo. rewrite Hj, Hpc. by apply Hbegin.
Qed.
End Output.

(** *** The outputs *)

(** An attribute that only updates change, and the status of the counter. *)
Definition attr_act (b : addr) (c : Z) (y : access) (o : option attr_value) : option attr_value :=
  match y with
  | AUpdate a v => if decide (a = b) then Some v else o
  | ACntShow => if decide (b = iedModel_GenericIO_TIM_GAPC1_OpCntRs_stVal) then Some (AvInt32 c) else o
  | _ => o
  end.

Definition untimed (b : addr) : Prop :=
  b ∉ analog_addrs ∧ b ≠ iedModel_GenericIO_GGIO1_DPCSO1_t ∧ b ≠ iedModel_GenericIO_TIM_GAPC1_OpCntRs_t.

Definition reg (w : bool) (s : beagle) : Z := if w then cnt_read (loc s) else job_cnt s.

Lemma access_acting ev s x :
  beagle_ok s x →
  match acting ev s with
  | Some (w, y) => ∃ now, access_of ev s = Some (now, reg w s, y) ∧
                   ∀ a, y = ATime a → a = iedModel_GenericIO_GGIO1_DPCSO1_t ∨ a = iedModel_GenericIO_TIM_GAPC1_OpCntRs_t
  | None => access_of ev s = None
  end.
Proof.
  intros Hok. destruct ev as [| |t| |t|]; try done; cbn [acting access_of].
  - pose proof (ok_job _ _ Hok) as Hj. destruct (job s) as [|y l]; [done|]. cbn.
    exists t. split; [done|]. apply Forall_cons in Hj as [Hy _]. by intros a ->.
  - destruct (todo s) as [|y l] eqn:Ht; [done|]. cbn. exists t. split; [done|].
    destruct (todo_ok _ _ _ _ Hok Ht) as [Hy _]. by intros a ->.
Qed.

Section After.
Context (ev : event) (a : answer) (s s' : beagle) (x x' : IedServer).
Hypothesis Ha : after ev a s s'.
Hypothesis Hok : beagle_ok s x.
Hypothesis Hx : iedServer s = Some x.
Hypothesis Hx' : iedServer s' = Some x'.

Lemma attr_after b :
  untimed b →
  attributes x' !! b = match acting ev s with
                       | Some (w, y) => attr_act b (reg w s) y (attributes x !! b)
                       | None => attributes x !! b
                       end.
Proof.
  intros (Hb & Hb1 & Hb2).
  rewrite (data_other ev s s' x x' b (after_data _ _ _ _ Ha) Hx Hx' Hb).
  pose proof (access_acting ev s x Hok) as Hac. destruct (acting ev s) as [[w y]|]; [|by rewrite Hac].
  destruct Hac as (now & -> & Ht). destruct y as [|b' v|b'| | | | | | |]; try done; cbn [server_after attr_act].
  - cbn. case_decide; [subst; apply lookup_insert_eq|by apply lookup_insert_ne].
  - cbn. apply lookup_insert_ne. destruct (Ht b' eq_refl); congruence.
  - cbn. case_decide as Hd; [rewrite Hd; apply lookup_insert_eq|apply lookup_insert_ne; congruence].
Qed.

Lemma lines_after : lines s' = lines s ++ match acting ev s with Some (_, y) => prints y | None => [] end.
Proof.
  rewrite (after_lines _ _ _ _ Ha). f_equal. unfold event_lines.
  pose proof (access_acting ev s x Hok) as Hac. destruct (acting ev s) as [[w y]|]; [|by rewrite Hac].
  by destruct Hac as (now & -> & _).
Qed.

Lemma numbers_after :
  match acting ev s with
  | Some (w, y) =>
      opCnt s' = opCnt_after (reg w s) y (opCnt s) ∧ ledOnTimeMs s' = on_after y (ledOnTimeMs s) ∧
      ledOffTimeMs s' = off_after y (ledOffTimeMs s)
  | None => opCnt s' = opCnt s ∧ ledOnTimeMs s' = ledOnTimeMs s ∧ ledOffTimeMs s' = ledOffTimeMs s
  end.
Proof.
  destruct (after_data _ _ _ _ Ha x x' Hx Hx') as (_ & H1 & H2 & H3 & _). rewrite H1, H2, H3.
  pose proof (access_acting ev s x Hok) as Hac. destruct (acting ev s) as [[w y]|]; [|by rewrite Hac].
  by destruct Hac as (now & -> & _).
Qed.

Lemma reads_after :
  (cnt_read (loc s'), job_cnt s') =
  match acting ev s with
  | Some (w, y) => (if w then read_after (reg w s) y (opCnt s) else cnt_read (loc s),
                    if w then job_cnt s else read_after (reg w s) y (opCnt s))
  | None => (cnt_read (loc s), job_cnt s)
  end.
Proof.
  destruct (after_data _ _ _ _ Ha x x' Hx Hx') as (_ & _ & _ & _ & ->). rewrite (after_loc _ _ _ _ Ha).
  destruct ev as [| |t| |t|]; try done; cbn [acting access_of loc_after].
  - by destruct (job s).
  - unfold todo, next_loc. by destruct (pc (loc s)) as [| |[|y l]| | |].
Qed.
End After.

(** An LED and its status. *)
Definition led_view (led : string) (stVal : addr) (s : beagle) (x : IedServer) :=
  (last_switch led (lines s), attributes x !! stVal).
Definition led_act (led : string) (stVal : addr) (w : bool) (y : access) (v : option Z * option attr_value) :=
  (match y with APrint (SWITCH led' n) => if decide (led' = led) then Some n else v.1 | _ => v.1 end,
   match y with AUpdate a n => if decide (a = stVal) then Some n else v.2 | _ => v.2 end).
Definition led_agree (v : option Z * option attr_value) : Prop :=
  let st := match v.2 with None => Some false | Some (AvBoolean b) => Some b | _ => None end in
  v.1 = Z.b2z <$> st ∧ is_Some st.

Definition single_points : list (string * addr) :=
  [(LED1, iedModel_GenericIO_GGIO1_SPCSO1_stVal); (LED2, iedModel_GenericIO_GGIO1_SPCSO2_stVal);
   (LED3, iedModel_GenericIO_GGIO1_SPCSO3_stVal)].

(** What holds of an access list for every object holds of every request. *)
Lemma request_cases (P : list access → Prop) ev l :
  P [] →
  (∀ obj v now, obj ∈ guarded → P (controlHandlerForBinaryOutput now obj v false).1) →
  (∀ v, P (controlHandlerForInt32Controls iedModel_GenericIO_TIM_GAPC1_OpCntRs v false).1) →
  (∀ n, P [AOffStore n; AUpdate iedModel_GenericIO_TIM_GAPC1_OpDlTmms_setVal (AvInt32 n)]) →
  (∀ n, P [AOnStore n; AUpdate iedModel_GenericIO_TIM_GAPC1_RsDlTmms_setVal (AvInt32 n)]) →
  request_accesses ev = Some l → P l.
Proof.
  intros H1 H2 H3 H4 H5. destruct ev as [|obj con sixth v test now|t|a v|t|]; cbn [request_accesses]; try done.
  - intros [= <-]. unfold operation_accesses. case_decide as Hg; [|case_decide as Ho; [|done]].
    + destruct test; [done|by apply H2].
    + subst obj. destruct test; [done|by apply H3].
  - case_decide as Hr; [|done]. intros [= <-]. unfold write_accesses, int32WriteAccessHandler in *.
    destruct (_ <? 0); [done|]. case_decide as Ha1; [subst a; apply H4|].
    case_decide as Ha2; [subst a; apply H5|done].
Qed.

(** A statement about the three outputs, about the guarded objects. *)
Ltac each_point Hin :=
  repeat (apply elem_of_cons in Hin as [[= -> ->]|Hin]); [..|by apply elem_of_nil in Hin].
Ltac each_guarded Hg :=
  unfold guarded in Hg; repeat (apply elem_of_cons in Hg as [->|Hg]); [..|by apply elem_of_nil in Hg].

Lemma led_output now l s op x led stVal :
  (led, stVal) ∈ single_points →
  trace (started now) ∅ l s op → never_both (of_led led stVal) (started now) ∅ l → iedServer s = Some x →
  none_pending (of_led led stVal) s = true →
  last_switch led (lines s) = Z.b2z <$> shown (attributes x) stVal ∧ is_Some (shown (attributes x) stVal).
Proof.
  intros Hin Ht Hn Hx Hp.
  assert (untimed stVal ∧ stVal ≠ iedModel_GenericIO_TIM_GAPC1_OpCntRs_stVal) as [Hu Hne].
  { unfold untimed. each_point Hin;
      apply (bool_decide_unpack _); vm_compute; exact I. }
  refine (output_agrees (led_view led stVal) (led_act led stVal) led_agree (of_led led stVal)
    _ _ _ _ now l s op x _ Ht Hn Hx Hp).
  - intros ev a s0 s' x0 x' Ha Hok Hx0 Hx'. unfold led_view.
    rewrite (lines_after ev a s0 s' x0 Ha Hok), (attr_after ev a s0 s' x0 x' Ha Hok Hx0 Hx' stVal Hu).
    destruct (acting ev s0) as [[w y]|]; [|by rewrite app_nil_r]. unfold led_act. f_equal.
    + destruct y as [z| | | | | | | | |]; try (by rewrite app_nil_r). cbn [prints].
      by rewrite last_switch_snoc.
    + destruct y; try done. cbn [attr_act]. by rewrite decide_False.
  - intros w y [p o] Hf. unfold led_act. destruct y as [[]|b v| | | | | | | |]; simpl in Hf; try done;
      apply bool_decide_eq_false in Hf; by rewrite decide_False.
  - intros b ct v Hv. each_point Hin;
      destruct b; vm_compute; by split; [|eexists].
  - intros ev l0 v. revert v. refine (λ v H, request_cases (λ l, led_agree v → led_agree
      (foldl (λ v y, led_act led stVal false y v) v l)) ev l0 _ _ _ _ _ H).
    + done.
    + intros obj v0 n Hg Hv. each_point Hin;
      each_guarded Hg; unfold controlHandlerForBinaryOutput; decide_addr; cbn [fst app];
      set (b := MmsValue_getBoolean v0); try exact Hv; split; try done; by eexists.
    + intros n Hv. unfold controlHandlerForInt32Controls. decide_addr. exact Hv.
    + intros n Hv. cbn [foldl].
      each_point Hin; exact Hv.
    + intros n Hv. cbn [foldl].
      each_point Hin; exact Hv.
  - intros x0 Hx0. destruct (started_eq now) as (x1 & Hx1 & _ & _ & _ & _ & Hl & _ & _ & _ & Hat).
    rewrite Hx0 in Hx1. injection Hx1 as <-. unfold led_view. rewrite Hl, Hat.
      each_point Hin;
      vm_compute; by split; [|eexists].
Qed.

(** The two times and their attributes, which only the handlers touch. *)
Definition of_settings (y : access) : bool :=
  match y with
  | AOnStore _ | AOffStore _ => true
  | AUpdate a _ => bool_decide (a = iedModel_GenericIO_TIM_GAPC1_RsDlTmms_setVal ∨
                                a = iedModel_GenericIO_TIM_GAPC1_OpDlTmms_setVal)
  | _ => false
  end.

(** The double point output, with its LED. *)
Definition of_dpc (y : access) : bool :=
  match y with
  | APrint (SWITCH4 _ _) => true
  | AUpdate a _ => bool_decide (a = iedModel_GenericIO_GGIO1_DPCSO1_stVal)
  | _ => false
  end.

(** An output that no toggle touches. *)
Lemma untouched (f : access → bool) s x :
  (∀ led ct, pending f (toggle_accesses led ct) = false) → beagle_ok s x → pending f (todo s) = false.
Proof.
  intros Hf Hok. destruct (ok_todo _ _ Hok) as (led & ct & pre & Hpre). specialize (Hf led ct).
  rewrite Hpre in Hf. unfold pending in *. rewrite existsb_app in Hf. by apply orb_false_iff in Hf as [_ Hf].
Qed.

Lemma untouched_never f now l :
  (∀ led ct, pending f (toggle_accesses led ct) = false) → never_both f (started now) ∅ l.
Proof.
  intros Hf l1 s1 op1 _ Ht. pose proof (trace_ok _ _ _ _ _ (started_ok now) Ht) as Hs.
  unfold both_pending. destruct (iedServer s1) as [x|] eqn:Hx; unfold server_ok in Hs; rewrite Hx in Hs.
  - by rewrite (untouched f s1 x) by (done || apply Hs).
  - unfold todo. by rewrite (proj1 Hs).
Qed.

Lemma untouched_none f s x :
  (∀ led ct, pending f (toggle_accesses led ct) = false) → beagle_ok s x → job s = [] →
  none_pending f s = true.
Proof. intros Hf Hok Hj. unfold none_pending. by rewrite Hj, (untouched f s x). Qed.

Lemma reached_ok now l s op x : trace (started now) ∅ l s op → iedServer s = Some x → beagle_ok s x.
Proof.
  intros Ht Hx. pose proof (trace_ok _ _ _ _ _ (started_ok now) Ht) as Hs.
  unfold server_ok in Hs. rewrite Hx in Hs. apply Hs.
Qed.

Definition settings_agree (v : (Z * Z) * (option attr_value * option attr_value)) : Prop :=
  v.2.1 = Some (AvInt32 v.1.1) ∧ v.2.2 = Some (AvInt32 v.1.2).

Lemma settings_output now l s op x :
  trace (started now) ∅ l s op → iedServer s = Some x → job s = [] →
  attributes x !! iedModel_GenericIO_TIM_GAPC1_RsDlTmms_setVal = Some (AvInt32 (ledOnTimeMs s)) ∧
  attributes x !! iedModel_GenericIO_TIM_GAPC1_OpDlTmms_setVal = Some (AvInt32 (ledOffTimeMs s)).
Proof.
  intros Ht Hx Hj. assert (∀ led ct, pending of_settings (toggle_accesses led ct) = false) as Hf by by intros [].
  refine (output_agrees
    (λ s x, ((ledOnTimeMs s, ledOffTimeMs s),
             (attributes x !! iedModel_GenericIO_TIM_GAPC1_RsDlTmms_setVal,
              attributes x !! iedModel_GenericIO_TIM_GAPC1_OpDlTmms_setVal)))
    (λ _ y v, ((on_after y v.1.1, off_after y v.1.2),
               (attr_act iedModel_GenericIO_TIM_GAPC1_RsDlTmms_setVal 0 y v.2.1,
                attr_act iedModel_GenericIO_TIM_GAPC1_OpDlTmms_setVal 0 y v.2.2)))
    settings_agree of_settings _ _ _ _ now l s op x _ Ht (untouched_never _ _ _ Hf) Hx
    (untouched_none _ _ x Hf (reached_ok _ _ _ _ _ Ht Hx) Hj)).
  - intros ev a s0 s' x0 x' Ha Hok Hx0 Hx'.
    pose proof (numbers_after ev a s0 s' x0 x' Ha Hok Hx0 Hx') as Hnum.
    rewrite !(attr_after ev a s0 s' x0 x' Ha Hok Hx0 Hx') by (apply (bool_decide_unpack _); vm_compute; exact I).
    destruct (acting ev s0) as [[w y]|]; destruct Hnum as (_ & -> & ->); [|done].
    by destruct y.
  - intros w y [[on off] [o1 o2]] Hy. destruct y; simpl in Hy; try done.
    apply bool_decide_eq_false in Hy. simpl. by rewrite !decide_False by (intros ->; auto).
  - intros b ct v Hv. destruct b; exact Hv.
  - intros ev l0 v Hr. revert v. apply (request_cases (λ l, ∀ v, settings_agree v → settings_agree
      (foldl _ v l)) ev l0); try done.
    + intros obj v0 n Hg v Hv. each_guarded Hg; unfold controlHandlerForBinaryOutput; decide_addr; exact Hv.
    + intros n v [H1 H2]. by split.
    + intros n v [H1 H2]. by split.
  - intros x0 Hx0. destruct (started_eq now) as (x1 & Hx1 & _ & _ & _ & _ & _ & _ & Hon & Hoff & Hat).
    rewrite Hx0 in Hx1. injection Hx1 as <-. rewrite Hon, Hoff, Hat. by split.
Qed.

Definition position_agree (v : option bool * option attr_value) : Prop :=
  ∀ b, v.1 = Some b → v.2 = Some (AvBitString (dbpos_bits (if b then DBPOS_ON else DBPOS_OFF))).

Lemma dpc_output now l s op x b :
  trace (started now) ∅ l s op → iedServer s = Some x → job s = [] → last_position (lines s) = Some b →
  attributes x !! iedModel_GenericIO_GGIO1_DPCSO1_stVal =
    Some (AvBitString (dbpos_bits (if b then DBPOS_ON else DBPOS_OFF))).
Proof.
  intros Ht Hx Hj. revert b. assert (∀ led ct, pending of_dpc (toggle_accesses led ct) = false) as Hf by by intros [].
  refine (output_agrees
    (λ s x, (last_position (lines s), attributes x !! iedModel_GenericIO_GGIO1_DPCSO1_stVal))
    (λ _ y v, (match y with APrint (SWITCH4 _ b) => Some b | _ => v.1 end,
               attr_act iedModel_GenericIO_GGIO1_DPCSO1_stVal 0 y v.2))
    position_agree of_dpc _ _ _ _ now l s op x _ Ht (untouched_never _ _ _ Hf) Hx
    (untouched_none _ _ x Hf (reached_ok _ _ _ _ _ Ht Hx) Hj)).
  - intros ev a s0 s' x0 x' Ha Hok Hx0 Hx'.
    rewrite (attr_after ev a s0 s' x0 x' Ha Hok Hx0 Hx') by (apply (bool_decide_unpack _); vm_compute; exact I).
    rewrite (lines_after ev a s0 s' x0 Ha Hok).
    destruct (acting ev s0) as [[w y]|]; [|by rewrite app_nil_r].
    destruct y as [z| | | | | | | | |]; try (by rewrite app_nil_r). cbn [prints].
    by rewrite last_position_snoc.
  - intros w y [p o] Hy. destruct y as [[]|a v| | | | | | | |]; simpl in Hy; try done.
    apply bool_decide_eq_false in Hy. simpl. by rewrite !decide_False.
  - intros b ct v Hv. destruct b; exact Hv.
  - intros ev l0 v Hr. revert v. apply (request_cases (λ l, ∀ v, position_agree v → position_agree
      (foldl _ v l)) ev l0); try done.
    intros obj v0 n Hg v Hv. each_guarded Hg; unfold controlHandlerForBinaryOutput; decide_addr;
      cbn [fst app]; try exact Hv. set (b := MmsValue_getBoolean v0). intros b' [= <-]. reflexivity.
  - intros x0 Hx0 b. destruct (started_eq now) as (x1 & Hx1 & _ & _ & _ & _ & Hl & _ & _ & _ & Hat).
    rewrite Hl. done.
Qed.

Definition counter_agree (v : (Z * option attr_value) * (Z * Z)) : Prop :=
  v.1.2 = Some (AvInt32 v.1.1) ∨ v.1.1 = 0 ∧ v.1.2 = None.

Lemma counter_output now l s op x :
  trace (started now) ∅ l s op → never_both of_counter (started now) ∅ l → iedServer s = Some x →
  none_pending of_counter s = true →
  attributes x !! iedModel_GenericIO_TIM_GAPC1_OpCntRs_stVal = Some (AvInt32 (opCnt s)) ∨
  opCnt s = 0 ∧ attributes x !! iedModel_GenericIO_TIM_GAPC1_OpCntRs_stVal = None.
Proof.
  intros Ht Hn Hx Hp.
  refine (output_agrees
    (λ s x, ((opCnt s, attributes x !! iedModel_GenericIO_TIM_GAPC1_OpCntRs_stVal),
             (cnt_read (loc s), job_cnt s)))
    (λ w y v, let c := if w : bool then v.2.1 else v.2.2 in
              ((opCnt_after c y v.1.1, attr_act iedModel_GenericIO_TIM_GAPC1_OpCntRs_stVal c y v.1.2),
               (if w then read_after c y v.1.1 else v.2.1, if w then v.2.2 else read_after c y v.1.1)))
    counter_agree of_counter _ _ _ _ now l s op x _ Ht Hn Hx Hp).
  - intros ev a s0 s' x0 x' Ha Hok Hx0 Hx'.
    pose proof (numbers_after ev a s0 s' x0 x' Ha Hok Hx0 Hx') as Hnum.
    rewrite (attr_after ev a s0 s' x0 x' Ha Hok Hx0 Hx') by (apply (bool_decide_unpack _); vm_compute; exact I).
    rewrite (reads_after ev a s0 s' x0 x' Ha Hx0 Hx').
    destruct (acting ev s0) as [[w y]|]; destruct Hnum as (-> & _); [|done]. by destruct w.
  - intros w y [[n o] [rm rj]] Hy. destruct y as [[]|a v| | | | | | | |]; simpl in Hy; try done; try (by destruct w).
    apply bool_decide_eq_false in Hy. simpl. rewrite decide_False by done. by destruct w.
  - intros b ct v Hv. destruct b; [by left|exact Hv].
  - intros ev l0 v Hr. revert v. apply (request_cases (λ l, ∀ v, counter_agree v → counter_agree
      (foldl _ v l)) ev l0); try done.
    + intros obj v0 n Hg v Hv. each_guarded Hg; unfold controlHandlerForBinaryOutput; decide_addr; exact Hv.
    + intros v0 v Hv. by left.
  - intros x0 Hx0. destruct (started_eq now) as (x1 & Hx1 & _ & _ & _ & _ & _ & Hc & _ & _ & Hat).
    rewrite Hx0 in Hx1. injection Hx1 as <-. rewrite Hc, Hat. by right.
Qed.

(** *** Lines while nobody but one client is served *)

Lemma printed_app l1 l2 : printed (l1 ++ l2) = printed l1 ++ printed l2.
Proof. apply flat_map_app. Qed.

Lemma command_printed obj v test now :
  obj ∈ guarded → test = false →
  printed (operation_accesses obj v test now) = command_lines obj (MmsValue_getBoolean v).
Proof.
  intros Hg ->. unfold operation_accesses. rewrite decide_True by done.
  each_guarded Hg; unfold controlHandlerForBinaryOutput, command_lines; decide_addr; reflexivity.
Qed.

Lemma unguarded_printed obj v test now :
  obj ∉ guarded → printed (operation_accesses obj v test now) = [] ∧ ∀ b, command_lines obj b = [].
Proof.
  intros Hg. split.
  - unfold operation_accesses. rewrite decide_False by done. case_decide; [subst|done].
    unfold controlHandlerForInt32Controls. by destruct test.
  - intros b. unfold guarded in Hg. unfold command_lines. by repeat (rewrite decide_False by set_solver).
Qed.

Lemma write_printed a v : printed (write_accesses a v) = [].
Proof.
  unfold write_accesses, int32WriteAccessHandler. destruct (_ <? 0); [done|].
  case_decide; [done|]. by case_decide.
Qed.

Lemma quiet_step k s op ev a s' :
  server_ok s → lock s = (false, k) → not_toggling s → keeps k ev → enabled op s ev → after ev a s s' →
  not_toggling s' ∧ accepted_by k (ev, a) ∧
  lines s' ++ printed (job s') = lines s ++ printed (job s) ++ accepted_lines (ev, a).
Proof.
  intros Hs Hl Hq Hk Hen Ha. apply lock_pair in Hl as [Hm Hc]. unfold not_toggling in *.
  assert (todo s = []) as Ht by (unfold todo; by destruct (pc (loc s))).
  assert (serving s → job s = []) as Hserv.
  { unfold serving. destruct (iedServer s); [by intros [_ ?]|done]. }
  rewrite (after_lines _ _ _ _ Ha), (after_job _ _ _ _ Ha), (after_loc _ _ _ _ Ha). unfold event_lines.
  destruct ev as [con connected|obj con sixth v test t|t|a' v|t|]; cbn [access_of loc_after job_after];
    rewrite <- ?app_assoc.
  - by rewrite app_nil_r.
  - rewrite (Hserv (proj1 Hen)). destruct a as [|[]|]; try done. cbn [accepted_by accepted_lines printed flat_map app].
    destruct (decide (obj ∈ guarded)) as [Hg|Hg].
    + pose proof (after_answer _ _ _ _ Ha Hg) as Hp. injection Hp as Hp. symmetry in Hp.
      unfold passes, checked in Hp. rewrite decide_True in Hp by done.
      apply andb_true_iff in Hp as [Hp1 Hp2]. apply negb_true_iff in Hp1. apply bool_decide_eq_true in Hp2.
      rewrite command_printed by done. split; [done|]. split; [|done]. intros _.
      destruct (controllingClient s) eqn:Hcs; [congruence|]. rewrite <- Hc. by apply Hk.
    + destruct (unguarded_printed obj v test t Hg) as [-> ->]. split; [done|]. split; [|done].
      intros Hg'. by destruct Hg.
  - simpl in Hen. destruct (job s) as [|y l]; [done|]. split; [done|]. split; [done|].
    cbn [tail accepted_lines printed flat_map]. by rewrite app_nil_r.
  - rewrite (Hserv Hen). destruct a as [| |[]]; try done. by rewrite write_printed.
  - rewrite Ht, app_nil_r. split; [|done]. unfold next_loc. rewrite Hm. cbn [andb].
    destruct (pc (loc s)); try done. by destruct (running s).
  - by rewrite app_nil_r.
Qed.
End Lemmas.

(** *** Toggling times *)

Section Spacing.
Context `{BeagleLib, !BeagleLibOk}.

(** The next toggle is not before [N], given that it is [T] now at least. *)
Definition spaced (N T : Z) (s : beagle) : Prop :=
  (N ≤ nextLedToggleTime (loc s) ∨ N ≤ T) ∧
  ∀ ct, pc (loc s) = LBlink ct → N ≤ ct ≤ T.

Lemma spaced_step N T now s s' :
  T ≤ now → spaced N T s → loc s' = next_loc now s → spaced N now s'.
Proof.
  unfold spaced. intros HT [Hn Hb] ->. unfold next_loc.
  destruct (pc (loc s)) as [|ct|[|y r] ct|ct| |] eqn:Hpc; simpl; try (split; [lia|done]).
  - split; [lia|]. intros ct. destruct (running s); [|done].
    destruct (_ && _) eqn:Hm; [|done]. intros [= <-]. gw_bool. lia.
  - specialize (Hb ct eq_refl). split; [lia|done].
Qed.

Lemma spaced_trace N T s op l s2 op2 :
  server_ok s → spaced N T s → StronglySorted Z.le (T :: step_times l) →
  trace s op l s2 op2 → ∃ T2, spaced N T2 s2.
Proof.
  intros Hs Hsp Hsort Ht. revert T Hs Hsp Hsort.
  induction Ht as [|s op ev a s1 l s2 op2 Hen Hh Ht IH]; intros T Hs Hsp Hsort; [by exists T|].
  pose proof (handle_after _ _ _ _ _ Hs Hen Hh) as Ha.
  pose proof (after_ok _ _ _ _ Ha) as Hs1. pose proof (after_loc _ _ _ _ Ha) as Hloc.
  assert (loc s1 = loc s → StronglySorted Z.le (T :: step_times l) → ∃ T2, spaced N T2 s2) as Hsame.
  { intros Hl Hsort'. apply (IH T); [done| |done]. unfold spaced in *. by rewrite Hl. }
  destruct ev as [con connected|obj con sixth v test t|t|a' v|t|]; try (by apply Hsame).
  cbn [step_times omap list_omap fst] in Hsort.
  apply StronglySorted_cons in Hsort as [Hle Hsort]. apply Forall_cons in Hle as [Hle _].
  apply (IH t); [done| |done]. by eapply spaced_step.
Qed.
End Spacing.

(** ** Properties *)

Section Properties.
Context `{BeagleLib, !BeagleLibOk}.

(** C20: what a client reads is what the device does, in any interleaving of
    the handlers' accesses with those of the main thread.  For each of the three
    single point outputs the status attribute is the last command that its LED
    got, and the status of the operation counter is the counter (or was never
    written while it is zero), if since the start the main thread and a handler
    were never both in the middle of updating that output, and neither is now.
    The two setting attributes are the on and off times in use, and the double
    point output shows the position that the last command woke with, whenever no
    handler is running; the times are never negative.  This holds whatever
    value the check handler finds as its connection. *)
Theorem status_is_device now l s op x :
  trace (started now) ∅ l s op → iedServer s = Some x →
  Forall (λ p, never_both (of_led p.1 p.2) (started now) ∅ l → none_pending (of_led p.1 p.2) s = true →
               last_switch p.1 (lines s) = Z.b2z <$> shown (attributes x) p.2 ∧
               is_Some (shown (attributes x) p.2))
    [(LED1, iedModel_GenericIO_GGIO1_SPCSO1_stVal); (LED2, iedModel_GenericIO_GGIO1_SPCSO2_stVal);
     (LED3, iedModel_GenericIO_GGIO1_SPCSO3_stVal)] ∧
  (never_both of_counter (started now) ∅ l → none_pending of_counter s = true →
   attributes x !! iedModel_GenericIO_TIM_GAPC1_OpCntRs_stVal = Some (AvInt32 (opCnt s)) ∨
   opCnt s = 0 ∧ attributes x !! iedModel_GenericIO_TIM_GAPC1_OpCntRs_stVal = None) ∧
  0 ≤ ledOnTimeMs s < 2 ^ 31 ∧ 0 ≤ ledOffTimeMs s < 2 ^ 31 ∧
  (job s = [] →
   attributes x !! iedModel_GenericIO_TIM_GAPC1_RsDlTmms_setVal = Some (AvInt32 (ledOnTimeMs s)) ∧
   attributes x !! iedModel_GenericIO_TIM_GAPC1_OpDlTmms_setVal = Some (AvInt32 (ledOffTimeMs s)) ∧
   ∀ b, last_position (lines s) = Some b →
     attributes x !! iedModel_GenericIO_GGIO1_DPCSO1_stVal =
       Some (AvBitString (dbpos_bits (if b then DBPOS_ON else DBPOS_OFF)))).
Proof.
  intros Ht Hx. pose proof (reached_ok _ _ _ _ _ Ht Hx) as Hok.
  split; [|split; [|split; [apply (ok_on _ _ Hok)|split; [apply (ok_off _ _ Hok)|]]]].
  - apply Forall_forall. intros [led stVal] Hin Hn Hp. by eapply led_output.
  - intros Hn Hp. by eapply counter_output.
  - intros Hj. destruct (settings_output _ _ _ _ _ Ht Hx Hj) as [H1 H2].
    split; [done|]. split; [done|]. intros b Hb. by eapply dpc_output.
Qed.

(** C19: when the check handler gets the connection of the request, one client
    at a time controls the outputs: between the accepted commands of two
    different clients on the guarded objects, the first one has closed its
    connection. *)
Theorem exclusive_control now l1 o1 c1 x1 v1 t1 n1 l2 o2 c2 x2 v2 t2 n2 s op :
  trace (started now) ∅
    (l1 ++ (EOperate o1 c1 x1 v1 t1 n1, AControl true) :: l2 ++
       [(EOperate o2 c2 x2 v2 t2 n2, AControl true)]) s op →
  x1 = Some c1 → x2 = Some c2 → o1 ∈ guarded → o2 ∈ guarded → c1 ≠ c2 →
  EConnection c1 false ∈ l2.*1.
Proof.
  intros Ht -> -> Hg1 Hg2 Hne. apply trace_app_inv in Ht as (s1 & op1 & Ht1 & Ht).
  pose proof (trace_ok _ _ _ _ _ (started_ok now) Ht1) as Hs1.
  inversion Ht as [|? ? ? ? s2 ? ? ? Hen Hh Ht']; subst.
  pose proof (handle_after _ _ _ _ _ Hs1 Hen Hh) as Ha.
  destruct (accepted_owner _ _ _ _ _ _ _ _ Hg1 Ha) as (_ & Hc & _).
  destruct (closes_dec c1 l2.*1) as [|Hnin]; [done|].
  apply trace_app_inv in Ht' as (s3 & op3 & Ht2 & Ht3).
  destruct (kept_trace c1 _ _ _ _ _ (after_ok _ _ _ _ Ha) Hc Hnin Ht2) as [Hs3 Hc3].
  inversion Ht3 as [|? ? ? ? s4 ? ? ? Hen4 Hh4 _]; subst.
  pose proof (handle_after _ _ _ _ _ Hs3 Hen4 Hh4) as Ha4.
  destruct (accepted_owner _ _ _ _ _ _ _ _ Hg2 Ha4) as (_ & _ & [Hc4|Hc4]); congruence.
Qed.

(** C21: while [k] is in control only accepted commands reach the LEDs, and
    only those whose check found [k]: from a state that is not automatic, in which
    the main thread is not in the middle of a toggle, to any later one, the
    lines printed, with those that a running handler has still to print, are
    those of the accepted commands in their order.  Here [k] is what the checks
    find as their connection, the client in control or NULL; it keeps control as
    long as its connection is not closed and, if it is NULL, no check finds
    anything else. *)
Theorem only_controller_switches now l0 s op k l s2 op2 :
  trace (started now) ∅ l0 s op →
  automaticOperationMode s = false → controllingClient s = k → not_toggling s →
  trace s op l s2 op2 → Forall (λ p, keeps k p.1) l →
  Forall (accepted_by k) l ∧
  lines s2 ++ printed (job s2) = lines s ++ printed (job s) ++ flat_map accepted_lines l.
Proof.
  intros Ht0 Hm Hc Hp Ht Hk. pose proof (trace_ok _ _ _ _ _ (started_ok now) Ht0) as Hs. clear Ht0.
  assert (lock s = (false, k)) as Hl by (unfold lock; congruence). clear Hm Hc.
  induction Ht as [|s op ev a s1 l s2 op2 Hen Hhd Ht IH]; [by rewrite app_nil_r|].
  apply Forall_cons in Hk as [Hev Hk].
  pose proof (handle_after _ _ _ _ _ Hs Hen Hhd) as Ha.
  destruct (quiet_step k s op ev a s1) as (Hp1 & Hby & Hl1); try done.
  destruct IH as [IH1 IH2]; [done|done|apply Ha|by eapply keeps_lock|]. split; [by constructor|].
  cbn [flat_map]. rewrite IH2, app_assoc, Hl1, <- !app_assoc. done.
Qed.

(** Somebody is in control only while the mode is not automatic; and when
    every check gets the connection of its request, the mode is automatic
    exactly while no client is in control. *)
Theorem control_mode now l s op :
  trace (started now) ∅ l s op →
  (controllingClient s ≠ None → automaticOperationMode s = false) ∧
  (Forall (λ p, honest p.1) l → automaticOperationMode s = false → controllingClient s ≠ None).
Proof.
  intros Ht. split; [by apply (reached_mode now l s op)|]. intros Hh.
  refine (proj2 (trace_ind_after (λ s, automaticOperationMode s = false → controllingClient s ≠ None)
    (λ p, honest p.1) _ _ _ _ _ _ (started_ok now) _ Hh Ht)).
  - intros s0 ev a s' IH Hev Ha. pose proof (after_lock _ _ _ _ Ha) as Hl.
    destruct ev as [con []|obj con sixth v test t|t|a' v|t|]; simpl in Hl, Hev;
      try (apply lock_pair in Hl as [-> ->]; exact IH).
    + case_decide; apply lock_pair in Hl as [-> ->]; [done|exact IH].
    + case_decide; [|apply lock_pair in Hl as [-> ->]; exact IH].
      destruct (controllingClient s0) eqn:Hc; apply lock_pair in Hl as [-> ->]; [congruence|].
      by rewrite Hev.
  - destruct (started_eq now) as (x & _ & _ & _ & Hl & _). apply lock_pair in Hl as [-> _]. done.
Qed.

(** C33: the LEDs blink no faster than the times that are set: when the clock
    never goes back, any two toggles of the main thread are at least the on or
    off time apart that was set when the earlier one happened, whatever the
    clients did in between. *)
Theorem toggle_spacing now l0 s op ct l s2 op2 ct2 now1 s1 :
  trace (started now) ∅ l0 s op → pc (loc s) = LBlink ct → 0 ≤ ct < 2 ^ 63 →
  handle (EStep now1) s = (Done ANone, s1) → trace s1 op l s2 op2 →
  StronglySorted Z.le (ct :: step_times l) → pc (loc s2) = LBlink ct2 →
  ct + (if ledStateValue (loc s) then ledOffTimeMs s else ledOnTimeMs s) ≤ ct2.
Proof.
  intros Ht0 Hpc Hct Hh Ht Hsort Hpc2.
  pose proof (trace_ok _ _ _ _ _ (started_ok now) Ht0) as Hs.
  assert (enabled op s (EStep now1)) as Hen by (simpl; by rewrite Hpc).
  pose proof (handle_after _ _ _ _ _ Hs Hen Hh) as Ha.
  pose proof (after_ok _ _ _ _ Ha) as Hs1. pose proof (after_loc _ _ _ _ Ha) as Hloc.
  unfold server_ok in Hs. destruct (iedServer s) as [x|]; [|by rewrite Hpc in Hs; destruct Hs].
  destruct Hs as [Hok _]. pose proof (ok_on _ _ Hok). pose proof (ok_off _ _ Hok).
  simpl in Hloc. unfold next_loc in Hloc. rewrite Hpc in Hloc.
  destruct (spaced_trace (ct + if ledStateValue (loc s) then ledOffTimeMs s else ledOnTimeMs s) ct
    s1 op l s2 op2 Hs1) as (T2 & _ & Hb); [|done|done|by apply Hb].
  unfold spaced. rewrite Hloc. simpl. split; [|done]. left.
  rewrite wrap_u_id; [lia|]. unfold in_u. destruct (ledStateValue (loc s)); lia.
Qed.

(** Nothing in the callbacks or in the loop is undefined but one thing, the
    increment of the operation counter past the largest [int32_t]: every
    enabled event either is handled or is that increment. *)
Theorem only_counter_overflows now l s op ev :
  trace (started now) ∅ l s op → enabled op s ev →
  (∃ a s', handle ev s = (Done a, s')) ∨
  (handle ev s).1 = Undef "signed overflow: opCnt++" ∧ cnt_read (loc s) = 2 ^ 31 - 1 ∧
  (∃ t, ev = EStep t) ∧ ∃ r ct, pc (loc s) = LRun (ACntInc :: r) ct.
Proof.
  intros Ht Hen. pose proof (trace_ok _ _ _ _ _ (started_ok now) Ht) as Hs.
  destruct (handle_spec op s ev Hs Hen) as [(? & ? & ? & ?)|(a & s' & Hh & _)];
    [by right|left; by exists a, s'].
Qed.

(** A test request on a guarded object is refused, but it takes control:
    when nobody is in control, the blinking stops for the client that only
    asked for a test. *)
Theorem test_takes_control now l s op obj con v n :
  trace (started now) ∅ l s op → serving s → con ∈ op →
  obj ∈ guarded → controllingClient s = None →
  ∃ s', trace s op [(EOperate obj con (Some con) v true n, AControl false)] s' op ∧
    automaticOperationMode s' = false ∧ controllingClient s' = Some con ∧ lines s' = lines s.
Proof.
  intros Ht Hx Hcon Hg Hc. pose proof (trace_ok _ _ _ _ _ (started_ok now) Ht) as Hs.
  destruct (handle_operate obj con (Some con) v true n s Hs Hx) as (ok & Hh & Ha).
  pose proof (after_answer _ _ _ _ Ha Hg) as [= ->]. eexists. split; [by econstructor; [split|exact Hh|constructor]|].
  pose proof (after_lock _ _ _ _ Ha) as Hlock. simpl in Hlock. rewrite decide_True, Hc in Hlock by done.
  apply lock_pair in Hlock as [Hm' Hc']. split; [exact Hm'|]. split; [exact Hc'|].
  exact (eq_trans (after_lines _ _ _ _ Ha) (app_nil_r _)).
Qed.

(** C40: what becomes of the lock when the check handler finds the same value
    [k] at every request, NULL or a connection that is never one of those opened
    or closed, as it can be for a handler called with five arguments that takes six:
    the first request on a guarded object ends the automatic mode for good,
    whoever closes a connection, and from then on the commands of every client
    on the guarded objects are accepted. *)
Theorem wrong_handler_type now l0 s op (k : ClientConnection) obj con v n a s1 l s2 op2 :
  trace (started now) ∅ l0 s op → controllingClient s = None → obj ∈ guarded →
  let bad := λ p : event * answer,
    match p.1 with
    | EOperate _ _ sixth _ _ _ => sixth = k
    | EConnection c _ => Some c ≠ k
    | _ => True
    end in
  enabled op s (EOperate obj con k v false n) →
  handle (EOperate obj con k v false n) s = (Done a, s1) →
  trace s1 op l s2 op2 → Forall bad l →
  a = AControl true ∧ automaticOperationMode s2 = false ∧
  (∀ obj' con' v' n' r s3, obj' ∈ guarded → enabled op2 s2 (EOperate obj' con' k v' false n') →
     handle (EOperate obj' con' k v' false n') s2 = (Done r, s3) → r = AControl true).
Proof.
  intros Ht0 Hc Hg bad Hen Hh Ht Hbad. pose proof (trace_ok _ _ _ _ _ (started_ok now) Ht0) as Hs.
  pose proof (handle_after _ _ _ _ _ Hs Hen Hh) as Ha.
  pose proof (after_lock _ _ _ _ Ha) as Hlock. simpl in Hlock. rewrite decide_True, Hc in Hlock by done.
  destruct (trace_ind_after (λ s, lock s = (false, k)) bad s1 op l s2 op2) as [Hs2 Hl2];
    [|apply Ha|done|done|done|].
  { intros s' ev b s'' Hl Hb Ha'. apply (keeps_lock k s' ev b s''); [done| |done]. unfold bad in Hb. simpl in Hb.
    destruct ev as [c []|obj' c sixth v' t t'|t|a' v'|t|]; simpl; try done. intros ->. done. }
  split; [|split; [by apply lock_pair in Hl2 as [-> _]|]].
  - rewrite (after_answer _ _ _ _ Ha Hg). unfold passes, checked. rewrite decide_True, Hc by done. simpl.
    by rewrite bool_decide_eq_true_2.
  - intros obj' con' v' n' r s3 Hg' Hen' Hh'.
    pose proof (handle_after _ _ _ _ _ Hs2 Hen' Hh') as Ha'. rewrite (after_answer _ _ _ _ Ha' Hg').
    apply lock_pair in Hl2 as [_ Hc2]. unfold passes, checked. rewrite decide_True by done.
    destruct (controllingClient s2) eqn:Hc3; simpl; rewrite ?Hc3; by rewrite bool_decide_eq_true_2.
Qed.

(** The simulated measurements end: once the accumulated time is 2^21, adding a tenth
    to it in single precision gives 2^21 again, so that it never changes in any
    later state, and the four values stay at the sine of the same arguments. *)
Theorem analog_values_stall s op l s2 op2 :
  server_ok s → t (loc s) = f32_of (2 ^ 21) → trace s op l s2 op2 →
  t (loc s2) = f32_of (2 ^ 21).
Proof.
  intros Hs Hst Ht.
  refine (proj2 (trace_ind_after (λ s, t (loc s) = f32_of (2 ^ 21)) (λ _, True)
    s op l s2 op2 _ Hs Hst _ Ht)); [|by apply Forall_true].
  intros s' ev a s'' Hst' _ Ha. rewrite (after_loc _ _ _ _ Ha).
  destruct ev as [c b|obj' c sixth v' b t'|t'|a' v'|t'|]; try done.
  unfold loc_after, next_loc. destruct (pc (loc s')) as [| |[|]| | |]; try done. simpl. rewrite Hst'.
  vm_compute. reflexivity.
Qed.
End Properties.

(** ** What an interleaving can do *)

Definition quiet `{BeagleLib} (ev : event) : event * answer := (ev, ANone).

(** The main thread toggles the LEDs on and has switched the first one, and
    counted; before it gets to its status a client switches it off. *)
Definition race `{BeagleLib} (off : ctl_val) : list (event * answer) :=
  quiet (EConnection 1 true) :: (quiet <$> repeat (EStep 1000) 8) ++
  (EOperate iedModel_GenericIO_GGIO1_SPCSO1 1 (Some 1%nat) off false 1000, AControl true) ::
  (quiet <$> repeat (EJob 1000) 4) ++ (quiet <$> repeat (EStep 1000) 11).

(** The status of an LED can be wrong for good: a toggle and a command that
    overlap leave the LED off and its status on, with nothing left to do, and a
    client in control, so that the main thread does not toggle again. *)
Theorem status_can_differ `{BeagleLib} off :
  MmsValue_getBoolean off = false →
  ∃ s op x, trace (started 0) ∅ (race off) s op ∧ iedServer s = Some x ∧
    todo s = [] ∧ job s = [] ∧ automaticOperationMode s = false ∧
    last_switch LED1 (lines s) = Some 0 ∧
    shown (attributes x) iedModel_GenericIO_GGIO1_SPCSO1_stVal = Some true.
Proof.
  intros Hoff. assert (∃ s op, exec (started 0) ∅ (race off) = Some (s, op) ∧
    match iedServer s with
    | Some x => todo s = [] ∧ job s = [] ∧ automaticOperationMode s = false ∧
        last_switch LED1 (lines s) = Some (Z.b2z (MmsValue_getBoolean off)) ∧
        shown (attributes x) iedModel_GenericIO_GGIO1_SPCSO1_stVal = Some true
    | None => False
    end) as (s & op & He & Hs).
  { eexists _, _. split; [vm_compute; reflexivity|]. vm_compute. done. }
  apply exec_trace in He. destruct (iedServer s) as [x|] eqn:Hx; [|by destruct Hs]. rewrite Hoff in Hs.
  exists s, op, x. split; [exact He|]. split; [exact Hx|exact Hs].
Qed.

(** ** Witnesses *)

Definition demo_beagle : BeagleLib :=
  {| ctl_val := Z; MmsValue_getBoolean v := negb (v =? 0); MmsValue_toInt32 := wrap_s 32;
     sinf x := x; no_handler _ := false |}.
#[local] Existing Instance demo_beagle.

#[local] Instance demo_beagle_ok : BeagleLibOk.
Proof. constructor. intros v. by apply wrap_s_range. Defined.

Definition ask (obj : addr) (c : nat) (v : Z) (test ok : bool) : event * answer :=
  (EOperate obj c (Some c) v test 0, AControl ok).
Definition jobs (n : nat) : list (event * answer) := quiet <$> repeat (EJob 0) n.

(** Two clients connect; the first switches an output and leaves, the second
    switches another one. *)
Definition two_clients : list (event * answer) :=
  [quiet (EConnection 1 true); quiet (EConnection 2 true)] ++
  ask iedModel_GenericIO_GGIO1_SPCSO1 1 1 false true ::
  (jobs 4 ++ [ask iedModel_GenericIO_GGIO1_SPCSO2 2 1 false false; quiet (EConnection 1 false)]) ++
  [ask iedModel_GenericIO_GGIO1_SPCSO2 2 1 false true].

(** A run from the start that ends as [P] checks. *)
Lemma demo_run (P : beagle → gset nat → bool) l :
  match exec (started 0) ∅ l with Some (s, op) => P s op | None => false end = true →
  ∃ s op, trace (started 0) ∅ l s op ∧ P s op = true.
Proof.
  destruct (exec (started 0) ∅ l) as [[s op]|] eqn:He; [|done].
  exists s, op. split; [by apply exec_trace|done].
Qed.

Ltac by_run := vm_compute; reflexivity.
Ltac by_bool := apply (bool_decide_unpack _); vm_compute; exact I.

(** Any connected client can bring the overflow about, without taking control:
    it sets the counter to the largest value, and the next time that the
    blinking LEDs go on is undefined behaviour. *)
Theorem counter_overflow_reachable : ∃ l s op,
  trace (started 0) ∅ l s op ∧ controllingClient s = None ∧
  (handle (EStep 1000) s).1 = Undef "signed overflow: opCnt++".
Proof.
  exists (quiet (EConnection 1 true) :: ask iedModel_GenericIO_TIM_GAPC1_OpCntRs 1 (2 ^ 31 - 1) false true ::
          jobs 4 ++ (quiet <$> repeat (EStep 1000) 3)).
  destruct (demo_run (λ s _, bool_decide (controllingClient s = None) &&
     match (handle (EStep 1000) s).1 with
     | Undef w => String.eqb w "signed overflow: opCnt++"%string
     | _ => false
     end) (quiet (EConnection 1 true) :: ask iedModel_GenericIO_TIM_GAPC1_OpCntRs 1 (2 ^ 31 - 1) false true ::
           jobs 4 ++ (quiet <$> repeat (EStep 1000) 3))) as (s & op & Ht & Hs); [by_run|].
  exists s, op. split; [done|]. apply andb_true_iff in Hs as [Hc Hu]. apply bool_decide_eq_true in Hc.
  split; [done|]. destruct ((handle (EStep 1000) s).1) eqn:Hr; try done. by apply String.eqb_eq in Hu as ->.
Qed.

Lemma status_is_device_witness :
  ∃ s op x, trace (started 0) ∅ two_clients s op ∧ iedServer s = Some x ∧
    last_switch LED1 (lines s) = Z.b2z <$> shown (attributes x) iedModel_GenericIO_GGIO1_SPCSO1_stVal.
Proof.
  destruct (demo_run (λ s _, bool_decide (is_Some (iedServer s)) &&
      none_pending (of_led LED1 iedModel_GenericIO_GGIO1_SPCSO1_stVal) s) two_clients)
    as (s & op & Ht & Hx); [by_run|].
  apply andb_true_iff in Hx as [Hx Hn]. apply bool_decide_eq_true in Hx as [x Hx].
  exists s, op, x. split; [done|]. split; [done|].
  destruct (status_is_device 0 _ s op x Ht Hx) as (Hl & _). apply Forall_cons in Hl as [Hl _].
  assert (never_bothb (of_led LED1 iedModel_GenericIO_GGIO1_SPCSO1_stVal) (started 0) two_clients = true) as Hb;
    [by_run|].
  exact (proj1 (Hl (never_bothb_ok _ _ _ _ Hb) Hn)).
Defined.

Lemma exclusive_control_witness :
  EConnection 1 false ∈ (jobs 4 ++ [ask iedModel_GenericIO_GGIO1_SPCSO2 2 1 false false;
                                    quiet (EConnection 1 false)]).*1.
Proof.
  destruct (demo_run (λ _ _, true) two_clients) as (s & op & Ht & _); [by_run|].
  exact (exclusive_control 0 [quiet (EConnection 1 true); quiet (EConnection 2 true)]
    iedModel_GenericIO_GGIO1_SPCSO1 1 _ 1 false 0 _ iedModel_GenericIO_GGIO1_SPCSO2 2 _ 1 false 0
    s op Ht eq_refl eq_refl ltac:(by_bool) ltac:(by_bool) ltac:(done)).
Defined.

Definition takes_control : list (event * answer) :=
  [quiet (EConnection 1 true); ask iedModel_GenericIO_GGIO1_SPCSO1 1 1 false true].

(** The client in control, and after it closes nobody: a double point command,
    and a step of the main thread that does not blink. *)
Definition keeps_control : list (event * answer) :=
  jobs 4 ++ [quiet (EStep 2000); quiet (EStep 2000); ask iedModel_GenericIO_GGIO1_DPCSO1 1 1 false true] ++ jobs 5.

Lemma only_controller_switches_witness :
  ∃ s s2, lines s2 ++ printed (job s2) =
    lines s ++ printed (job s) ++ [FLASH LED4; SWITCH4 LED4 true].
Proof.
  destruct (demo_run (λ s _, bool_decide (controllingClient s = Some 1%nat) && negb (automaticOperationMode s) &&
              match pc (loc s) with LTop => true | _ => false end) takes_control)
    as (s & op & Ht & Hc); [by_run|].
  destruct (demo_run (λ _ _, true) (takes_control ++ keeps_control)) as (s2 & op2 & Ht2 & _); [by_run|].
  apply andb_true_iff in Hc as [[Hc Hm]%andb_true_iff Hp]. apply bool_decide_eq_true in Hc.
  apply negb_true_iff in Hm. apply trace_app_inv in Ht2 as (s' & op' & Ht1 & Ht2).
  destruct (trace_det _ _ _ _ _ _ _ Ht Ht1) as [<- <-]. exists s, s2.
  refine (proj2 (only_controller_switches 0 takes_control s op (Some 1%nat) keeps_control s2 op2 Ht Hm Hc _ Ht2 _)).
  - unfold not_toggling. by destruct (pc (loc s)).
  - repeat (constructor; [done|]). constructor.
Defined.

Definition one_toggle : list (event * answer) :=
  (quiet <$> repeat (EStep 1000) 19) ++ [quiet (EStep 2000)].

Lemma toggle_spacing_witness :
  ∃ s s2 ct2, pc (loc s) = LBlink 1000 ∧ pc (loc s2) = LBlink ct2 ∧ 1000 + 1000 ≤ ct2.
Proof.
  destruct (demo_run (λ s _, match pc (loc s) with LBlink c => c =? 1000 | _ => false end
    && negb (ledStateValue (loc s)) && (ledOnTimeMs s =? 1000)) [quiet (EStep 1000)])
    as (s & op & Ht & Hc); [by_run|].
  destruct (demo_run (λ s _, match pc (loc s) with LBlink c => c =? 2000 | _ => false end)
    ([quiet (EStep 1000)] ++ quiet (EStep 1000) :: one_toggle)) as (s2 & op2 & Ht2 & Hc2); [by_run|].
  apply trace_app_inv in Ht2 as (s' & op' & Ht1 & Ht2).
  destruct (trace_det _ _ _ _ _ _ _ Ht Ht1) as [<- <-].
  inversion Ht2 as [|? ? ? ? s1 ? ? ? Hen Hh Ht3]; subst.
  destruct (pc (loc s)) as [|c| | | |] eqn:Hpc; try discriminate Hc.
  destruct (pc (loc s2)) as [|c2| | | |] eqn:Hpc2; try discriminate Hc2.
  apply andb_true_iff in Hc as [[Hc Hled]%andb_true_iff Hon]. apply Z.eqb_eq in Hc, Hc2, Hon.
  apply negb_true_iff in Hled. subst c c2. exists s, s2, 2000. split; [exact Hpc|]. split; [exact Hpc2|].
  assert (step_times one_toggle = repeat 1000 19 ++ [2000]) as Htimes by by_run.
  assert (StronglySorted Z.le (1000 :: step_times one_toggle)) as Hsort.
  { rewrite Htimes. cbn [repeat app]. repeat (constructor; [|repeat (constructor; [lia|]); constructor]).
    constructor. }
  pose proof (toggle_spacing 0 _ s op 1000 one_toggle s2 op2 2000 1000 s1 Ht Hpc ltac:(lia) Hh Ht3 Hsort Hpc2) as Hsp.
  rewrite Hled, Hon in Hsp. exact Hsp.
Defined.

Definition misdirected (k : ClientConnection) : event :=
  EOperate iedModel_GenericIO_GGIO1_SPCSO1 1 k (1 : @ctl_val demo_beagle) false 0.

(** With NULL for the connection. *)
Lemma wrong_handler_type_witness : ∃ s1 s2,
  controllingClient (started 0) = None ∧ automaticOperationMode s2 = false ∧
  handle (misdirected None) s1 = (Done (AControl true), s2).
Proof.
  destruct (demo_run (λ s _, bool_decide (controllingClient s = None)) [quiet (EConnection 1 true)])
    as (s1 & op & Ht & Hc); [by_run|].
  destruct (demo_run (λ _ _, true) ([quiet (EConnection 1 true)] ++ [(misdirected None, AControl true)]))
    as (s2 & op2 & Ht2 & _); [by_run|].
  apply trace_app_inv in Ht2 as (s' & op' & Ht1 & Ht2).
  destruct (trace_det _ _ _ _ _ _ _ Ht Ht1) as [<- <-].
  inversion Ht2 as [|? ? ? ? s3 ? ? ? Hen Hh Ht3]; subst. inversion Ht3; subst.
  apply bool_decide_eq_true in Hc. exists s1, s2. split; [by vm_compute|]. split; [|done].
  apply (wrong_handler_type 0 _ s1 op None iedModel_GenericIO_GGIO1_SPCSO1 1 (1 : @ctl_val demo_beagle) 0 _ s2 [] s2 _ Ht Hc
    ltac:(by_bool) Hen Hh Ht3 (Forall_nil_2 _)).
Defined.
