(* ===== verification/DemoModel.v ===== *)
(** * The data model of the demonstration server

    [sample/61850_demo] has its own copy of the generated model.  It is the
    gateway's, so that what [StaticModel] shows holds of it too: its references
    and macros name its nodes.  The handlers
    that [BeagleServer] installs on it are those that it needs, and the values
    that the program gives to its attributes are of their types. *)

From Stdlib Require Import ZArith String.
From stdpp Require Import base tactics list numbers strings gmap.
From S2P Require Import Prelude IedModel ModelFacts StaticModelData StaticModelNames StaticModel.
From S2P Require Import DemoModelData DemoModelNames BeagleServer BeagleControl.
#[local] Open Scope Z_scope.

(** The tree of the copy, once its initialiser has run. *)
Definition demo_model_forest (h : heap) : option (list tree) :=
  walk (S (length demo_nodes)) h iedModel (ied_firstChild DemoModelData.iedModel_root).

Definition demo_forest : list tree :=
  default [] (demo_model_forest (DemoModelData.initializeValues demo_heap)).

(** The controls that a client can operate: those with a control model. *)
Definition operable (ts : list tree) : list (list string * tree) :=
  List.filter (λ p, is_some_b (ctl_model p.2)) (controls ts).

(** The demonstration server and the gateway serve the same model: the two
    sources define the same objects, data set, report control blocks, root and
    initial values, and their headers the same declarations and macros, each in
    the same order. *)
Lemma demo_model_is_gateways :
  demo_nodes = static_nodes ∧ demo_entries = static_entries ∧ demo_dataSets = static_dataSets ∧
  demo_rcbs = static_rcbs ∧ DemoModelData.iedModel_root = StaticModelData.iedModel_root ∧
  DemoModelData.initial_values = StaticModelData.initial_values ∧
  demo_externs = static_externs ∧ demo_macros = static_macros.
Proof. split_and!; reflexivity. Qed.

Lemma operable_addrs :
  (λ p, tree_addr p.2) <$> operable demo_forest =
  [iedModel_GenericIO_GGIO1_SPCSO1; iedModel_GenericIO_GGIO1_SPCSO2; iedModel_GenericIO_GGIO1_SPCSO3;
   iedModel_GenericIO_GGIO1_DPCSO1; iedModel_GenericIO_TIM_GAPC1_OpCntRs].
Proof. vm_compute. reflexivity. Qed.







(** A setting: an integer attribute that clients write. *)
Definition is_setting (n : ModelNode) : bool :=
  match n with
  | DataAttribute _ _ _ _ 0 _ fc ty _ _ _ =>
      bool_decide (fc = IEC61850_FC_SP) && bool_decide (ty = IEC61850_INT32)
  | _ => false
  end.

(** C22: at any time of any interleaving the handlers fit the served model: the
    objects with a control handler are the controls of the model that a client
    can operate, no more and no less, each handler with its own object as its
    parameter; the outputs among them are those with a check handler, and the
    write handlers are on settings. *)
Theorem handlers_fit_model `{BeagleLib, !BeagleLibOk} now l s op x :
  trace (started now) ∅ l s op → iedServer s = Some x →
  (control_handlers x).*1 ≡ₚ (λ p, tree_addr p.2) <$> operable demo_forest ∧
  Forall (λ h, h.2.2 = h.1 ∧ (h.1 ∈ check_handlers x ↔ h.2.1 = HBinaryOutput)) (control_handlers x) ∧
  check_handlers x ⊆ (control_handlers x).*1 ∧
  Forall (λ a, is_setting <$> demo_heap !! a = Some true) (write_handlers x).
Proof.
  intros Ht Hx. pose proof (trace_ok _ _ _ _ _ (started_ok now) Ht) as Hs.
  unfold server_ok in Hs. rewrite Hx in Hs. destruct Hs as [Hok _].
  destruct (ok_handlers _ _ Hok) as (Hc & Hh & Hw).
  rewrite operable_addrs, Hh, Hc, Hw. split_and!.
  - symmetry. apply (Permutation_rev [_; _; _; _; _]).
  - repeat (apply Forall_cons; split); try apply Forall_nil; try exact I.
    1: split; [reflexivity|split; [|discriminate]]; intros Hin; exfalso; revert Hin;
       apply (bool_decide_unpack (_ ∉ guarded)); exact I.
    all: split; [reflexivity|split; [reflexivity|intros _]]; apply (bool_decide_unpack _); exact I.
  - intros a Ha. by right.
  - repeat (apply Forall_cons; split; [vm_compute; reflexivity|]). apply Forall_nil. exact I.
Qed.

(** *** The types of the values *)

(** Is the value one of the attribute's type? *)
Definition value_of_type (v : attr_value) (ty : DataAttributeType) : bool :=
  match v, ty with
  | AvBoolean _, IEC61850_BOOLEAN | AvInt32 _, IEC61850_INT32 | AvUtcTime _, IEC61850_TIMESTAMP
  | AvQuality _, IEC61850_QUALITY | AvFloat _, IEC61850_FLOAT32 => true
  | AvBitString bits, IEC61850_CODEDENUM => (length bits =? 2)%nat
  | _, _ => false
  end.

(** The address is one of an attribute of the model, of the value's type. *)
Definition fits (a : addr) (v : attr_value) : bool :=
  match demo_heap !! a with
  | Some (DataAttribute _ _ _ _ 0 _ _ ty _ _ _) => value_of_type v ty
  | _ => false
  end.

Definition access_fits (y : access) : Prop :=
  match y with
  | AUpdate a v => fits a v = true
  | ATime a => ∀ now, fits a (AvUtcTime now) = true
  | _ => True
  end.

Definition attributes_fit (x : IedServer) : Prop := map_Forall (λ a v, fits a v = true) (attributes x).

Section Types.
Context `{BeagleLib, !BeagleLibOk}.

Lemma update_fits a v x : fits a v = true → attributes_fit x → attributes_fit (update a v x).
Proof. intros Hv Hx. by apply map_Forall_insert_2. Qed.

Lemma access_keeps_fit now c y x : access_fits y → attributes_fit x → attributes_fit (server_after now c y x).
Proof.
  destruct y; intros Hy Hx; try exact Hx; apply update_fits; try exact Hx; [exact Hy|exact (Hy now)|].
  vm_compute. reflexivity.
Qed.

Lemma updates_fit l x :
  Forall (λ p, fits p.1 p.2 = true) l → attributes_fit x →
  attributes_fit (foldl (λ x p, update p.1 p.2 x) x l).
Proof.
  revert x. induction l as [|p l IH]; intros x Hl Hx; [done|]. apply Forall_cons in Hl as [Hp Hl].
  apply IH; [done|]. by apply update_fits.
Qed.

Lemma analog_fits f ct : Forall (λ p, fits p.1 p.2 = true) (analog_updates f ct).
Proof. repeat (apply Forall_cons; split; [vm_compute; reflexivity|]). apply Forall_nil. exact I. Qed.

Lemma toggle_fits led ct : Forall access_fits (toggle_accesses led ct).
Proof.
  destruct led; repeat (apply Forall_cons; split; [first [exact I|vm_compute; reflexivity]|]);
    apply Forall_nil; exact I.
Qed.

Lemma request_fits ev l : request_accesses ev = Some l → Forall access_fits l.
Proof.
  apply request_cases.
  - by constructor.
  - intros obj v now Hg. unfold controlHandlerForBinaryOutput, guarded in *.
    repeat (apply elem_of_cons in Hg as [->|Hg]); [..|by apply elem_of_nil in Hg]; decide_addr; cbn [fst app];
      repeat (apply Forall_cons; split; [first [exact I|intros ?|idtac]; vm_compute; try exact I; reflexivity|]);
      apply Forall_nil; exact I.
  - intros v. unfold controlHandlerForInt32Controls. decide_addr.
    repeat (apply Forall_cons; split; [first [exact I|intros ?; vm_compute; reflexivity]|]); apply Forall_nil; exact I.
  - intros n. repeat (apply Forall_cons; split; [first [exact I|vm_compute; reflexivity]|]); apply Forall_nil; exact I.
  - intros n. repeat (apply Forall_cons; split; [first [exact I|vm_compute; reflexivity]|]); apply Forall_nil; exact I.
Qed.

Definition all_fit (s : beagle) : Prop :=
  (∀ x, iedServer s = Some x → attributes_fit x) ∧ Forall access_fits (job s) ∧ Forall access_fits (todo s).

Lemma all_fit_step op s ev a s' :
  server_ok s → enabled op s ev → handle ev s = (Done a, s') → all_fit s → all_fit s'.
Proof.
  intros Hs Hen Hh (Hx & Hj & Ht). pose proof (handle_after _ _ _ _ _ Hs Hen Hh) as Ha. split.
  - intros x' Hx'. destruct (server_before _ _ _ _ _ _ Hs Hen Hh Hx') as [x Hx0].
    specialize (Hx x Hx0). destruct (after_data _ _ _ _ Ha x x' Hx0 Hx') as [Hat _].
    assert (match access_of ev s with Some (_, _, y) => access_fits y | None => True end) as Hy.
    { destruct ev; try exact I; cbn [access_of].
      - destruct (job s); [exact I|]. by apply Forall_cons in Hj as [? _].
      - destruct (todo s); [exact I|]. by apply Forall_cons in Ht as [? _]. }
    unfold attributes_fit. destruct (access_of ev s) as [[[now c] y]|].
    + rewrite Hat. by apply access_keeps_fit.
    + destruct Hat as [->|(f & ct & ->)]; [done|]. apply updates_fit; [apply analog_fits|done].
  - destruct (lists_after op s ev a s' Hs Hen Ha)
      as [(y & _ & E1 & ->)|[(y & _ & E1 & ->)|(_ & [(led & ct & _ & -> & ->)|[(l & Hr & _ & -> & ->)|(-> & ->)]])]].
    + rewrite E1 in Hj. by apply Forall_cons in Hj as [_ ?].
    + rewrite E1 in Ht. by apply Forall_cons in Ht as [_ ?].
    + split; [done|]. apply toggle_fits.
    + split; [by eapply request_fits|done].
    + done.
Qed.

Lemma started_fits now : all_fit (started now).
Proof.
  destruct (started_eq now) as (x & Hx & _ & Hj & _ & Hpc & _ & _ & _ & _ & Hat). split.
  - intros x' Hx'. rewrite Hx in Hx'. injection Hx' as <-. unfold attributes_fit. rewrite Hat.
    repeat (apply map_Forall_insert_2; [vm_compute; reflexivity|]). apply map_Forall_empty.
  - unfold todo. by rewrite Hj, Hpc.
Qed.

(** C24: the program gives an attribute only values of the attribute's type: at
    any time of any interleaving, every attribute that it has updated is a
    basic attribute of the served model and its value is of the type that the
    model states (a boolean, a 32 bit integer, a time stamp, a quality, a float
    or a code of two bits), and so is every update that a running handler or a
    toggle of the main thread has still to make. *)
Theorem updates_fit_model now l s op x :
  trace (started now) ∅ l s op → iedServer s = Some x →
  attributes_fit x ∧ Forall access_fits (job s) ∧ Forall access_fits (todo s).
Proof.
  intros Ht Hx. assert (server_ok s ∧ all_fit s) as [_ [Hfit Hrest]]; [|split; [by apply Hfit|done]].
  clear Hx. revert Ht. generalize (∅ : gset nat) as op0, (started_ok now), (started_fits now).
  generalize (started now) as s0. intros s0 op0 Hs Hf Ht.
  induction Ht as [|s0 op0 ev a s1 l s op Hen Hh Ht IH]; [done|].
  apply IH; [apply (handle_after _ _ _ _ _ Hs Hen Hh)|by eapply all_fit_step].
Qed.
End Types.

#[local] Existing Instance demo_beagle.

(** The server after the session of [two_clients]. *)
Lemma handlers_fit_model_witness :
  ∃ s op x, trace (started 0) ∅ two_clients s op ∧ iedServer s = Some x ∧
    (control_handlers x).*1 ≡ₚ (λ p, tree_addr p.2) <$> operable demo_forest.
Proof.
  destruct (demo_run (λ s _, bool_decide (is_Some (iedServer s))) two_clients) as (s & op & Ht & Hx);
    [vm_compute; reflexivity|].
  apply bool_decide_eq_true in Hx as [x Hx]. exists s, op, x. split; [done|]. split; [done|].
  exact (proj1 (@handlers_fit_model demo_beagle demo_beagle_ok 0 two_clients s op x Ht Hx)).
Defined.

Lemma updates_fit_model_witness :
  ∃ s op x, trace (started 0) ∅ two_clients s op ∧ iedServer s = Some x ∧ attributes_fit x.
Proof.
  destruct (demo_run (λ s _, bool_decide (is_Some (iedServer s))) two_clients) as (s & op & Ht & Hx);
    [vm_compute; reflexivity|].
  apply bool_decide_eq_true in Hx as [x Hx]. exists s, op, x. split; [done|]. split; [done|].
  exact (proj1 (@updates_fit_model demo_beagle demo_beagle_ok 0 two_clients s op x Ht Hx)).
Defined.
