(* ===== verification/BeagleClient.v ===== *)
(** * The clients of the demonstration server

    [sample/61850_demo/beagle_client.c], the client that switches the four
    LEDs in an endless loop until a command fails, and [main.c], which runs
    either the server or the client.  libiec61850 is the class [IedApi] of the
    gateway's own client and [SelectApi].  At the end the gateway meets the
    demonstration server: what a control request of [Iec61850Client] does to
    the LEDs of [BeagleServer]. *)

From Stdlib Require Import ZArith Ascii String SpecFloat Lia.
From stdpp Require Import base tactics option list numbers strings gmap.
From S2P Require Import Prelude IedModel ModelFacts StaticModelData StaticModel Iec61850Client.
From S2P Require Import BeagleServer BeagleControl.
#[local] Open Scope Z_scope.

(** [ControlObjectClient_select]: its result and the network after it. *)
Class SelectApi `{IedApi} : Type := { ied_select : string → ied_net → bool * ied_net }.

(** ** The client *)

Section Client.
Context `{SelectApi}.

(** A control object: its reference, or NULL. *)
Definition ControlObjectClient : Type := option string.

Record bclient := {
  bc_net : ied_net;
  bc_connections : Z;                 (* connection objects not destroyed *)
  bc_connected : bool;
  bc_controls : Z;                    (* control objects not destroyed *)
  bc_values : Z;                      (* values not deleted *)
  bc_sent : list (string * bool);     (* operate commands, in order *)
  bc_lines : list string
}.

Definition bc_set (w : ied_net) (con : bool) (s : bclient) : bclient :=
  {| bc_net := w; bc_connections := bc_connections s; bc_connected := con;
     bc_controls := bc_controls s; bc_values := bc_values s; bc_sent := bc_sent s;
     bc_lines := bc_lines s |}.
Definition bc_count (connections controls values : Z) (s : bclient) : bclient :=
  {| bc_net := bc_net s; bc_connections := bc_connections s + connections;
     bc_connected := bc_connected s; bc_controls := bc_controls s + controls;
     bc_values := bc_values s + values; bc_sent := bc_sent s; bc_lines := bc_lines s |}.
Definition bc_send (c : string * bool) (s : bclient) : bclient :=
  {| bc_net := bc_net s; bc_connections := bc_connections s; bc_connected := bc_connected s;
     bc_controls := bc_controls s; bc_values := bc_values s; bc_sent := bc_sent s ++ [c];
     bc_lines := bc_lines s |}.
Definition bc_print (l : string) (s : bclient) : bclient :=
  {| bc_net := bc_net s; bc_connections := bc_connections s; bc_connected := bc_connected s;
     bc_controls := bc_controls s; bc_values := bc_values s; bc_sent := bc_sent s;
     bc_lines := bc_lines s ++ [l] |}.

Definition ControlObjectClient_create (ref : string) : prog bclient ControlObjectClient := λ s,
  match ied_createControl ref (bc_net s) with
  | (Some _, w) => (Done (Some ref), bc_count 0 1 0 (bc_set w (bc_connected s) s))
  | (None, w) => (Done None, bc_set w (bc_connected s) s)
  end.

Definition ControlObjectClient_operate (c : ControlObjectClient) (ctlVal : bool) : prog bclient bool :=
  λ s,
  match c with
  | None => (Undef "NULL control object", s)
  | Some ref =>
      let '(ok, w) := ied_operate ref (Some (inl ctlVal)) (bc_net s) in
      (Done ok, bc_send (ref, ctlVal) (bc_set w (bc_connected s) s))
  end.

Definition ControlObjectClient_select (c : ControlObjectClient) : prog bclient unit := λ s,
  match c with
  | None => (Undef "NULL control object", s)
  | Some ref => (Done tt, bc_set (ied_select ref (bc_net s)).2 (bc_connected s) s)
  end.

Definition ControlObjectClient_destroy (c : ControlObjectClient) : prog bclient unit := λ s,
  match c with
  | None => (Undef "NULL control object", s)
  | Some _ => (Done tt, bc_count 0 (-1) 0 s)
  end.

(** [if (!ControlObjectClient_operate(c, v, 0)) goto control_error;] *)
Definition operate_or_error (c : ControlObjectClient) (v : bool) (rest : prog bclient bool)
    : prog bclient bool :=
  ok ← ControlObjectClient_operate c v;
  if (ok : bool) then rest else mret false.

(** [n] rounds of the endless loop; [false] is the jump to [control_error]. *)
Fixpoint control_loop (n : nat) (led1 led2 led3 led4 : ControlObjectClient) (led4State : bool)
    : prog bclient bool :=
  match n with
  | O => mret true
  | S n' =>
      operate_or_error led3 false (operate_or_error led1 true (
      operate_or_error led1 false (
      ControlObjectClient_select led2;;
      operate_or_error led2 true (
      ControlObjectClient_select led2;;
      operate_or_error led2 false (
      operate_or_error led3 true (
      if led4State then operate_or_error led4 false (control_loop n' led1 led2 led3 led4 false)
      else operate_or_error led4 true (control_loop n' led1 led2 led3 led4 true)))))))
  end.

(** [client]; [true] when it is still in its loop after [n] rounds.  When it
    comes to its end it returns no value. *)
Definition client (n : nat) (hostname : string) (tcpPort : Z) : prog bclient bool :=
  modifyS (bc_count 1 0 0);;
  s ← getS;
  let '(ok, con, w) := ied_connect false hostname tcpPort (bc_net s) in
  modifyS (bc_set w con);;
  if (ok : bool) then
    controlLED1 ← ControlObjectClient_create "beagleGenericIO/GGIO1.SPCSO1";
    controlLED2 ← ControlObjectClient_create "beagleGenericIO/GGIO1.SPCSO2";
    controlLED3 ← ControlObjectClient_create "beagleGenericIO/GGIO1.SPCSO3";
    controlLED4 ← ControlObjectClient_create "beagleGenericIO/GGIO1.DPCSO1";
    modifyS (bc_count 0 0 1);;
    modifyS (bc_count 0 0 1);;
    looping ←
      operate_or_error controlLED1 false (
      ControlObjectClient_select controlLED2;;
      operate_or_error controlLED2 false (
      operate_or_error controlLED4 false (
      control_loop n controlLED1 controlLED2 controlLED3 controlLED4 false)));
    if (looping : bool) then mret true
    else
      modifyS (bc_print "Error controlling device!");;
      modifyS (bc_count 0 0 (-1));;
      modifyS (bc_count 0 0 (-1));;
      ControlObjectClient_destroy controlLED1;;
      ControlObjectClient_destroy controlLED2;;
      ControlObjectClient_destroy controlLED3;;
      ControlObjectClient_destroy controlLED4;;
      modifyS (λ s, bc_set (bc_net s) false s);;
      modifyS (bc_count (-1) 0 0);;
      mret false
  else
    modifyS (bc_print "Connection failed!");;
    modifyS (bc_count (-1) 0 0);;
    mret false.
End Client.

(** ** [main] *)

Inductive main_action : Type :=
| RunService (port : Z)
| RunClient (hostname : string) (port : Z)
| Exit (status : Z) (line : string).

Definition main (argv : list string) : main_action :=
  match argv with
  | name :: arg :: _ =>
      if String.eqb arg "svr" then RunService 102
      else if String.eqb arg "cli" then RunClient "localhost" 102
      else Exit (-1) ("Unknown command: " ++ arg)
  | name :: [] => Exit (-1) ("Usage: " ++ name ++ " [svr] [cli]")
  | [] => Exit (-1) "Usage: (null) [svr] [cli]"
  end.

(** ** What the client sends *)

Definition round_commands (led4State : bool) : list (string * bool) :=
  [("beagleGenericIO/GGIO1.SPCSO3", false); ("beagleGenericIO/GGIO1.SPCSO1", true);
   ("beagleGenericIO/GGIO1.SPCSO1", false); ("beagleGenericIO/GGIO1.SPCSO2", true);
   ("beagleGenericIO/GGIO1.SPCSO2", false); ("beagleGenericIO/GGIO1.SPCSO3", true);
   ("beagleGenericIO/GGIO1.DPCSO1", negb led4State)]%string.

(** The commands of [n] rounds: LED 4 alternates. *)
Fixpoint rounds (n : nat) (led4State : bool) : list (string * bool) :=
  match n with O => [] | S n' => round_commands led4State ++ rounds n' (negb led4State) end.

Definition session (n : nat) : list (string * bool) :=
  [("beagleGenericIO/GGIO1.SPCSO1", false); ("beagleGenericIO/GGIO1.SPCSO2", false);
   ("beagleGenericIO/GGIO1.DPCSO1", false)]%string ++ rounds n false.

(** ** Lemmas *)

Section ClientLemmas.
Context `{SelectApi}.

(** Everything but the network and the commands. *)
Definition same_held (s s' : bclient) : Prop :=
  bc_connections s' = bc_connections s ∧ bc_connected s' = bc_connected s ∧
  bc_controls s' = bc_controls s ∧ bc_values s' = bc_values s ∧ bc_lines s' = bc_lines s.

(** [m] sends the commands [l], or those up to the first that fails. *)
Definition sends (m : prog bclient bool) (l : list (string * bool)) : Prop :=
  ∀ s, ∃ ok s' k, m s = (Done ok, s') ∧ same_held s s' ∧ bc_sent s' = bc_sent s ++ take k l ∧
    (ok = true → k = length l) ∧ (ok = false → (0 < k ≤ length l)%nat).

Lemma sends_true : sends (mret true) [].
Proof. intros s. exists true, s, 0%nat. by rewrite app_nil_r. Qed.

Lemma sends_operate ref v m l : sends m l → sends (operate_or_error (Some ref) v m) ((ref, v) :: l).
Proof.
  intros Hm s. unfold operate_or_error, ControlObjectClient_operate, mbind, prog_bind.
  destruct (ied_operate ref (Some (inl v)) (bc_net s)) as [[] w] eqn:Hop; simpl.
  - destruct (Hm (bc_send (ref, v) (bc_set w (bc_connected s) s)))
      as (ok & s' & k & Hrun & Hh & Hs & Ht & Hf).
    exists ok, s', (S k). split; [done|]. split; [done|].
    rewrite Hs. simpl. rewrite <- app_assoc. split; [done|].
    split; intros Hok; [rewrite Ht by done; done|specialize (Hf Hok); lia].
  - eexists false, _, 1%nat. split; [done|]. split; [done|]. split; [done|]. split; [done|]. lia.
Qed.

Lemma sends_select ref m l : sends m l → sends (ControlObjectClient_select (Some ref);; m) l.
Proof.
  intros Hm s. unfold ControlObjectClient_select, mbind at 1, prog_bind at 1.
  destruct (Hm (bc_set (ied_select ref (bc_net s)).2 (bc_connected s) s))
    as (ok & s' & k & Hrun & Hh & Hs & Ht & Hf).
  by exists ok, s', k.
Qed.

Ltac sends_tac :=
  repeat first [apply sends_operate | apply sends_select | apply sends_true].

Lemma sends_rounds n led4State :
  sends (control_loop n (Some "beagleGenericIO/GGIO1.SPCSO1"%string)
    (Some "beagleGenericIO/GGIO1.SPCSO2"%string) (Some "beagleGenericIO/GGIO1.SPCSO3"%string)
    (Some "beagleGenericIO/GGIO1.DPCSO1"%string) led4State) (rounds n led4State).
Proof.
  revert led4State. induction n as [|n IH]; intros led4State; [apply sends_true|].
  cbn [control_loop rounds round_commands app]. destruct led4State; sends_tac; apply IH.
Qed.

Lemma sends_session n :
  sends (operate_or_error (Some "beagleGenericIO/GGIO1.SPCSO1"%string) false
    (ControlObjectClient_select (Some "beagleGenericIO/GGIO1.SPCSO2"%string);;
     operate_or_error (Some "beagleGenericIO/GGIO1.SPCSO2"%string) false
    (operate_or_error (Some "beagleGenericIO/GGIO1.DPCSO1"%string) false
    (control_loop n (Some "beagleGenericIO/GGIO1.SPCSO1"%string)
      (Some "beagleGenericIO/GGIO1.SPCSO2"%string) (Some "beagleGenericIO/GGIO1.SPCSO3"%string)
      (Some "beagleGenericIO/GGIO1.DPCSO1"%string) false)))) (session n).
Proof. unfold session. cbn [app]. sends_tac. apply sends_rounds. Qed.

Lemma create_eq ref s ty w :
  ied_createControl ref (bc_net s) = (Some ty, w) →
  ControlObjectClient_create ref s = (Done (Some ref), bc_count 0 1 0 (bc_set w (bc_connected s) s)).
Proof. unfold ControlObjectClient_create. by intros ->. Qed.
End ClientLemmas.

(** The client connects, creates its four controls and sends, in order, the
    commands of the session: three to switch LEDs 1, 2 and 4 off, then the
    seven of each round, in which LED 4 alternates; it stops after the first
    command that fails, and then it has destroyed its controls, values and
    connection. *)
Theorem client_session `{SelectApi} n hostname port s w :
  (∃ con, ied_connect false hostname port (bc_net s) = (true, con, w)) →
  (∀ ref w, ∃ ty w', ied_createControl ref w = (Some ty, w')) →
  ∃ looping s' k, client n hostname port s = (Done looping, s') ∧
    bc_sent s' = bc_sent s ++ take k (session n) ∧
    (if looping then k = length (session n) ∧ bc_controls s' = bc_controls s + 4 ∧
       bc_values s' = bc_values s + 2 ∧ bc_connections s' = bc_connections s + 1
     else (0 < k ≤ length (session n))%nat ∧ bc_controls s' = bc_controls s ∧
       bc_values s' = bc_values s ∧ bc_connections s' = bc_connections s ∧ bc_connected s' = false).
Proof.
  intros [con Hcon] Hcreate. unfold client.
  erewrite prog_bind_eq by reflexivity. erewrite prog_bind_eq by reflexivity.
  cbn [bc_count bc_net]. rewrite Hcon. erewrite prog_bind_eq by reflexivity. cbv iota.
  do 4 (match goal with
        | |- context [(ControlObjectClient_create ?r ≫= _) ?s0] =>
            let ty := fresh "ty" in let w' := fresh "w" in let Hc := fresh "Hc" in
            destruct (Hcreate r (bc_net s0)) as (ty & w' & Hc);
            rewrite (prog_bind_eq _ _ _ _ _ (create_eq _ _ _ _ Hc)); clear Hc
        end).
  do 2 (erewrite prog_bind_eq by reflexivity).
  match goal with |- context [(_ ≫= _) ?s1] =>
    destruct (sends_session n s1) as ([] & s' & k & Hrun & (Hn & Hc & Hk & Hv & _) & Hs & Ht & Hf)
  end; rewrite (prog_bind_eq _ _ _ _ _ Hrun); simpl in *.
  - eexists true, s', k. split; [done|]. split; [done|]. rewrite Hn, Hk, Hv. split; [by apply Ht|]. lia.
  - eexists false, _, k. split; [done|]. split; [done|]. simpl. rewrite Hn, Hk, Hv.
    split; [by apply Hf|]. split_and!; lia || done.
Qed.

(** ** The gateway and the demonstration server *)

(** The object of the served model that a reference of MMS names: the domain
    is the name of the model followed by that of the device. *)
Definition ref_path (ref : string) : list string :=
  match split_on "/"%char ref with
  | [domain; item] =>
      if String.prefix (ied_name iedModel_root) domain then
        String.substring (String.length (ied_name iedModel_root)) (String.length domain) domain ::
        split_on "."%char item
      else []
  | _ => []
  end.

Definition ref_node (ref : string) : option tree := resolve static_forest (ref_path ref).

(** The type of the control value of a controllable object. *)
Definition control_type (ref : string) : option MmsType :=
  t ← ref_node ref;
  match resolve (tree_children t) ["Oper"; "ctlVal"]%string with
  | Some (Node _ (DataAttribute _ _ _ _ _ _ _ ty _ _ _) _) =>
      match ty with
      | IEC61850_BOOLEAN => Some MMS_BOOLEAN
      | IEC61850_INT32 => Some MMS_INTEGER
      | _ => None
      end
  | _ => None
  end.

Section Gateway.
Context `{BeagleLib} (encode : bool + Z → ctl_val) (con : nat) (k : ClientConnection) (clock : beagle → Z).

(** The running handler does all that it has to do. *)
Definition finish_job : prog beagle unit :=
  s ← getS; iterS (job s) (λ _, s ← getS; job_step (clock s)).

(** A request of connection [con], whose check finds [k] as its connection: it is
    answered when its handler has returned. *)
Definition request (obj : addr) (v : ctl_val) : prog beagle bool :=
  s ← getS;
  ok ← operate obj k v false (clock s);
  finish_job;;
  mret ok.

(** The demonstration server as the gateway's connection [con] sees it. *)
Definition beagle_ied : IedApi (H := demo_mms) := {|
  ied_net := beagle;
  ied_connect c _ _ w := (negb c, true, w);
  ied_readObject _ p _ w :=
    match (x ← iedServer w; t ← ref_node p; attributes x !! tree_addr t) with
    | Some (AvBoolean b) => (Some (DvBool b : @MmsValue demo_mms), true, w)
    | Some (AvInt32 i) => (Some (DvInt i : @MmsValue demo_mms), true, w)
    | Some (AvUtcTime ms) => (Some (DvUtc ms : @MmsValue demo_mms), true, w)
    | _ => (None, false, w)
    end;
  ied_createControl ref w := (control_type ref, w);
  ied_operate ref v w :=
    match tree_addr <$> ref_node ref, v with
    | Some obj, Some v' =>
        match request obj (encode v') w with
        | (Done ok, w') => (ok, w')
        | (_, w') => (false, w')
        end
    | _, _ => (false, w)
    end
|}.

(** The three single point outputs, by their references. *)
Definition output_refs : list (string * addr * string) :=
  [("beagleGenericIO/GGIO1.SPCSO1", iedModel_GenericIO_GGIO1_SPCSO1, LED1);
   ("beagleGenericIO/GGIO1.SPCSO2", iedModel_GenericIO_GGIO1_SPCSO2, LED2);
   ("beagleGenericIO/GGIO1.SPCSO3", iedModel_GenericIO_GGIO1_SPCSO3, LED3)]%string.

Lemma output_refs_resolve :
  Forall (λ p, control_type p.1.1 = Some MMS_BOOLEAN ∧ (tree_addr <$> ref_node p.1.1) = Some p.1.2)
    output_refs.
Proof. repeat (constructor; [split; vm_compute; reflexivity|]). constructor. Qed.

(** The status attribute of an output. *)
Definition status_of (p : string * addr * string) : addr :=
  default 1%positive (tree_addr <$> ref_node (p.1.1 ++ ".stVal")).

(** What happens to a status by a list of accesses. *)
Definition status_after (b : addr) (l : list access) (o : option attr_value) : option attr_value :=
  foldl (λ o y, attr_act b 0 y o) o l.

Lemma output_facts p v now :
  p ∈ output_refs →
  p.1.2 ∈ guarded ∧ is_Some (ref_node (p.1.1 ++ ".stVal")) ∧
  untimed (status_of p) ∧ status_of p ≠ iedModel_GenericIO_TIM_GAPC1_OpCntRs_stVal ∧
  let l := operation_accesses p.1.2 v false now in
  printed l = [SWITCH p.2 (Z.b2z (MmsValue_getBoolean v))] ∧
  ∀ q o, q ∈ output_refs →
    status_after (status_of q) l o =
      if decide (q = p) then Some (AvBoolean (MmsValue_getBoolean v)) else o.
Proof.
  intros Hp. unfold output_refs in Hp.
  repeat (apply elem_of_cons in Hp as [->|Hp]); [..|by apply elem_of_nil in Hp];
    (split; [apply (bool_decide_unpack _); vm_compute; exact I|]);
    (split; [apply (bool_decide_unpack _); vm_compute; exact I|]);
    (split; [apply (bool_decide_unpack _); vm_compute; exact I|]);
    (split; [apply (bool_decide_unpack _); vm_compute; exact I|]);
    (split; [vm_compute; reflexivity|]); intros q o Hq; unfold output_refs in Hq;
    repeat (apply elem_of_cons in Hq as [->|Hq]); try (by apply elem_of_nil in Hq); vm_compute; reflexivity.
Qed.

(** When the last commands go to LEDs with one value, that is what they got. *)
Lemma last_switch_all (v : Z) (led : string) (leds : list string) l :
  led ∈ leds → last_switch led (l ++ ((λ x, SWITCH x v) <$> leds)) = Some v.
Proof.
  induction leds as [|x leds IH] using rev_ind; intros Hin; [by apply elem_of_nil in Hin|].
  rewrite fmap_app, app_assoc. cbn [fmap list_fmap]. rewrite last_switch_snoc. case_decide; [done|].
  apply IH. apply elem_of_app in Hin as [|Hin]; [done|].
  apply list_elem_of_singleton in Hin. congruence.
Qed.

(** [con] may take control, or has it. *)
Definition mine (s : beagle) : Prop := controllingClient s = None ∨ controllingClient s = k.

(** The handler that is running comes to its end. *)
Lemma finish_spec `{!BeagleLibOk} (l : list access) s op x :
  server_ok s → iedServer s = Some x → length l = length (job s) →
  ∃ evs s' x', iterS l (λ _, s ← getS; job_step (clock s)) s = (Done tt, s') ∧
    trace s op evs s' op ∧ server_ok s' ∧ iedServer s' = Some x' ∧ job s' = [] ∧
    loc s' = loc s ∧ lock s' = lock s ∧ lines s' = lines s ++ printed (job s) ∧
    ∀ b, untimed b → b ≠ iedModel_GenericIO_TIM_GAPC1_OpCntRs_stVal →
      attributes x' !! b = status_after b (job s) (attributes x !! b).
Proof.
  revert s x. induction l as [|e l IH]; intros s x Hs Hx Hlen.
  { destruct (job s) eqn:Hj; [|done]. exists [], s, x. rewrite app_nil_r.
    split_and!; done || constructor. }
  destruct (job s) as [|y r] eqn:Hj; [done|].
  destruct (handle_job (clock s) s Hs ltac:(by rewrite Hj)) as (s1 & Hh & Ha).
  assert (job_step (clock s) s = (Done tt, s1)) as Hrun.
  { cbn [handle] in Hh. apply prog_bind_Done in Hh as ([] & s0 & Hop & Hret). by injection Hret as ->. }
  pose proof (after_ok _ _ _ _ Ha) as Hs1. pose proof (after_loc _ _ _ _ Ha) as Hloc. cbn [loc_after] in Hloc.
  assert (beagle_ok s x ∧ pc (loc s) ≠ LEnd) as [Hok Hpc] by (unfold server_ok in Hs; by rewrite Hx in Hs).
  assert (∃ x1, iedServer s1 = Some x1) as [x1 Hx1].
  { unfold server_ok in Hs1. destruct (iedServer s1); [by eexists|]. by rewrite Hloc in Hs1; destruct Hs1. }
  pose proof (after_job _ _ _ _ Ha) as Hj1. cbn [job_after] in Hj1. rewrite Hj in Hj1. cbn [tail] in Hj1.
  destruct (IH s1 x1 Hs1 Hx1) as (evs & s' & x' & Hrun' & Ht & Hs' & Hx' & Hj' & Hl' & Hk' & Hln & Hb);
    [rewrite Hj1; by injection Hlen|].
  exists ((EJob (clock s), ANone) :: evs), s', x'. split_and!; try done.
  - cbn [iterS]. erewrite prog_bind_eq by (erewrite prog_bind_eq by reflexivity; exact Hrun). exact Hrun'.
  - econstructor; [simpl; by rewrite Hj|exact Hh|exact Ht].
  - by rewrite Hl'.
  - rewrite Hk'. exact (after_lock _ _ _ _ Ha).
  - rewrite Hln, Hj1, (after_lines _ _ _ _ Ha). unfold event_lines. cbn [access_of]. rewrite Hj.
    by rewrite <- app_assoc.
  - intros b Hu Hne. rewrite Hb, Hj1 by done.
    rewrite (attr_after _ _ _ _ _ _ Ha Hok Hx Hx1 b Hu). cbn [acting]. rewrite Hj.
    unfold status_after. cbn [foldl hd_error fmap option_fmap option_map]. f_equal.
    destruct y; try done. cbn [attr_act]. by rewrite !decide_False.
Qed.

(** One request for an output from the connection that may have the control. *)
Lemma request_output `{!BeagleLibOk} p v s op x :
  server_ok s → serving s → iedServer s = Some x → con ∈ op → mode_ok s → mine s → p ∈ output_refs →
  ∃ evs s' x', request p.1.2 v s = (Done true, s') ∧ trace s op evs s' op ∧
    server_ok s' ∧ serving s' ∧ iedServer s' = Some x' ∧ lock s' = (false, k) ∧
    lines s' = lines s ++ [SWITCH p.2 (Z.b2z (MmsValue_getBoolean v))] ∧
    ∀ q, q ∈ output_refs → attributes x' !! status_of q =
      if decide (q = p) then Some (AvBoolean (MmsValue_getBoolean v)) else attributes x !! status_of q.
Proof.
  intros Hs Hv Hx Hcon Hmode Hm Hp.
  destruct (output_facts p v (clock s) Hp) as (Hg & _ & _ & _ & Hlines & Hst).
  destruct (serving_open s Hs Hv) as (x0 & Hx0 & Hok & Hj & _).
  destruct (handle_operate p.1.2 con k v false (clock s) s Hs Hv) as (ok & Hh & Ha).
  pose proof (after_answer _ _ _ _ Ha Hg) as [= Hpass]. pose proof (after_lock _ _ _ _ Ha) as Hlock.
  cbn [lock_after] in Hlock. rewrite decide_True in Hlock by done.
  assert (ok = true) as ->.
  { rewrite Hpass. unfold passes, checked. rewrite decide_True by done. cbn [negb andb].
    apply bool_decide_eq_true_2. destruct Hm as [Hc|Hc]; [by rewrite Hc|].
    destruct (controllingClient s) eqn:Hc'; [by rewrite Hc'|by rewrite <- Hc]. }
  cbv zeta in Hh, Ha. set (s0 := set_job _ _ _) in *. pose proof (after_ok _ _ _ _ Ha) as Hs0.
  destruct (checked_fields p.1.2 k s) as (Hxc & Hlc & Hlnc & _).
  assert (iedServer s0 = Some x) as Hx1 by (rewrite <- Hx; exact Hxc).
  assert (Hrun : operate p.1.2 k v false (clock s) s = (Done true, s0)).
  { cbn [handle] in Hh. apply prog_bind_Done in Hh as (b & s1 & Hop & Hret). by injection Hret as -> ->. }
  destruct (finish_spec (job s0) s0 op x Hs0 Hx1 eq_refl)
    as (evs & s' & x' & Hfin & Ht & Hs' & Hx' & Hj' & Hl' & Hk' & Hln & Hb).
  exists ((EOperate p.1.2 con k v false (clock s), AControl true) :: evs), s', x'.
  split; [|split; [|split; [done|split; [|split; [done|split; [|split]]]]]].
  - unfold request. erewrite prog_bind_eq by reflexivity. rewrite (prog_bind_eq _ _ _ _ _ Hrun).
    unfold finish_job. erewrite prog_bind_eq by (erewrite prog_bind_eq by reflexivity; exact Hfin). done.
  - econstructor; [by split|exact Hh|exact Ht].
  - unfold serving. rewrite Hx'. split; [|done]. unfold server_ok in Hs'. rewrite Hx' in Hs'.
    destruct Hs' as [Hok' _]. rewrite (ok_listening _ _ Hok'), Hl'. change (loc s0) with (loc (checked p.1.2 k s)).
    rewrite Hlc. unfold serving in Hv. rewrite Hx0 in Hv. rewrite <- (ok_listening _ _ Hok). apply Hv.
  - rewrite Hk', Hlock. unfold lock in *. cbn [snd] in *. destruct Hm as [Hc|Hc].
    + by rewrite Hc.
    + destruct (controllingClient s) eqn:Hc'; [|done]. rewrite Hmode by congruence. by rewrite Hc.
  - rewrite Hln. change (lines s0) with (lines (checked p.1.2 k s)). rewrite Hlnc. f_equal. exact Hlines.
  - intros q Hq. destruct (output_facts q v (clock s) Hq) as (_ & _ & Hu & Hne & _).
    rewrite Hb by done. apply (Hst q _ Hq).
Qed.

Definition ctl_of (s : beagle) : @ctl demo_mms beagle_ied :=
  {| ctl_net := (s : @ied_net demo_mms beagle_ied); ctl_objects := 0; ctl_sent := [] |}.

(** One iteration of the gateway's control request. *)
Lemma control_output ctlVal p (c : @ctl demo_mms beagle_ied) s' :
  p ∈ output_refs → request p.1.2 (encode (inl (ctl_is_true ctlVal))) (ctl_net c) = (Done true, s') →
  control_object (H0 := beagle_ied) ctlVal p.1.1 c =
    (Done tt, {| ctl_net := (s' : @ied_net demo_mms beagle_ied); ctl_objects := ctl_objects c;
                 ctl_sent := ctl_sent c ++ [(p.1.1, Some (inl (ctl_is_true ctlVal)))] |}).
Proof.
  intros Hp Hreq. pose proof output_refs_resolve as Hall. rewrite Forall_forall in Hall.
  destruct (Hall p Hp) as [Hty Haddr]. unfold control_object. cbn [ied_createControl beagle_ied].
  rewrite Hty. cbn [ctl_value ied_operate beagle_ied]. rewrite Haddr.
  by rewrite Hreq.
Qed.

(** The whole request, from a state that the connection may control. *)
Lemma control_outputs `{!BeagleLibOk} ctlVal ps op (c : @ctl demo_mms beagle_ied) x :
  (∀ b, MmsValue_getBoolean (encode (inl b)) = b) →
  server_ok (ctl_net c) → serving (ctl_net c) → iedServer (ctl_net c) = Some x → con ∈ op →
  mode_ok (ctl_net c) → mine (ctl_net c) → ps ⊆ output_refs →
  ∃ c' l x', controlObjects (H0 := beagle_ied) (ps.*1.*1) ctlVal c = (Done tt, c') ∧
    trace (ctl_net c) op l (ctl_net c') op ∧
    lines (ctl_net c') = lines (ctl_net c) ++
      ((λ x, SWITCH x (Z.b2z (ctl_is_true ctlVal))) <$> ps.*2) ∧
    iedServer (ctl_net c') = Some x' ∧ (ps ≠ [] → lock (ctl_net c') = (false, k)) ∧
    ∀ q, q ∈ output_refs → attributes x' !! status_of q =
      if decide (q ∈ ps) then Some (AvBoolean (ctl_is_true ctlVal)) else attributes x !! status_of q.
Proof.
  intros Henc. revert c x. induction ps as [|p ps IH]; intros c x Hs Hv Hx Hcon Hmode Hm Hps.
  { exists c, [], x. rewrite app_nil_r. split_and!; done || constructor. }
  destruct (request_output p (encode (inl (ctl_is_true ctlVal))) (ctl_net c) op x Hs Hv Hx Hcon Hmode Hm)
    as (evs & s1 & x1 & Hreq & Ht & Hs1 & Hv1 & Hx1 & Hl1 & Hlines1 & Hst1); [set_solver|].
  rewrite Henc in Hlines1. destruct (lock_pair _ _ _ Hl1) as [Hmode1 Hc1].
  pose proof (control_output ctlVal p c s1 ltac:(set_solver) Hreq) as Hrun.
  match type of Hrun with _ = (_, ?c1) =>
    destruct (IH c1 x1 Hs1 Hv1 Hx1 Hcon ltac:(by intros _) ltac:(by right) ltac:(set_solver))
      as (c' & l & x' & Hrun' & Ht' & Hlines' & Hx' & Hne' & Hst')
  end.
  exists c', (evs ++ l), x'.
  split; [cbn [fmap list_fmap]; unfold controlObjects in *; by rewrite (iterS_cons _ _ _ _ _ Hrun)|].
  split; [by eapply trace_app|]. split; [rewrite Hlines'; simpl; by rewrite Hlines1, <- app_assoc|].
  split; [done|]. split.
  - intros _. destruct ps; [|by apply Hne'].
    simpl in Hrun'. unfold controlObjects in Hrun'. simpl in Hrun'. by injection Hrun' as <-.
  - intros q Hq. rewrite Hst' by done. rewrite Hst1 by done. rewrite Henc.
    destruct (decide (q ∈ ps)) as [Hin|Hnin]; [by rewrite decide_True by (by right)|].
    destruct (decide (q = p)) as [->|Hne]; [by rewrite decide_True by (by left)|].
    rewrite decide_False; [done|]. by apply not_elem_of_cons.
Qed.
End Gateway.

(** C9: the gateway switches the LEDs, whatever the check handler finds as its
    connection, if that is the same [k] (its connection, or NULL) at each of its
    requests: in any reachable state of the demonstration server that takes
    requests and in which nobody, or [k], is in control, a control request of
    the gateway for single point outputs returns and, the main thread taking no
    step meanwhile, is itself a run of the server: each named output gets one
    command, in the order of the nodes, with the boolean that the text means;
    a client then reads that status; the mode is not automatic and [k] is in
    control. *)
Theorem gateway_switches_leds `{BeagleLib, !BeagleLibOk} (encode : bool + Z → ctl_val) con k clock
    now l s op ctlVal ps :
  (∀ b, MmsValue_getBoolean (encode (inl b)) = b) →
  trace (started now) ∅ l s op → serving s → con ∈ op →
  controllingClient s = None ∨ controllingClient s = k →
  ps ≠ [] → ps ⊆ output_refs →
  ∃ c' l' x, controlObjects (H0 := beagle_ied encode k clock) (ps.*1.*1) ctlVal
      (ctl_of encode k clock s) = (Done tt, c') ∧
    trace (started now) ∅ (l ++ l') (ctl_net c') op ∧
    lines (ctl_net c') = lines s ++ ((λ x, SWITCH x (Z.b2z (ctl_is_true ctlVal))) <$> ps.*2) ∧
    automaticOperationMode (ctl_net c') = false ∧ controllingClient (ctl_net c') = k ∧
    iedServer (ctl_net c') = Some x ∧
    Forall (λ p, last_switch p.2 (lines (ctl_net c')) = Some (Z.b2z (ctl_is_true ctlVal)) ∧
                 (∃ t, ref_node (p.1.1 ++ ".stVal") = Some t ∧
                       shown (attributes x) (tree_addr t) = Some (ctl_is_true ctlVal))) ps.
Proof.
  intros Henc Ht Hv Hcon Hc Hne Hps. destruct (reached_mode now l s op Ht) as [Hs Hmode].
  destruct (serving_open s Hs Hv) as (x0 & Hx0 & _).
  destruct (control_outputs encode con k clock ctlVal ps op (ctl_of encode k clock s) x0 Henc Hs Hv Hx0 Hcon
    Hmode Hc Hps) as (c' & l' & x & Hrun & Ht' & Hlines & Hx' & Hlock & Hst).
  pose proof (trace_app _ _ _ _ _ _ _ _ Ht Ht') as Hall.
  exists c', l', x. destruct (lock_pair _ _ _ (Hlock Hne)) as [Ha Hcl]. split_and!; try done.
  apply Forall_forall. intros p Hp. split.
  { rewrite Hlines. apply last_switch_all, list_elem_of_fmap. by exists p. }
  destruct (output_facts p (encode (inl true)) 0 (Hps p Hp)) as (_ & [t Hnode] & _). exists t.
  split; [done|]. specialize (Hst p (Hps p Hp)). rewrite decide_True in Hst by done.
  assert (status_of p = tree_addr t) as Hat by (unfold status_of; by rewrite Hnode).
  rewrite Hat in Hst. unfold shown. by rewrite Hst.
Qed.

(** ** Witnesses *)

Lemma client_session_witness :
  let _ := demo_mms in let _ := demo_ied MMS_BOOLEAN in
  let sel : SelectApi := {| ied_select _ w := (true, w) |} in
  let s : bclient := {| bc_net := (0%nat : @ied_net demo_mms (demo_ied MMS_BOOLEAN)); bc_connections := 0;
                        bc_connected := false; bc_controls := 0; bc_values := 0; bc_sent := [];
                        bc_lines := [] |} in
  ∃ looping s' k, client 2 "localhost" 102 s = (Done looping, s') ∧
    bc_sent s' = take k (session 2).
Proof.
  intros mms ied sel s.
  destruct (@client_session mms ied sel 2 "localhost" 102 s 1%nat)
    as (looping & s' & k & Hrun & Hs & _).
  - by exists true.
  - intros ref w. by exists MMS_BOOLEAN, (S w).
  - exists looping, s', k. split; [exact Hrun|exact Hs].
Defined.

(** Values of the demonstration library are the integers. *)
Definition demo_encode (v : bool + Z) : @ctl_val demo_beagle :=
  match v with inl b => Z.b2z b | inr z => z end.

(** A client is connected, the main thread has decided to toggle, and the check
    handler finds NULL. *)
Definition decided : list (@event demo_beagle * answer) :=
  [(@EConnection demo_beagle 1 true, ANone); (@EStep demo_beagle 1000, ANone)].

Lemma gateway_switches_leds_witness :
  let lib := demo_beagle in
  let ied := beagle_ied (H := lib) demo_encode None (λ _, 0) in
  ∃ s c', lines (ctl_net (H0 := ied) c' : beagle) = lines s ++ [SWITCH LED1 1; SWITCH LED3 1] ∧
    controlObjects (H0 := ied) ["beagleGenericIO/GGIO1.SPCSO1"; "beagleGenericIO/GGIO1.SPCSO3"]%string
      "true" (ctl_of (H := lib) demo_encode None (λ _, 0) s) = (Done tt, c').
Proof.
  intros lib ied.
  destruct (demo_run (λ s op, bool_decide (serving s) && bool_decide (1%nat ∈ op) &&
     bool_decide (controllingClient s = None)) decided)
    as (s & op & Ht & Hc); [vm_compute; reflexivity|].
  apply andb_true_iff in Hc as [[Hv%bool_decide_eq_true Hop%bool_decide_eq_true]%andb_true_iff
    Hn%bool_decide_eq_true]. exists s.
  destruct (@gateway_switches_leds lib demo_beagle_ok demo_encode 1 None (λ _, 0) 0 decided s op "true"
    [("beagleGenericIO/GGIO1.SPCSO1"%string, iedModel_GenericIO_GGIO1_SPCSO1, LED1);
     ("beagleGenericIO/GGIO1.SPCSO3"%string, iedModel_GenericIO_GGIO1_SPCSO3, LED3)])
    as (c' & l' & x & Hrun & _ & Hlines & _);
    [by intros []|exact Ht|assumption|assumption|by left|discriminate| |].
  - intros p Hp. unfold output_refs. apply elem_of_cons in Hp as [->|Hp]; [by left|].
    right. apply elem_of_cons in Hp as [->|Hp]; [by right; left|by apply elem_of_nil in Hp].
  - exists c'. split; [exact Hlines|exact Hrun].
Defined.
